(* ===== verification/_CoqProject ===== *)
-Q . S2P
Prelude.v
Memory.v
Buffers.v
BerDecode.v
BerEncode.v
BerInteger.v
IsoParams.v
ByteStream.v
Cotp.v
CotpFacts.v
CotpConnect.v
Session.v
Layer.v
SessionFacts.v
Presentation.v
PresentationFacts.v
Acse.v
AcseFacts.v
IsoConnections.v
IsoStack.v
IsoAssociate.v
MmsValue.v
MmsValueFacts.v
MmsTimeBits.v
AccessResult.v
GoosePublisher.v
GooseSubscriber.v
GooseFacts.v
GooseSafety.v
Effects.v
CString.v
MmsTypeSpec.v
Control.v
ControlFacts.v
ControlSafety.v
Iec61850Common.v
ReportBuffer.v
ReportControl.v
Reporting.v
ReportingAccess.v
ReportingFacts.v
ReportingInv.v
ReportTransmit.v
ReportingSafety.v
ValueStore.v
IedModel.v
MmsGoose.v
ServerState.v
MmsMapping.v
MappingModel.v
NameMapping.v
IedServer.v
SampleServer.v
MmsGooseFacts.v
MmsMappingFacts.v
ServerInv.v
MappingFacts.v
ServerCreate.v
ServerSafety.v
MmsPdu.v
MmsData.v
MmsService.v
MmsWriteService.v
MmsReadService.v
MmsNameList.v
MmsAttributes.v
Conversions.v
MmsFiles.v
MmsDispatch.v
SampleService.v
MmsClientServices.v
MmsClient.v
MmsReadFacts.v
MmsMediation.v
MmsFilesFacts.v
MmsDispatchFacts.v
MmsReports.v
MmsClientFacts.v
MmsClientFiles.v
MmsNameListFacts.v
