(* ===== verification/Prelude.v ===== *)
(** * libIEC61850: a verification development

    libIEC61850 is a C implementation of the communication services of IEC 61850:
    MMS over the ISO protocol stack, and GOOSE messages over Ethernet.  This library
    models the parts of the C code listed below function by function, and proves what
    they do.

    ** Conventions

    - A C function is a Coq function of the same name into [res] (this file): it
      returns ([Done]), runs into undefined behaviour ([Ub]: an access outside a
      block, a null pointer, a variable without a value), fails an [assert]
      ([AssertFailed]), or has not returned within the given number of loop
      iterations ([NoFuel]).
    - Integers are [Z]; the conversions [u8], [u16], [u32], [u64], [i32], [i64] stand
      where the C types wrap.  Characters and bytes are [Z] from 0 to 255.
    - A block of memory is the list of its bytes, a pointer ([Memory.ptr]) a block
      with an address in it.  Every read and write is checked against the size of the
      block.  Code that fills a buffer runs in the monad [Memory.W]; the class
      [Memory.Emits] states which bytes such code writes, and its instances are
      found by the tactic [emits_tac].
    - A structure that C code mutates is a record that is passed and returned.  A
      buffer chain is the list of its parts.
    - A loop whose bounds come from the wire takes fuel.  The theorems either give
      enough fuel (one step per byte or per TPDU: [CotpConnection_parse_total],
      [IsoSession_parseMessage_safe], [Goose_roundtrip]), or show that no amount is
      enough ([IsoPresentation_negative_length_hangs], [GooseSubscriber_hang]).
    - [malloc] does not fail; where the contents of a fresh block matter they are a
      parameter.  Floats are their IEEE octets (MmsValue.v) on a little-endian machine.
    - A socket is the list of the chunks it will deliver and the bytes written to it.
      A thread is modelled round by round; a critical section is one step.  Callbacks
      of the application (authenticator, message handler, listener) are parameters or
      fields of the state.

    ** Files

    - Prelude.v, Memory.v: results, machine integers, memory, encoders.
    - Buffers.v: [ByteBuffer] and [BufferChain] (common/byte_buffer.c, buffer_chain.c).
    - BerDecode.v, BerEncode.v, BerInteger.v: ASN.1 BER (mms/asn1/).
    - IsoParams.v: connection parameters (iso_common/iso_connection_parameters.c).
    - ByteStream.v: reading a socket (common/byte_stream.c, socket_linux.c).
    - Cotp.v: the transport protocol (iso_cotp/cotp.c), with its theorems in
      CotpFacts.v (data transfer) and CotpConnect.v (handshake, overflows, termination
      and bounds for any input).
    - Session.v, SessionFacts.v: iso_session/iso_session.c.
    - Layer.v: the interface that the client of a layer uses; what a layer does with
      the buffer chain of the layer above.
    - Presentation.v, PresentationFacts.v: iso_presentation/iso_presentation.c.
    - Acse.v, AcseFacts.v: association control (iso_acse/acse.c).
    - IsoConnections.v: the server's connection thread (iso_server/iso_connection.c) and
      the client's connection (iso_client_connection.c).
    - IsoStack.v, IsoAssociate.v: client and server composed over a
      network that delivers what is sent.
    - MmsValue.v: the values of MMS (iso_mms/common/mms_value.c), with
      MmsValueFacts.v and MmsTimeBits.v.
    - AccessResult.v: their encoding (iso_mms/server/mms_access_result.c).
    - GoosePublisher.v, GooseSubscriber.v: goose/goose_publisher.c and
      goose_subscriber.c, with GooseFacts.v and GooseSafety.v.
    - CString.v: null-terminated strings and the names made of parts with [$].
    - MmsTypeSpec.v: type descriptions, domains and their
      variables, maps and the value cache (iso_mms/common/mms_type_spec.c,
      iso_mms/server/mms_domain.c, mms_value_cache.c, common/map.c).
    - Control.v: the control model (iedserver/mms_mapping/control.c): the record of a
      control object, every service on it, and the thread of an operation, in a monad
      over the object and the list of the messages sent.  ControlFacts.v has the
      logic for that monad and the invariant, ControlSafety.v what is granted and
      refused.
    - Effects.v: the monad of state and events in which control and reporting are
      written, its rules for invariants ([keeps]), results ([triple]) and events
      ([sends]).
    - ReportBuffer.v, ReportControl.v, Reporting.v, ReportingAccess.v: report control
      blocks (iedserver/mms_mapping/reporting.c): the ring buffer, the record of a
      block, what it sends, and what clients and the server do with it.
      ReportBuffer.v shows that the ring buffer is a queue; ReportingFacts.v and
      ReportingInv.v have the invariant of a block and the blocks that can be reached;
      ReportTransmit.v says what is sent and what is enqueued;
      ReportingSafety.v has the theorems, and the behaviours that differ from what is
      meant.
    - Iec61850Common.v: functional constraints, quality, time stamps
      (iedcommon/iec61850_common.c).
    - IedModel.v: the data model and the searches through it (iedserver/model).
      MappingModel.v: the MMS model that is made of it (mms_mapping.c), with
      MappingFacts.v.  NameMapping.v: object
      references and MMS names.
    - ValueStore.v: the values of the server (mms_server.c,
      mms_value_cache.c) and the pointers into them: a pointer to a value is the name
      of the cache entry with the indices that lead to the component.
    - ServerState.v, MmsMapping.v: the state of the IED server and the
      code that connects it with the MMS server (mms_mapping.c): reads, writes,
      connections, triggers, the event thread.  MmsGoose.v: GOOSE control blocks
      (mms_goose.c).  IedServer.v: creation of a server, and the functions for the
      application (ied_server.c).  The event lists of the components are parts of the
      list of a server; time, platform and the answers of the application are a
      [World].
    - MmsGooseFacts.v, MmsMappingFacts.v: what the handlers change.
      ServerInv.v has the operations of a server and the invariant they keep,
      ServerCreate.v shows it of a new server and its MMS model, ServerSafety.v has the theorems.
      SampleServer.v is a small model and a server made of it, with
      a client and an application at work.
    - MmsPdu.v, MmsData.v: the decoded PDUs of the ASN.1 code
      (iso_mms/asn1c) as far as the services look at them, and values as their data
      (iso_mms/common/mms_common_msg.c).  The generated encoder and decoder are a
      parameter, [MmsService.AsnCodec].
    - MmsService.v: a connection of the MMS server, the monad of its services (the IED
      server, the files, the connection and the response), errors and rejects
      (mms_server_common.c, mms_server_connection.c).  The file system is the class
      [FileSystem].
    - MmsWriteService.v, MmsReadService.v, MmsNameList.v, MmsAttributes.v (with the
      lists of variables), MmsFiles.v, MmsReports.v: one service each
      (iso_mms/server/mms_write_service.c, mms_read_service.c,
      mms_get_namelist_service.c, mms_named_variable_list_service.c,
      mms_get_var_access_service.c with mms_identify_service.c and
      mms_status_service.c, mms_file_service.c, mms_information_report.c).
      Conversions.v: generalized times (common/conversions.c).
    - MmsDispatch.v: initiate, conclude and the loop over a confirmed request
      (mms_association_service.c, mms_server_connection.c), the message handler that
      the transport calls, and connections that open and close (mms_server.c).
    - SampleService.v: files in memory and an association with the sample server.
      MmsReadFacts.v (with the lemmas on responses), MmsFilesFacts.v,
      MmsDispatchFacts.v and MmsReports.v have the theorems of one service each,
      MmsMediation.v those on all messages and on writes.
    - MmsClientServices.v: what the MMS client sends, and how it reads the answers
      (iso_mms/client/mms_client_files.c, mms_client_identify.c, mms_client_status.c,
      mms_client_read.c, mms_client_write.c, mms_client_initiate.c,
      mms_client_get_namelist.c, mms_client_get_var_access.c,
      mms_client_named_variable_list.c).
    - MmsClient.v: the connection of the client (mms_client_connection.c).  Threads of
      the application and the thread of the ISO connection share it; [Caller] and
      [Receiver] are the places where they are, and [perform] runs a step of one of
      them up to the next place where another may come in between.  MmsClientFacts.v
      has the invariant over all interleavings without time-outs and its consequences,
      MmsClientFiles.v puts the client together with the services of the server, for
      files; MmsNameListFacts.v for the names and the types of variables, behind the
      theorem on the pages of names that the server makes.
    ** What the theorems show

    - End to end: an association is set up from the first byte
      ([IsoStack_association]), and a request reaches the server's handler and its
      answer the client byte for byte ([IsoStack_request_response]); a published data
      set reaches a subscriber ([Goose_roundtrip]).
    - Round trips of every layer: TPDUs and their segmentation, session connect,
      presentation connect and user data, association request and response, BER
      integers, times and bit strings.
    - Safety: no association without the authenticator's consent
      ([AcseConnection_authenticated]) except through the answer PDU
      ([AcseConnection_response_bypasses_authenticator]); session parsing reads only
      the receive buffer; a GOOSE packet is announced only if it is addressed.
    - Values: copying, comparing, updating, measuring and encoding agree with each
      other.
    - Errors: where the code does not keep what it means to, a theorem states exactly
      when (overflows of the TPDU and GOOSE buffers, negative lengths, values that
      come back changed).
    - Control: the invariant of a control object over every sequence of services,
      time and threads ([object_inv]); operations are started only for
      the client that may ([Control_operate_authorised]); a selection is exclusive;
      the messages of an operation ([controlOperateThread_direct]); time activated
      operations; and where the control model fails to do this.
    - Reporting: the ring buffer refines a bounded queue ([ReportBuffer_refines_queue]);
      a block stays consistent ([report_control_consistent]); what is enqueued is what
      is sent ([buffered_report_roundtrip]), in every history of a block only to the
      client that enabled it ([reports_go_to_client]), and in the end, if it fits the
      local storage ([waiting_reports_are_sent]); the content of unbuffered reports ([sendReport_content]); an enabled block cannot be changed
      ([enabled_block_protected]).
    - The server as a whole: for every state that is reached from a model by any
      sequence of reads, writes to variables and to elements of arrays, updates,
      connections, events, lists of variables and threads ([server_reachable]), values have
      the types that the server announces ([server_values_typed]) and the blocks and
      control objects their invariants ([server_components_consistent]); values change
      only where access is allowed ([write_access], for writes to whole variables), and
      what was written is read if the name has an attribute that it fits
      ([write_then_read]); updates are reported ([update_is_reported]); a connection
      that ends gives its blocks back ([closed_connection_releases_reports]); and no
      GOOSE message is ever published by such a server ([goose_never_published]), a
      fault of the code.  The model of an MMS device mirrors the data model
      ([mapping_mirrors_model]), and names are translated there and back
      ([reference_roundtrip]).
    - The MMS services: no message changes the server but through reads, the write
      handler, elements of cached arrays and dynamic lists ([message_touches_server]);
      what is read, transferred, listed and negotiated
      ([read_request_answered], [file_transfer], [name_list_complete],
      [initiate_negotiates], [MmsData_roundtrip], [generalizedTime_roundtrip]); and
      where the services fail ([array_element_write_unchecked],
      [information_report_size], [confirmed_request_endless]).
    - The MMS client: calls get their own answers ([client_gets_its_answer]) and free
      the receiver ([client_frees_the_receiver]) however the threads interleave, as
      long as no call times out; a file of the server, the names of a domain and the
      type of a variable arrive through client and server ([client_reads_file],
      [client_lists_names], [client_learns_type]); a time-out mixes the answers
      of the other calls up ([timeout_mixes_answers]),
      and one message stops the client ([zero_invoke_id_stops_the_client]).

    ** Not modelled

    - The encoder and decoder that asn1c generates (iso_mms/asn1c): the services are
      modelled over any such codec; what it does to the octets of values on their way is
      [transmit] (MmsData.v).  Operating system calls below sockets, semaphores
      and the class of file systems; debug output; destructors that only free memory.
    - Of the MMS client abort and the destructors; the IEC 61850 client, listening for
      connections (iso_server.c), and the constructors of dynamic models.  The manifest
      names every component with the reason.
    - A model of a server has plain, different names for the logical nodes of a device
      ([device_wf]); a write to a report control block names an attribute of it
      ([writable]), as the MMS services look the name up first. *)
From stdpp Require Import base tactics list numbers option.

#[global] Open Scope Z_scope.

(** * Outcomes of a C function *)

(** The result of running a piece of C code: it returns a value, runs into
    undefined behaviour (an access outside the allocated block, a null
    dereference, an oversized shift, the use of an indeterminate variable),
    stops in a failed [assert], or has not returned within the given number of
    loop iterations. *)
Inductive res (A : Type) : Type :=
| Done (a : A)
| Ub
| AssertFailed
| NoFuel.
Arguments Done {A} a.
Arguments Ub {A}.
Arguments AssertFailed {A}.
Arguments NoFuel {A}.

Definition rbind {A B : Type} (m : res A) (k : A -> res B) : res B :=
  match m with
  | Done a => k a
  | Ub => Ub
  | AssertFailed => AssertFailed
  | NoFuel => NoFuel
  end.

Declare Scope c_scope.
Delimit Scope c_scope with c.
#[global] Open Scope c_scope.

Notation "'let!' x := m 'in' k" := (rbind m (fun x => k))
  (at level 10, x pattern, m at level 100, k at level 200,
   format "'[v' 'let!'  x  :=  m  'in' '/' k ']'") : c_scope.

(** Reading a variable that may hold no value yet. *)
Definition defined {A : Type} (o : option A) : res A :=
  match o with Some a => Done a | None => Ub end.

(** * Machine integers *)

Definition u8 (z : Z) : Z := z mod 2 ^ 8.
Definition u16 (z : Z) : Z := z mod 2 ^ 16.
Definition u32 (z : Z) : Z := z mod 2 ^ 32.
Definition u64 (z : Z) : Z := z mod 2 ^ 64.

(** Two's complement reading of the low [w] bits. *)
Definition swrap (w z : Z) : Z := (z + 2 ^ (w - 1)) mod 2 ^ w - 2 ^ (w - 1).
Definition i32 (z : Z) : Z := swrap 32 z.
Definition i64 (z : Z) : Z := swrap 64 z.

Definition is_byte (z : Z) : Prop := 0 <= z < 256.
Definition bytes (l : list Z) : Prop := Forall is_byte l.

#[global] Arguments u8 : simpl never.
#[global] Arguments u16 : simpl never.
#[global] Arguments u32 : simpl never.
#[global] Arguments i32 : simpl never.

Lemma u8_small z : 0 <= z < 256 -> u8 z = z.
Proof. intros. unfold u8. apply Z.mod_small. lia. Qed.

Lemma u16_small z : 0 <= z < 65536 -> u16 z = z.
Proof. intros. unfold u16. apply Z.mod_small. lia. Qed.

Lemma u32_small z : 0 <= z < 4294967296 -> u32 z = z.
Proof. intros. unfold u32. apply Z.mod_small. lia. Qed.

Lemma i32_small z : -2147483648 <= z < 2147483648 -> i32 z = z.
Proof.
  intros. unfold i32, swrap. change (2 ^ (32 - 1)) with 2147483648.
  change (2 ^ 32) with 4294967296. rewrite Z.mod_small; lia.
Qed.

Lemma i32_range z : -2147483648 <= i32 z < 2147483648.
Proof.
  unfold i32, swrap. change (2 ^ (32 - 1)) with 2147483648.
  change (2 ^ 32) with 4294967296.
  pose proof (Z.mod_pos_bound (z + 2147483648) 4294967296). lia.
Qed.

Lemma u8_byte z : is_byte (u8 z).
Proof. unfold u8, is_byte. pose proof (Z.mod_pos_bound z (2 ^ 8)). lia. Qed.

(** ** Lists of bytes *)

Create HintDb bytes.

Lemma bytes_nil : bytes [].
Proof. constructor. Qed.

Lemma bytes_app a b : bytes (a ++ b) <-> bytes a /\ bytes b.
Proof. apply Forall_app. Qed.

Lemma bytes_cons b l : bytes (b :: l) <-> is_byte b /\ bytes l.
Proof. split; [apply Forall_cons_1|intros [H1 H2]; by constructor]. Qed.

#[export] Hint Resolve bytes_nil u8_byte : bytes.

(** Prove that a list is made of bytes. *)
Ltac bytes_tac :=
  rewrite ?bytes_app, ?bytes_cons;
  repeat match goal with |- _ /\ _ => split end;
  eauto with bytes; try (unfold is_byte; lia).

Lemma u8_idemp z : u8 (u8 z) = u8 z.
Proof. unfold u8. by rewrite Z.mod_mod. Qed.

Lemma u16_range z : 0 <= u16 z < 65536.
Proof. unfold u16. pose proof (Z.mod_pos_bound z (2 ^ 16)). lia. Qed.

Lemma u32_range z : 0 <= u32 z < 4294967296.
Proof. unfold u32. pose proof (Z.mod_pos_bound z (2 ^ 32)). lia. Qed.

(** * Lists measured in [Z] *)

Definition zlen {A : Type} (l : list A) : Z := Z.of_nat (length l).

Lemma zlen_nil {A} : zlen (@nil A) = 0.
Proof. reflexivity. Qed.

Lemma zlen_cons {A} (x : A) l : zlen (x :: l) = 1 + zlen l.
Proof. unfold zlen. rewrite length_cons. lia. Qed.

Lemma zlen_app {A} (l k : list A) : zlen (l ++ k) = zlen l + zlen k.
Proof. unfold zlen. rewrite length_app. lia. Qed.

Lemma zlen_nonneg {A} (l : list A) : 0 <= zlen l.
Proof. unfold zlen. lia. Qed.

Lemma zlen_insert {A} (l : list A) i x : zlen (<[i:=x]> l) = zlen l.
Proof. unfold zlen. by rewrite length_insert. Qed.

Lemma rev_reverse {A} (l : list A) : rev l = reverse l.
Proof. apply rev_alt. Qed.

Create Rewrite HintDb zlen.
#[export] Hint Rewrite @zlen_nil @zlen_cons @zlen_app @zlen_insert : zlen.

(** Linear arithmetic over list lengths. *)
Ltac zlen_pose :=
  repeat match goal with
  | |- context [zlen ?l] =>
      lazymatch goal with H : 0 <= zlen l |- _ => fail | _ => pose proof (zlen_nonneg l) end
  | H : context [zlen ?l] |- _ =>
      lazymatch goal with H : 0 <= zlen l |- _ => fail | _ => pose proof (zlen_nonneg l) end
  end.
Ltac zl := autorewrite with zlen in *; zlen_pose; lia.

(** * [mapM] of the results of a C function *)

Section Each.
Context {A B : Type} (f : A -> res B).
Fixpoint each_res (l : list A) : res (list B) :=
  match l with
  | [] => Done []
  | x :: l => let! y := f x in let! ys := each_res l in Done (y :: ys)
  end.

Lemma each_res_length l ys : each_res l = Done ys -> length ys = length l.
Proof.
  revert ys. induction l as [|x l IH]; intros ys; simpl; [by intros [= <-]|].
  destruct (f x); try done. simpl. destruct (each_res l) as [zs| | |] eqn:E; try done. intros [= <-]. simpl. by rewrite (IH zs).
Qed.

Lemma each_res_Forall2 l ys : each_res l = Done ys -> Forall2 (fun x y => f x = Done y) l ys.
Proof.
  revert ys. induction l as [|x l IH]; intros ys; simpl; [by intros [= <-]; constructor|].
  destruct (f x) eqn:Ex; try done. simpl. destruct (each_res l) as [zs| | |] eqn:E; try done. intros [= <-].
  constructor; [done|by apply IH].
Qed.

Lemma Forall2_each_res l ys : Forall2 (fun x y => f x = Done y) l ys -> each_res l = Done ys.
Proof. induction 1 as [|x y l ys H _ IH]; simpl; [done|]. rewrite H. simpl. by rewrite IH. Qed.
End Each.

(** * Two-byte fields *)

(** A 16-bit value in network order. *)
Definition word_bytes (v : Z) : list Z := [u8 (Z.quot v 0x100); u8 (Z.land v 0xff)].

Lemma zlen_word_bytes v : zlen (word_bytes v) = 2.
Proof. reflexivity. Qed.
#[export] Hint Rewrite zlen_word_bytes : zlen.

Lemma word16 len : 0 <= len < 65536 -> u8 (Z.quot len 0x100) * 0x100 + u8 (Z.land len 0xff) = len.
Proof.
  intros Hl. change 0xff with (Z.ones 8). rewrite Z.land_ones by lia. change (2 ^ 8) with 256.
  rewrite Z.quot_div_nonneg by lia. pose proof (Z.div_mod len 256 ltac:(lia)).
  pose proof (Z.mod_pos_bound len 256 ltac:(lia)).
  rewrite !u8_small by lia. lia.
Qed.

(** * Loops

    A C loop body either goes on with a new state or leaves the function with
    a value.  [while] runs a loop for at most [fuel] iterations. *)
Inductive ctl (S R : Type) : Type :=
| Next (s : S)
| Ret (r : R).
Arguments Next {S R} s.
Arguments Ret {S R} r.

Section While.
Context {S R : Type} (cond : S -> bool) (body : S -> res (ctl S R)).

Fixpoint while (fuel : nat) (s : S) : res (ctl S R) :=
  if cond s then
    match fuel with
    | O => NoFuel
    | Datatypes.S n =>
        let! c := body s in
        match c with
        | Next s' => while n s'
        | Ret r => Done (Ret r)
        end
    end
  else Done (Next s).

Lemma while_false fuel s : cond s = false -> while fuel s = Done (Next s).
Proof. intros H. destruct fuel; simpl; by rewrite H. Qed.

Lemma while_next fuel s s' :
  cond s = true -> body s = Done (Next s') ->
  while (Datatypes.S fuel) s = while fuel s'.
Proof. intros H Hb. simpl. by rewrite H, Hb. Qed.

Lemma while_ret fuel s r :
  cond s = true -> body s = Done (Ret r) ->
  while (Datatypes.S fuel) s = Done (Ret r).
Proof. intros H Hb. simpl. by rewrite H, Hb. Qed.

Lemma while_ub fuel s :
  cond s = true -> body s = Ub -> while (Datatypes.S fuel) s = Ub.
Proof. intros H Hb. simpl. by rewrite H, Hb. Qed.

(** More fuel never changes a result that has been reached. *)
Lemma while_mono fuel fuel' s :
  (fuel <= fuel')%nat -> while fuel s <> NoFuel -> while fuel' s = while fuel s.
Proof.
  revert fuel' s. induction fuel as [|n IH]; intros fuel' s Hle; simpl.
  - destruct (cond s) eqn:E; [done|]. intros _. by apply while_false.
  - destruct fuel' as [|n']; [lia|]. simpl. destruct (cond s); [|done].
    destruct (body s) as [[s'|r]| | |]; simpl; try done.
    apply IH. lia.
Qed.

(** A loop whose body stays inside an invariant and decreases a measure ends
    with the invariant or by leaving; it runs into undefined behaviour only
    where its body does ([U]). *)
Lemma while_total (I : S -> Prop) (Q : R -> Prop) (U : Prop) (mu : S -> Z) fuel s :
  I s -> (mu s <= Z.of_nat fuel) ->
  (forall s, I s -> cond s = true -> 0 < mu s) ->
  (forall s, I s -> cond s = true ->
     match body s with
     | Done (Next s') => I s' /\ mu s' < mu s
     | Done (Ret r) => Q r
     | Ub => U
     | _ => False
     end) ->
  match while fuel s with
  | Done (Next s') => I s' /\ cond s' = false
  | Done (Ret r) => Q r
  | Ub => U
  | _ => False
  end.
Proof.
  intros HI Hmu Hpos Hbody. revert s HI Hmu.
  induction fuel as [|n IH]; intros s HI Hmu; simpl;
    destruct (cond s) eqn:E; try done.
  - specialize (Hpos s HI E). lia.
  - specialize (Hbody s HI E). destruct (body s) as [[s'|r]| | |]; simpl; try done.
    destruct Hbody as [HI' Hlt]. apply IH; [done|lia].
Qed.

(** What every round preserves holds behind the loop. *)
Lemma while_inv (I : S -> Prop) fuel s s' :
  (forall x y, I x -> body x = Done (Next y) -> I y) ->
  I s -> while fuel s = Done (Next s') -> I s'.
Proof.
  intros Hb. revert s. induction fuel as [|n IH]; intros s HI; simpl; destruct (cond s); try done;
    try (by intros [= ->]).
  destruct (body s) as [[y|r]| | |] eqn:E; simpl; try done.
  apply IH. by eapply Hb.
Qed.

(** [n] rounds lead from [s] to [s']. *)
Definition runs (n : nat) (s s' : S) : Prop :=
  forall f, while (n + f) s = while f s'.

Lemma runs_refl s : runs 0 s s.
Proof. by intros f. Qed.

Lemma runs_step s s' : cond s = true -> body s = Done (Next s') -> runs 1 s s'.
Proof. intros H Hb f. by apply while_next. Qed.

Lemma runs_trans n k s s' s'' : runs n s s' -> runs k s' s'' -> runs (n + k) s s''.
Proof. intros H1 H2 f. by rewrite <- Nat.add_assoc, H1. Qed.

Lemma runs_while n fuel s s' :
  runs n s s' -> cond s' = false -> (n <= fuel)%nat -> while fuel s = Done (Next s').
Proof.
  intros H Hc Hf. replace fuel with (n + (fuel - n))%nat by lia. rewrite H.
  by apply while_false.
Qed.

(** A state the body leads back to itself is never left. *)
Lemma while_cycle s fuel :
  cond s = true -> body s = Done (Next s) -> while fuel s = NoFuel.
Proof.
  intros H Hb. induction fuel as [|n IH]; simpl; rewrite H; [done|].
  by rewrite Hb.
Qed.
End While.

(** Case analysis on the boolean comparisons of a goal. *)
Ltac zcase :=
  match goal with
  | |- context [Z.ltb ?a ?b] => destruct (Z.ltb_spec a b)
  | |- context [Z.leb ?a ?b] => destruct (Z.leb_spec a b)
  | |- context [Z.eqb ?a ?b] => destruct (Z.eqb_spec a b)
  end.

(** Resolve a comparison whose truth follows by arithmetic. *)
Ltac zdec :=
  repeat match goal with
  | |- context [Z.ltb ?a ?b] =>
      first [ rewrite (proj2 (Z.ltb_lt a b)) by zl
            | rewrite (proj2 (Z.ltb_ge a b)) by zl ]
  | |- context [Z.leb ?a ?b] =>
      first [ rewrite (proj2 (Z.leb_le a b)) by zl
            | rewrite (proj2 (Z.leb_gt a b)) by zl ]
  | |- context [Z.eqb ?a ?b] =>
      first [ rewrite (proj2 (Z.eqb_eq a b)) by zl
            | rewrite (proj2 (Z.eqb_neq a b)) by zl ]
  end.

(** Close a goal about concrete data by evaluating it. *)
Ltac by_eval := vm_compute; repeat first [discriminate | reflexivity | split | constructor].
