(* ===== verification/Memory.v ===== *)
(** Memory blocks: checked reads and writes, the monad of code that writes one
    block, and the predicates that say which bytes such code emits and which
    bytes lie behind a pointer. *)
From stdpp Require Import base tactics list numbers option.
From S2P Require Import Prelude.

(** * Loads and stores on one block *)

Definition ld (m : list Z) (a : Z) : res Z :=
  if a <? 0 then Ub else defined (m !! Z.to_nat a).

Definition st (m : list Z) (a v : Z) : res (list Z) :=
  if (a <? 0) || (zlen m <=? a) then Ub else Done (<[Z.to_nat a := u8 v]> m).

(** The bytes [bs] copied over the block at address [a]. *)
Definition splice (m : list Z) (a : Z) (bs : list Z) : list Z :=
  take (Z.to_nat a) m ++ bs ++ drop (Z.to_nat a + length bs) m.

(** The [n] bytes at address [a]. *)
Definition slice (m : list Z) (a n : Z) : list Z :=
  take (Z.to_nat n) (drop (Z.to_nat a) m).

Lemma ld_lookup m a b : 0 <= a -> m !! Z.to_nat a = Some b -> ld m a = Done b.
Proof. intros Ha H. unfold ld. zdec. by rewrite H. Qed.

Lemma st_in m a v : 0 <= a < zlen m -> st m a v = Done (<[Z.to_nat a := u8 v]> m).
Proof. intros H. unfold st. by zdec. Qed.

Lemma st_out m a v : zlen m <= a -> st m a v = Ub.
Proof. intros H. unfold st. zdec. by rewrite orb_true_r. Qed.

Lemma splice_nil m a : splice m a [] = m.
Proof. unfold splice. simpl. rewrite Nat.add_0_r. apply take_drop. Qed.

Lemma zlen_splice m a bs :
  0 <= a -> a + zlen bs <= zlen m -> zlen (splice m a bs) = zlen m.
Proof.
  intros. unfold splice. rewrite !zlen_app. unfold zlen in *.
  rewrite length_take, length_drop. lia.
Qed.

Lemma splice_app m a x y :
  0 <= a -> a + zlen x + zlen y <= zlen m ->
  splice (splice m a x) (a + zlen x) y = splice m a (x ++ y).
Proof.
  intros Ha Hl. unfold splice at 1 3. unfold zlen in *.
  assert (length (take (Z.to_nat a) m ++ x) = Z.to_nat (a + Z.of_nat (length x))) as E.
  { rewrite length_app, length_take. lia. }
  unfold splice. rewrite !(app_assoc (take (Z.to_nat a) m) x).
  rewrite take_app_length' by done. rewrite <- !app_assoc. do 3 f_equal.
  rewrite !app_assoc. rewrite drop_app_ge by (rewrite E; lia).
  rewrite E, drop_drop, length_app. f_equal. lia.
Qed.

Lemma splice_one m a v :
  0 <= a < zlen m -> splice m a [v] = <[Z.to_nat a := v]> m.
Proof.
  intros H. unfold splice, zlen in *. rewrite insert_take_drop by lia.
  simpl. do 3 f_equal. lia.
Qed.

Lemma splice_fill m a v bs :
  0 <= a -> a + 1 + zlen bs <= zlen m ->
  <[Z.to_nat a := v]> (splice m (a + 1) bs) = splice m a (v :: bs).
Proof.
  intros Ha Hl. unfold splice, zlen in *.
  rewrite insert_app_l by (rewrite length_take; lia).
  replace (Z.to_nat (a + 1)) with (S (Z.to_nat a)) by lia.
  destruct (lookup_lt_is_Some_2 m (Z.to_nat a)) as [w Hw]; [lia|].
  rewrite (take_S_r _ _ _ Hw), insert_app_r_alt by (rewrite length_take; lia).
  rewrite length_take. replace (Z.to_nat a - _)%nat with 0%nat by lia. simpl.
  rewrite <- app_assoc. simpl. by rewrite <- Nat.add_succ_r.
Qed.

Lemma splice_lookup m a bs i :
  0 <= a -> a + zlen bs <= zlen m -> (i < length bs)%nat ->
  splice m a bs !! (Z.to_nat a + i)%nat = bs !! i.
Proof.
  intros Ha Hl Hi. unfold splice, zlen in *.
  rewrite lookup_app_r by (rewrite length_take; lia).
  rewrite length_take, lookup_app_l by lia. f_equal. lia.
Qed.

Lemma splice_lookup_out m a bs i :
  0 <= a -> a + zlen bs <= zlen m -> (i < Z.to_nat a \/ Z.to_nat a + length bs <= i)%nat ->
  splice m a bs !! i = m !! i.
Proof.
  intros Ha Hl Hi. unfold splice, zlen in *.
  destruct (decide (i < Z.to_nat a)%nat).
  - rewrite lookup_app_l by (rewrite length_take; lia). rewrite lookup_take.
    rewrite decide_True by lia. done.
  - rewrite lookup_app_r by (rewrite length_take; lia). rewrite length_take.
    rewrite lookup_app_r by lia. rewrite lookup_drop. f_equal. lia.
Qed.

Lemma slice_splice m a bs :
  0 <= a -> a + zlen bs <= zlen m -> slice (splice m a bs) a (zlen bs) = bs.
Proof.
  intros Ha Hl. apply list_eq. intros i. unfold slice.
  rewrite lookup_take, lookup_drop. unfold zlen. rewrite Nat2Z.id.
  case_decide; [by apply splice_lookup|].
  symmetry. apply lookup_ge_None. lia.
Qed.

Lemma slice_app m a n k :
  0 <= a -> 0 <= n -> 0 <= k -> slice m a (n + k) = slice m a n ++ slice m (a + n) k.
Proof.
  intros. unfold slice. rewrite !Z2Nat.inj_add by lia.
  rewrite <- (drop_drop m (Z.to_nat n)). symmetry. apply take_take_drop.
Qed.

Lemma zlen_slice m a n :
  0 <= a -> 0 <= n -> a + n <= zlen m -> zlen (slice m a n) = n.
Proof.
  intros. unfold slice, zlen in *. rewrite length_take, length_drop. lia.
Qed.

(** * Code that writes one block *)

Definition W (A : Type) : Type := list Z -> res (A * list Z).

Definition wret {A} (a : A) : W A := fun m => Done (a, m).

Definition wbind {A B} (c : W A) (k : A -> W B) : W B :=
  fun m => let! (a, m') := c m in k a m'.

Notation "'let*' x := c 'in' k" := (wbind c (fun x => k))
  (at level 10, x pattern, c at level 100, k at level 200,
   format "'[v' 'let*'  x  :=  c  'in' '/' k ']'") : c_scope.

(** [buffer[bufPos++] = v] *)
Definition put (v : Z) (buffer bufPos : Z) : W Z :=
  fun m => let! m' := st m (buffer + bufPos) v in Done (bufPos + 1, m').

(** [buffer[i] = v] *)
Definition poke (v : Z) (buffer i : Z) : W unit :=
  fun m => let! m' := st m (buffer + i) v in Done (tt, m').

(** [buffer[i]] read back from the block that is being written. *)
Definition peek (buffer i : Z) : W Z :=
  fun m => let! v := ld m (buffer + i) in Done (v, m).

(** A copy of [bs] to [buffer + bufPos], byte by byte: [memcpy] and the copy
    loops of the encoders.  The result is the position behind the last byte. *)
Fixpoint put_list (bs : list Z) (buffer bufPos : Z) : W Z :=
  match bs with
  | [] => wret bufPos
  | b :: bs => let* bufPos := put b buffer bufPos in put_list bs buffer bufPos
  end.

(** ** What an encoder emits

    [Emits buffer pos c a bs]: started with [bufPos = pos], the code [c]
    returns [a] and has written exactly the bytes [bs] at [buffer + pos], if
    they fit into the block; otherwise it writes outside the block. *)
Class Emits {A : Type} (buffer pos : Z) (c : W A) (a : A) (bs : list Z) : Prop :=
  emits : forall m, 0 <= buffer + pos <= zlen m ->
    c m = if buffer + pos + zlen bs <=? zlen m
          then Done (a, splice m (buffer + pos) bs) else Ub.

Lemma emits_fit {A} buffer pos (c : W A) a bs m :
  Emits buffer pos c a bs -> 0 <= buffer + pos ->
  buffer + pos + zlen bs <= zlen m ->
  c m = Done (a, splice m (buffer + pos) bs).
Proof. intros H Hp Hl. rewrite H by zl. by zdec. Qed.

(** The same for code that starts at the front of its buffer. *)
Lemma emits_fit0 {A} buffer (c : W A) a bs m :
  Emits buffer 0 c a bs -> 0 <= buffer -> buffer + zlen bs <= zlen m ->
  c m = Done (a, splice m buffer bs).
Proof. intros H Hp Hl. rewrite <- (Z.add_0_r buffer) at 1. apply emits_fit; [done|lia|lia]. Qed.

Lemma emits_overflow {A} buffer pos (c : W A) a bs m :
  Emits buffer pos c a bs -> 0 <= buffer + pos <= zlen m ->
  zlen m < buffer + pos + zlen bs -> c m = Ub.
Proof. intros H Hp Hl. rewrite H by zl. by zdec. Qed.

Lemma emits_eq {A} buffer pos (c : W A) a a' bs bs' :
  Emits buffer pos c a bs -> a = a' -> bs = bs' -> Emits buffer pos c a' bs'.
Proof. by intros ? -> ->. Qed.

#[export] Instance emits_ret {A} buffer pos (a : A) : Emits buffer pos (wret a) a [].
Proof. intros m H. rewrite zlen_nil, splice_nil. by zdec. Qed.

Lemma emits_bind {A B} buffer pos pos' (c : W A) (k : A -> W B) a b xs ys :
  Emits buffer pos c a xs ->
  Emits buffer pos' (k a) b ys ->
  pos' = pos + zlen xs ->
  Emits buffer pos (wbind c k) b (xs ++ ys).
Proof.
  intros Hc Hk -> m Hm. unfold wbind. rewrite Hc by done. rewrite zlen_app.
  destruct (Z.leb_spec (buffer + pos + zlen xs) (zlen m)); simpl.
  - rewrite Hk by (rewrite zlen_splice by zl; zl).
    rewrite zlen_splice by zl. rewrite Z.add_assoc.
    destruct (Z.leb_spec (buffer + pos + zlen xs + zlen ys) (zlen m)); zdec; [|done].
    rewrite splice_app by zl. done.
  - by zdec.
Qed.

#[export] Instance emits_put v buffer pos :
  Emits buffer pos (put v buffer pos) (pos + 1) [u8 v].
Proof.
  intros m Hm. unfold put. rewrite zlen_cons, zlen_nil.
  destruct (Z.leb_spec (buffer + pos + (1 + 0)) (zlen m)).
  - rewrite st_in by lia. simpl. by rewrite splice_one by lia.
  - rewrite st_out by lia. done.
Qed.

#[export] Instance emits_put_list bs buffer pos :
  bytes bs -> Emits buffer pos (put_list bs buffer pos) (pos + zlen bs) bs.
Proof.
  intros Hb. revert pos. induction Hb as [|b bs Hb Hbs IH]; intros pos; simpl.
  - eapply emits_eq; [apply emits_ret|rewrite zlen_nil; lia|done].
  - eapply emits_eq; [eapply emits_bind; [apply emits_put|apply IH|done]| |].
    + rewrite zlen_cons. lia.
    + simpl. by rewrite u8_small.
Qed.

(** One byte left out at [pos] and filled in once the bytes behind it are
    written: the length octets of the session headers. *)
Lemma backpatch_fit {A B} buffer pos (c : W A) (v : A -> Z) (r : A -> B) a bs m :
  Emits buffer (pos + 1) c a bs ->
  0 <= buffer + pos -> buffer + pos + 1 + zlen bs <= zlen m ->
  (let* x := c in let* _ := poke (v x) buffer pos in wret (r x)) m
  = Done (r a, splice m (buffer + pos) (u8 (v a) :: bs)).
Proof.
  intros Hc Hp Hl. unfold wbind. rewrite (emits_fit _ _ _ _ _ _ Hc) by zl. simpl.
  unfold poke, wret. rewrite Z.add_assoc.
  rewrite st_in by (rewrite zlen_splice by zl; zl). simpl. by rewrite splice_fill by zl.
Qed.

(** Symbolic execution of an encoder: leaves are found as instances, positions
    compared by arithmetic. *)
Ltac emits_run :=
  lazymatch goal with
  | |- Emits _ _ (wbind _ _) _ _ =>
      eapply emits_bind; [emits_run | cbv beta; emits_run | first [zl | reflexivity]]
  | |- Emits _ _ (wret _) _ _ => apply emits_ret
  | |- Emits _ _ (put_list _ _ _) _ _ => apply emits_put_list; first [assumption | by_eval]
  | |- Emits _ _ _ _ _ => typeclasses eauto
  end.
Ltac emits_tac :=
  eapply emits_eq;
  [ emits_run | try zl
  | rewrite <- ?app_assoc; cbn [app]; rewrite ?app_nil_r, ?u8_idemp; try done ].

(** * Reading through pointers *)

(** A pointer into a block: the bytes of the block and the address. *)
Record ptr := mk_ptr { p_mem : list Z; p_base : Z }.

Definition ptr_add (p : ptr) (n : Z) : ptr := mk_ptr (p_mem p) (p_base p + n).

(** [p[i]] *)
Definition rd (p : ptr) (i : Z) : res Z := ld (p_mem p) (p_base p + i).

(** [n] bytes read from [p + pos], the source of a [memcpy] or a [memcmp]. *)
Definition rd_list (p : ptr) (pos n : Z) : res (list Z) :=
  if n =? 0 then Done [] else
  if (n <? 0) || (p_base p + pos <? 0) || (zlen (p_mem p) <? p_base p + pos + n)
  then Ub else Done (slice (p_mem p) (p_base p + pos) n).

(** [n] bytes copied to [buf + a]: the destination of a [memcpy]. *)
Definition st_list (m : list Z) (a : Z) (bs : list Z) : res (list Z) :=
  if zlen bs =? 0 then Done m else
  if (a <? 0) || (zlen m <? a + zlen bs) then Ub else Done (splice m a bs).

(** The bytes [bs] lie at [p + pos]. *)
Definition holds (p : ptr) (pos : Z) (bs : list Z) : Prop :=
  0 <= p_base p + pos /\ p_base p + pos + zlen bs <= zlen (p_mem p) /\
  slice (p_mem p) (p_base p + pos) (zlen bs) = bs.

Lemma rd_add p n i : rd (ptr_add p n) i = rd p (n + i).
Proof. unfold rd, ptr_add. simpl. f_equal. lia. Qed.

Lemma rd_neg p i : p_base p + i < 0 -> rd p i = Ub.
Proof. intros H. unfold rd, ld. by zdec. Qed.

Lemma holds_lookup p pos bs i :
  holds p pos bs -> (i < length bs)%nat ->
  p_mem p !! Z.to_nat (p_base p + pos + Z.of_nat i) = bs !! i.
Proof.
  intros (Hb & Hl & Hs) Hi. rewrite <- Hs at 1. unfold slice, zlen in *.
  rewrite lookup_take, lookup_drop, Nat2Z.id, decide_True by lia. f_equal. lia.
Qed.

Lemma holds_app p pos xs ys :
  holds p pos (xs ++ ys) <-> holds p pos xs /\ holds p (pos + zlen xs) ys.
Proof.
  unfold holds. rewrite zlen_app.
  pose proof (zlen_nonneg xs). pose proof (zlen_nonneg ys). split.
  - intros (Ha & Hl & Hs). rewrite slice_app in Hs by lia.
    apply app_inj_1 in Hs as [Hx Hy].
    + rewrite Z.add_assoc. repeat split; try done; lia.
    + pose proof (zlen_slice (p_mem p) (p_base p + pos) (zlen xs)). unfold zlen in *. lia.
  - intros ((Ha & Hl & Hx) & (Hb & Hm & Hy)). rewrite slice_app by lia.
    rewrite Hx. rewrite Z.add_assoc in Hy. rewrite Hy. repeat split; try done; lia.
Qed.

Lemma holds_cons p pos b bs :
  holds p pos (b :: bs) <-> rd p pos = Done b /\ holds p (pos + 1) bs.
Proof.
  change (b :: bs) with ([b] ++ bs). rewrite holds_app. change (zlen [b]) with 1.
  split; intros [H1 H2]; split; try done.
  - unfold rd. destruct H1 as (Ha & Hl & Hs) eqn:E. apply ld_lookup; [done|].
    pose proof (holds_lookup p pos [b] 0 H1) as Hk. rewrite Z.add_0_r in Hk. apply Hk.
    simpl. lia.
  - destruct H2 as (Ha & Hl & Hs). unfold rd, ld in H1.
    destruct (Z.ltb_spec (p_base p + pos) 0); [done|].
    destruct (p_mem p !! Z.to_nat (p_base p + pos)) eqn:E; [|done]. simpl in H1.
    simplify_eq. pose proof (lookup_lt_Some _ _ _ E) as Hlt.
    unfold holds, zlen in *. simpl. repeat split; try lia.
    unfold slice. change (Z.to_nat (Z.of_nat 1)) with 1%nat.
    by rewrite (drop_S _ _ _ E).
Qed.

Lemma holds_slice p pos bs :
  holds p pos bs -> slice (p_mem p) (p_base p + pos) (zlen bs) = bs.
Proof. by intros (_ & _ & ?). Qed.

Lemma holds_rd_list p pos bs n :
  holds p pos bs -> n = zlen bs -> rd_list p pos n = Done bs.
Proof.
  intros (H1 & H2 & H3) ->. unfold rd_list. destruct (Z.eqb_spec (zlen bs) 0) as [E|E].
  - by destruct bs; [|rewrite zlen_cons in E; zl].
  - zdec. simpl. by rewrite H3.
Qed.

Lemma holds_ptr_add p n pos bs : holds (ptr_add p n) pos bs <-> holds p (n + pos) bs.
Proof. unfold holds, ptr_add. simpl. by rewrite Z.add_assoc. Qed.

Lemma holds_splice m a bs :
  0 <= a -> a + zlen bs <= zlen m -> holds (mk_ptr (splice m a bs) a) 0 bs.
Proof.
  intros. unfold holds. simpl. rewrite Z.add_0_r, zlen_splice by done.
  repeat split; try lia. by apply slice_splice.
Qed.

Lemma holds_whole bs : holds (mk_ptr bs 0) 0 bs.
Proof.
  unfold holds, slice. simpl. repeat split; try zl.
  unfold zlen. rewrite Nat2Z.id. apply firstn_all.
Qed.

(** Take a [holds] hypothesis apart into one reading equation per known byte. *)
Ltac holds_split :=
  repeat match goal with
  | H : holds _ _ (_ ++ _) |- _ => apply holds_app in H as [? H]
  | H : holds _ _ (_ :: _) |- _ => apply holds_cons in H as [? H]
  end.

(** Resolve the readings of a goal by the reading equations in the context,
    positions being compared by arithmetic. *)
Ltac use_reads :=
  repeat (match goal with
  | |- context [rd ?p ?e] =>
      match goal with
      | H : rd p ?e' = Done _ |- _ =>
          first [ rewrite H | replace (rd p e) with (rd p e') by (f_equal; lia); rewrite H ]
      end
  end; cbn [rbind negb Z.eqb Pos.eqb]).
