(* ===== verification/Buffers.v ===== *)
(** Byte buffers and buffer chains: src/common/byte_buffer.c and
    src/common/buffer_chain.c. *)
From stdpp Require Import base tactics list numbers option.
From S2P Require Import Prelude Memory.

(** * ByteBuffer

    A [ByteBuffer] describes a part of a block; [bb_buffer = None] is the null
    pointer. *)
Record ByteBuffer := mkByteBuffer {
  bb_buffer : option ptr;
  bb_maxSize : Z;
  bb_size : Z }.

Definition ByteBuffer_null : ByteBuffer := mkByteBuffer None 0 0.

Definition ByteBuffer_create (maxSize : Z) : ByteBuffer :=
  mkByteBuffer (Some (mk_ptr (replicate (Z.to_nat maxSize) 0) 0)) maxSize 0.

Definition ByteBuffer_wrap (buf : option ptr) (size maxSize : Z) : ByteBuffer :=
  mkByteBuffer buf maxSize size.

(** Copy [bs] to [self->buffer + at]. *)
Definition bb_store (self : ByteBuffer) (at_ : Z) (bs : list Z) : res ByteBuffer :=
  let! p := defined (bb_buffer self) in
  let! m := st_list (p_mem p) (p_base p + at_) bs in
  Done (mkByteBuffer (Some (mk_ptr m (p_base p))) (bb_maxSize self) (bb_size self)).

Definition bb_set_size (self : ByteBuffer) (size : Z) : ByteBuffer :=
  mkByteBuffer (bb_buffer self) (bb_maxSize self) size.

Definition ByteBuffer_append (self : ByteBuffer) (data : ptr) (dataSize : Z)
  : res (Z * ByteBuffer) :=
  if i32 (bb_size self + dataSize) <=? bb_maxSize self then
    let! bs := rd_list data 0 dataSize in
    let! self := bb_store self (bb_size self) bs in
    Done (dataSize, bb_set_size self (bb_size self + dataSize))
  else Done (-1, self).

Definition ByteBuffer_appendByte (self : ByteBuffer) (byte : Z)
  : res (Z * ByteBuffer) :=
  if bb_size self <? bb_maxSize self then
    let! self := bb_store self (bb_size self) [u8 byte] in
    Done (1, bb_set_size self (bb_size self + 1))
  else Done (0, self).

Definition ByteBuffer_getBuffer (self : ByteBuffer) : option ptr := bb_buffer self.
Definition ByteBuffer_getMaxSize (self : ByteBuffer) : Z := bb_maxSize self.
Definition ByteBuffer_getSize (self : ByteBuffer) : Z := bb_size self.

Definition ByteBuffer_setSize (self : ByteBuffer) (size : Z) : Z * ByteBuffer :=
  let self := if size <=? bb_maxSize self then bb_set_size self size else self in
  (bb_size self, self).

(** The bytes a buffer holds. *)
Definition bb_bytes (self : ByteBuffer) : list Z :=
  match bb_buffer self with
  | Some p => slice (p_mem p) (p_base p) (bb_size self)
  | None => []
  end.

(** A buffer whose [maxSize] bytes are inside its block and which is not filled
    beyond them. *)
Definition bb_wf (self : ByteBuffer) : Prop :=
  0 <= bb_size self <= bb_maxSize self /\ bb_maxSize self < 2 ^ 30 /\
  exists p, bb_buffer self = Some p /\ 0 <= p_base p /\
    p_base p + bb_maxSize self <= zlen (p_mem p).

(** * BufferChain

    A chain is the list of its parts, a null [nextPart] the empty list.  The
    bytes of a part lie at an address of the block that is being written (the
    send buffer) or behind a pointer to another block. *)
Inductive bref := InBlock (a : Z) | Extern (p : ptr).

Record bpart := mkPart {
  bp_length : Z;
  bp_partLength : Z;
  bp_partMaxLength : Z;
  bp_buffer : bref }.

Abbreviation BufferChain := (list bpart).

Definition bref_ptr (send : list Z) (r : bref) : ptr :=
  match r with InBlock a => mk_ptr send a | Extern p => p end.

(** [payload->length] *)
Definition chain_length (c : BufferChain) : res Z :=
  match c with part :: _ => Done (bp_length part) | [] => Ub end.

(** [writeBuffer->buffer], an address of the block that is written. *)
Definition part_addr (part : bpart) : res Z :=
  match bp_buffer part with InBlock a => Done a | Extern _ => Ub end.

Definition BufferChain_init (length partLength : Z) (nextPart : BufferChain)
    (buffer : bref) : BufferChain :=
  mkPart length partLength partLength buffer :: nextPart.

(** The header part built by the layers: [writeBuffer] with its new lengths in
    front of [nextPart]. *)
Definition part_link (writeBuffer : bpart) (buffer : bref) (partLength length : Z)
    (nextPart : BufferChain) : BufferChain :=
  mkPart length partLength (bp_partMaxLength writeBuffer) buffer :: nextPart.

Definition part_bytes (send : list Z) (part : bpart) : list Z :=
  let p := bref_ptr send (bp_buffer part) in
  slice (p_mem p) (p_base p) (bp_partLength part).

Definition chain_bytes (send : list Z) (c : BufferChain) : list Z :=
  concat (part_bytes send <$> c).

(** A chain whose parts are readable and whose [length] fields count the bytes
    from each part to the end. *)
Fixpoint chain_ok (send : list Z) (c : BufferChain) : Prop :=
  match c with
  | [] => True
  | part :: rest =>
      let p := bref_ptr send (bp_buffer part) in
      0 <= p_base p /\ 0 <= bp_partLength part /\
      p_base p + bp_partLength part <= zlen (p_mem p) /\
      bp_length part = bp_partLength part + zlen (chain_bytes send rest) /\
      chain_ok send rest
  end.

(** The loop of [BufferChain_dumpToBuffer]: in every round the bytes of [self],
    not those of [currentChain], are copied. *)
Fixpoint dump_rounds (src : list Z) (currentChain : BufferChain)
    (buffer currentBufferIndex : Z) : W Z :=
  match currentChain with
  | [] => wret currentBufferIndex
  | _ :: nextPart =>
      let* currentBufferIndex := put_list src buffer currentBufferIndex in
      dump_rounds src nextPart buffer currentBufferIndex
  end.

Definition BufferChain_dumpToBuffer (send : list Z) (self : BufferChain)
    (buffer bufferMaxSize : Z) : W Z :=
  match self with
  | [] => fun _ => Ub
  | part :: _ =>
      if bufferMaxSize <? bp_length part then wret 0
      else fun m =>
        let n := if bp_partLength part <? 0 then 0 else bp_partLength part in
        let! src := rd_list (bref_ptr send (bp_buffer part)) 0 n in
        dump_rounds src self buffer 0 m
  end.

(** * MemoryArea *)
Record MemoryArea := mkMemoryArea {
  ma_memory : ptr;
  ma_size : Z;
  ma_currentPos : Z }.

Definition MemoryArea_initialize (memory : ptr) (size : Z) : MemoryArea :=
  mkMemoryArea memory size 0.

Definition MemoryArea_getNextBlock (self : MemoryArea) (size : Z)
  : option ptr * MemoryArea :=
  if size <=? ma_size self - ma_currentPos self then
    (Some (ptr_add (ma_memory self) (ma_currentPos self)),
     mkMemoryArea (ma_memory self) (ma_size self) (ma_currentPos self + size))
  else (None, self).

(** * Properties *)

Lemma chain_bytes_cons send part rest :
  chain_bytes send (part :: rest) = part_bytes send part ++ chain_bytes send rest.
Proof. done. Qed.

Lemma chain_length_ok send part rest :
  chain_ok send (part :: rest) -> bp_length part = zlen (chain_bytes send (part :: rest)).
Proof.
  intros (Hb & Hp & Hl & Hlen & _). unfold chain_bytes. simpl. rewrite zlen_app.
  unfold part_bytes at 1. rewrite zlen_slice by done. done.
Qed.

Lemma bb_store_wf self at_ bs self' :
  bb_wf self -> 0 <= at_ -> at_ + zlen bs <= bb_maxSize self ->
  bb_store self at_ bs = Done self' ->
  bb_size self' = bb_size self /\ bb_maxSize self' = bb_maxSize self /\ bb_wf self'.
Proof.
  intros (Hs & Hm & p & Hp & Hb & Hl) Ha Hfit. unfold bb_store, st_list. rewrite Hp. simpl.
  destruct (Z.eqb_spec (zlen bs) 0) as [E|E]; simpl.
  - intros [= <-]. unfold bb_wf. simpl. repeat split; try lia.
    exists (mk_ptr (p_mem p) (p_base p)). done.
  - zdec. simpl. intros [= <-]. unfold bb_wf. simpl. repeat split; try lia.
    eexists. split; [done|]. simpl. rewrite zlen_splice; lia.
Qed.

Lemma bb_store_in self at_ bs p :
  bb_buffer self = Some p -> 0 <= p_base p + at_ ->
  p_base p + at_ + zlen bs <= zlen (p_mem p) ->
  bb_store self at_ bs
  = Done (mkByteBuffer (Some (mk_ptr (splice (p_mem p) (p_base p + at_) bs) (p_base p)))
            (bb_maxSize self) (bb_size self)).
Proof.
  intros Hp Ha Hl. unfold bb_store, st_list. rewrite Hp. simpl.
  destruct (Z.eqb_spec (zlen bs) 0) as [E|E]; simpl.
  - destruct bs; [|rewrite zlen_cons in E; zl]. by rewrite splice_nil.
  - by zdec.
Qed.

(** Appending to a well-formed buffer adds exactly the bytes or reports -1 and
    leaves the buffer alone; it never writes outside. *)
Lemma ByteBuffer_append_spec self data dataSize bs :
  bb_wf self -> holds data 0 bs -> dataSize = zlen bs -> dataSize < 2 ^ 30 ->
  exists r self', ByteBuffer_append self data dataSize = Done (r, self') /\ bb_wf self' /\
    (if bb_size self + dataSize <=? bb_maxSize self
     then r = dataSize /\ bb_bytes self' = bb_bytes self ++ bs
     else r = -1 /\ self' = self).
Proof.
  intros Hwf Hd -> Hn. pose proof Hwf as (Hs & Hm & p & Hp & Hb & Hl).
  pose proof (zlen_nonneg bs). change (2 ^ 30) with 1073741824 in *.
  unfold ByteBuffer_append. rewrite i32_small by lia. zcase; [|by exists (-1), self].
  rewrite (holds_rd_list data 0 bs) by done. simpl.
  rewrite (bb_store_in _ _ _ p) by (try done; lia). simpl.
  eexists _, _. split; [done|]. split.
  - unfold bb_wf. simpl. repeat split; try lia. eexists. split; [done|]. simpl.
    rewrite zlen_splice; lia.
  - split; [done|]. unfold bb_bytes, bb_set_size. simpl. rewrite Hp.
    rewrite slice_app, slice_splice by lia. f_equal. apply list_eq. intros i.
    unfold slice. rewrite !lookup_take, !lookup_drop. case_decide; [|done].
    apply splice_lookup_out; lia.
Qed.
