(* ===== verification/BerDecode.v ===== *)
(** BER decoding primitives: src/mms/asn1/ber_decode.c. *)
From stdpp Require Import base tactics list numbers option.
From S2P Require Import Prelude Memory.

(** * Operations *)

(** The loop over the octets of a long-form length; [*length] is a signed
    32-bit [int], so four and more octets wrap around. *)
Fixpoint decodeLength_loop (lenLength : nat) (buffer : ptr)
    (length bufPos maxBufPos : Z) : res (Z * option Z) :=
  match lenLength with
  | O => Done (bufPos, Some length)
  | S n =>
      if maxBufPos <=? bufPos then Done (-1, Some length) else
      let length := i32 (Z.shiftl length 8) in
      let! b := rd buffer bufPos in
      let length := i32 (length + b) in
      decodeLength_loop n buffer length (bufPos + 1) maxBufPos
  end.

(** The returned position and [*length], whose value before the call is the
    argument [length]. *)
Definition BerDecoder_decodeLength (buffer : ptr) (length : option Z)
    (bufPos maxBufPos : Z) : res (Z * option Z) :=
  if maxBufPos <=? bufPos then Done (-1, length) else
  let! len1 := rd buffer bufPos in
  let bufPos := bufPos + 1 in
  if negb (Z.land len1 0x80 =? 0) then
    let lenLength := Z.land len1 0x7f in
    if lenLength =? 0 then Done (bufPos, Some (-1))
    else decodeLength_loop (Z.to_nat lenLength) buffer 0 bufPos maxBufPos
  else Done (bufPos, Some len1).

Fixpoint decodeUint32_loop (n : nat) (buffer : ptr) (value i bufPos : Z) : res Z :=
  match n with
  | O => Done value
  | S n =>
      let value := u32 (Z.shiftl value 8) in
      let! b := rd buffer (bufPos + i) in
      decodeUint32_loop n buffer (u32 (value + b)) (i + 1) bufPos
  end.

Definition BerDecoder_decodeUint32 (buffer : ptr) (intlen bufPos : Z) : res Z :=
  decodeUint32_loop (Z.to_nat intlen) buffer 0 0 bufPos.

(** The characters of the new string and its terminating null byte. *)
Definition BerDecoder_decodeString (buffer : ptr) (strlen bufPos maxBufPos : Z)
  : res (list Z) :=
  let! string := rd_list buffer bufPos strlen in
  Done (string ++ [0]).

(** The [n] bytes of a float or double as they lie in memory on a
    little-endian machine: the loop fills [valueBuf] from its last element. *)
Fixpoint decodeFloat_loop (n : nat) (buffer : ptr) (valueBuf : list Z) (bufPos : Z)
  : res (list Z) :=
  match n with
  | O => Done valueBuf
  | S n =>
      let! b := rd buffer bufPos in
      decodeFloat_loop n buffer (b :: valueBuf) (bufPos + 1)
  end.

Definition BerDecoder_decodeFloat (buffer : ptr) (bufPos : Z) : res (list Z) :=
  let bufPos := bufPos + 1 in (* skip exponentWidth field *)
  decodeFloat_loop 4 buffer [] bufPos.

Definition BerDecoder_decodeDouble (buffer : ptr) (bufPos : Z) : res (list Z) :=
  let bufPos := bufPos + 1 in (* skip exponentWidth field *)
  decodeFloat_loop 8 buffer [] bufPos.

Definition BerDecoder_decodeBoolean (buffer : ptr) (bufPos : Z) : res bool :=
  let! b := rd buffer bufPos in
  Done (negb (b =? 0)).

(** * Values of big-endian octets *)

Definition be_val (l : list Z) : Z := fold_left (fun a b => a * 256 + b) l 0.

(** Two's complement value of big-endian octets. *)
Definition be_sval (l : list Z) : Z :=
  match l with
  | [] => 0
  | b :: _ => if b <? 128 then be_val l else be_val l - 256 ^ zlen l
  end.

Lemma be_val_acc l a : fold_left (fun a b => a * 256 + b) l a = a * 256 ^ zlen l + be_val l.
Proof.
  revert a. induction l as [|b l IH]; intros a; unfold be_val; cbn [fold_left].
  - rewrite zlen_nil. lia.
  - rewrite IH, (IH (0 * 256 + b)), zlen_cons, Z.pow_add_r by zl. lia.
Qed.

Lemma be_val_cons b l : be_val (b :: l) = b * 256 ^ zlen l + be_val l.
Proof. unfold be_val at 1. cbn [fold_left]. by rewrite be_val_acc. Qed.

Lemma be_val_snoc l b : be_val (l ++ [b]) = be_val l * 256 + b.
Proof. unfold be_val. by rewrite fold_left_app. Qed.

Lemma be_val_bound l : bytes l -> 0 <= be_val l < 256 ^ zlen l.
Proof.
  induction 1 as [|b l Hb Hl IH]; [by unfold be_val|].
  rewrite be_val_cons, zlen_cons, Z.pow_add_r by zl. unfold is_byte in *. nia.
Qed.

(** * Properties *)

Lemma byte_high b : is_byte b -> (Z.land b 0x80 =? 0) = (b <? 128).
Proof.
  intros [H0 H1]. assert (b = Z.of_nat (Z.to_nat b)) as -> by lia.
  assert (Z.to_nat b < 256)%nat as Hb by lia. revert Hb. generalize (Z.to_nat b). clear.
  intros n Hn. do 256 (destruct n as [|n]; [reflexivity|]). lia.
Qed.

Lemma byte_low7 b : Z.land b 0x7f = b mod 128.
Proof. change 0x7f with (Z.ones 7). by rewrite Z.land_ones. Qed.

Lemma rd_byte p i b : bytes (p_mem p) -> rd p i = Done b -> is_byte b.
Proof.
  intros Hm. unfold rd, ld. destruct (_ <? 0); [done|].
  destruct (p_mem p !! _) eqn:E; [|done]. simpl. intros [= ->].
  by eapply Forall_lookup_1.
Qed.

Lemma rd_in p i : 0 <= p_base p + i < zlen (p_mem p) -> exists b, rd p i = Done b.
Proof.
  intros H. unfold rd, ld. zdec. unfold zlen in *.
  destruct (lookup_lt_is_Some_2 (p_mem p) (Z.to_nat (p_base p + i))) as [b Hb]; [lia|].
  exists b. by rewrite Hb.
Qed.

Lemma decodeLength_loop_ok n buffer length bufPos maxBufPos :
  0 <= bufPos -> 0 <= p_base buffer -> p_base buffer + maxBufPos <= zlen (p_mem buffer) ->
  exists bufPos' length', decodeLength_loop n buffer length bufPos maxBufPos
    = Done (bufPos', Some length') /\
    (bufPos' = -1 \/ bufPos' = bufPos + Z.of_nat n /\ (0 < Z.of_nat n -> bufPos' <= maxBufPos)) /\
    (length' = length \/ -2147483648 <= length' < 2147483648).
Proof.
  intros Hp Hb Hl. revert length bufPos Hp. induction n as [|n IH]; intros len bufPos Hp; simpl.
  - eexists _, _. split; [done|]. split; [right; lia|by left].
  - zcase; [eexists _, _; split; [done|]; split; by left|].
    destruct (rd_in buffer bufPos) as [b ->]; [lia|]. simpl.
    destruct (IH (i32 (i32 (Z.shiftl len 8) + b)) (bufPos + 1)) as (p' & l' & -> & Hpos & Hlen);
      [lia|].
    eexists _, _. split; [done|]. split.
    + destruct Hpos as [->|[-> ?]]; [by left|]. right. lia.
    + right. destruct Hlen as [->|?]; [apply i32_range|done].
Qed.

(** Whatever the bytes, decoding a length inside the bounds reads no byte
    outside them and either reports -1 or moves forward, not past the end. *)
Lemma decodeLength_ok buffer length bufPos maxBufPos :
  bytes (p_mem buffer) -> 0 <= bufPos -> 0 <= p_base buffer ->
  p_base buffer + maxBufPos <= zlen (p_mem buffer) ->
  exists bufPos' length', BerDecoder_decodeLength buffer length bufPos maxBufPos
    = Done (bufPos', length') /\
    (bufPos' = -1 \/ bufPos < bufPos' <= maxBufPos /\
       exists n, length' = Some n /\ -2147483648 <= n < 2147483648).
Proof.
  intros Hm Hp Hb Hl. unfold BerDecoder_decodeLength.
  zcase; [eexists _, _; split; [done|]; by left|].
  destruct (rd_in buffer bufPos) as [b Hrd]; [lia|]. rewrite Hrd. simpl.
  pose proof (rd_byte _ _ _ Hm Hrd) as Hbyte. rewrite byte_high by done.
  destruct (Z.ltb_spec b 128); simpl.
  - eexists _, _. split; [done|]. right. unfold is_byte in *. split; [lia|]. eexists.
    split; [done|lia].
  - rewrite byte_low7. pose proof (Z.mod_pos_bound b 128). zcase.
    + eexists _, _. split; [done|]. right. split; [lia|]. eexists. split; [done|lia].
    + destruct (decodeLength_loop_ok (Z.to_nat (b mod 128)) buffer 0 (bufPos + 1) maxBufPos)
        as (p' & l' & -> & Hpos & Hlen); [lia|done|done|].
      eexists _, _. split; [done|]. destruct Hpos as [->|[-> ?]]; [by left|].
      right. split; [lia|]. eexists. split; [done|]. lia.
Qed.

Lemma decodeUint32_loop_holds bs buffer value i bufPos :
  holds buffer (bufPos + i) bs ->
  decodeUint32_loop (length bs) buffer value i bufPos
  = Done (match bs with [] => value | _ => u32 (value * 256 ^ zlen bs + be_val bs) end).
Proof.
  revert value i. induction bs as [|b bs IH]; intros value i Hh; [done|].
  simpl. apply holds_cons in Hh as [-> Hh]. simpl.
  rewrite IH by (by rewrite Z.add_assoc). f_equal. unfold u32.
  rewrite Z.shiftl_mul_pow2 by lia. rewrite Zplus_mod_idemp_l.
  rewrite be_val_cons, zlen_cons, Z.pow_add_r by zl.
  destruct bs as [|c bs].
  - rewrite zlen_nil. unfold be_val. simpl. f_equal. lia.
  - rewrite <- Zplus_mod_idemp_l, Zmult_mod_idemp_l, Zplus_mod_idemp_l. f_equal. lia.
Qed.

Lemma decodeUint32_holds bs buffer bufPos n :
  holds buffer bufPos bs -> n = zlen bs ->
  BerDecoder_decodeUint32 buffer n bufPos = Done (u32 (be_val bs)).
Proof.
  intros Hh ->. unfold BerDecoder_decodeUint32, zlen. rewrite Nat2Z.id.
  rewrite decodeUint32_loop_holds by (by rewrite Z.add_0_r). by destruct bs.
Qed.
