(* ===== verification/BerEncode.v ===== *)
(** BER encoding primitives: src/mms/asn1/asn1_ber_primitive_value.c and
    src/mms/asn1/ber_encoder.c, for a little-endian machine
    (ORDER_LITTLE_ENDIAN = 1). *)
From stdpp Require Import base tactics list numbers option.
From S2P Require Import Prelude Memory BerDecode.

(** * Asn1PrimitiveValue *)

Record Asn1PrimitiveValue := mkAsn1 {
  a_size : Z;            (* uint8_t *)
  a_maxSize : Z;         (* uint8_t *)
  a_octets : list Z }.   (* the allocated octets *)

Definition Asn1PrimitiveValue_create (size : Z) : Asn1PrimitiveValue :=
  mkAsn1 (u8 size) (u8 size) (replicate (Z.to_nat size) 0).

Definition Asn1PrimitiveValue_clone (self : Asn1PrimitiveValue) : res Asn1PrimitiveValue :=
  let! octets := rd_list (mk_ptr (a_octets self) 0) 0 (a_maxSize self) in
  Done (mkAsn1 (a_size self) (a_maxSize self) octets).

Definition Asn1PrimitivaValue_compare (self otherValue : Asn1PrimitiveValue) : res bool :=
  if a_size self =? a_size otherValue then
    let! x := rd_list (mk_ptr (a_octets self) 0) 0 (a_size self) in
    let! y := rd_list (mk_ptr (a_octets otherValue) 0) 0 (a_size self) in
    Done (bool_decide (x = y))
  else Done false.

Definition Asn1PrimitiveValue_getSize (self : Asn1PrimitiveValue) : Z := a_size self.
Definition Asn1PrimitiveValue_getMaxSize (self : Asn1PrimitiveValue) : Z := a_maxSize self.

(** * Integers in memory *)

(** The [n] bytes of an integer object on a little-endian machine. *)
Fixpoint le_bytes (n : nat) (value : Z) : list Z :=
  match n with
  | O => []
  | S n => u8 value :: le_bytes n (value / 256)
  end.

(** * Encoders *)

Definition BerEncoder_encodeLength (length : Z) (buffer bufPos : Z) : W Z :=
  if length <? 128 then put (u8 length) buffer bufPos
  else if length <? 256 then
    let* bufPos := put 0x81 buffer bufPos in
    put (u8 length) buffer bufPos
  else
    let* bufPos := put 0x82 buffer bufPos in
    let* bufPos := put (length / 256) buffer bufPos in
    put (length mod 256) buffer bufPos.

(** [length] is a [uint32_t]: an [int] argument is converted. *)
Definition BerEncoder_encodeTL (tag length : Z) (buffer bufPos : Z) : W Z :=
  let* bufPos := put tag buffer bufPos in
  BerEncoder_encodeLength (u32 length) buffer bufPos.

Definition BerEncoder_encodeBoolean (tag : Z) (value : bool) (buffer bufPos : Z) : W Z :=
  let* bufPos := put tag buffer bufPos in
  let* bufPos := put 1 buffer bufPos in
  if value then put 0xff buffer bufPos else put 0x00 buffer bufPos.

(** A C string is the list of its characters before the null byte. *)
Definition BerEncoder_encodeStringWithTag (tag : Z) (string : option (list Z))
    (buffer bufPos : Z) : W Z :=
  let* bufPos := put tag buffer bufPos in
  match string with
  | Some string =>
      let length := zlen string in
      let* bufPos := BerEncoder_encodeLength (u32 length) buffer bufPos in
      put_list string buffer bufPos
  | None => put 0 buffer bufPos
  end.

(** The bytes a loop copies from another block. *)
Definition put_from (src : ptr) (n : Z) (buffer bufPos : Z) : W Z :=
  fun m => let! bs := rd_list src 0 (Z.max 0 n) in put_list bs buffer bufPos m.

Definition BerEncoder_encodeAsn1PrimitiveValue (tag : Z) (value : Asn1PrimitiveValue)
    (buffer bufPos : Z) : W Z :=
  let* bufPos := put tag buffer bufPos in
  let* bufPos := BerEncoder_encodeLength (u32 (a_size value)) buffer bufPos in
  put_from (mk_ptr (a_octets value) 0) (a_size value) buffer bufPos.

Definition BerEncoder_encodeOctetString (tag : Z) (octetString : ptr) (octetStringSize : Z)
    (buffer bufPos : Z) : W Z :=
  let* bufPos := put tag buffer bufPos in
  let* bufPos := BerEncoder_encodeLength octetStringSize buffer bufPos in
  put_from octetString octetStringSize buffer bufPos.

(** The number of bytes of a bit string. *)
Definition bit_string_bytes (bitStringSize : Z) : Z :=
  let byteSize := Z.quot bitStringSize 8 in
  if Z.rem bitStringSize 8 =? 0 then byteSize else byteSize + 1.

Fixpoint paddingMask_loop (n : nat) (i paddingMask : Z) : Z :=
  match n with
  | O => paddingMask
  | S n => paddingMask_loop n (i + 1) (u8 (paddingMask + Z.shiftl 1 i))
  end.

Definition BerEncoder_encodeBitString (tag bitStringSize : Z) (bitString : ptr)
    (buffer bufPos : Z) : W Z :=
  let* bufPos := put tag buffer bufPos in
  let byteSize := bit_string_bytes bitStringSize in
  let padding := byteSize * 8 - bitStringSize in
  let* bufPos := BerEncoder_encodeLength (u32 (byteSize + 1)) buffer bufPos in
  let* bufPos := put padding buffer bufPos in
  let* bufPos := put_from bitString byteSize buffer bufPos in
  let paddingMask := paddingMask_loop (Z.to_nat padding) 0 0 in
  let paddingMask := u8 (Z.lnot paddingMask) in
  let* last := peek buffer (bufPos - 1) in
  let* _ := poke (Z.land last paddingMask) buffer (bufPos - 1) in
  wret bufPos.

Definition BerEncoder_determineLengthSize (length : Z) : Z :=
  if length <? 128 then 1 else if length <? 256 then 2 else 3.

Definition BerEncoder_determineEncodedBitStringSize (bitStringSize : Z) : Z :=
  let size := 2 in (* for tag and padding *)
  let byteSize := bit_string_bytes bitStringSize in
  let size := size + BerEncoder_determineLengthSize (u32 byteSize) in
  size + byteSize.

Definition BerEncoder_determineEncodedStringSize (string : option (list Z)) : Z :=
  match string with
  | Some string =>
      let length := zlen string in
      1 + BerEncoder_determineLengthSize (u32 length) + length
  | None => 2
  end.

(** ** Byte order and compression of integer octets *)

Fixpoint revertByteOrder_loop (n : nat) (i : Z) (octets : list Z) (size : Z)
  : res (list Z) :=
  match n with
  | O => Done octets
  | S n =>
      let! temp := ld octets i in
      let! other := ld octets (size - 1 - i) in
      let! octets := st octets i other in
      let! octets := st octets (size - 1 - i) temp in
      revertByteOrder_loop n (i + 1) octets size
  end.

Definition BerEncoder_revertByteOrder (octets : list Z) (size : Z) : res (list Z) :=
  revertByteOrder_loop (Z.to_nat (Z.quot size 2)) 0 octets size.

(** The scan over superfluous leading octets; [n] is the distance to
    [integerEnd]. *)
Fixpoint compress_scan (n : nat) (integer : list Z) (bytePosition : Z) : res Z :=
  match n with
  | O => Done bytePosition
  | S n =>
      let! b0 := ld integer bytePosition in
      if b0 =? 0x00 then
        let! b1 := ld integer (bytePosition + 1) in
        if Z.land b1 0x80 =? 0 then compress_scan n integer (bytePosition + 1)
        else Done bytePosition
      else if b0 =? 0xff then
        let! b1 := ld integer (bytePosition + 1) in
        if negb (Z.land b1 0x80 =? 0) then compress_scan n integer (bytePosition + 1)
        else Done bytePosition
      else Done bytePosition
  end.

Fixpoint compress_shift (n : nat) (integer : list Z) (newBytePosition bytePosition : Z)
  : res (list Z) :=
  match n with
  | O => Done integer
  | S n =>
      let! b := ld integer bytePosition in
      let! integer := st integer newBytePosition b in
      compress_shift n integer (newBytePosition + 1) (bytePosition + 1)
  end.

Definition BerEncoder_compressInteger (integer : list Z) (originalSize : Z)
  : res (Z * list Z) :=
  let! bytesToDelete := compress_scan (Z.to_nat (originalSize - 1)) integer 0 in
  if bytesToDelete =? 0 then Done (originalSize, integer)
  else
    let newSize := originalSize - bytesToDelete in
    let! integer := compress_shift (Z.to_nat newSize) integer 0 bytesToDelete in
    Done (newSize, integer).

(** The compressed octets of an unsigned value: a leading zero octet and the
    four octets of the value in network order.  [valueBuffer + 1] is reverted. *)
Definition uint32_valueBuffer (value : Z) : res (Z * list Z) :=
  let! be := BerEncoder_revertByteOrder (le_bytes 4 value) 4 in
  BerEncoder_compressInteger (0 :: be) 5.

Definition BerEncoder_encodeUInt32 (value : Z) (buffer bufPos : Z) : W Z :=
  fun m =>
    let! (size, valueBuffer) := uint32_valueBuffer value in
    put_from (mk_ptr valueBuffer 0) size buffer bufPos m.

Definition BerEncoder_encodeUInt32WithTL (tag value : Z) (buffer bufPos : Z) : W Z :=
  fun m =>
    let! (size, valueBuffer) := uint32_valueBuffer value in
    (let* bufPos := put tag buffer bufPos in
     let* bufPos := put (u8 size) buffer bufPos in
     put_from (mk_ptr valueBuffer 0) size buffer bufPos) m.

Definition BerEncoder_UInt32determineEncodedSize (value : Z) : res Z :=
  let! (size, _) := uint32_valueBuffer value in Done size.

(** [floatValue] is the object in memory; [valueBuffer] has nine bytes. *)
Definition BerEncoder_encodeFloat (floatValue : list Z) (formatWidth exponentWidth : Z)
    (buffer bufPos : Z) : W Z :=
  fun m =>
    let byteSize := Z.quot formatWidth 8 in
    if 8 <? byteSize then Ub else
    let! octets := rd_list (mk_ptr floatValue 0) 0 (Z.max 0 byteSize) in
    let! octets := BerEncoder_revertByteOrder octets byteSize in
    put_list (u8 exponentWidth :: octets) buffer bufPos m.

(** ** Object identifiers *)

(** [strchr(s, '.')], as the rest of the string behind the dot. *)
Fixpoint after_dot (s : list Z) : option (list Z) :=
  match s with
  | [] => None
  | c :: s => if c =? 46 then Some s else after_dot s
  end.

Fixpoint atoi_digits (s : list Z) (acc : Z) : Z :=
  match s with
  | c :: s => if (48 <=? c) && (c <=? 57) then atoi_digits s (acc * 10 + (c - 48)) else acc
  | [] => acc
  end.

(** [atoi]: leading white space, a sign, and decimal digits. *)
Fixpoint atoi (s : list Z) : Z :=
  match s with
  | c :: t =>
      if (c =? 32) || ((9 <=? c) && (c <=? 13)) then atoi t
      else if c =? 45 then i32 (- atoi_digits t 0)
      else if c =? 43 then i32 (atoi_digits t 0)
      else i32 (atoi_digits s 0)
  | [] => 0
  end.

(** [requiredBytes]: the number of 7-bit groups; an [int] has at most five. *)
Fixpoint oid_requiredBytes (fuel : nat) (val2 : Z) : nat :=
  match fuel with
  | O => 0
  | S n => if 0 <? val2 then S (oid_requiredBytes n (Z.shiftr val2 7)) else 0
  end.

(** One sub-identifier, most significant group first; [None] when the buffer is
    full. *)
Fixpoint oid_groups (requiredBytes : nat) (val : Z) (maxBufLen : Z) (buffer : list Z)
  : option (list Z) :=
  match requiredBytes with
  | O => Some buffer
  | S n =>
      let val2 := Z.land (Z.shiftr val (7 * Z.of_nat n)) 0x7f in
      let val2 := if 1 <? Z.of_nat (S n) then val2 + 128 else val2 in
      if zlen buffer =? maxBufLen then None
      else oid_groups n val maxBufLen (buffer ++ [u8 val2])
  end.

(** The sub-identifiers behind the second dot. *)
Fixpoint oid_rest (fuel : nat) (separator : list Z) (maxBufLen : Z) (buffer : list Z)
  : option (list Z) :=
  match fuel with
  | O => Some buffer
  | S n =>
      match after_dot separator with
      | None => Some buffer
      | Some separator =>
          let val := atoi separator in
          match oid_groups (oid_requiredBytes 5 val) val maxBufLen buffer with
          | None => None
          | Some buffer => oid_rest n separator maxBufLen buffer
          end
      end
  end.

(** The octets written; the C function returns their number, 0 on failure. *)
Definition BerEncoder_encodeOIDToBuffer (oidString : list Z) (maxBufLen : Z) : list Z :=
  let x := atoi oidString in
  match after_dot oidString with
  | None => []
  | Some separator =>
      let y := atoi separator in
      let val := i32 (x * 40 + y) in
      if 0 <? maxBufLen then
        match oid_rest (length oidString) separator maxBufLen [u8 val] with
        | Some buffer => buffer
        | None => []
        end
      else []
  end.

(** * Specifications *)

(** The length octets of the definite form, as this stack writes them. *)
Definition ber_len (length : Z) : list Z :=
  if length <? 128 then [u8 length]
  else if length <? 256 then [0x81; u8 length]
  else [0x82; u8 (length / 256); u8 (length mod 256)].

(** Tag and length octets. *)
Definition ber_tl (tag length : Z) : list Z := u8 tag :: ber_len (u32 length).

(** The octets of an integer without superfluous leading octets. *)
Fixpoint compress (l : list Z) : list Z :=
  match l with
  | b0 :: t =>
      match t with
      | b1 :: _ =>
          if ((b0 =? 0) && (b1 <? 128)) || ((b0 =? 255) && negb (b1 <? 128))
          then compress t else l
      | [] => l
      end
  | [] => l
  end.

(** The shortest two's complement octets of an unsigned 32-bit value. *)
Definition uint32_bytes (value : Z) : list Z := compress (0 :: rev (le_bytes 4 value)).

(** * Lengths *)

#[export] Instance emits_encodeLength length buffer pos :
  Emits buffer pos (BerEncoder_encodeLength length buffer pos)
    (pos + zlen (ber_len length)) (ber_len length).
Proof.
  unfold BerEncoder_encodeLength, ber_len.
  destruct (length <? 128); [|destruct (length <? 256)]; emits_tac.
Qed.

#[export] Instance emits_encodeTL tag length buffer pos :
  Emits buffer pos (BerEncoder_encodeTL tag length buffer pos)
    (pos + zlen (ber_tl tag length)) (ber_tl tag length).
Proof. unfold BerEncoder_encodeTL, ber_tl. emits_tac. Qed.

Lemma zlen_ber_len length : zlen (ber_len length) = BerEncoder_determineLengthSize length.
Proof.
  unfold ber_len, BerEncoder_determineLengthSize.
  by destruct (length <? 128); [|destruct (length <? 256)].
Qed.

Lemma zlen_ber_tl tag length :
  zlen (ber_tl tag length) = 1 + BerEncoder_determineLengthSize (u32 length).
Proof. unfold ber_tl. by rewrite zlen_cons, zlen_ber_len. Qed.

Lemma determineLengthSize_range length : 1 <= BerEncoder_determineLengthSize length <= 3.
Proof. unfold BerEncoder_determineLengthSize. repeat zcase; lia. Qed.

Lemma determineLengthSize_mono a b :
  a <= b -> BerEncoder_determineLengthSize a <= BerEncoder_determineLengthSize b.
Proof. intros. unfold BerEncoder_determineLengthSize. repeat zcase; lia. Qed.

Lemma determineLengthSize_u32 length :
  0 <= length < 4294967296 ->
  BerEncoder_determineLengthSize (u32 length) = BerEncoder_determineLengthSize length.
Proof. intros. by rewrite u32_small. Qed.

Lemma bytes_ber_len length : bytes (ber_len length).
Proof.
  unfold ber_len, bytes. destruct (length <? 128); [|destruct (length <? 256)];
    repeat constructor; try apply u8_byte; unfold is_byte; lia.
Qed.

#[export] Hint Rewrite zlen_ber_len zlen_ber_tl : zlen.

(** Decoding reads back every length below 65536. *)
Lemma decodeLength_ber_len buffer old length bufPos maxBufPos :
  holds buffer bufPos (ber_len length) -> 0 <= length < 65536 ->
  bufPos + BerEncoder_determineLengthSize length <= maxBufPos ->
  BerDecoder_decodeLength buffer old bufPos maxBufPos
  = Done (bufPos + BerEncoder_determineLengthSize length, Some length).
Proof.
  intros Hh Hn Hm. pose proof (determineLengthSize_range length).
  unfold BerDecoder_decodeLength. zdec.
  unfold ber_len, BerEncoder_determineLengthSize in *.
  destruct (Z.ltb_spec length 128); [|destruct (Z.ltb_spec length 256)]; holds_split;
    repeat match goal with H : rd _ _ = Done _ |- _ => rewrite H; clear H; simpl end.
  - rewrite u8_small by lia. rewrite byte_high by (unfold is_byte; lia). by zdec.
  - zdec. simpl. rewrite (u8_small length) by lia. rewrite Z.shiftl_0_l, (i32_small 0) by lia.
    rewrite i32_small by lia. do 2 f_equal. lia.
  - pose proof (Z.div_mod length 256 ltac:(lia)). pose proof (Z.mod_pos_bound length 256 ltac:(lia)).
    zdec. simpl. rewrite !u8_small by lia.
    rewrite Z.shiftl_0_l, (i32_small 0), Z.shiftl_mul_pow2 by lia.
    change (2 ^ 8) with 256. rewrite (i32_small (0 + _)) by lia.
    rewrite (i32_small (_ * 256)) by lia. rewrite i32_small by lia.
    f_equal. f_equal; [lia|]. f_equal. lia.
Qed.

(** * Integer octets *)

Lemma length_le_bytes n value : length (le_bytes n value) = n.
Proof. revert value. induction n; intros; simpl; [done|]. by rewrite IHn. Qed.

Lemma bytes_le_bytes n value : bytes (le_bytes n value).
Proof.
  revert value. induction n as [|n IHn]; intros; [by constructor|]. constructor; [apply u8_byte|apply IHn]. Qed.

Lemma bytes_compress l : bytes l -> bytes (compress l).
Proof.
  induction 1 as [|b0 t Hb Ht IH]; [by constructor|]. simpl.
  destruct t as [|b1 t]; [by apply Forall_singleton|].
  destruct (_ || _); [done|]. by apply Forall_cons_2.
Qed.

(** The octets of [le_bytes], read from the end, have the value modulo [256^n]. *)
Lemma be_val_le_bytes n value : be_val (rev (le_bytes n value)) = value mod 256 ^ Z.of_nat n.
Proof.
  revert value. induction n as [|n IH]; intros value; cbn [le_bytes rev].
  - by rewrite Z.mod_1_r.
  - rewrite be_val_snoc, IH. unfold u8. change (2 ^ 8) with 256.
    rewrite Nat2Z.inj_succ, Z.pow_succ_r, Z.rem_mul_r by lia. lia.
Qed.

Lemma zlen_compress l : l <> [] -> 1 <= zlen (compress l) <= zlen l.
Proof.
  induction l as [|b0 t IH]; [done|]. intros _. cbn [compress]. rewrite zlen_cons.
  destruct t as [|b1 t]; [by rewrite zlen_cons|].
  destruct (_ || _); [specialize (IH ltac:(done)); lia|]. rewrite !zlen_cons. zl.
Qed.

(** Compression keeps the two's complement value. *)
Lemma be_sval_compress l : bytes l -> be_sval (compress l) = be_sval l.
Proof.
  induction 1 as [|b0 t Hb Ht IH]; [done|]. cbn [compress]. destruct t as [|b1 t]; [done|].
  destruct (_ || _) eqn:E; [|done]. rewrite IH. unfold be_sval.
  rewrite (be_val_cons b0), (zlen_cons b0), Z.pow_add_r by zl.
  apply orb_prop in E as [[->%Z.eqb_eq ->]%andb_prop|[->%Z.eqb_eq Hb1]%andb_prop].
  - simpl. lia.
  - apply negb_true_iff in Hb1 as ->. simpl. lia.
Qed.

(** Nothing is left to remove: the first nine bits are not all alike. *)
Lemma compress_minimal l b0 b1 t :
  compress l = b0 :: b1 :: t -> ~ (b0 = 0 /\ b1 < 128) /\ ~ (b0 = 255 /\ 128 <= b1).
Proof.
  induction l as [|c0 l IH]; [done|]. cbn [compress]. destruct l as [|c1 l]; [done|].
  destruct (_ || _) eqn:E; [done|]. intros [= -> -> ->].
  apply orb_false_iff in E as [E1 E2]. split; intros [-> Hb1]; simpl in *.
  - apply Z.ltb_ge in E1. lia.
  - apply negb_false_iff, Z.ltb_lt in E2. lia.
Qed.

Lemma ld_app_drop l i : 0 <= i -> ld l i = defined (head (drop (Z.to_nat i) l)).
Proof. intros. unfold ld. zdec. by rewrite head_lookup, lookup_drop, Nat.add_0_r. Qed.

Lemma compress_scan_spec suffix pre :
  bytes suffix -> suffix <> [] ->
  compress_scan (length suffix - 1) (pre ++ suffix) (zlen pre)
  = Done (zlen (pre ++ suffix) - zlen (compress suffix)).
Proof.
  intros Hb. revert pre. induction Hb as [|b0 t Hb0 Ht IH]; intros pre Hne; [done|].
  cbn [compress]. destruct t as [|b1 t].
  - simpl. f_equal. rewrite zlen_app. lia.
  - assert (forall n, ld (pre ++ b0 :: b1 :: t) (zlen pre + Z.of_nat n)
                      = defined ((b0 :: b1 :: t) !! n)) as Hld.
    { intros n. rewrite ld_app_drop by zl. unfold zlen.
      rewrite Z2Nat.inj_add, !Nat2Z.id by lia.
      rewrite drop_app_add, head_lookup, lookup_drop. by rewrite Nat.add_0_r. }
    pose proof (Hld 0%nat) as H0. pose proof (Hld 1%nat) as H1. rewrite Z.add_0_r in H0.
    change (Z.of_nat 1) with 1 in H1. simpl in H0, H1. specialize (IH (pre ++ [b0]) ltac:(done)).
    rewrite <- app_assoc, zlen_app in IH. change (zlen [b0]) with 1 in IH. simpl in IH.
    rewrite Nat.sub_0_r in IH. simpl length. cbn [compress_scan Nat.sub].
    rewrite H0. simpl. rewrite H1. simpl.
    apply Forall_cons_1 in Ht as [Hb1 _]. rewrite byte_high by done.
    destruct (Z.eqb_spec b0 0) as [->|]; simpl.
    + destruct (b1 <? 128); simpl; [by rewrite IH|]. f_equal. rewrite zlen_app. lia.
    + destruct (Z.eqb_spec b0 255) as [->|]; simpl.
      * destruct (b1 <? 128); simpl; [|by rewrite IH]. f_equal. rewrite zlen_app. lia.
      * f_equal. rewrite zlen_app. lia.
Qed.

Lemma compress_shift_spec n l i k :
  bytes l -> 0 <= i -> 0 <= k -> i + k + Z.of_nat n = zlen l ->
  compress_shift n l i (i + k)
  = Done (take (Z.to_nat i) l ++ drop (Z.to_nat (i + k)) l ++ drop (Z.to_nat i + n) l).
Proof.
  intros Hb Hi Hk. revert l i Hb Hi. induction n as [|n IH]; intros l i Hb Hi Hn; simpl.
  - rewrite Nat.add_0_r, (drop_ge l (Z.to_nat (i + k))) by (unfold zlen in *; lia).
    simpl. by rewrite take_drop.
  - unfold zlen in Hn.
    destruct (lookup_lt_is_Some_2 l (Z.to_nat (i + k))) as [b Hbk]; [lia|].
    rewrite (ld_lookup _ _ b) by (try done; lia). simpl.
    rewrite st_in by (unfold zlen; lia). simpl.
    rewrite (u8_small b) by (by eapply (Forall_lookup_1 is_byte)).
    replace (i + k + 1) with (i + 1 + k) by lia.
    rewrite IH.
    + f_equal. rewrite Z2Nat.inj_add, Nat.add_1_r by lia.
      rewrite (take_S_r _ _ b) by (apply list_lookup_insert_eq; lia).
      rewrite take_insert_ge, <- app_assoc by lia.
      rewrite !(drop_insert_lt _ _ (Z.to_nat i)) by lia. simpl.
      rewrite (drop_S _ _ _ Hbk). simpl. repeat f_equal; lia.
    + apply Forall_insert; [done|]. by eapply (Forall_lookup_1 is_byte).
    + lia.
    + rewrite zlen_insert. unfold zlen. lia.
Qed.

Lemma compress_drop l : compress l = drop (length l - length (compress l)) l.
Proof.
  induction l as [|b0 t IH]; [done|]. cbn [compress].
  destruct t as [|b1 t]; [by rewrite Nat.sub_diag|].
  destruct (_ || _); [|by rewrite Nat.sub_diag].
  pose proof (zlen_compress (b1 :: t) ltac:(done)) as Hl. unfold zlen in Hl.
  rewrite IH at 1. replace (length (b0 :: b1 :: t) - length (compress (b1 :: t)))%nat
    with (S (length (b1 :: t) - length (compress (b1 :: t)))) by (simpl length in *; lia).
  done.
Qed.

(** The two loops of [BerEncoder_compressInteger] compute [compress]. *)
Lemma compressInteger_compress l :
  bytes l -> l <> [] ->
  exists l', BerEncoder_compressInteger l (zlen l) = Done (zlen (compress l), l') /\
    slice l' 0 (zlen (compress l)) = compress l /\ zlen l' = zlen l.
Proof.
  intros Hb Hne. unfold BerEncoder_compressInteger. pose proof (zlen_compress l Hne) as Hc.
  replace (Z.to_nat (zlen l - 1)) with (length l - 1)%nat by (unfold zlen; lia).
  pose proof (compress_scan_spec l [] Hb Hne) as Hs. simpl in Hs. rewrite zlen_nil in Hs.
  rewrite Hs. simpl. unfold zlen in *.
  destruct (Z.eqb_spec (Z.of_nat (length l) - Z.of_nat (length (compress l))) 0) as [E|E].
  - exists l. rewrite (compress_drop l) at 3. unfold slice. rewrite drop_0, Nat2Z.id.
    replace (length l - length (compress l))%nat with 0%nat by lia.
    rewrite drop_0, take_ge by lia. repeat split. f_equal. f_equal. lia.
  - pose proof (compress_shift_spec (length (compress l)) l 0
      (Z.of_nat (length l) - Z.of_nat (length (compress l))) Hb) as Hsh.
    rewrite Z.add_0_l in Hsh. unfold zlen in Hsh.
    replace (Z.of_nat (length l) - (Z.of_nat (length l) - Z.of_nat (length (compress l))))
      with (Z.of_nat (length (compress l))) by lia.
    rewrite Nat2Z.id, Hsh by lia. simpl.
    replace (Z.to_nat (Z.of_nat (length l) - Z.of_nat (length (compress l))))
      with (length l - length (compress l))%nat by lia.
    rewrite <- compress_drop. eexists. split; [done|]. split.
    + unfold slice. rewrite Nat2Z.id. simpl. by rewrite drop_0, take_app_length.
    + rewrite length_app, length_drop. lia.
Qed.

Lemma revertByteOrder_loop_spec n i l :
  bytes l -> 0 <= i -> 2 * (i + Z.of_nat n) <= zlen l ->
  exists l', revertByteOrder_loop n i l (zlen l) = Done l' /\ length l' = length l /\ bytes l' /\
    forall j, (j < length l)%nat ->
      l' !! j = if bool_decide (Z.to_nat i <= j < Z.to_nat i + n \/
                  length l - Z.to_nat i - n <= j < length l - Z.to_nat i)%nat
                then l !! (length l - 1 - j)%nat else l !! j.
Proof.
  intros Hb Hi. revert i l Hb Hi. induction n as [|n IH]; intros i l Hb Hi Hn; simpl.
  - exists l. repeat split; try done. intros j Hj. by rewrite bool_decide_false by lia.
  - unfold zlen in Hn.
    destruct (lookup_lt_is_Some_2 l (Z.to_nat i)) as [x Hx]; [lia|].
    destruct (lookup_lt_is_Some_2 l (Z.to_nat (zlen l - 1 - i))) as [y Hy]; [unfold zlen; lia|].
    rewrite (ld_lookup _ _ x), (ld_lookup _ _ y) by (try done; unfold zlen; lia). simpl.
    rewrite st_in by (unfold zlen; lia). simpl. rewrite st_in by (rewrite zlen_insert; unfold zlen; lia).
    simpl.
    rewrite (u8_small x), (u8_small y) by (by eapply (Forall_lookup_1 is_byte)).
    set (l1 := <[_:=x]> (<[_:=y]> l)).
    assert (length l1 = length l) as Hl1 by (unfold l1; by rewrite !length_insert).
    destruct (IH (i + 1) l1) as (l' & Hl' & Hlen & Hb' & Hlook).
    + unfold l1. repeat apply Forall_insert; try done; by eapply (Forall_lookup_1 is_byte).
    + lia.
    + unfold zlen. lia.
    + exists l'. unfold zlen in Hl' |- *. rewrite Hl1 in Hl'.
      split; [done|]. split; [lia|]. split; [done|]. intros j Hj.
      rewrite Hlook by lia. rewrite Hl1.
      unfold zlen in Hy. replace (Z.to_nat (Z.of_nat (length l) - 1 - i))
        with (length l - 1 - Z.to_nat i)%nat in Hy by lia.
      unfold l1, zlen. replace (Z.to_nat (Z.of_nat (length l) - 1 - i))
        with (length l - 1 - Z.to_nat i)%nat by lia.
      replace (Z.to_nat (i + 1)) with (S (Z.to_nat i)) by lia.
      rewrite !list_lookup_insert, !length_insert.
      repeat case_bool_decide; repeat case_decide; try lia; try done;
        try (exfalso; lia); try (rewrite <- Hx; f_equal; lia); try (rewrite <- Hy; f_equal; lia).
Qed.

(** [BerEncoder_revertByteOrder] is list reversal. *)
Lemma revertByteOrder_rev l :
  bytes l -> BerEncoder_revertByteOrder l (zlen l) = Done (rev l).
Proof.
  intros Hb. unfold BerEncoder_revertByteOrder.
  pose proof (Z.quot_rem (zlen l) 2 ltac:(lia)). pose proof (zlen_nonneg l).
  pose proof (Z.rem_bound_pos (zlen l) 2 ltac:(lia) ltac:(lia)).
  destruct (revertByteOrder_loop_spec (Z.to_nat (Z.quot (zlen l) 2)) 0 l)
    as (l' & -> & Hlen & _ & Hl'); [done|lia|lia|].
  f_equal. apply list_eq. intros j. destruct (decide (j < length l)%nat) as [Hj|Hj].
  - rewrite Hl' by done. replace (rev l !! j) with (l !! (length l - 1 - j)%nat).
    + case_bool_decide; [done|]. f_equal. unfold zlen in *. lia.
    + rewrite rev_reverse, reverse_lookup by done. f_equal. lia.
  - rewrite !lookup_ge_None_2; [done| |lia]. rewrite length_rev. lia.
Qed.

Lemma uint32_valueBuffer_spec value :
  exists l', uint32_valueBuffer value = Done (zlen (uint32_bytes value), l') /\
    slice l' 0 (zlen (uint32_bytes value)) = uint32_bytes value /\ zlen l' = 5.
Proof.
  unfold uint32_valueBuffer. change 4 with (Z.of_nat 4) at 1.
  pose proof (revertByteOrder_rev (le_bytes 4 value) (bytes_le_bytes 4 value)) as Hrev.
  unfold zlen in Hrev. rewrite length_le_bytes in Hrev. rewrite Hrev. simpl.
  destruct (compressInteger_compress (0 :: rev (le_bytes 4 value))) as (l' & Hc & Hs & Hl);
    [|done|].
  - apply Forall_cons_2; [unfold is_byte; lia|].
    rewrite rev_reverse. apply Forall_reverse, bytes_le_bytes.
  - assert (zlen (0 :: rev (le_bytes 4 value)) = 5) as E
      by (unfold zlen; by rewrite length_cons, length_rev, length_le_bytes).
    rewrite E in Hc, Hl. exists l'. done.
Qed.

Lemma bytes_uint32_bytes value : bytes (uint32_bytes value).
Proof.
  apply bytes_compress, Forall_cons_2; [unfold is_byte; lia|].
  rewrite rev_reverse. apply Forall_reverse, bytes_le_bytes.
Qed.

Lemma zlen_uint32_bytes value : 1 <= zlen (uint32_bytes value) <= 5.
Proof.
  unfold uint32_bytes.
  pose proof (zlen_compress (0 :: rev (le_bytes 4 value)) ltac:(done)) as H.
  rewrite zlen_cons in H. unfold zlen in *. rewrite length_rev, length_le_bytes in H. lia.
Qed.

Lemma UInt32determineEncodedSize_spec value :
  BerEncoder_UInt32determineEncodedSize value = Done (zlen (uint32_bytes value)).
Proof.
  unfold BerEncoder_UInt32determineEncodedSize.
  by destruct (uint32_valueBuffer_spec value) as (l' & -> & _).
Qed.

(** Copying from another block emits the bytes that lie there. *)
Lemma emits_put_from src n buffer pos bs :
  holds src 0 bs -> n = zlen bs -> bytes bs ->
  Emits buffer pos (put_from src n buffer pos) (pos + zlen bs) bs.
Proof.
  intros Hh -> Hb m Hm. unfold put_from.
  rewrite Z.max_r by zl. rewrite (holds_rd_list src 0 bs) by done. simpl.
  by apply emits_put_list.
Qed.

#[export] Instance emits_encodeUInt32 value buffer pos :
  Emits buffer pos (BerEncoder_encodeUInt32 value buffer pos)
    (pos + zlen (uint32_bytes value)) (uint32_bytes value).
Proof.
  intros m Hm. unfold BerEncoder_encodeUInt32.
  destruct (uint32_valueBuffer_spec value) as (l' & -> & Hs & Hl). simpl.
  apply emits_put_from; [|done|apply bytes_uint32_bytes|done].
  pose proof (zlen_uint32_bytes value). unfold holds. simpl. repeat split; [lia|lia|done].
Qed.

#[export] Instance emits_encodeUInt32WithTL tag value buffer pos :
  Emits buffer pos (BerEncoder_encodeUInt32WithTL tag value buffer pos)
    (pos + 2 + zlen (uint32_bytes value))
    (u8 tag :: zlen (uint32_bytes value) :: uint32_bytes value).
Proof.
  intros m Hm. unfold BerEncoder_encodeUInt32WithTL.
  destruct (uint32_valueBuffer_spec value) as (l' & -> & Hs & Hl). simpl.
  pose proof (zlen_uint32_bytes value).
  assert (holds (mk_ptr l' 0) 0 (uint32_bytes value)) as Hh
    by (unfold holds; simpl; repeat split; [lia|lia|done]).
  revert m Hm. change (Emits buffer pos (let* q := put tag buffer pos in
    let* q' := put (u8 (zlen (uint32_bytes value))) buffer q in
    put_from (mk_ptr l' 0) (zlen (uint32_bytes value)) buffer q')
    (pos + 2 + zlen (uint32_bytes value))
    (u8 tag :: zlen (uint32_bytes value) :: uint32_bytes value)).
  eapply emits_eq; [eapply emits_bind; [apply emits_put|eapply emits_bind;
    [apply emits_put|by apply emits_put_from, bytes_uint32_bytes|zl]|zl]|zl|].
  cbn [app]. by rewrite u8_idemp, (u8_small (zlen _)) by lia.
Qed.

(** The unsigned value is read back from the compressed octets. *)
Lemma be_val_uint32_bytes value : 0 <= value < 4294967296 -> be_val (uint32_bytes value) = value.
Proof.
  intros Hv. pose proof (bytes_le_bytes 4 value) as Hb.
  assert (be_val (0 :: rev (le_bytes 4 value)) = value) as Hval.
  { rewrite be_val_cons, be_val_le_bytes. rewrite Z.mod_small; [lia|done]. }
  assert (be_sval (uint32_bytes value) = value) as Hs.
  { unfold uint32_bytes. rewrite be_sval_compress; [by simpl|].
    apply Forall_cons_2; [unfold is_byte; lia|].
    rewrite rev_reverse. by apply Forall_reverse. }
  pose proof (bytes_uint32_bytes value) as Hub. unfold be_sval in Hs.
  destruct (uint32_bytes value) as [|b t]; [done|]. destruct (b <? 128); [done|].
  pose proof (be_val_bound _ Hub). lia.
Qed.
