(* ===== verification/BerInteger.v ===== *)
(** BER integer values: src/mms/asn1/ber_integer.c. *)
From stdpp Require Import base tactics list numbers option.
From S2P Require Import Prelude Memory BerDecode BerEncode.

(** * Operations *)

(** [valueBuffer] is the integer object in memory. *)
Definition setIntegerValue (self : Asn1PrimitiveValue) (valueBuffer : list Z) (bufferSize : Z)
  : res (Z * Asn1PrimitiveValue) :=
  let! valueBuffer := BerEncoder_revertByteOrder valueBuffer bufferSize in
  let! (size, valueBuffer) := BerEncoder_compressInteger valueBuffer bufferSize in
  if size <=? a_maxSize self then
    let! bs := rd_list (mk_ptr valueBuffer 0) 0 size in
    let! octets := st_list (a_octets self) 0 bs in
    Done (1, mkAsn1 (u8 size) (a_maxSize self) octets)
  else Done (0, self).

Definition BerInteger_createInt32 : Asn1PrimitiveValue := Asn1PrimitiveValue_create 4.

Definition BerInteger_createFromBuffer (buf : ptr) (size : Z) : res Asn1PrimitiveValue :=
  let maxSize := if 8 <? size then size else 8 in
  let self := Asn1PrimitiveValue_create maxSize in
  let! bs := rd_list buf 0 size in
  let! octets := st_list (a_octets self) 0 bs in
  Done (mkAsn1 (u8 size) (a_maxSize self) octets).

Definition BerInteger_setFromBerInteger (self value : Asn1PrimitiveValue)
  : res (Z * Asn1PrimitiveValue) :=
  if a_size value <=? a_maxSize self then
    let! bs := rd_list (mk_ptr (a_octets value) 0) 0 (a_size value) in
    let! octets := st_list (a_octets self) 0 bs in
    Done (1, mkAsn1 (a_size value) (a_maxSize self) octets)
  else Done (0, self).

Definition BerInteger_setInt32 (self : Asn1PrimitiveValue) (value : Z) :=
  setIntegerValue self (le_bytes 4 value) 4.

Definition BerInteger_createFromInt32 (value : Z) : res Asn1PrimitiveValue :=
  let! (_, asn1Value) := BerInteger_setInt32 BerInteger_createInt32 value in
  Done asn1Value.

Definition BerInteger_setUint16 (self : Asn1PrimitiveValue) (value : Z) :=
  setIntegerValue self (le_bytes 2 value) 2.

Definition BerInteger_setUint8 (self : Asn1PrimitiveValue) (value : Z) :=
  setIntegerValue self (le_bytes 1 value) 1.

Definition BerInteger_setUint32 (self : Asn1PrimitiveValue) (value : Z) :=
  setIntegerValue self (le_bytes 4 value) 4.

Definition BerInteger_createFromUint32 (value : Z) : res Asn1PrimitiveValue :=
  let! (_, asn1Value) := BerInteger_setUint32 BerInteger_createInt32 value in
  Done asn1Value.

Definition BerInteger_createInt64 : Asn1PrimitiveValue := Asn1PrimitiveValue_create 64.

Definition BerInteger_setInt64 (self : Asn1PrimitiveValue) (value : Z) :=
  setIntegerValue self (le_bytes 8 value) 8.

Definition BerInteger_createFromInt64 (value : Z) : res Asn1PrimitiveValue :=
  let! (_, asn1Value) := BerInteger_setInt64 BerInteger_createInt64 value in
  Done asn1Value.

(** [*nativeValue = ( *nativeValue << 8) | buf[i]] at the width of [wrap]. *)
Fixpoint to_native_loop (wrap : Z -> Z) (n : nat) (buf : list Z) (i nativeValue : Z) : res Z :=
  match n with
  | O => Done nativeValue
  | S n =>
      let! b := ld buf i in
      to_native_loop wrap n buf (i + 1) (wrap (Z.lor (wrap (Z.shiftl nativeValue 8)) b))
  end.

(** The value, or [None] when the function returns 0. *)
Definition to_signed (wrap : Z -> Z) (limit : Z) (self : Asn1PrimitiveValue) : res (option Z) :=
  if a_size self <? limit then
    let! b0 := ld (a_octets self) 0 in
    let nativeValue := if negb (Z.land b0 0x80 =? 0) then -1 else 0 in (* sign extension *)
    let! v := to_native_loop wrap (Z.to_nat (a_size self)) (a_octets self) 0 nativeValue in
    Done (Some v)
  else Done None.

Definition BerInteger_toInt32 (self : Asn1PrimitiveValue) : res (option Z) :=
  to_signed i32 5 self.

Definition BerInteger_toUint32 (self : Asn1PrimitiveValue) : res (option Z) :=
  if a_size self <? 5 then
    let! v := to_native_loop u32 (Z.to_nat (a_size self)) (a_octets self) 0 0 in
    Done (Some v)
  else Done None.

Definition BerInteger_toInt64 (self : Asn1PrimitiveValue) : res (option Z) :=
  to_signed i64 9 self.

(** * Two's complement *)

(** Evaluate the powers of 256 with a closed exponent. *)
Ltac eval_pow :=
  repeat match goal with
  | H : context [256 ^ ?e] |- _ =>
      let v := eval vm_compute in (256 ^ e) in change (256 ^ e) with v in H
  | |- context [256 ^ ?e] =>
      let v := eval vm_compute in (256 ^ e) in change (256 ^ e) with v
  end.

Lemma pow256 n : 0 <= n -> 256 ^ n = 2 ^ (8 * n).
Proof. intros. change 256 with (2 ^ 8). by rewrite <- Z.pow_mul_r by lia. Qed.

Lemma be_sval_range b l :
  bytes (b :: l) -> - (128 * 256 ^ zlen l) <= be_sval (b :: l) < 128 * 256 ^ zlen l.
Proof.
  intros Hb. pose proof (be_val_bound l (Forall_inv_tail Hb)). apply Forall_inv in Hb.
  unfold be_sval. rewrite be_val_cons, zlen_cons, Z.pow_add_r by zl.
  unfold is_byte in Hb. zcase; nia.
Qed.

Lemma swrap_unique w z v :
  0 < w -> - 2 ^ (w - 1) <= v < 2 ^ (w - 1) -> (exists k, z = v + k * 2 ^ w) -> swrap w z = v.
Proof.
  intros Hw Hv [k ->]. unfold swrap.
  assert (2 ^ w = 2 * 2 ^ (w - 1)) as E.
  { replace w with (1 + (w - 1)) at 1 by lia. rewrite Z.pow_add_r by lia. lia. }
  replace (v + k * 2 ^ w + 2 ^ (w - 1)) with (v + 2 ^ (w - 1) + k * 2 ^ w) by lia.
  rewrite Z_mod_plus_full, Z.mod_small by lia. lia.
Qed.

Lemma be_sval_swrap b l z :
  bytes (b :: l) -> (exists k, z = be_val (b :: l) + k * 256 ^ zlen (b :: l)) ->
  swrap (8 * zlen (b :: l)) z = be_sval (b :: l).
Proof.
  intros Hb [k Hk]. pose proof (be_sval_range b l Hb) as Hr.
  apply swrap_unique; [rewrite zlen_cons; zl| |].
  - replace (2 ^ (8 * zlen (b :: l) - 1)) with (128 * 256 ^ zlen l); [done|].
    rewrite zlen_cons, pow256 by zl. change 128 with (2 ^ 7).
    rewrite <- Z.pow_add_r by zl. f_equal. lia.
  - rewrite <- pow256 by zl. unfold be_sval. destruct (b <? 128).
    + exists k. lia.
    + exists (k + 1). lia.
Qed.

(** The value of the octets written for a native integer. *)
Lemma be_sval_le_bytes n value :
  be_sval (rev (le_bytes (S n) value)) = swrap (8 * Z.of_nat (S n)) value.
Proof.
  assert (bytes (rev (le_bytes (S n) value))) as Hb
    by (rewrite rev_reverse; apply Forall_reverse, bytes_le_bytes).
  assert (zlen (rev (le_bytes (S n) value)) = Z.of_nat (S n)) as Hl
    by (unfold zlen; by rewrite length_rev, length_le_bytes).
  pose proof (be_val_le_bytes (S n) value) as Hv.
  destruct (rev (le_bytes (S n) value)) as [|b l] eqn:E; [by rewrite zlen_nil in Hl|].
  rewrite <- Hl. symmetry. apply be_sval_swrap; [done|].
  rewrite Hv, Hl. exists (value / 256 ^ Z.of_nat (S n)).
  rewrite Z.mul_comm, Z.add_comm. apply Z.div_mod, Z.pow_nonzero; lia.
Qed.

Lemma lor_low8 a b : a mod 256 = 0 -> 0 <= b < 256 -> Z.lor a b = a + b.
Proof.
  intros Ha Hb. rewrite <- Z.add_lor_land.
  replace (Z.land a b) with 0; [lia|]. symmetry. apply Z.bits_inj'. intros n Hn.
  rewrite Z.land_spec, Z.bits_0. destruct (Z.ltb_spec n 8).
  - rewrite <- (Z.mod_pow2_bits_low a 8) by lia. change (2 ^ 8) with 256.
    by rewrite Ha, Z.bits_0.
  - rewrite <- (Z.mod_small b (2 ^ 8)) by lia.
    rewrite Z.mod_pow2_bits_high by lia. apply andb_false_r.
Qed.

(** [wrap] acts as reduction modulo [256^k]. *)
Class Wraps (wrap : Z -> Z) (k : Z) : Prop := {
  wraps_pos : 0 < k;
  wraps_eq : forall z, exists q, wrap z = z + q * 256 ^ k;
  wraps_cong : forall z q, wrap (z + q * 256 ^ k) = wrap z }.

#[export] Instance wraps_swrap w k : 0 < k -> w = 8 * k -> Wraps (swrap w) k.
Proof.
  intros Hk ->. split; [done| |].
  - intros z. unfold swrap. rewrite <- pow256 by lia.
    pose proof (Z.div_mod (z + 2 ^ (8 * k - 1)) (256 ^ k) ltac:(apply Z.pow_nonzero; lia)).
    exists (- ((z + 2 ^ (8 * k - 1)) / 256 ^ k)). lia.
  - intros z q. unfold swrap. rewrite <- pow256 by lia.
    replace (z + q * 256 ^ k + 2 ^ (8 * k - 1)) with (z + 2 ^ (8 * k - 1) + q * 256 ^ k) by lia.
    by rewrite Z_mod_plus_full.
Qed.

#[export] Instance wraps_i32 : Wraps i32 4.
Proof. by apply wraps_swrap. Qed.
#[export] Instance wraps_i64 : Wraps i64 8.
Proof. by apply wraps_swrap. Qed.

#[export] Instance wraps_u32 : Wraps u32 4.
Proof.
  split; [done| |].
  - intros z. unfold u32. pose proof (Z.div_mod z (2 ^ 32) ltac:(lia)).
    exists (- (z / 2 ^ 32)). change (256 ^ 4) with (2 ^ 32). lia.
  - intros z q. unfold u32. change (256 ^ 4) with (2 ^ 32). by rewrite Z_mod_plus_full.
Qed.

Lemma wraps_step `{Wraps wrap k} v b :
  0 <= b < 256 -> wrap (Z.lor (wrap (Z.shiftl v 8)) b) = wrap (v * 256 + b).
Proof.
  intros Hb. rewrite Z.shiftl_mul_pow2 by lia. change (2 ^ 8) with 256.
  destruct (wraps_eq (v * 256)) as [q Hq].
  pose proof (wraps_pos (wrap := wrap)) as Hk.
  assert (256 ^ k = 256 * 256 ^ (k - 1)) as E.
  { replace k with (1 + (k - 1)) at 1 by lia. rewrite Z.pow_add_r by lia. lia. }
  rewrite lor_low8; [|rewrite Hq, E|done].
  - rewrite Hq. replace (v * 256 + q * 256 ^ k + b) with (v * 256 + b + q * 256 ^ k) by lia.
    apply wraps_cong.
  - replace (v * 256 + q * (256 * 256 ^ (k - 1))) with ((v + q * 256 ^ (k - 1)) * 256) by lia.
    by apply Z_mod_mult.
Qed.

Lemma wraps_mul `{Wraps wrap k} v c : wrap (wrap v * c) = wrap (v * c).
Proof.
  destruct (wraps_eq v) as [q ->].
  replace ((v + q * 256 ^ k) * c) with (v * c + (q * c) * 256 ^ k) by lia. apply wraps_cong.
Qed.

Lemma wraps_add `{Wraps wrap k} v c : wrap (wrap v + c) = wrap (v + c).
Proof.
  destruct (wraps_eq v) as [q ->].
  replace (v + q * 256 ^ k + c) with (v + c + q * 256 ^ k) by lia. apply wraps_cong.
Qed.

Lemma to_native_loop_spec `{Wraps wrap k} bs l i v :
  bytes bs -> holds (mk_ptr l 0) i bs ->
  to_native_loop wrap (length bs) l i v
  = Done (match bs with [] => v | _ => wrap (v * 256 ^ zlen bs + be_val bs) end).
Proof.
  intros Hb. revert i v. induction Hb as [|b bs Hb Hbs IH]; intros i v Hh; [done|].
  apply holds_cons in Hh as [Hrd Hh]. unfold rd in Hrd. cbn [p_mem p_base] in Hrd.
  rewrite Z.add_0_l in Hrd. simpl. rewrite Hrd. simpl.
  rewrite IH by done. f_equal. rewrite wraps_step by done.
  rewrite be_val_cons, zlen_cons, Z.pow_add_r by zl. destruct bs as [|c bs].
  - rewrite zlen_nil. unfold be_val. simpl. f_equal. lia.
  - rewrite <- wraps_add, wraps_mul, wraps_add. f_equal. lia.
Qed.

(** * Setting and reading back *)

(** The octets of a primitive value. *)
Definition a_bytes (self : Asn1PrimitiveValue) : list Z := slice (a_octets self) 0 (a_size self).

Definition asn1_wf (self : Asn1PrimitiveValue) : Prop :=
  0 <= a_size self <= a_maxSize self /\ a_maxSize self <= zlen (a_octets self) /\
  a_maxSize self < 256 /\ bytes (a_octets self).

Lemma asn1_create_wf size : 0 <= size < 256 -> asn1_wf (Asn1PrimitiveValue_create size).
Proof.
  intros Hs. unfold asn1_wf, Asn1PrimitiveValue_create, zlen. simpl.
  rewrite u8_small, length_replicate by done. repeat split; try lia.
  apply Forall_replicate. unfold is_byte. lia.
Qed.

(** A native integer of [n] octets that fits after compression is stored as its
    compressed octets; one that does not fit is refused. *)
Lemma setIntegerValue_spec self n value :
  asn1_wf self -> (0 < n <= 8)%nat ->
  let bs := compress (rev (le_bytes n value)) in
  exists self', setIntegerValue self (le_bytes n value) (Z.of_nat n)
    = Done (if zlen bs <=? a_maxSize self then 1 else 0, self') /\
    (if zlen bs <=? a_maxSize self
     then asn1_wf self' /\ a_bytes self' = bs /\ a_size self' = zlen bs
     else self' = self).
Proof.
  intros (Hs & Hm & H256 & Hb) Hn bs. unfold setIntegerValue.
  assert (length (rev (le_bytes n value)) = n) as Hlen
    by (by rewrite length_rev, length_le_bytes).
  pose proof (revertByteOrder_rev (le_bytes n value) (bytes_le_bytes n value)) as Hr.
  unfold zlen in Hr. rewrite length_le_bytes in Hr. rewrite Hr. simpl.
  assert (rev (le_bytes n value) <> []) as Hne by (intros E; rewrite E in Hlen; simpl in Hlen; lia).
  assert (bytes (rev (le_bytes n value))) as Hrb
    by (rewrite rev_reverse; apply Forall_reverse, bytes_le_bytes).
  pose proof (zlen_compress _ Hne) as Hc. fold bs in Hc.
  destruct (compressInteger_compress _ Hrb Hne) as (l' & Hci & Hsl & Hl').
  unfold zlen in Hci at 1. rewrite Hlen in Hci. rewrite Hci. simpl. fold bs.
  zcase; [|by eexists].
  assert (holds (mk_ptr l' 0) 0 bs) as Hh
    by (unfold holds; simpl; fold bs in Hsl; repeat split; [lia|lia|done]).
  rewrite (holds_rd_list _ _ bs) by done. simpl.
  unfold st_list. zdec. simpl. eexists. split; [done|]. unfold asn1_wf, a_bytes. simpl.
  unfold zlen in Hc at 3. rewrite Hlen in Hc.
  rewrite u8_small by lia. rewrite zlen_splice by lia.
  repeat split; try lia.
  - unfold splice. apply Forall_app; split; [by apply Forall_take|].
    apply Forall_app; split; [by apply bytes_compress|by apply Forall_drop].
  - apply slice_splice; lia.
Qed.

Lemma a_bytes_holds self : asn1_wf self -> holds (mk_ptr (a_octets self) 0) 0 (a_bytes self).
Proof.
  intros (Hs & Hm & _ & _). unfold holds, a_bytes. simpl.
  rewrite zlen_slice by lia. repeat split; lia.
Qed.

Lemma zlen_a_bytes self : asn1_wf self -> zlen (a_bytes self) = a_size self.
Proof. intros (Hs & Hm & _ & _). apply zlen_slice; lia. Qed.

Lemma bytes_a_bytes self : asn1_wf self -> bytes (a_bytes self).
Proof. intros (_ & _ & _ & Hb). by apply Forall_take, Forall_drop. Qed.

(** A value of one to [k] octets is read with its sign. *)
Lemma to_signed_spec `{Wraps (swrap w) k} self :
  asn1_wf self -> 0 < a_size self <= k -> w = 8 * k ->
  to_signed (swrap w) (k + 1) self = Done (Some (be_sval (a_bytes self))).
Proof.
  intros Hwf Hsz Hw. unfold to_signed. zdec. pose proof (a_bytes_holds _ Hwf) as Hh.
  pose proof (zlen_a_bytes _ Hwf) as Hlen. pose proof (bytes_a_bytes _ Hwf) as Hb.
  destruct (a_bytes self) as [|b l] eqn:E; [rewrite zlen_nil in Hlen; lia|].
  pose proof Hh as [Hrd _]%holds_cons. unfold rd in Hrd. cbn [p_mem p_base] in Hrd.
  rewrite Z.add_0_l in Hrd. rewrite Hrd. simpl.
  replace (Z.to_nat (a_size self)) with (length (b :: l)) by (unfold zlen in Hlen; lia).
  rewrite to_native_loop_spec by done. cbn [rbind]. do 2 f_equal.
  pose proof (Forall_inv Hb) as Hb0. rewrite byte_high by done.
  pose proof (be_sval_range b l Hb) as Hr.
  assert (be_sval (b :: l) = (if negb (b <? 128) then -1 else 0) * 256 ^ zlen (b :: l) + be_val (b :: l))
    as <-.
  { unfold be_sval. destruct (b <? 128); cbn [negb]; ring. }
  change (swrap w (be_sval (b :: l)) = be_sval (b :: l)).
  apply swrap_unique; [lia| |exists 0; lia].
  assert (128 * 256 ^ zlen l <= 2 ^ (w - 1)); [|lia].
  rewrite pow256 by zl. change 128 with (2 ^ 7). rewrite <- Z.pow_add_r by zl.
  apply Z.pow_le_mono_r; [lia|]. zl.
Qed.

Lemma to_uint32_spec self :
  asn1_wf self -> a_size self <= 4 ->
  BerInteger_toUint32 self = Done (Some (be_val (a_bytes self))).
Proof.
  intros Hwf Hsz. unfold BerInteger_toUint32. zdec. pose proof (a_bytes_holds _ Hwf) as Hh.
  pose proof (zlen_a_bytes _ Hwf) as Hlen. pose proof (bytes_a_bytes _ Hwf) as Hb.
  replace (Z.to_nat (a_size self)) with (length (a_bytes self)) by (unfold zlen in Hlen; lia).
  rewrite to_native_loop_spec by done. cbn [rbind]. do 2 f_equal.
  pose proof (be_val_bound _ Hb) as Hv.
  assert (256 ^ zlen (a_bytes self) <= 256 ^ 4) as Hp by (apply Z.pow_le_mono_r; lia).
  destruct (a_bytes self); [done|]. rewrite Z.mul_0_l, Z.add_0_l.
  apply u32_small. change (256 ^ 4) with 4294967296 in Hp. lia.
Qed.

Lemma zlen_compress_le n value :
  (0 < n)%nat -> 1 <= zlen (compress (rev (le_bytes n value))) <= Z.of_nat n.
Proof.
  intros Hn. assert (length (rev (le_bytes n value)) = n) as E
    by (by rewrite length_rev, length_le_bytes).
  assert (rev (le_bytes n value) <> []) as Hne by (intros E'; rewrite E' in E; simpl in E; lia).
  pose proof (zlen_compress _ Hne) as Hc. unfold zlen in *. by rewrite E in Hc.
Qed.

Lemma bytes_rev_le_bytes n value : bytes (rev (le_bytes n value)).
Proof. rewrite rev_reverse. apply Forall_reverse, bytes_le_bytes. Qed.

(** ** The properties of BerInteger *)

(** Every signed 32-bit value set into an integer value of four octets is read
    back by [BerInteger_toInt32]. *)
Theorem BerInteger_int32_roundtrip value :
  -2147483648 <= value < 2147483648 ->
  exists self, BerInteger_createFromInt32 value = Done self /\
    BerInteger_toInt32 self = Done (Some value).
Proof.
  intros Hv. unfold BerInteger_createFromInt32, BerInteger_setInt32.
  destruct (setIntegerValue_spec BerInteger_createInt32 4 value) as (self & Hset & Hself);
    [by apply asn1_create_wf|lia|].
  change (Z.of_nat 4) with 4 in Hset. rewrite Hset. simpl rbind.
  set (bs := compress _) in *.
  pose proof (zlen_compress_le 4 value ltac:(lia)) as Hl. fold bs in Hl.
  change (a_maxSize BerInteger_createInt32) with 4 in *.
  rewrite (proj2 (Z.leb_le (zlen bs) 4)) in Hself by lia.
  destruct Hself as (Hwf & Hby & Hsz). exists self. split; [done|].
  unfold BerInteger_toInt32. change 5 with (4 + 1).
  rewrite (to_signed_spec (w := 32) (k := 4)) by (try done; lia). do 2 f_equal.
  rewrite Hby. unfold bs.
  rewrite be_sval_compress by apply bytes_rev_le_bytes.
  rewrite be_sval_le_bytes. by apply i32_small.
Qed.

Lemma BerInteger_int32_roundtrip_witness :
  exists self, BerInteger_createFromInt32 (-129) = Done self /\
    BerInteger_toInt32 self = Done (Some (-129)).
Proof. apply BerInteger_int32_roundtrip. lia. Defined.

(** An unsigned 32-bit value comes back exactly when it is below 0xFF800000:
    from there on the compression takes the leading ones for sign octets. *)
Theorem BerInteger_uint32_roundtrip value :
  0 <= value < 4294967296 ->
  exists self v, BerInteger_createFromUint32 value = Done self /\
    BerInteger_toUint32 self = Done (Some v) /\ (v = value <-> value < 0xFF800000).
Proof.
  intros Hv. unfold BerInteger_createFromUint32, BerInteger_setUint32.
  destruct (setIntegerValue_spec BerInteger_createInt32 4 value) as (self & Hset & Hself);
    [by apply asn1_create_wf|lia|].
  change (Z.of_nat 4) with 4 in Hset. rewrite Hset. simpl rbind.
  pose proof (be_sval_compress _ (bytes_rev_le_bytes 4 value)) as Hsv.
  rewrite be_sval_le_bytes in Hsv.
  set (bs := compress _) in *.
  pose proof (zlen_compress_le 4 value ltac:(lia)) as Hl. fold bs in Hl.
  change (a_maxSize BerInteger_createInt32) with 4 in *.
  rewrite (proj2 (Z.leb_le (zlen bs) 4)) in Hself by lia.
  destruct Hself as (Hwf & Hby & Hsz). exists self, (be_val bs).
  split; [done|]. split; [rewrite to_uint32_spec by (try done; lia); by rewrite Hby|].
  assert (bytes bs) as Hbs by apply bytes_compress, bytes_rev_le_bytes.
  pose proof (be_val_bound bs Hbs) as Hbound.
  destruct bs as [|b l] eqn:Ebs; [rewrite zlen_nil in Hl; lia|].
  pose proof (be_sval_range b l Hbs) as Hr. rewrite Hsv in Hr.
  change (swrap (8 * Z.of_nat 4) value) with (i32 value) in *.
  rewrite zlen_cons in Hl, Hbound.
  destruct (decide (value < 2147483648)) as [Hlow|Hhigh].
  - rewrite i32_small in * by lia. unfold be_sval in Hsv. rewrite zlen_cons in Hsv.
    destruct (b <? 128); lia.
  - assert (i32 value = value - 4294967296) as E.
    { replace value with (value - 4294967296 + 1 * 256 ^ 4) at 1 by lia.
      rewrite (wraps_cong (wrap := i32)). apply i32_small. lia. }
    rewrite E in *. unfold be_sval in Hsv. rewrite zlen_cons in Hsv.
    assert (zlen l = 0 \/ zlen l = 1 \/ zlen l = 2 \/ zlen l = 3) as [L|[L|[L|L]]] by zl;
      rewrite L in *; eval_pow; [destruct (b <? 128); lia..|].
    destruct l as [|b1 t]; [done|]. rewrite zlen_cons in L.
    destruct (compress_minimal _ _ _ _ Ebs) as [_ Hmin].
    pose proof (be_val_bound t ltac:(by do 2 apply Forall_inv_tail in Hbs)) as Ht.
    apply Forall_cons_1 in Hbs as [Hb0 [Hb1 _]%Forall_cons_1].
    rewrite (be_val_cons b), (be_val_cons b1), zlen_cons in *.
    replace (zlen t) with 2 in * by lia. eval_pow. unfold is_byte in *.
    destruct (b <? 128); lia.
Qed.

Lemma BerInteger_uint32_roundtrip_witness :
  exists self v, BerInteger_createFromUint32 0xFFFFFFFF = Done self /\
    BerInteger_toUint32 self = Done (Some v) /\ (v = 0xFFFFFFFF <-> 0xFFFFFFFF < 0xFF800000).
Proof. apply BerInteger_uint32_roundtrip. lia. Defined.
