(* ===== verification/IsoParams.v ===== *)
(** Connection parameters shared by the layers of the client:
    src/mms/iso_common/iso_connection_parameters.[ch]. *)
From stdpp Require Import base tactics list numbers option.
From S2P Require Import Prelude Memory BerDecode BerEncode.

Inductive AcseAuthenticationMechanism := ACSE_AUTH_NONE | ACSE_AUTH_PASSWORD.

#[export] Instance AcseAuthenticationMechanism_eq_dec : EqDecision AcseAuthenticationMechanism.
Proof. solve_decision. Defined.

(** [value.password] of the union; it is meaningful for [ACSE_AUTH_PASSWORD]. *)
Record AcseAuthenticationParameter := mkAuthParameter {
  ap_mechanism : AcseAuthenticationMechanism;
  ap_octetString : option ptr;
  ap_passwordLength : Z }.

Definition AcseAuthenticationParameter_create : AcseAuthenticationParameter :=
  mkAuthParameter ACSE_AUTH_NONE None 0.

(** [password] is the C string without its null byte; it is copied. *)
Definition AcseAuthenticationParameter_setPassword (self : AcseAuthenticationParameter)
    (password : list Z) : AcseAuthenticationParameter :=
  mkAuthParameter (ap_mechanism self) (Some (mk_ptr (password ++ [0]) 0)) (zlen password).

Definition AcseAuthenticationParameter_setAuthMechanism (self : AcseAuthenticationParameter)
    (mechanism : AcseAuthenticationMechanism) : AcseAuthenticationParameter :=
  mkAuthParameter mechanism (ap_octetString self) (ap_passwordLength self).

Record IsoConnectionParameters := mkIsoParameters {
  ip_acseAuthParameter : option AcseAuthenticationParameter;
  ip_hostname : list Z;
  ip_tcpPort : Z;
  ip_remoteApTitle : list Z;      (* uint8_t[10] *)
  ip_remoteApTitleLen : Z;
  ip_remoteAEQualifier : Z;
  ip_remotePSelector : Z;         (* uint32_t *)
  ip_remoteSSelector : Z;         (* uint16_t *)
  ip_remoteTSelector : Z;         (* uint16_t *)
  ip_localApTitle : list Z;       (* uint8_t[10] *)
  ip_localApTitleLen : Z;
  ip_localAEQualifier : Z;
  ip_localPSelector : Z;          (* uint32_t *)
  ip_localSSelector : Z;          (* uint16_t *)
  ip_localTSelector : Z }.        (* uint16_t *)

Definition IsoConnectionParameters_create : IsoConnectionParameters :=
  mkIsoParameters None [] 0 (replicate 10 0) 0 0 0 0 0 (replicate 10 0) 0 0 0 0 0.

Definition IsoConnectionParameters_setAcseAuthenticationParameter
    (self : IsoConnectionParameters) (acseAuthParameter : option AcseAuthenticationParameter)
  : IsoConnectionParameters :=
  mkIsoParameters acseAuthParameter (ip_hostname self) (ip_tcpPort self)
    (ip_remoteApTitle self) (ip_remoteApTitleLen self) (ip_remoteAEQualifier self)
    (ip_remotePSelector self) (ip_remoteSSelector self) (ip_remoteTSelector self)
    (ip_localApTitle self) (ip_localApTitleLen self) (ip_localAEQualifier self)
    (ip_localPSelector self) (ip_localSSelector self) (ip_localTSelector self).

Definition IsoConnectionParameters_setTcpParameters (self : IsoConnectionParameters)
    (hostname : list Z) (tcpPort : Z) : IsoConnectionParameters :=
  mkIsoParameters (ip_acseAuthParameter self) hostname tcpPort
    (ip_remoteApTitle self) (ip_remoteApTitleLen self) (ip_remoteAEQualifier self)
    (ip_remotePSelector self) (ip_remoteSSelector self) (ip_remoteTSelector self)
    (ip_localApTitle self) (ip_localApTitleLen self) (ip_localAEQualifier self)
    (ip_localPSelector self) (ip_localSSelector self) (ip_localTSelector self).

(** The octets of an application title written over the array of ten. *)
Definition ap_title_store (array oid : list Z) : list Z := oid ++ drop (length oid) array.

Definition IsoConnectionParameters_setRemoteApTitle (self : IsoConnectionParameters)
    (apTitle : option (list Z)) (aeQualifier : Z) : IsoConnectionParameters :=
  let '(title, len, qualifier) :=
    match apTitle with
    | None => (ip_remoteApTitle self, 0, ip_remoteAEQualifier self)
    | Some apTitle =>
        let oid := BerEncoder_encodeOIDToBuffer apTitle 10 in
        (ap_title_store (ip_remoteApTitle self) oid, zlen oid, aeQualifier)
    end in
  mkIsoParameters (ip_acseAuthParameter self) (ip_hostname self) (ip_tcpPort self)
    title len qualifier
    (ip_remotePSelector self) (ip_remoteSSelector self) (ip_remoteTSelector self)
    (ip_localApTitle self) (ip_localApTitleLen self) (ip_localAEQualifier self)
    (ip_localPSelector self) (ip_localSSelector self) (ip_localTSelector self).

Definition IsoConnectionParameters_setRemoteAddresses (self : IsoConnectionParameters)
    (pSelector sSelector tSelector : Z) : IsoConnectionParameters :=
  mkIsoParameters (ip_acseAuthParameter self) (ip_hostname self) (ip_tcpPort self)
    (ip_remoteApTitle self) (ip_remoteApTitleLen self) (ip_remoteAEQualifier self)
    (u32 pSelector) (u16 sSelector) (u16 tSelector)
    (ip_localApTitle self) (ip_localApTitleLen self) (ip_localAEQualifier self)
    (ip_localPSelector self) (ip_localSSelector self) (ip_localTSelector self).

Definition IsoConnectionParameters_setLocalApTitle (self : IsoConnectionParameters)
    (apTitle : option (list Z)) (aeQualifier : Z) : IsoConnectionParameters :=
  let '(title, len, qualifier) :=
    match apTitle with
    | None => (ip_localApTitle self, 0, ip_localAEQualifier self)
    | Some apTitle =>
        let oid := BerEncoder_encodeOIDToBuffer apTitle 10 in
        (ap_title_store (ip_localApTitle self) oid, zlen oid, aeQualifier)
    end in
  mkIsoParameters (ip_acseAuthParameter self) (ip_hostname self) (ip_tcpPort self)
    (ip_remoteApTitle self) (ip_remoteApTitleLen self) (ip_remoteAEQualifier self)
    (ip_remotePSelector self) (ip_remoteSSelector self) (ip_remoteTSelector self)
    title len qualifier
    (ip_localPSelector self) (ip_localSSelector self) (ip_localTSelector self).

Definition IsoConnectionParameters_setLocalAddresses (self : IsoConnectionParameters)
    (pSelector sSelector tSelector : Z) : IsoConnectionParameters :=
  mkIsoParameters (ip_acseAuthParameter self) (ip_hostname self) (ip_tcpPort self)
    (ip_remoteApTitle self) (ip_remoteApTitleLen self) (ip_remoteAEQualifier self)
    (ip_remotePSelector self) (ip_remoteSSelector self) (ip_remoteTSelector self)
    (ip_localApTitle self) (ip_localApTitleLen self) (ip_localAEQualifier self)
    (u32 pSelector) (u16 sSelector) (u16 tSelector).

(** Parameters as the setters leave them. *)
Definition iso_params_wf (p : IsoConnectionParameters) : Prop :=
  length (ip_remoteApTitle p) = 10%nat /\ bytes (ip_remoteApTitle p) /\
  0 <= ip_remoteApTitleLen p <= 10 /\
  length (ip_localApTitle p) = 10%nat /\ bytes (ip_localApTitle p) /\
  0 <= ip_localApTitleLen p <= 10 /\
  0 <= ip_remotePSelector p < 4294967296 /\ 0 <= ip_localPSelector p < 4294967296 /\
  0 <= ip_remoteTSelector p < 65536 /\ 0 <= ip_localTSelector p < 65536.

(** ** The object identifier never outgrows its buffer *)

Lemma oid_groups_bound n val maxBufLen buffer buffer' :
  oid_groups n val maxBufLen buffer = Some buffer' ->
  zlen buffer <= maxBufLen -> bytes buffer ->
  zlen buffer <= zlen buffer' <= maxBufLen /\ bytes buffer'.
Proof.
  revert buffer. induction n as [|n IH]; intros buffer; cbn [oid_groups].
  - intros [= <-] H Hb. split; [lia|done].
  - destruct (Z.eqb_spec (zlen buffer) maxBufLen); [done|]. intros H Hl Hb. apply IH in H as [? ?].
    + split; [zl|done].
    + zl.
    + apply Forall_app; split; [done|]. apply Forall_singleton, u8_byte.
Qed.

Lemma oid_rest_bound fuel sep maxBufLen buffer buffer' :
  oid_rest fuel sep maxBufLen buffer = Some buffer' ->
  zlen buffer <= maxBufLen -> bytes buffer ->
  zlen buffer' <= maxBufLen /\ bytes buffer'.
Proof.
  revert sep buffer. induction fuel as [|n IH]; intros sep buffer; cbn [oid_rest].
  - intros [= <-] ? ?. by split.
  - destruct (after_dot sep) as [s|]; [|intros [= <-] ? ?; by split].
    destruct (oid_groups _ _ _ _) as [b|] eqn:E; [|done]. intros H Hl Hb.
    apply oid_groups_bound in E as [? ?]; [|done|done]. apply IH in H; [done|lia|done].
Qed.

Lemma encodeOID_bound oidString maxBufLen :
  0 <= maxBufLen -> zlen (BerEncoder_encodeOIDToBuffer oidString maxBufLen) <= maxBufLen /\
  bytes (BerEncoder_encodeOIDToBuffer oidString maxBufLen).
Proof.
  intros Hm. unfold BerEncoder_encodeOIDToBuffer.
  assert (zlen (@nil Z) <= maxBufLen /\ bytes []) as Hnil by (split; [zl|by constructor]).
  destruct (after_dot oidString) as [s|]; [|done]. zcase; [|done].
  destruct (oid_rest _ _ _ _) as [b|] eqn:E; [|done].
  apply oid_rest_bound in E; [done|zl|]. apply Forall_singleton, u8_byte.
Qed.

Lemma ap_title_store_wf array oid :
  length array = 10%nat -> bytes array -> zlen oid <= 10 -> bytes oid ->
  length (ap_title_store array oid) = 10%nat /\ bytes (ap_title_store array oid).
Proof.
  intros Hl Ha Ho Hb. unfold ap_title_store, zlen in *. split.
  - rewrite length_app, length_drop. lia.
  - apply Forall_app; split; [done|by apply Forall_drop].
Qed.

(** The setters keep the parameters well-formed, whatever title they are given. *)
Theorem IsoConnectionParameters_set_wf p apTitle aeQualifier pSel sSel tSel :
  iso_params_wf p ->
  iso_params_wf (IsoConnectionParameters_setRemoteApTitle p apTitle aeQualifier) /\
  iso_params_wf (IsoConnectionParameters_setLocalApTitle p apTitle aeQualifier) /\
  iso_params_wf (IsoConnectionParameters_setRemoteAddresses p pSel sSel tSel) /\
  iso_params_wf (IsoConnectionParameters_setLocalAddresses p pSel sSel tSel).
Proof.
  intros (H1 & H2 & H3 & H4 & H5 & H6 & H7 & H8 & H9 & H10).
  pose proof (u32_range pSel). pose proof (u16_range tSel).
  assert (forall title, zlen (BerEncoder_encodeOIDToBuffer title 10) <= 10 /\
    bytes (BerEncoder_encodeOIDToBuffer title 10)) as Hoid by (intros; by apply encodeOID_bound).
  repeat split; unfold IsoConnectionParameters_setRemoteApTitle,
    IsoConnectionParameters_setLocalApTitle;
    destruct apTitle as [title|]; simpl; try done; try lia;
    destruct (Hoid title); try (by apply ap_title_store_wf); zl.
Qed.

Lemma IsoConnectionParameters_set_wf_witness :
  iso_params_wf (IsoConnectionParameters_setRemoteApTitle IsoConnectionParameters_create
    (Some [49; 46; 49; 46; 57]) 12).
Proof.
  apply (IsoConnectionParameters_set_wf IsoConnectionParameters_create (Some [49; 46; 49; 46; 57]) 12 1 1 1).
  unfold iso_params_wf. simpl. repeat split; try lia; by repeat constructor.
Defined.

