(* ===== verification/ByteStream.v ===== *)
(** Sockets and the blocking byte stream: src/hal/socket/linux/socket_linux.c
    ([Socket_read], [Socket_write]) and src/common/byte_stream.c. *)
From stdpp Require Import base tactics list numbers option.
From S2P Require Import Prelude Memory.

(** * Sockets

    What the operating system will do is listed in advance: [so_rx] holds the
    outcomes of the coming calls of [read] -- a segment of data, no data yet
    (EAGAIN), or an error -- and nothing more arrives before the read timeout
    when the list is used up.  [so_wr] holds the results of the coming calls of
    [send]; with an empty list every byte is accepted. *)
Inductive rx_event := RxData (bs : list Z) | RxAgain | RxError.

Record Socket := mkSocket {
  so_open : bool;                  (* fd != -1 *)
  so_rx : list rx_event;
  so_wr : list Z;
  so_tx : list (list Z) }.         (* what was sent, one entry per call *)

Definition so_set_rx (self : Socket) (rx : list rx_event) : Socket :=
  mkSocket (so_open self) rx (so_wr self) (so_tx self).

(** One [read] of at most [size > 0] bytes: the bytes or [None] for -1, and what
    is left of the event. *)
Definition Socket_read (size : Z) (ev : rx_event) : option (list Z) * list rx_event :=
  match ev with
  | RxAgain => (Some [], [])
  | RxError => (None, [])
  | RxData bs =>
      if zlen bs <=? size then (Some bs, [])
      else (Some (take (Z.to_nat size) bs), [RxData (drop (Z.to_nat size) bs)])
  end.

Definition Socket_write (self : Socket) (buf : list Z) : Z * Socket :=
  if so_open self then
    let '(n, wr) := match so_wr self with
                    | [] => (zlen buf, [])
                    | k :: wr => (Z.min k (zlen buf), wr)
                    end in
    (n, mkSocket true (so_rx self) wr (so_tx self ++ [take (Z.to_nat n) buf]))
  else (-1, self).

(** * ByteStream

    The loops go around as long as [read] returns no data and the timeout has
    not passed. *)
Fixpoint readUint8_loop (rx : list rx_event) : option Z * list rx_event :=
  match rx with
  | [] => (None, [])
  | ev :: rest =>
      let '(r, pending) := Socket_read 1 ev in
      match r with
      | None => (None, pending ++ rest)
      | Some [] => readUint8_loop rest
      | Some (b :: _) => (Some b, pending ++ rest)
      end
  end.

(** The byte, or [None] for -1. *)
Definition ByteStream_readUint8 (self : Socket) : option Z * Socket :=
  if so_open self then
    let '(r, rx) := readUint8_loop (so_rx self) in (r, so_set_rx self rx)
  else (None, self).

(** [byte] holds the bytes read so far; every [read] asks for two bytes at
    [byte + bytes_read], which may run past the end of the array of two. *)
Fixpoint readUint16_loop (rx : list rx_event) (byte : list Z)
  : res (list Z * list rx_event) :=
  match rx with
  | [] => Done (byte, [])
  | ev :: rest =>
      let '(r, pending) := Socket_read 2 ev in
      match r with
      | None => Done (byte, pending ++ rest)
      | Some bs =>
          if 2 <? zlen byte + zlen bs then Ub
          else
            let byte := byte ++ bs in
            if zlen byte <? 2 then readUint16_loop rest byte
            else Done (byte, pending ++ rest)
      end
  end.

Definition ByteStream_readUint16 (self : Socket) : res (option Z * Socket) :=
  if so_open self then
    let! (byte, rx) := readUint16_loop (so_rx self) [] in
    match byte with
    | [b0; b1] => Done (Some (b0 * 0x100 + b1), so_set_rx self rx)
    | _ => Done (None, so_set_rx self rx)
    end
  else Done (None, self).

(** The bytes read; the C function returns their number. [None] is -1. *)
Fixpoint readOctets_loop (rx : list rx_event) (size : Z) (readBytes : list Z)
  : option (list Z) * list rx_event :=
  match rx with
  | [] => (Some readBytes, [])
  | ev :: rest =>
      let '(r, pending) := Socket_read (size - zlen readBytes) ev in
      match r with
      | None => (None, pending ++ rest)
      | Some bs =>
          let readBytes := readBytes ++ bs in
          if zlen readBytes <? size then readOctets_loop rest size readBytes
          else (Some readBytes, pending ++ rest)
      end
  end.

(** A [read] of a negative [int], converted to a huge [size_t], fails (EFAULT);
    a [read] of no bytes returns 0 at once. *)
Definition ByteStream_readOctets (self : Socket) (size : Z) : option (list Z) * Socket :=
  if so_open self then
    if size <? 0 then (None, self)
    else if size =? 0 then (Some [], self)
    else
      let '(r, rx) := readOctets_loop (so_rx self) size [] in (r, so_set_rx self rx)
  else (None, self).

(** * Properties *)

(** The bytes that will arrive before an error. *)
Fixpoint rx_bytes (rx : list rx_event) : list Z :=
  match rx with
  | RxData bs :: rest => bs ++ rx_bytes rest
  | RxAgain :: rest => rx_bytes rest
  | RxError :: _ => []
  | [] => []
  end.

(** What is left of an event, and its bytes. *)
Lemma Socket_read_bytes size ev r pending rest :
  0 < size -> Socket_read size ev = (Some r, pending) ->
  r ++ rx_bytes (pending ++ rest) = rx_bytes (ev :: rest) /\ zlen r <= size /\
  (zlen r < size -> pending = []).
Proof.
  intros Hs. destruct ev as [bs| |]; simpl.
  - zcase; intros [= <- <-]; simpl.
    + repeat split; done.
    + rewrite app_assoc, take_drop. split; [done|]. unfold zlen in *. rewrite length_take. lia.
  - intros [= <- <-]. simpl. split; [done|]. split; [zl|done].
  - done.
Qed.

(** Octets are read completely however they are cut into segments. *)
Lemma readOctets_loop_spec rx size acc :
  zlen acc < size -> size <= zlen acc + zlen (rx_bytes rx) ->
  exists rx', readOctets_loop rx size acc
    = (Some (acc ++ take (Z.to_nat (size - zlen acc)) (rx_bytes rx)), rx') /\
    rx_bytes rx' = drop (Z.to_nat (size - zlen acc)) (rx_bytes rx).
Proof.
  revert acc. induction rx as [|ev rest IH]; intros acc Ha Hl; [simpl in Hl; zl|].
  cbn [readOctets_loop]. destruct (Socket_read (size - zlen acc) ev) as [[bs|] pending] eqn:E.
  - apply (Socket_read_bytes _ _ _ _ rest) in E as (Hb & Hle & Hleft); [|lia].
    rewrite <- Hb in Hl |- *. rewrite zlen_app. zcase.
    + rewrite (Hleft ltac:(lia)) in *. simpl in *. rewrite zlen_app in Hl.
      destruct (IH (acc ++ bs)) as (rx' & Hr & Hd); [zl|zl|].
      exists rx'. rewrite Hr, Hd, zlen_app, <- app_assoc. unfold zlen in *.
      rewrite take_app_ge, drop_app_ge by lia.
      replace (Z.to_nat (size - Z.of_nat (length acc)) - length bs)%nat
        with (Z.to_nat (size - (Z.of_nat (length acc) + Z.of_nat (length bs)))) by lia.
      done.
    + eexists. unfold zlen in *.
      rewrite take_app_length', drop_app_length' by lia. done.
  - exfalso. destruct ev; simpl in E; [by destruct (_ <=? _)|done|]. simpl in Hl. zl.
Qed.

(** A byte is read from the head of the stream. *)
Lemma readUint8_loop_spec rx b bs :
  rx_bytes rx = b :: bs -> exists rx', readUint8_loop rx = (Some b, rx') /\ rx_bytes rx' = bs.
Proof.
  induction rx as [|ev rest IH]; [done|]. cbn [readUint8_loop]. intros Hrx.
  destruct (Socket_read 1 ev) as [[r|] pending] eqn:E.
  - apply (Socket_read_bytes _ _ _ _ rest) in E as (Hb & Hle & Hleft); [|lia].
    rewrite <- Hb in Hrx. destruct r as [|c r].
    + rewrite (Hleft ltac:(done)) in Hrx. by apply IH.
    + simpl in Hrx. simplify_eq. exists (pending ++ rest). split; [done|].
      destruct r; [done|]. rewrite !zlen_cons in Hle. zl.
  - destruct ev; simpl in E, Hrx; [by destruct (_ <=? _)|done|done].
Qed.

(** The first event with data has at least two bytes: the case in which reading
    a 16-bit value is safe. *)
Fixpoint rx_ready16 (rx : list rx_event) : Prop :=
  match rx with
  | RxData [] :: rest => rx_ready16 rest
  | RxData (_ :: _ :: _) :: _ => True
  | RxAgain :: rest => rx_ready16 rest
  | _ => False
  end.

Lemma readUint16_loop_spec rx b0 b1 bs :
  rx_ready16 rx -> rx_bytes rx = b0 :: b1 :: bs ->
  exists rx', readUint16_loop rx [] = Done ([b0; b1], rx') /\ rx_bytes rx' = bs.
Proof.
  induction rx as [|ev rest IH]; [done|]. intros Hr Hrx.
  destruct ev as [[|c0 [|c1 cs]]| |]; try done.
  - by apply IH.
  - simpl in Hrx. simplify_eq. cbn [readUint16_loop Socket_read]. rewrite !zlen_cons.
    destruct (Z.leb_spec (1 + (1 + zlen cs)) 2).
    + destruct cs; [|rewrite zlen_cons in *; zl]. simpl. by eexists.
    + change (Z.to_nat 2) with 2%nat. simpl. by eexists.
  - by apply IH.
Qed.
