(* ===== verification/Cotp.v ===== *)
(** The connection oriented transport protocol on TCP (RFC 1006):
    src/mms/iso_cotp/cotp.c, with CONFIG_COTP_MAX_TPDU_SIZE = 8192. *)
From stdpp Require Import base tactics list numbers option.
From S2P Require Import Prelude Memory Buffers IsoParams ByteStream.

(** * State *)

Definition COTP_RFC1006_HEADER_SIZE : Z := 4.
Definition COTP_DATA_HEADER_SIZE : Z := 3.
Definition COTP_MAX_TPDU_SIZE : Z := 8192.

Record CotpOptions := mkOptions {
  tsap_id_src : Z;     (* int32_t, -1: absent *)
  tsap_id_dst : Z;     (* int32_t, -1: absent *)
  tpdu_size : Z }.     (* uint8_t, the exponent *)

Record CotpConnection := mkCotp {
  c_state : Z;
  c_srcRef : Z;
  c_dstRef : Z;
  c_protocolClass : Z;
  c_socket : Socket;
  c_options : CotpOptions;
  c_isLastDataUnit : bool;
  c_payload : ByteBuffer;
  c_writeBuffer : option ByteBuffer }.

Inductive CotpIndication :=
  OK | ERROR | CONNECT_INDICATION | DATA_INDICATION | DISCONNECT_INDICATION.

#[export] Instance CotpIndication_eq_dec : EqDecision CotpIndication.
Proof. solve_decision. Defined.

Definition set_socket (s : Socket) (c : CotpConnection) : CotpConnection :=
  mkCotp (c_state c) (c_srcRef c) (c_dstRef c) (c_protocolClass c) s (c_options c)
    (c_isLastDataUnit c) (c_payload c) (c_writeBuffer c).
Definition set_srcRef (v : Z) (c : CotpConnection) : CotpConnection :=
  mkCotp (c_state c) v (c_dstRef c) (c_protocolClass c) (c_socket c) (c_options c)
    (c_isLastDataUnit c) (c_payload c) (c_writeBuffer c).
Definition set_dstRef (v : Z) (c : CotpConnection) : CotpConnection :=
  mkCotp (c_state c) (c_srcRef c) v (c_protocolClass c) (c_socket c) (c_options c)
    (c_isLastDataUnit c) (c_payload c) (c_writeBuffer c).
Definition set_protocolClass (v : Z) (c : CotpConnection) : CotpConnection :=
  mkCotp (c_state c) (c_srcRef c) (c_dstRef c) v (c_socket c) (c_options c)
    (c_isLastDataUnit c) (c_payload c) (c_writeBuffer c).
Definition set_options (o : CotpOptions) (c : CotpConnection) : CotpConnection :=
  mkCotp (c_state c) (c_srcRef c) (c_dstRef c) (c_protocolClass c) (c_socket c) o
    (c_isLastDataUnit c) (c_payload c) (c_writeBuffer c).
Definition set_isLastDataUnit (b : bool) (c : CotpConnection) : CotpConnection :=
  mkCotp (c_state c) (c_srcRef c) (c_dstRef c) (c_protocolClass c) (c_socket c)
    (c_options c) b (c_payload c) (c_writeBuffer c).
Definition set_payload (p : ByteBuffer) (c : CotpConnection) : CotpConnection :=
  mkCotp (c_state c) (c_srcRef c) (c_dstRef c) (c_protocolClass c) (c_socket c)
    (c_options c) (c_isLastDataUnit c) p (c_writeBuffer c).
Definition set_writeBuffer (w : option ByteBuffer) (c : CotpConnection) : CotpConnection :=
  mkCotp (c_state c) (c_srcRef c) (c_dstRef c) (c_protocolClass c) (c_socket c)
    (c_options c) (c_isLastDataUnit c) (c_payload c) w.

Definition set_tsap_src (v : Z) (c : CotpConnection) : CotpConnection :=
  set_options (mkOptions v (tsap_id_dst (c_options c)) (tpdu_size (c_options c))) c.
Definition set_tsap_dst (v : Z) (c : CotpConnection) : CotpConnection :=
  set_options (mkOptions (tsap_id_src (c_options c)) v (tpdu_size (c_options c))) c.

(** * TPDU size *)

Definition CotpConnection_getTpduSize (self : CotpConnection) : Z :=
  Z.shiftl 1 (tpdu_size (c_options self)).

(** [while ((1 << newTpduSize) < tpduSize) newTpduSize++]: since [tpduSize] is at
    most 8192 the loop ends below 14. *)
Fixpoint setTpduSize_loop (fuel : nat) (newTpduSize tpduSize : Z) : Z :=
  match fuel with
  | O => newTpduSize
  | S n =>
      if Z.shiftl 1 newTpduSize <? tpduSize
      then setTpduSize_loop n (newTpduSize + 1) tpduSize else newTpduSize
  end.

Definition tpdu_exponent (tpduSize : Z) : Z :=
  let newTpduSize := 1 in
  let tpduSize := if COTP_MAX_TPDU_SIZE <? tpduSize then COTP_MAX_TPDU_SIZE else tpduSize in
  let newTpduSize := setTpduSize_loop 31 newTpduSize tpduSize in
  if tpduSize <? Z.shiftl 1 newTpduSize then newTpduSize - 1 else newTpduSize.

Definition CotpConnection_setTpduSize (self : CotpConnection) (tpduSize : Z) : CotpConnection :=
  set_options (mkOptions (tsap_id_src (c_options self)) (tsap_id_dst (c_options self))
    (u8 (tpdu_exponent tpduSize))) self.

Definition CotpConnection_init (self : CotpConnection) (socket : Socket)
    (payloadBuffer : ByteBuffer) : CotpConnection :=
  let self := mkCotp 0 (-1) (-1) (-1) socket (mkOptions (-1) (-1) 0)
                (c_isLastDataUnit self) payloadBuffer (c_writeBuffer self) in
  let self := CotpConnection_setTpduSize self COTP_MAX_TPDU_SIZE in
  set_writeBuffer None self.

(** The connection as [calloc] leaves it. *)
Definition Cotp_calloc : CotpConnection :=
  mkCotp 0 0 0 0 (mkSocket false [] [] []) (mkOptions 0 0 0) false ByteBuffer_null None.

Definition CotpConnection_getPayload (self : CotpConnection) : ByteBuffer := c_payload self.
Definition CotpConnection_getSrcRef (self : CotpConnection) : Z := c_srcRef self.
Definition CotpConnection_getDstRef (self : CotpConnection) : Z := c_dstRef self.

(** * Writing *)

(** Run code that writes [self->writeBuffer->buffer] from [bufPos] on and store
    the position it ends with in [self->writeBuffer->size]. *)
Definition with_writeBuffer (self : CotpConnection) (c : Z -> W Z) : res CotpConnection :=
  let! wb := defined (c_writeBuffer self) in
  let! p := defined (bb_buffer wb) in
  let! (bufPos, m) := c (bb_size wb) (p_mem p) in
  Done (set_writeBuffer (Some (mkByteBuffer (Some (mk_ptr m (p_base p)))
    (bb_maxSize wb) bufPos)) self).

(** The base address of the write buffer is 0: it is allocated by
    [ByteBuffer_create] and never moved. *)
Definition option_tpdu (o : CotpOptions) (bufPos : Z) : W Z :=
  if negb (tpdu_size o =? 0) then
    let* bufPos := put 0xc0 0 bufPos in
    let* bufPos := put 0x01 0 bufPos in
    put (tpdu_size o) 0 bufPos
  else wret bufPos.

Definition option_tsap (code id bufPos : Z) : W Z :=
  if negb (id =? -1) then
    let* bufPos := put code 0 bufPos in
    let* bufPos := put 0x02 0 bufPos in
    let* bufPos := put (Z.quot id 0x100) 0 bufPos in
    put (Z.land id 0xff) 0 bufPos
  else wret bufPos.

Definition writeOptions (self : CotpConnection) : res CotpConnection :=
  with_writeBuffer self (fun bufPos =>
    let* bufPos := option_tpdu (c_options self) bufPos in
    let* bufPos := option_tsap 0xc2 (tsap_id_dst (c_options self)) bufPos in
    option_tsap 0xc1 (tsap_id_src (c_options self)) bufPos).

Definition getOptionsLength (self : CotpConnection) : Z :=
  (if negb (tpdu_size (c_options self) =? 0) then 3 else 0) +
  (if negb (tsap_id_dst (c_options self) =? -1) then 4 else 0) +
  (if negb (tsap_id_src (c_options self) =? -1) then 4 else 0).

(** [buffer[i] = v] for consecutive positions from 4 on. *)
Definition writeStaticConnectResponseHeader (self : CotpConnection) (optionsLength : Z)
  : res CotpConnection :=
  with_writeBuffer self (fun _ =>
    let* bufPos := put (6 + optionsLength) 0 4 in
    let* bufPos := put 0xd0 0 bufPos in
    let* bufPos := put (Z.quot (c_srcRef self) 0x100) 0 bufPos in
    let* bufPos := put (Z.land (c_srcRef self) 0xff) 0 bufPos in
    let* bufPos := put (Z.quot (c_dstRef self) 0x100) 0 bufPos in
    let* bufPos := put (Z.land (c_dstRef self) 0xff) 0 bufPos in
    put (c_protocolClass self) 0 bufPos).

Definition writeRfc1006Header (self : CotpConnection) (len : Z) : res CotpConnection :=
  with_writeBuffer self (fun _ =>
    let* bufPos := put 0x03 0 0 in
    let* bufPos := put 0x00 0 bufPos in
    let* bufPos := put (Z.quot len 0x100) 0 bufPos in
    put (Z.land len 0xff) 0 bufPos).

Definition writeDataTpduHeader (self : CotpConnection) (isLastUnit : bool)
  : res CotpConnection :=
  with_writeBuffer self (fun _ =>
    let* bufPos := put 0x02 0 4 in
    let* bufPos := put 0xf0 0 bufPos in
    put (if isLastUnit then 0x80 else 0x00) 0 bufPos).

Definition sendBuffer (self : CotpConnection) : res (bool * CotpConnection) :=
  let! wb := defined (c_writeBuffer self) in
  let! p := defined (bb_buffer wb) in
  let writeBufferPosition := ByteBuffer_getSize wb in
  let! buf := rd_list p 0 writeBufferPosition in
  let '(n, socket) := Socket_write (c_socket self) buf in
  let retVal := n =? writeBufferPosition in
  let '(_, wb) := ByteBuffer_setSize wb 0 in
  Done (retVal, set_writeBuffer (Some wb) (set_socket socket self)).

Definition allocateWriteBuffer (self : CotpConnection) : CotpConnection :=
  match c_writeBuffer self with
  | None => set_writeBuffer (Some (ByteBuffer_create
              (CotpConnection_getTpduSize self + COTP_RFC1006_HEADER_SIZE))) self
  | Some _ => self
  end.

(** ** Data TPDUs *)

(** The inner loop of [CotpConnection_sendDataMessage]: [n] bytes of the chain,
    from byte [currentChainIndex] of its current part on. *)
Fixpoint copy_chain (n : nat) (send : list Z) (currentChain : BufferChain)
    (currentChainIndex bufPos : Z) : W (BufferChain * Z * Z) :=
  match n with
  | O => wret (currentChain, currentChainIndex, bufPos)
  | S n => fun m =>
      let! part := defined (head currentChain) in
      let '(currentChain, currentChainIndex) :=
        if bp_partLength part <=? currentChainIndex then (tail currentChain, 0)
        else (currentChain, currentChainIndex) in
      let! part := defined (head currentChain) in
      let! b := rd (bref_ptr send (bp_buffer part)) currentChainIndex in
      (let* bufPos := put b 0 bufPos in
       copy_chain n send currentChain (currentChainIndex + 1) bufPos) m
  end.

(** The outer loop: one TPDU per round. *)
Fixpoint sendFragments (fragments : nat) (self : CotpConnection) (send : list Z)
    (payloadLength fragmentPayloadSize : Z) (currentChain : BufferChain)
    (currentChainIndex currentBufPos : Z) : res (CotpIndication * CotpConnection) :=
  match fragments with
  | O => Done (OK, self)
  | S n =>
      let currentLimit := if 1 <? Z.of_nat (S n) then currentBufPos + fragmentPayloadSize
                          else payloadLength in
      let lastUnit := negb (1 <? Z.of_nat (S n)) in
      let! self := writeRfc1006Header self (7 + (currentLimit - currentBufPos)) in
      let! self := writeDataTpduHeader self lastUnit in
      let! wb := defined (c_writeBuffer self) in
      let! p := defined (bb_buffer wb) in
      let count := Z.to_nat (currentLimit - currentBufPos) in
      let! (currentChain, currentChainIndex, bufPos, m) :=
        copy_chain count send currentChain currentChainIndex 7 (p_mem p) in
      let self := set_writeBuffer (Some (mkByteBuffer (Some (mk_ptr m (p_base p)))
                    (bb_maxSize wb) bufPos)) self in
      let! (sent, self) := sendBuffer self in
      if sent then
        sendFragments n self send payloadLength fragmentPayloadSize
          currentChain currentChainIndex (currentBufPos + Z.of_nat count)
      else Done (ERROR, self)
  end.

Definition CotpConnection_sendDataMessage (self : CotpConnection) (send : list Z)
    (payload : BufferChain) : res (CotpIndication * CotpConnection) :=
  let fragmentPayloadSize := CotpConnection_getTpduSize self - COTP_DATA_HEADER_SIZE in
  let! payloadLength := chain_length payload in
  let fragments :=
    if fragmentPayloadSize <? payloadLength then
      let fragments := Z.quot payloadLength fragmentPayloadSize in
      if negb (Z.rem payloadLength fragmentPayloadSize =? 0) then fragments + 1 else fragments
    else 1 in
  let! _ := defined (c_writeBuffer self) in
  sendFragments (Z.to_nat fragments) self send payloadLength fragmentPayloadSize payload 0 0.

(** ** Connection requests and responses *)

Definition CotpConnection_sendConnectionRequestMessage (self : CotpConnection)
    (isoParameters : IsoConnectionParameters) : res (CotpIndication * CotpConnection) :=
  let self := allocateWriteBuffer self in
  let CON_REQUEST_SIZE := 22 in
  let! wb := defined (c_writeBuffer self) in
  if bb_maxSize wb <? CON_REQUEST_SIZE then Done (ERROR, self) else
  let! self := writeRfc1006Header self CON_REQUEST_SIZE in
  let! self := with_writeBuffer self (fun _ =>
    let* bufPos := put 17 0 4 in     (* LI *)
    let* bufPos := put 0xe0 0 bufPos in  (* TPDU CODE *)
    let* bufPos := put 0x00 0 bufPos in  (* DST REF *)
    let* bufPos := put 0x00 0 bufPos in
    let* bufPos := put 0x00 0 bufPos in  (* SRC REF *)
    let* bufPos := put 0x02 0 bufPos in
    put 0x00 0 bufPos) in                (* Class *)
  let self := set_tsap_dst (ip_remoteTSelector isoParameters) self in
  let self := set_tsap_src 0 self in
  let! self := writeOptions self in
  let! (sent, self) := sendBuffer self in
  Done (if sent then OK else ERROR, self).

Definition CotpConnection_sendConnectionResponseMessage (self : CotpConnection)
  : res (CotpIndication * CotpConnection) :=
  let self := allocateWriteBuffer self in
  let optionsLength := getOptionsLength self in
  let messageLength := 11 + optionsLength in
  let! self := writeRfc1006Header self messageLength in
  let! self := writeStaticConnectResponseHeader self optionsLength in
  let! self := writeOptions self in
  let! (sent, self) := sendBuffer self in
  Done (if sent then OK else ERROR, self).

(** * Reading *)

Definition cotp_readUint8 (self : CotpConnection) : option Z * CotpConnection :=
  let '(r, socket) := ByteStream_readUint8 (c_socket self) in (r, set_socket socket self).

Definition cotp_readUint16 (self : CotpConnection) : res (option Z * CotpConnection) :=
  let! (r, socket) := ByteStream_readUint16 (c_socket self) in
  Done (r, set_socket socket self).

(** The loop that skips an unknown option, one byte per round. *)
Fixpoint skip_option (n : nat) (self : CotpConnection) : bool * CotpConnection :=
  match n with
  | O => (true, self)
  | S n =>
      let '(r, self) := cotp_readUint8 self in
      match r with
      | None => (false, self)
      | Some _ => skip_option n self
      end
  end.

(** One round of [parseOptions]; leaving with -1 is the label [cpo_error]. *)
Definition parseOptions_body (opt_len : Z) (st : CotpConnection * Z)
  : res (ctl (CotpConnection * Z) (Z * CotpConnection)) :=
  let '(self, read_bytes) := st in
  let '(r, self) := cotp_readUint8 self in
  match r with None => Done (Ret (-1, self)) | Some option_type =>
  let '(r, self) := cotp_readUint8 self in
  match r with None => Done (Ret (-1, self)) | Some option_len =>
  let read_bytes := read_bytes + 2 in
  if option_type =? 0xc0 then
    let '(r, self) := cotp_readUint8 self in
    match r with None => Done (Ret (-1, self)) | Some uint8_value =>
    let read_bytes := read_bytes + 1 in
    if 32 <=? uint8_value then Ub else
    let requestedTpduSize := i32 (Z.shiftl 1 uint8_value) in
    Done (Next (CotpConnection_setTpduSize self requestedTpduSize, read_bytes))
    end
  else if option_type =? 0xc1 then
    if option_len =? 2 then
      let! (r, self) := cotp_readUint16 self in
      match r with None => Done (Ret (-1, self)) | Some uint16_value =>
      Done (Next (set_tsap_src uint16_value self, read_bytes + 2)) end
    else Done (Ret (-1, self))
  else if option_type =? 0xc2 then
    if option_len =? 2 then
      let! (r, self) := cotp_readUint16 self in
      match r with None => Done (Ret (-1, self)) | Some uint16_value =>
      Done (Next (set_tsap_dst uint16_value self, read_bytes + 2)) end
    else Done (Ret (-1, self))
  else if option_type =? 0xc6 then
    if option_len =? 1 then
      let '(_, self) := cotp_readUint8 self in (* ignore value *)
      Done (Next (self, read_bytes + 1))
    else Done (Ret (-1, self))
  else
    let '(ok, self) := skip_option (Z.to_nat opt_len) self in
    if ok then Done (Next (self, read_bytes + opt_len)) else Done (Ret (-1, self))
  end end.

Definition parseOptions (self : CotpConnection) (opt_len : Z) : res (Z * CotpConnection) :=
  let! c := while (fun st => snd st <? opt_len) (parseOptions_body opt_len)
              (Z.to_nat opt_len) (self, 0) in
  match c with
  | Next (self, _) => Done (1, self)
  | Ret r => Done r
  end.

(** The references of a connect TPDU, stored by [first] and [second]. *)
Definition parseConnectTpdu (first second : Z -> CotpConnection -> CotpConnection)
    (self : CotpConnection) (len : Z) : res (Z * CotpConnection) :=
  let! (r, self) := cotp_readUint16 self in
  match r with None => Done (-1, self) | Some dstRef =>
  let self := first dstRef self in
  let! (r, self) := cotp_readUint16 self in
  match r with None => Done (-1, self) | Some srcRef =>
  let self := second srcRef self in
  let '(r, self) := cotp_readUint8 self in
  match r with None => Done (-1, self) | Some protocolClass =>
  let self := set_protocolClass protocolClass self in
  parseOptions self (len - 6)
  end end end.

Definition parseConnectRequestTpdu (self : CotpConnection) (len : Z) : res (Z * CotpConnection) :=
  parseConnectTpdu set_dstRef set_srcRef self len.

Definition parseConnectConfirmTpdu (self : CotpConnection) (len : Z) : res (Z * CotpConnection) :=
  parseConnectTpdu set_srcRef set_dstRef self len.

Definition parseDataTpdu (self : CotpConnection) (len : Z) : Z * CotpConnection :=
  if negb (len =? 2) then (-1, self) else
  let '(r, self) := cotp_readUint8 self in
  match r with
  | None => (-1, self)
  | Some flowControl =>
      (1, set_isLastDataUnit (negb (Z.land flowControl 0x80 =? 0)) self)
  end.

(** The length field, or [None] for [ERROR]. *)
Definition parseRFC1006Header (self : CotpConnection) : res (option Z * CotpConnection) :=
  let '(r, self) := cotp_readUint8 self in
  match r with None => Done (None, self) | Some b =>
  if negb (b =? 3) then Done (None, self) else
  let '(r, self) := cotp_readUint8 self in
  match r with None => Done (None, self) | Some b =>
  if negb (b =? 0) then Done (None, self) else
  cotp_readUint16 self
  end end.

(** [parse] is the call of [parseIncomingMessage] for the next TPDU. *)
Definition addPayloadToBuffer (parse : CotpConnection -> res (CotpIndication * CotpConnection))
    (self : CotpConnection) (rfc1006Length : Z) : res (Z * CotpConnection) :=
  let payloadLength := rfc1006Length - 7 in
  if bb_maxSize (c_payload self) <? bb_size (c_payload self) + payloadLength
  then Done (0, self) else
  let '(r, socket) := ByteStream_readOctets (c_socket self) payloadLength in
  let self := set_socket socket self in
  let bs := default [] r in
  let! payload := bb_store (c_payload self) (bb_size (c_payload self)) bs in
  let self := set_payload payload self in
  let readLength := match r with Some bs => zlen bs | None => -1 end in
  if negb (readLength =? payloadLength) then Done (0, self)
  else
    let self := set_payload (bb_set_size payload (bb_size payload + payloadLength)) self in
    if negb (c_isLastDataUnit self) then
      let! (indication, self) := parse self in
      Done (if bool_decide (indication = DATA_INDICATION) then 1 else 0, self)
    else Done (1, self).

Fixpoint parseIncomingMessage (fuel : nat) (self : CotpConnection)
  : res (CotpIndication * CotpConnection) :=
  match fuel with
  | O => NoFuel
  | S n =>
      let! (rfc1006Length, self) := parseRFC1006Header self in
      match rfc1006Length with None => Done (ERROR, self) | Some rfc1006Length =>
      let '(len, self) := cotp_readUint8 self in
      match len with None => Done (ERROR, self) | Some len =>
      let '(tpduType, self) := cotp_readUint8 self in
      match tpduType with None => Done (ERROR, self) | Some tpduType =>
      if tpduType =? 0xe0 then
        let! (r, self) := parseConnectRequestTpdu self len in
        Done (if r =? 1 then CONNECT_INDICATION else ERROR, self)
      else if tpduType =? 0xd0 then
        let self := set_isLastDataUnit true self in
        let! (r, self) := parseConnectConfirmTpdu self len in
        Done (if r =? 1 then CONNECT_INDICATION else ERROR, self)
      else if tpduType =? 0xf0 then
        let '(r, self) := parseDataTpdu self len in
        if r =? 1 then
          let! (r, self) := addPayloadToBuffer (parseIncomingMessage n) self rfc1006Length in
          Done (if r =? 1 then DATA_INDICATION else ERROR, self)
        else Done (ERROR, self)
      else Done (ERROR, self)
      end end end
  end.

Definition CotpConnection_parseIncomingMessage (fuel : nat) (self : CotpConnection)
  : res (CotpIndication * CotpConnection) :=
  parseIncomingMessage fuel (set_payload (bb_set_size (c_payload self) 0) self).
