(* ===== verification/CotpFacts.v ===== *)
(** Properties of the transport protocol: TPDU sizes, segmentation and
    reassembly, the connection handshake, and the ways its parser can be led
    astray. *)
From stdpp Require Import base tactics list numbers option.
From S2P Require Import Prelude Memory Buffers IsoParams ByteStream Cotp.

(** * TPDU size *)

Lemma setTpduSize_loop_spec fuel n size :
  0 <= n -> size <= 2 ^ (n + Z.of_nat fuel) -> (n = 1 \/ 2 ^ (n - 1) < size) ->
  exists k, setTpduSize_loop fuel n size = k /\ n <= k <= n + Z.of_nat fuel /\
    size <= 2 ^ k /\ (k = 1 \/ 2 ^ (k - 1) < size).
Proof.
  revert n. induction fuel as [|f IH]; intros n Hn Hf Hlow.
  - simpl. rewrite Z.add_0_r in Hf. exists n. repeat split; [lia|lia|done|done].
  - cbn [setTpduSize_loop]. rewrite Z.shiftl_1_l. zcase.
    + destruct (IH (n + 1)) as (k & -> & Hk & Hs & Hl).
      * lia.
      * replace (n + 1 + Z.of_nat f) with (n + Z.of_nat (S f)) by lia. done.
      * right. by replace (n + 1 - 1) with n by lia.
      * exists k. repeat split; [lia|lia|done|done].
    + exists n. repeat split; [lia|lia|done|done].
Qed.

(** The exponent is the logarithm of the size, which is limited to the maximum. *)
Lemma tpdu_exponent_log2 size :
  1 <= size -> tpdu_exponent size = Z.log2 (Z.min size COTP_MAX_TPDU_SIZE).
Proof.
  intros Hs. unfold tpdu_exponent, COTP_MAX_TPDU_SIZE.
  replace (if 8192 <? size then 8192 else size) with (Z.min size 8192) by (zcase; lia).
  set (s := Z.min size 8192). assert (1 <= s <= 8192) as Hb by lia.
  destruct (setTpduSize_loop_spec 31 1 s) as (k & -> & Hk & Hle & Hlow).
  - lia.
  - change (2 ^ (1 + Z.of_nat 31)) with 4294967296. lia.
  - by left.
  - rewrite Z.shiftl_1_l. symmetry. destruct (Z.ltb_spec s (2 ^ k)); apply Z.log2_unique.
    + lia.
    + replace (Z.succ (k - 1)) with k by lia.
      destruct Hlow as [->|Hlow]; [simpl; lia|lia].
    + lia.
    + rewrite Z.pow_succ_r by lia. lia.
Qed.

Lemma tpdu_exponent_range size : 1 <= size -> 0 <= tpdu_exponent size <= 13.
Proof.
  intros Hs. rewrite tpdu_exponent_log2 by done. unfold COTP_MAX_TPDU_SIZE. split.
  - apply Z.log2_nonneg.
  - change 13 with (Z.log2 8192). apply Z.log2_le_mono. lia.
Qed.

(** * Segmentation *)

(** The connection with a write buffer of contents [mem] and [tx] sent. *)
Definition cotp_tx (self : CotpConnection) (mem : list Z) (tx : list (list Z))
  : CotpConnection :=
  set_writeBuffer (Some (mkByteBuffer (Some (mk_ptr mem 0)) (zlen mem) 0))
    (set_socket (mkSocket true (so_rx (c_socket self)) [] tx) self).

(** The seven header bytes of a data TPDU of [len] bytes in all. *)
Definition dt_header (len : Z) (last : bool) : list Z :=
  [0x03; 0x00; u8 (Z.quot len 0x100); u8 (Z.land len 0xff); 0x02; 0xf0;
   if last then 0x80 else 0x00].

Definition dt_frame (f : bool * list Z) : list Z :=
  dt_header (7 + zlen (snd f)) (fst f) ++ snd f.

(** The [k] pieces a payload is cut into: [n] bytes each, the rest in the last. *)
Fixpoint segments (k : nat) (n : nat) (bs : list Z) : list (bool * list Z) :=
  match k with
  | O => []
  | S O => [(true, bs)]
  | S k => (false, take n bs) :: segments k n (drop n bs)
  end.

(** The number of TPDUs for [len] bytes: one, or as many as hold them. *)
Definition fragment_count (len size : Z) : Z :=
  if size <? len then
    (if negb (Z.rem len size =? 0) then Z.quot len size + 1 else Z.quot len size)
  else 1.

(** The chain has [rem] left to send, starting at byte [idx] of its first part. *)
Definition chain_at (send : list Z) (c : BufferChain) (idx : Z) (rem : list Z) : Prop :=
  chain_ok send c /\ Forall (fun part => 0 < bp_partLength part) c /\
  match c with part :: _ => 0 <= idx <= bp_partLength part | [] => idx = 0 end /\
  rem = drop (Z.to_nat idx) (chain_bytes send c).

Lemma part_holds send part rest :
  chain_ok send (part :: rest) ->
  holds (bref_ptr send (bp_buffer part)) 0 (part_bytes send part) /\
  zlen (part_bytes send part) = bp_partLength part.
Proof.
  intros (Hb & Hp & Hl & _). unfold holds, part_bytes. rewrite !zlen_slice by lia.
  rewrite Z.add_0_r. repeat split; lia.
Qed.

Lemma holds_rd p pos bs i b :
  holds p pos bs -> bs !! i = Some b -> rd p (pos + Z.of_nat i) = Done b.
Proof.
  intros Hh Hi. pose proof (lookup_lt_Some _ _ _ Hi) as Hlt.
  unfold rd. apply ld_lookup; [destruct Hh; lia|].
  rewrite Z.add_assoc. by rewrite (holds_lookup _ _ _ _ Hh).
Qed.

Lemma chain_at_cons send part rest idx b rem :
  chain_at send (part :: rest) idx (b :: rem) -> idx < bp_partLength part ->
  rd (bref_ptr send (bp_buffer part)) idx = Done b /\
  chain_at send (part :: rest) (idx + 1) rem.
Proof.
  intros (Hok & Hpos & Hidx & Hrem) Hlt. destruct (part_holds _ _ _ Hok) as [Hh Hlen].
  rewrite chain_bytes_cons in Hrem.
  assert (part_bytes send part !! Z.to_nat idx = Some b) as Hb.
  { rewrite <- (lookup_app_l _ (chain_bytes send rest)) by (unfold zlen in Hlen; lia).
    rewrite <- (Nat.add_0_r (Z.to_nat idx)), <- lookup_drop, <- Hrem. done. }
  split.
  - pose proof (holds_rd _ _ _ _ _ Hh Hb) as Hrd. by rewrite Z.add_0_l, Z2Nat.id in Hrd by lia.
  - split; [done|]. split; [done|]. split; [lia|]. rewrite chain_bytes_cons.
    rewrite Z2Nat.inj_add, <- drop_drop, <- Hrem by lia. done.
Qed.

(** The copy loop emits the next [n] bytes of the chain. *)
Lemma copy_chain_emits send n c idx rem pos :
  bytes rem -> chain_at send c idx rem -> (n <= length rem)%nat ->
  exists c' idx', chain_at send c' idx' (drop n rem) /\
    Emits 0 pos (copy_chain n send c idx pos) (c', idx', pos + Z.of_nat n) (take n rem).
Proof.
  revert c idx rem pos. induction n as [|n IH]; intros c idx rem pos Hb Hat Hn.
  - exists c, idx. split; [done|]. simpl. rewrite take_0, Z.add_0_r. apply emits_ret.
  - destruct rem as [|b rem]; [simpl in Hn; lia|]. simpl in Hn.
    assert (exists c1 idx1, chain_at send c1 (idx1 + 1) rem /\
      copy_chain (S n) send c idx pos
      = let* bufPos := put b 0 pos in copy_chain n send c1 (idx1 + 1) bufPos)
      as (c1 & idx1 & Hat1 & ->).
    { destruct c as [|part rest].
      - destruct Hat as (_ & _ & -> & Hrem). done.
      - destruct (Z.leb_spec (bp_partLength part) idx) as [Hge|Hlt].
        + pose proof Hat as (Hok & Hpos & Hidx & Hrem).
          destruct (part_holds _ _ _ Hok) as [_ Hlen].
          rewrite chain_bytes_cons, drop_app_length' in Hrem by (unfold zlen in Hlen; lia).
          destruct rest as [|part2 rest2]; [done|].
          assert (chain_at send (part2 :: rest2) 0 (b :: rem)) as Hat2.
          { destruct Hok as (_ & _ & _ & _ & Hok). apply Forall_cons_1 in Hpos as [_ Hpos].
            pose proof (Forall_inv Hpos) as Hp2. cbv beta in Hp2.
            split; [done|]. split; [done|]. split; [lia|done]. }
          pose proof (Forall_inv (Forall_inv_tail Hpos)) as Hp2. cbv beta in Hp2.
          apply chain_at_cons in Hat2 as [Hrd Hat2]; [|lia].
          exists (part2 :: rest2), 0. split; [done|]. cbn [copy_chain head defined rbind].
          rewrite (proj2 (Z.leb_le (bp_partLength part) idx)) by done.
          cbn [head tail defined rbind]. rewrite Hrd. done.
        + apply chain_at_cons in Hat as [Hrd Hat2]; [|lia].
          exists (part :: rest), idx. split; [done|]. cbn [copy_chain head defined rbind].
          rewrite (proj2 (Z.leb_gt (bp_partLength part) idx)) by done.
          cbn [head tail defined rbind]. rewrite Hrd. done. }
    apply Forall_cons_1 in Hb as [Hb Hbs].
    destruct (IH c1 (idx1 + 1) rem (pos + 1) Hbs Hat1 ltac:(lia)) as (c' & idx' & Hat' & Hem).
    exists c', idx'. split; [done|].
    eapply emits_eq; [eapply emits_bind; [apply emits_put|exact Hem|done]| |].
    + f_equal. lia.
    + simpl. by rewrite u8_small.
Qed.

Lemma with_writeBuffer_emits self wb mem size (c : Z -> W Z) pos q bs :
  c_writeBuffer self = Some (mkByteBuffer (Some (mk_ptr mem 0)) wb size) ->
  Emits 0 pos (c size) q bs -> 0 <= pos -> pos + zlen bs <= zlen mem ->
  with_writeBuffer self c
  = Done (set_writeBuffer (Some (mkByteBuffer (Some (mk_ptr (splice mem pos bs) 0)) wb q)) self).
Proof.
  intros Hw Hem Hp Hl. unfold with_writeBuffer. rewrite Hw. simpl.
  by rewrite (emits_fit _ _ _ _ _ _ Hem) by zl.
Qed.

(** Sending what was written at the front of the write buffer. *)
Lemma sendBuffer_spec self mem size bs tx :
  c_writeBuffer self = Some (mkByteBuffer (Some (mk_ptr mem 0)) (zlen mem) size) ->
  c_socket self = mkSocket true (so_rx (c_socket self)) [] tx ->
  holds (mk_ptr mem 0) 0 bs -> size = zlen bs ->
  sendBuffer self = Done (true, cotp_tx self mem (tx ++ [bs])).
Proof.
  intros Hw Hs Hh ->. unfold sendBuffer. rewrite Hw. simpl.
  rewrite (holds_rd_list _ _ bs) by done. simpl. rewrite Hs. simpl.
  rewrite Z.eqb_refl. unfold ByteBuffer_setSize. simpl. zdec. simpl. unfold cotp_tx.
  rewrite (take_ge bs) by (unfold zlen; lia). done.
Qed.

(** One round: a complete TPDU is sent. *)
Lemma sendFragments_round n self send L size c idx rem mem tx (last := negb (1 <? Z.of_nat (S n))) k :
  bytes rem -> chain_at send c idx rem ->
  k = (if last then length rem else Z.to_nat size) -> (k <= length rem)%nat -> 0 < size ->
  7 + Z.of_nat k <= zlen mem -> zlen rem <= L ->
  exists c' idx' mem', chain_at send c' idx' (drop k rem) /\ zlen mem' = zlen mem /\
    sendFragments (S n) (cotp_tx self mem tx) send L size c idx (L - zlen rem)
    = sendFragments n (cotp_tx self mem' (tx ++ [dt_frame (last, take k rem)])) send L size
        c' idx' (L - zlen rem + Z.of_nat k).
Proof.
  intros Hb Hat Hk Hkle Hsz Hmem HL.
  destruct (copy_chain_emits send k c idx rem 7 Hb Hat Hkle) as (c' & idx' & Hat' & Hem).
  set (len := 7 + Z.of_nat k).
  assert (zlen (take k rem) = Z.of_nat k) as Hkl by (unfold zlen; rewrite length_take; lia).
  set (hdr1 := [0x03; 0x00; u8 (Z.quot len 0x100); u8 (Z.land len 0xff)]).
  set (hdr2 := [0x02; 0xf0; if last then 0x80 else 0x00] : list Z).
  set (mem1 := splice mem 0 hdr1). set (mem2 := splice mem1 4 hdr2).
  set (mem3 := splice mem2 7 (take k rem)).
  assert (zlen mem1 = zlen mem) as Hm1 by (apply zlen_splice; [lia|unfold hdr1; zl]).
  assert (zlen mem2 = zlen mem) as Hm2
    by (unfold mem2; rewrite zlen_splice; [lia|lia|unfold hdr2; zl]).
  assert (zlen mem3 = zlen mem) as Hm3 by (unfold mem3; rewrite zlen_splice; lia).
  assert (mem3 = splice mem 0 (dt_frame (last, take k rem))) as Hm.
  { assert (mem2 = splice mem 0 (hdr1 ++ hdr2)) as E2
      by (apply (splice_app mem 0 hdr1 hdr2); [lia|unfold hdr1, hdr2; zl]).
    unfold mem3. rewrite E2. unfold dt_frame, dt_header. simpl fst. simpl snd. rewrite Hkl.
    apply (splice_app mem 0 (hdr1 ++ hdr2)); [lia|unfold hdr1, hdr2; zl]. }
  exists c', idx', mem3. split; [done|]. split; [done|].
  cbn [sendFragments]. fold last.
  assert ((if 1 <? Z.of_nat (S n) then L - zlen rem + size else L) - (L - zlen rem)
          = Z.of_nat k) as Hlim.
  { unfold last in Hk. destruct (1 <? Z.of_nat (S n)); simpl in Hk; subst k; unfold zlen; lia. }
  rewrite Hlim.
  unfold writeRfc1006Header.
  erewrite with_writeBuffer_emits with (pos := 0) (q := 4) (bs := hdr1);
    [|done|emits_tac|lia|unfold hdr1; zl]. cbn [rbind].
  unfold writeDataTpduHeader.
  erewrite with_writeBuffer_emits with (pos := 4) (q := 7) (bs := hdr2);
    [|done|emits_tac; by destruct last|lia|fold mem1; unfold hdr2; zl]. cbn [rbind defined c_writeBuffer set_writeBuffer bb_buffer p_mem].
  fold mem1. fold mem2. rewrite Nat2Z.id.
  rewrite (emits_fit _ _ _ _ _ _ Hem) by zl. cbn [rbind]. change (0 + 7) with 7. fold mem3.
  erewrite (sendBuffer_spec _ mem3 (7 + Z.of_nat k) (dt_frame (last, take k rem)) tx).
  - cbn [rbind]. done.
  - cbn. by rewrite Hm3.
  - done.
  - rewrite Hm. apply holds_splice; [lia|]. unfold dt_frame, dt_header. simpl fst. simpl snd. zl.
  - unfold dt_frame, dt_header. simpl fst. simpl snd. zl.
Qed.

(** Sending the remaining bytes in [k] TPDUs. *)
Lemma sendFragments_spec k self send L size c idx rem mem tx :
  bytes rem -> chain_at send c idx rem -> 0 < size -> zlen rem <= L ->
  (k = 0%nat -> rem = []) ->
  (Z.of_nat k - 1) * size <= zlen rem -> zlen rem <= Z.of_nat k * size ->
  7 + size <= zlen mem ->
  exists mem', zlen mem' = zlen mem /\
    sendFragments k (cotp_tx self mem tx) send L size c idx (L - zlen rem)
    = Done (OK, cotp_tx self mem' (tx ++ (dt_frame <$> segments k (Z.to_nat size) rem))).
Proof.
  intros Hb Hat Hsz HL. revert c idx rem mem tx Hb Hat HL.
  induction k as [|n IH]; intros c idx rem mem tx Hb Hat HL H0 Hlow Hhigh Hmem.
  - exists mem. split; [done|]. simpl. by rewrite app_nil_r.
  - destruct n as [|n].
    + destruct (sendFragments_round 0 self send L size c idx rem mem tx (length rem))
        as (c' & idx' & mem' & Hat' & Hm' & ->); try done; try (unfold zlen in *; simpl in *; lia).
      exists mem'. split; [done|]. cbn [sendFragments segments]. by rewrite firstn_all.
    + assert (Z.to_nat size <= length rem)%nat as Hle by (unfold zlen in *; nia).
      assert (negb (1 <? Z.of_nat (S (S n))) = false) as Hneg by (zdec; done).
      destruct (sendFragments_round (S n) self send L size c idx rem mem tx (Z.to_nat size))
        as (c' & idx' & mem' & Hat' & Hm' & ->); rewrite ?Hneg; try done; try lia.
      assert (zlen (drop (Z.to_nat size) rem) = zlen rem - size) as Hd
        by (unfold zlen in *; rewrite length_drop; lia).
      destruct (IH c' idx' (drop (Z.to_nat size) rem) mem'
        (tx ++ [dt_frame (false, take (Z.to_nat size) rem)])) as (mem2 & Hm2 & Hs).
      * by apply Forall_drop.
      * done.
      * lia.
      * done.
      * rewrite Hd. lia.
      * rewrite Hd. lia.
      * lia.
      * exists mem2. split; [lia|].
        replace (L - zlen rem + Z.of_nat (Z.to_nat size))
          with (L - zlen (drop (Z.to_nat size) rem)) by (rewrite Hd; lia).
        rewrite Hs. do 3 f_equal. rewrite <- app_assoc. done.
Qed.

Lemma fragment_count_spec len size :
  0 <= len -> 0 < size ->
  1 <= fragment_count len size /\
  (fragment_count len size - 1) * size <= len <= fragment_count len size * size.
Proof.
  intros Hl Hs. unfold fragment_count.
  pose proof (Z.quot_rem len size ltac:(lia)). pose proof (Z.rem_bound_pos len size Hl Hs).
  zcase; [|lia]. destruct (Z.eqb_spec (Z.rem len size) 0); simpl negb; cbv iota; nia.
Qed.

(** The pieces put together again. *)
Lemma segments_concat k n bs : (0 < k)%nat -> concat (snd <$> segments k n bs) = bs.
Proof.
  revert bs. induction k as [|[|k] IH]; intros bs Hk; [lia|simpl; by rewrite app_nil_r|].
  change (take n bs ++ concat (snd <$> segments (S k) n (drop n bs)) = bs).
  rewrite IH by lia. apply take_drop.
Qed.

Lemma segments_length k n bs :
  (0 < k)%nat -> Z.of_nat k * Z.of_nat n >= zlen bs ->
  Forall (fun f => zlen (snd f) <= Z.of_nat n) (segments k n bs).
Proof.
  revert bs. induction k as [|[|k] IH]; intros bs Hk Hl; [lia| |].
  - apply Forall_singleton. simpl. lia.
  - change (segments (S (S k)) n bs) with ((false, take n bs) :: segments (S k) n (drop n bs)).
    apply Forall_cons_2; [unfold zlen; simpl; rewrite length_take; lia|].
    apply IH; [lia|]. unfold zlen in *. rewrite length_drop. lia.
Qed.

(** A TPDU sequence: all but the last without the end-of-TSDU mark. *)
Fixpoint tpdu_sequence (fs : list (bool * list Z)) : Prop :=
  match fs with
  | [] => False
  | [(last, _)] => last = true
  | (last, _) :: fs => last = false /\ tpdu_sequence fs
  end.

Lemma segments_sequence k n bs : (0 < k)%nat -> tpdu_sequence (segments k n bs).
Proof.
  revert bs. induction k as [|[|k] IH]; intros bs Hk; [lia|done|].
  change (segments (S (S k)) n bs) with ((false, take n bs) :: segments (S k) n (drop n bs)).
  specialize (IH (drop n bs) ltac:(lia)).
  destruct (segments (S k) n (drop n bs)) as [|f fs] eqn:E; [done|]. by split.
Qed.

(** What [CotpConnection_sendDataMessage] puts on the wire. *)
Definition dt_frames (tpduSize : Z) (bs : list Z) : list (bool * list Z) :=
  let size := tpduSize - COTP_DATA_HEADER_SIZE in
  segments (Z.to_nat (fragment_count (zlen bs) size)) (Z.to_nat size) bs.

(** The write buffer is large enough for a full TPDU. *)
Definition cotp_can_send (self : CotpConnection) (mem : list Z) : Prop :=
  2 <= tpdu_size (c_options self) <= 13 /\
  CotpConnection_getTpduSize self + COTP_RFC1006_HEADER_SIZE <= zlen mem.

Lemma sendDataMessage_frames self send chain bs mem tx :
  cotp_can_send self mem -> chain <> [] -> bytes bs -> chain_at send chain 0 bs ->
  exists mem', zlen mem' = zlen mem /\
    CotpConnection_sendDataMessage (cotp_tx self mem tx) send chain
    = Done (OK, cotp_tx self mem' (tx ++ (dt_frame <$> dt_frames (CotpConnection_getTpduSize self) bs))).
Proof.
  intros [Ht Hmem] Hne Hb Hat. unfold CotpConnection_sendDataMessage.
  change (CotpConnection_getTpduSize (cotp_tx self mem tx)) with (CotpConnection_getTpduSize self).
  unfold dt_frames. set (size := CotpConnection_getTpduSize self - COTP_DATA_HEADER_SIZE).
  assert (0 < size) as Hsz.
  { unfold size, CotpConnection_getTpduSize, COTP_DATA_HEADER_SIZE. rewrite Z.shiftl_1_l.
    assert (2 ^ 2 <= 2 ^ tpdu_size (c_options self)) by (apply Z.pow_le_mono_r; lia). lia. }
  assert (chain_length chain = Done (zlen bs)) as ->.
  { destruct Hat as (Hok & _ & _ & ->). destruct chain as [|part rest]; [done|].
    simpl chain_length. by rewrite (chain_length_ok _ _ _ Hok), drop_0. }
  cbn [rbind]. fold (fragment_count (zlen bs) size).
  destruct (fragment_count_spec (zlen bs) size) as (H1 & H2); [zl|done|].
  destruct (sendFragments_spec (Z.to_nat (fragment_count (zlen bs) size)) self send (zlen bs)
    size chain 0 bs mem tx) as (mem' & Hm' & Hs); try done; try lia.
  { unfold size, COTP_DATA_HEADER_SIZE, COTP_RFC1006_HEADER_SIZE in *. lia. }
  exists mem'. split; [done|]. rewrite Z.sub_diag in Hs. cbn [c_writeBuffer cotp_tx set_writeBuffer defined rbind].
  exact Hs.
Qed.

(** * Reassembly *)

(** The bytes [pieces] of a TPDU on their way, cut into segments so that the
    header [hdr] arrives at once. *)
Definition rx_deliver (hdr : list Z) (pieces : list (list Z)) : list rx_event :=
  match pieces with
  | [] => [RxData hdr]
  | p :: ps => RxData (hdr ++ p) :: (RxData <$> ps)
  end.

Lemma readUint8_cons b bs rest :
  readUint8_loop (RxData (b :: bs) :: rest)
  = (Some b, match bs with [] => rest | _ => RxData bs :: rest end).
Proof.
  cbn [readUint8_loop Socket_read]. rewrite zlen_cons. destruct bs as [|c bs].
  - done.
  - rewrite zlen_cons. rewrite (proj2 (Z.leb_gt _ 1)) by zl. done.
Qed.

Lemma readUint16_cons b0 b1 bs rest :
  readUint16_loop (RxData (b0 :: b1 :: bs) :: rest) []
  = Done ([b0; b1], match bs with [] => rest | _ => RxData bs :: rest end).
Proof.
  cbn [readUint16_loop Socket_read]. rewrite !zlen_cons. destruct bs as [|c bs].
  - done.
  - rewrite zlen_cons. rewrite (proj2 (Z.leb_gt _ 2)) by zl. done.
Qed.

Lemma readOctets_pieces ps rest size acc :
  Forall (fun p => p <> []) ps -> zlen acc < size -> size = zlen acc + zlen (concat ps) ->
  readOctets_loop ((RxData <$> ps) ++ rest) size acc = (Some (acc ++ concat ps), rest).
Proof.
  intros Hps. revert acc. induction Hps as [|p ps Hp Hps IH]; intros acc Ha Hs.
  - simpl in Hs. rewrite zlen_nil in Hs. lia.
  - simpl concat in *. rewrite zlen_app in Hs. cbn [fmap list_fmap app readOctets_loop Socket_read].
    zlen_pose. rewrite (proj2 (Z.leb_le (zlen p) _)) by zl. rewrite zlen_app.
    destruct (Z.ltb_spec (zlen acc + zlen p) size) as [Hlt|Hge].
    + rewrite IH by (rewrite zlen_app; lia). by rewrite app_assoc.
    + destruct ps as [|q ps]; [simpl; by rewrite app_nil_r|].
      exfalso. apply Forall_cons_1 in Hps as [Hq _]. simpl concat in *.
      destruct q; [done|]. rewrite zlen_app, zlen_cons in Hs. zl.
Qed.

(** The octets behind a header are read whatever the segments are. *)
Lemma readOctets_deliver p ps rest wr tx :
  Forall (fun q => q <> []) ps ->
  ByteStream_readOctets
    (mkSocket true (match p with [] => (RxData <$> ps) ++ rest
                    | _ => RxData p :: (RxData <$> ps) ++ rest end) wr tx)
    (zlen (p ++ concat ps))
  = (Some (p ++ concat ps), mkSocket true rest wr tx).
Proof.
  intros Hps. unfold ByteStream_readOctets. cbn [so_open so_rx]. pose proof (zlen_nonneg (p ++ concat ps)).
  rewrite (proj2 (Z.ltb_ge _ 0)) by lia.
  destruct (Z.eqb_spec (zlen (p ++ concat ps)) 0) as [E|E].
  - rewrite zlen_app in E. destruct p; [|rewrite zlen_cons in E; zl].
    destruct Hps as [|q ps Hq Hps]; [done|]. destruct q; [done|].
    simpl concat in E. rewrite zlen_nil, zlen_cons in E. zl.
  - destruct p as [|b p].
    + rewrite readOctets_pieces; [done|done|rewrite zlen_nil; simpl app in *; lia|done].
    + change (RxData (b :: p) :: (RxData <$> ps) ++ rest)
        with ((RxData <$> ((b :: p) :: ps)) ++ rest).
      rewrite readOctets_pieces; [done|by apply Forall_cons_2|rewrite zlen_nil; lia|done].
Qed.

(** The connection after data has been added to its payload. *)
Definition cotp_rx (self : CotpConnection) (rx : list rx_event) (m : list Z) (s : Z) (last : bool)
  : CotpConnection :=
  set_isLastDataUnit last
    (set_payload (mkByteBuffer (Some (mk_ptr m 0)) (bb_maxSize (c_payload self)) s)
      (set_socket (so_set_rx (c_socket self) rx) self)).

(** The connection with the bytes [bs] of one segment, then [rest], to read. *)
Definition on_wire (self : CotpConnection) (bs : list Z) (rest : list rx_event)
  : CotpConnection :=
  set_socket (so_set_rx (c_socket self)
    (match bs with [] => rest | _ => RxData bs :: rest end)) self.

Lemma on_wire_intro self bs rest :
  so_rx (c_socket self) = match bs with [] => rest | _ => RxData bs :: rest end ->
  self = on_wire self bs rest.
Proof. unfold on_wire. intros <-. by destruct self as [? ? ? ? [] ? ? ? ?]. Qed.

Lemma readUint8_wire self b bs rest :
  so_open (c_socket self) = true ->
  cotp_readUint8 (on_wire self (b :: bs) rest) = (Some b, on_wire self bs rest).
Proof.
  intros Ho. unfold cotp_readUint8, ByteStream_readUint8. cbn [on_wire c_socket set_socket so_set_rx so_open so_rx].
  by rewrite Ho, readUint8_cons.
Qed.

Lemma readUint16_wire self b0 b1 bs rest :
  so_open (c_socket self) = true ->
  cotp_readUint16 (on_wire self (b0 :: b1 :: bs) rest)
  = Done (Some (b0 * 0x100 + b1), on_wire self bs rest).
Proof.
  intros Ho. unfold cotp_readUint16, ByteStream_readUint16. cbn [on_wire c_socket set_socket so_set_rx so_open so_rx].
  by rewrite Ho, readUint16_cons.
Qed.

(** The RFC 1006 header in front of a TPDU of less than 65536 bytes. *)
Lemma parseRFC1006Header_wire self len bs rest :
  so_open (c_socket self) = true -> 0 <= len < 65536 ->
  parseRFC1006Header (on_wire self
    (0x03 :: 0x00 :: u8 (Z.quot len 0x100) :: u8 (Z.land len 0xff) :: bs) rest)
  = Done (Some len, on_wire self bs rest).
Proof.
  intros Ho Hl. unfold parseRFC1006Header. rewrite !readUint8_wire by done.
  cbn [Z.eqb Pos.eqb negb]. by rewrite readUint16_wire, word16.
Qed.

(** The user data of a TPDU, the last [zlen] bytes of it: read and appended. *)
Lemma addPayloadToBuffer_wire parse self m s mx p ps rest :
  so_open (c_socket self) = true -> c_payload self = mkByteBuffer (Some (mk_ptr m 0)) mx s ->
  Forall (fun q => q <> []) ps -> 0 <= s -> s + zlen (p ++ concat ps) <= mx <= zlen m ->
  let self' := cotp_rx self rest (splice m s (p ++ concat ps)) (s + zlen (p ++ concat ps))
                 (c_isLastDataUnit self) in
  addPayloadToBuffer parse (on_wire self p ((RxData <$> ps) ++ rest)) (7 + zlen (p ++ concat ps))
  = if c_isLastDataUnit self then Done (1, self')
    else let! (r, self'') := parse self' in
         Done (if bool_decide (r = DATA_INDICATION) then 1 else 0, self'').
Proof.
  intros Ho Hp Hps Hs Hfit self'. subst self'. pose proof (zlen_nonneg (p ++ concat ps)).
  destruct self as [st sr dr pc [op rx wr tx] o il pl wb]. simpl in Ho, Hp. subst op pl.
  unfold addPayloadToBuffer, on_wire, cotp_rx, so_set_rx, set_socket.
  cbn [c_payload c_socket bb_size bb_maxSize so_open so_rx so_wr so_tx].
  replace (7 + zlen (p ++ concat ps) - 7) with (zlen (p ++ concat ps)) by lia. zdec.
  rewrite readOctets_deliver by done. cbn [default from_option c_payload bb_size].
  erewrite bb_store_in; [|done|simpl; lia|simpl; lia]. cbn [rbind p_mem p_base Z.add].
  rewrite Z.eqb_refl. by destruct il.
Qed.

(** One data TPDU is taken from the stream, its bytes appended to the payload. *)
Lemma parse_dt_frame n self m s last p ps rest :
  so_open (c_socket self) = true -> c_payload self = mkByteBuffer (Some (mk_ptr m 0)) (bb_maxSize (c_payload self)) s ->
  so_rx (c_socket self) = rx_deliver (dt_header (7 + zlen (p ++ concat ps)) last) (p :: ps) ++ rest ->
  Forall (fun q => q <> []) ps -> 0 <= s -> 7 + zlen (p ++ concat ps) < 65536 ->
  s + zlen (p ++ concat ps) <= bb_maxSize (c_payload self) <= zlen m ->
  let self' := cotp_rx self rest (splice m s (p ++ concat ps)) (s + zlen (p ++ concat ps)) last in
  parseIncomingMessage (S n) self
  = if last then Done (DATA_INDICATION, self')
    else let! (r, self'') := parseIncomingMessage n self' in
         Done (if bool_decide (r = DATA_INDICATION) then DATA_INDICATION else ERROR, self'').
Proof.
  intros Ho Hp Hrx Hps Hs Hlen Hfit self'. pose proof (zlen_nonneg (p ++ concat ps)).
  rewrite (on_wire_intro self (dt_header (7 + zlen (p ++ concat ps)) last ++ p)
    ((RxData <$> ps) ++ rest)) at 1 by done.
  unfold dt_header. cbn [app parseIncomingMessage].
  rewrite parseRFC1006Header_wire by (done || lia). cbn [rbind].
  rewrite !readUint8_wire by done. unfold parseDataTpdu. cbn [Z.eqb Pos.eqb negb]. rewrite !readUint8_wire by done.
  replace (negb (Z.land (if last then 128 else 0) 128 =? 0)) with last by (by destruct last).
  cbn [Z.eqb Pos.eqb].
  change (set_isLastDataUnit last (on_wire self p ((RxData <$> ps) ++ rest)))
    with (on_wire (set_isLastDataUnit last self) p ((RxData <$> ps) ++ rest)).
  rewrite (addPayloadToBuffer_wire _ _ m s (bb_maxSize (c_payload self))) by done.
  change (cotp_rx (set_isLastDataUnit last self) rest) with (cotp_rx self rest).
  cbn [c_isLastDataUnit set_isLastDataUnit]. fold self'. destruct last; [done|].
  destruct (parseIncomingMessage n self') as [[r s']| | |]; try done.
  cbn [rbind]. by case_bool_decide.
Qed.

(** A sequence of TPDUs on its way: every header arrives at once, in front of the
    first of the segments the user data is cut into. *)
Inductive delivered : list (bool * list Z) -> list rx_event -> Prop :=
| delivered_nil : delivered [] []
| delivered_cons last p ps fs rx :
    Forall (fun q => q <> []) ps -> delivered fs rx ->
    delivered ((last, p ++ concat ps) :: fs)
      (rx_deliver (dt_header (7 + zlen (p ++ concat ps)) last) (p :: ps) ++ rx).

Lemma parse_frames fs rx rest fuel self m s :
  delivered fs rx -> tpdu_sequence fs -> (length fs <= fuel)%nat ->
  so_open (c_socket self) = true ->
  c_payload self = mkByteBuffer (Some (mk_ptr m 0)) (bb_maxSize (c_payload self)) s ->
  so_rx (c_socket self) = rx ++ rest ->
  0 <= s -> Forall (fun f => 7 + zlen (snd f) < 65536) fs ->
  s + zlen (concat (snd <$> fs)) <= bb_maxSize (c_payload self) <= zlen m ->
  parseIncomingMessage fuel self
  = Done (DATA_INDICATION,
      cotp_rx self rest (splice m s (concat (snd <$> fs))) (s + zlen (concat (snd <$> fs))) true).
Proof.
  intros Hd. revert fuel self m s. induction Hd as [|last p ps fs rx Hps Hd IH];
    intros fuel self m s Hseq Hfuel Ho Hp Hrx Hs Hsz Hfit; [done|].
  destruct fuel as [|fuel]; [simpl in Hfuel; lia|]. rewrite <- app_assoc in Hrx.
  change (concat (snd <$> (last, p ++ concat ps) :: fs))
    with ((p ++ concat ps) ++ concat (snd <$> fs)) in *.
  apply Forall_cons_1 in Hsz as [Hsz Hszs]. simpl snd in Hsz.
  rewrite (zlen_app (p ++ concat ps)) in Hfit |- *. pose proof (zlen_nonneg (concat (snd <$> fs))).
  pose proof (zlen_nonneg (p ++ concat ps)).
  erewrite parse_dt_frame by (try done; lia). destruct fs as [|f fs].
  - simpl in Hseq. subst last. inversion Hd; subst. simpl concat.
    by rewrite app_nil_r, zlen_nil, Z.add_0_r.
  - destruct Hseq as [-> Hseq].
    rewrite IH with (m := splice m s (p ++ concat ps)) (s := s + zlen (p ++ concat ps));
      try done; try (simpl in *; lia).
    + cbn [rbind]. change (concat (list_fmap _ _ snd fs)) with (concat (snd <$> fs)).
      rewrite splice_app by lia. by rewrite Z.add_assoc.
    + simpl bb_maxSize. rewrite zlen_splice by lia. lia.
Qed.

(** The frames of a message never exceed the TPDU size of the sender. *)
Lemma dt_frames_sizes e bs :
  2 <= e <= 13 -> Forall (fun f => 3 + zlen (snd f) <= 2 ^ e) (dt_frames (Z.shiftl 1 e) bs).
Proof.
  intros He. unfold dt_frames, COTP_DATA_HEADER_SIZE. rewrite Z.shiftl_1_l.
  assert (2 ^ 2 <= 2 ^ e) by (apply Z.pow_le_mono_r; lia). change (2 ^ 2) with 4 in *.
  destruct (fragment_count_spec (zlen bs) (2 ^ e - 3)) as (H1 & H2); [zl|lia|].
  pose proof (segments_length (Z.to_nat (fragment_count (zlen bs) (2 ^ e - 3)))
    (Z.to_nat (2 ^ e - 3)) bs ltac:(lia) ltac:(lia)) as Hf.
  revert Hf. apply Forall_impl. intros f Hf. lia.
Qed.

Lemma dt_frames_concat e bs : 2 <= e -> concat (snd <$> dt_frames (Z.shiftl 1 e) bs) = bs.
Proof.
  intros He. apply segments_concat. unfold COTP_DATA_HEADER_SIZE. rewrite Z.shiftl_1_l.
  assert (2 ^ 2 <= 2 ^ e) by (apply Z.pow_le_mono_r; lia). change (2 ^ 2) with 4 in *.
  destruct (fragment_count_spec (zlen bs) (2 ^ e - 3)); [zl|lia|lia].
Qed.

Lemma dt_frames_sequence e bs : 2 <= e -> tpdu_sequence (dt_frames (Z.shiftl 1 e) bs).
Proof.
  intros He. apply segments_sequence. unfold COTP_DATA_HEADER_SIZE. rewrite Z.shiftl_1_l.
  assert (2 ^ 2 <= 2 ^ e) by (apply Z.pow_le_mono_r; lia). change (2 ^ 2) with 4 in *.
  destruct (fragment_count_spec (zlen bs) (2 ^ e - 3)); [zl|lia|lia].
Qed.

Lemma delivered_bytes fs rx : delivered fs rx -> rx_bytes rx = concat (dt_frame <$> fs).
Proof.
  induction 1 as [|last p ps fs rx _ _ IH]; [done|].
  assert (forall qs k, rx_bytes ((RxData <$> qs) ++ k) = concat qs ++ rx_bytes k) as Hq.
  { intros qs k. induction qs as [|q qs IHq]; [done|]. simpl. by rewrite <- app_assoc, <- IHq. }
  cbn [rx_deliver app rx_bytes]. rewrite Hq, IH.
  change (dt_frame <$> (last, p ++ concat ps) :: fs)
    with (dt_frame (last, p ++ concat ps) :: (dt_frame <$> fs)).
  cbn [concat]. unfold dt_frame at 2. cbn [fst snd]. by rewrite <- !app_assoc.
Qed.

(** C39: What [CotpConnection_sendDataMessage] sends, [CotpConnection_parseIncomingMessage]
    puts together again: the message leaves in TPDUs no longer than the
    negotiated size, and however their user data is cut into TCP segments the
    receiver reports one data indication and holds exactly the bytes sent. *)
Theorem CotpConnection_data_roundtrip self mem tx send chain bs e rx rest r m mx s0 fuel :
  tpdu_size (c_options self) = e -> 2 <= e <= 13 -> 2 ^ e + 4 <= zlen mem ->
  chain <> [] -> bytes bs -> chain_at send chain 0 bs ->
  delivered (dt_frames (2 ^ e) bs) rx ->
  so_open (c_socket r) = true -> so_rx (c_socket r) = rx ++ rest ->
  c_payload r = mkByteBuffer (Some (mk_ptr m 0)) mx s0 -> zlen bs <= mx <= zlen m ->
  (length (dt_frames (2 ^ e) bs) <= fuel)%nat ->
  exists mem' r',
    CotpConnection_sendDataMessage (cotp_tx self mem tx) send chain
    = Done (OK, cotp_tx self mem' (tx ++ (dt_frame <$> dt_frames (2 ^ e) bs))) /\
    Forall (fun f => 3 + zlen (snd f) <= 2 ^ e) (dt_frames (2 ^ e) bs) /\
    rx_bytes rx = concat (dt_frame <$> dt_frames (2 ^ e) bs) /\
    CotpConnection_parseIncomingMessage fuel r = Done (DATA_INDICATION, r') /\
    bb_bytes (c_payload r') = bs /\ so_rx (c_socket r') = rest.
Proof.
  intros He Hr Hmem Hne Hb Hat Hd Ho Hrx Hp Hfit Hfuel. rewrite <- Z.shiftl_1_l in *.
  assert (CotpConnection_getTpduSize self = Z.shiftl 1 e) as Hsize
    by (unfold CotpConnection_getTpduSize; by rewrite He).
  destruct (sendDataMessage_frames self send chain bs mem tx) as (mem' & _ & Hs); try done.
  { unfold cotp_can_send, COTP_RFC1006_HEADER_SIZE. rewrite He, Hsize. lia. }
  rewrite Hsize in Hs. pose proof (dt_frames_sizes e bs Hr) as Hsizes.
  eexists mem', _. split; [exact Hs|].
  split; [by rewrite Z.shiftl_1_l in * |]. split; [by apply delivered_bytes|].
  pose proof (dt_frames_concat e bs ltac:(lia)) as Hc.
  assert (2 ^ e <= 2 ^ 13) by (apply Z.pow_le_mono_r; lia). change (2 ^ 13) with 8192 in *.
  split.
  - unfold CotpConnection_parseIncomingMessage. rewrite Hp.
    rewrite (parse_frames _ _ rest _ _ m 0 Hd); rewrite ?Hc; try done.
    + apply dt_frames_sequence. lia.
    + revert Hsizes. apply Forall_impl. intros f Hf. simpl in Hf. lia.
  - split; [|done]. unfold bb_bytes. simpl.
    apply slice_splice; lia.
Qed.

Lemma CotpConnection_data_roundtrip_witness :
  exists mem' r',
    CotpConnection_sendDataMessage
      (cotp_tx (mkCotp 0 0 0 0 (mkSocket true [] [] []) (mkOptions 0 0 3) true ByteBuffer_null None)
        (replicate 12 0) []) [1; 2; 3; 4; 5; 6; 7; 8] (BufferChain_init 8 8 [] (InBlock 0))
    = Done (OK, cotp_tx (mkCotp 0 0 0 0 (mkSocket true [] [] []) (mkOptions 0 0 3) true
        ByteBuffer_null None) mem' ([] ++ (dt_frame <$> dt_frames (2 ^ 3) [1; 2; 3; 4; 5; 6; 7; 8]))) /\
    Forall (fun f => 3 + zlen (snd f) <= 2 ^ 3) (dt_frames (2 ^ 3) [1; 2; 3; 4; 5; 6; 7; 8]) /\
    rx_bytes [RxData [3; 0; 0; 12; 2; 0xf0; 0; 1; 2]; RxData [3; 4; 5];
              RxData [3; 0; 0; 10; 2; 0xf0; 0x80]; RxData [6; 7; 8]]
    = concat (dt_frame <$> dt_frames (2 ^ 3) [1; 2; 3; 4; 5; 6; 7; 8]) /\
    CotpConnection_parseIncomingMessage 2
      (mkCotp 0 0 0 0 (mkSocket true
        ([RxData [3; 0; 0; 12; 2; 0xf0; 0; 1; 2]; RxData [3; 4; 5];
          RxData [3; 0; 0; 10; 2; 0xf0; 0x80]; RxData [6; 7; 8]] ++ []) [] [])
        (mkOptions 0 0 3) true (ByteBuffer_create 8) None) = Done (DATA_INDICATION, r') /\
    bb_bytes (c_payload r') = [1; 2; 3; 4; 5; 6; 7; 8] /\ so_rx (c_socket r') = [].
Proof.
  apply (CotpConnection_data_roundtrip _ _ _ _ _ _ 3 _ _ _ (replicate 8 0) 8 0); try done.
  - by_eval.
  - split; [by_eval|]. split; [by_eval|]. split; [by_eval|done].
  - apply (delivered_cons false [1; 2] [[3; 4; 5]]); [by repeat constructor|].
    apply (delivered_cons true [] [[6; 7; 8]] [] []); [by repeat constructor|constructor].
Defined.
