(* ===== verification/CotpConnect.v ===== *)
(** The COTP connection handshake, and what its parser does with TPDUs that no
    well-behaved peer sends. *)
From stdpp Require Import base tactics list numbers option.
From S2P Require Import Prelude Memory Buffers IsoParams ByteStream Cotp CotpFacts.

(** * Writing a TPDU *)

(** The connection with the first bytes of a TPDU in its write buffer. *)
Definition writing (self : CotpConnection) (mem bs : list Z) : CotpConnection :=
  set_writeBuffer (Some (mkByteBuffer (Some (mk_ptr (splice mem 0 bs) 0)) (zlen mem) (zlen bs)))
    self.

Lemma writing_start self mem size (c : Z -> W Z) q bs :
  c_writeBuffer self = Some (mkByteBuffer (Some (mk_ptr mem 0)) (zlen mem) size) ->
  Emits 0 0 (c size) q bs -> zlen bs <= zlen mem -> q = zlen bs ->
  with_writeBuffer self c = Done (writing self mem bs).
Proof.
  intros Hw Hem Hl ->. by erewrite with_writeBuffer_emits with (pos := 0).
Qed.

Lemma writing_more self mem bs (c : Z -> W Z) q bs' :
  Emits 0 (zlen bs) (c (zlen bs)) q bs' -> zlen bs + zlen bs' <= zlen mem ->
  q = zlen bs + zlen bs' ->
  with_writeBuffer (writing self mem bs) c = Done (writing self mem (bs ++ bs')).
Proof.
  intros Hem Hl ->. pose proof (zlen_nonneg bs). pose proof (zlen_nonneg bs').
  erewrite with_writeBuffer_emits with (pos := zlen bs); [|done|exact Hem|lia|].
  - unfold writing. rewrite zlen_app.
    rewrite <- (splice_app mem 0 bs bs') by lia. done.
  - rewrite zlen_splice; lia.
Qed.

Lemma writing_send self mem bs tx :
  c_socket self = mkSocket true (so_rx (c_socket self)) [] tx -> zlen bs <= zlen mem ->
  sendBuffer (writing self mem bs)
  = Done (true, cotp_tx self (splice mem 0 bs) (tx ++ [bs])).
Proof.
  intros Hs Hl. erewrite sendBuffer_spec; [done| | | |].
  - simpl. rewrite zlen_splice by lia. done.
  - done.
  - by apply holds_splice.
  - done.
Qed.

(** * The TPDUs of the handshake *)

Definition option_bytes (o : CotpOptions) : list Z :=
  [0xc0; 0x01; tpdu_size o; 0xc2; 0x02] ++ word_bytes (tsap_id_dst o) ++
  [0xc1; 0x02] ++ word_bytes (tsap_id_src o).

(** A connection request. *)
Definition cr_frame (o : CotpOptions) : list Z :=
  [0x03; 0x00; 0x00; 22; 17; 0xe0; 0x00; 0x00; 0x00; 0x02; 0x00] ++ option_bytes o.

(** A connection confirm. *)
Definition cc_frame (srcRef dstRef class : Z) (o : CotpOptions) : list Z :=
  [0x03; 0x00; 0x00; 22; 17; 0xd0] ++ word_bytes srcRef ++ word_bytes dstRef ++ [class] ++
  option_bytes o.

(** Options with both selectors and a TPDU size from 2 to 8192. *)
Definition options_wf (o : CotpOptions) : Prop :=
  0 <= tsap_id_src o < 65536 /\ 0 <= tsap_id_dst o < 65536 /\ 1 <= tpdu_size o <= 13.

Lemma zlen_option_bytes o : zlen (option_bytes o) = 11.
Proof. reflexivity. Qed.

#[local] Hint Rewrite zlen_option_bytes : zlen.

Lemma emits_options o pos :
  options_wf o ->
  Emits 0 pos (let* bufPos := option_tpdu o pos in
    let* bufPos := option_tsap 0xc2 (tsap_id_dst o) bufPos in
    option_tsap 0xc1 (tsap_id_src o) bufPos) (pos + 11) (option_bytes o).
Proof.
  intros (Hs & Hd & Ht). unfold option_tpdu, option_tsap.
  destruct (Z.eqb_spec (tpdu_size o) 0); [lia|].
  destruct (Z.eqb_spec (tsap_id_dst o) (-1)); [lia|].
  destruct (Z.eqb_spec (tsap_id_src o) (-1)); [lia|]. cbn [negb].
  emits_tac. unfold option_bytes. by rewrite (u8_small (tpdu_size o)) by lia.
Qed.

Lemma sendConnectionRequest_frame self params mem size tx :
  allocateWriteBuffer self
  = set_writeBuffer (Some (mkByteBuffer (Some (mk_ptr mem 0)) (zlen mem) size)) self ->
  22 <= zlen mem -> c_socket self = mkSocket true (so_rx (c_socket self)) [] tx ->
  0 <= ip_remoteTSelector params < 65536 -> 1 <= tpdu_size (c_options self) <= 13 ->
  let o := mkOptions 0 (ip_remoteTSelector params) (tpdu_size (c_options self)) in
  exists mem', zlen mem' = zlen mem /\
    CotpConnection_sendConnectionRequestMessage self params
    = Done (OK, cotp_tx (set_options o self) mem' (tx ++ [cr_frame o])).
Proof.
  intros Hw Hmem Hs Hsel Ht o. unfold CotpConnection_sendConnectionRequestMessage.
  rewrite Hw. cbn [c_writeBuffer set_writeBuffer defined rbind bb_maxSize]. zdec.
  unfold writeRfc1006Header.
  erewrite (writing_start (set_writeBuffer _ self) mem size _ 4 [3; 0; 0; 22]); [|done|emits_tac|zl|done].
  cbn [rbind]. change (writing (set_writeBuffer _ self) mem) with (writing self mem).
  erewrite (writing_more self mem [3; 0; 0; 22] _ 11 [17; 0xe0; 0; 0; 0; 2; 0]);
    [|emits_tac|zl|done].
  cbn [rbind app]. unfold writeOptions.
  change (set_tsap_src 0 (set_tsap_dst _ (writing self mem ?bs)))
    with (writing (set_options o self) mem bs).
  erewrite (writing_more (set_options o self) mem _ _ 22 (option_bytes o));
    [|by apply (emits_options o); unfold options_wf, o; simpl; lia|zl|done].
  cbn [rbind]. erewrite writing_send; [|exact Hs|zl]. cbn [rbind].
  eexists. split; [|done]. apply zlen_splice; [lia|zl].
Qed.

Lemma sendConnectionResponse_frame self mem size tx :
  allocateWriteBuffer self
  = set_writeBuffer (Some (mkByteBuffer (Some (mk_ptr mem 0)) (zlen mem) size)) self ->
  22 <= zlen mem -> c_socket self = mkSocket true (so_rx (c_socket self)) [] tx ->
  options_wf (c_options self) -> is_byte (c_protocolClass self) ->
  exists mem', zlen mem' = zlen mem /\
    CotpConnection_sendConnectionResponseMessage self
    = Done (OK, cotp_tx self mem' (tx ++
        [cc_frame (c_srcRef self) (c_dstRef self) (c_protocolClass self) (c_options self)])).
Proof.
  intros Hw Hmem Hs Ho Hc. unfold CotpConnection_sendConnectionResponseMessage.
  rewrite Hw. assert (getOptionsLength (set_writeBuffer (Some (mkByteBuffer (Some (mk_ptr mem 0))
    (zlen mem) size)) self) = 11) as ->.
  { destruct Ho as (H1 & H2 & H3). unfold getOptionsLength. cbn [c_options set_writeBuffer]. by zdec. }
  unfold writeRfc1006Header.
  erewrite (writing_start (set_writeBuffer _ self) mem size _ 4 [3; 0; 0; 22]); [|done|emits_tac|zl|done].
  cbn [rbind]. change (writing (set_writeBuffer _ self) mem) with (writing self mem).
  unfold writeStaticConnectResponseHeader.
  erewrite (writing_more self mem [3; 0; 0; 22] _ 11 ([17; 0xd0] ++ word_bytes (c_srcRef self) ++
    word_bytes (c_dstRef self) ++ [c_protocolClass self])); [| |zl|done].
  2: { emits_tac. cbn [writing set_writeBuffer c_protocolClass]. by rewrite (u8_small (c_protocolClass self)). }
  cbn [rbind]. unfold writeOptions.
  change (c_options (writing self mem ?bs)) with (c_options self).
  erewrite (writing_more self mem _ _ 22 (option_bytes (c_options self)));
    [|by apply emits_options|zl|done].
  cbn [rbind]. erewrite writing_send; [|exact Hs|zl]. cbn [rbind].
  eexists. split; [|done]. apply zlen_splice; [lia|zl].
Qed.

(** * Reading a TPDU *)

Section ParseOptions.
Context (self : CotpConnection) (rest : list rx_event) (opt_len : Z).
Hypothesis Hopen : so_open (c_socket self) = true.

Lemma option_tpdu_round e bs k :
  0 <= e <= 13 ->
  parseOptions_body opt_len (on_wire self (0xc0 :: 0x01 :: e :: bs) rest, k)
  = Done (Next (on_wire (CotpConnection_setTpduSize self (2 ^ e)) bs rest, k + 3)).
Proof.
  intros He. unfold parseOptions_body. rewrite !readUint8_wire by done.
  cbn [Z.eqb Pos.eqb]. rewrite Z.shiftl_1_l. zdec.
  assert (2 ^ e <= 2 ^ 13) by (apply Z.pow_le_mono_r; lia). change (2 ^ 13) with 8192 in *.
  pose proof (Z.pow_pos_nonneg 2 e ltac:(lia) ltac:(lia)). rewrite i32_small by lia. apply (f_equal (fun n => Done (Next (_, n)))); lia.
Qed.

Lemma option_dst_round v bs k :
  0 <= v < 65536 ->
  parseOptions_body opt_len (on_wire self (0xc2 :: 0x02 :: word_bytes v ++ bs) rest, k)
  = Done (Next (on_wire (set_tsap_dst v self) bs rest, k + 4)).
Proof.
  intros Hv. unfold parseOptions_body. rewrite !readUint8_wire by done.
  cbn [Z.eqb Pos.eqb word_bytes app]. rewrite readUint16_wire by done. cbn [rbind].
  rewrite word16 by done. apply (f_equal (fun n => Done (Next (_, n)))); lia.
Qed.

Lemma option_src_round v bs k :
  0 <= v < 65536 ->
  parseOptions_body opt_len (on_wire self (0xc1 :: 0x02 :: word_bytes v ++ bs) rest, k)
  = Done (Next (on_wire (set_tsap_src v self) bs rest, k + 4)).
Proof.
  intros Hv. unfold parseOptions_body. rewrite !readUint8_wire by done.
  cbn [Z.eqb Pos.eqb word_bytes app]. rewrite readUint16_wire by done. cbn [rbind].
  rewrite word16 by done. apply (f_equal (fun n => Done (Next (_, n)))); lia.
Qed.
End ParseOptions.

Lemma tpdu_exponent_pow2 e : 0 <= e <= 13 -> tpdu_exponent (2 ^ e) = e.
Proof.
  intros He. assert (2 ^ e <= 2 ^ 13) by (apply Z.pow_le_mono_r; lia).
  pose proof (Z.pow_pos_nonneg 2 e ltac:(lia) ltac:(lia)). change (2 ^ 13) with 8192 in *.
  rewrite tpdu_exponent_log2 by lia. unfold COTP_MAX_TPDU_SIZE. rewrite Z.min_l by lia.
  apply Z.log2_pow2. lia.
Qed.

Lemma parseOptions_wire self o rest :
  so_open (c_socket self) = true -> options_wf o ->
  parseOptions (on_wire self (option_bytes o) rest) 11
  = Done (1, on_wire (set_options o self) [] rest).
Proof.
  intros Ho (Hs & Hd & Ht). unfold parseOptions, option_bytes. cbn [app].
  change (Z.to_nat 11) with (S (S (S 8))).
  erewrite while_next; [|done|apply option_tpdu_round; [done|lia]].
  erewrite while_next; [|done|by apply option_dst_round].
  rewrite <- (app_nil_r (word_bytes (tsap_id_src o))).
  erewrite while_next; [|done|by apply option_src_round].
  rewrite while_false by done. cbn [rbind].
  unfold set_tsap_src, set_tsap_dst, CotpConnection_setTpduSize, set_options, on_wire, set_socket.
  cbn. rewrite tpdu_exponent_pow2, u8_small by lia. by destruct o.
Qed.

(** A connection request is understood. *)
Lemma parse_cr_frame n self o rest :
  so_open (c_socket self) = true -> options_wf o ->
  so_rx (c_socket self) = RxData (cr_frame o) :: rest ->
  parseIncomingMessage (S n) self
  = Done (CONNECT_INDICATION, on_wire (set_options o (set_protocolClass 0 (set_srcRef 2 (set_dstRef 0 self))))
            [] rest).
Proof.
  intros Ho Hwf Hrx. rewrite (on_wire_intro self (cr_frame o) rest) at 1 by done.
  unfold cr_frame. cbn [app parseIncomingMessage].
  rewrite (parseRFC1006Header_wire self 22) by (done || lia). cbn [rbind].
  rewrite !readUint8_wire by done. cbn [Z.eqb Pos.eqb].
  unfold parseConnectRequestTpdu, parseConnectTpdu. rewrite readUint16_wire by done. cbn [rbind].
  change (set_dstRef ?v (on_wire self ?bs rest)) with (on_wire (set_dstRef v self) bs rest).
  rewrite readUint16_wire by done. cbn [rbind].
  change (set_srcRef ?v (on_wire ?s ?bs rest)) with (on_wire (set_srcRef v s) bs rest).
  rewrite readUint8_wire by done.
  change (set_protocolClass ?v (on_wire ?s ?bs rest)) with (on_wire (set_protocolClass v s) bs rest).
  by rewrite parseOptions_wire.
Qed.

(** So is a connection confirm. *)
Lemma parse_cc_frame n self srcRef dstRef class o rest :
  so_open (c_socket self) = true -> options_wf o ->
  0 <= srcRef < 65536 -> 0 <= dstRef < 65536 ->
  so_rx (c_socket self) = RxData (cc_frame srcRef dstRef class o) :: rest ->
  parseIncomingMessage (S n) self
  = Done (CONNECT_INDICATION, on_wire (set_options o (set_protocolClass class (set_dstRef dstRef
            (set_srcRef srcRef (set_isLastDataUnit true self))))) [] rest).
Proof.
  intros Ho Hwf Hsr Hdr Hrx.
  rewrite (on_wire_intro self (cc_frame srcRef dstRef class o) rest) at 1 by done.
  unfold cc_frame, word_bytes. cbn [app parseIncomingMessage].
  rewrite (parseRFC1006Header_wire self 22) by (done || lia). cbn [rbind].
  rewrite !readUint8_wire by done. cbn [Z.eqb Pos.eqb].
  change (set_isLastDataUnit ?v (on_wire self ?bs rest)) with (on_wire (set_isLastDataUnit v self) bs rest).
  unfold parseConnectConfirmTpdu, parseConnectTpdu. rewrite readUint16_wire by done. cbn [rbind].
  rewrite word16 by done.
  change (set_srcRef ?v (on_wire ?s ?bs rest)) with (on_wire (set_srcRef v s) bs rest).
  rewrite readUint16_wire by done. cbn [rbind]. rewrite word16 by done.
  change (set_dstRef ?v (on_wire ?s ?bs rest)) with (on_wire (set_dstRef v s) bs rest).
  rewrite readUint8_wire by done.
  change (set_protocolClass ?v (on_wire ?s ?bs rest)) with (on_wire (set_protocolClass v s) bs rest).
  by rewrite parseOptions_wire.
Qed.

(** * The handshake *)

(** A connection without a write buffer gets one that holds its TPDUs. *)
Lemma allocate_spec self :
  c_writeBuffer self = None -> 0 <= tpdu_size (c_options self) ->
  exists mem, zlen mem = 2 ^ tpdu_size (c_options self) + 4 /\
    allocateWriteBuffer self
    = set_writeBuffer (Some (mkByteBuffer (Some (mk_ptr mem 0)) (zlen mem) 0)) self.
Proof.
  intros Hw Ht. set (n := 2 ^ tpdu_size (c_options self) + 4).
  pose proof (Z.pow_pos_nonneg 2 (tpdu_size (c_options self)) ltac:(lia) Ht).
  assert (zlen (replicate (Z.to_nat n) 0) = n) as E
    by (unfold zlen; rewrite length_replicate; lia).
  exists (replicate (Z.to_nat n) 0). split; [done|]. rewrite E.
  unfold allocateWriteBuffer. rewrite Hw. unfold ByteBuffer_create, CotpConnection_getTpduSize.
  by rewrite Z.shiftl_1_l.
Qed.

(** A connection as it is after [sendBuffer], reading [rx] from now on. *)
Definition reading (self : CotpConnection) (rx : list rx_event) : CotpConnection :=
  set_socket (so_set_rx (c_socket self) rx) self.

(** The handshake.  The request a new client sends is accepted by a new
    server; the response the server sends is accepted by the client; both sides
    then have the selectors of the client's parameters, each other's references
    and the same TPDU size, and a write buffer that holds such a TPDU. *)
Theorem CotpConnection_handshake c0 params sel cpay stx s0 spay ctx crx srx crest srest n k :
  ip_remoteTSelector params = sel -> 0 <= sel < 65536 ->
  let o := mkOptions 0 sel 13 in
  let client := CotpConnection_init c0 (mkSocket true crx [] ctx) cpay in
  let server := CotpConnection_init s0 (mkSocket true srx [] stx) spay in
  srx = RxData (cr_frame o) :: srest ->
  exists client1 server1 server2 client2 mem mem',
    CotpConnection_sendConnectionRequestMessage client params = Done (OK, client1) /\
    so_tx (c_socket client1) = ctx ++ [cr_frame o] /\
    parseIncomingMessage (S n) server = Done (CONNECT_INDICATION, server1) /\
    CotpConnection_sendConnectionResponseMessage server1 = Done (OK, server2) /\
    so_tx (c_socket server2) = stx ++ [cc_frame 2 0 0 o] /\
    parseIncomingMessage (S k) (reading client1 (RxData (cc_frame 2 0 0 o) :: crest))
    = Done (CONNECT_INDICATION, client2) /\
    c_options server2 = o /\ c_options client2 = o /\
    c_srcRef client2 = c_srcRef server2 /\ c_dstRef client2 = c_dstRef server2 /\
    CotpConnection_getTpduSize client2 = 8192 /\
    c_writeBuffer client2 = Some (mkByteBuffer (Some (mk_ptr mem 0)) (zlen mem) 0) /\
    cotp_can_send client2 mem /\
    c_writeBuffer server2 = Some (mkByteBuffer (Some (mk_ptr mem' 0)) (zlen mem') 0) /\
    cotp_can_send server2 mem'.
Proof.
  intros Hsel Hr o client server ->.
  assert (options_wf o) as Hwf by (unfold options_wf, o; simpl; lia).
  destruct (allocate_spec client) as (cm & Hcm & Hca); [done|done|].
  change (2 ^ tpdu_size (c_options client) + 4) with 8196 in Hcm.
  destruct (sendConnectionRequest_frame client params cm 0 ctx) as (cm' & Hcm' & Hreq);
    first [exact Hca|rewrite ?Hcm, ?Hsel; first [lia|reflexivity|change (1 <= 13 <= 13); lia|idtac]].
  rewrite Hsel in Hreq. change (tpdu_size (c_options client)) with 13 in *. fold o in Hreq.
  set (server1 := on_wire (set_options o (set_protocolClass 0 (set_srcRef 2 (set_dstRef 0 server))))
    [] srest).
  destruct (allocate_spec server1) as (sm & Hsm & Hsa); [done|done|].
  change (2 ^ tpdu_size (c_options server1) + 4) with 8196 in Hsm.
  destruct (sendConnectionResponse_frame server1 sm 0 stx) as (sm' & Hsm' & Hresp);
    first [exact Hsa|rewrite ?Hsm; first [lia|reflexivity|exact Hwf|split; reflexivity|idtac]].
  eexists _, server1, _, _, cm', sm'. split; [exact Hreq|]. split; [done|].
  split; [by apply parse_cr_frame|]. split; [exact Hresp|]. split; [done|].
  split.
  { apply (parse_cc_frame k _ 2 0 0 o crest); [reflexivity|exact Hwf|lia|lia|reflexivity]. }
  assert (forall c mem, c_options c = o -> zlen mem = 8196 -> cotp_can_send c mem) as Hsend.
  { intros c mem Ho Hm. unfold cotp_can_send, CotpConnection_getTpduSize. rewrite Ho, Hm.
    change (Z.shiftl 1 (tpdu_size o)) with 8192. unfold COTP_RFC1006_HEADER_SIZE. simpl. lia. }
  do 5 (split; [reflexivity|]). split; [reflexivity|].
  split; [apply Hsend; [reflexivity|lia]|]. split; [reflexivity|].
  apply Hsend; [reflexivity|lia].
Qed.

Lemma CotpConnection_handshake_witness :
  exists client1,
    CotpConnection_sendConnectionRequestMessage
      (CotpConnection_init Cotp_calloc (mkSocket true [] [] []) (ByteBuffer_create 10))
      (IsoConnectionParameters_setRemoteAddresses IsoConnectionParameters_create 1 1 1)
    = Done (OK, client1) /\ so_tx (c_socket client1) = [cr_frame (mkOptions 0 1 13)].
Proof.
  destruct (CotpConnection_handshake Cotp_calloc
    (IsoConnectionParameters_setRemoteAddresses IsoConnectionParameters_create 1 1 1) 1
    (ByteBuffer_create 10) [] Cotp_calloc (ByteBuffer_create 10) [] []
    [RxData (cr_frame (mkOptions 0 1 13))] [] [] 0 0) as (c1 & _ & _ & _ & _ & _ & H1 & H2 & _).
  - reflexivity.
  - lia.
  - reflexivity.
  - exists c1. split; [exact H1|exact H2].
Defined.

(** The negotiated TPDU size is the largest power of two that is not above the
    requested size and not above CONFIG_COTP_MAX_TPDU_SIZE. *)
Theorem CotpConnection_setTpduSize_spec self size :
  1 <= size ->
  let n := CotpConnection_getTpduSize (CotpConnection_setTpduSize self size) in
  n <= size /\ n <= 8192 /\ (n = 8192 \/ size < 2 * n).
Proof.
  intros Hs n. subst n. unfold CotpConnection_getTpduSize, CotpConnection_setTpduSize. simpl.
  pose proof (tpdu_exponent_range size Hs). rewrite u8_small by lia.
  rewrite Z.shiftl_1_l, tpdu_exponent_log2 by done. unfold COTP_MAX_TPDU_SIZE.
  pose proof (Z.log2_spec (Z.min size 8192) ltac:(lia)) as [Hlo Hhi].
  rewrite Z.pow_succ_r in Hhi by apply Z.log2_nonneg. split; [lia|]. split; [lia|].
  destruct (Z.le_gt_cases 8192 size); [left|right; lia].
  rewrite Z.min_r by lia. reflexivity.
Qed.

Lemma CotpConnection_setTpduSize_spec_witness :
  let n := CotpConnection_getTpduSize (CotpConnection_setTpduSize Cotp_calloc 3000) in
  n = 2048 /\ n <= 3000 /\ n <= 8192 /\ (n = 8192 \/ 3000 < 2 * n).
Proof.
  split; [reflexivity|]. apply (CotpConnection_setTpduSize_spec Cotp_calloc 3000). lia.
Defined.

(** * Hazards *)

(** Only the first connection request allocates the write buffer.  A second one
    may raise the TPDU size, and a message that is longer than the buffer but
    fits the new size is then written beyond the buffer's end. *)
Theorem CotpConnection_second_request_overflows n self o rest mem send part chain bs :
  so_open (c_socket self) = true -> options_wf o ->
  so_rx (c_socket self) = RxData (cr_frame o) :: rest ->
  c_writeBuffer self = Some (mkByteBuffer (Some (mk_ptr mem 0)) (zlen mem) 0) ->
  7 <= zlen mem -> bytes bs -> chain_at send (part :: chain) 0 bs ->
  zlen mem < 7 + zlen bs -> zlen bs + 3 <= 2 ^ tpdu_size o ->
  exists self', parseIncomingMessage (S n) self = Done (CONNECT_INDICATION, self') /\
    CotpConnection_sendDataMessage self' send (part :: chain) = Ub.
Proof.
  intros Ho Hwf Hrx Hw Hmem Hb Hat Hlong Hfit.
  eexists. split; [by apply parse_cr_frame|].
  unfold CotpConnection_sendDataMessage.
  change (CotpConnection_getTpduSize _) with (Z.shiftl 1 (tpdu_size o)). rewrite Z.shiftl_1_l.
  pose proof Hat as (Hok & Hpos & Hidx & Hrem). rewrite drop_0 in Hrem.
  assert (chain_length (part :: chain) = Done (zlen bs)) as ->
    by (simpl; by rewrite (chain_length_ok _ _ _ Hok), Hrem).
  cbn [rbind]. unfold COTP_DATA_HEADER_SIZE. zdec.
  cbn [c_writeBuffer on_wire set_options set_protocolClass set_srcRef set_dstRef set_socket].
  rewrite Hw. cbn [defined rbind]. change (Z.to_nat 1) with 1%nat. cbn [sendFragments].
  change (1 <? Z.of_nat 1) with false. cbv iota zeta. unfold writeRfc1006Header.
  set (len := 7 + (zlen bs - 0)).
  erewrite (writing_start _ mem 0 _ 4 [0x03; 0x00; u8 (Z.quot len 0x100); u8 (Z.land len 0xff)]);
    [|exact Hw|emits_tac|zl|done].
  cbn [rbind]. unfold writeDataTpduHeader.
  erewrite (writing_more _ mem _ _ 7 [0x02; 0xf0; 0x80]); [|emits_tac|zl|done]. cbn [rbind].
  cbn [writing c_writeBuffer set_writeBuffer defined rbind bb_buffer p_mem].
  destruct (copy_chain_emits send (length bs) (part :: chain) 0 bs 7 Hb Hat ltac:(lia))
    as (c' & idx' & _ & Hem). rewrite firstn_all in Hem.
  replace (Z.to_nat (zlen bs - 0)) with (length bs) by (unfold zlen; lia).
  rewrite (emits_overflow _ _ _ _ _ _ Hem); [done| |]; rewrite zlen_splice by zl; lia.
Qed.

Lemma CotpConnection_second_request_overflows_witness :
  exists self', parseIncomingMessage 1
    (mkCotp 0 0 0 0 (mkSocket true [RxData (cr_frame (mkOptions 0 1 4))] [] []) (mkOptions 0 0 2) true
      (ByteBuffer_create 8) (Some (mkByteBuffer (Some (mk_ptr (replicate 8 0) 0)) 8 0))) = Done (CONNECT_INDICATION, self') /\
    CotpConnection_sendDataMessage self' (replicate 4 7) (BufferChain_init 4 4 [] (InBlock 0)) = Ub.
Proof.
  apply (CotpConnection_second_request_overflows 0 (mkCotp 0 0 0 0 (mkSocket true [RxData (cr_frame (mkOptions 0 1 4))] [] []) (mkOptions 0 0 2) true
      (ByteBuffer_create 8) (Some (mkByteBuffer (Some (mk_ptr (replicate 8 0) 0)) 8 0)))
    (mkOptions 0 1 4) [] (replicate 8 0) (replicate 4 7)
    (mkPart 4 4 4 (InBlock 0)) [] (replicate 4 7)); try reflexivity; try (by_eval; fail).
Defined.


(** A data TPDU whose RFC 1006 length is 6 is one byte too short for its own
    headers: the payload size becomes -1 and the layers above are told that data
    has arrived. *)
Theorem CotpConnection_short_length_underflow n self m mx s0 rest :
  so_open (c_socket self) = true -> c_payload self = mkByteBuffer (Some (mk_ptr m 0)) mx s0 ->
  0 <= mx -> so_rx (c_socket self) = RxData [0x03; 0x00; 0x00; 0x06; 0x02; 0xf0; 0x80] :: rest ->
  exists self', CotpConnection_parseIncomingMessage (S n) self = Done (DATA_INDICATION, self') /\
    bb_size (c_payload self') = -1.
Proof.
  intros Ho Hp Hmx Hrx. unfold CotpConnection_parseIncomingMessage.
  set (self' := set_payload (bb_set_size (c_payload self) 0) self).
  rewrite (on_wire_intro self' [0x03; 0x00; 0x00; 0x06; 0x02; 0xf0; 0x80] rest) by done.
  cbn [parseIncomingMessage]. rewrite (parseRFC1006Header_wire self' 6) by (done || lia).
  cbn [rbind]. rewrite !readUint8_wire by done. cbn [Z.eqb Pos.eqb].
  unfold parseDataTpdu. cbn [Z.eqb Pos.eqb negb]. rewrite readUint8_wire by done.
  unfold addPayloadToBuffer, self', bb_set_size, ByteStream_readOctets.
  cbn [c_payload set_isLastDataUnit set_payload on_wire set_socket c_socket so_set_rx].
  rewrite Hp. cbn [bb_maxSize bb_size].
  change (so_open (so_set_rx ?s rest)) with (so_open s). rewrite Ho.
  rewrite (proj2 (Z.ltb_ge mx _)) by lia. by eexists.
Qed.

Lemma CotpConnection_short_length_underflow_witness :
  exists self', CotpConnection_parseIncomingMessage 1
      (mkCotp 0 0 0 0 (mkSocket true [RxData [3; 0; 0; 6; 2; 0xf0; 0x80]] [] []) (mkOptions 0 0 3) true (ByteBuffer_create 8) None) = Done (DATA_INDICATION, self') /\
    bb_size (c_payload self') = -1.
Proof.
  apply (CotpConnection_short_length_underflow 0 (mkCotp 0 0 0 0 (mkSocket true [RxData [3; 0; 0; 6; 2; 0xf0; 0x80]] [] []) (mkOptions 0 0 3) true (ByteBuffer_create 8) None)
    (replicate 8 0) 8 0 []); [reflexivity|reflexivity|lia|reflexivity].
Defined.


(** A TPDU header that arrives in two TCP segments, the first ending inside
    the length field, makes the reader of the length write behind its array. *)
Theorem CotpConnection_split_header_overflow n self b1 b2 bs rest :
  so_open (c_socket self) = true ->
  so_rx (c_socket self) = RxData [0x03; 0x00; 0x00] :: RxData (b1 :: b2 :: bs) :: rest ->
  CotpConnection_parseIncomingMessage (S n) self = Ub.
Proof.
  intros Ho Hrx. unfold CotpConnection_parseIncomingMessage.
  set (self' := set_payload (bb_set_size (c_payload self) 0) self).
  rewrite (on_wire_intro self' [0x03; 0x00; 0x00] (RxData (b1 :: b2 :: bs) :: rest)) by done.
  cbn [parseIncomingMessage]. unfold parseRFC1006Header. rewrite !readUint8_wire by done.
  cbn [Z.eqb Pos.eqb negb]. unfold cotp_readUint16, ByteStream_readUint16.
  cbn [on_wire c_socket set_socket so_set_rx so_open so_rx].
  replace (so_open (c_socket self')) with true by done.
  cbn [readUint16_loop Socket_read]. rewrite !zlen_cons, zlen_nil. cbn [rbind].
  change (1 + 0 <=? 2) with true. cbv iota. change (2 <? zlen [] + zlen [0]) with false. cbv iota.
  change (zlen ([] ++ [0]) <? 2) with true. cbv iota.
  destruct (1 + (1 + zlen bs) <=? 2).
  - rewrite !zlen_cons. pose proof (zlen_nonneg bs). by zdec.
  - by zdec.
Qed.

Lemma CotpConnection_split_header_overflow_witness :
  CotpConnection_parseIncomingMessage 1
    (mkCotp 0 0 0 0 (mkSocket true [RxData [3; 0; 0]; RxData [22; 17; 0xe0]] [] []) (mkOptions 0 0 3) true (ByteBuffer_create 8) None) = Ub.
Proof.
  apply (CotpConnection_split_header_overflow 0 (mkCotp 0 0 0 0 (mkSocket true [RxData [3; 0; 0]; RxData [22; 17; 0xe0]] [] []) (mkOptions 0 0 3) true (ByteBuffer_create 8) None) 22 17 [0xe0] []); reflexivity.
Defined.

(** The COTP parser on arbitrary input: it returns, and it never reports more
    payload than the payload buffer holds. *)

(** * Progress on the stream *)

(** The number of bytes that can still be read. *)
Fixpoint rx_size (rx : list rx_event) : nat :=
  match rx with
  | RxData bs :: rest => length bs + rx_size rest
  | _ :: rest => rx_size rest
  | [] => 0
  end.

Lemma rx_size_app a b : rx_size (a ++ b) = (rx_size a + rx_size b)%nat.
Proof. induction a as [|[bs| |] a IH]; simpl; lia. Qed.

Lemma Socket_read_size size ev r pending rest :
  Socket_read size ev = (r, pending) ->
  (length (default [] r) + rx_size (pending ++ rest) <= rx_size (ev :: rest))%nat.
Proof.
  rewrite rx_size_app. destruct ev as [bs| |]; simpl; [|intros [= <- <-]; simpl; lia..].
  destruct (_ <=? _); intros [= <- <-]; simpl; [lia|].
  rewrite length_take, length_drop. lia.
Qed.

(** What reading leaves alone: only the socket moves on. *)
Definition cotp_reads (self self' : CotpConnection) : Prop :=
  (rx_size (so_rx (c_socket self')) <= rx_size (so_rx (c_socket self)))%nat /\
  c_payload self' = c_payload self.

#[export] Instance cotp_reads_preorder : PreOrder cotp_reads.
Proof.
  split; [by intros x|]. intros x y z [H1 H2] [H3 H4]. split; [lia|congruence].
Qed.

Lemma readUint8_loop_size rx r rx' :
  readUint8_loop rx = (r, rx') ->
  (rx_size rx' + length (option_list r) <= rx_size rx)%nat.
Proof.
  revert r rx'. induction rx as [|ev rest IH]; intros r rx'; cbn [readUint8_loop].
  - intros [= <- <-]. simpl. lia.
  - destruct (Socket_read 1 ev) as [[[|b bs]|] pending] eqn:E;
      apply (Socket_read_size _ _ _ _ rest) in E; rewrite rx_size_app in E.
    + intros H%IH. simpl in *. lia.
    + intros [= <- <-]. rewrite rx_size_app. simpl in *. lia.
    + intros [= <- <-]. rewrite rx_size_app. simpl in *. lia.
Qed.

Lemma readUint16_loop_size rx acc byte rx' :
  readUint16_loop rx acc = Done (byte, rx') -> (rx_size rx' <= rx_size rx)%nat.
Proof.
  revert acc. induction rx as [|ev rest IH]; intros acc; cbn [readUint16_loop].
  - by intros [= _ <-].
  - destruct (Socket_read 2 ev) as [[bs|] pending] eqn:E;
      apply (Socket_read_size _ _ _ _ rest) in E.
    + destruct (2 <? _); [done|]. destruct (_ <? 2).
      * intros H%IH. rewrite rx_size_app in E. lia.
      * intros [= _ <-]. lia.
    + intros [= _ <-]. lia.
Qed.

Lemma readUint16_loop_total rx acc :
  readUint16_loop rx acc <> AssertFailed /\ readUint16_loop rx acc <> NoFuel.
Proof.
  revert acc. induction rx as [|ev rest IH]; intros acc; cbn [readUint16_loop]; [done|].
  destruct (Socket_read 2 ev) as [[bs|] pending]; [|done].
  destruct (2 <? _); [done|]. destruct (_ <? 2); [apply IH|done].
Qed.

Lemma readOctets_loop_size rx size acc r rx' :
  readOctets_loop rx size acc = (r, rx') -> (rx_size rx' <= rx_size rx)%nat.
Proof.
  revert acc. induction rx as [|ev rest IH]; intros acc; cbn [readOctets_loop].
  - by intros [= _ <-].
  - destruct (Socket_read _ ev) as [[bs|] pending] eqn:E;
      apply (Socket_read_size _ _ _ _ rest) in E.
    + destruct (_ <? size).
      * intros H%IH. rewrite rx_size_app in E. lia.
      * intros [= _ <-]. lia.
    + intros [= _ <-]. lia.
Qed.

Lemma cotp_readUint8_reads self r self' :
  cotp_readUint8 self = (r, self') ->
  cotp_reads self self' /\
  (r <> None -> (rx_size (so_rx (c_socket self')) < rx_size (so_rx (c_socket self)))%nat).
Proof.
  unfold cotp_readUint8, ByteStream_readUint8. destruct (so_open _).
  - destruct (readUint8_loop _) as [b rx] eqn:E. apply readUint8_loop_size in E.
    intros [= <- <-]. unfold cotp_reads. simpl. split; [split; [lia|done]|].
    destruct b; [simpl in E; intros _; lia|done].
  - intros [= <- <-]. by split.
Qed.

(** The outcomes of a reading function: it returns, or it runs into undefined
    behaviour; it reads on and leaves the payload alone. *)
Definition reads_ok {A} (self : CotpConnection) (r : res (A * CotpConnection)) : Prop :=
  match r with
  | Done (_, self') => cotp_reads self self'
  | Ub => True
  | AssertFailed | NoFuel => False
  end.

Lemma cotp_readUint16_reads self : reads_ok self (cotp_readUint16 self).
Proof.
  unfold reads_ok, cotp_readUint16, ByteStream_readUint16. destruct (so_open _); [|done].
  destruct (readUint16_loop _ _) as [[bs rx]| | |] eqn:E; simpl.
  - apply readUint16_loop_size in E. by destruct bs as [|? [|? [|]]].
  - done.
  - by destruct (readUint16_loop_total (so_rx (c_socket self)) []).
  - by destruct (readUint16_loop_total (so_rx (c_socket self)) []).
Qed.

Lemma reads_trans {A} self self' (r : res (A * CotpConnection)) :
  cotp_reads self self' -> reads_ok self' r -> reads_ok self r.
Proof.
  intros H. destruct r as [[a s]| | |]; simpl; try done. intros ?. by etrans.
Qed.

Lemma reads_bind {A B} self (m : res (A * CotpConnection)) (k : A * CotpConnection -> res (B * CotpConnection)) :
  reads_ok self m -> (forall a self', cotp_reads self self' -> reads_ok self' (k (a, self'))) ->
  reads_ok self (rbind m k).
Proof.
  intros Hm Hk. destruct m as [[a s]| | |]; simpl in *; try done.
  eapply reads_trans; [done|]. by apply Hk.
Qed.

Lemma skip_option_reads n self ok self' :
  skip_option n self = (ok, self') -> cotp_reads self self'.
Proof.
  revert self. induction n as [|n IH]; intros self; simpl; [by intros [= _ <-]|].
  destruct (cotp_readUint8 self) as [r s] eqn:E. apply cotp_readUint8_reads in E as [E _].
  destruct r; [|by intros [= _ <-]]. intros H%IH. by etrans.
Qed.

Lemma parseOptions_body_reads opt_len self k :
  match parseOptions_body opt_len (self, k) with
  | Done (Next (self', k')) => cotp_reads self self' /\ (0 <= k < opt_len -> k < k')
  | Done (Ret (_, self')) => cotp_reads self self'
  | Ub => True
  | _ => False
  end.
Proof.
  unfold parseOptions_body.
  destruct (cotp_readUint8 self) as [[type|] s1] eqn:E1;
    apply cotp_readUint8_reads in E1 as [R1 _]; [|done].
  destruct (cotp_readUint8 s1) as [[len|] s2] eqn:E2;
    apply cotp_readUint8_reads in E2 as [R2 _]; [|by etrans].
  assert (cotp_reads self s2) as R by by etrans. clear R1 R2.
  destruct (type =? 0xc0).
  { destruct (cotp_readUint8 s2) as [[v|] s3] eqn:E3;
      apply cotp_readUint8_reads in E3 as [R3 _]; [|by etrans].
    destruct (32 <=? v); [done|]. split; [|lia]. by transitivity s3; [etrans|]. }
  pose proof (cotp_readUint16_reads s2) as H16.
  destruct (type =? 0xc1).
  { destruct (len =? 2); [|done].
    destruct (cotp_readUint16 s2) as [[[v|] s3]| | |]; simpl in *; try done; [|by etrans].
    split; [|lia]. by transitivity s3; [etrans|]. }
  destruct (type =? 0xc2).
  { destruct (len =? 2); [|done].
    destruct (cotp_readUint16 s2) as [[[v|] s3]| | |]; simpl in *; try done; [|by etrans].
    split; [|lia]. by transitivity s3; [etrans|]. }
  destruct (type =? 0xc6).
  { destruct (len =? 1); [|done]. destruct (cotp_readUint8 s2) as [r s3] eqn:E3.
    apply cotp_readUint8_reads in E3 as [R3 _]. split; [by etrans|lia]. }
  destruct (skip_option _ s2) as [ok s3] eqn:E3. apply skip_option_reads in E3.
  destruct ok; [split; [by etrans|lia]|by etrans].
Qed.

Lemma parseOptions_reads self opt_len : reads_ok self (parseOptions self opt_len).
Proof.
  unfold parseOptions.
  pose proof (while_total (fun st => snd st <? opt_len) (parseOptions_body opt_len)
    (fun st => cotp_reads self (fst st) /\ 0 <= snd st) (fun r => cotp_reads self (snd r)) True
    (fun st => opt_len - snd st) (Z.to_nat opt_len) (self, 0)) as H.
  assert (forall st, cotp_reads self (fst st) /\ 0 <= snd st -> (snd st <? opt_len) = true ->
    match parseOptions_body opt_len st with
    | Done (Next st') => (cotp_reads self (fst st') /\ 0 <= snd st') /\
                         opt_len - snd st' < opt_len - snd st
    | Done (Ret r) => cotp_reads self (snd r)
    | Ub => True
    | _ => False
    end) as Hbody.
  { intros [s1 k1] [Hr H0] Hk%Z.ltb_lt. cbn [fst snd] in *.
    pose proof (parseOptions_body_reads opt_len s1 k1) as Hb.
    destruct (parseOptions_body _ _) as [[[s2 k2]|[r2 s2]]| | |]; cbn [fst snd] in *; try done.
    - destruct Hb as [Hb Hlt]. specialize (Hlt ltac:(lia)). split; [split; [by etrans|lia]|lia].
    - by etrans. }
  specialize (H (conj (reflexivity self) (Z.le_refl 0)) ltac:(simpl; lia)
    ltac:(intros st _ Hk%Z.ltb_lt; lia) Hbody).
  destruct (while _ _ _ _) as [[[s k]|[r s]]| | |]; try done. apply H.
Qed.

Lemma parseConnectTpdu_reads first second self len :
  (forall v s, cotp_reads s (first v s)) -> (forall v s, cotp_reads s (second v s)) ->
  reads_ok self (parseConnectTpdu first second self len).
Proof.
  intros Hf Hs. unfold parseConnectTpdu.
  apply reads_bind; [apply cotp_readUint16_reads|]. intros [v|] s1 R1; [|done].
  apply (reads_trans _ _ _ (Hf v s1)).
  apply reads_bind; [apply cotp_readUint16_reads|]. intros [w|] s2 R2; [|done].
  apply (reads_trans _ _ _ (Hs w s2)).
  destruct (cotp_readUint8 _) as [[c|] s3] eqn:E; apply cotp_readUint8_reads in E as [R3 _];
    [|done]. apply (reads_trans _ _ _ R3), (reads_trans _ (set_protocolClass c s3)); [done|].
  apply parseOptions_reads.
Qed.

Lemma parseRFC1006Header_reads self :
  match parseRFC1006Header self with
  | Done (Some _, self') =>
      cotp_reads self self' /\
      (rx_size (so_rx (c_socket self')) < rx_size (so_rx (c_socket self)))%nat
  | r => reads_ok self r
  end.
Proof.
  unfold parseRFC1006Header.
  destruct (cotp_readUint8 self) as [[b|] s1] eqn:E1;
    apply cotp_readUint8_reads in E1 as [R1 L1]; [|done].
  destruct (negb _); [done|]. specialize (L1 ltac:(done)).
  destruct (cotp_readUint8 s1) as [[c|] s2] eqn:E2;
    apply cotp_readUint8_reads in E2 as [R2 L2]; [|by (simpl; etrans)].
  assert (cotp_reads self s2) as R by by etrans.
  destruct (negb _); [done|]. pose proof (cotp_readUint16_reads s2) as H16.
  destruct (cotp_readUint16 s2) as [[[v|] s3]| | |]; simpl in *; try done; [|by etrans].
  split; [by etrans|]. destruct H16 as [H16 _]. destruct R2 as [R2 _]. lia.
Qed.

(** * The parser *)

(** The payload buffer is filled at most to its end. *)
Definition payload_in (self : CotpConnection) : Prop :=
  exists p, bb_buffer (c_payload self) = Some p /\
    bb_size (c_payload self) <= bb_maxSize (c_payload self).

(** From [self] to [self']: the stream moves on, the payload buffer keeps its
    place, capacity and bound. *)
Definition cotp_progress (self self' : CotpConnection) : Prop :=
  (rx_size (so_rx (c_socket self')) <= rx_size (so_rx (c_socket self)))%nat /\
  bb_maxSize (c_payload self') = bb_maxSize (c_payload self) /\ payload_in self'.

Definition progress_ok {A} (self : CotpConnection) (r : res (A * CotpConnection)) : Prop :=
  match r with
  | Done (_, self') => cotp_progress self self'
  | Ub => True
  | AssertFailed | NoFuel => False
  end.

Lemma reads_progress self self' : cotp_reads self self' -> payload_in self -> cotp_progress self self'.
Proof. intros [Hr Hp] Hin. unfold cotp_progress, payload_in in *. by rewrite Hp. Qed.

Lemma reads_ok_progress {A} self (r : res (A * CotpConnection)) :
  payload_in self -> reads_ok self r -> progress_ok self r.
Proof. intros Hin. destruct r as [[a s]| | |]; simpl; try done. intros. by apply reads_progress. Qed.

Lemma progress_trans {A} self self' (r : res (A * CotpConnection)) :
  (rx_size (so_rx (c_socket self')) <= rx_size (so_rx (c_socket self)))%nat ->
  bb_maxSize (c_payload self') = bb_maxSize (c_payload self) ->
  progress_ok self' r -> progress_ok self r.
Proof.
  intros Hr Hm. destruct r as [[a s]| | |]; simpl; try done. intros (H1 & H2 & H3).
  split; [lia|]. split; [congruence|done].
Qed.

Lemma bb_store_outcome b at_ bs :
  match bb_store b at_ bs with
  | Done b' => bb_maxSize b' = bb_maxSize b /\ bb_size b' = bb_size b /\
               exists p, bb_buffer b' = Some p
  | Ub => True
  | _ => False
  end.
Proof.
  unfold bb_store, st_list. destruct (bb_buffer b); [|done]. simpl.
  destruct (zlen bs =? 0); [simpl; by eauto|]. destruct (_ || _); simpl; by eauto.
Qed.

Lemma addPayloadToBuffer_progress parse self len :
  payload_in self ->
  (forall s, (rx_size (so_rx (c_socket s)) <= rx_size (so_rx (c_socket self)))%nat ->
     payload_in s -> progress_ok s (parse s)) ->
  progress_ok self (addPayloadToBuffer parse self len).
Proof.
  intros (p & Hp & Hsz) Hparse. unfold addPayloadToBuffer.
  destruct (Z.ltb_spec (bb_maxSize (c_payload self)) (bb_size (c_payload self) + (len - 7))).
  { split; [lia|]. split; [done|]. by exists p. }
  destruct (ByteStream_readOctets _ _) as [r sock] eqn:E.
  assert (rx_size (so_rx sock) <= rx_size (so_rx (c_socket self)))%nat as Hrx.
  { unfold ByteStream_readOctets in E. destruct (so_open _); [|by simplify_eq].
    destruct (_ <? 0); [by simplify_eq|]. destruct (_ =? 0); [by simplify_eq|].
    destruct (readOctets_loop _ _ _) as [r' rx'] eqn:E2. apply readOctets_loop_size in E2.
    by simplify_eq. }
  cbn [c_payload set_socket].
  pose proof (bb_store_outcome (c_payload self) (bb_size (c_payload self)) (default [] r)) as Hst.
  destruct (bb_store _ _ _) as [pl| | |]; try done. destruct Hst as (Hm & Hs & q & Hq).
  cbn [rbind].
  destruct (negb _); simpl.
  { split; [done|]. split; [done|]. exists q. simpl. split; [done|lia]. }
  set (self1 := set_payload (bb_set_size _ _) _).
  assert (payload_in self1) as Hin1 by (exists q; split; [done|simpl; lia]).
  assert (rx_size (so_rx (c_socket self1)) <= rx_size (so_rx (c_socket self)))%nat as Hrx1 by done.
  destruct (negb (c_isLastDataUnit self)).
  - specialize (Hparse self1 Hrx1 Hin1).
    apply (progress_trans _ self1) ; [done|done|].
    destruct (parse self1) as [[ind s2]| | |]; done.
  - split; [done|]. split; [done|done].
Qed.

Lemma parse_progress fuel self :
  (rx_size (so_rx (c_socket self)) < fuel)%nat -> payload_in self ->
  progress_ok self (parseIncomingMessage fuel self).
Proof.
  revert self. induction fuel as [|n IH]; intros self Hf Hin; [lia|]. cbn [parseIncomingMessage].
  pose proof (parseRFC1006Header_reads self) as H1.
  destruct (parseRFC1006Header self) as [[[len|] s1]| | |]; cbn [rbind];
    try done; [|by apply reads_progress].
  destruct H1 as [R1 L1].
  destruct (cotp_readUint8 s1) as [[li|] s2] eqn:E2; apply cotp_readUint8_reads in E2 as [R2 _];
    [|apply reads_progress; [by etrans|done]].
  destruct (cotp_readUint8 s2) as [[type|] s3] eqn:E3; apply cotp_readUint8_reads in E3 as [R3 _];
    [|apply reads_progress; [by transitivity s2; [etrans|]|done]].
  assert (cotp_reads s1 s3) as R13 by by etrans.
  assert (cotp_reads self s3) as R by by etrans. clear R2 R3.
  destruct (type =? 0xe0).
  { apply (reads_ok_progress _ _ Hin), (reads_trans _ _ _ R), reads_bind.
    - by apply parseConnectTpdu_reads.
    - by intros r s. }
  destruct (type =? 0xd0).
  { apply (reads_ok_progress _ _ Hin), (reads_trans _ _ _ R), reads_bind.
    - apply (reads_trans _ (set_isLastDataUnit true s3)); [done|]. by apply parseConnectTpdu_reads.
    - by intros r s. }
  destruct (type =? 0xf0); [|by apply reads_progress].
  destruct (parseDataTpdu s3 li) as [r s4] eqn:E4.
  assert (cotp_reads s3 s4) as R4.
  { unfold parseDataTpdu in E4. destruct (negb _); [by simplify_eq|].
    destruct (cotp_readUint8 s3) as [[b|] s5] eqn:E5;
      apply cotp_readUint8_reads in E5 as [R5 _]; by simplify_eq. }
  destruct (r =? 1); [|apply reads_progress; [by etrans|done]].
  assert (cotp_reads self s4) as R04 by by etrans. destruct R04 as [Hrx Hpay].
  apply (progress_trans _ s4); [done|by rewrite Hpay|].
  assert (progress_ok s4 (addPayloadToBuffer (parseIncomingMessage n) s4 len)) as Hadd.
  { apply addPayloadToBuffer_progress; [unfold payload_in; by rewrite Hpay|].
    intros s Hs Hps. apply IH; [|done]. destruct R13 as [H13 _], R4 as [H4 _]. lia. }
  destruct (addPayloadToBuffer _ _ _) as [[a s5]| | |]; done.
Qed.

(** ** Streams without surprises

    The three ways in which the parser leaves defined behaviour: a field of 16 bits that
    arrives in two segments (the reader of the second one writes behind its array), a
    TPDU size of more than 31 bits (a shift by that many bits), and a data TPDU that is
    shorter than its header (the size of the payload becomes negative). *)

(** All that arrives comes as one segment. *)
Definition one_piece (bs : list Z) (self : CotpConnection) : Prop :=
  so_rx (c_socket self) = [RxData bs] \/ so_rx (c_socket self) = [] /\ bs = [].

(** No TPDU size above 2^31, and no TPKT header with a length below that of the headers. *)
Definition harmless (bs : list Z) : Prop :=
  (forall i v, bs !! i = Some 0xc0 -> bs !! (i + 2)%nat = Some v -> v < 32) /\
  (forall i h l, bs !! i = Some 3 -> bs !! (i + 1)%nat = Some 0 -> bs !! (i + 2)%nat = Some h -> bs !! (i + 3)%nat = Some l ->
     7 <= h * 0x100 + l).

(** The payload buffer has the memory that it claims to have. *)
Definition payload_real (self : CotpConnection) : Prop :=
  exists p, bb_buffer (c_payload self) = Some p /\ 0 <= p_base p /\
    p_base p + bb_maxSize (c_payload self) <= zlen (p_mem p) /\ 0 <= bb_size (c_payload self) <= bb_maxSize (c_payload self).

Definition calm_at (bs : list Z) (self : CotpConnection) : Prop := one_piece bs self /\ harmless bs /\ payload_real self.
Definition calm (self : CotpConnection) : Prop := exists bs, calm_at bs self.

Lemma harmless_drop n bs : harmless bs -> harmless (drop n bs).
Proof.
  intros [H1 H2]. split.
  - intros i v. rewrite !lookup_drop. replace (n + (i + 2))%nat with (n + i + 2)%nat by lia. apply H1.
  - intros i h l. rewrite !lookup_drop, !Nat.add_assoc. apply H2.
Qed.

Lemma harmless_nil : harmless [].
Proof. split; [intros i v|intros i h l]; by rewrite lookup_nil. Qed.

Lemma readUint8_calm bs self r self' : calm_at bs self -> cotp_readUint8 self = (r, self') ->
  match r with Some b => exists bs', bs = b :: bs' /\ calm_at bs' self' | None => calm self' end.
Proof.
  intros (Hp & Hh & Hs). unfold cotp_readUint8, ByteStream_readUint8. destruct (so_open (c_socket self)).
  2: { intros [= <- <-]. by exists bs. }
  destruct Hp as [Hp|[Hp ->]]; rewrite Hp; cbn [readUint8_loop Socket_read app].
  2: { intros [= <- <-]. exists []. split; [by right|done]. }
  destruct (Z.leb_spec (zlen bs) 1) as [Hl|Hl].
  - destruct bs as [|b bs]; [intros [= <- <-]; exists []; split; [by right|done]|].
    destruct bs as [|c bs]; [|rewrite !zlen_cons in Hl; pose proof (zlen_nonneg bs); lia].
    intros [= <- <-]. exists []. split; [done|]. split; [by right|]. split; [exact harmless_nil|done].
  - destruct bs as [|b bs]; [done|]. change (Z.to_nat 1) with 1%nat. intros [= <- <-]. exists bs. split; [done|].
    split; [by left|]. split; [exact (harmless_drop 1 _ Hh)|done].
Qed.

Lemma readUint16_calm bs self : calm_at bs self -> exists r self', cotp_readUint16 self = Done (r, self') /\
  match r with Some v => exists h l bs', v = h * 0x100 + l /\ bs = h :: l :: bs' /\ calm_at bs' self' | None => calm self' end.
Proof.
  intros (Hp & Hh & Hs). unfold cotp_readUint16, ByteStream_readUint16. destruct (so_open (c_socket self)).
  2: { do 2 eexists. split; [done|]. by exists bs. }
  destruct Hp as [Hp|[Hp ->]]; rewrite Hp; cbn [readUint16_loop Socket_read app rbind].
  2: { do 2 eexists. split; [done|]. exists []. split; [by right|done]. }
  assert (calm_at [] (set_socket (so_set_rx (c_socket self) []) self)) as Hnil
    by (split; [by right|]; split; [exact harmless_nil|done]).
  destruct (Z.leb_spec (zlen bs) 2) as [Hl|Hl].
  - rewrite zlen_nil. rewrite (proj2 (Z.ltb_ge _ _)) by lia. cbn [app].
    destruct bs as [|h [|l [|]]]; cbn [rbind app].
    + do 2 eexists. split; [done|]. by exists [].
    + do 2 eexists. split; [done|]. by exists [].
    + do 2 eexists. split; [done|]. exists h, l, []. done.
    + exfalso. rewrite !zlen_cons in Hl. pose proof (zlen_nonneg l0). lia.
  - destruct bs as [|h [|l bs]]; [done|by rewrite zlen_cons, zlen_nil in Hl|]. change (Z.to_nat 2) with 2%nat. cbn [take drop rbind app].
    do 2 eexists. split; [done|]. exists h, l, bs. split; [done|]. split; [done|]. split; [by left|]. split; [exact (harmless_drop 2 _ Hh)|done].
Qed.

Lemma readOctets_calm bs self size r sock : calm_at bs self -> ByteStream_readOctets (c_socket self) size = (r, sock) ->
  (forall o, r = Some o -> zlen o <= Z.max 0 size) /\ exists bs', one_piece bs' (set_socket sock self) /\ harmless bs'.
Proof.
  intros (Hp & Hh & Hs). unfold ByteStream_readOctets. destruct (so_open (c_socket self)).
  2: { intros [= <- <-]. split; [done|]. by exists bs. }
  destruct (Z.ltb_spec size 0) as [|Hs0]; [intros [= <- <-]; split; [done|]; by exists bs|].
  destruct (Z.eqb_spec size 0) as [->|Hs1]; [intros [= <- <-]; split; [by intros o [= <-]|]; by exists bs|].
  destruct Hp as [Hp|[Hp ->]]; rewrite Hp; cbn [readOctets_loop Socket_read].
  2: { intros [= <- <-]. split; [intros o [= <-]; rewrite zlen_nil; lia|]. exists []. split; [by right|done]. }
  rewrite zlen_nil, Z.sub_0_r. destruct (Z.leb_spec (zlen bs) size) as [Hl|Hl]; cbn [app].
  - destruct (zlen bs <? size); cbn [readOctets_loop]; intros [= <- <-]; (split; [intros o [= <-]; lia|]);
      exists []; (split; [by right|exact harmless_nil]).
  - assert (zlen (take (Z.to_nat size) bs) = size) as Ht by (unfold zlen in *; rewrite length_take; lia).
    rewrite Ht, Z.ltb_irrefl. intros [= <- <-]. split; [intros o [= <-]; lia|].
    exists (drop (Z.to_nat size) bs). split; [by left|by apply harmless_drop].
Qed.

(** The outcomes that are wanted. *)
Definition fine {A} (r : res (A * CotpConnection)) : Prop :=
  match r with Done (_, self') => calm self' | Ub => False | _ => True end.

Lemma calm_same self self' : so_rx (c_socket self') = so_rx (c_socket self) -> c_payload self' = c_payload self ->
  calm self -> calm self'.
Proof. intros E1 E2 (bs & H1 & H2 & H3). exists bs. unfold calm_at, one_piece, payload_real. by rewrite E1, E2. Qed.

Lemma fine_bind {A B} (m : res (A * CotpConnection)) (k : A * CotpConnection -> res (B * CotpConnection)) :
  fine m -> (forall a self, calm self -> fine (k (a, self))) -> fine (rbind m k).
Proof. destruct m as [[a s]| | |]; simpl; auto. Qed.

Lemma read8_calm self r self' : calm self -> cotp_readUint8 self = (r, self') -> calm self'.
Proof. intros [bs H] E. apply (readUint8_calm bs) in E; [|done]. destruct r; [destruct E as (bs' & _ & ?); by exists bs'|done]. Qed.

Lemma read16_fine self : calm self -> fine (cotp_readUint16 self).
Proof.
  intros [bs H]. destruct (readUint16_calm bs self H) as (r & s & -> & Hr). cbn. destruct r; [|done].
  destruct Hr as (h & l & bs' & _ & _ & ?). by exists bs'.
Qed.

Lemma skip_option_calm n self ok self' : calm self -> skip_option n self = (ok, self') -> calm self'.
Proof.
  revert self. induction n as [|n IH]; intros self Hc; simpl; [by intros [= _ <-]|].
  destruct (cotp_readUint8 self) as [r s] eqn:E. apply read8_calm in E; [|done]. destruct r; [by apply IH|by intros [= _ <-]].
Qed.

Lemma parseOptions_body_calm opt_len self k : calm self ->
  match parseOptions_body opt_len (self, k) with
  | Done (Next (self', _)) => calm self'
  | Done (Ret (_, self')) => calm self'
  | Ub => False
  | _ => True
  end.
Proof.
  intros [bs Hc]. unfold parseOptions_body.
  destruct (cotp_readUint8 self) as [r s1] eqn:E1. apply (readUint8_calm bs) in E1; [|done]. destruct r as [type|]; [|done].
  destruct E1 as (bs1 & -> & H1). destruct (cotp_readUint8 s1) as [r s2] eqn:E2. apply (readUint8_calm bs1) in E2; [|done].
  destruct r as [len|]; [|done]. destruct E2 as (bs2 & -> & H2). destruct (Z.eqb_spec type 0xc0) as [->|_].
  { destruct (cotp_readUint8 s2) as [r s3] eqn:E3. apply (readUint8_calm bs2) in E3; [|done]. destruct r as [v|]; [|done].
    destruct E3 as (bs3 & -> & H3). destruct Hc as (_ & [Hh _] & _). specialize (Hh 0%nat v eq_refl eq_refl).
    rewrite (proj2 (Z.leb_gt _ _)) by done. eapply calm_same; [| |by exists bs3]; done. }
  assert (calm s2) as H by (by exists bs2). pose proof (read16_fine s2 H) as H16.
  destruct (type =? 0xc1).
  { destruct (len =? 2); [|done]. destruct (cotp_readUint16 s2) as [[[v|] s3]| | |]; cbn in *; done. }
  destruct (type =? 0xc2).
  { destruct (len =? 2); [|done]. destruct (cotp_readUint16 s2) as [[[v|] s3]| | |]; cbn in *; done. }
  destruct (type =? 0xc6).
  { destruct (len =? 1); [|done]. destruct (cotp_readUint8 s2) as [r s3] eqn:E3. by apply read8_calm in E3. }
  destruct (skip_option _ s2) as [ok s3] eqn:E3. apply skip_option_calm in E3; [|done]. by destruct ok.
Qed.

Lemma while_calm opt_len fuel self k : calm self ->
  match while (fun st => snd st <? opt_len) (parseOptions_body opt_len) fuel (self, k) with
  | Done (Next (self', _)) => calm self'
  | Done (Ret (_, self')) => calm self'
  | Ub => False
  | _ => True
  end.
Proof.
  revert self k. induction fuel as [|fuel IH]; intros self k Hc; cbn [while snd]; destruct (k <? opt_len); try done.
  pose proof (parseOptions_body_calm opt_len self k Hc) as Hb.
  destruct (parseOptions_body opt_len (self, k)) as [[[s k']|[r s]]| | |]; cbn [rbind]; try done. by apply IH.
Qed.

Lemma parseConnectTpdu_fine first second self len :
  (forall v s, calm s -> calm (first v s)) -> (forall v s, calm s -> calm (second v s)) -> calm self ->
  fine (parseConnectTpdu first second self len).
Proof.
  intros Hf Hs Hc. unfold parseConnectTpdu. apply fine_bind; [by apply read16_fine|]. intros [v|] s1 H1; [|done].
  apply fine_bind; [by apply read16_fine, Hf|]. intros [w|] s2 H2; [|done].
  destruct (cotp_readUint8 _) as [r s3] eqn:E. apply read8_calm in E; [|by apply Hs]. destruct r as [c|]; [|done].
  unfold parseOptions. pose proof (while_calm (len - 6) (Z.to_nat (len - 6)) (set_protocolClass c s3) 0) as Hw.
  destruct (while _ _ _ _) as [[[s k]|[r s]]| | |]; cbn; try done; apply Hw; by eapply calm_same.
Qed.

Lemma parseRFC1006Header_calm self : calm self ->
  match parseRFC1006Header self with
  | Done (Some len, self') => calm self' /\ 7 <= len
  | Done (None, self') => calm self'
  | Ub => False
  | _ => True
  end.
Proof.
  intros [bs Hc]. unfold parseRFC1006Header.
  destruct (cotp_readUint8 self) as [r s1] eqn:E1. apply (readUint8_calm bs) in E1; [|done]. destruct r as [b|]; [|done].
  destruct E1 as (bs1 & -> & H1). destruct (Z.eqb_spec b 3) as [->|_]; [|by exists bs1]. cbn [negb].
  destruct (cotp_readUint8 s1) as [r s2] eqn:E2. apply (readUint8_calm bs1) in E2; [|done]. destruct r as [c|]; [|done].
  destruct E2 as (bs2 & -> & H2). destruct (Z.eqb_spec c 0) as [->|_]; [|by exists bs2]. cbn [negb].
  destruct (readUint16_calm bs2 s2 H2) as (r & s3 & -> & Hr). destruct r as [v|]; [|done].
  destruct Hr as (h & l & bs3 & -> & -> & H3). split; [by exists bs3|]. destruct Hc as (_ & [_ Hh] & _).
  by apply (Hh 0%nat h l).
Qed.

Lemma addPayloadToBuffer_fine parse self len : calm self -> 7 <= len -> (forall s, calm s -> fine (parse s)) ->
  fine (addPayloadToBuffer parse self len).
Proof.
  intros [bs Hc] Hlen Hparse. unfold addPayloadToBuffer.
  destruct (Z.ltb_spec (bb_maxSize (c_payload self)) (bb_size (c_payload self) + (len - 7))); [by exists bs|].
  destruct (ByteStream_readOctets _ _) as [r sock] eqn:E. destruct (readOctets_calm bs self _ _ _ Hc E) as (Hr & bs' & Hp' & Hh').
  destruct Hc as (_ & _ & p & Hp & H0 & Hm & Hs). cbn [c_payload set_socket].
  assert (zlen (default [] r) <= len - 7) as Hl.
  { destruct r as [o|]; cbn; [|rewrite zlen_nil; lia]. specialize (Hr o eq_refl). lia. }
  unfold bb_store. rewrite Hp. cbn [defined rbind].
  assert (exists m, st_list (p_mem p) (p_base p + bb_size (c_payload self)) (default [] r) = Done m /\ zlen m = zlen (p_mem p)) as (m & -> & Hzm).
  { unfold st_list. destruct (_ =? 0); [by eexists|]. rewrite (proj2 (Z.ltb_ge _ _)), (proj2 (Z.ltb_ge _ _)) by lia. cbn [orb].
    eexists. split; [done|]. apply zlen_splice; lia. }
  cbn [rbind]. destruct (Z.eqb_spec (match r with Some bs => zlen bs | None => -1 end) (len - 7)) as [Er|_]; cbn [negb].
  2: { exists bs'. split; [done|]. split; [done|]. exists (mk_ptr m (p_base p)). cbn. split_and!; try lia; done. }
  assert (calm (set_payload (bb_set_size (mkByteBuffer (Some (mk_ptr m (p_base p))) (bb_maxSize (c_payload self)) (bb_size (c_payload self)))
    (bb_size (c_payload self) + (len - 7))) (set_socket sock self))) as Hc1.
  { exists bs'. split; [done|]. split; [done|]. exists (mk_ptr m (p_base p)). cbn. split_and!; try lia; done. }
  match goal with |- fine (if ?b then _ else _) => destruct b end; [|done].
  specialize (Hparse _ Hc1). cbn [bb_size bb_maxSize bb_set_size] in *. by destruct (parse _) as [[i s]| | |].
Qed.

Lemma parse_fine fuel self : calm self -> fine (parseIncomingMessage fuel self).
Proof.
  revert self. induction fuel as [|n IH]; intros self Hc; [done|]. cbn [parseIncomingMessage].
  pose proof (parseRFC1006Header_calm self Hc) as H1. destruct (parseRFC1006Header self) as [[[len|] s1]| | |]; cbn [rbind]; try done.
  destruct H1 as [H1 Hlen].
  destruct (cotp_readUint8 s1) as [li s2] eqn:E2. apply read8_calm in E2; [|done]. destruct li as [li|]; [|done].
  destruct (cotp_readUint8 s2) as [type s3] eqn:E3. apply read8_calm in E3; [|done]. destruct type as [type|]; [|done].
  destruct (type =? 0xe0).
  { apply fine_bind; [|done]. apply parseConnectTpdu_fine; [..|done]; intros v s; by apply calm_same. }
  destruct (type =? 0xd0).
  { apply fine_bind; [|done]. apply parseConnectTpdu_fine; [intros v s; by apply calm_same..|]. by eapply calm_same. }
  destruct (type =? 0xf0); [|done]. destruct (parseDataTpdu s3 li) as [r s4] eqn:E4.
  assert (calm s4) as H4.
  { unfold parseDataTpdu in E4. destruct (negb _); [by simplify_eq|].
    destruct (cotp_readUint8 s3) as [r5 s5] eqn:E5. apply read8_calm in E5; [|done]. destruct r5; simplify_eq; [by eapply calm_same|done]. }
  destruct (r =? 1); [|done]. apply fine_bind; [|done]. by apply addPayloadToBuffer_fine.
Qed.

(** C40: Whatever bytes arrive and however they are cut into segments, the parser does not
    hang and no assertion fails: it returns after at most one TPDU per byte, or it leaves
    defined behaviour; and when it returns, the size that it leaves in the payload buffer
    is not above the buffer's capacity.  If all bytes come as one segment, nothing in
    them reads as a TPDU size above 2^31 or as a TPKT header with a length below 7
    ([harmless]), and the payload buffer has its memory, then it does return. *)
Theorem CotpConnection_parse_total fuel self p :
  bb_buffer (c_payload self) = Some p -> 0 <= bb_maxSize (c_payload self) ->
  (rx_size (so_rx (c_socket self)) < fuel)%nat ->
  match CotpConnection_parseIncomingMessage fuel self with
  | Done (_, self') =>
      bb_maxSize (c_payload self') = bb_maxSize (c_payload self) /\
      bb_size (c_payload self') <= bb_maxSize (c_payload self')
  | Ub => True
  | AssertFailed | NoFuel => False
  end /\
  (forall bs, so_rx (c_socket self) = [RxData bs] -> harmless bs -> 0 <= p_base p ->
    p_base p + bb_maxSize (c_payload self) <= zlen (p_mem p) ->
    exists indication self', CotpConnection_parseIncomingMessage fuel self = Done (indication, self') /\
      0 <= bb_size (c_payload self') <= bb_maxSize (c_payload self')).
Proof.
  intros Hp Hm Hf. unfold CotpConnection_parseIncomingMessage.
  set (self0 := set_payload _ _).
  assert (payload_in self0) as Hin by (by exists p).
  pose proof (parse_progress fuel self0 Hf Hin) as H. unfold progress_ok in H. split.
  - destruct (parseIncomingMessage fuel self0) as [[i s]| | |]; try done.
    destruct H as (_ & H1 & q & _ & H2). by split.
  - intros bs Hrx Hh Hb Hl. assert (calm self0) as Hc.
    { exists bs. split; [by left|]. split; [done|]. exists p. cbn. split_and!; try lia; done. }
    pose proof (parse_fine fuel self0 Hc) as Hfine. unfold fine in Hfine.
    destruct (parseIncomingMessage fuel self0) as [[i s]| | |]; try done. exists i, s. split; [done|].
    destruct Hfine as (bs' & _ & _ & q & _ & _ & _ & Hs). done.
Qed.

Lemma CotpConnection_parse_total_witness :
  exists indication self', CotpConnection_parseIncomingMessage 9
    (mkCotp 0 0 0 0 (mkSocket true [RxData [3; 0; 0; 8; 2; 0xf0; 0x80; 5]] [] [])
      (mkOptions 0 0 3) true (ByteBuffer_create 8) None) = Done (indication, self') /\ 0 <= bb_size (c_payload self') <= 8.
Proof.
  destruct (CotpConnection_parse_total 9 (mkCotp 0 0 0 0
    (mkSocket true [RxData [3; 0; 0; 8; 2; 0xf0; 0x80; 5]] [] [])
    (mkOptions 0 0 3) true (ByteBuffer_create 8) None) (mk_ptr (replicate 8 0) 0)) as [Hany Hone];
    [reflexivity|simpl; lia|simpl; lia|].
  destruct (Hone _ eq_refl) as (i & s & H & Hs).
  - split.
    + intros i v. do 8 (destruct i as [|i]; [intros [= ]|]). intros Hi. discriminate Hi.
    + intros i h l. do 8 (destruct i as [|i]; [cbn; intros; simplify_eq; lia|]). intros Hi. discriminate Hi.
  - cbn. lia.
  - vm_compute. discriminate.
  - exists i, s. split; [exact H|]. rewrite H in Hany. destruct Hany as [Hmax _]. cbn in Hmax. lia.
Defined.
