(* ===== verification/Session.v ===== *)
(** The session layer: src/mms/iso_session/iso_session.c. *)
From stdpp Require Import base tactics list numbers option.
From S2P Require Import Prelude Memory Buffers IsoParams.

(** * State *)

Record IsoSession := mkSession {
  callingSessionSelector : Z;   (* uint16_t *)
  calledSessionSelector : Z;    (* uint16_t *)
  sessionRequirement : Z;       (* uint16_t *)
  protocolOptions : Z;          (* uint8_t *)
  s_userData : ByteBuffer }.

Inductive IsoSessionIndication :=
  SESSION_OK | SESSION_ERROR | SESSION_CONNECT | SESSION_GIVE_TOKEN | SESSION_DATA
| SESSION_ABORT | SESSION_FINISH | SESSION_DISCONNECT | SESSION_NOT_FINISHED.

#[export] Instance IsoSessionIndication_eq_dec : EqDecision IsoSessionIndication.
Proof. solve_decision. Defined.

Definition set_callingSelector (v : Z) (s : IsoSession) : IsoSession :=
  mkSession v (calledSessionSelector s) (sessionRequirement s) (protocolOptions s) (s_userData s).
Definition set_calledSelector (v : Z) (s : IsoSession) : IsoSession :=
  mkSession (callingSessionSelector s) v (sessionRequirement s) (protocolOptions s) (s_userData s).
Definition set_sessionRequirement (v : Z) (s : IsoSession) : IsoSession :=
  mkSession (callingSessionSelector s) (calledSessionSelector s) v (protocolOptions s) (s_userData s).
Definition set_protocolOptions (v : Z) (s : IsoSession) : IsoSession :=
  mkSession (callingSessionSelector s) (calledSessionSelector s) (sessionRequirement s) v (s_userData s).
Definition set_userData (b : ByteBuffer) (s : IsoSession) : IsoSession :=
  mkSession (callingSessionSelector s) (calledSessionSelector s) (sessionRequirement s)
    (protocolOptions s) b.

Definition IsoSession_init : IsoSession := mkSession 0x0001 0x0001 0x0002 0 ByteBuffer_null.

Definition IsoSession_getUserData (self : IsoSession) : ByteBuffer := s_userData self.

(** * Parsing *)

(** One round of [parseAcceptParameters]: the state holds the session, the
    offset, [hasProtocolOptions] and [hasProtocolVersion]; [buffer] is
    [message->buffer]. *)
Definition parseAcceptParameters_body (buffer : ptr)
    (st : IsoSession * Z * bool * bool)
  : res (ctl (IsoSession * Z * bool * bool) (Z * IsoSession)) :=
  let '(session, offset, hasProtocolOptions, hasProtocolVersion) := st in
  let! pi := rd buffer offset in
  let! param_len := rd buffer (offset + 1) in
  let offset := offset + 2 in
  if pi =? 19 then (* Protocol options *)
    if negb (param_len =? 1) then Done (Ret (-1, session)) else
    let! v := rd buffer offset in
    Done (Next (set_protocolOptions v session, offset + 1, true, hasProtocolVersion))
  else if pi =? 21 then (* TSDU Maximum Size *)
    Done (Next (session, offset + 4, hasProtocolOptions, hasProtocolVersion))
  else if pi =? 22 then (* Version Number *)
    let! param_val := rd buffer offset in
    if negb (param_val =? 2) then Done (Ret (-1, session))
    else Done (Next (session, offset + 1, hasProtocolOptions, true))
  else if pi =? 23 then (* Initial Serial Number *)
    Done (Next (session, offset + param_len, hasProtocolOptions, hasProtocolVersion))
  else if pi =? 26 then (* Token Setting Item *)
    let! param_val := rd buffer offset in
    Done (Next (session, offset + 1, hasProtocolOptions, hasProtocolVersion))
  else if pi =? 55 then (* Second Initial Serial Number *)
    Done (Next (session, offset + param_len, hasProtocolOptions, hasProtocolVersion))
  else if pi =? 56 then (* Upper Limit Serial Number *)
    Done (Next (session, offset + param_len, hasProtocolOptions, hasProtocolVersion))
  else if pi =? 57 then (* Large Initial Serial Number *)
    Done (Next (session, offset + param_len, hasProtocolOptions, hasProtocolVersion))
  else if pi =? 58 then (* Large Second Initial Serial Number *)
    Done (Next (session, offset + param_len, hasProtocolOptions, hasProtocolVersion))
  else
    Done (Next (session, offset, hasProtocolOptions, hasProtocolVersion)).

(** Every round moves the offset by two at least: [parameterLength] rounds are
    enough. *)
Definition parseAcceptParameters (session : IsoSession) (buffer : ptr)
    (startOffset parameterLength : Z) : res (Z * IsoSession) :=
  let maxOffset := startOffset + parameterLength in
  let! c := while (fun st => let '(_, offset, _, _) := st in offset <? maxOffset)
              (parseAcceptParameters_body buffer) (Z.to_nat parameterLength)
              (session, startOffset, false, false) in
  match c with
  | Ret r => Done r
  | Next (session, offset, hasProtocolOptions, hasProtocolVersion) =>
      if hasProtocolOptions && hasProtocolVersion
      then Done (offset - startOffset, session) else Done (-1, session)
  end.

(** Two bytes stored as a 16-bit value. *)
Definition rd_uint16 (buffer : ptr) (offset : Z) : res Z :=
  let! b0 := rd buffer offset in
  let! b1 := rd buffer (offset + 1) in
  Done (u16 (u16 (b0 * 0x100) + b1)).

Definition parseSessionHeader_body (message : ByteBuffer) (buffer : ptr)
    (st : IsoSession * Z)
  : res (ctl (IsoSession * Z) (IsoSessionIndication * IsoSession)) :=
  let '(session, offset) := st in
  let! pgi := rd buffer offset in
  let! parameterLength := rd buffer (offset + 1) in
  let offset := offset + 2 in
  if pgi =? 1 then (* Connection Identifier *)
    Done (Next (session, offset + parameterLength))
  else if pgi =? 5 then (* Connection/Accept Item *)
    let! (connectAcceptLen, session) :=
      parseAcceptParameters session buffer offset parameterLength in
    if connectAcceptLen =? -1 then Done (Ret (SESSION_ERROR, session))
    else Done (Next (session, offset + connectAcceptLen))
  else if pgi =? 17 then (* Transport disconnect *)
    Done (Next (session, offset + parameterLength))
  else if pgi =? 20 then (* Session User Requirements *)
    if negb (parameterLength =? 2) then Done (Ret (SESSION_ERROR, session)) else
    let! v := rd_uint16 buffer offset in
    Done (Next (set_sessionRequirement v session, offset + 2))
  else if pgi =? 25 then (* Enclosure item *)
    Done (Next (session, offset + parameterLength))
  else if pgi =? 49 then
    Done (Next (session, offset + parameterLength))
  else if pgi =? 51 then (* Calling Session Selector *)
    if negb (parameterLength =? 2) then Done (Ret (SESSION_ERROR, session)) else
    let! v := rd_uint16 buffer offset in
    Done (Next (set_callingSelector v session, offset + 2))
  else if pgi =? 52 then (* Called Session Selector *)
    if negb (parameterLength =? 2) then Done (Ret (SESSION_ERROR, session)) else
    let! v := rd_uint16 buffer offset in
    Done (Next (set_calledSelector v session, offset + 2))
  else if pgi =? 60 then (* Data Overflow *)
    Done (Next (session, offset + parameterLength))
  else if pgi =? 193 then (* User Data *)
    Done (Ret (SESSION_OK, set_userData
      (ByteBuffer_wrap (Some (ptr_add buffer offset)) (bb_size message - offset)
         (bb_maxSize message - offset)) session))
  else (* Extended User Data and unknown parameters *)
    Done (Next (session, offset)).

Definition parseSessionHeaderParameters (session : IsoSession) (message : ByteBuffer)
    (buffer : ptr) (parametersOctets : Z) : res (IsoSessionIndication * IsoSession) :=
  let! c := while (fun st => snd st <? parametersOctets + 2)
              (parseSessionHeader_body message buffer) (Z.to_nat parametersOctets) (session, 2) in
  match c with
  | Ret r => Done r
  | Next (session, _) => Done (SESSION_ERROR, session)
  end.

(** The SPDUs whose parameters are parsed: [ok] is reported when they are right. *)
Definition parseSpdu (ok : IsoSessionIndication) (session : IsoSession) (message : ByteBuffer)
    (buffer : ptr) (length : Z) : res (IsoSessionIndication * IsoSession) :=
  if negb (length =? bb_size message - 2) then Done (SESSION_ERROR, session) else
  let! (r, session) := parseSessionHeaderParameters session message buffer length in
  Done (if bool_decide (r = SESSION_OK) then ok else SESSION_ERROR, session).

Definition IsoSession_parseMessage (session : IsoSession) (message : ByteBuffer)
  : res (IsoSessionIndication * IsoSession) :=
  if 1 <? bb_size message then
    let! buffer := defined (bb_buffer message) in
    let! id := rd buffer 0 in
    let! length := rd buffer 1 in
    if id =? 13 then (* CONNECT(CN) SPDU *)
      parseSpdu SESSION_CONNECT session message buffer length
    else if id =? 14 then (* ACCEPT SPDU *)
      parseSpdu SESSION_CONNECT session message buffer length
    else if id =? 1 then (* Give token / data SPDU *)
      if bb_size message <? 4 then Done (SESSION_ERROR, session) else
      if negb (length =? 0) then Done (SESSION_ERROR, session) else
      let! b2 := rd buffer 2 in
      if negb (b2 =? 1) then Done (SESSION_ERROR, session) else
      let! b3 := rd buffer 3 in
      if negb (b3 =? 0) then Done (SESSION_ERROR, session) else
      Done (SESSION_DATA, set_userData
        (ByteBuffer_wrap (Some (ptr_add buffer 4)) (bb_size message - 4)
           (bb_maxSize message - 4)) session)
    else if id =? 8 then (* NOT-FINISHED SPDU *)
      Done (SESSION_NOT_FINISHED, session)
    else if id =? 9 then (* FINISH SPDU *)
      parseSpdu SESSION_FINISH session message buffer length
    else if id =? 10 then (* DISCONNECT SPDU *)
      parseSpdu SESSION_DISCONNECT session message buffer length
    else if id =? 25 then (* ABORT SPDU *)
      Done (SESSION_ABORT, session)
    else Done (SESSION_ERROR, session)
  else Done (SESSION_ERROR, session).

(** * Creating SPDUs

    The header is written at [buffer->buffer], an address [buf] of the send
    block; the result is the chain with [buffer] in front of the payload. *)

Definition dataSpdu : list Z := [0x01; 0x00; 0x01; 0x00].

Definition IsoSession_createDataSpdu (buffer : bpart) (payload : BufferChain)
  : res BufferChain :=
  let! length := chain_length payload in
  Done (part_link buffer (Extern (mk_ptr dataSpdu 0)) 4 (4 + length) payload).

Definition encodeConnectAcceptItem (options : Z) (buf offset : Z) : W Z :=
  let* offset := put 5 buf offset in
  let* offset := put 6 buf offset in
  let* offset := put 0x13 buf offset in (* Protocol Options *)
  let* offset := put 1 buf offset in
  let* offset := put options buf offset in
  let* offset := put 0x16 buf offset in (* Version Number *)
  let* offset := put 1 buf offset in
  put 2 buf offset.                     (* Version = 2 *)

(** A parameter of two bytes. *)
Definition encode_param16 (code value : Z) (buf offset : Z) : W Z :=
  let* offset := put code buf offset in
  let* offset := put 2 buf offset in
  let* offset := put (Z.quot value 0x100) buf offset in
  put (Z.land value 0x00ff) buf offset.

Definition encodeSessionRequirement (self : IsoSession) (buf offset : Z) : W Z :=
  encode_param16 0x14 (sessionRequirement self) buf offset.

Definition encodeCallingSessionSelector (self : IsoSession) (buf offset : Z) : W Z :=
  encode_param16 0x33 (callingSessionSelector self) buf offset.

Definition encodeCalledSessionSelector (self : IsoSession) (buf offset : Z) : W Z :=
  encode_param16 0x34 (calledSessionSelector self) buf offset.

(** [payloadLength] is a [uint8_t]. *)
Definition encodeSessionUserData (buf offset payloadLength : Z) : W Z :=
  let* offset := put 0xc1 buf offset in
  put payloadLength buf offset.

(** A value of the model used by code that writes a block. *)
Definition wlift {A : Type} (r : res A) : W A := fun m => let! a := r in Done (a, m).

Definition IsoSession_createConnectSpdu (self : IsoSession)
    (isoParameters : IsoConnectionParameters) (buffer : bpart) (payload : BufferChain)
  : W (BufferChain * IsoSession) :=
  let* buf := wlift (part_addr buffer) in
  let* payloadLength := wlift (chain_length payload) in
  let* lengthOffset := put 13 buf 0 in (* CONNECT SPDU *)
  let self := set_calledSelector (u16 (ip_remotePSelector isoParameters)) self in
  let self := set_callingSelector (u16 (ip_localPSelector isoParameters)) self in
  let* offset :=
    (let offset := lengthOffset + 1 in (* Skip byte for length - fill it later *)
     let* offset := encodeConnectAcceptItem 0 buf offset in
     let* offset := encodeSessionRequirement self buf offset in
     let* offset := encodeCallingSessionSelector self buf offset in
     let* offset := encodeCalledSessionSelector self buf offset in
     encodeSessionUserData buf offset (u8 payloadLength)) in
  let spduLength := (offset - lengthOffset - 1) + payloadLength in
  let* _ := poke spduLength buf lengthOffset in
  wret (part_link buffer (InBlock buf) offset (offset + payloadLength) payload, self).

Definition IsoSession_createAbortSpdu (buffer : bpart) (payload : BufferChain) : W BufferChain :=
  let* buf := wlift (part_addr buffer) in
  let* payloadLength := wlift (chain_length payload) in
  let* offset := put 25 buf 0 in (* ABORT-SPDU code *)
  let* offset := put (5 + payloadLength) buf offset in (* LI *)
  let* offset := put 17 buf offset in (* PI-Code transport-disconnect *)
  let* offset := put 1 buf offset in (* LI = 1 *)
  let* offset := put 11 buf offset in
  let* offset := put 193 buf offset in (* PGI-Code user data *)
  let* offset := put payloadLength buf offset in (* LI of user data *)
  wret (part_link buffer (InBlock buf) offset (payloadLength + offset) payload).

Definition IsoSession_createFinishSpdu (buffer : bpart) (payload : BufferChain) : W BufferChain :=
  let* buf := wlift (part_addr buffer) in
  let* payloadLength := wlift (chain_length payload) in
  let* offset := put 9 buf 0 in (* FINISH-SPDU code *)
  let* offset := put (5 + payloadLength) buf offset in (* LI *)
  let* offset := put 17 buf offset in (* PI-Code transport-disconnect *)
  let* offset := put 1 buf offset in (* LI = 1 *)
  let* offset := put 2 buf offset in (* transport-connection-released *)
  let* offset := put 193 buf offset in (* PGI-Code user data *)
  let* offset := put payloadLength buf offset in (* LI of user data *)
  wret (part_link buffer (InBlock buf) offset (payloadLength + offset) payload).

Definition IsoSession_createDisconnectSpdu (buffer : bpart) (payload : BufferChain)
  : W BufferChain :=
  let* buf := wlift (part_addr buffer) in
  let* payloadLength := wlift (chain_length payload) in
  let* offset := put 10 buf 0 in (* DISCONNECT-SPDU code *)
  let* offset := put (2 + payloadLength) buf offset in (* LI *)
  let* offset := put 193 buf offset in (* PGI-Code user data *)
  let* offset := put payloadLength buf offset in (* LI of user data *)
  wret (part_link buffer (InBlock buf) offset (payloadLength + offset) payload).

Definition IsoSession_createAcceptSpdu (self : IsoSession) (buffer : bpart)
    (payload : BufferChain) : W BufferChain :=
  let* buf := wlift (part_addr buffer) in
  let* payloadLength := wlift (chain_length payload) in
  let* lengthOffset := put 14 buf 0 in (* ACCEPT SPDU *)
  let* offset :=
    (let offset := lengthOffset + 1 in
     let* offset := encodeConnectAcceptItem (protocolOptions self) buf offset in
     let* offset := encodeSessionRequirement self buf offset in
     let* offset := encodeCalledSessionSelector self buf offset in
     encodeSessionUserData buf offset (u8 payloadLength)) in
  let spduLength := (offset - lengthOffset - 1) + payloadLength in
  let* _ := poke spduLength buf lengthOffset in
  wret (part_link buffer (InBlock buf) offset (offset + payloadLength) payload).
