(* ===== verification/Layer.v ===== *)
(** What a protocol layer promises to the layers next to it: it puts a header in
    front of a buffer chain without disturbing the chain, and its parser finds
    the same user data again. *)
From stdpp Require Import base tactics list numbers option.
From S2P Require Import Prelude Memory Buffers.

(** * Chains and the free part of the send block *)

(** The parts that lie in the send block end before address [a]. *)
Definition chain_below (a : Z) (c : BufferChain) : Prop :=
  Forall (fun part => match bp_buffer part with
    | InBlock b => b + bp_partLength part <= a
    | Extern _ => True
    end) c.

(** The chain [c] holds the bytes [bs], and the block [m] is free from [a] on. *)
Record carries (m : list Z) (a : Z) (c : BufferChain) (bs : list Z) : Prop := mk_carries {
  carries_ok : chain_ok m c;
  carries_below : chain_below a c;
  carries_some : c <> [];
  carries_positive : Forall (fun part => 0 < bp_partLength part) c;
  carries_bytes : chain_bytes m c = bs }.

Lemma carries_length m a c bs : carries m a c bs -> chain_length c = Done (zlen bs).
Proof.
  intros [Hok _ Hne _ <-]. destruct c as [|part c]; [done|]. simpl.
  by rewrite (chain_length_ok _ _ _ Hok).
Qed.

Lemma carries_weaken m a a' c bs : a <= a' -> carries m a c bs -> carries m a' c bs.
Proof.
  intros Ha [Hok Hb Hne Hpos Hbs]. split; try done. revert Hb. apply Forall_impl.
  intros part. destruct (bp_buffer part); [lia|done].
Qed.

Lemma slice_splice_before m a bs b n :
  0 <= a -> a + zlen bs <= zlen m -> 0 <= b -> 0 <= n -> b + n <= a ->
  slice (splice m a bs) b n = slice m b n.
Proof.
  intros. apply list_eq. intros i. unfold slice. rewrite !lookup_take, !lookup_drop.
  case_decide; [|done]. apply splice_lookup_out; lia.
Qed.

Lemma chain_splice m a bs c :
  0 <= a -> a + zlen bs <= zlen m -> chain_below a c -> chain_ok m c ->
  chain_bytes (splice m a bs) c = chain_bytes m c /\ chain_ok (splice m a bs) c.
Proof.
  intros Ha Hl. induction c as [|part c IH]; [done|].
  intros [Hb Hbs]%Forall_cons_1 (H1 & H2 & H3 & H4 & H5).
  destruct (IH Hbs H5) as [E Hok].
  assert (part_bytes (splice m a bs) part = part_bytes m part) as Ep.
  { unfold part_bytes, bref_ptr in *. destruct (bp_buffer part); [|done]. simpl in *.
    by apply slice_splice_before. }
  split; [by rewrite !chain_bytes_cons, Ep, E|].
  unfold bref_ptr in *. split; [|split; [|split; [|split]]]; try done.
  - by destruct (bp_buffer part).
  - destruct (bp_buffer part); [|done]. simpl in *. by rewrite zlen_splice.
  - by rewrite E.
Qed.

Lemma zlen_pos {A} (l : list A) : l <> [] -> 0 < zlen l.
Proof. destruct l; [done|]. intros _. unfold zlen. simpl. lia. Qed.

(** A header written at the first free address and linked in front. *)
Lemma carries_link m a c bs hdr w length :
  0 <= a -> hdr <> [] -> a + zlen hdr <= zlen m -> carries m a c bs ->
  length = zlen hdr + zlen bs ->
  carries (splice m a hdr) (a + zlen hdr)
    (part_link w (InBlock a) (zlen hdr) length c) (hdr ++ bs).
Proof.
  intros Ha Hz%zlen_pos Hl [Hok Hbel Hne Hpos <-] ->.
  destruct (chain_splice _ _ _ _ Ha Hl Hbel Hok) as [E Hok'].
  unfold part_link. split; [| |done|by constructor|].
  - simpl. rewrite zlen_splice, E by done. pose proof (zlen_nonneg hdr).
    split; [done|]. split; [done|]. split; [done|]. split; [lia|done].
  - constructor; [simpl; lia|]. revert Hbel. apply Forall_impl. intros part.
    destruct (bp_buffer part); [|done]. pose proof (zlen_nonneg hdr). lia.
  - rewrite chain_bytes_cons, E. unfold part_bytes. simpl.
    by rewrite slice_splice.
Qed.

(** A constant header linked in front. *)
Lemma carries_link_extern m a c bs hdr w length :
  hdr <> [] -> carries m a c bs -> length = zlen hdr + zlen bs ->
  carries m a (part_link w (Extern (mk_ptr hdr 0)) (zlen hdr) length c) (hdr ++ bs).
Proof.
  intros Hz%zlen_pos [Hok Hbel Hne Hpos <-] ->. unfold part_link. split; [| |done|by constructor|].
  - simpl. split; [lia|]. split; [lia|]. split; [lia|]. split; [lia|done].
  - by constructor.
  - rewrite chain_bytes_cons. f_equal. apply (holds_slice _ _ _ (holds_whole hdr)).
Qed.

(** A chain of one part in a block of its own. *)
Definition payload (bs : list Z) : BufferChain :=
  BufferChain_init (zlen bs) (zlen bs) [] (Extern (mk_ptr bs 0)).

Lemma carries_payload m a bs : bs <> [] -> carries m a (payload bs) bs.
Proof.
  intros Hz%zlen_pos. split; [|by repeat constructor|done|by repeat constructor|].
  - simpl. change (zlen (chain_bytes m [])) with 0. lia.
  - unfold payload, BufferChain_init. rewrite chain_bytes_cons. change (chain_bytes m []) with (@nil Z).
    rewrite app_nil_r. apply (holds_slice _ _ _ (holds_whole bs)).
Qed.

(** A message at the start of the send block, the block being free behind it. *)
Lemma carries_block m n length partMaxLength :
  0 < n -> n <= zlen m -> length = n ->
  carries m n [mkPart length n partMaxLength (InBlock 0)] (slice m 0 n).
Proof.
  intros Hn Hm ->. split; [| |done|by repeat constructor|].
  - simpl. change (zlen (chain_bytes m [])) with 0. lia.
  - constructor; [simpl; lia|constructor].
  - rewrite chain_bytes_cons. change (chain_bytes m []) with (@nil Z). by rewrite app_nil_r.
Qed.

(** A message written at the first free address, with nothing behind it. *)
Lemma carries_single m a bs w :
  0 <= a -> bs <> [] -> a + zlen bs <= zlen m ->
  carries (splice m a bs) (a + zlen bs) (part_link w (InBlock a) (zlen bs) (zlen bs) []) bs.
Proof.
  intros Ha Hz%zlen_pos Hl. unfold part_link. split; [| |done|by repeat constructor|].
  - simpl. change (zlen (chain_bytes (splice m a bs) [])) with 0. rewrite zlen_splice by done. lia.
  - constructor; [simpl; lia|constructor].
  - rewrite chain_bytes_cons. change (chain_bytes (splice m a bs) []) with (@nil Z).
    rewrite app_nil_r. unfold part_bytes. simpl. by rewrite slice_splice.
Qed.

(** * Messages *)

(** The message buffer holds exactly the bytes [bs]. *)
Definition message_is (b : ByteBuffer) (bs : list Z) : Prop :=
  bb_size b = zlen bs /\ exists p, bb_buffer b = Some p /\ holds p 0 bs.

(** A message of the given bytes in a block of its own. *)
Definition message (bs : list Z) : ByteBuffer :=
  mkByteBuffer (Some (mk_ptr bs 0)) (zlen bs) (zlen bs).

Lemma message_message bs : message_is (message bs) bs.
Proof. split; [done|]. eexists. split; [done|]. apply holds_whole. Qed.

(** The rest of a message behind a header. *)
Lemma message_rest b p hdr bs n max :
  bb_buffer b = Some p -> holds p 0 (hdr ++ bs) -> n = zlen bs ->
  message_is (ByteBuffer_wrap (Some (ptr_add p (zlen hdr))) n max) bs.
Proof.
  intros Hp Hh ->. split; [done|]. exists (ptr_add p (zlen hdr)). split; [done|].
  apply holds_ptr_add. rewrite Z.add_0_r. by apply holds_app in Hh as [_ Hh].
Qed.

(** * The interface *)

(** A layer for data PDUs: [pl_header n] is its header for [n] bytes of user
    data, [pl_room n] says that it can carry them. *)
Class PduLayer (St : Type) := {
  pl_header : Z -> list Z;
  pl_room : Z -> Prop;
  pl_space : Z -> Z;                    (* of the send block, used by the header *)
  pl_create : bpart -> BufferChain -> W BufferChain;
  pl_parse : St -> ByteBuffer -> res (option ByteBuffer);
  pl_create_spec : forall m a w c bs,
    carries m a c bs -> bp_buffer w = InBlock a -> 0 <= a ->
    pl_room (zlen bs) -> a + pl_space (zlen bs) <= zlen m ->
    exists m' c', pl_create w c m = Done (c', m') /\ zlen m' = zlen m /\
      carries m' (a + pl_space (zlen bs)) c' (pl_header (zlen bs) ++ bs);
  pl_parse_spec : forall st b bs,
    bytes bs -> pl_room (zlen bs) -> message_is b (pl_header (zlen bs) ++ bs) ->
    exists b', pl_parse st b = Done (Some b') /\ message_is b' bs
}.
