(* ===== verification/SessionFacts.v ===== *)
(** Properties of the session layer: what it sends is understood, and its parser
    is safe on every input. *)
From stdpp Require Import base tactics list numbers option.
From S2P Require Import Prelude Memory Buffers BerDecode IsoParams Session Layer.

(** * Headers *)

Definition connect_accept_item (options : Z) : list Z :=
  [5; 6; 0x13; 1; u8 options; 0x16; 1; 2].

Definition param16_bytes (code value : Z) : list Z := [u8 code; 2] ++ word_bytes value.

(** What follows the length octet of a connect SPDU for [n] bytes of user data. *)
Definition connect_params (calling called req n : Z) : list Z :=
  connect_accept_item 0 ++ param16_bytes 0x14 req ++ param16_bytes 0x33 calling ++
  param16_bytes 0x34 called ++ [0xc1; u8 n].

Definition accept_params (options called req n : Z) : list Z :=
  connect_accept_item options ++ param16_bytes 0x14 req ++ param16_bytes 0x34 called ++
  [0xc1; u8 n].

Definition spdu_header (code : Z) (params : list Z) (n : Z) : list Z :=
  u8 code :: u8 (zlen params + n) :: params.

#[local] Instance emits_param16 code value buf pos :
  Emits buf pos (encode_param16 code value buf pos) (pos + 4) (param16_bytes code value).
Proof. unfold encode_param16. emits_tac. Qed.

#[local] Instance emits_accept_item options buf pos :
  Emits buf pos (encodeConnectAcceptItem options buf pos) (pos + 8) (connect_accept_item options).
Proof. unfold encodeConnectAcceptItem. emits_tac. Qed.

#[local] Instance emits_user_data buf pos n :
  Emits buf pos (encodeSessionUserData buf pos n) (pos + 2) [0xc1; u8 n].
Proof. unfold encodeSessionUserData. emits_tac. Qed.

Lemma zlen_param16 code value : zlen (param16_bytes code value) = 4.
Proof. reflexivity. Qed.
Lemma zlen_accept_item options : zlen (connect_accept_item options) = 8.
Proof. reflexivity. Qed.
#[local] Hint Rewrite zlen_param16 zlen_accept_item : zlen.

Lemma zlen_connect_params calling called req n : zlen (connect_params calling called req n) = 22.
Proof. reflexivity. Qed.
Lemma zlen_accept_params options called req n : zlen (accept_params options called req n) = 18.
Proof. reflexivity. Qed.
#[local] Hint Rewrite zlen_connect_params zlen_accept_params : zlen.

(** * Creating SPDUs *)

Lemma wbind_wlift {A B} (r : res A) (a : A) (k : A -> W B) m :
  r = Done a -> wbind (wlift r) k m = k a m.
Proof. by intros ->. Qed.

Lemma wbind_assoc_res {A B} (c : W A) (k : A -> W B) m a m' :
  c m = Done (a, m') -> wbind c k m = k a m'.
Proof. unfold wbind. by intros ->. Qed.

(** The common shape: type octet, a gap for the length, the parameters, the
    length filled in. *)
Lemma spdu_backpatch {B} code a (c : Z -> W Z) (r : Z -> W B) n m params out :
  Emits a 2 (c 1) (2 + zlen params) params -> 0 <= a -> a + 2 + zlen params <= zlen m ->
  r (2 + zlen params) = wret out ->
  (let* offset := put code a 0 in
   let* offset' := c offset in
   let* _ := poke ((offset' - offset - 1) + n) a offset in
   r offset') m
  = Done (out, splice m a (spdu_header code params n)).
Proof.
  intros Hc Ha Hl Hr. pose proof (zlen_nonneg params).
  assert (Emits a 0 (put code a 0) 1 [u8 code]) as Hput by apply emits_put.
  erewrite wbind_assoc_res by (apply (emits_fit _ _ _ _ _ _ Hput); zl).
  rewrite !Z.add_0_r.
  assert (zlen (splice m a [u8 code]) = zlen m) as Hz by (apply zlen_splice; zl).
  pose proof (backpatch_fit a 1 (c 1) (fun q => (q - 1 - 1) + n) (fun q => q) (2 + zlen params) params
    (splice m a [u8 code]) Hc ltac:(lia) ltac:(lia)) as Hb.
  unfold wbind in Hb |- *. destruct (c 1 _) as [[q m1]| | |] eqn:Ec; try done. cbn [rbind] in *.
  destruct (poke _ a 1 m1) as [[u m2]| | |]; try done. cbn [rbind wret] in *.
  injection Hb as -> ->. rewrite Hr. unfold wret, spdu_header. f_equal. f_equal.
  replace (a + 1) with (a + zlen [u8 code]) by zl.
  rewrite splice_app by zl. cbn [app]. do 3 f_equal. f_equal. lia.
Qed.

Lemma zlen_spdu_header code params n : zlen (spdu_header code params n) = 2 + zlen params.
Proof. unfold spdu_header. zl. Qed.

Lemma createConnectSpdu_spec self params w payload m a bs :
  carries m a payload bs -> bp_buffer w = InBlock a -> 0 <= a -> a + 24 <= zlen m ->
  let called := u16 (ip_remotePSelector params) in
  let calling := u16 (ip_localPSelector params) in
  let hdr := spdu_header 13 (connect_params calling called (sessionRequirement self) (zlen bs))
               (zlen bs) in
  exists c', IsoSession_createConnectSpdu self params w payload m
    = Done (c', set_callingSelector calling (set_calledSelector called self), splice m a hdr) /\
    carries (splice m a hdr) (a + 24) c' (hdr ++ bs).
Proof.
  intros Hc Hw Ha Hl called calling hdr. eexists. split.
  - unfold IsoSession_createConnectSpdu.
    rewrite (wbind_wlift _ a) by (unfold part_addr; by rewrite Hw).
    rewrite (wbind_wlift _ _ _ _ (carries_length _ _ _ _ Hc)).
    apply spdu_backpatch with (params := connect_params calling called (sessionRequirement self) (zlen bs));
      [|done|rewrite zlen_connect_params; lia|done].
    cbv zeta. unfold encodeSessionRequirement, encodeCallingSessionSelector, encodeCalledSessionSelector.
    emits_tac.
  - apply (carries_link m a payload bs hdr w (24 + zlen bs)); done.
Qed.

Lemma createAcceptSpdu_spec self w payload m a bs :
  carries m a payload bs -> bp_buffer w = InBlock a -> 0 <= a -> a + 20 <= zlen m ->
  let hdr := spdu_header 14 (accept_params (protocolOptions self) (calledSessionSelector self)
               (sessionRequirement self) (zlen bs)) (zlen bs) in
  exists c', IsoSession_createAcceptSpdu self w payload m = Done (c', splice m a hdr) /\
    carries (splice m a hdr) (a + 20) c' (hdr ++ bs).
Proof.
  intros Hc Hw Ha Hl hdr. eexists. split.
  - unfold IsoSession_createAcceptSpdu.
    rewrite (wbind_wlift _ a) by (unfold part_addr; by rewrite Hw).
    rewrite (wbind_wlift _ _ _ _ (carries_length _ _ _ _ Hc)).
    apply spdu_backpatch with (params := accept_params (protocolOptions self) (calledSessionSelector self)
               (sessionRequirement self) (zlen bs));
      [|done|rewrite zlen_accept_params; lia|done].
    cbv zeta. unfold encodeSessionRequirement, encodeCalledSessionSelector. emits_tac.
  - apply (carries_link m a payload bs hdr w (20 + zlen bs)); done.
Qed.

(** * Parsing what was created *)

Lemma rd_uint16_holds p off v :
  holds p off (word_bytes v) -> 0 <= v < 65536 -> rd_uint16 p off = Done v.
Proof.
  intros Hh Hv. unfold word_bytes in Hh. holds_split. unfold rd_uint16. use_reads.
  pose proof (word16 v Hv). pose proof (u8_byte (Z.quot v 256)). pose proof (u8_byte (Z.land v 255)).
  unfold is_byte in *. rewrite (u16_small (_ * _)) by lia. rewrite u16_small by lia. by f_equal.
Qed.

Lemma parseAcceptParameters_holds s p off o :
  holds p off [0x13; 1; u8 o; 0x16; 1; 2] ->
  parseAcceptParameters s p off 6 = Done (6, set_protocolOptions (u8 o) s).
Proof.
  intros Hh. holds_split. unfold parseAcceptParameters. change (Z.to_nat 6) with (S (S 4)).
  erewrite while_next; [|zdec; done|unfold parseAcceptParameters_body; use_reads; reflexivity].
  erewrite while_next; [|zdec; done|unfold parseAcceptParameters_body; use_reads; reflexivity].
  rewrite while_false by (zdec; done). cbn [rbind andb]. do 2 f_equal. lia.
Qed.

Section HeaderRounds.
Context (message : ByteBuffer) (p : ptr) (s : IsoSession) (off : Z).

Lemma round_accept_item o :
  holds p off (connect_accept_item o) ->
  parseSessionHeader_body message p (s, off)
  = Done (Next (set_protocolOptions (u8 o) s, off + 8)).
Proof.
  intros Hh. unfold connect_accept_item in Hh. apply holds_cons in Hh as [H0 Hh].
  apply holds_cons in Hh as [H1 Hh]. unfold parseSessionHeader_body. use_reads.
  rewrite (parseAcceptParameters_holds s p (off + 2) o) by (by rewrite <- Z.add_assoc in Hh).
  cbn. do 3 f_equal. lia.
Qed.

Lemma round_requirement v :
  holds p off (param16_bytes 0x14 v) -> 0 <= v < 65536 ->
  parseSessionHeader_body message p (s, off) = Done (Next (set_sessionRequirement v s, off + 4)).
Proof.
  intros Hh Hv. unfold param16_bytes in Hh. cbn [app] in Hh. apply holds_cons in Hh as [H0 Hh].
  apply holds_cons in Hh as [H1 Hh]. unfold parseSessionHeader_body. use_reads.
  rewrite (rd_uint16_holds p (off + 2) v) by (try done; by rewrite <- Z.add_assoc in Hh).
  cbn. do 3 f_equal. lia.
Qed.

Lemma round_calling v :
  holds p off (param16_bytes 0x33 v) -> 0 <= v < 65536 ->
  parseSessionHeader_body message p (s, off) = Done (Next (set_callingSelector v s, off + 4)).
Proof.
  intros Hh Hv. unfold param16_bytes in Hh. cbn [app] in Hh. apply holds_cons in Hh as [H0 Hh].
  apply holds_cons in Hh as [H1 Hh]. unfold parseSessionHeader_body. use_reads.
  rewrite (rd_uint16_holds p (off + 2) v) by (try done; by rewrite <- Z.add_assoc in Hh).
  cbn. do 3 f_equal. lia.
Qed.

Lemma round_called v :
  holds p off (param16_bytes 0x34 v) -> 0 <= v < 65536 ->
  parseSessionHeader_body message p (s, off) = Done (Next (set_calledSelector v s, off + 4)).
Proof.
  intros Hh Hv. unfold param16_bytes in Hh. cbn [app] in Hh. apply holds_cons in Hh as [H0 Hh].
  apply holds_cons in Hh as [H1 Hh]. unfold parseSessionHeader_body. use_reads.
  rewrite (rd_uint16_holds p (off + 2) v) by (try done; by rewrite <- Z.add_assoc in Hh).
  cbn. do 3 f_equal. lia.
Qed.

Lemma round_user_data n :
  holds p off [0xc1; n] ->
  parseSessionHeader_body message p (s, off)
  = Done (Ret (SESSION_OK, set_userData (ByteBuffer_wrap (Some (ptr_add p (off + 2)))
      (bb_size message - (off + 2)) (bb_maxSize message - (off + 2))) s)).
Proof. intros Hh. holds_split. unfold parseSessionHeader_body. by use_reads. Qed.
End HeaderRounds.

(** A round of the header loop that goes on. *)
Ltac header_round lem :=
  erewrite while_next; [|cbn [snd]; zdec; reflexivity|apply lem; eassumption].

Lemma parse_connect_params s b p calling called req n len :
  holds p 2 (connect_params calling called req n) ->
  0 <= calling < 65536 -> 0 <= called < 65536 -> 0 <= req < 65536 -> 22 <= len ->
  parseSessionHeaderParameters s b p len
  = Done (SESSION_OK, mkSession calling called req 0
      (ByteBuffer_wrap (Some (ptr_add p 24)) (bb_size b - 24) (bb_maxSize b - 24))).
Proof.
  intros Hh Hc1 Hc2 Hr Hlen. unfold connect_params in Hh.
  apply holds_app in Hh as [H1 Hh]. rewrite zlen_accept_item in Hh.
  apply holds_app in Hh as [H2 Hh]. rewrite zlen_param16 in Hh.
  apply holds_app in Hh as [H3 Hh]. rewrite zlen_param16 in Hh.
  apply holds_app in Hh as [H4 Hh]. rewrite zlen_param16 in Hh.
  unfold parseSessionHeaderParameters.
  destruct (Z.to_nat len) as [|[|[|[|[|f]]]]] eqn:E; try lia.
  header_round round_accept_item. header_round round_requirement.
  header_round round_calling. header_round round_called.
  erewrite while_ret; [|cbn [snd]; zdec; reflexivity|eapply round_user_data; exact Hh].
  reflexivity.
Qed.

Lemma parse_accept_params s b p options called req n len :
  holds p 2 (accept_params options called req n) ->
  0 <= called < 65536 -> 0 <= req < 65536 -> 18 <= len ->
  parseSessionHeaderParameters s b p len
  = Done (SESSION_OK, mkSession (callingSessionSelector s) called req (u8 options)
      (ByteBuffer_wrap (Some (ptr_add p 20)) (bb_size b - 20) (bb_maxSize b - 20))).
Proof.
  intros Hh Hc Hr Hlen. unfold accept_params in Hh.
  apply holds_app in Hh as [H1 Hh]. rewrite zlen_accept_item in Hh.
  apply holds_app in Hh as [H2 Hh]. rewrite zlen_param16 in Hh.
  apply holds_app in Hh as [H3 Hh]. rewrite zlen_param16 in Hh.
  unfold parseSessionHeaderParameters.
  destruct (Z.to_nat len) as [|[|[|[|f]]]] eqn:E; try lia.
  header_round round_accept_item. header_round round_requirement. header_round round_called.
  erewrite while_ret; [|cbn [snd]; zdec; reflexivity|eapply round_user_data; exact Hh].
  reflexivity.
Qed.

(** The length octet must be the number of bytes behind it, so SPDUs of more than
    257 bytes are refused. *)
Lemma parseSpdu_length ok s s' b p (n : Z) :
  bb_size b = 2 + n -> 0 <= n ->
  parseSessionHeaderParameters s b p n = Done (SESSION_OK, s') ->
  parseSpdu ok s b p (u8 n) = if n <=? 255 then Done (ok, s') else Done (SESSION_ERROR, s).
Proof.
  intros Hsz Hn Hparse. unfold parseSpdu. rewrite Hsz. destruct (Z.leb_spec n 255).
  - rewrite u8_small by lia. zdec. cbn [negb]. by rewrite Hparse.
  - pose proof (u8_byte n). unfold is_byte in *. by zdec.
Qed.

Lemma message_is_split b hdr bs :
  message_is b (hdr ++ bs) ->
  exists p, bb_buffer b = Some p /\ bb_size b = zlen hdr + zlen bs /\
    holds p 0 (hdr ++ bs) /\ holds p 0 hdr.
Proof.
  intros (Hs & p & Hp & Hh). exists p. rewrite zlen_app in Hs. repeat (split; [done|]).
  by apply holds_app in Hh as [Hh _].
Qed.

Lemma u16_bounds z : 0 <= u16 z < 65536.
Proof. apply u16_range. Qed.

Lemma parseMessage_connect s b calling called req bs :
  0 <= calling < 65536 -> 0 <= called < 65536 -> 0 <= req < 65536 ->
  message_is b (spdu_header 13 (connect_params calling called req (zlen bs)) (zlen bs) ++ bs) ->
  if zlen bs <=? 233 then
    exists s', IsoSession_parseMessage s b = Done (SESSION_CONNECT, s') /\
      calledSessionSelector s' = called /\ callingSessionSelector s' = calling /\
      sessionRequirement s' = req /\ protocolOptions s' = 0 /\ message_is (s_userData s') bs
  else IsoSession_parseMessage s b = Done (SESSION_ERROR, s).
Proof.
  intros H1 H2 H3. set (hdr := spdu_header _ _ _) in *.
  intros (p & Hp & Hsz & Hall & Hh)%message_is_split.
  unfold hdr, spdu_header in Hh. apply holds_cons in Hh as [R0 Hh].
  apply holds_cons in Hh as [R1 Hh]. change (zlen hdr) with 24 in Hsz.
  unfold IsoSession_parseMessage. pose proof (zlen_nonneg bs). rewrite Hsz. zdec. rewrite Hp.
  cbn [defined rbind]. change (0 + 1) with 1 in *. use_reads. cbn in Hh.
  change (u8 13 =? 13) with true. cbv iota.
  erewrite (parseSpdu_length _ _ _ _ _ (22 + zlen bs)); [|lia|lia|
    apply (parse_connect_params s b p _ _ _ _ _ Hh); lia].
  destruct (Z.leb_spec (zlen bs) 233); zdec; [|done].
  eexists. split; [done|].
  cbn [calledSessionSelector callingSessionSelector sessionRequirement protocolOptions s_userData].
  repeat (split; [done|]). apply (message_rest b p hdr); [done|done|lia].
Qed.

(** The connect SPDU of the caller is understood by the called side: it learns
    both selectors and the session requirements and is left with exactly the user
    data, provided that the parameters and the user data fit into the 255 bytes
    the length octet can count; a longer one is refused. *)
Theorem IsoSession_connect_roundtrip self params w payload m a bs s :
  carries m a payload bs -> bp_buffer w = InBlock a -> 0 <= a -> a + 24 <= zlen m ->
  0 <= sessionRequirement self < 65536 ->
  exists c' self' m',
    IsoSession_createConnectSpdu self params w payload m = Done (c', self', m') /\
    carries m' (a + 24) c' (chain_bytes m' c') /\ zlen (chain_bytes m' c') = 24 + zlen bs /\
    (forall b, message_is b (chain_bytes m' c') ->
     if zlen bs <=? 233 then
       exists s', IsoSession_parseMessage s b = Done (SESSION_CONNECT, s') /\
         calledSessionSelector s' = u16 (ip_remotePSelector params) /\
         callingSessionSelector s' = u16 (ip_localPSelector params) /\
         sessionRequirement s' = sessionRequirement self /\
         message_is (s_userData s') bs
     else IsoSession_parseMessage s b = Done (SESSION_ERROR, s)).
Proof.
  intros Hc Hw Ha Hl Hr.
  destruct (createConnectSpdu_spec self params w payload m a bs Hc Hw Ha Hl) as (c' & Hcr & Hc').
  set (hdr := spdu_header _ _ _) in *. eexists c', _, _. split; [exact Hcr|].
  rewrite (carries_bytes _ _ _ _ Hc'). split; [done|]. split; [rewrite zlen_app; done|].
  intros b Hb. apply (parseMessage_connect s b) in Hb; [|apply u16_bounds|apply u16_bounds|done].
  destruct (zlen bs <=? 233); [|done]. destruct Hb as (s' & H1 & H2 & H3 & H4 & _ & H5). by exists s'.
Qed.

Lemma IsoSession_connect_roundtrip_witness :
  exists c' self' m',
    IsoSession_createConnectSpdu IsoSession_init IsoConnectionParameters_create
      (mkPart 0 0 40 (InBlock 0)) (payload [1; 2; 3]) (replicate 40 0) = Done (c', self', m') /\
    zlen (chain_bytes m' c') = 24 + 3.
Proof.
  destruct (IsoSession_connect_roundtrip IsoSession_init IsoConnectionParameters_create
    (mkPart 0 0 40 (InBlock 0)) (payload [1; 2; 3]) (replicate 40 0) 0 [1; 2; 3]
    IsoSession_init (carries_payload _ _ [1; 2; 3] ltac:(discriminate)) eq_refl ltac:(lia) ltac:(by_eval) ltac:(by_eval)) as (c' & s' & m' & H1 & _ & H2 & _).
  exists c', s', m'. split; [exact H1|exact H2].
Defined.


Lemma parseMessage_accept s b options called req bs :
  0 <= called < 65536 -> 0 <= req < 65536 ->
  message_is b (spdu_header 14 (accept_params options called req (zlen bs)) (zlen bs) ++ bs) ->
  if zlen bs <=? 237 then
    exists s', IsoSession_parseMessage s b = Done (SESSION_CONNECT, s') /\
      calledSessionSelector s' = called /\ sessionRequirement s' = req /\
      protocolOptions s' = u8 options /\ message_is (s_userData s') bs
  else IsoSession_parseMessage s b = Done (SESSION_ERROR, s).
Proof.
  intros H1 H2. set (hdr := spdu_header _ _ _) in *.
  intros (p & Hp & Hsz & Hall & Hh)%message_is_split.
  unfold hdr, spdu_header in Hh. apply holds_cons in Hh as [R0 Hh].
  apply holds_cons in Hh as [R1 Hh]. change (zlen hdr) with 20 in Hsz.
  unfold IsoSession_parseMessage. pose proof (zlen_nonneg bs). rewrite Hsz. zdec. rewrite Hp.
  cbn [defined rbind]. change (0 + 1) with 1 in *. use_reads. cbn in Hh.
  change (u8 14 =? 13) with false. change (u8 14 =? 14) with true. cbv iota.
  erewrite (parseSpdu_length _ _ _ _ _ (18 + zlen bs)); [|lia|lia|
    apply (parse_accept_params s b p _ _ _ _ _ Hh); try done; lia].
  destruct (Z.leb_spec (zlen bs) 237); zdec; [|done].
  eexists. split; [done|]. cbn [calledSessionSelector sessionRequirement protocolOptions s_userData].
  repeat (split; [done|]). apply (message_rest b p hdr); [done|done|lia].
Qed.

(** The accept SPDU of the called side is understood by the caller. *)
Theorem IsoSession_accept_roundtrip self w payload m a bs s :
  carries m a payload bs -> bp_buffer w = InBlock a -> 0 <= a -> a + 20 <= zlen m ->
  0 <= sessionRequirement self < 65536 -> 0 <= calledSessionSelector self < 65536 ->
  exists c' m',
    IsoSession_createAcceptSpdu self w payload m = Done (c', m') /\
    carries m' (a + 20) c' (chain_bytes m' c') /\ zlen (chain_bytes m' c') = 20 + zlen bs /\
    (forall b, message_is b (chain_bytes m' c') ->
     if zlen bs <=? 237 then
       exists s', IsoSession_parseMessage s b = Done (SESSION_CONNECT, s') /\
         calledSessionSelector s' = calledSessionSelector self /\
         sessionRequirement s' = sessionRequirement self /\
         protocolOptions s' = u8 (protocolOptions self) /\
         message_is (s_userData s') bs
     else IsoSession_parseMessage s b = Done (SESSION_ERROR, s)).
Proof.
  intros Hc Hw Ha Hl Hr Hcs.
  destruct (createAcceptSpdu_spec self w payload m a bs Hc Hw Ha Hl) as (c' & Hcr & Hc').
  set (hdr := spdu_header _ _ _) in *. eexists c', _. split; [exact Hcr|].
  rewrite (carries_bytes _ _ _ _ Hc'). split; [done|]. split; [rewrite zlen_app; done|].
  intros b Hb. by apply (parseMessage_accept s b) in Hb.
Qed.

Lemma IsoSession_accept_roundtrip_witness :
  exists c' m',
    IsoSession_createAcceptSpdu IsoSession_init (mkPart 0 0 40 (InBlock 0)) (payload [1; 2; 3])
      (replicate 40 0) = Done (c', m') /\
    zlen (chain_bytes m' c') = 20 + 3.
Proof.
  destruct (IsoSession_accept_roundtrip IsoSession_init (mkPart 0 0 40 (InBlock 0))
    (payload [1; 2; 3]) (replicate 40 0) 0 [1; 2; 3]
    IsoSession_init (carries_payload _ _ [1; 2; 3] ltac:(discriminate)) eq_refl ltac:(lia) ltac:(by_eval) ltac:(by_eval) ltac:(by_eval))
    as (c' & m' & H1 & _ & H2 & _).
  exists c', m'. split; [exact H1|exact H2].
Defined.


(** ** Release *)

Definition finish_params (n : Z) : list Z := [17; 1; 2; 0xc1; u8 n].
Definition disconnect_params (n : Z) : list Z := [0xc1; u8 n].

Lemma round_transport_disconnect message p s off :
  holds p off [17; 1; 2] ->
  parseSessionHeader_body message p (s, off) = Done (Next (s, off + 3)).
Proof.
  intros Hh. holds_split. unfold parseSessionHeader_body. use_reads. cbn.
  apply (f_equal (fun n => Done (Next (s, n)))). lia.
Qed.

Lemma parse_finish_params s b p n len :
  holds p 2 (finish_params n) -> 5 <= len ->
  parseSessionHeaderParameters s b p len
  = Done (SESSION_OK, set_userData
      (ByteBuffer_wrap (Some (ptr_add p 7)) (bb_size b - 7) (bb_maxSize b - 7)) s).
Proof.
  intros Hh Hlen. unfold finish_params in Hh.
  change [17; 1; 2; 0xc1; u8 n] with ([17; 1; 2] ++ [0xc1; u8 n]) in Hh.
  apply holds_app in Hh as [H1 Hh]. change (zlen [17; 1; 2]) with 3 in Hh.
  unfold parseSessionHeaderParameters. destruct (Z.to_nat len) as [|[|f]] eqn:E; try lia.
  header_round round_transport_disconnect.
  erewrite while_ret; [|cbn [snd]; zdec; reflexivity|eapply round_user_data; exact Hh].
  reflexivity.
Qed.

Lemma parse_disconnect_params s b p n len :
  holds p 2 (disconnect_params n) -> 2 <= len ->
  parseSessionHeaderParameters s b p len
  = Done (SESSION_OK, set_userData
      (ByteBuffer_wrap (Some (ptr_add p 4)) (bb_size b - 4) (bb_maxSize b - 4)) s).
Proof.
  intros Hh Hlen. unfold disconnect_params in Hh.
  unfold parseSessionHeaderParameters. destruct (Z.to_nat len) as [|f] eqn:E; try lia.
  erewrite while_ret; [|cbn [snd]; zdec; reflexivity|eapply round_user_data; exact Hh].
  reflexivity.
Qed.

(** The SPDUs of the release phase. *)
Definition release_header (finish : bool) (n : Z) : list Z :=
  if finish then spdu_header 9 (finish_params n) n else spdu_header 10 (disconnect_params n) n.

Definition createReleaseSpdu (finish : bool) : bpart -> BufferChain -> W BufferChain :=
  if finish then IsoSession_createFinishSpdu else IsoSession_createDisconnectSpdu.

Lemma createReleaseSpdu_spec finish w payload m a bs :
  carries m a payload bs -> bp_buffer w = InBlock a -> 0 <= a ->
  a + zlen (release_header finish (zlen bs)) <= zlen m ->
  let hdr := release_header finish (zlen bs) in
  exists c', createReleaseSpdu finish w payload m = Done (c', splice m a hdr) /\
    carries (splice m a hdr) (a + zlen hdr) c' (hdr ++ bs).
Proof.
  intros Hc Hw Ha Hl hdr.
  exists (part_link w (InBlock a) (zlen hdr) (zlen bs + zlen hdr) payload). split.
  - destruct finish; unfold createReleaseSpdu, IsoSession_createFinishSpdu, IsoSession_createDisconnectSpdu;
      rewrite (wbind_wlift _ a) by (unfold part_addr; by rewrite Hw);
      rewrite (wbind_wlift _ _ _ _ (carries_length _ _ _ _ Hc));
      eapply emits_fit0;
      lazymatch goal with |- Emits _ _ _ _ _ => emits_tac; reflexivity | _ => assumption end.
  - apply carries_link; try done; [by destruct finish|lia].
Qed.

(** The finish and disconnect SPDUs carry their user data to the other side. *)
Theorem IsoSession_release_roundtrip finish w payload m a bs s :
  carries m a payload bs -> bp_buffer w = InBlock a -> 0 <= a ->
  a + (if finish : bool then 7 else 4) <= zlen m ->
  exists c' m',
    createReleaseSpdu finish w payload m = Done (c', m') /\
    carries m' (a + (if finish then 7 else 4)) c' (chain_bytes m' c') /\
    (forall b, message_is b (chain_bytes m' c') ->
     if zlen bs + (if finish then 5 else 2) <=? 255 then
       exists s', IsoSession_parseMessage s b
         = Done (if finish then SESSION_FINISH else SESSION_DISCONNECT, s') /\
         message_is (s_userData s') bs
     else IsoSession_parseMessage s b = Done (SESSION_ERROR, s)).
Proof.
  intros Hc Hw Ha Hl.
  assert (zlen (release_header finish (zlen bs)) = if finish then 7 else 4) as Hz by (by destruct finish).
  destruct (createReleaseSpdu_spec finish w payload m a bs Hc Hw Ha) as (c' & Hcr & Hc'); [lia|].
  rewrite Hz in Hc'. eexists c', _. split; [exact Hcr|].
  rewrite (carries_bytes _ _ _ _ Hc'). split; [done|].
  intros b (p & Hp & Hsz & Hall & Hh)%message_is_split. rewrite Hz in Hsz.
  unfold IsoSession_parseMessage. pose proof (zlen_nonneg bs). rewrite Hsz.
  rewrite (proj2 (Z.ltb_lt 1 _)) by (destruct finish; lia). rewrite Hp. cbn [defined rbind].
  destruct finish; unfold release_header, spdu_header in Hh;
    apply holds_cons in Hh as [H0 Hh]; apply holds_cons in Hh as [H1 Hh];
    change (0 + 1) with 1 in *; use_reads; cbn in Hh.
  - change (u8 9) with 9. cbn [Z.eqb Pos.eqb].
    erewrite (parseSpdu_length _ _ _ _ _ (5 + zlen bs)); [|lia|lia|
      apply (parse_finish_params s b p _ _ Hh); lia].
    destruct (Z.leb_spec (zlen bs + 5) 255); zdec; [|done].
    eexists. split; [done|]. apply (message_rest b p (release_header true (zlen bs))); [done|done|lia].
  - change (u8 10) with 10. cbn [Z.eqb Pos.eqb].
    erewrite (parseSpdu_length _ _ _ _ _ (2 + zlen bs)); [|lia|lia|
      apply (parse_disconnect_params s b p _ _ Hh); lia].
    destruct (Z.leb_spec (zlen bs + 2) 255); zdec; [|done].
    eexists. split; [done|]. apply (message_rest b p (release_header false (zlen bs))); [done|done|lia].
Qed.

Lemma IsoSession_release_roundtrip_witness :
  exists c' m',
    IsoSession_createFinishSpdu (mkPart 0 0 40 (InBlock 0)) (payload [1; 2; 3]) (replicate 40 0)
    = Done (c', m') /\
    forall b, message_is b (chain_bytes m' c') ->
      exists s', IsoSession_parseMessage IsoSession_init b = Done (SESSION_FINISH, s') /\
        message_is (s_userData s') [1; 2; 3].
Proof.
  destruct (IsoSession_release_roundtrip true (mkPart 0 0 40 (InBlock 0)) (payload [1; 2; 3])
    (replicate 40 0) 0 [1; 2; 3] IsoSession_init (carries_payload _ _ [1; 2; 3] ltac:(discriminate)) eq_refl ltac:(lia) ltac:(by_eval))
    as (c' & m' & H1 & _ & H2).
  exists c', m'. split; [exact H1|exact H2].
Defined.


(** * The data layer *)

Definition session_parse_data (s : IsoSession) (b : ByteBuffer) : res (option ByteBuffer) :=
  let! (r, s') := IsoSession_parseMessage s b in
  Done (if bool_decide (r = SESSION_DATA) then Some (s_userData s') else None).

Lemma session_data_parse s b bs :
  message_is b (dataSpdu ++ bs) ->
  exists s', IsoSession_parseMessage s b = Done (SESSION_DATA, s') /\ message_is (s_userData s') bs.
Proof.
  intros (p & Hp & Hsz & Hall & Hh)%message_is_split. unfold dataSpdu in Hh.
  revert Hall. holds_split. intros Hall. change (zlen dataSpdu) with 4 in Hsz. pose proof (zlen_nonneg bs).
  unfold IsoSession_parseMessage. rewrite Hsz. zdec. rewrite Hp. cbn [defined rbind]. use_reads.
  eexists. split; [done|]. apply (message_rest b p dataSpdu); [done|done|lia].
Qed.

#[export] Instance session_layer : PduLayer IsoSession.
Proof.
  refine {| pl_header := fun _ => dataSpdu; pl_room := fun _ => True; pl_space := fun _ => 0;
            pl_create := fun w c => wlift (IsoSession_createDataSpdu w c);
            pl_parse := session_parse_data |}.
  - intros m a w c bs Hc Hw Ha _ _. exists m. eexists. split.
    + unfold wlift, IsoSession_createDataSpdu. by rewrite (carries_length _ _ _ _ Hc).
    + split; [done|]. rewrite Z.add_0_r. by apply carries_link_extern.
  - intros s b bs _ _ Hb. destruct (session_data_parse s b bs Hb) as (s' & Hp & Hd).
    exists (s_userData s'). split; [|done]. unfold session_parse_data. by rewrite Hp.
Defined.

(** * Safety on every input *)

Section Safety.
Context (p : ptr) (limit : Z).
Hypothesis Hbytes : bytes (p_mem p).
Hypothesis Hbase : 0 <= p_base p.
Hypothesis Hlimit : p_base p + limit <= zlen (p_mem p).

Lemma rd_safe i : 0 <= i < limit -> exists b, rd p i = Done b /\ is_byte b.
Proof.
  intros Hi. destruct (rd_in p i) as [b Hb]; [lia|]. exists b. split; [done|]. by eapply rd_byte.
Qed.

Lemma parseAcceptParameters_safe s startOffset parameterLength :
  0 <= startOffset -> 0 <= parameterLength -> startOffset + parameterLength + 2 <= limit ->
  exists n s', parseAcceptParameters s p startOffset parameterLength = Done (n, s') /\ -1 <= n.
Proof.
  intros Hs Hp Hl. unfold parseAcceptParameters.
  set (cond := fun st : IsoSession * Z * bool * bool => _).
  pose proof (while_total cond (parseAcceptParameters_body p)
    (fun '(_, offset, _, _) => startOffset <= offset) (fun r => fst r = -1) False
    (fun '(_, offset, _, _) => startOffset + parameterLength - offset)
    (Z.to_nat parameterLength) (s, startOffset, false, false)) as H.
  assert (forall st, (let '(_, offset, _, _) := st in startOffset <= offset) -> cond st = true ->
    match parseAcceptParameters_body p st with
    | Done (Next st') => (let '(_, offset, _, _) := st' in startOffset <= offset) /\
        (let '(_, offset, _, _) := st' in startOffset + parameterLength - offset)
        < (let '(_, offset, _, _) := st in startOffset + parameterLength - offset)
    | Done (Ret r) => fst r = -1
    | Ub => False
    | _ => False
    end) as Hbody.
  { intros [[[s1 o] ho] hv] Ho Hc. unfold cond in Hc. apply Z.ltb_lt in Hc.
    unfold parseAcceptParameters_body.
    destruct (rd_safe o) as (b0 & -> & Hb0); [lia|]. cbn [rbind].
    destruct (rd_safe (o + 1)) as (b1 & -> & Hb1); [lia|]. cbn [rbind].
    destruct (rd_safe (o + 2)) as (b2 & -> & Hb2); [lia|]. cbn [rbind]. unfold is_byte in *.
    repeat match goal with |- context [if ?c then _ else _] => destruct c end;
      first [reflexivity|split; lia]. }
  specialize (H (Z.le_refl _) ltac:(lia)). destruct (while _ _ _ _) as [[[[[s1 o] ho] hv]|[r s1]]| | |].
  - destruct H as [H _]; [by intros [[[s2 o2] h2] h3] H1 H2%Z.ltb_lt; lia|done|].
    cbn [rbind]. destruct (_ && _); eexists _, _; (split; [done|lia]).
  - cbn [rbind]. eexists _, _. split; [done|]. rewrite <- H; [simpl; lia| |done].
    intros [[[s2 o2] h2] h3] H1 H2%Z.ltb_lt. lia.
  - destruct H; [|done]. intros [[[s2 o2] h2] h3] H1 H2%Z.ltb_lt. lia.
  - destruct H; [|done]. intros [[[s2 o2] h2] h3] H1 H2%Z.ltb_lt. lia.
  - destruct H; [|done]. intros [[[s2 o2] h2] h3] H1 H2%Z.ltb_lt. lia.
Qed.

(** The user data a session ends up with is a window of the message. *)
Definition window_of (b : ByteBuffer) (s : IsoSession) : Prop :=
  exists off, 0 <= off <= 258 /\
    s_userData s = ByteBuffer_wrap (Some (ptr_add p off)) (bb_size b - off) (bb_maxSize b - off).

Lemma rd_uint16_safe i : 0 <= i -> i + 1 < limit -> exists v, rd_uint16 p i = Done v.
Proof.
  intros. unfold rd_uint16. destruct (rd_safe i) as (b0 & -> & _); [lia|]. cbn [rbind].
  destruct (rd_safe (i + 1)) as (b1 & -> & _); [lia|]. by eexists.
Qed.

Lemma parseSessionHeader_body_safe b s o :
  0 <= o <= 256 -> 516 <= limit ->
  match parseSessionHeader_body b p (s, o) with
  | Done (Next (_, o')) => o < o'
  | Done (Ret (r, s')) => r = SESSION_ERROR \/ r = SESSION_OK /\ window_of b s'
  | _ => False
  end.
Proof.
  intros Ho Hl. unfold parseSessionHeader_body.
  destruct (rd_safe o) as (b0 & -> & Hb0); [lia|]. cbn [rbind].
  destruct (rd_safe (o + 1)) as (b1 & -> & Hb1); [lia|]. cbn [rbind].
  destruct (parseAcceptParameters_safe s (o + 2) b1) as (n & s1 & Hacc & Hn);
    [lia|unfold is_byte in *; lia|unfold is_byte in *; lia|]. rewrite Hacc.
  destruct (rd_uint16_safe (o + 2)) as (v & Hv); [lia|lia|]. rewrite Hv.
  cbn [rbind]. unfold is_byte in *.
  assert (window_of b (set_userData (ByteBuffer_wrap (Some (ptr_add p (o + 2)))
    (bb_size b - (o + 2)) (bb_maxSize b - (o + 2))) s)) by (exists (o + 2); split; [lia|done]).
  destruct (Z.eqb_spec n (-1));
    repeat match goal with |- context [if ?c then _ else _] => destruct c end;
    try lia; try (by left); by right.
Qed.

Lemma parseSessionHeaderParameters_safe b s n :
  0 <= n <= 255 -> 516 <= limit ->
  exists r s', parseSessionHeaderParameters s b p n = Done (r, s') /\
    (r = SESSION_ERROR \/ r = SESSION_OK /\ window_of b s').
Proof.
  intros Hn Hl. unfold parseSessionHeaderParameters.
  set (cond := fun st : IsoSession * Z => snd st <? n + 2).
  pose proof (while_total cond (parseSessionHeader_body b p)
    (fun st => 2 <= snd st)
    (fun r => fst r = SESSION_ERROR \/ fst r = SESSION_OK /\ window_of b (snd r)) False
    (fun st => n + 2 - snd st) (Z.to_nat n) (s, 2)) as H.
  specialize (H (Z.le_refl _) ltac:(simpl; lia)
    ltac:(intros st _ Hc; unfold cond in Hc; apply Z.ltb_lt in Hc; lia)).
  assert (forall st, 2 <= snd st -> cond st = true ->
    match parseSessionHeader_body b p st with
    | Done (Next st') => 2 <= snd st' /\ n + 2 - snd st' < n + 2 - snd st
    | Done (Ret r) => fst r = SESSION_ERROR \/ fst r = SESSION_OK /\ window_of b (snd r)
    | Ub => False
    | _ => False
    end) as Hbody.
  { intros [s1 o] Ho Hc. unfold cond in Hc. apply Z.ltb_lt in Hc. cbn [snd] in *.
    pose proof (parseSessionHeader_body_safe b s1 o ltac:(lia) Hl) as Hb.
    destruct (parseSessionHeader_body _ _ _) as [[[s2 o2]|[r s2]]| | |]; cbn [fst snd]; try done. lia. }
  specialize (H Hbody). destruct (while _ _ _ _) as [[[s1 o]|[r s1]]| | |]; try done.
  - eexists _, _. split; [done|]. by left.
  - eexists _, _. split; [done|done].
Qed.
End Safety.

Ltac by_cases_on_result := solve [intuition (try congruence)].

(** Whatever the message, parsing it ends, reads nothing outside the receive
    buffer (of which it needs 516 bytes, although it may read beyond the end of
    the message), and when it succeeds the user data is a window of the message. *)
Theorem IsoSession_parseMessage_safe s b p :
  bytes (p_mem p) -> 0 <= p_base p -> p_base p + 516 <= zlen (p_mem p) ->
  bb_buffer b = Some p ->
  exists r s', IsoSession_parseMessage s b = Done (r, s') /\
    (r = SESSION_CONNECT \/ r = SESSION_DATA \/ r = SESSION_FINISH \/ r = SESSION_DISCONNECT ->
     window_of p b s').
Proof.
  intros Hm Hbase Hl Hb. unfold IsoSession_parseMessage.
  destruct (Z.ltb_spec 1 (bb_size b)); [|eexists _, _; split; [done|by_cases_on_result]].
  rewrite Hb. cbn [defined rbind].
  destruct (rd_safe p 516 Hm Hbase Hl 0) as (b0 & -> & Hb0); [lia|]. cbn [rbind].
  destruct (rd_safe p 516 Hm Hbase Hl 1) as (b1 & -> & Hb1); [lia|]. cbn [rbind].
  destruct (rd_safe p 516 Hm Hbase Hl 2) as (b2 & -> & Hb2); [lia|]. cbn [rbind].
  destruct (rd_safe p 516 Hm Hbase Hl 3) as (b3 & -> & Hb3); [lia|]. cbn [rbind].
  assert (forall ok, exists r s', parseSpdu ok s b p b1 = Done (r, s') /\
    (r = SESSION_CONNECT \/ r = SESSION_DATA \/ r = SESSION_FINISH \/ r = SESSION_DISCONNECT ->
     window_of p b s')) as Hspdu.
  { intros ok. unfold parseSpdu. destruct (negb _); [eexists _, _; split; [done|by_cases_on_result]|].
    unfold is_byte in *.
    destruct (parseSessionHeaderParameters_safe p 516 Hm Hbase Hl b s b1) as (r & s' & -> & Hr); [lia..|].
    cbn [rbind]. eexists _, _. split; [done|]. destruct Hr as [->|[-> Hw]]; [rewrite bool_decide_false by done; by_cases_on_result|done]. }
  assert (window_of p b (set_userData (ByteBuffer_wrap (Some (ptr_add p 4)) (bb_size b - 4)
    (bb_maxSize b - 4)) s)) by (exists 4; split; [lia|done]).
  repeat match goal with |- context [if ?c then parseSpdu _ _ _ _ _ else _] =>
    destruct c; [apply Hspdu|] end.
  destruct (b0 =? 1); [|destruct (b0 =? 8)];
    repeat match goal with |- context [if ?c then _ else _] => destruct c end;
    try apply Hspdu; eexists _, _; (split; [done|by_cases_on_result]).
Qed.

Lemma IsoSession_parseMessage_safe_witness :
  let p := mk_ptr (replicate 516 1) 0 in
  exists r s', IsoSession_parseMessage IsoSession_init (mkByteBuffer (Some p) 516 9) = Done (r, s') /\
    (r = SESSION_CONNECT \/ r = SESSION_DATA \/ r = SESSION_FINISH \/ r = SESSION_DISCONNECT ->
     window_of p (mkByteBuffer (Some p) 516 9) s').
Proof.
  apply IsoSession_parseMessage_safe; [|simpl; lia|by_eval|reflexivity].
  apply Forall_replicate. unfold is_byte. lia.
Defined.

