(* ===== verification/Presentation.v ===== *)
(** The presentation layer: src/mms/iso_presentation/iso_presentation.c. *)
From stdpp Require Import base tactics list numbers option.
From S2P Require Import Prelude Memory Buffers BerDecode BerEncode IsoParams Session.

(** * State *)

Record IsoPresentation := mkPresentation {
  callingPresentationSelector : Z;   (* uint32_t *)
  calledPresentationSelector : Z;    (* uint32_t *)
  nextContextId : Z;                 (* uint8_t *)
  acseContextId : Z;                 (* uint8_t *)
  mmsContextId : Z;                  (* uint8_t *)
  nextPayload : ByteBuffer }.

Definition set_selectors (calling called : Z) (s : IsoPresentation) : IsoPresentation :=
  mkPresentation calling called (nextContextId s) (acseContextId s) (mmsContextId s) (nextPayload s).
Definition set_nextContextId (v : Z) (s : IsoPresentation) : IsoPresentation :=
  mkPresentation (callingPresentationSelector s) (calledPresentationSelector s) v
    (acseContextId s) (mmsContextId s) (nextPayload s).
Definition set_acseContextId (v : Z) (s : IsoPresentation) : IsoPresentation :=
  mkPresentation (callingPresentationSelector s) (calledPresentationSelector s) (nextContextId s)
    v (mmsContextId s) (nextPayload s).
Definition set_mmsContextId (v : Z) (s : IsoPresentation) : IsoPresentation :=
  mkPresentation (callingPresentationSelector s) (calledPresentationSelector s) (nextContextId s)
    (acseContextId s) v (nextPayload s).
Definition set_nextPayload (b : ByteBuffer) (s : IsoPresentation) : IsoPresentation :=
  mkPresentation (callingPresentationSelector s) (calledPresentationSelector s) (nextContextId s)
    (acseContextId s) (mmsContextId s) b.

(** The presentation as [calloc] leaves it; [IsoPresentation_init] does nothing. *)
Definition IsoPresentation_calloc : IsoPresentation := mkPresentation 0 0 0 0 0 ByteBuffer_null.
Definition IsoPresentation_init (self : IsoPresentation) : IsoPresentation := self.

Definition calledPresentationSelector_bytes : list Z := [0x00; 0x00; 0x00; 0x01].
Definition asn_id_as_acse : list Z := [0x52; 0x01; 0x00; 0x01].
Definition asn_id_mms : list Z := [0x28; 0xca; 0x22; 0x02; 0x01].
Definition ber_id : list Z := [0x51; 0x01].

(** * Encoding *)

Definition encodeAcceptBer (buffer bufPos : Z) : W Z :=
  let* bufPos := BerEncoder_encodeTL 0x30 7 buffer bufPos in
  let* bufPos := BerEncoder_encodeTL 0x80 1 buffer bufPos in
  let* bufPos := put 0 buffer bufPos in
  let* bufPos := BerEncoder_encodeTL 0x81 2 buffer bufPos in
  let* bufPos := put 0x51 buffer bufPos in
  put 0x01 buffer bufPos.

(** The lengths computed by [encodeUserData]. *)
Definition encodedDataSetLength (payloadLength : Z) : Z :=
  3 + (payloadLength + 1) + BerEncoder_determineLengthSize (u32 payloadLength).

Definition fullyEncodedDataLength (payloadLength : Z) : Z :=
  let n := encodedDataSetLength payloadLength in
  n + (BerEncoder_determineLengthSize (u32 n) + 1).

(** [encodeUserData] with [encode = true]: it writes. *)
Definition encodeUserData (payloadLength contextId : Z) (buffer bufPos : Z) : W Z :=
  (* fully-encoded-data *)
  let* bufPos := BerEncoder_encodeTL 0x61 (fullyEncodedDataLength payloadLength) buffer bufPos in
  let* bufPos := BerEncoder_encodeTL 0x30 (encodedDataSetLength payloadLength) buffer bufPos in
  (* presentation-selector acse *)
  let* bufPos := BerEncoder_encodeTL 0x02 1 buffer bufPos in
  let* bufPos := put contextId buffer bufPos in
  (* presentation-data (= acse payload) *)
  BerEncoder_encodeTL 0xa0 payloadLength buffer bufPos.

(** [encodeUserData] with [encode = false]: the length with the user data. *)
Definition encodedUserDataLength (payloadLength : Z) : Z :=
  let n := fullyEncodedDataLength payloadLength in
  n + 1 + BerEncoder_determineLengthSize (u32 n).

(** The four octets of a selector. *)
Definition encode_selector (tag selector : Z) (buffer bufPos : Z) : W Z :=
  let* bufPos := BerEncoder_encodeTL tag 4 buffer bufPos in
  let* bufPos := put (Z.land (Z.shiftr selector 24) 0xff) buffer bufPos in
  let* bufPos := put (Z.land (Z.shiftr selector 16) 0xff) buffer bufPos in
  let* bufPos := put (Z.land (Z.shiftr selector 8) 0xff) buffer bufPos in
  put (Z.land selector 0xff) buffer bufPos.

(** One item of the presentation context definition list. *)
Definition encode_context_item (itemLength contextId : Z) (name : list Z)
    (buffer bufPos : Z) : W Z :=
  let* bufPos := BerEncoder_encodeTL 0x30 itemLength buffer bufPos in
  let* bufPos := BerEncoder_encodeTL 0x02 1 buffer bufPos in
  let* bufPos := put contextId buffer bufPos in
  let* bufPos := BerEncoder_encodeTL 0x06 (zlen name) buffer bufPos in
  let* bufPos := put_list name buffer bufPos in
  let* bufPos := BerEncoder_encodeTL 0x30 4 buffer bufPos in
  let* bufPos := BerEncoder_encodeTL 0x06 2 buffer bufPos in
  put_list ber_id buffer bufPos.

Definition createConnectPdu_normalModeLength (payloadLength : Z) : Z :=
  12 + 35 + encodedUserDataLength payloadLength + 2.

Definition createConnectPdu_contentLength (payloadLength : Z) : Z :=
  let normalModeLength := createConnectPdu_normalModeLength payloadLength in
  5 + normalModeLength + (1 + BerEncoder_determineLengthSize (u32 normalModeLength)).

Definition createConnectPdu_header (self : IsoPresentation) (payloadLength : Z) (buffer : Z) : W Z :=
  let* bufPos := BerEncoder_encodeTL 0x31 (createConnectPdu_contentLength payloadLength) buffer 0 in
  (* mode-selector *)
  let* bufPos := BerEncoder_encodeTL 0xa0 3 buffer bufPos in
  let* bufPos := BerEncoder_encodeTL 0x80 1 buffer bufPos in
  let* bufPos := put 1 buffer bufPos in (* 1 = normal-mode *)
  (* normal-mode-parameters *)
  let* bufPos := BerEncoder_encodeTL 0xa2 (createConnectPdu_normalModeLength payloadLength)
                   buffer bufPos in
  let* bufPos := encode_selector 0x81 (callingPresentationSelector self) buffer bufPos in
  let* bufPos := encode_selector 0x82 (calledPresentationSelector self) buffer bufPos in
  (* presentation-context-id list *)
  let* bufPos := BerEncoder_encodeTL 0xa4 35 buffer bufPos in
  let* bufPos := encode_context_item 15 1 asn_id_as_acse buffer bufPos in
  let* bufPos := encode_context_item 16 3 asn_id_mms buffer bufPos in
  (* encode user data *)
  encodeUserData payloadLength (acseContextId self) buffer bufPos.

(** A header written at the front of the write buffer and linked before the payload. *)
Definition with_header (writeBuffer : bpart) (payload : BufferChain)
    (header : Z -> Z -> W Z) : W BufferChain :=
  let* payloadLength := wlift (chain_length payload) in
  let* buffer := wlift (part_addr writeBuffer) in
  let* bufPos := header payloadLength buffer in
  wret (part_link writeBuffer (InBlock buffer) bufPos (bufPos + payloadLength) payload).

Definition createConnectPdu (self : IsoPresentation) (writeBuffer : bpart)
    (payload : BufferChain) : W BufferChain :=
  with_header writeBuffer payload (createConnectPdu_header self).

Definition IsoPresentation_createConnectPdu (self : IsoPresentation)
    (parameters : IsoConnectionParameters) (buffer : bpart) (payload : BufferChain)
  : W (BufferChain * IsoPresentation) :=
  let self := set_mmsContextId 3 (set_acseContextId 1 self) in
  let self := set_selectors (ip_localPSelector parameters) (ip_remotePSelector parameters) self in
  let* chain := createConnectPdu self buffer payload in
  wret (chain, self).

(** The header of [IsoPresentation_createUserData] and [..ACSE], which differ in
    the context id. *)
Definition userData_header (contextId payloadLength buffer : Z) : W Z :=
  let userDataLengthFieldSize := BerEncoder_determineLengthSize (u32 payloadLength) in
  let pdvListLength := payloadLength + (userDataLengthFieldSize + 4) in
  let pdvListLengthFieldSize := BerEncoder_determineLengthSize (u32 pdvListLength) in
  let presentationLength := pdvListLength + (pdvListLengthFieldSize + 1) in
  let* bufPos := BerEncoder_encodeTL 0x61 presentationLength buffer 0 in
  let* bufPos := BerEncoder_encodeTL 0x30 pdvListLength buffer bufPos in
  let* bufPos := put 0x02 buffer bufPos in
  let* bufPos := put 0x01 buffer bufPos in
  let* bufPos := put contextId buffer bufPos in
  BerEncoder_encodeTL 0xa0 payloadLength buffer bufPos.

Definition IsoPresentation_createUserData (self : IsoPresentation) (writeBuffer : bpart)
    (payload : BufferChain) : W BufferChain :=
  with_header writeBuffer payload (userData_header (mmsContextId self)).

Definition IsoPresentation_createUserDataACSE (self : IsoPresentation) (writeBuffer : bpart)
    (payload : BufferChain) : W BufferChain :=
  with_header writeBuffer payload (userData_header (acseContextId self)).

(** The content length counts the tag and length octets it will be written
    behind. *)
Definition abort_contentLength (payloadLength : Z) : Z :=
  let contentLength := encodedUserDataLength payloadLength in
  contentLength + (BerEncoder_determineLengthSize (u32 contentLength) + 1).

Definition abort_header (self : IsoPresentation) (payloadLength buffer : Z) : W Z :=
  let* bufPos := BerEncoder_encodeTL 0xa0 (abort_contentLength payloadLength) buffer 0 in
  (* encode user data *)
  encodeUserData payloadLength (acseContextId self) buffer bufPos.

Definition IsoPresentation_createAbortUserMessage (self : IsoPresentation) (writeBuffer : bpart)
    (payload : BufferChain) : W BufferChain :=
  with_header writeBuffer payload (abort_header self).

Definition cpa_normalModeLength (payloadLength : Z) : Z :=
  6 + 20 + encodedUserDataLength payloadLength.

Definition cpa_contentLength (payloadLength : Z) : Z :=
  let normalModeLength := cpa_normalModeLength payloadLength in
  5 + normalModeLength + (BerEncoder_determineLengthSize (u32 normalModeLength) + 1).

Definition cpa_header (self : IsoPresentation) (payloadLength buffer : Z) : W Z :=
  let* bufPos := BerEncoder_encodeTL 0x31 (cpa_contentLength payloadLength) buffer 0 in
  (* mode-selector *)
  let* bufPos := BerEncoder_encodeTL 0xa0 3 buffer bufPos in
  let* bufPos := BerEncoder_encodeTL 0x80 1 buffer bufPos in
  let* bufPos := put 1 buffer bufPos in (* 1 = normal-mode *)
  (* normal-mode-parameters *)
  let* bufPos := BerEncoder_encodeTL 0xa2 (cpa_normalModeLength payloadLength) buffer bufPos in
  (* responding-presentation-selector *)
  let* bufPos := BerEncoder_encodeTL 0x83 4 buffer bufPos in
  let* bufPos := put_list calledPresentationSelector_bytes buffer bufPos in
  (* context-definition-result-list *)
  let* bufPos := BerEncoder_encodeTL 0xa5 18 buffer bufPos in
  let* bufPos := encodeAcceptBer buffer bufPos in (* accept for acse *)
  let* bufPos := encodeAcceptBer buffer bufPos in (* accept for mms *)
  (* encode user data *)
  encodeUserData payloadLength (acseContextId self) buffer bufPos.

Definition IsoPresentation_createCpaMessage (self : IsoPresentation) (writeBuffer : bpart)
    (payload : BufferChain) : W BufferChain :=
  with_header writeBuffer payload (cpa_header self).

(** * Parsing

    The parsers take the fuel of their loops: a length octet sequence can decode
    to a negative number, and then a loop need not end. *)

(** [bufPos += len] on 32-bit integers; [len] may not have been set. *)
Definition advance (bufPos : Z) (len : option Z) : res Z :=
  let! len := defined len in Done (i32 (bufPos + len)).

Definition parseFullyEncodedData_body (buffer : ptr) (endPos : Z)
    (st : IsoPresentation * Z * bool)
  : res (ctl (IsoPresentation * Z * bool) (Z * IsoPresentation)) :=
  let '(self, bufPos, userDataPresent) := st in
  let! tag := rd buffer bufPos in
  let! (bufPos, length) := BerDecoder_decodeLength buffer None (bufPos + 1) endPos in
  if bufPos <? 0 then Done (Ret (-1, self)) else
  let! length := defined length in
  if tag =? 0x02 then (* presentation-context-identifier *)
    let! presentationSelector := BerDecoder_decodeUint32 buffer length bufPos in
    Done (Next (set_nextContextId (u8 presentationSelector) self, i32 (bufPos + length),
      userDataPresent))
  else if tag =? 0xa0 then (* fully-encoded-data *)
    let payload := mkByteBuffer (Some (ptr_add buffer bufPos)) (bb_maxSize (nextPayload self)) length in
    Done (Next (set_nextPayload payload self, i32 (bufPos + length), true))
  else
    Done (Next (self, i32 (bufPos + length), userDataPresent)).

Definition parseFullyEncodedData (fuel : nat) (self : IsoPresentation) (buffer : ptr)
    (len bufPos : Z) : res (Z * IsoPresentation) :=
  let endPos := i32 (bufPos + len) in
  let! b := rd buffer bufPos in
  let bufPos := bufPos + 1 in
  if negb (b =? 0x30) then Done (-1, self) else
  let! (bufPos, len) := BerDecoder_decodeLength buffer (Some len) bufPos endPos in
  let! endPos := advance bufPos len in
  if bufPos <? 0 then Done (-1, self) else
  let! c := while (fun st => let '(_, bufPos, _) := st in bufPos <? endPos)
              (parseFullyEncodedData_body buffer endPos) fuel (self, bufPos, false) in
  match c with
  | Ret r => Done r
  | Next (self, bufPos, userDataPresent) =>
      if negb userDataPresent then Done (-1, self) else Done (bufPos, self)
  end.

(** The state of the loop: [bufPos], [contextId], [isAcse], [isMms]. *)
Definition parsePCDLEntry_body (buffer : ptr) (endPos : Z) (st : Z * Z * bool * bool)
  : res (ctl (Z * Z * bool * bool) unit) :=
  let '(bufPos, contextId, isAcse, isMms) := st in
  let! tag := rd buffer bufPos in
  let! (bufPos, len) := BerDecoder_decodeLength buffer None (bufPos + 1) endPos in
  let! len := defined len in
  if tag =? 0x02 then (* presentation-context-identifier *)
    let! contextId := BerDecoder_decodeUint32 buffer len bufPos in
    Done (Next (i32 (bufPos + len), i32 contextId, isAcse, isMms))
  else if tag =? 0x06 then (* abstract-syntax-name *)
    if len =? 5 then
      let! name := rd_list buffer bufPos 5 in
      Done (Next (i32 (bufPos + len), contextId, isAcse, isMms || bool_decide (name = asn_id_mms)))
    else if len =? 4 then
      let! name := rd_list buffer bufPos 4 in
      Done (Next (i32 (bufPos + len), contextId,
        isAcse || bool_decide (name = asn_id_as_acse), isMms))
    else Done (Next (i32 (bufPos + len), contextId, isAcse, isMms))
  else (* transfer-syntax-name and unknown tags *)
    Done (Next (i32 (bufPos + len), contextId, isAcse, isMms)).

Definition parsePCDLEntry (fuel : nat) (self : IsoPresentation) (buffer : ptr)
    (totalLength bufPos : Z) : res (Z * IsoPresentation) :=
  let endPos := i32 (bufPos + totalLength) in
  let! c := while (fun st => let '(bufPos, _, _, _) := st in bufPos <? endPos)
              (parsePCDLEntry_body buffer endPos) fuel (bufPos, -1, false, false) in
  match c with
  | Ret tt => Ub (* the body never leaves the function *)
  | Next (bufPos, contextId, isAcse, isMms) =>
      if contextId <? 0 then Done (-1, self)
      else if negb isAcse && negb isMms then Done (-1, self)
      else if isMms then Done (bufPos, set_mmsContextId (u8 contextId) self)
      else Done (bufPos, set_acseContextId (u8 contextId) self)
  end.

Definition parsePresentationContextDefinitionList_body (fuel : nat) (buffer : ptr) (endPos : Z)
    (st : IsoPresentation * Z)
  : res (ctl (IsoPresentation * Z) (Z * IsoPresentation)) :=
  let '(self, bufPos) := st in
  let! tag := rd buffer bufPos in
  let! (bufPos, len) := BerDecoder_decodeLength buffer None (bufPos + 1) endPos in
  let! len := defined len in
  if tag =? 0x30 then
    let! (bufPos, self) := parsePCDLEntry fuel self buffer len bufPos in
    if bufPos <? 0 then Done (Ret (-1, self)) else Done (Next (self, bufPos))
  else Done (Next (self, i32 (bufPos + len))).

Definition parsePresentationContextDefinitionList (fuel : nat) (self : IsoPresentation)
    (buffer : ptr) (totalLength bufPos : Z) : res (Z * IsoPresentation) :=
  let endPos := i32 (bufPos + totalLength) in
  let! c := while (fun st => snd st <? endPos)
              (parsePresentationContextDefinitionList_body fuel buffer endPos) fuel (self, bufPos) in
  match c with
  | Ret r => Done r
  | Next (self, bufPos) => Done (bufPos, self)
  end.

Definition parseNormalModeParameters_body (fuel : nat) (buffer : ptr) (endPos : Z)
    (st : IsoPresentation * Z)
  : res (ctl (IsoPresentation * Z) (Z * IsoPresentation)) :=
  let '(self, bufPos) := st in
  let! tag := rd buffer bufPos in
  let! (bufPos, len) := BerDecoder_decodeLength buffer None (bufPos + 1) endPos in
  if bufPos <? 0 then Done (Ret (-1, self)) else
  let! len := defined len in
  if tag =? 0xa4 then (* presentation-context-definition list *)
    let! (bufPos, self) := parsePresentationContextDefinitionList fuel self buffer len bufPos in
    Done (Next (self, bufPos))
  else if tag =? 0x61 then (* user data *)
    let! (bufPos, self) := parseFullyEncodedData fuel self buffer len bufPos in
    if bufPos <? 0 then Done (Ret (-1, self)) else Done (Next (self, bufPos))
  else (* presentation selectors and unknown tags *)
    Done (Next (self, i32 (bufPos + len))).

Definition parseNormalModeParameters (fuel : nat) (self : IsoPresentation) (buffer : ptr)
    (totalLength bufPos : Z) : res (Z * IsoPresentation) :=
  let endPos := i32 (bufPos + totalLength) in
  let! c := while (fun st => snd st <? endPos)
              (parseNormalModeParameters_body fuel buffer endPos) fuel (self, bufPos) in
  match c with
  | Ret r => Done r
  | Next (self, bufPos) => Done (bufPos, self)
  end.

(** The loop of [IsoPresentation_parseAcceptMessage]; leaving it means that 0 is
    returned. *)
Definition parseAcceptMessage_body (fuel : nat) (buffer : ptr) (maxBufPos : Z)
    (st : IsoPresentation * Z * option Z)
  : res (ctl (IsoPresentation * Z * option Z) IsoPresentation) :=
  let '(self, bufPos, len) := st in
  let! tag := rd buffer bufPos in
  let! (bufPos, len) := BerDecoder_decodeLength buffer len (bufPos + 1) maxBufPos in
  if bufPos <? 0 then Done (Ret self) else
  if tag =? 0xa2 then (* normal-mode-parameters *)
    let! totalLength := defined len in
    let! (bufPos, self) := parseNormalModeParameters fuel self buffer totalLength bufPos in
    if bufPos <? 0 then Done (Ret self) else Done (Next (self, bufPos, len))
  else (* mode-selector and unknown tags *)
    let! bufPos := advance bufPos len in Done (Next (self, bufPos, len)).

Definition IsoPresentation_parseAcceptMessage (fuel : nat) (self : IsoPresentation)
    (byteBuffer : ByteBuffer) : res (Z * IsoPresentation) :=
  let maxBufPos := bb_size byteBuffer in
  let! buffer := defined (bb_buffer byteBuffer) in
  let! cpTag := rd buffer 0 in
  if negb (cpTag =? 0x31) then Done (0, self) else
  let! (bufPos, len) := BerDecoder_decodeLength buffer None 1 maxBufPos in
  let! c := while (fun st => let '(_, bufPos, _) := st in bufPos <? maxBufPos)
              (parseAcceptMessage_body fuel buffer maxBufPos) fuel (self, bufPos, len) in
  match c with
  | Ret self => Done (0, self)
  | Next (self, _, _) => Done (1, self)
  end.

(** The loop of [IsoPresentation_parseConnect]. *)
Definition parseConnect_body (fuel : nat) (buffer : ptr) (maxBufPos : Z)
    (st : IsoPresentation * Z * option Z)
  : res (ctl (IsoPresentation * Z * option Z) IsoPresentation) :=
  let '(self, bufPos, len) := st in
  let! tag := rd buffer bufPos in
  let! (bufPos, len) := BerDecoder_decodeLength buffer len (bufPos + 1) maxBufPos in
  if bufPos <? 0 then Done (Ret self) else
  if tag =? 0xa0 then (* mode-selection *)
    let! b := rd buffer bufPos in
    if negb (b =? 0x80) then Done (Ret self) else
    let! (bufPos, len) := BerDecoder_decodeLength buffer len (bufPos + 1) maxBufPos in
    let! intlen := defined len in
    let! modeSelector := BerDecoder_decodeUint32 buffer intlen bufPos in
    let! bufPos := advance bufPos len in Done (Next (self, bufPos, len))
  else if tag =? 0xa2 then (* normal-mode-parameters *)
    let! totalLength := defined len in
    let! (bufPos, self) := parseNormalModeParameters fuel self buffer totalLength bufPos in
    if bufPos <? 0 then Done (Ret self) else Done (Next (self, bufPos, len))
  else (* unsupported element *)
    let! bufPos := advance bufPos len in Done (Next (self, bufPos, len)).

Definition IsoPresentation_parseConnect (fuel : nat) (self : IsoPresentation)
    (byteBuffer : ByteBuffer) : res (Z * IsoPresentation) :=
  let maxBufPos := bb_size byteBuffer in
  let! buffer := defined (bb_buffer byteBuffer) in
  let! cpTag := rd buffer 0 in
  if negb (cpTag =? 0x31) then Done (0, self) else
  let! (bufPos, len) := BerDecoder_decodeLength buffer None 1 maxBufPos in
  let! c := while (fun st => let '(_, bufPos, _) := st in bufPos <? maxBufPos)
              (parseConnect_body fuel buffer maxBufPos) fuel (self, bufPos, len) in
  match c with
  | Ret self => Done (0, self)
  | Next (self, _, _) => Done (1, self)
  end.

Definition IsoPresentation_parseUserData (self : IsoPresentation) (readBuffer : ByteBuffer)
  : res (Z * IsoPresentation) :=
  let length := bb_size readBuffer in
  if length <? 9 then Done (0, self) else
  let! buffer := defined (bb_buffer readBuffer) in
  let! b := rd buffer 0 in
  if negb (b =? 0x61) then Done (0, self) else
  let! (bufPos, len) := BerDecoder_decodeLength buffer None 1 length in
  let! b := rd buffer bufPos in
  if negb (b =? 0x30) then Done (0, self) else
  let! (bufPos, len) := BerDecoder_decodeLength buffer len (bufPos + 1) length in
  let! b := rd buffer bufPos in
  if negb (b =? 0x02) then Done (0, self) else
  let! b := rd buffer (bufPos + 1) in
  if negb (b =? 0x01) then Done (0, self) else
  let! contextId := rd buffer (bufPos + 2) in
  let self := set_nextContextId contextId self in
  let! b := rd buffer (bufPos + 3) in
  if negb (b =? 0xa0) then Done (0, self) else
  let! (bufPos, userDataLength) := BerDecoder_decodeLength buffer None (bufPos + 4) length in
  let! userDataLength := defined userDataLength in
  Done (1, set_nextPayload
    (ByteBuffer_wrap (Some (ptr_add buffer bufPos)) userDataLength userDataLength) self).
