(* ===== verification/PresentationFacts.v ===== *)
(** Properties of the presentation layer: the round trips of its PDUs, and what
    malformed lengths do to its parsers. *)
From stdpp Require Import base tactics list numbers option.
From S2P Require Import Prelude Memory Buffers BerDecode BerEncode IsoParams Session Layer SessionFacts Presentation.

(** * Headers *)

(** User data of [n] bytes that can be carried: every length field stays below
    65536. *)
Definition pres_room (n : Z) : Prop := 0 <= n < 65000.

Lemma ber_tl_small tag n : 0 <= tag < 256 -> 0 <= n < 128 -> ber_tl tag n = [tag; n].
Proof.
  intros. unfold ber_tl, ber_len. rewrite u32_small, !u8_small by lia. by zdec.
Qed.

Definition user_data_bytes (contextId n : Z) : list Z :=
  ber_tl 0x61 (fullyEncodedDataLength n) ++ ber_tl 0x30 (encodedDataSetLength n) ++
  [0x02; 0x01; u8 contextId] ++ ber_tl 0xa0 n.

#[local] Instance emits_encodeUserData n contextId buffer pos :
  Emits buffer pos (encodeUserData n contextId buffer pos)
    (pos + zlen (user_data_bytes contextId n)) (user_data_bytes contextId n).
Proof.
  unfold encodeUserData, user_data_bytes. emits_tac. rewrite (ber_tl_small 2 1) by lia. zl.
Qed.

(** [IsoPresentation_createUserData] writes the same bytes. *)
Lemma emits_userData_header contextId n buffer :
  Emits buffer 0 (userData_header contextId n buffer)
    (zlen (user_data_bytes contextId n)) (user_data_bytes contextId n).
Proof.
  unfold userData_header. set (f := BerEncoder_determineLengthSize (u32 n)).
  replace (n + (f + 4)) with (encodedDataSetLength n) by (unfold encodedDataSetLength, f; lia).
  fold (fullyEncodedDataLength n). unfold user_data_bytes. emits_tac.
Qed.

Lemma pres_lengths n :
  pres_room n ->
  encodedDataSetLength n = n + 4 + BerEncoder_determineLengthSize n /\
  fullyEncodedDataLength n
  = encodedDataSetLength n + 1 + BerEncoder_determineLengthSize (encodedDataSetLength n) /\
  0 <= encodedDataSetLength n < 65536 /\ 0 <= fullyEncodedDataLength n < 65536.
Proof.
  intros Hn. unfold pres_room in Hn. pose proof (determineLengthSize_range n).
  assert (encodedDataSetLength n = n + 4 + BerEncoder_determineLengthSize n) as E.
  { unfold encodedDataSetLength. rewrite u32_small by lia. lia. }
  pose proof (determineLengthSize_range (encodedDataSetLength n)).
  assert (fullyEncodedDataLength n
    = encodedDataSetLength n + 1 + BerEncoder_determineLengthSize (encodedDataSetLength n)) as E2.
  { unfold fullyEncodedDataLength. rewrite u32_small by lia. lia. }
  lia.
Qed.

(** The length fields count exactly what follows them. *)
Lemma zlen_user_data_bytes contextId n :
  pres_room n ->
  zlen (user_data_bytes contextId n) + n = encodedUserDataLength n /\
  encodedUserDataLength n
  = 1 + BerEncoder_determineLengthSize (fullyEncodedDataLength n) + fullyEncodedDataLength n.
Proof.
  intros Hn. destruct (pres_lengths n Hn) as (E1 & E2 & H1 & H2). unfold pres_room in Hn.
  unfold user_data_bytes, encodedUserDataLength. rewrite !zlen_app, !zlen_ber_tl.
  rewrite !u32_small by lia. change (zlen [2; 1; u8 contextId]) with 3. lia.
Qed.

Lemma with_header_spec w payload header hdr m a bs :
  carries m a payload bs -> bp_buffer w = InBlock a -> 0 <= a ->
  hdr <> [] -> Emits a 0 (header (zlen bs) a) (zlen hdr) hdr -> a + zlen hdr <= zlen m ->
  exists c', with_header w payload header m = Done (c', splice m a hdr) /\
    carries (splice m a hdr) (a + zlen hdr) c' (hdr ++ bs).
Proof.
  intros Hc Hw Ha Hne Hem Hl. exists (part_link w (InBlock a) (zlen hdr) (zlen hdr + zlen bs) payload).
  split; [|by apply carries_link].
  unfold with_header. rewrite (wbind_wlift _ _ _ _ (carries_length _ _ _ _ Hc)).
  rewrite (wbind_wlift _ a) by (unfold part_addr; by rewrite Hw).
  by erewrite wbind_assoc_res by (apply (emits_fit0 _ _ _ _ _ Hem); done).
Qed.

(** * User data *)

(** A tag and a length are read. *)
Lemma read_tl buffer tag n pos old max rest :
  holds buffer pos (ber_tl tag n ++ rest) -> 0 <= tag < 256 -> 0 <= n < 65536 ->
  pos + 1 + BerEncoder_determineLengthSize n <= max ->
  rd buffer pos = Done tag /\
  BerDecoder_decodeLength buffer old (pos + 1) max
  = Done (pos + 1 + BerEncoder_determineLengthSize n, Some n) /\
  holds buffer (pos + 1 + BerEncoder_determineLengthSize n) rest.
Proof.
  intros Hh Ht Hn Hm. unfold ber_tl in Hh. rewrite u32_small, u8_small in Hh by lia.
  cbn [app] in Hh. apply holds_cons in Hh as [H1 Hh]. apply holds_app in Hh as [H2 H3].
  rewrite zlen_ber_len in H3. split; [done|]. split; [|done]. by apply decodeLength_ber_len.
Qed.

Lemma parseUserData_holds s b contextId bs :
  pres_room (zlen bs) -> message_is b (user_data_bytes contextId (zlen bs) ++ bs) ->
  exists s', IsoPresentation_parseUserData s b = Done (1, s') /\
    nextContextId s' = u8 contextId /\ message_is (nextPayload s') bs /\
    mmsContextId s' = mmsContextId s /\ acseContextId s' = acseContextId s.
Proof.
  intros Hn (p & Hp & Hsz & Hall & _)%message_is_split.
  destruct (pres_lengths _ Hn) as (E1 & E2 & H1 & H2).
  destruct (zlen_user_data_bytes contextId _ Hn) as [E3 E4].
  pose proof (determineLengthSize_range (zlen bs)).
  pose proof (determineLengthSize_range (encodedDataSetLength (zlen bs))).
  pose proof (determineLengthSize_range (fullyEncodedDataLength (zlen bs))).
  set (size := bb_size b) in *. pose proof Hn as Hn'. unfold pres_room in Hn'.
  unfold user_data_bytes in Hall. rewrite <- !app_assoc in Hall.
  eapply (read_tl p _ _ _ None size) in Hall as (R1 & D1 & Hall); [|lia|lia|lia].
  eapply (read_tl p _ _ _ (Some (fullyEncodedDataLength (zlen bs))) size) in Hall as (R2 & D2 & Hall); [|lia|lia|lia].
  set (q := 0 + 1 + _ + 1 + _) in *.
  assert (q = 2 + BerEncoder_determineLengthSize (fullyEncodedDataLength (zlen bs))
    + BerEncoder_determineLengthSize (encodedDataSetLength (zlen bs))) as Hq by (unfold q; lia).
  apply holds_app in Hall as [Hid Hall]. change (zlen [2; 1; u8 contextId]) with 3 in Hall.
  eapply (read_tl p _ _ _ None size) in Hall as (R3 & D3 & Hall); [|lia|lia|lia].
  apply holds_cons in Hid as [R4 Hid]. apply holds_cons in Hid as [R5 Hid]. apply holds_cons in Hid as [R6 _].
  unfold IsoPresentation_parseUserData. fold size. zdec. rewrite Hp.
  cbn [defined rbind]. use_reads. change (0 + 1) with 1 in *. rewrite D1. cbn [rbind].
  use_reads. rewrite D2. cbn [rbind]. fold q. use_reads.
  replace (q + 4) with (q + 3 + 1) by lia. rewrite D3. cbn [rbind defined].
  eexists. split; [done|]. split; [done|]. split; [split; [done|]|done].
  eexists. split; [done|]. apply holds_ptr_add. by rewrite Z.add_0_r.
Qed.

Definition presentation_parse_data (s : IsoPresentation) (b : ByteBuffer) : res (option ByteBuffer) :=
  let! (r, s') := IsoPresentation_parseUserData s b in
  Done (if r =? 1 then Some (nextPayload s') else None).

(** The data layer of a presentation that sends as [self]. *)
#[export] Instance presentation_layer (self : IsoPresentation) : PduLayer IsoPresentation.
Proof.
  refine {| pl_header := user_data_bytes (mmsContextId self); pl_room := pres_room;
            pl_space := fun n => zlen (user_data_bytes (mmsContextId self) n);
            pl_create := IsoPresentation_createUserData self;
            pl_parse := presentation_parse_data |}.
  - intros m a w c bs Hc Hw Ha _ Hl.
    destruct (with_header_spec w c (userData_header (mmsContextId self))
      (user_data_bytes (mmsContextId self) (zlen bs)) m a bs Hc Hw Ha) as (c' & Hcr & Hc');
      [done|apply emits_userData_header|done|].
    eexists _, c'. split; [exact Hcr|]. split; [|done]. apply zlen_splice; done.
  - intros s b bs _ Hn Hb.
    destruct (parseUserData_holds s b (mmsContextId self) bs Hn Hb) as (s' & Hp & _ & Hd & _).
    exists (nextPayload s'). split; [|done]. unfold presentation_parse_data. by rewrite Hp.
Defined.

(** * Connection establishment *)

(** ** The user data of a connect or accept PDU *)

Lemma parseFullyEncodedData_holds f self buffer pos contextId bs :
  pres_room (zlen bs) -> 0 <= pos < 2 ^ 20 ->
  holds buffer pos (ber_tl 0x30 (encodedDataSetLength (zlen bs)) ++ [0x02; 0x01; u8 contextId] ++
    ber_tl 0xa0 (zlen bs) ++ bs) ->
  exists q, parseFullyEncodedData (S (S f)) self buffer (fullyEncodedDataLength (zlen bs)) pos
  = Done (pos + fullyEncodedDataLength (zlen bs),
      set_nextPayload (mkByteBuffer (Some (ptr_add buffer q)) (bb_maxSize (nextPayload self)) (zlen bs))
        (set_nextContextId (u8 contextId) self)) /\ holds buffer q bs.
Proof.
  intros Hn Hpos Hh. destruct (pres_lengths _ Hn) as (E1 & E2 & H1 & H2).
  pose proof (determineLengthSize_range (zlen bs)).
  pose proof (determineLengthSize_range (encodedDataSetLength (zlen bs))).
  unfold pres_room in Hn. change (2 ^ 20) with 1048576 in *.
  set (end1 := pos + fullyEncodedDataLength (zlen bs)).
  assert (end1 = pos + fullyEncodedDataLength (zlen bs)) as Hend by done. clearbody end1.
  eapply (read_tl buffer _ _ _ (Some (fullyEncodedDataLength (zlen bs))) end1) in Hh
    as (R1 & D1 & Hh); [|lia|lia|lia].
  set (q := pos + 1 + _) in *. assert (q = pos + 1 + BerEncoder_determineLengthSize (encodedDataSetLength (zlen bs))) as Hq by done.
  clearbody q. apply holds_app in Hh as [Hid Hh]. change (zlen [2; 1; u8 contextId]) with 3 in Hh.
  eapply (read_tl buffer _ _ _ None end1) in Hh as (R2 & D2 & Hh); [|lia|lia|lia].
  apply holds_cons in Hid as [R3 Hid].
  assert (holds buffer (q + 1) (ber_len 1 ++ [u8 contextId])) as Hid' by exact Hid.
  apply holds_app in Hid' as [Hl Hc]. change (zlen (ber_len 1)) with 1 in Hc.
  pose proof (decodeLength_ber_len buffer None 1 (q + 1) end1 Hl ltac:(lia)
    ltac:(change (BerEncoder_determineLengthSize 1) with 1; lia)) as D3.
  change (BerEncoder_determineLengthSize 1) with 1 in D3.
  exists (q + 3 + 1 + BerEncoder_determineLengthSize (zlen bs)). split; [|done].
  unfold parseFullyEncodedData. rewrite !i32_small by lia. rewrite <- Hend.
  use_reads. rewrite D1. cbn [rbind]. unfold advance. cbn [defined rbind].
  rewrite i32_small by lia. rewrite (proj2 (Z.ltb_ge q 0)) by lia.
  replace (q + encodedDataSetLength (zlen bs)) with end1 by lia.
  erewrite while_next; [|zdec; reflexivity|].
  2: { unfold parseFullyEncodedData_body. use_reads. rewrite D3. cbn [rbind]. zdec.
       cbn [defined rbind]. rewrite (decodeUint32_holds [u8 contextId]) by done. cbn [rbind]. reflexivity. }
  rewrite i32_small by lia. replace (q + 1 + 1 + 1) with (q + 3) by lia.
  erewrite while_next; [|zdec; reflexivity|].
  2: { unfold parseFullyEncodedData_body. use_reads. rewrite D2. cbn [rbind]. zdec.
       cbn [defined rbind]. reflexivity. }
  rewrite i32_small by lia. rewrite while_false by (zdec; done). cbn [rbind negb].
  assert (u8 (u32 (be_val [u8 contextId])) = u8 contextId) as ->.
  { pose proof (u8_byte contextId) as Hb. unfold is_byte in Hb. unfold be_val. cbn [fold_left].
    rewrite u32_small by lia. by rewrite u8_small by lia. }
  f_equal. f_equal. lia.
Qed.

(** ** The presentation context definition list *)

(** An item of the list, without its tag and length. *)
Definition context_item_bytes (contextId : Z) (name : list Z) : list Z :=
  [0x02; 0x01; contextId; 0x06; zlen name] ++ name ++ [0x30; 4; 6; 2; 0x51; 1].

(** One tag-length pair with a length below 128. *)
Lemma read_short buffer tag n pos old max rest :
  holds buffer pos (tag :: n :: rest) -> 0 <= n < 128 -> pos + 1 < max ->
  rd buffer pos = Done tag /\
  BerDecoder_decodeLength buffer old (pos + 1) max = Done (pos + 2, Some n) /\
  holds buffer (pos + 2) rest.
Proof.
  intros Hh Hn Hm. apply holds_cons in Hh as [R1 Hh].
  assert (holds buffer (pos + 1) (ber_len n ++ rest)) as Hl.
  { unfold ber_len. zdec. rewrite u8_small by lia. exact Hh. }
  apply holds_app in Hl as [Hl Hr]. rewrite zlen_ber_len in Hr.
  assert (BerEncoder_determineLengthSize n = 1) as E
    by (unfold BerEncoder_determineLengthSize; by zdec).
  rewrite E in Hr. split; [done|]. rewrite (decodeLength_ber_len _ _ n) by (try done; lia).
  rewrite E. replace (pos + 1 + 1) with (pos + 2) in * by lia. done.
Qed.

Lemma parsePCDLEntry_holds f self buffer pos contextId name :
  (name = asn_id_mms \/ name = asn_id_as_acse) -> 0 <= contextId < 128 -> 0 <= pos < 2 ^ 20 ->
  holds buffer pos (context_item_bytes contextId name) ->
  parsePCDLEntry (S (S (S f))) self buffer (11 + zlen name) pos
  = Done (pos + (11 + zlen name),
      if bool_decide (name = asn_id_mms) then set_mmsContextId contextId self
      else set_acseContextId contextId self).
Proof.
  intros Hname Hc Hpos Hh. change (2 ^ 20) with 1048576 in *.
  assert (4 <= zlen name <= 5) as Hz by (destruct Hname as [-> | ->]; split; done).
  unfold context_item_bytes in Hh. cbn [app] in Hh. set (max := pos + (11 + zlen name)).
  assert (max = pos + (11 + zlen name)) as Hmax by done. clearbody max.
  apply (read_short _ _ _ _ None max) in Hh as (R1 & D1 & Hh); [|lia|lia].
  apply (holds_app _ _ [contextId]) in Hh as [Hid Hh]. change (zlen [contextId]) with 1 in Hh.
  apply (read_short _ _ _ _ None max) in Hh as (R3 & D3 & Hh); [|lia|lia].
  apply holds_app in Hh as [Hnm Hh].
  apply (read_short _ _ _ _ None max) in Hh as (R4 & D4 & Hh); [|lia|lia].
  unfold parsePCDLEntry. rewrite i32_small by lia. rewrite <- Hmax.
  erewrite while_next; [|zdec; reflexivity|].
  2: { unfold parsePCDLEntry_body. use_reads. rewrite D1. cbn [rbind defined].
       rewrite (decodeUint32_holds [contextId]) by done. cbn [rbind]. reflexivity. }
  assert (be_val [contextId] = contextId) as -> by (unfold be_val; simpl; lia).
  rewrite (u32_small contextId), !i32_small by lia.
  set (acse := bool_decide (name = asn_id_as_acse)). set (mms := bool_decide (name = asn_id_mms)).
  erewrite while_next with (s' := (pos + 5 + zlen name, contextId, acse, mms)); [|zdec; reflexivity|].
  2: { unfold parsePCDLEntry_body. use_reads.
       rewrite D3. cbn [rbind defined]. rewrite i32_small by lia.
       destruct Hname as [-> | ->];
         [change (zlen asn_id_mms) with 5 in * | change (zlen asn_id_as_acse) with 4 in *];
         cbn [Z.eqb Pos.eqb]; rewrite (holds_rd_list _ _ _ _ Hnm) by done; cbn [rbind orb];
         apply (f_equal (fun q => Done (Next (q, _, _, _)))); lia. }
  erewrite while_next with (s' := (max, contextId, acse, mms)); [|zdec; reflexivity|].
  2: { unfold parsePCDLEntry_body. use_reads.
       replace (pos + 5 + zlen name + 1) with (pos + 2 + 1 + 2 + zlen name + 1) by lia.
       rewrite D4. cbn [rbind defined Z.eqb Pos.eqb]. rewrite i32_small by lia.
       apply (f_equal (fun q => Done (Next (q, _, _, _)))); lia. }
  rewrite while_false by (zdec; done). cbn [rbind]. zdec. rewrite u8_small by lia.
  unfold acse, mms. by destruct Hname as [-> | ->].
Qed.

Definition context_list_bytes : list Z :=
  [0x30; 15] ++ context_item_bytes 1 asn_id_as_acse ++ [0x30; 16] ++ context_item_bytes 3 asn_id_mms.

Lemma parseContextList_holds f self buffer pos :
  0 <= pos < 2 ^ 19 -> holds buffer pos context_list_bytes ->
  parsePresentationContextDefinitionList (S (S (S f))) self buffer 35 pos
  = Done (pos + 35, set_mmsContextId 3 (set_acseContextId 1 self)).
Proof.
  intros Hpos Hh. change (2 ^ 19) with 524288 in *. unfold context_list_bytes in Hh.
  unfold parsePresentationContextDefinitionList. rewrite i32_small by lia.
  remember (pos + 35) as max eqn:Hmax. move Hh at bottom.
  cbn [app] in Hh. apply (read_short _ _ _ _ None max) in Hh as (R1 & D1 & Hh); [|lia|lia].
  apply (holds_app _ _ (context_item_bytes 1 asn_id_as_acse)) in Hh as [H1 Hh].
  change (zlen (context_item_bytes 1 asn_id_as_acse)) with 15 in Hh.
  apply (read_short _ _ _ _ None max) in Hh as (R2 & D2 & Hh); [|lia|lia].
  erewrite while_next; [|cbn [snd]; zdec; reflexivity|].
  2: { unfold parsePresentationContextDefinitionList_body. use_reads. rewrite D1.
       cbn [rbind defined].
       pose proof (parsePCDLEntry_holds f self buffer (pos + 2) 1 asn_id_as_acse) as E.
       change (11 + zlen asn_id_as_acse) with 15 in E.
       rewrite E by (try done; try lia; by right). cbn [rbind]. rewrite bool_decide_false by done.
       rewrite (proj2 (Z.ltb_ge _ 0)) by lia. reflexivity. }
  erewrite while_next; [|cbn [snd]; zdec; reflexivity|].
  2: { unfold parsePresentationContextDefinitionList_body. use_reads. rewrite D2.
       cbn [rbind defined].
       pose proof (parsePCDLEntry_holds f (set_acseContextId 1 self) buffer (pos + 2 + 15 + 2) 3 asn_id_mms) as E.
       change (11 + zlen asn_id_mms) with 16 in E.
       rewrite E by (try done; try lia; by left). cbn [rbind]. rewrite bool_decide_true by done.
       rewrite (proj2 (Z.ltb_ge _ 0)) by lia. reflexivity. }
  rewrite while_false by (cbn [snd]; zdec; done). cbn [rbind]. f_equal. f_equal. lia.
Qed.

(** ** The normal mode parameters *)

(** Selectors and unknown elements are skipped. *)
Lemma normal_skip fuel self buffer pos max tag content rest :
  0 <= pos -> max < 2 ^ 21 -> pos + 2 + zlen content <= max -> zlen content < 128 ->
  tag <> 0xa4 -> tag <> 0x61 -> pos + 1 < max ->
  holds buffer pos (tag :: zlen content :: content ++ rest) ->
  parseNormalModeParameters_body fuel buffer max (self, pos)
  = Done (Next (self, pos + 2 + zlen content)) /\ holds buffer (pos + 2 + zlen content) rest.
Proof.
  intros Hp Hm Hl Hc H1 H2 Hmax Hh. change (2 ^ 21) with 2097152 in *. pose proof (zlen_nonneg content).
  apply (read_short _ _ _ _ None max) in Hh as (R1 & D1 & Hh); [|lia|lia].
  apply holds_app in Hh as [_ Hh]. split; [|done].
  unfold parseNormalModeParameters_body. use_reads. rewrite D1. cbn [rbind defined].
  rewrite (proj2 (Z.ltb_ge _ 0)) by lia.
  rewrite (proj2 (Z.eqb_neq tag 0xa4)), (proj2 (Z.eqb_neq tag 0x61)) by done.
  by rewrite i32_small by lia.
Qed.

(** The user data at the end of the parameters. *)
Lemma normal_user_data f self buffer pos max contextId bs :
  pres_room (zlen bs) -> 0 <= pos -> max < 2 ^ 20 -> max = pos + encodedUserDataLength (zlen bs) ->
  holds buffer pos (user_data_bytes contextId (zlen bs) ++ bs) ->
  exists q, parseNormalModeParameters_body (S (S f)) buffer max (self, pos)
    = Done (Next (set_nextPayload (mkByteBuffer (Some (ptr_add buffer q))
        (bb_maxSize (nextPayload self)) (zlen bs)) (set_nextContextId (u8 contextId) self), max)) /\
    holds buffer q bs.
Proof.
  intros Hn Hpos Hm -> Hh. destruct (pres_lengths _ Hn) as (E1 & E2 & H1 & H2).
  destruct (zlen_user_data_bytes contextId _ Hn) as [E3 E4].
  pose proof (determineLengthSize_range (fullyEncodedDataLength (zlen bs))).
  pose proof (determineLengthSize_range (encodedDataSetLength (zlen bs))).
  change (2 ^ 20) with 1048576 in *. unfold user_data_bytes in Hh. rewrite <- !app_assoc in Hh.
  eapply (read_tl buffer _ _ _ None (pos + encodedUserDataLength (zlen bs))) in Hh
    as (R1 & D1 & Hh); [|lia|lia|lia].
  edestruct (parseFullyEncodedData_holds f self) as (q & Hfd & Hq); [exact Hn| |exact Hh|].
  { change (2 ^ 20) with 1048576. lia. }
  exists q. split; [|done]. unfold parseNormalModeParameters_body. use_reads. rewrite D1.
  cbn [rbind defined]. rewrite (proj2 (Z.ltb_ge _ 0)) by lia. cbn [Z.eqb Pos.eqb].
  rewrite Hfd. cbn [rbind]. rewrite (proj2 (Z.ltb_ge _ 0)) by lia.
  apply (f_equal (fun n => Done (Next (_, n)))). lia.
Qed.

(** ** Connect and accept PDUs *)

Lemma zlen_asn_id_as_acse : zlen asn_id_as_acse = 4.
Proof. reflexivity. Qed.
Lemma zlen_asn_id_mms : zlen asn_id_mms = 5.
Proof. reflexivity. Qed.
Lemma zlen_ber_id : zlen ber_id = 2.
Proof. reflexivity. Qed.
#[local] Hint Rewrite zlen_asn_id_as_acse zlen_asn_id_mms zlen_ber_id : zlen.

Ltac short_tl := rewrite ?ber_tl_small by first [lia | by_eval].

Definition selector_bytes (v : Z) : list Z :=
  [u8 (Z.land (Z.shiftr v 24) 0xff); u8 (Z.land (Z.shiftr v 16) 0xff);
   u8 (Z.land (Z.shiftr v 8) 0xff); u8 (Z.land v 0xff)].

Lemma zlen_selector_bytes v : zlen (selector_bytes v) = 4.
Proof. reflexivity. Qed.
#[local] Hint Rewrite zlen_selector_bytes : zlen.

Definition mode_bytes : list Z := [0xa0; 3; 0x80; 1; 1].

(** The normal mode parameters in front of the user data. *)
Definition connect_normal_bytes (calling called : Z) : list Z :=
  [0x81; 4] ++ selector_bytes calling ++ [0x82; 4] ++ selector_bytes called ++
  [0xa4; 35] ++ context_list_bytes.

Definition accept_normal_bytes : list Z :=
  [0x83; 4] ++ calledPresentationSelector_bytes ++
  [0xa5; 18] ++ [0x30; 7; 0x80; 1; 0; 0x81; 2; 0x51; 1; 0x30; 7; 0x80; 1; 0; 0x81; 2; 0x51; 1].

Lemma zlen_connect_normal calling called : zlen (connect_normal_bytes calling called) = 49.
Proof. reflexivity. Qed.
Lemma zlen_accept_normal : zlen accept_normal_bytes = 26.
Proof. reflexivity. Qed.
Lemma zlen_mode_bytes : zlen mode_bytes = 5.
Proof. reflexivity. Qed.
Lemma zlen_called_selector : zlen calledPresentationSelector_bytes = 4.
Proof. reflexivity. Qed.
#[local] Hint Rewrite zlen_connect_normal zlen_accept_normal zlen_mode_bytes zlen_called_selector : zlen.

(** The header of a PDU with normal mode parameters [params] and user data of
    [n] bytes. *)
Definition cp_header (params : list Z) (contextId n : Z) : list Z :=
  let normal := zlen params + encodedUserDataLength n in
  ber_tl 0x31 (5 + normal + (1 + BerEncoder_determineLengthSize (u32 normal))) ++
  mode_bytes ++ ber_tl 0xa2 normal ++ params ++ user_data_bytes contextId n.

#[local] Instance emits_selector tag v buffer pos :
  Emits buffer pos (encode_selector tag v buffer pos)
    (pos + zlen (ber_tl tag 4 ++ selector_bytes v)) (ber_tl tag 4 ++ selector_bytes v).
Proof. unfold encode_selector. emits_tac. Qed.

#[local] Instance emits_acse_item buffer pos :
  Emits buffer pos (encode_context_item 15 1 asn_id_as_acse buffer pos)
    (pos + 17) ([0x30; 15] ++ context_item_bytes 1 asn_id_as_acse).
Proof. unfold encode_context_item. emits_tac; short_tl; try zl; done. Qed.

#[local] Instance emits_mms_item buffer pos :
  Emits buffer pos (encode_context_item 16 3 asn_id_mms buffer pos)
    (pos + 18) ([0x30; 16] ++ context_item_bytes 3 asn_id_mms).
Proof. unfold encode_context_item. emits_tac; short_tl; try zl; done. Qed.

#[local] Instance emits_accept_ber buffer pos :
  Emits buffer pos (encodeAcceptBer buffer pos) (pos + 9) [0x30; 7; 0x80; 1; 0; 0x81; 2; 0x51; 1].
Proof. unfold encodeAcceptBer. emits_tac; short_tl; try zl; done. Qed.

Lemma emits_createConnectPdu self n buffer :
  Emits buffer 0 (createConnectPdu_header self n buffer)
    (zlen (cp_header (connect_normal_bytes (callingPresentationSelector self)
       (calledPresentationSelector self)) (acseContextId self) n))
    (cp_header (connect_normal_bytes (callingPresentationSelector self)
       (calledPresentationSelector self)) (acseContextId self) n).
Proof.
  unfold createConnectPdu_header, createConnectPdu_contentLength, cp_header.
  assert (createConnectPdu_normalModeLength n
    = zlen (connect_normal_bytes (callingPresentationSelector self) (calledPresentationSelector self))
      + encodedUserDataLength n) as ->.
  { unfold createConnectPdu_normalModeLength.
    change (zlen (connect_normal_bytes _ _)) with 49. lia. }
  emits_tac. rewrite (ber_tl_small 160 3), (ber_tl_small 128 1), (ber_tl_small 129 4),
    (ber_tl_small 130 4), (ber_tl_small 164 35) by lia. zl.
Qed.

Lemma emits_createCpa self n buffer :
  Emits buffer 0 (cpa_header self n buffer)
    (zlen (cp_header accept_normal_bytes (acseContextId self) n))
    (cp_header accept_normal_bytes (acseContextId self) n).
Proof.
  unfold cpa_header, cpa_contentLength, cp_header.
  assert (cpa_normalModeLength n = zlen accept_normal_bytes + encodedUserDataLength n) as ->.
  { unfold cpa_normalModeLength. change (zlen accept_normal_bytes) with 26. lia. }
  rewrite (Z.add_comm (BerEncoder_determineLengthSize _) 1).
  emits_tac. rewrite (ber_tl_small 160 3), (ber_tl_small 128 1), (ber_tl_small 131 4),
    (ber_tl_small 165 18) by lia. zl.
Qed.

(** The state a peer is in after it has read the user data of a PDU. *)
Definition got_user_data (s : IsoPresentation) (buffer : ptr) (q contextId n : Z) : IsoPresentation :=
  set_nextPayload (mkByteBuffer (Some (ptr_add buffer q)) (bb_maxSize (nextPayload s)) n)
    (set_nextContextId (u8 contextId) s).

Lemma normal_context_list f self buffer pos max rest :
  0 <= pos < 2 ^ 18 -> pos + 37 <= max -> max < 2 ^ 20 ->
  holds buffer pos ([0xa4; 35] ++ context_list_bytes ++ rest) ->
  parseNormalModeParameters_body (S (S (S f))) buffer max (self, pos)
  = Done (Next (set_mmsContextId 3 (set_acseContextId 1 self), pos + 37)) /\
  holds buffer (pos + 37) rest.
Proof.
  intros Hpos Hm Hm2 Hh. change (2 ^ 18) with 262144 in *. change (2 ^ 20) with 1048576 in *.
  cbn [app] in Hh. apply (read_short _ _ _ _ None max) in Hh as (R1 & D1 & Hh); [|lia|lia].
  apply holds_app in Hh as [H1 Hh]. change (zlen context_list_bytes) with 35 in Hh.
  replace (pos + 2 + 35) with (pos + 37) in Hh by lia. split; [|done].
  unfold parseNormalModeParameters_body. use_reads. rewrite D1. cbn [rbind defined].
  rewrite (proj2 (Z.ltb_ge _ 0)) by lia. cbn [Z.eqb Pos.eqb].
  rewrite parseContextList_holds by (try done; change (2 ^ 19) with 524288; lia). cbn [rbind].
  apply (f_equal (fun n => Done (Next (_, n)))). lia.
Qed.

Lemma parseNormal_connect f self buffer pos calling called contextId bs :
  pres_room (zlen bs) -> 0 <= pos < 2 ^ 17 ->
  holds buffer pos (connect_normal_bytes calling called ++ user_data_bytes contextId (zlen bs) ++ bs) ->
  exists q, parseNormalModeParameters (S (S (S (S f)))) self buffer (49 + encodedUserDataLength (zlen bs)) pos
    = Done (pos + (49 + encodedUserDataLength (zlen bs)),
        got_user_data (set_mmsContextId 3 (set_acseContextId 1 self)) buffer q contextId (zlen bs)) /\
    holds buffer q bs.
Proof.
  intros Hn Hpos Hh. destruct (pres_lengths _ Hn) as (E1 & E2 & H1 & H2).
  destruct (zlen_user_data_bytes contextId _ Hn) as [E3 E4].
  pose proof (determineLengthSize_range (fullyEncodedDataLength (zlen bs))).
  change (2 ^ 17) with 131072 in *. unfold connect_normal_bytes in Hh. rewrite <- !app_assoc in Hh.
  unfold parseNormalModeParameters. rewrite i32_small by lia.
  remember (pos + (49 + encodedUserDataLength (zlen bs))) as max eqn:Hmax. move Hh at bottom.
  apply (normal_skip (S (S (S (S f)))) self buffer pos max 0x81 (selector_bytes calling)) in Hh as [B1 Hh];
    rewrite ?zlen_selector_bytes in *; try done; try lia.
  apply (normal_skip (S (S (S (S f)))) self buffer (pos + 2 + 4) max 0x82 (selector_bytes called)) in Hh as [B2 Hh];
    rewrite ?zlen_selector_bytes in *; try done; try lia.
  apply (normal_context_list (S f) self buffer _ max) in Hh as [B3 Hh];
    try (change (2 ^ 18) with 262144); try (change (2 ^ 20) with 1048576); try lia.
  destruct (normal_user_data (S (S f)) (set_mmsContextId 3 (set_acseContextId 1 self)) buffer
    (pos + 2 + 4 + 2 + 4 + 37) max contextId bs) as (q & B4 & Hq);
    try (change (2 ^ 20) with 1048576); try done; try lia.
  exists q. split; [|done].
  erewrite while_next; [|cbn [snd]; zdec; reflexivity|exact B1].
  erewrite while_next; [|cbn [snd]; zdec; reflexivity|exact B2].
  erewrite while_next; [|cbn [snd]; zdec; reflexivity|exact B3].
  erewrite while_next; [|cbn [snd]; zdec; reflexivity|exact B4].
  by rewrite while_false by (cbn [snd]; zdec; done).
Qed.

Lemma parseNormal_accept f self buffer pos contextId bs :
  pres_room (zlen bs) -> 0 <= pos < 2 ^ 17 ->
  holds buffer pos (accept_normal_bytes ++ user_data_bytes contextId (zlen bs) ++ bs) ->
  exists q, parseNormalModeParameters (S (S (S f))) self buffer (26 + encodedUserDataLength (zlen bs)) pos
    = Done (pos + (26 + encodedUserDataLength (zlen bs)),
        got_user_data self buffer q contextId (zlen bs)) /\ holds buffer q bs.
Proof.
  intros Hn Hpos Hh. destruct (pres_lengths _ Hn) as (E1 & E2 & H1 & H2).
  destruct (zlen_user_data_bytes contextId _ Hn) as [E3 E4].
  pose proof (determineLengthSize_range (fullyEncodedDataLength (zlen bs))).
  change (2 ^ 17) with 131072 in *. unfold accept_normal_bytes in Hh. rewrite <- !app_assoc in Hh.
  unfold parseNormalModeParameters. rewrite i32_small by lia.
  remember (pos + (26 + encodedUserDataLength (zlen bs))) as max eqn:Hmax. move Hh at bottom.
  apply (normal_skip (S (S (S f))) self buffer pos max 0x83 calledPresentationSelector_bytes) in Hh as [B1 Hh];
    rewrite ?zlen_called_selector in *; try done; try lia.
  apply (normal_skip (S (S (S f))) self buffer (pos + 2 + 4) max 0xa5
    [0x30; 7; 0x80; 1; 0; 0x81; 2; 0x51; 1; 0x30; 7; 0x80; 1; 0; 0x81; 2; 0x51; 1]) in Hh as [B2 Hh];
    try change (zlen [0x30; 7; 0x80; 1; 0; 0x81; 2; 0x51; 1; 0x30; 7; 0x80; 1; 0; 0x81; 2; 0x51; 1])
      with 18 in *; try done; try lia.
  destruct (normal_user_data (S f) self buffer (pos + 2 + 4 + 2 + 18) max contextId bs)
    as (q & B4 & Hq); try (change (2 ^ 20) with 1048576); try done; try lia.
  exists q. split; [|done].
  erewrite while_next; [|cbn [snd]; zdec; reflexivity|exact B1].
  erewrite while_next; [|cbn [snd]; zdec; reflexivity|exact B2].
  erewrite while_next; [|cbn [snd]; zdec; reflexivity|exact B4].
  by rewrite while_false by (cbn [snd]; zdec; done).
Qed.

(** What both outer parsers read of a PDU before its normal mode parameters. *)
Lemma cp_reads p size params contextId bs :
  pres_room (zlen bs) -> 0 < zlen params < 100 ->
  size = zlen (cp_header params contextId (zlen bs)) + zlen bs ->
  holds p 0 (cp_header params contextId (zlen bs) ++ bs) ->
  let normal := zlen params + encodedUserDataLength (zlen bs) in
  exists q len, 2 <= q <= 4 /\ 0 <= len < 65536 /\ 0 <= normal < 65536 /\
    rd p 0 = Done 0x31 /\ BerDecoder_decodeLength p None 1 size = Done (q, Some len) /\
    holds p q mode_bytes /\
    rd p (q + 5) = Done 0xa2 /\
    (forall old, BerDecoder_decodeLength p old (q + 5 + 1) size
       = Done (q + 5 + 1 + BerEncoder_determineLengthSize normal, Some normal)) /\
    holds p (q + 5 + 1 + BerEncoder_determineLengthSize normal)
      (params ++ user_data_bytes contextId (zlen bs) ++ bs) /\
    q + 5 + 1 + BerEncoder_determineLengthSize normal + normal = size.
Proof.
  intros Hn Hp Hsize Hh normal. destruct (pres_lengths _ Hn) as (E1 & E2 & H1 & H2).
  destruct (zlen_user_data_bytes contextId _ Hn) as [E3 E4].
  pose proof (determineLengthSize_range (fullyEncodedDataLength (zlen bs))).
  pose proof (determineLengthSize_range (encodedDataSetLength (zlen bs))).
  pose proof (determineLengthSize_range (zlen bs)).
  pose proof (determineLengthSize_range normal). pose proof Hn as Hn'. unfold pres_room in Hn'.
  assert (0 <= normal < 65400) as Hnorm by (unfold normal; lia).
  unfold cp_header in Hh, Hsize. fold normal in Hh, Hsize. rewrite u32_small in Hh, Hsize by lia.
  set (content := 5 + normal + (1 + BerEncoder_determineLengthSize normal)) in *.
  assert (content = 5 + normal + (1 + BerEncoder_determineLengthSize normal)) as Hcont by done.
  clearbody content. pose proof (determineLengthSize_range content).
  rewrite !zlen_app, !zlen_ber_tl, !u32_small, zlen_mode_bytes in Hsize by lia.
  assert (size = 1 + BerEncoder_determineLengthSize content + 6 + BerEncoder_determineLengthSize normal
    + normal) as Hsz by (unfold normal in *; lia).
  rewrite <- !app_assoc in Hh. move Hh at bottom.
  apply (read_tl p _ _ _ None size) in Hh as (R1 & D1 & Hh); [|lia|lia|lia].
  apply holds_app in Hh as [Hmode Hh]. rewrite zlen_mode_bytes in Hh.
  exists (0 + 1 + BerEncoder_determineLengthSize content), content.
  split; [lia|]. split; [lia|]. split; [lia|]. split; [done|]. split; [exact D1|].
  split; [exact Hmode|].
  assert (forall old, rd p (0 + 1 + BerEncoder_determineLengthSize content + 5) = Done 0xa2 /\
    BerDecoder_decodeLength p old (0 + 1 + BerEncoder_determineLengthSize content + 5 + 1) size
    = Done (0 + 1 + BerEncoder_determineLengthSize content + 5 + 1 +
        BerEncoder_determineLengthSize normal, Some normal) /\
    holds p (0 + 1 + BerEncoder_determineLengthSize content + 5 + 1 +
        BerEncoder_determineLengthSize normal) (params ++ user_data_bytes contextId (zlen bs) ++ bs)) as D2
    by (intros old; apply read_tl; [done|lia|lia|lia]).
  split; [apply (D2 None)|]. split; [intros old; apply D2|]. split; [apply (D2 None)|lia].
Qed.

Lemma mode_reads p q size :
  holds p q mode_bytes -> q + 5 <= size -> forall old,
  rd p q = Done 0xa0 /\ BerDecoder_decodeLength p old (q + 1) size = Done (q + 2, Some 3) /\
  rd p (q + 2) = Done 0x80 /\ BerDecoder_decodeLength p old (q + 3) size = Done (q + 4, Some 1) /\
  holds p (q + 4) [1].
Proof.
  intros Hh Hs old. unfold mode_bytes in Hh.
  apply (read_short _ _ _ _ old size) in Hh as (R1 & D1 & Hh); [|lia|lia].
  apply (read_short _ _ _ _ old size) in Hh as (R2 & D2 & Hh); [|lia|lia].
  replace (q + 2 + 1) with (q + 3) in * by lia. replace (q + 2 + 2) with (q + 4) in * by lia. done.
Qed.

Lemma parseConnect_holds f s b calling called contextId bs :
  pres_room (zlen bs) ->
  message_is b (cp_header (connect_normal_bytes calling called) contextId (zlen bs) ++ bs) ->
  exists s', IsoPresentation_parseConnect (S (S (S (S f)))) s b = Done (1, s') /\
    acseContextId s' = 1 /\ mmsContextId s' = 3 /\ nextContextId s' = u8 contextId /\
    message_is (nextPayload s') bs.
Proof.
  intros Hn (p & Hp & Hsz & Hall & _)%message_is_split.
  set (size := bb_size b) in *.
  edestruct (cp_reads p size) as (q & len & Hq & Hl & Hno & R1 & D1 & Hm & R2 & D2 & Hh & Hend);
    [exact Hn| |exact Hsz|exact Hall|]; [by rewrite zlen_connect_normal|].
  rewrite zlen_connect_normal in *. cbv zeta in *.
  pose proof (determineLengthSize_range (49 + encodedUserDataLength (zlen bs))).
  edestruct (parseNormal_connect f s p) as (r & Hpn & Hr);
    [exact Hn| |exact Hh|]; [change (2 ^ 17) with 131072; lia|].
  exists (got_user_data (set_mmsContextId 3 (set_acseContextId 1 s)) p r contextId (zlen bs)).
  split.
  - unfold IsoPresentation_parseConnect. fold size. rewrite Hp. cbn [defined rbind]. use_reads.
    rewrite D1. cbn [rbind].
    destruct (mode_reads p q size Hm ltac:(lia) (Some len)) as (M1 & M2 & M3 & _ & M5).
    destruct (mode_reads p q size Hm ltac:(lia) (Some 3)) as (_ & _ & _ & M4 & _).
    erewrite while_next; [|zdec; reflexivity|].
    2: { unfold parseConnect_body. use_reads. rewrite M2. cbn [rbind].
         rewrite (proj2 (Z.ltb_ge _ 0)) by lia. use_reads.
         replace (q + 2 + 1) with (q + 3) by lia. rewrite M4. cbn [rbind defined].
         rewrite (decodeUint32_holds [1]) by done. unfold advance. cbn [rbind defined]. reflexivity. }
    rewrite i32_small by lia. replace (q + 4 + 1) with (q + 5) by lia.
    erewrite while_next; [|zdec; reflexivity|].
    2: { unfold parseConnect_body. use_reads. rewrite D2. cbn [rbind].
         rewrite (proj2 (Z.ltb_ge _ 0)) by lia. cbn [defined rbind]. rewrite Hpn. cbn [rbind].
         rewrite (proj2 (Z.ltb_ge _ 0)) by lia. reflexivity. }
    by rewrite while_false by (zdec; done).
  - repeat (split; [done|]). eexists. split; [done|].
    apply holds_ptr_add. by rewrite Z.add_0_r.
Qed.

Lemma parseAccept_holds f s b contextId bs :
  pres_room (zlen bs) ->
  message_is b (cp_header accept_normal_bytes contextId (zlen bs) ++ bs) ->
  exists s', IsoPresentation_parseAcceptMessage (S (S (S f))) s b = Done (1, s') /\
    acseContextId s' = acseContextId s /\ mmsContextId s' = mmsContextId s /\
    nextContextId s' = u8 contextId /\ message_is (nextPayload s') bs.
Proof.
  intros Hn (p & Hp & Hsz & Hall & _)%message_is_split.
  set (size := bb_size b) in *.
  edestruct (cp_reads p size) as (q & len & Hq & Hl & Hno & R1 & D1 & Hm & R2 & D2 & Hh & Hend);
    [exact Hn| |exact Hsz|exact Hall|]; [by rewrite zlen_accept_normal|].
  rewrite zlen_accept_normal in *. cbv zeta in *.
  pose proof (determineLengthSize_range (26 + encodedUserDataLength (zlen bs))).
  edestruct (parseNormal_accept f s p) as (r & Hpn & Hr);
    [exact Hn| |exact Hh|]; [change (2 ^ 17) with 131072; lia|].
  exists (got_user_data s p r contextId (zlen bs)). split.
  - unfold IsoPresentation_parseAcceptMessage. fold size. rewrite Hp. cbn [defined rbind]. use_reads.
    rewrite D1. cbn [rbind].
    destruct (mode_reads p q size Hm ltac:(lia) (Some len)) as (M1 & M2 & _ & _ & _).
    erewrite while_next; [|zdec; reflexivity|].
    2: { unfold parseAcceptMessage_body. use_reads. rewrite M2. cbn [rbind].
         rewrite (proj2 (Z.ltb_ge _ 0)) by lia. unfold advance. cbn [rbind defined Z.eqb Pos.eqb].
         reflexivity. }
    rewrite i32_small by lia. replace (q + 2 + 3) with (q + 5) by lia.
    erewrite while_next; [|zdec; reflexivity|].
    2: { unfold parseAcceptMessage_body. use_reads. rewrite D2. cbn [rbind].
         rewrite (proj2 (Z.ltb_ge _ 0)) by lia. cbn [defined rbind]. rewrite Hpn. cbn [rbind].
         rewrite (proj2 (Z.ltb_ge _ 0)) by lia. reflexivity. }
    by rewrite while_false by (zdec; done).
  - repeat (split; [done|]). eexists. split; [done|].
    apply holds_ptr_add. by rewrite Z.add_0_r.
Qed.

(** The presentation after creating a connect PDU. *)
Definition connecting (params : IsoConnectionParameters) (self : IsoPresentation) : IsoPresentation :=
  set_selectors (ip_localPSelector params) (ip_remotePSelector params)
    (set_mmsContextId 3 (set_acseContextId 1 self)).

Definition connect_header (params : IsoConnectionParameters) (n : Z) : list Z :=
  cp_header (connect_normal_bytes (ip_localPSelector params) (ip_remotePSelector params)) 1 n.

Definition accept_header (self : IsoPresentation) (n : Z) : list Z :=
  cp_header accept_normal_bytes (acseContextId self) n.

Lemma zlen_cp_header params contextId n :
  zlen (cp_header params contextId n) <= 30 + zlen params.
Proof.
  unfold cp_header, user_data_bytes. rewrite !zlen_app, !zlen_ber_tl, zlen_mode_bytes.
  change (zlen [2; 1; u8 contextId]) with 3.
  repeat match goal with |- context [BerEncoder_determineLengthSize ?x] =>
    pose proof (determineLengthSize_range x); generalize dependent (BerEncoder_determineLengthSize x) end.
  intros. lia.
Qed.

Lemma createConnectPdu_spec self params w payload m a bs :
  carries m a payload bs -> bp_buffer w = InBlock a -> 0 <= a ->
  a + 100 <= zlen m ->
  let hdr := connect_header params (zlen bs) in
  exists c', IsoPresentation_createConnectPdu self params w payload m
    = Done (c', connecting params self, splice m a hdr) /\
    carries (splice m a hdr) (a + zlen hdr) c' (hdr ++ bs).
Proof.
  intros Hc Hw Ha Hl hdr.
  pose proof (zlen_cp_header (connect_normal_bytes (ip_localPSelector params)
    (ip_remotePSelector params)) 1 (zlen bs)) as Hz. rewrite zlen_connect_normal in Hz.
  destruct (with_header_spec w payload (createConnectPdu_header (connecting params self)) hdr m a bs Hc Hw Ha)
    as (c' & Hcr & Hc'); [done|apply (emits_createConnectPdu (connecting params self))|
    unfold hdr, connect_header; lia|].
  exists c'. split; [|done].
  unfold IsoPresentation_createConnectPdu, createConnectPdu, wbind. fold (connecting params self).
  by rewrite Hcr.
Qed.

Lemma createCpa_spec self w payload m a bs :
  carries m a payload bs -> bp_buffer w = InBlock a -> 0 <= a ->
  a + 80 <= zlen m ->
  let hdr := accept_header self (zlen bs) in
  exists c', IsoPresentation_createCpaMessage self w payload m = Done (c', splice m a hdr) /\
    carries (splice m a hdr) (a + zlen hdr) c' (hdr ++ bs).
Proof.
  intros Hc Hw Ha Hl hdr.
  pose proof (zlen_cp_header accept_normal_bytes (acseContextId self) (zlen bs)) as Hz.
  rewrite zlen_accept_normal in Hz.
  apply (with_header_spec w payload (cpa_header self) hdr m a bs Hc Hw Ha);
    [done|apply emits_createCpa|unfold hdr, accept_header; lia].
Qed.

(** The connect PDU of the caller is understood: the called side accepts it,
    learns the context ids 1 (ACSE) and 3 (MMS) and is left with exactly the
    user data. *)
Theorem IsoPresentation_connect_roundtrip f self params w payload m a bs s :
  carries m a payload bs -> bp_buffer w = InBlock a -> 0 <= a -> pres_room (zlen bs) ->
  a + 100 <= zlen m ->
  exists c' self' m' hdr,
    IsoPresentation_createConnectPdu self params w payload m = Done (c', self', m') /\
    carries m' (a + zlen hdr) c' (hdr ++ bs) /\
    acseContextId self' = 1 /\ mmsContextId self' = 3 /\
    (forall b, message_is b (hdr ++ bs) ->
     exists s', IsoPresentation_parseConnect (S (S (S (S f)))) s b = Done (1, s') /\
       acseContextId s' = 1 /\ mmsContextId s' = 3 /\ nextContextId s' = 1 /\
       message_is (nextPayload s') bs).
Proof.
  intros Hc Hw Ha Hn Hl.
  destruct (createConnectPdu_spec self params w payload m a bs Hc Hw Ha Hl) as (c' & Hcr & Hc').
  eexists c', _, _, _. split; [exact Hcr|]. do 3 (split; [done|]). intros b Hb.
  destruct (parseConnect_holds f s b _ _ _ _ Hn Hb) as (s' & H1 & H2 & H3 & H4 & H5).
  by exists s'.
Qed.

Lemma IsoPresentation_connect_roundtrip_witness :
  exists c' self' m',
    IsoPresentation_createConnectPdu IsoPresentation_calloc IsoConnectionParameters_create
      (mkPart 0 0 120 (InBlock 0)) (payload [1; 2; 3]) (replicate 120 0) = Done (c', self', m') /\
    acseContextId self' = 1 /\ mmsContextId self' = 3.
Proof.
  destruct (IsoPresentation_connect_roundtrip 0 IsoPresentation_calloc IsoConnectionParameters_create
    (mkPart 0 0 120 (InBlock 0)) (payload [1; 2; 3]) (replicate 120 0) 0 [1; 2; 3]
    IsoPresentation_calloc (carries_payload _ _ [1; 2; 3] ltac:(discriminate)) eq_refl ltac:(lia) ltac:(split; by_eval) ltac:(by_eval))
    as (c' & s' & m' & hdr & H1 & _ & H2 & H3 & _).
  exists c', s', m'. split; [exact H1|]. split; [exact H2|exact H3].
Defined.


(** The accept PDU of the called side is understood by the caller, which keeps
    its context ids and is left with exactly the user data. *)
Theorem IsoPresentation_accept_roundtrip f self w payload m a bs s :
  carries m a payload bs -> bp_buffer w = InBlock a -> 0 <= a -> pres_room (zlen bs) ->
  a + 80 <= zlen m ->
  exists c' m' hdr,
    IsoPresentation_createCpaMessage self w payload m = Done (c', m') /\
    carries m' (a + zlen hdr) c' (hdr ++ bs) /\
    (forall b, message_is b (hdr ++ bs) ->
     exists s', IsoPresentation_parseAcceptMessage (S (S (S f))) s b = Done (1, s') /\
       acseContextId s' = acseContextId s /\ mmsContextId s' = mmsContextId s /\
       nextContextId s' = u8 (acseContextId self) /\ message_is (nextPayload s') bs).
Proof.
  intros Hc Hw Ha Hn Hl.
  destruct (createCpa_spec self w payload m a bs Hc Hw Ha Hl) as (c' & Hcr & Hc').
  eexists c', _, _. split; [exact Hcr|]. split; [done|]. intros b Hb.
  by apply parseAccept_holds.
Qed.

Lemma IsoPresentation_accept_roundtrip_witness :
  exists c' m' hdr,
    IsoPresentation_createCpaMessage IsoPresentation_calloc (mkPart 0 0 120 (InBlock 0))
      (payload [1; 2; 3]) (replicate 120 0) = Done (c', m') /\
    carries m' (0 + zlen hdr) c' (hdr ++ [1; 2; 3]).
Proof.
  destruct (IsoPresentation_accept_roundtrip 0 IsoPresentation_calloc
    (mkPart 0 0 120 (InBlock 0)) (payload [1; 2; 3]) (replicate 120 0) 0 [1; 2; 3]
    IsoPresentation_calloc (carries_payload _ _ [1; 2; 3] ltac:(discriminate)) eq_refl ltac:(lia) ltac:(split; by_eval) ltac:(by_eval))
    as (c' & m' & hdr & H1 & H2 & _).
  exists c', m', hdr. split; [exact H1|exact H2].
Defined.


(** User data sent on an established association is found again, with the
    context id of the sender; the two length fields count exactly what follows
    them, so messages up to the 65000 bytes the length octets can express arrive
    unchanged. *)
Theorem IsoPresentation_userData_roundtrip self w payload m a bs s (acse : bool) :
  carries m a payload bs -> bp_buffer w = InBlock a -> 0 <= a -> pres_room (zlen bs) ->
  a + 15 <= zlen m ->
  exists c' m' hdr,
    (if acse then IsoPresentation_createUserDataACSE self w payload m
     else IsoPresentation_createUserData self w payload m) = Done (c', m') /\
    carries m' (a + zlen hdr) c' (hdr ++ bs) /\
    (forall b, message_is b (hdr ++ bs) ->
     exists s', IsoPresentation_parseUserData s b = Done (1, s') /\
       nextContextId s' = u8 (if acse then acseContextId self else mmsContextId self) /\
       message_is (nextPayload s') bs).
Proof.
  intros Hc Hw Ha Hn Hl.
  set (id := if acse then acseContextId self else mmsContextId self).
  assert (zlen (user_data_bytes id (zlen bs)) <= 15) as Hz.
  { unfold user_data_bytes. rewrite !zlen_app, !zlen_ber_tl. change (zlen [2; 1; u8 id]) with 3.
    repeat match goal with |- context [BerEncoder_determineLengthSize ?x] =>
      pose proof (determineLengthSize_range x); generalize dependent (BerEncoder_determineLengthSize x) end.
    intros. lia. }
  destruct (with_header_spec w payload (userData_header id) (user_data_bytes id (zlen bs)) m a bs
    Hc Hw Ha) as (c' & Hcr & Hc'); [done|apply emits_userData_header|lia|].
  exists c', (splice m a (user_data_bytes id (zlen bs))), (user_data_bytes id (zlen bs)).
  split; [by destruct acse|]. split; [done|]. intros b Hb.
  destruct (parseUserData_holds s b id bs Hn Hb) as (s' & H1 & H2 & H3 & _). by exists s'.
Qed.

Lemma IsoPresentation_userData_roundtrip_witness :
  exists c' m' hdr,
    IsoPresentation_createUserData IsoPresentation_calloc (mkPart 0 0 40 (InBlock 0))
      (payload [1; 2; 3]) (replicate 40 0) = Done (c', m') /\
    carries m' (0 + zlen hdr) c' (hdr ++ [1; 2; 3]).
Proof.
  destruct (IsoPresentation_userData_roundtrip IsoPresentation_calloc
    (mkPart 0 0 40 (InBlock 0)) (payload [1; 2; 3]) (replicate 40 0) 0 [1; 2; 3]
    IsoPresentation_calloc false (carries_payload _ _ [1; 2; 3] ltac:(discriminate)) eq_refl ltac:(lia) ltac:(split; by_eval) ltac:(by_eval))
    as (c' & m' & hdr & H1 & H2 & _).
  exists c', m', hdr. split; [exact H1|exact H2].
Defined.


(** * Hazards *)

(** A length of four octets can decode to a negative number.  With -6 the
    parsers of connect and accept PDUs come back to the element they have just
    read, and never return. *)
Theorem IsoPresentation_negative_length_hangs fuel s :
  let b := message [0x31; 6; 0; 0x84; 0xff; 0xff; 0xff; 0xfa] in
  IsoPresentation_parseConnect fuel s b = NoFuel /\
  IsoPresentation_parseAcceptMessage fuel s b = NoFuel.
Proof.
  intros b. unfold IsoPresentation_parseConnect, IsoPresentation_parseAcceptMessage. split.
  - cbn [bb_buffer b message defined rbind]. change (bb_size b) with 8.
    change (rd _ 0) with (Done 0x31). cbn [rbind negb Z.eqb Pos.eqb].
    change (BerDecoder_decodeLength _ None 1 8) with (Done (2, Some 6)). cbn [rbind].
    destruct fuel as [|f]; [done|]. erewrite while_next; [|done|reflexivity].
    rewrite while_cycle; done.
  - cbn [bb_buffer b message defined rbind]. change (bb_size b) with 8.
    change (rd _ 0) with (Done 0x31). cbn [rbind negb Z.eqb Pos.eqb].
    change (BerDecoder_decodeLength _ None 1 8) with (Done (2, Some 6)). cbn [rbind].
    destruct fuel as [|f]; [done|]. erewrite while_next; [|done|reflexivity].
    rewrite while_cycle; done.
Qed.

(** A connect PDU without user data is accepted, and the payload is left as it
    was: the null pointer in a new connection. *)
Theorem IsoPresentation_connect_without_data fuel s :
  IsoPresentation_parseConnect fuel s (message [0x31; 0]) = Done (1, s).
Proof. by destruct fuel. Qed.

(** The length of the abort PDU counts its own tag and length octets: it is too
    large by two to four. *)
Theorem IsoPresentation_abort_length self w payload m a bs :
  carries m a payload bs -> bp_buffer w = InBlock a -> 0 <= a -> pres_room (zlen bs) ->
  a + 19 <= zlen m ->
  exists c' m' rest n,
    IsoPresentation_createAbortUserMessage self w payload m = Done (c', m') /\
    chain_bytes m' c' = ber_tl 0xa0 n ++ rest /\
    n = zlen rest + 1 + BerEncoder_determineLengthSize (zlen rest).
Proof.
  intros Hc Hw Ha Hn Hl. destruct (pres_lengths _ Hn) as (E1 & E2 & H1 & H2).
  destruct (zlen_user_data_bytes (acseContextId self) _ Hn) as [E3 E4].
  pose proof (determineLengthSize_range (fullyEncodedDataLength (zlen bs))).
  set (ud := user_data_bytes (acseContextId self) (zlen bs)) in *.
  set (n := abort_contentLength (zlen bs)).
  assert (n = encodedUserDataLength (zlen bs) + 1 +
    BerEncoder_determineLengthSize (encodedUserDataLength (zlen bs))) as En.
  { unfold n, abort_contentLength. rewrite u32_small by lia. lia. }
  assert (zlen (ber_tl 0xa0 n ++ ud) <= 19) as Hz.
  { unfold ud, user_data_bytes. rewrite !zlen_app, !zlen_ber_tl.
    change (zlen [2; 1; u8 (acseContextId self)]) with 3.
    repeat match goal with |- context [BerEncoder_determineLengthSize ?x] =>
      pose proof (determineLengthSize_range x); generalize dependent (BerEncoder_determineLengthSize x) end.
    intros. lia. }
  destruct (with_header_spec w payload (abort_header self) (ber_tl 0xa0 n ++ ud) m a bs Hc Hw Ha)
    as (c' & Hcr & Hc'); [done|unfold abort_header, ud; fold n; emits_tac|lia|].
  exists c', (splice m a (ber_tl 0xa0 n ++ ud)), (ud ++ bs), n. split; [exact Hcr|].
  rewrite (carries_bytes _ _ _ _ Hc'), <- app_assoc. split; [done|].
  rewrite zlen_app, E3. done.
Qed.

Lemma IsoPresentation_abort_length_witness :
  exists c' m' rest n,
    IsoPresentation_createAbortUserMessage IsoPresentation_calloc (mkPart 0 0 40 (InBlock 0))
      (payload [1; 2; 3]) (replicate 40 0) = Done (c', m') /\
    chain_bytes m' c' = ber_tl 0xa0 n ++ rest /\
    n = zlen rest + 1 + BerEncoder_determineLengthSize (zlen rest).
Proof.
  apply (IsoPresentation_abort_length IsoPresentation_calloc (mkPart 0 0 40 (InBlock 0))
    (payload [1; 2; 3]) (replicate 40 0) 0 [1; 2; 3] (carries_payload _ _ [1; 2; 3] ltac:(discriminate)) eq_refl ltac:(lia)
    ltac:(split; by_eval) ltac:(by_eval)).
Defined.

