(* ===== verification/Acse.v ===== *)
(** The association control service: src/mms/iso_acse/acse.c. *)
From stdpp Require Import base tactics list numbers option.
From S2P Require Import Prelude Memory Buffers BerDecode BerEncode IsoParams Session.

(** * State *)

Inductive AcseConnectionState := idle | requestIndicated | connected.

Inductive AcseIndication :=
  ACSE_ERROR | ACSE_ASSOCIATE | ACSE_ASSOCIATE_FAILED | ACSE_OK | ACSE_ABORT
| ACSE_RELEASE_REQUEST | ACSE_RELEASE_RESPONSE.

#[export] Instance AcseIndication_eq_dec : EqDecision AcseIndication.
Proof. solve_decision. Defined.

Definition ACSE_RESULT_ACCEPT : Z := 0.
Definition ACSE_RESULT_REJECT_PERMANENT : Z := 1.

(** The callback of the application: it gets its parameter and the
    authentication parameter, and returns its verdict and the security token
    ([void*], an address). *)
Definition AcseAuthenticator : Type := Z -> AcseAuthenticationParameter -> bool * Z.

Record AcseConnection := mkAcse {
  ac_state : AcseConnectionState;
  nextReference : Z;                  (* long *)
  userDataBuffer : option ptr;
  userDataBufferSize : Z;
  authenticator : option AcseAuthenticator;
  authenticatorParameter : Z;
  securityToken : Z }.

Definition set_nextReference (v : Z) (s : AcseConnection) : AcseConnection :=
  mkAcse (ac_state s) v (userDataBuffer s) (userDataBufferSize s) (authenticator s)
    (authenticatorParameter s) (securityToken s).
Definition set_acse_userData (b : option ptr) (size : Z) (s : AcseConnection) : AcseConnection :=
  mkAcse (ac_state s) (nextReference s) b size (authenticator s)
    (authenticatorParameter s) (securityToken s).
Definition set_securityToken (v : Z) (s : AcseConnection) : AcseConnection :=
  mkAcse (ac_state s) (nextReference s) (userDataBuffer s) (userDataBufferSize s)
    (authenticator s) (authenticatorParameter s) v.

Definition AcseConnection_init (self : AcseConnection) (auth : option AcseAuthenticator)
    (parameter : Z) : AcseConnection :=
  mkAcse idle 0 None 0 auth parameter (securityToken self).

Definition AcseConnection_calloc : AcseConnection := mkAcse idle 0 None 0 None 0 0.

Definition AcseConnection_destroy (connection : AcseConnection) : AcseConnection := connection.

Definition appContextNameMms : list Z := [0x28; 0xca; 0x22; 0x02; 0x03].
Definition auth_mech_password_oid : list Z := [0x52; 0x03; 0x01].
Definition requirements_authentication : Z := 0x80.

(** * Authentication *)

Definition checkAuthMechanismName (authMechanism : option ptr) (authMechLen : Z)
  : res AcseAuthenticationMechanism :=
  match authMechanism with
  | Some authMechanism =>
      if authMechLen =? 3 then
        let! name := rd_list authMechanism 0 3 in
        Done (if bool_decide (auth_mech_password_oid = name)
              then ACSE_AUTH_PASSWORD else ACSE_AUTH_NONE)
      else Done ACSE_AUTH_NONE
  | None => Done ACSE_AUTH_NONE
  end.

Definition authenticateClient (self : AcseConnection) (f : AcseAuthenticator)
    (mechanism : AcseAuthenticationMechanism) (authValue : option ptr) (authValueLen : Z)
  : bool * AcseConnection :=
  let authParameter :=
    if bool_decide (mechanism = ACSE_AUTH_PASSWORD)
    then mkAuthParameter mechanism authValue authValueLen
    else mkAuthParameter mechanism None 0 in
  let '(r, token) := f (authenticatorParameter self) authParameter in
  (r, set_securityToken token self).

Definition checkAuthentication (self : AcseConnection) (authMechanism : option ptr)
    (authMechLen : Z) (authValue : option ptr) (authValueLen : Z)
  : res (bool * AcseConnection) :=
  let self := set_securityToken 0 self in
  match authenticator self with
  | Some f =>
      let! mechanism := checkAuthMechanismName authMechanism authMechLen in
      Done (authenticateClient self f mechanism authValue authValueLen)
  | None => Done (true, self)
  end.

(** * Parsing

    The parsers take the fuel of their loops, as those of the presentation. *)

Definition parseUserInformation_body (buffer : ptr) (maxBufPos : Z)
    (st : AcseConnection * Z * bool * bool)
  : res (ctl (AcseConnection * Z * bool * bool) unit) :=
  let '(self, bufPos, hasindirectReference, isDataValid) := st in
  let! tag := rd buffer bufPos in
  let! (bufPos, len) := BerDecoder_decodeLength buffer None (bufPos + 1) maxBufPos in
  let! len := defined len in
  if tag =? 0x02 then (* indirect-reference *)
    let! v := BerDecoder_decodeUint32 buffer len bufPos in
    Done (Next (set_nextReference v self, i32 (bufPos + len), true, isDataValid))
  else if tag =? 0xa0 then (* encoding *)
    Done (Next (set_acse_userData (Some (ptr_add buffer bufPos)) len self, i32 (bufPos + len),
      hasindirectReference, true))
  else (* ignore unknown tag *)
    Done (Next (self, i32 (bufPos + len), hasindirectReference, isDataValid)).

(** The position, [*userInfoValid] and the connection. *)
Definition parseUserInformation (fuel : nat) (self : AcseConnection) (buffer : ptr)
    (bufPos maxBufPos : Z) : res (Z * bool * AcseConnection) :=
  let! c := while (fun st => let '(_, bufPos, _, _) := st in bufPos <? maxBufPos)
              (parseUserInformation_body buffer maxBufPos) fuel (self, bufPos, false, false) in
  match c with
  | Ret tt => Ub (* the body never leaves the function *)
  | Next (self, bufPos, hasindirectReference, isDataValid) =>
      Done (bufPos, hasindirectReference && isDataValid, self)
  end.

(** The user information element of both PDUs, from its length on. *)
Definition parse_userInformation_element (fuel : nat) (self : AcseConnection) (buffer : ptr)
    (bufPos maxBufPos : Z) (len : option Z) (userInfoValid : bool)
  : res (Z * bool * AcseConnection) :=
  let! b := rd buffer bufPos in
  if negb (b =? 0x28) then
    let! len := defined len in Done (i32 (bufPos + len), userInfoValid, self)
  else
    let! (bufPos, len) := BerDecoder_decodeLength buffer len (bufPos + 1) maxBufPos in
    let! len := defined len in
    parseUserInformation fuel self buffer bufPos (i32 (bufPos + len)).

Definition parseAarePdu_body (fuel : nat) (buffer : ptr) (maxBufPos : Z)
    (st : AcseConnection * Z * bool * Z)
  : res (ctl (AcseConnection * Z * bool * Z) unit) :=
  let '(self, bufPos, userInfoValid, result) := st in
  let! tag := rd buffer bufPos in
  let! (bufPos, len) := BerDecoder_decodeLength buffer None (bufPos + 1) maxBufPos in
  if tag =? 0xa2 then (* result *)
    let bufPos := bufPos + 1 in
    let! (bufPos, len) := BerDecoder_decodeLength buffer len bufPos maxBufPos in
    let! len := defined len in
    let! result := BerDecoder_decodeUint32 buffer len bufPos in
    Done (Next (self, i32 (bufPos + len), userInfoValid, result))
  else if tag =? 0xbe then (* user information *)
    let! (bufPos, userInfoValid, self) :=
      parse_userInformation_element fuel self buffer bufPos maxBufPos len userInfoValid in
    Done (Next (self, bufPos, userInfoValid, result))
  else (* application context name, diagnostics, unknown tags *)
    let! len := defined len in
    Done (Next (self, i32 (bufPos + len), userInfoValid, result)).

Definition parseAarePdu (fuel : nat) (self : AcseConnection) (buffer : ptr)
    (bufPos maxBufPos : Z) : res (AcseIndication * AcseConnection) :=
  let! c := while (fun st => let '(_, bufPos, _, _) := st in bufPos <? maxBufPos)
              (parseAarePdu_body fuel buffer maxBufPos) fuel (self, bufPos, false, 99) in
  match c with
  | Ret tt => Ub (* the body never leaves the function *)
  | Next (self, _, userInfoValid, result) =>
      if negb userInfoValid then Done (ACSE_ERROR, self)
      else if negb (result =? 0) then Done (ACSE_ASSOCIATE_FAILED, self)
      else Done (ACSE_ASSOCIATE, self)
  end.

(** The local variables of [parseAarqPdu]. *)
Record aarq_vars := mkAarq {
  aq_bufPos : Z;
  aq_authValue : option ptr;
  aq_authValueLen : Z;
  aq_authMechanism : option ptr;
  aq_authMechLen : Z;
  aq_userInfoValid : bool }.

Definition aarq_at (v : aarq_vars) (bufPos : Z) : aarq_vars :=
  mkAarq bufPos (aq_authValue v) (aq_authValueLen v) (aq_authMechanism v) (aq_authMechLen v)
    (aq_userInfoValid v).

(** Leaving the loop means ACSE_ASSOCIATE_FAILED. *)
Definition parseAarqPdu_body (fuel : nat) (buffer : ptr) (maxBufPos : Z)
    (st : AcseConnection * aarq_vars)
  : res (ctl (AcseConnection * aarq_vars) AcseConnection) :=
  let '(self, v) := st in
  let! tag := rd buffer (aq_bufPos v) in
  let! (bufPos, len) := BerDecoder_decodeLength buffer None (aq_bufPos v + 1) maxBufPos in
  if bufPos <? 0 then Done (Ret self) else
  let! len := defined len in
  if tag =? 0x8b then (* (authentication) mechanism name *)
    Done (Next (self, mkAarq (i32 (bufPos + len)) (aq_authValue v) (aq_authValueLen v)
      (Some (ptr_add buffer bufPos)) len (aq_userInfoValid v)))
  else if tag =? 0xac then (* authentication value *)
    let bufPos := bufPos + 1 in
    let! (bufPos, len) := BerDecoder_decodeLength buffer (Some len) bufPos maxBufPos in
    let! len := defined len in
    Done (Next (self, mkAarq (i32 (bufPos + len)) (Some (ptr_add buffer bufPos)) len
      (aq_authMechanism v) (aq_authMechLen v) (aq_userInfoValid v)))
  else if tag =? 0xbe then (* user information *)
    let! (bufPos, userInfoValid, self) :=
      parse_userInformation_element fuel self buffer bufPos maxBufPos (Some len) (aq_userInfoValid v) in
    Done (Next (self, mkAarq bufPos (aq_authValue v) (aq_authValueLen v) (aq_authMechanism v)
      (aq_authMechLen v) userInfoValid))
  else (* names, titles, qualifiers, requirements, unknown tags *)
    Done (Next (self, aarq_at v (i32 (bufPos + len)))).

Definition parseAarqPdu (fuel : nat) (self : AcseConnection) (buffer : ptr)
    (bufPos maxBufPos : Z) : res (AcseIndication * AcseConnection) :=
  let! c := while (fun st => aq_bufPos (snd st) <? maxBufPos)
              (parseAarqPdu_body fuel buffer maxBufPos) fuel
              (self, mkAarq bufPos None 0 None 0 false) in
  match c with
  | Ret self => Done (ACSE_ASSOCIATE_FAILED, self)
  | Next (self, v) =>
      let! (ok, self) := checkAuthentication self (aq_authMechanism v) (aq_authMechLen v)
                           (aq_authValue v) (aq_authValueLen v) in
      if negb ok then Done (ACSE_ASSOCIATE_FAILED, self)
      else if negb (aq_userInfoValid v) then Done (ACSE_ASSOCIATE_FAILED, self)
      else Done (ACSE_ASSOCIATE, self)
  end.

Definition AcseConnection_parseMessage (fuel : nat) (self : AcseConnection) (message : ByteBuffer)
  : res (AcseIndication * AcseConnection) :=
  let! buffer := defined (bb_buffer message) in
  let messageSize := bb_size message in
  let! messageType := rd buffer 0 in
  let! (bufPos, _) := BerDecoder_decodeLength buffer None 1 messageSize in
  if bufPos <? 0 then Done (ACSE_ERROR, self) else
  if messageType =? 0x60 then parseAarqPdu fuel self buffer bufPos messageSize
  else if messageType =? 0x61 then parseAarePdu fuel self buffer bufPos messageSize
  else if messageType =? 0x62 then Done (ACSE_RELEASE_REQUEST, self)
  else if messageType =? 0x63 then Done (ACSE_RELEASE_RESPONSE, self)
  else if messageType =? 0x64 then Done (ACSE_ABORT, self)
  else Done (ACSE_ERROR, self).

(** * Creating messages *)

(** [assert(payload != NULL)] *)
Definition assert_payload (payload : BufferChain) : W unit :=
  match payload with
  | [] => fun _ => AssertFailed
  | _ => wret tt
  end.

(** The lengths of the user information: the association data (the payload with
    its tag and the indirect reference), and that with tag and length. *)
Definition assocDataLength (refLength payloadLength : Z) : Z :=
  payloadLength + 1 + BerEncoder_determineLengthSize (u32 payloadLength) + refLength + 2.

Definition userInfoLength (refLength payloadLength : Z) : Z :=
  let n := assocDataLength refLength payloadLength in
  n + BerEncoder_determineLengthSize (u32 n) + 1.

(** ** Association responses *)

Definition response_contentLength (nextRefLength payloadLength : Z) : Z :=
  let n := userInfoLength nextRefLength payloadLength in
  19 + (n + BerEncoder_determineLengthSize (u32 n) + 1 + 2).

Definition response_header (self : AcseConnection) (acseResult nextRefLength payloadLength : Z)
    (buffer : Z) : W Z :=
  let* bufPos := BerEncoder_encodeTL 0x61 (response_contentLength nextRefLength payloadLength)
                   buffer 0 in
  (* application context name *)
  let* bufPos := BerEncoder_encodeTL 0xa1 7 buffer bufPos in
  let* bufPos := BerEncoder_encodeTL 0x06 5 buffer bufPos in
  let* bufPos := put_list appContextNameMms buffer bufPos in
  (* result *)
  let* bufPos := BerEncoder_encodeTL 0xa2 3 buffer bufPos in
  let* bufPos := BerEncoder_encodeTL 0x02 1 buffer bufPos in
  let* bufPos := put acseResult buffer bufPos in
  (* result source diagnostics *)
  let* bufPos := BerEncoder_encodeTL 0xa3 5 buffer bufPos in
  let* bufPos := BerEncoder_encodeTL 0xa1 3 buffer bufPos in
  let* bufPos := BerEncoder_encodeTL 0x02 1 buffer bufPos in
  let* bufPos := put 0 buffer bufPos in
  (* user information *)
  let* bufPos := BerEncoder_encodeTL 0xbe (userInfoLength nextRefLength payloadLength) buffer bufPos in
  (* association data *)
  let* bufPos := BerEncoder_encodeTL 0x28 (assocDataLength nextRefLength payloadLength) buffer bufPos in
  (* indirect-reference *)
  let* bufPos := BerEncoder_encodeTL 0x02 nextRefLength buffer bufPos in
  let* bufPos := BerEncoder_encodeUInt32 (u32 (nextReference self)) buffer bufPos in
  (* single ASN1 type *)
  BerEncoder_encodeTL 0xa0 payloadLength buffer bufPos.

Definition AcseConnection_createAssociateResponseMessage (self : AcseConnection)
    (acseResult : Z) (writeBuffer : bpart) (payload : BufferChain) : W BufferChain :=
  let* _ := assert_payload payload in
  let* payloadLength := wlift (chain_length payload) in
  let* nextRefLength := wlift (BerEncoder_UInt32determineEncodedSize (u32 (nextReference self))) in
  let* buffer := wlift (part_addr writeBuffer) in
  let* bufPos := response_header self acseResult nextRefLength payloadLength buffer in
  wret (part_link writeBuffer (InBlock buffer) bufPos (bufPos + payloadLength) payload).

Definition AcseConnection_createAssociateFailedMessage (self : AcseConnection)
    (writeBuffer : bpart) : W BufferChain :=
  AcseConnection_createAssociateResponseMessage self ACSE_RESULT_REJECT_PERMANENT writeBuffer [].

(** ** Association requests *)

(** The length of an application title with its qualifier, absent when the title
    has no octets. *)
Definition ap_length (apTitleLen qualifierLength : Z) : Z :=
  if 0 <? apTitleLen then (4 + apTitleLen) + (4 + qualifierLength) else 0.

Definition qualifier_length (apTitleLen aeQualifier : Z) : res Z :=
  if 0 <? apTitleLen then BerEncoder_UInt32determineEncodedSize (u32 aeQualifier) else Done 0.

(** What the length computation adds for the authentication; for
    [ACSE_AUTH_NONE] five bytes for a mechanism name and two for a value are
    counted that are not written. *)
Definition auth_length (authParameter : option AcseAuthenticationParameter) : Z :=
  match authParameter with
  | None => 0
  | Some p =>
      4 + 5 +
      (if bool_decide (ap_mechanism p = ACSE_AUTH_PASSWORD) then
         let passwordLength := ap_passwordLength p in
         let authValueStringLength := BerEncoder_determineLengthSize (u32 passwordLength) in
         2 + (passwordLength + authValueStringLength) +
         BerEncoder_determineLengthSize (u32 (passwordLength + authValueStringLength + 1))
       else 2)
  end.

Definition request_contentLength (isoParameters : IsoConnectionParameters)
    (calledAEQualifierLength callingAEQualifierLength payloadLength : Z)
    (authParameter : option AcseAuthenticationParameter) : Z :=
  let n := userInfoLength 1 payloadLength in
  9 + ap_length (ip_remoteApTitleLen isoParameters) calledAEQualifierLength +
  ap_length (ip_localApTitleLen isoParameters) callingAEQualifierLength +
  auth_length authParameter +
  (n + BerEncoder_determineLengthSize (u32 n) + 1).

(** An application title and its qualifier. *)
Definition encode_ap (titleTag qualifierTag : Z) (apTitle : list Z)
    (apTitleLen aeQualifier qualifierLength : Z) (buffer bufPos : Z) : W Z :=
  if 0 <? apTitleLen then
    let* bufPos := BerEncoder_encodeTL titleTag (apTitleLen + 2) buffer bufPos in
    let* bufPos := BerEncoder_encodeTL 0x06 apTitleLen buffer bufPos in
    let* bufPos := put_from (mk_ptr apTitle 0) apTitleLen buffer bufPos in
    let* bufPos := BerEncoder_encodeTL qualifierTag (qualifierLength + 2) buffer bufPos in
    let* bufPos := BerEncoder_encodeTL 0x02 qualifierLength buffer bufPos in
    BerEncoder_encodeUInt32 (u32 aeQualifier) buffer bufPos
  else wret bufPos.

Definition encode_auth (authParameter : option AcseAuthenticationParameter)
    (buffer bufPos : Z) : W Z :=
  match authParameter with
  | None => wret bufPos
  | Some p =>
      (* sender requirements *)
      let* bufPos := BerEncoder_encodeTL 0x8a 2 buffer bufPos in
      let* bufPos := put 0x04 buffer bufPos in
      if bool_decide (ap_mechanism p = ACSE_AUTH_PASSWORD) then
        let passwordLength := ap_passwordLength p in
        let authValueStringLength := BerEncoder_determineLengthSize (u32 passwordLength) in
        let* bufPos := put requirements_authentication buffer bufPos in
        let* bufPos := BerEncoder_encodeTL 0x8b 3 buffer bufPos in
        let* bufPos := put_list auth_mech_password_oid buffer bufPos in
        (* authentication value *)
        let* bufPos := BerEncoder_encodeTL 0xac (authValueStringLength + passwordLength + 1)
                         buffer bufPos in
        let* bufPos := BerEncoder_encodeTL 0x80 passwordLength buffer bufPos in
        let* octetString := wlift (defined (ap_octetString p)) in
        put_from octetString passwordLength buffer bufPos
      else (* AUTH_NONE *)
        put 0 buffer bufPos
  end.

(** The user information: the indirect reference is the MMS context id 3. *)
Definition encode_userInfo (payloadLength : Z) (buffer bufPos : Z) : W Z :=
  let* bufPos := BerEncoder_encodeTL 0xbe (userInfoLength 1 payloadLength) buffer bufPos in
  (* association data *)
  let* bufPos := BerEncoder_encodeTL 0x28 (assocDataLength 1 payloadLength) buffer bufPos in
  (* indirect-reference *)
  let* bufPos := BerEncoder_encodeTL 0x02 1 buffer bufPos in
  let* bufPos := put 3 buffer bufPos in
  (* single ASN1 type *)
  BerEncoder_encodeTL 0xa0 payloadLength buffer bufPos.

Definition AcseConnection_createAssociateRequestMessage (isoParameters : IsoConnectionParameters)
    (writeBuffer : bpart) (payload : BufferChain)
    (authParameter : option AcseAuthenticationParameter) : W BufferChain :=
  let* _ := assert_payload payload in
  let* payloadLength := wlift (chain_length payload) in
  let* calledAEQualifierLength :=
    wlift (qualifier_length (ip_remoteApTitleLen isoParameters) (ip_remoteAEQualifier isoParameters)) in
  let* callingAEQualifierLength :=
    wlift (qualifier_length (ip_localApTitleLen isoParameters) (ip_localAEQualifier isoParameters)) in
  let* buffer := wlift (part_addr writeBuffer) in
  let* bufPos :=
    (let* bufPos := BerEncoder_encodeTL 0x60 (request_contentLength isoParameters
       calledAEQualifierLength callingAEQualifierLength payloadLength authParameter) buffer 0 in
     (* application context name *)
     let* bufPos := BerEncoder_encodeTL 0xa1 7 buffer bufPos in
     let* bufPos := BerEncoder_encodeTL 0x06 5 buffer bufPos in
     let* bufPos := put_list appContextNameMms buffer bufPos in
     (* called AP title and AE qualifier *)
     let* bufPos := encode_ap 0xa2 0xa3 (ip_remoteApTitle isoParameters)
       (ip_remoteApTitleLen isoParameters) (ip_remoteAEQualifier isoParameters)
       calledAEQualifierLength buffer bufPos in
     (* calling AP title and AE qualifier *)
     let* bufPos := encode_ap 0xa6 0xa7 (ip_localApTitle isoParameters)
       (ip_localApTitleLen isoParameters) (ip_localAEQualifier isoParameters)
       callingAEQualifierLength buffer bufPos in
     let* bufPos := encode_auth authParameter buffer bufPos in
     encode_userInfo payloadLength buffer bufPos) in
  wret (part_link writeBuffer (InBlock buffer) bufPos (bufPos + payloadLength) payload).

(** ** Abort and release: messages without payload *)

Definition AcseConnection_createAbortMessage (writeBuffer : bpart) (isProvider : bool)
  : W BufferChain :=
  let* buffer := wlift (part_addr writeBuffer) in
  let* bufPos := put 0x64 buffer 0 in (* [APPLICATION 4] *)
  let* bufPos := put 3 buffer bufPos in
  let* bufPos := put 0x80 buffer bufPos in
  let* bufPos := put 1 buffer bufPos in
  let* bufPos := if isProvider then put 1 buffer bufPos else put 0 buffer bufPos in
  wret (part_link writeBuffer (InBlock buffer) 5 5 []).

Definition AcseConnection_createReleaseRequestMessage (writeBuffer : bpart) : W BufferChain :=
  let* buffer := wlift (part_addr writeBuffer) in
  let* bufPos := put 0x62 buffer 0 in
  let* bufPos := put 3 buffer bufPos in
  let* bufPos := put 0x80 buffer bufPos in
  let* bufPos := put 1 buffer bufPos in
  let* bufPos := put 0 buffer bufPos in
  wret (part_link writeBuffer (InBlock buffer) 5 5 []).

Definition AcseConnection_createReleaseResponseMessage (writeBuffer : bpart) : W BufferChain :=
  let* buffer := wlift (part_addr writeBuffer) in
  let* bufPos := put 0x63 buffer 0 in
  let* bufPos := put 0 buffer bufPos in
  wret (part_link writeBuffer (InBlock buffer) 2 2 []).
