(* ===== verification/AcseFacts.v ===== *)
(** Properties of the association control service: authentication, the round
    trips of requests and responses, and their hazards. *)
From stdpp Require Import base tactics list numbers option.
From S2P Require Import Prelude Memory Buffers BerDecode BerEncode IsoParams Session Layer SessionFacts Presentation PresentationFacts Acse.

(** * Authentication *)

(** What parsing leaves alone. *)
Definition same_authenticator (s s' : AcseConnection) : Prop :=
  authenticator s' = authenticator s /\ authenticatorParameter s' = authenticatorParameter s.

Lemma parseUserInformation_same fuel s buffer bufPos max r v s' :
  parseUserInformation fuel s buffer bufPos max = Done (r, v, s') -> same_authenticator s s'.
Proof.
  unfold parseUserInformation.
  destruct (while _ _ _ _) as [[[[[s1 q] h] d]|[]]| | |] eqn:E; simpl; try done.
  intros [= _ _ <-].
  apply (while_inv _ _ (fun st => let '(x, _, _, _) := st in same_authenticator s x)) in E; [done| |done].
  intros [[[x q1] h1] d1] [[[y q2] h2] d2] Hx. unfold parseUserInformation_body.
  destruct (rd buffer q1) as [tag| | |]; simpl; try done.
  destruct (BerDecoder_decodeLength _ _ _ _) as [[q3 [len|]]| | |]; simpl; try done.
  destruct (tag =? 2).
  - destruct (BerDecoder_decodeUint32 _ _ _); simpl; try done. by intros [= <- _ _ _].
  - destruct (tag =? 0xa0); by intros [= <- _ _ _].
Qed.

Lemma parse_userInformation_element_same fuel s buffer bufPos max len v r v' s' :
  parse_userInformation_element fuel s buffer bufPos max len v = Done (r, v', s') ->
  same_authenticator s s'.
Proof.
  unfold parse_userInformation_element.
  destruct (rd buffer bufPos) as [b| | |]; simpl; try done.
  destruct (negb _); [destruct len; simpl; try done; by intros [= _ _ <-]|].
  destruct (BerDecoder_decodeLength _ _ _ _) as [[q3 [n|]]| | |]; simpl; try done.
  apply parseUserInformation_same.
Qed.

Lemma parseAarqPdu_body_same fuel buffer max s v s' v' :
  parseAarqPdu_body fuel buffer max (s, v) = Done (Next (s', v')) -> same_authenticator s s'.
Proof.
  unfold parseAarqPdu_body.
  destruct (rd buffer _) as [tag| | |]; simpl; try done.
  destruct (BerDecoder_decodeLength _ _ _ _) as [[q len]| | |]; simpl; try done.
  destruct (q <? 0); [done|]. destruct len as [len|]; simpl; try done.
  destruct (tag =? 0x8b); [by intros [= <- _]|].
  destruct (tag =? 0xac).
  { destruct (BerDecoder_decodeLength _ _ _ _) as [[q2 [n|]]| | |]; simpl; try done. by intros [= <- _]. }
  destruct (tag =? 0xbe); [|by intros [= <- _]].
  destruct (parse_userInformation_element _ _ _ _ _ _ _) as [[[q2 u] s2]| | |] eqn:E; simpl; try done.
  intros [= <- _]. by eapply parse_userInformation_element_same.
Qed.

(** C38: No association request is accepted without the authenticator's consent:
    whatever the message, when parsing an AARQ reports an association, either no
    authenticator is installed, or it was called with the application's
    parameter, said yes, and the security token is the one it returned. *)
Theorem AcseConnection_authenticated fuel s b p s' :
  bb_buffer b = Some p -> rd p 0 = Done 0x60 ->
  AcseConnection_parseMessage fuel s b = Done (ACSE_ASSOCIATE, s') ->
  match authenticator s with
  | None => securityToken s' = 0
  | Some f => exists param, f (authenticatorParameter s) param = (true, securityToken s')
  end.
Proof.
  intros Hp H0. unfold AcseConnection_parseMessage. rewrite Hp. cbn [defined rbind]. rewrite H0.
  cbn [rbind]. destruct (BerDecoder_decodeLength _ _ _ _) as [[q len]| | |]; simpl; try done.
  destruct (q <? 0); [done|]. unfold parseAarqPdu.
  destruct (while _ _ _ _) as [[[s1 v]|r]| | |] eqn:E; simpl; try done.
  apply (while_inv _ _ (fun st => same_authenticator s (fst st))) in E as [Ha Hap]; [| |done].
  2: { intros [x vx] [y vy] [H1 H2] [H3 H4]%parseAarqPdu_body_same. simpl in *. split; congruence. }
  simpl in Ha, Hap. unfold checkAuthentication. cbn [authenticator set_securityToken]. rewrite Ha.
  destruct (authenticator s) as [f|].
  - destruct (checkAuthMechanismName _ _) as [mech| | |]; simpl; try done.
    unfold authenticateClient. cbn [authenticatorParameter set_securityToken]. rewrite Hap.
    destruct (f (authenticatorParameter s) _) as [ok token] eqn:Ef.
    destruct ok; simpl; [|done]. destruct (aq_userInfoValid v); simpl; [|done].
    intros [= <-]. by eexists.
  - simpl. destruct (aq_userInfoValid v); simpl; [|done]. by intros [= <-].
Qed.

(** An association request without titles and authentication. *)
Definition plain_request : ByteBuffer :=
  message [0x60; 10; 0xbe; 8; 0x28; 6; 2; 1; 3; 0xa0; 1; 7].

Lemma AcseConnection_authenticated_witness :
  let s := AcseConnection_init AcseConnection_calloc (Some (fun _ _ => (true, 42))) 5 in
  exists s', AcseConnection_parseMessage 9 s plain_request = Done (ACSE_ASSOCIATE, s') /\
    exists param : AcseAuthenticationParameter, (fun _ _ => (true, 42)) (5 : Z) param = (true, securityToken s').
Proof.
  intros s. eexists. split; [vm_compute; reflexivity|].
  eapply (AcseConnection_authenticated 9 s plain_request); [reflexivity|reflexivity|].
  vm_compute. reflexivity.
Defined.


(** * User information *)

Definition user_info_bytes (ref : list Z) (n : Z) : list Z :=
  ber_tl 0xbe (userInfoLength (zlen ref) n) ++ ber_tl 0x28 (assocDataLength (zlen ref) n) ++
  ber_tl 0x02 (zlen ref) ++ ref ++ ber_tl 0xa0 n.

(** User data that an ACSE message can carry. *)
Definition acse_room (n : Z) : Prop := 0 <= n < 64000.

Lemma acse_lengths (ref : list Z) n :
  acse_room n -> 1 <= zlen ref <= 5 ->
  assocDataLength (zlen ref) n = n + 1 + BerEncoder_determineLengthSize n + zlen ref + 2 /\
  userInfoLength (zlen ref) n = assocDataLength (zlen ref) n + 1 +
    BerEncoder_determineLengthSize (assocDataLength (zlen ref) n) /\
  0 <= assocDataLength (zlen ref) n < 64100 /\ 0 <= userInfoLength (zlen ref) n < 64200.
Proof.
  intros Hn Hr. unfold acse_room in Hn. pose proof (determineLengthSize_range n).
  assert (assocDataLength (zlen ref) n = n + 1 + BerEncoder_determineLengthSize n + zlen ref + 2) as E.
  { unfold assocDataLength. rewrite u32_small by lia. lia. }
  pose proof (determineLengthSize_range (assocDataLength (zlen ref) n)).
  assert (userInfoLength (zlen ref) n = assocDataLength (zlen ref) n + 1 +
    BerEncoder_determineLengthSize (assocDataLength (zlen ref) n)) as E2.
  { unfold userInfoLength. rewrite u32_small by lia. lia. }
  lia.
Qed.

Lemma zlen_user_info_bytes ref n :
  acse_room n -> 1 <= zlen ref <= 5 ->
  zlen (user_info_bytes ref n) + n
  = 1 + BerEncoder_determineLengthSize (userInfoLength (zlen ref) n) + userInfoLength (zlen ref) n.
Proof.
  intros Hn Hr. destruct (acse_lengths ref n Hn Hr) as (E1 & E2 & H1 & H2). unfold acse_room in Hn.
  unfold user_info_bytes. rewrite !zlen_app, !zlen_ber_tl, !u32_small by lia.
  assert (BerEncoder_determineLengthSize (zlen ref) = 1) as ->
    by (unfold BerEncoder_determineLengthSize; by zdec). lia.
Qed.

(** The connection after the user information has been read. *)
Definition got_user_info (s : AcseConnection) (ref : list Z) (buffer : ptr) (q n : Z) : AcseConnection :=
  set_acse_userData (Some (ptr_add buffer q)) n (set_nextReference (u32 (be_val ref)) s).

Lemma parse_user_info f s buffer pos max ref bs v :
  acse_room (zlen bs) -> 1 <= zlen ref <= 5 -> 0 <= pos < 2 ^ 20 ->
  max = pos + userInfoLength (zlen ref) (zlen bs) ->
  holds buffer pos (ber_tl 0x28 (assocDataLength (zlen ref) (zlen bs)) ++ ber_tl 0x02 (zlen ref) ++
    ref ++ ber_tl 0xa0 (zlen bs) ++ bs) ->
  exists q, parse_userInformation_element (S (S f)) s buffer pos max
      (Some (userInfoLength (zlen ref) (zlen bs))) v
    = Done (max, true, got_user_info s ref buffer q (zlen bs)) /\ holds buffer q bs.
Proof.
  intros Hn Hr Hpos Hmax Hh. destruct (acse_lengths ref (zlen bs) Hn Hr) as (E1 & E2 & H1 & H2).
  unfold acse_room in Hn. change (2 ^ 20) with 1048576 in *.
  pose proof (determineLengthSize_range (zlen bs)).
  pose proof (determineLengthSize_range (assocDataLength (zlen ref) (zlen bs))).
  assert (BerEncoder_determineLengthSize (zlen ref) = 1) as Er
    by (unfold BerEncoder_determineLengthSize; by zdec).
  move Hh at bottom.
  apply (read_tl buffer _ _ _ (Some (userInfoLength (zlen ref) (zlen bs))) max) in Hh
    as (R1 & D1 & Hh); [|lia|lia|lia].
  remember (pos + 1 + BerEncoder_determineLengthSize (assocDataLength (zlen ref) (zlen bs))) as q eqn:Hq.
  move Hh at bottom.
  apply (read_tl buffer _ _ _ None max) in Hh as (R2 & D2 & Hh); [|lia|lia|lia]. rewrite Er in D2, Hh.
  apply holds_app in Hh as [Href Hh].
  apply (read_tl buffer _ _ _ None max) in Hh as (R3 & D3 & Hh); [|lia|lia|lia].
  eexists. split; [|exact Hh].
  unfold parse_userInformation_element. use_reads. rewrite D1. cbn [rbind defined].
  unfold parseUserInformation. rewrite i32_small by lia.
  replace (q + assocDataLength (zlen ref) (zlen bs)) with max by lia.
  erewrite while_next; [|zdec; reflexivity|].
  2: { unfold parseUserInformation_body. use_reads. rewrite D2. cbn [rbind defined].
       rewrite (decodeUint32_holds ref) by done. cbn [rbind]. reflexivity. }
  rewrite i32_small by lia.
  erewrite while_next; [|zdec; reflexivity|].
  2: { unfold parseUserInformation_body. use_reads. rewrite D3. cbn [rbind defined]. reflexivity. }
  rewrite i32_small by lia. rewrite while_false by (zdec; done). cbn [rbind andb].
  unfold got_user_info. do 3 f_equal. lia.
Qed.

(** * Responses *)

Definition response_bytes (result : Z) (ref : list Z) (n : Z) : list Z :=
  ber_tl 0x61 (response_contentLength (zlen ref) n) ++
  [0xa1; 7; 0x06; 5] ++ appContextNameMms ++ [0xa2; 3; 0x02; 1; u8 result] ++
  [0xa3; 5; 0xa1; 3; 0x02; 1; 0] ++ user_info_bytes ref n.

Lemma zlen_appContextNameMms : zlen appContextNameMms = 5.
Proof. reflexivity. Qed.
Lemma zlen_auth_mech_password_oid : zlen auth_mech_password_oid = 3.
Proof. reflexivity. Qed.
#[local] Hint Rewrite zlen_appContextNameMms zlen_auth_mech_password_oid : zlen.

Lemma emits_response s result n buffer :
  let ref := uint32_bytes (u32 (nextReference s)) in
  Emits buffer 0 (response_header s result (zlen ref) n buffer)
    (zlen (response_bytes result ref n)) (response_bytes result ref n).
Proof.
  intros ref. assert (forall t k, 0 <= t < 256 -> 0 <= k < 128 -> ber_tl t k = [t; k]) as Hs
    by (intros; by apply ber_tl_small).
  unfold response_header, response_bytes, user_info_bytes. fold ref.
  emits_tac. rewrite (Hs 0xa1 7), (Hs 6 5), (Hs 0xa2 3), (Hs 2 1), (Hs 0xa3 5), (Hs 0xa1 3) by lia. fold ref. zl.
Qed.

Lemma createAssociateResponse_spec s result w payload m a bs :
  carries m a payload bs -> bp_buffer w = InBlock a -> 0 <= a ->
  let hdr := response_bytes result (uint32_bytes (u32 (nextReference s))) (zlen bs) in
  a + zlen hdr <= zlen m ->
  exists c', AcseConnection_createAssociateResponseMessage s result w payload m
    = Done (c', splice m a hdr) /\ carries (splice m a hdr) (a + zlen hdr) c' (hdr ++ bs).
Proof.
  intros Hc Hw Ha hdr Hl.
  exists (part_link w (InBlock a) (zlen hdr) (zlen hdr + zlen bs) payload).
  split; [|by apply carries_link].
  unfold AcseConnection_createAssociateResponseMessage.
  destruct payload as [|part rest] eqn:Ep; [by destruct Hc|]. rewrite <- Ep in *.
  replace (assert_payload payload) with (wret tt) by (by rewrite Ep).
  rewrite (wbind_assoc_res _ _ _ tt m) by done.
  rewrite (wbind_wlift _ _ _ _ (carries_length _ _ _ _ Hc)).
  rewrite (wbind_wlift _ _ _ _ (UInt32determineEncodedSize_spec _)).
  rewrite (wbind_wlift _ a) by (unfold part_addr; by rewrite Hw).
  by erewrite wbind_assoc_res by (apply (emits_fit0 _ _ _ _ _ (emits_response s result (zlen bs) a)); done).
Qed.

(** Reading a response, element by element. *)
Section ParseResponse.
Context (fuel : nat) (s : AcseConnection) (buffer : ptr) (max : Z).
Hypothesis Hmax : max < 2 ^ 20.

Lemma aare_skip pos tag content rest v r :
  0 <= pos -> pos + 2 + zlen content <= max -> zlen content < 128 ->
  tag <> 0xa2 -> tag <> 0xbe -> pos + 1 < max ->
  holds buffer pos (tag :: zlen content :: content ++ rest) ->
  parseAarePdu_body fuel buffer max (s, pos, v, r)
  = Done (Next (s, pos + 2 + zlen content, v, r)) /\ holds buffer (pos + 2 + zlen content) rest.
Proof.
  intros Hp Hl Hc H1 H2 Hm Hh. change (2 ^ 20) with 1048576 in *. pose proof (zlen_nonneg content).
  apply (read_short _ _ _ _ None max) in Hh as (R1 & D1 & Hh); [|lia|lia].
  apply holds_app in Hh as [_ Hh]. split; [|done].
  unfold parseAarePdu_body. use_reads. rewrite D1. cbn [rbind defined].
  rewrite (proj2 (Z.eqb_neq tag 0xa2)), (proj2 (Z.eqb_neq tag 0xbe)) by done.
  by rewrite i32_small by lia.
Qed.

Lemma aare_result pos result rest v r :
  0 <= pos -> pos + 5 <= max -> is_byte result ->
  holds buffer pos (0xa2 :: 3 :: 0x02 :: 1 :: result :: rest) ->
  parseAarePdu_body fuel buffer max (s, pos, v, r) = Done (Next (s, pos + 5, v, result)) /\
  holds buffer (pos + 5) rest.
Proof.
  intros Hp Hl Hb Hh. change (2 ^ 20) with 1048576 in *.
  apply (read_short _ _ _ _ None max) in Hh as (R1 & D1 & Hh); [|lia|lia].
  apply (read_short _ _ _ _ (Some 3) max) in Hh as (R2 & D2 & Hh); [|lia|lia].
  apply (holds_app _ _ [result]) in Hh as [Hres Hh]. change (zlen [result]) with 1 in Hh.
  replace (pos + 2 + 2 + 1) with (pos + 5) in Hh by lia. split; [|done].
  unfold parseAarePdu_body. use_reads. rewrite D1. cbn [rbind defined Z.eqb Pos.eqb].
  rewrite D2. cbn [rbind defined]. rewrite (decodeUint32_holds [result]) by done. cbn [rbind].
  unfold is_byte in Hb. rewrite i32_small by lia.
  assert (u32 (be_val [result]) = result) as -> by (unfold be_val; simpl; apply u32_small; lia).
  apply (f_equal (fun n => Done (Next (s, n, v, result)))). lia.
Qed.
End ParseResponse.

Lemma parseMessage_response f s b result ref bs :
  acse_room (zlen bs) -> 1 <= zlen ref <= 5 -> is_byte result ->
  message_is b (response_bytes result ref (zlen bs) ++ bs) ->
  exists q p, bb_buffer b = Some p /\
    AcseConnection_parseMessage (S (S (S (S f)))) s b
    = Done (if result =? 0 then ACSE_ASSOCIATE else ACSE_ASSOCIATE_FAILED,
        got_user_info s ref p q (zlen bs)) /\ holds p q bs.
Proof.
  intros Hn Hr Hb (p & Hp & Hsz & Hall & _)%message_is_split.
  destruct (acse_lengths ref (zlen bs) Hn Hr) as (E1 & E2 & H1 & H2).
  pose proof (zlen_user_info_bytes ref (zlen bs) Hn Hr) as Eu.
  pose proof (determineLengthSize_range (userInfoLength (zlen ref) (zlen bs))).
  remember (bb_size b) as size eqn:Hbs. pose proof Hn as Hn'. unfold acse_room in Hn'.
  set (content := response_contentLength (zlen ref) (zlen bs)) in *.
  assert (content = 21 + userInfoLength (zlen ref) (zlen bs) + 1 +
    BerEncoder_determineLengthSize (userInfoLength (zlen ref) (zlen bs))) as Hcont.
  { unfold content, response_contentLength. rewrite u32_small by lia. lia. }
  pose proof (determineLengthSize_range content).
  unfold response_bytes in Hall, Hsz. fold content in Hall, Hsz.
  rewrite !zlen_app, zlen_ber_tl, u32_small, zlen_appContextNameMms in Hsz by lia.
  change (zlen [161; 7; 6; 5]) with 4 in Hsz. change (zlen [162; 3; 2; 1; u8 result]) with 5 in Hsz.
  change (zlen [163; 5; 161; 3; 2; 1; 0]) with 7 in Hsz.
  rewrite <- !app_assoc in Hall. clearbody content. move Hall at bottom.
  apply (read_tl p _ _ _ None size) in Hall as (R1 & D1 & Hall); [|lia|lia|lia].
  remember (0 + 1 + BerEncoder_determineLengthSize content) as q0 eqn:Hq0. move Hall at bottom.
  assert (size < 2 ^ 20) as Hmax by (change (2 ^ 20) with 1048576; lia).
  set (F := S (S (S (S f)))).
  apply (aare_skip F s p size Hmax q0 0xa1 ([6; 5] ++ appContextNameMms) _ false 99) in Hall as [B1 Hall];
    rewrite ?zlen_app, ?zlen_appContextNameMms in *; change (zlen [6; 5]) with 2 in *; try done; try lia.
  apply (aare_result F s p size Hmax) with (v := false) (r := 99) in Hall as [B2 Hall];
    [|lia|lia|apply u8_byte]. unfold is_byte in Hb. rewrite (u8_small result) in B2 by lia.
  apply (aare_skip F s p size Hmax _ 0xa3 [0xa1; 3; 2; 1; 0] _ false result) in Hall as [B3 Hall];
    change (zlen [161; 3; 2; 1; 0]) with 5 in *; try done; try lia.
  unfold user_info_bytes in Hall. rewrite <- !app_assoc in Hall.
  remember (q0 + 2 + (2 + 5) + 5 + 2 + 5) as q1 eqn:Hq1. move Hall at bottom.
  apply (read_tl p _ _ _ None size) in Hall as (R4 & D4 & Hall); [|lia|lia|lia].
  destruct (parse_user_info (S (S f)) s p
    (q1 + 1 + BerEncoder_determineLengthSize (userInfoLength (zlen ref) (zlen bs)))
    size ref bs false Hn Hr) as (q & Hui & Hq); [change (2 ^ 20) with 1048576; lia|lia|exact Hall|].
  exists q, p. split; [done|]. split; [|exact Hq].
  unfold AcseConnection_parseMessage. rewrite Hp, <- Hbs. cbn [defined rbind]. use_reads.
  change (0 + 1) with 1 in D1. rewrite D1. cbn [rbind]. rewrite (proj2 (Z.ltb_ge _ 0)) by lia.
  unfold parseAarePdu. fold F.
  assert (forall g, while (fun st : AcseConnection * Z * bool * Z =>
      let '(_, bufPos, _, _) := st in bufPos <? size) (parseAarePdu_body F p size) (S g)
      (s, q1, false, result)
    = Done (Next (got_user_info s ref p q (zlen bs), size, true, result))) as Hlast.
  { intros g. erewrite while_next; [|zdec; reflexivity|].
    2: { unfold parseAarePdu_body. use_reads. rewrite D4. cbn [rbind]. unfold F. rewrite Hui.
         cbn [rbind]. reflexivity. }
    by rewrite while_false by (zdec; done). }
  unfold F at 2. erewrite while_next; [|zdec; reflexivity|exact B1].
  erewrite while_next; [|zdec; reflexivity|exact B2].
  erewrite while_next; [|zdec; reflexivity|exact B3].
  rewrite Hlast. cbn [rbind negb]. by destruct (result =? 0).
Qed.

(** * Requests *)

Definition ap_bytes (titleTag qualifierTag : Z) (title : list Z) (titleLen qualifier : Z) : list Z :=
  if 0 <? titleLen then
    [titleTag; titleLen + 2; 0x06; titleLen] ++ take (Z.to_nat titleLen) title ++
    [qualifierTag; zlen (uint32_bytes (u32 qualifier)) + 2; 0x02; zlen (uint32_bytes (u32 qualifier))]
    ++ uint32_bytes (u32 qualifier)
  else [].

(** The password an authentication parameter stands for. *)
Definition auth_ok (auth : option AcseAuthenticationParameter) (password : list Z) : Prop :=
  match auth with
  | Some p => ap_mechanism p = ACSE_AUTH_PASSWORD ->
      bytes password /\ zlen password < 4000 /\ ap_passwordLength p = zlen password /\
      exists q, ap_octetString p = Some q /\ holds q 0 password
  | None => True
  end.

Definition with_password (auth : option AcseAuthenticationParameter) : bool :=
  match auth with
  | Some p => bool_decide (ap_mechanism p = ACSE_AUTH_PASSWORD)
  | None => false
  end.

Definition auth_bytes (auth : option AcseAuthenticationParameter) (password : list Z) : list Z :=
  match auth with
  | None => []
  | Some p =>
      if bool_decide (ap_mechanism p = ACSE_AUTH_PASSWORD) then
        [0x8a; 2; 0x04; 0x80; 0x8b; 3] ++ auth_mech_password_oid ++
        ber_tl 0xac (BerEncoder_determineLengthSize (u32 (zlen password)) + zlen password + 1) ++
        ber_tl 0x80 (zlen password) ++ password
      else [0x8a; 2; 0x04; 0]
  end.

Lemma uint32_short q : 1 <= zlen (uint32_bytes (u32 q)) <= 5.
Proof. apply zlen_uint32_bytes. Qed.

Lemma emits_ap titleTag qualifierTag title titleLen qualifier buffer pos :
  0 <= titleTag < 256 -> 0 <= qualifierTag < 256 ->
  length title = 10%nat -> bytes title -> 0 <= titleLen <= 10 ->
  Emits buffer pos
    (encode_ap titleTag qualifierTag title titleLen qualifier
       (if 0 <? titleLen then zlen (uint32_bytes (u32 qualifier)) else 0) buffer pos)
    (pos + zlen (ap_bytes titleTag qualifierTag title titleLen qualifier))
    (ap_bytes titleTag qualifierTag title titleLen qualifier).
Proof.
  intros Ht Hq Hlen Hb Hl. unfold encode_ap, ap_bytes. pose proof (uint32_short qualifier).
  destruct (Z.ltb_spec 0 titleLen); [|eapply emits_eq; [apply emits_ret|zl|done]].
  set (ref := uint32_bytes (u32 qualifier)) in *.
  assert (zlen (take (Z.to_nat titleLen) title) = titleLen) as Hz
    by (unfold zlen; rewrite length_take; lia).
  assert (Emits buffer (pos + 2 + 2) (put_from (mk_ptr title 0) titleLen buffer (pos + 2 + 2))
    (pos + 2 + 2 + zlen (take (Z.to_nat titleLen) title)) (take (Z.to_nat titleLen) title)) as Hcopy.
  { apply emits_put_from; [|done|by apply Forall_take].
    unfold holds. simpl. rewrite Hz. unfold slice. rewrite drop_0. unfold zlen. split; [lia|].
    split; [lia|done]. }
  assert (forall t n b p, 0 <= t < 256 -> 0 <= n < 128 ->
    Emits b p (BerEncoder_encodeTL t n b p) (p + 2) [t; n]) as Htl.
  { intros t n b p H1 H2. rewrite <- (ber_tl_small t n) by done.
    eapply emits_eq; [apply emits_encodeTL|by rewrite ber_tl_small by done|done]. }
  eapply emits_eq.
  - eapply emits_bind; [apply Htl; lia| |reflexivity].
    eapply emits_bind; [apply Htl; lia| |reflexivity].
    eapply emits_bind; [exact Hcopy| |reflexivity].
    eapply emits_bind; [apply Htl; lia| |reflexivity].
    eapply emits_bind; [apply Htl; lia|apply emits_encodeUInt32|reflexivity].
  - fold ref. zl.
  - fold ref. by rewrite <- ?app_assoc.
Qed.

Lemma emits_auth auth password buffer pos :
  auth_ok auth password ->
  Emits buffer pos (encode_auth auth buffer pos)
    (pos + zlen (auth_bytes auth password)) (auth_bytes auth password).
Proof.
  intros Ha. unfold encode_auth, auth_bytes. destruct auth as [p|].
  2: { eapply emits_eq; [apply emits_ret|rewrite zlen_nil; lia|done]. }
  case_bool_decide as Hm.
  - destruct (Ha Hm) as (Hb & Hlt & Hpl & q & Hq & Hh). rewrite Hpl, Hq.
    assert (forall P, Emits buffer P (put_from q (zlen password) buffer P) (P + zlen password) password)
      as Hcopy by (intros; by apply emits_put_from).
    assert (forall P, Emits buffer P (let* o := wlift (defined (Some q)) in
      put_from o (zlen password) buffer P) (P + zlen password) password) as Hcopy2
      by (intros P m Hm'; apply Hcopy; done).
    eapply emits_eq.
    + eapply emits_bind; [emits_run| |reflexivity]. eapply emits_bind; [emits_run| |reflexivity].
      eapply emits_bind; [emits_run| |reflexivity]. eapply emits_bind; [emits_run| |reflexivity].
      eapply emits_bind; [emits_run| |reflexivity]. eapply emits_bind; [emits_run| |reflexivity].
      eapply emits_bind; [emits_run|apply Hcopy2|reflexivity].
    + rewrite (ber_tl_small 0x8a 2), (ber_tl_small 0x8b 3) by lia.
      zl.
    + rewrite (ber_tl_small 0x8a 2), (ber_tl_small 0x8b 3) by lia. by rewrite <- ?app_assoc.
  - emits_tac. rewrite (ber_tl_small 0x8a 2) by lia. zl.
Qed.

(** The elements in front of the user information. *)
Definition request_elements (params : IsoConnectionParameters)
    (auth : option AcseAuthenticationParameter) (password : list Z) : list Z :=
  [0xa1; 7; 0x06; 5] ++ appContextNameMms ++
  ap_bytes 0xa2 0xa3 (ip_remoteApTitle params) (ip_remoteApTitleLen params)
    (ip_remoteAEQualifier params) ++
  ap_bytes 0xa6 0xa7 (ip_localApTitle params) (ip_localApTitleLen params)
    (ip_localAEQualifier params) ++
  auth_bytes auth password.

Definition request_bytes (params : IsoConnectionParameters)
    (auth : option AcseAuthenticationParameter) (password : list Z) (content n : Z) : list Z :=
  ber_tl 0x60 content ++ request_elements params auth password ++ user_info_bytes [3] n.

(** The content length the code computes. *)
Definition request_content (params : IsoConnectionParameters)
    (auth : option AcseAuthenticationParameter) (n : Z) : Z :=
  request_contentLength params
    (if 0 <? ip_remoteApTitleLen params
     then zlen (uint32_bytes (u32 (ip_remoteAEQualifier params))) else 0)
    (if 0 <? ip_localApTitleLen params
     then zlen (uint32_bytes (u32 (ip_localAEQualifier params))) else 0) n auth.

Lemma zlen_ap_bytes tt qt title titleLen q :
  length title = 10%nat -> 0 <= titleLen <= 10 ->
  zlen (ap_bytes tt qt title titleLen q)
  = ap_length titleLen (if 0 <? titleLen then zlen (uint32_bytes (u32 q)) else 0).
Proof.
  intros Hl Ht. unfold ap_bytes, ap_length. destruct (Z.ltb_spec 0 titleLen); [|done].
  rewrite !zlen_app. change (zlen [tt; titleLen + 2; 6; titleLen]) with 4.
  assert (zlen (take (Z.to_nat titleLen) title) = titleLen) as ->
    by (unfold zlen; rewrite length_take; lia).
  change (zlen [qt; _; 2; _]) with 4. lia.
Qed.

(** Seven bytes are counted for [ACSE_AUTH_NONE] that are not written. *)
Lemma zlen_auth_bytes auth password :
  auth_ok auth password ->
  auth_length auth = zlen (auth_bytes auth password) +
    match auth with
    | Some p => if bool_decide (ap_mechanism p = ACSE_AUTH_PASSWORD) then 0 else 7
    | None => 0
    end.
Proof.
  intros Ha. unfold auth_length, auth_bytes. destruct auth as [p|]; [|done].
  case_bool_decide as Hm; [|done]. destruct (Ha Hm) as (Hb & Hlt & -> & _).
  rewrite !zlen_app, !zlen_ber_tl. change (zlen [138; 2; 4; 128; 139; 3]) with 6.
  rewrite zlen_auth_mech_password_oid. set (d := BerEncoder_determineLengthSize (u32 (zlen password))).
  rewrite (Z.add_comm d (zlen password)). lia.
Qed.

Lemma emits_request params auth password n buffer :
  iso_params_wf params -> auth_ok auth password ->
  Emits buffer 0
    (let* bufPos := BerEncoder_encodeTL 0x60 (request_content params auth n) buffer 0 in
     let* bufPos := BerEncoder_encodeTL 0xa1 7 buffer bufPos in
     let* bufPos := BerEncoder_encodeTL 0x06 5 buffer bufPos in
     let* bufPos := put_list appContextNameMms buffer bufPos in
     let* bufPos := encode_ap 0xa2 0xa3 (ip_remoteApTitle params) (ip_remoteApTitleLen params)
       (ip_remoteAEQualifier params) (if 0 <? ip_remoteApTitleLen params
       then zlen (uint32_bytes (u32 (ip_remoteAEQualifier params))) else 0) buffer bufPos in
     let* bufPos := encode_ap 0xa6 0xa7 (ip_localApTitle params) (ip_localApTitleLen params)
       (ip_localAEQualifier params) (if 0 <? ip_localApTitleLen params
       then zlen (uint32_bytes (u32 (ip_localAEQualifier params))) else 0) buffer bufPos in
     let* bufPos := encode_auth auth buffer bufPos in
     encode_userInfo n buffer bufPos)
    (zlen (request_bytes params auth password (request_content params auth n) n))
    (request_bytes params auth password (request_content params auth n) n).
Proof.
  intros (H1 & H2 & H3 & H4 & H5 & H6 & _) Ha.
  assert (Hui : forall P, Emits buffer P (encode_userInfo n buffer P)
    (P + zlen (user_info_bytes [3] n)) (user_info_bytes [3] n)).
  { intros P. unfold encode_userInfo, user_info_bytes. change (zlen [3]) with 1.
    emits_tac. }
  eapply emits_eq.
  - eapply emits_bind; [emits_run| |reflexivity]. eapply emits_bind; [emits_run| |reflexivity].
    eapply emits_bind; [emits_run| |reflexivity]. eapply emits_bind; [emits_run| |reflexivity].
    eapply emits_bind; [apply emits_ap; done || lia| |reflexivity].
    eapply emits_bind; [apply emits_ap; done || lia| |reflexivity].
    eapply emits_bind; [by apply emits_auth|apply Hui|reflexivity].
  - unfold request_bytes, request_elements. rewrite (ber_tl_small 0xa1 7), (ber_tl_small 6 5) by lia. zl.
  - unfold request_bytes, request_elements. rewrite (ber_tl_small 0xa1 7), (ber_tl_small 6 5) by lia.
    by rewrite <- ?app_assoc.
Qed.

Lemma createAssociateRequest_spec params w payload auth password m a bs :
  carries m a payload bs -> bp_buffer w = InBlock a -> 0 <= a ->
  iso_params_wf params -> auth_ok auth password ->
  let hdr := request_bytes params auth password (request_content params auth (zlen bs)) (zlen bs) in
  a + zlen hdr <= zlen m ->
  exists c', AcseConnection_createAssociateRequestMessage params w payload auth m
    = Done (c', splice m a hdr) /\ carries (splice m a hdr) (a + zlen hdr) c' (hdr ++ bs).
Proof.
  intros Hc Hw Ha Hp Hau hdr Hl.
  exists (part_link w (InBlock a) (zlen hdr) (zlen hdr + zlen bs) payload).
  split; [|by apply carries_link].
  unfold AcseConnection_createAssociateRequestMessage.
  destruct payload as [|part rest] eqn:Ep; [by destruct Hc|]. rewrite <- Ep in *.
  replace (assert_payload payload) with (wret tt) by (by rewrite Ep).
  rewrite (wbind_assoc_res _ _ _ tt m) by done.
  rewrite (wbind_wlift _ _ _ _ (carries_length _ _ _ _ Hc)).
  assert (forall len q, qualifier_length len q
    = Done (if 0 <? len then zlen (uint32_bytes (u32 q)) else 0)) as Hq.
  { intros len q. unfold qualifier_length. destruct (0 <? len); [|done].
    by rewrite UInt32determineEncodedSize_spec. }
  rewrite (wbind_wlift _ _ _ _ (Hq _ _)). rewrite (wbind_wlift _ _ _ _ (Hq _ _)).
  rewrite (wbind_wlift _ a) by (unfold part_addr; by rewrite Hw).
  by erewrite wbind_assoc_res by (apply (emits_fit0 _ _ _ _ _
    (emits_request params auth password (zlen bs) a Hp Hau)); done).
Qed.

(** Reading a request, element by element. *)
Section ParseRequest.
Context (fuel : nat) (s : AcseConnection) (buffer : ptr) (max : Z).
Hypothesis Hmax : max < 2 ^ 20.

(** [n] rounds of the loop. *)
Definition aarq_runs (n : nat) (s : AcseConnection) (v : aarq_vars) (s' : AcseConnection)
    (v' : aarq_vars) : Prop :=
  runs (fun st => aq_bufPos (snd st) <? max) (parseAarqPdu_body fuel buffer max) n (s, v) (s', v').

Lemma aarq_skip v tag content rest :
  0 <= aq_bufPos v -> aq_bufPos v + 2 + zlen content <= max -> zlen content < 128 ->
  tag <> 0x8b -> tag <> 0xac -> tag <> 0xbe -> aq_bufPos v + 1 < max ->
  holds buffer (aq_bufPos v) (tag :: zlen content :: content ++ rest) ->
  aarq_runs 1 s v s (aarq_at v (aq_bufPos v + 2 + zlen content)) /\
  holds buffer (aq_bufPos v + 2 + zlen content) rest.
Proof.
  intros Hp Hl Hc H1 H2 H3 Hm Hh. change (2 ^ 20) with 1048576 in *. pose proof (zlen_nonneg content).
  apply (read_short _ _ _ _ None max) in Hh as (R1 & D1 & Hh); [|lia|lia].
  apply holds_app in Hh as [_ Hh]. split; [|done].
  apply runs_step; [cbn [snd]; by zdec|].
  unfold parseAarqPdu_body. use_reads. rewrite D1. cbn [rbind defined].
  rewrite (proj2 (Z.ltb_ge _ 0)) by lia.
  rewrite (proj2 (Z.eqb_neq tag 0x8b)), (proj2 (Z.eqb_neq tag 0xac)), (proj2 (Z.eqb_neq tag 0xbe)) by done.
  by rewrite i32_small by lia.
Qed.

Lemma aarq_ap v tt qt title titleLen q rest :
  0 <= aq_bufPos v -> aq_bufPos v + zlen (ap_bytes tt qt title titleLen q) <= max ->
  length title = 10%nat -> 0 <= titleLen <= 10 ->
  tt <> 0x8b -> tt <> 0xac -> tt <> 0xbe -> qt <> 0x8b -> qt <> 0xac -> qt <> 0xbe ->
  holds buffer (aq_bufPos v) (ap_bytes tt qt title titleLen q ++ rest) ->
  (exists n, (n <= 2)%nat /\
    aarq_runs n s v s (aarq_at v (aq_bufPos v + zlen (ap_bytes tt qt title titleLen q)))) /\
  holds buffer (aq_bufPos v + zlen (ap_bytes tt qt title titleLen q)) rest.
Proof.
  intros Hp Hl Hlen Ht H1 H2 H3 H4 H5 H6 Hh. pose proof (uint32_short q).
  apply holds_app in Hh as [Hh Hrest]. split; [|exact Hrest]. clear Hrest.
  rewrite zlen_ap_bytes in * by done. unfold ap_bytes, ap_length in *.
  destruct (Z.ltb_spec 0 titleLen) as [Hpos|Hpos].
  2: { exists 0%nat. split; [lia|]. rewrite Z.add_0_r. unfold aarq_at. destruct v. apply runs_refl. }
  set (t := take (Z.to_nat titleLen) title) in *. set (ref := uint32_bytes (u32 q)) in *.
  assert (zlen t = titleLen) as Hz by (unfold t, zlen; rewrite length_take; lia).
  exists 2%nat. split; [lia|].
  destruct (aarq_skip v tt ([6; titleLen] ++ t) ([qt; zlen ref + 2; 2; zlen ref] ++ ref))
    as [R1 Hh2]; rewrite ?zlen_app, ?Hz in *; change (zlen [6; titleLen]) with 2 in *; try done; try lia.
  { rewrite <- app_assoc. cbn [app] in *.
    by replace (2 + titleLen) with (titleLen + 2) by lia. }
  change (zlen [6; titleLen]) with 2 in *.
  set (v2 := aarq_at v (aq_bufPos v + 2 + (2 + titleLen))) in *.
  assert (aq_bufPos v2 = aq_bufPos v + 2 + (2 + titleLen)) as Hv2 by done.
  destruct (aarq_skip v2 qt ([2; zlen ref] ++ ref) []) as [R2 _];
    rewrite ?zlen_app in *; change (zlen [2; zlen ref]) with 2 in *; try done; try lia.
  { rewrite Hv2. rewrite <- app_assoc, app_nil_r. cbn [app] in *.
    by replace (2 + zlen ref) with (zlen ref + 2) by lia. }
  change (zlen [2; zlen ref]) with 2 in *.
  replace (aarq_at v (aq_bufPos v + (4 + titleLen + (4 + zlen ref))))
    with (aarq_at v2 (aq_bufPos v2 + 2 + (2 + zlen ref))).
  - exact (runs_trans _ _ 1 1 _ _ _ R1 R2).
  - unfold aarq_at. rewrite Hv2. cbn. f_equal. lia.
Qed.

(** The authentication elements leave the mechanism and the value behind. *)
Definition got_auth (v : aarq_vars) (auth : option AcseAuthenticationParameter)
    (password : list Z) (v' : aarq_vars) : Prop :=
  aq_bufPos v' = aq_bufPos v + zlen (auth_bytes auth password) /\
  aq_userInfoValid v' = aq_userInfoValid v /\
  if with_password auth then
    exists mech value, aq_authMechanism v' = Some mech /\ aq_authMechLen v' = 3 /\
      holds mech 0 auth_mech_password_oid /\
      aq_authValue v' = Some value /\ aq_authValueLen v' = zlen password /\
      holds value 0 password
  else aq_authMechanism v' = aq_authMechanism v.

Lemma aarq_auth v auth password rest :
  auth_ok auth password ->
  0 <= aq_bufPos v -> aq_bufPos v + zlen (auth_bytes auth password) <= max ->
  holds buffer (aq_bufPos v) (auth_bytes auth password ++ rest) ->
  (exists n v', (n <= 3)%nat /\ aarq_runs n s v s v' /\ got_auth v auth password v') /\
  holds buffer (aq_bufPos v + zlen (auth_bytes auth password)) rest.
Proof.
  intros Ha Hp Hl Hh. apply holds_app in Hh as [Hh Hrest]. split; [|exact Hrest]. clear Hrest.
  unfold got_auth, with_password. unfold auth_bytes in *. destruct auth as [p|].
  2: { exists 0%nat, v. split; [lia|]. split; [apply runs_refl|]. rewrite zlen_nil. split; [lia|done]. }
  destruct (bool_decide (ap_mechanism p = ACSE_AUTH_PASSWORD)) eqn:Em.
  2: { exists 1%nat. change (zlen [138; 2; 4; 0]) with 4 in *.
       destruct (aarq_skip v 0x8a [4; 0] []) as [R1 _];
         change (zlen [4; 0]) with 2 in *; try done; try lia.
       eexists. split; [lia|]. split; [exact R1|]. cbn. split; [lia|done]. }
  apply bool_decide_eq_true in Em. destruct (Ha Em) as (Hb & Hlt & _ & _).
  pose proof (zlen_nonneg password). rewrite u32_small in * by lia.
  change (2 ^ 20) with 1048576 in *.
  set (d := BerEncoder_determineLengthSize (zlen password)) in *.
  assert (1 <= d <= 3) as Hd by apply determineLengthSize_range.
  pose proof (determineLengthSize_range (d + zlen password + 1)) as Hd2.
  rewrite !zlen_app, !zlen_ber_tl, !u32_small in Hl |- * by lia. fold d in Hl |- *.
  change (zlen [138; 2; 4; 128; 139; 3]) with 6 in *. rewrite zlen_auth_mech_password_oid in *.
  cbn [app] in Hh.
  destruct (aarq_skip v 0x8a [4; 0x80] (0x8b :: 3 :: auth_mech_password_oid ++
    ber_tl 0xac (d + zlen password + 1) ++ ber_tl 0x80 (zlen password) ++ password))
    as [R1 Hh1]; change (zlen [4; 128]) with 2 in *; try done; try lia.
  change (zlen [4; 128]) with 2 in *. remember (aq_bufPos v + 2 + 2) as p1 eqn:Hp1.
  apply (read_short _ _ _ _ None max) in Hh1 as (T2 & D2 & Hh2); [|lia|lia].
  apply holds_app in Hh2 as [Hmech Hh3]. change (zlen auth_mech_password_oid) with 3 in Hh3.
  apply (read_tl buffer _ _ _ None max) in Hh3 as (T3 & D3 & Hh4); [|lia|lia|lia].
  remember (p1 + 2 + 3 + 1 + BerEncoder_determineLengthSize (d + zlen password + 1)) as p2 eqn:Hp2.
  apply (read_tl buffer _ _ _ (Some (d + zlen password + 1)) max) in Hh4 as (T4 & D4 & Hh5);
    [|lia|lia|fold d; lia]. fold d in D4, Hh5.
  remember (p2 + 1 + d) as p3 eqn:Hp3.
  set (v2 := mkAarq (p1 + 2 + 3) (aq_authValue v) (aq_authValueLen v)
    (Some (ptr_add buffer (p1 + 2))) 3 (aq_userInfoValid v)).
  assert (aarq_runs 1 s (aarq_at v p1) s v2) as R2.
  { apply runs_step; [cbn; by zdec|]. unfold parseAarqPdu_body. cbn [aq_bufPos aarq_at].
    use_reads. rewrite D2. cbn [rbind defined]. rewrite (proj2 (Z.ltb_ge _ 0)) by lia.
    cbn [Z.eqb Pos.eqb aarq_at aq_authValue aq_authValueLen aq_userInfoValid].
    by rewrite i32_small by lia. }
  set (v3 := mkAarq (p3 + zlen password) (Some (ptr_add buffer p3)) (zlen password)
    (Some (ptr_add buffer (p1 + 2))) 3 (aq_userInfoValid v)).
  assert (aarq_runs 1 s v2 s v3) as R3.
  { apply runs_step; [cbn; by zdec|]. unfold parseAarqPdu_body. cbn [aq_bufPos v2].
    use_reads. rewrite D3. cbn [rbind defined]. rewrite (proj2 (Z.ltb_ge _ 0)) by lia.
    cbn [Z.eqb Pos.eqb]. rewrite D4. cbn [rbind defined].
    by rewrite i32_small by lia. }
  exists 3%nat, v3. split; [lia|].
  split; [exact (runs_trans _ _ 1 2 _ _ _ R1 (runs_trans _ _ 1 1 _ _ _ R2 R3))|].
  cbn [aq_bufPos aq_userInfoValid v3]. split; [lia|]. split; [done|].
  exists (ptr_add buffer (p1 + 2)), (ptr_add buffer p3).
  do 2 (split; [done|]). split; [apply holds_ptr_add; by rewrite Z.add_0_r|].
  do 2 (split; [done|]). apply holds_ptr_add. by rewrite Z.add_0_r.
Qed.

Lemma aarq_elements v params auth password rest :
  iso_params_wf params -> auth_ok auth password -> 0 <= aq_bufPos v ->
  aq_bufPos v + zlen (request_elements params auth password) <= max ->
  holds buffer (aq_bufPos v) (request_elements params auth password ++ rest) ->
  (exists n v1 v', (n <= 8)%nat /\ aarq_runs n s v s v' /\
    aq_bufPos v' = aq_bufPos v + zlen (request_elements params auth password) /\
    aq_authMechanism v1 = aq_authMechanism v /\ got_auth v1 auth password v') /\
    holds buffer (aq_bufPos v + zlen (request_elements params auth password)) rest.
Proof.
  intros (Pl1 & _ & Pr1 & Pl2 & _ & Pr2 & _) Ha Hp Hl Hh.
  apply holds_app in Hh as [Hh Hrest]. split; [|exact Hrest]. clear Hrest.
  unfold request_elements in *. rewrite !zlen_app, zlen_appContextNameMms in *.
  change (zlen [161; 7; 6; 5]) with 4 in *. cbn [app] in Hh.
  match goal with |- context [4 + (5 + (zlen ?x + (zlen ?y + zlen ?z)))] =>
    pose proof (zlen_nonneg x); pose proof (zlen_nonneg y); pose proof (zlen_nonneg z) end.
  apply (aarq_skip v 0xa1 ([6; 5] ++ appContextNameMms)) in Hh as [X1 Hh];
    rewrite ?zlen_app, ?zlen_appContextNameMms in *; change (zlen [6; 5]) with 2 in *;
    try done; try lia.
  set (v1 := aarq_at v (aq_bufPos v + 2 + (2 + 5))) in *.
  assert (aq_bufPos v1 = aq_bufPos v + 9) as Hv1 by (cbn; lia).
  change (aq_bufPos v + 2 + (2 + 5)) with (aq_bufPos v1) in Hh.
  apply (aarq_ap v1) in Hh as [(n2 & Hn2 & X2) Hh]; try done; try lia.
  match type of X2 with aarq_runs _ _ _ _ ?w => set (v2 := w) in * end.
  match type of Hh with holds _ ?p _ => change p with (aq_bufPos v2) in Hh end.
  assert (aq_bufPos v2 = aq_bufPos v1 + zlen (ap_bytes 162 163 (ip_remoteApTitle params)
    (ip_remoteApTitleLen params) (ip_remoteAEQualifier params))) as Hv2 by done.
  apply (aarq_ap v2) in Hh as [(n3 & Hn3 & X3) Hh]; try done; try lia.
  match type of X3 with aarq_runs _ _ _ _ ?w => set (v3 := w) in * end.
  match type of Hh with holds _ ?p _ => change p with (aq_bufPos v3) in Hh end.
  assert (aq_bufPos v3 = aq_bufPos v2 + zlen (ap_bytes 166 167 (ip_localApTitle params)
    (ip_localApTitleLen params) (ip_localAEQualifier params))) as Hv3 by done.
  rewrite <- (app_nil_r (auth_bytes auth password)) in Hh.
  apply (aarq_auth v3) in Hh as [(n4 & v4 & Hn4 & X4 & Hg) _]; try done; try lia.
  exists (1 + (n2 + (n3 + n4)))%nat, v3, v4. split; [lia|].
  split. { exact (runs_trans _ _ _ _ _ _ _ X1 (runs_trans _ _ _ _ _ _ _ X2 (runs_trans _ _ _ _ _ _ _ X3 X4))). }
  split; [|done]. destruct Hg as [-> _]. lia.
Qed.

Lemma aarq_user_info v bs :
  (2 <= fuel)%nat -> acse_room (zlen bs) -> 0 <= aq_bufPos v ->
  aq_bufPos v + zlen (user_info_bytes [3] (zlen bs)) + zlen bs = max ->
  holds buffer (aq_bufPos v) (user_info_bytes [3] (zlen bs) ++ bs) ->
  exists q, holds buffer q bs /\
    aarq_runs 1 s v (got_user_info s [3] buffer q (zlen bs))
      (mkAarq max (aq_authValue v) (aq_authValueLen v) (aq_authMechanism v)
        (aq_authMechLen v) true).
Proof.
  intros Hf Hroom Hp Hl Hh. destruct fuel as [|[|f]] eqn:Ef; [lia..|].
  destruct (acse_lengths [3] (zlen bs) Hroom ltac:(done)) as (E1 & E2 & H1 & H2).
  pose proof (zlen_user_info_bytes [3] (zlen bs) Hroom ltac:(done)) as Eu.
  pose proof (determineLengthSize_range (userInfoLength (zlen [3]) (zlen bs))).
  change (2 ^ 20) with 1048576 in *. pose proof Hroom as Hroom'. unfold acse_room in Hroom'.
  unfold user_info_bytes in Hh. rewrite <- !app_assoc in Hh.
  apply (read_tl buffer _ _ _ None max) in Hh as (R1 & D1 & Hh); [|lia|lia|lia].
  apply (parse_user_info f s buffer _ max [3] bs (aq_userInfoValid v)) in Hh as (q & E & Hh);
    [|done|done|change (2 ^ 20) with 1048576; lia|lia].
  exists q. split; [done|]. apply runs_step; [cbn; by zdec|].
  unfold parseAarqPdu_body. use_reads. rewrite D1. cbn [rbind defined].
  rewrite (proj2 (Z.ltb_ge _ 0)) by lia. cbn [Z.eqb Pos.eqb]. by rewrite Ef, E.
Qed.
End ParseRequest.

(** The authentication parameter the authenticator is called with. *)
Definition credentials (auth : option AcseAuthenticationParameter) (password : list Z)
    (param : AcseAuthenticationParameter) : Prop :=
  if with_password auth then
    ap_mechanism param = ACSE_AUTH_PASSWORD /\ ap_passwordLength param = zlen password /\
    exists q, ap_octetString param = Some q /\ holds q 0 password
  else param = mkAuthParameter ACSE_AUTH_NONE None 0.

(** The authenticator's verdict and token. *)
Definition verdict (s : AcseConnection) (param : AcseAuthenticationParameter) : bool * Z :=
  match authenticator s with
  | Some f => f (authenticatorParameter s) param
  | None => (true, 0)
  end.

Lemma checkAuthentication_spec s auth password v v' :
  got_auth v auth password v' -> aq_authMechanism v = None ->
  exists param, credentials auth password param /\
    checkAuthentication s (aq_authMechanism v') (aq_authMechLen v') (aq_authValue v')
      (aq_authValueLen v')
    = Done (fst (verdict s param), set_securityToken (snd (verdict s param)) s).
Proof.
  intros (_ & _ & Hg) Hv. unfold checkAuthentication, credentials, verdict.
  destruct (with_password auth).
  - destruct Hg as (mech & value & -> & -> & Hm & -> & -> & Hval).
    exists (mkAuthParameter ACSE_AUTH_PASSWORD (Some value) (zlen password)).
    split; [do 2 (split; [done|]); by exists value|].
    cbn [authenticator set_securityToken]. destruct (authenticator s) as [f|]; [|done].
    cbn [checkAuthMechanismName Z.eqb Pos.eqb]. rewrite (holds_rd_list _ _ _ _ Hm) by done.
    cbn [rbind]. rewrite bool_decide_true by done. unfold authenticateClient.
    rewrite bool_decide_true by done. cbn [authenticatorParameter set_securityToken].
    by destruct (f _ _).
  - rewrite Hg, Hv. eexists. split; [done|].
    cbn [authenticator set_securityToken]. destruct (authenticator s) as [f|]; [|done].
    cbn [checkAuthMechanismName rbind]. unfold authenticateClient.
    rewrite bool_decide_false by done. cbn [authenticatorParameter set_securityToken].
    by destruct (f _ _).
Qed.

Definition request_room (n : Z) : Prop := 0 <= n < 60000.

Lemma zlen_request_elements params auth password :
  iso_params_wf params -> auth_ok auth password ->
  9 <= zlen (request_elements params auth password) < 4100.
Proof.
  intros (H1 & H2 & H3 & H4 & H5 & H6 & _) Ha. unfold request_elements.
  rewrite !zlen_app, !zlen_ap_bytes by done. change (zlen [161; 7; 6; 5]) with 4.
  rewrite zlen_appContextNameMms.
  pose proof (uint32_short (ip_remoteAEQualifier params)).
  pose proof (uint32_short (ip_localAEQualifier params)).
  pose proof (zlen_nonneg (auth_bytes auth password)).
  assert (zlen (auth_bytes auth password) < 4020).
  { unfold auth_bytes. destruct auth as [p|]; [|by rewrite zlen_nil].
    case_bool_decide as Hm; [|done]. destruct (Ha Hm) as (Hb & Hlt & _).
    rewrite !zlen_app, !zlen_ber_tl. change (zlen [138; 2; 4; 128; 139; 3]) with 6.
    rewrite zlen_auth_mech_password_oid.
    pose proof (determineLengthSize_range (u32 (zlen password))).
    pose proof (determineLengthSize_range (u32 (BerEncoder_determineLengthSize (u32 (zlen password)) + zlen password + 1))).
    lia. }
  unfold ap_length. destruct (0 <? ip_remoteApTitleLen params), (0 <? ip_localApTitleLen params); lia.
Qed.

Lemma parseMessage_request fuel s b params auth password content bs :
  request_room (zlen bs) -> iso_params_wf params -> auth_ok auth password -> 0 <= content < 65536 ->
  (9 <= fuel)%nat ->
  message_is b (request_bytes params auth password content (zlen bs) ++ bs) ->
  exists p q param, bb_buffer b = Some p /\ holds p q bs /\ credentials auth password param /\
      AcseConnection_parseMessage fuel s b
    = Done (if fst (verdict s param) then ACSE_ASSOCIATE else ACSE_ASSOCIATE_FAILED,
        set_securityToken (snd (verdict s param)) (got_user_info s [3] p q (zlen bs))).
Proof.
  intros Hn Hp Ha Hcont Hfuel (p & Hbp & Hsz & Hall & _)%message_is_split.
  assert (acse_room (zlen bs)) as Hroom by (unfold acse_room, request_room in *; lia).
  destruct (acse_lengths [3] (zlen bs) Hroom ltac:(done)) as (E1 & E2 & H1 & H2).
  pose proof (zlen_user_info_bytes [3] (zlen bs) Hroom ltac:(done)) as Eu.
  pose proof (zlen_request_elements params auth password Hp Ha) as Hel.
  pose proof (determineLengthSize_range content).
  pose proof (determineLengthSize_range (userInfoLength (zlen [3]) (zlen bs))).
  unfold request_room in Hn. remember (bb_size b) as size eqn:Hbs.
  unfold request_bytes in Hsz. rewrite !zlen_app, zlen_ber_tl, u32_small in Hsz by lia.
  assert (size < 2 ^ 20) as Hmax by (change (2 ^ 20) with 1048576; lia).
  unfold request_bytes in Hall. rewrite <- !app_assoc in Hall.
  apply (read_tl p _ _ _ None size) in Hall as (R0 & D0 & Hall); [|lia|lia|lia].
  change (0 + 1) with 1 in *.
  remember (1 + BerEncoder_determineLengthSize content) as q0 eqn:Hq0.
  set (v0 := mkAarq q0 None 0 None 0 false).
  apply (aarq_elements fuel s p size Hmax v0) in Hall as [(n & v1 & v2 & Hn1 & X1 & Hv2 & Hm & Hg) Hall];
    try done; try (cbn [aq_bufPos v0]; lia).
  rewrite <- Hv2 in Hall.
  apply (aarq_user_info fuel s p size Hmax v2) in Hall as (q & Hh & X2);
    [|lia|done|rewrite Hv2; cbn [aq_bufPos v0]; lia|rewrite Hv2; cbn [aq_bufPos v0]; lia].
  destruct (checkAuthentication_spec (got_user_info s [3] p q (zlen bs)) auth password v1 v2)
    as (param & Hc & Echk); [done|by rewrite Hm|].
  exists p, q, param. do 3 (split; [done|]).
  unfold AcseConnection_parseMessage. rewrite Hbp. cbn [defined rbind]. rewrite R0.
  cbn [rbind]. rewrite <- Hbs, D0. cbn [rbind].
  rewrite (proj2 (Z.ltb_ge _ 0)) by lia. cbn [Z.eqb Pos.eqb]. unfold parseAarqPdu.
  pose proof (runs_trans _ _ _ _ _ _ _ X1 X2) as X.
  erewrite (runs_while _ _ _ _ _ _ X) by (first [lia | cbn; apply Z.ltb_irrefl]).
  cbn [rbind aq_authMechanism aq_authMechLen aq_authValue aq_authValueLen aq_userInfoValid].
  rewrite Echk. cbn [rbind]. change (verdict (got_user_info s [3] p q (zlen bs)) param) with (verdict s param).
  by destruct (verdict s param) as [[|] token].
Qed.

(** * The properties *)

(** The user data the connection holds after parsing. *)
Definition acse_user_data (s : AcseConnection) (bs : list Z) : Prop :=
  userDataBufferSize s = zlen bs /\ exists p, userDataBuffer s = Some p /\ holds p 0 bs.

Lemma got_user_data_is s ref p q bs :
  holds p q bs -> acse_user_data (got_user_info s ref p q (zlen bs)) bs.
Proof.
  intros Hh. split; [done|]. exists (ptr_add p q). split; [done|].
  apply holds_ptr_add. by rewrite Z.add_0_r.
Qed.

(** The bytes the length computation counts without writing them. *)
Definition auth_excess (auth : option AcseAuthenticationParameter) : Z :=
  match auth with
  | Some p => if bool_decide (ap_mechanism p = ACSE_AUTH_PASSWORD) then 0 else 7
  | None => 0
  end.

Lemma request_content_eq params auth password n :
  request_room n -> iso_params_wf params -> auth_ok auth password ->
  request_content params auth n
  = zlen (request_elements params auth password) + zlen (user_info_bytes [3] n) + n +
    auth_excess auth.
Proof.
  intros Hn (P1 & _ & P2 & P3 & _ & P4 & _) Ha.
  assert (acse_room n) as Hroom by (unfold acse_room, request_room in *; lia).
  destruct (acse_lengths [3] n Hroom ltac:(done)) as (E1 & E2 & H1 & H2).
  pose proof (zlen_user_info_bytes [3] n Hroom ltac:(done)) as Eu.
  pose proof (zlen_auth_bytes auth password Ha) as Hau. fold (auth_excess auth) in Hau.
  change (zlen [3]) with 1 in *. unfold request_content, request_contentLength.
  rewrite (u32_small (userInfoLength 1 n)) by lia. unfold request_elements.
  rewrite !zlen_app, !zlen_ap_bytes by done.
  change (zlen [161; 7; 6; 5]) with 4. rewrite zlen_appContextNameMms, Hau.
  unfold ap_length. destruct (0 <? ip_remoteApTitleLen params), (0 <? ip_localApTitleLen params); lia.
Qed.

Lemma request_content_range params auth password n :
  request_room n -> iso_params_wf params -> auth_ok auth password ->
  0 <= request_content params auth n < 65536.
Proof.
  intros Hn Hp Ha. pose proof (zlen_request_elements params auth password Hp Ha) as Hel.
  rewrite (request_content_eq _ _ _ _ Hn Hp Ha).
  assert (acse_room n) as Hroom by (unfold acse_room, request_room in *; lia).
  destruct (acse_lengths [3] n Hroom ltac:(done)) as (E1 & E2 & H1 & H2).
  pose proof (zlen_user_info_bytes [3] n Hroom ltac:(done)) as Eu.
  pose proof (determineLengthSize_range n).
  pose proof (determineLengthSize_range (assocDataLength (zlen [3]) n)).
  pose proof (determineLengthSize_range (userInfoLength (zlen [3]) n)).
  change (zlen [3]) with 1 in *. unfold request_room in Hn.
  assert (0 <= auth_excess auth <= 7) by (unfold auth_excess; destruct auth; [case_bool_decide|]; lia).
  lia.
Qed.

Lemma zlen_request_bytes params auth password content n :
  request_room n -> iso_params_wf params -> auth_ok auth password -> 0 <= content < 65536 ->
  zlen (request_bytes params auth password content n) <= 4200.
Proof.
  intros Hn Hp Ha Hcont. pose proof (zlen_request_elements params auth password Hp Ha) as Hel.
  assert (acse_room n) as Hroom by (unfold acse_room, request_room in *; lia).
  destruct (acse_lengths [3] n Hroom ltac:(done)) as (E1 & E2 & H1 & H2).
  pose proof (zlen_user_info_bytes [3] n Hroom ltac:(done)) as Eu.
  pose proof (determineLengthSize_range n).
  pose proof (determineLengthSize_range (assocDataLength (zlen [3]) n)).
  pose proof (determineLengthSize_range (userInfoLength (zlen [3]) n)).
  change (zlen [3]) with 1 in *. pose proof (determineLengthSize_range content).
  unfold request_bytes. rewrite !zlen_app, zlen_ber_tl, u32_small by lia. lia.
Qed.

Lemma zlen_response_bytes result ref n :
  acse_room n -> 1 <= zlen ref <= 5 -> zlen (response_bytes result ref n) <= 60.
Proof.
  intros Hn Hr. destruct (acse_lengths ref n Hn Hr) as (E1 & E2 & H1 & H2).
  pose proof (zlen_user_info_bytes ref n Hn Hr) as Eu.
  pose proof (determineLengthSize_range n).
  pose proof (determineLengthSize_range (assocDataLength (zlen ref) n)).
  pose proof (determineLengthSize_range (userInfoLength (zlen ref) n)).
  pose proof (determineLengthSize_range (u32 (response_contentLength (zlen ref) n))).
  unfold response_bytes. rewrite !zlen_app, zlen_ber_tl, zlen_appContextNameMms.
  change (zlen [161; 7; 6; 5]) with 4. change (zlen [162; 3; 2; 1; u8 result]) with 5.
  change (zlen [163; 5; 161; 3; 2; 1; 0]) with 7. lia.
Qed.

(** The association request of the client is understood by the server.  The
    server's authenticator is called with exactly the password of the client (or
    with the mechanism "none"), the association is reported exactly if it agrees,
    and its token, the client's MMS context id 3 and the user data are left in the
    connection. *)
Theorem AcseConnection_request_roundtrip params w payload auth password m a bs :
  carries m a payload bs -> bp_buffer w = InBlock a -> 0 <= a ->
  iso_params_wf params -> auth_ok auth password -> request_room (zlen bs) ->
  a + 4200 <= zlen m ->
  exists c' m' hdr,
    AcseConnection_createAssociateRequestMessage params w payload auth m = Done (c', m') /\
    carries m' (a + zlen hdr) c' (hdr ++ bs) /\
    forall fuel s b, (9 <= fuel)%nat -> message_is b (hdr ++ bs) ->
      exists param s', credentials auth password param /\
        AcseConnection_parseMessage fuel s b
        = Done (if fst (verdict s param) then ACSE_ASSOCIATE else ACSE_ASSOCIATE_FAILED, s') /\
        securityToken s' = snd (verdict s param) /\ nextReference s' = 3 /\
        acse_user_data s' bs.
Proof.
  intros Hc Hw Ha Hp Hau Hn Hl.
  pose proof (request_content_range _ _ _ _ Hn Hp Hau) as Hcont.
  set (hdr := request_bytes params auth password (request_content params auth (zlen bs)) (zlen bs)).
  assert (zlen hdr <= 4200) as Hz by by apply zlen_request_bytes.
  destruct (createAssociateRequest_spec params w payload auth password m a bs Hc Hw Ha Hp Hau)
    as (c' & Hcr & Hc'); fold hdr; [lia|].
  exists c', (splice m a hdr), hdr. do 2 (split; [done|]). intros fuel s b Hf Hb.
  destruct (parseMessage_request fuel s b params auth password _ bs Hn Hp Hau Hcont Hf Hb)
    as (p & q & param & _ & Hh & Hcred & E).
  exists param. eexists. do 2 (split; [done|]). do 2 (split; [done|]).
  by apply (got_user_data_is s [3]).
Qed.

Lemma no_auth_ok password : auth_ok None password.
Proof. done. Qed.

Lemma default_params_wf : iso_params_wf IsoConnectionParameters_create.
Proof. unfold iso_params_wf. simpl. repeat split; try lia; by repeat constructor. Qed.

Lemma AcseConnection_request_roundtrip_witness :
  exists c' m' hdr,
    AcseConnection_createAssociateRequestMessage IsoConnectionParameters_create
      (mkPart 0 0 4200 (InBlock 0)) (payload [1; 2; 3]) None (replicate 4200 0) = Done (c', m') /\
    forall b, message_is b (hdr ++ [1; 2; 3]) ->
      exists s', AcseConnection_parseMessage 9 AcseConnection_calloc b = Done (ACSE_ASSOCIATE, s') /\
        acse_user_data s' [1; 2; 3].
Proof.
  destruct (AcseConnection_request_roundtrip IsoConnectionParameters_create
    (mkPart 0 0 4200 (InBlock 0)) (payload [1; 2; 3]) None [] (replicate 4200 0) 0 [1; 2; 3]
    (carries_payload _ _ [1; 2; 3] ltac:(discriminate)) eq_refl ltac:(lia) default_params_wf
    (no_auth_ok _) ltac:(split; by_eval) ltac:(unfold zlen; rewrite length_replicate; lia))
    as (c' & m' & hdr & H1 & _ & H2).
  exists c', m', hdr. split; [exact H1|]. intros b Hb.
  destruct (H2 9%nat AcseConnection_calloc b ltac:(lia) Hb) as (param & s' & _ & H3 & _ & _ & H4).
  exists s'. split; [exact H3|exact H4].
Defined.


(** The length field of the request counts exactly the bytes that follow it,
    except with [ACSE_AUTH_NONE]: then it counts seven bytes that are never
    written. *)
Theorem AcseConnection_request_length params w payload auth password m a bs :
  carries m a payload bs -> bp_buffer w = InBlock a -> 0 <= a ->
  iso_params_wf params -> auth_ok auth password -> request_room (zlen bs) ->
  a + 4200 <= zlen m ->
  exists c' m' n rest,
    AcseConnection_createAssociateRequestMessage params w payload auth m = Done (c', m') /\
    chain_bytes m' c' = ber_tl 0x60 n ++ rest /\
    n = zlen rest + match auth with
      | Some p => if bool_decide (ap_mechanism p = ACSE_AUTH_PASSWORD) then 0 else 7
      | None => 0
      end.
Proof.
  intros Hc Hw Ha Hp Hau Hn Hl.
  pose proof (request_content_range _ _ _ _ Hn Hp Hau) as Hcont.
  pose proof (zlen_request_bytes params auth password _ _ Hn Hp Hau Hcont) as Hz.
  destruct (createAssociateRequest_spec params w payload auth password m a bs Hc Hw Ha Hp Hau)
    as (c' & Hcr & Hc'); [lia|].
  eexists c', _, _, _. split; [exact Hcr|]. rewrite (carries_bytes _ _ _ _ Hc').
  unfold request_bytes. rewrite <- !app_assoc. split; [done|].
  rewrite (request_content_eq _ _ _ _ Hn Hp Hau), !zlen_app. unfold auth_excess. lia.
Qed.

Lemma AcseConnection_request_length_witness :
  exists c' m' n rest,
    AcseConnection_createAssociateRequestMessage IsoConnectionParameters_create
      (mkPart 0 0 4200 (InBlock 0)) (payload [1; 2; 3])
      (Some (mkAuthParameter ACSE_AUTH_NONE None 0)) (replicate 4200 0) = Done (c', m') /\
    chain_bytes m' c' = ber_tl 0x60 n ++ rest /\ n = zlen rest + 7.
Proof.
  apply (AcseConnection_request_length IsoConnectionParameters_create
    (mkPart 0 0 4200 (InBlock 0)) (payload [1; 2; 3]) (Some (mkAuthParameter ACSE_AUTH_NONE None 0))
    [] (replicate 4200 0) 0 [1; 2; 3]
    (carries_payload _ _ [1; 2; 3] ltac:(discriminate)) eq_refl ltac:(lia) default_params_wf
    ltac:(discriminate) ltac:(split; by_eval) ltac:(unfold zlen; rewrite length_replicate; lia)).
Defined.


(** The association response of the server is understood by the client: the
    association is reported exactly if the server accepted it, and the reference
    and the user data arrive. *)
Theorem AcseConnection_response_roundtrip self result w payload m a bs :
  carries m a payload bs -> bp_buffer w = InBlock a -> 0 <= a ->
  acse_room (zlen bs) -> is_byte result -> a + 60 <= zlen m ->
  exists c' m' hdr,
    AcseConnection_createAssociateResponseMessage self result w payload m = Done (c', m') /\
    carries m' (a + zlen hdr) c' (hdr ++ bs) /\
    forall fuel s b, (4 <= fuel)%nat -> message_is b (hdr ++ bs) ->
      exists s', AcseConnection_parseMessage fuel s b
        = Done (if result =? ACSE_RESULT_ACCEPT then ACSE_ASSOCIATE else ACSE_ASSOCIATE_FAILED, s') /\
        nextReference s' = u32 (nextReference self) /\ acse_user_data s' bs.
Proof.
  intros Hc Hw Ha Hn Hr Hl. set (ref := uint32_bytes (u32 (nextReference self))).
  pose proof (uint32_short (nextReference self)) as Href. fold ref in Href.
  set (hdr := response_bytes result ref (zlen bs)).
  assert (zlen hdr <= 60) as Hz by by apply zlen_response_bytes.
  destruct (createAssociateResponse_spec self result w payload m a bs Hc Hw Ha)
    as (c' & Hcr & Hc'); fold ref hdr; [lia|].
  exists c', (splice m a hdr), hdr. do 2 (split; [done|]). intros fuel s b Hf Hb.
  destruct fuel as [|[|[|[|f]]]]; [lia..|].
  destruct (parseMessage_response f s b result ref bs Hn Href Hr Hb) as (q & p & _ & E & Hh).
  eexists. split; [exact E|]. split; [|by apply got_user_data_is].
  cbn [got_user_info nextReference set_acse_userData set_nextReference].
  unfold ref. rewrite be_val_uint32_bytes by apply u32_range. apply u32_small, u32_range.
Qed.

Lemma AcseConnection_response_roundtrip_witness :
  exists c' m' hdr,
    AcseConnection_createAssociateResponseMessage AcseConnection_calloc 1
      (mkPart 0 0 60 (InBlock 0)) (payload [1; 2; 3]) (replicate 60 0) = Done (c', m') /\
    forall b, message_is b (hdr ++ [1; 2; 3]) ->
      exists s', AcseConnection_parseMessage 4 AcseConnection_calloc b = Done (ACSE_ASSOCIATE_FAILED, s').
Proof.
  destruct (AcseConnection_response_roundtrip AcseConnection_calloc 1
    (mkPart 0 0 60 (InBlock 0)) (payload [1; 2; 3]) (replicate 60 0) 0 [1; 2; 3]
    (carries_payload _ _ [1; 2; 3] ltac:(discriminate)) eq_refl ltac:(lia)
    ltac:(split; by_eval) ltac:(split; by_eval) ltac:(by_eval)) as (c' & m' & hdr & H1 & _ & H2).
  exists c', m', hdr. split; [exact H1|]. intros b Hb.
  destruct (H2 4%nat AcseConnection_calloc b ltac:(lia) Hb) as (s' & H3 & _). exists s'. exact H3.
Defined.


(** The parser also takes an association response where a request is expected:
    a fresh server connection that receives one reports the association, whatever
    its authenticator [f] is; it is not called. *)
Theorem AcseConnection_response_bypasses_authenticator f param fuel bs b :
  (4 <= fuel)%nat -> acse_room (zlen bs) ->
  message_is b (response_bytes ACSE_RESULT_ACCEPT [3] (zlen bs) ++ bs) ->
  exists s',
    AcseConnection_parseMessage fuel (AcseConnection_init AcseConnection_calloc (Some f) param) b
    = Done (ACSE_ASSOCIATE, s') /\ acse_user_data s' bs /\ securityToken s' = 0.
Proof.
  intros Hf Hn Hb. destruct fuel as [|[|[|[|n]]]]; [lia..|].
  destruct (parseMessage_response n (AcseConnection_init AcseConnection_calloc (Some f) param) b
    ACSE_RESULT_ACCEPT [3] bs Hn ltac:(done) ltac:(done) Hb) as (q & p & _ & E & Hh).
  eexists. split; [exact E|]. split; [|done]. by apply got_user_data_is.
Qed.

Lemma AcseConnection_response_bypasses_authenticator_witness :
  exists s',
    AcseConnection_parseMessage 4
      (AcseConnection_init AcseConnection_calloc (Some (fun _ _ => (false, 0))) 0)
      (message (response_bytes ACSE_RESULT_ACCEPT [3] 3 ++ [1; 2; 3]))
    = Done (ACSE_ASSOCIATE, s') /\ acse_user_data s' [1; 2; 3] /\ securityToken s' = 0.
Proof.
  apply (AcseConnection_response_bypasses_authenticator (fun _ _ => (false, 0)) 0 4 [1; 2; 3]);
    [lia|split; by_eval|apply message_message].
Defined.


(** The message that reports a refused association cannot be built: it has no
    payload, which the response asserts. *)
Theorem AcseConnection_createAssociateFailedMessage_asserts self w m :
  AcseConnection_createAssociateFailedMessage self w m = AssertFailed.
Proof. done. Qed.
