(* ===== verification/IsoConnections.v ===== *)
(** The connections of the server (src/mms/iso_server/iso_connection.c) and of the client
    (src/mms/iso_client/impl/iso_client_connection.c).  One round of a connection thread receives one transport message and answers it. *)
From stdpp Require Import base tactics list numbers option.
From S2P Require Import Prelude Memory Buffers IsoParams ByteStream Cotp Session Presentation Acse.

Definition CONFIG_MMS_MAXIMUM_PDU_SIZE : Z := 16000.
Definition RECEIVE_BUF_SIZE : Z := CONFIG_MMS_MAXIMUM_PDU_SIZE + 100.
Definition SEND_BUF_SIZE : Z := CONFIG_MMS_MAXIMUM_PDU_SIZE + 100.

Definition ISO_CON_STATE_RUNNING : Z := 1.
Definition ISO_CON_STATE_STOPPED : Z := 0.

(** * Parts shared by both ends *)

(** A [struct sBufferChain] on the stack that describes the send block from
    [addr] on; the layer that fills it sets its lengths. *)
Definition new_part (addr partMaxLength : Z) : bpart := mkPart 0 0 partMaxLength (InBlock addr).

(** The pointers that the upper layers keep lead into the receive buffer: after
    a receive they see its new contents. *)
Definition rebase (block : list Z) (p : option ptr) : option ptr :=
  match p with
  | Some p => Some (mk_ptr block (p_base p))
  | None => None
  end.

Definition rebase_buffer (block : list Z) (b : ByteBuffer) : ByteBuffer :=
  mkByteBuffer (rebase block (bb_buffer b)) (bb_maxSize b) (bb_size b).

Definition payload_block (c : CotpConnection) : list Z :=
  match bb_buffer (c_payload c) with Some p => p_mem p | None => [] end.

(** * State

    [H] is the state behind [msgRcvdHandlerParameter]: the MMS server
    connection.  The handler gets the request and the response buffer, which
    describes the send block, and returns both with its new state. *)
Section ServerConnection.
Context {H : Type}.

Definition MessageReceivedHandler : Type :=
  H -> ByteBuffer -> ByteBuffer -> res (H * ByteBuffer).

Record IsoConnection := mkIsoConnection {
  ic_sendBuffer : list Z;
  ic_msgRcvdHandler : MessageReceivedHandler;
  ic_msgRcvdHandlerParameter : H;
  ic_state : Z;
  ic_session : IsoSession;
  ic_presentation : IsoPresentation;
  ic_cotp : CotpConnection;
  ic_acse : AcseConnection;            (* a local of the thread *)
  ic_securityToken : Z }.

Definition ic_set_sendBuffer (m : list Z) (s : IsoConnection) : IsoConnection :=
  mkIsoConnection m (ic_msgRcvdHandler s) (ic_msgRcvdHandlerParameter s) (ic_state s)
    (ic_session s) (ic_presentation s) (ic_cotp s) (ic_acse s) (ic_securityToken s).
Definition ic_set_parameter (h : H) (s : IsoConnection) : IsoConnection :=
  mkIsoConnection (ic_sendBuffer s) (ic_msgRcvdHandler s) h (ic_state s)
    (ic_session s) (ic_presentation s) (ic_cotp s) (ic_acse s) (ic_securityToken s).
Definition ic_set_state (v : Z) (s : IsoConnection) : IsoConnection :=
  mkIsoConnection (ic_sendBuffer s) (ic_msgRcvdHandler s) (ic_msgRcvdHandlerParameter s) v
    (ic_session s) (ic_presentation s) (ic_cotp s) (ic_acse s) (ic_securityToken s).
Definition ic_set_session (v : IsoSession) (s : IsoConnection) : IsoConnection :=
  mkIsoConnection (ic_sendBuffer s) (ic_msgRcvdHandler s) (ic_msgRcvdHandlerParameter s)
    (ic_state s) v (ic_presentation s) (ic_cotp s) (ic_acse s) (ic_securityToken s).
Definition ic_set_presentation (v : IsoPresentation) (s : IsoConnection) : IsoConnection :=
  mkIsoConnection (ic_sendBuffer s) (ic_msgRcvdHandler s) (ic_msgRcvdHandlerParameter s)
    (ic_state s) (ic_session s) v (ic_cotp s) (ic_acse s) (ic_securityToken s).
Definition ic_set_cotp (v : CotpConnection) (s : IsoConnection) : IsoConnection :=
  mkIsoConnection (ic_sendBuffer s) (ic_msgRcvdHandler s) (ic_msgRcvdHandlerParameter s)
    (ic_state s) (ic_session s) (ic_presentation s) v (ic_acse s) (ic_securityToken s).
Definition ic_set_acse (v : AcseConnection) (token : Z) (s : IsoConnection) : IsoConnection :=
  mkIsoConnection (ic_sendBuffer s) (ic_msgRcvdHandler s) (ic_msgRcvdHandlerParameter s)
    (ic_state s) (ic_session s) (ic_presentation s) (ic_cotp s) v token.

(** [IsoConnection_create] with the listener installed, up to the first round
    of the thread.  The buffers come from [malloc]: their contents are
    arbitrary. *)
Definition IsoConnection_create (socket : Socket) (authenticator : option AcseAuthenticator)
    (authenticatorParameter : Z) (handler : MessageReceivedHandler) (parameter : H)
    (receiveBuffer sendBuffer : list Z) : IsoConnection :=
  mkIsoConnection sendBuffer handler parameter ISO_CON_STATE_RUNNING
    IsoSession_init (IsoPresentation_init IsoPresentation_calloc)
    (CotpConnection_init Cotp_calloc socket
      (ByteBuffer_wrap (Some (mk_ptr receiveBuffer 0)) 0 RECEIVE_BUF_SIZE))
    (AcseConnection_init AcseConnection_calloc authenticator authenticatorParameter) 0.

Definition IsoConnection_installListener (self : IsoConnection)
    (handler : MessageReceivedHandler) (parameter : H) : IsoConnection :=
  mkIsoConnection (ic_sendBuffer self) handler parameter (ic_state self)
    (ic_session self) (ic_presentation self) (ic_cotp self) (ic_acse self)
    (ic_securityToken self).

Definition IsoConnection_getSecurityToken (self : IsoConnection) : Z := ic_securityToken self.

(** [Socket_destroy] of the running connection; a stopped one is left alone. *)
Definition Socket_destroy (s : Socket) : Socket := mkSocket false (so_rx s) (so_wr s) (so_tx s).

Definition IsoConnection_close (self : IsoConnection) : IsoConnection :=
  if negb (ic_state self =? ISO_CON_STATE_STOPPED) then
    ic_set_state ISO_CON_STATE_STOPPED
      (ic_set_cotp (set_socket (Socket_destroy (c_socket (ic_cotp self))) (ic_cotp self)) self)
  else self.

(** * Answering *)

(** [self->msgRcvdHandler(self->msgRcvdHandlerParameter, &mmsRequest, &mmsResponseBuffer)]:
    the size of the response. *)
Definition call_handler (self : IsoConnection) (mmsRequest : ByteBuffer)
  : res (Z * IsoConnection) :=
  let mmsResponseBuffer :=
    ByteBuffer_wrap (Some (mk_ptr (ic_sendBuffer self) 0)) 0 SEND_BUF_SIZE in
  let! (parameter, mmsResponseBuffer) :=
    ic_msgRcvdHandler self (ic_msgRcvdHandlerParameter self) mmsRequest mmsResponseBuffer in
  let! p := defined (bb_buffer mmsResponseBuffer) in
  Done (bb_size mmsResponseBuffer, ic_set_sendBuffer (p_mem p) (ic_set_parameter parameter self)).

(** Build a message in the send block and hand it to the transport. *)
Definition send_chain (self : IsoConnection) (build : W BufferChain)
  : res (CotpIndication * IsoConnection) :=
  let! (chain, m) := build (ic_sendBuffer self) in
  let! (indication, cotp) := CotpConnection_sendDataMessage (ic_cotp self) m chain in
  Done (indication, ic_set_cotp cotp (ic_set_sendBuffer m self)).

(** The accept message around an MMS response of [size] bytes. *)
Definition accept_chain (self : IsoConnection) (size : Z) : W BufferChain :=
  let mmsBufferPart := BufferChain_init size size [] (InBlock 0) in
  let* acse := AcseConnection_createAssociateResponseMessage (ic_acse self) ACSE_RESULT_ACCEPT
                 (new_part size (SEND_BUF_SIZE - size)) mmsBufferPart in
  let* n := wlift (chain_length acse) in
  let* presentation := IsoPresentation_createCpaMessage (ic_presentation self)
                         (new_part n (SEND_BUF_SIZE - n)) acse in
  let* n := wlift (chain_length presentation) in
  IsoSession_createAcceptSpdu (ic_session self) (new_part n (SEND_BUF_SIZE - n)) presentation.

(** The data message around an MMS response of [size] bytes. *)
Definition data_chain (self : IsoConnection) (size : Z) : W BufferChain :=
  let mmsBufferPart := BufferChain_init size size [] (InBlock 0) in
  let* presentation := IsoPresentation_createUserData (ic_presentation self)
                         (new_part size (SEND_BUF_SIZE - size)) mmsBufferPart in
  let* n := wlift (chain_length presentation) in
  wlift (IsoSession_createDataSpdu (new_part n (SEND_BUF_SIZE - n)) presentation).

(** The disconnect message around a release response. *)
Definition disconnect_chain (self : IsoConnection) : W BufferChain :=
  let* acse := AcseConnection_createReleaseResponseMessage (new_part 0 SEND_BUF_SIZE) in
  let* n := wlift (chain_length acse) in
  let* presentation := IsoPresentation_createUserDataACSE (ic_presentation self)
                         (new_part n (SEND_BUF_SIZE - n)) acse in
  let* n := wlift (chain_length presentation) in
  IsoSession_createDisconnectSpdu (new_part n (SEND_BUF_SIZE - n)) presentation.

(** * The cases of the thread *)

(** [case CONNECT_INDICATION] *)
Definition handle_connect_indication (self : IsoConnection) : res IsoConnection :=
  let! (_, cotp) := CotpConnection_sendConnectionResponseMessage (ic_cotp self) in
  Done (ic_set_cotp cotp self).

(** [case SESSION_CONNECT] *)
Definition handle_session_connect (fuel : nat) (self : IsoConnection)
    (sessionUserData : ByteBuffer) : res IsoConnection :=
  let! (ok, presentation) :=
    IsoPresentation_parseConnect fuel (ic_presentation self) sessionUserData in
  let self := ic_set_presentation presentation self in
  if ok =? 0 then Done self else
  let! (aIndication, acse) :=
    AcseConnection_parseMessage fuel (ic_acse self) (nextPayload presentation) in
  let self := ic_set_acse acse (securityToken acse) self in
  if bool_decide (aIndication = ACSE_ASSOCIATE) then
    let mmsRequest := ByteBuffer_wrap (userDataBuffer acse) (userDataBufferSize acse)
                        (userDataBufferSize acse) in
    let! (size, self) := call_handler self mmsRequest in
    if 0 <? size then
      let! (_, self) := send_chain self (accept_chain self size) in Done self
    else Done self
  else Done (ic_set_state ISO_CON_STATE_STOPPED self).

(** [case SESSION_DATA] *)
Definition handle_session_data (self : IsoConnection) (sessionUserData : ByteBuffer)
  : res IsoConnection :=
  let! (ok, presentation) :=
    IsoPresentation_parseUserData (ic_presentation self) sessionUserData in
  let self := ic_set_presentation presentation self in
  if ok =? 0 then Done (ic_set_state ISO_CON_STATE_STOPPED self)
  else if nextContextId presentation =? mmsContextId presentation then
    let! (size, self) := call_handler self (nextPayload presentation) in
    if 0 <? size then
      let! (_, self) := send_chain self (data_chain self size) in Done self
    else Done self
  else Done self.

(** [case SESSION_FINISH] *)
Definition handle_session_finish (self : IsoConnection) (sessionUserData : ByteBuffer)
  : res IsoConnection :=
  let! (ok, presentation) :=
    IsoPresentation_parseUserData (ic_presentation self) sessionUserData in
  let self := ic_set_presentation presentation self in
  let! self :=
    if ok =? 0 then Done self
    else let! (_, self) := send_chain self (disconnect_chain self) in Done self in
  Done (ic_set_state ISO_CON_STATE_STOPPED self).

(** After a receive the kept pointers see the new contents of the buffer. *)
Definition refresh (self : IsoConnection) : IsoConnection :=
  let block := payload_block (ic_cotp self) in
  let acse := ic_acse self in
  ic_set_session (set_userData (rebase_buffer block (s_userData (ic_session self))) (ic_session self))
    (ic_set_presentation
      (set_nextPayload (rebase_buffer block (nextPayload (ic_presentation self)))
        (ic_presentation self))
      (ic_set_acse (set_acse_userData (rebase block (userDataBuffer acse)) (userDataBufferSize acse) acse)
        (ic_securityToken self) self)).

(** [case DATA_INDICATION] *)
Definition handle_data_indication (fuel : nat) (self : IsoConnection) : res IsoConnection :=
  let cotpPayload := CotpConnection_getPayload (ic_cotp self) in
  let! (sIndication, session) := IsoSession_parseMessage (ic_session self) cotpPayload in
  let self := ic_set_session session self in
  let sessionUserData := IsoSession_getUserData session in
  match sIndication with
  | SESSION_CONNECT => handle_session_connect fuel self sessionUserData
  | SESSION_DATA => handle_session_data self sessionUserData
  | SESSION_FINISH => handle_session_finish self sessionUserData
  | _ => Done (ic_set_state ISO_CON_STATE_STOPPED self)
  end.

(** One round of the loop. *)
Definition handleTcpConnection_body (fuel : nat) (self : IsoConnection) : res IsoConnection :=
  let cotp := set_payload (ByteBuffer_wrap (bb_buffer (c_payload (ic_cotp self))) 0 RECEIVE_BUF_SIZE)
                (ic_cotp self) in
  let! (cotpIndication, cotp) := CotpConnection_parseIncomingMessage fuel cotp in
  let self := refresh (ic_set_cotp cotp self) in
  match cotpIndication with
  | CONNECT_INDICATION => handle_connect_indication self
  | DATA_INDICATION => handle_data_indication fuel self
  | _ => Done (ic_set_state ISO_CON_STATE_STOPPED self)
  end.

(** The loop of the thread; [rounds] bounds its rounds and [fuel] the loops of
    the parsers. *)
Definition handleTcpConnection (rounds fuel : nat) (self : IsoConnection) : res IsoConnection :=
  let! c := while (fun self => ic_state self =? ISO_CON_STATE_RUNNING)
              (fun self => let! self := handleTcpConnection_body fuel self in
                           Done (@Next _ unit self))
              rounds self in
  match c with
  | Next self =>
      (* IsoServer_closeConnection; the socket is destroyed *)
      Done (ic_set_cotp (set_socket (Socket_destroy (c_socket (ic_cotp self))) (ic_cotp self)) self)
  | Ret tt => Ub (* the body never leaves the function *)
  end.

(** * Unsolicited messages *)

Definition send_message_chain (self : IsoConnection) (message : ByteBuffer) (buffer : ptr)
  : W BufferChain :=
  let payloadBuffer := BufferChain_init (bb_size message) (bb_size message) [] (Extern buffer) in
  let* presentation := IsoPresentation_createUserData (ic_presentation self)
                         (new_part 0 SEND_BUF_SIZE) payloadBuffer in
  let* n := wlift (match presentation with part :: _ => Done (bp_partLength part) | [] => Ub end) in
  wlift (IsoSession_createDataSpdu (new_part n 0) presentation).

Definition IsoConnection_sendMessage (self : IsoConnection) (message : ByteBuffer)
  : res IsoConnection :=
  if ic_state self =? ISO_CON_STATE_STOPPED then Done self else
  let! buffer := defined (bb_buffer message) in
  let! (_, self) := send_chain self (send_message_chain self message buffer) in
  Done self.
End ServerConnection.

Arguments MessageReceivedHandler : clear implicits.
Arguments IsoConnection : clear implicits.

(** The connection of the client:
    src/mms/iso_client/impl/iso_client_connection.c. *)

Definition STATE_IDLE : Z := 0.
Definition STATE_ASSOCIATED : Z := 1.
Definition STATE_ERROR : Z := 2.

Definition ISO_CLIENT_BUFFER_SIZE : Z := CONFIG_MMS_MAXIMUM_PDU_SIZE + 100.

Inductive IsoIndication :=
  ISO_IND_ASSOCIATION_SUCCESS | ISO_IND_ASSOCIATION_FAILED | ISO_IND_CLOSED | ISO_IND_DATA.

#[export] Instance IsoIndication_eq_dec : EqDecision IsoIndication.
Proof. solve_decision. Defined.

(** A semaphore is its count.  A caller that waits for ever never returns. *)
Definition Semaphore_wait (count : Z) : res Z := if 0 <? count then Done (count - 1) else NoFuel.
Definition Semaphore_post (count : Z) : Z := count + 1.

(** The thread that handles the connection: it has not been created, it runs, or
    its function has returned. *)
Inductive thread_state := ThreadNone | ThreadRunning | ThreadFinished.

Section ClientConnection.
(** [C] is the state behind [callbackParameter]: the MMS client connection. *)
Context {C : Type}.

Definition IsoIndicationCallback : Type := IsoIndication -> C -> option ByteBuffer -> res C.

Record IsoClientConnection := mkClient {
  cc_callback : IsoIndicationCallback;
  cc_callbackParameter : C;
  cc_state : Z;
  cc_socket : bool;                       (* socket != NULL *)
  cc_cotpConnection : option CotpConnection;
  cc_presentation : option IsoPresentation;
  cc_session : option IsoSession;
  cc_acseConnection : AcseConnection;
  cc_sendBuffer : list Z;
  cc_transmitPayloadSize : Z;             (* transmitPayloadBuffer->size *)
  cc_transmitBufferMutex : Z;
  cc_receivePayloadBuffer : ByteBuffer;
  cc_receiveBufferMutex : Z;
  cc_thread : thread_state }.

Definition cc_set_parameter (p : C) (s : IsoClientConnection) : IsoClientConnection :=
  mkClient (cc_callback s) p (cc_state s) (cc_socket s) (cc_cotpConnection s)
    (cc_presentation s) (cc_session s) (cc_acseConnection s) (cc_sendBuffer s)
    (cc_transmitPayloadSize s) (cc_transmitBufferMutex s) (cc_receivePayloadBuffer s)
    (cc_receiveBufferMutex s) (cc_thread s).
Definition cc_set_status (state : Z) (socket : bool) (thread : thread_state)
    (s : IsoClientConnection) : IsoClientConnection :=
  mkClient (cc_callback s) (cc_callbackParameter s) state socket (cc_cotpConnection s)
    (cc_presentation s) (cc_session s) (cc_acseConnection s) (cc_sendBuffer s)
    (cc_transmitPayloadSize s) (cc_transmitBufferMutex s) (cc_receivePayloadBuffer s)
    (cc_receiveBufferMutex s) thread.
Definition cc_set_layers (cotp : CotpConnection) (presentation : option IsoPresentation)
    (session : option IsoSession) (acse : AcseConnection) (sendBuffer : list Z)
    (s : IsoClientConnection) : IsoClientConnection :=
  mkClient (cc_callback s) (cc_callbackParameter s) (cc_state s) (cc_socket s) (Some cotp)
    presentation session acse sendBuffer
    (cc_transmitPayloadSize s) (cc_transmitBufferMutex s) (cc_receivePayloadBuffer s)
    (cc_receiveBufferMutex s) (cc_thread s).
Definition cc_set_transmit (size mutex : Z) (s : IsoClientConnection) : IsoClientConnection :=
  mkClient (cc_callback s) (cc_callbackParameter s) (cc_state s) (cc_socket s)
    (cc_cotpConnection s) (cc_presentation s) (cc_session s) (cc_acseConnection s)
    (cc_sendBuffer s) size mutex (cc_receivePayloadBuffer s)
    (cc_receiveBufferMutex s) (cc_thread s).
Definition cc_set_receive (buffer : ByteBuffer) (mutex : Z) (s : IsoClientConnection)
  : IsoClientConnection :=
  mkClient (cc_callback s) (cc_callbackParameter s) (cc_state s) (cc_socket s)
    (cc_cotpConnection s) (cc_presentation s) (cc_session s) (cc_acseConnection s)
    (cc_sendBuffer s) (cc_transmitPayloadSize s) (cc_transmitBufferMutex s) buffer
    mutex (cc_thread s).

Definition IsoClientConnection_create (callback : IsoIndicationCallback) (parameter : C)
    (sendBuffer : list Z) : IsoClientConnection :=
  mkClient callback parameter STATE_IDLE false None None None AcseConnection_calloc
    sendBuffer 0 1 ByteBuffer_null 1 ThreadNone.

Definition call_back (indication : IsoIndication) (payload : option ByteBuffer)
    (self : IsoClientConnection) : res IsoClientConnection :=
  let! parameter := cc_callback self indication (cc_callbackParameter self) payload in
  Done (cc_set_parameter parameter self).

(** ** Buffers *)

Definition IsoClientConnection_allocateTransmitBuffer (self : IsoClientConnection)
  : res IsoClientConnection :=
  let! mutex := Semaphore_wait (cc_transmitBufferMutex self) in
  Done (cc_set_transmit 0 mutex self).

Definition post_transmit (self : IsoClientConnection) : IsoClientConnection :=
  cc_set_transmit (cc_transmitPayloadSize self)
    (Semaphore_post (cc_transmitBufferMutex self)) self.

Definition IsoClientConnection_releaseReceiveBuffer (self : IsoClientConnection)
  : IsoClientConnection :=
  cc_set_receive (cc_receivePayloadBuffer self) (Semaphore_post (cc_receiveBufferMutex self)) self.

(** ** Sending *)

(** Build a message in the send block with the presentation and hand it to the
    transport; both must have been created. *)
Definition client_send (self : IsoClientConnection) (build : IsoPresentation -> W BufferChain)
  : res (CotpIndication * IsoClientConnection) :=
  let! presentation := defined (cc_presentation self) in
  let! (chain, m) := build presentation (cc_sendBuffer self) in
  let! cotp := defined (cc_cotpConnection self) in
  let! (indication, cotp) := CotpConnection_sendDataMessage cotp m chain in
  Done (indication, cc_set_layers cotp (cc_presentation self) (cc_session self)
                      (cc_acseConnection self) m self).

Definition client_data_chain (buffer : bref) (size : Z) (presentation : IsoPresentation)
  : W BufferChain :=
  let payload := BufferChain_init size size [] buffer in
  let* chain := IsoPresentation_createUserData presentation
                  (new_part size ISO_CLIENT_BUFFER_SIZE) payload in
  wlift (IsoSession_createDataSpdu (new_part 0 0) chain).

(** The payload buffer is given by its place and its size; the API hands out
    the start of the send block. *)
Definition IsoClientConnection_sendMessage (self : IsoClientConnection) (buffer : bref) (size : Z)
  : res IsoClientConnection :=
  let! (_, self) := client_send self (client_data_chain buffer size) in
  Done (post_transmit self).

Definition abort_chain (presentation : IsoPresentation) : W BufferChain :=
  let* acse := AcseConnection_createAbortMessage (new_part 0 ISO_CLIENT_BUFFER_SIZE) false in
  let* n := wlift (chain_length acse) in
  let* chain := IsoPresentation_createAbortUserMessage presentation
                  (new_part n (ISO_CLIENT_BUFFER_SIZE - n)) acse in
  let* n := wlift (chain_length chain) in
  IsoSession_createAbortSpdu (new_part n (ISO_CLIENT_BUFFER_SIZE - n)) chain.

Definition IsoClientConnection_abort (self : IsoClientConnection) : res IsoClientConnection :=
  let! self := IsoClientConnection_allocateTransmitBuffer self in
  let! (_, self) := client_send self abort_chain in
  Done (post_transmit self).

Definition release_chain (presentation : IsoPresentation) : W BufferChain :=
  let* acse := AcseConnection_createReleaseRequestMessage (new_part 0 ISO_CLIENT_BUFFER_SIZE) in
  let* n := wlift (chain_length acse) in
  let* chain := IsoPresentation_createUserDataACSE presentation
                  (new_part n (ISO_CLIENT_BUFFER_SIZE - n)) acse in
  let* n := wlift (chain_length chain) in
  IsoSession_createFinishSpdu (new_part n (ISO_CLIENT_BUFFER_SIZE - n)) chain.

Definition IsoClientConnection_release (self : IsoClientConnection) : res IsoClientConnection :=
  let! self := IsoClientConnection_allocateTransmitBuffer self in
  let! (_, self) := client_send self release_chain in
  Done (post_transmit self).

(** ** Closing *)

Definition close_socket (cotp : option CotpConnection) : option CotpConnection :=
  match cotp with
  | Some c => Some (set_socket (Socket_destroy (c_socket c)) c)
  | None => None
  end.

Definition cc_close_socket (self : IsoClientConnection) : IsoClientConnection :=
  mkClient (cc_callback self) (cc_callbackParameter self) (cc_state self) (cc_socket self)
    (close_socket (cc_cotpConnection self)) (cc_presentation self) (cc_session self)
    (cc_acseConnection self) (cc_sendBuffer self) (cc_transmitPayloadSize self)
    (cc_transmitBufferMutex self) (cc_receivePayloadBuffer self)
    (cc_receiveBufferMutex self) (cc_thread self).

Definition IsoClientConnection_close (self : IsoClientConnection) : IsoClientConnection :=
  let self := if cc_socket self then cc_close_socket self else self in
  cc_set_status STATE_IDLE (cc_socket self) (cc_thread self) self.

(** [Thread_destroy] joins the thread, whose rounds end on the closed socket. *)
Definition IsoClientConnection_destroy (self : IsoClientConnection) : IsoClientConnection :=
  if cc_state self =? STATE_ASSOCIATED then IsoClientConnection_close self else self.

(** ** Associating *)

(** The label [returnError]. *)
Definition returnError (self : IsoClientConnection) : res IsoClientConnection :=
  let! self := call_back ISO_IND_ASSOCIATION_FAILED None self in
  Done (cc_set_status STATE_ERROR false (cc_thread self) (cc_close_socket self)).

(** The connect message of all the layers around the payload. *)
Definition connect_chain (params : IsoConnectionParameters) (buffer : bref) (size : Z)
  : W (BufferChain * IsoPresentation * IsoSession) :=
  let acsePayload := [mkPart size size 0 buffer] in
  let* acse := AcseConnection_createAssociateRequestMessage params
                 (new_part size (ISO_CLIENT_BUFFER_SIZE - size)) acsePayload
                 (ip_acseAuthParameter params) in
  let* n := wlift (chain_length acse) in
  let* (chain, presentation) :=
    IsoPresentation_createConnectPdu (IsoPresentation_init IsoPresentation_calloc) params
      (new_part n (ISO_CLIENT_BUFFER_SIZE - n)) acse in
  let* n := wlift (chain_length chain) in
  let* (chain, session) := IsoSession_createConnectSpdu IsoSession_init params (new_part n 0) chain in
  wret (chain, presentation, session).

(** The transport handshake on the connected socket. *)
Definition transport_handshake (fuel : nat) (params : IsoConnectionParameters) (socket : Socket)
    (cotpBuf : list Z) : res (CotpIndication * CotpConnection) :=
  let cotp := CotpConnection_init Cotp_calloc socket
                (ByteBuffer_wrap (Some (mk_ptr cotpBuf 0)) 0 ISO_CLIENT_BUFFER_SIZE) in
  let! (_, cotp) := CotpConnection_sendConnectionRequestMessage cotp params in
  CotpConnection_parseIncomingMessage fuel cotp.

(** The answer to the connect message.  The result of the association
    control service is computed and then ignored. *)
Definition handle_connect_answer (fuel : nat) (self : IsoClientConnection)
    (cotp : CotpConnection) (presentation : IsoPresentation) (session : IsoSession)
  : res IsoClientConnection :=
  let! (sessionIndication, session) :=
    IsoSession_parseMessage session (CotpConnection_getPayload cotp) in
  let self := cc_set_layers cotp (Some presentation) (Some session) (cc_acseConnection self)
                (cc_sendBuffer self) self in
  if negb (bool_decide (sessionIndication = SESSION_CONNECT)) then returnError self else
  let! (ok, presentation) :=
    IsoPresentation_parseAcceptMessage fuel presentation (IsoSession_getUserData session) in
  let self := cc_set_layers cotp (Some presentation) (Some session) (cc_acseConnection self)
                (cc_sendBuffer self) self in
  if ok =? 0 then returnError self else
  let! (acseIndication, acse) :=
    AcseConnection_parseMessage fuel (cc_acseConnection self) (nextPayload presentation) in
  let self := cc_set_layers cotp (Some presentation) (Some session) acse (cc_sendBuffer self) self in
  let payload := ByteBuffer_wrap (userDataBuffer acse) (userDataBufferSize acse)
                   (userDataBufferSize acse) in
  let! mutex := Semaphore_wait (cc_receiveBufferMutex self) in
  let self := cc_set_receive payload mutex self in
  let! self := call_back ISO_IND_ASSOCIATION_SUCCESS (Some payload) self in
  Done (cc_set_status STATE_ASSOCIATED (cc_socket self) ThreadRunning self).

(** [connected] is the socket if [Socket_connect] succeeds. *)
Definition IsoClientConnection_associate (fuel : nat) (self : IsoClientConnection)
    (params : IsoConnectionParameters) (connected : option Socket) (cotpBuf : list Z)
    (buffer : bref) (size : Z) : res IsoClientConnection :=
  let self := cc_set_status (cc_state self) true (cc_thread self) self in
  match connected with
  | None => returnError self
  | Some socket =>
      let! (cotpIndication, cotp) := transport_handshake fuel params socket cotpBuf in
      let self := cc_set_layers cotp (cc_presentation self) (cc_session self)
                    (cc_acseConnection self) (cc_sendBuffer self) self in
      if negb (bool_decide (cotpIndication = CONNECT_INDICATION)) then returnError self else
      let acse := AcseConnection_init (cc_acseConnection self) None 0 in
      let! (chain, presentation, session, m) := connect_chain params buffer size (cc_sendBuffer self) in
      let! (_, cotp) := CotpConnection_sendDataMessage cotp m chain in
      let self := post_transmit
                    (cc_set_layers cotp (Some presentation) (Some session) acse m self) in
      let! (cotpIndication, cotp) := CotpConnection_parseIncomingMessage fuel cotp in
      let self := cc_set_layers cotp (Some presentation) (Some session) acse m self in
      if negb (bool_decide (cotpIndication = DATA_INDICATION)) then returnError self else
      handle_connect_answer fuel self cotp presentation session
  end.

(** ** The thread *)

(** The thread reports that the connection is closed and returns. *)
Definition thread_exit (self : IsoClientConnection) : res IsoClientConnection :=
  let! self := call_back ISO_IND_CLOSED None self in
  Done (cc_set_status (cc_state self) (cc_socket self) ThreadFinished self).

(** One round: wait for the receive buffer, receive a message, hand its data to
    the callback. *)
Definition connectionHandlingThread_round (fuel : nat) (self : IsoClientConnection)
  : res IsoClientConnection :=
  let! mutex := Semaphore_wait (cc_receiveBufferMutex self) in
  let self := cc_set_receive (cc_receivePayloadBuffer self) mutex self in
  let! cotp := defined (cc_cotpConnection self) in
  let! session := defined (cc_session self) in
  let! presentation := defined (cc_presentation self) in
  let! (cotpIndication, cotp) := CotpConnection_parseIncomingMessage fuel cotp in
  let self := cc_set_layers cotp (Some presentation) (Some session) (cc_acseConnection self)
                (cc_sendBuffer self) self in
  if negb (bool_decide (cotpIndication = DATA_INDICATION)) then thread_exit self else
  let! (sessionIndication, session) :=
    IsoSession_parseMessage session (CotpConnection_getPayload cotp) in
  let self := cc_set_layers cotp (Some presentation) (Some session) (cc_acseConnection self)
                (cc_sendBuffer self) self in
  if negb (bool_decide (sessionIndication = SESSION_DATA)) then thread_exit self else
  let! (ok, presentation) :=
    IsoPresentation_parseUserData presentation (IsoSession_getUserData session) in
  let self := cc_set_layers cotp (Some presentation) (Some session) (cc_acseConnection self)
                (cc_sendBuffer self) self in
  if ok =? 0 then thread_exit self
  else call_back ISO_IND_DATA (Some (nextPayload presentation)) self.
End ClientConnection.

Arguments IsoIndicationCallback : clear implicits.
Arguments IsoClientConnection : clear implicits.
