(* ===== verification/IsoStack.v ===== *)
(** Requests and answers end to end.  First the transport as the upper layers see it: a
    connection that is ready carries whole messages. *)
From stdpp Require Import base tactics list numbers option.
From S2P Require Import Prelude Memory Buffers BerDecode BerEncode IsoParams ByteStream Cotp CotpFacts CotpConnect Session Layer SessionFacts Presentation PresentationFacts Acse IsoConnections.

(** A connection that has a write buffer for its TPDU size and whose socket
    accepts everything. *)
Definition cotp_ready (c : CotpConnection) : Prop :=
  exists mem, cotp_can_send c mem /\
    c = cotp_tx c mem (so_tx (c_socket c)).

(** The TCP segments in which a message [bs] leaves a connection. *)
Definition frames_of (c : CotpConnection) (bs : list Z) : list (list Z) :=
  dt_frame <$> dt_frames (CotpConnection_getTpduSize c) bs.

(** The messages that wait to be read, sent with TPDU size [size]: however TCP
    delivers their user data. *)
Definition incoming (c : CotpConnection) (size : Z) (bs : list Z) (rest : list rx_event) : Prop :=
  exists rx, delivered (dt_frames size bs) rx /\ so_rx (c_socket c) = rx ++ rest.

(** One way of delivering a message: every TPDU's header in one segment, its user
    data in another. *)
Definition whole_frames (size : Z) (bs : list Z) : list rx_event :=
  concat ((fun f => rx_deliver (dt_header (7 + zlen (snd f)) (fst f)) [snd f]) <$> dt_frames size bs).

Lemma delivered_whole size bs : delivered (dt_frames size bs) (whole_frames size bs).
Proof.
  unfold whole_frames. generalize (dt_frames size bs) as fs.
  induction fs as [|[last p] fs IH]; [constructor|].
  pose proof (delivered_cons last p [] fs _ ltac:(constructor) IH) as Hd.
  cbn [concat] in Hd. by rewrite app_nil_r in Hd.
Qed.

(** What two states of a connection have in common when only messages were sent
    and received in between. *)
Definition same_link (c c' : CotpConnection) : Prop :=
  c_options c' = c_options c /\ c_srcRef c' = c_srcRef c /\ c_dstRef c' = c_dstRef c.

#[export] Instance same_link_preorder : PreOrder same_link.
Proof.
  split; [by intros c|].
  intros a b c (H1 & H2 & H3) (H4 & H5 & H6). split_and!; congruence.
Qed.

Lemma frames_of_link c c' bs : same_link c c' -> frames_of c' bs = frames_of c bs.
Proof. intros (H & _). unfold frames_of, CotpConnection_getTpduSize. by rewrite H. Qed.

Lemma chain_at_carries m a c bs : carries m a c bs -> chain_at m c 0 bs.
Proof.
  intros [Hok _ Hne Hpos <-]. split; [done|]. split; [done|]. split; [|by rewrite drop_0].
  destruct c as [|part c]; [done|]. apply Forall_cons_1 in Hpos as [Hp _]. lia.
Qed.

Lemma transport_send c m a chain bs :
  cotp_ready c -> carries m a chain bs -> bytes bs ->
  exists c', CotpConnection_sendDataMessage c m chain = Done (OK, c') /\ cotp_ready c' /\
    same_link c c' /\ so_tx (c_socket c') = so_tx (c_socket c) ++ frames_of c bs /\
    so_rx (c_socket c') = so_rx (c_socket c) /\ c_payload c' = c_payload c.
Proof.
  intros (mem & Hsend & Hc) Hcar Hb.
  destruct (sendDataMessage_frames c m chain bs mem (so_tx (c_socket c)) Hsend) as (mem' & Hz & Hs);
    [by destruct Hcar|done|by eapply chain_at_carries|].
  rewrite <- Hc in Hs. eexists. split; [exact Hs|]. split; [|done].
  exists mem'. split; [|done]. destruct Hsend as [H1 H2]. split; [done|]. by rewrite Hz.
Qed.

(** The receive buffer: a block of [size] bytes. *)
Definition payload_room (c : CotpConnection) (size : Z) : Prop :=
  exists m s, c_payload c = mkByteBuffer (Some (mk_ptr m 0)) size s /\ size <= zlen m.

Lemma transport_receive fuel c e bs rest size :
  incoming c (2 ^ e) bs rest -> 2 <= e <= 13 -> so_open (c_socket c) = true ->
  payload_room c size -> zlen bs <= size ->
  (length (dt_frames (2 ^ e) bs) <= fuel)%nat ->
  exists c', CotpConnection_parseIncomingMessage fuel c = Done (DATA_INDICATION, c') /\
    message_is (c_payload c') bs /\ payload_room c' size /\ so_rx (c_socket c') = rest /\
    (cotp_ready c -> cotp_ready c') /\ same_link c c' /\
    so_tx (c_socket c') = so_tx (c_socket c) /\ so_open (c_socket c') = true.
Proof.
  intros (rx & Hd & Hrx) He Ho (m & s & Hp & Hm) Hsz Hf. rewrite <- Z.shiftl_1_l in *.
  pose proof (dt_frames_sizes e bs He) as Hsizes.
  pose proof (dt_frames_concat e bs ltac:(lia)) as Hc.
  assert (2 ^ e <= 2 ^ 13) by (apply Z.pow_le_mono_r; lia). change (2 ^ 13) with 8192 in *.
  pose proof (zlen_nonneg bs).
  unfold CotpConnection_parseIncomingMessage. rewrite Hp.
  eexists. split.
  - rewrite (parse_frames _ _ rest _ _ m 0 Hd); rewrite ?Hc; try done.
    + apply dt_frames_sequence. lia.
    + revert Hsizes. apply Forall_impl. intros f Hf'. simpl in Hf'. lia.
  - split; [|split; [|split; [done|split; [|done]]]].
    + split; [done|]. eexists. split; [done|]. unfold holds. simpl.
      rewrite zlen_splice by lia. repeat split; [lia|lia|]. by rewrite slice_splice by lia.
    + eexists _, _. split; [done|]. rewrite zlen_splice; lia.
    + intros (mem & Hsend & Hr). exists mem. split; [done|].
      rewrite Hr. done.
Qed.

(** Both ends of the ISO stack together: data messages.  The layers are used
    through what they promise ([PduLayer], the transport above). *)

(** * Headers are made of bytes *)

Lemma bytes_ber_tl tag n : bytes (ber_tl tag n).
Proof. apply bytes_cons. split; [apply u8_byte|apply bytes_ber_len]. Qed.

#[export] Hint Resolve bytes_ber_tl bytes_uint32_bytes : bytes.

Lemma bytes_user_data ctx n : bytes (user_data_bytes ctx n).
Proof. unfold user_data_bytes. bytes_tac. Qed.

Lemma zlen_user_data ctx n : zlen (user_data_bytes ctx n) <= 15.
Proof.
  unfold user_data_bytes. rewrite !zlen_app, !zlen_ber_tl. change (zlen [2; 1; u8 ctx]) with 3.
  pose proof (determineLengthSize_range (u32 (fullyEncodedDataLength n))).
  pose proof (determineLengthSize_range (u32 (encodedDataSetLength n))).
  pose proof (determineLengthSize_range (u32 n)). lia.
Qed.

(** * Data messages *)

(** A data message on presentation context [ctx]. *)
Definition data_bytes (ctx : Z) (bs : list Z) : list Z :=
  dataSpdu ++ user_data_bytes ctx (zlen bs) ++ bs.

Lemma bytes_data_bytes ctx bs : bytes bs -> bytes (data_bytes ctx bs).
Proof.
  intros Hb. unfold data_bytes, dataSpdu. rewrite !bytes_app.
  split; [bytes_tac|]. split; [apply bytes_user_data|done].
Qed.

Lemma zlen_data_bytes ctx bs : zlen (data_bytes ctx bs) <= 19 + zlen bs.
Proof.
  unfold data_bytes. rewrite !zlen_app. change (zlen dataSpdu) with 4.
  pose proof (zlen_user_data ctx (zlen bs)). lia.
Qed.

(** The two layers build it around a payload. *)
Lemma data_layers self m a payload bs w1 w2 :
  carries m a payload bs -> bp_buffer w1 = InBlock a -> 0 <= a ->
  pres_room (zlen bs) -> a + 15 <= zlen m ->
  exists c1 c2 m' a',
    IsoPresentation_createUserData self w1 payload m = Done (c1, m') /\
    chain_length c1 = Done (zlen (user_data_bytes (mmsContextId self) (zlen bs)) + zlen bs) /\
    c1 <> [] /\
    IsoSession_createDataSpdu w2 c1 = Done c2 /\
    zlen m' = zlen m /\ carries m' a' c2 (data_bytes (mmsContextId self) bs).
Proof.
  intros Hc Hw Ha Hn Hl. pose proof (zlen_user_data (mmsContextId self) (zlen bs)).
  destruct (pl_create_spec (PduLayer := presentation_layer self) m a w1 payload bs Hc Hw Ha Hn)
    as (m' & c1 & Hcr & Hz & Hc1); [change (a + zlen (user_data_bytes (mmsContextId self) (zlen bs)) <= zlen m); lia|].
  cbn [pl_create pl_header pl_space presentation_layer] in Hcr, Hc1.
  eexists c1, _, m', _. split; [exact Hcr|]. pose proof (carries_length _ _ _ _ Hc1) as Hlen.
  split; [by rewrite Hlen, zlen_app|]. split; [by destruct Hc1|].
  split; [unfold IsoSession_createDataSpdu; by rewrite Hlen|]. split; [done|].
  by apply carries_link_extern; [| |unfold dataSpdu; rewrite zlen_app].
Qed.

(** Both layers of the receiver take it apart. *)
Lemma data_parse s self b ctx bs :
  pres_room (zlen bs) -> message_is b (data_bytes ctx bs) ->
  exists s' self',
    IsoSession_parseMessage s b = Done (SESSION_DATA, s') /\
    IsoPresentation_parseUserData self (IsoSession_getUserData s') = Done (1, self') /\
    nextContextId self' = u8 ctx /\ message_is (nextPayload self') bs /\
    mmsContextId self' = mmsContextId self /\ acseContextId self' = acseContextId self.
Proof.
  intros Hn Hb. destruct (session_data_parse s b _ Hb) as (s' & Hs & Hd).
  destruct (parseUserData_holds self (s_userData s') ctx bs Hn Hd) as (self' & Hp & Hrest).
  by exists s', self'.
Qed.

(** * The server *)

Section Server.
Context {H : Type}.
Implicit Types (self : IsoConnection H).

(** What a message handler does with the request [req] in state [h]: it answers
    [out], from the start of the send block on, and is then in state [h']. *)
Definition answers (f : MessageReceivedHandler H) (h : H) (req : list Z) (h' : H) (out : list Z)
  : Prop :=
  forall b m, message_is b req -> zlen m = SEND_BUF_SIZE ->
  exists m', f h b (ByteBuffer_wrap (Some (mk_ptr m 0)) 0 SEND_BUF_SIZE)
    = Done (h', ByteBuffer_wrap (Some (mk_ptr m' 0)) (zlen out) SEND_BUF_SIZE) /\
    zlen m' = zlen m /\ slice m' 0 (zlen out) = out.

Record server_ready (self : IsoConnection H) : Prop := mk_server_ready {
  sr_state : ic_state self = ISO_CON_STATE_RUNNING;
  sr_cotp : cotp_ready (ic_cotp self);
  sr_receive : payload_room (ic_cotp self) RECEIVE_BUF_SIZE;
  sr_send : zlen (ic_sendBuffer self) = SEND_BUF_SIZE }.

Lemma call_handler_answers self b req h' out :
  zlen (ic_sendBuffer self) = SEND_BUF_SIZE -> message_is b req ->
  answers (ic_msgRcvdHandler self) (ic_msgRcvdHandlerParameter self) req h' out ->
  exists m', call_handler self b
    = Done (zlen out, ic_set_sendBuffer m' (ic_set_parameter h' self)) /\
    zlen m' = SEND_BUF_SIZE /\ slice m' 0 (zlen out) = out.
Proof.
  intros Hz Hb Ha. destruct (Ha b _ Hb Hz) as (m' & Hf & Hz' & Hs).
  exists m'. split; [|split; [by rewrite Hz'|done]].
  unfold call_handler. by rewrite Hf.
Qed.

Lemma send_chain_spec self build chain m a bs :
  cotp_ready (ic_cotp self) -> build (ic_sendBuffer self) = Done (chain, m) ->
  carries m a chain bs -> bytes bs ->
  exists c', send_chain self build = Done (OK, ic_set_cotp c' (ic_set_sendBuffer m self)) /\
    cotp_ready c' /\ same_link (ic_cotp self) c' /\
    so_tx (c_socket c') = so_tx (c_socket (ic_cotp self)) ++ frames_of (ic_cotp self) bs /\
    so_rx (c_socket c') = so_rx (c_socket (ic_cotp self)) /\
    c_payload c' = c_payload (ic_cotp self).
Proof.
  intros Hr Hbuild Hc Hb.
  destruct (transport_send _ m a chain bs Hr Hc Hb) as (c' & Hs & Hrest).
  exists c'. split; [|done]. unfold send_chain. rewrite Hbuild. cbn [rbind]. by rewrite Hs.
Qed.

(** The parts of the state that sending leaves alone. *)
Definition same_upper (self self' : IsoConnection H) : Prop :=
  ic_msgRcvdHandlerParameter self' = ic_msgRcvdHandlerParameter self /\
  ic_msgRcvdHandler self' = ic_msgRcvdHandler self /\
  ic_presentation self' = ic_presentation self /\ ic_session self' = ic_session self /\
  ic_acse self' = ic_acse self /\ ic_securityToken self' = ic_securityToken self.

(** A connection that sends a message it has built is ready again. *)
Lemma send_chain_ready self build chain m a bs :
  ic_state self = ISO_CON_STATE_RUNNING -> cotp_ready (ic_cotp self) ->
  payload_room (ic_cotp self) RECEIVE_BUF_SIZE -> zlen m = SEND_BUF_SIZE ->
  build (ic_sendBuffer self) = Done (chain, m) -> carries m a chain bs -> bytes bs ->
  exists self', send_chain self build = Done (OK, self') /\ server_ready self' /\
    same_upper self self' /\ same_link (ic_cotp self) (ic_cotp self') /\
    so_tx (c_socket (ic_cotp self')) = so_tx (c_socket (ic_cotp self)) ++ frames_of (ic_cotp self) bs /\
    so_rx (c_socket (ic_cotp self')) = so_rx (c_socket (ic_cotp self)).
Proof.
  intros Hst Hr Hroom Hm Hbuild Hc Hb.
  destruct (send_chain_spec self build chain m a bs Hr Hbuild Hc Hb)
    as (c' & Hs & Hr' & Hl & Htx & Hrx & Hp).
  eexists. split; [exact Hs|]. split; [|by repeat (split; [done|])].
  split; [done|done| |done]. destruct Hroom as (m0 & s & E & Hm0). exists m0, s.
  split; [|done]. cbn. by rewrite Hp.
Qed.

Lemma data_chain_spec self out :
  zlen (ic_sendBuffer self) = SEND_BUF_SIZE -> slice (ic_sendBuffer self) 0 (zlen out) = out ->
  out <> [] -> zlen out <= CONFIG_MMS_MAXIMUM_PDU_SIZE ->
  exists chain m a, data_chain self (zlen out) (ic_sendBuffer self) = Done (chain, m) /\
    zlen m = SEND_BUF_SIZE /\
    carries m a chain (data_bytes (mmsContextId (ic_presentation self)) out).
Proof.
  intros Hz Hs Hne%zlen_pos Hmax. unfold SEND_BUF_SIZE, CONFIG_MMS_MAXIMUM_PDU_SIZE in *.
  pose proof (carries_block (ic_sendBuffer self) (zlen out) (zlen out) (zlen out) Hne
    ltac:(lia) eq_refl) as Hc. rewrite Hs in Hc.
  set (n := zlen (user_data_bytes (mmsContextId (ic_presentation self)) (zlen out)) + zlen out).
  destruct (data_layers (ic_presentation self) _ _ _ out
    (new_part (zlen out) (SEND_BUF_SIZE - zlen out)) (new_part n (SEND_BUF_SIZE - n)) Hc)
    as (c1 & c2 & m' & a' & H1 & Hlen & _ & H2 & Hz' & Hc2);
    [done|lia|unfold pres_room; lia|lia|].
  exists c2, m', a'. split; [|split; [lia|done]].
  unfold data_chain, wbind, wlift, BufferChain_init. rewrite H1. cbn [rbind]. rewrite Hlen.
  cbn [rbind]. fold n. by rewrite H2.
Qed.

(** A round that receives a whole message goes on with it, everything else being
    as before. *)
Lemma server_receive fuel self e bs rest :
  server_ready self -> incoming (ic_cotp self) (2 ^ e) bs rest -> 2 <= e <= 13 ->
  (length (dt_frames (2 ^ e) bs) <= fuel)%nat -> zlen bs <= RECEIVE_BUF_SIZE ->
  exists c, let self1 := refresh (ic_set_cotp c self) in
    handleTcpConnection_body fuel self = handle_data_indication fuel self1 /\
    message_is (c_payload c) bs /\ payload_room c RECEIVE_BUF_SIZE /\ cotp_ready c /\
    same_link (ic_cotp self) c /\ so_rx (c_socket c) = rest /\
    so_tx (c_socket c) = so_tx (c_socket (ic_cotp self)).
Proof.
  intros [Hst Hready Hroom Hz] Hin He Hf Hlen.
  set (c0 := set_payload (ByteBuffer_wrap (bb_buffer (c_payload (ic_cotp self))) 0 RECEIVE_BUF_SIZE)
               (ic_cotp self)).
  assert (payload_room c0 RECEIVE_BUF_SIZE) as Hroom0.
  { destruct Hroom as (m & s & E & Hm). exists m, 0. unfold c0. by rewrite E. }
  assert (cotp_ready c0) as Hready0.
  { destruct Hready as (mem & Hcan & E). exists mem. split; [done|]. unfold c0. by rewrite E. }
  destruct (transport_receive fuel c0 e _ rest RECEIVE_BUF_SIZE Hin He) as
    (c1 & Hp & Hmsg & Hroom1 & Hrx1 & Hready1 & Hlink1 & Htx1 & _); [|done|done|done|].
  { destruct Hready0 as (mem & _ & ->). done. }
  exists c1. split; [|by auto 10].
  unfold handleTcpConnection_body. fold c0. by rewrite Hp.
Qed.

(** One round of the thread on a data message: the handler gets exactly the
    request and its answer leaves as a data message. *)
Lemma server_data_round fuel self e req rest h' out :
  server_ready self -> incoming (ic_cotp self) (2 ^ e)
    (data_bytes (mmsContextId (ic_presentation self)) req) rest ->
  2 <= e <= 13 -> (length (dt_frames (2 ^ e)
    (data_bytes (mmsContextId (ic_presentation self)) req)) <= fuel)%nat ->
  0 <= mmsContextId (ic_presentation self) < 256 ->
  zlen req <= CONFIG_MMS_MAXIMUM_PDU_SIZE -> zlen out <= CONFIG_MMS_MAXIMUM_PDU_SIZE ->
  bytes out -> out <> [] ->
  answers (ic_msgRcvdHandler self) (ic_msgRcvdHandlerParameter self) req h' out ->
  exists self', handleTcpConnection_body fuel self = Done self' /\ server_ready self' /\
    ic_msgRcvdHandlerParameter self' = h' /\ ic_msgRcvdHandler self' = ic_msgRcvdHandler self /\
    mmsContextId (ic_presentation self') = mmsContextId (ic_presentation self) /\
    same_link (ic_cotp self) (ic_cotp self') /\
    so_rx (c_socket (ic_cotp self')) = rest /\
    so_tx (c_socket (ic_cotp self')) = so_tx (c_socket (ic_cotp self)) ++
      frames_of (ic_cotp self) (data_bytes (mmsContextId (ic_presentation self)) out).
Proof.
  intros Hr Hin He Hf Hctx Hreq Hout Hb Hne Hans. pose proof Hr as [Hst _ _ Hz].
  set (ctx := mmsContextId (ic_presentation self)) in *.
  pose proof (zlen_data_bytes ctx req) as Hlen.
  destruct (server_receive fuel self e _ rest Hr Hin He Hf) as
    (c1 & -> & Hmsg & Hroom1 & Hready1 & Hlink1 & Hrx1 & Htx1);
    [unfold RECEIVE_BUF_SIZE, CONFIG_MMS_MAXIMUM_PDU_SIZE in *; lia|].
  set (self1 := refresh (ic_set_cotp c1 self)).
  destruct (data_parse (ic_session self1) (ic_presentation self1) (c_payload c1) ctx req)
    as (s' & p' & Hs & Hpp & Hnext & Hpay & Hmms & Hacse);
    [unfold pres_room, CONFIG_MMS_MAXIMUM_PDU_SIZE in *; pose proof (zlen_nonneg req); lia|done|].
  unfold handle_data_indication. change (CotpConnection_getPayload (ic_cotp self1)) with (c_payload c1).
  rewrite Hs. cbn [rbind]. unfold handle_session_data.
  change (ic_presentation (ic_set_session s' self1)) with (ic_presentation self1). rewrite Hpp.
  cbn [rbind Z.eqb Pos.eqb].
  assert (mmsContextId p' = ctx) as Hmms' by (rewrite Hmms; done).
  rewrite Hnext, Hmms', u8_small, Z.eqb_refl by lia.
  set (self2 := ic_set_presentation p' (ic_set_session s' self1)).
  destruct (call_handler_answers self2 (nextPayload p') req h' out) as (m' & Hcall & Hz' & Hs');
    [done|done|done|]. rewrite Hcall. cbn [rbind].
  rewrite (proj2 (Z.ltb_lt 0 (zlen out))) by (by apply zlen_pos).
  set (self3 := ic_set_sendBuffer m' (ic_set_parameter h' self2)).
  destruct (data_chain_spec self3 out) as (chain & m3 & a & Hbuild & Hz3 & Hc); [done..|].
  destruct (send_chain_ready self3 (data_chain self3 (zlen out)) chain m3 a
    (data_bytes (mmsContextId p') out)) as (self4 & Hsend & Hr4 & Hp4 & Hlink4 & Htx4 & Hrx4);
    try done; [by apply bytes_data_bytes|].
  rewrite Hsend. cbn [rbind]. exists self4. split; [done|]. split; [done|].
  destruct Hp4 as (-> & -> & -> & _). split; [done|]. split; [done|]. split; [done|].
  split; [by transitivity c1|]. split; [by rewrite Hrx4|].
  rewrite Htx4, Hmms'. change (ic_cotp self3) with c1. by rewrite Htx1, (frames_of_link _ _ _ Hlink1).
Qed.
End Server.

(** * The client *)

Section Client.
Context {C : Type}.
Implicit Types (self : IsoClientConnection C).

(** An associated client: the transport is ready, the layers exist. *)
Record client_ready (self : IsoClientConnection C) (cotp : CotpConnection)
    (presentation : IsoPresentation) (session : IsoSession) : Prop := mk_client_ready {
  cr_cotp : cc_cotpConnection self = Some cotp;
  cr_presentation : cc_presentation self = Some presentation;
  cr_session : cc_session self = Some session;
  cr_ready : cotp_ready cotp;
  cr_receive : payload_room cotp ISO_CLIENT_BUFFER_SIZE;
  cr_send : zlen (cc_sendBuffer self) = ISO_CLIENT_BUFFER_SIZE }.

(** A message at the start of the transmit buffer leaves as a data message, and
    the transmit buffer is free again. *)
Lemma client_send_spec self cotp presentation session req :
  client_ready self cotp presentation session ->
  slice (cc_sendBuffer self) 0 (zlen req) = req -> req <> [] -> bytes req ->
  zlen req <= CONFIG_MMS_MAXIMUM_PDU_SIZE ->
  exists self' cotp',
    IsoClientConnection_sendMessage self (InBlock 0) (zlen req) = Done self' /\
    client_ready self' cotp' presentation session /\ same_link cotp cotp' /\
    so_tx (c_socket cotp') = so_tx (c_socket cotp) ++
      frames_of cotp (data_bytes (mmsContextId presentation) req) /\
    so_rx (c_socket cotp') = so_rx (c_socket cotp) /\
    cc_callback self' = cc_callback self /\
    cc_callbackParameter self' = cc_callbackParameter self /\
    cc_receiveBufferMutex self' = cc_receiveBufferMutex self /\
    cc_transmitBufferMutex self' = cc_transmitBufferMutex self + 1.
Proof.
  intros [H1 H2 H3 H4 H5 H6] Hs Hne Hb Hmax. pose proof (zlen_pos _ Hne) as Hpos.
  unfold ISO_CLIENT_BUFFER_SIZE, CONFIG_MMS_MAXIMUM_PDU_SIZE in *.
  pose proof (carries_block (cc_sendBuffer self) (zlen req) (zlen req) (zlen req) Hpos
    ltac:(lia) eq_refl) as Hc. rewrite Hs in Hc.
  destruct (data_layers presentation _ _ _ req (new_part (zlen req) ISO_CLIENT_BUFFER_SIZE)
    (new_part 0 0) Hc) as (c1 & c2 & m' & a' & B1 & _ & _ & B2 & Hz & Hc2);
    [done|lia|unfold pres_room; lia|lia|].
  destruct (transport_send cotp m' a' c2 _ H4 Hc2) as (cotp' & Hsend & Hready & Hlink & Htx & Hrx & Hp);
    [by apply bytes_data_bytes|].
  unfold IsoClientConnection_sendMessage, client_send. rewrite H2. cbn [defined rbind].
  unfold client_data_chain, wbind, wlift, BufferChain_init.
  rewrite B1. cbn [rbind]. rewrite B2. cbn [rbind]. rewrite H1. cbn [defined rbind].
  rewrite Hsend. cbn [rbind]. eexists _, cotp'. split; [done|].
  split; [|split; [done|by repeat (split; [done|])]].
  split; cbn; try done.
  - destruct H5 as (m & s & E & Hm). exists m, s. by rewrite Hp.
  - unfold ISO_CLIENT_BUFFER_SIZE, CONFIG_MMS_MAXIMUM_PDU_SIZE. by rewrite Hz.
Qed.

(** What the callback makes of a data indication. *)
Definition delivers (f : IsoIndicationCallback C) (p : C) (bs : list Z) (p' : C) : Prop :=
  forall b, message_is b bs -> f ISO_IND_DATA p (Some b) = Done p'.

(** One round of the thread on a data message: the callback gets exactly the data
    and the receive buffer is held until it is released. *)
Lemma client_data_round fuel self cotp presentation session e ctx out rest p' :
  client_ready self cotp presentation session -> 0 < cc_receiveBufferMutex self ->
  incoming cotp (2 ^ e) (data_bytes ctx out) rest -> 2 <= e <= 13 ->
  (length (dt_frames (2 ^ e) (data_bytes ctx out)) <= fuel)%nat ->
  zlen out <= CONFIG_MMS_MAXIMUM_PDU_SIZE ->
  delivers (cc_callback self) (cc_callbackParameter self) out p' ->
  exists self' cotp' presentation' session',
    connectionHandlingThread_round fuel self = Done self' /\
    client_ready self' cotp' presentation' session' /\
    cc_callbackParameter self' = p' /\
    mmsContextId presentation' = mmsContextId presentation /\
    cc_receiveBufferMutex self' = cc_receiveBufferMutex self - 1 /\
    so_rx (c_socket cotp') = rest /\ same_link cotp cotp'.
Proof.
  intros [H1 H2 H3 H4 H5 H6] Hm Hin He Hf Hmax Hcb. pose proof (zlen_data_bytes ctx out).
  unfold ISO_CLIENT_BUFFER_SIZE, CONFIG_MMS_MAXIMUM_PDU_SIZE in *.
  assert (so_open (c_socket cotp) = true) as Hopen by (destruct H4 as (mem & _ & ->); done).
  destruct (transport_receive fuel cotp e _ rest _ Hin He Hopen H5 ltac:(lia) Hf)
    as (c1 & Hp & Hmsg & Hroom1 & Hrx1 & Hready1 & Hlink1 & _ & _).
  destruct (data_parse session presentation (c_payload c1) ctx out)
    as (s' & p1 & Hs & Hpp & _ & Hpay & Hmms & _);
    [unfold pres_room; pose proof (zlen_nonneg out); lia|done|].
  unfold connectionHandlingThread_round, Semaphore_wait. rewrite (proj2 (Z.ltb_lt _ _)) by done.
  cbn [rbind]. cbn [cc_cotpConnection cc_session cc_presentation cc_set_receive].
  rewrite H1, H2, H3. cbn [defined rbind]. rewrite Hp. cbn [rbind negb].
  rewrite bool_decide_true by done. cbn [negb].
  change (CotpConnection_getPayload c1) with (c_payload c1). rewrite Hs. cbn [rbind].
  rewrite bool_decide_true by done. cbn [negb]. rewrite Hpp. cbn [rbind Z.eqb].
  unfold call_back. cbn [cc_callback cc_callbackParameter cc_set_layers cc_set_receive].
  rewrite (Hcb _ Hpay). cbn [rbind].
  eexists _, c1, p1, s'. split; [done|]. split; [split; try done; by apply Hready1|].
  by repeat (split; [done|]).
Qed.
End Client.

(** * Request and response *)

Lemma cotp_ready_exponent c :
  cotp_ready c ->
  2 <= tpdu_size (c_options c) <= 13 /\ CotpConnection_getTpduSize c = 2 ^ tpdu_size (c_options c).
Proof.
  intros (mem & [H _] & _). split; [done|].
  unfold CotpConnection_getTpduSize. apply Z.shiftl_1_l.
Qed.

Section RequestResponse.
Context {H C : Type}.

(** C2: Client and server together.  An MMS message that the client sends leaves in
    the TPDUs of the transport; when they arrive, however TCP cuts their user
    data, one round of the server thread hands exactly the message to the MMS
    handler and sends its answer; when that arrives, one round of the client
    thread hands exactly the answer to the callback.  Both ends are then ready
    for the next exchange, the transmit buffer is free and the receive buffer is
    held until the callback's owner releases it. *)
Theorem IsoStack_request_response (client : IsoClientConnection C) cotp presentation session
    (server : IsoConnection H) req out h' p' fuel rest1 rest2 :
  let ctx := mmsContextId presentation in
  client_ready client cotp presentation session -> server_ready server ->
  mmsContextId (ic_presentation server) = ctx -> 0 <= ctx < 256 ->
  slice (cc_sendBuffer client) 0 (zlen req) = req ->
  bytes req -> req <> [] -> zlen req <= CONFIG_MMS_MAXIMUM_PDU_SIZE ->
  bytes out -> out <> [] -> zlen out <= CONFIG_MMS_MAXIMUM_PDU_SIZE ->
  answers (ic_msgRcvdHandler server) (ic_msgRcvdHandlerParameter server) req h' out ->
  delivers (cc_callback client) (cc_callbackParameter client) out p' ->
  0 < cc_receiveBufferMutex client ->
  incoming (ic_cotp server) (CotpConnection_getTpduSize cotp) (data_bytes ctx req) rest1 ->
  incoming cotp (CotpConnection_getTpduSize (ic_cotp server)) (data_bytes ctx out) rest2 ->
  (length (frames_of cotp (data_bytes ctx req)) <= fuel)%nat ->
  (length (frames_of (ic_cotp server) (data_bytes ctx out)) <= fuel)%nat ->
  exists client1 cotp1 server1 client2 cotp2 presentation2 session2,
    IsoClientConnection_sendMessage client (InBlock 0) (zlen req) = Done client1 /\
    cc_cotpConnection client1 = Some cotp1 /\
    so_tx (c_socket cotp1) = so_tx (c_socket cotp) ++ frames_of cotp (data_bytes ctx req) /\
    handleTcpConnection_body fuel server = Done server1 /\
    ic_msgRcvdHandlerParameter server1 = h' /\ server_ready server1 /\
    so_tx (c_socket (ic_cotp server1)) = so_tx (c_socket (ic_cotp server)) ++
      frames_of (ic_cotp server) (data_bytes ctx out) /\
    connectionHandlingThread_round fuel client1 = Done client2 /\
    cc_callbackParameter client2 = p' /\ client_ready client2 cotp2 presentation2 session2 /\
    mmsContextId presentation2 = ctx /\
    cc_transmitBufferMutex client1 = cc_transmitBufferMutex client + 1 /\
    cc_receiveBufferMutex client2 = cc_receiveBufferMutex client - 1.
Proof.
  intros ctx Hcl Hsv Hctx Hr Hreq Hb1 Hn1 Hl1 Hb2 Hn2 Hl2 Hans Hdel Hmut Hin1 Hin2 Hf1 Hf2.
  destruct (cotp_ready_exponent _ (cr_ready _ _ _ _ Hcl)) as [He1 Es1].
  destruct (cotp_ready_exponent _ (sr_cotp _ Hsv)) as [He2 Es2].
  unfold frames_of in Hf1, Hf2. rewrite length_fmap in Hf1, Hf2.
  rewrite Es1 in Hin1, Hf1. rewrite Es2 in Hin2, Hf2.
  destruct (client_send_spec client cotp presentation session req Hcl Hreq Hn1 Hb1 Hl1)
    as (cl1 & cotp1 & S1 & Hcl1 & _ & Htx1 & Hrx1 & Hcb1 & Hp1 & Hm1 & Hm2).
  rewrite <- Hctx in Hin1, Hf1. rewrite <- Hctx in Hr.
  destruct (server_data_round fuel server _ req rest1 h' out Hsv Hin1 He1 Hf1 Hr Hl1 Hl2 Hb2 Hn2 Hans)
    as (sv1 & S2 & Hsv1 & Hh & _ & _ & _ & _ & Htx2). rewrite Hctx in Htx2.
  assert (incoming cotp1 (2 ^ tpdu_size (c_options (ic_cotp server))) (data_bytes ctx out) rest2) as Hin3.
  { destruct Hin2 as (rx & Hd & Hrx). exists rx. split; [done|]. by rewrite Hrx1. }
  destruct (client_data_round fuel cl1 cotp1 presentation session
    (tpdu_size (c_options (ic_cotp server))) ctx out rest2 p' Hcl1)
    as (cl2 & cotp2 & p2 & s2 & S3 & Hcl2 & Hp2 & Hmms2 & Hm3 & _); try done.
  { by rewrite Hm1. }
  { by rewrite Hcb1, Hp1. }
  exists cl1, cotp1, sv1, cl2, cotp2, p2, s2.
  split; [done|]. split; [by destruct Hcl1|]. repeat (split; [done|]).
  by rewrite Hm3, Hm1.
Qed.
End RequestResponse.

(** An associated pair with TPDUs of eight bytes: the client has the request
    [1; 2; 3] in its transmit buffer, the server's handler answers every request
    with [9] and counts the requests, the client's callback counts the answers. *)
Definition small_cotp (rx : list rx_event) : CotpConnection :=
  mkCotp 0 0 0 0 (mkSocket true rx [] []) (mkOptions 0 0 3) true
    (mkByteBuffer (Some (mk_ptr (replicate (Z.to_nat RECEIVE_BUF_SIZE) 0) 0)) RECEIVE_BUF_SIZE 0)
    (Some (mkByteBuffer (Some (mk_ptr (replicate 12 0) 0)) (zlen (replicate 12 0)) 0)).

Definition small_presentation : IsoPresentation := set_mmsContextId 3 IsoPresentation_calloc.

Definition nine_handler : MessageReceivedHandler Z := fun h _ response =>
  let! p := defined (bb_buffer response) in
  Done (h + 1, ByteBuffer_wrap (Some (mk_ptr (splice (p_mem p) 0 [9]) 0)) 1 SEND_BUF_SIZE).

Definition small_server : IsoConnection Z :=
  mkIsoConnection (replicate (Z.to_nat SEND_BUF_SIZE) 0) nine_handler 0 ISO_CON_STATE_RUNNING
    IsoSession_init small_presentation (small_cotp (whole_frames 8 (data_bytes 3 [1; 2; 3])))
    AcseConnection_calloc 0.

Definition small_client : IsoClientConnection Z :=
  mkClient (fun _ n _ => Done (n + 1)) 0 STATE_ASSOCIATED true
    (Some (small_cotp (whole_frames 8 (data_bytes 3 [9])))) (Some small_presentation)
    (Some IsoSession_init) AcseConnection_calloc
    (splice (replicate (Z.to_nat ISO_CLIENT_BUFFER_SIZE) 0) 0 [1; 2; 3]) 3 0 ByteBuffer_null 1 ThreadRunning.

Lemma zlen_zeros n : 0 <= n -> zlen (replicate (Z.to_nat n) (0 : Z)) = n.
Proof. intros. unfold zlen. rewrite length_replicate. lia. Qed.

Lemma small_cotp_ready rx : cotp_ready (small_cotp rx).
Proof. exists (replicate 12 0). split; [split; by_eval|done]. Qed.

Lemma small_cotp_room rx : payload_room (small_cotp rx) RECEIVE_BUF_SIZE.
Proof. eexists _, _. split; [reflexivity|]. rewrite zlen_zeros by done. lia. Qed.

Definition small_frames (bs : list Z) : nat := length (dt_frame <$> dt_frames 8 (data_bytes 3 bs)).

Lemma nine_answers h req : answers nine_handler h req (h + 1) [9].
Proof.
  intros b m _ Hm. exists (splice m 0 [9]). unfold nine_handler. simpl.
  assert (0 + zlen [9] <= zlen m) by (rewrite Hm; by_eval).
  split; [done|]. split; [by rewrite zlen_splice|by rewrite slice_splice].
Qed.

Lemma IsoStack_request_response_witness :
  exists client1 server1 client2,
    IsoClientConnection_sendMessage small_client (InBlock 0) 3 = Done client1 /\
    handleTcpConnection_body 9 small_server = Done server1 /\
    ic_msgRcvdHandlerParameter server1 = 1 /\
    connectionHandlingThread_round 9 client1 = Done client2 /\
    cc_callbackParameter client2 = 1.
Proof.
  assert (zlen (replicate (Z.to_nat ISO_CLIENT_BUFFER_SIZE) 0) = ISO_CLIENT_BUFFER_SIZE) as Hz
    by by apply zlen_zeros.
  assert (0 + zlen [1; 2; 3] <= ISO_CLIENT_BUFFER_SIZE) as Hfit by by_eval.
  destruct (IsoStack_request_response small_client
    (small_cotp (whole_frames 8 (data_bytes 3 [9]))) small_presentation IsoSession_init small_server
    [1; 2; 3] [9] 1 1 9 [] [])
    as (c1 & _ & s1 & c2 & _ & _ & _ & H1 & _ & _ & H2 & H3 & _ & _ & H4 & H5 & _).
  - constructor; [done|done|done|apply small_cotp_ready|apply small_cotp_room|].
    cbn [small_client cc_sendBuffer]. rewrite zlen_splice by (rewrite ?Hz; done). exact Hz.
  - constructor; [done|apply small_cotp_ready|apply small_cotp_room|by apply zlen_zeros].
  - done.
  - change (0 <= 3 < 256). lia.
  - cbn [small_client cc_sendBuffer]. apply slice_splice; rewrite ?Hz; done.
  - bytes_tac.
  - done.
  - change (3 <= 16000). lia.
  - bytes_tac.
  - done.
  - change (1 <= 16000). lia.
  - apply (nine_answers 0).
  - by intros b _.
  - done.
  - eexists. split; [apply delivered_whole|]. by rewrite app_nil_r.
  - eexists. split; [apply delivered_whole|]. by rewrite app_nil_r.
  - apply Nat.leb_le. change ((small_frames [1%Z; 2%Z; 3%Z] <=? 9) = true)%nat. reflexivity.
  - apply Nat.leb_le. change ((small_frames [9%Z] <=? 9) = true)%nat. reflexivity.
  - exists c1, s1, c2. by repeat (split; [done|]).
Defined.
