(* ===== verification/IsoAssociate.v ===== *)
(** Both ends of the ISO stack together: the association, from the first byte of
    the transport to the MMS handler and back. *)
From stdpp Require Import base tactics list numbers option.
From S2P Require Import Prelude Memory Buffers BerDecode BerEncode IsoParams ByteStream Cotp CotpFacts CotpConnect Session Layer SessionFacts Presentation PresentationFacts Acse AcseFacts IsoConnections IsoStack.

(** * The messages *)

(** A connect message for the MMS request [bs]: the association request in a
    presentation connect PDU in a session connect SPDU. *)
Definition acse_connect (params : IsoConnectionParameters) (password bs : list Z) : list Z :=
  let auth := ip_acseAuthParameter params in
  request_bytes params auth password (request_content params auth (zlen bs)) (zlen bs) ++ bs.

Definition presentation_connect (params : IsoConnectionParameters) (password bs : list Z) : list Z :=
  let data := acse_connect params password bs in
  connect_header params (zlen data) ++ data.

Definition connect_bytes (params : IsoConnectionParameters) (password bs : list Z) : list Z :=
  let data := presentation_connect params password bs in
  spdu_header 13 (connect_params (u16 (ip_localPSelector params)) (u16 (ip_remotePSelector params))
    2 (zlen data)) (zlen data) ++ data.

(** The accept message for the MMS response [bs]. *)
Definition presentation_accept (bs : list Z) : list Z :=
  let data := response_bytes ACSE_RESULT_ACCEPT (uint32_bytes 3) (zlen bs) ++ bs in
  cp_header accept_normal_bytes 1 (zlen data) ++ data.

Definition accept_bytes (called : Z) (bs : list Z) : list Z :=
  let data := presentation_accept bs in
  spdu_header 14 (accept_params 0 called 2 (zlen data)) (zlen data) ++ data.

Lemma bytes_spdu_header code params n : bytes params -> bytes (spdu_header code params n).
Proof. intros Hp. unfold spdu_header. bytes_tac. Qed.

Lemma bytes_word v : bytes (word_bytes v).
Proof. unfold word_bytes. bytes_tac. Qed.

#[local] Hint Resolve bytes_word : bytes.

Lemma bytes_cp_header params ctx n : bytes params -> bytes (cp_header params ctx n).
Proof.
  intros Hp. unfold cp_header, mode_bytes. bytes_tac. apply bytes_user_data.
Qed.

Lemma bytes_ap tt qt title titleLen q :
  is_byte tt -> is_byte qt -> bytes title -> 0 <= titleLen <= 10 ->
  bytes (ap_bytes tt qt title titleLen q).
Proof.
  intros H1 H2 H3 H4. unfold ap_bytes. pose proof (uint32_short q). destruct (0 <? titleLen); bytes_tac.
  by apply Forall_take.
Qed.

Lemma bytes_auth auth password : auth_ok auth password -> bytes (auth_bytes auth password).
Proof.
  intros Ha. unfold auth_bytes, auth_mech_password_oid. destruct auth as [p|]; [|apply bytes_nil].
  case_bool_decide as Hm; bytes_tac. by destruct (Ha Hm).
Qed.

Lemma bytes_user_info ref n : bytes ref -> bytes (user_info_bytes ref n).
Proof. intros Hr. unfold user_info_bytes. bytes_tac. Qed.

Lemma bytes_acse_connect params password bs :
  iso_params_wf params -> auth_ok (ip_acseAuthParameter params) password -> bytes bs ->
  bytes (acse_connect params password bs).
Proof.
  intros (H1 & H2 & H3 & H4 & H5 & H6 & _) Ha Hb.
  unfold acse_connect, request_bytes, request_elements, appContextNameMms.
  rewrite !bytes_app. split_and!; bytes_tac.
  - apply bytes_ap; (done || unfold is_byte; lia).
  - apply bytes_ap; (done || unfold is_byte; lia).
  - by apply bytes_auth.
  - apply bytes_user_info. bytes_tac.
Qed.

Lemma bytes_connect params password bs :
  iso_params_wf params -> auth_ok (ip_acseAuthParameter params) password -> bytes bs ->
  bytes (connect_bytes params password bs).
Proof.
  intros Hp Ha Hb. unfold connect_bytes, presentation_connect, connect_header. rewrite !bytes_app.
  split_and!; [|apply bytes_cp_header|by apply bytes_acse_connect].
  - apply bytes_spdu_header. unfold connect_params, connect_accept_item, param16_bytes. bytes_tac.
  - unfold connect_normal_bytes, selector_bytes, context_list_bytes, context_item_bytes.
    change (zlen asn_id_as_acse) with 4. change (zlen asn_id_mms) with 5.
    unfold asn_id_as_acse, asn_id_mms. bytes_tac.
Qed.

Lemma bytes_accept called bs : bytes bs -> bytes (accept_bytes called bs).
Proof.
  intros Hb. unfold accept_bytes, presentation_accept. rewrite !bytes_app.
  split_and!; [| | |done].
  - apply bytes_spdu_header. unfold accept_params, connect_accept_item, param16_bytes. bytes_tac.
  - apply bytes_cp_header. unfold accept_normal_bytes, calledPresentationSelector_bytes. bytes_tac.
  - unfold response_bytes, appContextNameMms. bytes_tac. apply bytes_user_info. bytes_tac.
Qed.

(** Messages that the one length octet of the session can count are short. *)
Lemma presentation_connect_room params password bs :
  zlen (presentation_connect params password bs) <= 233 -> zlen bs <= 233.
Proof.
  unfold presentation_connect, acse_connect. rewrite !zlen_app.
  match goal with |- ?a + (?b + _) <= _ -> _ => assert (0 <= a /\ 0 <= b) by (split; apply zlen_nonneg) end.
  lia.
Qed.

Lemma presentation_accept_room bs : zlen (presentation_accept bs) <= 237 -> zlen bs <= 237.
Proof.
  unfold presentation_accept. rewrite !zlen_app.
  match goal with |- ?a + (?b + _) <= _ -> _ => assert (0 <= a /\ 0 <= b) by (split; apply zlen_nonneg) end.
  lia.
Qed.

(** A short message is one TPDU. *)
Lemma dt_frames_one bs : zlen bs <= 8189 -> dt_frames 8192 bs = [(true, bs)].
Proof.
  intros Hz. unfold dt_frames, COTP_DATA_HEADER_SIZE, fragment_count.
  change (8192 - 3) with 8189. by rewrite (proj2 (Z.ltb_ge _ _)) by done.
Qed.

(** * The client's connect message *)

(** A part that describes a message at the start of the send block. *)
Lemma carries_start m bs n partMaxLength :
  slice m 0 n = bs -> n = zlen bs -> bs <> [] -> n <= zlen m ->
  carries m n [mkPart n n partMaxLength (InBlock 0)] bs.
Proof. intros Hs Hn Hne%zlen_pos Hm. rewrite <- Hs. apply carries_block; lia. Qed.

Lemma connect_chain_spec params password m bs :
  slice m 0 (zlen bs) = bs -> bs <> [] ->
  iso_params_wf params -> auth_ok (ip_acseAuthParameter params) password ->
  request_room (zlen bs) -> zlen bs + 4324 <= zlen m ->
  exists chain session m' a,
    connect_chain params (InBlock 0) (zlen bs) m
    = Done (chain, connecting params IsoPresentation_calloc, session, m') /\
    zlen m' = zlen m /\ carries m' a chain (connect_bytes params password bs).
Proof.
  intros Hs Hne Hp Ha Hn Hl. pose proof (zlen_nonneg bs).
  pose proof (request_content_range _ _ _ _ Hn Hp Ha) as Hcont.
  pose proof (zlen_request_bytes params (ip_acseAuthParameter params) password _ _ Hn Hp Ha Hcont) as Hz1.
  pose proof (carries_start m bs (zlen bs) 0 Hs eq_refl Hne ltac:(lia)) as Hc0.
  destruct (createAssociateRequest_spec params (new_part (zlen bs) (ISO_CLIENT_BUFFER_SIZE - zlen bs))
    _ _ password m (zlen bs) bs Hc0 eq_refl ltac:(lia) Hp Ha) as (c1 & B1 & Hc1); [lia|].
  set (h1 := request_bytes _ _ _ _ _) in *.
  change (h1 ++ bs) with (acse_connect params password bs) in Hc1.
  assert (zlen (acse_connect params password bs) = zlen bs + zlen h1) as Hz1'
    by (unfold acse_connect; fold h1; rewrite zlen_app; lia).
  rewrite <- Hz1' in Hc1. pose proof (zlen_nonneg h1).
  assert (zlen (splice m (zlen bs) h1) = zlen m) as Hm1 by (apply zlen_splice; lia).
  set (d1 := acse_connect params password bs) in *.
  destruct (createConnectPdu_spec (IsoPresentation_init IsoPresentation_calloc) params
    (new_part (zlen d1) (ISO_CLIENT_BUFFER_SIZE - zlen d1)) c1 _ (zlen d1) d1 Hc1 eq_refl ltac:(lia))
    as (c2 & B2 & Hc2); [lia|].
  pose proof (zlen_cp_header (connect_normal_bytes (ip_localPSelector params)
    (ip_remotePSelector params)) 1 (zlen d1)) as Hz2.
  fold (connect_header params (zlen d1)) in Hz2. rewrite zlen_connect_normal in Hz2.
  set (h2 := connect_header params (zlen d1)) in *.
  change (h2 ++ d1) with (presentation_connect params password bs) in Hc2.
  assert (zlen (presentation_connect params password bs) = zlen d1 + zlen h2) as Hz2'
    by (unfold presentation_connect; fold d1 h2; rewrite zlen_app; lia).
  rewrite <- Hz2' in Hc2. pose proof (zlen_nonneg h2).
  assert (zlen (splice (splice m (zlen bs) h1) (zlen d1) h2) = zlen m) as Hm2
    by (rewrite zlen_splice; lia).
  set (d2 := presentation_connect params password bs) in *.
  destruct (createConnectSpdu_spec IsoSession_init params (new_part (zlen d2) 0) c2 _ (zlen d2) d2
    Hc2 eq_refl ltac:(lia)) as (c3 & B3 & Hc3); [lia|].
  eexists c3, _, _, _. split; [|split; [|exact Hc3]].
  - unfold connect_chain. unfold wbind at 1. rewrite B1. cbn [rbind].
    rewrite (wbind_wlift _ _ _ _ (carries_length _ _ _ _ Hc1)).
    unfold wbind at 1. rewrite B2. cbn [rbind].
    rewrite (wbind_wlift _ _ _ _ (carries_length _ _ _ _ Hc2)).
    unfold wbind at 1. rewrite B3. reflexivity.
  - rewrite zlen_splice; [done|lia|]. rewrite Hm2.
    change (zlen (spdu_header 13 _ _)) with 24. lia.
Qed.

(** * The server *)

(** What the authenticator says to the client's credentials. *)
Definition decides (self : AcseConnection) (auth : option AcseAuthenticationParameter)
    (password : list Z) (ok : bool) (token : Z) : Prop :=
  forall param, credentials auth password param -> verdict self param = (ok, token).

Section Server.
Context {H : Type}.
Implicit Types (self : IsoConnection H).

Lemma accept_chain_spec self out :
  zlen (ic_sendBuffer self) = SEND_BUF_SIZE -> slice (ic_sendBuffer self) 0 (zlen out) = out ->
  out <> [] -> zlen out <= CONFIG_MMS_MAXIMUM_PDU_SIZE - 100 ->
  acseContextId (ic_presentation self) = 1 -> nextReference (ic_acse self) = 3 ->
  protocolOptions (ic_session self) = 0 -> sessionRequirement (ic_session self) = 2 ->
  exists chain m a, accept_chain self (zlen out) (ic_sendBuffer self) = Done (chain, m) /\
    zlen m = SEND_BUF_SIZE /\
    carries m a chain (accept_bytes (calledSessionSelector (ic_session self)) out).
Proof.
  intros Hm Hs Hne Hmax Hid Href Hopt Hreq. pose proof (zlen_nonneg out).
  unfold SEND_BUF_SIZE, CONFIG_MMS_MAXIMUM_PDU_SIZE in *.
  set (m := ic_sendBuffer self) in *. assert (acse_room (zlen out)) as Hroom by (unfold acse_room; lia).
  pose proof (carries_start m out (zlen out) (zlen out) Hs eq_refl Hne ltac:(lia)) as Hc0.
  pose proof (zlen_response_bytes ACSE_RESULT_ACCEPT (uint32_bytes 3) (zlen out) Hroom
    (zlen_uint32_bytes 3)) as Hz1.
  destruct (createAssociateResponse_spec (ic_acse self) ACSE_RESULT_ACCEPT
    (new_part (zlen out) (16000 + 100 - zlen out)) _ m (zlen out) out Hc0 eq_refl ltac:(lia))
    as (c1 & B1 & Hc1); rewrite Href in *; change (u32 3) with 3 in *; [lia|].
  set (h1 := response_bytes _ _ _) in *. pose proof (zlen_nonneg h1).
  assert (zlen (h1 ++ out) = zlen out + zlen h1) as Hz1' by (rewrite zlen_app; lia).
  rewrite <- Hz1' in Hc1.
  assert (zlen (splice m (zlen out) h1) = zlen m) as Hm1 by (apply zlen_splice; lia).
  destruct (createCpa_spec (ic_presentation self)
    (new_part (zlen (h1 ++ out)) (16000 + 100 - zlen (h1 ++ out))) c1 _ _ (h1 ++ out) Hc1 eq_refl ltac:(lia))
    as (c2 & B2 & Hc2); [lia|]. unfold accept_header in *. rewrite Hid in *.
  pose proof (zlen_cp_header accept_normal_bytes 1 (zlen (h1 ++ out))) as Hz2.
  rewrite zlen_accept_normal in Hz2.
  set (h2 := cp_header accept_normal_bytes 1 (zlen (h1 ++ out))) in *.
  change (h2 ++ h1 ++ out) with (presentation_accept out) in Hc2. pose proof (zlen_nonneg h2).
  assert (zlen (presentation_accept out) = zlen (h1 ++ out) + zlen h2) as Hz2'
    by (unfold presentation_accept; fold h1 h2; rewrite zlen_app; lia).
  rewrite <- Hz2' in Hc2.
  assert (zlen (splice (splice m (zlen out) h1) (zlen (h1 ++ out)) h2) = zlen m) as Hm2
    by (rewrite zlen_splice; lia).
  set (d2 := presentation_accept out) in *.
  destruct (createAcceptSpdu_spec (ic_session self) (new_part (zlen d2) (16000 + 100 - zlen d2)) c2 _ _
    d2 Hc2 eq_refl ltac:(lia)) as (c3 & B3 & Hc3); [lia|]. rewrite Hopt, Hreq in *.
  eexists c3, _, _. split; [|split; [|exact Hc3]].
  - unfold accept_chain, SEND_BUF_SIZE, CONFIG_MMS_MAXIMUM_PDU_SIZE, BufferChain_init.
    unfold wbind at 1. rewrite B1. cbn [rbind].
    rewrite (wbind_wlift _ _ _ _ (carries_length _ _ _ _ Hc1)).
    unfold wbind at 1. rewrite B2. cbn [rbind].
    rewrite (wbind_wlift _ _ _ _ (carries_length _ _ _ _ Hc2)). exact B3.
  - rewrite zlen_splice; [lia|lia|]. rewrite Hm2.
    change (zlen (spdu_header 14 _ _)) with 20. lia.
Qed.
(** What is fixed when the connect message has been parsed. *)
Lemma handle_session_connect_parse fuel self b params password req ok token :
  iso_params_wf params -> auth_ok (ip_acseAuthParameter params) password ->
  request_room (zlen req) -> (9 <= fuel)%nat ->
  decides (ic_acse self) (ip_acseAuthParameter params) password ok token ->
  message_is b (presentation_connect params password req) ->
  exists p a, let self1 := ic_set_acse a token (ic_set_presentation p self) in
    acseContextId p = 1 /\ mmsContextId p = 3 /\ nextReference a = 3 /\ securityToken a = token /\
    message_is (ByteBuffer_wrap (userDataBuffer a) (userDataBufferSize a) (userDataBufferSize a)) req /\
    handle_session_connect fuel self b
    = if ok then
        let! (size, self2) := call_handler self1
          (ByteBuffer_wrap (userDataBuffer a) (userDataBufferSize a) (userDataBufferSize a)) in
        if 0 <? size then
          let! (_, self3) := send_chain self2 (accept_chain self2 size) in Done self3
        else Done self2
      else Done (ic_set_state ISO_CON_STATE_STOPPED self1).
Proof.
  intros Hp Ha Hn Hf Hdec Hb. pose proof (request_content_range _ _ _ _ Hn Hp Ha) as Hcont.
  pose proof (zlen_request_bytes params (ip_acseAuthParameter params) password _ _ Hn Hp Ha Hcont) as Hz.
  unfold presentation_connect in Hb. set (data := acse_connect params password req) in *.
  assert (pres_room (zlen data)) as Hroom.
  { unfold pres_room, request_room in *. unfold data, acse_connect. rewrite zlen_app.
    pose proof (zlen_nonneg (request_bytes params (ip_acseAuthParameter params) password
      (request_content params (ip_acseAuthParameter params) (zlen req)) (zlen req))). lia. }
  destruct fuel as [|[|[|[|f]]]]; [lia..|].
  destruct (parseConnect_holds f (ic_presentation self) b _ _ _ _ Hroom Hb)
    as (p & E1 & Hacse & Hmms & _ & Hpay).
  destruct (parseMessage_request (S (S (S (S f)))) (ic_acse self) (nextPayload p) params
    (ip_acseAuthParameter params) password _ req Hn Hp Ha Hcont Hf Hpay)
    as (ptr & q & param & _ & Hh & Hcred & E2).
  rewrite (Hdec param Hcred) in E2. cbn [fst snd] in E2.
  exists p. eexists. split; [done|]. split; [done|]. split; [|split; [|split; [|]]];
    [| | |unfold handle_session_connect; rewrite E1; cbn [rbind Z.eqb];
      change (ic_acse (ic_set_presentation p self)) with (ic_acse self); rewrite E2; cbn [rbind];
      destruct ok; [rewrite bool_decide_true by done|rewrite bool_decide_false by done]; reflexivity].
  - done.
  - done.
  - apply (got_user_data_is (ic_acse self) [3] ptr q req) in Hh as (Hsz & p' & Hp' & Hh).
    split; [done|]. exists p'. done.
Qed.

(** One round of a new connection on a connect message: with the authenticator's
    consent the MMS handler gets exactly the client's request, its answer leaves
    in an accept message, and the connection is ready for data; without it the
    handler is not called, nothing is sent and the connection stops. *)
Lemma server_associate_round fuel self e params password req rest ok token h' out :
  server_ready self -> incoming (ic_cotp self) (2 ^ e) (connect_bytes params password req) rest ->
  2 <= e <= 13 -> (length (dt_frames (2 ^ e) (connect_bytes params password req)) <= fuel)%nat ->
  (9 <= fuel)%nat -> iso_params_wf params -> auth_ok (ip_acseAuthParameter params) password ->
  zlen (presentation_connect params password req) <= 233 ->
  decides (ic_acse self) (ip_acseAuthParameter params) password ok token ->
  answers (ic_msgRcvdHandler self) (ic_msgRcvdHandlerParameter self) req h' out ->
  bytes out -> out <> [] -> zlen out <= CONFIG_MMS_MAXIMUM_PDU_SIZE - 100 ->
  exists self', handleTcpConnection_body fuel self = Done self' /\
    ic_securityToken self' = token /\ ic_msgRcvdHandler self' = ic_msgRcvdHandler self /\
    if ok then
      server_ready self' /\ ic_msgRcvdHandlerParameter self' = h' /\
      mmsContextId (ic_presentation self') = 3 /\ same_link (ic_cotp self) (ic_cotp self') /\
      so_rx (c_socket (ic_cotp self')) = rest /\
      so_tx (c_socket (ic_cotp self')) = so_tx (c_socket (ic_cotp self)) ++
        frames_of (ic_cotp self) (accept_bytes (u16 (ip_remotePSelector params)) out)
    else
      ic_state self' = ISO_CON_STATE_STOPPED /\
      ic_msgRcvdHandlerParameter self' = ic_msgRcvdHandlerParameter self /\
      so_tx (c_socket (ic_cotp self')) = so_tx (c_socket (ic_cotp self)).
Proof.
  intros Hr Hin He Hf Hf9 Hp Ha H233 Hdec Hans Hb Hne Hout. pose proof Hr as [Hst _ _ Hz].
  set (data := presentation_connect params password req) in *.
  assert (zlen (connect_bytes params password req) = 24 + zlen data) as Hlen
    by (unfold connect_bytes; fold data; rewrite zlen_app; done).
  assert (request_room (zlen req)) as Hroom.
  { apply presentation_connect_room in H233. unfold request_room. pose proof (zlen_nonneg req). lia. }
  destruct (server_receive fuel self e _ rest Hr Hin He Hf) as
    (c1 & -> & Hmsg & Hroom1 & Hready1 & Hlink1 & Hrx1 & Htx1);
    [unfold RECEIVE_BUF_SIZE, CONFIG_MMS_MAXIMUM_PDU_SIZE; lia|].
  set (self1 := refresh (ic_set_cotp c1 self)). unfold connect_bytes in Hmsg. fold data in Hmsg.
  apply (parseMessage_connect (ic_session self1)) in Hmsg; [|apply u16_bounds|apply u16_bounds|lia].
  rewrite (proj2 (Z.leb_le _ _)) in Hmsg by done.
  destruct Hmsg as (s' & Hs & Hcalled & _ & Hreq & Hopt & Hud).
  unfold handle_data_indication. change (CotpConnection_getPayload (ic_cotp self1)) with (c_payload c1).
  rewrite Hs. cbn [rbind]. change (IsoSession_getUserData s') with (s_userData s').
  destruct (handle_session_connect_parse fuel (ic_set_session s' self1) (s_userData s') params password
    req ok token Hp Ha Hroom Hf9) as (p & a & Hacse & Hmms & Href & _ & Hmreq & ->); [exact Hdec|done|].
  set (self2 := ic_set_acse a token (ic_set_presentation p (ic_set_session s' self1))).
  destruct ok; [|by eexists; repeat (split; [done|])].
  destruct (call_handler_answers self2 _ req h' out Hz Hmreq Hans) as (m' & -> & Hz' & Hs').
  cbn [rbind]. rewrite (proj2 (Z.ltb_lt 0 (zlen out))) by (by apply zlen_pos).
  set (self3 := ic_set_sendBuffer m' (ic_set_parameter h' self2)).
  destruct (accept_chain_spec self3 out) as (chain & m3 & ad & Hbuild & Hz3 & Hc); [done..|].
  destruct (send_chain_ready self3 (accept_chain self3 (zlen out)) chain m3 ad _ Hst Hready1 Hroom1 Hz3
    Hbuild Hc) as (self4 & -> & Hr4 & (Hu1 & Hu2 & Hu3 & _ & _ & Hu6) & Hlink4 & Htx4 & Hrx4);
    [by apply bytes_accept|].
  cbn [rbind]. exists self4. split; [done|]. split; [by rewrite Hu6|]. split; [by rewrite Hu2|].
  split; [done|]. split; [by rewrite Hu1|]. split; [by rewrite Hu3|].
  split; [by transitivity c1|]. split; [by rewrite Hrx4|].
  rewrite Htx4. change (ic_cotp self3) with c1. change (ic_session self3) with s'.
  by rewrite Htx1, (frames_of_link _ _ _ Hlink1), Hcalled.
Qed.
End Server.

(** ** The first round: the transport connection *)

Section ServerConnect.
Context {H : Type}.

Definition default_options (sel : Z) : CotpOptions := mkOptions 0 sel 13.

Lemma server_connect_round fuel socket_rx auth ap (handler : MessageReceivedHandler H) h
    receiveBuffer sendBuffer sel rest :
  socket_rx = RxData (cr_frame (default_options sel)) :: rest -> 0 <= sel < 65536 ->
  zlen receiveBuffer = RECEIVE_BUF_SIZE -> zlen sendBuffer = SEND_BUF_SIZE ->
  let self := IsoConnection_create (mkSocket true socket_rx [] []) auth ap handler h
                receiveBuffer sendBuffer in
  exists self', handleTcpConnection_body (S fuel) self = Done self' /\ server_ready self' /\
    ic_msgRcvdHandler self' = handler /\ ic_msgRcvdHandlerParameter self' = h /\
    authenticator (ic_acse self') = auth /\ authenticatorParameter (ic_acse self') = ap /\
    c_options (ic_cotp self') = default_options sel /\
    so_rx (c_socket (ic_cotp self')) = rest /\
    so_tx (c_socket (ic_cotp self')) = [cc_frame 2 0 0 (default_options sel)].
Proof.
  intros -> Hsel Hrb Hsb self. set (o := default_options sel).
  assert (options_wf o) as Hwf by (unfold options_wf, o; simpl; lia).
  set (c0 := set_payload (bb_set_size (ByteBuffer_wrap (Some (mk_ptr receiveBuffer 0)) 0 RECEIVE_BUF_SIZE) 0)
    (ic_cotp self)).
  set (c1 := on_wire (set_options o (set_protocolClass 0 (set_srcRef 2 (set_dstRef 0 c0)))) [] rest).
  destruct (allocate_spec c1) as (sm & Hsm & Hsa); [done|done|].
  change (2 ^ tpdu_size (c_options c1) + 4) with 8196 in Hsm.
  destruct (sendConnectionResponse_frame c1 sm 0 []) as (sm' & Hsm' & Hresp);
    first [exact Hsa|rewrite ?Hsm; first [lia|reflexivity|exact Hwf|split; reflexivity|idtac]].
  eexists. split.
  - unfold handleTcpConnection_body, CotpConnection_parseIncomingMessage.
    change (set_payload _ (set_payload _ (ic_cotp self))) with c0.
    rewrite (parse_cr_frame fuel c0 o rest) by done. cbn [rbind]. fold c1.
    unfold handle_connect_indication.
    change (ic_cotp (refresh (ic_set_cotp c1 self))) with c1. rewrite Hresp. cbn [rbind]. done.
  - split; [|by repeat (split; [reflexivity|])]. split; [reflexivity| | |exact Hsb].
    + exists sm'. split; [|reflexivity].
      unfold cotp_can_send. change (CotpConnection_getTpduSize _) with 8192. rewrite Hsm', Hsm.
      split; [change (2 <= 13 <= 13)|change (8192 + 4 <= 8196)]; lia.
    + eexists _, _. split; [reflexivity|]. by rewrite Hrb.
Qed.
End ServerConnect.

(** * The client *)

Section Client.
Context {C : Type}.
Implicit Types (self : IsoClientConnection C).

(** The transport handshake of the client. *)
Lemma client_handshake fuel params cotpBuf sel rest :
  ip_remoteTSelector params = sel -> 0 <= sel < 65536 -> zlen cotpBuf = ISO_CLIENT_BUFFER_SIZE ->
  exists c, transport_handshake (S fuel) params
      (mkSocket true (RxData (cc_frame 2 0 0 (default_options sel)) :: rest) [] []) cotpBuf
    = Done (CONNECT_INDICATION, c) /\
    cotp_ready c /\ payload_room c ISO_CLIENT_BUFFER_SIZE /\ c_options c = default_options sel /\
    so_rx (c_socket c) = rest /\ so_tx (c_socket c) = [cr_frame (default_options sel)].
Proof.
  intros Hs Hsel Hbuf. set (o := default_options sel).
  assert (options_wf o) as Hwf by (unfold options_wf, o; simpl; lia).
  set (c0 := CotpConnection_init Cotp_calloc
    (mkSocket true (RxData (cc_frame 2 0 0 o) :: rest) [] [])
    (ByteBuffer_wrap (Some (mk_ptr cotpBuf 0)) 0 ISO_CLIENT_BUFFER_SIZE)).
  destruct (allocate_spec c0) as (cm & Hcm & Hca); [done|done|].
  change (2 ^ tpdu_size (c_options c0) + 4) with 8196 in Hcm.
  destruct (sendConnectionRequest_frame c0 params cm 0 []) as (cm' & Hcm' & Hreq);
    first [exact Hca|rewrite ?Hcm, ?Hs; first [lia|reflexivity|change (1 <= 13 <= 13); lia|idtac]].
  rewrite Hs in Hreq. change (tpdu_size (c_options c0)) with 13 in *. fold (default_options sel) in Hreq.
  fold o in Hreq. eexists. split.
  - unfold transport_handshake. fold o c0. rewrite Hreq. cbn [rbind].
    unfold CotpConnection_parseIncomingMessage.
    apply (parse_cc_frame fuel _ 2 0 0 o rest); [reflexivity|exact Hwf|lia|lia|reflexivity].
  - split; [|split; [|by repeat (split; [reflexivity|])]].
    + exists cm'. split; [|reflexivity].
      unfold cotp_can_send. change (CotpConnection_getTpduSize _) with 8192. rewrite Hcm', Hcm.
      split; [change (2 <= 13 <= 13)|change (8192 + 4 <= 8196)]; lia.
    + eexists _, _. split; [reflexivity|]. by rewrite Hbuf.
Qed.

(** What the callback makes of the association. *)
Definition associates (f : IsoIndicationCallback C) (p : C) (bs : list Z) (p' : C) : Prop :=
  forall b, message_is b bs -> f ISO_IND_ASSOCIATION_SUCCESS p (Some b) = Done p'.

Lemma handle_connect_answer_spec fuel self cotp presentation session called out p' :
  message_is (c_payload cotp) (accept_bytes called out) -> 0 <= called < 65536 ->
  zlen (presentation_accept out) <= 237 -> (4 <= fuel)%nat ->
  associates (cc_callback self) (cc_callbackParameter self) out p' ->
  0 < cc_receiveBufferMutex self ->
  cotp_ready cotp -> payload_room cotp ISO_CLIENT_BUFFER_SIZE ->
  zlen (cc_sendBuffer self) = ISO_CLIENT_BUFFER_SIZE ->
  exists self' presentation' session',
    handle_connect_answer fuel self cotp presentation session = Done self' /\
    client_ready self' cotp presentation' session' /\ cc_state self' = STATE_ASSOCIATED /\
    cc_thread self' = ThreadRunning /\ cc_callbackParameter self' = p' /\
    mmsContextId presentation' = mmsContextId presentation /\
    cc_transmitBufferMutex self' = cc_transmitBufferMutex self /\
    cc_receiveBufferMutex self' = cc_receiveBufferMutex self - 1.
Proof.
  intros Hmsg Hcalled H237 Hf Hcb Hmut Hready Hroom Hsend.
  unfold accept_bytes in Hmsg. set (data := presentation_accept out) in *.
  apply (parseMessage_accept session) in Hmsg; [|done|lia].
  rewrite (proj2 (Z.leb_le _ _)) in Hmsg by done. destruct Hmsg as (s' & Hs & _ & _ & _ & Hud).
  unfold data, presentation_accept in Hud, H237.
  set (adata := response_bytes ACSE_RESULT_ACCEPT (uint32_bytes 3) (zlen out) ++ out) in *.
  rewrite zlen_app in H237. pose proof (zlen_nonneg (cp_header accept_normal_bytes 1 (zlen adata))).
  pose proof (zlen_nonneg adata). pose proof (zlen_nonneg out).
  assert (zlen out <= zlen adata) as Ho
    by (unfold adata; rewrite zlen_app; pose proof (zlen_nonneg (response_bytes ACSE_RESULT_ACCEPT (uint32_bytes 3) (zlen out))); lia).
  destruct fuel as [|[|[|[|f]]]]; [lia..|].
  destruct (parseAccept_holds (S f) presentation (s_userData s') 1 adata)
    as (p1 & Hpp & _ & Hmms & _ & Hpay); [unfold pres_room; lia|done|].
  destruct (parseMessage_response f (cc_acseConnection self) (nextPayload p1) ACSE_RESULT_ACCEPT
    (uint32_bytes 3) out) as (q & ptr & _ & Hacse & Hh);
    [unfold acse_room; lia|apply zlen_uint32_bytes|done|exact Hpay|].
  apply (got_user_data_is (cc_acseConnection self) (uint32_bytes 3)) in Hh as (Hsz & p2 & Hp2 & Hh).
  set (acse := got_user_info _ _ _ _ _) in *.
  unfold handle_connect_answer. change (CotpConnection_getPayload cotp) with (c_payload cotp).
  rewrite Hs. cbn [rbind]. rewrite bool_decide_true by done. cbn [negb].
  change (IsoSession_getUserData s') with (s_userData s'). rewrite Hpp. cbn [rbind Z.eqb].
  change (cc_acseConnection (cc_set_layers _ _ _ (cc_acseConnection ?x) _ _)) with (cc_acseConnection self).
  rewrite Hacse. cbn [rbind]. unfold Semaphore_wait. cbn [cc_receiveBufferMutex cc_set_layers].
  rewrite (proj2 (Z.ltb_lt _ _)) by done. cbn [rbind]. unfold call_back.
  cbn [cc_callback cc_callbackParameter cc_set_receive cc_set_layers].
  rewrite (Hcb (ByteBuffer_wrap (userDataBuffer acse) (userDataBufferSize acse) (userDataBufferSize acse)))
    by (split; [done|by exists p2]).
  cbn [rbind]. eexists _, p1, s'. split; [done|].
  split; [by constructor|]. by repeat (split; [done|]).
Qed.
(** [IsoClientConnection_associate] against a server that accepts. *)
Lemma client_associate_spec fuel self params password req out cotpBuf called p' crx crest :
  let sel := ip_remoteTSelector params in
  iso_params_wf params -> auth_ok (ip_acseAuthParameter params) password ->
  zlen (presentation_connect params password req) <= 233 -> zlen (presentation_accept out) <= 237 ->
  slice (cc_sendBuffer self) 0 (zlen req) = req -> bytes req -> req <> [] ->
  zlen (cc_sendBuffer self) = ISO_CLIENT_BUFFER_SIZE -> zlen cotpBuf = ISO_CLIENT_BUFFER_SIZE ->
  0 < cc_receiveBufferMutex self -> 0 <= called < 65536 ->
  associates (cc_callback self) (cc_callbackParameter self) out p' ->
  delivered (dt_frames 8192 (accept_bytes called out)) crx -> (8 <= fuel)%nat ->
  exists self' cotp presentation session,
    IsoClientConnection_associate (S fuel) self params
      (Some (mkSocket true (RxData (cc_frame 2 0 0 (default_options sel)) :: crx ++ crest) [] []))
      cotpBuf (InBlock 0) (zlen req) = Done self' /\
    so_tx (c_socket cotp) = [cr_frame (default_options sel)] ++
      (dt_frame <$> dt_frames 8192 (connect_bytes params password req)) /\
    cc_callbackParameter self' = p' /\ cc_state self' = STATE_ASSOCIATED /\
    cc_thread self' = ThreadRunning /\
    client_ready self' cotp presentation session /\ mmsContextId presentation = 3.
Proof.
  intros sel Hp Ha H233 H237 Hreq Hb Hne Hcs Hbuf Hmut Hcalled Hcb Hcrx Hf.
  assert (0 <= sel < 65536) as Hsel by (destruct Hp as (_ & _ & _ & _ & _ & _ & _ & _ & Ht & _); done).
  pose proof (presentation_connect_room _ _ _ H233) as Hroom.
  assert (zlen (accept_bytes called out) = 20 + zlen (presentation_accept out))
    as Hl2 by (unfold accept_bytes; rewrite zlen_app; done).
  destruct (client_handshake fuel params cotpBuf sel (crx ++ crest) eq_refl Hsel Hbuf)
    as (c1 & T1 & Hready1 & Hroom1 & Ho1 & Hrx1 & Htx1).
  destruct (connect_chain_spec params password (cc_sendBuffer self) req Hreq Hne Hp Ha)
    as (chain & sess & m & a & B & Hzm & Hc);
    [unfold request_room; pose proof (zlen_nonneg req); lia
    |rewrite Hcs; unfold ISO_CLIENT_BUFFER_SIZE, CONFIG_MMS_MAXIMUM_PDU_SIZE; lia|].
  destruct (transport_send c1 m a chain _ Hready1 Hc) as (c2 & T2 & Hready2 & Hl & Htx2 & Hrx2 & Hpay2);
    [by apply bytes_connect|].
  assert (payload_room c2 ISO_CLIENT_BUFFER_SIZE) as Hroom2
    by (destruct Hroom1 as (m0 & s & E & Hm0); exists m0, s; rewrite Hpay2; split; [exact E|exact Hm0]).
  assert (so_open (c_socket c2) = true) as Hopen by (destruct Hready2 as (mem & _ & ->); done).
  destruct (transport_receive (S fuel) c2 13 (accept_bytes called out) crest ISO_CLIENT_BUFFER_SIZE)
    as (c3 & T3 & Hmsg & Hroom3 & Hrx3 & Hready3 & Hl3 & Htx3 & _);
    [|lia|exact Hopen|exact Hroom2| | |].
  { exists crx. split; [done|]. by rewrite Hrx2. }
  { unfold ISO_CLIENT_BUFFER_SIZE, CONFIG_MMS_MAXIMUM_PDU_SIZE. lia. }
  { change (2 ^ 13) with 8192. rewrite dt_frames_one by lia. simpl. lia. }
  unfold IsoClientConnection_associate. rewrite T1. cbn [rbind]. rewrite bool_decide_true by done.
  cbn [negb cc_sendBuffer cc_set_layers cc_set_status]. rewrite B. cbn [rbind]. rewrite T2. cbn [rbind].
  rewrite T3. cbn [rbind]. rewrite bool_decide_true by done. cbn [negb].
  match goal with |- context [handle_connect_answer _ ?s _ _ _] => set (self3 := s) end.
  destruct (handle_connect_answer_spec (S fuel) self3 c3 (connecting params IsoPresentation_calloc) sess
    called out p') as (self4 & p4 & s4 & T4 & Hcl & Hst & Hth & Hp4 & Hmms & _);
    [exact Hmsg|exact Hcalled|exact H237|lia|exact Hcb|exact Hmut|exact (Hready3 Hready2)|exact Hroom3
    |by rewrite <- Hcs, <- Hzm|].
  exists self4, c3, p4, s4. split; [done|]. rewrite Htx3, Htx2, Htx1. split; [|by split_and!].
  f_equal. unfold frames_of, CotpConnection_getTpduSize. by rewrite Ho1.
Qed.
End Client.

(** * The association *)

Section Association.
Context {H C : Type}.

(** C1: The association of a client and a server, from the first byte.  The server
    answers the transport connection request of the client; the client then sends
    its connect message, whose MMS request reaches the server's handler exactly
    if the server's authenticator agrees with the client's credentials; the
    handler's answer comes back in the accept message and reaches the client's
    callback.  Both ends are then ready for the exchange of data: they agree on
    the presentation context, and the client's thread is running. *)
Theorem IsoStack_association (client : IsoClientConnection C) params password req out cotpBuf
    auth ap token (handler : MessageReceivedHandler H) h h' receiveBuffer sendBuffer p'
    fuel crx srx crest srest :
  let sel := ip_remoteTSelector params in
  let called := u16 (ip_remotePSelector params) in
  let server := IsoConnection_create
    (mkSocket true (RxData (cr_frame (default_options sel)) :: srx ++ srest) [] []) auth ap handler h
    receiveBuffer sendBuffer in
  iso_params_wf params -> auth_ok (ip_acseAuthParameter params) password ->
  zlen (presentation_connect params password req) <= 233 -> zlen (presentation_accept out) <= 237 ->
  slice (cc_sendBuffer client) 0 (zlen req) = req -> bytes req -> req <> [] ->
  bytes out -> out <> [] ->
  zlen (cc_sendBuffer client) = ISO_CLIENT_BUFFER_SIZE -> zlen cotpBuf = ISO_CLIENT_BUFFER_SIZE ->
  zlen receiveBuffer = RECEIVE_BUF_SIZE -> zlen sendBuffer = SEND_BUF_SIZE ->
  0 < cc_receiveBufferMutex client ->
  decides (ic_acse server) (ip_acseAuthParameter params) password true token ->
  answers handler h req h' out ->
  associates (cc_callback client) (cc_callbackParameter client) out p' ->
  delivered (dt_frames 8192 (connect_bytes params password req)) srx ->
  delivered (dt_frames 8192 (accept_bytes called out)) crx ->
  (9 <= fuel)%nat -> 
  exists server1 server2 client1 cotp presentation session,
    handleTcpConnection_body fuel server = Done server1 /\
    so_tx (c_socket (ic_cotp server1)) = [cc_frame 2 0 0 (default_options sel)] /\
    handleTcpConnection_body fuel server1 = Done server2 /\
    so_tx (c_socket (ic_cotp server2)) = [cc_frame 2 0 0 (default_options sel)] ++
      (dt_frame <$> dt_frames 8192 (accept_bytes called out)) /\
    ic_msgRcvdHandlerParameter server2 = h' /\ ic_securityToken server2 = token /\
    server_ready server2 /\ mmsContextId (ic_presentation server2) = 3 /\
    IsoClientConnection_associate fuel client params
      (Some (mkSocket true (RxData (cc_frame 2 0 0 (default_options sel)) :: crx ++ crest) [] []))
      cotpBuf (InBlock 0) (zlen req) = Done client1 /\
    so_tx (c_socket cotp) = [cr_frame (default_options sel)] ++
      (dt_frame <$> dt_frames 8192 (connect_bytes params password req)) /\
    cc_callbackParameter client1 = p' /\ cc_state client1 = STATE_ASSOCIATED /\
    cc_thread client1 = ThreadRunning /\
    client_ready client1 cotp presentation session /\ mmsContextId presentation = 3.
Proof.
  intros sel called server Hp Ha H233 H237 Hreq Hbreq Hnreq Hbout Hnout Hcs Hcb Hrb Hsb Hmut Hdec Hans
    Hassoc Hsrx Hcrx Hfuel.
  assert (0 <= sel < 65536) as Hsel by (destruct Hp as (_ & _ & _ & _ & _ & _ & _ & _ & Ht & _); done).
  assert (zlen (connect_bytes params password req) = 24 + zlen (presentation_connect params password req))
    as Hl1 by (unfold connect_bytes; rewrite zlen_app; done).
  assert (zlen (accept_bytes called out) = 20 + zlen (presentation_accept out))
    as Hl2 by (unfold accept_bytes; rewrite zlen_app; done).
  assert (2 ^ 13 = 8192) as E13 by reflexivity.
  destruct fuel as [|fuel]; [lia|].
  destruct (server_connect_round fuel _ auth ap handler h receiveBuffer sendBuffer sel (srx ++ srest) eq_refl Hsel Hrb Hsb)
    as (sv1 & S1 & Hr1 & Hh1 & Hp1 & Hau & Hap & Ho1 & Hrx1 & Htx1).
  assert (forall bs, frames_of (ic_cotp sv1) bs = dt_frame <$> dt_frames 8192 bs) as Hframes
    by (intros bs; unfold frames_of, CotpConnection_getTpduSize; by rewrite Ho1).
  destruct (server_associate_round (S fuel) sv1 13 params password req srest true token h' out)
    as (sv2 & S2 & Htok & _ & Hr2 & Hp2 & Hm2 & _ & _ & Htx2);
    [exact Hr1| |lia| |lia|exact Hp|exact Ha|exact H233| | |exact Hbout|exact Hnout| |].
  { exists srx. rewrite E13. by split. }
  { rewrite E13, dt_frames_one by lia. simpl. lia. }
  { intros param Hc. specialize (Hdec param Hc). unfold verdict in *. by rewrite Hau, Hap. }
  { by rewrite Hh1, Hp1. }
  { apply presentation_accept_room in H237. unfold CONFIG_MMS_MAXIMUM_PDU_SIZE. lia. }
  destruct (client_associate_spec fuel client params password req out cotpBuf called p' crx crest)
    as (cl & cotp & pres & sess & S3 & Htx & Hp3 & Hst & Hth & Hcl & Hmms);
    [exact Hp|exact Ha|exact H233|exact H237|exact Hreq|exact Hbreq|exact Hnreq|exact Hcs|exact Hcb
    |exact Hmut|apply u16_bounds|exact Hassoc|exact Hcrx|lia|].
  exists sv1, sv2, cl, cotp, pres, sess. rewrite Htx2, Htx1, Hframes. fold called. by split_and!.
Qed.
End Association.

(** A client that logs in with the password [115; 101]. *)
Definition login_password : list Z := [115; 101].

Definition login_params : IsoConnectionParameters :=
  IsoConnectionParameters_setAcseAuthenticationParameter IsoConnectionParameters_create
    (Some (mkAuthParameter ACSE_AUTH_PASSWORD (Some (mk_ptr login_password 0)) 2)).

Definition login_authenticator : AcseAuthenticator := fun token param =>
  match ap_octetString param with
  | Some q => (bool_decide (slice (p_mem q) (p_base q) 2 = login_password), token)
  | None => (false, 0)
  end.

Definition login_client : IsoClientConnection Z :=
  IsoClientConnection_create (fun _ n _ => Done (n + 1)) 0
    (splice (replicate (Z.to_nat ISO_CLIENT_BUFFER_SIZE) 0) 0 [1; 2; 3]).

Lemma login_params_wf : iso_params_wf login_params.
Proof. exact default_params_wf. Qed.

Lemma login_auth_ok : auth_ok (ip_acseAuthParameter login_params) login_password.
Proof. intros _. split_and!; [by repeat constructor|by_eval|done|]. eexists. split; [done|by_eval]. Qed.

Lemma login_decides self token :
  authenticator self = Some login_authenticator -> authenticatorParameter self = token ->
  decides self (ip_acseAuthParameter login_params) login_password true token.
Proof.
  intros Ha Ht param (_ & _ & q & Hq & _ & _ & Hh). unfold verdict.
  rewrite Ha, Ht. unfold login_authenticator. rewrite Hq. rewrite Z.add_0_r in Hh. change 2 with (zlen login_password). rewrite Hh. by rewrite bool_decide_true.
Qed.

Lemma IsoStack_association_witness :
  exists server1 server2 client1,
    IsoClientConnection_associate 9 login_client login_params
      (Some (mkSocket true (RxData (cc_frame 2 0 0 (default_options 0)) ::
        whole_frames 8192 (accept_bytes 0 [9]) ++ []) [] []))
      (replicate (Z.to_nat ISO_CLIENT_BUFFER_SIZE) 0) (InBlock 0) 3 = Done client1 /\
    cc_callbackParameter client1 = 1 /\
    handleTcpConnection_body 9 (IsoConnection_create
      (mkSocket true (RxData (cr_frame (default_options 0)) ::
        whole_frames 8192 (connect_bytes login_params login_password [1; 2; 3]) ++ []) [] [])
      (Some login_authenticator) 77 nine_handler 0 (replicate (Z.to_nat RECEIVE_BUF_SIZE) 0)
      (replicate (Z.to_nat SEND_BUF_SIZE) 0)) = Done server1 /\
    handleTcpConnection_body 9 server1 = Done server2 /\
    ic_msgRcvdHandlerParameter server2 = 1 /\ ic_securityToken server2 = 77.
Proof.
  pose proof (fun n H => zlen_zeros n H) as Hz.
  destruct (IsoStack_association login_client login_params login_password [1; 2; 3] [9]
    (replicate (Z.to_nat ISO_CLIENT_BUFFER_SIZE) 0) (Some login_authenticator) 77 77 nine_handler 0 1
    (replicate (Z.to_nat RECEIVE_BUF_SIZE) 0) (replicate (Z.to_nat SEND_BUF_SIZE) 0) 1 9
    (whole_frames 8192 (accept_bytes 0 [9])) (whole_frames 8192 (connect_bytes login_params login_password [1; 2; 3]))
    [] [])
    as (s1 & s2 & c1 & _ & _ & _ & H1 & _ & H2 & _ & H3 & H4 & _ & _ & H5 & _ & H6 & _).
  - exact login_params_wf.
  - exact login_auth_ok.
  - by_eval.
  - by_eval.
  - cbn [login_client IsoClientConnection_create cc_sendBuffer].
    apply slice_splice; [lia|]. rewrite Hz by (apply Z.leb_le; reflexivity). apply Z.leb_le. reflexivity.
  - bytes_tac.
  - discriminate.
  - bytes_tac.
  - discriminate.
  - cbn [login_client IsoClientConnection_create cc_sendBuffer].
    rewrite zlen_splice; rewrite ?Hz by (apply Z.leb_le; reflexivity);
      first [reflexivity|apply Z.leb_le; reflexivity].
  - apply Hz. apply Z.leb_le. reflexivity.
  - apply Hz. apply Z.leb_le. reflexivity.
  - apply Hz. apply Z.leb_le. reflexivity.
  - apply Z.ltb_lt. reflexivity.
  - by apply login_decides.
  - apply (nine_answers 0).
  - by intros b _.
  - apply delivered_whole.
  - apply delivered_whole.
  - lia.
  - exists s1, s2, c1. by split_and!.
Defined.
