(* ===== verification/MmsValue.v ===== *)
(** The values of MMS: src/mms/iso_mms/common/mms_value.c, and first
    the conversions between [float] and [double] that the C code performs on the
    buffers of MMS values: IEEE 754 binary32 and binary64, round to nearest even. *)
From Stdlib Require Import SpecFloat.
From stdpp Require Import base tactics list numbers option.
From S2P Require Import Prelude Memory BerDecode BerEncode BerInteger.

(** A format: the width of the fraction and of the exponent. *)
Record ieee_format := mk_ieee { fraction_width : Z; exponent_width : Z }.
Definition binary32 : ieee_format := mk_ieee 23 8.
Definition binary64 : ieee_format := mk_ieee 52 11.

Definition ieee_sign (f : ieee_format) (x : Z) : bool :=
  Z.testbit x (fraction_width f + exponent_width f).
Definition ieee_exponent (f : ieee_format) (x : Z) : Z :=
  Z.shiftr x (fraction_width f) mod 2 ^ exponent_width f.
Definition ieee_fraction (f : ieee_format) (x : Z) : Z := x mod 2 ^ fraction_width f.

Definition ieee_emax (f : ieee_format) : Z := 2 ^ (exponent_width f - 1).
(** The exponent of the last place of the smallest normal number. *)
Definition ieee_emin (f : ieee_format) : Z := 3 - ieee_emax f - (fraction_width f + 1).

Definition ieee_pack (f : ieee_format) (sign : bool) (exponent fraction : Z) : Z :=
  (if sign then 2 ^ (fraction_width f + exponent_width f) else 0) +
  exponent * 2 ^ fraction_width f + fraction.

(** The bits of a number that has been rounded to the format. *)
Definition ieee_encode (f : ieee_format) (v : spec_float) : Z :=
  match v with
  | S754_zero s => ieee_pack f s 0 0
  | S754_finite s m e =>
      if Z.pos m <? 2 ^ fraction_width f then ieee_pack f s 0 (Z.pos m)
      else ieee_pack f s (e - ieee_emin f + 1) (Z.pos m - 2 ^ fraction_width f)
  | S754_infinity s => ieee_pack f s (2 ^ exponent_width f - 1) 0
  | S754_nan => ieee_pack f false (2 ^ exponent_width f - 1) (2 ^ (fraction_width f - 1))
  end.

(** The value of one format rounded to another; a NaN becomes quiet and keeps its
    sign and the leading bits of its payload. *)
Definition ieee_convert (f g : ieee_format) (x : Z) : Z :=
  let s := ieee_sign f x in
  let e := ieee_exponent f x in
  let m := ieee_fraction f x in
  if e =? 2 ^ exponent_width f - 1 then
    if m =? 0 then ieee_encode g (S754_infinity s)
    else ieee_pack g s (2 ^ exponent_width g - 1)
      (Z.lor (2 ^ (fraction_width g - 1)) (Z.shiftl m (fraction_width g - fraction_width f)))
  else
    let mant := if e =? 0 then m else m + 2 ^ fraction_width f in
    let e := if e =? 0 then ieee_emin f else e - 1 + ieee_emin f in
    ieee_encode g (binary_normalize (fraction_width g + 1) (ieee_emax g)
      (if s then - mant else mant) e s).

(** The integer that a little-endian object holds. *)
Definition le_val (bytes : list Z) : Z := be_val (rev bytes).

Definition float_to_double (float : list Z) : list Z :=
  le_bytes 8 (ieee_convert binary32 binary64 (le_val float)).
Definition double_to_float (double : list Z) : list Z :=
  le_bytes 4 (ieee_convert binary64 binary32 (le_val double)).

(** 1.5, the smallest denormal and minus infinity are doubles as well; 1/3 as a
    double is rounded to the nearest float; a double above the range becomes
    infinite. *)
Lemma float_to_double_examples :
  (fun x => ieee_convert binary32 binary64 x) <$> [0x3fc00000; 1; 0xff800000; 0x80000000]
  = [0x3ff8000000000000; 0x36a0000000000000; 0xfff0000000000000; 0x8000000000000000].
Proof. reflexivity. Qed.

Lemma double_to_float_examples :
  (fun x => ieee_convert binary64 binary32 x) <$>
    [0x3fd5555555555555; 0x7fe0000000000000; 0x36a0000000000000; 0x3690000000000000]
  = [0x3eaaaaab; 0x7f800000; 1; 0].
Proof. reflexivity. Qed.

(** MMS values: the data of src/mms/iso_mms/common/mms_value_internal.h and the
    operations of src/mms/iso_mms/common/mms_value.c, for a little-endian machine.
    A value owns its components and buffers: the tree of heap objects that
    [MmsValue_delete] would free is one Rocq tree. *)

(** * Data *)

(** [MmsType]. *)
Inductive MmsType :=
| MMS_ARRAY | MMS_STRUCTURE | MMS_BOOLEAN | MMS_BIT_STRING | MMS_INTEGER | MMS_UNSIGNED
| MMS_FLOAT | MMS_OCTET_STRING | MMS_VISIBLE_STRING | MMS_GENERALIZED_TIME
| MMS_BINARY_TIME | MMS_BCD | MMS_OBJ_ID | MMS_STRING | MMS_UTC_TIME | MMS_DATA_ACCESS_ERROR.

#[export] Instance MmsType_eq_dec : EqDecision MmsType.
Proof. solve_decision. Defined.

(** The members of the union that are not made of other values.  A buffer is the
    allocated block behind the pointer; a string is a block that holds the
    characters and their null byte, or the null pointer. *)
Inductive uMmsValue :=
| V_BOOLEAN (boolean : bool)
| V_BIT_STRING (size : Z) (buf : list Z)
| V_INTEGER (integer : Asn1PrimitiveValue)
| V_UNSIGNED (integer : Asn1PrimitiveValue)
| V_FLOAT (exponentWidth formatWidth : Z) (buf : list Z)
| V_OCTET_STRING (size maxSize : Z) (buf : list Z)
| V_VISIBLE_STRING (visibleString : option (list Z))
| V_STRING (visibleString : option (list Z))
| V_BINARY_TIME (size : Z) (buf : list Z)
| V_UTC_TIME (utcTime : list Z)
| V_DATA_ACCESS_ERROR (dataAccessError : Z)
| V_GENERALIZED_TIME | V_BCD | V_OBJ_ID.

(** [sMmsValue]: a value of one of these members, or an array or a structure of
    components, each of which may be the null pointer. *)
#[warnings="-register-all"]
Inductive MmsValue :=
| Simple (deleteValue : Z) (value : uMmsValue)
| Complex (deleteValue : Z) (isArray : bool) (components : list (option MmsValue)).

Definition u_type (v : uMmsValue) : MmsType :=
  match v with
  | V_BOOLEAN _ => MMS_BOOLEAN
  | V_BIT_STRING _ _ => MMS_BIT_STRING
  | V_INTEGER _ => MMS_INTEGER
  | V_UNSIGNED _ => MMS_UNSIGNED
  | V_FLOAT _ _ _ => MMS_FLOAT
  | V_OCTET_STRING _ _ _ => MMS_OCTET_STRING
  | V_VISIBLE_STRING _ => MMS_VISIBLE_STRING
  | V_STRING _ => MMS_STRING
  | V_BINARY_TIME _ _ => MMS_BINARY_TIME
  | V_UTC_TIME _ => MMS_UTC_TIME
  | V_DATA_ACCESS_ERROR _ => MMS_DATA_ACCESS_ERROR
  | V_GENERALIZED_TIME => MMS_GENERALIZED_TIME
  | V_BCD => MMS_BCD
  | V_OBJ_ID => MMS_OBJ_ID
  end.

Definition MmsValue_getType (value : MmsValue) : MmsType :=
  match value with
  | Simple _ v => u_type v
  | Complex _ isArray _ => if isArray then MMS_ARRAY else MMS_STRUCTURE
  end.

(** A fresh value: [calloc] clears [deleteValue]. *)
Definition new_value (v : uMmsValue) : MmsValue := Simple 0 v.

(** Induction over values with the components at hand. *)
Section MmsValueInd.
Context (P : MmsValue -> Prop)
  (Hsimple : forall d v, P (Simple d v))
  (Hcomplex : forall d a cs, Forall (fun c => forall v, c = Some v -> P v) cs -> P (Complex d a cs)).

Fixpoint MmsValue_induction (v : MmsValue) : P v :=
  match v with
  | Simple d v => Hsimple d v
  | Complex d a cs =>
      Hcomplex d a cs
        ((fix go (cs : list (option MmsValue))
            : Forall (fun c => forall v, c = Some v -> P v) cs :=
            match cs with
            | [] => Forall_nil_2 _
            | c :: cs =>
                Forall_cons_2 _ _ _
                  (match c as c0 return forall v, c0 = Some v -> P v with
                   | Some w => fun v e => match e in _ = o return
                       match o with Some v' => P v' | None => True end
                       with eq_refl => MmsValue_induction w end
                   | None => fun v e => match e with end
                   end)
                  (go cs)
            end) cs)
  end.
End MmsValueInd.

(** ** Walks over the components

    The code dereferences every component: a null pointer is undefined behaviour. *)
Section MapComponents.
Context (f : MmsValue -> res MmsValue).

Fixpoint map_components (cs : list (option MmsValue)) : res (list (option MmsValue)) :=
  match cs with
  | [] => Done []
  | Some c :: cs => let! c := f c in let! cs := map_components cs in Done (Some c :: cs)
  | None :: _ => Ub
  end.
End MapComponents.

Section SumComponents.
Context (f : MmsValue -> res Z).

Fixpoint sum_components (cs : list (option MmsValue)) : res Z :=
  match cs with
  | [] => Done 0
  | Some c :: cs => let! n := f c in let! k := sum_components cs in Done (n + k)
  | None :: _ => Ub
  end.
End SumComponents.

Section PlaceComponents.
Context (f : MmsValue -> Z -> res (Z * MmsValue)).

(** Each component is placed behind the one before. *)
Fixpoint place_components (cs : list (option MmsValue)) (a : Z)
  : res (Z * list (option MmsValue)) :=
  match cs with
  | [] => Done (a, [])
  | Some c :: cs =>
      let! (a, c) := f c a in
      let! (a, cs) := place_components cs a in
      Done (a, Some c :: cs)
  | None :: _ => Ub
  end.
End PlaceComponents.

(** * C strings and blocks *)

(** The characters before the null byte: undefined if there is none. *)
Fixpoint c_string (block : list Z) : res (list Z) :=
  match block with
  | [] => Ub
  | c :: t => if c =? 0 then Done [] else let! s := c_string t in Done (c :: s)
  end.

(** [memcpy(dst, src, n)] between two blocks. *)
Definition memcpy (dst src : list Z) (n : Z) : res (list Z) :=
  let! bs := rd_list (mk_ptr src 0) 0 n in st_list dst 0 bs.

(** [memcmp(a, b, n) == 0]. *)
Definition memcmp_eq (a b : list Z) (n : Z) : res bool :=
  let! x := rd_list (mk_ptr a 0) 0 n in
  let! y := rd_list (mk_ptr b 0) 0 n in
  Done (bool_decide (x = y)).

(** [copyString] and [createStringFromBuffer] of src/common/string_utilities.c. *)
Definition copyString (string : list Z) : list Z := string ++ [0].
Definition createStringFromBuffer (bytes : list Z) : list Z := bytes ++ [0].

(** [strcmp(a, b) == 0] for two possibly missing strings, as [MmsValue_equals]
    compares them. *)
Definition strings_equal (a b : option (list Z)) : res bool :=
  match a, b with
  | Some a, Some b =>
      let! x := c_string a in let! y := c_string b in Done (bool_decide (x = y))
  | None, None => Done true
  | _, _ => Done false
  end.

(** * Comparison *)

(** [bitStringByteSize] *)
Definition bitStringByteSize (size : Z) : Z :=
  Z.quot size 8 + (if 0 <? Z.rem size 8 then 1 else 0).

Definition u_equals (self other : uMmsValue) : res bool :=
  match self, other with
  | V_BOOLEAN a, V_BOOLEAN b => Done (Bool.eqb a b)
  | V_FLOAT _ w a, V_FLOAT _ _ b => memcmp_eq a b (Z.quot w 8)
  | V_INTEGER a, V_INTEGER b => Asn1PrimitivaValue_compare a b
  | V_UNSIGNED a, V_UNSIGNED b => Asn1PrimitivaValue_compare a b
  | V_UTC_TIME a, V_UTC_TIME b => memcmp_eq a b 8
  | V_BIT_STRING n a, V_BIT_STRING m b =>
      if n =? m then memcmp_eq a b (bitStringByteSize n) else Done false
  | V_BINARY_TIME n a, V_BINARY_TIME m b => if n =? m then memcmp_eq a b n else Done false
  | V_OCTET_STRING n _ a, V_OCTET_STRING m _ b => if n =? m then memcmp_eq a b n else Done false
  | V_VISIBLE_STRING a, V_VISIBLE_STRING b => strings_equal a b
  | V_STRING a, V_STRING b => strings_equal a b
  | V_DATA_ACCESS_ERROR a, V_DATA_ACCESS_ERROR b => Done (a =? b)
  | _, _ => Done false
  end.

(** The comparison of the components in order; it stops at the first difference. *)
Section Components.
Context (f : MmsValue -> MmsValue -> res bool).

Fixpoint all_components (xs ys : list (option MmsValue)) : res bool :=
  match xs, ys with
  | [], _ => Done true
  | Some x :: xs, Some y :: ys =>
      let! same := f x y in if same then all_components xs ys else Done false
  | _, _ => Ub
  end.
End Components.

Fixpoint MmsValue_equals (self otherValue : MmsValue) : res bool :=
  if bool_decide (MmsValue_getType self = MmsValue_getType otherValue) then
    match self, otherValue with
    | Complex _ _ xs, Complex _ _ ys =>
        if zlen xs =? zlen ys then all_components MmsValue_equals xs ys else Done false
    | Simple _ a, Simple _ b => u_equals a b
    | _, _ => Done false
    end
  else Done false.

Fixpoint MmsValue_equalTypes (self otherValue : MmsValue) : res bool :=
  if bool_decide (MmsValue_getType self = MmsValue_getType otherValue) then
    match self, otherValue with
    | Complex _ _ xs, Complex _ _ ys =>
        if zlen xs =? zlen ys then all_components MmsValue_equalTypes xs ys else Done false
    | _, _ => Done true
    end
  else Done false.

(** * Update *)

Definition setVisibleStringValue (string : option (list Z)) : option (list Z) :=
  match string with Some s => Some (copyString s) | None => None end.

Definition setMmsStringValue (string : option (list Z)) : option (list Z) :=
  match string with Some s => Some (copyString s) | None => None end.

(** The characters of a string that may be missing. *)
Definition c_string_opt (block : option (list Z)) : res (option (list Z)) :=
  match block with Some b => let! s := c_string b in Done (Some s) | None => Done None end.

Definition u_update (self update : uMmsValue) : res (bool * uMmsValue) :=
  match self, update with
  | V_BOOLEAN _, V_BOOLEAN b => Done (true, V_BOOLEAN b)
  | V_FLOAT e w buf, V_FLOAT e' w' buf' =>
      if w =? w' then
        let! buf := memcpy buf buf' (Z.quot w 8) in Done (true, V_FLOAT e' w buf)
      else Done (false, self)
  | V_INTEGER i, V_INTEGER i' =>
      let! (ok, i) := BerInteger_setFromBerInteger i i' in Done (negb (ok =? 0), V_INTEGER i)
  | V_UNSIGNED i, V_UNSIGNED i' =>
      let! (ok, i) := BerInteger_setFromBerInteger i i' in Done (negb (ok =? 0), V_UNSIGNED i)
  | V_UTC_TIME t, V_UTC_TIME t' =>
      let! t := memcpy t t' 8 in Done (true, V_UTC_TIME t)
  | V_BIT_STRING n buf, V_BIT_STRING n' buf' =>
      if n =? n' then
        let! buf := memcpy buf buf' (bitStringByteSize n) in Done (true, V_BIT_STRING n buf)
      else Done (false, self)
  | V_OCTET_STRING _ mx buf, V_OCTET_STRING n' mx' buf' =>
      if mx =? mx' then
        let! buf := memcpy buf buf' n' in Done (true, V_OCTET_STRING n' mx buf)
      else Done (false, self)
  | V_VISIBLE_STRING _, V_VISIBLE_STRING s' =>
      let! s := c_string_opt s' in Done (true, V_VISIBLE_STRING (setVisibleStringValue s))
  | V_STRING _, V_STRING s' =>
      let! s := c_string_opt s' in Done (true, V_STRING (setMmsStringValue s))
  | V_BINARY_TIME _ buf, V_BINARY_TIME n' buf' =>
      let! buf := memcpy buf buf' n' in Done (true, V_BINARY_TIME n' buf)
  | _, _ => Done (false, self)
  end.

(** [updateStructuredComponent] walks the components of [self]: it reads beyond
    the components of [update] if that has fewer, and drops the results. *)
Section UpdateComponents.
Context (f : MmsValue -> MmsValue -> res (bool * MmsValue)).

Fixpoint updateStructuredComponent (selfValues updateValues : list (option MmsValue))
  : res (list (option MmsValue)) :=
  match selfValues, updateValues with
  | [], _ => Done []
  | Some x :: xs, Some y :: ys =>
      let! (_, x) := f x y in
      let! xs := updateStructuredComponent xs ys in
      Done (Some x :: xs)
  | _, _ => Ub
  end.
End UpdateComponents.

Fixpoint MmsValue_update (self update : MmsValue) : res (bool * MmsValue) :=
  if bool_decide (MmsValue_getType self = MmsValue_getType update) then
    match self, update with
    | Complex d a xs, Complex _ _ ys =>
        let! xs := updateStructuredComponent MmsValue_update xs ys in Done (true, Complex d a xs)
    | Simple d v, Simple _ v' =>
        let! (ok, v) := u_update v v' in Done (ok, Simple d v)
    | _, _ => Done (false, self)
    end
  else Done (false, self).

(** * Bit strings

    A function that reads or writes a member of the union is given a value of
    that type; on another type it would reinterpret the bytes of the union, which
    the model does not follow ([Ub]). *)
Definition as_bit_string (self : MmsValue) : res (Z * Z * list Z) :=
  match self with Simple d (V_BIT_STRING size buf) => Done (d, size, buf) | _ => Ub end.

Definition MmsValue_newDataAccessError (accessError : Z) : MmsValue :=
  new_value (V_DATA_ACCESS_ERROR accessError).

Definition MmsValue_newBitString (bitSize : Z) : MmsValue :=
  new_value (V_BIT_STRING bitSize (replicate (Z.to_nat (bitStringByteSize bitSize)) 0)).

Definition MmsValue_getBitStringByteSize (self : MmsValue) : res Z :=
  let! (_, size, _) := as_bit_string self in Done (bitStringByteSize size).

(** [getBitStringByteSize] *)
Definition getBitStringByteSize (size : Z) : Z :=
  if Z.rem size 8 =? 0 then Z.quot size 8 else Z.quot size 8 + 1.

Fixpoint fill_loop (n : nat) (i v : Z) (buf : list Z) : res (list Z) :=
  match n with
  | O => Done buf
  | S n => let! buf := st buf i v in fill_loop n (i + 1) v buf
  end.

Definition MmsValue_deleteAllBitStringBits (self : MmsValue) : res MmsValue :=
  let! (d, size, buf) := as_bit_string self in
  let! buf := fill_loop (Z.to_nat (getBitStringByteSize size)) 0 0 buf in
  Done (Simple d (V_BIT_STRING size buf)).

Definition MmsValue_setAllBitStringBits (self : MmsValue) : res MmsValue :=
  let! (d, size, buf) := as_bit_string self in
  let byteSize := getBitStringByteSize size in
  let! buf := fill_loop (Z.to_nat byteSize) 0 0xff buf in
  let padding := byteSize * 8 - size in
  let paddingMask := paddingMask_loop (Z.to_nat padding) 0 0 in
  let paddingMask := u8 (Z.lnot paddingMask) in
  let! last := ld buf (byteSize - 1) in
  let! buf := st buf (byteSize - 1) (Z.land last paddingMask) in
  Done (Simple d (V_BIT_STRING size buf)).

Definition MmsValue_getBitStringSize (self : MmsValue) : res Z :=
  let! (_, size, _) := as_bit_string self in Done size.

(** The bits of one byte, lowest first; eight shifts clear a byte. *)
Fixpoint count_bits (n : nat) (currentByte : Z) : Z :=
  match n with
  | O => 0
  | S n =>
      if currentByte =? 0 then 0
      else (if Z.land currentByte 1 =? 1 then 1 else 0) + count_bits n (Z.shiftr currentByte 1)
  end.

Fixpoint count_loop (n : nat) (i : Z) (buf : list Z) (setBitsCount : Z) : res Z :=
  match n with
  | O => Done setBitsCount
  | S n => let! b := ld buf i in count_loop n (i + 1) buf (setBitsCount + count_bits 8 b)
  end.

Definition MmsValue_getNumberOfSetBits (self : MmsValue) : res Z :=
  let! (_, size, buf) := as_bit_string self in
  count_loop (Z.to_nat (getBitStringByteSize size)) 0 buf 0.

Definition MmsValue_setBitStringBit (self : MmsValue) (bitPos : Z) (value : bool) : res MmsValue :=
  let! (d, size, buf) := as_bit_string self in
  if bitPos <? size then
    let bytePos := Z.quot bitPos 8 in
    let bitPosInByte := 7 - Z.rem bitPos 8 in
    let bitMask := Z.shiftl 1 bitPosInByte in
    let! b := ld buf bytePos in
    let! buf := st buf bytePos (if value then Z.lor b bitMask else Z.land b (Z.lnot bitMask)) in
    Done (Simple d (V_BIT_STRING size buf))
  else Done self.

Definition MmsValue_getBitStringBit (self : MmsValue) (bitPos : Z) : res bool :=
  let! (_, size, buf) := as_bit_string self in
  if bitPos <? size then
    let bytePos := Z.quot bitPos 8 in
    let bitPosInByte := 7 - Z.rem bitPos 8 in
    let bitMask := Z.shiftl 1 bitPosInByte in
    let! b := ld buf bytePos in
    Done (0 <? Z.land b bitMask)
  else Done false.

(** [1 << bitPos] is undefined for an [int] from 32 bits on. *)
Fixpoint bits_as_integer (n : nat) (self : MmsValue) (bitPos value : Z) : res Z :=
  match n with
  | O => Done value
  | S n =>
      let! bit := MmsValue_getBitStringBit self bitPos in
      if bit then
        if bitPos <? 32 then bits_as_integer n self (bitPos + 1) (u32 (value + Z.shiftl 1 bitPos))
        else Ub
      else bits_as_integer n self (bitPos + 1) value
  end.

Definition MmsValue_getBitStringAsInteger (self : MmsValue) : res Z :=
  let! (_, size, _) := as_bit_string self in bits_as_integer (Z.to_nat size) self 0 0.

Fixpoint bits_from_integer (n : nat) (self : MmsValue) (bitPos intValue : Z) : res MmsValue :=
  match n with
  | O => Done self
  | S n =>
      let! self := MmsValue_setBitStringBit self bitPos (Z.land intValue 1 =? 1) in
      bits_from_integer n self (bitPos + 1) (Z.shiftr intValue 1)
  end.

Definition MmsValue_setBitStringFromInteger (self : MmsValue) (intValue : Z) : res MmsValue :=
  let! (_, size, _) := as_bit_string self in bits_from_integer (Z.to_nat size) self 0 intValue.

(** * Floats, integers and booleans *)

(** A [float] or [double] argument is given by its object in memory.
    [MmsValue_newFloat] allocates with [malloc]: [deleteValue] is whatever was
    there before. *)
Definition MmsValue_newFloat (deleteValue : Z) (variable : list Z) : MmsValue :=
  Simple deleteValue (V_FLOAT 8 32 variable).
Definition MmsValue_newDouble (variable : list Z) : MmsValue := new_value (V_FLOAT 11 64 variable).

Definition MmsValue_setFloat (value : MmsValue) (newFloatValue : list Z) : res MmsValue :=
  match value with
  | Simple d (V_FLOAT e w buf) =>
      if w =? 32 then let! buf := st_list buf 0 newFloatValue in Done (Simple d (V_FLOAT e w buf))
      else if w =? 64 then
        let! buf := st_list buf 0 (float_to_double newFloatValue) in Done (Simple d (V_FLOAT e w buf))
      else Done value
  | _ => Done value
  end.

Definition MmsValue_setDouble (value : MmsValue) (newFloatValue : list Z) : res MmsValue :=
  match value with
  | Simple d (V_FLOAT e w buf) =>
      if w =? 32 then
        let! buf := st_list buf 0 (double_to_float newFloatValue) in Done (Simple d (V_FLOAT e w buf))
      else if w =? 64 then
        let! buf := st_list buf 0 newFloatValue in Done (Simple d (V_FLOAT e w buf))
      else Done value
  | _ => Done value
  end.

Definition MmsValue_toFloat (value : MmsValue) : res (list Z) :=
  match value with
  | Simple _ (V_FLOAT _ w buf) =>
      if w =? 32 then rd_list (mk_ptr buf 0) 0 4
      else if w =? 64 then let! x := rd_list (mk_ptr buf 0) 0 8 in Done (double_to_float x)
      else Done (le_bytes 4 0)
  | _ => Done (le_bytes 4 0)
  end.

Definition MmsValue_toDouble (value : MmsValue) : res (list Z) :=
  match value with
  | Simple _ (V_FLOAT _ w buf) =>
      if w =? 32 then let! x := rd_list (mk_ptr buf 0) 0 4 in Done (float_to_double x)
      else if w =? 64 then rd_list (mk_ptr buf 0) 0 8
      else Done (le_bytes 8 0)
  | _ => Done (le_bytes 8 0)
  end.

Definition MmsValue_newIntegerFromBerInteger (berInteger : Asn1PrimitiveValue) : MmsValue :=
  new_value (V_INTEGER berInteger).
Definition MmsValue_newUnsignedFromBerInteger (berInteger : Asn1PrimitiveValue) : MmsValue :=
  new_value (V_UNSIGNED berInteger).

Definition MmsValue_newIntegerFromInt8 (integer : Z) : res MmsValue :=
  let! i := BerInteger_createFromInt32 integer in Done (new_value (V_INTEGER i)).
Definition MmsValue_newIntegerFromInt16 (integer : Z) : res MmsValue :=
  let! i := BerInteger_createFromInt32 integer in Done (new_value (V_INTEGER i)).
Definition MmsValue_newIntegerFromInt32 (integer : Z) : res MmsValue :=
  let! i := BerInteger_createFromInt32 integer in Done (new_value (V_INTEGER i)).
Definition MmsValue_newUnsignedFromUint32 (integer : Z) : res MmsValue :=
  let! i := BerInteger_createFromUint32 integer in Done (new_value (V_UNSIGNED i)).
Definition MmsValue_newIntegerFromInt64 (integer : Z) : res MmsValue :=
  let! i := BerInteger_createFromInt64 integer in Done (new_value (V_INTEGER i)).

(** The setters of integers: the type and the room are checked, and what the
    integer's own setter reports is dropped. *)
Definition set_signed (room : Z) (set : Asn1PrimitiveValue -> Z -> res (Z * Asn1PrimitiveValue))
    (value : MmsValue) (integer : Z) : res MmsValue :=
  match value with
  | Simple d (V_INTEGER i) =>
      if room <=? Asn1PrimitiveValue_getMaxSize i then
        let! (_, i) := set i integer in Done (Simple d (V_INTEGER i))
      else Done value
  | _ => Done value
  end.

Definition set_unsigned (room : Z) (set : Asn1PrimitiveValue -> Z -> res (Z * Asn1PrimitiveValue))
    (value : MmsValue) (integer : Z) : res MmsValue :=
  match value with
  | Simple d (V_UNSIGNED i) =>
      if room <=? Asn1PrimitiveValue_getMaxSize i then
        let! (_, i) := set i integer in Done (Simple d (V_UNSIGNED i))
      else Done value
  | _ => Done value
  end.

Definition MmsValue_setInt8 := set_signed 1 BerInteger_setInt32.
Definition MmsValue_setInt16 := set_signed 1 BerInteger_setInt32.
Definition MmsValue_setInt32 := set_signed 4 BerInteger_setInt32.
Definition MmsValue_setInt64 := set_signed 8 BerInteger_setInt64.
Definition MmsValue_setUint32 := set_unsigned 4 BerInteger_setUint32.
Definition MmsValue_setUint16 := set_unsigned 2 BerInteger_setUint16.
Definition MmsValue_setUint8 := set_unsigned 1 BerInteger_setUint8.

(** The readers of integers keep 0 where the conversion fails. *)
Definition to_integer (convert : Asn1PrimitiveValue -> res (option Z)) (value : MmsValue) : res Z :=
  match value with
  | Simple _ (V_INTEGER i) | Simple _ (V_UNSIGNED i) =>
      let! v := convert i in Done (default 0 v)
  | _ => Done 0
  end.

Definition MmsValue_toInt32 := to_integer BerInteger_toInt32.
Definition MmsValue_toUint32 := to_integer BerInteger_toUint32.
Definition MmsValue_toInt64 := to_integer BerInteger_toInt64.

Definition MmsValue_setBoolean (value : MmsValue) (boolValue : bool) : res MmsValue :=
  match value with Simple d (V_BOOLEAN _) => Done (Simple d (V_BOOLEAN boolValue)) | _ => Ub end.

Definition MmsValue_getBoolean (value : MmsValue) : res bool :=
  match value with Simple _ (V_BOOLEAN b) => Done b | _ => Ub end.

(** * UTC time *)

(** [memcpyReverseByteOrder] of src/common/conversions.c. *)
Definition memcpyReverseByteOrder (dst src : list Z) (size : Z) : res (list Z) :=
  let! bs := rd_list (mk_ptr src 0) 0 size in st_list dst 0 (rev bs).

Definition as_utc_time (self : MmsValue) : res (Z * list Z) :=
  match self with Simple d (V_UTC_TIME t) => Done (d, t) | _ => Ub end.

Definition MmsValue_setUtcTime (value : MmsValue) (timeval : Z) : res MmsValue :=
  let! (d, t) := as_utc_time value in
  let! t := memcpyReverseByteOrder t (le_bytes 4 timeval) 4 in
  Done (Simple d (V_UTC_TIME t)).

Definition fractionOfSecond (remainder : Z) : Z :=
  u32 (u32 (remainder * 16777) + u32 (remainder * 216) / 1000).

Definition MmsValue_setUtcTimeMs (self : MmsValue) (timeval : Z) : res MmsValue :=
  let! (d, t) := as_utc_time self in
  let timeval32 := u32 (timeval / 1000) in
  let! t := memcpyReverseByteOrder t (le_bytes 4 timeval32) 4 in
  let remainder := timeval mod 1000 in
  let f := fractionOfSecond remainder in
  let! t := st t 4 (Z.land (Z.shiftr f 16) 0xff) in
  let! t := st t 5 (Z.land (Z.shiftr f 8) 0xff) in
  let! t := st t 6 (Z.land f 0xff) in
  let! t := st t 7 0x0a in
  Done (Simple d (V_UTC_TIME t)).

Definition MmsValue_setUtcTimeQuality (self : MmsValue) (timeQuality : Z) : res MmsValue :=
  let! (d, t) := as_utc_time self in
  let! t := st t 7 timeQuality in Done (Simple d (V_UTC_TIME t)).

Definition MmsValue_getUtcTimeQuality (self : MmsValue) : res Z :=
  let! (_, t) := as_utc_time self in ld t 7.

Definition MmsValue_setUtcTimeByBuffer (self : MmsValue) (buffer : ptr) : res MmsValue :=
  let! (d, t) := as_utc_time self in
  let! bs := rd_list buffer 0 8 in
  let! t := st_list t 0 bs in Done (Simple d (V_UTC_TIME t)).

Definition MmsValue_getUtcTimeInMs (self : MmsValue) : res Z :=
  let! (_, t) := as_utc_time self in
  let! bs := memcpyReverseByteOrder (replicate 4 0) t 4 in
  let timeval32 := le_val bs in
  let! b4 := ld t 4 in
  let! b5 := ld t 5 in
  let! b6 := ld t 6 in
  let fraction := u32 (u32 (Z.shiftl b4 16 + Z.shiftl b5 8) + b6) in
  let remainder := fraction / 16777 in
  Done (u64 (timeval32 * 1000 + remainder)).

Definition MmsValue_toUnixTimestamp (value : MmsValue) : res Z :=
  let! (_, t) := as_utc_time value in
  let! b3 := ld t 3 in let! b2 := ld t 2 in let! b1 := ld t 1 in let! b0 := ld t 0 in
  Done (le_val [b3; b2; b1; b0]).

Definition MmsValue_newUtcTime (timeval : Z) : MmsValue :=
  new_value (V_UTC_TIME (rev (le_bytes 4 timeval) ++ replicate 4 0)).

Definition MmsValue_newUtcTimeByMsTime (timeval : Z) : res MmsValue :=
  MmsValue_setUtcTimeMs (new_value (V_UTC_TIME (replicate 8 0))) timeval.

(** * Binary time *)

Definition MmsValue_newBinaryTime (timeOfDay : bool) : MmsValue :=
  new_value (V_BINARY_TIME (if timeOfDay then 4 else 6) (replicate 6 0)).

Definition as_binary_time (self : MmsValue) : res (Z * Z * list Z) :=
  match self with Simple d (V_BINARY_TIME size buf) => Done (d, size, buf) | _ => Ub end.

(** Milliseconds from 1970 to 1984, and milliseconds of a day. *)
Definition MMS_EPOCH : Z := 441763200000.
Definition MS_PER_DAY : Z := 86400000.

Definition MmsValue_setBinaryTime (value : MmsValue) (timestamp : Z) : res MmsValue :=
  let! (d, size, buf) := as_binary_time value in
  let mmsTime := u64 (timestamp - MMS_EPOCH) in
  let! buf :=
    if size =? 6 then
      let daysDiff := u16 (mmsTime / MS_PER_DAY) in
      let! daysDiffBuf := Done (le_bytes 2 daysDiff) in
      let! b1 := ld daysDiffBuf 1 in
      let! buf := st buf 4 b1 in
      let! b0 := ld daysDiffBuf 0 in
      st buf 5 b0
    else Done buf in
  let msSinceMidnight := u32 (mmsTime mod MS_PER_DAY) in
  let! buf := memcpyReverseByteOrder buf (le_bytes 4 msSinceMidnight) 4 in
  Done (Simple d (V_BINARY_TIME size buf)).

Definition MmsValue_getBinaryTimeAsUtcMs (value : MmsValue) : res Z :=
  let! (_, size, buf) := as_binary_time value in
  let! timestamp :=
    if size =? 6 then
      let! b4 := ld buf 4 in
      let! b5 := ld buf 5 in
      let daysDiff := u16 (u16 (b4 * 256) + b5) in
      Done (u64 (daysDiff * MS_PER_DAY + MMS_EPOCH))
    else Done 0 in
  let! b0 := ld buf 0 in
  let! b1 := ld buf 1 in
  let! b2 := ld buf 2 in
  let! b3 := ld buf 3 in
  let msSinceMidnight :=
    u32 (u32 (u32 (u32 (Z.shiftl b0 24) + Z.shiftl b1 16) + Z.shiftl b2 8) + b3) in
  Done (u64 (timestamp + msSinceMidnight)).

(** * Strings and octet strings *)

Definition MmsValue_newVisibleString (string : option (list Z)) : MmsValue :=
  new_value (V_VISIBLE_STRING (setVisibleStringValue string)).

Definition MmsValue_newVisibleStringFromByteArray (byteArray : ptr) (size : Z) : res MmsValue :=
  let! bs := rd_list byteArray 0 size in
  Done (new_value (V_VISIBLE_STRING (Some (createStringFromBuffer bs)))).

Definition MmsValue_setVisibleString (value : MmsValue) (string : option (list Z)) : MmsValue :=
  match value with
  | Simple d (V_VISIBLE_STRING _) => Simple d (V_VISIBLE_STRING (setVisibleStringValue string))
  | _ => value
  end.

Definition MmsValue_newMmsString (string : option (list Z)) : MmsValue :=
  new_value (V_STRING (setMmsStringValue string)).

Definition MmsValue_setMmsString (value : MmsValue) (string : option (list Z)) : MmsValue :=
  match value with
  | Simple d (V_STRING _) => Simple d (V_STRING (setMmsStringValue string))
  | _ => value
  end.

Definition MmsValue_toString (value : MmsValue) : option (list Z) :=
  match value with
  | Simple _ (V_VISIBLE_STRING s) | Simple _ (V_STRING s) => s
  | _ => None
  end.

Definition as_octet_string (self : MmsValue) : res (Z * Z * Z * list Z) :=
  match self with Simple d (V_OCTET_STRING n m buf) => Done (d, n, m, buf) | _ => Ub end.

Definition MmsValue_newOctetString (size maxSize : Z) : MmsValue :=
  new_value (V_OCTET_STRING (u16 size) (u16 maxSize) (replicate (Z.to_nat maxSize) 0)).

Definition MmsValue_setOctetString (self : MmsValue) (buf : ptr) (size : Z) : res MmsValue :=
  let! (d, n, m, octets) := as_octet_string self in
  if size <=? m then
    let! bs := rd_list buf 0 size in
    let! octets := st_list octets 0 bs in
    Done (Simple d (V_OCTET_STRING (u16 size) m octets))
  else Done self.

Definition MmsValue_getOctetStringSize (self : MmsValue) : res Z :=
  let! (_, n, _, _) := as_octet_string self in Done n.
Definition MmsValue_getOctetStringMaxSize (self : MmsValue) : res Z :=
  let! (_, _, m, _) := as_octet_string self in Done m.
Definition MmsValue_getOctetStringBuffer (self : MmsValue) : res (list Z) :=
  let! (_, _, _, buf) := as_octet_string self in Done buf.

Definition MmsValue_getDataAccessError (self : MmsValue) : res Z :=
  match self with Simple _ (V_DATA_ACCESS_ERROR e) => Done e | _ => Ub end.

(** * Memory

    The sizes of the objects and of a pointer depend on the platform. *)
Section Memory.
Context (sizeof_MmsValue sizeof_pointer sizeof_Asn1PrimitiveValue : Z).

Definition u_size (v : uMmsValue) : res Z :=
  match v with
  | V_BIT_STRING size _ => Done (bitStringByteSize size)
  | V_INTEGER i | V_UNSIGNED i => Done (sizeof_Asn1PrimitiveValue + a_maxSize i)
  | V_FLOAT _ w _ => Done (Z.quot w 8)
  | V_OCTET_STRING _ m _ => Done m
  | V_STRING s | V_VISIBLE_STRING s =>
      let! b := defined s in let! s := c_string b in Done (zlen s + 1)
  | _ => Done 0
  end.

Fixpoint MmsValue_getSizeInMemory (self : MmsValue) : res Z :=
  match self with
  | Simple _ v => let! n := u_size v in Done (sizeof_MmsValue + n)
  | Complex _ _ cs =>
      let! n := sum_components MmsValue_getSizeInMemory cs in
      Done (sizeof_MmsValue + sizeof_pointer * zlen cs + n)
  end.

(** The copy of a member into the destination: the new member and the address
    behind its bytes. *)
Definition u_cloneToBuffer (v : uMmsValue) (destinationAddress : Z) : res (Z * uMmsValue) :=
  match v with
  | V_BIT_STRING size buf =>
      let n := bitStringByteSize size in
      let! bs := rd_list (mk_ptr buf 0) 0 n in
      Done (destinationAddress + n, V_BIT_STRING size bs)
  | V_INTEGER i =>
      let! bs := rd_list (mk_ptr (a_octets i) 0) 0 (a_maxSize i) in
      Done (destinationAddress + sizeof_Asn1PrimitiveValue + a_maxSize i,
        V_INTEGER (mkAsn1 (a_size i) (a_maxSize i) bs))
  | V_UNSIGNED i =>
      let! bs := rd_list (mk_ptr (a_octets i) 0) 0 (a_maxSize i) in
      Done (destinationAddress + sizeof_Asn1PrimitiveValue + a_maxSize i,
        V_UNSIGNED (mkAsn1 (a_size i) (a_maxSize i) bs))
  | V_FLOAT e w buf =>
      let floatSizeInBytes := Z.quot w 8 in
      let! bs := rd_list (mk_ptr buf 0) 0 floatSizeInBytes in
      Done (destinationAddress + floatSizeInBytes, V_FLOAT e w bs)
  | V_OCTET_STRING n m buf =>
      let! bs := rd_list (mk_ptr buf 0) 0 m in
      Done (destinationAddress + m, V_OCTET_STRING n m bs)
  | V_STRING s =>
      let! b := defined s in let! s := c_string b in
      Done (destinationAddress + (zlen s + 1), V_STRING (Some (copyString s)))
  | V_VISIBLE_STRING s =>
      let! b := defined s in let! s := c_string b in
      Done (destinationAddress + (zlen s + 1), V_VISIBLE_STRING (Some (copyString s)))
  | _ => Done (destinationAddress, v)
  end.

(** The address behind the copy, and the copy. *)
Fixpoint MmsValue_cloneToBuffer (self : MmsValue) (destinationAddress : Z) : res (Z * MmsValue) :=
  match self with
  | Simple d v =>
      let! (a, v) := u_cloneToBuffer v (destinationAddress + sizeof_MmsValue) in Done (a, Simple d v)
  | Complex d isArray cs =>
      let! (a, cs) := place_components MmsValue_cloneToBuffer cs
        (destinationAddress + sizeof_MmsValue + sizeof_pointer * zlen cs) in
      Done (a, Complex d isArray cs)
  end.
End Memory.

(** ** Deep copies

    [malloc n] stands for the contents of a fresh block of [n] bytes. *)
Section Clone.
Context (malloc : Z -> list Z).

Definition u_clone (v : uMmsValue) : res uMmsValue :=
  match v with
  | V_INTEGER i => let! i := Asn1PrimitiveValue_clone i in Done (V_INTEGER i)
  | V_UNSIGNED i => let! i := Asn1PrimitiveValue_clone i in Done (V_UNSIGNED i)
  | V_FLOAT e w buf =>
      let! bs := memcpy (malloc (Z.quot w 8)) buf (Z.quot w 8) in Done (V_FLOAT e w bs)
  | V_BIT_STRING size buf =>
      let n := bitStringByteSize size in
      let! bs := memcpy (malloc n) buf n in Done (V_BIT_STRING size bs)
  | V_OCTET_STRING n m buf =>
      let! bs := memcpy (malloc m) buf n in Done (V_OCTET_STRING n m bs)
  | V_UTC_TIME t => let! t := memcpy (replicate 8 0) t 8 in Done (V_UTC_TIME t)
  | V_BINARY_TIME n buf => let! buf := memcpy (replicate 6 0) buf 6 in Done (V_BINARY_TIME n buf)
  | V_VISIBLE_STRING s =>
      let! b := defined s in let! s := c_string b in Done (V_VISIBLE_STRING (Some (copyString s)))
  | V_STRING s =>
      let! b := defined s in let! s := c_string b in Done (V_STRING (Some (copyString s)))
  | _ => Done v
  end.

Fixpoint MmsValue_clone (value : MmsValue) : res MmsValue :=
  match value with
  | Simple d v => let! v := u_clone v in Done (Simple d v)
  | Complex d isArray cs =>
      let! cs := map_components MmsValue_clone cs in
      Done (Complex d isArray cs)
  end.
End Clone.

(** * Components *)

Definition MmsValue_getArraySize (value : MmsValue) : res Z :=
  match value with Complex _ _ cs => Done (zlen cs) | _ => Ub end.

Definition MmsValue_createEmtpyArray (size : Z) : MmsValue :=
  Complex 0 true (replicate (Z.to_nat size) None).

Definition MmsValue_createEmptyStructure (size : Z) : MmsValue :=
  Complex 0 false (replicate (Z.to_nat size) None).

Definition MmsValue_setElement (complexValue : MmsValue) (index : Z)
    (elementValue : option MmsValue) : MmsValue :=
  match complexValue with
  | Complex d a cs =>
      if (index <? 0) || (zlen cs <=? index) then complexValue
      else Complex d a (<[Z.to_nat index := elementValue]> cs)
  | _ => complexValue
  end.

Definition MmsValue_getElement (complexValue : MmsValue) (index : Z) : option MmsValue :=
  match complexValue with
  | Complex _ _ cs =>
      if (index <? 0) || (zlen cs <=? index) then None else mjoin (cs !! Z.to_nat index)
  | _ => None
  end.

Definition MmsValue_setDeletable (value : MmsValue) : MmsValue :=
  match value with Simple _ v => Simple 1 v | Complex _ a cs => Complex 1 a cs end.

Fixpoint MmsValue_setDeletableRecursive (value : MmsValue) : res MmsValue :=
  match value with
  | Simple _ v => Done (Simple 1 v)
  | Complex _ a cs =>
      let! cs := map_components MmsValue_setDeletableRecursive cs in
      Done (Complex 1 a cs)
  end.

Definition MmsValue_isDeletable (value : MmsValue) : Z :=
  match value with Simple d _ | Complex d _ _ => d end.

(** * Values of a type *)

(** [MmsVariableSpecification] of mms_types.h: the simple types with their sizes,
    and arrays and structures. *)
Inductive uMmsTypeSpecification :=
| T_BOOLEAN
| T_INTEGER (integer : Z)
| T_UNSIGNED (unsignedInteger : Z)
| T_FLOAT (exponentWidth formatWidth : Z)
| T_BIT_STRING (bitString : Z)
| T_OCTET_STRING (octetString : Z)
| T_VISIBLE_STRING (visibleString : Z)
| T_STRING (mmsString : Z)
| T_UTC_TIME
| T_BINARY_TIME (binaryTime : Z)
| T_OTHER (type : MmsType).

#[warnings="-register-all"]
Inductive MmsVariableSpecification :=
| SpecSimple (name : option (list Z)) (typeSpec : uMmsTypeSpecification)
| SpecArray (name : option (list Z)) (elementCount : Z) (elementTypeSpec : MmsVariableSpecification)
| SpecStructure (name : option (list Z)) (elements : list MmsVariableSpecification).

Definition MmsValue_newInteger (size : Z) : MmsValue :=
  new_value (V_INTEGER (if size <=? 32 then BerInteger_createInt32 else BerInteger_createInt64)).

Definition MmsValue_newUnsigned (size : Z) : MmsValue :=
  new_value (V_UNSIGNED (if size <=? 32 then BerInteger_createInt32 else BerInteger_createInt64)).

Definition MmsValue_newBoolean (boolean : bool) : MmsValue := new_value (V_BOOLEAN boolean).

(** [None]: the types for which [MmsValue_newDefaultValue] returns NULL. *)
Definition u_default (t : uMmsTypeSpecification) : option MmsValue :=
  match t with
  | T_INTEGER n => Some (MmsValue_newInteger n)
  | T_UNSIGNED n => Some (MmsValue_newUnsigned n)
  | T_FLOAT e w => Some (new_value (V_FLOAT e w (replicate (Z.to_nat (Z.quot w 8)) 0)))
  | T_BIT_STRING n =>
      let bitSize := Z.abs n in
      Some (new_value (V_BIT_STRING bitSize (replicate (Z.to_nat (bitStringByteSize bitSize)) 0)))
  | T_OCTET_STRING n =>
      Some (new_value (V_OCTET_STRING (if n <? 0 then 0 else u16 n) (u16 (Z.abs n))
        (replicate (Z.to_nat (Z.abs n)) 0)))
  | T_VISIBLE_STRING _ => Some (MmsValue_newVisibleString None)
  | T_BOOLEAN => Some (MmsValue_newBoolean false)
  | T_UTC_TIME => Some (new_value (V_UTC_TIME (replicate 8 0)))
  | T_STRING _ => Some (MmsValue_newMmsString None)
  | T_BINARY_TIME n => Some (MmsValue_newBinaryTime (n =? 4))
  | T_OTHER _ => None
  end.

(** [MmsValue_newDefaultValue], with [MmsValue_createArray] and
    [MmsValue_newStructure] for the complex types. *)
Fixpoint MmsValue_newDefaultValue (typeSpec : MmsVariableSpecification) : option MmsValue :=
  match typeSpec with
  | SpecSimple _ t => u_default t
  | SpecArray _ n t => Some (Complex 0 true (replicate (Z.to_nat n) (MmsValue_newDefaultValue t)))
  | SpecStructure _ ts => Some (Complex 0 false (map MmsValue_newDefaultValue ts))
  end.

Definition MmsValue_createArray (elementType : MmsVariableSpecification) (size : Z) : MmsValue :=
  Complex 0 true (replicate (Z.to_nat size) (MmsValue_newDefaultValue elementType)).

Definition MmsValue_newStructure (typeSpec : MmsVariableSpecification) : res MmsValue :=
  match typeSpec with
  | SpecStructure _ ts => Done (Complex 0 false (map MmsValue_newDefaultValue ts))
  | _ => Ub
  end.
