(* ===== verification/MmsValueFacts.v ===== *)
(** MMS values: well-formedness, deep copies, comparison and update. *)
From stdpp Require Import base tactics list numbers option.
From S2P Require Import Prelude Memory BerDecode BerEncode BerInteger MmsValue.

(** * Well-formed values *)

(** A string that is there and ends. *)
Definition string_wf (s : option (list Z)) : Prop :=
  exists b cs, s = Some b /\ c_string b = Done cs /\ bytes b.

Definition u_wf (v : uMmsValue) : Prop :=
  match v with
  | V_BIT_STRING size buf => 0 <= size /\ zlen buf = bitStringByteSize size /\ bytes buf
  | V_INTEGER i | V_UNSIGNED i => asn1_wf i
  | V_FLOAT e w buf => (w = 32 \/ w = 64) /\ zlen buf = Z.quot w 8 /\ bytes buf
  | V_OCTET_STRING n m buf => 0 <= n <= m /\ m < 65536 /\ zlen buf = m /\ bytes buf
  | V_VISIBLE_STRING s | V_STRING s => string_wf s
  | V_UTC_TIME t => zlen t = 8 /\ bytes t
  | V_BINARY_TIME n buf => (n = 4 \/ n = 6) /\ zlen buf = 6 /\ bytes buf
  | V_BOOLEAN _ | V_DATA_ACCESS_ERROR _ => True
  | V_GENERALIZED_TIME | V_BCD | V_OBJ_ID => False  (* never created *)
  end.

(** Every component of a well-formed value is there. *)
#[warnings="-register-all"]
Inductive mms_wf : MmsValue -> Prop :=
| mms_wf_simple d v : u_wf v -> mms_wf (Simple d v)
| mms_wf_complex d a vs : Forall mms_wf vs -> mms_wf (Complex d a (Some <$> vs)).

Lemma mms_wf_induction (P : MmsValue -> Prop) :
  (forall d v, u_wf v -> P (Simple d v)) ->
  (forall d a vs, Forall mms_wf vs -> Forall P vs -> P (Complex d a (Some <$> vs))) ->
  forall v, mms_wf v -> P v.
Proof.
  intros Hs Hc. fix IH 2. intros v [d u Hu|d a vs Hvs]; [by apply Hs|].
  apply Hc; [done|]. induction Hvs; constructor; auto.
Qed.

(** * Blocks *)

Lemma zlen_quot8 size : 0 <= size -> 0 <= bitStringByteSize size.
Proof.
  intros H. unfold bitStringByteSize. pose proof (Z.quot_pos size 8 H ltac:(lia)).
  destruct (0 <? Z.rem size 8); lia.
Qed.

Lemma rd_list_slice bs n : 0 <= n <= zlen bs -> rd_list (mk_ptr bs 0) 0 n = Done (slice bs 0 n).
Proof.
  intros H. apply holds_rd_list; [|by rewrite zlen_slice by lia].
  unfold holds. simpl. rewrite zlen_slice by lia. repeat split; lia.
Qed.

Lemma slice_whole bs n : n = zlen bs -> slice bs 0 n = bs.
Proof. intros ->. unfold slice, zlen. rewrite Nat2Z.id. apply firstn_all. Qed.

Lemma rd_list_whole bs n : n = zlen bs -> rd_list (mk_ptr bs 0) 0 n = Done bs.
Proof. intros ->. apply holds_rd_list; [apply holds_whole|done]. Qed.

Lemma slice_slice bs n k : 0 <= k <= n -> slice (slice bs 0 n) 0 k = slice bs 0 k.
Proof.
  intros H. unfold slice. rewrite !drop_0, take_take. f_equal. lia.
Qed.

Lemma splice_whole m bs : zlen bs = zlen m -> splice m 0 bs = bs.
Proof.
  intros H. unfold splice, zlen in *. simpl. rewrite drop_ge by lia. apply app_nil_r.
Qed.

Lemma st_list_fit m a bs : 0 <= a -> a + zlen bs <= zlen m -> st_list m a bs = Done (splice m a bs).
Proof.
  intros Ha Hl. unfold st_list. destruct (Z.eqb_spec (zlen bs) 0) as [E|E]; [|by zdec].
  destruct bs; [by rewrite splice_nil|zl].
Qed.

Lemma memcpy_part dst src n :
  0 <= n -> n <= zlen src -> n <= zlen dst -> memcpy dst src n = Done (splice dst 0 (slice src 0 n)).
Proof.
  intros H1 H2 H3. unfold memcpy. rewrite rd_list_slice by lia. cbn [rbind].
  apply st_list_fit; [lia|]. rewrite zlen_slice; lia.
Qed.

Lemma memcpy_whole dst src n :
  n = zlen src -> zlen dst = zlen src -> memcpy dst src n = Done src.
Proof.
  intros -> H. rewrite memcpy_part by zl. rewrite slice_whole by done. by rewrite splice_whole.
Qed.

Lemma memcmp_eq_spec a b n :
  0 <= n -> n <= zlen a -> n <= zlen b ->
  memcmp_eq a b n = Done (bool_decide (slice a 0 n = slice b 0 n)).
Proof. intros H1 H2 H3. unfold memcmp_eq. by rewrite !rd_list_slice by lia. Qed.

Lemma memcmp_eq_refl a b n :
  0 <= n -> n <= zlen a -> slice a 0 n = slice b 0 n -> n <= zlen b -> memcmp_eq a b n = Done true.
Proof. intros H1 H2 H3 H4. rewrite memcmp_eq_spec by done. by rewrite H3, bool_decide_true. Qed.

Lemma slice_splice0 m bs n : n = zlen bs -> n <= zlen m -> slice (splice m 0 bs) 0 n = bs.
Proof. intros -> H. apply slice_splice; lia. Qed.

Lemma bytes_splice m a bs : bytes m -> bytes bs -> bytes (splice m a bs).
Proof.
  intros Hm Hb. unfold splice. apply bytes_app; split; [by apply Forall_take|].
  apply bytes_app; split; [done|by apply Forall_drop].
Qed.

Lemma bytes_slice m a n : bytes m -> bytes (slice m a n).
Proof. intros Hm. by apply Forall_take, Forall_drop. Qed.
#[export] Hint Resolve bytes_splice bytes_slice : bytes.

Lemma c_string_nonzero b s : c_string b = Done s -> Forall (fun c => c <> 0) s.
Proof.
  revert s. induction b as [|c b IH]; intros s; simpl; [done|].
  zcase; [intros [= <-]; constructor|].
  destruct (c_string b) as [t| | |]; simpl; try done. intros [= <-]. constructor; auto.
Qed.

Lemma c_string_app s rest : Forall (fun c => c <> 0) s -> c_string (s ++ 0 :: rest) = Done s.
Proof.
  induction 1 as [|c s Hc _ IH]; simpl; [done|]. zdec. by rewrite IH.
Qed.

Lemma c_string_bytes b s : c_string b = Done s -> bytes b -> bytes s.
Proof.
  revert s. induction b as [|c b IH]; intros s; simpl; [done|].
  zcase; [intros [= <-] _; constructor|].
  destruct (c_string b) as [t| | |]; simpl; try done. intros [= <-] [H1 H2]%bytes_cons.
  apply bytes_cons. auto.
Qed.

(** The copy of the characters of a string. *)
Lemma copyString_wf b s : c_string b = Done s -> bytes b ->
  c_string (copyString s) = Done s /\ bytes (copyString s).
Proof.
  intros H Hb. split; [apply c_string_app; by eapply c_string_nonzero|].
  unfold copyString. bytes_tac. by eapply c_string_bytes.
Qed.

(** * Deep copies *)

Section Clone.
Context (malloc : Z -> list Z) (malloc_size : forall n, 0 <= n -> zlen (malloc n) = n /\ bytes (malloc n)).

Lemma asn1_clone_spec i : asn1_wf i ->
  exists i', Asn1PrimitiveValue_clone i = Done i' /\ asn1_wf i' /\ a_bytes i' = a_bytes i /\
    a_size i' = a_size i /\ a_maxSize i' = a_maxSize i.
Proof.
  intros (H1 & H2 & H3 & H4). unfold Asn1PrimitiveValue_clone. rewrite rd_list_slice by lia.
  eexists. split; [done|]. unfold asn1_wf, a_bytes. simpl. rewrite zlen_slice by lia.
  repeat split; try lia; [by apply bytes_slice|]. by apply slice_slice.
Qed.

Lemma asn1_compare_spec i j : asn1_wf i -> asn1_wf j ->
  Asn1PrimitivaValue_compare i j = Done (bool_decide (a_bytes i = a_bytes j)).
Proof.
  intros Hi Hj. pose proof (zlen_a_bytes _ Hi) as E1. pose proof (zlen_a_bytes _ Hj) as E2.
  unfold Asn1PrimitivaValue_compare. destruct (Z.eqb_spec (a_size i) (a_size j)) as [E|E].
  - destruct Hi as (? & ? & _), Hj as (? & ? & _). rewrite !rd_list_slice by lia. cbn [rbind].
    unfold a_bytes. by rewrite <- E.
  - rewrite bool_decide_false; [done|]. intros E'. rewrite E' in E1. congruence.
Qed.

Lemma asn1_compare_same i j : asn1_wf i -> asn1_wf j -> a_bytes i = a_bytes j ->
  Asn1PrimitivaValue_compare i j = Done true.
Proof. intros Hi Hj E. rewrite asn1_compare_spec by done. by rewrite E, bool_decide_true. Qed.

Lemma u_clone_spec v : u_wf v ->
  exists v', u_clone malloc v = Done v' /\ u_wf v' /\ u_type v' = u_type v /\ u_equals v v' = Done true.
Proof.
  intros Hv. destruct v as [b|size buf|i|i|e w buf|n m buf|s|s|n buf|t|e| | |]; simpl in Hv |- *.
  1: by exists (V_BOOLEAN b); rewrite Bool.eqb_reflx.
  1: { destruct Hv as (H1 & H2 & H3). pose proof (zlen_quot8 _ H1) as Hq.
    destruct (malloc_size _ Hq) as [Hm _]. rewrite memcpy_whole by congruence.
    eexists. split; [done|]. simpl. zdec. split; [done|split; [done|]]. apply memcmp_eq_refl; lia || done. }
  1,2: destruct (asn1_clone_spec _ Hv) as (i' & E & Hw & Hb & _); rewrite E;
    eexists; split; [done|]; split; [done|split; [done|]]; by apply asn1_compare_same.
  1: { destruct Hv as (H1 & H2 & H3). assert (0 <= Z.quot w 8) as Hq by (destruct H1; subst; by_eval).
    destruct (malloc_size _ Hq) as [Hm _]. rewrite memcpy_whole by congruence.
    eexists. split; [done|]. split; [done|split; [done|]]. simpl. apply memcmp_eq_refl; lia || done. }
  1: { destruct Hv as (H1 & H2 & H3 & H4). destruct (malloc_size m ltac:(lia)) as [Hm Hmb].
    rewrite memcpy_part by lia. eexists. split; [done|]. simpl. rewrite zlen_splice by (rewrite ?zlen_slice; lia).
    split; [repeat split; try lia; auto with bytes|]. split; [done|]. zdec.
    apply memcmp_eq_refl; try lia; [|rewrite zlen_splice by (rewrite ?zlen_slice; lia); lia].
    rewrite slice_splice0; rewrite ?zlen_slice; lia || done. }
  1,2: destruct Hv as (b & cs & -> & Hcs & Hb); simpl; rewrite Hcs; simpl;
    destruct (copyString_wf _ _ Hcs Hb) as [H1 H2];
    eexists; split; [done|]; split; [by exists (copyString cs), cs|split; [done|]];
    simpl; rewrite ?Hcs; simpl; rewrite H1; simpl; by rewrite bool_decide_true.
  1: { destruct Hv as (H1 & H2 & H3). rewrite memcpy_whole by done.
    eexists. split; [done|]. split; [done|split; [done|]]. simpl. zdec. apply memcmp_eq_refl; lia || done. }
  1: { destruct Hv as (H1 & H2). rewrite memcpy_whole by done.
    eexists. split; [done|]. split; [done|split; [done|]]. simpl. apply memcmp_eq_refl; lia || done. }
  1: by exists (V_DATA_ACCESS_ERROR e); rewrite Z.eqb_refl.
  all: done.
Qed.

Lemma map_components_spec f vs vs' :
  Forall2 (fun v v' => f v = Done v') vs vs' -> map_components f (Some <$> vs) = Done (Some <$> vs').
Proof.
  induction 1 as [|v v' vs vs' H _ IH]; [done|]. rewrite !fmap_cons. cbn [map_components].
  rewrite H. cbn [rbind]. by rewrite IH.
Qed.

(** Copying and comparing the components of well-formed values. *)
Lemma all_components_spec f xs ys :
  Forall2 (fun x y => f x y = Done true) xs ys ->
  all_components f (Some <$> xs) (Some <$> ys) = Done true.
Proof. induction 1 as [|x y xs ys H _ IH]; simpl; [done|]. by rewrite H. Qed.

Lemma MmsValue_equals_complex d d' a xs ys :
  Forall2 (fun x y => MmsValue_equals x y = Done true) xs ys ->
  MmsValue_equals (Complex d a (Some <$> xs)) (Complex d' a (Some <$> ys)) = Done true.
Proof.
  intros H. simpl. rewrite bool_decide_true by done.
  replace (zlen (Some <$> xs) =? zlen (Some <$> ys)) with true.
  { by apply all_components_spec. }
  symmetry. apply Z.eqb_eq. unfold zlen. rewrite !length_fmap. f_equal. by eapply Forall2_length.
Qed.

Lemma MmsValue_clone_spec v : mms_wf v ->
  exists v', MmsValue_clone malloc v = Done v' /\ mms_wf v' /\
    MmsValue_getType v' = MmsValue_getType v /\ MmsValue_isDeletable v' = MmsValue_isDeletable v /\
    MmsValue_equals v v' = Done true.
Proof.
  induction 1 as [d u Hu|d a vs Hvs IH] using mms_wf_induction.
  - destruct (u_clone_spec _ Hu) as (u' & E & Hw & Ht & Heq).
    exists (Simple d u'). simpl. rewrite E. split; [done|]. split; [by constructor|].
    split; [done|]. split; [done|]. by rewrite Ht, bool_decide_true.
  - assert (exists vs', Forall2 (fun v v' => MmsValue_clone malloc v = Done v' /\ mms_wf v' /\
        MmsValue_equals v v' = Done true) vs vs') as (vs' & Hvs').
    { clear Hvs. induction IH as [|v vs (v' & H1 & H2 & _ & _ & H3) _ (vs' & IH)]; [by exists []|].
      exists (v' :: vs'). by constructor. }
    exists (Complex d a (Some <$> vs')). split.
    + simpl. rewrite (map_components_spec _ vs vs'); [done|].
      eapply Forall2_impl; [|exact Hvs']; by intros v v' (H & _).
    + split; [|split; [done|split; [done|]]].
      * constructor. clear -Hvs'. by induction Hvs' as [|v v' vs vs' (_ & H & _)]; constructor.
      * apply MmsValue_equals_complex. eapply Forall2_impl; [|exact Hvs']; by intros v v' (_ & _ & H).
Qed.
End Clone.


(** A string without characters to copy and a value without a component. *)
Lemma zero_malloc n : 0 <= n -> zlen (replicate (Z.to_nat n) (0 : Z)) = n /\ bytes (replicate (Z.to_nat n) 0).
Proof.
  intros H. split; [unfold zlen; rewrite length_replicate; lia|].
  apply Forall_replicate. unfold is_byte. lia.
Qed.

(** A structure of a flag, an integer of one octet, a string and an array of
    twelve bits. *)
Definition sample_value : MmsValue :=
  Complex 0 false (Some <$> [Simple 1 (V_BOOLEAN true);
    Simple 0 (V_INTEGER (mkAsn1 1 4 [7; 0; 0; 0]));
    Simple 0 (V_VISIBLE_STRING (Some [79; 75; 0]));
    Complex 0 true (Some <$> [Simple 0 (V_BIT_STRING 12 [0xab; 0xc0])])]).

Lemma sample_value_wf : mms_wf sample_value.
Proof.
  constructor. repeat apply Forall_cons_2; [| | | |constructor]; constructor; simpl.
  - done.
  - unfold asn1_wf. simpl. repeat split; try by_eval; bytes_tac.
  - exists [79; 75; 0], [79; 75]. repeat split. bytes_tac.
  - constructor; [|constructor]. constructor. simpl. repeat split; try done. bytes_tac.
Qed.

(** A deep copy: the copy of a well-formed value is well formed, of the same
    type and deletability, and equal to the value, however the memory of the new
    blocks looked before. *)
Theorem MmsValue_clone_equal malloc v :
  (forall n, 0 <= n -> zlen (malloc n) = n /\ bytes (malloc n)) -> mms_wf v ->
  exists v', MmsValue_clone malloc v = Done v' /\ mms_wf v' /\
    MmsValue_getType v' = MmsValue_getType v /\ MmsValue_isDeletable v' = MmsValue_isDeletable v /\
    MmsValue_equals v v' = Done true.
Proof. intros Hm. by apply MmsValue_clone_spec. Qed.

Lemma MmsValue_clone_equal_witness :
  exists v', MmsValue_clone (fun n => replicate (Z.to_nat n) 0) sample_value = Done v' /\
    MmsValue_equals sample_value v' = Done true.
Proof.
  destruct (MmsValue_clone_equal (fun n => replicate (Z.to_nat n) 0) sample_value zero_malloc sample_value_wf)
    as (v' & H1 & _ & _ & _ & H2).
  by exists v'.
Defined.

(** The default value of a string type is no value that can be copied, measured
    or placed in a buffer: its string is the null pointer, and these operations
    read it.  A structure with such a member shares the fate. *)
Theorem MmsValue_default_string_not_copied malloc name n m ts ts' s p a dest :
  let t := SpecStructure name (ts ++ SpecSimple name (T_VISIBLE_STRING n) :: ts') in
  MmsValue_newDefaultValue (SpecSimple name (T_VISIBLE_STRING n)) =
    Some (new_value (V_VISIBLE_STRING None)) /\
  MmsValue_newDefaultValue (SpecSimple name (T_STRING m)) = Some (new_value (V_STRING None)) /\
  MmsValue_clone malloc (new_value (V_VISIBLE_STRING None)) = Ub /\
  MmsValue_getSizeInMemory s p a (new_value (V_VISIBLE_STRING None)) = Ub /\
  MmsValue_cloneToBuffer s p a (new_value (V_VISIBLE_STRING None)) dest = Ub /\
  (Forall (fun t => exists v v', MmsValue_newDefaultValue t = Some v /\ MmsValue_clone malloc v = Done v') ts ->
   exists v, MmsValue_newDefaultValue t = Some v /\ MmsValue_clone malloc v = Ub).
Proof.
  intros t. repeat (split; [done|]). intros Hts. eexists. split; [reflexivity|].
  simpl. rewrite map_app.
  assert (forall rest, map_components (MmsValue_clone malloc) rest = Ub ->
    map_components (MmsValue_clone malloc) (map MmsValue_newDefaultValue ts ++ rest) = Ub) as ->; [|done|done].
  intros rest Hr. induction Hts as [|t' ts0 (v & v' & H1 & H2) _ IH]; [done|].
  simpl. rewrite H1, H2. simpl. by rewrite IH.
Qed.

(** * Update *)

(** The updates a value takes: a float of its format, an integer that fits, a bit
    string of its length, an octet string of its capacity. *)
Definition u_takes (u u' : uMmsValue) : Prop :=
  match u, u' with
  | V_BOOLEAN _, V_BOOLEAN _ | V_UTC_TIME _, V_UTC_TIME _ | V_BINARY_TIME _ _, V_BINARY_TIME _ _
  | V_VISIBLE_STRING _, V_VISIBLE_STRING _ | V_STRING _, V_STRING _ => True
  | V_FLOAT _ w _, V_FLOAT _ w' _ => w = w'
  | V_INTEGER i, V_INTEGER i' | V_UNSIGNED i, V_UNSIGNED i' => a_size i' <= a_maxSize i
  | V_BIT_STRING n _, V_BIT_STRING n' _ => n = n'
  | V_OCTET_STRING _ m _, V_OCTET_STRING _ m' _ => m = m'
  | _, _ => False
  end.

#[warnings="-register-all"]
Inductive takes : MmsValue -> MmsValue -> Prop :=
| takes_simple d d' u u' : u_takes u u' -> takes (Simple d u) (Simple d' u')
| takes_complex d d' a vs vs' :
    Forall2 takes vs vs' -> takes (Complex d a (Some <$> vs)) (Complex d' a (Some <$> vs')).

Lemma takes_induction (P : MmsValue -> MmsValue -> Prop) :
  (forall d d' u u', u_takes u u' -> P (Simple d u) (Simple d' u')) ->
  (forall d d' a vs vs', Forall2 takes vs vs' -> Forall2 P vs vs' ->
    P (Complex d a (Some <$> vs)) (Complex d' a (Some <$> vs'))) ->
  forall v v', takes v v' -> P v v'.
Proof.
  intros Hs Hc. fix IH 3. intros v v' [d d' u u' Hu|d d' a vs vs' Hvs]; [by apply Hs|].
  apply Hc; [done|]. induction Hvs; constructor; auto.
Qed.

Lemma asn1_update_spec i i' : asn1_wf i -> asn1_wf i' -> a_size i' <= a_maxSize i ->
  exists j, BerInteger_setFromBerInteger i i' = Done (1, j) /\ asn1_wf j /\
    a_bytes j = a_bytes i' /\ a_maxSize j = a_maxSize i.
Proof.
  intros (H1 & H2 & H3 & H4) Hi' Hle. pose proof Hi' as (K1 & K2 & K3 & K4).
  unfold BerInteger_setFromBerInteger. zdec. rewrite rd_list_slice by lia. cbn [rbind].
  rewrite st_list_fit by (rewrite ?zlen_slice; lia). eexists. split; [done|].
  unfold asn1_wf, a_bytes. simpl. rewrite zlen_splice by (rewrite ?zlen_slice; lia).
  rewrite slice_splice0 by (rewrite ?zlen_slice; lia).
  repeat split; try lia. auto with bytes.
Qed.

Lemma u_update_takes u u' : u_wf u -> u_wf u' -> u_takes u u' ->
  exists w, u_update u u' = Done (true, w) /\ u_wf w /\ u_type w = u_type u /\
    u_equals w u' = Done true /\ u_takes w u'.
Proof.
  intros Hu Hu' Ht.
  destruct u as [b|size buf|i|i|e w buf|n m buf|s|s|n buf|t|e| | |],
    u' as [b'|size' buf'|i'|i'|e' w' buf'|n' m' buf'|s'|s'|n' buf'|t'|e'| | |];
    simpl in Hu, Hu', Ht |- *; try done.
  - eexists. split; [done|]. simpl. by rewrite Bool.eqb_reflx.
  - subst size'. destruct Hu as (H1 & H2 & H3), Hu' as (K1 & K2 & K3).
    pose proof (zlen_quot8 _ H1). zdec. rewrite memcpy_whole by congruence. eexists. split; [done|].
    simpl. zdec. split; [done|split; [done|split; [|done]]]. apply memcmp_eq_refl; lia || done.
  - destruct (asn1_update_spec i i') as (j & E & Hj & Hb & Hm); [done..|]. rewrite E.
    eexists. split; [done|]. simpl. split; [done|split; [done|split; [|by rewrite Hm]]].
    by apply asn1_compare_same.
  - destruct (asn1_update_spec i i') as (j & E & Hj & Hb & Hm); [done..|]. rewrite E.
    eexists. split; [done|]. simpl. split; [done|split; [done|split; [|by rewrite Hm]]].
    by apply asn1_compare_same.
  - subst w'. destruct Hu as (H1 & H2 & H3), Hu' as (K1 & K2 & K3). zdec.
    assert (0 <= Z.quot w 8) by (destruct H1; subst; by_eval).
    rewrite memcpy_whole by congruence. eexists. split; [done|]. simpl.
    split; [done|split; [done|split; [|done]]]. apply memcmp_eq_refl; lia || done.
  - subst m'. destruct Hu as (H1 & H2 & H3 & H4), Hu' as (K1 & K2 & K3 & K4). zdec.
    rewrite memcpy_part by lia. eexists. split; [done|]. simpl. zdec.
    rewrite zlen_splice by (rewrite ?zlen_slice; lia).
    split; [repeat split; try lia; auto with bytes|split; [done|split; [|done]]].
    apply memcmp_eq_refl; rewrite ?zlen_splice by (rewrite ?zlen_slice; lia); try lia.
    rewrite slice_splice0; rewrite ?zlen_slice; lia || done.
  - destruct Hu' as (b & cs & -> & Hcs & Hb). simpl. rewrite Hcs. simpl.
    destruct (copyString_wf _ _ Hcs Hb) as [H1 H2]. eexists. split; [done|]. simpl.
    split; [by exists (copyString cs), cs|]. rewrite H1, Hcs. simpl. by rewrite bool_decide_true.
  - destruct Hu' as (b & cs & -> & Hcs & Hb). simpl. rewrite Hcs. simpl.
    destruct (copyString_wf _ _ Hcs Hb) as [H1 H2]. eexists. split; [done|]. simpl.
    split; [by exists (copyString cs), cs|]. rewrite H1, Hcs. simpl. by rewrite bool_decide_true.
  - destruct Hu as (H1 & H2 & H3), Hu' as (K1 & K2 & K3). rewrite memcpy_part by lia.
    eexists. split; [done|]. simpl. zdec. rewrite zlen_splice by (rewrite ?zlen_slice; lia).
    split; [repeat split; try lia; auto with bytes|split; [done|split; [|done]]].
    apply memcmp_eq_refl; rewrite ?zlen_splice by (rewrite ?zlen_slice; lia); try lia.
    rewrite slice_splice0; rewrite ?zlen_slice; lia || done.
  - destruct Hu as (H1 & H2), Hu' as (K1 & K2). rewrite memcpy_whole by lia.
    eexists. split; [done|]. simpl. split; [done|split; [done|split; [|done]]].
    apply memcmp_eq_refl; lia || done.
Qed.

Lemma updateComponents_spec f xs ys zs :
  Forall2 (fun '(x, y) z => exists ok, f x y = Done (ok, z)) (zip xs ys) zs -> length xs = length ys ->
  updateStructuredComponent f (Some <$> xs) (Some <$> ys) = Done (Some <$> zs).
Proof.
  revert ys zs. induction xs as [|x xs IH]; intros [|y ys] zs Hz Hl; try done.
  - by apply Forall2_nil_inv_l in Hz as ->.
  - apply Forall2_cons_inv_l in Hz as (z & zs' & (ok & E) & Hz & ->).
    rewrite !fmap_cons. cbn [updateStructuredComponent]. rewrite E. cbn [rbind].
    rewrite (IH ys zs'); [done|done|]. by injection Hl.
Qed.

Lemma MmsValue_update_takes v v' : takes v v' -> mms_wf v -> mms_wf v' ->
  exists w, MmsValue_update v v' = Done (true, w) /\ mms_wf w /\
    MmsValue_getType w = MmsValue_getType v /\ MmsValue_isDeletable w = MmsValue_isDeletable v /\
    MmsValue_equals w v' = Done true /\ takes w v'.
Proof.
  induction 1 as [d d' u u' Hu|d d' a vs vs' Hvs IH] using takes_induction; intros Hv Hv'.
  - inversion_clear Hv as [? ? Hw|]. inversion_clear Hv' as [? ? Hw'|].
    destruct (u_update_takes _ _ Hw Hw' Hu) as (w & E & H1 & H2 & H3 & H4).
    assert (u_type u = u_type u') as Ht by (destruct u, u'; simpl in Hu; done).
    exists (Simple d w). simpl. rewrite bool_decide_true by done. rewrite E. cbn [rbind].
    split; [done|]. split; [by constructor|]. split; [done|split; [done|split; [|by constructor]]].
    rewrite bool_decide_true by congruence. done.
  - inversion Hv as [|? ? ws Hws]. inversion Hv' as [|? ? ws' Hws']. subst.
    apply (inj (fmap Some)) in H1. apply (inj (fmap Some)) in H4. subst ws ws'.
    assert (exists ws, Forall2 (fun '(x, y) z => MmsValue_update x y = Done (true, z) /\ mms_wf z /\
      MmsValue_equals z y = Done true /\ takes z y) (zip vs vs') ws) as (ws & Hz).
    { clear Hv Hv'. revert Hws Hws'. clear Hvs. induction IH as [|x y vs vs' Hxy _ IH];
        [exists []; constructor|].
      intros [Hx Hvs]%Forall_cons_1 [Hy Hvs']%Forall_cons_1.
      destruct (Hxy Hx Hy) as (z & Z1 & Z2 & _ & _ & Z3 & Z4), (IH Hvs Hvs') as (ws & Hws).
      exists (z :: ws). by constructor. }
    assert (length vs = length vs') as Hl by (by eapply Forall2_length).
    exists (Complex d a (Some <$> ws)). split; [|split; [|split; [done|split; [done|split]]]].
    + simpl. rewrite bool_decide_true by done.
      rewrite (updateComponents_spec _ vs vs' ws); [done| |done].
      eapply Forall2_impl; [|exact Hz]. intros [x y] z (E & _). by exists true.
    + constructor. clear -Hz. remember (zip vs vs') as l eqn:E. clear E.
      induction Hz as [|[x y] z l ws (_ & H & _)]; constructor; done.
    + apply MmsValue_equals_complex. clear -Hz Hl. revert ws vs' Hz Hl.
      induction vs as [|x vs IH]; intros ws [|y vs'] Hz Hl; try done.
      * apply Forall2_nil_inv_l in Hz as ->. constructor.
      * apply Forall2_cons_inv_l in Hz as (z & zs & (_ & _ & H & _) & Hz & ->).
        constructor; [done|]. apply IH; [done|]. by injection Hl.
    + constructor. clear -Hz Hl. revert ws vs' Hz Hl.
      induction vs as [|x vs IH]; intros ws [|y vs'] Hz Hl; try done.
      * apply Forall2_nil_inv_l in Hz as ->. constructor.
      * apply Forall2_cons_inv_l in Hz as (z & zs & (_ & _ & _ & H) & Hz & ->).
        constructor; [done|]. apply IH; [done|]. by injection Hl.
Qed.

Lemma u_update_refused u u' : u_wf u -> u_wf u' -> ~ u_takes u u' ->
  u_update u u' = Done (false, u).
Proof.
  intros Hu Hu' Ht.
  destruct u as [b|size buf|i|i|e w buf|n m buf|s|s|n buf|t|e| | |],
    u' as [b'|size' buf'|i'|i'|e' w' buf'|n' m' buf'|s'|s'|n' buf'|t'|e'| | |];
    simpl in Ht |- *; try done; try (by exfalso; apply Ht); try by zdec.
  all: unfold BerInteger_setFromBerInteger; zdec; done.
Qed.

(** C36: An update that the value takes makes it equal to the source, is reported as
    a success and leaves the value ready for the next update; one that a simple
    value does not take is reported and changes nothing. *)
Theorem MmsValue_update_spec v v' : mms_wf v -> mms_wf v' ->
  (takes v v' ->
    exists w, MmsValue_update v v' = Done (true, w) /\ mms_wf w /\
      MmsValue_getType w = MmsValue_getType v /\ MmsValue_isDeletable w = MmsValue_isDeletable v /\
      MmsValue_equals w v' = Done true /\ takes w v') /\
  (forall d u, v = Simple d u -> ~ takes v v' -> MmsValue_update v v' = Done (false, v)).
Proof.
  intros Hv Hv'. split; [intros Ht; by apply MmsValue_update_takes|].
  intros d u -> Hn. inversion_clear Hv as [? ? Hu|]. destruct Hv' as [d' u' Hu'|d' a vs Hvs].
  - simpl. case_bool_decide; [|done]. rewrite u_update_refused; [done..|].
    intros Ht. by apply Hn; constructor.
  - simpl. case_bool_decide; done.
Qed.

Definition sample_update : MmsValue :=
  Complex 0 false (Some <$> [Simple 1 (V_BOOLEAN false);
    Simple 0 (V_INTEGER (mkAsn1 2 8 [7; 1; 0; 0; 0; 0; 0; 0]));
    Simple 0 (V_VISIBLE_STRING (Some [71; 79; 79; 68; 0]));
    Complex 0 true (Some <$> [Simple 0 (V_BIT_STRING 12 [0x12; 0x30])])]).

Lemma sample_update_wf : mms_wf sample_update.
Proof.
  constructor. repeat apply Forall_cons_2; [| | | |constructor]; constructor; simpl.
  - done.
  - unfold asn1_wf. simpl. repeat split; try by_eval; bytes_tac.
  - exists [71; 79; 79; 68; 0], [71; 79; 79; 68]. repeat split. bytes_tac.
  - constructor; [|constructor]. constructor. simpl. repeat split; try done. bytes_tac.
Qed.

Lemma MmsValue_update_spec_witness :
  exists w, MmsValue_update sample_value sample_update = Done (true, w) /\
    MmsValue_equals w sample_update = Done true.
Proof.
  destruct (MmsValue_update_spec sample_value sample_update sample_value_wf sample_update_wf) as [H _].
  destruct H as (w & H1 & _ & _ & _ & H2 & _); [|by exists w].
  constructor. repeat constructor. simpl. lia.
Defined.

(** The update of a structure is reported as a success whatever became of its
    members: a member that refuses its update keeps its old value.  An update with
    fewer members reads beyond the members of the source. *)
Theorem MmsValue_update_structure_hides_failure d d' a x y xs ys :
  MmsValue_update x y = Done (false, x) ->
  (forall zs, updateStructuredComponent MmsValue_update xs ys = Done zs ->
    MmsValue_update (Complex d a (Some x :: xs)) (Complex d' a (Some y :: ys))
      = Done (true, Complex d a (Some x :: zs))) /\
  MmsValue_update (Complex d a (Some x :: xs)) (Complex d' a []) = Ub.
Proof.
  intros H. split; [intros zs Hz|]; simpl; rewrite bool_decide_true by done; [|done].
  rewrite H. cbn [rbind]. by rewrite Hz.
Qed.

Lemma MmsValue_update_structure_hides_failure_witness :
  let x := Simple 0 (V_OCTET_STRING 1 2 [5; 0]) in
  let y := Simple 0 (V_OCTET_STRING 1 3 [6; 0; 0]) in
  MmsValue_update (Complex 0 false [Some x]) (Complex 0 false [Some y])
    = Done (true, Complex 0 false [Some x]).
Proof.
  destruct (MmsValue_update_structure_hides_failure 0 0 false
    (Simple 0 (V_OCTET_STRING 1 2 [5; 0])) (Simple 0 (V_OCTET_STRING 1 3 [6; 0; 0])) [] [] eq_refl)
    as [H _].
  exact (H [] eq_refl).
Defined.

(** * Memory *)

Section Sizes.
Context (sizeof_MmsValue sizeof_pointer sizeof_Asn1PrimitiveValue : Z).
Abbreviation size := (MmsValue_getSizeInMemory sizeof_MmsValue sizeof_pointer sizeof_Asn1PrimitiveValue).
Abbreviation place := (MmsValue_cloneToBuffer sizeof_MmsValue sizeof_pointer sizeof_Asn1PrimitiveValue).

Lemma u_cloneToBuffer_spec u dest : u_wf u ->
  exists u' n, u_size sizeof_Asn1PrimitiveValue u = Done n /\
    u_cloneToBuffer sizeof_Asn1PrimitiveValue u dest = Done (dest + n, u') /\
    u_wf u' /\ u_type u' = u_type u /\ u_equals u u' = Done true.
Proof.
  intros Hu. destruct u as [b|sz buf|i|i|e w buf|n m buf|s|s|n buf|t|e| | |]; simpl in Hu |- *; try done.
  1: { eexists _, 0. split; [done|]. rewrite Z.add_0_r. split; [done|]. simpl. by rewrite Bool.eqb_reflx. }
  1: { destruct Hu as (H1 & H2 & H3). pose proof (zlen_quot8 _ H1). rewrite rd_list_whole by done.
    eexists _, _. split; [done|]. split; [done|]. simpl. zdec. repeat split; try done.
    apply memcmp_eq_refl; lia || done. }
  1,2: pose proof Hu as (H1 & H2 & H3 & H4); rewrite rd_list_slice by lia; cbn [rbind];
    eexists _, _; split; [done|]; split; [by rewrite Z.add_assoc|];
    assert (asn1_wf (mkAsn1 (a_size i) (a_maxSize i) (slice (a_octets i) 0 (a_maxSize i))))
      by (unfold asn1_wf; simpl; rewrite zlen_slice by lia; repeat split; try lia; auto with bytes);
    split; [done|]; split; [done|]; apply asn1_compare_same; try done;
    unfold a_bytes; simpl; by rewrite slice_slice by lia.
  1: { destruct Hu as (H1 & H2 & H3). assert (0 <= Z.quot w 8) by (destruct H1; subst; by_eval).
    rewrite rd_list_whole by done. eexists _, _. split; [done|]. split; [done|].
    repeat split; try done. simpl. apply memcmp_eq_refl; lia || done. }
  1: { destruct Hu as (H1 & H2 & H3 & H4). rewrite rd_list_whole by done.
    eexists _, _. split; [done|]. split; [done|]. repeat split; try done; try lia. simpl. zdec.
    apply memcmp_eq_refl; lia || done. }
  1,2: destruct Hu as (b & cs & -> & Hcs & Hb); simpl; rewrite ?Hcs; simpl;
    destruct (copyString_wf _ _ Hcs Hb) as [H1 H2];
    eexists _, _; split; [done|]; split; [done|];
    split; [by exists (copyString cs), cs|split; [done|]];
    simpl; rewrite ?Hcs; simpl; rewrite H1; simpl; by rewrite bool_decide_true.
  1: { destruct Hu as (H1 & H2 & H3). eexists _, 0. split; [done|]. rewrite Z.add_0_r. split; [done|].
    repeat split; try done. simpl. zdec. apply memcmp_eq_refl; lia || done. }
  1: { destruct Hu as (H1 & H2). eexists _, 0. split; [done|]. rewrite Z.add_0_r. split; [done|].
    repeat split; try done. simpl. apply memcmp_eq_refl; lia || done. }
  1: { eexists _, 0. split; [done|]. rewrite Z.add_0_r. split; [done|]. simpl. by rewrite Z.eqb_refl. }
Qed.

Lemma place_components_spec vs :
  Forall (fun v => forall dest, exists v' n, size v = Done n /\ place v dest = Done (dest + n, v') /\
    mms_wf v' /\ MmsValue_equals v v' = Done true) vs ->
  forall dest, exists vs' n, sum_components size (Some <$> vs) = Done n /\
    place_components place (Some <$> vs) dest = Done (dest + n, Some <$> vs') /\
    Forall mms_wf vs' /\ Forall2 (fun v v' => MmsValue_equals v v' = Done true) vs vs'.
Proof.
  induction 1 as [|v vs Hv _ IH]; intros dest.
  - exists [], 0. rewrite Z.add_0_r. by repeat constructor.
  - destruct (Hv dest) as (v' & n & H1 & H2 & H3 & H4), (IH (dest + n)) as (vs' & k & K1 & K2 & K3 & K4).
    exists (v' :: vs'), (n + k). rewrite !fmap_cons. cbn [sum_components place_components].
    rewrite H1, H2. cbn [rbind]. rewrite K1, K2. cbn [rbind]. rewrite Z.add_assoc.
    repeat split; by constructor.
Qed.

Lemma MmsValue_cloneToBuffer_spec v : mms_wf v -> forall dest, exists v' n,
  size v = Done n /\ place v dest = Done (dest + n, v') /\ mms_wf v' /\ MmsValue_equals v v' = Done true.
Proof.
  induction 1 as [d u Hu|d a vs _ IH] using mms_wf_induction; intros dest.
  - destruct (u_cloneToBuffer_spec u (dest + sizeof_MmsValue) Hu) as (u' & n & H1 & H2 & H3 & H4 & H5).
    exists (Simple d u'), (sizeof_MmsValue + n). simpl. rewrite H1, H2. simpl. rewrite Z.add_assoc.
    repeat split; [by constructor|]. by rewrite H4, bool_decide_true.
  - destruct (place_components_spec vs IH (dest + sizeof_MmsValue + sizeof_pointer * zlen (Some <$> vs)))
      as (vs' & n & H1 & H2 & H3 & H4).
    exists (Complex d a (Some <$> vs')), (sizeof_MmsValue + sizeof_pointer * zlen (Some <$> vs) + n).
    cbn [MmsValue_getSizeInMemory MmsValue_cloneToBuffer]. rewrite H1, H2. cbn [rbind].
    rewrite !Z.add_assoc. repeat split; [by constructor|]. by apply MmsValue_equals_complex.
Qed.
End Sizes.

(** A copy into a buffer takes exactly the bytes that
    [MmsValue_getSizeInMemory] announces, and is equal to the value. *)
Theorem MmsValue_cloneToBuffer_size s p a v dest : mms_wf v ->
  exists v' n, MmsValue_getSizeInMemory s p a v = Done n /\
    MmsValue_cloneToBuffer s p a v dest = Done (dest + n, v') /\
    mms_wf v' /\ MmsValue_equals v v' = Done true.
Proof. intros Hv. by apply MmsValue_cloneToBuffer_spec. Qed.

Lemma MmsValue_cloneToBuffer_size_witness :
  exists v', MmsValue_cloneToBuffer 24 8 16 sample_value 1000 = Done (1000 + 209, v').
Proof.
  destruct (MmsValue_cloneToBuffer_size 24 8 16 sample_value 1000 sample_value_wf)
    as (v' & n & H1 & H2 & _).
  exists v'. vm_compute in H1. injection H1 as <-. exact H2.
Defined.
