(* ===== verification/MmsTimeBits.v ===== *)
(** MMS values: times, bit strings and numbers read back as they were set. *)
From stdpp Require Import base tactics list numbers option.
From S2P Require Import Prelude Memory BerDecode BerEncode BerInteger MmsValue MmsValueFacts.

(** * Byte order *)

Lemma le_val_le_bytes n v : le_val (le_bytes n v) = v mod 256 ^ Z.of_nat n.
Proof. apply be_val_le_bytes. Qed.

Lemma zlen_rev {A} (l : list A) : zlen (rev l) = zlen l.
Proof. unfold zlen. by rewrite length_rev. Qed.

Lemma memcpyReverse_spec dst src n :
  0 <= n -> n <= zlen src -> n <= zlen dst ->
  memcpyReverseByteOrder dst src n = Done (splice dst 0 (rev (slice src 0 n))).
Proof.
  intros H1 H2 H3. unfold memcpyReverseByteOrder. rewrite rd_list_slice by lia. cbn [rbind].
  apply st_list_fit; [lia|]. rewrite zlen_rev, zlen_slice; lia.
Qed.

Lemma zlen_le_bytes n v : zlen (le_bytes n v) = Z.of_nat n.
Proof. unfold zlen. by rewrite length_le_bytes. Qed.

(** Three bytes of a number and the number of its bytes. *)
Lemma three_bytes f : 0 <= f < 2 ^ 24 ->
  u32 (u32 (Z.shiftl (u8 (Z.land (Z.shiftr f 16) 255)) 16 + Z.shiftl (u8 (Z.land (Z.shiftr f 8) 255)) 8)
    + u8 (Z.land f 255)) = f.
Proof.
  intros Hf. change (2 ^ 24) with 16777216 in Hf. change 255 with (Z.ones 8).
  rewrite !Z.land_ones, !Z.shiftr_div_pow2, !Z.shiftl_mul_pow2 by lia.
  change (2 ^ 16) with 65536. change (2 ^ 8) with 256.
  pose proof (Z.div_mod f 256 ltac:(lia)). pose proof (Z.mod_pos_bound f 256 ltac:(lia)).
  pose proof (Z.div_mod (f / 256) 256 ltac:(lia)) as H1.
  pose proof (Z.mod_pos_bound (f / 256) 256 ltac:(lia)).
  rewrite Z.div_div in H1 by lia. change (256 * 256) with 65536 in H1.
  assert (0 <= f / 65536 < 256) by (split; [apply Z.div_pos; lia|apply Z.div_lt_upper_bound; lia]).
  rewrite (Z.mod_small (f / 65536)) by lia. rewrite !u8_small by lia. rewrite (u32_small (_ * 65536 + _)) by lia. rewrite u32_small; lia.
Qed.

Lemma u64_small z : 0 <= z < 18446744073709551616 -> u64 z = z.
Proof. intros. unfold u64. by apply Z.mod_small. Qed.

(** * UTC time *)

Lemma fractionOfSecond_spec r : 0 <= r < 1000 ->
  fractionOfSecond r = r * 16777 + r * 216 / 1000 /\ 0 <= fractionOfSecond r < 2 ^ 24 /\
  fractionOfSecond r / 16777 = r.
Proof.
  intros Hr. assert (0 <= r * 216 / 1000 < 216) as Hq
    by (split; [apply Z.div_pos; lia|apply Z.div_lt_upper_bound; lia]).
  assert (fractionOfSecond r = r * 16777 + r * 216 / 1000) as E
    by (unfold fractionOfSecond; rewrite (u32_small (r * 16777)), (u32_small (r * 216)) by lia;
        apply u32_small; lia).
  rewrite E. split; [done|]. split; [change (2 ^ 24) with 16777216; lia|].
  rewrite Z.add_comm, Z.div_add, Z.div_small by lia. lia.
Qed.

(** A time set in milliseconds is read back exactly for the 32 bits of seconds
    the format has; beyond them the seconds wrap around. *)
Theorem MmsValue_utcTimeMs_roundtrip d t ms :
  zlen t = 8 -> 0 <= ms < 2 ^ 64 ->
  exists v, MmsValue_setUtcTimeMs (Simple d (V_UTC_TIME t)) ms = Done v /\
    MmsValue_getUtcTimeInMs v = Done (u32 (ms / 1000) * 1000 + ms mod 1000) /\
    MmsValue_toUnixTimestamp v = Done (u32 (ms / 1000)) /\
    MmsValue_getUtcTimeQuality v = Done 10 /\
    (ms < 2 ^ 32 * 1000 -> MmsValue_getUtcTimeInMs v = Done ms).
Proof.
  intros Ht Hms. pose proof (Z.mod_pos_bound ms 1000 ltac:(lia)) as Hr.
  destruct (fractionOfSecond_spec _ Hr) as (_ & Hf & Hq).
  unfold MmsValue_setUtcTimeMs. cbn [as_utc_time rbind].
  set (s := u32 (ms / 1000)). pose proof (u32_range (ms / 1000)) as Hs. fold s in Hs.
  rewrite memcpyReverse_spec by (rewrite ?zlen_le_bytes; lia).
  rewrite slice_whole by (by rewrite zlen_le_bytes). cbn [rbind].
  set (f := fractionOfSecond (ms mod 1000)) in *.
  pose proof (le_val_le_bytes 4 s) as El. rewrite Z.mod_small in El by (change (256 ^ Z.of_nat 4) with 4294967296; lia).
  destruct (le_bytes 4 s) as [|s0 [|s1 [|s2 [|s3 [|]]]]] eqn:E; try done.
  destruct t as [|t0 [|t1 [|t2 [|t3 [|t4 [|t5 [|t6 [|t7 [|]]]]]]]]]; try done;
    try (unfold zlen in Ht; rewrite !length_cons in Ht; lia).
  set (v := Simple d (V_UTC_TIME [s3; s2; s1; s0;
    u8 (Z.land (Z.shiftr f 16) 255); u8 (Z.land (Z.shiftr f 8) 255); u8 (Z.land f 255); u8 10])).
  exists v. split; [reflexivity|].
  assert (MmsValue_getUtcTimeInMs v = Done (s * 1000 + ms mod 1000)) as Hget.
  { transitivity (Done (u64 (le_val [s0; s1; s2; s3] * 1000 +
      u32 (u32 (Z.shiftl (u8 (Z.land (Z.shiftr f 16) 255)) 16 +
        Z.shiftl (u8 (Z.land (Z.shiftr f 8) 255)) 8) + u8 (Z.land f 255)) / 16777))); [reflexivity|].
    rewrite El, three_bytes, Hq by done.
    f_equal. unfold u64. change (2 ^ 64) with 18446744073709551616. apply Z.mod_small. lia. }
  split; [exact Hget|]. split; [change (Done (le_val [s0; s1; s2; s3]) = Done s); by rewrite El|].
  split; [done|]. intros Hlt. rewrite Hget. f_equal. unfold s. rewrite u32_small.
  - pose proof (Z.div_mod ms 1000 ltac:(lia)). lia.
  - change (2 ^ 32) with 4294967296 in Hlt. split; [apply Z.div_pos; lia|apply Z.div_lt_upper_bound; lia].
Qed.

Lemma MmsValue_utcTimeMs_roundtrip_witness :
  exists v, MmsValue_setUtcTimeMs (MmsValue_newUtcTime 0) 1500000000999 = Done v /\
    MmsValue_getUtcTimeInMs v = Done 1500000000999.
Proof.
  destruct (MmsValue_utcTimeMs_roundtrip 0 (rev (le_bytes 4 0) ++ replicate 4 0) 1500000000999
    eq_refl ltac:(lia)) as (v & H1 & _ & _ & _ & H2).
  exists v. split; [exact H1|apply H2; lia].
Defined.

(** * Binary time *)

Lemma MmsValue_binaryTime_spec d size buf ts :
  zlen buf = 6 -> (size = 4 \/ size = 6) -> MMS_EPOCH <= ts < 2 ^ 64 ->
  exists v, MmsValue_setBinaryTime (Simple d (V_BINARY_TIME size buf)) ts = Done v /\
    MmsValue_getBinaryTimeAsUtcMs v = Done (
      if size =? 6 then u16 ((ts - MMS_EPOCH) / MS_PER_DAY) * MS_PER_DAY + MMS_EPOCH +
        (ts - MMS_EPOCH) mod MS_PER_DAY
      else (ts - MMS_EPOCH) mod MS_PER_DAY).
Proof.
  intros Hb Hsz Hts. unfold MmsValue_setBinaryTime. cbn [as_binary_time rbind].
  assert (u64 (ts - MMS_EPOCH) = ts - MMS_EPOCH) as ->
    by (unfold u64, MMS_EPOCH in *; apply Z.mod_small; lia).
  set (mms := ts - MMS_EPOCH). assert (0 <= mms) as Hmms by (unfold mms; lia).
  pose proof (Z.mod_pos_bound mms MS_PER_DAY ltac:(done)) as Hm.
  pose proof (u16_range (mms / MS_PER_DAY)) as Hd. set (days := u16 _) in *.
  assert (u32 (mms mod MS_PER_DAY) = mms mod MS_PER_DAY) as ->
    by (apply u32_small; unfold MS_PER_DAY in *; lia).
  set (msd := mms mod MS_PER_DAY) in *.
  destruct buf as [|t0 [|t1 [|t2 [|t3 [|t4 [|t5 [|]]]]]]]; try done;
    try (unfold zlen in Hb; rewrite !length_cons in Hb; lia).
  assert (be_val (rev (le_bytes 4 msd)) = msd) as El.
  { rewrite be_val_le_bytes, Z.mod_small; [done|]. change (256 ^ Z.of_nat 4) with 4294967296.
    unfold MS_PER_DAY in *. lia. }
  assert (be_val (rev (le_bytes 2 days)) = days) as Ed.
  { rewrite be_val_le_bytes, Z.mod_small; [done|]. change (256 ^ Z.of_nat 2) with 65536. lia. }
  pose proof (bytes_le_bytes 4 msd) as Hbl. pose proof (bytes_le_bytes 2 days) as Hbd.
  destruct (le_bytes 4 msd) as [|s0 [|s1 [|s2 [|s3 [|]]]]] eqn:E; try done.
  destruct (le_bytes 2 days) as [|d0 [|d1 [|]]] eqn:E2; try done.
  apply Forall_cons_1 in Hbl as [B0 Hbl]. apply Forall_cons_1 in Hbl as [B1 Hbl].
  apply Forall_cons_1 in Hbl as [B2 Hbl]. apply Forall_cons_1 in Hbl as [B3 _].
  apply Forall_cons_1 in Hbd as [D0 Hbd]. apply Forall_cons_1 in Hbd as [D1 _].
  unfold is_byte in *. cbn in El, Ed.
  assert (u32 (u32 (u32 (u32 (Z.shiftl s3 24) + Z.shiftl s2 16) + Z.shiftl s1 8) + s0) = msd) as Ems.
  { rewrite !Z.shiftl_mul_pow2 by lia. change (2 ^ 24) with 16777216. change (2 ^ 16) with 65536.
    change (2 ^ 8) with 256.
    rewrite (u32_small (s3 * _)) by lia. rewrite (u32_small (s3 * _ + _)) by lia.
    rewrite (u32_small (_ + s1 * 256)) by lia. rewrite u32_small; lia. }
  set (ms32 := u32 _) in Ems.
  destruct Hsz as [-> | ->].
  - exists (Simple d (V_BINARY_TIME 4 [s3; s2; s1; s0; t4; t5])). split; [reflexivity|].
    transitivity (Done (u64 (0 + ms32))); [reflexivity|]. rewrite Ems. f_equal.
    cbn [Z.eqb Pos.eqb]. unfold MS_PER_DAY in *. clearbody msd. apply u64_small. lia.
  - exists (Simple d (V_BINARY_TIME 6 [s3; s2; s1; s0; u8 d1; u8 d0])). split; [reflexivity|].
    transitivity (Done (u64 (u64 (u16 (u16 (u8 d1 * 256) + u8 d0) * MS_PER_DAY + MMS_EPOCH) + ms32)));
      [reflexivity|].
    rewrite Ems. rewrite !u8_small by lia. rewrite (u16_small (d1 * 256)) by lia.
    rewrite u16_small by lia. replace (d1 * 256 + d0) with days by lia.
    f_equal. cbn [Z.eqb Pos.eqb]. unfold MS_PER_DAY, MMS_EPOCH in *. clearbody msd days.
    rewrite (u64_small (days * _ + _)) by lia. apply u64_small. lia.
Qed.

(** A binary time of six bytes keeps any time of the 65536 days from 1984 on to
    the millisecond; one of four bytes keeps the time of the day. *)
Theorem MmsValue_binaryTime_roundtrip d size buf ts :
  zlen buf = 6 -> (size = 4 \/ size = 6) ->
  MMS_EPOCH <= ts < MMS_EPOCH + 65536 * MS_PER_DAY ->
  exists v, MmsValue_setBinaryTime (Simple d (V_BINARY_TIME size buf)) ts = Done v /\
    MmsValue_getBinaryTimeAsUtcMs v =
      Done (if size =? 6 then ts else (ts - MMS_EPOCH) mod MS_PER_DAY).
Proof.
  intros Hb Hs Hts. assert (MMS_EPOCH <= ts < 2 ^ 64) as Hts' by (unfold MMS_EPOCH, MS_PER_DAY in *; lia).
  destruct (MmsValue_binaryTime_spec d size buf ts Hb Hs Hts') as (v & H1 & H2).
  exists v. split; [exact H1|]. rewrite H2. destruct (size =? 6); [|done]. f_equal.
  rewrite u16_small.
  - pose proof (Z.div_mod (ts - MMS_EPOCH) MS_PER_DAY ltac:(done)). lia.
  - split; [apply Z.div_pos; [lia|done]|]. apply Z.div_lt_upper_bound; [done|lia].
Qed.

Lemma MmsValue_binaryTime_roundtrip_witness :
  exists v, MmsValue_setBinaryTime (MmsValue_newBinaryTime false) 1500000000999 = Done v /\
    MmsValue_getBinaryTimeAsUtcMs v = Done 1500000000999.
Proof.
  apply (MmsValue_binaryTime_roundtrip 0 6 (replicate 6 0) 1500000000999 eq_refl).
  - by right.
  - unfold MMS_EPOCH, MS_PER_DAY. lia.
Defined.

(** * Bit strings *)

(** Bit [i] of a buffer: the first bit is the highest of the first byte. *)
Definition bit_at (buf : list Z) (i : Z) : bool :=
  match buf !! Z.to_nat (i / 8) with Some b => Z.testbit b (7 - i mod 8) | None => false end.

Definition bits_wf (size : Z) (buf : list Z) : Prop :=
  0 <= size /\ zlen buf = bitStringByteSize size /\ bytes buf.

Lemma bits_in size buf i : bits_wf size buf -> 0 <= i < size ->
  Z.quot i 8 = i / 8 /\ Z.rem i 8 = i mod 8 /\ 0 <= i mod 8 < 8 /\ 0 <= i / 8 < zlen buf /\
  exists b, buf !! Z.to_nat (i / 8) = Some b /\ is_byte b.
Proof.
  intros (H0 & Hl & Hb) Hi.
  assert (0 <= i / 8) by (apply Z.div_pos; lia).
  assert (i / 8 < zlen buf) as Hlt.
  { rewrite Hl. unfold bitStringByteSize. rewrite Z.quot_div_nonneg, Z.rem_mod_nonneg by lia.
    pose proof (Z.div_mod size 8 ltac:(lia)). pose proof (Z.mod_pos_bound size 8 ltac:(lia)).
    assert (i / 8 <= size / 8) by (apply Z.div_le_mono; lia).
    destruct (Z.ltb_spec 0 (size mod 8)); [lia|]. apply Z.div_lt_upper_bound; lia. }
  repeat split; try lia; try (apply Z.mod_pos_bound; lia).
  - by rewrite Z.quot_div_nonneg by lia.
  - by rewrite Z.rem_mod_nonneg by lia.
  - destruct (lookup_lt_is_Some_2 buf (Z.to_nat (i / 8))) as [b E]; [unfold zlen in Hlt; lia|].
    exists b. split; [done|]. by eapply Forall_lookup_1.
Qed.

Lemma land_bit b k : 0 <= k -> Z.land b (Z.shiftl 1 k) = if Z.testbit b k then 2 ^ k else 0.
Proof.
  intros Hk. rewrite Z.shiftl_1_l. apply Z.bits_inj'. intros n Hn. rewrite Z.land_spec.
  rewrite Z.pow2_bits_eqb by done. destruct (Z.eqb_spec k n) as [<-|Hne].
  - rewrite andb_true_r. destruct (Z.testbit b k) eqn:E; [by rewrite Z.pow2_bits_true|by rewrite Z.bits_0].
  - rewrite andb_false_r. destruct (Z.testbit b k); [|by rewrite Z.bits_0].
    rewrite Z.pow2_bits_false; [done|]. lia.
Qed.

Lemma getBit_spec d size buf i : bits_wf size buf -> 0 <= i < size ->
  MmsValue_getBitStringBit (Simple d (V_BIT_STRING size buf)) i = Done (bit_at buf i).
Proof.
  intros Hw Hi. destruct (bits_in _ _ _ Hw Hi) as (Eq & Er & Hr & Hd & b & Eb & Hbb).
  unfold MmsValue_getBitStringBit. cbn [as_bit_string rbind]. zdec. rewrite Eq, Er.
  rewrite (ld_lookup _ _ b) by (lia || done). cbn [rbind]. unfold bit_at. rewrite Eb. f_equal.
  rewrite land_bit by lia. destruct (Z.testbit b (7 - i mod 8)).
  - apply Z.ltb_lt. apply Z.pow_pos_nonneg; lia.
  - done.
Qed.

Lemma testbit_u8 v n : 0 <= n < 8 -> Z.testbit (u8 v) n = Z.testbit v n.
Proof. intros H. unfold u8. apply Z.mod_pow2_bits_low. lia. Qed.

Lemma setBit_spec d size buf i v : bits_wf size buf -> 0 <= i < size ->
  exists buf', MmsValue_setBitStringBit (Simple d (V_BIT_STRING size buf)) i v
    = Done (Simple d (V_BIT_STRING size buf')) /\ bits_wf size buf' /\
    forall j, 0 <= j < size -> bit_at buf' j = if j =? i then v else bit_at buf j.
Proof.
  intros Hw Hi. pose proof (bits_in _ _ _ Hw Hi) as (Eq & Er & Hr & Hd & b & Eb & Hbb).
  unfold MmsValue_setBitStringBit. cbn [as_bit_string rbind]. zdec. rewrite Eq, Er.
  rewrite (ld_lookup _ _ b) by (lia || done). cbn [rbind]. rewrite st_in by lia. cbn [rbind].
  eexists. split; [reflexivity|]. split.
  { destruct Hw as (H0 & Hl & Hb). split; [done|]. split; [by rewrite zlen_insert|].
    apply Forall_insert; [done|apply u8_byte]. }
  intros j Hj. destruct (bits_in _ _ _ Hw Hj) as (_ & _ & Hrj & Hdj & c & Ec & _).
  unfold bit_at. pose proof (Z.div_mod i 8 ltac:(lia)). pose proof (Z.div_mod j 8 ltac:(lia)).
  destruct (decide (Z.to_nat (j / 8) = Z.to_nat (i / 8))) as [E|E].
  - assert (j / 8 = i / 8) as Ed by lia. rewrite E.
    rewrite list_lookup_insert_eq by (unfold zlen in Hd; lia). rewrite Eb, testbit_u8 by lia.
    destruct (Z.eqb_spec j i) as [->|Hne].
    + destruct v; rewrite ?Z.lor_spec, ?Z.land_spec, ?Z.lnot_spec, Z.shiftl_1_l, Z.pow2_bits_true by lia.
      * apply orb_true_r.
      * apply andb_false_r.
    + assert (7 - i mod 8 <> 7 - j mod 8) by lia.
      destruct v; rewrite ?Z.lor_spec, ?Z.land_spec, ?Z.lnot_spec, Z.shiftl_1_l, Z.pow2_bits_false by lia.
      * apply orb_false_r.
      * apply andb_true_r.
  - rewrite list_lookup_insert_ne by done. destruct (Z.eqb_spec j i) as [->|]; [done|reflexivity].
Qed.

Lemma bits_from_integer_spec d size n buf i v :
  bits_wf size buf -> 0 <= i -> i + Z.of_nat n <= size ->
  exists buf', bits_from_integer n (Simple d (V_BIT_STRING size buf)) i v
    = Done (Simple d (V_BIT_STRING size buf')) /\ bits_wf size buf' /\
    forall j, 0 <= j < size ->
      bit_at buf' j = if (i <=? j) && (j <? i + Z.of_nat n) then Z.testbit v (j - i) else bit_at buf j.
Proof.
  revert buf i v. induction n as [|n IH]; intros buf i v Hw Hi Hn.
  - exists buf. split; [done|]. split; [done|]. intros j Hj.
    destruct (i <=? j) eqn:E; [|done]. apply Z.leb_le in E. by zdec.
  - destruct (setBit_spec d size buf i (Z.land v 1 =? 1) Hw ltac:(lia)) as (buf1 & E1 & Hw1 & Hb1).
    destruct (IH buf1 (i + 1) (Z.shiftr v 1) Hw1 ltac:(lia) ltac:(lia)) as (buf2 & E2 & Hw2 & Hb2).
    exists buf2. cbn [bits_from_integer]. rewrite E1. split; [exact E2|]. split; [done|].
    intros j Hj. rewrite Hb2, Hb1 by done.
    destruct (Z.eqb_spec j i) as [->|Hne].
    + rewrite (proj2 (Z.leb_gt (i + 1) i)), (proj2 (Z.leb_le i i)) by lia. cbn [andb].
      rewrite (proj2 (Z.ltb_lt i _)) by lia. rewrite Z.sub_diag.
      change 1 with (Z.ones 1) at 1. rewrite Z.land_ones by lia. change (2 ^ 1) with 2.
      rewrite Zmod_odd, Z.bit0_odd. by destruct (Z.odd v).
    + destruct (Z.leb_spec (i + 1) j); destruct (Z.leb_spec i j); try lia; cbn [andb]; [|done].
      replace (j <? i + 1 + Z.of_nat n) with (j <? i + Z.of_nat (S n)) by (f_equal; lia).
      destruct (j <? i + Z.of_nat (S n)); [|done].
      rewrite Z.shiftr_spec by lia. f_equal. lia.
Qed.

Lemma mod_pow2_succ w i : 0 <= i ->
  w mod 2 ^ (i + 1) = w mod 2 ^ i + (if Z.testbit w i then 2 ^ i else 0).
Proof.
  intros Hi. rewrite Z.pow_add_r by lia. change (2 ^ 1) with 2.
  assert (0 < 2 ^ i) by (apply Z.pow_pos_nonneg; lia).
  rewrite Z.rem_mul_r by lia. rewrite <- Z.testbit_spec' by done.
  destruct (Z.testbit w i); simpl; lia.
Qed.

Lemma bits_as_integer_spec d size n buf i w :
  bits_wf size buf -> 0 <= i -> i + Z.of_nat n <= size -> size <= 32 ->
  (forall j, i <= j < i + Z.of_nat n -> bit_at buf j = Z.testbit w j) ->
  bits_as_integer n (Simple d (V_BIT_STRING size buf)) i (w mod 2 ^ i)
    = Done (w mod 2 ^ (i + Z.of_nat n)).
Proof.
  revert i. induction n as [|n IH]; intros i Hw Hi Hn H32 Hb.
  - cbn [bits_as_integer]. by rewrite Z.add_0_r.
  - cbn [bits_as_integer]. rewrite getBit_spec by (done || lia). cbn [rbind].
    rewrite Hb by lia. replace (i + Z.of_nat (S n)) with (i + 1 + Z.of_nat n) by lia.
    rewrite <- IH by (try done; try lia; intros j Hj; apply Hb; lia).
    rewrite mod_pow2_succ by done. destruct (Z.testbit w i); [|by rewrite Z.add_0_r].
    zdec. rewrite Z.shiftl_1_l.
    assert (2 ^ (i + 1) <= 2 ^ 32) as Hp by (apply Z.pow_le_mono_r; lia).
    rewrite Z.pow_add_r in Hp by lia. change (2 ^ 1) with 2 in Hp. change (2 ^ 32) with 4294967296 in Hp.
    pose proof (Z.mod_pos_bound w (2 ^ i) ltac:(apply Z.pow_pos_nonneg; lia)).
    rewrite u32_small by lia. done.
Qed.

(** A bit string of up to 32 bits holds an integer: what
    [MmsValue_setBitStringFromInteger] stores is read back modulo the number of
    bits, and each bit of the string is the bit of the integer. *)
Theorem MmsValue_bitString_integer_roundtrip d size buf v :
  bits_wf size buf ->
  exists buf', MmsValue_setBitStringFromInteger (Simple d (V_BIT_STRING size buf)) v
      = Done (Simple d (V_BIT_STRING size buf')) /\ bits_wf size buf' /\
    (forall i, 0 <= i < size ->
      MmsValue_getBitStringBit (Simple d (V_BIT_STRING size buf')) i = Done (Z.testbit v i)) /\
    (size <= 32 ->
      MmsValue_getBitStringAsInteger (Simple d (V_BIT_STRING size buf')) = Done (v mod 2 ^ size)).
Proof.
  intros Hw. assert (0 <= size) as Hs by (by destruct Hw).
  destruct (bits_from_integer_spec d size (Z.to_nat size) buf 0 v Hw ltac:(lia) ltac:(lia))
    as (buf' & E & Hw' & Hb).
  assert (forall j, 0 <= j < size -> bit_at buf' j = Z.testbit v j) as Hb'.
  { intros j Hj. rewrite Hb by done. rewrite (proj2 (Z.leb_le 0 j)), (proj2 (Z.ltb_lt j _)) by lia.
    cbn [andb]. f_equal. lia. }
  exists buf'. split; [exact E|]. split; [done|]. split.
  - intros i Hi. rewrite getBit_spec by done. by rewrite Hb'.
  - intros H32. unfold MmsValue_getBitStringAsInteger. cbn [as_bit_string rbind].
    pose proof (bits_as_integer_spec d size (Z.to_nat size) buf' 0 v Hw' ltac:(lia) ltac:(lia) H32) as Hg.
    rewrite Z.mod_1_r in Hg. rewrite Hg; [by rewrite Z.add_0_l, Z2Nat.id|].
    intros j Hj. apply Hb'. lia.
Qed.

Lemma MmsValue_bitString_integer_roundtrip_witness :
  exists buf', MmsValue_setBitStringFromInteger (MmsValue_newBitString 13) 0x12345
      = Done (Simple 0 (V_BIT_STRING 13 buf')) /\
    MmsValue_getBitStringAsInteger (Simple 0 (V_BIT_STRING 13 buf')) = Done 0x345.
Proof.
  destruct (MmsValue_bitString_integer_roundtrip 0 13 [0; 0] 0x12345) as (buf' & H1 & _ & _ & H2).
  - repeat split; try done. bytes_tac.
  - exists buf'. split; [exact H1|apply H2; lia].
Defined.

(** ** All bits *)

Lemma fill_loop_spec n i v buf : 0 <= i -> i + Z.of_nat n <= zlen buf ->
  fill_loop n i v buf = Done (splice buf i (replicate n (u8 v))).
Proof.
  revert i buf. induction n as [|n IH]; intros i buf Hi Hl.
  - simpl. by rewrite splice_nil.
  - cbn [fill_loop]. rewrite st_in by lia. cbn [rbind]. rewrite <- splice_one by lia.
    assert (zlen [u8 v] = 1) as E1 by done.
    assert (zlen (replicate n (u8 v)) = Z.of_nat n) as En by (unfold zlen; by rewrite length_replicate).
    rewrite IH by (rewrite ?zlen_splice; lia). replace (i + 1) with (i + zlen [u8 v]) by done.
    rewrite splice_app by lia. done.
Qed.

Lemma count_loop_spec n i buf acc :
  0 <= i -> i + Z.of_nat n = zlen buf ->
  count_loop n i buf acc = Done (acc + foldr Z.add 0 (count_bits 8 <$> drop (Z.to_nat i) buf)).
Proof.
  revert i acc. induction n as [|n IH]; intros i acc Hi Hl.
  - cbn [count_loop]. rewrite drop_ge by (unfold zlen in Hl; lia). simpl. f_equal. lia.
  - cbn [count_loop]. destruct (lookup_lt_is_Some_2 buf (Z.to_nat i)) as [b E]; [unfold zlen in Hl; lia|].
    rewrite (ld_lookup _ _ b) by done. cbn [rbind]. rewrite IH by lia.
    rewrite (drop_S _ _ _ E). replace (S (Z.to_nat i)) with (Z.to_nat (i + 1)) by lia.
    rewrite fmap_cons. cbn [foldr]. f_equal. lia.
Qed.

Lemma count_full n :
  foldr Z.add 0 (count_bits 8 <$> replicate n 255) = 8 * Z.of_nat n.
Proof. induction n as [|n IH]; [done|]. cbn [replicate fmap list_fmap foldr]. rewrite IH. change (count_bits 8 255) with 8. lia. Qed.

Lemma byteSize_eq size : 0 <= size -> getBitStringByteSize size = bitStringByteSize size.
Proof.
  intros H. unfold getBitStringByteSize, bitStringByteSize.
  pose proof (Z.rem_bound_pos size 8 H ltac:(lia)). repeat zcase; lia.
Qed.

(** The bits left over in the last byte. *)
Lemma padding_count p : 0 <= p < 8 ->
  count_bits 8 (u8 (Z.land 255 (u8 (Z.lnot (paddingMask_loop (Z.to_nat p) 0 0))))) = 8 - p.
Proof.
  intros Hp. assert (p = 0 \/ p = 1 \/ p = 2 \/ p = 3 \/ p = 4 \/ p = 5 \/ p = 6 \/ p = 7) as H by lia.
  repeat destruct H as [->|H]; try reflexivity. by rewrite H.
Qed.

Lemma byteSize_padding size : 0 < size ->
  0 < bitStringByteSize size /\ 0 <= bitStringByteSize size * 8 - size < 8.
Proof.
  intros H. unfold bitStringByteSize. rewrite Z.quot_div_nonneg, Z.rem_mod_nonneg by lia.
  pose proof (Z.div_mod size 8 ltac:(lia)). pose proof (Z.mod_pos_bound size 8 ltac:(lia)).
  destruct (Z.ltb_spec 0 (size mod 8)); lia.
Qed.

(** Setting all bits of a bit string sets exactly its bits: they are counted as
    many as the string is long.  For the empty bit string, which owns no byte, the
    padding of the byte before the buffer is written. *)
Theorem MmsValue_setAllBits_count d size buf : bits_wf size buf ->
  if size =? 0 then MmsValue_setAllBitStringBits (Simple d (V_BIT_STRING size buf)) = Ub
  else exists buf', MmsValue_setAllBitStringBits (Simple d (V_BIT_STRING size buf))
      = Done (Simple d (V_BIT_STRING size buf')) /\ bits_wf size buf' /\
    MmsValue_getNumberOfSetBits (Simple d (V_BIT_STRING size buf')) = Done size.
Proof.
  intros (H0 & Hl & Hb). unfold MmsValue_setAllBitStringBits, MmsValue_getNumberOfSetBits.
  cbn [as_bit_string rbind]. rewrite byteSize_eq by done. zcase; [by subst|].
  destruct (byteSize_padding size ltac:(lia)) as [Hk Hp].
  set (k := bitStringByteSize size) in *.
  rewrite fill_loop_spec by lia. cbn [rbind]. change (u8 255) with 255.
  rewrite splice_whole by (unfold zlen in *; rewrite length_replicate; lia).
  replace (Z.to_nat k) with (S (Z.to_nat (k - 1))) by lia.
  rewrite replicate_S_end. set (l := replicate (Z.to_nat (k - 1)) 255).
  assert (length l = Z.to_nat (k - 1)) as Hll by apply length_replicate.
  assert (zlen (l ++ [255]) = k) as Hz by (unfold zlen; rewrite length_app, Hll; simpl; lia).
  rewrite (ld_lookup _ _ 255) by (lia || (rewrite lookup_app_r, Hll, Nat.sub_diag by lia; done)).
  cbn [rbind]. rewrite st_in by lia. cbn [rbind].
  set (b := u8 (Z.land 255 _)).
  assert (<[Z.to_nat (k - 1) := b]> (l ++ [255]) = l ++ [b]) as ->
    by (rewrite <- Hll; rewrite insert_app_r_alt by lia; by rewrite Nat.sub_diag).
  eexists. split; [reflexivity|].
  assert (zlen (l ++ [b]) = k) as Hz' by (unfold zlen in *; rewrite length_app in *; done).
  split.
  - split; [done|]. split; [done|]. apply bytes_app. split; [|constructor; [apply u8_byte|done]].
    apply Forall_replicate. unfold is_byte. lia.
  - rewrite (count_loop_spec _ 0) by lia. rewrite drop_0, fmap_app, foldr_app.
    cbn [fmap list_fmap foldr]. rewrite Z.add_0_r.
    assert (forall x, foldr Z.add x (count_bits 8 <$> l) = 8 * Z.of_nat (length l) + x) as ->.
    { intros x. unfold l. rewrite length_replicate. rewrite <- count_full.
      generalize (count_bits 8 <$> replicate (Z.to_nat (k - 1)) 255) as q.
      induction q as [|y q IH]; simpl; [lia|]. rewrite IH. lia. }
    unfold b. rewrite padding_count by lia. rewrite Hll. f_equal. lia.
Qed.

Lemma MmsValue_setAllBits_count_witness :
  exists buf', MmsValue_setAllBitStringBits (MmsValue_newBitString 13)
      = Done (Simple 0 (V_BIT_STRING 13 buf')) /\
    MmsValue_getNumberOfSetBits (Simple 0 (V_BIT_STRING 13 buf')) = Done 13.
Proof.
  destruct (MmsValue_setAllBits_count 0 13 [0; 0]) as (buf' & H1 & _ & H2).
  - repeat split; try done. bytes_tac.
  - exists buf'. split; [exact H1|exact H2].
Defined.
