(* ===== verification/AccessResult.v ===== *)
(** The BER encoding of MMS values: src/mms/iso_mms/server/mms_access_result.c.
    The size that the encoder announces is the number of bytes it writes. *)
From stdpp Require Import base tactics numbers option list.
From S2P Require Import Prelude Memory BerDecode BerEncode BerInteger MmsValue MmsValueFacts MmsTimeBits.

(** * Operations

    [mmsServer_encodeAccessResult] has two modes: with [encode = false] it returns
    the size of the encoding. *)
Definition u_encodedSize (value : uMmsValue) : res Z :=
  match value with
  | V_DATA_ACCESS_ERROR e =>
      let! n := BerEncoder_UInt32determineEncodedSize (u32 e) in Done (2 + n)
  | V_VISIBLE_STRING s | V_STRING s =>
      let! s := c_string_opt s in Done (BerEncoder_determineEncodedStringSize s)
  | V_UNSIGNED i | V_INTEGER i => Done (2 + a_size i)
  | V_UTC_TIME _ => Done 10
  | V_BIT_STRING size _ => Done (BerEncoder_determineEncodedBitStringSize size)
  | V_BOOLEAN _ => Done 3
  | V_BINARY_TIME size _ => Done (2 + size)
  | V_OCTET_STRING size _ _ => Done (1 + BerEncoder_determineLengthSize size + size)
  | V_FLOAT _ formatWidth _ => Done (Z.quot formatWidth 8 + 1 + 2)
  | _ => Done 0
  end.

Fixpoint encodedSize (value : MmsValue) : res Z :=
  match value with
  | Simple _ v => u_encodedSize v
  | Complex _ _ components =>
      let! componentsSize := sum_components encodedSize components in
      Done (1 + componentsSize + BerEncoder_determineLengthSize (u32 componentsSize))
  end.

(** With [encode = true] it writes at [bufPos] and returns the position behind. *)
Definition u_encode (value : uMmsValue) (buffer bufPos : Z) : W Z :=
  match value with
  | V_DATA_ACCESS_ERROR e => fun m =>
      let! length := BerEncoder_UInt32determineEncodedSize (u32 e) in
      (let* bufPos := BerEncoder_encodeTL 0x80 length buffer bufPos in
       BerEncoder_encodeUInt32 (u32 e) buffer bufPos) m
  | V_VISIBLE_STRING s => fun m =>
      let! s := c_string_opt s in BerEncoder_encodeStringWithTag 0x8a s buffer bufPos m
  | V_UNSIGNED i => BerEncoder_encodeAsn1PrimitiveValue 0x86 i buffer bufPos
  | V_INTEGER i => BerEncoder_encodeAsn1PrimitiveValue 0x85 i buffer bufPos
  | V_UTC_TIME t => BerEncoder_encodeOctetString 0x91 (mk_ptr t 0) 8 buffer bufPos
  | V_BIT_STRING size buf => BerEncoder_encodeBitString 0x84 size (mk_ptr buf 0) buffer bufPos
  | V_BOOLEAN b => BerEncoder_encodeBoolean 0x83 b buffer bufPos
  | V_BINARY_TIME size buf => BerEncoder_encodeOctetString 0x8c (mk_ptr buf 0) size buffer bufPos
  | V_OCTET_STRING size _ buf => BerEncoder_encodeOctetString 0x89 (mk_ptr buf 0) size buffer bufPos
  | V_FLOAT exponentWidth formatWidth buf =>
      let floatSize := Z.quot formatWidth 8 + 1 in
      let* bufPos := BerEncoder_encodeTL 0x87 floatSize buffer bufPos in
      BerEncoder_encodeFloat buf formatWidth exponentWidth buffer bufPos
  | V_STRING s => fun m =>
      let! s := c_string_opt s in BerEncoder_encodeStringWithTag 0x90 s buffer bufPos m
  | _ => wret bufPos
  end.

Section EncodeComponents.
Context (f : MmsValue -> Z -> Z -> W Z).

Fixpoint encode_components (cs : list (option MmsValue)) (buffer bufPos : Z) : W Z :=
  match cs with
  | [] => wret bufPos
  | Some c :: cs => let* bufPos := f c buffer bufPos in encode_components cs buffer bufPos
  | None :: _ => fun _ => Ub
  end.
End EncodeComponents.

(** [encodeArrayAccessResult] and [encodeStructuredAccessResult] differ in the tag. *)
Fixpoint encode (value : MmsValue) (buffer bufPos : Z) : W Z :=
  match value with
  | Simple _ v => u_encode v buffer bufPos
  | Complex _ isArray components => fun m =>
      let! componentsSize := sum_components encodedSize components in
      (let* bufPos := put (if isArray then 0xa1 else 0xa2) buffer bufPos in
       let* bufPos := BerEncoder_encodeLength (u32 componentsSize) buffer bufPos in
       encode_components encode components buffer bufPos) m
  end.

Definition mmsServer_encodeAccessResult (value : MmsValue) (buffer bufPos : Z) (encode_ : bool) : W Z :=
  if encode_ then encode value buffer bufPos
  else fun m => let! n := encodedSize value in Done (n, m).

(** * The encoding as a list of bytes *)

(** The last byte of a bit string loses its padding bits. *)
Definition mask_last (mask : Z) (bs : list Z) : list Z :=
  match last bs with
  | Some x => removelast bs ++ [u8 (Z.land x mask)]
  | None => bs
  end.

Definition padding_mask (size : Z) : Z :=
  u8 (Z.lnot (paddingMask_loop (Z.to_nat (bitStringByteSize size * 8 - size)) 0 0)).

(** The content octets of a simple value and its tag. *)
Definition u_tag (v : uMmsValue) : Z :=
  match v with
  | V_DATA_ACCESS_ERROR _ => 0x80
  | V_BOOLEAN _ => 0x83
  | V_BIT_STRING _ _ => 0x84
  | V_INTEGER _ => 0x85
  | V_UNSIGNED _ => 0x86
  | V_FLOAT _ _ _ => 0x87
  | V_OCTET_STRING _ _ _ => 0x89
  | V_VISIBLE_STRING _ => 0x8a
  | V_BINARY_TIME _ _ => 0x8c
  | V_STRING _ => 0x90
  | V_UTC_TIME _ => 0x91
  | _ => 0
  end.

Definition string_content (s : option (list Z)) : list Z :=
  match s with
  | Some b => match c_string b with Done cs => cs | _ => [] end
  | None => []
  end.

Definition u_content (v : uMmsValue) : list Z :=
  match v with
  | V_DATA_ACCESS_ERROR e => uint32_bytes (u32 e)
  | V_BOOLEAN b => [if b then 255 else 0]
  | V_BIT_STRING size buf =>
      mask_last (padding_mask size) ((bitStringByteSize size * 8 - size) :: buf)
  | V_INTEGER i | V_UNSIGNED i => a_bytes i
  | V_FLOAT e w buf => e :: rev buf
  | V_OCTET_STRING n _ buf => slice buf 0 n
  | V_VISIBLE_STRING s | V_STRING s => string_content s
  | V_BINARY_TIME n buf => slice buf 0 n
  | V_UTC_TIME t => t
  | _ => []
  end.

Fixpoint access_bytes (v : MmsValue) : list Z :=
  match v with
  | Simple _ u => u_tag u :: ber_len (zlen (u_content u)) ++ u_content u
  | Complex _ isArray cs =>
      let content := concat (map (fun c => match c with Some c => access_bytes c | None => [] end) cs) in
      (if isArray then 0xa1 else 0xa2) :: ber_len (zlen content) ++ content
  end.

(** * The bytes written *)

Lemma last_removelast (bs : list Z) x : last bs = Some x -> bs = removelast bs ++ [x].
Proof.
  intros H. destruct bs as [|b bs] using rev_ind; [done|].
  rewrite last_snoc in H. injection H as ->. by rewrite removelast_last.
Qed.

(** Code that masks the byte it wrote last. *)
Lemma emits_mask_last buffer pos pos' (c : W Z) mask bs :
  Emits buffer pos c pos' bs -> pos' = pos + zlen bs -> bs <> [] ->
  Emits buffer pos
    (let* p := c in
     let* last := peek buffer (p - 1) in
     let* _ := poke (Z.land last mask) buffer (p - 1) in
     wret p) pos' (mask_last mask bs).
Proof.
  intros Hc Hp Hne m Hm. unfold wbind. rewrite Hc by done.
  destruct bs as [|x bs _] using rev_ind; [done|]. unfold mask_last.
  rewrite last_snoc, removelast_last. rewrite !zlen_app in *. change (zlen [x]) with 1 in *.
  change (zlen [u8 (Z.land x mask)]) with 1. zcase; [|done]. pose proof (zlen_nonneg bs).
  cbn [rbind]. unfold peek, poke, wret. rewrite !Hp.
  assert (forall y, splice m (buffer + pos) (bs ++ [y]) = splice (splice m (buffer + pos) bs) (buffer + pos + zlen bs) [y]) as Hs
    by (intros y; rewrite splice_app; [done|lia|change (zlen [y]) with 1; lia]).
  assert (zlen (splice m (buffer + pos) bs) = zlen m) as Hz by (apply zlen_splice; lia).
  rewrite (ld_lookup _ _ x).
  2: lia.
  2: { replace (Z.to_nat (buffer + (pos + (zlen bs + 1) - 1))) with (Z.to_nat (buffer + pos) + length bs)%nat
         by (unfold zlen; lia).
       rewrite splice_lookup; [|lia|rewrite zlen_app; change (zlen [x]) with 1; lia|rewrite length_app; simpl; lia].
       rewrite lookup_app_r by lia. by rewrite Nat.sub_diag. }
  cbn [rbind]. rewrite st_in by (rewrite zlen_splice; rewrite ?zlen_app; change (zlen [x]) with 1; lia).
  cbn [rbind]. rewrite !Hs. replace (buffer + (pos + (zlen bs + 1) - 1)) with (buffer + pos + zlen bs) by lia.
  rewrite !splice_one by lia. by rewrite list_insert_insert_eq.
Qed.

Lemma emits_assoc {A B C} buffer pos (a : W A) (f : A -> W B) (g : B -> W C) r bs :
  Emits buffer pos (wbind (wbind a f) g) r bs -> Emits buffer pos (wbind a (fun x => wbind (f x) g)) r bs.
Proof.
  intros H m Hm. rewrite <- H by done. unfold wbind. destruct (a m) as [[x m']| | |]; reflexivity.
Qed.

(** ** Simple values *)

Lemma emits_octets tag n src buffer pos bs :
  holds src 0 bs -> n = zlen bs -> bytes bs -> is_byte tag ->
  Emits buffer pos (BerEncoder_encodeOctetString tag src n buffer pos)
    (pos + zlen (tag :: ber_len (zlen bs) ++ bs)) (tag :: ber_len (zlen bs) ++ bs).
Proof.
  intros Hh -> Hb Ht. unfold BerEncoder_encodeOctetString.
  eapply emits_eq; [eapply emits_bind; [apply emits_put|eapply emits_bind;
    [apply emits_encodeLength|by apply emits_put_from|zl]|zl]|rewrite zlen_cons, zlen_app; lia|].
  cbn [app]. by rewrite u8_small.
Qed.

Lemma emits_string tag s buffer pos : bytes s -> zlen s < 4294967296 -> is_byte tag ->
  Emits buffer pos (BerEncoder_encodeStringWithTag tag (Some s) buffer pos)
    (pos + zlen (tag :: ber_len (zlen s) ++ s)) (tag :: ber_len (zlen s) ++ s).
Proof.
  intros Hb Hl Ht. unfold BerEncoder_encodeStringWithTag. pose proof (zlen_nonneg s).
  rewrite u32_small by lia.
  eapply emits_eq; [eapply emits_bind; [apply emits_put|eapply emits_bind;
    [apply emits_encodeLength|by apply emits_put_list|zl]|zl]|rewrite zlen_cons, zlen_app; lia|].
  cbn [app]. by rewrite u8_small.
Qed.

Lemma emits_asn1 tag i buffer pos : asn1_wf i -> is_byte tag ->
  Emits buffer pos (BerEncoder_encodeAsn1PrimitiveValue tag i buffer pos)
    (pos + zlen (tag :: ber_len (zlen (a_bytes i)) ++ a_bytes i)) (tag :: ber_len (zlen (a_bytes i)) ++ a_bytes i).
Proof.
  intros Hw Ht. pose proof (zlen_a_bytes _ Hw) as Hz. pose proof Hw as (H1 & _ & H3 & _).
  unfold BerEncoder_encodeAsn1PrimitiveValue. rewrite u32_small by lia. rewrite <- Hz.
  eapply emits_eq; [eapply emits_bind; [apply emits_put|eapply emits_bind;
    [apply emits_encodeLength|apply (emits_put_from _ _ _ _ (a_bytes i))|zl]|zl]|rewrite zlen_cons, zlen_app; lia|].
  - by apply a_bytes_holds.
  - done.
  - by apply bytes_a_bytes.
  - cbn [app]. by rewrite u8_small.
Qed.

Lemma bit_string_bytes_eq size : 0 <= size -> bit_string_bytes size = bitStringByteSize size.
Proof. intros H. exact (byteSize_eq size H). Qed.

Lemma emits_bit_string tag size buf buffer pos :
  is_byte tag -> 0 <= size -> zlen buf = bitStringByteSize size -> bytes buf -> zlen buf < 4294967295 ->
  let content := mask_last (padding_mask size) ((bitStringByteSize size * 8 - size) :: buf) in
  zlen content = bitStringByteSize size + 1 /\
  Emits buffer pos (BerEncoder_encodeBitString tag size (mk_ptr buf 0) buffer pos)
    (pos + zlen (tag :: ber_len (zlen content) ++ content)) (tag :: ber_len (zlen content) ++ content).
Proof.
  intros Ht Hs Hz Hb H32 content. unfold BerEncoder_encodeBitString. rewrite bit_string_bytes_eq by done.
  set (k := bitStringByteSize size) in *. set (padding := k * 8 - size) in *.
  change (u8 (Z.lnot (paddingMask_loop (Z.to_nat padding) 0 0))) with (padding_mask size).
  assert (0 <= padding < 8) as Hpad.
  { destruct (Z.eqb_spec size 0) as [E|E]; [|apply byteSize_padding; lia].
    unfold padding, k. rewrite E. by_eval. }
  assert (zlen content = k + 1) as Hc.
  { unfold content, mask_last. destruct (last (padding :: buf)) as [x|] eqn:El.
    - apply last_removelast in El. apply (f_equal zlen) in El. rewrite zlen_cons, zlen_app in El.
      rewrite zlen_app. change (zlen [x]) with 1 in El. change (zlen [u8 _]) with 1. lia.
    - rewrite zlen_cons. lia. }
  split; [done|]. pose proof (zlen_quot8 _ Hs) as Hk. fold k in Hk. rewrite u32_small by lia. rewrite Hc.
  eapply emits_eq; [eapply emits_bind; [apply emits_put|eapply emits_bind;
    [apply emits_encodeLength|apply emits_assoc, (emits_mask_last _ _ _ _ _ ([u8 padding] ++ buf))|]|]| |].
  - eapply emits_bind; [apply emits_put|apply (emits_put_from _ _ _ _ buf); [apply holds_whole|by rewrite Hz|done]|done].
  - rewrite zlen_app. change (zlen [u8 padding]) with 1. lia.
  - done.
  - done.
  - done.
  - rewrite zlen_cons, zlen_app, Hc. change (zlen [u8 tag]) with 1. lia.
  - cbn [app]. rewrite (u8_small padding) by lia. by rewrite (u8_small tag).
Qed.

(** The values whose size is announced exactly: integers of less than 128 octets,
    and no bit string of 127 or 255 bytes. *)
Definition u_exact (v : uMmsValue) : Prop :=
  match v with
  | V_INTEGER i | V_UNSIGNED i => a_size i < 128
  | V_FLOAT e _ _ => is_byte e
  | V_BIT_STRING size _ => let k := bitStringByteSize size in k <> 127 /\ k <> 255 /\ k < 65535
  | V_VISIBLE_STRING s | V_STRING s => zlen (string_content s) < 4294967296
  | _ => True
  end.

#[warnings="-register-all"]
Inductive encodable : MmsValue -> Prop :=
| encodable_simple d v : u_wf v -> u_exact v -> encodable (Simple d v)
| encodable_complex d a vs :
    Forall encodable vs -> zlen (concat (map access_bytes vs)) < 4294967296 ->
    encodable (Complex d a (Some <$> vs)).

Lemma encodable_induction (P : MmsValue -> Prop) :
  (forall d v, u_wf v -> u_exact v -> P (Simple d v)) ->
  (forall d a vs, Forall encodable vs -> Forall P vs ->
    zlen (concat (map access_bytes vs)) < 4294967296 -> P (Complex d a (Some <$> vs))) ->
  forall v, encodable v -> P v.
Proof.
  intros Hs Hc. fix IH 2. intros v [d u Hu He|d a vs Hvs Hz]; [by apply Hs|].
  apply Hc; [done| |done]. clear Hz. induction Hvs; constructor; auto.
Qed.

Lemma access_bytes_complex d a vs :
  access_bytes (Complex d a (Some <$> vs)) =
  (if a then 0xa1 else 0xa2) :: ber_len (zlen (concat (map access_bytes vs))) ++ concat (map access_bytes vs).
Proof.
  cbn [access_bytes].
  assert (map (fun c => match c with Some c => access_bytes c | None => [] end) (Some <$> vs)
    = map access_bytes vs) as ->; [|done].
  induction vs as [|v vs IH]; [done|]. rewrite fmap_cons. cbn [map]. by rewrite IH.
Qed.

Lemma bytes_string s b cs : s = Some b -> c_string b = Done cs -> bytes b ->
  string_content s = cs /\ bytes cs.
Proof. intros -> H Hb. simpl. rewrite H. split; [done|]. by eapply c_string_bytes. Qed.

Lemma floatSize_eq w (buf : list Z) : (w = 32 \/ w = 64) -> zlen buf = Z.quot w 8 -> zlen buf = 4 \/ zlen buf = 8.
Proof. intros [-> | ->] H; [left|right]; exact H. Qed.

Lemma u_encode_spec u buffer pos : u_wf u -> u_exact u ->
  let bs := u_tag u :: ber_len (zlen (u_content u)) ++ u_content u in
  u_encodedSize u = Done (zlen bs) /\ Emits buffer pos (u_encode u buffer pos) (pos + zlen bs) bs.
Proof.
  intros Hu He bs. subst bs.
  destruct u as [b|size buf|i|i|e w buf|n m buf|s|s|n buf|t|e| | |]; simpl in Hu, He; try done.
  - split; [by destruct b|]. cbn [u_encode u_tag u_content]. unfold BerEncoder_encodeBoolean.
    destruct b; (eapply emits_eq; [emits_run|match goal with |- _ = _ + ?n => change n with 3 end; lia|done]).
  - destruct Hu as (H1 & H2 & H3), He as (K1 & K2 & K3).
    destruct (emits_bit_string 0x84 size buf buffer pos ltac:(by_eval) H1 H2 H3 ltac:(lia)) as [Hc HE].
    split; [|exact HE]. cbn [u_encodedSize u_tag]. f_equal.
    change (u_content (V_BIT_STRING size buf)) with
      (mask_last (padding_mask size) ((bitStringByteSize size * 8 - size) :: buf)).
    rewrite zlen_cons, zlen_app, zlen_ber_len, Hc.
    unfold BerEncoder_determineEncodedBitStringSize. rewrite bit_string_bytes_eq by done.
    pose proof (zlen_quot8 _ H1). rewrite u32_small by lia.
    unfold BerEncoder_determineLengthSize. repeat zcase; lia.
  - pose proof (zlen_a_bytes _ Hu) as Hz. split.
    + cbn [u_encodedSize u_tag u_content]. rewrite zlen_cons, zlen_app, zlen_ber_len, Hz.
      destruct Hu as (? & _). unfold BerEncoder_determineLengthSize. zdec. f_equal. lia.
    + apply emits_asn1; [done|by_eval].
  - pose proof (zlen_a_bytes _ Hu) as Hz. split.
    + cbn [u_encodedSize u_tag u_content]. rewrite zlen_cons, zlen_app, zlen_ber_len, Hz.
      destruct Hu as (? & _). unfold BerEncoder_determineLengthSize. zdec. f_equal. lia.
    + apply emits_asn1; [done|by_eval].
  - destruct Hu as (H1 & H2 & H3). pose proof (floatSize_eq _ _ H1 H2) as Hf.
    assert (zlen (e :: rev buf) = zlen buf + 1) as Hz by (rewrite zlen_cons, zlen_rev; lia).
    split.
    + cbn [u_encodedSize u_tag u_content]. rewrite zlen_cons, zlen_app, zlen_ber_len, Hz, <- H2.
      unfold BerEncoder_determineLengthSize. zdec. f_equal. lia.
    + cbn [u_encode u_tag u_content]. rewrite <- H2, Hz.
      eapply emits_eq; [eapply emits_bind; [apply emits_encodeTL| |reflexivity]| |].
      * intros mem Hm. unfold BerEncoder_encodeFloat. rewrite <- H2.
        rewrite (proj2 (Z.ltb_ge 8 (zlen buf))) by lia. rewrite Z.max_r by lia.
        rewrite rd_list_whole by done. cbn [rbind]. rewrite revertByteOrder_rev by done. cbn [rbind].
        rewrite (u8_small e) by done. revert mem Hm. apply emits_put_list.
        apply bytes_cons. split; [done|]. rewrite rev_reverse. by apply Forall_reverse.
      * unfold ber_tl. rewrite u32_small by lia. rewrite !zlen_cons, zlen_app, zlen_cons. lia.
      * unfold ber_tl. rewrite u32_small by lia. done.
  - destruct Hu as (H1 & H2 & H3 & H4).
    assert (zlen (slice buf 0 n) = n) as Hz by (apply zlen_slice; lia). split.
    + cbn [u_encodedSize u_tag u_content]. rewrite zlen_cons, zlen_app, zlen_ber_len, Hz. f_equal. lia.
    + apply emits_octets; [|done|by apply bytes_slice|by_eval].
      unfold holds. simpl. rewrite Hz. repeat split; lia.
  - destruct Hu as (b & cs & -> & Hcs & Hb). destruct (bytes_string _ _ _ eq_refl Hcs Hb) as [Hsc Hbc].
    rewrite Hsc in He. cbn [u_encodedSize u_tag u_content u_encode c_string_opt]. rewrite Hsc, Hcs. cbn [rbind].
    pose proof (zlen_nonneg cs). split.
    + rewrite zlen_cons, zlen_app, zlen_ber_len. unfold BerEncoder_determineEncodedStringSize.
      rewrite u32_small by lia. f_equal. lia.
    + by apply emits_string.
  - destruct Hu as (b & cs & -> & Hcs & Hb). destruct (bytes_string _ _ _ eq_refl Hcs Hb) as [Hsc Hbc].
    rewrite Hsc in He. cbn [u_encodedSize u_tag u_content u_encode c_string_opt]. rewrite Hsc, Hcs. cbn [rbind].
    pose proof (zlen_nonneg cs). split.
    + rewrite zlen_cons, zlen_app, zlen_ber_len. unfold BerEncoder_determineEncodedStringSize.
      rewrite u32_small by lia. f_equal. lia.
    + by apply emits_string.
  - destruct Hu as (H1 & H2 & H3).
    assert (zlen (slice buf 0 n) = n) as Hz by (apply zlen_slice; lia). split.
    + cbn [u_encodedSize u_tag u_content]. rewrite zlen_cons, zlen_app, zlen_ber_len, Hz.
      unfold BerEncoder_determineLengthSize. zdec. f_equal. lia.
    + apply emits_octets; [|done|by apply bytes_slice|by_eval].
      unfold holds. simpl. rewrite Hz. repeat split; lia.
  - destruct Hu as (H1 & H2). split.
    + cbn [u_encodedSize u_tag u_content]. rewrite zlen_cons, zlen_app, zlen_ber_len, H1. reflexivity.
    + apply emits_octets; [apply holds_whole|done|done|by_eval].
  - cbn [u_encodedSize u_tag u_content u_encode]. rewrite UInt32determineEncodedSize_spec. cbn [rbind].
    pose proof (zlen_uint32_bytes (u32 e)). split.
    + rewrite zlen_cons, zlen_app, zlen_ber_len. unfold BerEncoder_determineLengthSize. zdec. f_equal. lia.
    + eapply emits_eq; [eapply emits_bind; [apply emits_encodeTL|apply emits_encodeUInt32|reflexivity]| |].
      * unfold ber_tl. rewrite u32_small by lia. rewrite !zlen_cons, zlen_app. lia.
      * unfold ber_tl. by rewrite u32_small by lia.
Qed.

(** ** All values *)

Lemma encode_components_spec vs buffer pos :
  Forall (fun v => encodedSize v = Done (zlen (access_bytes v)) /\
    forall pos, Emits buffer pos (encode v buffer pos) (pos + zlen (access_bytes v)) (access_bytes v)) vs ->
  sum_components encodedSize (Some <$> vs) = Done (zlen (concat (map access_bytes vs))) /\
  Emits buffer pos (encode_components encode (Some <$> vs) buffer pos)
    (pos + zlen (concat (map access_bytes vs))) (concat (map access_bytes vs)).
Proof.
  intros H. revert pos. induction H as [|v vs [Hs He] _ IH]; intros pos.
  - split; [done|]. eapply emits_eq; [apply emits_ret|by rewrite Z.add_0_r|done].
  - destruct (IH (pos + zlen (access_bytes v))) as [IHs IHe].
    rewrite fmap_cons. cbn [sum_components encode_components map concat].
    rewrite Hs, IHs, zlen_app. split; [done|].
    eapply emits_eq; [eapply emits_bind; [apply He|apply IHe|done]|lia|done].
Qed.

Lemma encode_spec v : encodable v -> forall buffer,
  encodedSize v = Done (zlen (access_bytes v)) /\
  forall pos, Emits buffer pos (encode v buffer pos) (pos + zlen (access_bytes v)) (access_bytes v).
Proof.
  induction 1 as [d u Hu He|d a vs _ IH Hz] using encodable_induction; intros buffer.
  - split; [by apply (u_encode_spec u 0 0)|]. intros pos. by apply u_encode_spec.
  - assert (Forall (fun v => encodedSize v = Done (zlen (access_bytes v)) /\ forall pos,
      Emits buffer pos (encode v buffer pos) (pos + zlen (access_bytes v)) (access_bytes v)) vs) as Hvs
      by (eapply Forall_impl; [exact IH|intros v H; apply H]).
    rewrite access_bytes_complex. set (bs := concat (map access_bytes vs)) in *.
    pose proof (zlen_nonneg bs).
    destruct (encode_components_spec vs buffer 0 Hvs) as [Hs _]. fold bs in Hs. split.
    + cbn [encodedSize]. rewrite Hs. cbn [rbind]. rewrite u32_small by lia.
      rewrite zlen_cons, zlen_app, zlen_ber_len. f_equal. lia.
    + intros pos m Hm. cbn [encode]. rewrite Hs. cbn [rbind]. rewrite u32_small by lia. revert m Hm.
      eapply emits_eq; [eapply emits_bind; [apply emits_put|eapply emits_bind;
        [apply emits_encodeLength|apply encode_components_spec, Hvs|reflexivity]|reflexivity]| |].
      * fold bs. rewrite zlen_cons, zlen_app. lia.
      * fold bs. by destruct a.
Qed.

(** C37: The encoder announces exactly what it writes: for an encodable value - its strings
    end, its integers have fewer than 128 octets, its bit strings fewer than 65535 bytes and
    not 127 or 255 of them, for which the size is one too small
    ([bitString_size_underestimated]) - the size it computes is the number of bytes of its
    encoding, which it writes at the position it is given, or outside the buffer if they do
    not fit. *)
Theorem mmsServer_encodeAccessResult_size v buffer pos m :
  encodable v -> 0 <= buffer + pos <= zlen m ->
  exists n, mmsServer_encodeAccessResult v 0 0 false m = Done (n, m) /\ n = zlen (access_bytes v) /\
    mmsServer_encodeAccessResult v buffer pos true m =
      if buffer + pos + n <=? zlen m
      then Done (pos + n, splice m (buffer + pos) (access_bytes v)) else Ub.
Proof.
  intros Hv Hm. destruct (encode_spec v Hv buffer) as [Hs He].
  exists (zlen (access_bytes v)). unfold mmsServer_encodeAccessResult. rewrite Hs.
  split; [done|split; [done|]]. by apply He.
Qed.

Lemma sample_value_encodable : encodable sample_value.
Proof.
  constructor; [|by_eval]. repeat apply Forall_cons_2; [| | | |constructor].
  - by constructor.
  - constructor; [|by_eval]. unfold u_wf, asn1_wf. simpl. repeat split; try by_eval; bytes_tac.
  - constructor; [|by_eval]. exists [79; 75; 0], [79; 75]. repeat split. bytes_tac.
  - constructor; [|by_eval]. constructor; [|constructor]. constructor; [|by_eval].
    repeat split; try done. bytes_tac.
Qed.

Lemma mmsServer_encodeAccessResult_size_witness :
  mmsServer_encodeAccessResult sample_value 0 1 true (replicate 32 0)
  = Done (20, [0; 0xa2; 17; 0x83; 1; 255; 0x85; 1; 7; 0x8a; 2; 79; 75; 0xa1; 5; 0x84; 3; 4; 0xab; 0xc0] ++
      replicate 12 0).
Proof.
  destruct (mmsServer_encodeAccessResult_size sample_value 0 1 (replicate 32 0) sample_value_encodable)
    as (n & _ & -> & E); [by_eval|].
  rewrite E. reflexivity.
Defined.

(** A bit string of 127 or of 255 bytes is announced one byte too short: the
    size is computed without the octet for the padding, which needs one more
    length octet there. *)
Theorem bitString_size_underestimated d size buf :
  let k := bitStringByteSize size in
  0 <= size -> zlen buf = k -> bytes buf -> k = 127 \/ k = 255 ->
  exists n bs, encodedSize (Simple d (V_BIT_STRING size buf)) = Done n /\ zlen bs = n + 1 /\
    forall buffer pos m, 0 <= buffer + pos -> buffer + pos + zlen bs <= zlen m ->
      encode (Simple d (V_BIT_STRING size buf)) buffer pos m = Done (pos + n + 1, splice m (buffer + pos) bs).
Proof.
  intros k H1 H2 H3 Hk.
  eexists _, _. split; [reflexivity|]. split; cycle 1.
  - intros buffer pos m Ha Hl. destruct (emits_bit_string 0x84 size buf buffer pos ltac:(by_eval) H1 H2 H3) as [Hc HE];
      [fold k in H2; lia|].
    cbn [encode u_encode]. rewrite (emits_fit _ _ _ _ _ _ HE Ha Hl). do 2 f_equal.
    rewrite zlen_cons, zlen_app, zlen_ber_len, Hc. unfold BerEncoder_determineEncodedBitStringSize.
    rewrite bit_string_bytes_eq by done. fold k. rewrite u32_small by lia.
    unfold BerEncoder_determineLengthSize. repeat zcase; lia.
  - destruct (emits_bit_string 0x84 size buf 0 0 ltac:(by_eval) H1 H2 H3) as [Hc _]; [fold k in H2; lia|].
    rewrite zlen_cons, zlen_app, zlen_ber_len, Hc. unfold BerEncoder_determineEncodedBitStringSize.
    rewrite bit_string_bytes_eq by done. fold k. rewrite u32_small by lia.
    unfold BerEncoder_determineLengthSize. repeat zcase; lia.
Qed.

Lemma bitString_size_underestimated_witness :
  exists n (bs : list Z), encodedSize (MmsValue_newBitString 1016) = Done n /\ zlen bs = n + 1.
Proof.
  destruct (bitString_size_underestimated 0 1016 (replicate 127 0)) as (n & bs & H1 & H2 & _).
  - lia.
  - reflexivity.
  - apply Forall_replicate. unfold is_byte. lia.
  - by left.
  - exists n, bs. split; [exact H1|exact H2].
Defined.

(** Elements of the encoding: a tag, a length and a content; what the encoders emit and the
    decoders read of them. *)

(** * Elements *)

(** Tag, length and content. *)
Definition tlv (e : Z * list Z) : list Z := fst e :: ber_len (zlen (snd e)) ++ snd e.

Definition tlvs (es : list (Z * list Z)) : list Z := concat (map tlv es).

Lemma zlen_tlv e : zlen (tlv e) = 1 + BerEncoder_determineLengthSize (zlen (snd e)) + zlen (snd e).
Proof. unfold tlv. rewrite zlen_cons, zlen_app, zlen_ber_len. lia. Qed.

Lemma tlv_longer e : 2 + zlen (snd e) <= zlen (tlv e).
Proof. rewrite zlen_tlv. pose proof (determineLengthSize_range (zlen (snd e))). lia. Qed.

(** A short element has one length octet. *)
Lemma tlv_short tag bs : zlen bs < 128 -> tlv (tag, bs) = tag :: zlen bs :: bs.
Proof.
  intros H. unfold tlv, ber_len. cbn [fst snd]. pose proof (zlen_nonneg bs). zdec.
  rewrite u8_small by lia. done.
Qed.

(** Reading one element: the tag, the length and the position of the content. *)
Lemma holds_tlv buffer pos e rest max old :
  holds buffer pos (tlv e ++ rest) -> zlen (snd e) < 65536 -> pos + zlen (tlv e) <= max ->
  let start := pos + 1 + BerEncoder_determineLengthSize (zlen (snd e)) in
  rd buffer pos = Done (fst e) /\
  BerDecoder_decodeLength buffer old (pos + 1) max = Done (start, Some (zlen (snd e))) /\
  holds buffer start (snd e) /\ holds buffer (start + zlen (snd e)) rest /\
  start + zlen (snd e) = pos + zlen (tlv e).
Proof.
  intros Hh Hz Hm start. rewrite zlen_tlv in *. unfold tlv in Hh. cbn [app] in Hh.
  apply holds_cons in Hh as [Ht Hh]. rewrite <- app_assoc in Hh.
  apply holds_app in Hh as [Hl Hh]. rewrite zlen_ber_len in Hh. apply holds_app in Hh as [Hc Hr].
  pose proof (zlen_nonneg (snd e)). split; [done|]. unfold start. split.
  - apply decodeLength_ber_len; [done|lia|lia].
  - split; [done|]. split; [done|lia].
Qed.

Definition string_bytes (s : option (list Z)) : list Z := default [] s.

(** * Encoding elements *)

Lemma emits_tlv_string tag s buffer pos :
  bytes (string_bytes s) -> zlen (string_bytes s) < 65536 -> is_byte tag ->
  Emits buffer pos (BerEncoder_encodeStringWithTag tag s buffer pos)
    (pos + zlen (tlv (tag, string_bytes s))) (tlv (tag, string_bytes s)).
Proof.
  intros Hb Hz Ht. destruct s as [s|].
  - change (string_bytes (Some s)) with s in *. apply emits_string; [done|lia|done].
  - unfold BerEncoder_encodeStringWithTag.
    eapply emits_eq; [eapply emits_bind; [apply emits_put|apply emits_put|reflexivity]| |].
    + change (pos + zlen [u8 tag] + 1 = pos + zlen [tag; 0]). rewrite !zlen_cons. lia.
    + cbn [app]. rewrite u8_small by done. by rewrite tlv_short by by_eval.
Qed.

Lemma encodedStringSize_tlv tag s : zlen (string_bytes s) < 65536 ->
  BerEncoder_determineEncodedStringSize s = zlen (tlv (tag, string_bytes s)).
Proof.
  intros Hz. rewrite zlen_tlv. cbn [snd]. destruct s as [s|]; [|done].
  change (string_bytes (Some s)) with s in *. unfold BerEncoder_determineEncodedStringSize.
  pose proof (zlen_nonneg s). rewrite u32_small by lia. lia.
Qed.

Lemma emits_tlv_uint32 tag n buffer pos : is_byte tag ->
  Emits buffer pos (BerEncoder_encodeUInt32WithTL tag n buffer pos)
    (pos + zlen (tlv (tag, uint32_bytes n))) (tlv (tag, uint32_bytes n)).
Proof.
  intros Ht. pose proof (zlen_uint32_bytes n).
  eapply emits_eq; [apply emits_encodeUInt32WithTL| |].
  - rewrite tlv_short, !zlen_cons by lia. lia.
  - rewrite tlv_short by lia. by rewrite u8_small.
Qed.

Lemma zlen_tlv_uint32 tag n : zlen (tlv (tag, uint32_bytes n)) = 2 + zlen (uint32_bytes n).
Proof. pose proof (zlen_uint32_bytes n). rewrite tlv_short by lia. rewrite !zlen_cons. lia. Qed.

Lemma emits_tlv_boolean tag (b : bool) buffer pos : is_byte tag ->
  Emits buffer pos (BerEncoder_encodeBoolean tag b buffer pos)
    (pos + zlen (tlv (tag, [if b then 255 else 0]))) (tlv (tag, [if b then 255 else 0])).
Proof.
  intros Ht. unfold BerEncoder_encodeBoolean. rewrite tlv_short by by_eval.
  destruct b; (eapply emits_eq; [emits_run|match goal with |- _ = _ + ?n => change n with 3 end; lia|]);
    cbn [app]; by rewrite (u8_small tag).
Qed.

Lemma tlvs_app a b : tlvs (a ++ b) = tlvs a ++ tlvs b.
Proof. unfold tlvs. by rewrite map_app, concat_app. Qed.

Lemma tlvs_cons e es : tlvs (e :: es) = tlv e ++ tlvs es.
Proof. done. Qed.

(** Tag and length in front of a content make an element. *)
Lemma ber_tl_tlv tag bs : is_byte tag -> zlen bs < 4294967296 -> ber_tl tag (zlen bs) ++ bs = tlv (tag, bs).
Proof.
  intros Ht Hz. pose proof (zlen_nonneg bs). unfold ber_tl, tlv. cbn [fst snd app].
  rewrite u8_small, u32_small by (unfold is_byte in *; lia). done.
Qed.

Lemma zlen_ber_tl_tlv tag bs : zlen bs < 4294967296 -> zlen (ber_tl tag (zlen bs)) = zlen (tlv (tag, bs)) - zlen bs.
Proof. intros Hz. pose proof (zlen_nonneg bs). rewrite zlen_ber_tl, zlen_tlv, u32_small by lia. cbn [snd]. lia. Qed.

(** Code that encodes tag and length and goes on with the content. *)
Lemma emits_element {A} tag n bs (k : Z -> W A) a buffer pos : is_byte tag -> zlen bs < 4294967296 -> n = zlen bs ->
  Emits buffer (pos + zlen (ber_tl tag n)) (k (pos + zlen (ber_tl tag n))) a bs ->
  Emits buffer pos (let* p := BerEncoder_encodeTL tag n buffer pos in k p) a (tlv (tag, bs)).
Proof.
  intros Ht Hz -> Hk. eapply emits_eq; [eapply emits_bind; [apply emits_encodeTL|exact Hk|done]|done|].
  by apply ber_tl_tlv.
Qed.

Lemma emits_tlv_octets tag s n buffer pos : bytes s -> n = zlen s -> is_byte tag ->
  Emits buffer pos (BerEncoder_encodeOctetString tag (mk_ptr s 0) n buffer pos) (pos + zlen (tlv (tag, s))) (tlv (tag, s)).
Proof.
  intros Hs -> Ht. apply emits_octets; [|done|done|done]. unfold holds. cbn [p_base p_mem snd].
  split; [lia|split; [lia|]]. unfold slice. simpl. unfold zlen. rewrite Nat2Z.id. by rewrite firstn_all.
Qed.
