(* ===== verification/GoosePublisher.v ===== *)
(** The GOOSE publisher: src/goose/goose_publisher.c. *)
From stdpp Require Import base tactics numbers option list.
From S2P Require Import Prelude Memory BerDecode BerEncode BerInteger MmsValue AccessResult.

Definition GOOSE_MAX_MESSAGE_SIZE : Z := 1518.

(** stack_config.h *)
Definition CONFIG_GOOSE_DEFAULT_DST_ADDRESS : list Z := [0x01; 0x0c; 0xcd; 0x01; 0x00; 0x01].
Definition CONFIG_GOOSE_DEFAULT_PRIORITY : Z := 4.
Definition CONFIG_GOOSE_DEFAULT_VLAN_ID : Z := 0.
Definition CONFIG_GOOSE_DEFAULT_APPID : Z := 0x1000.

Record CommParameters := mkCommParameters {
  vlanPriority : Z;
  vlanId : Z;
  appId : Z;
  dstAddress : list Z }.

(** The publisher; [gp_sent] are the packets given to [Ethernet_sendPacket]. *)
Record GoosePublisher := mkPublisher {
  gp_buffer : list Z;
  gp_lengthField : Z;
  gp_payloadStart : Z;
  gp_goID : option (list Z);
  gp_goCBRef : option (list Z);
  gp_dataSetRef : option (list Z);
  gp_confRev : Z;
  gp_stNum : Z;
  gp_sqNum : Z;
  gp_timeAllowedToLive : Z;
  gp_needsCommission : bool;
  gp_simulation : bool;
  gp_timestamp : MmsValue;
  gp_sent : list (list Z) }.

(** ** Setters *)

Definition GoosePublisher_setGoID (s : option (list Z)) (g : GoosePublisher) :=
  mkPublisher (gp_buffer g) (gp_lengthField g) (gp_payloadStart g) s (gp_goCBRef g) (gp_dataSetRef g)
    (gp_confRev g) (gp_stNum g) (gp_sqNum g) (gp_timeAllowedToLive g) (gp_needsCommission g)
    (gp_simulation g) (gp_timestamp g) (gp_sent g).

Definition GoosePublisher_setGoCbRef (s : option (list Z)) (g : GoosePublisher) :=
  mkPublisher (gp_buffer g) (gp_lengthField g) (gp_payloadStart g) (gp_goID g) s (gp_dataSetRef g)
    (gp_confRev g) (gp_stNum g) (gp_sqNum g) (gp_timeAllowedToLive g) (gp_needsCommission g)
    (gp_simulation g) (gp_timestamp g) (gp_sent g).

Definition GoosePublisher_setDataSetRef (s : option (list Z)) (g : GoosePublisher) :=
  mkPublisher (gp_buffer g) (gp_lengthField g) (gp_payloadStart g) (gp_goID g) (gp_goCBRef g) s
    (gp_confRev g) (gp_stNum g) (gp_sqNum g) (gp_timeAllowedToLive g) (gp_needsCommission g)
    (gp_simulation g) (gp_timestamp g) (gp_sent g).

Definition GoosePublisher_setConfRev (confRev : Z) (g : GoosePublisher) :=
  mkPublisher (gp_buffer g) (gp_lengthField g) (gp_payloadStart g) (gp_goID g) (gp_goCBRef g)
    (gp_dataSetRef g) confRev (gp_stNum g) (gp_sqNum g) (gp_timeAllowedToLive g)
    (gp_needsCommission g) (gp_simulation g) (gp_timestamp g) (gp_sent g).

Definition GoosePublisher_setSimulation (simulation : bool) (g : GoosePublisher) :=
  mkPublisher (gp_buffer g) (gp_lengthField g) (gp_payloadStart g) (gp_goID g) (gp_goCBRef g)
    (gp_dataSetRef g) (gp_confRev g) (gp_stNum g) (gp_sqNum g) (gp_timeAllowedToLive g)
    (gp_needsCommission g) simulation (gp_timestamp g) (gp_sent g).

Definition GoosePublisher_setNeedsCommission (ndsCom : bool) (g : GoosePublisher) :=
  mkPublisher (gp_buffer g) (gp_lengthField g) (gp_payloadStart g) (gp_goID g) (gp_goCBRef g)
    (gp_dataSetRef g) (gp_confRev g) (gp_stNum g) (gp_sqNum g) (gp_timeAllowedToLive g)
    ndsCom (gp_simulation g) (gp_timestamp g) (gp_sent g).

Definition GoosePublisher_setTimeAllowedToLive (t : Z) (g : GoosePublisher) :=
  mkPublisher (gp_buffer g) (gp_lengthField g) (gp_payloadStart g) (gp_goID g) (gp_goCBRef g)
    (gp_dataSetRef g) (gp_confRev g) (gp_stNum g) (gp_sqNum g) t
    (gp_needsCommission g) (gp_simulation g) (gp_timestamp g) (gp_sent g).

(** [stNum] and [sqNum] are [uint32_t]. *)
Definition gp_set_numbers (stNum sqNum : Z) (timestamp : MmsValue) (g : GoosePublisher) :=
  mkPublisher (gp_buffer g) (gp_lengthField g) (gp_payloadStart g) (gp_goID g) (gp_goCBRef g)
    (gp_dataSetRef g) (gp_confRev g) stNum sqNum (gp_timeAllowedToLive g)
    (gp_needsCommission g) (gp_simulation g) timestamp (gp_sent g).

Definition gp_set_io (buffer : list Z) (sent : list (list Z)) (g : GoosePublisher) :=
  mkPublisher buffer (gp_lengthField g) (gp_payloadStart g) (gp_goID g) (gp_goCBRef g)
    (gp_dataSetRef g) (gp_confRev g) (gp_stNum g) (gp_sqNum g) (gp_timeAllowedToLive g)
    (gp_needsCommission g) (gp_simulation g) (gp_timestamp g) sent.

Definition GoosePublisher_reset (self : GoosePublisher) : GoosePublisher :=
  gp_set_numbers 1 0 (gp_timestamp self) self.

(** [currentTime] is what [Hal_getTimeInMs] returns. *)
Definition GoosePublisher_increaseStNum (currentTime : Z) (self : GoosePublisher)
  : res (Z * GoosePublisher) :=
  let! timestamp := MmsValue_setUtcTimeMs (gp_timestamp self) currentTime in
  Done (currentTime, gp_set_numbers (u32 (gp_stNum self + 1)) 0 timestamp self).

(** ** The frame header *)

(** [prepareGooseBuffer]: [srcAddr] is the address of the interface, [fresh] the
    contents of the allocated buffer.  The result is the buffer with the position
    of the length field and the start of the payload. *)
Definition prepareGooseBuffer (parameters : option CommParameters) (srcAddr fresh : list Z)
  : res (list Z * Z * Z) :=
  let '(dstAddr, priority, vlanId, appId) :=
    match parameters with
    | None => (CONFIG_GOOSE_DEFAULT_DST_ADDRESS, CONFIG_GOOSE_DEFAULT_PRIORITY,
        CONFIG_GOOSE_DEFAULT_VLAN_ID, CONFIG_GOOSE_DEFAULT_APPID)
    | Some p => (dstAddress p, vlanPriority p, vlanId p, appId p)
    end in
  let! dst := rd_list (mk_ptr dstAddr 0) 0 6 in
  let! src := rd_list (mk_ptr srcAddr 0) 0 6 in
  let! buffer := st_list fresh 0 dst in
  let! buffer := st_list buffer 6 src in
  let tci1 := u8 (u8 (Z.shiftl priority 5) + Z.quot vlanId 256) in
  let tci2 := u8 (Z.rem vlanId 256) in
  let! (lengthField, buffer) :=
    (let* bufPos := put 0x81 0 12 in
     let* bufPos := put 0x00 0 bufPos in
     let* bufPos := put tci1 0 bufPos in
     let* bufPos := put tci2 0 bufPos in
     let* bufPos := put 0x88 0 bufPos in
     let* bufPos := put 0xb8 0 bufPos in
     let* bufPos := put (Z.quot appId 256) 0 bufPos in
     put (Z.rem appId 256) 0 bufPos) buffer in
  let! (payloadStart, buffer) :=
    (let* bufPos := put 0x00 0 lengthField in
     let* bufPos := put 0x08 0 bufPos in
     let* bufPos := put 0x00 0 bufPos in
     let* bufPos := put 0x00 0 bufPos in
     let* bufPos := put 0x00 0 bufPos in
     put 0x00 0 bufPos) buffer in
  Done (buffer, lengthField, payloadStart).

Definition GoosePublisher_create (parameters : option CommParameters) (srcAddr fresh : list Z)
    (now : Z) : res GoosePublisher :=
  let! (buffer, lengthField, payloadStart) := prepareGooseBuffer parameters srcAddr fresh in
  let! timestamp := MmsValue_newUtcTimeByMsTime now in
  Done (GoosePublisher_reset
    (mkPublisher buffer lengthField payloadStart None None None 0 0 0 0 false false timestamp [])).

(** ** The payload *)

(** The list of data set entries is walked twice: once for the sizes... *)
Fixpoint dataSet_size (dataSetValues : list MmsValue) : res Z :=
  match dataSetValues with
  | [] => Done 0
  | v :: vs => let! n := encodedSize v in let! k := dataSet_size vs in Done (u32 (n + k))
  end.

(** ... and once to encode the entries. *)
Fixpoint encode_dataSet (dataSetValues : list MmsValue) (buffer bufPos : Z) : W Z :=
  match dataSetValues with
  | [] => wret bufPos
  | v :: vs =>
      let* bufPos := mmsServer_encodeAccessResult v buffer bufPos true in
      encode_dataSet vs buffer bufPos
  end.

(** Step 1: the length of the PDU. *)
Definition goose_length (self : GoosePublisher) (dataSetValues : list MmsValue) : res (Z * Z) :=
  let n1 := BerEncoder_determineEncodedStringSize (gp_goCBRef self) in
  let n2 := BerEncoder_determineEncodedStringSize (gp_dataSetRef self) in
  let n3 := match gp_goID self with
    | Some _ => BerEncoder_determineEncodedStringSize (gp_goID self)
    | None => 0
    end in
  let! n4 := BerEncoder_UInt32determineEncodedSize (gp_timeAllowedToLive self) in
  let! n5 := BerEncoder_UInt32determineEncodedSize (gp_sqNum self) in
  let! n6 := BerEncoder_UInt32determineEncodedSize (gp_stNum self) in
  let! n7 := BerEncoder_UInt32determineEncodedSize (gp_confRev self) in
  let! n8 := BerEncoder_UInt32determineEncodedSize (zlen dataSetValues) in
  let! dataSetSize := dataSet_size dataSetValues in
  let allDataSize := dataSetSize + BerEncoder_determineLengthSize dataSetSize + 1 in
  Done (u32 (n1 + n2 + n3 + (2 + n4) + (2 + 8) + (2 + n5) + (2 + n6) + (2 + n7) + 6 + (2 + n8) +
    allDataSize), dataSetSize).

(** Step 2: the PDU. *)
Definition encode_goose (self : GoosePublisher) (dataSetValues : list MmsValue)
    (goosePduLength dataSetSize : Z) (utcTime : list Z) (buffer : Z) : W Z :=
  let* bufPos := BerEncoder_encodeTL 0x61 goosePduLength buffer 0 in
  let* bufPos := BerEncoder_encodeStringWithTag 0x80 (gp_goCBRef self) buffer bufPos in
  let* bufPos := BerEncoder_encodeUInt32WithTL 0x81 (gp_timeAllowedToLive self) buffer bufPos in
  let* bufPos := BerEncoder_encodeStringWithTag 0x82 (gp_dataSetRef self) buffer bufPos in
  let* bufPos := match gp_goID self with
    | Some _ => BerEncoder_encodeStringWithTag 0x83 (gp_goID self) buffer bufPos
    | None => wret bufPos
    end in
  let* bufPos := BerEncoder_encodeOctetString 0x84 (mk_ptr utcTime 0) 8 buffer bufPos in
  let* bufPos := BerEncoder_encodeUInt32WithTL 0x85 (gp_stNum self) buffer bufPos in
  let* bufPos := BerEncoder_encodeUInt32WithTL 0x86 (gp_sqNum self) buffer bufPos in
  let* bufPos := BerEncoder_encodeBoolean 0x87 (gp_simulation self) buffer bufPos in
  let* bufPos := BerEncoder_encodeUInt32WithTL 0x88 (gp_confRev self) buffer bufPos in
  let* bufPos := BerEncoder_encodeBoolean 0x89 (gp_needsCommission self) buffer bufPos in
  let* bufPos := BerEncoder_encodeUInt32WithTL 0x8a (zlen dataSetValues) buffer bufPos in
  let* bufPos := BerEncoder_encodeTL 0xab dataSetSize buffer bufPos in
  encode_dataSet dataSetValues buffer bufPos.

(** [buffer] is the address of the payload in the frame. *)
Definition createGoosePayload (self : GoosePublisher) (dataSetValues : list MmsValue)
    (buffer maxPayloadSize : Z) : W Z :=
  fun m =>
    let! (goosePduLength, dataSetSize) := goose_length self dataSetValues in
    if maxPayloadSize <? goosePduLength then Done (-1, m)
    else
      let! (_, utcTime) := as_utc_time (gp_timestamp self) in
      encode_goose self dataSetValues goosePduLength dataSetSize utcTime buffer m.

Definition GoosePublisher_publish (self : GoosePublisher) (dataSet : list MmsValue)
  : res (Z * GoosePublisher) :=
  let maxPayloadSize := GOOSE_MAX_MESSAGE_SIZE - gp_payloadStart self in
  let! (payloadLength, buffer) :=
    createGoosePayload self dataSet (gp_payloadStart self) maxPayloadSize (gp_buffer self) in
  let self := gp_set_numbers (gp_stNum self) (u32 (gp_sqNum self + 1)) (gp_timestamp self)
    (gp_set_io buffer (gp_sent self) self) in
  if payloadLength =? -1 then Done (-1, self)
  else
    let lengthIndex := gp_lengthField self in
    let gooseLength := payloadLength + 8 in
    let! buffer := st buffer lengthIndex (gooseLength / 256) in
    let! buffer := st buffer (lengthIndex + 1) (Z.land gooseLength 0xff) in
    let! packet := rd_list (mk_ptr buffer 0) 0 (gp_payloadStart self + payloadLength) in
    Done (0, gp_set_io buffer (gp_sent self ++ [packet]) self).
