(* ===== verification/GooseSubscriber.v ===== *)
(** The GOOSE subscriber: src/goose/goose_subscriber.c.  The loops take fuel: one
    step is one element of a message, or the descent into one. *)
From stdpp Require Import base tactics numbers option list.
From S2P Require Import Prelude Memory BerDecode BerEncode BerInteger MmsValue.

Definition ETH_BUFFER_LENGTH : Z := 1518.

(** [sGooseSubscriber], without the thread and the interface. *)
Record GooseSubscriber := mkSubscriber {
  gs_goCBRef : list Z;
  gs_goCBRefLen : Z;
  gs_timeAllowedToLive : Z;
  gs_stNum : Z;
  gs_sqNum : Z;
  gs_confRev : Z;
  gs_timestamp : MmsValue;
  gs_simulation : bool;
  gs_ndsCom : bool;
  gs_appId : Z;                        (* int32_t, -1: any *)
  gs_dataSetValues : option MmsValue;
  gs_dataSetValuesSelfAllocated : bool;
  gs_running : bool }.

Definition gs_set_data (values : option MmsValue) (selfAllocated : bool) (s : GooseSubscriber) :=
  mkSubscriber (gs_goCBRef s) (gs_goCBRefLen s) (gs_timeAllowedToLive s) (gs_stNum s) (gs_sqNum s)
    (gs_confRev s) (gs_timestamp s) (gs_simulation s) (gs_ndsCom s) (gs_appId s) values
    selfAllocated (gs_running s).

Definition gs_set_timestamp (t : MmsValue) (s : GooseSubscriber) :=
  mkSubscriber (gs_goCBRef s) (gs_goCBRefLen s) (gs_timeAllowedToLive s) (gs_stNum s) (gs_sqNum s)
    (gs_confRev s) t (gs_simulation s) (gs_ndsCom s) (gs_appId s) (gs_dataSetValues s)
    (gs_dataSetValuesSelfAllocated s) (gs_running s).

Definition gs_set_state (stNum sqNum timeAllowedToLive confRev : Z) (ndsCom simulation : bool)
    (s : GooseSubscriber) :=
  mkSubscriber (gs_goCBRef s) (gs_goCBRefLen s) timeAllowedToLive stNum sqNum confRev
    (gs_timestamp s) simulation ndsCom (gs_appId s) (gs_dataSetValues s)
    (gs_dataSetValuesSelfAllocated s) (gs_running s).

Definition GooseSubscriber_create (goCbRef : list Z) (dataSetValues : option MmsValue)
  : GooseSubscriber :=
  mkSubscriber (copyString goCbRef) (zlen goCbRef) 0 0 0 0 (MmsValue_newUtcTime 0) false false (-1)
    dataSetValues false false.

Definition GooseSubscriber_setAppId (appId : Z) (s : GooseSubscriber) :=
  mkSubscriber (gs_goCBRef s) (gs_goCBRefLen s) (gs_timeAllowedToLive s) (gs_stNum s) (gs_sqNum s)
    (gs_confRev s) (gs_timestamp s) (gs_simulation s) (gs_ndsCom s) appId (gs_dataSetValues s)
    (gs_dataSetValuesSelfAllocated s) (gs_running s).

Definition gs_set_running (running : bool) (s : GooseSubscriber) :=
  mkSubscriber (gs_goCBRef s) (gs_goCBRefLen s) (gs_timeAllowedToLive s) (gs_stNum s) (gs_sqNum s)
    (gs_confRev s) (gs_timestamp s) (gs_simulation s) (gs_ndsCom s) (gs_appId s)
    (gs_dataSetValues s) (gs_dataSetValuesSelfAllocated s) running.

Definition GooseSubscriber_subscribe (s : GooseSubscriber) := gs_set_running true s.
Definition GooseSubscriber_unsubscribe (s : GooseSubscriber) :=
  if gs_running s then gs_set_running false s else s.

Definition GooseSubscriber_getStNum := gs_stNum.
Definition GooseSubscriber_getSqNum := gs_sqNum.
Definition GooseSubscriber_isTest := gs_simulation.
Definition GooseSubscriber_needsCommission := gs_ndsCom.
Definition GooseSubscriber_getTimeAllowedToLive := gs_timeAllowedToLive.
Definition GooseSubscriber_getTimestamp (s : GooseSubscriber) := MmsValue_getUtcTimeInMs (gs_timestamp s).
Definition GooseSubscriber_getDataSetValues := gs_dataSetValues.

(** [GooseSubscriber_destroy] deletes a data set of its own: [Ub] for the null
    pointer. *)
Definition GooseSubscriber_destroy (s : GooseSubscriber) : res unit :=
  if gs_dataSetValuesSelfAllocated s then
    let! _ := defined (gs_dataSetValues s) in Done tt
  else Done tt.

(** * The data set of the application *)

(** A string in place: the new characters and a null byte over the old ones if
    they fit, else a new block. *)
Definition receive_string (old : option (list Z)) (bs : list Z) : res (list Z) :=
  match old with
  | Some block =>
      let! s := c_string block in
      if zlen bs <=? zlen s then
        let! block := st_list block 0 bs in st block (zlen bs) 0
      else Done (createStringFromBuffer bs)
  | None => Done (createStringFromBuffer bs)
  end.

(** One element that is not an array or a structure: the cases of the switch of
    [parseAllData] from [0x83] on.  [buffer] points at the content. *)
Definition receive_simple (tag : Z) (buffer : ptr) (elementLength : Z) (u : uMmsValue)
  : res uMmsValue :=
  if tag =? 0x83 then
    match u with
    | V_BOOLEAN _ => let! b := BerDecoder_decodeBoolean buffer 0 in Done (V_BOOLEAN b)
    | _ => Done u
    end
  else if tag =? 0x84 then
    match u with
    | V_BIT_STRING size buf =>
        let! padding := rd buffer 0 in
        let bitStringLength := 8 * (elementLength - 1) - padding in
        if bitStringLength =? size then
          let! bs := rd_list buffer 1 (elementLength - 1) in
          let! buf := st_list buf 0 bs in Done (V_BIT_STRING size buf)
        else Done u
    | _ => Done u
    end
  else if tag =? 0x85 then
    match u with
    | V_INTEGER i =>
        if elementLength <=? a_maxSize i then
          let! bs := rd_list buffer 0 elementLength in
          let! octets := st_list (a_octets i) 0 bs in
          Done (V_INTEGER (mkAsn1 (u8 elementLength) (a_maxSize i) octets))
        else Done u
    | _ => Done u
    end
  else if tag =? 0x86 then
    match u with
    | V_UNSIGNED i =>
        if elementLength <=? a_maxSize i then
          let! bs := rd_list buffer 0 elementLength in
          let! octets := st_list (a_octets i) 0 bs in
          Done (V_UNSIGNED (mkAsn1 (u8 elementLength) (a_maxSize i) octets))
        else Done u
    | _ => Done u
    end
  else if tag =? 0x87 then
    match u with
    | V_FLOAT e w buf =>
        let! v :=
          if elementLength =? 9 then
            let! d := BerDecoder_decodeDouble buffer 0 in MmsValue_setDouble (Simple 0 u) d
          else if elementLength =? 5 then
            let! f := BerDecoder_decodeFloat buffer 0 in MmsValue_setFloat (Simple 0 u) f
          else Done (Simple 0 u) in
        Done (match v with Simple _ u' => u' | _ => u end)
    | _ => Done u
    end
  else if tag =? 0x89 then
    match u with
    | V_OCTET_STRING n m buf =>
        if elementLength <=? m then
          let! bs := rd_list buffer 0 elementLength in
          let! buf := st_list buf 0 bs in Done (V_OCTET_STRING (u16 elementLength) m buf)
        else Done u
    | _ => Done u
    end
  else if tag =? 0x8a then
    match u with
    | V_VISIBLE_STRING s =>
        let! bs := rd_list buffer 0 elementLength in
        let! block := receive_string s bs in Done (V_VISIBLE_STRING (Some block))
    | _ => Done u
    end
  else if tag =? 0x8c then
    match u with
    | V_BINARY_TIME n buf =>
        if (elementLength =? 4) || (elementLength =? 6) then
          let! bs := rd_list buffer 0 elementLength in
          let! buf := st_list buf 0 bs in Done (V_BINARY_TIME n buf)
        else Done u
    | _ => Done u
    end
  else if tag =? 0x91 then
    if elementLength =? 8 then
      match u with
      | V_UTC_TIME t =>
          let! bs := rd_list buffer 0 8 in
          let! t := st_list t 0 bs in Done (V_UTC_TIME t)
      | _ => Done u
      end
    else Done u
  else Done u.

(** The tags whose case reads the type of the element. *)
Definition reads_element (tag elementLength : Z) : bool :=
  existsb (Z.eqb tag) [0xa1; 0xa2; 0x83; 0x84; 0x85; 0x86; 0x87; 0x89; 0x8a; 0x8c]
  || ((tag =? 0x91) && (elementLength =? 8)).

(** [parseAllData]: the return value and the data set with the elements received
    so far; an error leaves the earlier elements changed. *)
Fixpoint parseAllData_loop (fuel : nat) (buffer : ptr) (allDataLength : Z) (dataSetValues : MmsValue)
    (bufPos elementLength elementIndex : Z) : res (Z * MmsValue) :=
  if bufPos <? allDataLength then
    match fuel with
    | O => NoFuel
    | S fuel =>
        let! tag := rd buffer bufPos in
        let bufPos := bufPos + 1 in
        let! size := MmsValue_getArraySize dataSetValues in
        if size - 1 <? elementIndex then Done (0, dataSetValues)
        else
          let value := MmsValue_getElement dataSetValues elementIndex in
          let! (bufPos, length) :=
            BerDecoder_decodeLength buffer (Some elementLength) bufPos allDataLength in
          let! elementLength := defined length in
          if allDataLength <? bufPos + elementLength then Done (0, dataSetValues)
          else
            let next dataSetValues :=
              parseAllData_loop fuel buffer allDataLength dataSetValues (bufPos + elementLength)
                elementLength (elementIndex + 1) in
            if reads_element tag elementLength then
              match value with
              | None => Ub
              | Some (Simple d u) =>
                  let! u := receive_simple tag (ptr_add buffer bufPos) elementLength u in
                  next (MmsValue_setElement dataSetValues elementIndex (Some (Simple d u)))
              | Some (Complex d isArray cs as v) =>
                  if tag =? (if isArray then 0xa1 else 0xa2) then
                    let! (r, v) :=
                      parseAllData_loop fuel (ptr_add buffer bufPos) elementLength v 0 0 0 in
                    let dataSetValues := MmsValue_setElement dataSetValues elementIndex (Some v) in
                    if r =? 0 then Done (-1, dataSetValues) else next dataSetValues
                  else next dataSetValues
              end
            else next dataSetValues
    end
  else Done (1, dataSetValues).

Definition parseAllData (fuel : nat) (buffer : ptr) (allDataLength : Z) (dataSetValues : MmsValue)
  : res (Z * MmsValue) :=
  let! _ := MmsValue_getArraySize dataSetValues in
  parseAllData_loop fuel buffer allDataLength dataSetValues 0 0 0.

(** * A data set built from the message *)

Section Unknown.
(** What [malloc] leaves in the [deleteValue] of a new float. *)
Context (garbage : Z).

(** The first pass counts the elements; [None] is the error exit. *)
Fixpoint count_elements (fuel : nat) (buffer : ptr) (allDataLength bufPos elementLength elementIndex : Z)
  : res (option (Z * Z)) :=
  if bufPos <? allDataLength then
    match fuel with
    | O => NoFuel
    | S fuel =>
        let! tag := rd buffer bufPos in
        let! (bufPos, length) :=
          BerDecoder_decodeLength buffer (Some elementLength) (bufPos + 1) allDataLength in
        let! elementLength := defined length in
        if allDataLength <? bufPos + elementLength then Done None
        else if existsb (Z.eqb tag)
          [0x80; 0xa1; 0xa2; 0x83; 0x84; 0x85; 0x86; 0x87; 0x89; 0x8a; 0x8c; 0x91] then
          count_elements fuel buffer allDataLength (bufPos + elementLength) elementLength
            (elementIndex + 1)
        else Done None
    end
  else Done (Some (elementIndex, elementLength)).

(** The integer members: [MmsValue_newInteger] gives four octets, or 64 for more
    than 32 bits; the received octets are copied over the first ones. *)
Definition receive_integer (i : Asn1PrimitiveValue) (buffer : ptr) (elementLength : Z)
  : res Asn1PrimitiveValue :=
  let! bs := rd_list buffer 0 elementLength in
  let! octets := st_list (a_octets i) 0 bs in
  Done (mkAsn1 (a_size i) (a_maxSize i) octets).

Definition new_integer (elementLength : Z) : Asn1PrimitiveValue :=
  if elementLength * 8 <=? 32 then BerInteger_createInt32 else BerInteger_createInt64.

(** One simple element: [None] where the code creates no value. *)
Definition build_simple (tag : Z) (buffer : ptr) (elementLength : Z) : res (option MmsValue) :=
  if tag =? 0x83 then
    let! b := BerDecoder_decodeBoolean buffer 0 in Done (Some (MmsValue_newBoolean b))
  else if tag =? 0x84 then
    let! padding := rd buffer 0 in
    let bitStringLength := 8 * (elementLength - 1) - padding in
    match MmsValue_newBitString bitStringLength with
    | Simple d (V_BIT_STRING size buf) =>
        let! bs := rd_list buffer 1 (elementLength - 1) in
        let! buf := st_list buf 0 bs in Done (Some (Simple d (V_BIT_STRING size buf)))
    | _ => Ub
    end
  else if tag =? 0x85 then
    let! i := receive_integer (new_integer elementLength) buffer elementLength in
    Done (Some (new_value (V_INTEGER i)))
  else if tag =? 0x86 then
    let! i := receive_integer (new_integer elementLength) buffer elementLength in
    Done (Some (new_value (V_UNSIGNED i)))
  else if tag =? 0x87 then
    if elementLength =? 9 then
      let! d := BerDecoder_decodeDouble buffer 0 in Done (Some (MmsValue_newDouble d))
    else if elementLength =? 5 then
      let! f := BerDecoder_decodeFloat buffer 0 in Done (Some (MmsValue_newFloat garbage f))
    else Done None
  else if tag =? 0x89 then
    match MmsValue_newOctetString elementLength elementLength with
    | Simple d (V_OCTET_STRING n m buf) =>
        let! bs := rd_list buffer 0 elementLength in
        let! buf := st_list buf 0 bs in Done (Some (Simple d (V_OCTET_STRING n m buf)))
    | _ => Ub
    end
  else if tag =? 0x8a then
    let! v := MmsValue_newVisibleStringFromByteArray buffer elementLength in Done (Some v)
  else if tag =? 0x8c then
    if (elementLength =? 4) || (elementLength =? 6) then
      match MmsValue_newBinaryTime (elementLength =? 4) with
      | Simple d (V_BINARY_TIME n buf) =>
          let! bs := rd_list buffer 0 elementLength in
          let! buf := st_list buf 0 bs in Done (Some (Simple d (V_BINARY_TIME n buf)))
      | _ => Ub
      end
    else Done None
  else if tag =? 0x91 then
    if elementLength =? 8 then
      let! v := MmsValue_setUtcTimeByBuffer (MmsValue_newUtcTime 0) buffer in Done (Some v)
    else Done None
  else Done None.

(** [parseAllDataUnknownValue]: the data set, [None] for NULL, and whether this or
    a nested call has set [dataSetValuesSelfAllocated]. *)
Fixpoint build_loop (fuel : nat) (buffer : ptr) (allDataLength : Z) (dataSetValues : MmsValue)
    (bufPos elementLength elementIndex : Z) (selfAllocated : bool) : res (option MmsValue * bool) :=
  if bufPos <? allDataLength then
    match fuel with
    | O => NoFuel
    | S fuel =>
        let! tag := rd buffer bufPos in
        let! (bufPos, length) :=
          BerDecoder_decodeLength buffer (Some elementLength) (bufPos + 1) allDataLength in
        let! elementLength := defined length in
        if allDataLength <? bufPos + elementLength then Done (None, selfAllocated)
        else
          let next value selfAllocated :=
            let '(dataSetValues, elementIndex) :=
              match value with
              | Some _ => (MmsValue_setElement dataSetValues elementIndex value, elementIndex + 1)
              | None => (dataSetValues, elementIndex)
              end in
            build_loop fuel buffer allDataLength dataSetValues (bufPos + elementLength)
              elementLength elementIndex selfAllocated in
          let content := ptr_add buffer bufPos in
          if (tag =? 0xa1) || (tag =? 0xa2) then
            let! counted := count_elements fuel content elementLength 0 0 0 in
            match counted with
            | None => Done (None, selfAllocated)
            | Some (n, last) =>
                let fresh := if tag =? 0xa2 then MmsValue_createEmptyStructure n
                  else MmsValue_createEmtpyArray n in
                let! (value, selfAllocated) :=
                  build_loop fuel content elementLength fresh 0 last 0 selfAllocated in
                match value with
                | None => Done (None, selfAllocated)
                | Some _ => next value selfAllocated
                end
            end
          else if existsb (Z.eqb tag)
            [0x83; 0x84; 0x85; 0x86; 0x87; 0x89; 0x8a; 0x8c; 0x91] then
            let! value := build_simple tag content elementLength in next value selfAllocated
          else Done (None, selfAllocated)
    end
  else Done (Some dataSetValues, true).

Definition parseAllDataUnknownValue (fuel : nat) (self : GooseSubscriber) (buffer : ptr)
    (allDataLength : Z) (isStructure : bool) : res (option MmsValue * bool) :=
  let selfAllocated := gs_dataSetValuesSelfAllocated self in
  let! counted := count_elements fuel buffer allDataLength 0 0 0 in
  match counted with
  | None => Done (None, selfAllocated)
  | Some (n, last) =>
      build_loop fuel buffer allDataLength
        (if isStructure then MmsValue_createEmptyStructure n else MmsValue_createEmtpyArray n) 0 last 0
        selfAllocated
  end.

(** * The payload *)

(** The local variables of [parseGoosePayload]; [confRev] has no initial value. *)
Record goose_locals := mkLocals {
  l_timeAllowedToLive : Z;
  l_stNum : Z;
  l_sqNum : Z;
  l_confRev : option Z;
  l_simulation : bool;
  l_ndsCom : bool;
  l_isMatching : bool;
  l_numberOfDatSetEntries : Z }.

Definition goose_init : goose_locals := mkLocals 0 0 0 None false false false 0.

(** One element of the payload: the subscriber and the variables behind it, or
    [None] for the return with 0 on another control block reference. *)
Definition goose_element (fuel : nat) (tag : Z) (buffer : ptr) (bufPos elementLength : Z)
    (self : GooseSubscriber) (l : goose_locals) : res (option (GooseSubscriber * goose_locals)) :=
  let uint := BerDecoder_decodeUint32 buffer elementLength bufPos in
  if tag =? 0x80 then
    if gs_goCBRefLen self =? elementLength then
      let! ours := rd_list (mk_ptr (gs_goCBRef self) 0) 0 elementLength in
      let! theirs := rd_list buffer bufPos elementLength in
      if bool_decide (ours = theirs) then
        Done (Some (self, mkLocals (l_timeAllowedToLive l) (l_stNum l) (l_sqNum l) (l_confRev l)
          (l_simulation l) (l_ndsCom l) true (l_numberOfDatSetEntries l)))
      else Done None
    else Done None
  else if tag =? 0x81 then
    let! n := uint in
    Done (Some (self, mkLocals n (l_stNum l) (l_sqNum l) (l_confRev l) (l_simulation l) (l_ndsCom l)
      (l_isMatching l) (l_numberOfDatSetEntries l)))
  else if tag =? 0x84 then
    let! t := MmsValue_setUtcTimeByBuffer (gs_timestamp self) (ptr_add buffer bufPos) in
    Done (Some (gs_set_timestamp t self, l))
  else if tag =? 0x85 then
    let! n := uint in
    Done (Some (self, mkLocals (l_timeAllowedToLive l) n (l_sqNum l) (l_confRev l) (l_simulation l)
      (l_ndsCom l) (l_isMatching l) (l_numberOfDatSetEntries l)))
  else if tag =? 0x86 then
    let! n := uint in
    Done (Some (self, mkLocals (l_timeAllowedToLive l) (l_stNum l) n (l_confRev l) (l_simulation l)
      (l_ndsCom l) (l_isMatching l) (l_numberOfDatSetEntries l)))
  else if tag =? 0x87 then
    let! b := BerDecoder_decodeBoolean buffer bufPos in
    Done (Some (self, mkLocals (l_timeAllowedToLive l) (l_stNum l) (l_sqNum l) (l_confRev l) b
      (l_ndsCom l) (l_isMatching l) (l_numberOfDatSetEntries l)))
  else if tag =? 0x88 then
    let! n := uint in
    Done (Some (self, mkLocals (l_timeAllowedToLive l) (l_stNum l) (l_sqNum l) (Some n)
      (l_simulation l) (l_ndsCom l) (l_isMatching l) (l_numberOfDatSetEntries l)))
  else if tag =? 0x89 then
    let! b := BerDecoder_decodeBoolean buffer bufPos in
    Done (Some (self, mkLocals (l_timeAllowedToLive l) (l_stNum l) (l_sqNum l) (l_confRev l)
      (l_simulation l) b (l_isMatching l) (l_numberOfDatSetEntries l)))
  else if tag =? 0x8a then
    let! n := uint in
    Done (Some (self, mkLocals (l_timeAllowedToLive l) (l_stNum l) (l_sqNum l) (l_confRev l)
      (l_simulation l) (l_ndsCom l) (l_isMatching l) n))
  else if tag =? 0xab then
    match gs_dataSetValues self with
    | None =>
        let! (values, selfAllocated) :=
          parseAllDataUnknownValue fuel self (ptr_add buffer bufPos) elementLength false in
        Done (Some (gs_set_data values selfAllocated self, l))
    | Some values =>
        let! (_, values) := parseAllData fuel (ptr_add buffer bufPos) elementLength values in
        Done (Some (gs_set_data (Some values) (gs_dataSetValuesSelfAllocated self) self, l))
    end
  else Done (Some (self, l)).

(** The loop over the elements: it leaves with a return value or ends. *)
Fixpoint goose_loop (fuel : nat) (buffer : ptr) (apduLength gooseEnd bufPos : Z)
    (self : GooseSubscriber) (l : goose_locals)
  : res (ctl (GooseSubscriber * goose_locals) (Z * GooseSubscriber)) :=
  if bufPos <? gooseEnd then
    match fuel with
    | O => NoFuel
    | S fuel =>
        let! tag := rd buffer bufPos in
        let! (bufPos, length) := BerDecoder_decodeLength buffer None (bufPos + 1) apduLength in
        let! elementLength := defined length in
        if apduLength <? bufPos + elementLength then Done (Ret (-1, self))
        else if bufPos =? -1 then Done (Ret (-1, self))
        else
          let! r := goose_element fuel tag buffer bufPos elementLength self l in
          match r with
          | None => Done (Ret (0, self))
          | Some (self, l) => goose_loop fuel buffer apduLength gooseEnd (bufPos + elementLength) self l
          end
    end
  else Done (Next (self, l)).

Definition parseGoosePayload (fuel : nat) (buffer : ptr) (apduLength : Z) (self : GooseSubscriber)
  : res (Z * GooseSubscriber) :=
  let! tag := rd buffer 0 in
  if tag =? 0x61 then
    let! (bufPos, length) := BerDecoder_decodeLength buffer None 1 apduLength in
    let! gooseLength := defined length in
    let gooseEnd := bufPos + gooseLength in
    let! r := goose_loop fuel buffer apduLength gooseEnd bufPos self goose_init in
    match r with
    | Ret r => Done r
    | Next (self, l) =>
        if l_isMatching l then
          let! confRev := defined (l_confRev l) in
          Done (1, gs_set_state (l_stNum l) (l_sqNum l) (l_timeAllowedToLive l) confRev (l_ndsCom l)
            (l_simulation l) self)
        else Done (0, self)
    end
  else Done (-1, self).

Definition parseGooseMessage (fuel : nat) (buffer : ptr) (numbytes : Z) (subscriber : GooseSubscriber)
  : res (Z * GooseSubscriber) :=
  if numbytes <? 22 then Done (-1, subscriber)
  else
    let bufPos := 12 in
    let headerLength := 14 in
    let! b0 := rd buffer bufPos in
    let! vlan :=
      if b0 =? 0x81 then let! b1 := rd buffer (bufPos + 1) in Done (b1 =? 0x00) else Done false in
    let bufPos := if vlan then bufPos + 4 else bufPos in
    let headerLength := if vlan then headerLength + 4 else headerLength in
    let! e0 := rd buffer bufPos in
    if negb (e0 =? 0x88) then Done (-1, subscriber)
    else
      let! e1 := rd buffer (bufPos + 1) in
      if negb (e1 =? 0xb8) then Done (-1, subscriber)
      else
        let! a0 := rd buffer (bufPos + 2) in
        let! a1 := rd buffer (bufPos + 3) in
        let appId := u16 (u16 (a0 * 0x100) + a1) in
        let! l0 := rd buffer (bufPos + 4) in
        let! l1 := rd buffer (bufPos + 5) in
        let length := u16 (u16 (l0 * 0x100) + l1) in
        let bufPos := bufPos + 10 in
        let apduLength := length - 8 in
        if negb (numbytes =? length + headerLength) then Done (-1, subscriber)
        else if (0 <=? gs_appId subscriber) && negb (appId =? u16 (gs_appId subscriber)) then
          Done (0, subscriber)
        else parseGoosePayload fuel (ptr_add buffer bufPos) apduLength subscriber.

(** One packet in [gooseSubscriberLoop]: the listener is called exactly if the
    last component is true. *)
Definition gooseSubscriberLoop_round (fuel : nat) (self : GooseSubscriber) (buffer packet : list Z)
  : res (GooseSubscriber * list Z * bool) :=
  let! buffer := st_list buffer 0 packet in
  if 0 <? zlen packet then
    let! (r, self) := parseGooseMessage fuel (mk_ptr buffer 0) (zlen packet) self in
    Done (self, buffer, r =? 1)
  else Done (self, buffer, false).
End Unknown.
