(* ===== verification/GooseFacts.v ===== *)
(** GOOSE: what the publisher sends and what the subscriber makes of it. *)
From stdpp Require Import base tactics numbers option list.
From S2P Require Import Prelude Memory BerDecode BerEncode BerInteger MmsValue MmsValueFacts MmsTimeBits AccessResult GoosePublisher GooseSubscriber.

(** * The subscriber's data set *)

(** A member that can take over a published value: the types agree, an integer or
    an octet string has the room, bit strings and binary times the same size, and
    the unused bits of the published bit string are zero. *)
Definition u_hears (u u' : uMmsValue) : Prop :=
  match u, u' with
  | V_BOOLEAN _, V_BOOLEAN _ | V_VISIBLE_STRING _, V_VISIBLE_STRING _ | V_UTC_TIME _, V_UTC_TIME _ => True
  | V_BIT_STRING n _, V_BIT_STRING n' buf' =>
      n = n' /\ u_content u' = (bitStringByteSize n' * 8 - n') :: buf'
  | V_INTEGER i, V_INTEGER i' | V_UNSIGNED i, V_UNSIGNED i' => a_size i' <= a_maxSize i
  | V_FLOAT _ w _, V_FLOAT _ w' _ => w = w'
  | V_OCTET_STRING _ m _, V_OCTET_STRING n' _ _ => n' <= m
  | V_BINARY_TIME n _, V_BINARY_TIME n' _ => n = n'
  | _, _ => False
  end.

#[warnings="-register-all"]
Inductive hears : MmsValue -> MmsValue -> Prop :=
| hears_simple d d' u u' : u_wf u -> u_wf u' -> u_hears u u' -> hears (Simple d u) (Simple d' u')
| hears_complex d d' a ws vs :
    Forall2 hears ws vs -> hears (Complex d a (Some <$> ws)) (Complex d' a (Some <$> vs)).

Lemma decodeFloat_loop_spec n buffer acc pos bs :
  holds buffer pos bs -> length bs = n ->
  decodeFloat_loop n buffer acc pos = Done (rev bs ++ acc).
Proof.
  revert acc pos bs. induction n as [|n IH]; intros acc pos bs Hh Hl.
  - by destruct bs.
  - destruct bs as [|b bs]; [done|]. apply holds_cons in Hh as [Hb Hh].
    cbn [decodeFloat_loop]. rewrite Hb. cbn [rbind]. rewrite (IH _ _ bs) by (done || by injection Hl).
    cbn [rev]. by rewrite <- app_assoc.
Qed.

Lemma slice_splice_front m bs n : n = zlen bs -> n <= zlen m -> slice (splice m 0 bs) 0 n = bs.
Proof. apply slice_splice0. Qed.

(** An integer receives its octets. *)
Lemma receive_octets i i' buffer : asn1_wf i -> asn1_wf i' -> a_size i' <= a_maxSize i ->
  holds buffer 0 (a_bytes i') ->
  exists octets, (let! bs := rd_list buffer 0 (zlen (a_bytes i')) in st_list (a_octets i) 0 bs) = Done octets /\
    let j := mkAsn1 (u8 (zlen (a_bytes i'))) (a_maxSize i) octets in
    asn1_wf j /\ a_bytes j = a_bytes i'.
Proof.
  intros Hi Hi' Hle Hh. pose proof (zlen_a_bytes _ Hi') as Hz. pose proof (bytes_a_bytes _ Hi') as Hb.
  pose proof Hi as (H1 & H2 & H3 & H4). pose proof Hi' as (K1 & K2 & K3 & K4).
  rewrite (holds_rd_list _ _ _ _ Hh) by done. cbn [rbind]. rewrite st_list_fit by lia.
  eexists. split; [done|]. unfold asn1_wf. simpl. rewrite Hz, u8_small by lia.
  rewrite zlen_splice by lia. split.
  - repeat split; try lia. auto with bytes.
  - unfold a_bytes at 1. simpl. apply slice_splice_front; lia.
Qed.

(** The string that a string member holds afterwards. *)
Lemma receive_string_spec s cs : string_wf s -> Forall (fun c => c <> 0) cs -> bytes cs ->
  exists block, receive_string s cs = Done block /\ c_string block = Done cs /\ bytes block.
Proof.
  intros (b & old & -> & Hb & Hbb) Hn Hc. unfold receive_string. rewrite Hb. cbn [rbind].
  assert (exists rest, b = old ++ 0 :: rest) as (rest & ->).
  { clear Hbb. revert old Hb. induction b as [|c b IH]; intros old; simpl; [done|].
    destruct (Z.eqb_spec c 0) as [->|]; [intros [= <-]; by exists b|].
    destruct (c_string b) as [t| | |]; simpl; try done. intros [= <-].
    destruct (IH t eq_refl) as (rest & ->). by exists rest. }
  zcase.
  - rewrite st_list_fit by (rewrite ?zlen_app, ?zlen_cons; zl). cbn [rbind].
    rewrite st_in by (rewrite zlen_splice; zl). eexists. split; [done|].
    rewrite <- splice_one by (rewrite zlen_splice; zl).
    replace (zlen cs) with (0 + zlen cs) by lia.
    rewrite splice_app by (change (zlen [u8 0]) with 1; zl).
    change (u8 0) with 0. split.
    + unfold splice. simpl. rewrite <- app_assoc. simpl. by apply c_string_app.
    + apply bytes_splice; [done|]. bytes_tac.
  - eexists. split; [done|]. unfold createStringFromBuffer. split; [by apply c_string_app|bytes_tac].
Qed.

Lemma receive_simple_spec u u' buffer : u_wf u -> u_wf u' -> u_hears u u' ->
  holds buffer 0 (u_content u') ->
  reads_element (u_tag u') (zlen (u_content u')) = true /\
  exists w, receive_simple (u_tag u') buffer (zlen (u_content u')) u = Done w /\
    u_wf w /\ u_type w = u_type u' /\ u_equals w u' = Done true /\ u_hears w u'.
Proof.
  intros Hu Hu' Hr Hh.
  destruct u as [b|size buf|i|i|e w buf|n m buf|s|s|n buf|t|e| | |],
    u' as [b'|size' buf'|i'|i'|e' w' buf'|n' m' buf'|s'|s'|n' buf'|t'|e'| | |];
    simpl in Hu, Hu', Hr; try done; cbn [u_tag] in *; unfold receive_simple; cbn [Z.eqb Pos.eqb].
  - split; [done|]. cbn [u_content] in *. apply holds_cons in Hh as [Hb _].
    unfold BerDecoder_decodeBoolean. rewrite Hb. cbn [rbind]. eexists. split; [done|].
    by destruct b'.
  - destruct Hr as [<- Hn], Hu as (H1 & H2 & H3), Hu' as (_ & K2 & K3).
    split; [done|]. change (u_content (V_BIT_STRING size buf')) with
      (mask_last (padding_mask size) ((bitStringByteSize size * 8 - size) :: buf')) in *.
    rewrite Hn in *. apply holds_cons in Hh as [Hp Hh]. rewrite Hp. cbn [rbind].
    rewrite zlen_cons. rewrite (proj2 (Z.eqb_eq _ size)) by lia.
    rewrite (holds_rd_list _ _ _ _ Hh) by lia. cbn [rbind]. rewrite st_list_fit by lia. cbn [rbind].
    rewrite splice_whole by lia. eexists. split; [done|]. pose proof (zlen_quot8 _ H1). simpl. zdec.
    split; [done|split; [done|]]. split; [apply memcmp_eq_refl; lia || done|]. by split.
  - split; [done|]. cbn [u_content] in *.
    rewrite (proj2 (Z.leb_le (zlen (a_bytes i')) _)) by (by rewrite zlen_a_bytes).
    destruct (receive_octets i i' buffer Hu Hu' Hr Hh) as (octets & E & Hw & Hb).
    destruct (rd_list buffer 0 (zlen (a_bytes i'))) as [bs| | |]; try done. cbn [rbind] in *.
    rewrite E. cbn [rbind]. eexists. split; [done|].
    split; [done|split; [done|split; [by apply asn1_compare_same|done]]].
  - split; [done|]. cbn [u_content] in *.
    rewrite (proj2 (Z.leb_le (zlen (a_bytes i')) _)) by (by rewrite zlen_a_bytes).
    destruct (receive_octets i i' buffer Hu Hu' Hr Hh) as (octets & E & Hw & Hb).
    destruct (rd_list buffer 0 (zlen (a_bytes i'))) as [bs| | |]; try done. cbn [rbind] in *.
    rewrite E. cbn [rbind]. eexists. split; [done|].
    split; [done|split; [done|split; [by apply asn1_compare_same|done]]].
  - subst w'. destruct Hu as (H1 & H2 & H3), Hu' as (_ & K2 & K3). cbn [u_content] in *.
    rewrite zlen_cons, zlen_rev. apply holds_cons in Hh as [_ Hh].
    destruct H1 as [-> | ->]; [change (Z.quot 32 8) with 4 in *|change (Z.quot 64 8) with 8 in *];
      rewrite K2; (split; [done|]); [change (1 + 4) with 5|change (1 + 8) with 9]; cbn [Z.eqb Pos.eqb].
    + unfold BerDecoder_decodeFloat.
      rewrite (decodeFloat_loop_spec _ _ _ _ (rev buf')) by (done || (unfold zlen in K2; rewrite length_rev; lia)).
      rewrite rev_involutive, app_nil_r. cbn [rbind MmsValue_setFloat Z.eqb Pos.eqb].
      rewrite st_list_fit by lia. cbn [rbind]. rewrite splice_whole by lia.
      eexists. split; [done|]. cbn [u_wf u_equals u_hears].
      change (Z.quot 32 8) with 4. split; [split; [by left|done]|split; [done|split; [|done]]].
      apply memcmp_eq_refl; lia || done.
    + unfold BerDecoder_decodeDouble.
      rewrite (decodeFloat_loop_spec _ _ _ _ (rev buf')) by (done || (unfold zlen in K2; rewrite length_rev; lia)).
      rewrite rev_involutive, app_nil_r. cbn [rbind MmsValue_setDouble Z.eqb Pos.eqb].
      rewrite st_list_fit by lia. cbn [rbind]. rewrite splice_whole by lia.
      eexists. split; [done|]. cbn [u_wf u_equals u_hears].
      change (Z.quot 64 8) with 8. split; [split; [by right|done]|split; [done|split; [|done]]].
      apply memcmp_eq_refl; lia || done.
  - destruct Hu as (H1 & H2 & H3 & H4), Hu' as (K1 & K2 & K3 & K4). cbn [u_content] in *.
    assert (zlen (slice buf' 0 n') = n') as Hz by (apply zlen_slice; lia).
    split; [done|]. rewrite Hz. zdec. rewrite (holds_rd_list _ _ _ _ Hh) by done. cbn [rbind].
    rewrite st_list_fit by lia. cbn [rbind]. eexists. split; [done|]. simpl. rewrite u16_small by lia. zdec.
    rewrite zlen_splice by lia.
    split; [repeat split; try lia; auto with bytes|split; [done|split; [|done]]].
    apply memcmp_eq_refl; rewrite ?zlen_splice by lia; try lia.
    apply slice_splice_front; lia.
  - destruct Hu' as (b & cs & -> & Hcs & Hb). destruct (bytes_string _ _ _ eq_refl Hcs Hb) as [Hsc Hbc].
    cbn [u_content] in *. rewrite Hsc in *. split; [done|]. rewrite (holds_rd_list _ _ _ _ Hh) by done.
    cbn [rbind]. destruct (receive_string_spec s cs Hu) as (block & -> & H1 & H2);
      [by eapply c_string_nonzero|done|].
    cbn [rbind]. eexists. split; [done|]. simpl. rewrite H1, Hcs. simpl. rewrite bool_decide_true by done.
    split; [by exists block, cs|done].
  - subst n'. destruct Hu as (H1 & H2 & H3), Hu' as (K1 & K2 & K3). cbn [u_content] in *.
    assert (zlen (slice buf' 0 n) = n) as Hz by (apply zlen_slice; lia). split; [done|]. rewrite Hz.
    replace ((n =? 4) || (n =? 6)) with true by (destruct H1; subst; done).
    rewrite (holds_rd_list _ _ _ _ Hh) by done. cbn [rbind]. rewrite st_list_fit by lia. cbn [rbind].
    eexists. split; [done|]. simpl. zdec. rewrite zlen_splice by lia.
    split; [repeat split; try lia; auto with bytes|split; [done|split; [|done]]].
    apply memcmp_eq_refl; rewrite ?zlen_splice by lia; try lia.
    apply slice_splice_front; lia.
  - destruct Hu as (H1 & H2), Hu' as (K1 & K2). cbn [u_content] in *. rewrite K1. split; [done|].
    cbn [Z.eqb Pos.eqb]. rewrite (holds_rd_list _ _ _ _ Hh) by done. cbn [rbind].
    rewrite st_list_fit by lia. cbn [rbind]. rewrite splice_whole by lia. eexists. split; [done|]. simpl.
    split; [done|split; [done|split; [|done]]]. apply memcmp_eq_refl; lia || done.
Qed.

Lemma getElement_middle d a pre w ws :
  MmsValue_getElement (Complex d a (Some <$> (pre ++ w :: ws))) (zlen pre) = Some w.
Proof.
  unfold MmsValue_getElement. pose proof (zlen_nonneg pre). rewrite fmap_app, fmap_cons.
  assert (zlen ((Some <$> pre) ++ Some w :: (Some <$> ws)) = zlen pre + 1 + zlen ws) as E
    by (unfold zlen; rewrite length_app, length_cons, !length_fmap; lia).
  rewrite E. pose proof (zlen_nonneg ws).
  rewrite (proj2 (Z.ltb_ge (zlen pre) 0)), (proj2 (Z.leb_gt (zlen pre + 1 + zlen ws) (zlen pre))) by lia.
  cbn [orb]. unfold zlen. rewrite Nat2Z.id.
  rewrite lookup_app_r by (rewrite length_fmap; lia). by rewrite length_fmap, Nat.sub_diag.
Qed.

Lemma setElement_middle d a pre w w' ws :
  MmsValue_setElement (Complex d a (Some <$> (pre ++ w :: ws))) (zlen pre) (Some w')
  = Complex d a (Some <$> ((pre ++ [w']) ++ ws)).
Proof.
  unfold MmsValue_setElement. pose proof (zlen_nonneg pre). rewrite fmap_app, fmap_cons.
  assert (zlen ((Some <$> pre) ++ Some w :: (Some <$> ws)) = zlen pre + 1 + zlen ws) as E
    by (unfold zlen; rewrite length_app, length_cons, !length_fmap; lia).
  rewrite E. pose proof (zlen_nonneg ws).
  rewrite (proj2 (Z.ltb_ge (zlen pre) 0)), (proj2 (Z.leb_gt (zlen pre + 1 + zlen ws) (zlen pre))) by lia.
  cbn [orb]. f_equal. rewrite !fmap_app. unfold zlen. rewrite Nat2Z.id.
  rewrite insert_app_r_alt by (rewrite length_fmap; lia). rewrite length_fmap, Nat.sub_diag.
  by rewrite <- app_assoc.
Qed.

(** The parts of the encoding of a value. *)
Definition v_tag (v : MmsValue) : Z :=
  match v with Simple _ u => u_tag u | Complex _ isArray _ => if isArray then 0xa1 else 0xa2 end.

Definition v_content (v : MmsValue) : list Z :=
  match v with
  | Simple _ u => u_content u
  | Complex _ _ cs =>
      concat (map (fun c => match c with Some c => access_bytes c | None => [] end) cs)
  end.

Lemma access_bytes_tlv v : access_bytes v = tlv (v_tag v, v_content v).
Proof. by destruct v. Qed.

Lemma v_content_complex d a vs : v_content (Complex d a (Some <$> vs)) = concat (map access_bytes vs).
Proof.
  cbn [v_content]. f_equal. induction vs as [|v vs IH]; [done|]. rewrite fmap_cons. cbn [map]. by rewrite IH.
Qed.

Definition takes_over (w v : MmsValue) : Prop := MmsValue_equals w v = Done true /\ hears w v.

Lemma parseAllData_hears fuel : forall buffer len d a pre ws vs pos elementLength,
  Forall2 hears ws vs -> let bs := concat (map access_bytes vs) in
  holds buffer pos bs -> len = pos + zlen bs -> zlen bs < 65536 -> zlen bs <= Z.of_nat fuel ->
  exists ws', parseAllData_loop fuel buffer len (Complex d a (Some <$> (pre ++ ws))) pos elementLength (zlen pre)
      = Done (1, Complex d a (Some <$> (pre ++ ws'))) /\ Forall2 takes_over ws' vs.
Proof.
  induction fuel as [|fuel IH]; intros buffer len d a pre ws vs pos old Hws bs Hh -> Hsz Hf.
  { destruct Hws as [|w v ws vs Hw Hws].
    - exists []. simpl. rewrite (proj2 (Z.ltb_ge _ _)) by (unfold bs; cbn [map concat]; rewrite zlen_nil; lia). by split.
    - exfalso. unfold bs in Hf. cbn [map concat] in Hf. rewrite zlen_app in Hf.
      pose proof (zlen_nonneg (concat (map access_bytes vs))).
      pose proof (tlv_longer (v_tag v, v_content v)) as Hlong. rewrite <- access_bytes_tlv in Hlong.
      pose proof (zlen_nonneg (v_content v)). cbn [snd] in Hlong. lia. }
  destruct Hws as [|w v ws vs Hw Hws].
  { exists []. cbn [parseAllData_loop]. rewrite (proj2 (Z.ltb_ge _ _)) by (unfold bs; cbn [map concat]; rewrite zlen_nil; lia). by split. }
  subst bs. cbn [map concat] in *. set (rest := concat (map access_bytes vs)) in *.
  rewrite zlen_app in *. pose proof (zlen_nonneg rest).
  rewrite access_bytes_tlv in *. set (tag := v_tag v) in *. set (content := v_content v) in *.
  pose proof (tlv_longer (tag, content)) as Hlong. cbn [snd] in Hlong.
  pose proof (zlen_nonneg content).
  destruct (holds_tlv buffer pos (tag, content) rest (pos + (zlen (tlv (tag, content)) + zlen rest)) (Some old)
    Hh ltac:(cbn [snd]; lia) ltac:(lia)) as (Ht & Hl & Hc & Hr & Hend).
  cbn [fst snd] in *. set (start := pos + 1 + _) in *.
  cbn [parseAllData_loop]. rewrite (proj2 (Z.ltb_lt _ _)) by lia. rewrite Ht. cbn [rbind].
  cbn [MmsValue_getArraySize rbind].
  assert (zlen (Some <$> (pre ++ w :: ws)) = zlen pre + 1 + zlen ws) as Esz
    by (unfold zlen; rewrite length_fmap, length_app, length_cons; lia).
  rewrite Esz. pose proof (zlen_nonneg ws).
  rewrite (proj2 (Z.ltb_ge (zlen pre + 1 + zlen ws - 1) _)) by lia.
  rewrite Hl. cbn [rbind defined]. rewrite (proj2 (Z.ltb_ge _ (start + zlen content))) by lia.
  rewrite getElement_middle.
  assert (forall w', takes_over w' v ->
    exists ws', parseAllData_loop fuel buffer (pos + (zlen (tlv (tag, content)) + zlen rest))
      (MmsValue_setElement (Complex d a (Some <$> (pre ++ w :: ws))) (zlen pre) (Some w'))
      (start + zlen content) (zlen content) (zlen pre + 1)
      = Done (1, Complex d a (Some <$> (pre ++ ws'))) /\ Forall2 takes_over ws' (v :: vs)) as Hnext.
  { intros w' Hw'. rewrite setElement_middle.
    destruct (IH buffer (pos + (zlen (tlv (tag, content)) + zlen rest)) d a (pre ++ [w']) ws vs
      (start + zlen content) (zlen content) Hws) as (ws' & E & Hws').
    - fold rest. done.
    - fold rest. lia.
    - fold rest. lia.
    - fold rest. lia.
    - rewrite zlen_app in E. change (zlen [w']) with 1 in E. rewrite <- (app_assoc pre [w'] ws') in E.
      exists (w' :: ws'). split; [exact E|]. by constructor. }
  destruct Hw as [d1 d2 u u' Hu Hu' Hr'|d1 d2 b ws1 vs1 Hws1].
  - cbn [v_tag v_content] in tag, content. subst tag content.
    destruct (receive_simple_spec u u' (ptr_add buffer start) Hu Hu' Hr') as [Hre (w' & E & Hw' & Hty & Heq & Hh')];
      [by rewrite holds_ptr_add, Z.add_0_r|].
    rewrite Hre, E. cbn [rbind]. apply Hnext. split.
    + cbn [MmsValue_equals MmsValue_getType]. by rewrite bool_decide_true by done.
    + by constructor.
  - assert (content = concat (map access_bytes vs1)) as Ec by (subst content; apply v_content_complex).
    assert (tag = if b then 0xa1 else 0xa2) as Et by done.
    assert (reads_element tag (zlen content) = true) as -> by (rewrite Et; by destruct b).
    cbn [map]. rewrite (proj2 (Z.eqb_eq tag _)) by exact Et.
    destruct (IH (ptr_add buffer start) (zlen content) d1 b [] ws1 vs1 0 0 Hws1) as (ws' & E & Hws').
    { rewrite holds_ptr_add, Z.add_0_r, <- Ec. done. }
    { by rewrite <- Ec, Z.add_0_l. }
    { rewrite <- Ec. lia. }
    { rewrite <- Ec. lia. }
    cbn [app] in E. change (zlen (@nil MmsValue)) with 0 in E. rewrite E. cbn [rbind Z.eqb].
    apply Hnext. split.
    + apply MmsValue_equals_complex. eapply Forall2_impl; [exact Hws'|]. by intros x y [Hxy _].
    + constructor. eapply Forall2_impl; [exact Hws'|]. by intros x y [_ Hxy].
Qed.

(** * The published PDU *)

Definition dataset_bytes (vs : list MmsValue) : list Z := concat (map access_bytes vs).

(** The elements of the PDU in their order. *)
Definition goose_elements (g : GoosePublisher) (utcTime : list Z) (vs : list MmsValue)
  : list (Z * list Z) :=
  [(0x80, string_bytes (gp_goCBRef g)); (0x81, uint32_bytes (gp_timeAllowedToLive g));
   (0x82, string_bytes (gp_dataSetRef g))] ++
  match gp_goID g with Some s => [(0x83, s)] | None => [] end ++
  [(0x84, utcTime); (0x85, uint32_bytes (gp_stNum g)); (0x86, uint32_bytes (gp_sqNum g));
   (0x87, [if gp_simulation g then 255 else 0]); (0x88, uint32_bytes (gp_confRev g));
   (0x89, [if gp_needsCommission g then 255 else 0]); (0x8a, uint32_bytes (zlen vs));
   (0xab, dataset_bytes vs)].

Definition goose_pdu (g : GoosePublisher) (utcTime : list Z) (vs : list MmsValue) : list Z :=
  tlv (0x61, tlvs (goose_elements g utcTime vs)).

(** What the fields of the publisher hold. *)
Record publisher_wf (g : GoosePublisher) (utcTime : list Z) : Prop := mk_publisher_wf {
  pw_time : exists d, gp_timestamp g = Simple d (V_UTC_TIME utcTime);
  pw_time_size : zlen utcTime = 8;
  pw_time_bytes : bytes utcTime;
  pw_strings : Forall (fun s => bytes (string_bytes s) /\ zlen (string_bytes s) < 65536)
    [gp_goCBRef g; gp_dataSetRef g; gp_goID g];
  pw_numbers : Forall (fun n => 0 <= n < 4294967296)
    [gp_timeAllowedToLive g; gp_stNum g; gp_sqNum g; gp_confRev g] }.

Lemma dataSet_spec vs : Forall encodable vs -> zlen (dataset_bytes vs) < 65536 ->
  dataSet_size vs = Done (zlen (dataset_bytes vs)) /\
  forall buffer pos, Emits buffer pos (encode_dataSet vs buffer pos)
    (pos + zlen (dataset_bytes vs)) (dataset_bytes vs).
Proof.
  unfold dataset_bytes. induction 1 as [|v vs Hv _ IH]; intros Hz.
  - split; [done|]. intros. eapply emits_eq; [apply emits_ret|by rewrite Z.add_0_r|done].
  - cbn [map concat] in *. rewrite zlen_app in *.
    pose proof (zlen_nonneg (access_bytes v)). pose proof (zlen_nonneg (concat (map access_bytes vs))).
    destruct (IH ltac:(lia)) as [Hs He]. split.
    + cbn [dataSet_size]. destruct (encode_spec v Hv 0) as [-> _]. rewrite Hs. cbn [rbind].
      by rewrite u32_small by lia.
    + intros buffer pos. cbn [encode_dataSet]. destruct (encode_spec v Hv buffer) as [_ Hev].
      eapply emits_eq; [eapply emits_bind; [apply Hev|apply He|reflexivity]|lia|done].
Qed.

Lemma goose_length_spec g t vs : publisher_wf g t -> Forall encodable vs ->
  zlen (dataset_bytes vs) < 65536 ->
  goose_length g vs = Done (zlen (tlvs (goose_elements g t vs)), zlen (dataset_bytes vs)).
Proof.
  intros [_ Ht _ Hs _] Hv Hd. unfold goose_length.
  rewrite !UInt32determineEncodedSize_spec. cbn [rbind].
  destruct (dataSet_spec vs Hv Hd) as [-> _]. cbn [rbind].
  apply Forall_cons_1 in Hs as [[_ H1] Hs]. apply Forall_cons_1 in Hs as [[_ H2] Hs].
  apply Forall_cons_1 in Hs as [[_ H3] _].
  rewrite (encodedStringSize_tlv 0x80), (encodedStringSize_tlv 0x82) by done.
  assert (zlen (tlvs (goose_elements g t vs)) =
    zlen (tlv (0x80, string_bytes (gp_goCBRef g))) + zlen (tlv (0x82, string_bytes (gp_dataSetRef g))) +
    (match gp_goID g with Some _ => BerEncoder_determineEncodedStringSize (gp_goID g) | None => 0 end) +
    (2 + zlen (uint32_bytes (gp_timeAllowedToLive g))) + (2 + 8) +
    (2 + zlen (uint32_bytes (gp_sqNum g))) + (2 + zlen (uint32_bytes (gp_stNum g))) +
    (2 + zlen (uint32_bytes (gp_confRev g))) + 6 + (2 + zlen (uint32_bytes (zlen vs))) +
    (zlen (dataset_bytes vs) + BerEncoder_determineLengthSize (zlen (dataset_bytes vs)) + 1)) as E.
  { unfold goose_elements. rewrite !tlvs_app, !zlen_app, !tlvs_cons, !zlen_app, !zlen_tlv_uint32.
    assert (zlen (tlvs match gp_goID g with Some s => [(0x83, s)] | None => [] end) =
      match gp_goID g with Some _ => BerEncoder_determineEncodedStringSize (gp_goID g) | None => 0 end) as ->.
    { destruct (gp_goID g) as [s|] eqn:E; [|done]. rewrite (encodedStringSize_tlv 0x83) by done.
      rewrite tlvs_cons, zlen_app. change (zlen (tlvs [])) with 0. apply Z.add_0_r. }
    rewrite (zlen_tlv (0x84, t)), (zlen_tlv (0xab, _)). cbn [snd]. rewrite Ht.
    change (zlen (tlvs [])) with 0. change (BerEncoder_determineLengthSize 8) with 1.
    rewrite !(tlv_short _ [_]) by by_eval. change (zlen [_; _; _]) with 3. lia. }
  rewrite <- E. f_equal. f_equal. apply u32_small. rewrite E.
  assert (0 <= (match gp_goID g with Some _ => BerEncoder_determineEncodedStringSize (gp_goID g) | None => 0 end) < 66000).
  { destruct (gp_goID g) as [s|]; [|lia]. rewrite (encodedStringSize_tlv 0x83) by done.
    rewrite zlen_tlv. pose proof (determineLengthSize_range (zlen (string_bytes (Some s)))).
    pose proof (zlen_nonneg (string_bytes (Some s))). cbn [snd]. lia. }
  rewrite !zlen_tlv. cbn [snd].
  pose proof (determineLengthSize_range (zlen (string_bytes (gp_goCBRef g)))).
  pose proof (determineLengthSize_range (zlen (string_bytes (gp_dataSetRef g)))).
  pose proof (determineLengthSize_range (zlen (dataset_bytes vs))).
  pose proof (zlen_nonneg (string_bytes (gp_goCBRef g))).
  pose proof (zlen_nonneg (string_bytes (gp_dataSetRef g))). pose proof (zlen_nonneg (dataset_bytes vs)).
  pose proof (zlen_uint32_bytes (gp_timeAllowedToLive g)). pose proof (zlen_uint32_bytes (gp_sqNum g)).
  pose proof (zlen_uint32_bytes (gp_stNum g)). pose proof (zlen_uint32_bytes (gp_confRev g)).
  pose proof (zlen_uint32_bytes (zlen vs)). lia.
Qed.

Lemma emits_goose g t vs buffer : publisher_wf g t -> Forall encodable vs ->
  zlen (dataset_bytes vs) < 65536 -> zlen (tlvs (goose_elements g t vs)) < 65536 ->
  Emits buffer 0 (encode_goose g vs (zlen (tlvs (goose_elements g t vs))) (zlen (dataset_bytes vs)) t buffer)
    (zlen (goose_pdu g t vs)) (goose_pdu g t vs).
Proof.
  intros [_ Ht Htb Hs _] Hv Hd Htot. pose proof (zlen_nonneg (tlvs (goose_elements g t vs))).
  pose proof (zlen_nonneg (dataset_bytes vs)).
  apply Forall_cons_1 in Hs as [[B1 H1] Hs]. apply Forall_cons_1 in Hs as [[B2 H2] Hs].
  apply Forall_cons_1 in Hs as [[B3 H3] _]. destruct (dataSet_spec vs Hv Hd) as [_ Hds].
  unfold encode_goose. eapply emits_eq.
  - eapply emits_bind; [apply emits_encodeTL|cbv beta|reflexivity].
    eapply emits_bind; [by apply emits_tlv_string|cbv beta|reflexivity].
    eapply emits_bind; [by apply emits_tlv_uint32|cbv beta|reflexivity].
    eapply emits_bind; [by apply emits_tlv_string|cbv beta|reflexivity].
    eapply (emits_bind _ _ _ _ _ (_ + zlen (tlvs match gp_goID g with Some s => [(0x83, s)] | None => [] end))
      _ (tlvs match gp_goID g with Some s => [(0x83, s)] | None => [] end)); [|cbv beta|reflexivity].
    { destruct (gp_goID g) as [s|].
      - change (tlvs [(0x83, s)]) with (tlv (0x83, s) ++ []). rewrite app_nil_r.
        by apply (emits_tlv_string 0x83 (Some s)).
      - eapply emits_eq; [apply emits_ret|by rewrite Z.add_0_r|done]. }
    eapply emits_bind; [by apply (emits_octets _ _ _ _ _ t (holds_whole t))|cbv beta|reflexivity].
    eapply emits_bind; [by apply emits_tlv_uint32|cbv beta|reflexivity].
    eapply emits_bind; [by apply emits_tlv_uint32|cbv beta|reflexivity].
    eapply emits_bind; [by apply emits_tlv_boolean|cbv beta|reflexivity].
    eapply emits_bind; [by apply emits_tlv_uint32|cbv beta|reflexivity].
    eapply emits_bind; [by apply emits_tlv_boolean|cbv beta|reflexivity].
    eapply emits_bind; [by apply emits_tlv_uint32|cbv beta|reflexivity].
    eapply emits_bind; [apply emits_encodeTL|cbv beta; apply Hds|reflexivity].
  - unfold ber_tl. rewrite !u32_small by lia. unfold goose_pdu, goose_elements.
    rewrite !tlvs_app, !tlvs_cons. change (tlvs []) with (@nil Z). rewrite !app_nil_r.
    change (132 :: ber_len (zlen t) ++ t) with (tlv (132, t)).
    rewrite (zlen_tlv (97, _)), !(zlen_cons (u8 _)), !zlen_ber_len. cbn [snd]. rewrite !zlen_app.
    rewrite (zlen_tlv (171, _)). cbn [snd]. lia.
  - unfold ber_tl. rewrite !u32_small by lia. unfold goose_pdu, goose_elements.
    rewrite !tlvs_app, !tlvs_cons. change (tlvs []) with (@nil Z). rewrite !app_nil_r.
    change (u8 0x61) with 0x61. change (u8 0xab) with 0xab.
    unfold tlv. cbn [fst snd]. rewrite <- !app_assoc. cbn [app]. reflexivity.
Qed.

(** * Publishing *)

(** The buffer of a publisher behind the frame header that [prepareGooseBuffer]
    writes: addresses, VLAN tag, Ethernet type, application id, length. *)
Definition frame_header (mac : list Z) (t1 t2 appId length : Z) : list Z :=
  mac ++ [0x81; 0x00; t1; t2; 0x88; 0xb8; u8 (appId / 256); u8 (appId mod 256);
    u8 (length / 256); u8 (Z.land length 0xff); 0; 0; 0; 0].

Record publisher_frame (g : GoosePublisher) (mac : list Z) (t1 t2 appId : Z) : Prop := mk_frame {
  pf_buffer : exists length rest, gp_buffer g = frame_header mac t1 t2 appId length ++ rest;
  pf_size : zlen (gp_buffer g) = GOOSE_MAX_MESSAGE_SIZE;
  pf_mac : zlen mac = 12;
  pf_length : gp_lengthField g = 20;
  pf_start : gp_payloadStart g = 26 }.

Definition MAX_PAYLOAD : Z := 1492.

Lemma zlen_frame_header mac t1 t2 appId length :
  zlen mac = 12 -> zlen (frame_header mac t1 t2 appId length) = 26.
Proof. intros H. unfold frame_header. rewrite zlen_app, H. done. Qed.

Lemma splice_app_r p r a bs : zlen p = a -> splice (p ++ r) a bs = p ++ splice r 0 bs.
Proof.
  intros <-. unfold splice, zlen. rewrite Nat2Z.id. change (Z.to_nat 0) with 0%nat.
  rewrite take_app_length, take_0. cbn [app]. f_equal. f_equal.
  rewrite drop_app_ge by lia. f_equal. lia.
Qed.

(** The length field over its old value. *)
Lemma set_length mac t1 t2 appId old n rest : zlen mac = 12 ->
  (let! buffer := st (frame_header mac t1 t2 appId old ++ rest) 20 (n / 256) in
   st buffer 21 (Z.land n 0xff)) = Done (frame_header mac t1 t2 appId n ++ rest).
Proof.
  intros Hm. pose proof (zlen_frame_header mac t1 t2 appId old Hm) as Hz. pose proof (zlen_nonneg rest).
  rewrite st_in by (rewrite zlen_app; lia). cbn [rbind].
  rewrite st_in by (rewrite zlen_insert, zlen_app; lia). f_equal.
  unfold frame_header. rewrite <- !app_assoc. unfold zlen in Hm.
  rewrite insert_app_r_alt by lia. rewrite insert_app_r_alt by lia. f_equal.
  replace (Z.to_nat 20 - length mac)%nat with 8%nat by lia.
  replace (Z.to_nat 21 - length mac)%nat with 9%nat by lia. done.
Qed.

Lemma publish_spec g mac t1 t2 appId t vs :
  publisher_frame g mac t1 t2 appId -> publisher_wf g t -> Forall encodable vs ->
  zlen (dataset_bytes vs) < 65536 ->
  let total := zlen (tlvs (goose_elements g t vs)) in
  let pdu := goose_pdu g t vs in
  exists g', gp_sqNum g' = u32 (gp_sqNum g + 1) /\ gp_stNum g' = gp_stNum g /\
    publisher_frame g' mac t1 t2 appId /\
    GoosePublisher_publish g vs =
      (if MAX_PAYLOAD <? total then Done (-1, g')
       else if MAX_PAYLOAD <? zlen pdu then Ub
       else Done (0, g')) /\
    gp_sent g' = gp_sent g ++
      (if MAX_PAYLOAD <? zlen pdu then [] else [frame_header mac t1 t2 appId (zlen pdu + 8) ++ pdu]).
Proof.
  intros [(old & rest & Hbuf) Hsz Hmac Hlf Hps] Hw Hv Hd total pdu.
  pose proof (zlen_frame_header mac t1 t2 appId old Hmac) as Hh.
  assert (zlen rest = MAX_PAYLOAD) as Hrest
    by (rewrite Hbuf, zlen_app, Hh in Hsz; unfold GOOSE_MAX_MESSAGE_SIZE, MAX_PAYLOAD in *; lia).
  assert (total + 2 <= zlen pdu) as Hlong
    by (pose proof (tlv_longer (0x61, tlvs (goose_elements g t vs))) as H; cbn [snd] in H;
        fold total in H; fold pdu in H; unfold pdu, goose_pdu in *; lia).
  unfold GoosePublisher_publish, createGoosePayload. rewrite Hps.
  change (GOOSE_MAX_MESSAGE_SIZE - 26) with MAX_PAYLOAD.
  rewrite (goose_length_spec g t vs Hw Hv Hd). cbn [rbind]. fold total.
  pose proof Hw as [(d & Htime) _ _ _ _].
  destruct (Z.ltb_spec MAX_PAYLOAD total) as [Hbig|Hfit].
  { cbn [rbind Z.eqb]. eexists. split; [|split; [|split; [|split; [reflexivity|]]]]; try done.
    - constructor; cbn; try done. by eexists _, _.
    - cbn. rewrite (proj2 (Z.ltb_lt _ _)) by lia. by rewrite app_nil_r. }
  rewrite Htime. cbn [as_utc_time rbind].
  assert (total < 65536) as Htot by (unfold MAX_PAYLOAD in *; lia).
  pose proof (emits_goose g t vs 26 Hw Hv Hd Htot) as HE. fold total pdu in HE.
  rewrite HE by (rewrite Hsz; unfold GOOSE_MAX_MESSAGE_SIZE; lia). rewrite Hsz.
  pose proof (zlen_nonneg pdu).
  destruct (Z.ltb_spec MAX_PAYLOAD (zlen pdu)) as [Hover|Hok].
  { rewrite (proj2 (Z.leb_gt _ _)) by (unfold GOOSE_MAX_MESSAGE_SIZE, MAX_PAYLOAD in *; lia).
    cbn [rbind]. exists (gp_set_numbers (gp_stNum g) (u32 (gp_sqNum g + 1)) (gp_timestamp g) g).
    repeat (split; [done|]). split; [constructor; cbn; try done; by eexists _, _|].
    split; [done|]. cbn. by rewrite app_nil_r. }
  rewrite (proj2 (Z.leb_le _ _)) by (unfold GOOSE_MAX_MESSAGE_SIZE, MAX_PAYLOAD in *; lia).
  cbn [rbind]. rewrite (proj2 (Z.eqb_neq _ _)) by lia.
  rewrite Z.add_0_r. rewrite Hbuf, splice_app_r by done. cbn [gp_set_numbers gp_set_io gp_buffer gp_sent gp_lengthField gp_payloadStart]. rewrite Hlf, Hps.
  change (20 + 1) with 21.
  pose proof (set_length mac t1 t2 appId old (zlen pdu + 8) (splice rest 0 pdu) Hmac) as Hset.
  destruct (st (frame_header mac t1 t2 appId old ++ splice rest 0 pdu) 20 _) as [b1| | |]; try done.
  cbn [rbind] in *. rewrite Hset. cbn [rbind].
  pose proof (zlen_frame_header mac t1 t2 appId (zlen pdu + 8) Hmac) as Hh'.
  assert (zlen (splice rest 0 pdu) = MAX_PAYLOAD) as Hsp by (rewrite zlen_splice; lia).
  assert (rd_list (mk_ptr (frame_header mac t1 t2 appId (zlen pdu + 8) ++ splice rest 0 pdu) 0) 0 (26 + zlen pdu)
    = Done (frame_header mac t1 t2 appId (zlen pdu + 8) ++ pdu)) as ->.
  { clear Hset. set (hdr := frame_header mac t1 t2 appId (zlen pdu + 8)) in *. clearbody hdr.
    rewrite rd_list_slice by (rewrite zlen_app; lia). f_equal. rewrite slice_app by lia.
    f_equal.
    - unfold slice. rewrite drop_0. rewrite take_app_le by (unfold zlen in Hh'; lia).
      apply take_ge. unfold zlen in Hh'. lia.
    - unfold slice. rewrite drop_app_ge by (unfold zlen in Hh'; lia).
      replace (Z.to_nat (0 + 26) - length _)%nat with 0%nat by (unfold zlen in Hh'; lia).
      rewrite drop_0. unfold splice. cbn [app]. rewrite take_0. cbn [app].
      unfold zlen. rewrite Nat2Z.id. by rewrite take_app_length. }
  cbn [rbind]. eexists. split; [|split; [|split; [|split; [reflexivity|reflexivity]]]]; [done..|].
  constructor; cbn; try done.
  - by eexists _, _.
  - rewrite zlen_app, Hh', Hsp. done.
Qed.

(** The size check of the publisher leaves out the tag and the length octets of
    the PDU: a payload of up to four bytes more than the buffer holds is encoded
    beyond its end, where a larger one is refused. *)
Theorem GoosePublisher_publish_overflow g mac t1 t2 appId t vs :
  publisher_frame g mac t1 t2 appId -> publisher_wf g t -> Forall encodable vs ->
  zlen (dataset_bytes vs) < 65536 ->
  let total := zlen (tlvs (goose_elements g t vs)) in
  (MAX_PAYLOAD - 4 < total <= MAX_PAYLOAD -> GoosePublisher_publish g vs = Ub) /\
  (MAX_PAYLOAD < total -> exists g', GoosePublisher_publish g vs = Done (-1, g') /\ gp_sent g' = gp_sent g).
Proof.
  intros Hf Hw Hv Hd total.
  destruct (publish_spec g mac t1 t2 appId t vs Hf Hw Hv Hd) as (g' & _ & _ & _ & E & Hs).
  fold total in E. rewrite E. assert (zlen (goose_pdu g t vs) =
    1 + BerEncoder_determineLengthSize total + total) as Hz by apply (zlen_tlv (0x61, _)). split.
  - intros Ht. rewrite (proj2 (Z.ltb_ge _ _)) by lia. rewrite Hz.
    unfold BerEncoder_determineLengthSize, MAX_PAYLOAD in *. zdec. done.
  - intros Ht. rewrite (proj2 (Z.ltb_lt _ _)) by done. exists g'. split; [done|].
    rewrite Hs, (proj2 (Z.ltb_lt _ _)); [by rewrite app_nil_r|].
    pose proof (determineLengthSize_range total). lia.
Qed.

(** A publisher of the default parameters. *)
Definition sample_publisher (ref : list Z) : GoosePublisher :=
  mkPublisher (frame_header (replicate 12 0) 0x80 0 0x1000 8 ++ replicate 1492 0) 20 26 None (Some ref)
    (Some [100; 115]) 1 1 7 1000 false true (Simple 0 (V_UTC_TIME (replicate 8 0))) [].

Lemma sample_publisher_frame ref : publisher_frame (sample_publisher ref) (replicate 12 0) 0x80 0 0x1000.
Proof. constructor; [by eexists _, _|reflexivity..]. Qed.

Lemma sample_publisher_wf ref : bytes ref -> zlen ref < 65536 -> publisher_wf (sample_publisher ref) (replicate 8 0).
Proof.
  intros Hb Hz. constructor.
  - by exists 0.
  - reflexivity.
  - apply Forall_replicate. unfold is_byte. lia.
  - cbn. repeat (apply Forall_cons_2; [|]); [by split|split; [by_eval|reflexivity]|split; [by_eval|reflexivity]|].
    apply Forall_nil_2.
  - cbn. repeat (apply Forall_cons_2; [lia|]). apply Forall_nil_2.
Qed.

Lemma GoosePublisher_publish_overflow_witness :
  GoosePublisher_publish (sample_publisher (replicate 1448 97)) [] = Ub.
Proof.
  refine (proj1 (GoosePublisher_publish_overflow (sample_publisher (replicate 1448 97)) (replicate 12 0) 0x80 0
    0x1000 (replicate 8 0) [] (sample_publisher_frame _) _ _ _) _).
  - apply sample_publisher_wf; [apply Forall_replicate; unfold is_byte; lia|reflexivity].
  - apply Forall_nil_2.
  - reflexivity.
  - split; vm_compute; [reflexivity|discriminate].
Defined.

(** * Receiving *)

Section Receive.
Context (garbage : Z).

(** What one element does to the subscriber and the variables of the parser, with
    at least [k] units of fuel. *)
Definition element_effect (k : nat) (e : Z * list Z) (s s' : GooseSubscriber * goose_locals) : Prop :=
  forall fuel buffer pos, (k <= fuel)%nat -> holds buffer pos (snd e) ->
    goose_element garbage fuel (fst e) buffer pos (zlen (snd e)) (fst s) (snd s) = Done (Some s').

Inductive effects (k : nat) : list (Z * list Z) -> GooseSubscriber * goose_locals ->
    GooseSubscriber * goose_locals -> Prop :=
| effects_nil s : effects k [] s s
| effects_cons e es s s' s'' :
    zlen (snd e) < 65536 -> element_effect k e s s' -> effects k es s' s'' -> effects k (e :: es) s s''.

Lemma effects_app k es es' s s' s'' :
  effects k es s s' -> effects k es' s' s'' -> effects k (es ++ es') s s''.
Proof. induction 1; intros; [done|]. econstructor; eauto. Qed.

Lemma goose_loop_step fuel e rest buffer apduLength gooseEnd pos s s' :
  holds buffer pos (tlv e ++ rest) -> zlen (snd e) < 65536 -> 0 <= pos ->
  pos + zlen (tlv e) <= gooseEnd <= apduLength ->
  goose_element garbage fuel (fst e) buffer (pos + 1 + BerEncoder_determineLengthSize (zlen (snd e)))
    (zlen (snd e)) (fst s) (snd s) = Done (Some s') ->
  goose_loop garbage (S fuel) buffer apduLength gooseEnd pos (fst s) (snd s) =
  goose_loop garbage fuel buffer apduLength gooseEnd (pos + zlen (tlv e)) (fst s') (snd s').
Proof.
  intros Hh Hz Hpos Ha He. pose proof (tlv_longer e). pose proof (zlen_nonneg (snd e)).
  cbn [goose_loop]. rewrite (proj2 (Z.ltb_lt _ _)) by lia.
  destruct (holds_tlv buffer pos e rest apduLength None Hh Hz ltac:(lia)) as (Ht & Hl & Hc & Hr & Hend).
  set (start := pos + 1 + _) in *. rewrite Ht. cbn [rbind]. rewrite Hl. cbn [rbind defined].
  rewrite (proj2 (Z.ltb_ge _ _)) by lia. pose proof (determineLengthSize_range (zlen (snd e))).
  rewrite (proj2 (Z.eqb_neq _ _)) by (unfold start; lia).
  rewrite He. cbn [rbind]. rewrite Hend. by destruct s'.
Qed.

Lemma goose_loop_effects k es s s' : effects k es s s' ->
  forall fuel buffer apduLength gooseEnd pos rest, (k <= fuel)%nat ->
    holds buffer pos (tlvs es ++ rest) -> 0 <= pos -> pos + zlen (tlvs es) <= gooseEnd <= apduLength ->
    goose_loop garbage (length es + fuel) buffer apduLength gooseEnd pos (fst s) (snd s) =
    goose_loop garbage fuel buffer apduLength gooseEnd (pos + zlen (tlvs es)) (fst s') (snd s').
Proof.
  induction 1 as [s|e es s s' s'' Hz He _ IH]; intros fuel buffer apduLength gooseEnd pos rest Hf Hh Hpos Ha.
  - change (zlen (tlvs [])) with 0. by rewrite Z.add_0_r.
  - rewrite tlvs_cons, zlen_app, <- app_assoc in *. pose proof (zlen_nonneg (tlvs es)).
    pose proof (tlv_longer e). pose proof (zlen_nonneg (snd e)). cbn [length Nat.add].
    rewrite (goose_loop_step _ e (tlvs es ++ rest) _ _ _ _ s s'); [|done|done|done|lia|].
    + rewrite Z.add_assoc. apply (IH _ _ _ _ _ rest); [done| |lia|lia].
      by apply holds_app in Hh as [_ Hh].
    + destruct (holds_tlv buffer pos e (tlvs es ++ rest) apduLength None Hh Hz ltac:(lia)) as (_ & _ & Hc & _).
      apply He; [lia|done].
Qed.

(** ** The elements one by one *)

Lemma decode_uint32 n buffer pos : 0 <= n < 4294967296 -> holds buffer pos (uint32_bytes n) ->
  BerDecoder_decodeUint32 buffer (zlen (uint32_bytes n)) pos = Done n.
Proof.
  intros Hn Hh. rewrite (decodeUint32_holds _ _ _ _ Hh) by done.
  by rewrite be_val_uint32_bytes, u32_small by done.
Qed.

Lemma decode_boolean (b : bool) buffer pos : holds buffer pos [if b then 255 else 0] ->
  BerDecoder_decodeBoolean buffer pos = Done b.
Proof.
  intros [Hr _]%holds_cons. unfold BerDecoder_decodeBoolean. rewrite Hr. by destruct b.
Qed.

(** The subscriber listens to this reference. *)
Definition listens (s : GooseSubscriber) (ref : list Z) : Prop :=
  gs_goCBRef s = copyString ref /\ gs_goCBRefLen s = zlen ref.

Lemma effect_goCBRef k ref s l : listens s ref ->
  element_effect k (0x80, ref) (s, l)
    (s, mkLocals (l_timeAllowedToLive l) (l_stNum l) (l_sqNum l) (l_confRev l) (l_simulation l)
      (l_ndsCom l) true (l_numberOfDatSetEntries l)).
Proof.
  intros [H1 H2] fuel buffer pos _ Hh. cbn [fst snd] in *. unfold goose_element. cbn [Z.eqb Pos.eqb].
  rewrite H2, Z.eqb_refl, H1. unfold copyString.
  assert (holds (mk_ptr (ref ++ [0]) 0) 0 ref) as Hr
    by (pose proof (holds_whole (ref ++ [0])) as [Hr _]%holds_app; exact Hr).
  rewrite (holds_rd_list _ _ _ _ Hr), (holds_rd_list _ _ _ _ Hh) by done. cbn [rbind].
  by rewrite bool_decide_true.
Qed.

(** The elements that carry a number or a flag set the variable of their tag. *)
Definition set_number (tag n : Z) (l : goose_locals) : goose_locals :=
  mkLocals (if tag =? 0x81 then n else l_timeAllowedToLive l) (if tag =? 0x85 then n else l_stNum l)
    (if tag =? 0x86 then n else l_sqNum l) (if tag =? 0x88 then Some n else l_confRev l)
    (l_simulation l) (l_ndsCom l) (l_isMatching l)
    (if tag =? 0x8a then n else l_numberOfDatSetEntries l).

Lemma effect_number k tag n s l :
  tag = 0x81 \/ tag = 0x85 \/ tag = 0x86 \/ tag = 0x88 \/ tag = 0x8a -> 0 <= n < 4294967296 ->
  element_effect k (tag, uint32_bytes n) (s, l) (s, set_number tag n l).
Proof.
  intros Ht Hn fuel buffer pos _ Hh. cbn [fst snd] in *. unfold goose_element, set_number.
  rewrite decode_uint32 by done. by destruct Ht as [-> |[-> |[-> |[-> | ->]]]].
Qed.

Definition set_flag (tag : Z) (b : bool) (l : goose_locals) : goose_locals :=
  mkLocals (l_timeAllowedToLive l) (l_stNum l) (l_sqNum l) (l_confRev l)
    (if tag =? 0x87 then b else l_simulation l) (if tag =? 0x89 then b else l_ndsCom l)
    (l_isMatching l) (l_numberOfDatSetEntries l).

Lemma effect_flag k tag (b : bool) s l : tag = 0x87 \/ tag = 0x89 ->
  element_effect k (tag, [if b then 255 else 0]) (s, l) (s, set_flag tag b l).
Proof.
  intros Ht fuel buffer pos _ Hh. cbn [fst snd] in *. unfold goose_element, set_flag.
  rewrite (decode_boolean b) by done. by destruct Ht as [-> | ->].
Qed.

Lemma effect_skip k tag bs s l : tag = 0x82 \/ tag = 0x83 -> element_effect k (tag, bs) (s, l) (s, l).
Proof. intros Ht fuel buffer pos _ _. by destruct Ht as [-> | ->]. Qed.

Lemma effect_time k utc s l d t : gs_timestamp s = Simple d (V_UTC_TIME t) -> zlen t = 8 -> zlen utc = 8 ->
  element_effect k (0x84, utc) (s, l) (gs_set_timestamp (Simple d (V_UTC_TIME utc)) s, l).
Proof.
  intros H1 H2 H3 fuel buffer pos _ Hh. cbn [fst snd] in *. unfold goose_element. cbn [Z.eqb Pos.eqb].
  rewrite H1. unfold MmsValue_setUtcTimeByBuffer. cbn [as_utc_time rbind].
  rewrite (holds_rd_list _ _ utc) by (rewrite ?holds_ptr_add, ?Z.add_0_r; done). cbn [rbind].
  rewrite st_list_fit by lia. cbn [rbind]. by rewrite splice_whole by lia.
Qed.

Lemma effect_data fuel buffer pos d a ws vs s l :
  gs_dataSetValues s = Some (Complex d a (Some <$> ws)) ->
  Forall2 hears ws vs -> zlen (dataset_bytes vs) < 65536 -> zlen (dataset_bytes vs) <= Z.of_nat fuel ->
  holds buffer pos (dataset_bytes vs) ->
  exists ws', Forall2 takes_over ws' vs /\
    goose_element garbage fuel 0xab buffer pos (zlen (dataset_bytes vs)) s l =
      Done (Some (gs_set_data (Some (Complex d a (Some <$> ws'))) (gs_dataSetValuesSelfAllocated s) s, l)).
Proof.
  intros Hd Hws Hz Hk Hh.
  destruct (parseAllData_hears fuel (ptr_add buffer pos) (zlen (dataset_bytes vs)) d a [] ws vs 0 0 Hws)
    as (ws' & E & Hws'); [by rewrite holds_ptr_add, Z.add_0_r|done|done|done|].
  exists ws'. split; [done|]. unfold goose_element. cbn [Z.eqb Pos.eqb]. rewrite Hd.
  unfold parseAllData. cbn [MmsValue_getArraySize rbind].
  change (zlen (@nil MmsValue)) with 0 in E. cbn [app] in E. by rewrite E.
Qed.

(** ** The whole message *)

(** What the subscriber knows after the message. *)
Definition informed (s' : GooseSubscriber) (g : GoosePublisher) (t : list Z) (vs : list MmsValue)
    (d : Z) (a : bool) : Prop :=
  gs_stNum s' = gp_stNum g /\ gs_sqNum s' = gp_sqNum g /\ gs_confRev s' = gp_confRev g /\
  gs_timeAllowedToLive s' = gp_timeAllowedToLive g /\ gs_simulation s' = gp_simulation g /\
  gs_ndsCom s' = gp_needsCommission g /\ (exists d, gs_timestamp s' = Simple d (V_UTC_TIME t)) /\
  exists ws', gs_dataSetValues s' = Some (Complex d a (Some <$> ws')) /\ Forall2 takes_over ws' vs.

(** The elements before the data set. *)
Definition goose_prefix (g : GoosePublisher) (t : list Z) (vs : list MmsValue) : list (Z * list Z) :=
  [(0x80, string_bytes (gp_goCBRef g)); (0x81, uint32_bytes (gp_timeAllowedToLive g));
   (0x82, string_bytes (gp_dataSetRef g))] ++
  match gp_goID g with Some s => [(0x83, s)] | None => [] end ++
  [(0x84, t); (0x85, uint32_bytes (gp_stNum g)); (0x86, uint32_bytes (gp_sqNum g));
   (0x87, [if gp_simulation g then 255 else 0]); (0x88, uint32_bytes (gp_confRev g));
   (0x89, [if gp_needsCommission g then 255 else 0]); (0x8a, uint32_bytes (zlen vs))].

Lemma goose_elements_split g t vs :
  tlvs (goose_elements g t vs) = tlvs (goose_prefix g t vs) ++ tlv (0xab, dataset_bytes vs).
Proof.
  unfold goose_elements, goose_prefix. rewrite !tlvs_app, !tlvs_cons. change (tlvs []) with (@nil Z).
  by rewrite !app_nil_r, <- !app_assoc.
Qed.

(** The variables behind the elements before the data set. *)
Definition locals_of (g : GoosePublisher) (n : Z) : goose_locals :=
  mkLocals (gp_timeAllowedToLive g) (gp_stNum g) (gp_sqNum g) (Some (gp_confRev g)) (gp_simulation g)
    (gp_needsCommission g) true n.

Lemma zlen_uint32_lt n : zlen (uint32_bytes n) < 65536.
Proof. pose proof (zlen_uint32_bytes n). lia. Qed.

Lemma prefix_effects g t vs s d u : publisher_wf g t -> listens s (string_bytes (gp_goCBRef g)) ->
  gs_timestamp s = Simple d (V_UTC_TIME u) -> zlen u = 8 -> zlen vs < 4294967296 ->
  effects 0 (goose_prefix g t vs) (s, goose_init)
    (gs_set_timestamp (Simple d (V_UTC_TIME t)) s, locals_of g (zlen vs)).
Proof.
  intros [_ Ht _ Hs Hn] Hl Hts Hu Hvs. pose proof (zlen_nonneg vs).
  apply Forall_cons_1 in Hs as [[_ S1] Hs]. apply Forall_cons_1 in Hs as [[_ S2] Hs].
  apply Forall_cons_1 in Hs as [[_ S3] _].
  apply Forall_cons_1 in Hn as [N1 Hn]. apply Forall_cons_1 in Hn as [N2 Hn].
  apply Forall_cons_1 in Hn as [N3 Hn]. apply Forall_cons_1 in Hn as [N4 _].
  pose proof zlen_uint32_lt as H32. unfold goose_prefix.
  eapply effects_app; [|eapply effects_app].
  - eapply effects_cons; [done|by apply effect_goCBRef|].
    eapply effects_cons; [apply H32|apply effect_number; [tauto|done]|].
    eapply effects_cons; [done|apply effect_skip; tauto|apply effects_nil].
  - instantiate (1 := (s, set_number 0x81 (gp_timeAllowedToLive g) (mkLocals 0 0 0 None false false true 0))).
    destruct (gp_goID g) as [i|]; [|apply effects_nil].
    eapply effects_cons; [done|apply effect_skip; tauto|apply effects_nil].
  - eapply effects_cons; [cbn [snd]; lia|by eapply effect_time|].
    eapply effects_cons; [apply H32|apply effect_number; [tauto|done]|].
    eapply effects_cons; [apply H32|apply effect_number; [tauto|done]|].
    eapply effects_cons; [done|apply effect_flag; tauto|].
    eapply effects_cons; [apply H32|apply effect_number; [tauto|done]|].
    eapply effects_cons; [done|apply effect_flag; tauto|].
    eapply effects_cons; [apply H32|apply effect_number; [tauto|lia]|apply effects_nil].
Qed.

Lemma length_prefix g t vs : (length (goose_prefix g t vs) <= 11)%nat.
Proof. unfold goose_prefix. destruct (gp_goID g); simpl; lia. Qed.

Lemma parseGoosePayload_spec fuel g t vs s d u d' a ws buffer :
  publisher_wf g t -> listens s (string_bytes (gp_goCBRef g)) ->
  gs_timestamp s = Simple d (V_UTC_TIME u) -> zlen u = 8 ->
  gs_dataSetValues s = Some (Complex d' a (Some <$> ws)) -> Forall2 hears ws vs ->
  zlen (goose_pdu g t vs) < 65536 -> zlen vs < 4294967296 ->
  (12 + Z.to_nat (zlen (dataset_bytes vs)) <= fuel)%nat ->
  holds buffer 0 (goose_pdu g t vs) ->
  exists s', parseGoosePayload garbage fuel buffer (zlen (goose_pdu g t vs)) s = Done (1, s') /\
    informed s' g t vs d' a.
Proof.
  intros Hw Hl Hts Hu Hd Hws Hz Hvs Hf Hh. unfold goose_pdu in *.
  set (content := tlvs (goose_elements g t vs)) in *.
  pose proof (tlv_longer (0x61, content)) as Hlong. cbn [snd] in Hlong. pose proof (zlen_nonneg content).
  rewrite <- (app_nil_r (tlv _)) in Hh.
  destruct (holds_tlv buffer 0 (0x61, content) [] (zlen (tlv (0x61, content))) None Hh
    ltac:(cbn [snd]; lia) ltac:(lia)) as (Ht & Hlen & Hc & _ & Hend).
  cbn [fst snd] in *. set (start := 0 + 1 + _) in *.
  unfold parseGoosePayload. rewrite Ht. cbn [rbind Z.eqb Pos.eqb]. change (0 + 1) with 1 in Hlen.
  rewrite Hlen. cbn [rbind defined].
  unfold content in Hc. rewrite goose_elements_split in Hc.
  assert (zlen content = zlen (tlvs (goose_prefix g t vs)) + zlen (tlv (0xab, dataset_bytes vs))) as Hsum
    by (unfold content; by rewrite goose_elements_split, zlen_app).
  pose proof (zlen_nonneg (tlvs (goose_prefix g t vs))). pose proof (determineLengthSize_range (zlen content)).
  pose proof (tlv_longer (0xab, dataset_bytes vs)) as Hlong2. cbn [snd] in Hlong2.
  pose proof (zlen_nonneg (dataset_bytes vs)). pose proof (length_prefix g t vs) as H11.
  replace fuel with (length (goose_prefix g t vs) + (fuel - length (goose_prefix g t vs)))%nat by lia.
  pose proof (prefix_effects g t vs s d u Hw Hl Hts Hu Hvs) as Heff.
  pose proof (goose_loop_effects 0 _ _ _ Heff (fuel - length (goose_prefix g t vs)) buffer
    (zlen (tlv (0x61, content))) (start + zlen content) start (tlv (0xab, dataset_bytes vs)) ltac:(lia) Hc
    ltac:(unfold start; lia) ltac:(lia)) as E.
  cbn [fst snd] in E. rewrite E. clear E.
  set (s1 := gs_set_timestamp (Simple d (V_UTC_TIME t)) s).
  apply holds_app in Hc as [_ Hc]. set (pos := start + zlen (tlvs (goose_prefix g t vs))) in *.
  destruct (fuel - length (goose_prefix g t vs))%nat as [|fuel'] eqn:Ef; [lia|].
  rewrite <- (app_nil_r (tlv (0xab, _))) in Hc.
  assert (holds buffer (pos + 1 + BerEncoder_determineLengthSize (zlen (dataset_bytes vs))) (dataset_bytes vs)) as Hdata.
  { by destruct (holds_tlv buffer pos (0xab, dataset_bytes vs) [] (pos + zlen (tlv (0xab, dataset_bytes vs)))
      None Hc ltac:(cbn [snd]; lia) ltac:(lia)) as (_ & _ & Hdata & _). }
  destruct (effect_data fuel' buffer _ d' a ws vs s1 (locals_of g (zlen vs)) Hd Hws ltac:(lia) ltac:(lia) Hdata)
    as (ws' & Hws' & Hel).
  pose proof (goose_loop_step fuel' (0xab, dataset_bytes vs) [] buffer (zlen (tlv (0x61, content)))
    (start + zlen content) pos (s1, locals_of g (zlen vs)) _ Hc ltac:(cbn [snd]; lia) ltac:(unfold pos, start; lia)
    ltac:(unfold pos; lia) Hel) as E.
  cbn [fst snd] in E. rewrite E.
  replace (pos + zlen (tlv (0xab, dataset_bytes vs))) with (start + zlen content) by (unfold pos; lia).
  destruct fuel'; cbn [goose_loop]; rewrite (proj2 (Z.ltb_ge _ _)) by lia;
    cbn [rbind l_isMatching locals_of l_confRev defined]; (eexists; split; [reflexivity|]);
    unfold informed; cbn; repeat (split; [done|]); (split; [by exists d|]); by exists ws'.
Qed.
End Receive.

Lemma word_of_bytes n : 0 <= n < 65536 -> u16 (u16 (u8 (n / 256) * 0x100) + u8 (n mod 256)) = n.
Proof.
  intros Hn. pose proof (Z.div_mod n 256 ltac:(lia)). pose proof (Z.mod_pos_bound n 256 ltac:(lia)).
  assert (0 <= n / 256 < 256) by (split; [apply Z.div_pos; lia|apply Z.div_lt_upper_bound; lia]).
  rewrite !u8_small by lia. rewrite (u16_small (n / 256 * 256)) by lia. rewrite u16_small; lia.
Qed.

Lemma land_255 n : Z.land n 255 = n mod 256.
Proof. change 255 with (Z.ones 8). by rewrite Z.land_ones by lia. Qed.

(** The header is accepted: the payload is parsed behind it. *)
Lemma parseGooseMessage_header garbage fuel buffer mac t1 t2 appId pdu s :
  holds buffer 0 (frame_header mac t1 t2 appId (zlen pdu + 8) ++ pdu) -> zlen mac = 12 ->
  0 <= appId < 65536 -> zlen pdu + 8 < 65536 ->
  parseGooseMessage garbage fuel buffer (zlen pdu + 26) s =
    if (0 <=? gs_appId s) && negb (appId =? u16 (gs_appId s)) then Done (0, s)
    else parseGoosePayload garbage fuel (ptr_add buffer 26) (zlen pdu) s.
Proof.
  intros Hh Hm Ha Hp. pose proof (zlen_nonneg pdu). unfold frame_header in Hh. rewrite <- app_assoc in Hh.
  apply holds_app in Hh as [_ Hh]. rewrite Hm in Hh. cbn [app] in Hh.
  do 14 (apply holds_cons in Hh as [? Hh]).
  unfold parseGooseMessage. rewrite (proj2 (Z.ltb_ge _ _)) by lia. use_reads.
  rewrite word_of_bytes, land_255, word_of_bytes by lia.
  rewrite (proj2 (Z.eqb_eq (zlen pdu + 26) _)) by lia. cbn [negb].
  destruct ((0 <=? gs_appId s) && negb (appId =? u16 (gs_appId s))); [done|].
  f_equal. lia.
Qed.

(** C24: GOOSE end to end. A subscriber of the reference and the application id that has
    been given a data set whose members can hear the published values (as many members, each
    of the kind of its value and with room for it: [hears]) receives what a well-formed
    publisher publishes in a frame that fits as a new event: state and sequence number,
    times, flags, and a data set whose members equal the published values. The values are
    those that the encoder announces with their exact sizes ([encodable]). *)
Theorem Goose_roundtrip garbage g mac t1 t2 appId t vs s d u d' a ws fuel buffer :
  publisher_frame g mac t1 t2 appId -> publisher_wf g t -> Forall encodable vs ->
  0 <= appId < 65536 -> zlen vs < 4294967296 ->
  zlen (dataset_bytes vs) < 65536 -> zlen (goose_pdu g t vs) <= MAX_PAYLOAD ->
  listens s (string_bytes (gp_goCBRef g)) -> (gs_appId s = -1 \/ gs_appId s = appId) ->
  gs_timestamp s = Simple d (V_UTC_TIME u) -> zlen u = 8 ->
  gs_dataSetValues s = Some (Complex d' a (Some <$> ws)) -> Forall2 hears ws vs ->
  zlen buffer = ETH_BUFFER_LENGTH -> (1600 <= fuel)%nat ->
  exists g' packet s' buffer',
    GoosePublisher_publish g vs = Done (0, g') /\ gp_sent g' = gp_sent g ++ [packet] /\
    gp_sqNum g' = u32 (gp_sqNum g + 1) /\ gp_stNum g' = gp_stNum g /\ publisher_frame g' mac t1 t2 appId /\
    gooseSubscriberLoop_round garbage fuel s buffer packet = Done (s', buffer', true) /\
    informed s' g t vs d' a.
Proof.
  intros Hf Hw Hv Ha Hvs Hd Hfit Hl Hid Hts Hu Hds Hws Hb Hfuel.
  destruct (publish_spec g mac t1 t2 appId t vs Hf Hw Hv Hd) as (g' & Hsq & Hst & Hf' & E & Hsent).
  assert (zlen (tlvs (goose_elements g t vs)) + 2 <= zlen (goose_pdu g t vs)) as Hlong
    by (pose proof (tlv_longer (0x61, tlvs (goose_elements g t vs))) as H; cbn [snd] in H; unfold goose_pdu; lia).
  rewrite !(proj2 (Z.ltb_ge _ _)) in E by lia. rewrite (proj2 (Z.ltb_ge _ _)) in Hsent by lia.
  set (pdu := goose_pdu g t vs) in *. set (packet := frame_header mac t1 t2 appId (zlen pdu + 8) ++ pdu) in *.
  pose proof (pf_mac _ _ _ _ _ Hf) as Hmac. pose proof (zlen_nonneg pdu).
  assert (zlen packet = zlen pdu + 26) as Hpk by (unfold packet; rewrite zlen_app, zlen_frame_header by done; lia).
  unfold MAX_PAYLOAD, ETH_BUFFER_LENGTH in *.
  assert (zlen (dataset_bytes vs) <= zlen pdu) as Hdl.
  { rewrite goose_elements_split, zlen_app in Hlong. pose proof (tlv_longer (0xab, dataset_bytes vs)) as H1.
    cbn [snd] in H1. pose proof (zlen_nonneg (tlvs (goose_prefix g t vs))). lia. }
  assert (holds (mk_ptr (splice buffer 0 packet) 0) 0 packet) as Hh by (apply holds_splice; lia).
  pose proof (parseGooseMessage_header garbage fuel _ mac t1 t2 appId pdu s Hh Hmac Ha ltac:(lia)) as Hp.
  rewrite <- Hpk in Hp.
  replace ((0 <=? gs_appId s) && negb (appId =? u16 (gs_appId s))) with false in Hp.
  2: { destruct Hid as [-> | ->]; [done|]. rewrite u16_small, Z.eqb_refl by lia. by rewrite andb_false_r. }
  apply holds_app in Hh as [_ Hh]. rewrite zlen_frame_header, Z.add_0_l in Hh by done.
  destruct (parseGoosePayload_spec garbage fuel g t vs s d u d' a ws
    (ptr_add (mk_ptr (splice buffer 0 packet) 0) 26) Hw Hl Hts Hu Hds Hws) as (s' & Hs' & Hinf);
    [fold pdu; lia|done|lia|by rewrite holds_ptr_add|].
  fold pdu in Hs'. rewrite Hs' in Hp.
  exists g', packet, s', (splice buffer 0 packet). repeat (split; [done|]). split; [|done].
  unfold gooseSubscriberLoop_round. rewrite st_list_fit by lia. cbn [rbind].
  rewrite (proj2 (Z.ltb_lt _ _)) by lia. rewrite Hp. done.
Qed.

(** A subscriber with a boolean member hears that it is true. *)
Lemma Goose_roundtrip_witness :
  let g := sample_publisher [103; 111] in
  let s := GooseSubscriber_create [103; 111] (Some (Complex 0 true [Some (Simple 0 (V_BOOLEAN false))])) in
  exists g' packet s' buffer',
    GoosePublisher_publish g [Simple 0 (V_BOOLEAN true)] = Done (0, g') /\
    gooseSubscriberLoop_round 0 1600 s (replicate 1518 0) packet = Done (s', buffer', true) /\
    gs_sqNum s' = 7 /\ exists w, gs_dataSetValues s' = Some (Complex 0 true [Some w]) /\
      MmsValue_equals w (Simple 0 (V_BOOLEAN true)) = Done true.
Proof.
  intros g s.
  destruct (Goose_roundtrip 0 g (replicate 12 0) 0x80 0 0x1000 (replicate 8 0) [Simple 0 (V_BOOLEAN true)] s 0
    (replicate 8 0) 0 true [Simple 0 (V_BOOLEAN false)] 1600 (replicate 1518 0))
    as (g' & packet & s' & buffer' & H1 & _ & _ & _ & _ & H2 & (_ & H3 & _ & _ & _ & _ & _ & ws & H4 & H5)).
  - apply sample_publisher_frame.
  - apply sample_publisher_wf; [by_eval|reflexivity].
  - apply Forall_singleton, encodable_simple; exact I.
  - lia.
  - reflexivity.
  - reflexivity.
  - vm_compute. discriminate.
  - split; reflexivity.
  - left. reflexivity.
  - reflexivity.
  - reflexivity.
  - reflexivity.
  - apply Forall2_cons_2; [apply hears_simple; exact I|apply Forall2_nil_2].
  - reflexivity.
  - lia.
  - exists g', packet, s', buffer'. split; [exact H1|]. split; [exact H2|]. split; [exact H3|].
    inversion H5 as [|w v ws' vs' [He _] Hr]; subst. inversion Hr; subst.
    exists w. split; [exact H4|exact He].
Defined.
