(* ===== verification/GooseSafety.v ===== *)
(** GOOSE: the invariant of a publisher over its life, the messages a subscriber
    reports, and the messages it mistreats. *)
From stdpp Require Import base tactics numbers option list.
From S2P Require Import Prelude Memory BerDecode BerEncode BerInteger MmsValue MmsValueFacts MmsTimeBits AccessResult GoosePublisher GooseSubscriber GooseFacts.

(** * The life of a publisher *)

Definition params_wf (parameters : option CommParameters) : Prop :=
  match parameters with
  | Some p => zlen (dstAddress p) = 6 /\ 0 <= vlanPriority p < 8 /\ 0 <= vlanId p < 65536 /\ 0 <= appId p < 65536
  | None => True
  end.

Definition params_appId (parameters : option CommParameters) : Z :=
  match parameters with Some p => appId p | None => CONFIG_GOOSE_DEFAULT_APPID end.

Lemma prepareGooseBuffer_spec parameters srcAddr fresh :
  params_wf parameters -> zlen srcAddr = 6 -> zlen fresh = GOOSE_MAX_MESSAGE_SIZE ->
  exists mac t1 t2 rest, prepareGooseBuffer parameters srcAddr fresh
      = Done (frame_header mac t1 t2 (params_appId parameters) 8 ++ rest, 20, 26) /\
    zlen mac = 12 /\ zlen rest = MAX_PAYLOAD.
Proof.
  intros Hp Hs Hf. unfold GOOSE_MAX_MESSAGE_SIZE in *.
  set (dst := match parameters with Some p => dstAddress p | None => CONFIG_GOOSE_DEFAULT_DST_ADDRESS end).
  assert (zlen dst = 6) as Hd by (destruct parameters; [apply Hp|done]).
  assert (0 <= params_appId parameters < 65536) as Ha by (destruct parameters; [apply Hp|by_eval]).
  set (prio := match parameters with Some p => vlanPriority p | None => CONFIG_GOOSE_DEFAULT_PRIORITY end).
  set (vlan := match parameters with Some p => vlanId p | None => CONFIG_GOOSE_DEFAULT_VLAN_ID end).
  assert (prepareGooseBuffer parameters srcAddr fresh =
    let! (b, n, k) := prepareGooseBuffer (Some (mkCommParameters prio vlan (params_appId parameters) dst)) srcAddr fresh in
    Done (b, n, k)) as ->.
  { transitivity (prepareGooseBuffer (Some (mkCommParameters prio vlan (params_appId parameters) dst)) srcAddr fresh).
    - by destruct parameters as [[pr vl ai da]|].
    - by destruct (prepareGooseBuffer _ _ _) as [[[? ?] ?]| | |]. }
  clearbody dst prio vlan. set (a := params_appId parameters) in *. clearbody a. clear Hp.
  unfold prepareGooseBuffer. cbn [dstAddress vlanPriority vlanId appId].
  rewrite (rd_list_whole dst), (rd_list_whole srcAddr) by done. cbn [rbind].
  rewrite st_list_fit by lia. cbn [rbind]. rewrite st_list_fit by (rewrite ?zlen_splice; lia). cbn [rbind].
  assert (splice (splice fresh 0 dst) 6 srcAddr = splice fresh 0 (dst ++ srcAddr)) as ->
    by (rewrite <- splice_app by lia; by rewrite Hd).
  set (tci1 := u8 (u8 (Z.shiftl prio 5) + Z.quot vlan 256)). set (tci2 := u8 (Z.rem vlan 256)).
  set (m := splice fresh 0 (dst ++ srcAddr)).
  assert (zlen m = 1518) as Hm by (unfold m; rewrite zlen_splice; rewrite ?zlen_app; lia).
  set (h1 := [u8 0x81; u8 0x00; u8 tci1; u8 tci2; u8 0x88; u8 0xb8; u8 (Z.quot a 256); u8 (Z.rem a 256)]).
  match goal with |- context [rbind (?c m) _] => assert (c m = Done (20, splice m 12 h1)) as -> end.
  { apply (emits_fit 0 12); [|lia|change (zlen h1) with 8; lia].
    eapply emits_eq; [emits_run|reflexivity|reflexivity]. }
  cbn [rbind]. set (h2 := [u8 0x00; u8 0x08; u8 0x00; u8 0x00; u8 0x00; u8 0x00]).
  match goal with |- context [rbind (?c (splice m 12 h1)) _] =>
    assert (c (splice m 12 h1) = Done (26, splice (splice m 12 h1) 20 h2)) as -> end.
  { apply (emits_fit 0 20); [|lia|rewrite zlen_splice; change (zlen h1) with 8; change (zlen h2) with 6; lia].
    eapply emits_eq; [emits_run|reflexivity|reflexivity]. }
  cbn [rbind].
  assert (splice (splice m 12 h1) 20 h2 = splice fresh 0 ((dst ++ srcAddr) ++ h1 ++ h2)) as ->.
  { change 20 with (12 + zlen h1). rewrite splice_app by (change (zlen h1) with 8; change (zlen h2) with 6; lia).
    unfold m. assert (zlen (dst ++ srcAddr) = 0 + 12) as Hz by (rewrite zlen_app; lia).
    rewrite <- (splice_app fresh 0 (dst ++ srcAddr)) by (rewrite ?Hz; change (zlen (h1 ++ h2)) with 14; lia).
    by rewrite Hz. }
  exists (dst ++ srcAddr), tci1, tci2, (drop 26 fresh). split; [|split; [rewrite zlen_app; lia|]].
  - unfold splice. cbn [Z.to_nat take app Nat.add].
    replace (length ((dst ++ srcAddr) ++ h1 ++ h2)) with 26%nat
      by (unfold zlen in Hd, Hs; rewrite !length_app; simpl; lia).
    unfold frame_header, h1, h2. rewrite <- !app_assoc. rewrite Z.quot_div_nonneg, Z.rem_mod_nonneg by lia.
    unfold tci1, tci2. rewrite !u8_idemp. reflexivity.
  - unfold zlen in *. rewrite length_drop. unfold MAX_PAYLOAD. lia.
Qed.

(** The numbers and the time stamp of a publisher. *)
Definition publisher_numbers (g : GoosePublisher) : Prop :=
  Forall (fun n => 0 <= n < 4294967296)
    [gp_timeAllowedToLive g; gp_stNum g; gp_sqNum g; gp_confRev g] /\
  exists d t, gp_timestamp g = Simple d (V_UTC_TIME t) /\ zlen t = 8 /\ bytes t.

(** The states of a publisher created with [parameters]. *)
Inductive publisher_reachable (parameters : option CommParameters) : GoosePublisher -> Prop :=
| reach_create srcAddr fresh now g :
    zlen srcAddr = 6 -> zlen fresh = GOOSE_MAX_MESSAGE_SIZE -> 0 <= now < 2 ^ 64 ->
    GoosePublisher_create parameters srcAddr fresh now = Done g -> publisher_reachable parameters g
| reach_goID g s : publisher_reachable parameters g -> publisher_reachable parameters (GoosePublisher_setGoID s g)
| reach_goCBRef g s : publisher_reachable parameters g -> publisher_reachable parameters (GoosePublisher_setGoCbRef s g)
| reach_dataSet g s : publisher_reachable parameters g -> publisher_reachable parameters (GoosePublisher_setDataSetRef s g)
| reach_confRev g n : publisher_reachable parameters g -> 0 <= n < 4294967296 ->
    publisher_reachable parameters (GoosePublisher_setConfRev n g)
| reach_ttl g n : publisher_reachable parameters g -> 0 <= n < 4294967296 ->
    publisher_reachable parameters (GoosePublisher_setTimeAllowedToLive n g)
| reach_simulation g b : publisher_reachable parameters g -> publisher_reachable parameters (GoosePublisher_setSimulation b g)
| reach_ndsCom g b : publisher_reachable parameters g -> publisher_reachable parameters (GoosePublisher_setNeedsCommission b g)
| reach_reset g : publisher_reachable parameters g -> publisher_reachable parameters (GoosePublisher_reset g)
| reach_stNum g now r g' : publisher_reachable parameters g -> 0 <= now < 2 ^ 64 ->
    GoosePublisher_increaseStNum now g = Done (r, g') -> publisher_reachable parameters g'
| reach_publish g vs r g' : publisher_reachable parameters g -> Forall encodable vs ->
    zlen (dataset_bytes vs) < 65536 ->
    Forall (fun s => bytes (string_bytes s) /\ zlen (string_bytes s) < 65536)
      [gp_goCBRef g; gp_dataSetRef g; gp_goID g] ->
    GoosePublisher_publish g vs = Done (r, g') -> publisher_reachable parameters g'.

Definition publisher_inv (parameters : option CommParameters) (g : GoosePublisher) : Prop :=
  (exists mac t1 t2, publisher_frame g mac t1 t2 (params_appId parameters)) /\ publisher_numbers g.

Lemma setUtcTimeMs_spec d t ms : zlen t = 8 -> bytes t -> 0 <= ms < 2 ^ 64 ->
  exists t', MmsValue_setUtcTimeMs (Simple d (V_UTC_TIME t)) ms = Done (Simple d (V_UTC_TIME t')) /\
    zlen t' = 8 /\ bytes t'.
Proof.
  intros Ht Hb Hms. unfold MmsValue_setUtcTimeMs. cbn [as_utc_time rbind].
  rewrite memcpyReverse_spec by (rewrite ?zlen_le_bytes; lia). cbn [rbind].
  assert (zlen (rev (slice (le_bytes 4 (u32 (ms / 1000))) 0 4)) = 4) as Hz
    by (rewrite zlen_rev, zlen_slice; rewrite ?zlen_le_bytes; lia).
  set (t0 := splice t 0 _).
  assert (zlen t0 = 8) as H0 by (unfold t0; rewrite zlen_splice; lia).
  assert (bytes t0) as B0.
  { apply bytes_splice; [done|]. rewrite rev_reverse. apply Forall_reverse. apply bytes_slice, bytes_le_bytes. }
  rewrite st_in by lia. cbn [rbind]. rewrite st_in by (rewrite zlen_insert; lia). cbn [rbind].
  rewrite st_in by (rewrite !zlen_insert; lia). cbn [rbind].
  rewrite st_in by (rewrite !zlen_insert; lia). cbn [rbind].
  eexists. split; [reflexivity|]. rewrite !zlen_insert. split; [done|].
  repeat (apply Forall_insert; [|apply u8_byte]). done.
Qed.

Lemma publisher_wf_of g : publisher_numbers g ->
  Forall (fun s => bytes (string_bytes s) /\ zlen (string_bytes s) < 65536)
    [gp_goCBRef g; gp_dataSetRef g; gp_goID g] ->
  exists t, publisher_wf g t.
Proof. intros [Hn (d & t & H1 & H2 & H3)] Hs. exists t. constructor; try done. by exists d. Qed.

Lemma publisher_create_inv parameters srcAddr fresh now g :
  params_wf parameters -> zlen srcAddr = 6 -> zlen fresh = GOOSE_MAX_MESSAGE_SIZE -> 0 <= now < 2 ^ 64 ->
  GoosePublisher_create parameters srcAddr fresh now = Done g -> publisher_inv parameters g.
Proof.
  intros Hp Hs Hf Hn. unfold GoosePublisher_create.
  destruct (prepareGooseBuffer_spec parameters srcAddr fresh Hp Hs Hf) as (mac & t1 & t2 & rest & -> & Hm & Hr).
  cbn [rbind]. unfold MmsValue_newUtcTimeByMsTime.
  destruct (setUtcTimeMs_spec 0 (replicate 8 0) now eq_refl) as (t & E & Ht & Hb);
    [apply Forall_replicate; unfold is_byte; lia|done|].
  unfold new_value. rewrite E. cbn [rbind]. intros [= <-]. split.
  - exists mac, t1, t2. constructor; cbn; try done; [by eexists _, _|].
    rewrite zlen_app, zlen_frame_header by done. rewrite Hr. done.
  - split; [repeat (apply Forall_cons_2; [cbn; lia|]); by apply Forall_nil_2|]. cbn. by exists 0, t.
Qed.

(** A publication changes nothing but the buffer, the sequence number and what is sent. *)
Lemma publish_keeps g vs r g' : GoosePublisher_publish g vs = Done (r, g') ->
  exists buffer sent, g' = gp_set_numbers (gp_stNum g) (u32 (gp_sqNum g + 1)) (gp_timestamp g)
    (gp_set_io buffer sent g).
Proof.
  unfold GoosePublisher_publish.
  destruct (createGoosePayload _ _ _ _ _) as [[n b]| | |]; [|done..]. cbn [rbind].
  destruct (n =? -1); [intros [= <- <-]; by eexists _, _|].
  destruct (st _ _ _) as [b1| | |]; [|done..]. cbn [rbind].
  destruct (st _ _ _) as [b2| | |]; [|done..]. cbn [rbind].
  destruct (rd_list _ _ _) as [bs| | |]; [|done..]. cbn [rbind]. intros [= <- <-]. by eexists _, _.
Qed.

(** Whatever is done with a publisher, its buffer keeps the frame header with
    its application id in front of a payload area of the same size, its counters
    stay 32-bit numbers and its time stamp a UTC time. *)
Theorem GoosePublisher_invariant parameters g :
  params_wf parameters -> publisher_reachable parameters g -> publisher_inv parameters g.
Proof.
  intros Hp. induction 1 as [srcAddr fresh now g Hs Hf Hn E|g s _ IH|g s _ IH|g s _ IH|g n _ IH Hn|g n _ IH Hn
    |g b _ IH|g b _ IH|g _ IH|g now r g' _ IH Hn E|g vs r g' _ IH Hv Hd Hs E].
  1: by eapply publisher_create_inv.
  1-8: destruct IH as [(mac & t1 & t2 & F) [N T]]; repeat (apply Forall_cons_1 in N as [? N]);
    (split; [exists mac, t1, t2; destruct F; by constructor
            |split; [repeat (apply Forall_cons_2; [by cbn; lia|]); by apply Forall_nil_2|exact T]]).
  - destruct IH as [(mac & t1 & t2 & F) [N (d & t & T & Ht & Hb)]].
    unfold GoosePublisher_increaseStNum in E. rewrite T in E.
    destruct (setUtcTimeMs_spec d t now Ht Hb Hn) as (t' & E' & Ht' & Hb'). rewrite E' in E.
    cbn [rbind] in E. injection E as <- <-. repeat (apply Forall_cons_1 in N as [? N]).
    split; [exists mac, t1, t2; destruct F; by constructor|]. split; [|by exists d, t'].
    cbn. repeat (apply Forall_cons_2; [by try lia; apply u32_range|]). by apply Forall_nil_2.
  - destruct IH as [(mac & t1 & t2 & F) N]. destruct (publisher_wf_of g N Hs) as (t & Hw).
    destruct (publish_spec g mac t1 t2 _ t vs F Hw Hv Hd) as (g1 & _ & _ & F1 & Ep & _).
    destruct (publish_keeps _ _ _ _ E) as (b & sent & Eg). rewrite Ep in E. destruct N as [N T].
    repeat (apply Forall_cons_1 in N as [? N]).
    assert (g' = g1) as <- by (destruct (MAX_PAYLOAD <? _); [|destruct (MAX_PAYLOAD <? _)]; by simplify_eq).
    split; [by exists mac, t1, t2|]. rewrite Eg. split; [|exact T]. cbn.
    repeat (apply Forall_cons_2; [by try lia; apply u32_range|]). by apply Forall_nil_2.
Qed.

Lemma GoosePublisher_invariant_witness :
  exists g, GoosePublisher_create None (replicate 6 0) (replicate 1518 0) 1000 = Done g /\
    publisher_inv None (GoosePublisher_setConfRev 5 g).
Proof.
  eexists. split; [reflexivity|].
  apply (GoosePublisher_invariant None); [exact I|].
  apply reach_confRev; [|lia].
  apply (reach_create None (replicate 6 0) (replicate 1518 0) 1000); [reflexivity|reflexivity|lia|reflexivity].
Defined.

(** * What a subscriber reports *)

Section Report.
Context (garbage : Z).

(** The part of a subscriber that says what it listens to. *)
Definition gs_address (s : GooseSubscriber) : list Z * Z * Z * bool :=
  (gs_goCBRef s, gs_goCBRefLen s, gs_appId s, gs_running s).

(** What a new event changes. *)
Definition gs_event (s : GooseSubscriber) : list Z * (bool * bool) :=
  ([gs_stNum s; gs_sqNum s; gs_timeAllowedToLive s; gs_confRev s], (gs_ndsCom s, gs_simulation s)).

(** The reference of the subscriber lies somewhere behind [buffer]. *)
Definition carries_reference (buffer : ptr) (s : GooseSubscriber) : Prop :=
  exists pos ref, rd_list buffer pos (gs_goCBRefLen s) = Done ref /\
    rd_list (mk_ptr (gs_goCBRef s) 0) 0 (gs_goCBRefLen s) = Done ref.

Lemma carries_reference_address buffer s s' :
  gs_address s' = gs_address s -> carries_reference buffer s' -> carries_reference buffer s.
Proof. intros [= H1 H2 _ _] (pos & ref & K1 & K2). exists pos, ref. by rewrite <- H1, <- H2. Qed.

(** One element leaves the address and the event alone, and notes a match only on
    the reference. *)
Lemma goose_element_keeps fuel tag buffer pos len s l s' l' :
  goose_element garbage fuel tag buffer pos len s l = Done (Some (s', l')) ->
  gs_address s' = gs_address s /\ gs_event s' = gs_event s /\
  (l_isMatching l' = true -> l_isMatching l = true \/ carries_reference buffer s).
Proof.
  unfold goose_element. intros E.
  destruct (tag =? 0x80).
  { destruct (Z.eqb_spec (gs_goCBRefLen s) len) as [<-|]; [|done].
    destruct (rd_list (mk_ptr _ 0) _ _) as [ours| | |] eqn:E1; try done. cbn [rbind] in E.
    destruct (rd_list buffer _ _) as [theirs| | |] eqn:E2; try done. cbn [rbind] in E.
    case_bool_decide as Heq; [|done]. subst theirs. injection E as <- <-.
    split; [done|split; [done|]]. intros _. right. by exists pos, ours. }
  repeat first
    [ match type of E with (if ?c then _ else _) = _ => destruct c end
    | match type of E with rbind ?m _ = _ => destruct m as [[]| | |] eqn:?; try done; cbn [rbind] in E end
    | match type of E with rbind ?m _ = _ => destruct m as [?| | |] eqn:?; try done; cbn [rbind] in E end
    | match type of E with match ?o with None => _ | Some _ => _ end = _ => destruct o end ];
  try (injection E as <- <-; split; [done|split; [done|by left]]).
Qed.

Lemma goose_element_error fuel tag buffer pos len s l s' :
  goose_element garbage fuel tag buffer pos len s l = Done None -> s' = s ->
  gs_address s' = gs_address s /\ gs_event s' = gs_event s.
Proof. by intros _ ->. Qed.

Definition loop_state (r : ctl (GooseSubscriber * goose_locals) (Z * GooseSubscriber)) : GooseSubscriber :=
  match r with Ret (_, s) => s | Next (s, _) => s end.

Lemma goose_loop_keeps fuel buffer n goose_end : forall pos s l r,
  goose_loop garbage fuel buffer n goose_end pos s l = Done r ->
  gs_address (loop_state r) = gs_address s /\ gs_event (loop_state r) = gs_event s /\
  match r with
  | Ret (code, _) => code <> 1
  | Next (_, l') => l_isMatching l' = true -> l_isMatching l = true \/ carries_reference buffer s
  end.
Proof.
  induction fuel as [|fuel IH]; intros pos s l r; cbn [goose_loop]; destruct (pos <? goose_end); try done.
  1,3: intros [= <-]; split; [done|split; [done|by left]].
  destruct (rd buffer pos) as [tag| | |]; try done. cbn [rbind].
  destruct (BerDecoder_decodeLength _ _ _ _) as [[p len]| | |]; try done. cbn [rbind].
  destruct len as [len|]; [|done]. cbn [defined rbind].
  destruct (n <? p + len); [by intros [= <-]|]. destruct (p =? -1); [by intros [= <-]|].
  destruct (goose_element _ _ _ _ _ _ _ _) as [[[s1 l1]|]| | |] eqn:E; try done; cbn [rbind].
  - intros Er. destruct (goose_element_keeps _ _ _ _ _ _ _ _ _ E) as (A1 & A2 & A3).
    destruct (IH _ _ _ _ Er) as (B1 & B2 & B3). split; [congruence|split; [congruence|]].
    destruct r as [[s2 l2]|[code s2]]; [|done]. intros Hm. destruct (B3 Hm) as [Hm1|Hc]; [by apply A3|].
    right. by apply (carries_reference_address _ _ s1).
  - by intros [= <-].
Qed.

Lemma parseGoosePayload_keeps fuel buffer n s r s' :
  parseGoosePayload garbage fuel buffer n s = Done (r, s') ->
  gs_address s' = gs_address s /\ (r = 1 -> carries_reference buffer s) /\ (r <> 1 -> gs_event s' = gs_event s).
Proof.
  unfold parseGoosePayload. destruct (rd buffer 0) as [tag| | |]; try done. cbn [rbind].
  destruct (tag =? 0x61); [|by intros [= <- <-]].
  destruct (BerDecoder_decodeLength _ _ _ _) as [[p [len|]]| | |]; try done. cbn [defined rbind].
  destruct (goose_loop _ _ _ _ _ _ _ _) as [o| | |] eqn:E; try done. cbn [rbind].
  apply goose_loop_keeps in E as (A1 & A2 & A3).
  destruct o as [[s1 l1]|[code s1]]; cbn [loop_state] in *; [|by intros [= <- <-]].
  destruct (l_isMatching l1); [|by intros [= <- <-]].
  destruct (l_confRev l1) as [k|]; [|done]. intros [= <- <-].
  split; [done|]. split; [|done]. intros _. by destruct (A3 eq_refl).
Qed.
End Report.

(** C25: A packet is announced to the listener only if it carries the subscriber's
    control block reference behind a GOOSE header (and its application id, when one
    is set); any other packet leaves state and sequence number, time to live,
    configuration revision and flags as they were, and no packet changes whom the
    subscriber listens to. *)
Theorem GooseSubscriber_report garbage fuel s buffer packet s' buffer' reported :
  gooseSubscriberLoop_round garbage fuel s buffer packet = Done (s', buffer', reported) ->
  gs_address s' = gs_address s /\
  (reported = false -> gs_event s' = gs_event s) /\
  (reported = true -> exists start, 22 <= zlen packet /\
     rd (mk_ptr buffer' 0) start = Done 0x88 /\ rd (mk_ptr buffer' 0) (start + 1) = Done 0xb8 /\
     (0 <= gs_appId s -> exists a0 a1, rd (mk_ptr buffer' 0) (start + 2) = Done a0 /\
        rd (mk_ptr buffer' 0) (start + 3) = Done a1 /\ u16 (u16 (a0 * 0x100) + a1) = u16 (gs_appId s)) /\
     carries_reference (ptr_add (mk_ptr buffer' 0) (start + 10)) s).
Proof.
  unfold gooseSubscriberLoop_round. destruct (st_list buffer 0 packet) as [b| | |]; try done. cbn [rbind].
  destruct (0 <? zlen packet); [|by intros [= <- <- <-]].
  destruct (parseGooseMessage _ _ _ _ _) as [[r s1]| | |] eqn:E; try done. cbn [rbind]. intros [= <- <- <-].
  revert E. unfold parseGooseMessage. destruct (Z.ltb_spec (zlen packet) 22); [by intros [= <- <-]|].
  destruct (rd _ 12) as [b0| | |]; try done. cbn [rbind].
  match goal with |- rbind ?m _ = _ -> _ => destruct m as [vlan| | |]; try done; cbn [rbind] end.
  set (start := if vlan then 12 + 4 else 12). set (h := if vlan then 14 + 4 else 14).
  destruct (rd _ start) as [e0| | |] eqn:R0; try done. cbn [rbind].
  destruct (Z.eqb_spec e0 0x88) as [->|]; [|by intros [= <- <-]]. cbn [negb].
  destruct (rd _ (start + 1)) as [e1| | |] eqn:R1; try done. cbn [rbind].
  destruct (Z.eqb_spec e1 0xb8) as [->|]; [|by intros [= <- <-]]. cbn [negb].
  destruct (rd _ (start + 2)) as [a0| | |] eqn:R2; try done. cbn [rbind].
  destruct (rd _ (start + 3)) as [a1| | |] eqn:R3; try done. cbn [rbind].
  destruct (rd _ (start + 4)) as [l0| | |] eqn:R4; try done. cbn [rbind].
  destruct (rd _ (start + 5)) as [l1| | |] eqn:R5; try done. cbn [rbind].
  match goal with |- (if ?c then _ else _) = _ -> _ => destruct c end; [by intros [= <- <-]|].
  destruct ((0 <=? gs_appId s) && _) eqn:Ea; [by intros [= <- <-]|]. intros E.
  destruct (parseGoosePayload_keeps _ _ _ _ _ _ _ E) as (A1 & A2 & A3).
  split; [done|]. split; [intros Hr; apply A3; by apply Z.eqb_neq|].
  intros Hr%Z.eqb_eq. exists start. split; [done|split; [done|split; [done|split; [|by apply A2]]]].
  intros Hid. exists a0, a1. split; [done|split; [done|]].
  rewrite (proj2 (Z.leb_le _ _)) in Ea by done. cbn [andb] in Ea.
  by apply negb_false_iff, Z.eqb_eq in Ea.
Qed.

Definition sample_packet : list Z :=
  frame_header (replicate 12 0) 0x80 0 0x1000 17 ++ [0x61; 7; 0x80; 2; 103; 111; 0x88; 1; 5].

Lemma GooseSubscriber_report_witness :
  exists s', gooseSubscriberLoop_round 0 3 (GooseSubscriber_create [103; 111] None) (replicate 1518 0) sample_packet
      = Done (s', splice (replicate 1518 0) 0 sample_packet, true) /\
    carries_reference (mk_ptr (splice (replicate 1518 0) 0 sample_packet) 26) (GooseSubscriber_create [103; 111] None).
Proof.
  eexists. split; [reflexivity|].
  destruct (GooseSubscriber_report 0 3 (GooseSubscriber_create [103; 111] None) (replicate 1518 0) sample_packet _
    _ true eq_refl) as (_ & _ & H).
  destruct (H eq_refl) as (start & _ & _ & _ & _ & _).
  exists 4, [103; 111]. split; reflexivity.
Defined.

(** * Messages the subscriber mistreats *)

(** A packet whose element has a negative length keeps the subscriber thread in
    its parser for ever: a length of minus six leads back to the element itself. *)
Theorem GooseSubscriber_hang garbage fuel s buffer mac t1 t2 appId :
  let pdu := [0x61; 6; 0x82; 0x84; 0xff; 0xff; 0xff; 0xfa] in
  zlen mac = 12 -> 0 <= appId < 65536 -> (gs_appId s = -1 \/ gs_appId s = appId) ->
  zlen buffer = ETH_BUFFER_LENGTH ->
  gooseSubscriberLoop_round garbage fuel s buffer (frame_header mac t1 t2 appId 16 ++ pdu) = NoFuel.
Proof.
  intros pdu Hm Ha Hid Hb. unfold ETH_BUFFER_LENGTH in Hb. set (packet := frame_header _ _ _ _ _ ++ pdu).
  change (16) with (zlen pdu + 8) in *.
  assert (zlen packet = zlen pdu + 26) as Hz by (unfold packet; rewrite zlen_app, zlen_frame_header by done; lia).
  assert (zlen pdu = 8) as H8 by done.
  unfold gooseSubscriberLoop_round. rewrite st_list_fit by lia. cbn [rbind].
  rewrite (proj2 (Z.ltb_lt _ _)), Hz by lia.
  assert (holds (mk_ptr (splice buffer 0 packet) 0) 0 packet) as Hh by (apply holds_splice; lia).
  pose proof (parseGooseMessage_header garbage fuel _ mac t1 t2 appId pdu s Hh Hm Ha ltac:(lia)) as ->.
  replace ((0 <=? gs_appId s) && negb (appId =? u16 (gs_appId s))) with false.
  2: { destruct Hid as [-> | ->]; [done|]. rewrite u16_small, Z.eqb_refl by lia. by rewrite andb_false_r. }
  apply holds_app in Hh as [_ Hh]. rewrite zlen_frame_header, Z.add_0_l in Hh by done.
  set (p := ptr_add _ 26). assert (holds p 0 pdu) as Hp by (by unfold p; rewrite holds_ptr_add).
  clearbody p. rewrite H8. clear -Hp. unfold pdu in Hp. holds_split. cbn in *.
  assert (BerDecoder_decodeLength p None 1 8 = Done (2, Some 6)) as L1
    by (unfold BerDecoder_decodeLength; cbn [Z.leb Z.compare Pos.compare Pos.compare_cont]; use_reads; done).
  assert (BerDecoder_decodeLength p None 3 8 = Done (8, Some (-6))) as L2.
  { unfold BerDecoder_decodeLength. cbn [Z.leb Z.compare Pos.compare Pos.compare_cont]. use_reads.
    change (Z.to_nat (Z.land 132 127)) with 4%nat. unfold decodeLength_loop.
    cbn [Z.leb Z.compare Pos.compare Pos.compare_cont Z.add Pos.add Pos.succ]. use_reads. done. }
  unfold parseGoosePayload. use_reads. rewrite L1. cbn [rbind defined].
  enough (forall fuel l, goose_loop garbage fuel p 8 (2 + 6) 2 s l = NoFuel) as -> by done.
  clear fuel. intros fuel l. induction fuel as [|fuel IH]; [done|]. cbn [goose_loop].
  rewrite (proj2 (Z.ltb_lt 2 (2 + 6))) by done. use_reads. change (2 + 1) with 3. rewrite L2. cbn [rbind defined].
  rewrite (proj2 (Z.ltb_ge 8 (8 + -6))), (proj2 (Z.eqb_neq 8 (-1))) by done.
  change (goose_element garbage fuel 130 p 8 (-6) s l) with (Done (Some (s, l))). exact IH.
Qed.

Lemma GooseSubscriber_hang_witness :
  gooseSubscriberLoop_round 0 1000 (GooseSubscriber_create [103; 111] None) (replicate 1518 0)
    (frame_header (replicate 12 0) 0x80 0 0x1000 16 ++ [0x61; 6; 0x82; 0x84; 0xff; 0xff; 0xff; 0xfa]) = NoFuel.
Proof.
  apply GooseSubscriber_hang; [reflexivity|lia|left; reflexivity|reflexivity].
Defined.

Lemma getElement_first d a v cs : MmsValue_getElement (Complex d a (Some v :: cs)) 0 = Some v.
Proof.
  unfold MmsValue_getElement. rewrite zlen_cons. pose proof (zlen_nonneg cs).
  by rewrite (proj2 (Z.leb_gt _ _)) by lia.
Qed.

(** The number of unused bits of a received bit string is not checked: a bit
    string with whole unused octets passes the comparison of sizes and is copied
    beyond the member's buffer. *)
Theorem GooseSubscriber_bitString_overflow fuel buffer len d d' size buf cs padding bs :
  0 <= size -> zlen buf = bitStringByteSize size ->
  8 <= padding < 256 -> 8 * zlen bs - padding = size -> zlen bs < 65535 ->
  holds buffer 0 (tlv (0x84, padding :: bs)) -> zlen (tlv (0x84, padding :: bs)) <= len ->
  parseAllData (S fuel) buffer len (Complex d true (Some (Simple d' (V_BIT_STRING size buf)) :: cs)) = Ub.
Proof.
  intros H1 H2 H3 H4 H5 Hh Hlen. rewrite <- (app_nil_r (tlv _)) in Hh.
  pose proof (tlv_longer (0x84, padding :: bs)) as Hlong. cbn [snd] in Hlong. rewrite zlen_cons in Hlong.
  pose proof (zlen_nonneg bs). pose proof (zlen_nonneg cs).
  destruct (holds_tlv buffer 0 (0x84, padding :: bs) [] len (Some 0) Hh) as (Ht & Hl & Hc & _ & Hend);
    [cbn [snd]; rewrite zlen_cons; lia|lia|].
  cbn [fst snd] in *. rewrite zlen_cons in *. set (start := 0 + 1 + _) in *.
  unfold parseAllData. cbn [MmsValue_getArraySize rbind parseAllData_loop].
  rewrite (proj2 (Z.ltb_lt _ _)) by lia. rewrite Ht. cbn [rbind]. rewrite zlen_cons.
  rewrite (proj2 (Z.ltb_ge _ _)) by lia. change (0 + 1) with 1 in *. rewrite Hl. cbn [rbind defined].
  rewrite (proj2 (Z.ltb_ge _ _)) by lia.
  change (reads_element 0x84 (1 + zlen bs)) with true. cbn iota.
  rewrite getElement_first. unfold receive_simple at 1. cbn [Z.eqb Pos.eqb].
  apply holds_cons in Hc as [Hp Hc]. rewrite rd_add, Z.add_0_r, Hp. cbn [rbind].
  rewrite (proj2 (Z.eqb_eq _ size)) by lia.
  rewrite (holds_rd_list _ _ bs) by (rewrite ?holds_ptr_add; done || lia). cbn [rbind].
  assert (bitStringByteSize size < zlen bs) as Hbig.
  { destruct (Z.eq_dec size 0) as [->|]; [change (bitStringByteSize 0) with 0; lia|].
    pose proof (byteSize_padding size ltac:(lia)). lia. }
  unfold st_list at 1. rewrite (proj2 (Z.eqb_neq _ _)) by (pose proof (zlen_nonneg buf); lia).
  rewrite (proj2 (Z.ltb_lt (zlen buf) _)) by lia. done.
Qed.

Lemma GooseSubscriber_bitString_overflow_witness :
  parseAllData 1 (mk_ptr [0x84; 4; 16; 1; 2; 3] 0) 6
    (Complex 0 true [Some (MmsValue_newBitString 8)]) = Ub.
Proof.
  apply (GooseSubscriber_bitString_overflow 0 _ 6 0 0 8 [0] [] 16 [1; 2; 3]); try lia; try reflexivity.
  apply (holds_whole [0x84; 4; 16; 1; 2; 3]).
Defined.

Lemma be_sval_shift bs : 1 <= zlen bs <= 3 ->
  be_sval (bs ++ replicate (Z.to_nat (4 - zlen bs)) 0) = be_sval bs * 256 ^ (4 - zlen bs).
Proof.
  intros H. destruct bs as [|a [|b [|c [|e bs]]]]; unfold zlen in *; cbn [length] in *; try lia;
    match goal with |- context [Z.to_nat ?x] => let n := eval vm_compute in (Z.to_nat x) in
      change (Z.to_nat x) with n end;
    match goal with |- context [256 ^ ?x] => let n := eval vm_compute in (256 ^ x) in change (256 ^ x) with n end;
    cbn [replicate app be_sval];
    unfold be_val, zlen; cbn [fold_left length]; destruct (a <? 128);
    rewrite ?(Z.pow_pos_fold 256); change (256 ^ Z.of_nat 1) with 256; change (256 ^ Z.of_nat 2) with 65536;
    change (256 ^ Z.of_nat 3) with 16777216; change (256 ^ Z.of_nat 4) with 4294967296; lia.
Qed.

(** A subscriber that builds its data set from the message misreads the integers
    of one to three octets: they keep the size of four octets, so the received ones
    count as the most significant. *)
Theorem GooseSubscriber_unknown_integer garbage fuel s buffer bs :
  1 <= zlen bs <= 3 -> bytes bs -> holds buffer 0 (tlv (0x85, bs)) ->
  exists v, parseAllDataUnknownValue garbage (S fuel) s buffer (zlen (tlv (0x85, bs))) false =
      Done (Some (Complex 0 true [Some v]), true) /\
    MmsValue_toInt32 v = Done (be_sval bs * 256 ^ (4 - zlen bs)).
Proof.
  intros Hz Hb Hh. rewrite <- (app_nil_r (tlv _)) in Hh. rewrite tlv_short in * by lia.
  cbn [app] in Hh. rewrite app_nil_r in Hh. rewrite !zlen_cons. pose proof Hh as Hc.
  do 2 apply holds_cons in Hc as [? Hc]. set (len := 1 + (1 + zlen bs)).
  assert (forall old, BerDecoder_decodeLength buffer old 1 len = Done (2, Some (zlen bs))) as Hl.
  { intros old. unfold BerDecoder_decodeLength. rewrite (proj2 (Z.leb_gt _ _)) by (unfold len; lia). use_reads.
    rewrite byte_high by (unfold is_byte; lia). by rewrite (proj2 (Z.ltb_lt _ _)) by lia. }
  set (i := mkAsn1 4 4 (bs ++ replicate (Z.to_nat (4 - zlen bs)) 0)).
  assert (receive_integer (new_integer (zlen bs)) (ptr_add buffer 2) (zlen bs) = Done i) as Hi.
  { unfold new_integer. rewrite (proj2 (Z.leb_le _ _)) by lia. unfold receive_integer.
    rewrite (holds_rd_list _ _ bs) by (rewrite ?holds_ptr_add; done). cbn [rbind].
    change (a_octets BerInteger_createInt32) with (replicate 4 0). rewrite st_list_fit by (change (zlen (replicate 4 0)) with 4; lia).
    cbn [rbind].
    assert (splice (replicate 4 0) 0 bs = bs ++ replicate (Z.to_nat (4 - zlen bs)) 0) as ->; [|done].
    unfold splice. cbn [Z.to_nat take app Nat.add]. rewrite drop_replicate.
    replace (Z.to_nat (4 - zlen bs)) with (4 - length bs)%nat by (unfold zlen in *; lia). done. }
  exists (new_value (V_INTEGER i)). split.
  - unfold parseAllDataUnknownValue. cbn [count_elements].
    rewrite (proj2 (Z.ltb_lt 0 len)) by (unfold len; lia). use_reads. change (0 + 1) with 1.
    rewrite Hl. cbn [rbind defined]. rewrite (proj2 (Z.ltb_ge len _)) by (unfold len; lia). cbn [existsb Z.eqb Pos.eqb orb].
    assert (forall k sz n, count_elements k buffer len (2 + zlen bs) sz n = Done (Some (n, sz))) as Hend
      by (intros [] ? ?; cbn [count_elements]; by rewrite (proj2 (Z.ltb_ge _ len)) by (unfold len; lia)).
    rewrite Hend. cbn [rbind build_loop].
    rewrite (proj2 (Z.ltb_lt 0 len)) by (unfold len; lia). use_reads. change (0 + 1) with 1.
    rewrite Hl. cbn [rbind defined]. rewrite (proj2 (Z.ltb_ge len _)) by (unfold len; lia).
    cbn [existsb Z.eqb Pos.eqb orb]. unfold build_simple. cbn [Z.eqb Pos.eqb]. rewrite Hi. cbn [rbind].
    destruct fuel; cbn [build_loop]; by rewrite (proj2 (Z.ltb_ge _ len)) by (unfold len; lia).
  - unfold MmsValue_toInt32, to_integer, new_value.
    assert (asn1_wf i) as Hwf.
    { unfold asn1_wf, i. cbn. rewrite zlen_app. unfold zlen at 2. rewrite length_replicate.
      repeat split; try lia. bytes_tac. apply Forall_replicate. unfold is_byte. lia. }
    pose proof (to_signed_spec (w := 32) (k := 4) i Hwf ltac:(by cbn; lia) eq_refl) as E.
    change (BerInteger_toInt32 i) with (to_signed (swrap 32) (4 + 1) i). rewrite E. cbn [rbind default]. f_equal.
    rewrite <- be_sval_shift by done. f_equal. unfold a_bytes, slice. cbn [a_octets a_size i].
    rewrite drop_0. unfold id. f_equal. apply take_ge. rewrite length_app, length_replicate. unfold zlen in *. lia.
Qed.

Lemma GooseSubscriber_unknown_integer_witness :
  exists v, parseAllDataUnknownValue 0 1 (GooseSubscriber_create [103] None) (mk_ptr [0x85; 1; 5] 0) 3 false
      = Done (Some (Complex 0 true [Some v]), true) /\
    MmsValue_toInt32 v = Done 83886080.
Proof.
  destruct (GooseSubscriber_unknown_integer 0 0 (GooseSubscriber_create [103] None) (mk_ptr [0x85; 1; 5] 0) [5])
    as (v & H1 & H2).
  - split; vm_compute; discriminate.
  - by_eval.
  - apply (holds_whole [0x85; 1; 5]).
  - exists v. split; [exact H1|exact H2].
Defined.
