(* ===== verification/Effects.v ===== *)
(** Code over an object: a state that is read and changed, events that it sends to the
    world around, and the outcomes of a C function.  The components of the server whose
    functions work on one object (control, reporting) are written in this monad; this
    file has the logic to reason about such code. *)
From stdpp Require Import base tactics numbers option list.
From S2P Require Import Prelude.

(** ** The monad *)

Section Monad.
Context {S E : Type}.

Definition eff (A : Type) : Type := S -> list E -> res (A * S * list E).

Definition cret {A} (a : A) : eff A := fun s es => Done (a, s, es).
Definition cbind {A B} (c : eff A) (k : A -> eff B) : eff B :=
  fun s es => let! (a, s, es) := c s es in k a s es.
Definition cget {A} (f : S -> A) : eff A := fun s es => Done (f s, s, es).
Definition cmodify (f : S -> S) : eff unit := fun s es => Done (tt, f s, es).
Definition emit (e : E) : eff unit := fun s es => Done (tt, s, es ++ [e]).
Definition clift {A} (m : res A) : eff A := fun s es => let! a := m in Done (a, s, es).
End Monad.
Arguments eff S E A : clear implicits.

Notation "'do!' x := c 'in' k" := (cbind c (fun x => k))
  (at level 10, x pattern, c at level 100, k at level 200,
   format "'[v' 'do!'  x  :=  c  'in' '/' k ']'") : c_scope.

(** ** Triples

    [triple P c Q]: if [c] returns from a state with [P], its result and the state
    after it satisfy [Q]. *)
Definition triple {S E A} (P : S -> Prop) (c : eff S E A) (Q : A -> S -> Prop) : Prop :=
  forall s es a s' es', P s -> c s es = Done (a, s', es') -> Q a s'.

(** [c] keeps [P]. *)
Definition keeps {S E A} (P : S -> Prop) (c : eff S E A) : Prop := triple P c (fun _ => P).

Section Triples.
Context {S E A B : Type}.
Implicit Types P : S -> Prop.
Implicit Types c : eff S E A.

Lemma t_bind P c (k : A -> eff S E B) Q R :
  triple P c Q -> (forall a, triple (Q a) (k a) R) -> triple P (do! a := c in k a) R.
Proof.
  intros Hc Hk s es b s' es' HP. unfold cbind.
  destruct (c s es) as [[[a s1] es1]| | |] eqn:Ec; try done. cbn [rbind]. intros Ek.
  eapply Hk; [|done]. by eapply Hc.
Qed.

Lemma t_ret P (a : A) Q : (forall s, P s -> Q a s) -> triple P (cret a : eff S E A) Q.
Proof. intros H s es b s' es' HP [= <- <- <-]. auto. Qed.

Lemma t_weaken P P' c Q : triple P' c Q -> (forall s, P s -> P' s) -> triple P c Q.
Proof. intros H HP s es a s' es' ?. eapply H; eauto. Qed.

Lemma t_strengthen P c Q Q' : triple P c Q' -> (forall a s, Q' a s -> Q a s) -> triple P c Q.
Proof. intros H HQ s es a s' es' ??. eapply HQ, H; eauto. Qed.

Lemma t_get P (f : S -> A) : triple P (cget f : eff S E A) (fun a s => a = f s /\ P s).
Proof. by intros s es a s' es' HP [= <- <- <-]. Qed.

Lemma t_modify P (f : S -> S) (Q : unit -> S -> Prop) :
  (forall s, P s -> Q tt (f s)) -> triple P (cmodify f : eff S E unit) Q.
Proof. intros H s es a s' es' HP [= <- <- <-]. auto. Qed.

Lemma t_emit P e : triple P (emit e : eff S E unit) (fun _ => P).
Proof. by intros s es a s' es' HP [= <- <- <-]. Qed.

Lemma t_lift P (m : res A) : triple P (clift m : eff S E A) (fun a s => m = Done a /\ P s).
Proof. intros s es a s' es' HP. unfold clift. destruct m as [b| | |]; try done. by intros [= <- <- <-]. Qed.

Lemma t_if P (b : bool) c d Q :
  (b = true -> triple P c Q) -> (b = false -> triple P d Q) -> triple P (if b then c else d) Q.
Proof. destruct b; auto. Qed.

Lemma k_bind P c (k : A -> eff S E B) : keeps P c -> (forall a, keeps P (k a)) -> keeps P (do! a := c in k a).
Proof. intros Hc Hk. eapply t_bind; [exact Hc|exact Hk]. Qed.

Lemma k_get P (f : S -> A) : keeps P (cget f : eff S E A).
Proof. eapply t_strengthen; [apply t_get|]. by intros a s []. Qed.

Lemma k_lift P (m : res A) : keeps P (clift m : eff S E A).
Proof. eapply t_strengthen; [apply t_lift|]. by intros a s []. Qed.

Lemma k_ret P (a : A) : keeps P (cret a : eff S E A).
Proof. by apply t_ret. Qed.

Lemma k_modify P f : (forall s, P s -> P (f s)) -> keeps P (cmodify f : eff S E unit).
Proof. intros H. by apply (t_modify P f (fun _ => P)). Qed.

Lemma k_emit P e : keeps P (emit e : eff S E unit).
Proof. apply t_emit. Qed.

Lemma k_weaken P P' c : keeps P c -> (forall s, P' s -> P s) -> triple P' c (fun _ => P).
Proof. intros H HP s es a s' es' Hs Ec. eapply H; [by apply HP|done]. Qed.

(** Steps that a proof goes through: one that keeps the predicate, a result that is
    known, a look at the state. *)
Lemma t_seq P c (k : A -> eff S E B) Q :
  keeps P c -> (forall a, triple P (k a) Q) -> triple P (do! a := c in k a) Q.
Proof. intros Hc Hk. eapply t_bind; [exact Hc|exact Hk]. Qed.

Lemma t_bind_lift P (m : res A) (k : A -> eff S E B) Q :
  (forall a, m = Done a -> triple P (k a) Q) -> triple P (do! a := clift m in k a) Q.
Proof.
  intros H. eapply t_bind; [apply t_lift|]. intros a s es b s' es' [Hm HP] Hr. by eapply H.
Qed.

Lemma t_bind_get P (f : S -> A) (k : A -> eff S E B) Q :
  (forall s, P s -> triple (fun s' => s' = s) (k (f s)) Q) -> triple P (do! a := cget f in k a) Q.
Proof. intros H s es b s' es' HP Hr. by eapply (H s HP s es). Qed.

Lemma t_and P P' c Q Q' : triple P c Q -> triple P' c Q' ->
  triple (fun s => P s /\ P' s) c (fun a s => Q a s /\ Q' a s).
Proof. intros H H' s es a s' es' [HP HP'] Hr. split; [by eapply (H s es)|by eapply (H' s es)]. Qed.

Lemma t_keeps P (Q : S -> Prop) c :
  keeps (fun s => P s /\ Q s) c -> triple (fun s => P s /\ Q s) c (fun _ => P).
Proof. intros H s es a s' es' Hs Ec. by apply (H _ _ _ _ _ Hs Ec). Qed.
End Triples.

(** After a run that started with [P]. *)
Lemma keeps_done {S E A} (P : S -> Prop) (c : eff S E A) s es a s' es' : keeps P c -> P s -> c s es = Done (a, s', es') -> P s'.
Proof. intros H Hs Hr. exact (H _ _ _ _ _ Hs Hr). Qed.

Create HintDb keeps.
#[export] Hint Resolve k_get k_lift k_ret k_emit : keeps.

(** Walk through code that keeps [P] in every step; what is left are the
    modifications of the state. *)
Ltac keeps_step :=
  match goal with
  | |- triple ?P ?c (fun _ => ?P) => change (keeps P c)
  | |- keeps _ (cbind _ _) => apply k_bind; [|intros ?]
  | |- keeps _ (if ?b then _ else _) => destruct b
  | |- keeps _ (match ?o with Some _ => _ | None => _ end) => destruct o
  | |- keeps _ _ => solve [eauto with keeps nocore]
  | |- keeps _ (cmodify _) => apply k_modify
  end.
Ltac keeps_run := repeat keeps_step.

(** ** Events

    [sends P Q c]: [c] keeps [P], and the events that it adds satisfy [Q]. *)
Definition sends {S E A} (P : S -> Prop) (Q : E -> Prop) (c : eff S E A) : Prop :=
  forall s es a s' es', P s -> c s es = Done (a, s', es') -> P s' /\ exists new, es' = es ++ new /\ Forall Q new.

Lemma e_silent {S E A} (P : S -> Prop) (Q : E -> Prop) (c : eff S E A) : (forall s es a s' es', P s -> c s es = Done (a, s', es') -> P s' /\ es' = es) -> sends P Q c.
Proof.
  intros H s es a s' es' HP Hr. destruct (H _ _ _ _ _ HP Hr) as [? ->]. split; [done|]. exists []. by rewrite app_nil_r.
Qed.

Section Sends.
Context {S E A B : Type}.
Implicit Types (P : S -> Prop) (Q : E -> Prop) (c : eff S E A).

Lemma e_bind P Q c (k : A -> eff S E B) : sends P Q c -> (forall a, sends P Q (k a)) -> sends P Q (do! a := c in k a).
Proof.
  intros Hc Hk s es b s' es' HP. unfold cbind.
  destruct (c s es) as [[[a s1] es1]| | |] eqn:Ec; try done. cbn [rbind]. intros Ek.
  destruct (Hc _ _ _ _ _ HP Ec) as (HP1 & n1 & -> & H1). destruct (Hk _ _ _ _ _ _ HP1 Ek) as (HP2 & n2 & -> & H2).
  split; [done|]. exists (n1 ++ n2). rewrite <- app_assoc. split; [done|]. by apply Forall_app.
Qed.

(** What is known of the state that the code looks at. *)
Lemma e_bind_get P Q (f : S -> A) (k : A -> eff S E B) : (forall s, P s -> sends P Q (k (f s))) ->
  sends P Q (do! a := cget f in k a).
Proof. intros H s es b s' es' HP Hr. by eapply (H s HP s es). Qed.

Lemma e_get P Q (f : S -> A) : sends P Q (cget f : eff S E A).
Proof. apply e_silent. by intros s es a s' es' HP [= <- <- <-]. Qed.

Lemma e_ret P Q (a : A) : sends P Q (cret a : eff S E A).
Proof. apply e_silent. by intros s es a' s' es' HP [= <- <- <-]. Qed.

Lemma e_lift P Q (m : res A) : sends P Q (clift m : eff S E A).
Proof. apply e_silent. intros s es a s' es' HP. unfold clift. destruct m; try done. by intros [= <- <- <-]. Qed.

Lemma e_modify P Q f : (forall s, P s -> P (f s)) -> sends P Q (cmodify f : eff S E unit).
Proof. intros H. apply e_silent. intros s es a s' es' HP [= <- <- <-]. auto. Qed.

Lemma e_emit P Q e : Q e -> sends P Q (emit e : eff S E unit).
Proof. intros H s es a s' es' HP [= <- <- <-]. split; [done|]. exists [e]. auto. Qed.
End Sends.

Create HintDb sends.
#[export] Hint Resolve e_get e_lift e_ret : sends.

Ltac sends_step :=
  match goal with
  | |- sends _ _ (cbind _ _) => apply e_bind; [|intros ?]
  | |- sends _ _ (if ?b then _ else _) => destruct b
  | |- sends _ _ (match ?o with Some _ => _ | None => _ end) => destruct o
  | |- sends _ _ (let _ := _ in _) => cbv zeta
  | |- sends _ _ (match ?x with pair _ _ => _ end) => destruct x
  | |- sends _ _ _ => solve [eauto with sends nocore]
  | |- sends _ _ (cmodify _) => apply e_modify
  end.
Ltac sends_run := repeat sends_step.

(** Code that adds no events. *)
Definition quiet {S E A} (c : eff S E A) : Prop := forall s es a s' es', c s es = Done (a, s', es') -> es' = es.

Section Quiet.
Context {S E A B : Type}.
Implicit Types c : eff S E A.

Lemma q_bind c (k : A -> eff S E B) : quiet c -> (forall a, quiet (k a)) -> quiet (do! a := c in k a).
Proof.
  intros Hc Hk s es b s' es'. unfold cbind. destruct (c s es) as [[[a s1] es1]| | |] eqn:Ec; try done. cbn [rbind].
  intros Ek. by rewrite (Hk _ _ _ _ _ _ Ek), (Hc _ _ _ _ _ Ec).
Qed.

Lemma q_get (f : S -> A) : quiet (cget f : eff S E A).
Proof. by intros s es a s' es' [= _ _ <-]. Qed.

Lemma q_ret (a : A) : quiet (cret a : eff S E A).
Proof. by intros s es b s' es' [= _ _ <-]. Qed.

Lemma q_modify f : quiet (cmodify f : eff S E unit).
Proof. by intros s es b s' es' [= _ <-]. Qed.

Lemma q_lift (m : res A) : quiet (clift m : eff S E A).
Proof. intros s es a s' es'. unfold clift. destruct m; try done. by intros [= _ _ <-]. Qed.

Lemma e_quiet P (Q : E -> Prop) c : keeps P c -> quiet c -> sends P Q c.
Proof. intros Hk Hq. apply e_silent. intros s es a s' es' Hs Hr. split; [by eapply Hk|by eapply Hq]. Qed.

(** A predicate that is known to hold of the state that the code looks at. *)
Lemma e_weaken P P' Q c : sends P Q c -> (forall s, P' s -> P s) -> (forall s, P s -> P' s) -> sends P' Q c.
Proof. intros H H1 H2 s es a s' es' Hs Hr. destruct (H _ _ _ _ _ (H1 _ Hs) Hr) as [? ?]. auto. Qed.
End Quiet.

Create HintDb quiet.
#[export] Hint Resolve q_get q_ret q_modify q_lift : quiet.

Ltac quiet_step :=
  match goal with
  | |- quiet (cbind _ _) => apply q_bind; [|intros ?]
  | |- quiet (if ?b then _ else _) => destruct b
  | |- quiet (match ?x with _ => _ end) => destruct x
  | |- quiet _ => solve [eauto with quiet nocore]
  end.
Ltac quiet_run := repeat quiet_step.

(** ** Following a run backwards *)

Section Inversion.
Context {S E A B : Type}.

Lemma cbind_inv (c : eff S E A) (k : A -> eff S E B) s es r : cbind c k s es = Done r ->
  exists a s1 es1, c s es = Done (a, s1, es1) /\ k a s1 es1 = Done r.
Proof.
  unfold cbind. destruct (c s es) as [[[a s1] es1]| | |]; try done. intros H. by exists a, s1, es1.
Qed.

Lemma clift_inv (m : res A) (s : S) (es : list E) a s' es' :
  clift m s es = Done (a, s', es') -> m = Done a /\ s' = s /\ es' = es.
Proof. unfold clift. destruct m; try done. by intros [= -> -> ->]. Qed.

Lemma cget_inv (f : S -> A) s (es : list E) a s' es' : cget f s es = Done (a, s', es') -> a = f s /\ s' = s /\ es' = es.
Proof. by intros [= <- <- <-]. Qed.

Lemma cret_inv (a : A) (s : S) (es : list E) a' s' es' : cret a s es = Done (a', s', es') -> a' = a /\ s' = s /\ es' = es.
Proof. by intros [= <- <- <-]. Qed.

Lemma cmodify_inv f (s : S) (es : list E) u s' es' : cmodify f s es = Done (u, s', es') -> s' = f s /\ es' = es.
Proof. by intros [= <- <- <-]. Qed.

Lemma emit_inv e (s : S) (es : list E) u s' es' : emit e s es = Done (u, s', es') -> s' = s /\ es' = es ++ [e].
Proof. by intros [= <- <- <-]. Qed.
End Inversion.

(** One step of a run that is known to return; [run_inv] takes it apart.  Components
    add the steps of their own functions to [run_call]. *)
Ltac run_call H := fail.
Ltac run_step H :=
  match type of H with
  | cbind _ _ _ _ = Done _ => apply cbind_inv in H as (? & ? & ? & ?Hstep & H)
  | clift _ _ _ = Done _ => apply clift_inv in H as (? & ? & ?)
  | cget _ _ _ = Done _ => apply cget_inv in H as (? & ? & ?)
  | cret _ _ _ = Done _ => apply cret_inv in H as (? & ? & ?)
  | cmodify _ _ _ = Done _ => apply cmodify_inv in H as (? & ?)
  | emit _ _ _ = Done _ => apply emit_inv in H as (? & ?)
  | (if ?b then _ else _) _ _ = Done _ => let E := fresh "Eb" in destruct b eqn:E
  | (let _ := _ in _) _ _ = Done _ => cbv zeta in H
  | (match ?o with Some _ => _ | None => _ end) _ _ = Done _ => let E := fresh "Eo" in destruct o eqn:E
  | _ => run_call H
  end.
Ltac run_inv := repeat (match goal with H : _ = Done _ |- _ => run_step H end; subst).

(** ** Following a run forwards *)

Section Forward.
Context {S E A B D : Type}.
Implicit Types (s : S) (es : list E).

Lemma bind_run (c : eff S E A) (k : A -> eff S E B) s es a s' es' : c s es = Done (a, s', es') ->
  cbind c k s es = k a s' es'.
Proof. unfold cbind. by intros ->. Qed.

Lemma bind_assoc (c : eff S E A) (k : A -> eff S E B) (l : B -> eff S E D) s es :
  cbind (cbind c k) l s es = cbind c (fun a => cbind (k a) l) s es.
Proof. unfold cbind. by destruct (c s es) as [[[a s1] es1]| | |]. Qed.

Lemma bind_get (f : S -> A) (k : A -> eff S E B) s es : cbind (cget f) k s es = k (f s) s es.
Proof. done. Qed.

Lemma bind_ret (a : A) (k : A -> eff S E B) s es : cbind (cret a) k s es = k a s es.
Proof. done. Qed.

Lemma bind_lift (m : res A) (k : A -> eff S E B) s es a : m = Done a -> cbind (clift m) k s es = k a s es.
Proof. by intros ->. Qed.

Lemma bind_modify f (k : unit -> eff S E B) s es : cbind (cmodify f) k s es = k tt (f s) es.
Proof. done. Qed.

Lemma bind_emit e (k : unit -> eff S E B) s es : cbind (emit e) k s es = k tt s (es ++ [e]).
Proof. done. Qed.

Lemma emit_if (b : bool) e s es :
  (if b then emit e else cret tt) s es = Done (tt, s, es ++ if b then [e] else []).
Proof. destruct b; [done|]. by rewrite app_nil_r. Qed.
End Forward.

(** The steps that nothing decides about; components unfold their own before. *)
Ltac unfold_steps := idtac.
Ltac forward := unfold_steps;
  repeat (rewrite bind_assoc || rewrite bind_get || rewrite bind_ret || rewrite bind_modify || rewrite bind_emit).
