(* ===== verification/CString.v ===== *)
(** Null-terminated strings as lists of their characters, without the null: string
    constants, [strchr], the hierarchical names of MMS with their separator [$].
    The names of src/iedserver/mms_mapping/mms_mapping.c. *)
From Stdlib Require Import Ascii String.
From stdpp Require Import base tactics numbers option list.
From S2P Require Import Prelude.

(** A string constant of the program. *)
Definition lit (s : String.string) : list Z :=
  map (fun c => Z.of_N (N_of_ascii c)) (list_ascii_of_string s).
Arguments lit s%_string.

Definition DOLLAR : Z := 36.

(** A C string has no null character. *)
Definition is_string (s : list Z) : Prop := Forall (fun c => c <> 0) s.

(** [strchr]: the characters before the first [c] and those behind it. *)
Fixpoint strchr (c : Z) (s : list Z) : option (list Z * list Z) :=
  match s with
  | [] => None
  | b :: s =>
      if b =? c then Some ([], s)
      else match strchr c s with Some (before, behind) => Some (b :: before, behind) | None => None end
  end.

Lemma strchr_spec c s : match strchr c s with
  | Some (before, behind) => s = before ++ c :: behind /\ Forall (fun b => b <> c) before
  | None => Forall (fun b => b <> c) s
  end.
Proof.
  induction s as [|b s IH]; simpl; [by constructor|]. destruct (Z.eqb_spec b c) as [->|Hb].
  - by split; [|constructor].
  - destruct (strchr c s) as [[x y]|]; [destruct IH as [-> ?]|]; [split; [done|]|]; by constructor.
Qed.

Lemma strchr_app c x y : Forall (fun b => b <> c) x -> strchr c (x ++ c :: y) = Some (x, y).
Proof.
  induction 1 as [|b x Hb _ IH]; simpl; [by rewrite Z.eqb_refl|].
  rewrite (proj2 (Z.eqb_neq b c)) by done. by rewrite IH.
Qed.

Lemma strchr_none c s : Forall (fun b => b <> c) s -> strchr c s = None.
Proof.
  induction 1 as [|b s Hb _ IH]; simpl; [done|]. rewrite (proj2 (Z.eqb_neq b c)) by done. by rewrite IH.
Qed.

Lemma strchr_shorter c s x y : strchr c s = Some (x, y) -> (length y < length s)%nat.
Proof. intros E. pose proof (strchr_spec c s) as H. rewrite E in H. destruct H as [-> _]. rewrite length_app. simpl. lia. Qed.

(** [MmsMapping_getNextNameElement]: the name behind the next separator, with the
    characters in front of it. *)
Definition MmsMapping_getNextNameElement (name : list Z) : option (list Z * list Z) :=
  match strchr DOLLAR name with
  | Some (before, []) => None
  | r => r
  end.

Lemma getNextNameElement_shorter s x y :
  MmsMapping_getNextNameElement s = Some (x, y) -> (length y < length s)%nat.
Proof.
  unfold MmsMapping_getNextNameElement. destruct (strchr DOLLAR s) as [[a [|b z]]|] eqn:E; [done| |done].
  intros [= <- <-]. by eapply strchr_shorter.
Qed.

(** Names made of elements without separators. *)
Definition is_element (s : list Z) : Prop := Forall (fun b => b <> DOLLAR) s /\ s <> [].

#[global] Instance is_element_dec s : Decision (is_element s).
Proof. apply _. Defined.

Lemma getNextNameElement_element s : is_element s -> MmsMapping_getNextNameElement s = None.
Proof. intros [H _]. unfold MmsMapping_getNextNameElement. by rewrite strchr_none. Qed.

Lemma getNextNameElement_app s t : is_element s -> t <> [] ->
  MmsMapping_getNextNameElement (s ++ DOLLAR :: t) = Some (s, t).
Proof.
  intros [H _] Ht. unfold MmsMapping_getNextNameElement. rewrite strchr_app by done. by destruct t.
Qed.
