(* ===== verification/MmsTypeSpec.v ===== *)
(** Variables and their types: src/mms/iso_mms/common/mms_type_spec.c, and the server's
    domains, devices and value cache: src/mms/iso_mms/server/mms_domain.c, mms_device.c,
    mms_named_variable_list.c, mms_value_cache.c; the maps of src/common/map.c. *)
From Stdlib Require Import String.
From stdpp Require Import base tactics numbers option list.
From S2P Require Import Prelude Memory MmsValue CString.

(** * Type specifications *)

Definition spec_name (t : MmsVariableSpecification) : option (list Z) :=
  match t with SpecSimple n _ | SpecArray n _ _ | SpecStructure n _ => n end.

Definition simple_type (t : uMmsTypeSpecification) : MmsType :=
  match t with
  | T_BOOLEAN => MMS_BOOLEAN
  | T_INTEGER _ => MMS_INTEGER
  | T_UNSIGNED _ => MMS_UNSIGNED
  | T_FLOAT _ _ => MMS_FLOAT
  | T_BIT_STRING _ => MMS_BIT_STRING
  | T_OCTET_STRING _ => MMS_OCTET_STRING
  | T_VISIBLE_STRING _ => MMS_VISIBLE_STRING
  | T_STRING _ => MMS_STRING
  | T_UTC_TIME => MMS_UTC_TIME
  | T_BINARY_TIME _ => MMS_BINARY_TIME
  | T_OTHER t => t
  end.

Definition MmsVariableSpecification_getType (self : MmsVariableSpecification) : MmsType :=
  match self with
  | SpecSimple _ t => simple_type t
  | SpecArray _ _ _ => MMS_ARRAY
  | SpecStructure _ _ => MMS_STRUCTURE
  end.

Definition MmsVariableSpecification_getName (self : MmsVariableSpecification) : option (list Z) :=
  spec_name self.

(** The copied names of the elements; [None] for NULL. *)
Definition MmsVariableSpecification_getStructureElements (self : MmsVariableSpecification)
  : res (option (list (list Z))) :=
  match self with
  | SpecStructure _ elements =>
      let! names := (fix names es :=
        match es with
        | [] => Done []
        | e :: es => let! n := defined (spec_name e) in let! ns := names es in Done (n :: ns)
        end) elements in
      Done (Some names)
  | _ => Done None
  end.

Definition MmsVariableSpecification_getSize (self : MmsVariableSpecification) : Z :=
  match self with
  | SpecStructure _ elements => zlen elements
  | SpecArray _ elementCount _ => elementCount
  | SpecSimple _ t =>
      match t with
      | T_INTEGER n | T_UNSIGNED n | T_BIT_STRING n | T_BINARY_TIME n | T_OCTET_STRING n
      | T_VISIBLE_STRING n | T_STRING n => n
      | T_FLOAT _ formatWidth => formatWidth
      | _ => -1
      end
  end.

Definition MmsVariableSpecification_getChildSpecificationByIndex (self : MmsVariableSpecification)
    (index : Z) : option MmsVariableSpecification :=
  match self with
  | SpecStructure _ elements =>
      if zlen elements <=? index then None else if index <? 0 then None
      else elements !! Z.to_nat index
  | _ => None
  end.

Definition MmsVariableSpecification_getArrayElementSpecification (self : MmsVariableSpecification)
  : option MmsVariableSpecification :=
  match self with SpecArray _ _ t => Some t | _ => None end.

Definition MmsVariableSpecification_getExponentWidth (self : MmsVariableSpecification) : Z :=
  match self with SpecSimple _ (T_FLOAT exponentWidth _) => exponentWidth | _ => -1 end.

(** ** Values by name *)

(** The number of characters before the first separator. *)
Fixpoint directChildStrLen (childId : list Z) : Z :=
  match childId with
  | [] => 0
  | c :: childId => if c =? DOLLAR then 0 else 1 + directChildStrLen childId
  end.

(** [value->value.structure.components[i]] *)
Definition component (value : option MmsValue) (i : Z) : res (option MmsValue) :=
  match value with
  | Some (Complex _ _ cs) => if i <? 0 then Ub else defined (cs !! Z.to_nat i)
  | _ => Ub
  end.

(** The loop over the elements: the first one whose name is the first element of
    [childId] gives the value, or the value [get] finds in it. *)
Section Scan.
Context (get : MmsVariableSpecification -> option MmsValue -> list Z -> res (option MmsValue)).
Context (value : option MmsValue) (childId : list Z).

Fixpoint scan_children (es : list MmsVariableSpecification) (i : Z) : res (option MmsValue) :=
  match es with
  | [] => Done None
  | e :: es =>
      let childLen := directChildStrLen childId in
      let! name := defined (spec_name e) in
      if (zlen name =? childLen) && bool_decide (name = take (Z.to_nat childLen) childId) then
        if childLen =? zlen childId then component value i
        else
          let! c := component value i in
          get e c (drop (Z.to_nat (childLen + 1)) childId)
      else scan_children es (i + 1)
  end.
End Scan.

Fixpoint MmsVariableSpecification_getChildValue (typeSpec : MmsVariableSpecification)
    (value : option MmsValue) (childId : list Z) : res (option MmsValue) :=
  match typeSpec with
  | SpecStructure _ elements =>
      scan_children MmsVariableSpecification_getChildValue value childId elements 0
  | _ => Done None
  end.

Definition MmsValue_getSubElement (self : option MmsValue) (varSpec : MmsVariableSpecification)
    (mmsPath : list Z) : res (option MmsValue) :=
  MmsVariableSpecification_getChildValue varSpec self mmsPath.

(** * Domains *)

Record MmsNamedVariableListEntry := mkListEntry {
  le_domain : option Z;                (* the address of the domain *)
  le_variableName : list Z;
  le_arrayIndex : Z;
  le_componentName : option (list Z) }.

Record MmsNamedVariableList := mkVariableList {
  vl_deletable : bool;
  vl_name : list Z;
  vl_listOfVariables : list MmsNamedVariableListEntry }.

Definition MmsNamedVariableList_create (name : list Z) (deletable : bool) : MmsNamedVariableList :=
  mkVariableList deletable name [].

Definition MmsNamedVariableList_addVariable (self : MmsNamedVariableList)
    (variable : MmsNamedVariableListEntry) : MmsNamedVariableList :=
  mkVariableList (vl_deletable self) (vl_name self) (vl_listOfVariables self ++ [variable]).

(** [namedVariables] is [None] for the null pointer; [md_address] stands for the
    identity of the domain. *)
Record MmsDomain := mkDomain {
  md_address : Z;
  domainName : list Z;
  namedVariables : option (list MmsVariableSpecification);
  namedVariableLists : list MmsNamedVariableList }.

Definition MmsDomain_create (address : Z) (name : list Z) : MmsDomain := mkDomain address name None [].

Definition MmsDomain_getName (self : MmsDomain) : list Z := domainName self.

Definition MmsDomain_addNamedVariableList (self : MmsDomain) (variableList : MmsNamedVariableList)
  : bool * MmsDomain :=
  (true, mkDomain (md_address self) (domainName self) (namedVariables self)
    (namedVariableLists self ++ [variableList])).

(** The first list of the name. *)
Fixpoint find_variable_list (lists : list MmsNamedVariableList) (name : list Z)
  : option MmsNamedVariableList :=
  match lists with
  | [] => None
  | l :: lists => if bool_decide (vl_name l = name) then Some l else find_variable_list lists name
  end.

Definition MmsDomain_getNamedVariableList (self : MmsDomain) (variableListName : list Z) :=
  find_variable_list (namedVariableLists self) variableListName.

Fixpoint mmsServer_deleteVariableList (lists : list MmsNamedVariableList) (name : list Z)
  : list MmsNamedVariableList :=
  match lists with
  | [] => []
  | l :: lists => if bool_decide (vl_name l = name) then lists else l :: mmsServer_deleteVariableList lists name
  end.

Definition MmsDomain_deleteNamedVariableList (self : MmsDomain) (variableListName : list Z) : MmsDomain :=
  mkDomain (md_address self) (domainName self) (namedVariables self)
    (mmsServer_deleteVariableList (namedVariableLists self) variableListName).

(** ** Variables by name *)

(** The first element with the name; a null name is read. *)
Fixpoint find_named (es : list MmsVariableSpecification) (name : list Z)
  : res (option MmsVariableSpecification) :=
  match es with
  | [] => Done None
  | e :: es =>
      let! n := defined (spec_name e) in
      if bool_decide (n = name) then Done (Some e) else find_named es name
  end.

Section ScanNamed.
Context (get : MmsVariableSpecification -> list Z -> res (option MmsVariableSpecification)).
Context (first rest : list Z).

(** The loop for the first part of a name with a separator. *)
Fixpoint scan_named (es : list MmsVariableSpecification) : res (option MmsVariableSpecification) :=
  match es with
  | [] => Done None
  | e :: es =>
      let! n := defined (spec_name e) in
      if bool_decide (n = first) then
        match e with
        | SpecStructure _ _ => get e rest
        | SpecArray _ _ t => get t rest
        | SpecSimple _ _ => Done (Some e)
        end
      else scan_named es
  end.
End ScanNamed.

(** A variable that is no structure has no elements to look through: without a
    separator in the name the type is checked, with one it is not. *)
Fixpoint getNamedVariableRecursive (variable : MmsVariableSpecification) (nameId : list Z)
  : res (option MmsVariableSpecification) :=
  match strchr DOLLAR nameId with
  | None =>
      match variable with
      | SpecStructure _ elements => find_named elements nameId
      | _ => Done None
      end
  | Some (first, rest) =>
      match variable with
      | SpecStructure _ elements => scan_named getNamedVariableRecursive first rest elements
      | _ => Ub
      end
  end.

Definition MmsDomain_getNamedVariable (self : MmsDomain) (nameId : list Z)
  : res (option MmsVariableSpecification) :=
  match namedVariables self with
  | Some variables =>
      match strchr DOLLAR nameId with
      | None => find_named variables nameId
      | Some (first, rest) =>
          let! namedVariable := find_named variables first in
          match namedVariable with
          | Some v => getNamedVariableRecursive v rest
          | None => Done None
          end
      end
  | None => Done None
  end.

(** [MmsDevice_getDomain] *)
Fixpoint MmsDevice_getDomain (domains : list MmsDomain) (domainId : list Z) : option MmsDomain :=
  match domains with
  | [] => None
  | d :: domains =>
      if bool_decide (domainName d = domainId) then Some d else MmsDevice_getDomain domains domainId
  end.

(** * Maps

    The entries in the order of their insertion; the comparison of keys is a field
    of the map. *)
Section Map.
Context {K V : Type}.

Record Map := mkMap { map_entries : list (K * V); map_compareKeys : K -> K -> bool }.

Definition Map_create (equal : K -> K -> bool) : Map := mkMap [] equal.

Definition Map_size (map : Map) : Z := zlen (map_entries map).

Definition Map_addEntry (map : Map) (key : K) (value : V) : Map :=
  mkMap (map_entries map ++ [(key, value)]) (map_compareKeys map).

Fixpoint get_entry (equal : K -> K -> bool) (entries : list (K * V)) (key : K) : option V :=
  match entries with
  | [] => None
  | (k, v) :: entries => if equal key k then Some v else get_entry equal entries key
  end.

Definition Map_getEntry (map : Map) (key : K) : option V :=
  get_entry (map_compareKeys map) (map_entries map) key.

(** The value of the first entry of the key, and the entries without it. *)
Fixpoint remove_entry (equal : K -> K -> bool) (entries : list (K * V)) (key : K)
  : option V * list (K * V) :=
  match entries with
  | [] => (None, [])
  | (k, v) :: entries =>
      if equal key k then (Some v, entries)
      else let '(r, entries) := remove_entry equal entries key in (r, (k, v) :: entries)
  end.

Definition Map_removeEntry (map : Map) (key : K) : option V * Map :=
  let '(r, entries) := remove_entry (map_compareKeys map) (map_entries map) key in
  (r, mkMap entries (map_compareKeys map)).
End Map.
Arguments Map : clear implicits.

(** [StringMap_create]: keys are compared by [strcmp]. *)
Definition StringMap_create {V} : Map (list Z) V := Map_create (fun a b => bool_decide (a = b)).

(** * The value cache *)

Record MmsValueCacheEntry := mkCacheEntry {
  ce_value : MmsValue;
  ce_typeSpec : MmsVariableSpecification }.

Record MmsValueCache := mkCache {
  vc_domain : MmsDomain;
  vc_map : Map (list Z) MmsValueCacheEntry }.

Definition MmsValueCache_create (domain : MmsDomain) : MmsValueCache := mkCache domain StringMap_create.

Definition MmsValueCache_insertValue (self : MmsValueCache) (itemId : list Z) (value : MmsValue)
  : res MmsValueCache :=
  let! typeSpec := MmsDomain_getNamedVariable (vc_domain self) itemId in
  match typeSpec with
  | Some t => Done (mkCache (vc_domain self) (Map_addEntry (vc_map self) itemId (mkCacheEntry value t)))
  | None => Done self
  end.

(** The characters before the last separator, which is not the first character. *)
Fixpoint parent_loop (n : nat) (itemId : list Z) : option (list Z) :=
  match n with
  | O => None
  | S n =>
      match n, itemId !! n with
      | O, _ => None
      | _, Some c => if c =? DOLLAR then Some (take n itemId) else parent_loop n itemId
      | _, None => None
      end
  end.

Definition getParentSubString (itemId : list Z) : option (list Z) := parent_loop (length itemId) itemId.

Definition getChildSubString (itemId parentId : list Z) : list Z := drop (length parentId + 1) itemId.

(** [fuel] is the length of the parent's name: each step shortens it. *)
Fixpoint searchCacheForValue (fuel : nat) (self : MmsValueCache) (itemId parentId : list Z)
  : res (option MmsValue) :=
  match Map_getEntry (vc_map self) parentId with
  | None =>
      match getParentSubString parentId with
      | Some parentItemId =>
          match fuel with
          | O => NoFuel
          | S fuel => searchCacheForValue fuel self itemId parentItemId
          end
      | None => Done None
      end
  | Some cacheEntry =>
      let childId := getChildSubString itemId parentId in
      let! typeSpec := MmsDomain_getNamedVariable (vc_domain self) parentId in
      let! typeSpec := defined typeSpec in
      MmsVariableSpecification_getChildValue typeSpec (Some (ce_value cacheEntry)) childId
  end.

Definition MmsValueCache_lookupValue (self : MmsValueCache) (itemId : list Z) : res (option MmsValue) :=
  match Map_getEntry (vc_map self) itemId with
  | None =>
      match getParentSubString itemId with
      | Some parentItemId => searchCacheForValue (length itemId) self itemId parentItemId
      | None => Done None
      end
  | Some cacheEntry => Done (Some (ce_value cacheEntry))
  end.

(** Names, types and values agree: what a name finds in a value has the type it finds
    in the specification, in a value and in the value cache. *)

(** * Values of a type *)

(** Every element of a structure has a name. *)
#[warnings="-register-all"]
Inductive named : MmsVariableSpecification -> Prop :=
| named_simple n t : named (SpecSimple n t)
| named_array n k t : named t -> named (SpecArray n k t)
| named_structure n ts :
    Forall (fun t => is_Some (spec_name t)) ts -> Forall named ts -> named (SpecStructure n ts).

#[warnings="-register-all"]
Inductive typed : MmsVariableSpecification -> MmsValue -> Prop :=
| typed_simple n t d u : u_type u = simple_type t -> typed (SpecSimple n t) (Simple d u)
| typed_array n k t d vs :
    Forall (typed t) vs -> zlen vs = k -> typed (SpecArray n k t) (Complex d true (Some <$> vs))
| typed_structure n ts d vs :
    Forall2 typed ts vs -> typed (SpecStructure n ts) (Complex d false (Some <$> vs)).

(** ** Looking up the members of a structure *)

(** The first member with the name, and its value. *)
Fixpoint first_named (ts : list MmsVariableSpecification) (vs : list MmsValue) (name : list Z)
  : option (MmsVariableSpecification * MmsValue) :=
  match ts, vs with
  | t :: ts, v :: vs => if bool_decide (spec_name t = Some name) then Some (t, v) else first_named ts vs name
  | _, _ => None
  end.

Lemma first_named_typed ts vs name t v : Forall2 typed ts vs -> Forall named ts ->
  first_named ts vs name = Some (t, v) -> typed t v /\ named t.
Proof.
  induction 1 as [|t1 v1 ts vs Ht _ IH]; simpl; [done|]. intros [Hn Hns]%Forall_cons_1.
  case_bool_decide; [by intros [= <- <-]|by apply IH].
Qed.

Lemma find_named_first ts vs name : Forall2 typed ts vs -> Forall (fun t => is_Some (spec_name t)) ts ->
  find_named ts name = Done (fst <$> first_named ts vs name).
Proof.
  induction 1 as [|t v ts vs _ _ IH]; simpl; [done|]. intros [[n Hn] Hns]%Forall_cons_1.
  rewrite Hn. simpl. destruct (decide (n = name)) as [->|Hne].
  - by rewrite !bool_decide_true.
  - rewrite bool_decide_false, (bool_decide_false (Some n = _)) by congruence. by apply IH.
Qed.

Lemma scan_named_first get first rest ts vs :
  Forall2 typed ts vs -> Forall (fun t => is_Some (spec_name t)) ts ->
  scan_named get first rest ts =
    match first_named ts vs first with
    | Some (SpecStructure n es, _) => get (SpecStructure n es) rest
    | Some (SpecArray _ _ t, _) => get t rest
    | Some (t, _) => Done (Some t)
    | None => Done None
    end.
Proof.
  induction 1 as [|t v ts vs _ _ IH]; simpl; [done|]. intros [[n Hn] Hns]%Forall_cons_1.
  rewrite Hn. simpl. destruct (decide (n = first)) as [->|Hne].
  - rewrite !bool_decide_true by done. by destruct t.
  - rewrite bool_decide_false, (bool_decide_false (Some n = _)) by congruence. by apply IH.
Qed.

Lemma directChildStrLen_strchr id :
  match strchr DOLLAR id with
  | Some (first, rest) =>
      directChildStrLen id = zlen first /\ take (length first) id = first /\
      drop (length first + 1) id = rest /\ zlen first < zlen id
  | None => directChildStrLen id = zlen id /\ take (length id) id = id
  end.
Proof.
  induction id as [|c id IH]; simpl; [done|]. destruct (c =? DOLLAR).
  - pose proof (zlen_nonneg id). split; [done|split; [done|split; [done|rewrite zlen_cons; change (zlen []) with 0; lia]]].
  - destruct (strchr DOLLAR id) as [[x y]|].
    + destruct IH as (-> & H1 & H2 & H3). simpl. rewrite !zlen_cons, H1. repeat split; try done; lia.
    + destruct IH as [-> H]. rewrite zlen_cons, H. done.
Qed.

Lemma to_nat_zlen {A} (l : list A) : Z.to_nat (zlen l) = length l.
Proof. unfold zlen. lia. Qed.

Lemma component_middle d a pre v vs :
  component (Some (Complex d a (Some <$> (pre ++ v :: vs)))) (zlen pre) = Done (Some v).
Proof.
  unfold component. pose proof (zlen_nonneg pre). rewrite (proj2 (Z.ltb_ge _ _)) by lia.
  unfold zlen. rewrite Nat2Z.id, list_lookup_fmap, lookup_app_r, Nat.sub_diag by lia. done.
Qed.

Lemma scan_children_first get d a id ts vs pre :
  Forall2 typed ts vs -> Forall (fun t => is_Some (spec_name t)) ts ->
  scan_children get (Some (Complex d a (Some <$> (pre ++ vs)))) id ts (zlen pre) =
    match strchr DOLLAR id with
    | Some (first, rest) =>
        match first_named ts vs first with
        | Some (t, v) => get t (Some v) rest
        | None => Done None
        end
    | None => Done (snd <$> first_named ts vs id)
    end.
Proof.
  intros Ht. revert pre. pose proof (directChildStrLen_strchr id) as Hd.
  induction Ht as [|t v ts vs Htv _ IH]; intros pre; cbn [scan_children first_named]; [by destruct (strchr DOLLAR id) as [[]|]|].
  intros [[n Hn] Hns]%Forall_cons_1. rewrite Hn. cbn [defined rbind].
  specialize (IH (pre ++ [v]) Hns). rewrite <- app_assoc in IH. cbn [app] in IH.
  rewrite zlen_app in IH. change (zlen [v]) with 1 in IH. rewrite IH. clear IH.
  destruct (strchr DOLLAR id) as [[first rest]|].
  - destruct Hd as (-> & H1 & H2 & H3). rewrite to_nat_zlen, H1.
    destruct (decide (n = first)) as [->|Hne].
    + rewrite Z.eqb_refl, !bool_decide_true by done. cbn [andb].
      rewrite (proj2 (Z.eqb_neq _ _)) by lia. rewrite component_middle. cbn [rbind].
      replace (Z.to_nat (zlen first + 1)) with (length first + 1)%nat by (unfold zlen; lia). by rewrite H2.
    + rewrite (bool_decide_false (n = first)), (bool_decide_false (Some n = _)) by congruence.
      by rewrite andb_false_r.
  - destruct Hd as (-> & H1). rewrite to_nat_zlen, H1.
    destruct (decide (n = id)) as [->|Hne].
    + rewrite !Z.eqb_refl, !bool_decide_true by done. cbn [andb]. by rewrite component_middle.
    + rewrite (bool_decide_false (n = id)), (bool_decide_false (Some n = _)) by congruence.
      by rewrite andb_false_r.
Qed.

(** * Names in a value *)

(** [id] leads through the structures from the value [v] of type [t] to [w] of type
    [t']. *)
Inductive leads (t' : MmsVariableSpecification) (w : MmsValue)
  : MmsVariableSpecification -> MmsValue -> list Z -> Prop :=
| leads_here n ts d vs id : Forall (fun b => b <> DOLLAR) id ->
    first_named ts vs id = Some (t', w) ->
    leads t' w (SpecStructure n ts) (Complex d false (Some <$> vs)) id
| leads_step n ts d vs first rest t v : Forall (fun b => b <> DOLLAR) first ->
    first_named ts vs first = Some (t, v) -> leads t' w t v rest ->
    leads t' w (SpecStructure n ts) (Complex d false (Some <$> vs)) (first ++ DOLLAR :: rest).

Lemma fmap_Some_inj (vs ws : list MmsValue) : Some <$> vs = Some <$> ws -> vs = ws.
Proof. apply (inj (fmap Some)). Qed.

Lemma typed_members n ts d vs :
  typed (SpecStructure n ts) (Complex d false (Some <$> vs)) -> Forall2 typed ts vs.
Proof. inversion 1 as [| |? ? ? vs0 Hts]; subst. by replace vs with vs0 by (by apply fmap_Some_inj). Qed.

Lemma named_members n ts : named (SpecStructure n ts) ->
  Forall (fun t => is_Some (spec_name t)) ts /\ Forall named ts.
Proof. by inversion 1. Qed.

Lemma getNamedVariableRecursive_simple n u id t :
  getNamedVariableRecursive (SpecSimple n u) id <> Done (Some t).
Proof. simpl. by destruct (strchr DOLLAR id) as [[]|]. Qed.

Lemma leads_typed t' w t v id : leads t' w t v id -> named t -> typed t v ->
  typed t' w /\ getNamedVariableRecursive t id = Done (Some t').
Proof.
  induction 1 as [n ts d vs id Hid Hf|n ts d vs first rest t v Hid Hf Hl IH]; intros Hn Ht;
    apply named_members in Hn as [Hns Hnd]; apply typed_members in Ht as Hts;
    destruct (first_named_typed _ _ _ _ _ Hts Hnd Hf) as [Hw Hnt].
  - split; [done|]. cbn [getNamedVariableRecursive]. rewrite strchr_none by done.
    rewrite (find_named_first _ vs) by done. by rewrite Hf.
  - destruct (IH Hnt Hw) as [H1 H2]. split; [done|]. cbn [getNamedVariableRecursive].
    rewrite strchr_app by done. rewrite (scan_named_first _ _ _ _ vs) by done. rewrite Hf.
    by destruct Hl.
Qed.

Lemma leads_structure t' w n ts d vs id :
  leads t' w (SpecStructure n ts) (Complex d false (Some <$> vs)) id <->
  match strchr DOLLAR id with
  | Some (first, rest) => exists t v, first_named ts vs first = Some (t, v) /\ leads t' w t v rest
  | None => first_named ts vs id = Some (t', w)
  end.
Proof.
  pose proof (strchr_spec DOLLAR id) as Hs. split.
  - intros H. remember (SpecStructure n ts) as t eqn:Et. remember (Complex d false (Some <$> vs)) as v eqn:Ev.
    destruct H as [n0 ts0 d0 vs0 id Hid Hf|n0 ts0 d0 vs0 first rest t v Hid Hf Hl];
      injection Et as -> ->; injection Ev as -> Ev; apply fmap_Some_inj in Ev as ->.
    + by rewrite strchr_none.
    + rewrite strchr_app by done. by exists t, v.
  - destruct (strchr DOLLAR id) as [[first rest]|]; [|by apply leads_here].
    destruct Hs as [-> Hd]. intros (t & v & Hf & Hl). by eapply leads_step.
Qed.

Lemma getChildValue_leads t v id : named t -> typed t v ->
  exists r, MmsVariableSpecification_getChildValue t (Some v) id = Done r /\
    forall w, r = Some w <-> exists t', leads t' w t v id.
Proof.
  remember (length id) as k eqn:Hk. revert t v id Hk. induction k as [k IH] using lt_wf_ind.
  intros t v id -> Hn Ht.
  destruct Ht as [n u d x _|n j u d vs _ _|n ts d vs Hts].
  1, 2: exists None; split; [done|]; intros w; split; [done|]; intros [t' Hl]; by inversion Hl.
  apply named_members in Hn as [Hns Hnd].
  cbn [MmsVariableSpecification_getChildValue].
  rewrite (scan_children_first _ d false id ts vs [] Hts Hns).
  setoid_rewrite leads_structure.
  destruct (strchr DOLLAR id) as [[first rest]|] eqn:E.
  - destruct (first_named ts vs first) as [[t1 v1]|] eqn:F.
    + destruct (first_named_typed _ _ _ _ _ Hts Hnd F) as [Hv1 Hn1].
      destruct (IH (length rest) (strchr_shorter _ _ _ _ E) t1 v1 rest eq_refl Hn1 Hv1) as (r & Hr & Hw).
      exists r. split; [done|]. intros w. rewrite Hw. split; [intros [t' Hl]|intros (t' & t2 & v2 & [= <- <-] & Hl)]; eauto.
    + exists None. split; [done|]. intros w. split; [done|]. by intros (t' & t2 & v2 & ? & _).
  - eexists. split; [done|]. intros w. split.
    + destruct (first_named ts vs id) as [[t1 v1]|]; [|done]. intros [= <-]. by exists t1.
    + by intros [t' ->].
Qed.

(** What a name finds in a value: the search ends, reads only members that are
    there, and returns exactly the value to which the name leads through the
    structures; its type is the one the same name finds in the specification. *)
Theorem MmsValue_getSubElement_typed t v id : named t -> typed t v ->
  exists r, MmsValue_getSubElement (Some v) t id = Done r /\
    forall w, r = Some w <-> exists t', leads t' w t v id /\
      getNamedVariableRecursive t id = Done (Some t') /\ typed t' w.
Proof.
  intros Hn Ht. destruct (getChildValue_leads t v id Hn Ht) as (r & Hr & Hw). exists r. split; [done|].
  intros w. rewrite Hw. split; [|intros (t' & Hl & _); eauto]. intros [t' Hl].
  destruct (leads_typed _ _ _ _ _ Hl Hn Ht). eauto.
Qed.

(** A logical node with a status group of a boolean and an integer. *)
Definition sample_node : MmsVariableSpecification :=
  SpecStructure (Some (lit "GGIO1"))
    [SpecStructure (Some (lit "ST")) [SpecSimple (Some (lit "stVal")) T_BOOLEAN; SpecSimple (Some (lit "n")) (T_INTEGER 32)]].

Definition sample_node_value : MmsValue :=
  Complex 0 false (Some <$> [Complex 0 false (Some <$> [Simple 0 (V_BOOLEAN true); MmsValue_newInteger 32])]).

Lemma sample_node_named : named sample_node.
Proof.
  repeat constructor; eauto.
Qed.

Lemma sample_node_typed : typed sample_node sample_node_value.
Proof. repeat constructor. Qed.

Lemma MmsValue_getSubElement_typed_witness :
  MmsValue_getSubElement (Some sample_node_value) sample_node (lit "ST$stVal") = Done (Some (Simple 0 (V_BOOLEAN true))) /\
  exists t', getNamedVariableRecursive sample_node (lit "ST$stVal") = Done (Some t') /\
    typed t' (Simple 0 (V_BOOLEAN true)).
Proof.
  destruct (MmsValue_getSubElement_typed sample_node sample_node_value (lit "ST$stVal") sample_node_named
    sample_node_typed) as (r & Hr & Hw).
  change (MmsValue_getSubElement (Some sample_node_value) sample_node (lit "ST$stVal"))
    with (Done (Some (Simple 0 (V_BOOLEAN true)))) in *.
  injection Hr as <-. destruct (proj1 (Hw _) eq_refl) as (t' & _ & H). eauto.
Defined.

(** * The value cache *)

Lemma find_named_in es name e : find_named es name = Done (Some e) -> spec_name e = Some name /\ e ∈ es.
Proof.
  induction es as [|x es IH]; simpl; [done|]. destruct (spec_name x) as [n|] eqn:E; [|done]. simpl.
  case_bool_decide as Hn; [intros [= <-]; subst; split; [done|left]|].
  intros H. destruct (IH H). split; [done|by right].
Qed.

Lemma find_named_scan get name rest es n ts : find_named es name = Done (Some (SpecStructure n ts)) ->
  scan_named get name rest es = get (SpecStructure n ts) rest.
Proof.
  induction es as [|x es IH]; simpl; [done|]. destruct (spec_name x) as [m|]; [|done]. simpl.
  case_bool_decide; [by intros [= ->]|done].
Qed.

(** A name continued behind a structure. *)
Lemma getNamedVariableRecursive_app t p n ts rest t' :
  getNamedVariableRecursive t p = Done (Some (SpecStructure n ts)) ->
  getNamedVariableRecursive (SpecStructure n ts) rest = Done (Some t') ->
  getNamedVariableRecursive t (p ++ DOLLAR :: rest) = Done (Some t').
Proof.
  intros Hp Hrest. remember (length p) as k eqn:Hk. revert t p Hk Hp.
  induction k as [k IH] using lt_wf_ind. intros t p ->. pose proof (strchr_spec DOLLAR p) as Hs.
  destruct t as [n0 u|n0 j e|n0 es]; cbn [getNamedVariableRecursive];
    destruct (strchr DOLLAR p) as [[x y]|] eqn:E; try done.
  - destruct Hs as [-> Hx]. rewrite <- app_assoc. cbn [app]. rewrite strchr_app by done.
    pose proof (strchr_shorter _ _ _ _ E) as Hlt. specialize (IH (length y) Hlt). clear E.
    induction es as [|e es IHe]; [done|]. cbn [scan_named].
    destruct (spec_name e) as [m|]; [|done]. cbn [defined rbind].
    case_bool_decide; [|done]. destruct e as [| |]; [done|by apply IH|by apply IH].
  - intros Hf. rewrite strchr_app by done. by rewrite (find_named_scan _ _ _ _ _ _ Hf).
Qed.

Lemma MmsDomain_getNamedVariable_app dom p n ts rest t' :
  MmsDomain_getNamedVariable dom p = Done (Some (SpecStructure n ts)) ->
  getNamedVariableRecursive (SpecStructure n ts) rest = Done (Some t') ->
  MmsDomain_getNamedVariable dom (p ++ DOLLAR :: rest) = Done (Some t').
Proof.
  unfold MmsDomain_getNamedVariable. destruct (namedVariables dom) as [vars|]; [|done].
  pose proof (strchr_spec DOLLAR p) as Hs. destruct (strchr DOLLAR p) as [[x y]|].
  - destruct Hs as [-> Hx]. rewrite <- app_assoc. cbn [app]. rewrite strchr_app by done.
    destruct (find_named vars x) as [[v|]| | |]; try done. cbn [rbind].
    apply getNamedVariableRecursive_app.
  - intros Hf Hr. rewrite strchr_app by done. by rewrite Hf.
Qed.

Lemma getNamedVariableRecursive_named t id t' :
  named t -> getNamedVariableRecursive t id = Done (Some t') -> named t'.
Proof.
  remember (length id) as k eqn:Hk. revert t id Hk. induction k as [k IH] using lt_wf_ind.
  intros t id -> Hn. destruct t as [n0 u|n0 j e|n0 es]; cbn [getNamedVariableRecursive];
    destruct (strchr DOLLAR id) as [[x y]|] eqn:E; try done; apply named_members in Hn as [_ Hnd].
  - pose proof (strchr_shorter _ _ _ _ E) as Hlt. specialize (IH (length y) Hlt). clear E.
    induction Hnd as [|e es He _ IHe]; [done|]. cbn [scan_named].
    destruct (spec_name e) as [m|]; [|done]. cbn [defined rbind].
    case_bool_decide; [|done]. destruct e as [| |n1 es1]; [by intros [= <-]| |by apply IH].
    inversion He; subst. by apply IH.
  - intros Hf. apply find_named_in in Hf as [_ Hin]. by eapply Forall_forall in Hnd.
Qed.

Lemma MmsDomain_getNamedVariable_named dom id t :
  Forall named (default [] (namedVariables dom)) ->
  MmsDomain_getNamedVariable dom id = Done (Some t) -> named t.
Proof.
  unfold MmsDomain_getNamedVariable. destruct (namedVariables dom) as [vars|]; [|done]. simpl. intros Hn.
  destruct (strchr DOLLAR id) as [[x y]|].
  - destruct (find_named vars x) as [[v|]| | |] eqn:F; try done. cbn [rbind].
    apply find_named_in in F as [_ Hin]. eapply Forall_forall in Hn; [|done].
    by apply getNamedVariableRecursive_named.
  - intros Hf. apply find_named_in in Hf as [_ Hin]. by eapply Forall_forall in Hn.
Qed.

Lemma getParentSubString_spec s p : getParentSubString s = Some p -> exists rest, s = p ++ DOLLAR :: rest.
Proof.
  unfold getParentSubString. generalize (length s) at 1. intros n. induction n as [|n IH]; simpl; [done|].
  destruct n as [|n]; [done|]. destruct (s !! S n) as [c|] eqn:E; [|done].
  destruct (Z.eqb_spec c DOLLAR) as [->|]; [|done]. intros [= <-]. exists (drop (S (S n)) s).
  rewrite <- (take_drop_middle s (S n) DOLLAR E) at 1. done.
Qed.

(** The values of a cache have the types of their variables. *)
Definition cache_wf (dom : MmsDomain) (c : MmsValueCache) : Prop :=
  vc_domain c = dom /\ map_compareKeys (vc_map c) = (fun a b => bool_decide (a = b)) /\
  forall k e, Map_getEntry (vc_map c) k = Some e ->
    MmsDomain_getNamedVariable dom k = Done (Some (ce_typeSpec e)) /\ typed (ce_typeSpec e) (ce_value e).

Lemma get_entry_app {V} (entries : list (list Z * V)) k v key :
  get_entry (fun a b => bool_decide (a = b)) (entries ++ [(k, v)]) key =
    match get_entry (fun a b => bool_decide (a = b)) entries key with
    | Some w => Some w
    | None => if bool_decide (key = k) then Some v else None
    end.
Proof. induction entries as [|[k' v'] entries IH]; simpl; [done|].
  by destruct (bool_decide (key = k')). Qed.

(** A value of the type of its name is inserted. *)
Lemma insertValue_wf dom c itemId value c' : cache_wf dom c ->
  (forall t, MmsDomain_getNamedVariable dom itemId = Done (Some t) -> typed t value) ->
  MmsValueCache_insertValue c itemId value = Done c' -> cache_wf dom c'.
Proof.
  intros (Hd & Hc & He) Ht E. unfold MmsValueCache_insertValue in E. rewrite Hd in E.
  destruct (MmsDomain_getNamedVariable dom itemId) as [[t|]| | |] eqn:Hg; simpl in E; simplify_eq; [|by split].
  split; [done|]. split; [done|]. intros k e. unfold Map_getEntry in *. simpl. rewrite Hc in *.
  rewrite get_entry_app. destruct (get_entry _ _ k) as [e'|] eqn:Hk.
  - intros [= <-]. by apply He.
  - case_bool_decide as Hki; [|done]. intros [= <-]. subst. simpl. auto.
Qed.

Lemma MmsValueCache_create_wf dom : cache_wf dom (MmsValueCache_create dom).
Proof. done. Qed.

Lemma searchCacheForValue_typed dom c fuel itemId parentId rest :
  Forall named (default [] (namedVariables dom)) -> cache_wf dom c ->
  itemId = parentId ++ DOLLAR :: rest -> (length parentId <= fuel)%nat ->
  exists r, searchCacheForValue fuel c itemId parentId = Done r /\
    forall w, r = Some w -> exists t, MmsDomain_getNamedVariable dom itemId = Done (Some t) /\ typed t w.
Proof.
  intros Hn (Hd & Hc & He). revert parentId rest.
  induction fuel as [|fuel IH]; intros parentId rest -> Hf; cbn [searchCacheForValue];
    destruct (Map_getEntry (vc_map c) parentId) as [e|] eqn:Hk.
  2: { destruct parentId; [|simpl in Hf; lia]. simpl. by exists None. }
  3: { destruct (getParentSubString parentId) as [p|] eqn:Hp; [|by exists None].
       apply getParentSubString_spec in Hp as [r2 ->]. rewrite length_app in Hf. simpl in Hf.
       apply (IH p (r2 ++ DOLLAR :: rest)); [by rewrite <- app_assoc|lia]. }
  all: destruct (He _ _ Hk) as [Hg Ht]; rewrite Hd, Hg; cbn [rbind defined].
  all: assert (getChildSubString (parentId ++ DOLLAR :: rest) parentId = rest) as -> by (unfold getChildSubString; by rewrite drop_app_add).
  all: pose proof (MmsDomain_getNamedVariable_named _ _ _ Hn Hg) as Hnt.
  all: destruct (getChildValue_leads _ _ rest Hnt Ht) as (r & -> & Hr); exists r; split; [done|].
  all: intros w Hw; apply Hr in Hw as [t' Hl]; destruct (leads_typed _ _ _ _ _ Hl Hnt Ht) as [H1 H2].
  all: exists t'; split; [|done]; remember (ce_typeSpec e) as t0 eqn:Et; destruct Hl; subst;
    by eapply MmsDomain_getNamedVariable_app.
Qed.

Lemma lookupValue_wf dom c itemId : Forall named (default [] (namedVariables dom)) -> cache_wf dom c ->
  exists r, MmsValueCache_lookupValue c itemId = Done r /\
    forall w, r = Some w -> exists t, MmsDomain_getNamedVariable dom itemId = Done (Some t) /\ typed t w.
Proof.
  intros Hn Hwf. pose proof Hwf as (Hd & _ & He).
  unfold MmsValueCache_lookupValue. destruct (Map_getEntry (vc_map c) itemId) as [e|] eqn:Hk.
  - exists (Some (ce_value e)). split; [done|]. intros w [= <-]. destruct (He _ _ Hk). eauto.
  - destruct (getParentSubString itemId) as [p|] eqn:Hp; [|by exists None].
    apply getParentSubString_spec in Hp as [rest E].
    apply (searchCacheForValue_typed dom c _ itemId p rest Hn Hwf E). rewrite E, length_app. simpl. lia.
Qed.

(** The type of a variable is not checked before its elements are searched: a name
    with two more parts behind an array of simple values makes the server read the
    members of a structure that is not there. *)
Theorem MmsDomain_getNamedVariable_array_crash dom vars var name ts arr n u i k :
  namedVariables dom = Some vars ->
  Forall (fun b => b <> DOLLAR) var -> Forall (fun b => b <> DOLLAR) arr -> Forall (fun b => b <> DOLLAR) i ->
  find_named vars var = Done (Some (SpecStructure name ts)) ->
  find_named ts arr = Done (Some (SpecArray (Some arr) n (SpecSimple None u))) ->
  MmsDomain_getNamedVariable dom (var ++ DOLLAR :: arr ++ DOLLAR :: i ++ DOLLAR :: k) = Ub.
Proof.
  intros Hv H1 H2 H3 Hf Ha. unfold MmsDomain_getNamedVariable. rewrite Hv, strchr_app by done.
  rewrite Hf. cbn [rbind getNamedVariableRecursive]. rewrite strchr_app by done.
  assert (forall get rest, scan_named get arr rest ts = get (SpecSimple None u) rest) as ->.
  { intros get rest. clear Hf. induction ts as [|x ts IH]; [done|]. simpl in *.
    destruct (spec_name x) as [m|]; [|done]. simpl in *. case_bool_decide; [by injection Ha as ->|auto]. }
  cbn [getNamedVariableRecursive]. by rewrite strchr_app.
Qed.

Lemma MmsDomain_getNamedVariable_array_crash_witness :
  MmsDomain_getNamedVariable
    (mkDomain 1 (lit "LD0") (Some [SpecStructure (Some (lit "LN")) [SpecArray (Some (lit "a")) 2 (SpecSimple None T_BOOLEAN)]]) [])
    (lit "LN$a$0$x") = Ub.
Proof.
  apply (MmsDomain_getNamedVariable_array_crash _
    [SpecStructure (Some (lit "LN")) [SpecArray (Some (lit "a")) 2 (SpecSimple None T_BOOLEAN)]] (lit "LN")
    (Some (lit "LN")) [SpecArray (Some (lit "a")) 2 (SpecSimple None T_BOOLEAN)] (lit "a") 2 T_BOOLEAN
    (lit "0") (lit "x")).
  - reflexivity.
  - repeat constructor; discriminate.
  - repeat constructor; discriminate.
  - repeat constructor; discriminate.
  - reflexivity.
  - reflexivity.
Defined.
