(* ===== verification/Control.v ===== *)
(** The control model: src/iedserver/mms_mapping/control.c.  A control object with
    its state machine, the services that clients drive it with (select by reading
    SBO, select with value, operate, cancel), the time activated operation, and the
    thread that executes an operation. *)
From Stdlib Require Import String.
From stdpp Require Import base tactics numbers option list.
From S2P Require Import Prelude Memory BerInteger MmsValue Effects CString MmsTypeSpec.

Definition CONTROL_ERROR_NO_ERROR : Z := 0.

Definition CONTROL_ADD_CAUSE_SELECT_FAILED : Z := 3.
Definition CONTROL_ADD_CAUSE_BLOCKED_BY_INTERLOCKING : Z := 10.
Definition CONTROL_ADD_CAUSE_BLOCKED_BY_SYNCHROCHECK : Z := 11.
Definition CONTROL_ADD_CAUSE_COMMAND_ALREADY_IN_EXECUTION : Z := 12.
Definition CONTROL_ADD_CAUSE_OBJECT_NOT_SELECTED : Z := 18.
Definition CONTROL_ADD_CAUSE_OBJECT_ALREADY_SELECTED : Z := 19.
Definition CONTROL_ADD_CAUSE_INCONSISTENT_PARAMETERS : Z := 26.
Definition CONTROL_ADD_CAUSE_LOCKED_BY_OTHER_CLIENT : Z := 27.

Definition STATE_UNSELECTED : Z := 0.
Definition STATE_READY : Z := 1.
Definition STATE_WAIT_FOR_ACTICATION_TIME : Z := 2.
Definition STATE_PERFORM_TEST : Z := 3.
Definition STATE_WAIT_FOR_EXECUTION : Z := 4.
Definition STATE_OPERATE : Z := 5.

(** stack_config.h *)
Definition CONFIG_CONTROL_DEFAULT_SBO_TIMEOUT : Z := 15000.

(** [MmsDataAccessError] *)
Definition DATA_ACCESS_ERROR_NO_RESPONSE : Z := -2.
Definition DATA_ACCESS_ERROR_SUCCESS : Z := -1.
Definition DATA_ACCESS_ERROR_HARDWARE_FAULT : Z := 1.
Definition DATA_ACCESS_ERROR_TEMPORARILY_UNAVAILABLE : Z := 2.
Definition DATA_ACCESS_ERROR_OBJECT_ACCESS_DENIED : Z := 3.
Definition DATA_ACCESS_ERROR_OBJECT_UNDEFINED : Z := 4.
Definition DATA_ACCESS_ERROR_TYPE_INCONSISTENT : Z := 7.
Definition DATA_ACCESS_ERROR_OBJECT_VALUE_INVALID : Z := 11.

(** [CheckHandlerResult] *)
Definition CONTROL_ACCEPTED : Z := -1.
Definition CONTROL_HARDWARE_FAULT : Z := 1.
Definition CONTROL_TEMPORARILY_UNAVAILABLE : Z := 2.
Definition CONTROL_OBJECT_ACCESS_DENIED : Z := 3.
Definition CONTROL_OBJECT_UNDEFINED : Z := 4.

(** * The control object

    Connections are identified by numbers, [None] being the null pointer.  The
    members [oper], [sbow] and [cancel] point into [mmsValue]: they are the indices
    of its components.  Of the handlers of the application only the presence is
    kept; their answers come from outside. *)
Record ControlObject := mkControl {
  co_mmsDomain : MmsDomain;
  co_lnName : list Z;
  co_name : list Z;
  co_state : Z;
  co_mmsValue : option MmsValue;
  co_typeSpec : option MmsVariableSpecification;
  co_oper : option Z;                    (* the member of [co_mmsValue] *)
  co_sbo : option MmsValue;
  co_sbow : option Z;                    (* the member of [co_mmsValue] *)
  co_cancel : option Z;                  (* the member of [co_mmsValue] *)
  co_ctlVal : option MmsValue;
  co_ctlNum : option MmsValue;
  co_origin : option MmsValue;
  co_ctlObjectName : option (list Z);
  co_error : option MmsValue;
  co_addCause : option MmsValue;
  co_selected : bool;
  co_selectTime : Z;                     (* uint64_t *)
  co_selectTimeout : Z;                  (* uint32_t *)
  co_sboClass : option (list Z);         (* the name of the value in the cache *)
  co_sboTimeout : option (list Z);       (* likewise *)
  co_timeActivatedOperate : bool;
  co_operateTime : Z;                    (* uint64_t *)
  co_clientConnection : option Z;
  co_emptyString : option MmsValue;
  co_initialized : bool;
  co_ctlModel : Z;                       (* uint32_t *)
  co_testMode : bool;
  co_interlockCheck : bool;
  co_synchroCheck : bool;
  co_operateInvokeId : Z;
  co_listener : bool;
  co_checkHandler : bool;
  co_waitForExecutionHandler : bool }.

Definition co_set_state (v : Z) (s : ControlObject) : ControlObject :=
  mkControl (co_mmsDomain s) (co_lnName s) (co_name s) v (co_mmsValue s) (co_typeSpec s)
    (co_oper s) (co_sbo s) (co_sbow s) (co_cancel s) (co_ctlVal s) (co_ctlNum s) (co_origin s)
    (co_ctlObjectName s) (co_error s) (co_addCause s) (co_selected s) (co_selectTime s)
    (co_selectTimeout s) (co_sboClass s) (co_sboTimeout s) (co_timeActivatedOperate s)
    (co_operateTime s) (co_clientConnection s) (co_emptyString s) (co_initialized s)
    (co_ctlModel s) (co_testMode s) (co_interlockCheck s) (co_synchroCheck s)
    (co_operateInvokeId s) (co_listener s) (co_checkHandler s) (co_waitForExecutionHandler s).

Definition co_set_value (v : option MmsValue) (s : ControlObject) : ControlObject :=
  mkControl (co_mmsDomain s) (co_lnName s) (co_name s) (co_state s) v (co_typeSpec s)
    (co_oper s) (co_sbo s) (co_sbow s) (co_cancel s) (co_ctlVal s) (co_ctlNum s) (co_origin s)
    (co_ctlObjectName s) (co_error s) (co_addCause s) (co_selected s) (co_selectTime s)
    (co_selectTimeout s) (co_sboClass s) (co_sboTimeout s) (co_timeActivatedOperate s)
    (co_operateTime s) (co_clientConnection s) (co_emptyString s) (co_initialized s)
    (co_ctlModel s) (co_testMode s) (co_interlockCheck s) (co_synchroCheck s)
    (co_operateInvokeId s) (co_listener s) (co_checkHandler s) (co_waitForExecutionHandler s).

Definition co_set_typeSpec (v : option MmsVariableSpecification) (s : ControlObject) : ControlObject :=
  mkControl (co_mmsDomain s) (co_lnName s) (co_name s) (co_state s) (co_mmsValue s) v
    (co_oper s) (co_sbo s) (co_sbow s) (co_cancel s) (co_ctlVal s) (co_ctlNum s) (co_origin s)
    (co_ctlObjectName s) (co_error s) (co_addCause s) (co_selected s) (co_selectTime s)
    (co_selectTimeout s) (co_sboClass s) (co_sboTimeout s) (co_timeActivatedOperate s)
    (co_operateTime s) (co_clientConnection s) (co_emptyString s) (co_initialized s)
    (co_ctlModel s) (co_testMode s) (co_interlockCheck s) (co_synchroCheck s)
    (co_operateInvokeId s) (co_listener s) (co_checkHandler s) (co_waitForExecutionHandler s).

Definition co_set_members (oper sbow cancel : option Z) (s : ControlObject) : ControlObject :=
  mkControl (co_mmsDomain s) (co_lnName s) (co_name s) (co_state s) (co_mmsValue s)
    (co_typeSpec s) oper (co_sbo s) sbow cancel (co_ctlVal s) (co_ctlNum s) (co_origin s)
    (co_ctlObjectName s) (co_error s) (co_addCause s) (co_selected s) (co_selectTime s)
    (co_selectTimeout s) (co_sboClass s) (co_sboTimeout s) (co_timeActivatedOperate s)
    (co_operateTime s) (co_clientConnection s) (co_emptyString s) (co_initialized s)
    (co_ctlModel s) (co_testMode s) (co_interlockCheck s) (co_synchroCheck s)
    (co_operateInvokeId s) (co_listener s) (co_checkHandler s) (co_waitForExecutionHandler s).

Definition co_set_sbo (v : option MmsValue) (s : ControlObject) : ControlObject :=
  mkControl (co_mmsDomain s) (co_lnName s) (co_name s) (co_state s) (co_mmsValue s)
    (co_typeSpec s) (co_oper s) v (co_sbow s) (co_cancel s) (co_ctlVal s) (co_ctlNum s)
    (co_origin s) (co_ctlObjectName s) (co_error s) (co_addCause s) (co_selected s)
    (co_selectTime s) (co_selectTimeout s) (co_sboClass s) (co_sboTimeout s)
    (co_timeActivatedOperate s) (co_operateTime s) (co_clientConnection s) (co_emptyString s)
    (co_initialized s) (co_ctlModel s) (co_testMode s) (co_interlockCheck s) (co_synchroCheck s)
    (co_operateInvokeId s) (co_listener s) (co_checkHandler s) (co_waitForExecutionHandler s).

Definition co_set_ctlVal (v : option MmsValue) (s : ControlObject) : ControlObject :=
  mkControl (co_mmsDomain s) (co_lnName s) (co_name s) (co_state s) (co_mmsValue s)
    (co_typeSpec s) (co_oper s) (co_sbo s) (co_sbow s) (co_cancel s) v (co_ctlNum s)
    (co_origin s) (co_ctlObjectName s) (co_error s) (co_addCause s) (co_selected s)
    (co_selectTime s) (co_selectTimeout s) (co_sboClass s) (co_sboTimeout s)
    (co_timeActivatedOperate s) (co_operateTime s) (co_clientConnection s) (co_emptyString s)
    (co_initialized s) (co_ctlModel s) (co_testMode s) (co_interlockCheck s) (co_synchroCheck s)
    (co_operateInvokeId s) (co_listener s) (co_checkHandler s) (co_waitForExecutionHandler s).

Definition co_set_parameters (ctlVal ctlNum origin : option MmsValue) (s : ControlObject) : ControlObject :=
  mkControl (co_mmsDomain s) (co_lnName s) (co_name s) (co_state s) (co_mmsValue s)
    (co_typeSpec s) (co_oper s) (co_sbo s) (co_sbow s) (co_cancel s) ctlVal ctlNum origin
    (co_ctlObjectName s) (co_error s) (co_addCause s) (co_selected s) (co_selectTime s)
    (co_selectTimeout s) (co_sboClass s) (co_sboTimeout s) (co_timeActivatedOperate s)
    (co_operateTime s) (co_clientConnection s) (co_emptyString s) (co_initialized s)
    (co_ctlModel s) (co_testMode s) (co_interlockCheck s) (co_synchroCheck s)
    (co_operateInvokeId s) (co_listener s) (co_checkHandler s) (co_waitForExecutionHandler s).

Definition co_set_names (emptyString : option MmsValue) (sboClass ctlObjectName : option (list Z)) (error addCause : option MmsValue) (s : ControlObject) : ControlObject :=
  mkControl (co_mmsDomain s) (co_lnName s) (co_name s) (co_state s) (co_mmsValue s)
    (co_typeSpec s) (co_oper s) (co_sbo s) (co_sbow s) (co_cancel s) (co_ctlVal s) (co_ctlNum s)
    (co_origin s) ctlObjectName error addCause (co_selected s) (co_selectTime s)
    (co_selectTimeout s) sboClass (co_sboTimeout s) (co_timeActivatedOperate s)
    (co_operateTime s) (co_clientConnection s) emptyString (co_initialized s) (co_ctlModel s)
    (co_testMode s) (co_interlockCheck s) (co_synchroCheck s) (co_operateInvokeId s)
    (co_listener s) (co_checkHandler s) (co_waitForExecutionHandler s).

Definition co_set_error (error addCause : option MmsValue) (s : ControlObject) : ControlObject :=
  mkControl (co_mmsDomain s) (co_lnName s) (co_name s) (co_state s) (co_mmsValue s)
    (co_typeSpec s) (co_oper s) (co_sbo s) (co_sbow s) (co_cancel s) (co_ctlVal s) (co_ctlNum s)
    (co_origin s) (co_ctlObjectName s) error addCause (co_selected s) (co_selectTime s)
    (co_selectTimeout s) (co_sboClass s) (co_sboTimeout s) (co_timeActivatedOperate s)
    (co_operateTime s) (co_clientConnection s) (co_emptyString s) (co_initialized s)
    (co_ctlModel s) (co_testMode s) (co_interlockCheck s) (co_synchroCheck s)
    (co_operateInvokeId s) (co_listener s) (co_checkHandler s) (co_waitForExecutionHandler s).

Definition co_set_model (ctlModel : Z) (sbo : option MmsValue) (sboTimeout : option (list Z)) (s : ControlObject) : ControlObject :=
  mkControl (co_mmsDomain s) (co_lnName s) (co_name s) (co_state s) (co_mmsValue s)
    (co_typeSpec s) (co_oper s) sbo (co_sbow s) (co_cancel s) (co_ctlVal s) (co_ctlNum s)
    (co_origin s) (co_ctlObjectName s) (co_error s) (co_addCause s) (co_selected s)
    (co_selectTime s) (co_selectTimeout s) (co_sboClass s) sboTimeout
    (co_timeActivatedOperate s) (co_operateTime s) (co_clientConnection s) (co_emptyString s)
    (co_initialized s) ctlModel (co_testMode s) (co_interlockCheck s) (co_synchroCheck s)
    (co_operateInvokeId s) (co_listener s) (co_checkHandler s) (co_waitForExecutionHandler s).

Definition co_set_initialized (v : bool) (s : ControlObject) : ControlObject :=
  mkControl (co_mmsDomain s) (co_lnName s) (co_name s) (co_state s) (co_mmsValue s)
    (co_typeSpec s) (co_oper s) (co_sbo s) (co_sbow s) (co_cancel s) (co_ctlVal s) (co_ctlNum s)
    (co_origin s) (co_ctlObjectName s) (co_error s) (co_addCause s) (co_selected s)
    (co_selectTime s) (co_selectTimeout s) (co_sboClass s) (co_sboTimeout s)
    (co_timeActivatedOperate s) (co_operateTime s) (co_clientConnection s) (co_emptyString s) v
    (co_ctlModel s) (co_testMode s) (co_interlockCheck s) (co_synchroCheck s)
    (co_operateInvokeId s) (co_listener s) (co_checkHandler s) (co_waitForExecutionHandler s).

Definition co_set_selectTimeout (v : Z) (s : ControlObject) : ControlObject :=
  mkControl (co_mmsDomain s) (co_lnName s) (co_name s) (co_state s) (co_mmsValue s)
    (co_typeSpec s) (co_oper s) (co_sbo s) (co_sbow s) (co_cancel s) (co_ctlVal s) (co_ctlNum s)
    (co_origin s) (co_ctlObjectName s) (co_error s) (co_addCause s) (co_selected s)
    (co_selectTime s) v (co_sboClass s) (co_sboTimeout s) (co_timeActivatedOperate s)
    (co_operateTime s) (co_clientConnection s) (co_emptyString s) (co_initialized s)
    (co_ctlModel s) (co_testMode s) (co_interlockCheck s) (co_synchroCheck s)
    (co_operateInvokeId s) (co_listener s) (co_checkHandler s) (co_waitForExecutionHandler s).

Definition co_set_selection (selectTime : Z) (connection : option Z) (s : ControlObject) : ControlObject :=
  mkControl (co_mmsDomain s) (co_lnName s) (co_name s) (co_state s) (co_mmsValue s)
    (co_typeSpec s) (co_oper s) (co_sbo s) (co_sbow s) (co_cancel s) (co_ctlVal s) (co_ctlNum s)
    (co_origin s) (co_ctlObjectName s) (co_error s) (co_addCause s) true selectTime
    (co_selectTimeout s) (co_sboClass s) (co_sboTimeout s) (co_timeActivatedOperate s)
    (co_operateTime s) connection (co_emptyString s) (co_initialized s) (co_ctlModel s)
    (co_testMode s) (co_interlockCheck s) (co_synchroCheck s) (co_operateInvokeId s)
    (co_listener s) (co_checkHandler s) (co_waitForExecutionHandler s).

Definition co_set_selectTime (v : Z) (s : ControlObject) : ControlObject :=
  mkControl (co_mmsDomain s) (co_lnName s) (co_name s) (co_state s) (co_mmsValue s)
    (co_typeSpec s) (co_oper s) (co_sbo s) (co_sbow s) (co_cancel s) (co_ctlVal s) (co_ctlNum s)
    (co_origin s) (co_ctlObjectName s) (co_error s) (co_addCause s) (co_selected s) v
    (co_selectTimeout s) (co_sboClass s) (co_sboTimeout s) (co_timeActivatedOperate s)
    (co_operateTime s) (co_clientConnection s) (co_emptyString s) (co_initialized s)
    (co_ctlModel s) (co_testMode s) (co_interlockCheck s) (co_synchroCheck s)
    (co_operateInvokeId s) (co_listener s) (co_checkHandler s) (co_waitForExecutionHandler s).

Definition co_set_client (connection : option Z) (invokeId : Z) (s : ControlObject) : ControlObject :=
  mkControl (co_mmsDomain s) (co_lnName s) (co_name s) (co_state s) (co_mmsValue s)
    (co_typeSpec s) (co_oper s) (co_sbo s) (co_sbow s) (co_cancel s) (co_ctlVal s) (co_ctlNum s)
    (co_origin s) (co_ctlObjectName s) (co_error s) (co_addCause s) (co_selected s)
    (co_selectTime s) (co_selectTimeout s) (co_sboClass s) (co_sboTimeout s)
    (co_timeActivatedOperate s) (co_operateTime s) connection (co_emptyString s)
    (co_initialized s) (co_ctlModel s) (co_testMode s) (co_interlockCheck s) (co_synchroCheck s)
    invokeId (co_listener s) (co_checkHandler s) (co_waitForExecutionHandler s).

Definition co_set_testMode (v : bool) (s : ControlObject) : ControlObject :=
  mkControl (co_mmsDomain s) (co_lnName s) (co_name s) (co_state s) (co_mmsValue s)
    (co_typeSpec s) (co_oper s) (co_sbo s) (co_sbow s) (co_cancel s) (co_ctlVal s) (co_ctlNum s)
    (co_origin s) (co_ctlObjectName s) (co_error s) (co_addCause s) (co_selected s)
    (co_selectTime s) (co_selectTimeout s) (co_sboClass s) (co_sboTimeout s)
    (co_timeActivatedOperate s) (co_operateTime s) (co_clientConnection s) (co_emptyString s)
    (co_initialized s) (co_ctlModel s) v (co_interlockCheck s) (co_synchroCheck s)
    (co_operateInvokeId s) (co_listener s) (co_checkHandler s) (co_waitForExecutionHandler s).

Definition co_set_operateTime (v : Z) (s : ControlObject) : ControlObject :=
  mkControl (co_mmsDomain s) (co_lnName s) (co_name s) (co_state s) (co_mmsValue s)
    (co_typeSpec s) (co_oper s) (co_sbo s) (co_sbow s) (co_cancel s) (co_ctlVal s) (co_ctlNum s)
    (co_origin s) (co_ctlObjectName s) (co_error s) (co_addCause s) (co_selected s)
    (co_selectTime s) (co_selectTimeout s) (co_sboClass s) (co_sboTimeout s)
    (co_timeActivatedOperate s) v (co_clientConnection s) (co_emptyString s) (co_initialized s)
    (co_ctlModel s) (co_testMode s) (co_interlockCheck s) (co_synchroCheck s)
    (co_operateInvokeId s) (co_listener s) (co_checkHandler s) (co_waitForExecutionHandler s).

Definition co_set_activation (synchroCheck interlockCheck : bool) (connection : option Z) (s : ControlObject) : ControlObject :=
  mkControl (co_mmsDomain s) (co_lnName s) (co_name s) (co_state s) (co_mmsValue s)
    (co_typeSpec s) (co_oper s) (co_sbo s) (co_sbow s) (co_cancel s) (co_ctlVal s) (co_ctlNum s)
    (co_origin s) (co_ctlObjectName s) (co_error s) (co_addCause s) (co_selected s)
    (co_selectTime s) (co_selectTimeout s) (co_sboClass s) (co_sboTimeout s) true
    (co_operateTime s) connection (co_emptyString s) (co_initialized s) (co_ctlModel s)
    (co_testMode s) interlockCheck synchroCheck (co_operateInvokeId s) (co_listener s)
    (co_checkHandler s) (co_waitForExecutionHandler s).

Definition co_set_timeActivated (v : bool) (s : ControlObject) : ControlObject :=
  mkControl (co_mmsDomain s) (co_lnName s) (co_name s) (co_state s) (co_mmsValue s)
    (co_typeSpec s) (co_oper s) (co_sbo s) (co_sbow s) (co_cancel s) (co_ctlVal s) (co_ctlNum s)
    (co_origin s) (co_ctlObjectName s) (co_error s) (co_addCause s) (co_selected s)
    (co_selectTime s) (co_selectTimeout s) (co_sboClass s) (co_sboTimeout s) v
    (co_operateTime s) (co_clientConnection s) (co_emptyString s) (co_initialized s)
    (co_ctlModel s) (co_testMode s) (co_interlockCheck s) (co_synchroCheck s)
    (co_operateInvokeId s) (co_listener s) (co_checkHandler s) (co_waitForExecutionHandler s).

Definition co_set_handlers (listener check wait : bool) (s : ControlObject) : ControlObject :=
  mkControl (co_mmsDomain s) (co_lnName s) (co_name s) (co_state s) (co_mmsValue s)
    (co_typeSpec s) (co_oper s) (co_sbo s) (co_sbow s) (co_cancel s) (co_ctlVal s) (co_ctlNum s)
    (co_origin s) (co_ctlObjectName s) (co_error s) (co_addCause s) (co_selected s)
    (co_selectTime s) (co_selectTimeout s) (co_sboClass s) (co_sboTimeout s)
    (co_timeActivatedOperate s) (co_operateTime s) (co_clientConnection s) (co_emptyString s)
    (co_initialized s) (co_ctlModel s) (co_testMode s) (co_interlockCheck s) (co_synchroCheck s)
    (co_operateInvokeId s) listener check wait.

Definition ControlObject_create (domain : MmsDomain) (lnName name : list Z) : ControlObject :=
  mkControl domain lnName name 0 None None None None None None None None None None None None
    false 0 0 None None false 0 None None false 0 false false false 0 false false false.

Definition ControlObject_setOper (self : ControlObject) (oper : option Z) : ControlObject :=
  co_set_members oper (co_sbow self) (co_cancel self) self.

Definition ControlObject_setCancel (self : ControlObject) (cancel : option Z) : ControlObject :=
  co_set_members (co_oper self) (co_sbow self) cancel self.

Definition ControlObject_setSBOw (self : ControlObject) (sbow : option Z) : ControlObject :=
  co_set_members (co_oper self) sbow (co_cancel self) self.

Definition ControlObject_setSBO (self : ControlObject) (sbo : option MmsValue) : ControlObject := co_set_sbo sbo self.
Definition ControlObject_setCtlVal (self : ControlObject) (v : option MmsValue) : ControlObject := co_set_ctlVal v self.
Definition ControlObject_setMmsValue (self : ControlObject) (v : option MmsValue) : ControlObject := co_set_value v self.
Definition ControlObject_setTypeSpec (self : ControlObject) (t : option MmsVariableSpecification) : ControlObject :=
  co_set_typeSpec t self.

Definition ControlObject_getName := co_name.
Definition ControlObject_getLNName := co_lnName.
Definition ControlObject_getDomain := co_mmsDomain.
Definition ControlObject_getTypeSpec := co_typeSpec.
Definition ControlObject_getMmsValue := co_mmsValue.
Definition ControlObject_getSBO := co_sbo.

(** A member of the value; [None] for the null pointer. *)
Definition co_member (self : ControlObject) (index : option Z) : option MmsValue :=
  match co_mmsValue self, index with
  | Some v, Some i => MmsValue_getElement v i
  | _, _ => None
  end.

Definition ControlObject_getOper (self : ControlObject) : option MmsValue := co_member self (co_oper self).
Definition ControlObject_getSBOw (self : ControlObject) : option MmsValue := co_member self (co_sbow self).
Definition ControlObject_getCancel (self : ControlObject) : option MmsValue := co_member self (co_cancel self).

(** The member is changed in place: the value that contains it changes too. *)
Definition co_set_oper_value (oper : MmsValue) (self : ControlObject) : ControlObject :=
  match co_mmsValue self, co_oper self with
  | Some v, Some i => co_set_value (Some (MmsValue_setElement v i (Some oper))) self
  | _, _ => self
  end.

Definition ControlObject_installListener (self : ControlObject) : ControlObject :=
  co_set_handlers true (co_checkHandler self) (co_waitForExecutionHandler self) self.
Definition ControlObject_installCheckHandler (self : ControlObject) : ControlObject :=
  co_set_handlers (co_listener self) true (co_waitForExecutionHandler self) self.
Definition ControlObject_installWaitForExecutionHandler (self : ControlObject) : ControlObject :=
  co_set_handlers (co_listener self) (co_checkHandler self) true self.

(** What a control object does to the world around it. *)
Inductive ControlEvent :=
| LastApplError (connection : option Z) (ctlObj : list Z) (error : MmsValue)
    (origin ctlNum : option MmsValue) (addCause : MmsValue) (handlerMode : bool)
| CommandTermination (connection : option Z) (domainId itemId : list Z) (oper : option MmsValue)
| WriteResponse (connection : option Z) (invokeId indication : Z)
| Listener (ctlVal : option MmsValue) (test : bool)
| ThreadStart
| TasksCountUp (handle : Z)
| TasksCountDown (handle : Z).

(** The [ClientConnection] given to a check handler: the one of an MMS connection,
    the null pointer, or the MMS connection itself by a cast. *)
Inductive ClientConnection :=
| ClientOf (handle : Z)
| NoClient
| CastConnection (connection : option Z).

(** What the code asks the rest of the program for: the time, the values of the
    cache, the handlers of the application, the clients that are connected, and the
    id of the last request of a connection. *)
Record ControlEnv := mkEnv {
  e_time : Z;                          (* Hal_getTimeInMs *)
  e_cache : Z -> list Z -> res (option MmsValue); (* MmsServer_getValueFromCache, of the domain at the address *)
  e_check : option MmsValue -> bool -> bool -> ClientConnection -> Z;
  e_wait : option MmsValue -> bool -> bool -> bool;
  e_clients : list Z;
  e_lastInvokeId : Z -> Z }.

(** ** Code over a control object *)

Abbreviation C := (eff ControlObject ControlEvent).

(** The state is read and written under [stateLock]. *)
Definition setState (newState : Z) : C unit := cmodify (co_set_state newState).
Definition getState : C Z := cget co_state.

Section Control.
Context (malloc : Z -> list Z) (env : ControlEnv).

Definition updateSboTimeoutValue : C unit :=
  do! domain := cget co_mmsDomain in
  do! sboTimeout := cget co_sboTimeout in
  match sboTimeout with
  | Some name =>
      do! v := clift (let! v := e_cache env (md_address domain) name in defined v) in
      do! sboTimeoutVal := clift (MmsValue_toInt32 v) in
      cmodify (co_set_selectTimeout (u32 sboTimeoutVal))
  | None => cmodify (co_set_selectTimeout CONFIG_CONTROL_DEFAULT_SBO_TIMEOUT)
  end.

(** A string written to a buffer of [size] bytes with its null. *)
Definition string_in_buffer (size : Z) (s : list Z) : res (list Z) :=
  if size <? zlen s + 1 then Ub else Done s.

Definition initialize : C unit :=
  do! initialized := cget co_initialized in
  if initialized then cret tt
  else
    do! lnName := cget co_lnName in
    do! name := cget co_name in
    do! domain := cget co_mmsDomain in
    let attribute s := lnName ++ lit "$CF$" ++ name ++ s in
    let cached s := clift (e_cache env (md_address domain) (attribute s)) in
    do! ctlModel := cached (lit "$ctlModel") in
    do! sboClass := cached (lit "$sboClass") in
    let sboClass := match sboClass with Some _ => Some (attribute (lit "$sboClass")) | None => None end in
    do! ctlObjectName := clift (string_in_buffer 130
      (MmsDomain_getName domain ++ lit "/" ++ lnName ++ lit "$CO$" ++ name)) in
    do! error := clift (MmsValue_newIntegerFromInt32 0) in
    do! addCause := clift (MmsValue_newIntegerFromInt32 0) in
    do! _ := cmodify (co_set_names (Some (MmsValue_newVisibleString None)) sboClass
      (Some ctlObjectName) (Some error) (Some addCause)) in
    do! _ := match ctlModel with
      | Some v =>
          do! n := clift (MmsValue_toInt32 v) in
          let ctlModelVal := u32 n in
          if (ctlModelVal =? 2) || (ctlModelVal =? 4) then
            let reference := domainName domain ++ lit "/" ++ lnName ++ lit "$" ++ name ++ lit "$SBO" in
            do! sboTimeout := cached (lit "$sboTimeout") in
            let sboTimeout := match sboTimeout with Some _ => Some (attribute (lit "$sboTimeout")) | None => None end in
            do! _ := cmodify (co_set_model ctlModelVal (Some (MmsValue_newVisibleString (Some reference))) sboTimeout) in
            do! _ := updateSboTimeoutValue in
            setState STATE_UNSELECTED
          else
            do! sboTimeout := cget co_sboTimeout in
            do! _ := cmodify (co_set_model ctlModelVal (Some (MmsValue_newVisibleString None)) sboTimeout) in
            setState STATE_READY
      | None => cret tt
      end in
    cmodify (co_set_initialized true).

Definition isSboClassOperateOnce : C bool :=
  do! domain := cget co_mmsDomain in
  do! sboClass := cget co_sboClass in
  match sboClass with
  | Some name =>
      do! v := clift (let! v := e_cache env (md_address domain) name in defined v) in
      do! n := clift (MmsValue_toInt32 v) in
      cret (negb (n =? 1))
  | None => cret true
  end.

Definition is_sbo (ctlModel : Z) : bool := (ctlModel =? 2) || (ctlModel =? 4).

Definition abortControlOperation : C unit :=
  do! ctlModel := cget co_ctlModel in
  if is_sbo ctlModel then
    do! once := isSboClassOperateOnce in
    if once then setState STATE_UNSELECTED else setState STATE_READY
  else setState STATE_READY.

(** ** Parameters of the services

    Elements of a structure whose number of members says which layout it has; the
    null pointer is dereferenced. *)
Definition parameter (value : option MmsValue) (layouts : list (Z * Z)) : res (option MmsValue) :=
  let! v := defined value in
  if bool_decide (MmsValue_getType v = MMS_STRUCTURE) then
    let! size := MmsValue_getArraySize v in
    match find (fun l => fst l =? size) layouts with
    | Some (_, index) => Done (MmsValue_getElement v index)
    | None => Done None
    end
  else Done None.

Definition getOperParameterOperTime (v : option MmsValue) := parameter v [(7, 1)].
Definition getOperParameterCtlNum (v : option MmsValue) := parameter v [(7, 3); (6, 2)].
Definition getCancelParameterCtlNum (v : option MmsValue) := parameter v [(6, 3); (5, 2)].
Definition getCancelParameterOrigin (v : option MmsValue) := parameter v [(6, 2); (5, 1)].
Definition getOperParameterTest (v : option MmsValue) := parameter v [(7, 5); (6, 4)].
Definition getOperParameterCheck (v : option MmsValue) := parameter v [(7, 6); (6, 5)].
Definition getOperParameterOrigin (v : option MmsValue) := parameter v [(7, 2); (6, 1)].

Definition getCtlVal (value : option MmsValue) : res (option MmsValue) :=
  let! v := defined value in
  if bool_decide (MmsValue_getType v = MMS_STRUCTURE) then
    let! size := MmsValue_getArraySize v in
    Done (if 5 <? size then MmsValue_getElement v 0 else None)
  else Done None.

Definition getOperParameterTime (value : option MmsValue) : res (option MmsValue) :=
  let! timeParameter := parameter value [(7, 4); (6, 3)] in
  Done (match timeParameter with
    | Some t => if bool_decide (MmsValue_getType t = MMS_UTC_TIME) then Some t else None
    | None => None
    end).

Definition checkValidityOfOriginParameter (origin : option MmsValue) : res bool :=
  let! origin := defined origin in
  if negb (bool_decide (MmsValue_getType origin = MMS_STRUCTURE)) then Done false
  else
    let! size := MmsValue_getArraySize origin in
    if negb (size =? 2) then Done false
    else
      let! orIdent := defined (MmsValue_getElement origin 1) in
      if negb (bool_decide (MmsValue_getType orIdent = MMS_OCTET_STRING)) then Done false
      else
        let! n := MmsValue_getOctetStringSize orIdent in
        if 64 <? n then Done false
        else
          let! orCat := defined (MmsValue_getElement origin 0) in
          if negb (bool_decide (MmsValue_getType orCat = MMS_INTEGER)) then Done false
          else
            let! orCatIntValue := MmsValue_toInt32 orCat in
            Done (negb ((orCatIntValue <? 0) || (8 <? orCatIntValue))).

Definition updateControlParameters (ctlVal ctlNum origin : option MmsValue) : C unit :=
  do! ctlVal := clift (let! v := defined ctlVal in MmsValue_clone malloc v) in
  do! ctlNum := clift (let! v := defined ctlNum in MmsValue_clone malloc v) in
  do! origin := clift (let! v := defined origin in MmsValue_clone malloc v) in
  cmodify (co_set_parameters (Some ctlVal) (Some ctlNum) (Some origin)).

(** ** Messages to the client *)

Definition ControlObject_sendCommandTerminationReq (connection : option Z) : C unit :=
  do! lnName := cget co_lnName in
  do! name := cget co_name in
  do! itemId := clift (string_in_buffer 130 (lnName ++ lit "$CO$" ++ name ++ lit "$Oper")) in
  do! domain := cget co_mmsDomain in
  do! oper := cget ControlObject_getOper in
  emit (CommandTermination connection (MmsDomain_getName domain) itemId oper).

Definition ControlObject_sendLastApplError (connection : option Z) (ctlVariable : list Z)
    (error addCause : Z) (ctlNum origin : option MmsValue) (handlerMode : bool) : C unit :=
  do! ctlObjectName := cget co_ctlObjectName in
  do! ctlObjectName := clift (defined ctlObjectName) in
  do! ctlObj := clift (string_in_buffer 130 (ctlObjectName ++ lit "$" ++ ctlVariable)) in
  do! e := cget co_error in
  do! e := clift (let! e := defined e in MmsValue_setInt32 e error) in
  do! a := cget co_addCause in
  do! a := clift (let! a := defined a in MmsValue_setInt32 a addCause) in
  do! _ := cmodify (co_set_error (Some e) (Some a)) in
  emit (LastApplError connection ctlObj e origin ctlNum a handlerMode).

(** ** Execution *)

Definition ControlObject_operate (value : option MmsValue) (currentTime : Z) (testCondition : bool)
  : C bool :=
  do! _ := cmodify (co_set_selectTime currentTime) in
  do! listener := cget co_listener in
  do! _ := if listener then emit (Listener value testCondition) else cret tt in
  cret true.

(** [private_IedServer_getClientConnectionByHandle] *)
Definition getClientConnectionByHandle (connection : option Z) : ClientConnection :=
  match connection with
  | Some c => if bool_decide (c ∈ e_clients env) then ClientOf c else NoClient
  | None => NoClient
  end.

(** [controlOperateThread], from start to end. *)
Definition controlOperateThread : C unit :=
  do! connection := cget co_clientConnection in
  match getClientConnectionByHandle connection with
  | ClientOf iedClientConnection =>
      do! _ := emit (TasksCountUp iedClientConnection) in
      do! state := getState in
      let isTimeActivatedControl := state =? STATE_WAIT_FOR_ACTICATION_TIME in
      do! _ := setState STATE_WAIT_FOR_EXECUTION in
      do! ctlVal := cget co_ctlVal in
      do! testMode := cget co_testMode in
      do! synchroCheck := cget co_synchroCheck in
      do! waitHandler := cget co_waitForExecutionHandler in
      let checkOk := if waitHandler then e_wait env ctlVal testMode synchroCheck else true in
      do! ctlNum := cget co_ctlNum in
      do! origin := cget co_origin in
      do! invokeId := cget co_operateInvokeId in
      do! ctlModel := cget co_ctlModel in
      let enhanced := (ctlModel =? 4) || (ctlModel =? 3) in
      do! _ :=
        if negb checkOk then
          do! _ :=
            if isTimeActivatedControl then
              ControlObject_sendLastApplError connection (lit "Oper") CONTROL_ERROR_NO_ERROR
                CONTROL_ADD_CAUSE_BLOCKED_BY_SYNCHROCHECK ctlNum origin false
            else emit (WriteResponse connection invokeId DATA_ACCESS_ERROR_OBJECT_ACCESS_DENIED) in
          abortControlOperation
        else
          do! _ :=
            if isTimeActivatedControl then
              do! _ := ControlObject_sendCommandTerminationReq connection in
              do! oper := cget ControlObject_getOper in
              do! operTm := clift (getOperParameterOperTime oper) in
              do! oper := clift (defined oper) in
              do! operTm := clift (let! t := defined operTm in MmsValue_setUtcTime t 0) in
              cmodify (co_set_oper_value (MmsValue_setElement oper 1 (Some operTm)))
            else emit (WriteResponse connection invokeId DATA_ACCESS_ERROR_SUCCESS) in
          do! _ := setState STATE_OPERATE in
          do! ok := ControlObject_operate ctlVal (e_time env) testMode in
          do! _ :=
            if ok then
              if enhanced then ControlObject_sendCommandTerminationReq connection else cret tt
            else
              if enhanced then
                ControlObject_sendLastApplError connection (lit "Oper") CONTROL_ERROR_NO_ERROR
                  CONTROL_ADD_CAUSE_SELECT_FAILED ctlNum origin false
              else cret tt in
          abortControlOperation in
      emit (TasksCountDown iedClientConnection)
  | _ => cret tt
  end.

Definition startControlOperateThread : C unit := emit ThreadStart.

(** ** Selection *)

Definition selectObject (selectTime : Z) (connection : Z) : C unit :=
  do! _ := updateSboTimeoutValue in
  do! _ := cmodify (co_set_selection selectTime (Some connection)) in
  setState STATE_READY.

Definition checkSelectTimeout (currentTime : Z) : C unit :=
  do! ctlModel := cget co_ctlModel in
  if is_sbo ctlModel then
    do! state := getState in
    if state =? STATE_READY then
      do! selectTimeout := cget co_selectTimeout in
      if 0 <? selectTimeout then
        do! selectTime := cget co_selectTime in
        if u64 (selectTime + selectTimeout) <? currentTime then setState STATE_UNSELECTED else cret tt
      else cret tt
    else cret tt
  else cret tt.

Definition ControlObject_unselect (connection : Z) : C bool :=
  do! clientConnection := cget co_clientConnection in
  if bool_decide (clientConnection = Some connection) then
    do! _ := abortControlOperation in cret true
  else cret false.

(** One object in [Control_processControlActions]; the result of the check handler
    is converted to [bool]. *)
Definition processControlAction (currentTimeInMs : Z) : C unit :=
  do! timeActivatedOperate := cget co_timeActivatedOperate in
  do! operateTime := cget co_operateTime in
  if timeActivatedOperate && (operateTime <=? currentTimeInMs) then
    do! _ := cmodify (co_set_timeActivated false) in
    do! ctlVal := cget co_ctlVal in
    do! testMode := cget co_testMode in
    do! interlockCheck := cget co_interlockCheck in
    do! connection := cget co_clientConnection in
    do! checkHandler := cget co_checkHandler in
    let checkOk := if checkHandler
      then negb (e_check env ctlVal testMode interlockCheck (CastConnection connection) =? 0) else true in
    if checkOk then startControlOperateThread
    else
      do! ctlNum := cget co_ctlNum in
      do! origin := cget co_origin in
      do! _ := ControlObject_sendLastApplError connection (lit "Oper") CONTROL_ERROR_NO_ERROR
        CONTROL_ADD_CAUSE_BLOCKED_BY_INTERLOCKING ctlNum origin false in
      abortControlOperation
  else cret tt.

(** ** The write services *)

(** Select with value. *)
Definition write_SBOw (value : MmsValue) (connection : Z) : C Z :=
  do! ctlModel := cget co_ctlModel in
  if ctlModel =? 4 then
    do! ctlVal := clift (getCtlVal (Some value)) in
    match ctlVal with
    | Some _ =>
        do! ctlNum := clift (getOperParameterCtlNum (Some value)) in
        do! origin := clift (getOperParameterOrigin (Some value)) in
        do! check := clift (getOperParameterCheck (Some value)) in
        do! test := clift (getOperParameterTest (Some value)) in
        do! valid := clift (checkValidityOfOriginParameter origin) in
        if negb valid then cret DATA_ACCESS_ERROR_OBJECT_VALUE_INVALID
        else
          let currentTime := e_time env in
          do! _ := checkSelectTimeout currentTime in
          do! state := getState in
          if negb (state =? STATE_UNSELECTED) then
            do! clientConnection := cget co_clientConnection in
            do! _ := ControlObject_sendLastApplError (Some connection) (lit "SBOw") 0
              (if bool_decide (Some connection = clientConnection)
               then CONTROL_ADD_CAUSE_OBJECT_ALREADY_SELECTED
               else CONTROL_ADD_CAUSE_LOCKED_BY_OTHER_CLIENT) ctlNum origin true in
            cret DATA_ACCESS_ERROR_TEMPORARILY_UNAVAILABLE
          else
            do! interlockCheck := clift (let! v := defined check in MmsValue_getBitStringBit v 1) in
            do! testCondition := clift (let! v := defined test in MmsValue_getBoolean v) in
            do! checkHandler := cget co_checkHandler in
            let checkOk := if checkHandler
              then negb (e_check env ctlVal testCondition interlockCheck
                (getClientConnectionByHandle (Some connection)) =? 0) else true in
            if checkOk then
              do! _ := selectObject currentTime connection in
              do! _ := updateControlParameters ctlVal ctlNum origin in
              cret DATA_ACCESS_ERROR_SUCCESS
            else
              do! _ := ControlObject_sendLastApplError (Some connection) (lit "SBOw") 0
                CONTROL_ADD_CAUSE_SELECT_FAILED ctlNum origin true in
              cret DATA_ACCESS_ERROR_OBJECT_ACCESS_DENIED
    | None => cret DATA_ACCESS_ERROR_OBJECT_VALUE_INVALID
    end
  else cret DATA_ACCESS_ERROR_OBJECT_ACCESS_DENIED.

(** The operation of an object that is ready, once the parameters are accepted: it
    is activated for its time or tested and started. *)
Definition oper_execute (value : MmsValue) (connection : Z) (ctlVal ctlNum origin : option MmsValue)
    (interlockCheck synchroCheck testCondition : bool) : C Z :=
  do! _ := updateControlParameters ctlVal ctlNum origin in
  do! operTm := clift (getOperParameterOperTime (Some value)) in
  do! indication := match operTm with
    | Some t =>
        do! operateTime := clift (MmsValue_getUtcTimeInMs t) in
        do! _ := cmodify (co_set_operateTime operateTime) in
        if negb (operateTime =? 0) then
          do! _ := cmodify (co_set_activation synchroCheck interlockCheck (Some connection)) in
          do! _ := setState STATE_WAIT_FOR_ACTICATION_TIME in
          cret DATA_ACCESS_ERROR_SUCCESS
        else cret DATA_ACCESS_ERROR_OBJECT_ACCESS_DENIED
    | None => cret DATA_ACCESS_ERROR_OBJECT_ACCESS_DENIED
    end in
  do! oper := cget ControlObject_getOper in
  do! oper := clift (let! o := defined oper in let! (_, o) := MmsValue_update o value in Done o) in
  do! _ := cmodify (co_set_oper_value oper) in
  do! timeActivatedOperate := cget co_timeActivatedOperate in
  if timeActivatedOperate then cret indication
  else
    do! _ := setState STATE_PERFORM_TEST in
    do! checkHandler := cget co_checkHandler in
    let checkResult := if checkHandler
      then e_check env ctlVal testCondition interlockCheck (getClientConnectionByHandle (Some connection))
      else CONTROL_ACCEPTED in
    if checkResult =? CONTROL_ACCEPTED then
      do! _ := cmodify (co_set_client (Some connection) (e_lastInvokeId env connection)) in
      do! _ := startControlOperateThread in
      cret DATA_ACCESS_ERROR_NO_RESPONSE
    else
      do! _ := abortControlOperation in
      cret (if checkResult =? CONTROL_HARDWARE_FAULT then DATA_ACCESS_ERROR_HARDWARE_FAULT
        else if checkResult =? CONTROL_TEMPORARILY_UNAVAILABLE then DATA_ACCESS_ERROR_TEMPORARILY_UNAVAILABLE
        else if checkResult =? CONTROL_OBJECT_UNDEFINED then DATA_ACCESS_ERROR_OBJECT_UNDEFINED
        else DATA_ACCESS_ERROR_OBJECT_ACCESS_DENIED).

(** [MmsValue_equals] of a parameter and the one of the selection. *)
Definition same_parameter (v w : option MmsValue) : res bool :=
  let! v := defined v in let! w := defined w in MmsValue_equals v w.

Definition write_Oper (value : MmsValue) (connection : Z) : C Z :=
  do! ctlVal := clift (getCtlVal (Some value)) in
  do! test := clift (getOperParameterTest (Some value)) in
  do! ctlNum := clift (getOperParameterCtlNum (Some value)) in
  do! origin := clift (getOperParameterOrigin (Some value)) in
  do! check := clift (getOperParameterCheck (Some value)) in
  do! timeParameter := clift (getOperParameterTime (Some value)) in
  if negb (forallb (fun p => bool_decide (is_Some p)) [ctlVal; test; ctlNum; origin; check; timeParameter])
  then cret DATA_ACCESS_ERROR_OBJECT_VALUE_INVALID
  else
    do! valid := clift (checkValidityOfOriginParameter origin) in
    if negb valid then cret DATA_ACCESS_ERROR_OBJECT_VALUE_INVALID
    else
      do! _ := checkSelectTimeout (e_time env) in
      do! state := getState in
      if state =? STATE_WAIT_FOR_ACTICATION_TIME then
        do! _ := ControlObject_sendLastApplError (Some connection) (lit "Oper") CONTROL_ERROR_NO_ERROR
          CONTROL_ADD_CAUSE_COMMAND_ALREADY_IN_EXECUTION ctlNum origin true in
        cret DATA_ACCESS_ERROR_TEMPORARILY_UNAVAILABLE
      else if state =? STATE_READY then
        do! interlockCheck := clift (let! v := defined check in MmsValue_getBitStringBit v 1) in
        do! synchroCheck := clift (let! v := defined check in MmsValue_getBitStringBit v 0) in
        do! testCondition := clift (let! v := defined test in MmsValue_getBoolean v) in
        do! _ := cmodify (co_set_testMode testCondition) in
        do! ctlModel := cget co_ctlModel in
        do! clientConnection := cget co_clientConnection in
        if is_sbo ctlModel && negb (bool_decide (clientConnection = Some connection)) then
          cret DATA_ACCESS_ERROR_TEMPORARILY_UNAVAILABLE
        else
          do! consistent :=
            if ctlModel =? 4 then
              do! selectedVal := cget co_ctlVal in
              do! selectedOrigin := cget co_origin in
              do! selectedNum := cget co_ctlNum in
              do! b := clift (same_parameter ctlVal selectedVal) in
              if b then
                do! b := clift (same_parameter origin selectedOrigin) in
                if b then clift (same_parameter ctlNum selectedNum) else cret false
              else cret false
            else cret true in
          if negb consistent then
            do! _ := ControlObject_sendLastApplError (Some connection) (lit "Oper") CONTROL_ERROR_NO_ERROR
              CONTROL_ADD_CAUSE_INCONSISTENT_PARAMETERS ctlNum origin true in
            cret DATA_ACCESS_ERROR_TYPE_INCONSISTENT
          else oper_execute value connection ctlVal ctlNum origin interlockCheck synchroCheck testCondition
      else if state =? STATE_UNSELECTED then
        do! _ := ControlObject_sendLastApplError (Some connection) (lit "Oper") CONTROL_ERROR_NO_ERROR
          CONTROL_ADD_CAUSE_OBJECT_NOT_SELECTED ctlNum origin true in
        cret DATA_ACCESS_ERROR_OBJECT_ACCESS_DENIED
      else cret DATA_ACCESS_ERROR_OBJECT_ACCESS_DENIED.

(** The end of a cancel that the selection has not dealt with. *)
Definition cancel_activation (indication : Z) : C Z :=
  do! timeActivatedOperate := cget co_timeActivatedOperate in
  if timeActivatedOperate then
    do! _ := cmodify (co_set_timeActivated false) in
    do! _ := abortControlOperation in
    cret DATA_ACCESS_ERROR_SUCCESS
  else cret indication.

Definition write_Cancel (value : MmsValue) (connection : Z) : C Z :=
  do! state := getState in
  do! ctlNum := clift (getCancelParameterCtlNum (Some value)) in
  do! origin := clift (getCancelParameterOrigin (Some value)) in
  if negb (bool_decide (is_Some ctlNum) && bool_decide (is_Some origin)) then
    cret DATA_ACCESS_ERROR_TYPE_INCONSISTENT
  else
    do! ctlModel := cget co_ctlModel in
    if is_sbo ctlModel && negb (state =? STATE_UNSELECTED) then
      do! clientConnection := cget co_clientConnection in
      if bool_decide (clientConnection = Some connection) then
        do! _ := setState STATE_UNSELECTED in
        cret DATA_ACCESS_ERROR_SUCCESS
      else
        do! _ := ControlObject_sendLastApplError (Some connection) (lit "Cancel") CONTROL_ERROR_NO_ERROR
          CONTROL_ADD_CAUSE_LOCKED_BY_OTHER_CLIENT ctlNum origin true in
        cancel_activation DATA_ACCESS_ERROR_TEMPORARILY_UNAVAILABLE
    else cancel_activation DATA_ACCESS_ERROR_OBJECT_ACCESS_DENIED.

(** ** Reading *)

(** The read of SBO selects an object of the model "SBO with normal security". *)
Definition read_SBO (connection : Z) : C (option MmsValue) :=
  do! ctlModel := cget co_ctlModel in
  if ctlModel =? 2 then
    let currentTime := e_time env in
    do! emptyString := cget co_emptyString in
    do! _ := checkSelectTimeout currentTime in
    do! state := getState in
    if state =? STATE_UNSELECTED then
      do! checkHandler := cget co_checkHandler in
      let checkOk := if checkHandler
        then negb (e_check env None false false (CastConnection (Some connection)) =? 0) else true in
      if checkOk then
        do! _ := selectObject currentTime connection in
        cget ControlObject_getSBO
      else cret emptyString
    else cret emptyString
  else cget ControlObject_getSBO.

(** ** Names *)

Fixpoint doesElementEquals (element name : list Z) : bool :=
  match name with
  | [] => match element with [] => true | c :: _ => c =? DOLLAR end
  | c :: name =>
      match element with
      | [] => false
      | b :: element => if b =? c then doesElementEquals element name else false
      end
  end.

Definition is_service (element : list Z) : bool :=
  existsb (doesElementEquals element) [lit "Oper"; lit "SBO"; lit "SBOw"; lit "Cancel"].

(** The loop over the elements of the name: the name of the object up to the element
    of the service.  Each turn shortens the rest. *)
Fixpoint find_service (fuel : nat) (objectName varName : list Z) : option (list Z * list Z) :=
  if is_service varName then Some (objectName, varName)
  else
    match MmsMapping_getNextNameElement varName, fuel with
    | Some (element, next), S fuel => find_service fuel (objectName ++ DOLLAR :: element) next
    | _, _ => None
    end.

(** Logical node, object and variable of an item name; its first 128 characters. *)
Definition parse_control_variable (variableIdOrig : list Z)
  : option (list Z * list Z * option (list Z)) :=
  match strchr DOLLAR (take 128 variableIdOrig) with
  | None => None
  | Some (lnName, rest) =>
      match MmsMapping_getNextNameElement rest with
      | None => None
      | Some (_, objectName) =>
          Some match MmsMapping_getNextNameElement objectName with
            | None => (lnName, objectName, None)
            | Some (before, varName) =>
                match find_service (length varName) before varName with
                | Some (object, varName) => (lnName, object, Some varName)
                | None => (lnName, objectName, None)
                end
            end
      end
  end.

Definition read_control (varName : option (list Z)) (connection : Z) : C (option MmsValue) :=
  do! _ := initialize in
  match varName with
  | Some varName =>
      if bool_decide (varName = lit "Oper") then cget ControlObject_getOper
      else if bool_decide (varName = lit "SBOw") then cget ControlObject_getSBOw
      else if bool_decide (varName = lit "SBO") then read_SBO connection
      else if bool_decide (varName = lit "Cancel") then cget ControlObject_getCancel
      else
        do! value := cget ControlObject_getMmsValue in
        do! typeSpec := cget ControlObject_getTypeSpec in
        do! typeSpec := clift (defined typeSpec) in
        clift (MmsValue_getSubElement value typeSpec varName)
  | None => cget ControlObject_getMmsValue
  end.

Definition write_control (varName : list Z) (value : MmsValue) (connection : Z) : C Z :=
  do! _ := initialize in
  if bool_decide (varName = lit "SBOw") then write_SBOw value connection
  else if bool_decide (varName = lit "Oper") then write_Oper value connection
  else if bool_decide (varName = lit "Cancel") then write_Cancel value connection
  else cret DATA_ACCESS_ERROR_OBJECT_ACCESS_DENIED.

(** ** The control objects of a server *)

(** The position of the first object of the name. *)
Fixpoint Control_lookupControlObject (controlObjects : list ControlObject) (domain : MmsDomain)
    (lnName objectName : list Z) : option nat :=
  match controlObjects with
  | [] => None
  | o :: os =>
      if (md_address (ControlObject_getDomain o) =? md_address domain)
         && bool_decide (ControlObject_getLNName o = lnName)
         && bool_decide (ControlObject_getName o = objectName)
      then Some O
      else S <$> Control_lookupControlObject os domain lnName objectName
  end.

(** [c] run on the object at [i]. *)
Definition on_object {A} (i : nat) (c : C A) (controlObjects : list ControlObject)
    (es : list ControlEvent) : res (A * list ControlObject * list ControlEvent) :=
  let! o := defined (controlObjects !! i) in
  let! (a, o, es) := c o es in
  Done (a, <[i := o]> controlObjects, es).

Definition Control_readAccessControlObject (controlObjects : list ControlObject) (domain : MmsDomain)
    (variableIdOrig : list Z) (connection : Z) (es : list ControlEvent)
  : res (option MmsValue * list ControlObject * list ControlEvent) :=
  match parse_control_variable variableIdOrig with
  | None => Done (None, controlObjects, es)
  | Some (lnName, objectName, varName) =>
      match Control_lookupControlObject controlObjects domain lnName objectName with
      | Some i => on_object i (read_control varName connection) controlObjects es
      | None => Done (None, controlObjects, es)
      end
  end.

Definition Control_writeAccessControlObject (controlObjects : list ControlObject) (domain : MmsDomain)
    (variableIdOrig : list Z) (value : MmsValue) (connection : Z) (es : list ControlEvent)
  : res (Z * list ControlObject * list ControlEvent) :=
  match parse_control_variable variableIdOrig with
  | Some (lnName, objectName, Some varName) =>
      match Control_lookupControlObject controlObjects domain lnName objectName with
      | Some i => on_object i (write_control varName value connection) controlObjects es
      | None => Done (DATA_ACCESS_ERROR_OBJECT_ACCESS_DENIED, controlObjects, es)
      end
  | _ => Done (DATA_ACCESS_ERROR_OBJECT_ACCESS_DENIED, controlObjects, es)
  end.

Fixpoint Control_processControlActions (controlObjects : list ControlObject) (currentTimeInMs : Z)
    (es : list ControlEvent) : res (list ControlObject * list ControlEvent) :=
  match controlObjects with
  | [] => Done ([], es)
  | o :: os =>
      let! (_, o, es) := processControlAction currentTimeInMs o es in
      let! (os, es) := Control_processControlActions os currentTimeInMs es in
      Done (o :: os, es)
  end.

(** [unselectControlsForConnection] of mms_mapping.c ends with the first object of
    the connection. *)
Fixpoint unselectControlsForConnection (controlObjects : list ControlObject) (connection : Z)
    (es : list ControlEvent) : res (list ControlObject * list ControlEvent) :=
  match controlObjects with
  | [] => Done ([], es)
  | o :: os =>
      let! (unselected, o, es) := ControlObject_unselect connection o es in
      if unselected then Done (o :: os, es)
      else
        let! (os, es) := unselectControlsForConnection os connection es in
        Done (o :: os, es)
  end.
End Control.
