(* ===== verification/ControlFacts.v ===== *)
(** The control model: the invariant of a control object, what its services grant and
    refuse, the life of an operation, and the cases in which the code grants what it
    should refuse. *)
From Stdlib Require Import String.
From stdpp Require Import base tactics numbers option list.
From S2P Require Import Prelude Memory BerEncode BerInteger MmsValue Effects CString MmsTypeSpec Control.

Ltac keeps_step ::=
  match goal with
  | |- keeps _ (cbind _ _) => apply k_bind; [|intros ?]
  | |- keeps _ (if ?b then _ else _) => destruct b
  | |- keeps _ (match ?o with Some _ => _ | None => _ end) => destruct o
  | |- keeps _ (match ?o with ClientOf _ => _ | NoClient => _ | CastConnection _ => _ end) => destruct o
  | |- keeps _ _ => solve [eauto with keeps nocore]
  | |- keeps _ (cmodify _) => apply k_modify
  end.

(** * The invariant of a control object *)

Definition has_parameters (s : ControlObject) : Prop :=
  is_Some (co_ctlVal s) /\ is_Some (co_ctlNum s) /\ is_Some (co_origin s).

Record co_inv (s : ControlObject) : Prop := mk_co_inv {
  inv_state : 0 <= co_state s <= 5;
  inv_fresh : co_initialized s = false ->
    co_ctlModel s = 0 /\ co_clientConnection s = None /\ co_timeActivatedOperate s = false;
  inv_selected : is_sbo (co_ctlModel s) = true -> co_state s <> STATE_UNSELECTED -> is_Some (co_clientConnection s);
  inv_activated : co_timeActivatedOperate s = true -> is_Some (co_clientConnection s);
  inv_parameters : co_ctlModel s = 4 -> is_Some (co_clientConnection s) -> has_parameters s }.

(** Modifications that touch none of the fields of the invariant. *)
Definition co_core (s : ControlObject) :=
  (co_state s, co_initialized s, co_ctlModel s, (co_clientConnection s, co_timeActivatedOperate s),
   (co_ctlVal s, co_ctlNum s, co_origin s)).

Lemma co_inv_core s s' : co_core s' = co_core s -> co_inv s -> co_inv s'.
Proof.
  unfold co_core. intros [= E1 E2 E3 E4 E5 E6 E7 E8] [H1 H2 H3 H4 H5].
  constructor; unfold has_parameters in *; rewrite ?E1, ?E2, ?E3, ?E4, ?E5, ?E6, ?E7, ?E8; auto.
Qed.

(** Predicates that depend on those fields only. *)
Class Stable (P : ControlObject -> Prop) : Prop :=
  stable : forall s s', co_core s' = co_core s -> P s -> P s'.

#[export] Instance stable_inv : Stable co_inv.
Proof. intros s s'. apply co_inv_core. Qed.

#[export] Instance stable_and P Q : Stable P -> Stable Q -> Stable (fun s => P s /\ Q s).
Proof. intros HP HQ s s' E []. split; [by eapply HP|by eapply HQ]. Qed.

#[export] Instance stable_core {A} (f : _ -> A) (a : A) : Stable (fun s => f (co_core s) = a).
Proof. intros s s' E H. by rewrite E. Qed.

Ltac stable_tac := let s := fresh "s" in intros s; apply (stable s); reflexivity.

Section Steps.
Context (malloc : Z -> list Z) (env : ControlEnv).
Context (P : ControlObject -> Prop) {HP : Stable P}.

Lemma k_neutral f : (forall s, co_core (f s) = co_core s) -> keeps P (cmodify f : C unit).
Proof using HP. intros H. apply k_modify. intros s. by apply HP. Qed.

Lemma k_updateSboTimeoutValue : keeps P (updateSboTimeoutValue env).
Proof using HP. unfold updateSboTimeoutValue. keeps_run; stable_tac. Qed.

Lemma k_sendLastApplError c v e a n o h : keeps P (ControlObject_sendLastApplError c v e a n o h).
Proof using HP. unfold ControlObject_sendLastApplError. keeps_run; stable_tac. Qed.

Lemma k_sendCommandTerminationReq c : keeps P (ControlObject_sendCommandTerminationReq c).
Proof using HP. unfold ControlObject_sendCommandTerminationReq. keeps_run. Qed.

Lemma k_operate v t b : keeps P (ControlObject_operate v t b).
Proof using HP. unfold ControlObject_operate. keeps_run; stable_tac. Qed.

Lemma k_isSboClassOperateOnce : keeps P (isSboClassOperateOnce env).
Proof using HP. unfold isSboClassOperateOnce. keeps_run. Qed.

Lemma k_set_oper_value o : keeps P (cmodify (co_set_oper_value o) : C unit).
Proof using HP. apply k_neutral. intros s. unfold co_set_oper_value. by destruct (co_mmsValue s), (co_oper s). Qed.
End Steps.
#[export] Hint Resolve k_updateSboTimeoutValue k_sendLastApplError k_sendCommandTerminationReq k_operate
  k_isSboClassOperateOnce k_set_oper_value : keeps.

#[export] Hint Extern 1 (Stable _) => (apply _) : keeps.

(** ** The invariant, step by step *)

Lemma inv_set_state v s : co_inv s -> 0 <= v <= 5 ->
  (is_sbo (co_ctlModel s) = true -> v <> STATE_UNSELECTED -> is_Some (co_clientConnection s)) ->
  co_inv (co_set_state v s).
Proof. intros [H1 H2 H3 H4 H5] Hv Hs. by constructor. Qed.

(** With a client every state is allowed. *)
Definition has_client (s : ControlObject) : Prop := is_Some (co_clientConnection s).

(** Side conditions that survive a change of the state and imply a client if that is
    what [need] asks for. *)
Class Side (need : bool) (Q : ControlObject -> Prop) : Prop := {
  side_state v s : Q s -> Q (co_set_state v s);
  side_client s : need = true -> Q s -> is_sbo (co_ctlModel s) = true -> has_client s }.

#[export] Instance side_has_client need : Side need has_client.
Proof. by constructor. Qed.

#[export] Instance side_initialized : Side false (fun s => co_initialized s = true).
Proof. by constructor. Qed.

#[export] Instance side_true : Side false (fun _ => True).
Proof. by constructor. Qed.

#[export] Instance stable_client : Stable has_client.
Proof. intros s s'. unfold co_core, has_client. by intros [= _ _ _ -> _]. Qed.

#[export] Instance stable_initialized : Stable (fun s => co_initialized s = true).
Proof. intros s s'. unfold co_core. by intros [= _ -> _]. Qed.

#[export] Instance stable_true : Stable (fun _ => True).
Proof. by intros s s'. Qed.

#[export] Instance side_and need Q R : Side need Q -> Side false R -> Side need (fun s => Q s /\ R s).
Proof.
  intros [HQ2 HQ3] [HR2 HR3]. constructor.
  - intros v s []. auto.
  - intros s Hn []. auto.
Qed.

Section Sides.
Context (Q : ControlObject -> Prop).

Lemma k_unselect `{!Side false Q} : keeps (fun s => co_inv s /\ Q s) (setState STATE_UNSELECTED).
Proof.
  apply k_modify. intros s [Hs Hq]. split; [|by apply (side_state (need := false))].
  apply inv_set_state; [done|unfold STATE_UNSELECTED; lia|done].
Qed.

Lemma k_setState `{!Side true Q} v : 0 <= v <= 5 -> keeps (fun s => co_inv s /\ Q s) (setState v).
Proof.
  intros Hv. apply k_modify. intros s [Hs Hq]. split; [|by apply (side_state (need := true))].
  apply inv_set_state; [done|done|]. intros Hm _. by apply (side_client (need := true)).
Qed.
End Sides.

#[export] Hint Resolve k_unselect k_setState : keeps.
#[export] Hint Extern 1 (Side _ _) => (apply _) : keeps.
#[export] Hint Extern 5 (0 <= _ <= 5) => (unfold STATE_UNSELECTED, STATE_READY, STATE_WAIT_FOR_ACTICATION_TIME,
  STATE_PERFORM_TEST, STATE_WAIT_FOR_EXECUTION, STATE_OPERATE; lia) : keeps.

Lemma k_abort env Q `{!Stable Q, !Side true Q} : keeps (fun s => co_inv s /\ Q s) (abortControlOperation env).
Proof. unfold abortControlOperation. keeps_run. Qed.

Lemma k_checkSelectTimeout t Q `{!Stable Q, !Side false Q} : keeps (fun s => co_inv s /\ Q s) (checkSelectTimeout t).
Proof. unfold checkSelectTimeout. keeps_run. Qed.
#[export] Hint Resolve k_abort k_checkSelectTimeout : keeps.

Lemma k_controlOperateThread env : keeps co_inv (controlOperateThread env).
Proof.
  unfold controlOperateThread. eapply t_bind; [apply t_get|]. intros connection.
  destruct (getClientConnectionByHandle env connection) as [h| |] eqn:Eh.
  2, 3: by apply t_ret; intros s [].
  apply t_weaken with (fun s => co_inv s /\ has_client s).
  2: { intros s [-> Hs]. split; [done|]. unfold has_client. by destruct (co_clientConnection s). }
  apply t_keeps. keeps_run.
Qed.

Lemma has_client_activated s : co_inv s -> co_timeActivatedOperate s = true -> has_client s.
Proof. intros H. apply (inv_activated s H). Qed.

Lemma inv_set_timeActivated s : co_inv s -> co_inv (co_set_timeActivated false s).
Proof. intros [H1 H2 H3 H4 H5]. constructor; try done. intros Hi. by destruct (H2 Hi) as (? & ? & _). Qed.

Lemma k_processControlAction env t : keeps co_inv (processControlAction env t).
Proof.
  unfold processControlAction. eapply t_bind; [apply t_get|]. intros activated.
  destruct activated.
  2: { apply (k_weaken co_inv); [|by intros s []]. cbn [andb]. keeps_run. }
  apply t_weaken with (fun s => co_inv s /\ has_client s).
  2: { intros s [E Hs]. split; [done|]. by apply has_client_activated. }
  apply t_keeps. keeps_run.
  intros s [Hs Hc]. split; [by apply inv_set_timeActivated|exact Hc].
Qed.

Lemma k_ControlObject_unselect env c : keeps co_inv (ControlObject_unselect env c).
Proof.
  unfold ControlObject_unselect. eapply t_bind; [apply t_get|]. intros connection.
  case_bool_decide as Hc; [|by apply t_ret; intros s []].
  apply t_weaken with (fun s => co_inv s /\ has_client s).
  2: { intros s [E Hs]. split; [done|]. unfold has_client. rewrite <- E, Hc. done. }
  apply t_keeps. keeps_run.
Qed.

(** Before its initialization an object has no client. *)
Definition co_fresh (s : ControlObject) : Prop :=
  0 <= co_state s <= 5 /\ co_clientConnection s = None /\ co_timeActivatedOperate s = false.

#[export] Instance stable_fresh : Stable co_fresh.
Proof. intros s s'. unfold co_core, co_fresh. by intros [= -> _ _ -> -> _]. Qed.

#[export] Instance stable_model n : Stable (fun s => co_ctlModel s = n).
Proof. intros s s'. unfold co_core. by intros [= _ _ -> _]. Qed.

Lemma t_setState_fresh v n : 0 <= v <= 5 -> (is_sbo n = true -> v = STATE_UNSELECTED) ->
  triple (fun s => co_fresh s /\ co_ctlModel s = n) (setState v)
    (fun _ s => co_fresh s /\ (is_sbo (co_ctlModel s) = true -> co_state s = STATE_UNSELECTED)).
Proof. intros Hv Hn. apply t_modify. intros s [(H1 & H2 & H3) H4]. split; [done|]. cbn. by rewrite H4. Qed.

Lemma t_initialize env : triple co_inv (initialize env) (fun _ s => co_inv s /\ co_initialized s = true).
Proof.
  unfold initialize. eapply t_bind; [apply t_get|]. intros [].
  { apply t_ret. by intros s []. }
  apply t_weaken with (fun s => co_fresh s /\ co_ctlModel s = 0).
  2: { intros s [E [H1 H2 _ _ _]]. destruct (H2 (eq_sym E)) as (? & ? & ?). done. }
  do 3 (eapply t_bind; [apply k_get|]; intros ?).
  eapply t_bind; [apply k_lift|]. intros ctlModel. eapply t_bind; [apply k_lift|]. intros sboClass. cbv zeta.
  eapply t_bind; [apply k_lift|]. intros objectName.
  eapply t_bind; [apply k_lift|]. intros error. eapply t_bind; [apply k_lift|]. intros addCause.
  eapply t_bind; [apply k_neutral; [apply _|done]|]. intros ?.
  eapply t_bind.
  - instantiate (1 := fun _ s => co_fresh s /\ (is_sbo (co_ctlModel s) = true -> co_state s = STATE_UNSELECTED)).
    destruct ctlModel as [v|].
    2: { apply t_ret. intros s [H1 H2]. split; [done|]. by rewrite H2. }
    eapply t_bind; [apply k_lift|]. intros n. set (model := u32 n).
    change ((model =? 2) || (model =? 4)) with (is_sbo model). destruct (is_sbo model) eqn:Em.
    + eapply t_bind; [apply k_lift|]. intros sboTimeout. cbv zeta.
      eapply t_bind; [apply (t_modify _ _ (fun _ s => co_fresh s /\ co_ctlModel s = model)); by intros s []|].
      intros ?. eapply t_bind; [apply k_updateSboTimeoutValue; apply _|]. intros ?.
      apply t_setState_fresh; [unfold STATE_UNSELECTED; lia|done].
    + eapply t_bind; [apply k_get|]. intros st.
      eapply t_bind; [apply (t_modify _ _ (fun _ s => co_fresh s /\ co_ctlModel s = model)); by intros s []|].
      intros ?. apply t_setState_fresh; [unfold STATE_READY; lia|by rewrite Em].
  - intros ?. apply t_modify. intros s [(H1 & H2 & H3) H4]. split; [|done].
    constructor; cbn; try done.
    + intros Hs Hu. by destruct Hu; apply H4.
    + by rewrite H3.
    + rewrite H2. by intros _ [].
Qed.

(** Giving the object a client. *)
Definition inv_but_parameters (s : ControlObject) : Prop :=
  0 <= co_state s <= 5 /\ co_initialized s = true /\ has_client s.

#[export] Instance stable_but_parameters : Stable inv_but_parameters.
Proof. intros s s'. unfold co_core, inv_but_parameters, has_client. by intros [= -> -> _ -> _]. Qed.

Lemma inv_of_parts s : inv_but_parameters s -> (co_ctlModel s = 4 -> has_parameters s) -> co_inv s.
Proof. intros (H1 & H2 & H3) H4. constructor; try done; [by rewrite H2|auto]. Qed.

#[export] Instance side_model n : Side false (fun s => co_ctlModel s = n).
Proof. by constructor. Qed.

Definition of_model (n : Z) (s : ControlObject) : Prop := co_initialized s = true /\ co_ctlModel s = n.

#[export] Instance stable_of_model n : Stable (of_model n).
Proof. apply stable_and; apply _. Qed.

#[export] Instance side_of_model n : Side false (of_model n).
Proof. apply side_and; apply _. Qed.

Lemma t_selectObject env t c n :
  triple (fun s => co_inv s /\ of_model n s) (selectObject env t c)
    (fun _ s => inv_but_parameters s /\ co_ctlModel s = n).
Proof.
  unfold selectObject. eapply t_bind; [apply k_updateSboTimeoutValue; apply _|]. intros ?.
  eapply t_bind; [apply (t_modify _ _ (fun _ s => inv_but_parameters s /\ co_ctlModel s = n))|].
  - intros s [Hs [Hi Hm]]. split; [|done]. split; [apply Hs|]. split; [done|]. by eexists.
  - intros ?. apply t_modify. intros s [(H1 & H2 & H3) H4]. split; [|done].
    split; [unfold STATE_READY; cbn; lia|done].
Qed.

Lemma t_updateControlParameters malloc a b c (P : ControlObject -> Prop) :
  (forall x y z s, P s -> P (co_set_parameters (Some x) (Some y) (Some z) s)) ->
  triple P (updateControlParameters malloc a b c) (fun _ s => P s /\ has_parameters s).
Proof.
  intros HP. unfold updateControlParameters. do 3 (eapply t_bind; [apply k_lift|]; intros ?).
  apply t_modify. intros s Hs. split; [auto|]. unfold has_parameters. cbn. eauto.
Qed.

Lemma k_read_SBO env c :
  triple (fun s => co_inv s /\ co_initialized s = true) (read_SBO env c) (fun _ => co_inv).
Proof.
  unfold read_SBO. eapply t_bind; [apply t_get|]. intros model. destruct (Z.eqb_spec model 2) as [->|].
  2: { eapply k_weaken; [apply k_get|]. by intros s (_ & ? & _). }
  apply t_weaken with (fun s => co_inv s /\ of_model 2 s).
  2: { by intros s [E [? ?]]. }
  eapply t_bind; [apply k_get|]. intros ?. eapply t_bind; [apply k_checkSelectTimeout; apply _|]. intros ?.
  eapply t_bind; [apply k_get|]. intros state.
  destruct (state =? _); [|by apply t_ret; intros s [? _]].
  eapply t_bind; [apply k_get|]. intros handler.
  match goal with |- triple _ (if ?b then _ else _) _ => destruct b end; [|by apply t_ret; intros s [? _]].
  eapply t_bind; [apply t_selectObject|]. intros ?.
  eapply k_weaken; [apply k_get|]. intros s [H1 H2]. apply inv_of_parts; [done|]. by rewrite H2.
Qed.

Lemma k_write_SBOw malloc env value c :
  triple (fun s => co_inv s /\ co_initialized s = true) (write_SBOw malloc env value c) (fun _ => co_inv).
Proof.
  unfold write_SBOw. eapply t_bind; [apply t_get|]. intros model. destruct (Z.eqb_spec model 4) as [->|].
  2: { apply t_ret. by intros s (_ & ? & _). }
  apply t_weaken with (fun s => co_inv s /\ of_model 4 s).
  2: { by intros s [E [? ?]]. }
  eapply t_bind; [apply k_lift|]. intros [ctlVal|]; [|by apply t_ret; intros s [? _]].
  do 5 (eapply t_bind; [apply k_lift|]; intros ?). apply t_if; [by intros _; apply t_ret; intros s [? _]|intros _].
  eapply t_bind; [apply k_checkSelectTimeout; apply _|]. intros ?. eapply t_bind; [apply k_get|]. intros state.
  apply t_if; intros _.
  { apply t_keeps. keeps_run. }
  do 2 (eapply t_bind; [apply k_lift|]; intros ?). eapply t_bind; [apply k_get|]. intros handler.
  match goal with |- triple _ (if ?b then _ else _) _ => destruct b end.
  2: { apply t_keeps. keeps_run. }
  eapply t_bind; [apply t_selectObject|]. intros ?.
  eapply t_bind; [apply (t_updateControlParameters _ _ _ _ (fun s => inv_but_parameters s /\ co_ctlModel s = 4)); done|].
  intros ?. apply t_ret. intros s [[H1 _] H2]. by apply inv_of_parts.
Qed.

Lemma inv_with_client s c i : co_inv s -> co_initialized s = true -> has_parameters s ->
  co_inv (co_set_client (Some c) i s).
Proof. intros [H1 H2 H3 H4 H5] Hi Hp. constructor; cbn; try done. by rewrite Hi. Qed.

Lemma inv_activation s a b c : co_inv s -> co_initialized s = true -> has_parameters s ->
  co_inv (co_set_activation a b (Some c) s).
Proof. intros [H1 H2 H3 H4 H5] Hi Hp. constructor; cbn; try done. by rewrite Hi. Qed.

Lemma inv_parameters_set x y z s : co_inv s -> co_inv (co_set_parameters (Some x) (Some y) (Some z) s).
Proof. intros [H1 H2 H3 H4 H5]. by constructor. Qed.

(** What an operation starts from. *)
Definition oper_side (s : ControlObject) : Prop :=
  co_initialized s = true /\ has_parameters s /\ (is_sbo (co_ctlModel s) = true -> has_client s).

#[export] Instance stable_oper_side : Stable oper_side.
Proof.
  intros s s'. unfold co_core, oper_side, has_client, has_parameters.
  by intros [= _ -> -> -> _ -> -> ->].
Qed.

#[export] Instance side_oper need : Side need oper_side.
Proof. constructor; [done|]. by intros s _ (_ & _ & ?). Qed.

Lemma k_oper_execute malloc env value c a b d i j k :
  triple (fun s => co_inv s /\ co_initialized s = true /\ (is_sbo (co_ctlModel s) = true -> has_client s))
    (oper_execute malloc env value c a b d i j k) (fun _ => co_inv).
Proof.
  unfold oper_execute. eapply t_bind; [apply t_updateControlParameters|].
  { intros x y z s (H1 & H2 & H3). split; [by apply inv_parameters_set|done]. }
  intros ?. apply t_weaken with (fun s => co_inv s /\ oper_side s).
  2: { by intros s [(H1 & H2 & H3) H4]. }
  eapply t_bind; [apply k_lift|]. intros operTm.
  eapply t_bind; [instantiate (1 := fun _ s => co_inv s /\ oper_side s)|].
  { match goal with |- triple ?P ?c _ => change (keeps P c) end. keeps_run.
    - intros s. by apply (stable (P := fun s => co_inv s /\ oper_side s)).
    - intros s [Hs (H1 & H2 & H3)]. split; [by apply inv_activation|].
      split; [done|split; [done|]]. intros _. by eexists. }
  intros indication. eapply t_bind; [apply k_get|]. intros ?. eapply t_bind; [apply k_lift|]. intros ?.
  eapply t_bind; [apply k_set_oper_value; apply _|]. intros ?.
  eapply t_bind; [apply k_get|]. intros [|]; [by apply t_ret; intros s [? _]|].
  apply t_keeps. keeps_run. intros s [Hs (H1 & H2 & H3)]. split; [by apply inv_with_client|].
  split; [done|split; [done|]]. intros _. by eexists.
Qed.

Lemma k_write_Oper malloc env value c :
  triple (fun s => co_inv s /\ co_initialized s = true) (write_Oper malloc env value c) (fun _ => co_inv).
Proof.
  unfold write_Oper. do 6 (eapply t_bind; [apply k_lift|]; intros ?).
  apply t_if; [by intros _; apply t_ret; intros s [? _]|intros _]. eapply t_bind; [apply k_lift|]. intros valid.
  apply t_if; [by intros _; apply t_ret; intros s [? _]|intros _].
  eapply t_bind; [apply k_checkSelectTimeout; apply _|]. intros ?. eapply t_bind; [apply k_get|]. intros state.
  apply t_if; intros _; [apply t_keeps; keeps_run|]. apply t_if; intros _; [|apply t_keeps; keeps_run].
  do 3 (eapply t_bind; [apply k_lift|]; intros ?).
  eapply t_bind; [apply k_neutral; [apply _|done]|]. intros ?.
  eapply t_bind; [apply t_get|]. intros model. eapply t_bind; [apply t_get|]. intros client.
  apply t_if; intros Hc; [by apply t_ret; intros s (_ & _ & ? & _)|].
  apply t_weaken with (fun s => (co_inv s /\ co_initialized s = true) /\ (is_sbo (co_ctlModel s) = true -> has_client s)).
  { eapply t_bind.
    - instantiate (1 := fun _ s => (co_inv s /\ co_initialized s = true) /\ (is_sbo (co_ctlModel s) = true -> has_client s)).
      match goal with |- triple ?P ?c _ => change (keeps P c) end. keeps_run.
    - intros consistent. apply t_if; intros _.
      + eapply t_bind; [apply k_sendLastApplError|]; [|intros ?; by apply t_ret; intros s [[? _] _]].
        intros s s' E. unfold has_client. pose proof E as E'. unfold co_core in E. injection E as _ E2 E3 E4 _ _ _ _.
        rewrite E2, E3, E4. intros [[H1 H2] H3]. split; [split; [by eapply co_inv_core|done]|done].
      + eapply t_weaken; [apply k_oper_execute|]. by intros s [[? ?] ?]. }
  intros s (Hcl & Hm & Hs). split; [done|]. rewrite <- Hm. intros Hb. rewrite Hb in Hc. cbn [andb] in Hc.
  apply negb_false_iff, bool_decide_eq_true in Hc. exists c. by rewrite <- Hcl.
Qed.

Lemma k_write_Cancel env value c :
  triple (fun s => co_inv s /\ co_initialized s = true) (write_Cancel env value c) (fun _ => co_inv).
Proof.
  assert (forall i, keeps co_inv (cancel_activation env i)) as Hend.
  { intros i. unfold cancel_activation. eapply t_bind; [apply t_get|]. intros [].
    2: { apply t_ret. by intros s []. }
    apply t_weaken with (fun s => co_inv s /\ has_client s).
    2: { intros s [E Hs]. split; [done|]. by apply has_client_activated. }
    apply t_keeps. keeps_run. intros s [Hs Hc]. split; [by apply inv_set_timeActivated|exact Hc]. }
  apply t_weaken with (fun s => co_inv s /\ True). 2: by intros s [].
  unfold write_Cancel. eapply t_bind; [apply k_get|]. intros state.
  do 2 (eapply t_bind; [apply k_lift|]; intros ?). apply t_if; intros _; [by apply t_ret; intros s []|].
  eapply t_bind; [apply k_get|]. intros model. apply t_if; intros _.
  - eapply t_bind; [apply k_get|]. intros client. case_bool_decide.
    + apply t_keeps. keeps_run.
    + eapply t_bind; [apply k_sendLastApplError; apply _|]. intros ?. eapply t_weaken; [apply Hend|]. by intros s [].
  - eapply t_weaken; [apply Hend|]. by intros s [].
Qed.

Lemma k_write_control malloc env name value c : keeps co_inv (write_control malloc env name value c).
Proof.
  unfold write_control. eapply t_bind; [apply t_initialize|]. intros ?.
  repeat case_bool_decide; [apply k_write_SBOw|apply k_write_Oper|apply k_write_Cancel|].
  apply t_ret. by intros s [].
Qed.

Lemma k_read_control env name c : keeps co_inv (read_control env name c).
Proof.
  unfold read_control. eapply t_bind; [apply t_initialize|]. intros ?.
  destruct name as [name|]; [|eapply k_weaken; [apply k_get|by intros s []]].
  repeat case_bool_decide; try (eapply k_weaken; [apply k_get|by intros s []]).
  - apply k_read_SBO.
  - eapply k_weaken with (P := co_inv); [keeps_run|by intros s []].
Qed.

(** ** Every state an object can reach *)

(** The set-up of an object by the server, and everything that happens to it
    afterwards, each step with the world as it is then. *)
Inductive control_reachable (malloc : Z -> list Z) : ControlObject -> Prop :=
| cr_create domain lnName name : control_reachable malloc (ControlObject_create domain lnName name)
| cr_setMmsValue s v : control_reachable malloc s -> control_reachable malloc (ControlObject_setMmsValue s v)
| cr_setTypeSpec s t : control_reachable malloc s -> control_reachable malloc (ControlObject_setTypeSpec s t)
| cr_setOper s i : control_reachable malloc s -> control_reachable malloc (ControlObject_setOper s i)
| cr_setCancel s i : control_reachable malloc s -> control_reachable malloc (ControlObject_setCancel s i)
| cr_setSBOw s i : control_reachable malloc s -> control_reachable malloc (ControlObject_setSBOw s i)
| cr_setSBO s v : control_reachable malloc s -> control_reachable malloc (ControlObject_setSBO s v)
| cr_listener s : control_reachable malloc s -> control_reachable malloc (ControlObject_installListener s)
| cr_check s : control_reachable malloc s -> control_reachable malloc (ControlObject_installCheckHandler s)
| cr_wait s : control_reachable malloc s -> control_reachable malloc (ControlObject_installWaitForExecutionHandler s)
| cr_read s env name c es r s' es' : control_reachable malloc s ->
    read_control env name c s es = Done (r, s', es') -> control_reachable malloc s'
| cr_write s env name value c es r s' es' : control_reachable malloc s ->
    write_control malloc env name value c s es = Done (r, s', es') -> control_reachable malloc s'
| cr_thread s env es r s' es' : control_reachable malloc s ->
    controlOperateThread env s es = Done (r, s', es') -> control_reachable malloc s'
| cr_action s env t es r s' es' : control_reachable malloc s ->
    processControlAction env t s es = Done (r, s', es') -> control_reachable malloc s'
| cr_unselect s env c es r s' es' : control_reachable malloc s ->
    ControlObject_unselect env c s es = Done (r, s', es') -> control_reachable malloc s'.

(** The invariant of a control object, whatever clients, time and application do:
    the state is one of the six; a select-before-operate object that is not
    unselected has a client; a pending time activated operation has one; and the
    parameters of the selection, which operate compares with, are there. *)
Lemma object_inv malloc s : control_reachable malloc s -> co_inv s.
Proof.
  induction 1 as [domain lnName name| | | | | | | | | |s env name c es r s' es' _ IH E
    |s env name value c es r s' es' _ IH E|s env es r s' es' _ IH E|s env t es r s' es' _ IH E
    |s env c es r s' es' _ IH E].
  - constructor; cbn; try done.
  - by eapply co_inv_core, IHcontrol_reachable.
  - by eapply co_inv_core, IHcontrol_reachable.
  - by eapply co_inv_core, IHcontrol_reachable.
  - by eapply co_inv_core, IHcontrol_reachable.
  - by eapply co_inv_core, IHcontrol_reachable.
  - by eapply co_inv_core, IHcontrol_reachable.
  - by eapply co_inv_core, IHcontrol_reachable.
  - by eapply co_inv_core, IHcontrol_reachable.
  - by eapply co_inv_core, IHcontrol_reachable.
  - by eapply k_read_control.
  - by eapply k_write_control.
  - by eapply k_controlOperateThread.
  - by eapply k_processControlAction.
  - by eapply k_ControlObject_unselect.
Qed.

Definition sample_object : ControlObject :=
  ControlObject_create (MmsDomain_create 1 (lit "LD0")) (lit "GGIO1") (lit "SPCSO1").

(** A server whose cache says that the object is of the model [n], at time [t]. *)
Definition sample_env (n t : Z) : ControlEnv :=
  mkEnv t (fun _ name => Done (if bool_decide (name = lit "GGIO1$CF$SPCSO1$ctlModel")
    then Some (Simple 0 (V_INTEGER (mkAsn1 1 4 [n; 0; 0; 0]))) else None))
    (fun _ _ _ _ => CONTROL_ACCEPTED) (fun _ _ _ => true) [7] (fun _ => 1).
