(* ===== verification/ControlSafety.v ===== *)
(** What the control services grant and refuse: an operation is started only for the
    client that selected the object, with the parameters of the selection; another
    client changes nothing; what the thread of an operation sends.  Then the cases in
    which the code grants what it should refuse: a cancelled operation that is executed
    all the same, check handlers that are not listened to, select parameters that are
    not checked, and objects that stay selected when their client is gone. *)
From Stdlib Require Import String.
From stdpp Require Import base tactics numbers option list.
From S2P Require Import Prelude Memory BerEncode BerInteger MmsValue Effects CString MmsTypeSpec Control ControlFacts.

Ltac unfold_steps ::= unfold getState, setState, startControlOperateThread in *.

(** * The timeout of a selection *)

Definition timed_out (t : Z) (s : ControlObject) : bool :=
  is_sbo (co_ctlModel s) && (co_state s =? STATE_READY) && (0 <? co_selectTimeout s)
  && (u64 (co_selectTime s + co_selectTimeout s) <? t).

(** The object as a service finds it at [t]. *)
Definition timed (t : Z) (s : ControlObject) : ControlObject :=
  if timed_out t s then co_set_state STATE_UNSELECTED s else s.

Lemma checkSelectTimeout_run t s es : checkSelectTimeout t s es = Done (tt, timed t s, es).
Proof.
  unfold checkSelectTimeout, timed, timed_out, cbind, cget, getState, cret, rbind.
  destruct (is_sbo _); [|done]. cbn [andb]. unfold cbind, cget, rbind. destruct (co_state s =? STATE_READY); [|done].
  cbn [andb]. destruct (0 <? co_selectTimeout s); [|done]. cbn [andb].
  by destruct (u64 _ <? t).
Qed.

Lemma checkSelectTimeout_inv t s es u s' es' : checkSelectTimeout t s es = Done (u, s', es') ->
  s' = timed t s /\ es' = es.
Proof. rewrite checkSelectTimeout_run. by intros [= <- <- <-]. Qed.

Ltac run_call H ::=
  match type of H with
  | setState _ _ _ = Done _ => apply cmodify_inv in H as (? & ?)
  | getState _ _ = Done _ => apply cget_inv in H as (? & ? & ?)
  | checkSelectTimeout _ _ _ = Done _ => apply checkSelectTimeout_inv in H as (? & ?)
  | startControlOperateThread _ _ = Done _ => apply emit_inv in H as (? & ?)
  end.

Lemma timed_model t s : co_ctlModel (timed t s) = co_ctlModel s.
Proof. unfold timed. by destruct (timed_out t s). Qed.

Lemma timed_client t s : co_clientConnection (timed t s) = co_clientConnection s.
Proof. unfold timed. by destruct (timed_out t s). Qed.

Lemma timed_parameters t s :
  (co_ctlVal (timed t s), co_ctlNum (timed t s), co_origin (timed t s)) = (co_ctlVal s, co_ctlNum s, co_origin s).
Proof. unfold timed. by destruct (timed_out t s). Qed.

(** * Refusal

    A service that is refused tells its client at most the reason, and leaves what
    decides about later services alone, but that a selection may time out. *)
Definition is_error (c : Z) (e : ControlEvent) : Prop :=
  match e with LastApplError (Some c') _ _ _ _ _ _ => c' = c | _ => False end.

(** The test modes that an object can have after a write to [name] was refused: its own,
    or, when it is ready and [name] is Oper, that of the parameter Test, which the code
    takes over before it looks at the client and the other parameters. *)
Definition test_modes (t : Z) (name : list Z) (value : MmsValue) (s : ControlObject) (b : bool) : Prop :=
  b = co_testMode s \/
  name = lit "Oper" /\ co_state (timed t s) = STATE_READY /\
  (let! v := getOperParameterTest (Some value) in let! v := defined v in MmsValue_getBoolean v) = Done b.

(** The object is as it was, all members of it, but that its selection may have timed out,
    the error and the reason of the last error message may be new, and the test mode
    is one of [test]. *)
Definition left_alone (t : Z) (test : bool -> Prop) (s s' : ControlObject) : Prop :=
  exists s0 error addCause b, (s0 = s \/ s0 = timed t s) /\ test b /\
    s' = co_set_error error addCause (co_set_testMode b s0).

Definition quiet (t c : Z) (test : bool -> Prop) (s : ControlObject) (es : list ControlEvent) (s' : ControlObject)
    (es' : list ControlEvent) : Prop :=
  left_alone t test s s' /\ exists new, es' = es ++ new /\ Forall (is_error c) new.

Definition refused (t c : Z) (test : bool -> Prop) (s : ControlObject) (es : list ControlEvent) (r : Z) (s' : ControlObject)
    (es' : list ControlEvent) : Prop := 0 < r /\ quiet t c test s es s' es'.

Lemma timed_test t s : co_testMode (timed t s) = co_testMode s.
Proof. unfold timed. by destruct (timed_out t s). Qed.

Lemma alone_test t (test : bool -> Prop) b s s0 : test b -> s0 = s \/ s0 = timed t s -> left_alone t test s (co_set_testMode b s0).
Proof. intros Hb Hs. exists s0, (co_error s0), (co_addCause s0), b. split; [done|]. split; [done|]. by destruct s0. Qed.

Lemma alone_same t (test : bool -> Prop) s s0 : test (co_testMode s) -> s0 = s \/ s0 = timed t s -> left_alone t test s s0.
Proof.
  intros Hb Hs. replace s0 with (co_set_testMode (co_testMode s) s0); [by apply alone_test|].
  destruct Hs as [-> | ->]; [by destruct s|]. rewrite <- (timed_test t s). by destruct (timed t s).
Qed.

Lemma alone_error t test e a s s1 : left_alone t test s s1 -> left_alone t test s (co_set_error e a s1).
Proof. intros (s0 & e1 & a1 & b & Hs & Hb & ->). by exists s0, e, a, b. Qed.

Lemma alone_core t test s s' : left_alone t test s s' -> co_core s' = co_core s \/ co_core s' = co_core (timed t s).
Proof. intros (s0 & e & a & b & [-> | ->] & _ & ->); [by left|by right]. Qed.

Lemma quiet_here t c test s es s' : left_alone t test s s' -> quiet t c test s es s' es.
Proof. intros Hs. split; [done|]. exists []. by rewrite app_nil_r. Qed.

Lemma sendLastApplError_quiet t c test v e a n o h s0 s es u s' es' :
  ControlObject_sendLastApplError (Some c) v e a n o h s es = Done (u, s', es') ->
  left_alone t test s0 s -> quiet t c test s0 es s' es'.
Proof.
  unfold ControlObject_sendLastApplError. intros H Hs. run_inv. split; [by apply alone_error|].
  eexists. split; [done|]. repeat constructor.
Qed.

(** ** Operate *)

(** The parameter of [value] that [get] finds equals the one of the selection. *)
Definition parameter_agrees (get : option MmsValue -> res (option MmsValue)) (selected : option MmsValue)
    (value : MmsValue) : Prop :=
  exists v, get (Some value) = Done v /\ same_parameter v selected = Done true.

(** What entitles the client [c] to operate the object at [t]. *)
Record authorised (t : Z) (value : MmsValue) (c : Z) (s : ControlObject) : Prop := mk_authorised {
  auth_ready : co_state (timed t s) = STATE_READY;
  auth_owner : is_sbo (co_ctlModel s) = true -> co_clientConnection s = Some c;
  auth_parameters : co_ctlModel s = 4 ->
    parameter_agrees getCtlVal (co_ctlVal s) value /\
    parameter_agrees getOperParameterOrigin (co_origin s) value /\
    parameter_agrees getOperParameterCtlNum (co_ctlNum s) value }.

Lemma refused_modes t c (test test' : bool -> Prop) s es r s' es' : refused t c test s es r s' es' ->
  (forall b, test b -> test' b) -> refused t c test' s es r s' es'.
Proof. intros (Hr & (s0 & e & a & b & Hs & Hb & ->) & Hn) Ht. split; [done|]. split; [|done]. exists s0, e, a, b. auto. Qed.

(** The test mode of the write. *)
Ltac tested :=
  right; split; [done|]; split; [by apply Z.eqb_eq|];
  match goal with H : getOperParameterTest _ = Done _ |- _ => rewrite H end; cbn [rbind]; assumption.

Ltac errors := unfold DATA_ACCESS_ERROR_OBJECT_VALUE_INVALID, DATA_ACCESS_ERROR_TEMPORARILY_UNAVAILABLE,
  DATA_ACCESS_ERROR_TYPE_INCONSISTENT, DATA_ACCESS_ERROR_OBJECT_ACCESS_DENIED.

Ltac refuse_with H := errors; split; [lia|exact H].

(** The object is left alone, but perhaps for its test mode. *)
Ltac alone :=
  first [ apply alone_same; [done || by left|]; first [by left | by right]
        | apply alone_test; [|first [by left | by right]] ].

(** The branches that refuse. *)
Ltac refuse :=
  errors; split; [lia|];
  first [ apply quiet_here; alone | eapply sendLastApplError_quiet; [eassumption|]; alone ].

Lemma authorised_here t b value c s :
  (co_state (timed t s) =? STATE_READY) = true ->
  is_sbo (co_ctlModel (co_set_testMode b (timed t s))) &&
    negb (bool_decide (co_clientConnection (co_set_testMode b (timed t s)) = Some c)) = false ->
  ((co_ctlModel (co_set_testMode b (timed t s)) =? 4) = true ->
    parameter_agrees getCtlVal (co_ctlVal (timed t s)) value /\
    parameter_agrees getOperParameterOrigin (co_origin (timed t s)) value /\
    parameter_agrees getOperParameterCtlNum (co_ctlNum (timed t s)) value) ->
  authorised t value c s.
Proof.
  cbn. rewrite timed_model, timed_client. pose proof (timed_parameters t s) as [= -> -> ->].
  intros H1 H2 H3. constructor; [by apply Z.eqb_eq| |].
  - intros Hm. rewrite Hm in H2. by apply negb_false_iff, bool_decide_eq_true in H2.
  - intros Hm. apply H3. by rewrite Hm.
Qed.

Lemma write_Oper_paths malloc env value c s es r s' es' :
  write_Oper malloc env value c s es = Done (r, s', es') ->
  authorised (e_time env) value c s \/
  refused (e_time env) c (test_modes (e_time env) (lit "Oper") value s) s es r s' es'.
Proof.
  unfold write_Oper. intros H. run_inv; try discriminate; try (right; refuse; tested).
  all: left; eapply authorised_here; [eassumption..|]; intros Hm; try congruence.
  all: split; [|split]; eexists; split; try eassumption.
  by match goal with H : negb ?b = false |- _ => apply negb_false_iff in H; subst end.
Qed.

(** C33: A client can operate an object only if it may: whatever a client writes to Oper of
    an object that is initialized, either the object is ready (and its selection has not
    timed out), the client is the one that selected it where a selection is asked for, and
    with enhanced security the value, the origin and the control number are those of the
    selection; or the write is refused with an error, no operation is started or scheduled,
    nobody else is told anything, and every member of the object is as it was, but that its
    selection may have timed out, that the last error message is recorded, and that the
    object, if it is ready, takes over the test mode of the write: [co_testMode] is set
    before the client and the other parameters are checked. *)
Theorem Control_operate_authorised malloc env value c s es r s' es' :
  co_initialized s = true ->
  write_control malloc env (lit "Oper") value c s es = Done (r, s', es') ->
  authorised (e_time env) value c s \/
  refused (e_time env) c (test_modes (e_time env) (lit "Oper") value s) s es r s' es'.
Proof.
  intros Hi. unfold write_control, initialize, cbind, cget, rbind. rewrite Hi. unfold cret, cbind.
  apply write_Oper_paths.
Qed.

(** ** Selection *)

(** The object is selected by the client [o] at [t]. *)
Record selected_by (t o : Z) (s : ControlObject) : Prop := mk_selected {
  sel_initialized : co_initialized s = true;
  sel_model : is_sbo (co_ctlModel s) = true;
  sel_state : co_state (timed t s) <> STATE_UNSELECTED;
  sel_owner : co_clientConnection s = Some o;
  sel_activated : co_timeActivatedOperate s = false }.

Lemma selected_state t o s : selected_by t o s -> co_state s <> STATE_UNSELECTED.
Proof. intros [_ _ H _ _]. unfold timed in H. by destruct (timed_out t s). Qed.

Lemma selected_activated t o s : selected_by t o s -> co_timeActivatedOperate (timed t s) = false.
Proof. intros [_ _ _ _ H]. unfold timed. by destruct (timed_out t s). Qed.

Lemma write_SBOw_selected malloc env value o c s es r s' es' :
  selected_by (e_time env) o s ->
  write_SBOw malloc env value c s es = Done (r, s', es') -> refused (e_time env) c (eq (co_testMode s)) s es r s' es'.
Proof.
  unfold write_SBOw. intros Hs H. run_inv; try refuse.
  all: match goal with E : negb (_ =? STATE_UNSELECTED) = false |- _ =>
    apply negb_false_iff, Z.eqb_eq in E; by destruct (sel_state _ _ _ Hs) end.
Qed.

Lemma cancel_activation_inactive env i s es r s' es' : co_timeActivatedOperate s = false ->
  cancel_activation env i s es = Done (r, s', es') -> r = i /\ s' = s /\ es' = es.
Proof. unfold cancel_activation, cbind, cget, rbind. intros ->. by intros [= <- <- <-]. Qed.

Lemma write_Cancel_selected env value o c s es r s' es' : selected_by (e_time env) o s -> c <> o ->
  write_Cancel env value c s es = Done (r, s', es') -> refused (e_time env) c (eq (co_testMode s)) s es r s' es'.
Proof.
  unfold write_Cancel. intros Hs Hc H. pose proof (sel_activated _ _ _ Hs) as Ha. run_inv; try refuse.
  - match goal with E : bool_decide _ = true |- _ =>
      apply bool_decide_eq_true in E; rewrite (sel_owner _ _ _ Hs) in E; congruence end.
  - match goal with E : ControlObject_sendLastApplError _ _ _ _ _ _ _ _ _ = _ |- _ =>
      apply (sendLastApplError_quiet (e_time env) _ (eq (co_testMode s)) _ _ _ _ _ _ s) in E; [|alone] end.
    match goal with E : quiet _ _ _ _ _ _ _ |- _ => pose proof E as Hq; destruct E as [Ecore%alone_core _] end.
    apply cancel_activation_inactive in H as (-> & -> & ->); [refuse_with Hq|].
    destruct Ecore as [E|E]; unfold co_core in E; injection E as _ _ _ _ -> _ _ _; [done|by eapply selected_activated].
  - apply cancel_activation_inactive in H as (-> & -> & ->); [refuse|done].
Qed.

(** A read of SBO answers with the empty string and changes nothing. *)
Lemma read_SBO_selected env o c s es r s' es' : selected_by (e_time env) o s -> co_ctlModel s = 2 ->
  read_SBO env c s es = Done (r, s', es') ->
  r = co_emptyString s /\ quiet (e_time env) c (eq (co_testMode s)) s es s' es'.
Proof.
  unfold read_SBO. intros Hs Hm H. run_inv; try congruence.
  all: try (match goal with E : (_ =? STATE_UNSELECTED) = true |- _ =>
    apply Z.eqb_eq in E; by destruct (sel_state _ _ _ Hs) end).
  - split; [done|]. apply quiet_here. alone.
  - rewrite Hm in *. discriminate.
Qed.

Lemma initialize_done env s es : co_initialized s = true -> initialize env s es = Done (tt, s, es).
Proof. intros Hi. unfold initialize, cbind, cget, rbind. by rewrite Hi. Qed.

Lemma read_control_SBO env c s es : co_initialized s = true ->
  read_control env (Some (lit "SBO")) c s es = read_SBO env c s es.
Proof. intros Hi. unfold read_control, cbind. rewrite initialize_done by done. reflexivity. Qed.

Lemma read_control_other env name c s es r s' es' : co_initialized s = true -> name <> Some (lit "SBO") ->
  read_control env name c s es = Done (r, s', es') -> s' = s /\ es' = es.
Proof.
  intros Hi Hn H. apply cbind_inv in H as (? & ? & ? & H1 & H). rewrite initialize_done in H1 by done.
  injection H1 as <- <- <-. destruct name as [name|]; [|by apply cget_inv in H as (_ & -> & ->)].
  rewrite (bool_decide_false (name = lit "SBO")) in H by congruence. by run_inv.
Qed.

(** C34: A selection is exclusive: as long as it lasts, and the object does not wait for the
    time of a time activated operation (then another client's Cancel is granted:
    [Control_cancel_by_other_client]), nothing that another client writes to the object is
    granted (it gets an error, and at most the reason is sent to it alone) and nothing it
    reads selects the object: a read of SBO answers with the empty string.  No member of
    the object changes, but for the record of the last error message and, by a write to
    Oper of an object that is ready, the test mode. *)
Theorem Control_selection_exclusive malloc env o c s es : selected_by (e_time env) o s -> c <> o ->
  (forall name value r s' es', write_control malloc env name value c s es = Done (r, s', es') ->
    refused (e_time env) c (test_modes (e_time env) name value s) s es r s' es') /\
  (forall name r s' es', read_control env name c s es = Done (r, s', es') ->
    quiet (e_time env) c (eq (co_testMode s)) s es s' es' /\
    (name = Some (lit "SBO") -> co_ctlModel s = 2 -> r = co_emptyString s)).
Proof.
  intros Hs Hc. pose proof (sel_initialized _ _ _ Hs) as Hi. split.
  - intros name value r s' es'. unfold write_control, cbind. rewrite initialize_done by done. cbn [rbind].
    repeat case_bool_decide; intros Hw.
    + eapply refused_modes; [by eapply write_SBOw_selected|]. intros b <-. by left.
    + subst name. destruct (write_Oper_paths _ _ _ _ _ _ _ _ _ Hw) as [Ha|]; [|done].
      pose proof (auth_owner _ _ _ _ Ha (sel_model _ _ _ Hs)) as E. rewrite (sel_owner _ _ _ Hs) in E. congruence.
    + eapply refused_modes; [by eapply write_Cancel_selected|]. intros b <-. by left.
    + injection Hw as <- <- <-. refuse.
  - intros name r s' es' Hw. destruct (decide (name = Some (lit "SBO"))) as [->|Hn].
    + rewrite read_control_SBO in Hw by done. destruct (Z.eq_dec (co_ctlModel s) 2) as [Hm|Hm].
      * destruct (read_SBO_selected env o c s es r s' es' Hs Hm Hw) as [? ?]. done.
      * split; [|done]. unfold read_SBO in Hw. apply Z.eqb_neq in Hm. run_inv; try congruence.
        apply quiet_here. alone.
    + apply read_control_other in Hw as [-> ->]; [|done..]. split; [apply quiet_here; alone|done].
Qed.

(** * The life of an operation *)

(** [isSboClassOperateOnce] as a function of the object. *)
Definition operate_once (env : ControlEnv) (s : ControlObject) : res bool :=
  match co_sboClass s with
  | Some name =>
      let! v := (let! v := e_cache env (md_address (co_mmsDomain s)) name in defined v) in
      let! n := MmsValue_toInt32 v in Done (negb (n =? 1))
  | None => Done true
  end.

(** The state an object is left in when an operation is over. *)
Definition idle_state (s : ControlObject) (once : bool) : Z :=
  if is_sbo (co_ctlModel s) && once then STATE_UNSELECTED else STATE_READY.

Lemma abortControlOperation_run env s es once : operate_once env s = Done once ->
  abortControlOperation env s es = Done (tt, co_set_state (idle_state s once) s, es).
Proof.
  unfold operate_once, abortControlOperation, isSboClassOperateOnce, idle_state, cbind, cget, clift, cret, rbind, setState, cmodify.
  destruct (is_sbo (co_ctlModel s)); cbn [andb]; [|done].
  destruct (co_sboClass s) as [name|]; [|by intros [= <-]].
  destruct (e_cache env (md_address (co_mmsDomain s)) name) as [[v|]| | |]; try done. cbn [defined].
  destruct (MmsValue_toInt32 v) as [n| | |]; try done. intros [= <-]. by destruct (negb (n =? 1)).
Qed.

(** The item name of a command termination. *)
Definition termination_name (s : ControlObject) : list Z := co_lnName s ++ lit "$CO$" ++ co_name s ++ lit "$Oper".

Lemma sendCommandTerminationReq_run c s es : zlen (termination_name s) < 130 ->
  ControlObject_sendCommandTerminationReq c s es =
    Done (tt, s, es ++ [CommandTermination c (domainName (co_mmsDomain s)) (termination_name s) (ControlObject_getOper s)]).
Proof.
  intros H. unfold ControlObject_sendCommandTerminationReq, string_in_buffer, cbind, cget, clift, emit, rbind.
  fold (termination_name s). by rewrite (proj2 (Z.ltb_ge _ _)) by lia.
Qed.

Lemma sendCommandTerminationReq_if (b : bool) c s es : zlen (termination_name s) < 130 ->
  (if b then ControlObject_sendCommandTerminationReq c else cret tt) s es =
    Done (tt, s, es ++ if b then
      [CommandTermination c (domainName (co_mmsDomain s)) (termination_name s) (ControlObject_getOper s)] else []).
Proof.
  intros H. destruct b; [by apply sendCommandTerminationReq_run|]. by rewrite app_nil_r.
Qed.

(** What the client and the application see of an operation. *)
Definition operation_events (h : Z) (accepted : bool) (s : ControlObject) : list ControlEvent :=
  if accepted then
    [WriteResponse (Some h) (co_operateInvokeId s) DATA_ACCESS_ERROR_SUCCESS]
    ++ (if co_listener s then [Listener (co_ctlVal s) (co_testMode s)] else [])
    ++ (if (co_ctlModel s =? 4) || (co_ctlModel s =? 3) then
          [CommandTermination (Some h) (domainName (co_mmsDomain s)) (termination_name s) (ControlObject_getOper s)]
        else [])
  else [WriteResponse (Some h) (co_operateInvokeId s) DATA_ACCESS_ERROR_OBJECT_ACCESS_DENIED].

(** C35: The thread of an operation that is not time activated, for a client that is still
    connected (with an item name that fits the buffer of the command termination, and a
    class of the selection that can be read): the client gets exactly one response to its
    write, positive if the application lets the operation through; then, and only then,
    the application is told to operate, once, with the value of the parameters, and a
    client of an enhanced model gets the command termination after that; the object ends
    idle, unselected if its selection is for one operation; the task is counted up at the
    start and down at the end. *)
Theorem controlOperateThread_direct env s es h once :
  co_clientConnection s = Some h -> h ∈ e_clients env -> co_state s <> STATE_WAIT_FOR_ACTICATION_TIME ->
  zlen (termination_name s) < 130 -> operate_once env s = Done once ->
  let accepted := if co_waitForExecutionHandler s then e_wait env (co_ctlVal s) (co_testMode s) (co_synchroCheck s) else true in
  exists s', controlOperateThread env s es =
      Done (tt, s', es ++ TasksCountUp h :: operation_events h accepted s ++ [TasksCountDown h]) /\
    co_state s' = idle_state s once /\ co_timeActivatedOperate s' = co_timeActivatedOperate s /\
    co_selectTime s' = if accepted then e_time env else co_selectTime s.
Proof.
  intros Hc Hh Hw Hn Ho accepted. unfold controlOperateThread. forward.
  unfold getClientConnectionByHandle. rewrite Hc, bool_decide_true by done. forward.
  rewrite (proj2 (Z.eqb_neq _ _) Hw).
  cbn [co_set_state co_ctlVal co_testMode co_synchroCheck co_waitForExecutionHandler]. fold accepted.
  unfold operation_events. destruct accepted; cbn [negb]; forward.
  - unfold ControlObject_operate. forward.
    erewrite bind_run by apply emit_if. forward.
    erewrite bind_run by (by apply sendCommandTerminationReq_if). cbv beta.
    erewrite bind_run by (by apply abortControlOperation_run). cbv beta.
    eexists. split; [unfold emit; rewrite <- !app_assoc; reflexivity|by repeat split].
  - erewrite bind_run by (by apply abortControlOperation_run). cbv beta.
    eexists. split; [unfold emit; rewrite <- !app_assoc; reflexivity|by repeat split].
Qed.

(** A time activated operation waits for its time and is started once: before it,
    the periodic processing does nothing; when it has come (and the application does
    not object) exactly one operation is started and nothing is scheduled any more,
    so processing again starts nothing. *)
Theorem Control_time_activated env t s es : co_timeActivatedOperate s = true ->
  (t < co_operateTime s -> processControlAction env t s es = Done (tt, s, es)) /\
  (co_operateTime s <= t ->
    (co_checkHandler s = true ->
      e_check env (co_ctlVal s) (co_testMode s) (co_interlockCheck s) (CastConnection (co_clientConnection s)) <> 0) ->
    exists s', processControlAction env t s es = Done (tt, s', es ++ [ThreadStart]) /\
      co_timeActivatedOperate s' = false /\ co_state s' = co_state s /\
      forall env' t' es', processControlAction env' t' s' es' = Done (tt, s', es')).
Proof.
  intros Ha. split; intros Ht; unfold processControlAction; forward; rewrite Ha; cbn [andb].
  - by rewrite (proj2 (Z.leb_gt _ _) Ht).
  - intros Hc. rewrite (proj2 (Z.leb_le _ _) Ht). forward. cbn [co_set_timeActivated co_checkHandler co_ctlVal
      co_testMode co_interlockCheck co_clientConnection].
    exists (co_set_timeActivated false s). split; [|done].
    destruct (co_checkHandler s); [|done]. by rewrite (proj2 (Z.eqb_neq _ _)) by auto.
Qed.

(** * What the code grants and should not *)

Definition cancel_parameters (value : MmsValue) : Prop :=
  exists ctlNum origin, getCancelParameterCtlNum (Some value) = Done (Some ctlNum) /\
    getCancelParameterOrigin (Some value) = Done (Some origin).

(** Cancelling a time activated operation of a select-before-operate object does not
    cancel it.  The owner is told that the cancel succeeded, the object is unselected,
    and when the time comes the operation is started all the same: the branch of the
    owner returns before [timeActivatedOperate] is reset. *)
Theorem Control_cancel_time_activated malloc env value c s es :
  co_initialized s = true -> is_sbo (co_ctlModel s) = true -> co_state s <> STATE_UNSELECTED ->
  co_clientConnection s = Some c -> co_timeActivatedOperate s = true -> cancel_parameters value ->
  exists s', write_control malloc env (lit "Cancel") value c s es = Done (DATA_ACCESS_ERROR_SUCCESS, s', es) /\
    co_state s' = STATE_UNSELECTED /\
    forall env' t, co_operateTime s <= t -> co_checkHandler s = false ->
      exists s'', processControlAction env' t s' es = Done (tt, s'', es ++ [ThreadStart]).
Proof.
  intros Hi Hm Hu Hc Ha (n & o & Hn & Ho). exists (co_set_state STATE_UNSELECTED s). split; [|split; [done|]].
  - unfold write_control. erewrite bind_run by by apply initialize_done.
    change (write_Cancel env value c s es = Done (DATA_ACCESS_ERROR_SUCCESS, co_set_state STATE_UNSELECTED s, es)).
    unfold write_Cancel. forward. erewrite bind_lift by exact Hn. erewrite bind_lift by exact Ho.
    cbv beta. cbn [bool_decide]. rewrite !bool_decide_true by done. cbn [negb andb]. forward.
    rewrite Hm, (proj2 (Z.eqb_neq _ _) Hu). cbn [negb andb]. forward. by rewrite Hc, bool_decide_true.
  - intros env' t Ht Hh. unfold processControlAction. forward.
    change (co_timeActivatedOperate _) with (co_timeActivatedOperate s).
    change (co_operateTime _) with (co_operateTime s). rewrite Ha, (proj2 (Z.leb_le _ _) Ht). cbn [andb]. forward.
    change (co_checkHandler _) with (co_checkHandler s). rewrite Hh. by eexists.
Qed.

Lemma cancel_activation_active env i s es r s' es' : co_timeActivatedOperate s = true ->
  cancel_activation env i s es = Done (r, s', es') ->
  r = DATA_ACCESS_ERROR_SUCCESS /\ co_timeActivatedOperate s' = false /\ es' = es.
Proof.
  unfold cancel_activation, abortControlOperation, isSboClassOperateOnce. intros Ha H. run_inv; try done. congruence.
Qed.

Lemma sendLastApplError_one c v e a n o h s es u s' es' :
  ControlObject_sendLastApplError (Some c) v e a n o h s es = Done (u, s', es') ->
  co_timeActivatedOperate s' = co_timeActivatedOperate s /\ exists e, es' = es ++ [e] /\ is_error c e.
Proof.
  unfold ControlObject_sendLastApplError. intros H. run_inv. split; [done|]. by eexists.
Qed.

(** The cancel of another client is refused in words and granted in deed: it is told
    that the object is locked by another client, and the operation of that client is
    cancelled with the answer success. *)
Theorem Control_cancel_by_other_client malloc env value c s es r s' es' :
  co_initialized s = true -> is_sbo (co_ctlModel s) = true -> co_state s <> STATE_UNSELECTED ->
  co_clientConnection s <> Some c -> co_timeActivatedOperate s = true -> cancel_parameters value ->
  write_control malloc env (lit "Cancel") value c s es = Done (r, s', es') ->
  r = DATA_ACCESS_ERROR_SUCCESS /\ co_timeActivatedOperate s' = false /\
  exists e, es' = es ++ [e] /\ is_error c e.
Proof.
  intros Hi Hm Hu Hc Ha (n & o & Hn & Ho) H. apply cbind_inv in H as (? & ? & ? & H1 & H).
  rewrite initialize_done in H1 by done. injection H1 as <- <- <-.
  change (write_Cancel env value c s es = Done (r, s', es')) in H. unfold write_Cancel, getState in H.
  rewrite bind_get, (bind_lift _ _ _ _ _ Hn), (bind_lift _ _ _ _ _ Ho), !bool_decide_true in H by done.
  cbn [negb andb] in H. rewrite bind_get, Hm, (proj2 (Z.eqb_neq _ _) Hu) in H. cbn [negb andb] in H.
  rewrite bind_get, bool_decide_false in H by done. apply cbind_inv in H as (? & ? & ? & H1 & H).
  apply sendLastApplError_one in H1 as (Ha' & e & -> & He). rewrite <- Ha' in Ha.
  apply cancel_activation_active in H as (-> & ? & ->); [|done]. split; [done|split; [done|by exists e]].
Qed.

Lemma selectObject_run env t c s es : co_sboTimeout s = None ->
  selectObject env t c s es = Done (tt, co_set_state STATE_READY
    (co_set_selection t (Some c) (co_set_selectTimeout CONFIG_CONTROL_DEFAULT_SBO_TIMEOUT s)), es).
Proof. intros H. unfold selectObject, updateSboTimeoutValue. forward. by rewrite H. Qed.

Lemma timed_sboTimeout t s : co_sboTimeout (timed t s) = co_sboTimeout s.
Proof. unfold timed. by destruct (timed_out t s). Qed.

Lemma timed_sbo t s : co_sbo (timed t s) = co_sbo s.
Proof. unfold timed. by destruct (timed_out t s). Qed.

Lemma timed_checkHandler t s : co_checkHandler (timed t s) = co_checkHandler s.
Proof. unfold timed. by destruct (timed_out t s). Qed.

(** A select is granted whatever the check handler answers: its answer, the success
    code or one of four error codes, is converted to [bool], and no code is zero. *)
Theorem Control_select_ignores_check env c s es :
  co_initialized s = true -> co_ctlModel s = 2 -> co_state (timed (e_time env) s) = STATE_UNSELECTED ->
  co_sboTimeout s = None -> co_checkHandler s = true ->
  e_check env None false false (CastConnection (Some c)) ∈
    [CONTROL_ACCEPTED; CONTROL_HARDWARE_FAULT; CONTROL_TEMPORARILY_UNAVAILABLE;
     CONTROL_OBJECT_ACCESS_DENIED; CONTROL_OBJECT_UNDEFINED] ->
  exists s', read_control env (Some (lit "SBO")) c s es = Done (co_sbo s, s', es) /\ co_state s' = STATE_READY /\ co_clientConnection s' = Some c.
Proof.
  intros Hi Hm Hs Ht Hh Hr. rewrite read_control_SBO by done. unfold read_SBO. forward. rewrite Hm.
  change (2 =? 2) with true. cbv zeta. cbv iota. forward. erewrite bind_run by apply checkSelectTimeout_run.
  forward. rewrite Hs. change (STATE_UNSELECTED =? STATE_UNSELECTED) with true. cbv iota. forward.
  rewrite timed_checkHandler, Hh, (proj2 (Z.eqb_neq _ _)) by (by repeat (apply elem_of_cons in Hr as [->|Hr]; [done|]); apply elem_of_nil in Hr).
  cbn [negb].
  erewrite bind_run by (apply selectObject_run; by rewrite timed_sboTimeout).
  eexists. split; [cbv beta; unfold cget; rewrite <- (timed_sbo (e_time env) s); reflexivity|by split].
Qed.

(** The parameters of a structure of another size than that of a service. *)
Lemma parameter_other d cs layouts : forallb (fun l => negb (fst l =? zlen cs)) layouts = true ->
  parameter (Some (Complex d false cs)) layouts = Done None.
Proof.
  unfold parameter. cbn. induction layouts as [|l ls IH]; cbn; [done|].
  rewrite andb_true_iff, negb_true_iff. intros [-> ?]. auto.
Qed.

Lemma parameter_large d v vs layouts : 7 <= zlen vs -> Forall (fun l => fst l <= 7) layouts ->
  parameter (Some (Complex d false (v :: vs))) layouts = Done None.
Proof.
  intros Hn H. apply parameter_other. rewrite zlen_cons. induction H as [|l ls Hl _ IH]; cbn -[Z.add]; [done|].
  by rewrite (proj2 (Z.eqb_neq _ _)) by lia.
Qed.

(** A select with value crashes the server: a structure with more members than any
    layout of the parameters has a control value but no origin, and the origin is
    looked into without a check (operate does check it). *)
Theorem Control_SBOw_crash malloc env d v vs c s es :
  co_initialized s = true -> co_ctlModel s = 4 -> 7 <= zlen vs ->
  write_control malloc env (lit "SBOw") (Complex d false (Some v :: vs)) c s es = Ub /\
  exists r s' es', write_control malloc env (lit "Oper") (Complex d false (Some v :: vs)) c s es = Done (r, s', es').
Proof.
  intros Hi Hm Hn. assert (zlen (Some v :: vs) = zlen vs + 1) as Hl by (rewrite zlen_cons; lia).
  assert (getCtlVal (Some (Complex d false (Some v :: vs))) = Done (Some v)) as Hv.
  { unfold getCtlVal. cbn -[Z.ltb zlen]. rewrite Hl.
    rewrite (proj2 (Z.ltb_lt _ _)) by lia. by rewrite (proj2 (Z.leb_gt _ _)) by lia. }
  split.
  - unfold write_control. erewrite bind_run by by apply initialize_done.
    change (write_SBOw malloc env (Complex d false (Some v :: vs)) c s es = Ub).
    unfold write_SBOw. forward. rewrite Hm. cbn [Z.eqb]. rewrite Pos.eqb_refl. rewrite (bind_lift _ _ _ _ _ Hv).
    cbv beta iota. unfold getOperParameterCtlNum, getOperParameterOrigin, getOperParameterCheck, getOperParameterTest.
    do 4 (erewrite bind_lift by (apply parameter_large; [done|repeat constructor; done])). reflexivity.
  - unfold write_control. erewrite bind_run by by apply initialize_done.
    change (exists r s' es', write_Oper malloc env (Complex d false (Some v :: vs)) c s es = Done (r, s', es')).
    unfold write_Oper. rewrite (bind_lift _ _ _ _ _ Hv). erewrite bind_lift by (apply parameter_large; [done|repeat constructor; done]).
    cbv beta. unfold getOperParameterCtlNum, getOperParameterOrigin, getOperParameterCheck.
    do 3 (erewrite bind_lift by (apply parameter_large; [done|repeat constructor; done])).
    assert (getOperParameterTime (Some (Complex d false (Some v :: vs))) = Done None) as Ht.
    { unfold getOperParameterTime. by rewrite parameter_large by (done || by repeat constructor). }
    rewrite (bind_lift _ _ _ _ _ Ht). by do 3 eexists.
Qed.

(** When a connection is lost only the first object it has selected is unselected:
    the loop ends there.  The objects behind it are left as they are, selected. *)
Theorem unselectControls_stops env c o os es os' es' : co_clientConnection o = Some c ->
  unselectControlsForConnection env (o :: os) c es = Done (os', es') -> exists o', os' = o' :: os.
Proof.
  intros Hc. cbn [unselectControlsForConnection]. unfold ControlObject_unselect. forward.
  rewrite Hc, bool_decide_true by done.
  destruct (abortControlOperation env o es) as [[[[] o'] es1]| | |] eqn:E; unfold cbind; rewrite E; [|done..].
  cbn. intros [= <- <-]. by exists o'.
Qed.

(** * Concrete runs *)

Definition sample_origin : MmsValue :=
  Complex 0 false [Some (Simple 0 (V_INTEGER (mkAsn1 1 4 [2; 0; 0; 0]))); Some (Simple 0 (V_OCTET_STRING 1 1 [7]))].

Definition sample_ctlNum (n : Z) : MmsValue := Simple 0 (V_UNSIGNED (mkAsn1 1 4 [n; 0; 0; 0])).

(** The parameters of SBOw and Oper, and those of Cancel. *)
Definition sample_parameters (n : Z) : MmsValue :=
  Complex 0 false [Some (Simple 0 (V_BOOLEAN true)); Some sample_origin; Some (sample_ctlNum n);
    Some (Simple 0 (V_UTC_TIME [0; 0; 0; 1; 0; 0; 0; 0])); Some (Simple 0 (V_BOOLEAN false));
    Some (Simple 0 (V_BIT_STRING 2 [0]))].

(** The same with the time at which to operate. *)
Definition sample_timed (seconds : Z) : MmsValue :=
  Complex 0 false [Some (Simple 0 (V_BOOLEAN true)); Some (Simple 0 (V_UTC_TIME [0; 0; 0; seconds; 0; 0; 0; 0]));
    Some sample_origin; Some (sample_ctlNum 1);
    Some (Simple 0 (V_UTC_TIME [0; 0; 0; 1; 0; 0; 0; 0])); Some (Simple 0 (V_BOOLEAN false));
    Some (Simple 0 (V_BIT_STRING 2 [0]))].

Definition sample_cancel : MmsValue :=
  Complex 0 false [Some (Simple 0 (V_BOOLEAN true)); Some sample_origin; Some (sample_ctlNum 1);
    Some (Simple 0 (V_UTC_TIME [0; 0; 0; 1; 0; 0; 0; 0])); Some (Simple 0 (V_BOOLEAN false))].

(** An object as the server sets it up, its value with the member Oper. *)
Definition sample_control (oper : MmsValue) : ControlObject :=
  ControlObject_installListener (ControlObject_setOper
    (ControlObject_setMmsValue sample_object (Some (Complex 0 false [Some oper]))) (Some 0)).

Definition zeros (n : Z) : list Z := replicate (Z.to_nat n) 0.

(** The object after a run. *)
Definition after {A} (c : C A) (s : ControlObject) : ControlObject :=
  match c s [] with Done (_, s, _) => s | _ => s end.

(** Selected by client 7 with value at time 100; then operated with the same value. *)
Definition sample_selected : ControlObject :=
  after (write_control zeros (sample_env 4 100) (lit "SBOw") (sample_parameters 1) 7) (sample_control (sample_parameters 0)).

Definition sample_operated : ControlObject :=
  after (write_control zeros (sample_env 4 200) (lit "Oper") (sample_parameters 1) 7) sample_selected.

(** Selected by client 7 and operated for the second 200. *)
Definition sample_activated : ControlObject :=
  after (write_control zeros (sample_env 4 200) (lit "Oper") (sample_timed 200) 7)
    (after (write_control zeros (sample_env 4 100) (lit "SBOw") (sample_timed 200) 7) (sample_control (sample_timed 0))).

Lemma Control_operate_authorised_witness :
  exists s', write_control zeros (sample_env 4 200) (lit "Oper") (sample_parameters 1) 7 sample_selected [] =
      Done (DATA_ACCESS_ERROR_NO_RESPONSE, s', [ThreadStart]) /\
    authorised 200 (sample_parameters 1) 7 sample_selected.
Proof.
  eexists. split; [vm_compute; reflexivity|].
  edestruct (Control_operate_authorised zeros (sample_env 4 200) (sample_parameters 1) 7 sample_selected [])
    as [H|[H _]]; [vm_compute; reflexivity|vm_compute; reflexivity|exact H|].
  vm_compute in H. discriminate.
Defined.

Lemma Control_selection_exclusive_witness :
  exists s' es', write_control zeros (sample_env 4 200) (lit "Oper") (sample_parameters 1) 8 sample_selected [] =
      Done (DATA_ACCESS_ERROR_TEMPORARILY_UNAVAILABLE, s', es') /\
    refused 200 8 (test_modes 200 (lit "Oper") (sample_parameters 1) sample_selected) sample_selected [] DATA_ACCESS_ERROR_TEMPORARILY_UNAVAILABLE s' es'.
Proof.
  do 2 eexists. split; [vm_compute; reflexivity|].
  assert (selected_by (e_time (sample_env 4 200)) 7 sample_selected) as Hs by (constructor; by vm_compute).
  destruct (Control_selection_exclusive zeros (sample_env 4 200) 7 8 sample_selected [] Hs) as [H _]; [done|].
  apply (H (lit "Oper") (sample_parameters 1)). vm_compute. reflexivity.
Defined.

Lemma controlOperateThread_direct_witness :
  exists s', controlOperateThread (sample_env 4 200) sample_operated [] =
      Done (tt, s', [TasksCountUp 7; WriteResponse (Some 7) 1 DATA_ACCESS_ERROR_SUCCESS;
        Listener (Some (Simple 0 (V_BOOLEAN true))) false;
        CommandTermination (Some 7) (lit "LD0") (lit "GGIO1$CO$SPCSO1$Oper") (Some (sample_parameters 1));
        TasksCountDown 7]) /\
    co_state s' = STATE_UNSELECTED.
Proof.
  edestruct (controlOperateThread_direct (sample_env 4 200) sample_operated [] 7 true) as (s' & H1 & H2 & _);
    [vm_compute; reflexivity|constructor|by vm_compute|by vm_compute|vm_compute; reflexivity|].
  exists s'. split; [|exact H2]. rewrite H1. vm_compute. reflexivity.
Defined.

Lemma Control_time_activated_witness :
  exists s', processControlAction (sample_env 4 200000) 200000 sample_activated [] = Done (tt, s', [ThreadStart]).
Proof.
  destruct (Control_time_activated (sample_env 4 200000) 200000 sample_activated []) as [_ H]; [by vm_compute|].
  destruct H as (s' & H & _); [by vm_compute|by vm_compute|]. exists s'. exact H.
Defined.

Lemma Control_cancel_time_activated_witness :
  exists s' s'', write_control zeros (sample_env 4 300) (lit "Cancel") sample_cancel 7 sample_activated [] =
      Done (DATA_ACCESS_ERROR_SUCCESS, s', []) /\ co_state s' = STATE_UNSELECTED /\
    processControlAction (sample_env 4 200000) 200000 s' [] = Done (tt, s'', [ThreadStart]).
Proof.
  destruct (Control_cancel_time_activated zeros (sample_env 4 300) sample_cancel 7 sample_activated [])
    as (s' & H1 & H2 & H3); [by vm_compute..|do 2 eexists; split; vm_compute; reflexivity|].
  destruct (H3 (sample_env 4 200000) 200000) as [s'' H4]; [by vm_compute|by vm_compute|].
  exists s', s''. split; [exact H1|]. split; [exact H2|exact H4].
Defined.

Lemma Control_cancel_by_other_client_witness :
  exists s' es', write_control zeros (sample_env 4 300) (lit "Cancel") sample_cancel 8 sample_activated [] =
      Done (DATA_ACCESS_ERROR_SUCCESS, s', es') /\ co_timeActivatedOperate s' = false /\
    exists e, es' = [e] /\ is_error 8 e.
Proof.
  do 2 eexists. split; [vm_compute; reflexivity|].
  edestruct (Control_cancel_by_other_client zeros (sample_env 4 300) sample_cancel 8 sample_activated [])
    as (_ & H1 & H2); [by vm_compute..|do 2 eexists; split; vm_compute; reflexivity|vm_compute; reflexivity|].
  split; [exact H1|exact H2].
Defined.

(** An application that refuses everything. *)
Definition refusing_env : ControlEnv :=
  mkEnv 100 (e_cache (sample_env 2 100)) (fun _ _ _ _ => CONTROL_OBJECT_ACCESS_DENIED) (fun _ _ _ => false) [7] (fun _ => 1).

(** Initialized, with a check handler, and not selected. *)
Definition sample_unselected : ControlObject :=
  ControlObject_installCheckHandler (after (read_control (sample_env 2 100) None 7) sample_object).

Lemma Control_select_ignores_check_witness :
  exists s', read_control refusing_env (Some (lit "SBO")) 7 sample_unselected [] =
      Done (Some (MmsValue_newVisibleString (Some (lit "LD0/GGIO1$SPCSO1$SBO"))), s', []) /\
    co_state s' = STATE_READY /\ co_clientConnection s' = Some 7.
Proof.
  destruct (Control_select_ignores_check refusing_env 7 sample_unselected []) as (s' & H1 & H2 & H3);
    [by vm_compute..|cbn; do 3 right; constructor|].
  exists s'. split; [rewrite H1; vm_compute; reflexivity|]. split; [exact H2|exact H3].
Defined.

Lemma Control_SBOw_crash_witness :
  write_control zeros (sample_env 4 200) (lit "SBOw") (Complex 0 false (replicate 8 (Some sample_origin))) 7 sample_selected [] = Ub.
Proof.
  destruct (Control_SBOw_crash zeros (sample_env 4 200) 0 sample_origin (replicate 7 (Some sample_origin)) 7 sample_selected [])
    as [H _]; [by vm_compute..|]. exact H.
Defined.

Lemma unselectControls_stops_witness :
  exists os', unselectControlsForConnection (sample_env 4 200) [sample_selected; sample_selected] 7 [] = Done (os', []) /\
    exists o', os' = [o'; sample_selected].
Proof.
  eexists. split; [vm_compute; reflexivity|].
  eapply (unselectControls_stops (sample_env 4 200) 7 sample_selected [sample_selected] [] _ []); vm_compute; reflexivity.
Defined.
