(* ===== verification/Iec61850Common.v ===== *)
(** The definitions that server and client share: src/iedcommon/iec61850_common.c.
    Functional constraints and their names, quality, and time stamps. *)
From Stdlib Require Import String.
From stdpp Require Import base tactics numbers option list.
From S2P Require Import Prelude Memory BerDecode BerEncode MmsValue MmsTimeBits CString.

(** * Functional constraints *)

Inductive FunctionalConstraint :=
| ST | MX | SP | SV | CF | DC | SG | SE | SR | OR | BL | EX | CO | ALL | NONE.

#[export] Instance FunctionalConstraint_eq_dec : EqDecision FunctionalConstraint.
Proof. solve_decision. Defined.

(** [None] for the null pointer. *)
Definition FunctionalConstraint_toString (fc : FunctionalConstraint) : option (list Z) :=
  match fc with
  | ST => Some (lit "ST") | MX => Some (lit "MX") | SP => Some (lit "SP") | SV => Some (lit "SV")
  | CF => Some (lit "CF") | DC => Some (lit "DC") | SG => Some (lit "SG") | SE => Some (lit "SE")
  | SR => Some (lit "SR") | OR => Some (lit "OR") | BL => Some (lit "BL") | EX => Some (lit "EX")
  | CO => Some (lit "CO")
  | ALL | NONE => None
  end.

(** The second character is read only behind a first one; behind the last character
    there is the null. *)
Definition FunctionalConstraint_fromString (fcString : list Z) : FunctionalConstraint :=
  let char i := default 0 (fcString !! i) in
  let char_is (i : nat) (s : String.string) := bool_decide ([char i] = lit s) in
  if char_is 0%nat "S"%string then
    if char_is 1%nat "T"%string then ST
    else if char_is 1%nat "P"%string then SP
    else if char_is 1%nat "V"%string then SV
    else if char_is 1%nat "G"%string then SG
    else if char_is 1%nat "E"%string then SE
    else if char_is 1%nat "R"%string then SR
    else NONE
  else if char_is 0%nat "M"%string then if char_is 1%nat "X"%string then MX else NONE
  else if char_is 0%nat "C"%string then
    if char_is 1%nat "F"%string then CF else if char_is 1%nat "O"%string then CO else NONE
  else if char_is 0%nat "D"%string then if char_is 1%nat "C"%string then DC else NONE
  else if char_is 0%nat "O"%string then if char_is 1%nat "R"%string then OR else NONE
  else if char_is 0%nat "B"%string then if char_is 1%nat "L"%string then BL else NONE
  else if char_is 0%nat "E"%string then if char_is 1%nat "X"%string then EX else NONE
  else NONE.

(** * Quality *)

Definition QUALITY_DETAIL_OVERFLOW : Z := 4.

(** A quality is a [uint16_t]; the functions take a pointer to it. *)
Definition Quality_getValidity (self : Z) : Z := Z.land self 0x3.

Definition Quality_setValidity (self validity : Z) : Z :=
  let self := u16 (Z.land self 0xfff8) in u16 (Z.lor self validity).

Definition Quality_isFlagSet (self flag : Z) : bool := 0 <? Z.land self flag.

Definition Quality_setFlag (self flag : Z) : Z := u16 (Z.lor self flag).

Definition Quality_unsetFlag (self flag : Z) : Z := u16 (Z.land self (Z.lnot flag)).

Definition Quality_fromMmsValue (mmsValue : MmsValue) : res Z :=
  let! v := MmsValue_getBitStringAsInteger mmsValue in Done (u16 v).

(** * Time stamps: eight octets, the last of which is the quality of the time *)

Abbreviation Timestamp := (list Z) (only parsing).

Definition flag_of (self : Timestamp) (mask : Z) : res bool :=
  let! q := ld self 7 in Done (negb (Z.land q mask =? 0)).

Definition with_flag (self : Timestamp) (mask keep : Z) (value : bool) : res Timestamp :=
  let! q := ld self 7 in
  st self 7 (if value then Z.lor q mask else Z.land q keep).

Definition Timestamp_isLeapSecondKnown (self : Timestamp) : res bool := flag_of self 0x80.
Definition Timestamp_setLeapSecondKnown (self : Timestamp) (value : bool) : res Timestamp :=
  with_flag self 0x80 0x7f value.
Definition Timestamp_hasClockFailure (self : Timestamp) : res bool := flag_of self 0x40.
Definition Timestamp_setClockFailure (self : Timestamp) (value : bool) : res Timestamp :=
  with_flag self 0x40 0xbf value.
Definition Timestamp_isClockNotSynchronized (self : Timestamp) : res bool := flag_of self 0x20.
Definition Timestamp_setClockNotSynchronized (self : Timestamp) (value : bool) : res Timestamp :=
  with_flag self 0x20 0xdf value.

Definition Timestamp_getSubsecondPrecision (self : Timestamp) : res Z :=
  let! q := ld self 7 in Done (Z.land q 0x1f).

Definition Timestamp_setSubsecondPrecision (self : Timestamp) (subsecondPrecision : Z) : res Timestamp :=
  let ssp := u8 (Z.land subsecondPrecision 0x1f) in
  let! q := ld self 7 in
  let! self := st self 7 (Z.land q 0xe0) in
  let! q := ld self 7 in
  st self 7 (q + ssp).

Definition Timestamp_setTimeInSeconds (self : Timestamp) (secondsSinceEpoch : Z) : res Timestamp :=
  let! self := memcpyReverseByteOrder self (le_bytes 4 secondsSinceEpoch) 4 in
  let! self := st self 4 0 in
  let! self := st self 5 0 in
  st self 6 0.

Definition Timestamp_setTimeInMilliseconds (self : Timestamp) (millisSinceEpoch : Z) : res Timestamp :=
  let timeval32 := u32 (millisSinceEpoch / 1000) in
  let! self := memcpyReverseByteOrder self (le_bytes 4 timeval32) 4 in
  let remainder := millisSinceEpoch mod 1000 in
  let fractionOfSecond := u32 (u32 (remainder * 16777) + u32 (remainder * 216) / 1000) in
  let! self := st self 4 (Z.land (Z.shiftr fractionOfSecond 16) 0xff) in
  let! self := st self 5 (Z.land (Z.shiftr fractionOfSecond 8) 0xff) in
  st self 6 (Z.land fractionOfSecond 0xff).

Definition Timestamp_getTimeInSeconds (self : Timestamp) : res Z :=
  let! bs := memcpyReverseByteOrder (replicate 4 0) self 4 in Done (le_val bs).

Definition Timestamp_getTimeInMs (self : Timestamp) : res Z :=
  let! bs := memcpyReverseByteOrder (replicate 4 0) self 4 in
  let timeval32 := le_val bs in
  let! b4 := ld self 4 in
  let fractionOfSecond := u32 (Z.shiftl b4 16) in
  let! b5 := ld self 5 in
  let fractionOfSecond := u32 (fractionOfSecond + Z.shiftl b5 8) in
  let! b6 := ld self 6 in
  let fractionOfSecond := u32 (fractionOfSecond + b6) in
  let remainder := fractionOfSecond / 16777 in
  Done (u64 (timeval32 * 1000 + remainder)).

(** * Names of functional constraints *)

Lemma fc_name_length fc s : FunctionalConstraint_toString fc = Some s -> length s = 2%nat.
Proof. by destruct fc; intros [= <-]. Qed.

Lemma fc_name_element fc s : FunctionalConstraint_toString fc = Some s -> is_element s.
Proof. destruct fc; intros [= <-]; (split; [repeat constructor; discriminate|discriminate]). Qed.

(** The name of a functional constraint, in front of anything, is read back. *)
Lemma fc_fromString_toString fc s rest : FunctionalConstraint_toString fc = Some s ->
  FunctionalConstraint_fromString (s ++ rest) = fc.
Proof. by destruct fc; intros [= <-]. Qed.

(** What is read as a functional constraint begins with its name. *)
Lemma fc_toString_fromString s : FunctionalConstraint_fromString s <> NONE ->
  FunctionalConstraint_toString (FunctionalConstraint_fromString s) = Some (take 2 s).
Proof.
  unfold FunctionalConstraint_fromString.
  destruct s as [|a [|b s]]; cbn [lookup list_lookup default id]; try (vm_compute; done).
  - repeat case_bool_decide; done.
  - repeat case_bool_decide; try done; intros _; cbn [take FunctionalConstraint_toString];
    repeat match goal with H : [_] = lit _ |- _ => injection H as -> end; done.
Qed.

Lemma fc_name_inj fc1 fc2 : is_Some (FunctionalConstraint_toString fc1) ->
  FunctionalConstraint_toString fc1 = FunctionalConstraint_toString fc2 -> fc1 = fc2.
Proof.
  intros [s Hs] E. rewrite Hs in E. symmetry in E.
  apply (fc_fromString_toString _ _ []) in Hs. apply (fc_fromString_toString _ _ []) in E. congruence.
Qed.

(** * The time *)

(** Reading and writing is that of MMS values; the quality of the time stays. *)
Lemma Timestamp_getTimeInMs_utc t d : Timestamp_getTimeInMs t = MmsValue_getUtcTimeInMs (Simple d (V_UTC_TIME t)).
Proof.
  unfold Timestamp_getTimeInMs, MmsValue_getUtcTimeInMs. cbn [as_utc_time rbind].
  destruct (memcpyReverseByteOrder _ _ _) as [bs| | |]; try done. cbn [rbind].
  destruct (ld t 4) as [b4| | |]; try done. cbn [rbind]. destruct (ld t 5) as [b5| | |]; try done. cbn [rbind].
  destruct (ld t 6) as [b6| | |]; try done. cbn [rbind].
  by replace (u32 (u32 (Z.shiftl b4 16) + Z.shiftl b5 8)) with (u32 (Z.shiftl b4 16 + Z.shiftl b5 8))
    by (unfold u32; by rewrite Zplus_mod_idemp_l).
Qed.

Lemma Timestamp_setTimeInMilliseconds_utc t ms d :
  MmsValue_setUtcTimeMs (Simple d (V_UTC_TIME t)) ms =
    let! t := Timestamp_setTimeInMilliseconds t ms in
    let! t := st t 7 10 in Done (Simple d (V_UTC_TIME t)).
Proof.
  unfold MmsValue_setUtcTimeMs, Timestamp_setTimeInMilliseconds, fractionOfSecond. cbn [as_utc_time rbind].
  destruct (memcpyReverseByteOrder _ _ _) as [t1| | |]; try done. cbn [rbind].
  destruct (st t1 4 _) as [t2| | |]; try done. cbn [rbind]. by destruct (st t2 5 _).
Qed.

(** A time in milliseconds is read back, for the 32 bits of seconds there are; the
    quality of the time is kept. *)
Lemma Timestamp_roundtrip t ms : zlen t = 8 -> 0 <= ms < 2 ^ 32 * 1000 ->
  exists t', Timestamp_setTimeInMilliseconds t ms = Done t' /\
    Timestamp_getTimeInMs t' = Done ms /\ ld t' 7 = ld t 7.
Proof.
  intros Ht Hms.
  destruct (MmsValue_utcTimeMs_roundtrip 0 t ms Ht) as (v & Hset & _ & _ & _ & Hget); [change (2 ^ 32) with 4294967296 in Hms; change (2 ^ 64) with 18446744073709551616; lia|].
  specialize (Hget ltac:(lia)). rewrite Timestamp_setTimeInMilliseconds_utc in Hset.
  destruct t as [|t0 [|t1 [|t2 [|t3 [|t4 [|t5 [|t6 [|t7 [|]]]]]]]]]; try done;
    try (unfold zlen in Ht; rewrite !length_cons in Ht; lia).
  unfold Timestamp_setTimeInMilliseconds in *. cbv zeta in *.
  destruct (le_bytes 4 (u32 (ms / 1000))) as [|s0 [|s1 [|s2 [|s3 [|]]]]] eqn:E;
    try (apply (f_equal length) in E; by rewrite length_le_bytes in E).
  eexists. split; [reflexivity|]. split; [|done].
  injection Hset as <-. rewrite <- Hget, (Timestamp_getTimeInMs_utc _ 0). reflexivity.
Qed.

(** * Flags of a quality *)

(** Setting the validity also clears the detail [QUALITY_DETAIL_OVERFLOW], which lies
    behind the two bits of the validity. *)
Lemma Quality_setValidity_clears_overflow self validity : 0 <= validity < 4 ->
  Quality_getValidity (Quality_setValidity self validity) = validity /\
  Quality_isFlagSet (Quality_setValidity self validity) QUALITY_DETAIL_OVERFLOW = false.
Proof.
  intros Hv. unfold Quality_setValidity, Quality_getValidity, Quality_isFlagSet, QUALITY_DETAIL_OVERFLOW, u16.
  change (2 ^ 16) with 65536. change 65536 with (2 ^ 16). rewrite <- !Z.land_ones by lia.
  assert (validity = 0 \/ validity = 1 \/ validity = 2 \/ validity = 3) as Hc by lia.
  split; [|apply Z.ltb_ge, Z.eq_le_incl];
    apply Z.bits_inj'; intros i Hi;
    rewrite !Z.land_spec, !Z.lor_spec, !Z.land_spec, ?Z.bits_0; destruct (Z.testbit self i);
    (destruct (decide (i < 16)) as [Hlt|Hge];
      [assert (i ∈ seqZ 0 16) as Hin by (apply elem_of_seqZ; lia); revert i Hi Hlt Hin;
       destruct Hc as [-> | [-> | [-> | ->]]]; intros i _ _ Hin; revert i Hin; apply Forall_forall; vm_compute; repeat constructor
      |rewrite (Z.bits_above_log2 65528 i), (Z.bits_above_log2 validity i) by (try (cbn; lia); destruct Hc as [-> | [-> | [-> | ->]]]; cbn; lia);
       rewrite ?andb_false_r, ?orb_false_r, ?andb_false_l; try done]).
  all: try (rewrite (Z.bits_above_log2 4 i) by (cbn; lia); done).
Qed.

(** Setting and clearing a flag does what it says and leaves the others alone. *)
Lemma Quality_setFlag_spec self k l : 0 <= self < 2 ^ 16 -> 0 <= k < 16 -> 0 <= l < 16 ->
  Z.testbit (Quality_setFlag self (2 ^ k)) l = (l =? k) || Z.testbit self l /\
  Z.testbit (Quality_unsetFlag self (2 ^ k)) l = negb (l =? k) && Z.testbit self l.
Proof.
  intros Hs Hk Hl. unfold Quality_setFlag, Quality_unsetFlag, u16. rewrite !Z.mod_pow2_bits_low by lia.
  rewrite Z.lor_spec, Z.land_spec, Z.lnot_spec, Z.pow2_bits_eqb, (Z.eqb_sym k) by lia.
  by rewrite orb_comm, andb_comm.
Qed.
