(* ===== verification/ReportBuffer.v ===== *)
(** The buffer of a buffered report control block: src/iedserver/mms_mapping/reporting.c
    (with reporting.h).  The reports that wait are entries of a block of memory that is
    used as a ring; they are linked from the oldest to the last, and the oldest ones
    make room for a new one. *)
From stdpp Require Import base tactics numbers option list gmap.
From S2P Require Import Prelude MmsValue.

(** stack_config.h *)
Definition CONFIG_REPORTING_DEFAULT_REPORT_BUFFER_SIZE : Z := 65536.

(** A value in an entry: the offset of its reason for inclusion in the block, the
    reason, and the value behind it. *)
Record ReportItem := mkItem {
  it_offset : Z;
  it_reason : Z;               (* uint8_t *)
  it_value : MmsValue }.

(** The entry and what is encoded behind it: the inclusion bits, for a report that was
    triggered by an event, and the values. *)
Record ReportBufferEntry := mkEntry {
  re_entryId : list Z;         (* uint8_t[8] *)
  re_flags : Z;                (* uint8_t *)
  re_entryLength : Z;
  re_inclusion : list Z;
  re_items : list ReportItem }.

(** The block holds entries at offsets, each with its pointer to the next; pointers
    into the block are offsets, [None] is the null pointer. *)
Abbreviation report_memory := (gmap Z (ReportBufferEntry * option Z)).

Record ReportBuffer := mkReportBuffer {
  rb_memoryBlock : report_memory;
  rb_memoryBlockSize : Z;
  rb_reportsCount : Z;
  rb_oldestReport : option Z;
  rb_lastEnqueuedReport : option Z;
  rb_nextToTransmit : option Z }.

Definition ReportBuffer_create : ReportBuffer :=
  mkReportBuffer ∅ CONFIG_REPORTING_DEFAULT_REPORT_BUFFER_SIZE 0 None None None.

(** [purgeBuf] *)
Definition purge (self : ReportBuffer) : ReportBuffer :=
  mkReportBuffer (rb_memoryBlock self) (rb_memoryBlockSize self) 0 None None None.

Definition set_nextToTransmit (p : option Z) (self : ReportBuffer) : ReportBuffer :=
  mkReportBuffer (rb_memoryBlock self) (rb_memoryBlockSize self) (rb_reportsCount self)
    (rb_oldestReport self) (rb_lastEnqueuedReport self) p.

(** ** Memory *)

(** The entries that [n] bytes at [p] do not overwrite. *)
Definition spared (p n : Z) (cell : Z * (ReportBufferEntry * option Z)) : Prop :=
  p + n <= cell.1 \/ cell.1 + re_entryLength cell.2.1 <= p.

#[export] Instance spared_dec p n cell : Decision (spared p n cell).
Proof. unfold spared. apply _. Defined.

(** Bytes are written: what they belonged to is no entry any more. *)
Definition overwrite (p n : Z) (m : report_memory) : report_memory := filter (spared p n) m.

Definition read_entry (m : report_memory) (p : Z) : res (ReportBufferEntry * option Z) := defined (m !! p).

Definition write_entry (p : Z) (e : ReportBufferEntry) (m : report_memory) : report_memory :=
  <[p := (e, None)]> (overwrite p (re_entryLength e) m).

Section Buffer.
Context (sizeof_ReportBufferEntry : Z).

(** [((ReportBufferEntry* ) p)->next = q] *)
Definition write_next (p : Z) (q : option Z) (m : report_memory) : report_memory :=
  match m !! p with
  | Some (e, _) => <[p := (e, q)]> (overwrite p sizeof_ReportBufferEntry m)
  | None => overwrite p sizeof_ReportBufferEntry m
  end.

(** ** Making room *)

(** The oldest report is removed; the next one becomes the one to transmit if it was. *)
Definition remove_oldest (self : ReportBuffer) : res ReportBuffer :=
  let! oldest := defined (rb_oldestReport self) in
  let! (_, next) := read_entry (rb_memoryBlock self) oldest in
  Done (mkReportBuffer (rb_memoryBlock self) (rb_memoryBlockSize self) (rb_reportsCount self - 1) next
    (rb_lastEnqueuedReport self)
    (if bool_decide (rb_nextToTransmit self = Some oldest) then next else rb_nextToTransmit self)).

(** Reports are removed while the offset of the oldest satisfies [cond]; each of the
    loops of the code ends when there is none. *)
Fixpoint remove_while (fuel : nat) (cond : Z -> bool) (self : ReportBuffer) : res ReportBuffer :=
  match rb_oldestReport self with
  | Some oldest =>
      if cond oldest then
        match fuel with
        | O => NoFuel
        | S fuel => let! self := remove_oldest self in remove_while fuel cond self
        end
      else Done self
  | None => Done self
  end.

(** As many turns as there are reports. *)
Definition turns (self : ReportBuffer) : nat := Z.to_nat (rb_reportsCount self).

(** The place for an entry of [bufferEntrySize] bytes, in the three situations of the
    code: one report; the last behind the oldest; the last in front of the oldest. *)
Definition find_place (self : ReportBuffer) (bufferEntrySize : Z) : res (Z * ReportBuffer) :=
  let link p last self :=
    Done (p, mkReportBuffer (write_next last (Some p) (rb_memoryBlock self)) (rb_memoryBlockSize self)
      (rb_reportsCount self) (rb_oldestReport self) (rb_lastEnqueuedReport self) (rb_nextToTransmit self)) in
  match rb_lastEnqueuedReport self with
  | None =>
      Done (0, mkReportBuffer (rb_memoryBlock self) (rb_memoryBlockSize self) (rb_reportsCount self)
        (Some 0) (rb_lastEnqueuedReport self) (Some 0))
  | Some last =>
      match rb_oldestReport self with
      | None => AssertFailed
      | Some oldest =>
          let! (e, _) := read_entry (rb_memoryBlock self) last in
          let entryBufPos := last + re_entryLength e in
          let overflow := rb_memoryBlockSize self <? entryBufPos + bufferEntrySize in
          if last =? oldest then
            if negb (rb_reportsCount self =? 1) then AssertFailed
            else if overflow then
              Done (0, mkReportBuffer (write_next 0 None (rb_memoryBlock self)) (rb_memoryBlockSize self) 0
                (Some 0) (rb_lastEnqueuedReport self) None)
            else link entryBufPos last self
          else if oldest <? last then
            if overflow then
              let! self := remove_while (turns self) (fun o => o <? bufferEntrySize) self in
              match rb_oldestReport self with
              | Some _ => link 0 last self
              | None =>
                  link 0 last (mkReportBuffer (write_next 0 None (rb_memoryBlock self)) (rb_memoryBlockSize self)
                    (rb_reportsCount self) (Some 0) (rb_lastEnqueuedReport self) (rb_nextToTransmit self))
              end
            else link entryBufPos last self
          else
            if overflow then
              let! self := remove_while (turns self) (fun o => 0 <? o) self in
              let! self := remove_while (turns self) (fun o => o <? bufferEntrySize) self in
              link 0 last self
            else
              let! self := remove_while (turns self)
                (fun o => (o <? entryBufPos + bufferEntrySize) && negb (o =? 0)) self in
              link entryBufPos last self
      end
  end.

(** The entry is written to its place. *)
Definition put_entry (p : Z) (e : ReportBufferEntry) (self : ReportBuffer) : ReportBuffer :=
  mkReportBuffer (write_entry p e (rb_memoryBlock self)) (rb_memoryBlockSize self) (rb_reportsCount self + 1)
    (match rb_oldestReport self with Some o => Some o | None => Some p end) (Some p)
    (match rb_nextToTransmit self with Some n => Some n | None => Some p end).

End Buffer.

(** The report buffer implements a queue: whatever is enqueued, the entries are linked
    from the oldest to the last, lie apart inside the block, and a new report removes
    only reports from the front. *)

(** The reports in the buffer, the oldest first, each with its offset. *)
Abbreviation reports := (list (Z * ReportBufferEntry)).

(** The offset of the oldest and of the last report. *)
Definition first_offset (l : reports) : option Z := fst <$> head l.
Definition last_offset (l : reports) : option Z := fst <$> last l.

(** The entries of [l] are linked in [m], from [p] to [q]. *)
Fixpoint linked (m : report_memory) (p : option Z) (l : reports) (q : option Z) : Prop :=
  match l with
  | [] => p = q
  | (a, e) :: l => p = Some a /\ exists n, m !! a = Some (e, n) /\ linked m n l q
  end.

Lemma linked_app m p l k q : linked m p (l ++ k) q <-> exists r, linked m p l r /\ linked m r k q.
Proof.
  revert p. induction l as [|[a e] l IH]; intros p; simpl.
  - split; [intros H; by exists p|]. by intros (r & -> & H).
  - split.
    + intros (-> & n & Hn & H). apply IH in H as (r & H1 & H2). exists r. eauto.
    + intros (r & (-> & n & Hn & H1) & H2). split; [done|]. exists n. split; [done|]. apply IH. eauto.
Qed.

Lemma linked_first m p l : linked m p l None -> p = first_offset l.
Proof. destruct l as [|[a e] l]; simpl; [done|]. by intros [-> _]. Qed.

(** ** Geometry

    [ascending h lo l hi]: the entries of [l] lie apart between [lo] and [hi], in the
    order of their offsets, each of at least [h] bytes. *)
Fixpoint ascending (h lo : Z) (l : reports) (hi : Z) : Prop :=
  match l with
  | [] => lo <= hi
  | (a, e) :: l => lo <= a /\ h <= re_entryLength e /\ ascending h (a + re_entryLength e) l hi
  end.

Section Ascending.
Context (h : Z) (Hh : 0 < h).

Lemma ascending_le lo l hi : ascending h lo l hi -> lo <= hi.
Proof using Hh. revert lo. induction l as [|[a e] l IH]; intros lo; simpl; [done|]. intros (H1 & H2 & H3%IH). lia. Qed.

Lemma ascending_lower lo lo' l hi : ascending h lo l hi -> lo' <= lo -> ascending h lo' l hi.
Proof using Hh. destruct l as [|[a e] l]; simpl; [lia|]. intros (H1 & H2 & H3) ?. repeat split; [lia|done|done]. Qed.

Lemma ascending_upper lo l hi hi' : ascending h lo l hi -> hi <= hi' -> ascending h lo l hi'.
Proof using Hh. revert lo. induction l as [|[a e] l IH]; intros lo; simpl; [lia|]. intros (H1 & H2 & H3) ?. eauto. Qed.

Lemma ascending_app lo l k hi : ascending h lo (l ++ k) hi <-> exists mid, ascending h lo l mid /\ ascending h mid k hi.
Proof using Hh.
  revert lo. induction l as [|[a e] l IH]; intros lo; simpl.
  - split; [intros H; exists lo; split; [lia|done]|]. intros (mid & H1 & H2). by eapply ascending_lower.
  - rewrite IH. split.
    + intros (H1 & H2 & mid & H3 & H4). exists mid. done.
    + intros (mid & (H1 & H2 & H3) & H4). repeat split; [done|done|]. by exists mid.
Qed.

Lemma ascending_in lo l hi a e : ascending h lo l hi -> (a, e) ∈ l ->
  lo <= a /\ h <= re_entryLength e /\ a + re_entryLength e <= hi.
Proof using Hh.
  revert lo. induction l as [|[b f] l IH]; intros lo; simpl; [by intros _ []%not_elem_of_nil|].
  intros (H1 & H2 & H3) [[= <- <-]|Hin]%elem_of_cons.
  - apply ascending_le in H3. lia.
  - destruct (IH _ H3 Hin) as (? & ? & ?). lia.
Qed.

(** From the first entry on. *)
Lemma ascending_from lo l hi a : ascending h lo l hi -> first_offset l = Some a -> ascending h a l hi.
Proof using Hh. destruct l as [|[b e] l]; simpl; [done|]. intros (H1 & H2 & H3) [= ->]. repeat split; [lia|done|done]. Qed.

(** Up to the end of the last entry. *)
Lemma ascending_to lo l hi a e : ascending h lo (l ++ [(a, e)]) hi -> ascending h lo (l ++ [(a, e)]) (a + re_entryLength e).
Proof using Hh.
  rewrite !ascending_app. intros (mid & H1 & H2). exists mid. split; [done|]. simpl in *. split_and!; lia.
Qed.
End Ascending.

(** One run of ascending entries, or two, the second of which starts at the beginning
    of the block in front of the first. *)
Definition layout (h size : Z) (l : reports) : Prop :=
  ascending h 0 l size \/
  exists u w o, l = u ++ w /\ first_offset u = Some o /\ first_offset w = Some 0 /\
    ascending h o u size /\ ascending h 0 w o.

(** ** The invariant of the buffer

    [l] are the reports in it, the first [k] of which have been sent. *)
Record buffer_inv (h : Z) (self : ReportBuffer) (l : reports) (k : nat) : Prop := mk_buffer_inv {
  bi_linked : linked (rb_memoryBlock self) (rb_oldestReport self) l None;
  bi_layout : layout h (rb_memoryBlockSize self) l;
  bi_last : rb_lastEnqueuedReport self = last_offset l;
  bi_count : rb_reportsCount self = zlen l;
  bi_sent : (k <= length l)%nat;
  bi_next : rb_nextToTransmit self = first_offset (drop k l) }.

(** ** Removing the oldest reports *)

Lemma first_offset_drop l k a : first_offset (drop k l) = Some a -> a ∈ (fst <$> l).
Proof.
  intros H. destruct (drop k l) as [|[b e] r] eqn:E; [done|]. injection H as ->.
  apply list_elem_of_fmap. exists (a, e). split; [done|].
  rewrite <- (take_drop k l), E. apply elem_of_app. right. by left.
Qed.

Lemma remove_while_spec cond m size n p q last l k fuel :
  linked m p l None -> n = zlen l -> (k <= length l)%nat -> q = first_offset (drop k l) ->
  NoDup (fst <$> l) -> (length l <= fuel)%nat ->
  exists removed rest, l = removed ++ rest /\ Forall (fun x => cond x.1 = true) removed /\
    (forall o, first_offset rest = Some o -> cond o = false) /\
    remove_while fuel cond (mkReportBuffer m size n p last q) =
      Done (mkReportBuffer m size (zlen rest) (first_offset rest) last (first_offset (drop (k - length removed) rest))).
Proof.
  revert n p q k fuel. induction l as [|[a e] l IH]; intros n p q k fuel Hl Hn Hk Hq Hd Hf.
  - exists [], []. simpl in Hl. subst. split; [done|]. split; [by constructor|]. split; [done|].
    rewrite !drop_nil. by destruct fuel.
  - pose proof Hl as (-> & r & Hr & Hl'). destruct (cond a) eqn:Hc.
    + destruct fuel as [|fuel]; [simpl in Hf; lia|]. pose proof (linked_first _ _ _ Hl') as ->.
      apply NoDup_cons in Hd as [Hd1 Hd2].
      destruct (IH (n - 1) (first_offset l) (first_offset (drop (k - 1) l)) (k - 1)%nat fuel) as (removed & rest & H1 & H2 & H3 & H4);
        [done|rewrite zlen_cons in Hn; lia|simpl in Hk; lia|done|done|simpl in Hf; lia|].
      exists ((a, e) :: removed), rest. split; [by rewrite H1|]. split; [by constructor|]. split; [done|].
      cbn [remove_while rb_oldestReport]. rewrite Hc. unfold remove_oldest, read_entry. cbn. rewrite Hr. cbn.
      replace (if bool_decide (q = Some a) then first_offset l else q) with (first_offset (drop (k - 1) l)); 
        [rewrite H4; replace (k - S (length removed))%nat with (k - 1 - length removed)%nat by lia; done|].
      subst q. destruct k as [|k]; simpl; [by rewrite bool_decide_true|].
      rewrite Nat.sub_0_r, bool_decide_false; [done|]. intros E%first_offset_drop. done.
    + exists [], ((a, e) :: l). split; [done|]. split; [by constructor|]. split; [by intros o [= <-]|].
      simpl length. rewrite Nat.sub_0_r. subst. by destruct fuel; cbn; rewrite Hc.
Qed.

(** ** Writing to the block *)

(** [n] bytes at [p] are no part of the entry. *)
Definition apart (p n : Z) (x : Z * ReportBufferEntry) : Prop :=
  p + n <= x.1 \/ x.1 + re_entryLength x.2 <= p.

Lemma linked_overwrite p n m x l y : Forall (apart p n) l -> linked m x l y -> linked (overwrite p n m) x l y.
Proof.
  intros Hl. revert x. induction Hl as [|[a e] l Ha _ IH]; intros x; simpl; [done|].
  intros (-> & r & Hr & H). split; [done|]. exists r. split; [|auto]. by apply map_lookup_filter_Some.
Qed.

Lemma linked_insert a c m x l y : a ∉ l.*1 -> linked m x l y -> linked (<[a:=c]> m) x l y.
Proof.
  revert x. induction l as [|[b e] l IH]; intros x; simpl; [done|].
  intros Ha (-> & r & Hr & H). apply not_elem_of_cons in Ha as [? ?].
  split; [done|]. exists r. rewrite lookup_insert_ne by done. eauto.
Qed.

Lemma linked_write_entry p e m x l y : Forall (apart p (re_entryLength e)) l -> p ∉ l.*1 ->
  linked m x l y -> linked (write_entry p e m) x l y.
Proof. intros. unfold write_entry. apply linked_insert; [done|]. by apply linked_overwrite. Qed.

Section WriteNext.
Context (h : Z).

(** The pointer of the last entry is changed. *)
Lemma linked_write_next m x l a e q q' : Forall (apart a h) l -> a ∉ l.*1 ->
  linked m x (l ++ [(a, e)]) q -> linked (write_next h a q' m) x (l ++ [(a, e)]) q'.
Proof.
  intros Hl Ha. rewrite !linked_app. intros (r & H1 & -> & n & Hn & _).
  exists (Some a). unfold write_next. rewrite Hn. split.
  - apply linked_insert; [done|]. by apply linked_overwrite.
  - split; [done|]. exists q'. by rewrite lookup_insert_eq.
Qed.
End WriteNext.

(** An entry at the end of a queue. *)
Lemma put_entry_inv h m size cnt oldest last next rest k p e :
  (rest <> [] -> linked m (first_offset rest) rest (Some p)) ->
  Forall (apart p (re_entryLength e)) rest -> p ∉ rest.*1 -> layout h size (rest ++ [(p, e)]) ->
  cnt = zlen rest -> (k <= length rest)%nat ->
  (oldest = first_offset rest \/ rest = [] /\ oldest = Some p) ->
  (next = first_offset (drop k rest) \/ rest = [] /\ next = Some p) ->
  buffer_inv h (put_entry p e (mkReportBuffer m size cnt oldest last next)) (rest ++ [(p, e)]) k.
Proof.
  intros Hl Ha Hp Hg -> Hk Ho Hn. constructor; cbn.
  - apply linked_app. exists (Some p). split.
    + destruct rest as [|[a f] rest]; [by destruct Ho as [->|[_ ->]]|].
      destruct Ho as [->|[? _]]; [|done]. cbn [first_offset]. apply linked_write_entry; [done..|]. by apply Hl.
    + split; [done|]. exists None. by unfold write_entry; rewrite lookup_insert_eq.
  - done.
  - unfold last_offset. by rewrite last_snoc.
  - by rewrite zlen_app.
  - rewrite length_app. simpl. lia.
  - rewrite drop_app_le by done. destruct Hn as [->|[-> ->]].
    + destruct (drop k rest) as [|[a f] r]; done.
    + rewrite drop_nil. done.
Qed.

(** ** The geometry of a queue *)

Section Geometry.
Context (h : Z) (Hh : 0 < h).

Lemma ascending_NoDup lo l hi : ascending h lo l hi -> NoDup l.*1 /\ Forall (fun a => lo <= a < hi) l.*1.
Proof using Hh.
  revert lo. induction l as [|[a e] l IH]; intros lo; simpl; [split; constructor|].
  intros (H1 & H2 & H3). destruct (IH _ H3) as [Hd Hb]. apply ascending_le in H3; [|done]. split.
  - constructor; [|done]. intros Hin. rewrite Forall_forall in Hb. apply Hb in Hin. lia.
  - constructor; [lia|]. eapply Forall_impl; [exact Hb|]. cbn. lia.
Qed.

Lemma ascending_last lo l a e hi : ascending h lo (l ++ [(a, e)]) hi ->
  lo <= a /\ h <= re_entryLength e /\ a + re_entryLength e <= hi /\ Forall (fun x => x.1 + re_entryLength x.2 <= a) l.
Proof using Hh.
  rewrite ascending_app by done. intros (mid & H1 & H2 & H3 & H4). simpl in H4.
  pose proof (ascending_le _ Hh _ _ _ H1). split_and!; [lia|done|done|].
  apply Forall_forall. intros [b f] Hin. simpl. destruct (ascending_in _ Hh _ _ _ _ _ H1 Hin) as (? & ? & ?). lia.
Qed.

Lemma ascending_all lo l hi : ascending h lo l hi -> Forall (fun x => lo <= x.1 /\ h <= re_entryLength x.2 /\ x.1 + re_entryLength x.2 <= hi) l.
Proof using Hh. intros H. apply Forall_forall. intros [b f] Hin. by eapply ascending_in. Qed.

Lemma layout_NoDup size l : layout h size l -> NoDup l.*1.
Proof using Hh.
  intros [H|(u & w & o & -> & Hu & Hw & Hau & Haw)]; [by apply ascending_NoDup in H as [? _]|].
  apply ascending_NoDup in Hau as [Hdu Hbu], Haw as [Hdw Hbw]. rewrite fmap_app. apply NoDup_app.
  split_and!; [done| |done]. intros a Ha Ha'. rewrite Forall_forall in Hbu, Hbw. apply Hbu in Ha. apply Hbw in Ha'. lia.
Qed.

(** The last entry lies apart from the others. *)
Lemma layout_last size l a e : layout h size (l ++ [(a, e)]) ->
  0 <= a /\ h <= re_entryLength e /\ a + re_entryLength e <= size /\ Forall (apart a (re_entryLength e)) l.
Proof using Hh.
  intros [H|(u & w & o & E & Hu & Hw & Hau & Haw)].
  - apply ascending_last in H as (? & ? & ? & H). split_and!; try done. eapply Forall_impl; [exact H|]. by right.
  - destruct w as [|y w _] using rev_ind; [done|]. rewrite app_assoc in E. apply app_inj_tail in E as [-> <-].
    apply ascending_last in Haw as (H1 & H2 & H3 & H4). pose proof (ascending_le _ Hh _ _ _ Hau) as Ho.
    split_and!; [done|done|lia|]. apply Forall_app. split; [|eapply Forall_impl; [exact H4|]; by right].
    eapply Forall_impl; [by apply (ascending_all o u size)|]. cbn. left. lia.
Qed.

Lemma apart_smaller p n n' x : apart p n x -> n' <= n -> apart p n' x.
Proof using. unfold apart. lia. Qed.

Lemma layout_last_fresh size l a e : layout h size (l ++ [(a, e)]) -> a ∉ l.*1.
Proof using Hh.
  intros H%layout_NoDup. rewrite fmap_app in H. apply NoDup_app in H as (_ & H & _).
  intros Hin. apply (H a Hin). by left.
Qed.

(** ** A new entry at the end *)

Lemma link_inv size m l removed rest k p e a oldest last next cnt :
  layout h size l -> l = removed ++ rest -> linked m (first_offset rest) rest None -> last_offset l = Some a ->
  layout h size (rest ++ [(p, e)]) -> (k <= length rest)%nat -> cnt = zlen rest ->
  (oldest = first_offset rest \/ rest = [] /\ oldest = Some p) ->
  (next = first_offset (drop k rest) \/ rest = [] /\ next = Some p) ->
  buffer_inv h (put_entry p e (mkReportBuffer (write_next h a (Some p) m) size cnt oldest last next)) (rest ++ [(p, e)]) k.
Proof using Hh.
  intros Hg E Hl Ha Hg' Hk Hc Ho Hn.
  pose proof (layout_last _ _ _ _ Hg') as (_ & _ & _ & Hap). pose proof (layout_last_fresh _ _ _ _ Hg') as Hf.
  apply put_entry_inv; try done. intros Hr.
  destruct (rest) as [|[b f] r _] using rev_ind; [done|]. subst l. rewrite app_assoc in Hg, Ha.
  unfold last_offset in Ha. rewrite last_snoc in Ha. injection Ha as ->.
  pose proof (layout_last _ _ _ _ Hg) as (_ & Hlen & _ & Hap'). pose proof (layout_last_fresh _ _ _ _ Hg) as Hf'.
  apply Forall_app in Hap' as [_ Hap']. rewrite fmap_app, not_elem_of_app in Hf'.
  eapply linked_write_next; [|by apply Hf'|exact Hl].
  eapply Forall_impl; [exact Hap'|]. intros x Hx. by eapply apart_smaller.
Qed.
End Geometry.

(** A prefix whose elements satisfy [P] ends where [w] begins, if its head does not. *)
Lemma split_prefix {A} (P : A -> Prop) (u w removed rest : list A) :
  u ++ w = removed ++ rest -> Forall P removed -> (forall x, head w = Some x -> ~ P x) -> w <> [] ->
  exists u', u = removed ++ u' /\ rest = u' ++ w.
Proof.
  revert removed. induction u as [|x u IH]; intros removed E HP Hw Hn.
  - exists []. destruct removed as [|y removed]; [done|]. simpl in E. subst w.
    apply Forall_cons in HP as [Hy _]. by destruct (Hw y eq_refl).
  - destruct removed as [|y removed]; simpl in E.
    + exists (x :: u). by split.
    + injection E as -> E. apply Forall_cons in HP as [_ HP]. destruct (IH removed E HP Hw Hn) as (u' & -> & ->). by exists u'.
Qed.

Section Enqueue.
Context (h : Z) (Hh : 0 < h).

(** What [find_place] establishes. *)
Definition place_found (self : ReportBuffer) (l : reports) (k : nat) (n : Z) : Prop :=
  exists p self' removed rest, find_place h self n = Done (p, self') /\ l = removed ++ rest /\
    forall e, re_entryLength e = n -> buffer_inv h (put_entry p e self') (rest ++ [(p, e)]) (k - length removed).

(** A place at the beginning of the block, in front of what is left. *)
Lemma layout_front size rest e lo : ascending h lo rest size -> 0 <= lo -> h <= re_entryLength e <= size ->
  (forall o, first_offset rest = Some o -> re_entryLength e <= o) -> layout h size (rest ++ [(0, e)]).
Proof using Hh.
  intros Ha Hlo He Ho. destruct (first_offset rest) as [o|] eqn:Hf.
  - right. exists rest, [(0, e)], o. split; [done|]. split; [done|]. split; [done|]. split; [by eapply ascending_from|].
    simpl. specialize (Ho o eq_refl). split_and!; lia.
  - destruct rest; [|done]. left. simpl. split_and!; lia.
Qed.

Lemma sent_rest (l removed rest : reports) k : l = removed ++ rest -> (k <= length l)%nat -> (k - length removed <= length rest)%nat.
Proof using. intros -> H. rewrite length_app in H. lia. Qed.

(** A new entry as the only one, at the beginning of the block. *)
Lemma put_entry_alone m size oldest last next e :
  (oldest = None \/ oldest = Some 0) -> (next = None \/ next = Some 0) -> h <= re_entryLength e <= size ->
  buffer_inv h (put_entry 0 e (mkReportBuffer m size 0 oldest last next)) ([] ++ [(0, e)]) 0.
Proof using.
  intros Ho Hn Hs. apply put_entry_inv; [done|by constructor|by apply not_elem_of_nil| |done|done|..].
  - left. simpl. lia.
  - destruct Ho as [->| ->]; [by left|by right].
  - destruct Hn as [->| ->]; [by left|by right].
Qed.

Lemma place_empty m size cnt oldest last next k n :
  buffer_inv h (mkReportBuffer m size cnt oldest last next) [] k -> h <= n <= size ->
  place_found (mkReportBuffer m size cnt oldest last next) [] k n.
Proof using Hh.
  intros [Hl Hg HL Hc Hk Hn] Hsz. cbn in *. subst. do 2 eexists. exists [], []. split; [done|]. split; [done|].
  intros e He. replace (k - length [])%nat with O by (simpl in *; lia).
  apply put_entry_alone; [by right|by right|by rewrite He].
Qed.

Lemma layout_single size x : layout h size [x] -> ascending h 0 [x] size.
Proof using.
  intros [H|(u & w & o & E & Hu & Hw & _)]; [done|]. destruct u as [|y [|z u]], w; done.
Qed.

Lemma place_single m size cnt oldest last next a f k n :
  buffer_inv h (mkReportBuffer m size cnt oldest last next) [(a, f)] k -> h <= n <= size ->
  place_found (mkReportBuffer m size cnt oldest last next) [(a, f)] k n.
Proof using Hh.
  intros [Hl Hg HL Hc Hk Hn] Hsz. cbn in *. destruct Hl as (-> & r & Hr & ->). subst.
  pose proof (layout_single _ _ Hg) as Ha. unfold place_found, find_place, read_entry. cbn.
  rewrite Hr. cbn. rewrite Z.eqb_refl. cbn. destruct (Z.ltb_spec size (a + re_entryLength f + n)) as [Ho|Ho].
  - do 2 eexists. exists [(a, f)], []. split; [done|]. split; [done|]. intros e He.
    replace (k - length [(a, f)])%nat with O by (simpl in *; lia).
    apply put_entry_alone; [by right|by left|by rewrite He].
  - do 2 eexists. exists [], [(a, f)]. split; [done|]. split; [done|]. intros e He. rewrite Nat.sub_0_r.
    apply (link_inv _ Hh _ _ [(a, f)] [] [(a, f)]); try done; try by left.
    + simpl. split; [done|]. by exists None.
    + left. simpl in *. destruct Ha as (? & ? & ?). split_and!; lia.
Qed.

Lemma last_entry l a : last_offset l = Some a -> exists l0 f, l = l0 ++ [(a, f)].
Proof using.
  destruct l as [|[b f] l0 _] using rev_ind; [done|]. unfold last_offset. rewrite last_snoc. intros [= ->]. eauto.
Qed.

Lemma linked_last m p l a f q : linked m p (l ++ [(a, f)]) q -> m !! a = Some (f, q).
Proof using. rewrite linked_app. by intros (r & _ & -> & n & Hn & <-). Qed.

Lemma linked_suffix m p l removed rest q : l = removed ++ rest -> linked m p l q -> q = None ->
  linked m (first_offset rest) rest q.
Proof using. intros -> H ->. apply linked_app in H as (r & _ & H). by rewrite <- (linked_first _ _ _ H). Qed.

(** The last behind the oldest: the reports are in one run. *)
Lemma place_run m size cnt oldest last next l k n a o :
  buffer_inv h (mkReportBuffer m size cnt oldest last next) l k -> h <= n <= size ->
  ascending h 0 l size -> last = Some a -> oldest = Some o -> o < a ->
  place_found (mkReportBuffer m size cnt oldest last next) l k n.
Proof using Hh.
  intros [Hl Hg HL Hc Hk Hn] Hsz Ha E1 E2 Hoa. cbn in *. subst.
  pose proof (last_entry _ _ E1) as (l0 & f & E). unfold place_found, find_place, read_entry. cbn [rb_lastEnqueuedReport].
  rewrite E1. cbn. rewrite (linked_last m (Some o) l0 a f None) by by rewrite <- E. cbn.
  rewrite (proj2 (Z.eqb_neq a o)), (proj2 (Z.ltb_lt o a)) by lia.
  pose proof (linked_first _ _ _ Hl) as Hf.
  destruct (Z.ltb_spec size (a + re_entryLength f + n)) as [Hov|Hov].
  - destruct (remove_while_spec (fun o => o <? n) m size (zlen l) (Some o) (first_offset (drop k l)) (last_offset l) l k
      (turns (mkReportBuffer m size (zlen l) (Some o) (Some a) (first_offset (drop k l)))))
      as (removed & rest & E' & Hrem & Hrest & Hrun); try done.
    { by apply (layout_NoDup h Hh size). }
    { unfold turns, zlen. cbn. lia. }
    rewrite E1 in Hrun. rewrite Hrun. cbn [rbind rb_oldestReport].
    assert (ascending h 0 rest size) as Har.
    { rewrite E' in Ha. apply ascending_app in Ha as (mid & Ha1 & Ha2); [|done].
      eapply ascending_lower; [done|exact Ha2|]. by eapply ascending_le. }
    pose proof (linked_suffix _ _ _ _ _ _ E' Hl eq_refl) as Hlr.
    destruct (first_offset rest) as [o'|] eqn:Hfr.
    + do 2 eexists. exists removed, rest. split; [done|]. split; [done|]. intros e He.
      apply (link_inv _ Hh size m l removed rest); try done; try by left.
      * by rewrite Hfr.
      * eapply layout_front; [exact Har|lia|lia|]. intros x Hx. rewrite Hfr in Hx. injection Hx as <-.
        specialize (Hrest _ eq_refl). apply Z.ltb_ge in Hrest. lia.
      * by eapply sent_rest.
    + destruct rest; [|done]. do 2 eexists. exists removed, []. split; [done|]. split; [done|]. intros e He.
      rewrite app_nil_r in E'. subst removed. replace (k - length l)%nat with O by lia.
      apply put_entry_alone; [by right|by left; rewrite drop_nil|by rewrite He].
  - do 2 eexists. exists [], l. split; [done|]. split; [done|]. intros e He. simpl length. rewrite Nat.sub_0_r.
    apply (link_inv _ Hh size m l [] l); try done; try by left.
    + by rewrite <- Hf.
    + left. rewrite E in Ha |- *. rewrite ascending_app by done. exists (a + re_entryLength f).
      split; [by eapply ascending_to|]. simpl. apply ascending_last in Ha as (? & ? & ? & ?); [|done]. lia.
Qed.

Lemma ascending_offsets lo l hi : ascending h lo l hi -> Forall (fun x => lo <= x.1 < hi) l.
Proof using Hh.
  intros H. apply (ascending_all h Hh) in H. eapply Forall_impl; [exact H|]. cbn. intros x Hx. lia.
Qed.

(** The last in front of the oldest: the reports are in two runs.  A loop that stops
    at the offset 0 removes only reports of the upper one. *)
Lemma remove_upper (cond : Z -> bool) (u w removed rest : reports) :
  first_offset w = Some 0 -> u ++ w = removed ++ rest ->
  Forall (fun x => cond x.1 = true) removed -> cond 0 = false ->
  exists u', u = removed ++ u' /\ rest = u' ++ w.
Proof using.
  intros H0 E Hr Hc. eapply (split_prefix (fun x => cond x.1 = true)); [done|done| |by destruct w].
  intros [b f] Hb. unfold first_offset in H0. rewrite Hb in H0. injection H0 as ->. cbn. by rewrite Hc.
Qed.

(** A place at the end of the lower run, in front of what is left of the upper one. *)
Lemma layout_behind size (u removed u' w : reports) o a f e :
  ascending h o u size -> u = removed ++ u' -> ascending h 0 (w ++ [(a, f)]) o -> first_offset (w ++ [(a, f)]) = Some 0 ->
  let p := a + re_entryLength f in
  h <= re_entryLength e -> p + re_entryLength e <= size ->
  (forall b, first_offset (u' ++ w ++ [(a, f)]) = Some b -> (b <? p + re_entryLength e) && negb (b =? 0) = false) ->
  layout h size ((u' ++ w ++ [(a, f)]) ++ [(p, e)]).
Proof using Hh.
  intros Hau -> Haw H0 p He Hs Hb. pose proof (ascending_to h Hh _ _ _ _ _ Haw) as Hto. fold p in Hto.
  pose proof (ascending_last h Hh _ _ _ _ _ Haw) as (Ha0 & Hf & Hp & _). fold p in Hp.
  apply ascending_app in Hau as (mid & Hm1 & Hm2); [|done]. apply ascending_le in Hm1; [|done].
  destruct u' as [|[b g] u'].
  - left. simpl. rewrite ascending_app by done. exists p. split; [done|]. simpl. split_and!; lia.
  - right. specialize (Hb b eq_refl). pose proof Hm2 as (Hb1 & Hb2 & _).
    rewrite (proj2 (Z.eqb_neq b 0)) in Hb by lia. rewrite andb_true_r in Hb. apply Z.ltb_ge in Hb.
    exists ((b, g) :: u'), ((w ++ [(a, f)]) ++ [(p, e)]), b. split; [by rewrite <- app_assoc|]. split; [done|].
    split; [by destruct w|]. split; [by eapply ascending_from|].
    rewrite ascending_app by done. exists p. split; [done|]. simpl. split_and!; lia.
Qed.

Lemma place_wrapped_behind m size next u w k n o a f :
  linked m (Some o) (u ++ w ++ [(a, f)]) None -> next = first_offset (drop k (u ++ w ++ [(a, f)])) ->
  (k <= length (u ++ w ++ [(a, f)]))%nat -> layout h size (u ++ w ++ [(a, f)]) -> h <= n ->
  ascending h o u size -> ascending h 0 (w ++ [(a, f)]) o -> first_offset (w ++ [(a, f)]) = Some 0 ->
  let p := a + re_entryLength f in p + n <= size ->
  exists self' removed rest, remove_while (turns (mkReportBuffer m size (zlen (u ++ w ++ [(a, f)])) (Some o) (Some a) next))
      (fun x => (x <? p + n) && negb (x =? 0))
      (mkReportBuffer m size (zlen (u ++ w ++ [(a, f)])) (Some o) (Some a) next) = Done self' /\
    u ++ w ++ [(a, f)] = removed ++ rest /\
    forall e, re_entryLength e = n -> buffer_inv h (put_entry p e
      (mkReportBuffer (write_next h a (Some p) (rb_memoryBlock self')) (rb_memoryBlockSize self') (rb_reportsCount self')
        (rb_oldestReport self') (rb_lastEnqueuedReport self') (rb_nextToTransmit self'))) (rest ++ [(p, e)]) (k - length removed).
Proof using Hh.
  intros Hl -> Hk Hg Hn Hau Haw H0 p Hov. set (l := u ++ w ++ [(a, f)]) in *.
  destruct (remove_while_spec (fun x => (x <? p + n) && negb (x =? 0)) m size (zlen l) (Some o) (first_offset (drop k l)) (Some a) l k
    (turns (mkReportBuffer m size (zlen l) (Some o) (Some a) (first_offset (drop k l)))))
    as (removed & rest & E' & Hrem & Hrest & Hrun); try done.
  { by apply (layout_NoDup h Hh size). }
  { unfold turns, zlen. cbn. lia. }
  eexists. exists removed, rest. split; [exact Hrun|]. split; [done|]. intros e He. cbn.
  destruct (remove_upper (fun x => (x <? p + n) && negb (x =? 0)) _ _ _ _ H0 E' Hrem) as (u' & Eu & Er);
    [by rewrite andb_false_r|].
  apply (link_inv h Hh size m l removed rest); try done; try by left.
  - by eapply linked_suffix.
  - unfold last_offset, l. by rewrite app_assoc, last_snoc.
  - subst rest. eapply layout_behind; [done..|by rewrite He|by rewrite He|]. by rewrite He.
  - by eapply sent_rest.
Qed.

(** The upper run is removed as a whole. *)
Lemma remove_upper_run m size (u w : reports) o k a :
  linked m (Some o) (u ++ w) None -> (k <= length (u ++ w))%nat -> layout h size (u ++ w) ->
  ascending h o u size -> 0 < o -> first_offset w = Some 0 ->
  let self := mkReportBuffer m size (zlen (u ++ w)) (Some o) (Some a) (first_offset (drop k (u ++ w))) in
  remove_while (turns self) (fun x => 0 <? x) self =
    Done (mkReportBuffer m size (zlen w) (Some 0) (Some a) (first_offset (drop (k - length u) w))).
Proof using Hh.
  intros Hl Hk Hg Hau Ho H0 self.
  destruct (remove_while_spec (fun x => 0 <? x) m size (zlen (u ++ w)) (Some o) (first_offset (drop k (u ++ w))) (Some a) (u ++ w) k
    (turns self)) as (removed & rest & E' & Hrem & Hrest & Hrun); try done.
  { by apply (layout_NoDup h Hh size). }
  { unfold turns, zlen. cbn. unfold zlen. lia. }
  destruct (remove_upper (fun x => 0 <? x) _ _ _ _ H0 E' Hrem) as (u' & Eu & Er); [done|].
  assert (u' = []) as ->.
  { destruct u' as [|[b g] u']; [done|]. subst. specialize (Hrest b eq_refl). apply Z.ltb_ge in Hrest.
    destruct (ascending_in h Hh _ _ _ b g Hau) as (? & _); [|lia]. apply elem_of_app. right. by left. }
  rewrite app_nil_r in Eu. simpl in Er. subst u rest. rewrite <- H0. exact Hrun.
Qed.

Lemma place_wrapped_front m size u w k n o a :
  linked m (Some o) (u ++ w) None -> (k <= length (u ++ w))%nat -> layout h size (u ++ w) -> h <= n <= size ->
  ascending h o u size -> ascending h 0 w o -> first_offset w = Some 0 -> last_offset w = Some a -> 0 < o ->
  exists self1 self2 removed rest,
    (let self := mkReportBuffer m size (zlen (u ++ w)) (Some o) (Some a) (first_offset (drop k (u ++ w))) in
     remove_while (turns self) (fun x => 0 <? x) self = Done self1) /\
    remove_while (turns self1) (fun x => x <? n) self1 = Done self2 /\
    u ++ w = removed ++ rest /\
    forall e, re_entryLength e = n -> buffer_inv h (put_entry 0 e
      (mkReportBuffer (write_next h a (Some 0) (rb_memoryBlock self2)) (rb_memoryBlockSize self2) (rb_reportsCount self2)
        (rb_oldestReport self2) (rb_lastEnqueuedReport self2) (rb_nextToTransmit self2))) (rest ++ [(0, e)]) (k - length removed).
Proof using Hh.
  intros Hl Hk Hg Hn Hau Haw H0 Ha Ho. pose proof Hl as Hlw. apply linked_app in Hlw as (r & _ & Hlw).
  pose proof (linked_first _ _ _ Hlw) as ->. rewrite H0 in Hlw. pose proof (ascending_le h Hh _ _ _ Hau) as Hos.
  destruct (remove_while_spec (fun x => x <? n) m size (zlen w) (Some 0) (first_offset (drop (k - length u) w)) (Some a) w (k - length u)
    (turns (mkReportBuffer m size (zlen w) (Some 0) (Some a) (first_offset (drop (k - length u) w)))))
    as (removed & rest & E' & Hrem & Hrest & Hrun); try done.
  { rewrite length_app in Hk. lia. }
  { by apply (ascending_NoDup h Hh 0 w o). }
  { unfold turns, zlen. cbn. lia. }
  do 2 eexists. exists (u ++ removed), rest. split; [by apply remove_upper_run|]. split; [exact Hrun|].
  assert (u ++ w = (u ++ removed) ++ rest) as Eall by (by rewrite E', app_assoc). split; [done|].
  intros e He. cbn. rewrite length_app, Nat.sub_add_distr. destruct rest as [|x rest].
  - rewrite !drop_nil. replace (k - length u - length removed)%nat with O
      by (rewrite length_app, E', app_nil_r in Hk; lia).
    apply put_entry_alone; [by left|by left|by rewrite He].
  - apply (link_inv h Hh size m (u ++ w) (u ++ removed) (x :: rest)); try done; try by left.
    + by eapply linked_suffix.
    + destruct (last_entry _ _ Ha) as (w0 & g & ->). unfold last_offset. by rewrite app_assoc, last_snoc.
    + rewrite E' in Haw. apply ascending_app in Haw as (mid & Hm1 & Hm2); [|done]. apply ascending_le in Hm1; [|done].
      eapply layout_front; [eapply ascending_upper; [done|exact Hm2|exact Hos]|done|by rewrite He|].
      intros b Hb. rewrite He. specialize (Hrest b Hb). by apply Z.ltb_ge in Hrest.
    + rewrite E', !length_app in Hk. simpl in *. lia.
Qed.

Lemma place_wrapped m size cnt oldest last next u w k n o a :
  buffer_inv h (mkReportBuffer m size cnt oldest last next) (u ++ w) k -> h <= n <= size ->
  first_offset u = Some o -> first_offset w = Some 0 -> ascending h o u size -> ascending h 0 w o ->
  last_offset w = Some a ->
  place_found (mkReportBuffer m size cnt oldest last next) (u ++ w) k n.
Proof using Hh.
  intros [Hl Hg HL Hc Hk Hn] Hsz Hu H0 Hau Haw Hwa. cbn in *. subst.
  destruct (last_entry _ _ Hwa) as (w0 & f & Ew).
  assert (last_offset (u ++ w) = Some a) as E1 by (rewrite Ew; unfold last_offset; by rewrite app_assoc, last_snoc).
  pose proof Haw as Haw'. rewrite Ew in Haw'. apply ascending_last in Haw' as (Ha0 & Hf & Haf & _); [|done].
  assert (oldest = Some o) as -> by (rewrite (linked_first _ _ _ Hl); by destruct u).
  unfold place_found, find_place, read_entry. cbn [rb_lastEnqueuedReport rb_oldestReport rb_memoryBlock]. rewrite E1.
  rewrite (linked_last m (Some o) (u ++ w0) a f None) by by rewrite <- app_assoc, <- Ew. cbn [defined rbind rb_memoryBlockSize].
  rewrite (proj2 (Z.eqb_neq a o)), (proj2 (Z.ltb_ge o a)) by lia.
  destruct (Z.ltb_spec size (a + re_entryLength f + n)) as [Hov|Hov].
  - destruct (place_wrapped_front m size u w k n o a) as (s1 & s2 & removed & rest & R1 & R2 & E & Hinv); try done; [lia|].
    cbv zeta in R1. rewrite R1. cbn [rbind]. rewrite R2. cbn [rbind].
    do 2 eexists. exists removed, rest. split; [done|]. split; [done|]. exact Hinv.
  - subst w. destruct (place_wrapped_behind m size (first_offset (drop k (u ++ w0 ++ [(a, f)]))) u w0 k n o a f)
      as (s1 & removed & rest & R1 & E & Hinv); try done; [lia|].
    rewrite R1. cbn [rbind]. do 2 eexists. exists removed, rest. split; [done|]. split; [done|]. exact Hinv.
Qed.

Lemma find_place_spec self l k n : buffer_inv h self l k -> h <= n <= rb_memoryBlockSize self -> place_found self l k n.
Proof using Hh.
  destruct self as [m size cnt oldest enqueued next]. cbn. intros Hi Hn. destruct (bi_layout _ _ _ _ Hi) as [Hg|Hg].
  - destruct l as [|x l _] using rev_ind; [by apply place_empty|]. destruct x as [a f].
    destruct l as [|[b g] l]; [by apply place_single|].
    pose proof (ascending_last h Hh _ ((b, g) :: l) _ _ _ Hg) as (_ & _ & _ & Hb). apply Forall_cons in Hb as [Hb _]. cbn in Hb.
    pose proof Hg as (_ & Hlg & _). eapply (place_run _ _ _ _ _ _ _ _ _ a b); [done|done|exact Hg| | |lia].
    + pose proof (bi_last _ _ _ _ Hi) as HL. cbn -[last_offset] in HL. rewrite HL.
      change (fst <$> last (((b, g) :: l) ++ [(a, f)]) = Some a). by rewrite last_snoc.
    + pose proof (bi_linked _ _ _ _ Hi) as [HL _]. exact HL.
  - destruct Hg as (u & w & o & -> & Hu & Hw & Hau & Haw). cbn in *.
    destruct w as [|[a f] w _] using rev_ind; [done|]. eapply (place_wrapped _ _ _ _ _ _ u (w ++ [(a, f)])); try done.
    unfold last_offset. by rewrite last_snoc.
Qed.

End Enqueue.
