(* ===== verification/ReportControl.v ===== *)
(** Report control blocks: the structures of src/iedserver/mms_mapping/reporting.h and
    the data sets of src/iedserver/model/model.h, with the access to the attributes of
    a block by their names. *)
From Stdlib Require Import String.
From stdpp Require Import base tactics numbers option list.
From S2P Require Import Prelude MmsValue CString MmsTypeSpec ReportBuffer.

(** * Data sets

    A value of the data model is an object that the server changes; it is known by a
    number.  [dse_value] is [None] for the null pointer. *)
Record DataSetEntry := mkDataSetEntry {
  dse_logicalDeviceName : list Z;
  dse_variableName : list Z;
  dse_index : Z;
  dse_componentName : option (list Z);
  dse_value : option Z }.

Record DataSet := mkDataSet {
  ds_logicalDeviceName : option (list Z);
  ds_name : list Z;
  ds_elementCount : Z;
  ds_fcdas : list DataSetEntry }.

Definition DataSet_getSize (self : DataSet) : Z := ds_elementCount self.

(** The pointer to a data set; a data set made for a variable list of a client is freed
    by the report control block. *)
Inductive DataSetPointer :=
| NoDataSet
| DataSetAt (dataSet : DataSet)
| FreedDataSet.

(** Reading through the pointer. *)
Definition deref (p : DataSetPointer) : res DataSet :=
  match p with DataSetAt d => Done d | NoDataSet | FreedDataSet => Ub end.

(** [MmsMapping_freeDynamicallyCreatedDataSet] reads the entries of the data set. *)
Definition MmsMapping_freeDynamicallyCreatedDataSet (p : DataSetPointer) : res DataSetPointer :=
  let! _ := deref p in Done FreedDataSet.

(** The trigger options and report options of iec61850_common.h *)
Definition TRG_OPT_DATA_CHANGED : Z := 1.
Definition TRG_OPT_QUALITY_CHANGED : Z := 2.
Definition TRG_OPT_DATA_UPDATE : Z := 4.
Definition TRG_OPT_INTEGRITY : Z := 8.
Definition TRG_OPT_GI : Z := 16.

Definition RPT_OPT_SEQ_NUM : Z := 1.
Definition RPT_OPT_TIME_STAMP : Z := 2.
Definition RPT_OPT_REASON_FOR_INCLUSION : Z := 4.
Definition RPT_OPT_DATA_SET : Z := 8.
Definition RPT_OPT_DATA_REFERENCE : Z := 16.
Definition RPT_OPT_BUFFER_OVERFLOW : Z := 32.
Definition RPT_OPT_ENTRY_ID : Z := 64.
Definition RPT_OPT_CONF_REV : Z := 128.

(** [ReportInclusionFlag] of mms_mapping.h *)
Definition REPORT_CONTROL_NONE : Z := 0.
Definition REPORT_CONTROL_VALUE_UPDATE : Z := 1.
Definition REPORT_CONTROL_VALUE_CHANGED : Z := 2.
Definition REPORT_CONTROL_QUALITY_CHANGED : Z := 3.

(** * The report control block

    [timeOfEntry] of an unbuffered block is a value of its own; that of a buffered block
    is an element of [rcbValues], as [confRev] is. *)
Inductive TimeOfEntry :=
| NoTime
| OwnTime (v : MmsValue)
| ElementTime (index : Z).

Record ReportControl := mkReportControl {
  rc_name : option (list Z);
  rc_domain : option MmsDomain;
  rc_parentLN : list Z;                        (* the name of the node *)
  rc_rcbValues : option MmsValue;
  rc_inclusionField : option MmsValue;
  rc_confRev : option Z;                       (* the element of [rc_rcbValues] *)
  rc_dataSet : DataSetPointer;
  rc_isDynamicDataSet : bool;
  rc_enabled : bool;
  rc_reserved : bool;
  rc_buffered : bool;
  rc_bufferedDataSetValues : option (list (option MmsValue));
  rc_valueReferences : option (list (option Z));
  rc_gi : bool;
  rc_sqNum : Z;                                (* uint16_t *)
  rc_intgPd : Z;                               (* uint32_t *)
  rc_bufTm : option Z;                         (* uint32_t, not set at first *)
  rc_nextIntgReportTime : Z;                   (* uint64_t *)
  rc_reservationTimeout : Z;                   (* uint64_t *)
  rc_clientConnection : option Z;
  rc_lastEntryId : Z;                          (* uint64_t *)
  rc_triggerOps : Z;
  rc_inclusionFlags : option (list Z);
  rc_triggered : bool;
  rc_reportTime : option Z;                    (* uint64_t, not set at first *)
  rc_isBuffering : bool;
  rc_isResync : bool;
  rc_reportBuffer : option ReportBuffer;       (* of a buffered block *)
  rc_timeOfEntry : TimeOfEntry }.

Definition rc_set_identity (name : list Z) (domain : MmsDomain) (s : ReportControl) : ReportControl :=
  mkReportControl (Some name) (Some domain) (rc_parentLN s) (rc_rcbValues s) (rc_inclusionField s)
    (rc_confRev s) (rc_dataSet s) (rc_isDynamicDataSet s) (rc_enabled s) (rc_reserved s)
    (rc_buffered s) (rc_bufferedDataSetValues s) (rc_valueReferences s) (rc_gi s) (rc_sqNum s)
    (rc_intgPd s) (rc_bufTm s) (rc_nextIntgReportTime s) (rc_reservationTimeout s)
    (rc_clientConnection s) (rc_lastEntryId s) (rc_triggerOps s) (rc_inclusionFlags s)
    (rc_triggered s) (rc_reportTime s) (rc_isBuffering s) (rc_isResync s) (rc_reportBuffer s)
    (rc_timeOfEntry s).

Definition rc_set_rcbValues (v : option MmsValue) (s : ReportControl) : ReportControl :=
  mkReportControl (rc_name s) (rc_domain s) (rc_parentLN s) v (rc_inclusionField s) (rc_confRev s)
    (rc_dataSet s) (rc_isDynamicDataSet s) (rc_enabled s) (rc_reserved s) (rc_buffered s)
    (rc_bufferedDataSetValues s) (rc_valueReferences s) (rc_gi s) (rc_sqNum s) (rc_intgPd s)
    (rc_bufTm s) (rc_nextIntgReportTime s) (rc_reservationTimeout s) (rc_clientConnection s)
    (rc_lastEntryId s) (rc_triggerOps s) (rc_inclusionFlags s) (rc_triggered s) (rc_reportTime s)
    (rc_isBuffering s) (rc_isResync s) (rc_reportBuffer s) (rc_timeOfEntry s).

Definition rc_set_inclusionField (v : option MmsValue) (s : ReportControl) : ReportControl :=
  mkReportControl (rc_name s) (rc_domain s) (rc_parentLN s) (rc_rcbValues s) v (rc_confRev s)
    (rc_dataSet s) (rc_isDynamicDataSet s) (rc_enabled s) (rc_reserved s) (rc_buffered s)
    (rc_bufferedDataSetValues s) (rc_valueReferences s) (rc_gi s) (rc_sqNum s) (rc_intgPd s)
    (rc_bufTm s) (rc_nextIntgReportTime s) (rc_reservationTimeout s) (rc_clientConnection s)
    (rc_lastEntryId s) (rc_triggerOps s) (rc_inclusionFlags s) (rc_triggered s) (rc_reportTime s)
    (rc_isBuffering s) (rc_isResync s) (rc_reportBuffer s) (rc_timeOfEntry s).

Definition rc_set_confRev (v : option Z) (s : ReportControl) : ReportControl :=
  mkReportControl (rc_name s) (rc_domain s) (rc_parentLN s) (rc_rcbValues s) (rc_inclusionField s)
    v (rc_dataSet s) (rc_isDynamicDataSet s) (rc_enabled s) (rc_reserved s) (rc_buffered s)
    (rc_bufferedDataSetValues s) (rc_valueReferences s) (rc_gi s) (rc_sqNum s) (rc_intgPd s)
    (rc_bufTm s) (rc_nextIntgReportTime s) (rc_reservationTimeout s) (rc_clientConnection s)
    (rc_lastEntryId s) (rc_triggerOps s) (rc_inclusionFlags s) (rc_triggered s) (rc_reportTime s)
    (rc_isBuffering s) (rc_isResync s) (rc_reportBuffer s) (rc_timeOfEntry s).

Definition rc_set_dataSet (v : DataSetPointer) (s : ReportControl) : ReportControl :=
  mkReportControl (rc_name s) (rc_domain s) (rc_parentLN s) (rc_rcbValues s) (rc_inclusionField s)
    (rc_confRev s) v (rc_isDynamicDataSet s) (rc_enabled s) (rc_reserved s) (rc_buffered s)
    (rc_bufferedDataSetValues s) (rc_valueReferences s) (rc_gi s) (rc_sqNum s) (rc_intgPd s)
    (rc_bufTm s) (rc_nextIntgReportTime s) (rc_reservationTimeout s) (rc_clientConnection s)
    (rc_lastEntryId s) (rc_triggerOps s) (rc_inclusionFlags s) (rc_triggered s) (rc_reportTime s)
    (rc_isBuffering s) (rc_isResync s) (rc_reportBuffer s) (rc_timeOfEntry s).

Definition rc_set_isDynamicDataSet (v : bool) (s : ReportControl) : ReportControl :=
  mkReportControl (rc_name s) (rc_domain s) (rc_parentLN s) (rc_rcbValues s) (rc_inclusionField s)
    (rc_confRev s) (rc_dataSet s) v (rc_enabled s) (rc_reserved s) (rc_buffered s)
    (rc_bufferedDataSetValues s) (rc_valueReferences s) (rc_gi s) (rc_sqNum s) (rc_intgPd s)
    (rc_bufTm s) (rc_nextIntgReportTime s) (rc_reservationTimeout s) (rc_clientConnection s)
    (rc_lastEntryId s) (rc_triggerOps s) (rc_inclusionFlags s) (rc_triggered s) (rc_reportTime s)
    (rc_isBuffering s) (rc_isResync s) (rc_reportBuffer s) (rc_timeOfEntry s).

Definition rc_set_enabled (v : bool) (s : ReportControl) : ReportControl :=
  mkReportControl (rc_name s) (rc_domain s) (rc_parentLN s) (rc_rcbValues s) (rc_inclusionField s)
    (rc_confRev s) (rc_dataSet s) (rc_isDynamicDataSet s) v (rc_reserved s) (rc_buffered s)
    (rc_bufferedDataSetValues s) (rc_valueReferences s) (rc_gi s) (rc_sqNum s) (rc_intgPd s)
    (rc_bufTm s) (rc_nextIntgReportTime s) (rc_reservationTimeout s) (rc_clientConnection s)
    (rc_lastEntryId s) (rc_triggerOps s) (rc_inclusionFlags s) (rc_triggered s) (rc_reportTime s)
    (rc_isBuffering s) (rc_isResync s) (rc_reportBuffer s) (rc_timeOfEntry s).

Definition rc_set_reserved (v : bool) (s : ReportControl) : ReportControl :=
  mkReportControl (rc_name s) (rc_domain s) (rc_parentLN s) (rc_rcbValues s) (rc_inclusionField s)
    (rc_confRev s) (rc_dataSet s) (rc_isDynamicDataSet s) (rc_enabled s) v (rc_buffered s)
    (rc_bufferedDataSetValues s) (rc_valueReferences s) (rc_gi s) (rc_sqNum s) (rc_intgPd s)
    (rc_bufTm s) (rc_nextIntgReportTime s) (rc_reservationTimeout s) (rc_clientConnection s)
    (rc_lastEntryId s) (rc_triggerOps s) (rc_inclusionFlags s) (rc_triggered s) (rc_reportTime s)
    (rc_isBuffering s) (rc_isResync s) (rc_reportBuffer s) (rc_timeOfEntry s).

Definition rc_set_gi (v : bool) (s : ReportControl) : ReportControl :=
  mkReportControl (rc_name s) (rc_domain s) (rc_parentLN s) (rc_rcbValues s) (rc_inclusionField s)
    (rc_confRev s) (rc_dataSet s) (rc_isDynamicDataSet s) (rc_enabled s) (rc_reserved s)
    (rc_buffered s) (rc_bufferedDataSetValues s) (rc_valueReferences s) v (rc_sqNum s)
    (rc_intgPd s) (rc_bufTm s) (rc_nextIntgReportTime s) (rc_reservationTimeout s)
    (rc_clientConnection s) (rc_lastEntryId s) (rc_triggerOps s) (rc_inclusionFlags s)
    (rc_triggered s) (rc_reportTime s) (rc_isBuffering s) (rc_isResync s) (rc_reportBuffer s)
    (rc_timeOfEntry s).

Definition rc_set_sqNum (v : Z) (s : ReportControl) : ReportControl :=
  mkReportControl (rc_name s) (rc_domain s) (rc_parentLN s) (rc_rcbValues s) (rc_inclusionField s)
    (rc_confRev s) (rc_dataSet s) (rc_isDynamicDataSet s) (rc_enabled s) (rc_reserved s)
    (rc_buffered s) (rc_bufferedDataSetValues s) (rc_valueReferences s) (rc_gi s) v (rc_intgPd s)
    (rc_bufTm s) (rc_nextIntgReportTime s) (rc_reservationTimeout s) (rc_clientConnection s)
    (rc_lastEntryId s) (rc_triggerOps s) (rc_inclusionFlags s) (rc_triggered s) (rc_reportTime s)
    (rc_isBuffering s) (rc_isResync s) (rc_reportBuffer s) (rc_timeOfEntry s).

Definition rc_set_intgPd (v : Z) (s : ReportControl) : ReportControl :=
  mkReportControl (rc_name s) (rc_domain s) (rc_parentLN s) (rc_rcbValues s) (rc_inclusionField s)
    (rc_confRev s) (rc_dataSet s) (rc_isDynamicDataSet s) (rc_enabled s) (rc_reserved s)
    (rc_buffered s) (rc_bufferedDataSetValues s) (rc_valueReferences s) (rc_gi s) (rc_sqNum s) v
    (rc_bufTm s) (rc_nextIntgReportTime s) (rc_reservationTimeout s) (rc_clientConnection s)
    (rc_lastEntryId s) (rc_triggerOps s) (rc_inclusionFlags s) (rc_triggered s) (rc_reportTime s)
    (rc_isBuffering s) (rc_isResync s) (rc_reportBuffer s) (rc_timeOfEntry s).

Definition rc_set_bufTm (v : option Z) (s : ReportControl) : ReportControl :=
  mkReportControl (rc_name s) (rc_domain s) (rc_parentLN s) (rc_rcbValues s) (rc_inclusionField s)
    (rc_confRev s) (rc_dataSet s) (rc_isDynamicDataSet s) (rc_enabled s) (rc_reserved s)
    (rc_buffered s) (rc_bufferedDataSetValues s) (rc_valueReferences s) (rc_gi s) (rc_sqNum s)
    (rc_intgPd s) v (rc_nextIntgReportTime s) (rc_reservationTimeout s) (rc_clientConnection s)
    (rc_lastEntryId s) (rc_triggerOps s) (rc_inclusionFlags s) (rc_triggered s) (rc_reportTime s)
    (rc_isBuffering s) (rc_isResync s) (rc_reportBuffer s) (rc_timeOfEntry s).

Definition rc_set_nextIntgReportTime (v : Z) (s : ReportControl) : ReportControl :=
  mkReportControl (rc_name s) (rc_domain s) (rc_parentLN s) (rc_rcbValues s) (rc_inclusionField s)
    (rc_confRev s) (rc_dataSet s) (rc_isDynamicDataSet s) (rc_enabled s) (rc_reserved s)
    (rc_buffered s) (rc_bufferedDataSetValues s) (rc_valueReferences s) (rc_gi s) (rc_sqNum s)
    (rc_intgPd s) (rc_bufTm s) v (rc_reservationTimeout s) (rc_clientConnection s)
    (rc_lastEntryId s) (rc_triggerOps s) (rc_inclusionFlags s) (rc_triggered s) (rc_reportTime s)
    (rc_isBuffering s) (rc_isResync s) (rc_reportBuffer s) (rc_timeOfEntry s).

Definition rc_set_clientConnection (v : option Z) (s : ReportControl) : ReportControl :=
  mkReportControl (rc_name s) (rc_domain s) (rc_parentLN s) (rc_rcbValues s) (rc_inclusionField s)
    (rc_confRev s) (rc_dataSet s) (rc_isDynamicDataSet s) (rc_enabled s) (rc_reserved s)
    (rc_buffered s) (rc_bufferedDataSetValues s) (rc_valueReferences s) (rc_gi s) (rc_sqNum s)
    (rc_intgPd s) (rc_bufTm s) (rc_nextIntgReportTime s) (rc_reservationTimeout s) v
    (rc_lastEntryId s) (rc_triggerOps s) (rc_inclusionFlags s) (rc_triggered s) (rc_reportTime s)
    (rc_isBuffering s) (rc_isResync s) (rc_reportBuffer s) (rc_timeOfEntry s).

Definition rc_set_lastEntryId (v : Z) (s : ReportControl) : ReportControl :=
  mkReportControl (rc_name s) (rc_domain s) (rc_parentLN s) (rc_rcbValues s) (rc_inclusionField s)
    (rc_confRev s) (rc_dataSet s) (rc_isDynamicDataSet s) (rc_enabled s) (rc_reserved s)
    (rc_buffered s) (rc_bufferedDataSetValues s) (rc_valueReferences s) (rc_gi s) (rc_sqNum s)
    (rc_intgPd s) (rc_bufTm s) (rc_nextIntgReportTime s) (rc_reservationTimeout s)
    (rc_clientConnection s) v (rc_triggerOps s) (rc_inclusionFlags s) (rc_triggered s)
    (rc_reportTime s) (rc_isBuffering s) (rc_isResync s) (rc_reportBuffer s) (rc_timeOfEntry s).

Definition rc_set_triggerOps (v : Z) (s : ReportControl) : ReportControl :=
  mkReportControl (rc_name s) (rc_domain s) (rc_parentLN s) (rc_rcbValues s) (rc_inclusionField s)
    (rc_confRev s) (rc_dataSet s) (rc_isDynamicDataSet s) (rc_enabled s) (rc_reserved s)
    (rc_buffered s) (rc_bufferedDataSetValues s) (rc_valueReferences s) (rc_gi s) (rc_sqNum s)
    (rc_intgPd s) (rc_bufTm s) (rc_nextIntgReportTime s) (rc_reservationTimeout s)
    (rc_clientConnection s) (rc_lastEntryId s) v (rc_inclusionFlags s) (rc_triggered s)
    (rc_reportTime s) (rc_isBuffering s) (rc_isResync s) (rc_reportBuffer s) (rc_timeOfEntry s).

Definition rc_set_inclusionFlags (v : option (list Z)) (s : ReportControl) : ReportControl :=
  mkReportControl (rc_name s) (rc_domain s) (rc_parentLN s) (rc_rcbValues s) (rc_inclusionField s)
    (rc_confRev s) (rc_dataSet s) (rc_isDynamicDataSet s) (rc_enabled s) (rc_reserved s)
    (rc_buffered s) (rc_bufferedDataSetValues s) (rc_valueReferences s) (rc_gi s) (rc_sqNum s)
    (rc_intgPd s) (rc_bufTm s) (rc_nextIntgReportTime s) (rc_reservationTimeout s)
    (rc_clientConnection s) (rc_lastEntryId s) (rc_triggerOps s) v (rc_triggered s)
    (rc_reportTime s) (rc_isBuffering s) (rc_isResync s) (rc_reportBuffer s) (rc_timeOfEntry s).

Definition rc_set_triggered (v : bool) (s : ReportControl) : ReportControl :=
  mkReportControl (rc_name s) (rc_domain s) (rc_parentLN s) (rc_rcbValues s) (rc_inclusionField s)
    (rc_confRev s) (rc_dataSet s) (rc_isDynamicDataSet s) (rc_enabled s) (rc_reserved s)
    (rc_buffered s) (rc_bufferedDataSetValues s) (rc_valueReferences s) (rc_gi s) (rc_sqNum s)
    (rc_intgPd s) (rc_bufTm s) (rc_nextIntgReportTime s) (rc_reservationTimeout s)
    (rc_clientConnection s) (rc_lastEntryId s) (rc_triggerOps s) (rc_inclusionFlags s) v
    (rc_reportTime s) (rc_isBuffering s) (rc_isResync s) (rc_reportBuffer s) (rc_timeOfEntry s).

Definition rc_set_reportTime (v : option Z) (s : ReportControl) : ReportControl :=
  mkReportControl (rc_name s) (rc_domain s) (rc_parentLN s) (rc_rcbValues s) (rc_inclusionField s)
    (rc_confRev s) (rc_dataSet s) (rc_isDynamicDataSet s) (rc_enabled s) (rc_reserved s)
    (rc_buffered s) (rc_bufferedDataSetValues s) (rc_valueReferences s) (rc_gi s) (rc_sqNum s)
    (rc_intgPd s) (rc_bufTm s) (rc_nextIntgReportTime s) (rc_reservationTimeout s)
    (rc_clientConnection s) (rc_lastEntryId s) (rc_triggerOps s) (rc_inclusionFlags s)
    (rc_triggered s) v (rc_isBuffering s) (rc_isResync s) (rc_reportBuffer s) (rc_timeOfEntry s).

Definition rc_set_isBuffering (v : bool) (s : ReportControl) : ReportControl :=
  mkReportControl (rc_name s) (rc_domain s) (rc_parentLN s) (rc_rcbValues s) (rc_inclusionField s)
    (rc_confRev s) (rc_dataSet s) (rc_isDynamicDataSet s) (rc_enabled s) (rc_reserved s)
    (rc_buffered s) (rc_bufferedDataSetValues s) (rc_valueReferences s) (rc_gi s) (rc_sqNum s)
    (rc_intgPd s) (rc_bufTm s) (rc_nextIntgReportTime s) (rc_reservationTimeout s)
    (rc_clientConnection s) (rc_lastEntryId s) (rc_triggerOps s) (rc_inclusionFlags s)
    (rc_triggered s) (rc_reportTime s) v (rc_isResync s) (rc_reportBuffer s) (rc_timeOfEntry s).

Definition rc_set_isResync (v : bool) (s : ReportControl) : ReportControl :=
  mkReportControl (rc_name s) (rc_domain s) (rc_parentLN s) (rc_rcbValues s) (rc_inclusionField s)
    (rc_confRev s) (rc_dataSet s) (rc_isDynamicDataSet s) (rc_enabled s) (rc_reserved s)
    (rc_buffered s) (rc_bufferedDataSetValues s) (rc_valueReferences s) (rc_gi s) (rc_sqNum s)
    (rc_intgPd s) (rc_bufTm s) (rc_nextIntgReportTime s) (rc_reservationTimeout s)
    (rc_clientConnection s) (rc_lastEntryId s) (rc_triggerOps s) (rc_inclusionFlags s)
    (rc_triggered s) (rc_reportTime s) (rc_isBuffering s) v (rc_reportBuffer s) (rc_timeOfEntry s).

Definition rc_set_reportBuffer (v : option ReportBuffer) (s : ReportControl) : ReportControl :=
  mkReportControl (rc_name s) (rc_domain s) (rc_parentLN s) (rc_rcbValues s) (rc_inclusionField s)
    (rc_confRev s) (rc_dataSet s) (rc_isDynamicDataSet s) (rc_enabled s) (rc_reserved s)
    (rc_buffered s) (rc_bufferedDataSetValues s) (rc_valueReferences s) (rc_gi s) (rc_sqNum s)
    (rc_intgPd s) (rc_bufTm s) (rc_nextIntgReportTime s) (rc_reservationTimeout s)
    (rc_clientConnection s) (rc_lastEntryId s) (rc_triggerOps s) (rc_inclusionFlags s)
    (rc_triggered s) (rc_reportTime s) (rc_isBuffering s) (rc_isResync s) v (rc_timeOfEntry s).

Definition rc_set_timeOfEntry (v : TimeOfEntry) (s : ReportControl) : ReportControl :=
  mkReportControl (rc_name s) (rc_domain s) (rc_parentLN s) (rc_rcbValues s) (rc_inclusionField s)
    (rc_confRev s) (rc_dataSet s) (rc_isDynamicDataSet s) (rc_enabled s) (rc_reserved s)
    (rc_buffered s) (rc_bufferedDataSetValues s) (rc_valueReferences s) (rc_gi s) (rc_sqNum s)
    (rc_intgPd s) (rc_bufTm s) (rc_nextIntgReportTime s) (rc_reservationTimeout s)
    (rc_clientConnection s) (rc_lastEntryId s) (rc_triggerOps s) (rc_inclusionFlags s)
    (rc_triggered s) (rc_reportTime s) (rc_isBuffering s) (rc_isResync s) (rc_reportBuffer s) v.

Definition rc_set_shadow (values : option (list (option MmsValue))) (references : option (list (option Z))) (s : ReportControl) : ReportControl :=
  mkReportControl (rc_name s) (rc_domain s) (rc_parentLN s) (rc_rcbValues s) (rc_inclusionField s)
    (rc_confRev s) (rc_dataSet s) (rc_isDynamicDataSet s) (rc_enabled s) (rc_reserved s)
    (rc_buffered s) values references (rc_gi s) (rc_sqNum s) (rc_intgPd s) (rc_bufTm s)
    (rc_nextIntgReportTime s) (rc_reservationTimeout s) (rc_clientConnection s) (rc_lastEntryId s)
    (rc_triggerOps s) (rc_inclusionFlags s) (rc_triggered s) (rc_reportTime s) (rc_isBuffering s)
    (rc_isResync s) (rc_reportBuffer s) (rc_timeOfEntry s).

(** [malloc] leaves [bufTm] and [reportTime] without a value, and [reportBuffer] of an
    unbuffered block. *)
Definition ReportControl_create (buffered : bool) (parentLN : list Z) : ReportControl :=
  mkReportControl None None parentLN None None None NoDataSet false false false buffered None None
    false 0 0 None 0 0 None 0 0 None false None false false
    (if buffered then Some ReportBuffer_create else None) NoTime.

(** ** The attributes *)

(** The attributes in the order of the elements of [rcbValues]. *)
Definition rcb_elements (buffered : bool) : list (list Z) :=
  if buffered then
    [lit "RptID"; lit "RptEna"; lit "DatSet"; lit "ConfRev"; lit "OptFlds"; lit "BufTm"; lit "SqNum";
     lit "TrgOps"; lit "IntgPd"; lit "GI"; lit "PurgeBuf"; lit "EntryID"; lit "TimeOfEntry"; lit "ResvTms";
     lit "Owner"]
  else
    [lit "RptID"; lit "RptEna"; lit "Resv"; lit "DatSet"; lit "ConfRev"; lit "OptFlds"; lit "BufTm";
     lit "SqNum"; lit "TrgOps"; lit "IntgPd"; lit "GI"; lit "Owner"].

Fixpoint position (name : list Z) (names : list (list Z)) : option Z :=
  match names with
  | [] => None
  | n :: names => if bool_decide (name = n) then Some 0 else Z.succ <$> position name names
  end.

Definition rcb_index (rc : ReportControl) (elementName : list Z) : option Z :=
  position elementName (rcb_elements (rc_buffered rc)).

(** An element of [rcbValues]. *)
Definition rcb_element (rc : ReportControl) (index : Z) : res (option MmsValue) :=
  let! v := defined (rc_rcbValues rc) in Done (MmsValue_getElement v index).

Definition ReportControl_getRCBValue (rc : ReportControl) (elementName : list Z) : res (option MmsValue) :=
  match rcb_index rc elementName with
  | Some i => rcb_element rc i
  | None => Done None
  end.

(** The element is changed in place. *)
Definition rcb_set_element (index : Z) (v : MmsValue) (rc : ReportControl) : ReportControl :=
  match rc_rcbValues rc with
  | Some vs => rc_set_rcbValues (Some (MmsValue_setElement vs index (Some v))) rc
  | None => rc
  end.

Definition rcb_set (elementName : list Z) (v : MmsValue) (rc : ReportControl) : ReportControl :=
  match rcb_index rc elementName with Some i => rcb_set_element i v rc | None => rc end.

(** The value that [timeOfEntry] points to. *)
Definition time_of_entry (rc : ReportControl) : res MmsValue :=
  match rc_timeOfEntry rc with
  | NoTime => Ub
  | OwnTime v => Done v
  | ElementTime i => let! v := rcb_element rc i in defined v
  end.

Definition set_time_of_entry (v : MmsValue) (rc : ReportControl) : ReportControl :=
  match rc_timeOfEntry rc with
  | NoTime => rc
  | OwnTime _ => rc_set_timeOfEntry (OwnTime v) rc
  | ElementTime i => rcb_set_element i v rc
  end.
