(* ===== verification/Reporting.v ===== *)
(** Reporting: src/iedserver/mms_mapping/reporting.c.  The reports that a block sends
    or enqueues, and the events that make it do so.  A buffered report is sent from
    local storage that src/common/simple_allocator.c gives out. *)
From Stdlib Require Import String.
From stdpp Require Import base tactics numbers option list.
From S2P Require Import Prelude Memory BerEncode MmsValue Effects CString MmsTypeSpec Control ReportBuffer ReportControl.

Definition DATA_ACCESS_ERROR_OBJECT_ATTRIBUTE_INCONSISTENT : Z := 8.

(** What a report control block sends: the elements of an information report. *)
Inductive ReportEvent :=
| InformationReport (connection : option Z) (elements : list MmsValue).

(** What the code asks the rest of the program for: the time, the values of the data
    model, the data sets of the model and those of variable lists, and the addresses
    of the clients. *)
Record ReportEnv := mkReportEnv {
  n_time : Z;                                  (* Hal_getTimeInMs *)
  n_value : Z -> MmsValue;
  n_dataSets : list DataSet;                   (* model->dataSets *)
  n_domainDataSet : list Z -> res (option DataSet);  (* MmsMapping_getDomainSpecificDataSet *)
  n_clientAddress : Z -> list Z }.             (* MmsServerConnection_getClientAddress *)

(** The sizes of the structures on the platform. *)
Record Sizes := mkSizes {
  sizeof_MmsValue : Z;
  sizeof_pointer : Z;
  sizeof_Asn1PrimitiveValue : Z;
  sizeof_ReportBufferEntry : Z }.

Abbreviation R := (eff ReportControl ReportEvent).

Definition self : R ReportControl := cget (fun rc => rc).
Definition getRCBValue (elementName : list Z) : R (option MmsValue) :=
  do! rc := self in clift (ReportControl_getRCBValue rc elementName).

(** Bits of a bit string, one after the other. *)
Fixpoint set_bits (v : MmsValue) (bits : list (Z * bool)) : res MmsValue :=
  match bits with
  | [] => Done v
  | (i, b) :: bits => let! v := MmsValue_setBitStringBit v i b in set_bits v bits
  end.

(** A reason for inclusion with one bit set, or none. *)
Definition new_reason (bits : list Z) : res MmsValue :=
  set_bits (MmsValue_newBitString 6) (map (fun i => (i, true)) bits).

Definition reason_bits (flag : Z) : list Z :=
  if flag =? REPORT_CONTROL_QUALITY_CHANGED then [2]
  else if flag =? REPORT_CONTROL_VALUE_CHANGED then [1]
  else if flag =? REPORT_CONTROL_VALUE_UPDATE then [3]
  else [].

(** [flags[i]] and [values[i]] *)
Definition at_index {A} (l : option (list A)) (i : nat) : res A := let! l := defined l in defined (l !! i).

(** The inclusion flags of the first [n] elements are cleared. *)
Definition clear_flags (n : Z) (flags : option (list Z)) : res (option (list Z)) :=
  if n <=? 0 then Done flags
  else
    let! l := defined flags in
    if zlen l <? n then Ub
    else Done (Some (replicate (Z.to_nat n) REPORT_CONTROL_NONE ++ drop (Z.to_nat n) l)).

Definition clearInclusionFlags : R unit :=
  do! rc := self in
  do! dataSet := clift (deref (rc_dataSet rc)) in
  do! flags := clift (clear_flags (ds_elementCount dataSet) (rc_inclusionFlags rc)) in
  cmodify (rc_set_inclusionFlags flags).

(** [self->sqNum++], and the attribute follows. *)
Definition increaseSqNum : R unit :=
  do! rc := self in
  let sqNum := u16 (rc_sqNum rc + 1) in
  do! _ := cmodify (rc_set_sqNum sqNum) in
  do! v := getRCBValue (lit "SqNum") in
  do! v := clift (let! v := defined v in MmsValue_setUint16 v sqNum) in
  cmodify (rcb_set (lit "SqNum") v).

(** Pointers that an information report is made of must not be null. *)
Fixpoint all_defined (vs : list (option MmsValue)) : res (list MmsValue) :=
  match vs with
  | [] => Done []
  | v :: vs => let! v := defined v in let! vs := all_defined vs in Done (v :: vs)
  end.

Definition MmsServerConnection_sendInformationReport (elements : list (option MmsValue)) : R unit :=
  do! rc := self in
  do! elements := clift (all_defined elements) in
  emit (InformationReport (rc_clientConnection rc) elements).

(** The attributes that a report carries if the options ask for them: [chosen] pairs
    the bit of an option with the element. *)
Fixpoint chosen (optFlds : MmsValue) (options : list (Z * option MmsValue)) : res (list (option MmsValue)) :=
  match options with
  | [] => Done []
  | (bit, v) :: options =>
      let! b := MmsValue_getBitStringBit optFlds bit in
      let! vs := chosen optFlds options in
      Done (if b then v :: vs else vs)
  end.

(** [updateTimeOfEntry] *)
Definition updateTimeOfEntry (currentTime : Z) : R unit :=
  do! rc := self in
  do! t := clift (time_of_entry rc) in
  do! t := clift (MmsValue_setBinaryTime t currentTime) in
  cmodify (set_time_of_entry t).

Definition increaseConfRev : R unit :=
  do! rc := self in
  do! index := clift (defined (rc_confRev rc)) in
  do! v := clift (let! v := rcb_element rc index in defined v) in
  do! confRev := clift (MmsValue_toUint32 v) in
  let confRev := u32 (confRev + 1) in
  let confRev := if confRev =? 0 then 1 else confRev in
  do! v := clift (MmsValue_setUint32 v confRev) in
  cmodify (rcb_set_element index v).

(** ** The attributes that are kept in the block *)

Definition refreshTriggerOptions : R unit :=
  do! trgOps := getRCBValue (lit "TrgOps") in
  do! trgOps := clift (defined trgOps) in
  do! ops := clift (
    let option bit op := let! b := MmsValue_getBitStringBit trgOps bit in Done (if b then op else 0) in
    let! a := option 1 TRG_OPT_DATA_CHANGED in
    let! b := option 2 TRG_OPT_QUALITY_CHANGED in
    let! c := option 3 TRG_OPT_DATA_UPDATE in
    let! d := option 4 TRG_OPT_INTEGRITY in
    let! e := option 5 TRG_OPT_GI in
    Done (a + b + c + d + e)) in
  cmodify (rc_set_triggerOps ops).

Definition refreshIntegrityPeriod : R unit :=
  do! intgPd := getRCBValue (lit "IntgPd") in
  do! intgPd := clift (let! v := defined intgPd in MmsValue_toUint32 v) in
  do! _ := cmodify (rc_set_intgPd intgPd) in
  do! rc := self in
  if rc_buffered rc then cret tt else cmodify (rc_set_nextIntgReportTime 0).

Definition refreshBufferTime : R unit :=
  do! bufTm := getRCBValue (lit "BufTm") in
  do! bufTm := clift (let! v := defined bufTm in MmsValue_toUint32 v) in
  cmodify (rc_set_bufTm (Some bufTm)).

Definition purgeBuf : R unit :=
  do! rc := self in
  do! reportBuffer := clift (defined (rc_reportBuffer rc)) in
  cmodify (rc_set_reportBuffer (Some (purge reportBuffer))).

(** ** Local storage

    [MemoryAllocator]: the bytes of a block that are in use, from its beginning. *)
Definition LOCAL_STORAGE_MEMORY_SIZE : Z := 65536.

Record MemoryAllocator := mkAllocator { ma_currentPtr : Z; ma_size : Z }.

Definition MemoryAllocator_init (size : Z) : MemoryAllocator := mkAllocator 0 size.

(** The offset of the new memory. *)
Definition MemoryAllocator_allocate (self : MemoryAllocator) (size : Z) : option (Z * MemoryAllocator) :=
  if ma_currentPtr self + size <=? ma_size self then
    Some (ma_currentPtr self, mkAllocator (ma_currentPtr self + size) (ma_size self))
  else None.

(** What an element of a report that is being made points to: an attribute of the block
    (or nothing), its time of entry, a value of its own. *)
Inductive ReportElement :=
| AttributeElement (index : option Z)
| TimeElement
| ValueElement (v : MmsValue).

(** A list whose nodes are allocated in the storage. *)
Record MemAllocLinkedList := mkMemList { ml_ma : MemoryAllocator; ml_elements : list ReportElement }.

(** What an element is when the report is sent. *)
Definition element_value (rc : ReportControl) (e : ReportElement) : res (option MmsValue) :=
  match e with
  | AttributeElement (Some i) => rcb_element rc i
  | AttributeElement None => Done None
  | TimeElement => let! v := time_of_entry rc in Done (Some v)
  | ValueElement v => Done (Some v)
  end.

Fixpoint element_values (rc : ReportControl) (es : list ReportElement) : res (list (option MmsValue)) :=
  match es with
  | [] => Done []
  | e :: es => let! v := element_value rc e in let! vs := element_values rc es in Done (v :: vs)
  end.

(** Code that runs out of memory returns [None]. *)
Definition obind {A B} (m : res (option A)) (k : A -> res (option B)) : res (option B) :=
  let! o := m in match o with Some a => k a | None => Done None end.
Notation "'let?' x := m 'in' k" := (obind m (fun x => k))
  (at level 10, x pattern, m at level 100, k at level 200,
   format "'[v' 'let?'  x  :=  m  'in' '/' k ']'").

Section Reporting.
Context (sizes : Sizes) (malloc : Z -> list Z) (env : ReportEnv).

Definition getSizeInMemory : MmsValue -> res Z :=
  MmsValue_getSizeInMemory (sizeof_MmsValue sizes) (sizeof_pointer sizes) (sizeof_Asn1PrimitiveValue sizes).
Definition cloneToBuffer : MmsValue -> Z -> res (Z * MmsValue) :=
  MmsValue_cloneToBuffer (sizeof_MmsValue sizes) (sizeof_pointer sizes) (sizeof_Asn1PrimitiveValue sizes).

(** The current value of a data set entry, whose null pointer fails an [assert] or is
    read. *)
Definition entry_value (null : res MmsValue) (e : DataSetEntry) : res MmsValue :=
  match dse_value e with Some h => Done (n_value env h) | None => null end.

(** ** Reports that are sent at once *)

(** The values of the first [n] entries. *)
Fixpoint complete_values (n : nat) (entries : list DataSetEntry) : res (list MmsValue) :=
  match n with
  | O => Done []
  | S n =>
      match entries with
      | [] => Ub
      | e :: entries =>
          let! v := entry_value AssertFailed e in
          let! vs := complete_values n entries in
          Done (v :: vs)
      end
  end.

(** The buffered values of the entries, from [i] on, that are flagged, and the inclusion
    field with their bits. *)
Fixpoint changed_values (n i : nat) (entries : list DataSetEntry) (flags : option (list Z))
    (values : option (list (option MmsValue))) (inclusionField : MmsValue) : res (list MmsValue * MmsValue) :=
  match n with
  | O => Done ([], inclusionField)
  | S n =>
      match entries with
      | [] => Ub
      | e :: entries =>
          let! _ := entry_value AssertFailed e in
          let! flag := at_index flags i in
          if flag =? REPORT_CONTROL_NONE then changed_values n (S i) entries flags values inclusionField
          else
            let! v := at_index values i in
            match v with
            | None => AssertFailed
            | Some v =>
                let! inclusionField := MmsValue_setBitStringBit inclusionField (Z.of_nat i) true in
                let! (vs, inclusionField) := changed_values n (S i) entries flags values inclusionField in
                Done (v :: vs, inclusionField)
            end
      end
  end.

Fixpoint changed_reasons (n i : nat) (flags : option (list Z)) : res (list MmsValue) :=
  match n with
  | O => Done []
  | S n =>
      let! flag := at_index flags i in
      if flag =? REPORT_CONTROL_NONE then changed_reasons n (S i) flags
      else
        let! reason := new_reason (reason_bits flag) in
        let! reasons := changed_reasons n (S i) flags in
        Done (reason :: reasons)
  end.

Definition sendReport (isIntegrity isGI : bool) : R unit :=
  do! rptId := getRCBValue (lit "RptID") in
  do! optFlds := getRCBValue (lit "OptFlds") in
  do! datSet := getRCBValue (lit "DatSet") in
  do! optFlds := clift (let! o := defined optFlds in set_bits o [(5, false); (7, false); (9, false)]) in
  do! _ := cmodify (rcb_set (lit "OptFlds") optFlds) in
  do! sqNum := getRCBValue (lit "SqNum") in
  do! rc := self in
  do! timed := clift (MmsValue_getBitStringBit optFlds 2) in
  do! time := if timed then clift (let! t := time_of_entry rc in Done (Some t)) else cret None in
  do! confRev := clift (match rc_confRev rc with Some i => rcb_element rc i | None => Done None end) in
  do! header := clift (chosen optFlds
    [(1, sqNum); (2, time); (4, datSet); (6, Some (MmsValue_newBoolean false)); (8, confRev)]) in
  do! inclusionField := clift (let! v := defined (rc_inclusionField rc) in
    if isGI || isIntegrity then MmsValue_setAllBitStringBits v else MmsValue_deleteAllBitStringBits v) in
  do! dataSet := clift (deref (rc_dataSet rc)) in
  let n := Z.to_nat (ds_elementCount dataSet) in
  do! (values, inclusionField) := clift (
    if isGI || isIntegrity then let! vs := complete_values n (ds_fcdas dataSet) in Done (vs, inclusionField)
    else changed_values n 0 (ds_fcdas dataSet) (rc_inclusionFlags rc) (rc_bufferedDataSetValues rc) inclusionField) in
  do! _ := cmodify (rc_set_inclusionField (Some inclusionField)) in
  do! withReasons := clift (MmsValue_getBitStringBit optFlds 3) in
  do! reasons := clift (
    if withReasons then
      if isGI || isIntegrity then
        let! reason := new_reason ((if isGI then [5] else []) ++ (if isIntegrity then [4] else [])) in
        Done (replicate n reason)
      else changed_reasons n 0 (rc_inclusionFlags rc)
    else Done []) in
  do! _ := clearInclusionFlags in
  do! _ := MmsServerConnection_sendInformationReport
    (rptId :: Some optFlds :: header ++ Some inclusionField :: map Some values ++ map Some reasons) in
  increaseSqNum.

(** ** Data sets *)

(** [IedModel_lookupDataSet] of model.c; only the first characters of the name of the
    logical device are compared. *)
Fixpoint IedModel_lookupDataSet (dataSets : list DataSet) (ld name : list Z) : res (option DataSet) :=
  match dataSets with
  | [] => Done None
  | d :: ds =>
      let! ldName := defined (ds_logicalDeviceName d) in
      if bool_decide (take (length ld) ldName = ld) && bool_decide (ds_name d = name) then Done (Some d)
      else IedModel_lookupDataSet ds ld name
  end.

Definition SLASH : Z := 47.

Definition lookupDataSet (dataSetReference : list Z) : res (option DataSet) :=
  match strchr SLASH dataSetReference with
  | Some (ld, name) => IedModel_lookupDataSet (n_dataSets env) ld name
  | None => Done None
  end.

Definition deleteDataSetValuesShadowBuffer : R unit :=
  do! rc := self in
  match rc_bufferedDataSetValues rc with
  | None => cret tt
  | Some values =>
      match rc_dataSet rc with
      | NoDataSet => clift AssertFailed
      | p =>
          do! dataSet := clift (deref p) in
          if zlen values <? DataSet_getSize dataSet then clift Ub else cret tt
      end
  end.

Definition createDataSetValuesShadowBuffer (dataSet : DataSet) : R unit :=
  let n := Z.to_nat (DataSet_getSize dataSet) in
  if zlen (ds_fcdas dataSet) <? DataSet_getSize dataSet then clift AssertFailed
  else cmodify (rc_set_shadow (Some (replicate n None)) (Some (map dse_value (take n (ds_fcdas dataSet))))).

Definition updateReportDataset (newDatSet : option MmsValue) : R bool :=
  do! dataSetValue := match newDatSet with
    | Some v => cret v
    | None => do! v := getRCBValue (lit "DatSet") in clift (defined v)
    end in
  do! rc := self in
  do! _ :=
    if rc_isDynamicDataSet rc then
      match rc_dataSet rc with
      | NoDataSet => cret tt
      | p => do! p := clift (MmsMapping_freeDynamicallyCreatedDataSet p) in cmodify (rc_set_dataSet p)
      end
    else cret tt in
  do! dataSetName := clift (let! b := defined (MmsValue_toString dataSetValue) in c_string b) in
  do! found := clift (lookupDataSet dataSetName) in
  let use dataSet isDynamic :=
    do! _ := cmodify (rc_set_isDynamicDataSet isDynamic) in
    do! _ := deleteDataSetValuesShadowBuffer in
    do! _ := cmodify (rc_set_dataSet (DataSetAt dataSet)) in
    do! _ := createDataSetValuesShadowBuffer dataSet in
    do! _ := cmodify (rc_set_inclusionField (Some (MmsValue_newBitString (ds_elementCount dataSet)))) in
    do! _ := cmodify (rc_set_inclusionFlags (Some (replicate (Z.to_nat (ds_elementCount dataSet)) REPORT_CONTROL_NONE))) in
    cret true in
  match found with
  | Some dataSet => use dataSet false
  | None =>
      do! found := clift (n_domainDataSet env dataSetName) in
      match found with
      | Some dataSet => use dataSet true
      | None => cret false
      end
  end.

(** ** Reports that are enqueued *)

(** The bytes of the first [n] entries, each with its reason for inclusion. *)
Fixpoint complete_size (n : nat) (entries : list DataSetEntry) : res Z :=
  match n with
  | O => Done 0
  | S n =>
      match entries with
      | [] => AssertFailed
      | e :: entries =>
          let! v := entry_value Ub e in
          let! size := getSizeInMemory v in
          let! sizes := complete_size n entries in
          Done (1 + size + sizes)
      end
  end.

Fixpoint changed_size (n i : nat) (flags : option (list Z)) (values : option (list (option MmsValue))) : res Z :=
  match n with
  | O => Done 0
  | S n =>
      let! flag := at_index flags i in
      if flag =? REPORT_CONTROL_NONE then changed_size n (S i) flags values
      else
        let! v := at_index values i in
        match v with
        | None => AssertFailed
        | Some v =>
            let! size := getSizeInMemory v in
            let! sizes := changed_size n (S i) flags values in
            Done (1 + size + sizes)
        end
  end.

(** The entries are written from [pos] on. *)
Fixpoint complete_items (n i : nat) (entries : list DataSetEntry) (flags : option (list Z)) (pos : Z)
  : res (list ReportItem) :=
  match n with
  | O => Done []
  | S n =>
      match entries with
      | [] => AssertFailed
      | e :: entries =>
          let! flag := at_index flags i in
          let! v := entry_value Ub e in
          let! (behind, v) := cloneToBuffer v (pos + 1) in
          let! items := complete_items n (S i) entries flags behind in
          Done (mkItem pos (u8 flag) v :: items)
      end
  end.

Fixpoint changed_items (n i : nat) (flags : option (list Z)) (values : option (list (option MmsValue))) (pos : Z)
    (inclusionField : MmsValue) : res (list ReportItem * MmsValue) :=
  match n with
  | O => Done ([], inclusionField)
  | S n =>
      let! flag := at_index flags i in
      if flag =? REPORT_CONTROL_NONE then changed_items n (S i) flags values pos inclusionField
      else
        let! v := at_index values i in
        match v with
        | None => AssertFailed
        | Some v =>
            let! (behind, v) := cloneToBuffer v (pos + 1) in
            let! inclusionField := MmsValue_setBitStringBit inclusionField (Z.of_nat i) true in
            let! (items, inclusionField) := changed_items n (S i) flags values behind inclusionField in
            Done (mkItem pos (u8 flag) v :: items, inclusionField)
        end
  end.

(** [bufferEntrySize]: the structure, and what is encoded behind it. *)
Definition report_size (rc : ReportControl) (isIntegrity isGI : bool) : res Z :=
  let! field := defined (rc_inclusionField rc) in
  let! inclusionFieldSize := MmsValue_getBitStringByteSize field in
  let! n := MmsValue_getBitStringSize field in
  if isIntegrity || isGI then
    let! dataSet := deref (rc_dataSet rc) in
    let! size := complete_size (Z.to_nat n) (ds_fcdas dataSet) in
    Done (sizeof_ReportBufferEntry sizes + size)
  else
    let! size := changed_size (Z.to_nat n) 0 (rc_inclusionFlags rc) (rc_bufferedDataSetValues rc) in
    Done (sizeof_ReportBufferEntry sizes + inclusionFieldSize + size).

(** The entry at [p]. *)
Definition report_entry (rc : ReportControl) (isIntegrity isGI : bool) (entryId : list Z)
    (bufferEntrySize p : Z) : res ReportBufferEntry :=
  let! field := defined (rc_inclusionField rc) in
  let! n := MmsValue_getBitStringSize field in
  let pos := p + sizeof_ReportBufferEntry sizes in
  if isIntegrity || isGI then
    let! dataSet := deref (rc_dataSet rc) in
    let! items := complete_items (Z.to_nat n) 0 (ds_fcdas dataSet) (rc_inclusionFlags rc) pos in
    Done (mkEntry entryId (if isIntegrity then 1 else 2) bufferEntrySize [] items)
  else
    let! inclusionFieldSize := MmsValue_getBitStringByteSize field in
    let! (items, inclusionField) := changed_items (Z.to_nat n) 0 (rc_inclusionFlags rc)
      (rc_bufferedDataSetValues rc) (pos + inclusionFieldSize) (MmsValue_newBitString n) in
    let! (_, _, inclusion) := as_bit_string inclusionField in
    Done (mkEntry entryId 0 bufferEntrySize inclusion items).

(** The time of the system; the code takes care that it is not the last one. *)
Definition next_entry_id (rc : ReportControl) : Z :=
  if n_time env =? rc_lastEntryId rc then u64 (n_time env + 1) else n_time env.

Definition set_EntryID (entryId : list Z) : R unit :=
  do! rc := self in
  do! v := clift (let! v := rcb_element rc 11 in let! v := defined v in MmsValue_setOctetString v (mk_ptr entryId 0) 8) in
  cmodify (rcb_set_element 11 v).

Definition enqueueReport (isIntegrity isGI : bool) : R unit :=
  do! rc := self in
  do! buffer := clift (defined (rc_reportBuffer rc)) in
  do! bufferEntrySize := clift (report_size rc isIntegrity isGI) in
  if rb_memoryBlockSize buffer <? bufferEntrySize then cret tt
  else
    do! (p, buffer) := clift (find_place (sizeof_ReportBufferEntry sizes) buffer bufferEntrySize) in
    let timestamp := next_entry_id rc in
    let entryId := le_bytes 8 timestamp in
    do! _ := if rc_enabled rc then cret tt else set_EntryID entryId in
    do! entry := clift (report_entry rc isIntegrity isGI entryId bufferEntrySize p) in
    do! _ := clearInclusionFlags in
    do! _ := cmodify (rc_set_reportBuffer (Some (put_entry p entry buffer))) in
    cmodify (rc_set_lastEntryId timestamp).

(** ** Sending a report of the buffer *)

Definition MemAllocLinkedList_create (ma : MemoryAllocator) : option MemAllocLinkedList :=
  '(_, ma) ← MemoryAllocator_allocate ma (3 * sizeof_pointer sizes);
  Some (mkMemList ma []).

Definition MemAllocLinkedList_add (self : MemAllocLinkedList) (e : ReportElement) : option MemAllocLinkedList :=
  '(_, ma) ← MemoryAllocator_allocate (ml_ma self) (2 * sizeof_pointer sizes);
  Some (mkMemList ma (ml_elements self ++ [e])).

(** Memory of the storage that does not become a node. *)
Definition allocate (l : MemAllocLinkedList) (size : Z) : option MemAllocLinkedList :=
  '(_, ma) ← MemoryAllocator_allocate (ml_ma l) size;
  Some (mkMemList ma (ml_elements l)).

Definition add (l : MemAllocLinkedList) (e : ReportElement) : res (option MemAllocLinkedList) :=
  Done (MemAllocLinkedList_add l e).

(** A value in the storage. *)
Definition add_new (l : MemAllocLinkedList) (v : MmsValue) : res (option MemAllocLinkedList) :=
  let? l := Done (allocate l (sizeof_MmsValue sizes)) in add l (ValueElement v).

(** An element of the report that an option asks for. *)
Definition add_if (optFlds : MmsValue) (bit : Z) (l : MemAllocLinkedList)
    (put : MemAllocLinkedList -> res (option MemAllocLinkedList)) : res (option MemAllocLinkedList) :=
  let! b := MmsValue_getBitStringBit optFlds bit in if b then put l else Done (Some l).

(** What is encoded at a place of the block. *)
Definition item_at (report : ReportBufferEntry) (pos : Z) : res ReportItem :=
  defined (List.find (fun it => it_offset it =? pos) (re_items report)).

(** The values of the entries from [i] on; [inclusionField] tells which there are. *)
Fixpoint report_values (n i : nat) (report : ReportBufferEntry) (inclusionField : MmsValue) (pos : Z)
    (l : MemAllocLinkedList) : res (option MemAllocLinkedList) :=
  match n with
  | O => Done (Some l)
  | S n =>
      let! included := if 0 <? re_flags report then Done true
        else MmsValue_getBitStringBit inclusionField (Z.of_nat i) in
      if included then
        let! item := item_at report pos in
        let? l := add l (ValueElement (it_value item)) in
        let! size := getSizeInMemory (it_value item) in
        report_values n (S i) report inclusionField (pos + 1 + size) l
      else report_values n (S i) report inclusionField pos l
  end.

(** The bits of a reason: of a complete report, and of a change. *)
Definition complete_bits (flags : Z) : list Z :=
  (if Z.testbit flags 0 then [5] else []) ++ (if Z.testbit flags 1 then [4] else []).

Fixpoint report_reasons (n i : nat) (report : ReportBufferEntry) (inclusionField : MmsValue) (pos : Z)
    (l : MemAllocLinkedList) : res (option MemAllocLinkedList) :=
  match n with
  | O => Done (Some l)
  | S n =>
      let! included := if 0 <? re_flags report then Done true
        else MmsValue_getBitStringBit inclusionField (Z.of_nat i) in
      if included then
        let? l := Done (allocate l (sizeof_MmsValue sizes)) in
        let? l := Done (allocate l 1) in
        let! reason :=
          if 0 <? re_flags report then new_reason (complete_bits (re_flags report))
          else let! item := item_at report pos in new_reason (reason_bits (it_reason item)) in
        let? l := add l (ValueElement reason) in
        let! item := item_at report pos in
        let! size := getSizeInMemory (it_value item) in
        report_reasons n (S i) report inclusionField (pos + 1 + size) l
      else report_reasons n (S i) report inclusionField pos l
  end.

(** The list with the first two elements, and the inclusion field: the bits of the
    entry, or new ones of a complete report. *)
Definition report_begin (rc : ReportControl) (p : Z) (report : ReportBufferEntry)
  : res (option (MemAllocLinkedList * MmsValue * Z)) :=
  let! l := match MemAllocLinkedList_create (MemoryAllocator_init LOCAL_STORAGE_MEMORY_SIZE) with
    | Some l => Done l
    | None => AssertFailed
    end in
  let? l := add l (AttributeElement (rcb_index rc (lit "RptID"))) in
  let? l := add l (AttributeElement (rcb_index rc (lit "OptFlds"))) in
  let! field := defined (rc_inclusionField rc) in
  let! size := MmsValue_getBitStringSize field in
  let pos := p + sizeof_ReportBufferEntry sizes in
  let byteSize := bitStringByteSize size in
  if re_flags report =? 0 then
    if zlen (re_inclusion report) =? byteSize then
      Done (Some (l, new_value (V_BIT_STRING size (re_inclusion report)), pos + byteSize))
    else Ub
  else
    let? l := Done (allocate l byteSize) in
    Done (Some (l, new_value (V_BIT_STRING size (malloc byteSize)), pos)).

(** The attributes that the options ask for, the inclusion field, the values and the
    reasons. *)
Definition report_elements (rc : ReportControl) (optFlds : MmsValue) (report : ReportBufferEntry)
    (l : MemAllocLinkedList) (inclusionField : MmsValue) (pos : Z) : res (option MemAllocLinkedList) :=
  let attribute name l := add l (AttributeElement (rcb_index rc name)) in
  let? l := add_if optFlds 1 l (attribute (lit "SqNum")) in
  let? l := add_if optFlds 2 l (fun l => add l TimeElement) in
  let? l := add_if optFlds 4 l (attribute (lit "DatSet")) in
  let? l := add_if optFlds 6 l (fun l => add_new l (MmsValue_newBoolean false)) in
  let? l := add_if optFlds 7 l (fun l => add_new l (new_value (V_OCTET_STRING 8 8 (re_entryId report)))) in
  let? l := add_if optFlds 8 l (fun l => add l (AttributeElement (rc_confRev rc))) in
  let! inclusionField := if 0 <? re_flags report then MmsValue_setAllBitStringBits inclusionField else Done inclusionField in
  let? l := add l (ValueElement inclusionField) in
  let! dataSet := deref (rc_dataSet rc) in
  let n := Z.to_nat (ds_elementCount dataSet) in
  let? l := report_values n 0 report inclusionField pos l in
  add_if optFlds 3 l (report_reasons n 0 report inclusionField pos).

(** The report at [p] is taken from the queue of those that wait. *)
Definition advance (p : Z) : R unit :=
  do! rc := self in
  do! buffer := clift (defined (rc_reportBuffer rc)) in
  do! (_, next) := clift (read_entry (rb_memoryBlock buffer) p) in
  if bool_decide (next = Some p) then clift AssertFailed
  else cmodify (rc_set_reportBuffer (Some (set_nextToTransmit next buffer))).

Definition sendNextReportEntry : R unit :=
  do! rc := self in
  do! buffer := clift (defined (rc_reportBuffer rc)) in
  match rb_nextToTransmit buffer with
  | None => cret tt
  | Some p =>
      do! (report, _) := clift (read_entry (rb_memoryBlock buffer) p) in
      do! _ := set_EntryID (re_entryId report) in
      do! begun := clift (report_begin rc p report) in
      match begun with
      | None => cret tt
      | Some (l, inclusionField, pos) =>
          do! optFlds := getRCBValue (lit "OptFlds") in
          do! optFlds := clift (let! o := defined optFlds in set_bits o [(5, false); (9, false)]) in
          do! _ := cmodify (rcb_set (lit "OptFlds") optFlds) in
          do! rc := self in
          do! made := clift (report_elements rc optFlds report l inclusionField pos) in
          match made with
          | None => cret tt
          | Some l =>
              do! elements := clift (element_values rc (ml_elements l)) in
              do! _ := MmsServerConnection_sendInformationReport elements in
              do! _ := increaseSqNum in
              advance p
          end
      end
  end.

(** ** Events *)

Definition report (isIntegrity isGI : bool) : R unit :=
  do! rc := self in
  if rc_buffered rc then enqueueReport isIntegrity isGI else sendReport isIntegrity isGI.

(** The events that wait are reported before a complete report. *)
Definition report_events : R unit :=
  do! rc := self in
  if rc_triggered rc then
    do! _ := report false false in cmodify (rc_set_triggered false)
  else cret tt.

Definition process_gi (currentTimeInMs : Z) : R unit :=
  do! rc := self in
  if Z.testbit (rc_triggerOps rc) 4 && rc_gi rc then
    do! _ := report_events in
    do! _ := updateTimeOfEntry currentTimeInMs in
    do! _ := report false true in
    do! _ := cmodify (rc_set_gi false) in
    cmodify (rc_set_triggered false)
  else cret tt.

Definition process_integrity (currentTimeInMs : Z) : R unit :=
  do! rc := self in
  if Z.testbit (rc_triggerOps rc) 3 && (0 <? rc_intgPd rc) && (rc_nextIntgReportTime rc <=? currentTimeInMs) then
    do! _ := report_events in
    do! rc := self in
    do! _ := cmodify (rc_set_nextIntgReportTime (u64 (currentTimeInMs + rc_intgPd rc))) in
    do! _ := updateTimeOfEntry currentTimeInMs in
    do! _ := report true false in
    cmodify (rc_set_triggered false)
  else cret tt.

Definition process_triggered (currentTimeInMs : Z) : R unit :=
  do! rc := self in
  if rc_triggered rc then
    do! reportTime := clift (defined (rc_reportTime rc)) in
    if reportTime <=? currentTimeInMs then report_events else cret tt
  else cret tt.

Definition processEventsForReport (currentTimeInMs : Z) : R unit :=
  do! rc := self in
  if rc_enabled rc || rc_isBuffering rc then
    do! _ := process_gi currentTimeInMs in
    do! _ := process_integrity currentTimeInMs in
    do! _ := process_triggered currentTimeInMs in
    do! rc := self in
    if rc_buffered rc && rc_enabled rc then sendNextReportEntry else cret tt
  else cret tt.

(** The value of an entry changed, or was written. *)
Definition ReportControl_valueUpdated (dataSetEntryIndex : nat) (flag : Z) : R unit :=
  do! rc := self in
  do! pending := clift (at_index (rc_inclusionFlags rc) dataSetEntryIndex) in
  do! _ :=
    if pending =? 0 then cret tt
    else
      do! _ := cmodify (rc_set_reportTime (Some (n_time env))) in
      processEventsForReport (n_time env) in
  do! rc := self in
  do! flags := clift (defined (rc_inclusionFlags rc)) in
  do! _ := if bool_decide (dataSetEntryIndex < length flags)%nat
    then cmodify (rc_set_inclusionFlags (Some (<[dataSetEntryIndex := flag]> flags))) else clift Ub in
  do! value := clift (let! r := at_index (rc_valueReferences rc) dataSetEntryIndex in
    let! h := defined r in Done (n_value env h)) in
  do! buffered := clift (at_index (rc_bufferedDataSetValues rc) dataSetEntryIndex) in
  do! value := clift (match buffered with
    | None => MmsValue_clone malloc value
    | Some v => let! (_, v) := MmsValue_update v value in Done v
    end) in
  do! _ := cmodify (rc_set_shadow
    ((fun l => <[dataSetEntryIndex := Some value]> l) <$> rc_bufferedDataSetValues rc) (rc_valueReferences rc)) in
  do! _ :=
    if rc_triggered rc then cret tt
    else
      do! _ := updateTimeOfEntry (n_time env) in
      do! rc := self in
      do! bufTm := clift (defined (rc_bufTm rc)) in
      cmodify (rc_set_reportTime (Some (u64 (n_time env + bufTm)))) in
  cmodify (rc_set_triggered true).

End Reporting.
