(* ===== verification/ReportingAccess.v ===== *)
(** Access to report control blocks: src/iedserver/mms_mapping/reporting.c.  How the
    blocks are made from the model, what happens when a client writes to an attribute,
    and what the server does with all of its blocks. *)
From Stdlib Require Import String.
From stdpp Require Import base tactics numbers option list.
From S2P Require Import Prelude Memory BerEncode MmsValue Effects CString MmsTypeSpec Control ReportBuffer ReportControl Reporting.

(** * The blocks of the model *)

(** A node of the model is known by its address. *)
Record LogicalNode := mkLogicalNode { ln_address : Z; ln_name : list Z }.

Record ReportControlBlock := mkRcb {
  rcb_parent : LogicalNode;
  rcb_name : list Z;
  rcb_rptId : option (list Z);
  rcb_buffered : bool;
  rcb_dataSetName : option (list Z);
  rcb_confRef : Z;                             (* uint32_t *)
  rcb_trgOps : Z;                              (* uint8_t *)
  rcb_options : Z;                             (* uint8_t *)
  rcb_bufferTime : Z;                          (* uint32_t *)
  rcb_intPeriod : Z }.                         (* uint32_t *)

Definition createDataSetReferenceForDefaultDataSet (rcb : ReportControlBlock) (dataSetName : list Z)
    (domain : MmsDomain) : list Z :=
  MmsDomain_getName domain ++ lit "/" ++ ln_name (rcb_parent rcb) ++ lit "$" ++ dataSetName.

Definition createOptFlds (rcb : ReportControlBlock) : res MmsValue :=
  let option op bit : list (Z * bool) := if Z.land (rcb_options rcb) op =? 0 then [] else [(bit, true)] in
  set_bits (MmsValue_newBitString 10)
    (option RPT_OPT_SEQ_NUM 1 ++ option RPT_OPT_TIME_STAMP 2 ++ option RPT_OPT_REASON_FOR_INCLUSION 3 ++
     option RPT_OPT_DATA_SET 4 ++ option RPT_OPT_DATA_REFERENCE 5 ++ option RPT_OPT_BUFFER_OVERFLOW 6 ++
     option RPT_OPT_ENTRY_ID 7 ++ option RPT_OPT_CONF_REV 8).

Definition createTrgOps (rcb : ReportControlBlock) : res MmsValue :=
  let option op bit : list (Z * bool) := if Z.land (rcb_trgOps rcb) op =? 0 then [] else [(bit, true)] in
  set_bits (MmsValue_newBitString 6)
    (option TRG_OPT_DATA_CHANGED 1 ++ option TRG_OPT_QUALITY_CHANGED 2 ++ option TRG_OPT_DATA_UPDATE 3 ++
     option TRG_OPT_INTEGRITY 4 ++ option TRG_OPT_GI 5).

(** An attribute: its name, its type and its first value. *)
Definition named (name : String.string) (t : uMmsTypeSpecification) (v : MmsValue)
  : MmsVariableSpecification * MmsValue := (SpecSimple (Some (lit name)) t, v).

(** The value of the attribute [DatSet]. *)
Definition default_DatSet (rcb : ReportControlBlock) : R MmsValue :=
  do! rc := self in
  match rcb_dataSetName rcb with
  | Some name =>
      do! domain := clift (defined (rc_domain rc)) in
      cret (MmsValue_newVisibleString (Some (createDataSetReferenceForDefaultDataSet rcb name domain)))
  | None => cret (MmsValue_newVisibleString (Some []))
  end.

(** The attributes become the values of the block. *)
Definition set_attributes (rcb : ReportControlBlock) (attributes : list (MmsVariableSpecification * MmsValue))
  : R MmsVariableSpecification :=
  do! _ := cmodify (rc_set_rcbValues (Some (Complex 0 false (map (fun a => Some a.2) attributes)))) in
  cret (SpecStructure (Some (rcb_name rcb)) (map fst attributes)).

Definition refresh : R unit :=
  do! _ := refreshBufferTime in
  do! _ := refreshIntegrityPeriod in
  refreshTriggerOptions.

Definition createUnbufferedReportControlBlock (rcb : ReportControlBlock) : R MmsVariableSpecification :=
  do! datSet := default_DatSet rcb in
  do! confRev := clift (MmsValue_newUnsignedFromUint32 (rcb_confRef rcb)) in
  do! _ := cmodify (rc_set_confRev (Some 4)) in
  do! optFlds := clift (createOptFlds rcb) in
  do! bufTm := clift (MmsValue_newUnsignedFromUint32 (rcb_bufferTime rcb)) in
  do! trgOps := clift (createTrgOps rcb) in
  do! intgPd := clift (MmsValue_newUnsignedFromUint32 (rcb_intPeriod rcb)) in
  do! spec := set_attributes rcb
    [named "RptID" (T_VISIBLE_STRING (-129)) (MmsValue_newVisibleString (rcb_rptId rcb));
     named "RptEna" T_BOOLEAN (MmsValue_newBoolean false);
     named "Resv" T_BOOLEAN (MmsValue_newBoolean false);
     named "DatSet" (T_VISIBLE_STRING (-129)) datSet;
     named "ConfRev" (T_UNSIGNED 32) confRev;
     named "OptFlds" (T_BIT_STRING 10) optFlds;
     named "BufTm" (T_UNSIGNED 32) bufTm;
     named "SqNum" (T_UNSIGNED 16) (MmsValue_newUnsigned 16);
     named "TrgOps" (T_BIT_STRING 6) trgOps;
     named "IntgPd" (T_UNSIGNED 32) intgPd;
     named "GI" T_BOOLEAN (MmsValue_newBoolean false);
     named "Owner" (T_OCTET_STRING (-128)) (MmsValue_newOctetString 0 128)] in
  do! _ := cmodify (rc_set_timeOfEntry (OwnTime (MmsValue_newBinaryTime false))) in
  do! _ := refresh in
  cret spec.

Definition createBufferedReportControlBlock (rcb : ReportControlBlock) : R MmsVariableSpecification :=
  do! datSet := default_DatSet rcb in
  do! confRev := clift (MmsValue_newUnsignedFromUint32 (rcb_confRef rcb)) in
  do! _ := cmodify (rc_set_confRev (Some 3)) in
  do! optFlds := clift (createOptFlds rcb) in
  do! bufTm := clift (MmsValue_newUnsignedFromUint32 (rcb_bufferTime rcb)) in
  do! trgOps := clift (createTrgOps rcb) in
  do! intgPd := clift (MmsValue_newUnsignedFromUint32 (rcb_intPeriod rcb)) in
  do! _ := cmodify (rc_set_timeOfEntry (ElementTime 12)) in
  do! spec := set_attributes rcb
    [named "RptID" (T_VISIBLE_STRING (-129)) (MmsValue_newVisibleString (rcb_rptId rcb));
     named "RptEna" T_BOOLEAN (MmsValue_newBoolean false);
     named "DatSet" (T_VISIBLE_STRING (-129)) datSet;
     named "ConfRev" (T_UNSIGNED 32) confRev;
     named "OptFlds" (T_BIT_STRING 10) optFlds;
     named "BufTm" (T_UNSIGNED 32) bufTm;
     named "SqNum" (T_UNSIGNED 16) (MmsValue_newUnsigned 16);
     named "TrgOps" (T_BIT_STRING 6) trgOps;
     named "IntgPd" (T_UNSIGNED 32) intgPd;
     named "GI" T_BOOLEAN (MmsValue_newBoolean false);
     named "PurgeBuf" T_BOOLEAN (MmsValue_newBoolean false);
     named "EntryID" (T_OCTET_STRING 8) (MmsValue_newOctetString 8 8);
     named "TimeOfEntry" (T_BINARY_TIME 0) (MmsValue_newBinaryTime false);
     named "ResvTms" (T_UNSIGNED 32) (MmsValue_newUnsigned 32);
     named "Owner" (T_OCTET_STRING (-128)) (MmsValue_newOctetString 0 4)] in
  do! _ := refresh in
  cret spec.

(** The [index]th block of the node that is buffered, or is not. *)
Fixpoint getRCB_loop (rcbs : list ReportControlBlock) (logicalNode : LogicalNode) (index : Z) (buffered : bool)
    (rcbCount : Z) : option ReportControlBlock :=
  match rcbs with
  | [] => None
  | rcb :: rcbs =>
      if (ln_address (rcb_parent rcb) =? ln_address logicalNode) && Bool.eqb (rcb_buffered rcb) buffered then
        if rcbCount =? index then Some rcb else getRCB_loop rcbs logicalNode index buffered (rcbCount + 1)
      else getRCB_loop rcbs logicalNode index buffered rcbCount
  end.

Definition getRCBForLogicalNodeWithIndex (rcbs : list ReportControlBlock) (logicalNode : LogicalNode) (index : Z)
    (buffered : bool) : option ReportControlBlock := getRCB_loop rcbs logicalNode index buffered 0.

(** A block that is made from the model; what is made is known to it from the start. *)
Definition create_rcb (rcbs : list ReportControlBlock) (domain : MmsDomain) (logicalNode : LogicalNode)
    (buffered : bool) (currentReport : Z) : res (ReportControl * MmsVariableSpecification) :=
  let! rcb := defined (getRCBForLogicalNodeWithIndex rcbs logicalNode currentReport buffered) in
  let name := ln_name logicalNode ++ lit (if buffered then "$BR$" else "$RP$") ++ rcb_name rcb in
  let rc := rc_set_identity name domain (ReportControl_create buffered (ln_name logicalNode)) in
  let! (spec, rc, _) :=
    (if buffered then createBufferedReportControlBlock rcb else createUnbufferedReportControlBlock rcb) rc [] in
  Done (rc, spec).

(** [reportsCount] blocks, from [currentReport] on; they are added to the blocks of the server. *)
Fixpoint create_rcbs (n : nat) (rcbs : list ReportControlBlock) (domain : MmsDomain) (logicalNode : LogicalNode)
    (buffered : bool) (currentReport : Z) (reportControls : list ReportControl)
  : res (list ReportControl * list MmsVariableSpecification) :=
  match n with
  | O => Done (reportControls, [])
  | S n =>
      let! (rc, spec) := create_rcb rcbs domain logicalNode buffered currentReport in
      let! (reportControls, specs) :=
        create_rcbs n rcbs domain logicalNode buffered (currentReport + 1) (reportControls ++ [rc]) in
      Done (reportControls, spec :: specs)
  end.

Definition Reporting_createMmsBufferedRCBs (rcbs : list ReportControlBlock) (domain : MmsDomain)
    (logicalNode : LogicalNode) (reportsCount : nat) (reportControls : list ReportControl)
  : res (list ReportControl * MmsVariableSpecification) :=
  let! (reportControls, specs) := create_rcbs reportsCount rcbs domain logicalNode true 0 reportControls in
  Done (reportControls, SpecStructure (Some (lit "BR")) specs).

Definition Reporting_createMmsUnbufferedRCBs (rcbs : list ReportControlBlock) (domain : MmsDomain)
    (logicalNode : LogicalNode) (reportsCount : nat) (reportControls : list ReportControl)
  : res (list ReportControl * MmsVariableSpecification) :=
  let! (reportControls, specs) := create_rcbs reportsCount rcbs domain logicalNode false 0 reportControls in
  Done (reportControls, SpecStructure (Some (lit "RP")) specs).

(** * The owner *)

(** [atoi] of the standard library: white space, a sign, digits; a value that is no
    [int] is undefined. *)
Definition isspace (c : Z) : bool := ((9 <=? c) && (c <=? 13)) || (c =? 32).
Definition isdigit (c : Z) : bool := (48 <=? c) && (c <=? 57).

Fixpoint skip_space (s : list Z) : list Z :=
  match s with c :: s' => if isspace c then skip_space s' else s | [] => [] end.

Fixpoint digits (s : list Z) (v : Z) : Z :=
  match s with c :: s => if isdigit c then digits s (10 * v + (c - 48)) else v | [] => v end.

Definition atoi (s : list Z) : res Z :=
  let v := match skip_space s with
    | 45 :: s => - digits s 0
    | 43 :: s => digits s 0
    | s => digits s 0
    end in
  if (- 2 ^ 31 <=? v) && (v <? 2 ^ 31) then Done v else Ub.

Definition DOT : Z := 46.

(** The loop over the numbers of an IPv4 address, with what [strchr] returns; [n] numbers
    are left. *)
Fixpoint address_loop (n : nat) (separator : option (list Z)) : res (list Z) :=
  match n, separator with
  | S n, Some s =>
      let! intVal := atoi s in
      let separator := match strchr DOT s with Some (_, behind) => Some (DOT :: behind) | None => None end in
      let! addr := address_loop n separator in
      Done (u8 intVal :: addr)
  | _, _ => Done []
  end.

(** The octets of the attribute [Owner]. *)
Definition owner_octets (clientAddressString : list Z) : res (list Z) :=
  match strchr DOT clientAddressString with
  | Some _ =>
      let! addr := address_loop 4 (Some clientAddressString) in
      Done (if zlen addr =? 4 then addr else [])
  | None => Done []
  end.

Section Access.
Context (sizes : Sizes) (malloc : Z -> list Z) (env : ReportEnv).

Definition updateOwner (connection : option Z) : R unit :=
  do! _ := cmodify (rc_set_clientConnection connection) in
  do! owner := getRCBValue (lit "Owner") in
  match owner with
  | None => cret tt
  | Some owner =>
      do! octets := clift (match connection with
        | Some c => owner_octets (n_clientAddress env c)
        | None => Done []
        end) in
      do! owner := clift (MmsValue_setOctetString owner (mk_ptr octets 0) (zlen octets)) in
      cmodify (rcb_set (lit "Owner") owner)
  end.

(** * Writing attributes *)

(** The loop over the reports of the buffer does not go on to the next one. *)
Fixpoint checkReportBuffer_loop (fuel : nat) (buffer : ReportBuffer) (entry : option Z) (entryId : list Z)
  : res (option (option Z)) :=
  match entry with
  | None => Done None
  | Some p =>
      match fuel with
      | O => NoFuel
      | S fuel =>
          let! (e, next) := read_entry (rb_memoryBlock buffer) p in
          let! same := memcmp_eq (re_entryId e) entryId 8 in
          if same then Done (Some next) else checkReportBuffer_loop fuel buffer entry entryId
      end
  end.

Definition checkReportBufferForEntryID (fuel : nat) (value : MmsValue) : R bool :=
  do! rc := self in
  do! buffer := clift (defined (rc_reportBuffer rc)) in
  do! found := clift (let! (_, _, _, octets) := as_octet_string value in
    checkReportBuffer_loop fuel buffer (rb_oldestReport buffer) octets) in
  match found with
  | None => cret false
  | Some next =>
      do! _ := cmodify (rc_set_reportBuffer (Some (set_nextToTransmit next buffer))) in
      do! _ := cmodify (rc_set_isResync (match next with Some _ => true | None => false end)) in
      cret true
  end.

(** [MmsValue_update] of an attribute. *)
Definition update_attribute (elementName : list Z) (attribute value : MmsValue) : R unit :=
  do! (_, v) := clift (MmsValue_update attribute value) in cmodify (rcb_set elementName v).

(** [value->value.boolean] *)
Definition boolean_member : MmsValue -> res bool := MmsValue_getBoolean.

(** The block is given to the client, if there is a data set. *)
Definition enable (value : MmsValue) (connection : Z) : R Z :=
  do! updated := updateReportDataset env None in
  if updated then
    do! _ := updateOwner (Some connection) in
    do! rptEna := getRCBValue (lit "RptEna") in
    do! rptEna := clift (defined rptEna) in
    do! _ := update_attribute (lit "RptEna") rptEna value in
    do! _ := cmodify (rc_set_enabled true) in
    do! _ := cmodify (rc_set_isResync false) in
    do! _ := cmodify (rc_set_gi false) in
    do! _ := refreshBufferTime in
    do! _ := refreshTriggerOptions in
    do! _ := refreshIntegrityPeriod in
    do! _ := cmodify (rc_set_sqNum 0) in
    cret DATA_ACCESS_ERROR_SUCCESS
  else cret DATA_ACCESS_ERROR_OBJECT_ATTRIBUTE_INCONSISTENT.

(** [rc->clientConnection != connection] *)
Definition is_other (rc : ReportControl) (connection : Z) : bool :=
  negb (bool_decide (rc_clientConnection rc = Some connection)).

(** [None]: the function goes on. *)
Definition write_RptEna (value : MmsValue) (connection : Z) : R (option Z) :=
  do! rc := self in
  do! b := clift (boolean_member value) in
  if b then
    if rc_enabled rc then cret (Some DATA_ACCESS_ERROR_TEMPORARILY_UNAVAILABLE)
    else do! r := enable value connection in cret (Some r)
  else
    if (rc_enabled rc || rc_reserved rc) && is_other rc connection then
      cret (Some DATA_ACCESS_ERROR_TEMPORARILY_UNAVAILABLE)
    else
      do! _ :=
        if rc_buffered rc then cret tt
        else
          do! _ := cmodify (rc_set_inclusionFlags None) in
          do! resv := getRCBValue (lit "Resv") in
          do! resv := clift (let! v := defined resv in MmsValue_setBoolean v false) in
          do! _ := cmodify (rcb_set (lit "Resv") resv) in
          cmodify (rc_set_reserved false) in
      do! _ := updateOwner None in
      do! _ := cmodify (rc_set_enabled false) in
      cret None.

Definition write_GI (connection : Z) : R Z :=
  do! rc := self in
  if rc_enabled rc && negb (is_other rc connection) then
    do! _ := cmodify (rc_set_gi true) in cret DATA_ACCESS_ERROR_SUCCESS
  else cret DATA_ACCESS_ERROR_TEMPORARILY_UNAVAILABLE.

Definition write_Resv (value : MmsValue) (connection : Z) : R (option Z) :=
  do! b := clift (boolean_member value) in
  do! _ := cmodify (rc_set_reserved b) in
  do! _ := if b then cmodify (rc_set_clientConnection (Some connection)) else cret tt in
  cret None.

Definition write_PurgeBuf (value : MmsValue) : R (option Z) :=
  match MmsValue_getType value with
  | MMS_BOOLEAN =>
      do! b := clift (MmsValue_getBoolean value) in
      if b then do! _ := purgeBuf in cret (Some DATA_ACCESS_ERROR_SUCCESS) else cret None
  | _ => cret None
  end.

Definition purge_buffered : R unit := do! rc := self in if rc_buffered rc then purgeBuf else cret tt.

Definition write_DatSet (value : MmsValue) : R (option Z) :=
  do! datSet := getRCBValue (lit "DatSet") in
  do! datSet := clift (defined datSet) in
  do! same := clift (MmsValue_equals datSet value) in
  if same then cret (Some DATA_ACCESS_ERROR_SUCCESS)
  else
    do! updated := updateReportDataset env (Some value) in
    if updated then
      do! _ := purge_buffered in
      do! _ := update_attribute (lit "DatSet") datSet value in
      do! _ := increaseConfRev in
      cret (Some DATA_ACCESS_ERROR_SUCCESS)
    else cret (Some DATA_ACCESS_ERROR_OBJECT_VALUE_INVALID).

(** An attribute is updated if its value is another one; [follow] comes after that. *)
Definition write_changed (elementName : list Z) (value : MmsValue) (follow : R unit) : R (option Z) :=
  do! attribute := getRCBValue elementName in
  do! attribute := clift (defined attribute) in
  do! same := clift (MmsValue_equals attribute value) in
  do! _ :=
    if same then cret tt
    else do! _ := update_attribute elementName attribute value in follow in
  cret (Some DATA_ACCESS_ERROR_SUCCESS).

Definition write_IntgPd (value : MmsValue) : R (option Z) :=
  write_changed (lit "IntgPd") value (
    do! _ := refreshIntegrityPeriod in
    do! rc := self in
    if rc_buffered rc then do! _ := cmodify (rc_set_nextIntgReportTime 0) in purgeBuf else cret tt).

Definition write_TrgOps (value : MmsValue) : R (option Z) :=
  write_changed (lit "TrgOps") value (do! _ := purge_buffered in refreshTriggerOptions).

Definition write_BufTm (value : MmsValue) : R (option Z) :=
  write_changed (lit "BufTm") value (do! _ := purge_buffered in refreshBufferTime).

Definition write_EntryId (fuel : nat) (elementName : list Z) (value : MmsValue) : R (option Z) :=
  do! size := clift (MmsValue_getOctetStringSize value) in
  if negb (size =? 8) then cret (Some DATA_ACCESS_ERROR_OBJECT_VALUE_INVALID)
  else
    do! found := checkReportBufferForEntryID fuel value in
    if found then
      do! entryID := getRCBValue elementName in
      do! entryID := clift (defined entryID) in
      do! _ := update_attribute elementName entryID value in
      cret (Some DATA_ACCESS_ERROR_SUCCESS)
    else cret (Some DATA_ACCESS_ERROR_OBJECT_VALUE_INVALID).

(** What follows depends on the attribute. *)
Definition write_attribute (fuel : nat) (elementName : list Z) (value : MmsValue) (connection : Z) : R (option Z) :=
  let eq name := bool_decide (elementName = name) in
  if eq (lit "Resv") then write_Resv value connection
  else if eq (lit "PurgeBuf") then write_PurgeBuf value
  else if eq (lit "DatSet") then write_DatSet value
  else if eq (lit "IntgPd") then write_IntgPd value
  else if eq (lit "TrgOps") then write_TrgOps value
  else if eq (lit "EntryId") then write_EntryId fuel elementName value
  else if eq (lit "BufTm") then write_BufTm value
  else if eq (lit "ConfRev") then cret (Some DATA_ACCESS_ERROR_OBJECT_ACCESS_DENIED)
  else cret None.

(** The rest of the handler, for a block that is not enabled. *)
Definition write_disabled (fuel : nat) (elementName : list Z) (value : MmsValue) (connection : Z) : R Z :=
  do! rc := self in
  if rc_enabled rc then cret DATA_ACCESS_ERROR_TEMPORARILY_UNAVAILABLE
  else if rc_reserved rc && is_other rc connection then cret DATA_ACCESS_ERROR_TEMPORARILY_UNAVAILABLE
  else
    do! done := write_attribute fuel elementName value connection in
    match done with
    | Some retVal => cret retVal
    | None =>
        do! rcbValue := getRCBValue elementName in
        match rcbValue with
        | Some v => do! _ := update_attribute elementName v value in cret DATA_ACCESS_ERROR_SUCCESS
        | None => cret DATA_ACCESS_ERROR_OBJECT_VALUE_INVALID
        end
    end.

Definition Reporting_RCBWriteAccessHandler (fuel : nat) (elementName : list Z) (value : MmsValue) (connection : Z)
  : R Z :=
  do! done := if bool_decide (elementName = lit "RptEna") then write_RptEna value connection else cret None in
  match done with
  | Some retVal => cret retVal
  | None =>
      if bool_decide (elementName = lit "GI") then write_GI connection
      else write_disabled fuel elementName value connection
  end.

(** * All the blocks of the server *)

Fixpoint each (c : R unit) (rcs : list ReportControl) (es : list ReportEvent)
  : res (list ReportControl * list ReportEvent) :=
  match rcs with
  | [] => Done ([], es)
  | rc :: rcs =>
      let! (_, rc, es) := c rc es in
      let! (rcs, es) := each c rcs es in
      Done (rc :: rcs, es)
  end.

(** The block does not belong to a client any more. *)
Definition deactivate (connection : Z) : R unit :=
  do! rc := self in
  if is_other rc connection then cret tt
  else
    do! _ := cmodify (rc_set_enabled false) in
    do! _ := cmodify (rc_set_clientConnection None) in
    do! rptEna := getRCBValue (lit "RptEna") in
    do! rptEna := clift (let! v := defined rptEna in MmsValue_setBoolean v false) in
    do! _ := cmodify (rcb_set (lit "RptEna") rptEna) in
    do! _ :=
      if rc_buffered rc then cret tt
      else
        do! _ := cmodify (rc_set_inclusionField None) in
        do! resv := getRCBValue (lit "Resv") in
        do! resv := clift (let! v := defined resv in MmsValue_setBoolean v false) in
        do! _ := cmodify (rcb_set (lit "Resv") resv) in
        cmodify (rc_set_reserved false) in
    updateOwner None.

Definition Reporting_deactivateReportsForConnection (connection : Z) := each (deactivate connection).

Definition activate : R unit :=
  do! rc := self in
  if rc_buffered rc then
    do! updated := updateReportDataset env None in cmodify (rc_set_isBuffering updated)
  else cret tt.

Definition Reporting_activateBufferedReports := each activate.

Definition Reporting_processReportEvents (currentTimeInMs : Z) :=
  each (processEventsForReport sizes malloc env currentTimeInMs).

End Access.
