(* ===== verification/ReportingFacts.v ===== *)
(** Reporting: the state of a report control block.  The invariant of a block (its
    buffer is a queue, an enabled block has a client, the attribute [RptEna] is its
    state), which every operation of the server and its clients keeps. *)
From Stdlib Require Import String.
From stdpp Require Import base tactics numbers option list.
From S2P Require Import Prelude Memory BerEncode MmsValue MmsValueFacts Effects CString MmsTypeSpec Control ReportBuffer ReportControl Reporting ReportingAccess.

(** ** Attributes *)

Lemma position_lookup name names i : position name names = Some i -> 0 <= i /\ names !! Z.to_nat i = Some name.
Proof.
  revert i. induction names as [|n names IH]; intros i; simpl; [done|].
  case_bool_decide as E; [intros [= <-]; by subst|]. intros (j & Ej & ->)%fmap_Some.
  destruct (IH _ Ej) as [? H]. split; [lia|]. by rewrite Z2Nat.inj_succ by lia.
Qed.

Lemma rcb_index_lookup rc name i : rcb_index rc name = Some i ->
  0 <= i /\ rcb_elements (rc_buffered rc) !! Z.to_nat i = Some name.
Proof. apply position_lookup. Qed.

(** [RptEna] is the second attribute, of both kinds of blocks. *)
Lemma rcb_index_RptEna rc : rcb_index rc (lit "RptEna") = Some 1.
Proof. unfold rcb_index. by destruct (rc_buffered rc). Qed.

Lemma rcb_index_other rc name i : rcb_index rc name = Some i -> name <> lit "RptEna" -> i <> 1.
Proof.
  intros [_ H]%rcb_index_lookup Hn ->. apply Hn. change (Z.to_nat 1) with 1%nat in H.
  destruct (rc_buffered rc); injection H as <-; done.
Qed.

Lemma get_set_element vs i v j : i <> j ->
  MmsValue_getElement (MmsValue_setElement vs i v) j = MmsValue_getElement vs j.
Proof.
  intros Hij. destruct vs as [d u|d a cs]; [done|]. unfold MmsValue_setElement.
  destruct ((i <? 0) || (zlen cs <=? i)) eqn:Ei; [done|]. cbn [MmsValue_getElement].
  replace (zlen (<[Z.to_nat i := v]> cs)) with (zlen cs) by (unfold zlen; by rewrite length_insert).
  destruct ((j <? 0) || (zlen cs <=? j)) eqn:Ej; [done|]. apply orb_false_iff in Ei as [Ei _], Ej as [Ej _].
  apply Z.ltb_ge in Ei, Ej. by rewrite list_lookup_insert_ne by lia.
Qed.

Lemma get_set_element_eq vs i v w : MmsValue_getElement vs i = Some w ->
  MmsValue_getElement (MmsValue_setElement vs i (Some v)) i = Some v.
Proof.
  destruct vs as [d u|d a cs]; [done|]. cbn [MmsValue_getElement MmsValue_setElement].
  destruct ((i <? 0) || (zlen cs <=? i)) eqn:Ei; [done|]. intros _. cbn [MmsValue_getElement].
  replace (zlen (<[Z.to_nat i := Some v]> cs)) with (zlen cs) by (unfold zlen; by rewrite length_insert).
  rewrite Ei. apply orb_false_iff in Ei as [E1 E2]. apply Z.ltb_ge in E1. apply Z.leb_gt in E2.
  rewrite list_lookup_insert_eq; [done|]. unfold zlen in E2. lia.
Qed.

(** An attribute of the block, if it is there. *)
Definition attribute (rc : ReportControl) (i : Z) : option MmsValue :=
  vs ← rc_rcbValues rc; MmsValue_getElement vs i.

Lemma rcb_element_attribute rc i v : rcb_element rc i = Done v -> attribute rc i = v.
Proof. unfold rcb_element, attribute. by destruct (rc_rcbValues rc); intros [= <-]. Qed.

Lemma getRCBValue_attribute rc name i v : ReportControl_getRCBValue rc name = Done v ->
  rcb_index rc name = Some i -> attribute rc i = v.
Proof. unfold ReportControl_getRCBValue. intros E Ei. rewrite Ei in E. by apply rcb_element_attribute. Qed.

Lemma attribute_set_other rc i v j : i <> j -> attribute (rcb_set_element i v rc) j = attribute rc j.
Proof.
  intros H. unfold attribute, rcb_set_element. destruct (rc_rcbValues rc) as [vs|] eqn:E; [|by rewrite E].
  cbn. by apply get_set_element.
Qed.

Lemma attribute_set_eq rc i v w : attribute rc i = Some w -> attribute (rcb_set_element i v rc) i = Some v.
Proof.
  unfold attribute, rcb_set_element. destruct (rc_rcbValues rc) as [vs|] eqn:E; [|by rewrite E].
  cbn. apply get_set_element_eq.
Qed.

Lemma rcb_set_neutral name v rc : name <> lit "RptEna" ->
  attribute (rcb_set name v rc) 1 = attribute rc 1.
Proof.
  intros Hn. unfold rcb_set. destruct (rcb_index rc name) as [i|] eqn:Ei; [|done].
  apply attribute_set_other. by eapply rcb_index_other.
Qed.

(** ** The invariant *)

(** Attributes do not matter to the other members. *)
Definition rc_rest (rc : ReportControl) :=
  (rc_buffered rc, rc_reportBuffer rc, rc_inclusionField rc, rc_enabled rc, rc_reserved rc,
   rc_clientConnection rc, rc_isBuffering rc, rc_timeOfEntry rc, rc_confRev rc).

Lemma rc_rest_set_element i v rc : rc_rest (rcb_set_element i v rc) = rc_rest rc.
Proof. unfold rcb_set_element. by destruct (rc_rcbValues rc). Qed.

Lemma rc_rest_set name v rc : rc_rest (rcb_set name v rc) = rc_rest rc.
Proof. unfold rcb_set. destruct (rcb_index rc name); [apply rc_rest_set_element|done]. Qed.

Definition own_time (t : TimeOfEntry) : Prop := match t with ElementTime i => i <> 1 | _ => True end.

Definition bits_of (v : MmsValue) (n : Z) : Prop := exists d buf, v = Simple d (V_BIT_STRING n buf).

(** What holds of a block but for the attribute [RptEna]; [h] is the size of the
    structure in front of an entry. *)
Record rc_base (h : Z) (rc : ReportControl) : Prop := mk_rc_base {
  ri_buffer : rc_buffered rc = true -> exists b l k, rc_reportBuffer rc = Some b /\
    rb_memoryBlockSize b = CONFIG_REPORTING_DEFAULT_REPORT_BUFFER_SIZE /\ buffer_inv h b l k;
  ri_field : forall v, rc_inclusionField rc = Some v -> exists n, 0 <= n /\ bits_of v n;
  ri_client : rc_enabled rc = true -> is_Some (rc_clientConnection rc);
  ri_buffering : rc_isBuffering rc = true -> rc_buffered rc = true;
  ri_reserved : rc_reserved rc = true -> rc_buffered rc = false;
  ri_time : own_time (rc_timeOfEntry rc);
  ri_confRev : rc_confRev rc <> Some 1 }.

(** The attribute [RptEna] has the value [b]. *)
Definition shows (b : bool) (rc : ReportControl) : Prop :=
  forall v, attribute rc 1 = Some v -> exists d, v = Simple d (V_BOOLEAN b).

Definition rc_inv (h : Z) (rc : ReportControl) : Prop := rc_base h rc /\ shows (rc_enabled rc) rc.

Lemma rc_base_rest h rc rc' : rc_rest rc' = rc_rest rc -> rc_base h rc -> rc_base h rc'.
Proof. unfold rc_rest. intros [= E1 E2 E3 E4 E5 E6 E7 E8 E9] []. constructor; by rewrite ?E1, ?E2, ?E3, ?E4, ?E5, ?E6, ?E7, ?E8, ?E9. Qed.

(** Predicates that only depend on the rest of the block and that attribute, and changes
    that they do not notice. *)
Class Stable (P : ReportControl -> Prop) : Prop :=
  stable : forall rc rc', rc_rest rc' = rc_rest rc -> attribute rc' 1 = attribute rc 1 -> P rc -> P rc'.

Definition neutral (f : ReportControl -> ReportControl) : Prop :=
  forall rc, rc_rest (f rc) = rc_rest rc /\ attribute (f rc) 1 = attribute rc 1.

#[export] Instance stable_inv h : Stable (rc_inv h).
Proof.
  intros rc rc' Hr Ha [Hb Hs]. split; [by eapply rc_base_rest|].
  unfold shows in *. rewrite Ha. by injection Hr as _ _ _ -> _ _ _ _ _.
Qed.

#[export] Instance stable_base h : Stable (rc_base h).
Proof. intros rc rc' Hr _. by apply rc_base_rest. Qed.

#[export] Instance stable_shows b : Stable (shows b).
Proof. intros rc rc' _ Ha. unfold shows. by rewrite Ha. Qed.

#[export] Instance stable_buffer r : Stable (fun rc => rc_reportBuffer rc = r).
Proof. intros rc rc' [= _ -> _ _ _ _ _ _ _]. done. Qed.

#[export] Instance stable_has_client : Stable (fun rc => is_Some (rc_clientConnection rc)).
Proof. intros rc rc' [= _ _ _ _ _ -> _ _ _]. done. Qed.

#[export] Instance stable_disabled h : Stable (fun rc => rc_base h (rc_set_enabled false rc)).
Proof.
  intros rc rc' [= E1 E2 E3 E4 E5 E6 E7 E8 E9] _. apply rc_base_rest. unfold rc_rest. cbn. congruence.
Qed.

#[export] Instance stable_index name : Stable (fun rc => is_Some (rcb_index rc name)).
Proof. intros rc rc' [= E _ _ _ _ _ _ _ _] _. unfold rcb_index. by rewrite E. Qed.

#[export] Instance stable_free : Stable (fun rc => rc_enabled rc = false /\ rc_reserved rc = false).
Proof. intros rc rc' [= _ _ _ -> -> _ _ _ _]. done. Qed.

#[export] Instance stable_client b c : Stable (fun rc => rc_enabled rc = b /\ rc_clientConnection rc = c).
Proof. intros rc rc' [= _ _ _ -> _ -> _ _ _]. done. Qed.

#[export] Instance stable_and P Q : Stable P -> Stable Q -> Stable (fun rc => P rc /\ Q rc).
Proof. intros HP HQ rc rc' Hr Ha [H1 H2]. split; [by eapply HP|by eapply HQ]. Qed.

Lemma neutral_set name v : name <> lit "RptEna" -> neutral (rcb_set name v).
Proof. intros Hn rc. split; [apply rc_rest_set|by apply rcb_set_neutral]. Qed.

Lemma neutral_set_element i v : i <> 1 -> neutral (rcb_set_element i v).
Proof. intros Hi rc. split; [apply rc_rest_set_element|by apply attribute_set_other]. Qed.

(** Steps that keep a predicate because they change nothing it mentions. *)
Section Keeps.
Context (P : ReportControl -> Prop) {HP : Stable P}.

Lemma k_rc_neutral f : neutral f -> keeps P (cmodify f : R unit).
Proof using HP. intros Hf. apply k_modify. intros s. by apply HP; apply Hf. Qed.

Lemma k_self : keeps P self.
Proof using. apply k_get. Qed.

Lemma k_getRCBValue name : keeps P (getRCBValue name).
Proof using. unfold getRCBValue. keeps_run. Qed.

Lemma k_attribute name v : name <> lit "RptEna" -> keeps P (cmodify (rcb_set name v) : R unit).
Proof using HP. intros Hn. by apply k_rc_neutral, neutral_set. Qed.

Lemma k_element i v : i <> 1 -> keeps P (cmodify (rcb_set_element i v) : R unit).
Proof using HP. intros Hn. by apply k_rc_neutral, neutral_set_element. Qed.
End Keeps.

#[export] Hint Resolve k_self k_getRCBValue : keeps.
#[export] Hint Extern 1 (Stable _) => apply _ : keeps.
#[export] Hint Extern 2 (keeps _ (cmodify (rcb_set _ _))) => apply k_attribute; [apply _|discriminate] : keeps.
#[export] Hint Extern 2 (keeps _ (cmodify (rcb_set_element _ _))) => apply k_element; [apply _|discriminate] : keeps.
#[export] Hint Extern 3 (keeps _ (cmodify _)) => apply k_rc_neutral; [apply _|intros ?; split; reflexivity] : keeps.

Section Steps.
Context (P : ReportControl -> Prop) {HP : Stable P}.

Lemma k_clearInclusionFlags : keeps P clearInclusionFlags.
Proof using HP. unfold clearInclusionFlags. keeps_run. Qed.

Lemma k_increaseSqNum : keeps P increaseSqNum.
Proof using HP. unfold increaseSqNum. keeps_run. Qed.

Lemma k_sendInformationReport es : keeps P (MmsServerConnection_sendInformationReport es).
Proof using HP. unfold MmsServerConnection_sendInformationReport. keeps_run. Qed.

Lemma k_refreshTriggerOptions : keeps P refreshTriggerOptions.
Proof using HP. unfold refreshTriggerOptions. keeps_run. Qed.

Lemma k_refreshIntegrityPeriod : keeps P refreshIntegrityPeriod.
Proof using HP. unfold refreshIntegrityPeriod. keeps_run. Qed.

Lemma k_refreshBufferTime : keeps P refreshBufferTime.
Proof using HP. unfold refreshBufferTime. keeps_run. Qed.

Lemma k_set_EntryID entryId : keeps P (set_EntryID entryId).
Proof using HP. unfold set_EntryID. keeps_run. Qed.
End Steps.
#[export] Hint Resolve k_clearInclusionFlags k_increaseSqNum k_sendInformationReport k_refreshTriggerOptions
  k_refreshIntegrityPeriod k_refreshBufferTime k_set_EntryID : keeps.

(** ** Members that operations do set *)

Section Members.
Context (h : Z).

Lemma inv_set_time v rc : rc_inv h rc -> rc_inv h (set_time_of_entry v rc).
Proof.
  intros Hi. pose proof Hi as [[] Hs]. unfold set_time_of_entry. destruct (rc_timeOfEntry rc) eqn:Et; [done| |].
  - by split; [constructor|].
  - apply (stable rc); [by apply neutral_set_element..|done].
Qed.

Lemma inv_set_buffer b rc : rc_inv h rc -> rb_memoryBlockSize b = CONFIG_REPORTING_DEFAULT_REPORT_BUFFER_SIZE ->
  (exists l k, buffer_inv h b l k) -> rc_inv h (rc_set_reportBuffer (Some b) rc).
Proof.
  intros [[] Hs] Hz (l & k & Hb). split; [|done]. constructor; try done. cbn. intros _. by exists b, l, k.
Qed.

Lemma inv_set_field v n rc : 0 <= n -> bits_of v n -> rc_inv h rc -> rc_inv h (rc_set_inclusionField (Some v) rc).
Proof. intros Hn Hv [[] Hs]. split; [|done]. constructor; try done. cbn. intros w [= <-]. by exists n. Qed.

Lemma buffer_of rc b : rc_inv h rc -> rc_buffered rc = true -> rc_reportBuffer rc = Some b ->
  rb_memoryBlockSize b = CONFIG_REPORTING_DEFAULT_REPORT_BUFFER_SIZE /\ exists l k, buffer_inv h b l k.
Proof. intros [[Hb] _] Hbu E. destruct (Hb Hbu) as (b' & l & k & E' & ? & ?). rewrite E in E'. injection E' as <-. eauto. Qed.
End Members.

(** *** The buffer *)

Lemma purge_inv h b : rb_memoryBlockSize b = CONFIG_REPORTING_DEFAULT_REPORT_BUFFER_SIZE -> buffer_inv h (purge b) [] 0.
Proof. intros E. constructor; try done. left. simpl. by rewrite E. Qed.

Lemma k_updateTimeOfEntry h t : keeps (rc_inv h) (updateTimeOfEntry t).
Proof. unfold updateTimeOfEntry. keeps_run. intros s. apply inv_set_time. Qed.

Lemma k_purgeBuf h : keeps (fun rc => rc_inv h rc /\ rc_buffered rc = true) purgeBuf.
Proof.
  unfold purgeBuf, self. intros s es a s' es' [Hi Hb] Hr. run_inv.
  destruct (rc_reportBuffer s) as [b|] eqn:Eb; [|done].
  destruct (buffer_of _ _ _ Hi Hb Eb) as [Hz _]. match goal with H : defined _ = Done _ |- _ => injection H as <- end.
  split; [|done]. apply inv_set_buffer; [done|done|]. eexists _, _. by apply purge_inv.
Qed.

Lemma k_increaseConfRev h : keeps (rc_inv h) increaseConfRev.
Proof.
  unfold increaseConfRev, self. intros s es a s' es' Hi Hr. run_inv. apply (stable s); [| |done].
  - apply neutral_set_element. pose proof Hi as [[] _]. destruct (rc_confRev s) as [i|]; [|done]. cbn in *. congruence.
  - apply neutral_set_element. pose proof Hi as [[] _]. destruct (rc_confRev s) as [i|]; [|done]. cbn in *. congruence.
Qed.

(** The first report that waits has been sent. *)
Lemma advance_inv h b l k p e next : buffer_inv h b l k -> rb_nextToTransmit b = Some p ->
  rb_memoryBlock b !! p = Some (e, next) -> buffer_inv h (set_nextToTransmit next b) l (S k) /\ l !! k = Some (p, e).
Proof.
  intros [Hl Hg HL Hc Hk Hn] Hp He. rewrite Hp in Hn.
  destruct (drop k l) as [|[q f] r] eqn:Ed; [done|]. injection Hn as <-.
  assert (l !! k = Some (p, f)) as Hlk by (rewrite <- (Nat.add_0_r k), <- lookup_drop, Ed; done).
  pose proof Hl as Hl'. rewrite <- (take_drop k l), Ed in Hl'. apply linked_app in Hl' as (q & _ & -> & n & Hm & Hr).
  rewrite He in Hm. injection Hm as <- <-. split; [|done]. constructor; try done; cbn.
  - apply lookup_lt_Some in Hlk. lia.
  - replace (S k) with (k + 1)%nat by lia. rewrite <- drop_drop, Ed. cbn. by rewrite (linked_first _ _ _ Hr).
Qed.

(** ** The sizes of values in an entry *)

Lemma rd_list_nonneg b n bs : rd_list (mk_ptr b 0) 0 n = Done bs -> 0 <= n.
Proof. unfold rd_list. destruct (Z.eqb_spec n 0); [lia|]. destruct (Z.ltb_spec n 0); [done|lia]. Qed.

Section Sizes.
Context (sizes : Sizes).
Context (Hmms : 0 <= sizeof_MmsValue sizes) (Hptr : 0 <= sizeof_pointer sizes) (Hasn : 0 <= sizeof_Asn1PrimitiveValue sizes).
Context (Hh : 0 < sizeof_ReportBufferEntry sizes).

(** The copy has the size that was asked for, and lies in that many bytes. *)
Lemma u_clone_size v a b v' :
  u_cloneToBuffer (sizeof_Asn1PrimitiveValue sizes) v a = Done (b, v') ->
  exists n, u_size (sizeof_Asn1PrimitiveValue sizes) v = Done n /\ 0 <= n /\ b = a + n /\
    u_size (sizeof_Asn1PrimitiveValue sizes) v' = Done n.
Proof using Hasn.
  destruct v as [?|size buf|i|i|e w buf|n m buf|s|s|n buf|t|?| | |]; cbn [u_cloneToBuffer u_size]; intros H.
  all: try (injection H as <- <-; exists 0; split_and!; [done|lia|lia|done]).
  all: lazymatch type of H with
    | context [rd_list ?p ?x ?n] =>
        destruct (rd_list p x n) as [bs| | |] eqn:E; try discriminate; apply rd_list_nonneg in E
    | _ => destruct s as [s|]; [|discriminate]; cbn [defined rbind] in H |- *;
           destruct (c_string s) as [cs| | |] eqn:E; try discriminate
    end; cbn [rbind] in H; injection H as <- <-; cbn [u_size rbind defined a_maxSize].
  all: try (eexists; split_and!; [done|lia|lia|done]).
  all: unfold copyString; rewrite c_string_app by (by eapply c_string_nonzero); cbn [rbind]; eexists; split_and!; [done|unfold zlen; lia|lia|done].
Qed.

Lemma place_components_size cs a b cs' :
  Forall (fun c => forall v, c = Some v -> forall a b v', cloneToBuffer sizes v a = Done (b, v') ->
    exists n, getSizeInMemory sizes v = Done n /\ 0 <= n /\ b = a + n /\ getSizeInMemory sizes v' = Done n) cs ->
  place_components (cloneToBuffer sizes) cs a = Done (b, cs') ->
  zlen cs' = zlen cs /\
  exists n, sum_components (getSizeInMemory sizes) cs = Done n /\ 0 <= n /\ b = a + n /\
    sum_components (getSizeInMemory sizes) cs' = Done n.
Proof using.
  intros HF. revert a b cs'. induction HF as [|c cs Hc _ IH]; intros a b cs' H.
  - injection H as <- <-. split; [done|]. exists 0. split_and!; [done|lia|lia|done].
  - destruct c as [v|]; [|done]. cbn [place_components] in H.
    destruct (cloneToBuffer sizes v a) as [[a1 v1]| | |] eqn:E1; try discriminate. cbn [rbind] in H.
    destruct (Hc v eq_refl _ _ _ E1) as (n1 & S1 & N1 & -> & S1').
    destruct (place_components (cloneToBuffer sizes) cs (a + n1)) as [[a2 cs2]| | |] eqn:E2; try discriminate.
    injection H as <- <-. destruct (IH _ _ _ E2) as (Hl & n2 & S2 & N2 & -> & S2'). split; [by rewrite !zlen_cons, Hl|].
    exists (n1 + n2). cbn [sum_components]. rewrite S1, S2, S1', S2'. cbn [rbind]. split_and!; [done|lia|lia|done].
Qed.

Lemma clone_size v : forall a b v', cloneToBuffer sizes v a = Done (b, v') ->
  exists n, getSizeInMemory sizes v = Done n /\ 0 <= n /\ b = a + n /\ getSizeInMemory sizes v' = Done n.
Proof using Hmms Hptr Hasn.
  induction v as [d u|d x cs IH] using MmsValue_induction; intros a b v'; unfold cloneToBuffer, getSizeInMemory;
    cbn [MmsValue_cloneToBuffer MmsValue_getSizeInMemory]; intros H.
  - destruct (u_cloneToBuffer (sizeof_Asn1PrimitiveValue sizes) u (a + sizeof_MmsValue sizes)) as [[b1 u1]| | |] eqn:E; try discriminate.
    injection H as <- <-. destruct (u_clone_size _ _ _ _ E) as (n & S1 & Hn & -> & S2).
    exists (sizeof_MmsValue sizes + n). cbn [MmsValue_getSizeInMemory]. rewrite S1, S2. cbn [rbind]. split_and!; [done|lia|lia|done].
  - match type of H with context [place_components ?f cs ?k] => destruct (place_components f cs k) as [[b1 cs1]| | |] eqn:E; try discriminate end.
    injection H as <- <-. destruct (place_components_size _ _ _ _ IH E) as (Hl & n & S1 & Hn & -> & S2).
    unfold getSizeInMemory in S1, S2. pose proof (zlen_nonneg cs).
    exists (sizeof_MmsValue sizes + sizeof_pointer sizes * zlen cs + n). cbn [MmsValue_getSizeInMemory]. rewrite S1, S2, Hl. cbn [rbind].
    split_and!; [done|lia|lia|done].
Qed.

(** The items of an entry lie behind each other, from [pos] to [behind]. *)
Fixpoint laid (pos : Z) (items : list ReportItem) (behind : Z) : Prop :=
  match items with
  | [] => pos = behind
  | it :: items => it_offset it = pos /\
      exists n, getSizeInMemory sizes (it_value it) = Done n /\ 0 <= n /\ laid (pos + 1 + n) items behind
  end.

Lemma laid_le pos items behind : laid pos items behind -> pos <= behind.
Proof using.
  revert pos. induction items as [|it items IH]; intros pos; simpl; [lia|].
  intros (_ & n & _ & Hn & H). apply IH in H. lia.
Qed.

Lemma complete_items_laid env n i es flags pos items :
  complete_items sizes env n i es flags pos = Done items ->
  exists behind, laid pos items behind /\ complete_size sizes env n es = Done (behind - pos).
Proof using Hmms Hptr Hasn.
  revert i es pos items. induction n as [|n IH]; intros i es pos items; cbn [complete_items complete_size].
  - intros [= <-]. exists pos. split; [done|]. f_equal. lia.
  - destruct es as [|e es]; [done|]. intros H.
    destruct (at_index flags i) as [f| | |]; try discriminate. cbn [rbind] in H.
    destruct (entry_value env Ub e) as [v| | |]; try discriminate. cbn [rbind] in H |- *.
    destruct (cloneToBuffer sizes v (pos + 1)) as [[b v']| | |] eqn:E; try discriminate. cbn [rbind] in H.
    destruct (clone_size _ _ _ _ E) as (k & -> & Hk & -> & Hs). cbn [rbind].
    destruct (complete_items sizes env n (S i) es flags (pos + 1 + k)) as [items'| | |] eqn:Ei; try discriminate.
    injection H as <-. destruct (IH _ _ _ _ Ei) as (behind & Hl & ->). exists behind. cbn.
    split; [split; [done|]; by exists k|]. f_equal. lia.
Qed.

Lemma changed_items_laid n i flags values pos field items field' :
  changed_items sizes n i flags values pos field = Done (items, field') ->
  exists behind, laid pos items behind /\ changed_size sizes n i flags values = Done (behind - pos).
Proof using Hmms Hptr Hasn.
  revert i pos field items. induction n as [|n IH]; intros i pos field items; cbn [changed_items changed_size].
  - intros [= <- <-]. exists pos. split; [done|]. f_equal. lia.
  - destruct (at_index flags i) as [f| | |]; try discriminate. cbn [rbind].
    destruct (f =? REPORT_CONTROL_NONE); [apply IH|].
    destruct (at_index values i) as [[v|]| | |]; try discriminate. cbn [rbind].
    destruct (cloneToBuffer sizes v (pos + 1)) as [[b v']| | |] eqn:E; try discriminate. cbn [rbind].
    destruct (clone_size _ _ _ _ E) as (k & -> & Hk & -> & Hs). cbn [rbind].
    destruct (MmsValue_setBitStringBit field (Z.of_nat i) true) as [field1| | |]; try discriminate. cbn [rbind].
    destruct (changed_items sizes n (S i) flags values (pos + 1 + k) field1) as [[items' field2]| | |] eqn:Ei; try discriminate.
    intros [= <- <-]. destruct (IH _ _ _ _ Ei) as (behind & Hl & ->). exists behind. cbn.
    split; [split; [done|]; by exists k|]. f_equal. lia.
Qed.

(** An entry fills the bytes that were computed for it. *)
Lemma report_entry_size env rc isIntegrity isGI id n p e :
  (forall v, rc_inclusionField rc = Some v -> exists n, 0 <= n /\ bits_of v n) ->
  report_size sizes env rc isIntegrity isGI = Done n ->
  report_entry sizes env rc isIntegrity isGI id n p = Done e ->
  re_entryLength e = n /\ sizeof_ReportBufferEntry sizes <= n.
Proof using Hmms Hptr Hasn.
  intros Hf. unfold report_size, report_entry. destruct (rc_inclusionField rc) as [v|]; [|done]. cbn [defined rbind].
  destruct (Hf v eq_refl) as (m & Hm & d & buf & ->). cbn [MmsValue_getBitStringByteSize MmsValue_getBitStringSize as_bit_string rbind].
  pose proof (zlen_quot8 m Hm) as Hq. destruct (isIntegrity || isGI).
  - destruct (deref (rc_dataSet rc)) as [ds| | |]; try discriminate. cbn [rbind].
    destruct (complete_items _ _ _ _ _ _ _) as [items| | |] eqn:Ei; [|by destruct (complete_size _ _ _ _)..].
    destruct (complete_items_laid _ _ _ _ _ _ _ Ei) as (behind & Hl & ->). apply laid_le in Hl. cbn [rbind].
    intros [= <-] [= <-]. split; [done|]. lia.
  - destruct (changed_items _ _ _ _ _ _ _) as [[items field]| | |] eqn:Ei; [|by destruct (changed_size _ _ _ _ _)..].
    destruct (changed_items_laid _ _ _ _ _ _ _ _ Ei) as (behind & Hl & ->). apply laid_le in Hl. cbn [rbind].
    destruct (as_bit_string field) as [[[? ?] inclusion]| | |]; try discriminate. cbn [rbind].
    intros [= <-] [= <-]. split; [done|]. lia.
Qed.
End Sizes.

(** ** Reports *)

Lemma remove_while_size fuel cond b b' : remove_while fuel cond b = Done b' -> rb_memoryBlockSize b' = rb_memoryBlockSize b.
Proof.
  revert b. induction fuel as [|fuel IH]; intros b; cbn [remove_while];
    destruct (rb_oldestReport b) as [o|] eqn:Eo; try (by intros [= <-]); destruct (cond o); try done; try (by intros [= <-]).
  unfold remove_oldest. rewrite Eo. cbn [defined rbind].
  destruct (read_entry (rb_memoryBlock b) o) as [[e n]| | |]; try done. cbn [rbind]. intros H. by apply IH in H.
Qed.

Lemma find_place_size h b n p b' : find_place h b n = Done (p, b') -> rb_memoryBlockSize b' = rb_memoryBlockSize b.
Proof.
  unfold find_place. destruct (rb_lastEnqueuedReport b) as [last|]; [|by intros [= _ <-]].
  destruct (rb_oldestReport b) as [o|]; [|done]. destruct (read_entry _ last) as [[e nx]| | |]; try done. cbn [rbind].
  destruct (last =? o); [|destruct (o <? last)].
  - destruct (negb _); [done|]. destruct (_ <? _); by intros [= _ <-].
  - destruct (_ <? _); [|by intros [= _ <-]]. destruct (remove_while _ _ b) as [b1| | |] eqn:E1; try done. cbn [rbind].
    apply remove_while_size in E1. destruct (rb_oldestReport b1); by intros [= _ <-].
  - destruct (_ <? _).
    + destruct (remove_while _ _ b) as [b1| | |] eqn:E1; try done. cbn [rbind].
      destruct (remove_while _ _ b1) as [b2| | |] eqn:E2; try done. cbn [rbind].
      apply remove_while_size in E1, E2. intros [= _ <-]. cbn. congruence.
    + destruct (remove_while _ _ b) as [b1| | |] eqn:E1; try done. cbn [rbind].
      apply remove_while_size in E1. by intros [= _ <-].
Qed.

(** The inclusion field keeps its size. *)
Lemma bits_set v n i b v' : bits_of v n -> MmsValue_setBitStringBit v i b = Done v' -> bits_of v' n.
Proof.
  intros (d & buf & ->). unfold MmsValue_setBitStringBit. cbn [as_bit_string rbind]. intros H.
  destruct (i <? n); [|by injection H as <-; eexists _, _]. cbv zeta in H.
  destruct (ld buf _) as [x| | |]; try discriminate. cbn [rbind] in H.
  destruct (st buf _ _) as [y| | |]; try discriminate. injection H as <-. by eexists _, _.
Qed.

Lemma bits_delete v n v' : bits_of v n -> MmsValue_deleteAllBitStringBits v = Done v' -> bits_of v' n.
Proof.
  intros (d & buf & ->). unfold MmsValue_deleteAllBitStringBits. cbn [as_bit_string rbind]. intros H.
  destruct (fill_loop _ _ _ _) as [x| | |]; try discriminate. injection H as <-. by eexists _, _.
Qed.

Lemma bits_set_all v n v' : bits_of v n -> MmsValue_setAllBitStringBits v = Done v' -> bits_of v' n.
Proof.
  intros (d & buf & ->). unfold MmsValue_setAllBitStringBits. cbn [as_bit_string rbind]. cbv zeta. intros H.
  destruct (fill_loop _ _ _ _) as [x| | |]; try discriminate. cbn [rbind] in H.
  destruct (ld x _) as [y| | |]; try discriminate. cbn [rbind] in H.
  destruct (st x _ _) as [z| | |]; try discriminate. injection H as <-. by eexists _, _.
Qed.

Lemma bits_changed env n i es flags values field m vs field' :
  bits_of field m -> changed_values env n i es flags values field = Done (vs, field') -> bits_of field' m.
Proof.
  revert i es field vs. induction n as [|n IH]; intros i es field vs Hb; cbn [changed_values].
  - by intros [= _ <-].
  - destruct es as [|e es]; [done|]. destruct (entry_value _ _ e) as [?| | |]; try discriminate. cbn [rbind].
    destruct (at_index flags i) as [f| | |]; try discriminate. cbn [rbind].
    destruct (f =? REPORT_CONTROL_NONE); [by apply IH|].
    destruct (at_index values i) as [[v|]| | |]; try discriminate. cbn [rbind].
    destruct (MmsValue_setBitStringBit _ _ _) as [field1| | |] eqn:E; try discriminate. cbn [rbind].
    destruct (changed_values _ n _ _ _ _ _) as [[vs1 field2]| | |] eqn:E2; try discriminate.
    intros [= _ <-]. eapply IH; [|exact E2]. by eapply bits_set.
Qed.

Section Reports.
Context (sizes : Sizes) (malloc : Z -> list Z) (env : ReportEnv).

Lemma k_sendReport h isIntegrity isGI : keeps (rc_inv h) (sendReport env isIntegrity isGI).
Proof.
  unfold sendReport. do 3 (apply t_seq; [keeps_run|intros ?]). apply t_seq; [keeps_run|intros optFlds].
  do 2 (apply t_seq; [keeps_run|intros ?]). apply t_bind_get. intros rc Hi.
  apply t_weaken with (rc_inv h); [|by intros s ->]. pose proof Hi as [[_ Hf _ _ _ _ _] _].
  do 4 (apply t_seq; [keeps_run|intros ?]). apply t_bind_lift. intros field H1.
  apply t_bind_lift. intros dataSet _. apply t_bind_lift. intros [vs field'] H2.
  apply t_seq; [|intros ?; keeps_run]. apply k_modify. intros s Hs.
  destruct (rc_inclusionField rc) as [v|]; [|done]. destruct (Hf v eq_refl) as (n & Hn & Hb). cbn [defined rbind] in H1.
  apply inv_set_field with n; [done| |done]. destruct (isGI || isIntegrity).
  - destruct (complete_values _ _ _) as [?| | |]; try discriminate. injection H2 as _ <-. by eapply bits_set_all.
  - eapply bits_changed; [|exact H2]. by eapply bits_delete.
Qed.

Context (Hmms : 0 <= sizeof_MmsValue sizes) (Hptr : 0 <= sizeof_pointer sizes) (Hasn : 0 <= sizeof_Asn1PrimitiveValue sizes).
Context (Hh : 0 < sizeof_ReportBufferEntry sizes).
Abbreviation h := (sizeof_ReportBufferEntry sizes).

(** The entry is written to the place that was found. *)
Lemma put_inv b l k n p b' e : buffer_inv h b l k -> h <= n <= rb_memoryBlockSize b ->
  find_place h b n = Done (p, b') -> re_entryLength e = n ->
  exists removed rest, l = removed ++ rest /\ buffer_inv h (put_entry p e b') (rest ++ [(p, e)]) (k - length removed).
Proof using Hh.
  intros Hb Hn Ef He. destruct (find_place_spec h Hh b l k n Hb Hn) as (p1 & b1 & removed & rest & E1 & -> & H).
  rewrite Ef in E1. injection E1 as <- <-. exists removed, rest. split; [done|]. by apply H.
Qed.

Lemma k_enqueueReport isIntegrity isGI :
  triple (fun rc => rc_inv h rc /\ rc_buffered rc = true) (enqueueReport sizes env isIntegrity isGI) (fun _ => rc_inv h).
Proof using Hmms Hptr Hasn Hh.
  unfold enqueueReport. apply t_bind_get. intros rc [Hi Hbuf]. apply t_weaken with (rc_inv h); [|by intros s ->].
  apply t_bind_lift. intros b Eb. apply t_bind_lift. intros n En. apply t_if; intros Hsz; [by apply t_ret|].
  apply t_bind_lift. intros [p b'] Ep. cbv zeta. apply t_seq; [keeps_run|intros ?].
  apply t_bind_lift. intros e Ee. apply t_seq; [keeps_run|intros ?]. apply t_seq; [|intros ?; keeps_run].
  apply k_modify. intros s Hs. destruct (rc_reportBuffer rc) as [b0|] eqn:Eb0; [|done]. injection Eb as ->.
  destruct (buffer_of h rc b Hi Hbuf Eb0) as [Hz (l & k & Hl)]. pose proof Hi as [[_ Hf _ _ _ _ _] _].
  destruct (report_entry_size sizes Hmms Hptr Hasn _ _ _ _ _ _ _ _ Hf En Ee) as [He Hn]. apply Z.ltb_ge in Hsz.
  apply inv_set_buffer; [done|cbn; by rewrite (find_place_size _ _ _ _ _ Ep)|].
  destruct (put_inv b l k n p b' e) as (removed & rest & _ & H); try done. by eexists _, _.
Qed.

Lemma k_sendNextReportEntry :
  triple (fun rc => rc_inv h rc /\ rc_buffered rc = true) (sendNextReportEntry sizes malloc) (fun _ => rc_inv h).
Proof using.
  unfold sendNextReportEntry. apply t_bind_get. intros rc [Hi Hbuf]. apply t_bind_lift. intros b Eb.
  destruct (rb_nextToTransmit b) as [p|] eqn:Ep; [|by apply t_ret; intros s ->].
  destruct (rc_reportBuffer rc) as [b0|] eqn:Eb0; [|done]. injection Eb as ->.
  destruct (buffer_of h rc b Hi Hbuf Eb0) as [Hz (l & k & Hl)].
  apply t_weaken with (fun s => rc_inv h s /\ rc_reportBuffer s = Some b); [|by intros s ->].
  apply t_bind_lift. intros [e next] Ee.
  eapply t_strengthen with (Q' := fun _ s => rc_inv h s); [|done].
  assert (forall c : R unit, keeps (fun s => rc_inv h s /\ rc_reportBuffer s = Some b) c ->
    triple (fun s => rc_inv h s /\ rc_reportBuffer s = Some b) c (fun _ => rc_inv h)) as Hkeep
    by (intros c Hc; eapply t_strengthen; [exact Hc|]; by intros ? ? []).
  apply t_seq; [keeps_run|intros ?]. apply t_bind_lift. intros [[[ml field] pos]|] _; [|apply Hkeep; keeps_run].
  do 3 (apply t_seq; [keeps_run|intros ?]). apply t_seq; [keeps_run|intros rc1]. apply t_bind_lift. intros [ml'|] _; [|apply Hkeep; keeps_run].
  apply t_bind_lift. intros es _. do 2 (apply t_seq; [keeps_run|intros ?]).
  unfold advance. apply t_bind_get. intros s1 [Hs1 Hb1]. apply t_bind_lift. intros b1 Eb1.
  apply t_bind_lift. intros [e1 next1] Ee1. case_bool_decide; [by intros ??????|].
  apply t_modify. intros s ->. rewrite Hb1 in Eb1. injection Eb1 as <-.
  apply inv_set_buffer; [done|done|]. exists l, (S k). eapply advance_inv; [done|done|].
  unfold read_entry in Ee1. destruct (rb_memoryBlock b !! p) as [[? ?]|]; [|done]. injection Ee1 as -> ->. done.
Qed.

Lemma t_of_buffered (c : R unit) (b : bool) s : rc_inv h s -> rc_buffered s = b ->
  (b = true -> triple (fun rc => rc_inv h rc /\ rc_buffered rc = true) c (fun _ => rc_inv h)) ->
  b = true -> triple (fun s' => s' = s) c (fun _ => rc_inv h).
Proof using. intros Hs E Hc Hb. eapply t_weaken; [by apply Hc|]. intros s' ->. split; [done|congruence]. Qed.

Lemma k_report isIntegrity isGI : keeps (rc_inv h) (report sizes env isIntegrity isGI).
Proof using Hmms Hptr Hasn Hh.
  unfold report. apply t_bind_get. intros s Hs. apply t_if; intros E.
  - eapply t_of_buffered; [done|done|intros _; apply k_enqueueReport|done].
  - eapply t_weaken; [apply k_sendReport|]. by intros s' ->.
Qed.
Hint Resolve k_report k_updateTimeOfEntry : keeps.

Lemma k_report_events : keeps (rc_inv h) (report_events sizes env).
Proof using Hmms Hptr Hasn Hh. unfold report_events. keeps_run. Qed.
Hint Resolve k_report_events : keeps.

Lemma k_process_gi t : keeps (rc_inv h) (process_gi sizes env t).
Proof using Hmms Hptr Hasn Hh. unfold process_gi. keeps_run. Qed.

Lemma k_process_integrity t : keeps (rc_inv h) (process_integrity sizes env t).
Proof using Hmms Hptr Hasn Hh. unfold process_integrity. keeps_run. Qed.

Lemma k_process_triggered t : keeps (rc_inv h) (process_triggered sizes env t).
Proof using Hmms Hptr Hasn Hh. unfold process_triggered. keeps_run. Qed.
Hint Resolve k_process_gi k_process_integrity k_process_triggered : keeps.

Lemma k_processEventsForReport t : keeps (rc_inv h) (processEventsForReport sizes malloc env t).
Proof using Hmms Hptr Hasn Hh.
  unfold processEventsForReport. apply t_seq; [keeps_run|intros rc]. apply t_if; intros _; [|by apply t_ret].
  do 3 (apply t_seq; [keeps_run|intros ?]). apply t_bind_get. intros s Hs. apply t_if; intros E; [|by apply t_ret; intros ? ->].
  apply andb_true_iff in E as [E _]. eapply t_of_buffered; [done|done|intros _; apply k_sendNextReportEntry|done].
Qed.
Hint Resolve k_processEventsForReport : keeps.

Lemma k_valueUpdated i flag : keeps (rc_inv h) (ReportControl_valueUpdated sizes malloc env i flag).
Proof using Hmms Hptr Hasn Hh. unfold ReportControl_valueUpdated. keeps_run. Qed.
Hint Resolve k_valueUpdated : keeps.

(** ** Access *)

(** Data sets have no negative number of entries. *)
Definition env_ok : Prop :=
  Forall (fun d => 0 <= ds_elementCount d) (n_dataSets env) /\
  (forall name d, n_domainDataSet env name = Done (Some d) -> 0 <= ds_elementCount d).

Lemma lookup_dataSet ds ld name d : IedModel_lookupDataSet ds ld name = Done (Some d) -> d ∈ ds.
Proof using.
  induction ds as [|x ds IH]; cbn [IedModel_lookupDataSet]; [done|].
  destruct (defined _) as [n| | |]; try discriminate. cbn [rbind]. destruct (_ && _); [|right; auto].
  intros [= ->]. by left.
Qed.

Lemma bits_new n : bits_of (MmsValue_newBitString n) n.
Proof using. by eexists _, _. Qed.

Lemma k_deleteShadow : keeps (rc_inv h) deleteDataSetValuesShadowBuffer.
Proof using.
  unfold deleteDataSetValuesShadowBuffer. apply t_bind_get. intros s Hs.
  apply t_weaken with (rc_inv h); [|by intros s' ->]. destruct (rc_bufferedDataSetValues s); [|by apply t_ret].
  destruct (rc_dataSet s); keeps_run.
Qed.
Hint Resolve k_deleteShadow : keeps.

Lemma k_updateReportDataset v : env_ok -> keeps (rc_inv h) (updateReportDataset env v).
Proof using.
  intros [Hd Hv]. unfold updateReportDataset. apply t_seq; [keeps_run|intros dataSetValue].
  apply t_bind_get. intros s Hs. apply t_weaken with (rc_inv h); [|by intros s' ->].
  apply t_seq; [destruct (rc_isDynamicDataSet s); [destruct (rc_dataSet s)|]; keeps_run|intros ?].
  apply t_bind_lift. intros name _. apply t_bind_lift. intros found Hf. cbv zeta.
  assert (forall d b, 0 <= ds_elementCount d -> keeps (rc_inv h) (
    do! _ := cmodify (rc_set_isDynamicDataSet b) in
    do! _ := deleteDataSetValuesShadowBuffer in
    do! _ := cmodify (rc_set_dataSet (DataSetAt d)) in
    do! _ := createDataSetValuesShadowBuffer d in
    do! _ := cmodify (rc_set_inclusionField (Some (MmsValue_newBitString (ds_elementCount d)))) in
    do! _ := cmodify (rc_set_inclusionFlags (Some (replicate (Z.to_nat (ds_elementCount d)) REPORT_CONTROL_NONE))) in
    cret true)) as Huse.
  { intros d b Hn. unfold createDataSetValuesShadowBuffer. do 4 (apply t_seq; [keeps_run|intros ?]).
    apply t_seq; [|intros ?; keeps_run]. apply k_modify. intros s'. apply inv_set_field with (ds_elementCount d); [done|apply bits_new]. }
  destruct found as [d|].
  - apply Huse. rewrite Forall_forall in Hd. unfold lookupDataSet in Hf.
    destruct (strchr SLASH name) as [[ld nm]|]; [|done]. by eapply Hd, lookup_dataSet.
  - apply t_bind_lift. intros [d|] Ed; [|keeps_run]. by apply Huse, (Hv name).
Qed.

(** [updateOwner] may take the client from the block, which must not be enabled then. *)
Lemma base_disabled s : rc_base h s -> rc_base h (rc_set_enabled false s).
Proof using. intros []. by constructor. Qed.

Lemma t_updateOwner_some c : triple (rc_inv h) (updateOwner env (Some c))
  (fun _ s => rc_inv h s /\ is_Some (rc_clientConnection s)).
Proof using.
  unfold updateOwner. apply t_bind with (fun _ s => rc_inv h s /\ is_Some (rc_clientConnection s)).
  - apply t_modify. intros s [[] Hs]. cbn. split; [|done]. split; [|done]. by constructor.
  - intros _. apply t_seq; [keeps_run|intros owner]. destruct owner as [owner|]; [|by apply t_ret]. keeps_run.
Qed.

Lemma t_updateOwner_none (P : ReportControl -> Prop) : Stable P ->
  (forall s, P s -> P (rc_set_clientConnection None s)) ->
  triple (fun s => rc_base h (rc_set_enabled false s) /\ P s) (updateOwner env None)
    (fun _ s => rc_base h (rc_set_enabled false s) /\ P s).
Proof using.
  intros HP Hc. unfold updateOwner.
  apply t_bind with (fun _ s => rc_base h (rc_set_enabled false s) /\ P s).
  - apply t_modify. intros s [[] ?]. split; [by constructor|auto].
  - intros _. apply t_seq; [keeps_run|intros owner]. destruct owner as [owner|]; [|by apply t_ret]. keeps_run.
Qed.
End Reports.
