(* ===== verification/ReportingInv.v ===== *)
(** Reporting: every state that a report control block can reach.  The writes of clients
    and the end of a connection keep the invariant; so it holds of every block that the
    server makes, and reports only go to the client that enabled the block. *)
From Stdlib Require Import String.
From stdpp Require Import base tactics numbers option list.
From S2P Require Import Prelude Memory BerEncode MmsValue Effects CString MmsTypeSpec Control ReportBuffer ReportControl Reporting ReportingAccess ReportingFacts.

(** ** The attribute RptEna *)

Lemma t_bind_attribute {A} P name (k : option MmsValue -> R A) Q :
  (forall s v, P s -> ReportControl_getRCBValue s name = Done v -> triple (fun s' => s' = s) (k v) Q) ->
  triple P (do! v := getRCBValue name in k v) Q.
Proof.
  intros H s es a s' es' HP Hr. unfold getRCBValue, self in Hr. run_inv. by eapply (H s _ HP ltac:(done) s es).
Qed.

Lemma shows_set b d w s : attribute s 1 = Some w -> shows b (rcb_set (lit "RptEna") (Simple d (V_BOOLEAN b)) s).
Proof.
  intros H v. unfold rcb_set. rewrite rcb_index_RptEna. rewrite (attribute_set_eq _ _ _ _ H). intros [= <-]. by exists d.
Qed.

Lemma getRCBValue_RptEna s v : ReportControl_getRCBValue s (lit "RptEna") = Done v -> attribute s 1 = v.
Proof. intros H. eapply getRCBValue_attribute; [exact H|apply rcb_index_RptEna]. Qed.

Lemma boolean_value v b : boolean_member v = Done b -> exists d, v = Simple d (V_BOOLEAN b).
Proof. destruct v as [d []|]; try discriminate. intros [= <-]. by exists d. Qed.

(** An attribute that shows a state is updated with another one. *)
Lemma t_update_RptEna h b x v value d : shows x v.1 -> attribute v.1 1 = Some v.2 -> value = Simple d (V_BOOLEAN b) ->
  triple (fun s => s = v.1) (update_attribute (lit "RptEna") v.2 value)
    (fun _ s => shows b s /\ (rc_base h v.1 -> rc_base h s) /\ rc_rest s = rc_rest v.1).
Proof.
  intros Hs Ha ->. destruct v as [s w]. cbn in *. destruct (Hs w Ha) as [d' ->].
  unfold update_attribute. change (MmsValue_update (Simple d' (V_BOOLEAN x)) (Simple d (V_BOOLEAN b)))
    with (Done (true, Simple d' (V_BOOLEAN b))). apply t_bind_lift. intros [? ?] [= <- <-]. apply t_modify. intros s' ->.
  pose proof (rc_rest_set (lit "RptEna") (Simple d' (V_BOOLEAN b)) s) as Hr. split_and!; [|by apply rc_base_rest|done].
  by eapply shows_set.
Qed.

Section Access.
Context (sizes : Sizes) (env : ReportEnv) (Henv : env_ok env).
Abbreviation h := (sizeof_ReportBufferEntry sizes).

Lemma t_enable value c : boolean_member value = Done true -> keeps (rc_inv h) (enable env value c).
Proof using Henv.
  intros [d ->]%boolean_value. unfold enable. apply t_seq; [by apply k_updateReportDataset|].
  intros [|]; [|by apply t_ret].
  eapply t_bind; [apply t_updateOwner_some|]. intros ?. apply t_bind_attribute. intros s v [[Hb Hs] Hc] Hv.
  apply getRCBValue_RptEna in Hv. apply t_bind_lift. intros w Hw. destruct v as [v|]; [|done]. injection Hw as ->.
  eapply t_bind; [by apply (t_update_RptEna h true (rc_enabled s) (s, w) _ d)|]. intros ?. cbn.
  eapply t_bind with (Q := fun _ => rc_inv h); [|intros ?; keeps_run].
  apply t_modify. intros s' (H1 & H2 & H3). specialize (H2 Hb). split; [|exact H1].
  destruct H2. constructor; try done. cbn. intros _. unfold rc_rest in H3. injection H3 as _ _ _ _ _ -> _ _ _. done.
Qed.

Lemma k_write_GI c : keeps (rc_inv h) (write_GI c).
Proof using. unfold write_GI. keeps_run. Qed.

(** Attributes but [RptEna]. *)
Section Others.
Context (name : list Z) (Hname : name <> lit "RptEna").
Abbreviation other := (fun s => rc_inv h s /\ is_Some (rcb_index s name)).

Lemma k_update_attribute v w : keeps (rc_inv h) (update_attribute name v w).
Proof using Hname. unfold update_attribute. apply t_bind_lift. intros [ok u] _. by apply k_attribute; [apply _|]. Qed.

Lemma t_write_Resv value c : name = lit "Resv" -> triple other (write_Resv value c) (fun _ => rc_inv h).
Proof using Hname.
  intros ->. unfold write_Resv. apply t_bind_lift. intros b _.
  eapply t_bind with (Q := fun _ => rc_inv h).
  - apply t_modify. intros s [[[] Hs] [i Hi]]. split; [|done]. constructor; try done. cbn. intros _.
    destruct (rc_buffered s) eqn:E; [|done]. unfold rcb_index in Hi. by rewrite E in Hi.
  - intros ?. apply t_seq; [|intros ?; by apply t_ret]. destruct b; [|by apply t_ret].
    apply k_modify. intros s [[] Hs]. split; [|done]. by constructor.
Qed.

Lemma k_purge_buffered : keeps (rc_inv h) purge_buffered.
Proof using.
  unfold purge_buffered. apply t_bind_get. intros s Hs. apply t_if; intros E; [|by apply t_ret; intros ? ->].
  intros s1 es a s' es' -> Hr. by destruct (k_purgeBuf h _ _ _ _ _ (conj Hs E) Hr).
Qed.

Lemma t_write_PurgeBuf value : name = lit "PurgeBuf" -> triple other (write_PurgeBuf value) (fun _ => rc_inv h).
Proof using Hname.
  intros ->. unfold write_PurgeBuf.
  assert (forall x, triple (fun s => rc_inv h s /\ is_Some (rcb_index s (lit "PurgeBuf")))
    (cret x : R (option Z)) (fun _ => rc_inv h)) as Hret by (intros x; apply t_ret; by intros s []).
  destruct (MmsValue_getType value); try apply Hret. apply t_bind_lift. intros [|] _; [|apply Hret].
  apply t_weaken with (fun s => rc_inv h s /\ rc_buffered s = true).
  - eapply t_bind; [apply k_purgeBuf|]. intros ?. apply t_ret. by intros s [].
  - intros s [Hs [i Hi]]. split; [done|]. unfold rcb_index in Hi. by destruct (rc_buffered s).
Qed.

Lemma k_write_changed value follow : keeps (rc_inv h) follow -> keeps (rc_inv h) (write_changed name value follow).
Proof using Hname.
  intros Hf. unfold write_changed. apply t_seq; [keeps_run|intros v]. apply t_bind_lift. intros w _.
  apply t_bind_lift. intros same _. apply t_seq; [|intros ?; by apply t_ret]. destruct same; [by apply t_ret|].
  apply t_seq; [apply k_update_attribute|by intros ?].
Qed.
End Others.

Lemma k_write_DatSet value : keeps (rc_inv h) (write_DatSet env value).
Proof using Henv.
  unfold write_DatSet. apply t_seq; [keeps_run|intros v]. apply t_bind_lift. intros w _. apply t_bind_lift.
  intros [|] _; [by apply t_ret|]. apply t_seq; [by apply k_updateReportDataset|]. intros [|]; [|by apply t_ret].
  apply t_seq; [apply k_purge_buffered|intros ?]. apply t_seq; [by apply k_update_attribute|intros ?].
  apply t_seq; [apply k_increaseConfRev|intros ?]. by apply t_ret.
Qed.

Lemma k_write_IntgPd value : keeps (rc_inv h) (write_IntgPd value).
Proof using.
  apply k_write_changed; [done|]. apply t_seq; [keeps_run|intros ?]. apply t_bind_get. intros s Hs.
  apply t_if; intros E; [|by apply t_ret; intros ? ->].
  apply t_weaken with (fun s => rc_inv h s /\ rc_buffered s = true); [|by intros s' ->].
  eapply t_bind; [|intros ?; eapply t_strengthen; [apply k_purgeBuf|by intros ? ? []]].
  apply t_modify. intros s' [Hi Hb]. split; [|done]. apply (stable s'); done.
Qed.

(** One branch of the handler for a block that is not enabled. *)
Lemma t_write_attribute fuel name value c : name <> lit "RptEna" ->
  triple (fun s => rc_inv h s /\ is_Some (rcb_index s name)) (write_attribute env fuel name value c) (fun _ => rc_inv h).
Proof using Henv.
  intros Hn. unfold write_attribute. cbv zeta.
  assert (forall c : R (option Z), keeps (rc_inv h) c ->
    triple (fun s => rc_inv h s /\ is_Some (rcb_index s name)) c (fun _ => rc_inv h)) as Hw
    by (intros c' Hc; eapply t_weaken; [exact Hc|by intros s []]).
  case_bool_decide as E1; [by apply t_write_Resv|]. case_bool_decide as E2; [by apply t_write_PurgeBuf|].
  case_bool_decide; [by apply Hw, k_write_DatSet|]. case_bool_decide; [by apply Hw, k_write_IntgPd|].
  case_bool_decide; [apply Hw, k_write_changed; [done|]; apply t_seq; [apply k_purge_buffered|intros ?; keeps_run]|].
  case_bool_decide as E6.
  { subst name. intros s es a s' es' [_ [i Hi]] _. exfalso. unfold rcb_index in Hi. by destruct (rc_buffered s). }
  case_bool_decide; [apply Hw, k_write_changed; [done|]; apply t_seq; [apply k_purge_buffered|intros ?; keeps_run]|].
  case_bool_decide; apply Hw; by apply t_ret.
Qed.

Lemma t_write_disabled fuel name value c : name <> lit "RptEna" ->
  triple (fun s => rc_inv h s /\ is_Some (rcb_index s name)) (write_disabled env fuel name value c) (fun _ => rc_inv h).
Proof using Henv.
  intros Hn. unfold write_disabled. apply t_bind_get. intros s Hs. apply t_if; intros _; [by apply t_ret; intros ? ->; apply Hs|].
  apply t_if; intros _; [by apply t_ret; intros ? ->; apply Hs|].
  apply t_weaken with (fun s => rc_inv h s /\ is_Some (rcb_index s name)); [|by intros ? ->].
  eapply t_bind; [by apply t_write_attribute|]. intros [r|]; [by apply t_ret|].
  apply t_seq; [keeps_run|intros v]. destruct v as [v|]; [|by apply t_ret].
  apply t_seq; [by apply k_update_attribute|intros ?]. by apply t_ret.
Qed.
End Access.

(** ** The handler *)

#[export] Instance stable_reserved : Stable (fun rc => rc_reserved rc = false).
Proof. intros rc rc' [= _ _ _ _ -> _ _ _ _] _. done. Qed.

Section Handler.
Context (sizes : Sizes) (env : ReportEnv) (Henv : env_ok env).
Abbreviation h := (sizeof_ReportBufferEntry sizes).

(** What is left when the block has been disabled: [RptEna] still shows [b]. *)
Definition disabled (b : bool) (s : ReportControl) : Prop :=
  rc_base h s /\ (rc_enabled s = false /\ rc_reserved s = false) /\ shows b s.

Lemma t_disable value c b :
  triple (fun s => rc_inv h s /\ rc_enabled s = b) (write_RptEna env value c)
    (fun r s => match r with Some _ => rc_inv h s | None => boolean_member value = Done false /\ disabled b s end).
Proof using Henv.
  unfold write_RptEna. apply t_bind_get. intros s0 [[Hb Hs] <-]. apply t_bind_lift. intros v Hv.
  apply t_if; intros Ev; subst v.
  - apply t_if; intros _; [by apply t_ret; intros ? ->|].
    eapply t_bind; [eapply t_weaken; [by apply t_enable|]; by intros ? ->|]. intros r. by apply t_ret.
  - apply t_if; intros _; [by apply t_ret; intros ? ->|].
    eapply t_bind with (Q := fun _ s => rc_base h (rc_set_enabled false s) /\ rc_reserved s = false /\ shows (rc_enabled s0) s).
    + apply t_if; intros Eb.
      * apply t_ret. intros ? ->. split; [by apply base_disabled|]. split; [|done].
        destruct (rc_reserved s0) eqn:E; [|done]. destruct Hb as [_ _ _ _ Hr _ _]. rewrite Hr in Eb; done.
      * apply t_weaken with (fun s => rc_base h (rc_set_enabled false s) /\ shows (rc_enabled s0) s);
          [|intros ? ->; split; [by apply base_disabled|done]].
        do 4 (apply t_seq; [keeps_run|intros ?]). apply t_modify. intros s [[] Hs']. split; [by constructor|done].
    + intros ?. eapply t_bind; [apply t_updateOwner_none; [apply _|done]|]. intros ?.
      eapply t_bind with (Q := fun _ => disabled (rc_enabled s0)); [apply t_modify|intros ?; apply t_ret; by split].
      intros s (H1 & H2 & H3). by split; [|split].
Qed.

Lemma t_write_disabled_RptEna fuel value c b : boolean_member value = Done false ->
  triple (disabled b) (write_disabled env fuel (lit "RptEna") value c) (fun _ => rc_inv h).
Proof using.
  intros [d ->]%boolean_value. unfold write_disabled. apply t_bind_get. intros s (Hb & [He Hr] & Hs).
  rewrite He, Hr. cbn [andb]. change (write_attribute _ _ (lit "RptEna") _ _) with (cret (S := ReportControl) (E := ReportEvent) (@None Z)).
  intros s1 es a s' es' -> Hrun. rewrite bind_ret in Hrun.
  match type of Hrun with ?c s es = _ => assert (triple (fun s' => s' = s) c (fun _ => rc_inv h)) as Ht end; [|by eapply Ht].
  apply t_bind_attribute. intros ? v -> Hv. apply getRCBValue_RptEna in Hv. destruct v as [v|].
  - eapply t_bind; [by apply (t_update_RptEna h false b (s, v) _ d)|]. intros ?. apply t_ret. intros s2 (H1 & H2 & H3).
    specialize (H2 Hb). split; [done|]. unfold rc_rest in H3. injection H3 as _ _ _ -> _ _ _ _ _. by rewrite He.
  - apply t_ret. intros ? ->. split; [done|]. intros w Hw. congruence.
Qed.

Lemma t_handler fuel name value c :
  triple (fun s => rc_inv h s /\ is_Some (rcb_index s name)) (Reporting_RCBWriteAccessHandler env fuel name value c)
    (fun _ => rc_inv h).
Proof using Henv.
  unfold Reporting_RCBWriteAccessHandler. case_bool_decide as E.
  - subst name. intros s es a s' es' [Hs _] Hr. apply cbind_inv in Hr as (r & s1 & es1 & H1 & H2).
    apply (t_disable value c (rc_enabled s) s) in H1; [|done]. destruct r as [r|].
    + by apply cret_inv in H2 as (_ & -> & _).
    + destruct H1 as [Hv Hd]. change (bool_decide (lit "RptEna" = lit "GI")) with false in H2. cbv iota in H2.
      by eapply t_write_disabled_RptEna in H2.
  - apply t_seq; [by apply t_ret|]. intros [r|]; [apply t_ret; by intros s []|]. case_bool_decide.
    + eapply t_weaken; [apply k_write_GI|]. by intros s [].
    + by apply t_write_disabled.
Qed.

(** ** Connections that end, and data sets at the start *)

Lemma k_deactivate c : keeps (rc_inv h) (deactivate env c).
Proof using.
  unfold deactivate. apply t_bind_get. intros s0 [Hb Hs]. apply t_if; intros _; [by apply t_ret; intros ? ->|].
  apply t_bind with (fun _ s => rc_base h s /\ rc_enabled s = false /\ shows (rc_enabled s0) s).
  { apply t_modify. intros ? ->. split; [by apply base_disabled|done]. }
  intros ?. apply t_bind with (fun _ s => rc_base h s /\ rc_enabled s = false /\ shows (rc_enabled s0) s).
  { apply t_modify. intros s ([] & He & Hs'). split; [constructor; try done|done]. cbn. congruence. }
  intros ?. apply t_bind_attribute. intros s v (Hb1 & He & Hs1) Hv. apply getRCBValue_RptEna in Hv.
  apply t_bind_lift. intros w Hw. destruct v as [v|]; [|done]. cbn [defined rbind] in Hw.
  destruct (Hs1 v Hv) as [d ->]. injection Hw as <-.
  apply t_bind with (fun _ s => rc_base h s /\ rc_enabled s = false /\ shows false s).
  { apply t_modify. intros ? ->. pose proof (rc_rest_set (lit "RptEna") (Simple d (V_BOOLEAN false)) s) as Hrest.
    split_and!; [by eapply rc_base_rest| |by eapply shows_set]. unfold rc_rest in Hrest. by injection Hrest as _ _ _ -> _ _ _ _ _. }
  intros ?. apply t_bind with (fun _ s => rc_base h s /\ rc_enabled s = false /\ shows false s).
  { apply t_if; intros _; [by apply t_ret|].
    apply t_bind with (fun _ s => rc_base h s /\ rc_enabled s = false /\ shows false s).
    { apply t_modify. intros s' ([] & ?). split; [by constructor|done]. }
    intros ?. assert (Stable (fun s => rc_base h s /\ rc_enabled s = false /\ shows false s)) as Hst.
    { apply stable_and; [apply _|]. apply stable_and; [|apply _]. intros x y [= _ _ _ -> _ _ _ _ _] _. done. }
    do 3 (apply t_seq; [keeps_run|intros ?]). apply t_modify. intros s' ([] & ?). split; [by constructor|done]. }
  intros ?. apply t_weaken with (fun s => rc_base h (rc_set_enabled false s) /\ rc_enabled s = false /\ shows false s).
  2: { intros s' (? & ? & ?). split; [by apply base_disabled|done]. }
  eapply t_strengthen; [apply t_updateOwner_none; [|done]|].
  { apply stable_and; [|apply _]. intros x y [= _ _ _ -> _ _ _ _ _] _. done. }
  intros ? s' (H1 & H2 & H3). split; [|by rewrite H2]. eapply rc_base_rest; [|exact H1]. unfold rc_rest. cbn. by rewrite H2.
Qed.

(** The kind of a block does not change. *)
Lemma k_kind b v : keeps (fun s => rc_buffered s = b) (updateReportDataset env v).
Proof using.
  assert (forall f, (forall s, rc_buffered (f s) = rc_buffered s) -> keeps (fun s => rc_buffered s = b) (cmodify f : R unit)) as Hm.
  { intros f Hf. apply k_modify. intros s <-. apply Hf. }
  unfold updateReportDataset, deleteDataSetValuesShadowBuffer, createDataSetValuesShadowBuffer, self.
  apply k_bind; [destruct v; [|unfold getRCBValue, self]; keeps_run|]. intros dv. apply k_bind; [keeps_run|intros rc].
  apply k_bind; [destruct (rc_isDynamicDataSet rc); [destruct (rc_dataSet rc)|]; keeps_run; intros ? H; exact H|intros ?].
  do 2 (apply k_bind; [keeps_run|intros ?]). cbv zeta.
  repeat first [ apply k_bind; [|intros ?] | match goal with |- keeps _ (match ?x with _ => _ end) => destruct x end
               | solve [eauto with keeps nocore] | by apply Hm ].
Qed.

Lemma k_activate : keeps (rc_inv h) (activate env).
Proof using Henv.
  unfold activate. apply t_bind_get. intros s Hs. apply t_if; intros E; [|by apply t_ret; intros ? ->].
  apply t_weaken with (fun s => rc_inv h s /\ rc_buffered s = true); [|by intros ? ->].
  eapply t_bind; [apply t_and; [by apply k_updateReportDataset|apply k_kind]|]. intros updated.
  apply t_modify. intros s' [[[] ?] Hb]. split; [|done]. by constructor.
Qed.
End Handler.

(** ** Blocks made from the model *)

Section Create.
Context (h : Z).

Lemma base_create buffered ln name domain :
  rc_base h (rc_set_identity name domain (ReportControl_create buffered ln)).
Proof.
  constructor; cbn; try done. intros ->. exists ReportBuffer_create, [], 0%nat. split_and!; [done|done|].
  constructor; try done. left. simpl. unfold CONFIG_REPORTING_DEFAULT_REPORT_BUFFER_SIZE. lia.
Qed.

(** A block that is not enabled yet, before and after it has its attributes. *)
Definition fresh (s : ReportControl) : Prop := rc_base h s /\ rc_enabled s = false.

#[local] Instance stable_fresh : Stable fresh.
Proof.
  intros s s' Hr _ [Hb He]. split; [by eapply rc_base_rest|]. unfold rc_rest in Hr. by injection Hr as _ _ _ -> _ _ _ _ _.
Qed.

Lemma k_default_DatSet rcb : keeps fresh (default_DatSet rcb).
Proof. unfold default_DatSet. apply k_bind; [keeps_run|intros rc]. destruct (rcb_dataSetName rcb); keeps_run. Qed.

Lemma k_refresh : keeps (rc_inv h) refresh.
Proof. unfold refresh. keeps_run. Qed.

Lemma t_set_attributes rcb attributes :
  map (fun a => Some a.2) attributes !! 1%nat = Some (Some (MmsValue_newBoolean false)) ->
  triple fresh (set_attributes rcb attributes) (fun _ => rc_inv h).
Proof.
  intros H1. unfold set_attributes. eapply t_bind with (Q := fun _ => rc_inv h); [|intros ?; by apply t_ret].
  apply t_modify. intros s [[] He]. split; [by constructor|]. intros v. cbn. rewrite He.
  unfold attribute, rc_set_rcbValues. cbn [rc_rcbValues mbind option_bind MmsValue_getElement].
  case_match; [done|]. change (Z.to_nat 1) with 1%nat. rewrite H1. cbn. intros [= <-]. by eexists.
Qed.

Lemma fresh_confRev i s : i <> 1 -> fresh s -> fresh (rc_set_confRev (Some i) s).
Proof. intros Hi [[] He]. split; [|done]. constructor; try done. cbn. congruence. Qed.

Lemma fresh_time i s : i <> 1 -> fresh s -> fresh (rc_set_timeOfEntry (ElementTime i) s).
Proof. intros Hi [[] He]. split; [|done]. by constructor. Qed.

Lemma t_createUnbuffered rcb : triple fresh (createUnbufferedReportControlBlock rcb) (fun _ => rc_inv h).
Proof.
  unfold createUnbufferedReportControlBlock. apply t_seq; [apply k_default_DatSet|intros ?]. apply t_seq; [keeps_run|intros ?].
  apply t_seq; [apply k_modify; intros s; by apply fresh_confRev|intros ?]. do 4 (apply t_seq; [keeps_run|intros ?]).
  eapply t_bind; [by apply t_set_attributes|]. intros spec. apply t_seq.
  - apply k_modify. intros s [[] ?]. split; [|done]. by constructor.
  - intros ?. apply t_seq; [apply k_refresh|intros ?]. by apply t_ret.
Qed.

Lemma t_createBuffered rcb : triple fresh (createBufferedReportControlBlock rcb) (fun _ => rc_inv h).
Proof.
  unfold createBufferedReportControlBlock. apply t_seq; [apply k_default_DatSet|intros ?]. apply t_seq; [keeps_run|intros ?].
  apply t_seq; [apply k_modify; intros s; by apply fresh_confRev|intros ?]. do 4 (apply t_seq; [keeps_run|intros ?]).
  apply t_seq; [apply k_modify; intros s; by apply fresh_time|intros ?].
  eapply t_bind; [by apply t_set_attributes|]. intros spec. apply t_seq; [apply k_refresh|intros ?]. by apply t_ret.
Qed.

Lemma create_rcb_inv rcbs domain ln buffered i rc spec :
  create_rcb rcbs domain ln buffered i = Done (rc, spec) -> rc_inv h rc.
Proof.
  unfold create_rcb. destruct (defined _) as [rcb| | |]; try discriminate. cbn [rbind]. cbv zeta.
  assert (forall name, fresh (rc_set_identity name domain (ReportControl_create buffered (ln_name ln)))) as Hf
    by (intros; split; [apply base_create|done]).
  intros H. destruct buffered.
  - destruct (createBufferedReportControlBlock rcb _ []) as [[[sp rc1] es1]| | |] eqn:E; try discriminate.
    injection H as <- _. by eapply (t_createBuffered rcb _ _ _ _ _ (Hf _) E).
  - destruct (createUnbufferedReportControlBlock rcb _ []) as [[[sp rc1] es1]| | |] eqn:E; try discriminate.
    injection H as <- _. by eapply (t_createUnbuffered rcb _ _ _ _ _ (Hf _) E).
Qed.
End Create.

(** ** Every state a block can reach *)

(** A block of the model, and what happens to it: values of its data set change, the
    server processes events, clients write to its attributes, connections end, and the
    server starts. *)
Inductive rcb_reachable (sizes : Sizes) (malloc : Z -> list Z) : ReportControl -> Prop :=
| rr_create rcbs domain ln buffered i rc spec :
    create_rcb rcbs domain ln buffered i = Done (rc, spec) -> rcb_reachable sizes malloc rc
| rr_updated rc env i flag es r rc' es' : rcb_reachable sizes malloc rc ->
    ReportControl_valueUpdated sizes malloc env i flag rc es = Done (r, rc', es') -> rcb_reachable sizes malloc rc'
| rr_events rc env t es r rc' es' : rcb_reachable sizes malloc rc ->
    processEventsForReport sizes malloc env t rc es = Done (r, rc', es') -> rcb_reachable sizes malloc rc'
| rr_write rc env fuel name value c es r rc' es' : rcb_reachable sizes malloc rc ->
    env_ok env -> is_Some (rcb_index rc name) ->
    Reporting_RCBWriteAccessHandler env fuel name value c rc es = Done (r, rc', es') -> rcb_reachable sizes malloc rc'
| rr_deactivate rc env c es r rc' es' : rcb_reachable sizes malloc rc ->
    deactivate env c rc es = Done (r, rc', es') -> rcb_reachable sizes malloc rc'
| rr_activate rc env es r rc' es' : rcb_reachable sizes malloc rc -> env_ok env ->
    activate env rc es = Done (r, rc', es') -> rcb_reachable sizes malloc rc'.

(** The sizes of the platform. *)
Definition sizes_ok (sizes : Sizes) : Prop :=
  0 <= sizeof_MmsValue sizes /\ 0 <= sizeof_pointer sizes /\ 0 <= sizeof_Asn1PrimitiveValue sizes /\
  0 < sizeof_ReportBufferEntry sizes.

Lemma reachable_inv sizes malloc rc : sizes_ok sizes -> rcb_reachable sizes malloc rc ->
  rc_inv (sizeof_ReportBufferEntry sizes) rc.
Proof.
  intros (H1 & H2 & H3 & H4). induction 1 as [| ???????? _ IH Hr| ??????? _ IH Hr| ?????????? _ IH He Hn Hr | ??????? _ IH Hr | ?????? _ IH He Hr].
  - by eapply create_rcb_inv.
  - by eapply k_valueUpdated in Hr.
  - by eapply k_processEventsForReport in Hr.
  - by eapply t_handler in Hr.
  - by eapply k_deactivate in Hr.
  - by eapply k_activate in Hr.
Qed.

(** ** Where reports go *)

(** Predicates about the client and the kind of the block. *)
Class ClientOnly (P : ReportControl -> Prop) : Prop :=
  client_only : forall s s', rc_enabled s' = rc_enabled s -> rc_clientConnection s' = rc_clientConnection s ->
    rc_buffered s' = rc_buffered s -> P s -> P s'.

Section Receiver.
Context (sizes : Sizes) (malloc : Z -> list Z) (env : ReportEnv).

(** A report for the client [c]. *)
Definition goes_to (c : option Z) (e : ReportEvent) : Prop := match e with InformationReport c' _ => c' = c end.

Context (P : ReportControl -> Prop) {HP : ClientOnly P} (Q : ReportEvent -> Prop).

Lemma e_rest f : (forall s, rc_rest (f s) = rc_rest s) -> sends P Q (cmodify f : R unit).
Proof using HP.
  intros Hf. apply e_modify. intros s. specialize (Hf s). unfold rc_rest in Hf.
  injection Hf as Hb _ _ He _ Hc _ _ _. by apply HP.
Qed.

Lemma e_same f : (forall s, rc_enabled (f s) = rc_enabled s /\ rc_clientConnection (f s) = rc_clientConnection s /\
  rc_buffered (f s) = rc_buffered s) -> sends P Q (cmodify f : R unit).
Proof using HP. intros Hf. apply e_modify. intros s. destruct (Hf s) as (? & ? & ?). by apply HP. Qed.

Hint Extern 2 (sends _ _ (cmodify (rcb_set _ _))) => apply e_rest; intros; apply rc_rest_set : sends.
Hint Extern 2 (sends _ _ (cmodify (rcb_set_element _ _))) => apply e_rest; intros; apply rc_rest_set_element : sends.
Hint Extern 3 (sends _ _ (cmodify _)) => apply e_same; intros; split_and!; reflexivity : sends.

Lemma e_getRCBValue name : sends P Q (getRCBValue name).
Proof using. unfold getRCBValue, self. sends_run. Qed.
Hint Resolve e_getRCBValue : sends.

Lemma e_updateTimeOfEntry t : sends P Q (updateTimeOfEntry t).
Proof using HP.
  unfold updateTimeOfEntry, self. do 3 (apply e_bind; [sends_run|intros ?]). apply e_modify. intros s Hs.
  unfold set_time_of_entry. destruct (rc_timeOfEntry s) as [| |index] eqn:?; [done|by apply (client_only s)|].
  match goal with |- P (rcb_set_element ?i ?v s) => pose proof (rc_rest_set_element i v s) as H end.
  unfold rc_rest in H. injection H as Hb _ _ He _ Hc _ _ _. by apply (client_only s).
Qed.

Lemma e_clearInclusionFlags : sends P Q clearInclusionFlags.
Proof using HP. unfold clearInclusionFlags, self. sends_run. Qed.

Lemma e_increaseSqNum : sends P Q increaseSqNum.
Proof using HP. unfold increaseSqNum, self. sends_run. Qed.

Lemma e_set_EntryID id : sends P Q (set_EntryID id).
Proof using HP. unfold set_EntryID, self. sends_run. Qed.
Hint Resolve e_updateTimeOfEntry e_clearInclusionFlags e_increaseSqNum e_set_EntryID : sends.

(** Enqueueing sends nothing. *)
Lemma e_enqueueReport isIntegrity isGI : sends P Q (enqueueReport sizes env isIntegrity isGI).
Proof using HP. unfold enqueueReport, self. sends_run. Qed.

(** Sending does. *)
Context (Hsend : forall s es, P s -> Q (InformationReport (rc_clientConnection s) es)).

Lemma e_sendInformationReport es : sends P Q (MmsServerConnection_sendInformationReport es).
Proof using Hsend.
  unfold MmsServerConnection_sendInformationReport, self. intros s es0 u s' es' Hs Hr. run_inv.
  split; [done|]. eexists [_]. split; [done|]. constructor; [by apply Hsend|done].
Qed.
Hint Resolve e_sendInformationReport : sends.

Lemma e_sendReport isIntegrity isGI : sends P Q (sendReport env isIntegrity isGI).
Proof using HP Hsend. unfold sendReport, self. sends_run. Qed.

Lemma e_sendNextReportEntry : sends P Q (sendNextReportEntry sizes malloc).
Proof using HP Hsend.
  unfold sendNextReportEntry, advance, self. sends_run.
Qed.
Hint Resolve e_sendReport e_sendNextReportEntry e_enqueueReport : sends.

Lemma e_report isIntegrity isGI : sends P Q (report sizes env isIntegrity isGI).
Proof using HP Hsend. unfold report, self. sends_run. Qed.
Hint Resolve e_report : sends.

Lemma e_report_events : sends P Q (report_events sizes env).
Proof using HP Hsend. unfold report_events, self. sends_run. Qed.
Hint Resolve e_report_events : sends.

Lemma e_process t : sends P Q (process_gi sizes env t) /\ sends P Q (process_integrity sizes env t) /\
  sends P Q (process_triggered sizes env t).
Proof using HP Hsend. unfold process_gi, process_integrity, process_triggered, self. split_and!; sends_run. Qed.

Lemma e_processEventsForReport t : sends P Q (processEventsForReport sizes malloc env t).
Proof using HP Hsend. pose proof (e_process t) as (? & ? & ?). unfold processEventsForReport, self. sends_run. Qed.
End Receiver.

(** A buffered block that is not enabled sends nothing. *)
Section Silent.
Context (sizes : Sizes) (malloc : Z -> list Z) (env : ReportEnv).

Definition buffers (s : ReportControl) : Prop := rc_enabled s = false /\ rc_buffered s = true.

#[local] Instance client_only_buffers : ClientOnly buffers.
Proof. intros s s' E1 _ E2. unfold buffers. by rewrite E1, E2. Qed.

Abbreviation nothing := (fun _ : ReportEvent => False).

Lemma e_buffers_report isIntegrity isGI : sends buffers nothing (report sizes env isIntegrity isGI).
Proof. unfold report, self. apply e_bind_get. intros s [_ ->]. apply e_enqueueReport. apply _. Qed.
Hint Resolve e_buffers_report : sends.
Hint Extern 3 (sends _ _ (cmodify _)) => apply e_same; [apply _|intros; split_and!; reflexivity] : sends.

Lemma e_buffers_events : sends buffers nothing (report_events sizes env).
Proof. unfold report_events, self. sends_run. Qed.
Hint Resolve e_buffers_events e_updateTimeOfEntry : sends.

Lemma e_buffers_process t : sends buffers nothing (processEventsForReport sizes malloc env t).
Proof.
  assert (forall t, sends buffers nothing (updateTimeOfEntry t)) by (intros; apply e_updateTimeOfEntry; apply _).
  unfold processEventsForReport, process_gi, process_integrity, process_triggered, self.
  apply e_bind; [sends_run|intros rc]. destruct (_ || _); [|sends_run].
  do 3 (apply e_bind; [sends_run|intros ?]). apply e_bind_get. intros s [-> ->]. cbn [andb]. sends_run.
Qed.
End Silent.

#[export] Instance client_only_client b c : ClientOnly (fun s => rc_enabled s = b /\ rc_clientConnection s = c).
Proof. intros s s' E1 E2 _. by rewrite E1, E2. Qed.

(** What a reachable block sends when its events are processed. *)
Lemma process_sends sizes malloc env t h s es r s' es' : rc_inv h s ->
  processEventsForReport sizes malloc env t s es = Done (r, s', es') ->
  exists new, es' = es ++ new /\
    Forall (fun e => rc_enabled s = true /\ exists c, rc_clientConnection s = Some c /\ goes_to (Some c) e) new.
Proof.
  intros [Hb _] Hr. destruct (rc_enabled s) eqn:He.
  - destruct (ri_client _ _ Hb He) as [c Hc].
    assert (sends (fun s => rc_enabled s = true /\ rc_clientConnection s = Some c) (goes_to (Some c))
      (processEventsForReport sizes malloc env t)) as Hs.
    { apply e_processEventsForReport; [apply _|]. intros s1 es1 [_ ->]. done. }
    destruct (Hs _ _ _ _ _ (conj He Hc) Hr) as (_ & new & -> & Hn). exists new. split; [done|].
    eapply Forall_impl; [exact Hn|]. cbn. intros e ?. split; [done|]. by exists c.
  - destruct (rc_isBuffering s) eqn:Hi.
    + destruct (e_buffers_process sizes malloc env t _ _ _ _ _ (conj He (ri_buffering _ _ Hb Hi)) Hr) as (_ & new & -> & Hn).
      exists new. split; [done|]. eapply Forall_impl; [exact Hn|]. done.
    + unfold processEventsForReport, self in Hr. rewrite bind_get, He, Hi in Hr. cbn [orb] in Hr.
      apply cret_inv in Hr as (_ & _ & ->). exists []. by rewrite app_nil_r.
Qed.


(** ** Who enabled a block *)

(** What happens to a block of the server. *)
Inductive rcb_step (sizes : Sizes) (malloc : Z -> list Z) (rc : ReportControl) : ReportControl -> Prop :=
| rs_updated env i flag es r rc' es' :
    ReportControl_valueUpdated sizes malloc env i flag rc es = Done (r, rc', es') -> rcb_step sizes malloc rc rc'
| rs_events env t es r rc' es' :
    processEventsForReport sizes malloc env t rc es = Done (r, rc', es') -> rcb_step sizes malloc rc rc'
| rs_deactivate env c es r rc' es' : deactivate env c rc es = Done (r, rc', es') -> rcb_step sizes malloc rc rc'
| rs_activate env es r rc' es' : env_ok env -> activate env rc es = Done (r, rc', es') -> rcb_step sizes malloc rc rc'.

(** The write enables the block: it is true for [RptEna], and answered with success. *)
Definition enabling (name : list Z) (value : MmsValue) (r : Z) : bool :=
  bool_decide (name = lit "RptEna") && match boolean_member value with Done b => b | _ => false end && (r =? DATA_ACCESS_ERROR_SUCCESS).

(** The history of a block: [o] is the client whose write was the last that enabled it. *)
Inductive rcb_history (sizes : Sizes) (malloc : Z -> list Z) : ReportControl -> option Z -> Prop :=
| rh_create rcbs domain ln buffered i rc spec :
    create_rcb rcbs domain ln buffered i = Done (rc, spec) -> rcb_history sizes malloc rc None
| rh_step rc o rc' : rcb_history sizes malloc rc o -> rcb_step sizes malloc rc rc' -> rcb_history sizes malloc rc' o
| rh_write rc o env fuel name value c es r rc' es' : rcb_history sizes malloc rc o ->
    env_ok env -> is_Some (rcb_index rc name) ->
    Reporting_RCBWriteAccessHandler env fuel name value c rc es = Done (r, rc', es') ->
    rcb_history sizes malloc rc' (if enabling name value r then Some c else o).

Lemma history_reachable sizes malloc rc o : rcb_history sizes malloc rc o -> rcb_reachable sizes malloc rc.
Proof.
  induction 1 as [?????? spec H|rc o rc' _ IH H|rc o env fuel name value c es r rc' es' _ IH He Hn H]; [by eapply rr_create| |by eapply rr_write].
  destruct H; [by eapply rr_updated|by eapply rr_events|by eapply rr_deactivate|by eapply rr_activate].
Qed.

Lemma reachable_history sizes malloc rc : rcb_reachable sizes malloc rc -> exists o, rcb_history sizes malloc rc o.
Proof.
  induction 1 as [| ???????? _ [o IH] Hr| ??????? _ [o IH] Hr| ?????????? _ [o IH] He Hn Hr | ??????? _ [o IH] Hr | ?????? _ [o IH] He Hr].
  - eexists. by eapply rh_create.
  - eexists. eapply rh_step; [done|by eapply rs_updated].
  - eexists. eapply rh_step; [done|by eapply rs_events].
  - eexists. by eapply rh_write.
  - eexists. eapply rh_step; [done|by eapply rs_deactivate].
  - eexists. eapply rh_step; [done|by eapply rs_activate].
Qed.

(** Code that leaves the owner alone. *)
Section Owner.
Context (sizes : Sizes) (malloc : Z -> list Z) (env : ReportEnv) (P : ReportControl -> Prop) {HP : ClientOnly P}.
Abbreviation any := (fun _ : ReportEvent => True).

Hint Extern 2 (sends _ _ (cmodify (rcb_set _ _))) => apply e_rest; [exact HP|intros; apply rc_rest_set] : sends.
Hint Extern 2 (sends _ _ (cmodify (rcb_set_element _ _))) => apply e_rest; [exact HP|intros; apply rc_rest_set_element] : sends.
Hint Extern 3 (sends _ _ (cmodify _)) => apply e_same; [exact HP|intros; split_and!; reflexivity] : sends.
Hint Resolve e_getRCBValue : sends.

Lemma o_processEvents t : sends P any (processEventsForReport sizes malloc env t).
Proof using HP. by apply e_processEventsForReport. Qed.

Lemma o_updateTimeOfEntry t : sends P any (updateTimeOfEntry t).
Proof using HP. by apply e_updateTimeOfEntry. Qed.
Hint Resolve o_processEvents o_updateTimeOfEntry : sends.

Lemma o_valueUpdated i flag : sends P any (ReportControl_valueUpdated sizes malloc env i flag).
Proof using HP. unfold ReportControl_valueUpdated, self. sends_run. Qed.

Lemma o_updateReportDataset v : sends P any (updateReportDataset env v).
Proof using HP.
  unfold updateReportDataset, deleteDataSetValuesShadowBuffer, createDataSetValuesShadowBuffer, self. cbv zeta. sends_run.
  all: match goal with |- context [match rc_dataSet ?rc with _ => _ end] => destruct (rc_dataSet rc) end; sends_run.
Qed.

Lemma o_refresh : sends P any refreshBufferTime /\ sends P any refreshTriggerOptions /\ sends P any refreshIntegrityPeriod.
Proof using HP. unfold refreshBufferTime, refreshTriggerOptions, refreshIntegrityPeriod, self. split_and!; sends_run. Qed.

Lemma o_update_attribute name v w : sends P any (update_attribute name v w).
Proof using HP. unfold update_attribute. sends_run. Qed.

Lemma o_purgeBuf : sends P any purgeBuf.
Proof using HP. unfold purgeBuf, self. sends_run. Qed.

Lemma o_increaseConfRev : sends P any increaseConfRev.
Proof using HP. unfold increaseConfRev, self. sends_run. Qed.
Hint Resolve o_updateReportDataset o_update_attribute o_purgeBuf o_increaseConfRev : sends.

Lemma o_write_GI c : sends P any (write_GI c).
Proof using HP. unfold write_GI, self. sends_run. Qed.

Lemma o_activate : sends P any (activate env).
Proof using HP. unfold activate, self. sends_run. Qed.

Lemma o_write_others fuel name value c : name <> lit "Resv" -> sends P any (write_attribute env fuel name value c).
Proof using HP.
  intros Hn. destruct o_refresh as (H1 & H2 & H3). unfold write_attribute. cbv zeta. rewrite bool_decide_false by done.
  unfold write_PurgeBuf, write_DatSet, write_IntgPd, write_TrgOps, write_BufTm, write_EntryId, write_changed, purge_buffered,
    checkReportBufferForEntryID, self. sends_run.
  destruct (MmsValue_getType value); sends_run.
Qed.
End Owner.

(** The code of the handler keeps a block disabled. *)
#[local] Instance client_only_enabled b : ClientOnly (fun s => rc_enabled s = b).
Proof. intros s s' E _ _ <-. done. Qed.

#[local] Instance client_only_connection c : ClientOnly (fun s => rc_clientConnection s = c).
Proof. intros s s' _ E _ <-. done. Qed.

Section Writer.
Context (env : ReportEnv).
Abbreviation off := (fun s : ReportControl => rc_enabled s = false).
Abbreviation any := (fun _ : ReportEvent => True).

Lemma o_updateOwner b c : sends (fun s => rc_enabled s = b) any (updateOwner env c).
Proof.
  unfold updateOwner. apply e_bind; [apply e_modify; done|]. intros _. apply e_bind; [apply e_getRCBValue|]. intros [v|]; [|apply e_ret].
  do 2 (apply e_bind; [apply e_lift|intros ?]). apply e_rest; [apply _|]. intros. apply rc_rest_set.
Qed.

Lemma o_write_attribute fuel name value c : sends off any (write_attribute env fuel name value c).
Proof.
  destruct (decide (name = lit "Resv")) as [->|Hn]; [|apply (o_write_others env); [apply _|done]].
  unfold write_attribute. cbv zeta. rewrite bool_decide_true by done. unfold write_Resv.
  apply e_bind; [apply e_lift|]. intros [|]; (apply e_bind; [by apply e_modify|intros _]); (apply e_bind; [|intros ?; apply e_ret]);
    [by apply e_modify|apply e_ret].
Qed.

Lemma write_disabled_owner fuel name value c rc es r rc' es' : write_disabled env fuel name value c rc es = Done (r, rc', es') ->
  if rc_enabled rc then rc' = rc else rc_enabled rc' = false.
Proof.
  unfold write_disabled, self. rewrite bind_get. destruct (rc_enabled rc) eqn:He; [by intros [= _ <- _]|].
  destruct (_ && _); [by intros [= _ <- _]|]. intros H.
  match type of H with ?c rc es = _ => assert (sends off any c) as Hc end; [|by apply (Hc _ _ _ _ _ He H)].
  apply e_bind; [apply o_write_attribute|]. intros [x|]; [apply e_ret|]. apply e_bind; [apply e_getRCBValue|].
  intros [v|]; [|apply e_ret]. apply e_bind; [apply (o_update_attribute); apply _|intros ?; apply e_ret].
Qed.

Lemma run_refreshes b c (x : Z) s es r s' es' : rc_enabled s = b /\ rc_clientConnection s = c ->
  (do! _ := refreshBufferTime in do! _ := refreshTriggerOptions in do! _ := refreshIntegrityPeriod in
   do! _ := cmodify (rc_set_sqNum 0) in cret x) s es = Done (r, s', es') -> (rc_enabled s' = b /\ rc_clientConnection s' = c) /\ r = x.
Proof.
  intros Hs H. destruct (o_refresh (fun s => rc_enabled s = b /\ rc_clientConnection s = c)) as (H1 & H2 & H3).
  apply cbind_inv in H as ([] & s1 & es1 & E1 & H). apply H1 in E1 as [Hs1 _]; [|done].
  apply cbind_inv in H as ([] & s2 & es2 & E2 & H). apply H2 in E2 as [Hs2 _]; [|done].
  apply cbind_inv in H as ([] & s3 & es3 & E3 & H). apply H3 in E3 as [Hs3 _]; [|done].
  rewrite bind_modify in H. injection H as <- <- _. done.
Qed.

Lemma enable_owner value c rc es r rc' es' : rc_enabled rc = false -> enable env value c rc es = Done (r, rc', es') ->
  rc_enabled rc' = false /\ r <> DATA_ACCESS_ERROR_SUCCESS \/
  rc_enabled rc' = true /\ rc_clientConnection rc' = Some c /\ r = DATA_ACCESS_ERROR_SUCCESS.
Proof.
  intros He H. unfold enable in H. apply cbind_inv in H as (u & s1 & es1 & Hu & H).
  destruct u; [right|left; injection H as <- <- _; split; [by apply (o_updateReportDataset env off None _ _ _ _ _ He Hu)|done]].
  apply cbind_inv in H as ([] & s2 & es2 & Ho & H).
  assert (rc_clientConnection s2 = Some c) as Hc.
  { unfold updateOwner in Ho. rewrite bind_modify in Ho.
    match type of Ho with ?k _ es1 = _ => assert (sends (fun s => rc_clientConnection s = Some c) any k) as Hk end; 
      [|by refine (proj1 (Hk _ _ _ _ _ _ Ho))].
    apply e_bind; [apply e_getRCBValue|]. intros [v|]; [|apply e_ret]. do 2 (apply e_bind; [apply e_lift|intros ?]).
    apply e_rest; [apply _|]. intros. apply rc_rest_set. }
  apply cbind_inv in H as (v & s3 & es3 & Hv & H). apply (e_getRCBValue (fun s => rc_clientConnection s = Some c) any _ _ _ _ _ _ Hc) in Hv as [Hc3 _].
  apply cbind_inv in H as (w & s4 & es4 & (_ & -> & ->)%clift_inv & H). apply cbind_inv in H as ([] & s5 & es5 & Hu5 & H).
  apply (o_update_attribute (fun s => rc_clientConnection s = Some c) _ _ _ _ _ _ _ _ Hc3) in Hu5 as [Hc5 _].
  rewrite !bind_modify in H. set (s6 := rc_set_gi _ _) in H.
  assert (rc_enabled s6 = true /\ rc_clientConnection s6 = Some c) as H6 by done. revert H6 H. generalize s6. clear s6. intros s6 H6 H.
  by apply (run_refreshes true (Some c)) in H as [[??] ->].
Qed.

(** A write that leaves the block enabled: it was, and has the client that it had, or the
    write has enabled it for its own client. *)
Lemma write_owner fuel name value c rc es r rc' es' : Reporting_RCBWriteAccessHandler env fuel name value c rc es = Done (r, rc', es') ->
  rc_enabled rc' = true ->
  if enabling name value r then rc_enabled rc = false /\ rc_clientConnection rc' = Some c
  else rc_enabled rc = true /\ rc_clientConnection rc' = rc_clientConnection rc.
Proof.
  intros H He'. unfold Reporting_RCBWriteAccessHandler in H. apply cbind_inv in H as (done & s1 & es1 & H1 & H). unfold enabling.
  destruct (decide (name = lit "RptEna")) as [->|En].
  - rewrite bool_decide_true in H1 |- * by done. cbn [andb]. unfold write_RptEna, self in H1. rewrite bind_get in H1.
    apply cbind_inv in H1 as (b & s2 & es2 & (Hb & -> & ->)%clift_inv & H1). rewrite Hb. destruct b.
    + destruct (rc_enabled rc) eqn:He; [injection H1 as <- <- <-; by injection H as <- <- _|].
      apply cbind_inv in H1 as (r1 & s2 & es2 & H1 & H2). injection H2 as <- <- <-. injection H as <- <- _.
      apply enable_owner in H1 as [[? ?]|(_ & Hc & ->)]; [congruence| |done]. by rewrite Z.eqb_refl.
    + cbn [andb]. destruct (_ && _) eqn:Eo in H1.
      { injection H1 as <- <- <-. injection H as <- <- _. done. }
      apply cbind_inv in H1 as (? & s2 & es2 & _ & H1). apply cbind_inv in H1 as (? & s3 & es3 & _ & H1).
      rewrite bind_modify in H1. injection H1 as <- <- <-. cbv iota in H. rewrite bool_decide_false in H by done.
      apply write_disabled_owner in H. cbn in H. congruence.
  - rewrite bool_decide_false in H1 |- * by done. cbn [andb]. injection H1 as <- <- <-. cbv iota in H. case_bool_decide as Eg.
    + apply (o_write_GI (fun s => rc_enabled s = rc_enabled rc /\ rc_clientConnection s = rc_clientConnection rc)) in H as [[Hx Hy] _]; [|done].
      split; [congruence|done].
    + apply write_disabled_owner in H. destruct (rc_enabled rc) eqn:He; [by subst rc'|congruence].
Qed.

(** An enabled block is not enabled again. *)
Lemma enabled_stays_owned fuel name value c rc es r rc' es' : rc_enabled rc = true ->
  Reporting_RCBWriteAccessHandler env fuel name value c rc es = Done (r, rc', es') -> enabling name value r = false.
Proof.
  intros He H. unfold enabling. destruct (decide (name = lit "RptEna")) as [->|En]; [|by rewrite bool_decide_false].
  destruct (boolean_member value) as [[]| | |] eqn:Hb; [|by rewrite andb_false_r..].
  unfold Reporting_RCBWriteAccessHandler in H. rewrite bool_decide_true in H |- * by done.
  unfold write_RptEna, self in H. rewrite bind_assoc, bind_get, bind_assoc, (bind_lift _ _ _ _ _ Hb), He in H. by injection H as <- _ _.
Qed.

Lemma deactivate_owner c rc es r rc' es' : deactivate env c rc es = Done (r, rc', es') ->
  rc_enabled rc' = true -> rc' = rc.
Proof.
  unfold deactivate, self. rewrite bind_get. destruct (is_other rc c); [by intros [= _ <- _]|].
  rewrite !bind_modify. intros H He. exfalso.
  match type of H with ?k _ es = _ => assert (sends off any k) as Hk end;
    [|apply Hk in H as [Hoff _]; [congruence|done]].
  apply e_bind; [apply e_getRCBValue|intros ?]. apply e_bind; [apply e_lift|intros ?].
  apply e_bind; [apply e_rest; [apply _|intros; apply rc_rest_set]|intros ?].
  apply e_bind; [|intros ?; apply o_updateOwner]. destruct (rc_buffered rc); [apply e_ret|].
  apply e_bind; [apply e_modify; done|intros ?]. apply e_bind; [apply e_getRCBValue|intros ?]. apply e_bind; [apply e_lift|intros ?].
  apply e_bind; [apply e_rest; [apply _|intros; apply rc_rest_set]|intros ?]. apply e_modify. done.
Qed.
End Writer.

(** A block is made disabled. *)
Lemma create_disabled rcbs domain ln buffered i rc spec : create_rcb rcbs domain ln buffered i = Done (rc, spec) -> rc_enabled rc = false.
Proof.
  unfold create_rcb. destruct (defined _) as [rcb| | |]; try discriminate. cbn [rbind]. cbv zeta. intros H.
  assert (forall c : R MmsVariableSpecification, sends (fun s => rc_enabled s = false) (fun _ => True) c ->
    forall s, rc_enabled s = false -> (let! (spec, rc, _) := c s [] in Done (rc, spec)) = Done (rc, spec) -> rc_enabled rc = false) as Hc.
  { intros c Hc s Hs Hr. destruct (c s []) as [[[x s'] es']| | |] eqn:E; try discriminate. injection Hr as -> _. by apply Hc in E as [? _]. }
  eapply Hc; [| |exact H]; [|done]. clear H Hc.
  assert (forall f : ReportControl -> ReportControl, (forall s, rc_enabled (f s) = rc_enabled s) ->
    sends (fun s => rc_enabled s = false) (fun _ => True) (cmodify f : R unit)) as Hm by (intros f Hf; apply e_modify; intros s; by rewrite Hf).
  destruct (o_refresh (fun s => rc_enabled s = false)) as (H1 & H2 & H3).
  destruct buffered; unfold createBufferedReportControlBlock, createUnbufferedReportControlBlock, default_DatSet, set_attributes, refresh, self;
    destruct (rcb_dataSetName rcb);
    repeat first [exact H1|exact H2|exact H3|apply Hm; reflexivity|apply e_ret|apply e_lift|apply e_get|apply e_bind; [|intros ?]].
Qed.

(** An enabled block belongs to the client that enabled it last. *)
Lemma history_owner sizes malloc rc o : rcb_history sizes malloc rc o -> rc_enabled rc = true ->
  rc_clientConnection rc = o /\ is_Some o.
Proof.
  induction 1 as [rcbs domain ln buffered i rc spec H|rc o rc' _ IH H|rc o env fuel name value c es r rc' es' _ IH _ _ H]; intros He.
  - apply create_disabled in H. congruence.
  - assert (forall c : R unit, (forall b x, sends (fun s => rc_enabled s = b /\ rc_clientConnection s = x) (fun _ => True) c) ->
      forall r es es', c rc es = Done (r, rc', es') -> rc_clientConnection rc' = o /\ is_Some o) as Hkeep.
    { intros c Hc r es es' Hr. destruct (Hc (rc_enabled rc) (rc_clientConnection rc) _ _ _ _ _ (conj eq_refl eq_refl) Hr) as [[E1 E2] _].
      rewrite E2. apply IH. congruence. }
    destruct H as [env i flag es [] rc' es' H|env t es [] rc' es' H|env c es [] rc' es' H|env es [] rc' es' Hok H].
    + eapply Hkeep; [|exact H]. intros b x. apply o_valueUpdated, _.
    + eapply Hkeep; [|exact H]. intros b x. apply o_processEvents, _.
    + apply deactivate_owner in H; [|done]. subst rc'. by apply IH.
    + eapply Hkeep; [|exact H]. intros b x. apply o_activate, _.
  - apply write_owner in H; [|done]. destruct (enabling name value r); destruct H as [E1 E2]; [by rewrite E2|].
    rewrite E2. by apply IH.
Qed.
