(* ===== verification/ReportTransmit.v ===== *)
(** Reporting: what a buffered report is when it is sent.  An entry that was enqueued is
    found again by its offsets; if the local storage has room, the report is sent with
    the values and the reasons of the entry, and the next one becomes the first to wait. *)
From Stdlib Require Import String.
From stdpp Require Import base tactics numbers option list.
From S2P Require Import Prelude Memory BerEncode BerInteger MmsValue MmsValueFacts MmsTimeBits Effects CString MmsTypeSpec Control ReportBuffer ReportControl Reporting ReportingAccess ReportingFacts ReportingInv.

(** ** Bits *)

(** Bit strings as values, with what [getBitStringBit] says of them. *)
Definition bit_string (v : MmsValue) (n : Z) (bit : Z -> bool) : Prop :=
  exists d buf, v = Simple d (V_BIT_STRING n buf) /\ bits_wf n buf /\ forall i, 0 <= i < n -> bit_at buf i = bit i.

Lemma bit_string_get v n bit i : bit_string v n bit -> 0 <= i < n -> MmsValue_getBitStringBit v i = Done (bit i).
Proof. intros (d & buf & -> & Hw & Hb) Hi. rewrite getBit_spec by done. by rewrite Hb. Qed.

Lemma bit_string_set v n bit i b : bit_string v n bit -> 0 <= i < n ->
  exists v', MmsValue_setBitStringBit v i b = Done v' /\ bit_string v' n (fun j => if j =? i then b else bit j).
Proof.
  intros (d & buf & -> & Hw & Hb) Hi. destruct (setBit_spec d n buf i b Hw Hi) as (buf' & E & Hw' & Hb').
  eexists. split; [exact E|]. exists d, buf'. split; [done|]. split; [done|]. intros j Hj.
  rewrite Hb' by done. destruct (j =? i); [done|by apply Hb].
Qed.

Lemma bit_string_ext v n bit bit' : bit_string v n bit -> (forall i, 0 <= i < n -> bit i = bit' i) -> bit_string v n bit'.
Proof. intros (d & buf & -> & Hw & Hb) E. exists d, buf. split_and!; try done. intros i Hi. rewrite Hb, E by done. done. Qed.

Lemma bits_wf_zeros n : 0 <= n -> bits_wf n (replicate (Z.to_nat (bitStringByteSize n)) 0).
Proof.
  intros Hn. pose proof (zlen_quot8 n Hn). unfold bits_wf, zlen. rewrite length_replicate. split_and!; [done|lia|].
  apply Forall_replicate. unfold is_byte. lia.
Qed.

Lemma bit_string_new n : 0 <= n -> bit_string (MmsValue_newBitString n) n (fun _ => false).
Proof.
  intros Hn. eexists _, _. split; [done|]. pose proof (bits_wf_zeros n Hn) as Hw. split; [done|]. intros i Hi.
  destruct (bits_in _ _ i Hw Hi) as (_ & _ & Hr & _ & b & Eb & _). unfold bit_at. rewrite Eb.
  apply lookup_replicate in Eb as [-> _]. apply Z.bits_0.
Qed.

Lemma full_byte_bit r : 0 <= r < 8 -> Z.testbit 255 r = true.
Proof. intros H. change 255 with (Z.ones 8). apply Z.ones_spec_low. lia. Qed.

Lemma last_byte_bit p r : 0 <= p < 8 -> p <= r < 8 ->
  Z.testbit (u8 (Z.land 255 (u8 (Z.lnot (paddingMask_loop (Z.to_nat p) 0 0))))) r = true.
Proof.
  intros Hp Hr. assert (p = 0 \/ p = 1 \/ p = 2 \/ p = 3 \/ p = 4 \/ p = 5 \/ p = 6 \/ p = 7) as H by lia.
  assert (r = 0 \/ r = 1 \/ r = 2 \/ r = 3 \/ r = 4 \/ r = 5 \/ r = 6 \/ r = 7) as H' by lia.
  destruct H as [->|[->|[->|[->|[->|[->|[->| ->]]]]]]]; destruct H' as [->|[->|[->|[->|[->|[->|[->| ->]]]]]]]; first [reflexivity|lia].
Qed.

(** All bits are set. *)
Lemma set_all_spec d n buf : 0 < n -> zlen buf = bitStringByteSize n ->
  exists v, MmsValue_setAllBitStringBits (Simple d (V_BIT_STRING n buf)) = Done v /\ bit_string v n (fun _ => true).
Proof.
  intros Hn Hl. unfold MmsValue_setAllBitStringBits. cbn [as_bit_string rbind]. cbv zeta. rewrite byteSize_eq by lia.
  destruct (byteSize_padding n Hn) as [Hk Hp]. set (k := bitStringByteSize n) in *.
  rewrite fill_loop_spec by lia. cbn [rbind]. change (u8 255) with 255.
  rewrite splice_whole by (unfold zlen in *; rewrite length_replicate; lia).
  assert (zlen (replicate (Z.to_nat k) 255) = k) as Hz by (unfold zlen; rewrite length_replicate; lia).
  rewrite (ld_lookup _ _ 255) by (lia || (apply lookup_replicate; split; [done|lia])). cbn [rbind].
  rewrite st_in by lia. cbn [rbind]. set (b := u8 _). eexists. split; [done|].
  eexists _, _. split; [done|]. split.
  - split; [lia|]. split; [unfold zlen in *; by rewrite length_insert|]. apply Forall_insert; [|apply u8_byte].
    apply Forall_replicate. unfold is_byte. lia.
  - intros i Hi. unfold bit_at. pose proof (Z.mod_pos_bound i 8 ltac:(lia)) as Hm. pose proof (Z.div_mod i 8 ltac:(lia)) as Hd.
    assert (i / 8 < k) as Hik by (apply Z.div_lt_upper_bound; lia). assert (0 <= i / 8) by (apply Z.div_pos; lia).
    destruct (Z.eq_dec (i / 8) (k - 1)) as [E|E].
    + rewrite E, list_lookup_insert_eq by (rewrite length_replicate; lia). unfold b. apply last_byte_bit; lia.
    + rewrite list_lookup_insert_ne by lia. rewrite lookup_replicate_2 by lia. apply full_byte_bit. lia.
Qed.

(** ** Items *)

Section Transmit.
Context (sizes : Sizes) (malloc : Z -> list Z).
Context (Hmms : 0 <= sizeof_MmsValue sizes) (Hptr : 0 <= sizeof_pointer sizes) (Hasn : 0 <= sizeof_Asn1PrimitiveValue sizes).

Lemma laid_app pos xs ys behind : laid sizes pos (xs ++ ys) behind <->
  exists mid, laid sizes pos xs mid /\ laid sizes mid ys behind.
Proof using.
  revert pos. induction xs as [|x xs IH]; intros pos; simpl.
  - split; [intros H; by exists pos|]. by intros (? & -> & ?).
  - split.
    + intros (H1 & n & H2 & H3 & (mid & H4 & H5)%IH). exists mid. split; [|done]. split; [done|]. by exists n.
    + intros (mid & (H1 & n & H2 & H3 & H4) & H5). split; [done|]. exists n. split_and!; try done. apply IH. by exists mid.
Qed.

Lemma laid_before pos items behind : laid sizes pos items behind -> Forall (fun it => it_offset it < behind) items.
Proof using.
  revert pos. induction items as [|it items IH]; intros pos; simpl; [done|].
  intros (<- & n & _ & Hn & H). constructor; [|by eapply IH]. apply laid_le in H. lia.
Qed.

(** The item at the offset is the one that was put there. *)
Lemma item_found report pre it post pos mid behind : re_items report = pre ++ it :: post ->
  laid sizes pos pre mid -> laid sizes mid (it :: post) behind ->
  item_at report mid = Done it.
Proof using.
  intros E Hpre [Ho _]. unfold item_at. rewrite E. pose proof (laid_before _ _ _ Hpre) as Hlt. clear E Hpre.
  induction pre as [|x pre IH]; cbn.
  - rewrite Ho, Z.eqb_refl. done.
  - apply Forall_cons in Hlt as [Hx Hlt]. rewrite (proj2 (Z.eqb_neq _ _)) by lia. by apply IH.
Qed.

(** [items] are those of the entries from [i] on that are included. *)
Fixpoint covers (n i : nat) (included : Z -> bool) (items : list ReportItem) : Prop :=
  match n with
  | O => items = []
  | S n =>
      if included (Z.of_nat i) then exists it items', items = it :: items' /\ covers n (S i) included items'
      else covers n (S i) included items
  end.

(** ** Local storage *)

(** There are [m] bytes left. *)
Definition room (l : MemAllocLinkedList) (m : Z) : Prop := ma_currentPtr (ml_ma l) + m <= ma_size (ml_ma l).

Lemma room_less l m m' : room l m -> m' <= m -> room l m'.
Proof using. unfold room. lia. Qed.

(** [put] adds the elements [els], with [n] bytes of the storage. *)
Definition puts (put : MemAllocLinkedList -> res (option MemAllocLinkedList)) (els : list ReportElement) (n : Z) : Prop :=
  0 <= n /\ forall l m, room l (n + m) -> 0 <= m ->
    exists l', put l = Done (Some l') /\ ml_elements l' = ml_elements l ++ els /\ room l' m.

Lemma puts_nothing : puts (fun l => Done (Some l)) [] 0.
Proof using. split; [done|]. intros l m Hr Hm. exists l. rewrite app_nil_r. split_and!; [done|done|]. eapply room_less; [exact Hr|lia]. Qed.

Lemma puts_seq p1 p2 els1 els2 n1 n2 : puts p1 els1 n1 -> puts p2 els2 n2 ->
  puts (fun l => let? l := p1 l in p2 l) (els1 ++ els2) (n1 + n2).
Proof using.
  intros [N1 H1] [N2 H2]. split; [lia|]. intros l m Hr Hm. destruct (H1 l (n2 + m)) as (l1 & E1 & El1 & R1).
  - eapply room_less; [exact Hr|lia].
  - lia.
  - destruct (H2 l1 m R1 Hm) as (l2 & E2 & El2 & R2). exists l2. rewrite E1. cbn [obind rbind].
    split_and!; [done| |done]. by rewrite El2, El1, app_assoc.
Qed.

Lemma puts_more put els n n' : puts put els n -> n <= n' -> puts put els n'.
Proof using.
  intros [Hn H] Hle. split; [lia|]. intros l m Hr Hm. destruct (H l (n' - n + m)) as (l' & E & El & R).
  - eapply room_less; [exact Hr|lia].
  - lia.
  - exists l'. split_and!; [done|done|]. eapply room_less; [exact R|lia].
Qed.

Lemma puts_ext p p' els n : (forall l, p l = p' l) -> puts p els n -> puts p' els n.
Proof using. intros E [Hn H]. split; [done|]. intros l m Hr Hm. rewrite <- E. by apply H. Qed.

Lemma puts_add e : puts (fun l => add sizes l e) [e] (2 * sizeof_pointer sizes).
Proof using Hptr.
  split; [lia|]. intros l m Hr Hm. unfold add, MemAllocLinkedList_add, MemoryAllocator_allocate, room in *.
  rewrite (proj2 (Z.leb_le _ _)) by lia. cbn. eexists. split; [done|]. cbn. split; [done|]. lia.
Qed.

Lemma puts_allocate n : 0 <= n -> puts (fun l => Done (allocate l n)) [] n.
Proof using.
  intros Hn. split; [done|]. intros l m Hr Hm. unfold allocate, MemoryAllocator_allocate, room in *.
  rewrite (proj2 (Z.leb_le _ _)) by lia. cbn. eexists. split; [done|]. cbn. rewrite app_nil_r. split; [done|]. lia.
Qed.

Lemma puts_add_new v : puts (fun l => add_new sizes l v) [ValueElement v] (sizeof_MmsValue sizes + 2 * sizeof_pointer sizes).
Proof using Hmms Hptr. apply (puts_seq _ _ [] [_]); [by apply puts_allocate|apply puts_add]. Qed.

(** The bytes for a value and for a reason. *)
Abbreviation value_room := (2 * sizeof_pointer sizes).
Abbreviation reason_room := (sizeof_MmsValue sizes + (1 + 2 * sizeof_pointer sizes)).

Section Report.
Context (report : ReportBufferEntry) (field : MmsValue) (count : Z) (included : Z -> bool).
Context (Hfield : re_flags report = 0 -> bit_string field count included).
Context (Hall : 0 < re_flags report -> forall i, included i = true) (Hflags : 0 <= re_flags report).

Lemma included_at f i : bit_string f count included -> 0 <= i < count ->
  (if 0 <? re_flags report then Done true else MmsValue_getBitStringBit f i) = Done (included i).
Proof using Hall.
  intros Hf Hi. destruct (Z.ltb_spec 0 (re_flags report)); [by rewrite Hall|]. by eapply bit_string_get.
Qed.

Lemma puts_values f n i pre items pos mid behind :
  bit_string f count included -> re_items report = pre ++ items -> laid sizes pos pre mid -> laid sizes mid items behind ->
  covers n i included items -> Z.of_nat i + Z.of_nat n <= count ->
  puts (fun l => report_values sizes n i report f mid l) (map (fun it => ValueElement (it_value it)) items)
    (value_room * zlen items).
Proof using Hptr Hall.
  intros Hf. revert i pre items mid. induction n as [|n IH]; intros i pre items mid E Hpre Hit Hc Hn; cbn [covers] in Hc.
  - subst items. rewrite zlen_nil, Z.mul_0_r. apply puts_nothing.
  - cbn [report_values]. rewrite included_at by (done || lia). cbn [rbind].
    destruct (included (Z.of_nat i)); [|by apply (IH (S i) pre items mid); try lia].
    destruct Hc as (it & items' & -> & Hc). rewrite (item_found report pre it items' pos mid behind E Hpre Hit). cbn [rbind].
    pose proof Hit as (Ho & k & Hk & Hk0 & Hit'). rewrite Hk. cbn [rbind].
    replace (value_room * zlen (it :: items')) with (value_room + value_room * zlen items') by (rewrite zlen_cons; lia).
    apply (puts_seq _ _ [ValueElement (it_value it)]); [apply puts_add|].
    apply (IH (S i) (pre ++ [it])); [by rewrite <- app_assoc| |done|done|lia].
    apply laid_app. exists mid. split; [done|]. split; [done|]. by exists k.
Qed.

(** The reason of an item. *)
Definition item_reason (it : ReportItem) : list Z :=
  if 0 <? re_flags report then complete_bits (re_flags report) else reason_bits (it_reason it).

Lemma new_reason_done bits : Forall (fun b => 0 <= b < 6) bits ->
  exists v, new_reason bits = Done v /\ bit_string v 6 (fun i => bool_decide (i ∈ bits)).
Proof using.
  unfold new_reason. intros Hb.
  assert (forall v bit, bit_string v 6 bit -> exists v', set_bits v (map (fun i => (i, true)) bits) = Done v' /\
    bit_string v' 6 (fun i => bool_decide (i ∈ bits) || bit i)) as H.
  { induction Hb as [|b bits Hb _ IH]; intros v bit Hv; cbn [map set_bits].
    - exists v. split; [done|]. eapply bit_string_ext; [exact Hv|]. intros i _. by rewrite bool_decide_false by apply not_elem_of_nil.
    - destruct (bit_string_set v 6 bit b true Hv Hb) as (v1 & -> & Hv1). cbn [rbind].
      destruct (IH v1 _ Hv1) as (v2 & E2 & Hv2). exists v2. split; [exact E2|]. eapply bit_string_ext; [exact Hv2|].
      intros i _. cbn. destruct (Z.eqb_spec i b) as [->|Hne].
      + rewrite orb_true_r, (bool_decide_true (b ∈ b :: bits)); [done|by left].
      + f_equal. apply bool_decide_ext. split; [by right|]. by intros [?|?]%elem_of_cons. }
  destruct (H (MmsValue_newBitString 6) (fun _ => false)) as (v & E & Hv); [by apply bit_string_new|].
  exists v. split; [exact E|]. eapply bit_string_ext; [exact Hv|]. intros i _. cbn. by rewrite orb_false_r.
Qed.

Lemma item_reason_bits it : Forall (fun b => 0 <= b < 6) (item_reason it).
Proof using.
  unfold item_reason, complete_bits, reason_bits.
  repeat case_match; repeat constructor; lia.
Qed.

Lemma puts_reasons f n i pre items pos mid behind :
  bit_string f count included -> re_items report = pre ++ items -> laid sizes pos pre mid -> laid sizes mid items behind ->
  covers n i included items -> Z.of_nat i + Z.of_nat n <= count ->
  exists reasons, Forall2 (fun it r => new_reason (item_reason it) = Done r) items reasons /\
    puts (fun l => report_reasons sizes n i report f mid l) (map ValueElement reasons) (reason_room * zlen items).
Proof using Hmms Hptr Hall.
  intros Hf. revert i pre items mid. induction n as [|n IH]; intros i pre items mid E Hpre Hit Hc Hn; cbn [covers] in Hc.
  - subst items. exists []. split; [constructor|]. rewrite zlen_nil, Z.mul_0_r. apply puts_nothing.
  - cbn [report_reasons]. rewrite included_at by (done || lia). cbn [rbind].
    destruct (included (Z.of_nat i)); [|by apply (IH (S i) pre items mid); try lia].
    destruct Hc as (it & items' & -> & Hc). rewrite (item_found report pre it items' pos mid behind E Hpre Hit). cbn [rbind].
    pose proof Hit as (Ho & k & Hk & Hk0 & Hit'). rewrite Hk. cbn [rbind].
    destruct (IH (S i) (pre ++ [it]) items' (mid + 1 + k)) as (reasons & HF & Hp); [by rewrite <- app_assoc| |done|done|lia|].
    { apply laid_app. exists mid. split; [done|]. split; [done|]. by exists k. }
    destruct (new_reason_done (item_reason it) (item_reason_bits it)) as (r & Er & _).
    exists (r :: reasons). split; [by constructor|].
    replace (reason_room * zlen (it :: items')) with (sizeof_MmsValue sizes + (1 + (value_room + reason_room * zlen items'))) by (rewrite zlen_cons; lia).
    apply (puts_seq _ _ [] (ValueElement r :: map ValueElement reasons)); [by apply puts_allocate|].
    apply (puts_seq _ _ [] (ValueElement r :: map ValueElement reasons)); [by apply puts_allocate|].
    eapply (puts_ext (fun l => let? l := add sizes l (ValueElement r) in report_reasons sizes n (S i) report f (mid + 1 + k) l));
      [|by apply (puts_seq _ _ [ValueElement r]); [apply puts_add|]].
    intros l. unfold item_reason in Er. destruct (0 <? re_flags report); by rewrite Er.
Qed.

(** ** The elements of a report *)

Context (optFlds : MmsValue) (opt : Z -> bool) (Hopt : bit_string optFlds 10 opt).

Lemma puts_if bit put els n : 0 <= bit < 10 -> puts put els n ->
  puts (fun l => add_if optFlds bit l put) (if opt bit then els else []) n.
Proof using Hopt.
  intros Hb Hp. apply (puts_ext (fun l => if opt bit then put l else Done (Some l))).
  - intros l. unfold add_if. by rewrite (bit_string_get _ _ _ _ Hopt Hb).
  - destruct (opt bit); [done|]. destruct Hp as [Hn _]. by eapply puts_more; [apply puts_nothing|].
Qed.

(** The attributes that the options ask for. *)
Definition header (rc : ReportControl) : list ReportElement :=
  (if opt 1 then [AttributeElement (rcb_index rc (lit "SqNum"))] else []) ++
  (if opt 2 then [TimeElement] else []) ++
  (if opt 4 then [AttributeElement (rcb_index rc (lit "DatSet"))] else []) ++
  (if opt 6 then [ValueElement (MmsValue_newBoolean false)] else []) ++
  (if opt 7 then [ValueElement (new_value (V_OCTET_STRING 8 8 (re_entryId report)))] else []) ++
  (if opt 8 then [AttributeElement (rc_confRev rc)] else []).

(** The inclusion field, the values and, if asked for, the reasons. *)
Definition body (field' : MmsValue) (reasons : list MmsValue) : list ReportElement :=
  ValueElement field' :: map (fun it => ValueElement (it_value it)) (re_items report) ++
  (if opt 3 then map ValueElement reasons else []).

Definition elements_room : Z :=
  2 * sizeof_MmsValue sizes + 14 * sizeof_pointer sizes + (value_room + reason_room) * zlen (re_items report).

Context (Hcount : 0 < count) (Hsize : exists d buf, field = Simple d (V_BIT_STRING count buf) /\ zlen buf = bitStringByteSize count).

(** The inclusion field that is sent. *)
Lemma inclusion_sent : exists field',
  (if 0 <? re_flags report then MmsValue_setAllBitStringBits field else Done field) = Done field' /\
  bit_string field' count included.
Proof using Hfield Hall Hflags Hcount Hsize.
  destruct (Z.ltb_spec 0 (re_flags report)) as [Hf|Hf].
  - destruct Hsize as (dd & buf & -> & Hb). destruct (set_all_spec dd count buf Hcount Hb) as (v & -> & Hv).
    exists v. split; [done|]. eapply bit_string_ext; [exact Hv|]. intros i _. by rewrite Hall.
  - exists field. split; [done|]. apply Hfield. lia.
Qed.

Lemma puts_elements rc d pos behind :
  rc_dataSet rc = DataSetAt d -> ds_elementCount d = count ->
  laid sizes pos (re_items report) behind -> covers (Z.to_nat count) 0 included (re_items report) ->
  exists field' reasons, bit_string field' count included /\
    Forall2 (fun it r => new_reason (item_reason it) = Done r) (re_items report) reasons /\
    puts (fun l => report_elements sizes rc optFlds report l field pos) (header rc ++ body field' reasons) elements_room.
Proof using Hmms Hptr Hfield Hall Hflags Hopt Hcount Hsize.
  intros Hd Hc Hl Hcov. destruct inclusion_sent as (field' & Ef & Hf'). exists field'.
  destruct (puts_values field' (Z.to_nat count) 0 [] (re_items report) pos pos behind) as [Hn Hv]; try done; [lia|].
  destruct (puts_reasons field' (Z.to_nat count) 0 [] (re_items report) pos pos behind) as (reasons & HF & Hr); try done; [lia|].
  exists reasons. split; [done|]. split; [done|]. unfold report_elements. rewrite Hd, Ef. cbn [deref rbind]. rewrite Hc.
  unfold header, body. rewrite <- !app_assoc. cbv zeta.
  change (ValueElement field' :: ?x) with ([ValueElement field'] ++ x).
  eapply puts_more.
  - do 6 (apply puts_seq; [apply puts_if; [lia|first [apply puts_add|apply puts_add_new]]|]).
    apply puts_seq; [apply puts_add|]. apply puts_seq; [split; [done|exact Hv]|]. apply puts_if; [lia|exact Hr].
  - unfold elements_room. lia.
Qed.
End Report.

(** ** Entries and blocks *)

(** An entry at [p] for a data set of [count] entries, of which [included] are in it. *)
Record encoded (count p : Z) (e : ReportBufferEntry) (included : Z -> bool) : Prop := mk_encoded {
  en_flags : 0 <= re_flags e;
  en_changed : re_flags e = 0 -> bit_string (new_value (V_BIT_STRING count (re_inclusion e))) count included;
  en_complete : 0 < re_flags e -> forall i, included i = true;
  en_covers : covers (Z.to_nat count) 0 included (re_items e);
  en_laid : exists behind, laid sizes (p + sizeof_ReportBufferEntry sizes +
    if re_flags e =? 0 then bitStringByteSize count else 0) (re_items e) behind;
  en_id : zlen (re_entryId e) = 8 }.

(** The local storage that the report needs. *)
Definition storage_room (count : Z) (e : ReportBufferEntry) : Z :=
  7 * sizeof_pointer sizes + (bitStringByteSize count + elements_room e).

(** The types of the attributes that a report changes. *)
Definition attr_ok (i : Z) (v : MmsValue) : Prop :=
  (i = 4 -> exists bit, bit_string v 10 bit) /\
  (i = 6 -> exists d a, v = Simple d (V_UNSIGNED a) /\ asn1_wf a) /\
  (i = 11 -> exists d x buf, v = Simple d (V_OCTET_STRING x 8 buf) /\ zlen buf = 8).

(** A buffered block with a data set and attributes of the types that the server gives them. *)
Record sendable (count : Z) (rc : ReportControl) : Prop := mk_sendable {
  sd_buffered : rc_buffered rc = true;
  sd_dataSet : exists d, rc_dataSet rc = DataSetAt d /\ ds_elementCount d = count;
  sd_field : exists v, rc_inclusionField rc = Some v /\ bits_of v count;
  sd_flags : exists flags, rc_inclusionFlags rc = Some flags /\ count <= zlen flags;
  sd_confRev : rc_confRev rc = Some 3;
  sd_time : rc_timeOfEntry rc = ElementTime 12;
  sd_attrs : Forall (fun i => exists v, attribute rc i = Some v /\ attr_ok i v) [0; 2; 3; 4; 6; 11; 12] }.

Lemma sendable_set count rc i v : attr_ok i v -> sendable count rc -> sendable count (rcb_set_element i v rc).
Proof using.
  intros Hv [H1 H2 H3 H4 H5 H6 H7]. pose proof (rc_rest_set_element i v rc) as Hr. unfold rc_rest in Hr.
  injection Hr as E1 _ E3 _ _ _ _ E6 E5. constructor; rewrite ?E1, ?E3, ?E5, ?E6; try done.
  - unfold rcb_set_element. by destruct (rc_rcbValues rc).
  - unfold rcb_set_element. by destruct (rc_rcbValues rc).
  - eapply Forall_impl; [exact H7|]. cbn. intros j (w & Hw & Hok). destruct (Z.eq_dec i j) as [<-|Hij].
    + exists v. split; [by eapply attribute_set_eq|done].
    + exists w. by rewrite attribute_set_other.
Qed.

Lemma sendable_attr count rc i : sendable count rc -> i ∈ [0; 2; 3; 4; 6; 11; 12] ->
  exists v, rcb_element rc i = Done (Some v) /\ attribute rc i = Some v /\ attr_ok i v.
Proof using.
  intros [_ _ _ _ _ _ H] Hi. rewrite Forall_forall in H. destruct (H i Hi) as (v & Hv & Hok). exists v. split_and!; try done.
  unfold attribute in Hv. unfold rcb_element. destruct (rc_rcbValues rc) as [vs|]; [|done]. cbn in Hv |- *. by rewrite Hv.
Qed.

(** *** The steps of [sendNextReportEntry] *)

Lemma set_EntryID_run count rc id es : sendable count rc -> zlen id = 8 ->
  exists v, set_EntryID id rc es = Done (tt, rcb_set_element 11 v rc, es) /\ attr_ok 11 v.
Proof using.
  intros Hs Hid. destruct (sendable_attr _ _ 11 Hs ltac:(repeat constructor)) as (v & Hv & _ & _ & _ & Hok).
  destruct (Hok eq_refl) as (d & x & buf & -> & Hb). exists (Simple d (V_OCTET_STRING (u16 8) 8 (splice buf 0 id))).
  assert (MmsValue_setOctetString (Simple d (V_OCTET_STRING x 8 buf)) (mk_ptr id 0) 8 = Done (Simple d (V_OCTET_STRING (u16 8) 8 (splice buf 0 id)))) as E.
  { unfold MmsValue_setOctetString. cbn [as_octet_string rbind]. change (8 <=? 8) with true. cbv iota.
    rewrite rd_list_whole by done. cbn [rbind]. rewrite st_list_fit by lia. done. }
  split.
  - unfold set_EntryID, self. rewrite bind_get. erewrite bind_lift; [|rewrite Hv; cbn [rbind defined]; exact E]. done.
  - split; [done|]. split; [done|]. intros _. do 3 eexists. split; [done|]. rewrite splice_whole by lia. lia.
Qed.

Lemma report_begin_spec count rc p e included :
  (forall n, 0 <= n -> zlen (malloc n) = n) -> 0 < count -> sendable count rc -> encoded count p e included ->
  storage_room count e <= LOCAL_STORAGE_MEMORY_SIZE ->
  exists l field pos behind, report_begin sizes malloc rc p e = Done (Some (l, field, pos)) /\
    ml_elements l = [AttributeElement (rcb_index rc (lit "RptID")); AttributeElement (rcb_index rc (lit "OptFlds"))] /\
    room l (elements_room e) /\ (re_flags e = 0 -> bit_string field count included) /\
    (exists d buf, field = Simple d (V_BIT_STRING count buf) /\ zlen buf = bitStringByteSize count) /\
    laid sizes pos (re_items e) behind.
Proof using Hmms Hptr.
  intros Hmal Hc Hs He Hroom. destruct (sd_field _ _ Hs) as (v & Ev & d & buf & ->).
  pose proof (zlen_quot8 count ltac:(lia)) as Hq. pose proof (zlen_nonneg (re_items e)) as Hz.
  assert (0 <= elements_room e) as H0 by (unfold elements_room; nia). unfold storage_room in Hroom.
  unfold report_begin, MemAllocLinkedList_create, MemoryAllocator_allocate, MemoryAllocator_init.
  cbn [ma_currentPtr ma_size]. rewrite (proj2 (Z.leb_le _ _)) by lia. cbn [mbind option_bind rbind].
  set (l0 := mkMemList _ _).
  destruct (puts_seq _ _ _ _ _ _ (puts_add (AttributeElement (rcb_index rc (lit "RptID")))) (puts_add (AttributeElement (rcb_index rc (lit "OptFlds")))))
    as [_ Hput]. destruct (Hput l0 (bitStringByteSize count + elements_room e)) as (l2 & E2 & El2 & R2).
  { unfold room, l0. cbn. lia. }
  { lia. }
  cbv beta in E2. destruct (add sizes l0 _) as [[l1|]| | |]; try discriminate E2. cbn [obind rbind] in E2 |- *. rewrite E2. cbn [obind rbind].
  rewrite Ev. cbn [defined rbind MmsValue_getBitStringSize as_bit_string].
  destruct (en_laid _ _ _ _ He) as [behind Hl]. destruct (Z.eqb_spec (re_flags e) 0) as [Hf|Hf].
  - destruct (en_changed _ _ _ _ He Hf) as (d' & buf' & [= <- <-] & Hw & Hb). pose proof Hw as (_ & Hlen & _).
    rewrite Hlen, Z.eqb_refl. do 3 eexists. exists behind. split; [done|]. split; [by rewrite El2|].
    split; [eapply room_less; [exact R2|lia]|]. split; [by eapply en_changed|]. split; [by do 2 eexists|]. exact Hl.
  - destruct (puts_allocate (bitStringByteSize count) Hq) as [_ Hal].
    destruct (Hal l2 (elements_room e) R2 H0) as (l3 & [= E3] & El3 & R3). rewrite E3. cbn [obind rbind].
    do 3 eexists. exists behind. split; [done|]. split; [by rewrite El3, El2, app_nil_r|]. split; [done|].
    split; [done|]. split; [do 2 eexists; split; [done|]; by apply Hmal|]. by rewrite Z.add_0_r in Hl.
Qed.

Lemma getRCBValue_run {A} count rc name i (k : option MmsValue -> R A) es : sendable count rc ->
  rcb_index rc name = Some i -> i ∈ [0; 2; 3; 4; 6; 11; 12] ->
  exists v, attribute rc i = Some v /\ attr_ok i v /\ cbind (getRCBValue name) k rc es = k (Some v) rc es.
Proof using.
  intros Hs Hi Hin. destruct (sendable_attr _ _ i Hs Hin) as (v & Hv & Ha & Hok). exists v. split_and!; [done|apply Hok..|].
  unfold getRCBValue, self. rewrite bind_assoc, bind_get. apply bind_lift. unfold ReportControl_getRCBValue. by rewrite Hi.
Qed.

(** The options that are not supported are cleared. *)
Definition sent_options (bit : Z -> bool) (i : Z) : bool := if i =? 9 then false else if i =? 5 then false else bit i.

Lemma clear_options v bit : bit_string v 10 bit ->
  exists v', set_bits v [(5, false); (9, false)] = Done v' /\ bit_string v' 10 (sent_options bit).
Proof using.
  intros Hv. cbn [set_bits]. destruct (bit_string_set v 10 bit 5 false Hv ltac:(lia)) as (v1 & -> & H1). cbn [rbind].
  destruct (bit_string_set v1 10 _ 9 false H1 ltac:(lia)) as (v2 & -> & H2). cbn [rbind]. by exists v2.
Qed.

Lemma increaseSqNum_run count rc es : sendable count rc ->
  exists v, increaseSqNum rc es =
    Done (tt, rcb_set_element 6 v (rc_set_sqNum (u16 (rc_sqNum rc + 1)) rc), es) /\ attr_ok 6 v.
Proof using.
  intros Hs. destruct (sendable_attr _ _ 6 Hs ltac:(repeat constructor)) as (w & Hw & _ & _ & Hok & _).
  destruct (Hok eq_refl) as (d & a & -> & Ha).
  assert (exists v, MmsValue_setUint16 (Simple d (V_UNSIGNED a)) (u16 (rc_sqNum rc + 1)) = Done v /\ attr_ok 6 v) as (v & Ev & Hv).
  { unfold MmsValue_setUint16, set_unsigned. destruct (2 <=? Asn1PrimitiveValue_getMaxSize a).
    - unfold BerInteger_setUint16. destruct (setIntegerValue_spec a 2 (u16 (rc_sqNum rc + 1)) Ha ltac:(lia)) as (a' & E & Ha').
      change (Z.of_nat 2) with 2 in E. rewrite E. cbn [rbind]. eexists. split; [done|]. split; [done|]. split; [|done]. intros _. do 2 eexists. split; [done|].
      destruct (_ <=? _); [apply Ha'|by subst].
    - eexists. split; [done|]. split; [done|]. split; [|done]. intros _. by do 2 eexists. }
  exists v. split; [|done]. unfold increaseSqNum, self. rewrite bind_get. cbv zeta. rewrite bind_modify.
  unfold getRCBValue, self. rewrite bind_assoc, bind_get.
  erewrite bind_lift; [|unfold ReportControl_getRCBValue, rcb_index; cbn [rc_buffered rc_set_sqNum]; rewrite (sd_buffered _ _ Hs); exact Hw].
  erewrite bind_lift; [|exact Ev]. unfold cmodify, rcb_set, rcb_index.
  change (rc_buffered (rc_set_sqNum (u16 (rc_sqNum rc + 1)) rc)) with (rc_buffered rc). by rewrite (sd_buffered _ _ Hs).
Qed.

(** What the elements of a report are. *)
Lemma element_values_run rc els vs : Forall2 (fun el v => element_value rc el = Done (Some v)) els vs ->
  element_values rc els = Done (map Some vs).
Proof using. induction 1 as [|el v els vs H _ IH]; cbn [element_values map]; [done|]. by rewrite H, IH. Qed.

Lemma all_defined_run vs : all_defined (map Some vs) = Done vs.
Proof using. induction vs as [|v vs IH]; cbn; [done|]. by rewrite IH. Qed.

Definition is_value (rc : ReportControl) (el : ReportElement) : Prop := exists v, element_value rc el = Done (Some v).

Lemma values_exist rc els : Forall (is_value rc) els ->
  exists vs, Forall2 (fun el v => element_value rc el = Done (Some v)) els vs.
Proof using.
  induction 1 as [|el els [v Hv] _ [vs Hvs]]; [by exists []|]. exists (v :: vs). by constructor.
Qed.

Lemma header_values count rc opt e : sendable count rc -> Forall (is_value rc) (header e opt rc).
Proof using.
  intros Hs. assert (forall i, i ∈ [0; 2; 3; 4; 6; 11; 12] -> is_value rc (AttributeElement (Some i))) as Ha.
  { intros i Hi. destruct (sendable_attr _ _ i Hs Hi) as (v & Hv & _). by exists v. }
  unfold header, rcb_index. rewrite (sd_buffered _ _ Hs), (sd_confRev _ _ Hs).
  change (position (lit "SqNum") (rcb_elements true)) with (Some 6). change (position (lit "DatSet") (rcb_elements true)) with (Some 2).
  assert (is_value rc TimeElement) as Ht.
  { destruct (sendable_attr _ _ 12 Hs ltac:(repeat constructor)) as (v & Hv & _). exists v. cbn.
    unfold time_of_entry. rewrite (sd_time _ _ Hs), Hv. done. }
  assert (forall v, is_value rc (ValueElement v)) as Hv by (intros v; by exists v).
  rewrite !Forall_app. repeat split; case_match; constructor; auto; apply Ha; repeat constructor.
Qed.

Lemma rest_set_buffer i v rc : rc_reportBuffer (rcb_set_element i v rc) = rc_reportBuffer rc.
Proof using. pose proof (rc_rest_set_element i v rc) as H. unfold rc_rest in H. by injection H. Qed.

Lemma rest_set_client i v rc : rc_clientConnection (rcb_set_element i v rc) = rc_clientConnection rc.
Proof using. pose proof (rc_rest_set_element i v rc) as H. unfold rc_rest in H. by injection H. Qed.

(** What decides whether there is something to report. *)
Definition rc_events (rc : ReportControl) := (rc_enabled rc, rc_triggered rc, rc_gi rc, rc_intgPd rc).

Lemma rest_set_events i v rc : rc_events (rcb_set_element i v rc) = rc_events rc.
Proof using. unfold rcb_set_element. by destruct (rc_rcbValues rc). Qed.

(** The report at the head of the queue is sent: its attributes, the inclusion field,
    its values and its reasons. *)
Definition report_sent (count : Z) (e : ReportBufferEntry) (included bit : Z -> bool) (values : list MmsValue) : Prop :=
  exists attributes field' reasons,
    values = attributes ++ field' :: map it_value (re_items e) ++ (if bit 3 then reasons else []) /\
    zlen attributes = 2 + zlen (List.filter (fun i => sent_options bit i) [1; 2; 4; 6; 7; 8]) /\
    bit_string field' count included /\
    Forall2 (fun it r => new_reason (item_reason e it) = Done r) (re_items e) reasons.

Lemma sent_values rc count e included bit field' reasons vs :
  Forall2 (fun el v => element_value rc el = Done (Some v))
    ([AttributeElement (rcb_index rc (lit "RptID")); AttributeElement (rcb_index rc (lit "OptFlds"))] ++
     header e (sent_options bit) rc ++ body e (sent_options bit) field' reasons) vs ->
  bit_string field' count included ->
  Forall2 (fun it r => new_reason (item_reason e it) = Done r) (re_items e) reasons ->
  report_sent count e included bit vs.
Proof using.
  intros HF Hf Hr. rewrite app_assoc in HF. apply Forall2_app_inv_l in HF as (attributes & vs2 & HF1 & HF2 & ->).
  exists attributes, field', reasons. split; [|split; [|done]].
  - unfold body in HF2. apply Forall2_cons_inv_l in HF2 as (f & vs3 & [= <-] & HF2 & ->).
    apply Forall2_app_inv_l in HF2 as (vs4 & vs5 & HF3 & HF4 & ->).
    assert (forall A (f : A -> MmsValue) l vs, Forall2 (fun el v => element_value rc el = Done (Some v))
      (map (fun x => ValueElement (f x)) l) vs -> vs = map f l) as Hmap.
    { intros A g l. induction l as [|x l IH]; intros vs HF; [by apply Forall2_nil_inv_l in HF as ->|].
      apply Forall2_cons_inv_l in HF as (y & ys & [= <-] & HF & ->). cbn. f_equal. by apply IH. }
    apply Hmap in HF3 as ->. change (sent_options bit 3) with (bit 3) in HF4. destruct (bit 3).
    + apply (Hmap _ (fun x => x)) in HF4 as ->. by rewrite List.map_id.
    + by apply Forall2_nil_inv_l in HF4 as ->.
  - apply Forall2_length in HF1. unfold zlen. rewrite <- HF1, length_app. unfold header. rewrite !length_app.
    cbn [List.filter]. destruct (sent_options bit 1), (sent_options bit 2), (sent_options bit 4), (sent_options bit 6),
      (sent_options bit 7), (sent_options bit 8); reflexivity.
Qed.

(** Every element of the report is a value. *)
Lemma elements_exist count rc e opt field' reasons : sendable count rc ->
  Forall (is_value rc) ([AttributeElement (rcb_index rc (lit "RptID")); AttributeElement (rcb_index rc (lit "OptFlds"))] ++
    header e opt rc ++ body e opt field' reasons).
Proof using.
  intros Hs. assert (forall A (f : A -> MmsValue) l, Forall (is_value rc) (map (fun x => ValueElement (f x)) l)) as Hm.
  { intros A f l. induction l; constructor; [by eexists|done]. }
  apply Forall_app. split; [|apply Forall_app; split; [by eapply header_values|]].
  - assert (rcb_index rc (lit "RptID") = Some 0 /\ rcb_index rc (lit "OptFlds") = Some 4) as [-> ->]
      by (unfold rcb_index; by rewrite (sd_buffered _ _ Hs)).
    destruct (sendable_attr _ _ 0 Hs ltac:(repeat constructor)) as (w0 & Hw0 & _).
    destruct (sendable_attr _ _ 4 Hs ltac:(repeat constructor)) as (w4 & Hw4 & _). repeat constructor; by eexists.
  - unfold body. constructor; [by eexists|]. apply Forall_app. split; [apply Hm|].
    case_match; [apply (Hm _ (fun x => x))|constructor].
Qed.

(** The end of [sendNextReportEntry]: the report goes to the client, and the next one waits. *)
Lemma finish_run count rc b p e next els vs es :
  sendable count rc -> rc_reportBuffer rc = Some b -> rb_memoryBlock b !! p = Some (e, next) -> next <> Some p ->
  Forall2 (fun el v => element_value rc el = Done (Some v)) els vs ->
  exists rc', (do! elements := clift (element_values rc els) in
      do! _ := MmsServerConnection_sendInformationReport elements in
      do! _ := increaseSqNum in
      advance p) rc es = Done (tt, rc', es ++ [InformationReport (rc_clientConnection rc) vs]) /\
    rc_reportBuffer rc' = Some (set_nextToTransmit next b) /\ sendable count rc' /\
    rc_clientConnection rc' = rc_clientConnection rc /\ rc_events rc' = rc_events rc.
Proof using.
  intros Hs Hb He Hne Hvs. rewrite (bind_lift _ _ _ _ _ (element_values_run _ _ _ Hvs)).
  unfold MmsServerConnection_sendInformationReport, self. rewrite bind_assoc, bind_get, bind_assoc.
  rewrite (bind_lift _ _ _ _ _ (all_defined_run vs)), bind_emit.
  destruct (increaseSqNum_run count rc (es ++ [InformationReport (rc_clientConnection rc) vs]) Hs) as (v6 & E6 & Hok6).
  rewrite (bind_run _ _ _ _ _ _ _ E6). set (rc1 := rcb_set_element 6 v6 _).
  assert (sendable count rc1) as Hs1 by (apply sendable_set; [done|]; destruct Hs; by constructor).
  assert (rc_reportBuffer rc1 = Some b) as Hb1 by (unfold rc1; by rewrite rest_set_buffer).
  unfold advance, self. rewrite bind_get. rewrite (bind_lift _ _ _ _ b) by by rewrite Hb1.
  rewrite (bind_lift _ _ _ _ (e, next)) by (unfold read_entry; by rewrite He). cbv beta.
  rewrite bool_decide_false by done. eexists. split; [done|]. split; [done|]. split.
  - destruct Hs1. by constructor.
  - split; [unfold rc1; cbn; by rewrite rest_set_client|]. change (rc_events rc1 = rc_events rc). unfold rc1. by rewrite rest_set_events.
Qed.

Lemma sendNextReportEntry_spec count rc b p e next included es :
  (forall n, 0 <= n -> zlen (malloc n) = n) -> 0 < count -> sendable count rc ->
  rc_reportBuffer rc = Some b -> rb_nextToTransmit b = Some p -> rb_memoryBlock b !! p = Some (e, next) -> next <> Some p ->
  encoded count p e included -> storage_room count e <= LOCAL_STORAGE_MEMORY_SIZE ->
  exists rc' bit optFlds values, sendNextReportEntry sizes malloc rc es =
      Done (tt, rc', es ++ [InformationReport (rc_clientConnection rc) values]) /\
    attribute rc 4 = Some optFlds /\ bit_string optFlds 10 bit /\ report_sent count e included bit values /\
    rc_reportBuffer rc' = Some (set_nextToTransmit next b) /\ sendable count rc' /\
    rc_clientConnection rc' = rc_clientConnection rc /\ rc_events rc' = rc_events rc.
Proof using Hmms Hptr.
  intros Hmal Hc Hs Hb Hp He Hne Hen Hroom. unfold sendNextReportEntry, self. rewrite bind_get.
  rewrite (bind_lift _ _ _ _ b) by by rewrite Hb. rewrite Hp. rewrite (bind_lift _ _ _ _ (e, next)) by (unfold read_entry; by rewrite He).
  destruct (set_EntryID_run count rc (re_entryId e) es Hs (en_id _ _ _ _ Hen)) as (v1 & E1 & Hok1).
  cbv beta. rewrite (bind_run _ _ _ _ _ _ _ E1).
  destruct (report_begin_spec count rc p e included Hmal Hc Hs Hen Hroom) as (l & field & pos & behind & Eb & El & Rl & Hf & Hfs & Hl).
  rewrite (bind_lift _ _ _ _ _ Eb). set (rc1 := rcb_set_element 11 v1 rc).
  assert (sendable count rc1) as Hs1 by by apply sendable_set.
  match goal with |- context [cbind (getRCBValue (lit "OptFlds")) ?k rc1 es] =>
    destruct (getRCBValue_run count rc1 (lit "OptFlds") 4 k es Hs1) as (v4 & Ha4 & (Hbit & _) & ->) end.
  { unfold rcb_index. by rewrite (sd_buffered _ _ Hs1). }
  { repeat constructor. }
  destruct (Hbit eq_refl) as [bit Hv4]. destruct (clear_options v4 bit Hv4) as (o & Eo & Ho). cbn [defined rbind].
  rewrite (bind_lift _ _ _ _ _ Eo), bind_modify, bind_get.
  assert (rcb_set (lit "OptFlds") o rc1 = rcb_set_element 4 o rc1) as ->
    by (unfold rcb_set, rcb_index; by rewrite (sd_buffered _ _ Hs1)).
  set (rc2 := rcb_set_element 4 o rc1).
  assert (sendable count rc2) as Hs2 by (apply sendable_set; [split; [by eexists|done]|done]).
  destruct (sd_dataSet _ _ Hs2) as (d & Hd & Hdc).
  destruct (puts_elements e field count included Hf (en_complete _ _ _ _ Hen) (en_flags _ _ _ _ Hen) o (sent_options bit) Ho Hc Hfs rc2 d pos behind Hd Hdc Hl (en_covers _ _ _ _ Hen))
    as (field' & reasons & Hf' & Hr & _ & Hput).
  destruct (Hput l 0) as (l' & El' & Hels & _); [by rewrite Z.add_0_r|done|]. rewrite (bind_lift _ _ _ _ _ El').
  assert (forall name, rcb_index rc name = rcb_index rc2 name) as Hix by (intros; unfold rcb_index; by rewrite (sd_buffered _ _ Hs), (sd_buffered _ _ Hs2)).
  rewrite El, !Hix in Hels. destruct (values_exist rc2 (ml_elements l')) as [vs Hvs]; [rewrite Hels; by eapply elements_exist|].
  destruct (finish_run count rc2 b p e next (ml_elements l') vs es) as (rc' & Erun & Hb' & Hs' & Hcl' & Hev'); try done.
  { unfold rc2, rc1. by rewrite !rest_set_buffer. }
  assert (rc_clientConnection rc2 = rc_clientConnection rc) as Hcl by (unfold rc2, rc1; by rewrite !rest_set_client).
  exists rc', bit, v4, vs. rewrite Erun, Hcl. split; [done|]. unfold rc1 in Ha4. rewrite attribute_set_other in Ha4 by done.
  split; [done|]. split; [done|]. split; [rewrite Hels in Hvs; by eapply sent_values|].
  split_and!; [done|done|by rewrite <- Hcl|]. rewrite Hev'. unfold rc2, rc1. by rewrite !rest_set_events.
Qed.

(** ** The server loop *)

(** Nothing is to be reported but what waits in the buffer of an enabled block. *)
Definition quiet (rc : ReportControl) : Prop := rc_events rc = (true, false, false, 0).

Lemma process_quiet env t rc es count : quiet rc -> sendable count rc ->
  processEventsForReport sizes malloc env t rc es = sendNextReportEntry sizes malloc rc es.
Proof using.
  intros [= He Ht Hg Hi] Hs. unfold processEventsForReport, self. rewrite bind_get, He. cbn [orb].
  unfold process_gi, self. rewrite bind_assoc, bind_get, Hg, andb_false_r, bind_ret.
  unfold process_integrity, self. rewrite bind_assoc, bind_get, Hi. change (0 <? 0) with false.
  rewrite andb_false_r. cbn [andb]. rewrite bind_ret.
  unfold process_triggered, self. rewrite bind_assoc, bind_get, Ht, bind_ret, bind_get.
  by rewrite (sd_buffered _ _ Hs), He.
Qed.

(** Runs of the server loop at the times [ts]. *)
Fixpoint ticks (env : Z -> ReportEnv) (ts : list Z) : R unit :=
  match ts with
  | [] => cret tt
  | t :: ts => do! _ := processEventsForReport sizes malloc (env t) t in ticks env ts
  end.

(** The next entry is another one. *)
Lemma linked_next h b l k p e next : 0 < h -> buffer_inv h b l k -> rb_nextToTransmit b = Some p ->
  rb_memoryBlock b !! p = Some (e, next) -> next <> Some p.
Proof using.
  intros Hh Hb Hp He ->. destruct (advance_inv h b l k p e _ Hb Hp He) as [Hb' Hk].
  pose proof (bi_next _ _ _ _ Hb') as Hn. cbn in Hn. symmetry in Hn. apply first_offset_drop in Hn as Hin.
  destruct (drop (S k) l) as [|[q f] r] eqn:Ed; [done|]. injection Hn as ->.
  assert (l !! S k = Some (p, f)) as Hk' by (rewrite <- (Nat.add_0_r (S k)), <- lookup_drop, Ed; done).
  pose proof (layout_NoDup h Hh _ _ (bi_layout _ _ _ _ Hb)) as Hd.
  assert (k = S k); [|lia]. eapply (NoDup_lookup _ k (S k) p Hd); by rewrite list_lookup_fmap, ?Hk, ?Hk'.
Qed.

(** A waiting report can be sent: it was made for the data set, and there is storage. *)
Definition fits (count : Z) (x : Z * ReportBufferEntry) : Prop :=
  storage_room count x.2 <= LOCAL_STORAGE_MEMORY_SIZE /\ exists included, encoded count x.1 x.2 included.

(** The event that sends an entry. *)
Definition sends_entry (count : Z) (client : option Z) (x : Z * ReportBufferEntry) (ev : ReportEvent) : Prop :=
  exists included bit values, ev = InformationReport client values /\ encoded count x.1 x.2 included /\
    report_sent count x.2 included bit values.

Lemma tick_sends env count h t rc b l k x es :
  (forall n, 0 <= n -> zlen (malloc n) = n) -> 0 < h -> 0 < count -> sendable count rc -> quiet rc ->
  rc_reportBuffer rc = Some b -> buffer_inv h b l k -> l !! k = Some x -> fits count x ->
  exists rc' ev b', processEventsForReport sizes malloc env t rc es = Done (tt, rc', es ++ [ev]) /\
    sends_entry count (rc_clientConnection rc) x ev /\ sendable count rc' /\ quiet rc' /\
    rc_clientConnection rc' = rc_clientConnection rc /\ rc_reportBuffer rc' = Some b' /\ buffer_inv h b' l (S k).
Proof using Hmms Hptr.
  intros Hmal Hh Hc Hs Hq Hb Hi Hk [Hroom [included Hen]]. destruct x as [p e]. cbn [fst snd] in *.
  assert (rb_nextToTransmit b = Some p) as Hp.
  { rewrite (bi_next _ _ _ _ Hi). rewrite (drop_S l (p, e) k Hk). done. }
  assert (exists next, rb_memoryBlock b !! p = Some (e, next)) as [next He].
  { pose proof (bi_linked _ _ _ _ Hi) as Hl. rewrite <- (take_drop_middle l k (p, e) Hk) in Hl.
    apply linked_app in Hl as (q & _ & -> & n & Hm & _). by exists n. }
  pose proof (linked_next h b l k p e next Hh Hi Hp He) as Hne.
  rewrite (process_quiet env t rc es count Hq Hs).
  destruct (sendNextReportEntry_spec count rc b p e next included es) as (rc' & bit & o & values & -> & _ & _ & Hsent & Hb' & Hs' & Hcl & Hev); try done.
  destruct (advance_inv h b l k p e next Hi Hp He) as [Hi' _].
  do 3 eexists. split; [done|]. split; [by exists included, bit, values|]. split; [done|]. split; [|done]. unfold quiet. by rewrite Hev.
Qed.

Lemma ticks_send_all env count h ts rc b l k es :
  (forall n, 0 <= n -> zlen (malloc n) = n) -> 0 < h -> 0 < count -> sendable count rc -> quiet rc ->
  rc_reportBuffer rc = Some b -> buffer_inv h b l k -> Forall (fits count) (drop k l) -> length ts = (length l - k)%nat ->
  exists rc' evs b', ticks env ts rc es = Done (tt, rc', es ++ evs) /\
    Forall2 (sends_entry count (rc_clientConnection rc)) (drop k l) evs /\
    rc_reportBuffer rc' = Some b' /\ buffer_inv h b' l (length l) /\ rb_nextToTransmit b' = None.
Proof using Hmms Hptr.
  intros Hmal Hh Hc. revert rc b k es. induction ts as [|t ts IH]; intros rc b k es Hs Hq Hb Hi HF Hlen.
  - assert (k = length l) as -> by (pose proof (bi_sent _ _ _ _ Hi); simpl in Hlen; lia).
    exists rc, [], b. rewrite app_nil_r, drop_ge by lia. split; [done|]. split; [constructor|]. split; [done|]. split; [done|].
    rewrite (bi_next _ _ _ _ Hi), drop_ge by lia. done.
  - destruct (lookup_lt_is_Some_2 l k) as [x Hk]; [simpl in Hlen; lia|]. rewrite (drop_S l x k Hk) in HF |- *.
    apply Forall_cons in HF as [Hx HF].
    destruct (tick_sends (env t) count h t rc b l k x es) as (rc1 & ev & b1 & E1 & Hsend & Hs1 & Hq1 & Hcl & Hb1 & Hi1); try done.
    destruct (IH rc1 b1 (S k) (es ++ [ev])) as (rc' & evs & b' & E2 & HF2 & Hb' & Hi' & Hn); try done; [simpl in Hlen; lia|].
    exists rc', (ev :: evs), b'. cbn [ticks]. rewrite (bind_run _ _ _ _ _ _ _ E1), E2, <- app_assoc.
    split; [done|]. split; [|done]. constructor; [done|]. by rewrite <- Hcl.
Qed.
End Transmit.

(** Reporting: what is enqueued.  The entry of a report holds copies of the values, with
    their reasons, and the bits of the entries that it includes. *)

Section Encode.
Context (sizes : Sizes) (env : ReportEnv).
Context (Hmms : 0 <= sizeof_MmsValue sizes) (Hptr : 0 <= sizeof_pointer sizes) (Hasn : 0 <= sizeof_Asn1PrimitiveValue sizes).

(** ** Values that changed *)

(** The flag of an entry says that it is to be reported. *)
Definition flagged (flags : list Z) (i : Z) : bool :=
  match flags !! Z.to_nat i with Some f => negb (f =? REPORT_CONTROL_NONE) | None => false end.

(** The flags and the values of the flagged entries, from [i] on. *)
Fixpoint changes (n i : nat) (flags : list Z) (values : list (option MmsValue)) : list (Z * option MmsValue) :=
  match n with
  | O => []
  | S n =>
      match flags !! i with
      | Some f => if f =? REPORT_CONTROL_NONE then [] else [(f, mjoin (values !! i))]
      | None => []
      end ++ changes n (S i) flags values
  end.

(** An item that was made of a value, with the reason. *)
Definition copied (x : Z * option MmsValue) (it : ReportItem) : Prop :=
  it_reason it = u8 x.1 /\ exists v a b, x.2 = Some v /\ cloneToBuffer sizes v a = Done (b, it_value it).

Lemma at_index_Some {A} (l : list A) i x : at_index (Some l) i = Done x -> l !! i = Some x.
Proof using. unfold at_index. cbn. by destruct (l !! i); intros [= ->]. Qed.

(** The bits of the entries from [i] on, after those from [i + 1] on. *)
Lemma widen_unset flags (bit : Z -> bool) n i j : flags !! i = Some REPORT_CONTROL_NONE ->
  (if (Z.of_nat (S i) <=? j) && (j <? Z.of_nat (S i) + Z.of_nat n) then flagged flags j || bit j else bit j) =
  (if (Z.of_nat i <=? j) && (j <? Z.of_nat i + Z.of_nat (S n)) then flagged flags j || bit j else bit j).
Proof using.
  intros Ef. assert (flagged flags (Z.of_nat i) = false) as Hfl by (unfold flagged; by rewrite Nat2Z.id, Ef).
  destruct (Z.eq_dec j (Z.of_nat i)) as [->|Hj].
  - rewrite Hfl. cbn [negb orb]. by do 2 case_match.
  - destruct (Z.leb_spec (Z.of_nat i) j), (Z.leb_spec (Z.of_nat (S i)) j); try lia; [|done].
    cbn [andb]. by replace (Z.of_nat (S i) + Z.of_nat n) with (Z.of_nat i + Z.of_nat (S n)) by lia.
Qed.

Lemma widen_set flags (bit : Z -> bool) n i j f : flags !! i = Some f -> f <> REPORT_CONTROL_NONE ->
  (if (Z.of_nat (S i) <=? j) && (j <? Z.of_nat (S i) + Z.of_nat n)
   then flagged flags j || (if j =? Z.of_nat i then true else bit j) else if j =? Z.of_nat i then true else bit j) =
  (if (Z.of_nat i <=? j) && (j <? Z.of_nat i + Z.of_nat (S n)) then flagged flags j || bit j else bit j).
Proof using.
  intros Ef Hne. assert (flagged flags (Z.of_nat i) = true) as Hfl
    by (unfold flagged; by rewrite Nat2Z.id, Ef, (proj2 (Z.eqb_neq _ _) Hne)).
  destruct (Z.eq_dec j (Z.of_nat i)) as [->|Hj].
  - rewrite Hfl, Z.eqb_refl, Z.leb_refl, (proj2 (Z.ltb_lt (Z.of_nat i) (Z.of_nat i + Z.of_nat (S n)))) by lia.
    cbn [negb orb andb]. by case_match.
  - rewrite (proj2 (Z.eqb_neq _ _) Hj).
    destruct (Z.leb_spec (Z.of_nat i) j), (Z.leb_spec (Z.of_nat (S i)) j); try lia; [|done].
    cbn [andb]. by replace (Z.of_nat (S i) + Z.of_nat n) with (Z.of_nat i + Z.of_nat (S n)) by lia.
Qed.

Lemma changed_items_spec m n i flags values pos field bit items field' :
  bit_string field m bit -> Z.of_nat i + Z.of_nat n <= m ->
  changed_items sizes n i (Some flags) (Some values) pos field = Done (items, field') ->
  covers n i (flagged flags) items /\ Forall2 copied (changes n i flags values) items /\
  bit_string field' m (fun j => if (Z.of_nat i <=? j) && (j <? Z.of_nat i + Z.of_nat n) then flagged flags j || bit j else bit j).
Proof using.
  revert i pos field bit items. induction n as [|n IH]; intros i pos field bit items Hf Hm; cbn [changed_items covers changes].
  - intros [= <- <-]. split; [done|]. split; [constructor|]. eapply bit_string_ext; [exact Hf|]. intros j _.
    destruct (Z.leb_spec (Z.of_nat i) j); [|done]. by rewrite (proj2 (Z.ltb_ge j _)) by lia.
  - destruct (at_index (Some flags) i) as [f| | |] eqn:Ef; try discriminate. cbn [rbind]. apply at_index_Some in Ef.
    assert (flagged flags (Z.of_nat i) = negb (f =? REPORT_CONTROL_NONE)) as Hfl by (unfold flagged; by rewrite Nat2Z.id, Ef).
    rewrite Ef, Hfl. destruct (Z.eqb_spec f REPORT_CONTROL_NONE) as [->|Hne]; cbn [negb app].
    + intros H. destruct (IH (S i) pos field bit items Hf ltac:(lia) H) as (H1 & H2 & H3). split_and!; [done|done|].
      eapply bit_string_ext; [exact H3|]. intros j _. by apply (widen_unset flags bit n i j).
    + destruct (at_index (Some values) i) as [[v|]| | |] eqn:Ev; try discriminate. cbn [rbind]. apply at_index_Some in Ev.
      destruct (cloneToBuffer sizes v (pos + 1)) as [[b v']| | |] eqn:Ec; try discriminate. cbn [rbind].
      destruct (bit_string_set field m bit (Z.of_nat i) true Hf ltac:(lia)) as (field1 & -> & Hf1). cbn [rbind].
      destruct (changed_items sizes n (S i) (Some flags) (Some values) b field1) as [[items1 field2]| | |] eqn:Ei; try discriminate.
      intros [= <- <-]. destruct (IH (S i) b field1 _ items1 Hf1 ltac:(lia) Ei) as (H1 & H2 & H3).
      split; [by do 2 eexists|]. split.
      * constructor; [|done]. split; [done|]. exists v, (pos + 1), b. by rewrite Ev.
      * eapply bit_string_ext; [exact H3|]. intros j _. by apply (widen_set flags bit n i j f).
Qed.

(** ** All values *)

Definition copied_entry (e : DataSetEntry) (it : ReportItem) : Prop :=
  exists h a b, dse_value e = Some h /\ cloneToBuffer sizes (n_value env h) a = Done (b, it_value it).

Lemma complete_items_spec n i es flags pos items :
  complete_items sizes env n i es flags pos = Done items ->
  covers n i (fun _ => true) items /\ Forall2 copied_entry (take n es) items.
Proof using.
  revert i es pos items. induction n as [|n IH]; intros i es pos items; cbn [complete_items covers].
  - intros [= <-]. split; [done|constructor].
  - destruct es as [|e es]; [done|]. destruct (at_index flags i) as [f| | |]; try discriminate. cbn [rbind].
    unfold entry_value. destruct (dse_value e) as [hd|] eqn:Ev; [|done]. cbn [rbind].
    destruct (cloneToBuffer sizes (n_value env hd) (pos + 1)) as [[b v']| | |] eqn:Ec; try discriminate. cbn [rbind].
    destruct (complete_items sizes env n (S i) es flags b) as [items1| | |] eqn:Ei; try discriminate.
    intros [= <-]. destruct (IH _ _ _ _ Ei) as [H1 H2]. split; [by do 2 eexists|]. cbn [take]. constructor; [|done].
    by exists hd, (pos + 1), b.
Qed.

(** ** Reports that are sent at once *)

Lemma changed_values_spec m n i es flags values field bit vs field' :
  bit_string field m bit -> Z.of_nat i + Z.of_nat n <= m ->
  changed_values env n i es (Some flags) (Some values) field = Done (vs, field') ->
  map Some vs = map snd (changes n i flags values) /\
  bit_string field' m (fun j => if (Z.of_nat i <=? j) && (j <? Z.of_nat i + Z.of_nat n) then flagged flags j || bit j else bit j).
Proof using.
  revert i es field bit vs. induction n as [|n IH]; intros i es field bit vs Hf Hm; cbn [changed_values changes].
  - intros [= <- <-]. split; [done|]. eapply bit_string_ext; [exact Hf|]. intros j _.
    destruct (Z.leb_spec (Z.of_nat i) j); [|done]. by rewrite (proj2 (Z.ltb_ge j _)) by lia.
  - destruct es as [|e es]; [done|]. destruct (entry_value env AssertFailed e) as [?| | |]; try discriminate. cbn [rbind].
    destruct (at_index (Some flags) i) as [f| | |] eqn:Ef; try discriminate. cbn [rbind]. apply at_index_Some in Ef.
    rewrite Ef. destruct (Z.eqb_spec f REPORT_CONTROL_NONE) as [->|Hne]; cbn [app].
    + intros H. destruct (IH (S i) es field bit vs Hf ltac:(lia) H) as (H1 & H2). split; [done|].
      eapply bit_string_ext; [exact H2|]. intros j _. by apply (widen_unset flags bit n i j).
    + destruct (at_index (Some values) i) as [[v|]| | |] eqn:Ev; try discriminate. cbn [rbind]. apply at_index_Some in Ev.
      destruct (bit_string_set field m bit (Z.of_nat i) true Hf ltac:(lia)) as (field1 & -> & Hf1). cbn [rbind].
      destruct (changed_values env n (S i) es (Some flags) (Some values) field1) as [[vs1 field2]| | |] eqn:Ei; try discriminate.
      intros [= <- <-]. destruct (IH (S i) es field1 _ vs1 Hf1 ltac:(lia) Ei) as (H1 & H2). split.
      * cbn [map snd]. by rewrite Ev, H1.
      * eapply bit_string_ext; [exact H2|]. intros j _. by apply (widen_set flags bit n i j f).
Qed.

Lemma changed_reasons_spec n i flags values reasons : changed_reasons n i (Some flags) = Done reasons ->
  Forall2 (fun x r => new_reason (reason_bits x.1) = Done r) (changes n i flags values) reasons.
Proof using.
  revert i reasons. induction n as [|n IH]; intros i reasons; cbn [changed_reasons changes].
  - intros [= <-]. constructor.
  - destruct (at_index (Some flags) i) as [f| | |] eqn:Ef; try discriminate. cbn [rbind]. apply at_index_Some in Ef.
    rewrite Ef. destruct (f =? REPORT_CONTROL_NONE); [apply IH|].
    destruct (new_reason (reason_bits f)) as [r| | |] eqn:Er; try discriminate. cbn [rbind].
    destruct (changed_reasons n (S i) (Some flags)) as [rs| | |] eqn:E; try discriminate. intros [= <-].
    constructor; [done|by apply IH].
Qed.

Lemma complete_values_spec n es vs : complete_values env n es = Done vs ->
  length vs = n /\ Forall2 (fun e v => exists h, dse_value e = Some h /\ v = n_value env h) (take n es) vs.
Proof using.
  revert es vs. induction n as [|n IH]; intros es vs; cbn [complete_values]; [by intros [= <-]|].
  destruct es as [|e es]; [done|]. unfold entry_value. destruct (dse_value e) as [hd|] eqn:Ev; [|done]. cbn [rbind].
  destruct (complete_values env n es) as [vs1| | |] eqn:E; try discriminate. intros [= <-].
  destruct (IH _ _ E) as [Hl HF]. split; [simpl; lia|]. cbn [take]. constructor; [by exists hd|done].
Qed.

(** ** Entries *)

Context (Hh : 0 < sizeof_ReportBufferEntry sizes).

(** A report of changes is encoded in its entry. *)
Lemma changed_entry count rc flags values id n p e :
  rc_inclusionFlags rc = Some flags -> rc_bufferedDataSetValues rc = Some values ->
  (exists v, rc_inclusionField rc = Some v /\ bits_of v count) -> 0 <= count -> zlen id = 8 ->
  report_entry sizes env rc false false id n p = Done e ->
  re_flags e = 0 /\ encoded sizes count p e (flagged flags) /\
  Forall2 copied (changes (Z.to_nat count) 0 flags values) (re_items e).
Proof using Hmms Hptr Hasn.
  intros Ef Ev (v & Efield & d & buf & ->) Hc Hid. unfold report_entry. rewrite Efield, Ef, Ev.
  cbn [defined rbind MmsValue_getBitStringSize MmsValue_getBitStringByteSize as_bit_string orb].
  destruct (changed_items _ _ _ _ _ _ _) as [[items field]| | |] eqn:Ei; try discriminate. cbn [rbind].
  destruct (changed_items_spec count (Z.to_nat count) 0 _ _ _ _ _ _ _ (bit_string_new count Hc) ltac:(lia) Ei) as (H1 & H2 & H3).
  destruct (changed_items_laid sizes Hmms Hptr Hasn _ _ _ _ _ _ _ _ Ei) as (behind & Hl & _).
  destruct H3 as (d' & buf' & -> & Hw & Hb). cbn [as_bit_string rbind]. intros [= <-]. split; [done|]. split; [|done].
  constructor; cbn.
  - lia.
  - intros _. do 2 eexists. split; [done|]. split; [done|]. intros i Hi. rewrite Hb by done.
    rewrite (proj2 (Z.leb_le (Z.of_nat 0) i)), (proj2 (Z.ltb_lt i (Z.of_nat 0 + _))) by lia. cbn [andb]. by rewrite orb_false_r.
  - lia.
  - done.
  - by exists behind.
  - done.
Qed.

(** So is a report of all values. *)
Lemma complete_entry count rc isIntegrity isGI d id n p e : isIntegrity || isGI = true ->
  rc_dataSet rc = DataSetAt d -> (exists v, rc_inclusionField rc = Some v /\ bits_of v count) -> 0 <= count -> zlen id = 8 ->
  report_entry sizes env rc isIntegrity isGI id n p = Done e ->
  re_flags e = (if isIntegrity then 1 else 2) /\ encoded sizes count p e (fun _ => true) /\
  Forall2 copied_entry (take (Z.to_nat count) (ds_fcdas d)) (re_items e).
Proof using Hmms Hptr Hasn.
  intros Ht Ed (v & Efield & dv & buf & ->) Hc Hid. unfold report_entry. rewrite Efield, Ht, Ed.
  cbn [defined rbind MmsValue_getBitStringSize as_bit_string deref].
  destruct (complete_items _ _ _ _ _ _ _) as [items| | |] eqn:Ei; try discriminate. cbn [rbind]. intros [= <-].
  destruct (complete_items_spec _ _ _ _ _ _ Ei) as [H1 H2].
  destruct (complete_items_laid sizes Hmms Hptr Hasn _ _ _ _ _ _ _ Ei) as (behind & Hl & _).
  split; [done|]. split; [|done]. constructor; cbn.
  - destruct isIntegrity; lia.
  - destruct isIntegrity; lia.
  - done.
  - done.
  - exists behind. destruct isIntegrity; by rewrite Z.add_0_r.
  - done.
Qed.
End Encode.
