(* ===== verification/ReportingSafety.v ===== *)
(** Reporting: the properties of report control blocks, with a block that is made from a
    model and used by a client as the example that the witnesses evaluate. *)
From Stdlib Require Import String.
From stdpp Require Import base tactics numbers option list.
From S2P Require Import Prelude Memory BerEncode BerInteger MmsValue MmsValueFacts MmsTimeBits Effects CString MmsTypeSpec Control ReportBuffer ReportControl Reporting ReportingAccess ReportingFacts ReportingInv ReportTransmit.

(** ** An example

    A node with a buffered and an unbuffered block for a data set of two values. *)
Definition sample_sizes : Sizes := mkSizes 40 8 16 32.
Definition sample_malloc (n : Z) : list Z := replicate (Z.to_nat n) 0.
Definition sample_node : LogicalNode := mkLogicalNode 1 (lit "LLN0").
Definition sample_rcb (buffered : bool) : ReportControlBlock :=
  mkRcb sample_node (lit "rcb01") (Some (lit "id")) buffered (Some (lit "ds")) 1 27 255 50 0.
Definition sample_dataSet : DataSet :=
  mkDataSet (Some (lit "LD0")) (lit "LLN0$ds") 2
    [mkDataSetEntry (lit "LD0") (lit "a") (-1) None (Some 1); mkDataSetEntry (lit "LD0") (lit "b") (-1) None (Some 2)].
Definition sample_env (t : Z) : ReportEnv :=
  mkReportEnv t (fun h => MmsValue_newBoolean (h =? 1)) [sample_dataSet] (fun _ => Done None) (fun _ => lit "192.168.0.10:1102").
Definition sample_domain : MmsDomain := MmsDomain_create 1 (lit "LD0").
Definition sample_time : Z := 1500000000000.

Definition sample_rc (buffered : bool) : ReportControl :=
  match create_rcb [sample_rcb true; sample_rcb false] sample_domain sample_node buffered 0 with
  | Done (rc, _) => rc
  | _ => ReportControl_create buffered []
  end.

(** The state after a run. *)
Definition after {A} (c : R A) (s : ReportControl) : ReportControl :=
  match c s [] with Done (_, s', _) => s' | _ => s end.
Definition sample_started (buffered : bool) : ReportControl := after (activate (sample_env sample_time)) (sample_rc buffered).
Definition sample_write (name : list Z) (value : MmsValue) : R Z :=
  Reporting_RCBWriteAccessHandler (sample_env sample_time) 1 name value 7.
Definition sample_enabled (buffered : bool) : ReportControl :=
  after (sample_write (lit "RptEna") (MmsValue_newBoolean true)) (sample_started buffered).
Definition sample_updated (buffered : bool) : ReportControl :=
  after (ReportControl_valueUpdated sample_sizes sample_malloc (sample_env sample_time) 1 REPORT_CONTROL_VALUE_CHANGED)
    (sample_enabled buffered).

Lemma sample_sizes_ok : sizes_ok sample_sizes.
Proof. unfold sizes_ok, sample_sizes. cbn. lia. Qed.

Lemma sample_env_ok t : env_ok (sample_env t).
Proof. split; [|done]. repeat constructor. cbn. lia. Qed.

Definition returns {A} (m : res A) : bool := match m with Done _ => true | _ => false end.

Lemma after_run {A} (c : R A) s : returns (c s []) = true -> exists r es, c s [] = Done (r, after c s, es).
Proof. unfold after, returns. destruct (c s []) as [[[r s'] es]| | |]; try done. intros _. by exists r, es. Qed.

Lemma sample_made buffered : exists spec,
  create_rcb [sample_rcb true; sample_rcb false] sample_domain sample_node buffered 0 = Done (sample_rc buffered, spec).
Proof.
  assert (returns (create_rcb [sample_rcb true; sample_rcb false] sample_domain sample_node buffered 0) = true) as H
    by (destruct buffered; vm_compute; reflexivity).
  unfold sample_rc. destruct (create_rcb _ _ _ _ _) as [[rc spec]| | |]; try done. by exists spec.
Qed.

Lemma sample_indices buffered : is_Some (rcb_index (sample_started buffered) (lit "RptEna")).
Proof. exists 1. apply rcb_index_RptEna. Qed.

Lemma sample_reachable buffered : rcb_reachable sample_sizes sample_malloc (sample_updated buffered).
Proof.
  destruct (sample_made buffered) as [spec H0].
  destruct (after_run (activate (sample_env sample_time)) (sample_rc buffered)) as (r1 & es1 & H1);
    [destruct buffered; vm_compute; reflexivity|].
  destruct (after_run (sample_write (lit "RptEna") (MmsValue_newBoolean true)) (sample_started buffered)) as (r2 & es2 & H2);
    [destruct buffered; vm_compute; reflexivity|].
  destruct (after_run (ReportControl_valueUpdated sample_sizes sample_malloc (sample_env sample_time) 1 REPORT_CONTROL_VALUE_CHANGED)
    (sample_enabled buffered)) as (r3 & es3 & H3); [destruct buffered; vm_compute; reflexivity|].
  eapply rr_updated; [|exact H3]. eapply rr_write; [|apply (sample_env_ok sample_time)|apply sample_indices|exact H2].
  eapply rr_activate; [|apply (sample_env_ok sample_time)|exact H1]. eapply rr_create. exact H0.
Qed.

(** ** The buffer is a queue *)

(** C28: The buffer of a buffered block is a bounded queue.  For a report that is not
    longer than the block of memory a place is found; only the oldest reports are
    removed for it, and when it has been written the buffer holds the others and behind
    them the new one.  Sending the first report that waits makes the next one the first,
    and purging leaves an empty queue. *)
Theorem ReportBuffer_refines_queue h self l k : 0 < h -> buffer_inv h self l k ->
  (forall n, h <= n <= rb_memoryBlockSize self ->
    exists p self' removed rest, find_place h self n = Done (p, self') /\ l = removed ++ rest /\
      forall e, re_entryLength e = n -> buffer_inv h (put_entry p e self') (rest ++ [(p, e)]) (k - length removed)) /\
  (forall p e next, rb_nextToTransmit self = Some p -> read_entry (rb_memoryBlock self) p = Done (e, next) ->
    l !! k = Some (p, e) /\ buffer_inv h (set_nextToTransmit next self) l (S k)) /\
  (0 <= rb_memoryBlockSize self -> buffer_inv h (purge self) [] 0).
Proof.
  intros Hh Hi. split; [|split].
  - intros n Hn. by apply (find_place_spec h Hh self l k n).
  - intros p e next Hp He. unfold read_entry in He. destruct (rb_memoryBlock self !! p) as [x|] eqn:Ex; [|done].
    injection He as ->. destruct (advance_inv h self l k p e next Hi Hp Ex). done.
  - intros Hz. constructor; try done. by left.
Qed.

Definition sample_entry (n : Z) : ReportBufferEntry := mkEntry (replicate 8 0) 0 n [] [].

(** Three reports fill the memory but for some bytes; the next one takes the place of
    the oldest. *)
Definition sample_full : ReportBuffer :=
  let put n b := match find_place 32 b n with Done (p, b) => put_entry p (sample_entry n) b | _ => b end in
  put 20000 (put 25000 (put 20000 ReportBuffer_create)).

Definition sample_reports : reports := [(0, sample_entry 20000); (20000, sample_entry 25000); (45000, sample_entry 20000)].

Lemma sample_full_inv : buffer_inv 32 sample_full sample_reports 0.
Proof.
  constructor; try (vm_compute; reflexivity).
  - vm_compute. split; [done|]. eexists. split; [done|]. split; [done|]. eexists. split; [done|]. split; [done|]. by eexists.
  - left. vm_compute. by split_and!.
  - simpl. lia.
Qed.

Lemma ReportBuffer_refines_queue_witness : exists p self' removed rest,
  find_place 32 sample_full 15000 = Done (p, self') /\ sample_reports = removed ++ rest /\
  buffer_inv 32 (put_entry p (sample_entry 15000) self') (rest ++ [(p, sample_entry 15000)]) 0.
Proof.
  destruct (ReportBuffer_refines_queue 32 sample_full sample_reports 0 ltac:(lia) sample_full_inv) as [Hput _].
  destruct (Hput 15000) as (p & self' & removed & rest & E & El & H); [vm_compute; split; discriminate|].
  exists p, self', removed, rest. split; [exact E|]. split; [exact El|]. exact (H (sample_entry 15000) eq_refl).
Defined.

(** ** Every block that can be reached *)

(** C30: However values change, clients write and connections end, a report control block
    stays consistent: the buffer of a buffered block is a queue in its memory, a block
    that is enabled has a client, a buffered block is not reserved, and the attribute
    [RptEna] tells whether the block is enabled. *)
Theorem report_control_consistent sizes malloc rc : sizes_ok sizes -> rcb_reachable sizes malloc rc ->
  (rc_buffered rc = true -> exists b l k, rc_reportBuffer rc = Some b /\ buffer_inv (sizeof_ReportBufferEntry sizes) b l k) /\
  (rc_enabled rc = true -> is_Some (rc_clientConnection rc)) /\
  (rc_isBuffering rc = true \/ rc_reserved rc = true -> rc_buffered rc = negb (rc_reserved rc)) /\
  (forall v, attribute rc 1 = Some v -> exists d, v = Simple d (V_BOOLEAN (rc_enabled rc))).
Proof.
  intros Hz Hr. destruct (reachable_inv _ _ _ Hz Hr) as [[Hb _ Hc Hi Hres _ _] Hs]. split_and!; try done.
  - intros E. destruct (Hb E) as (b & l & k & ? & _ & ?). by exists b, l, k.
  - intros E. destruct (rc_reserved rc) eqn:Er; [by apply Hres|]. destruct E as [E|E]; [by apply Hi|done].
Qed.

Lemma report_control_consistent_witness :
  exists b l k, rc_reportBuffer (sample_updated true) = Some b /\ buffer_inv 32 b l k.
Proof.
  apply (report_control_consistent sample_sizes sample_malloc (sample_updated true) sample_sizes_ok (sample_reachable true)).
  vm_compute. reflexivity.
Defined.

(** C29: Reports are sent to the client that enabled the block, and to nobody else.  Take
    the history of a block from its creation - updates, processing of events, writes of
    any clients, connections that end - and the client [o] whose write of true to
    [RptEna] was the last that was answered with success.  When the events of the block
    are processed, all that is sent are information reports for [o], and nothing if the
    block is not enabled; while the block is enabled, no other client can take it over. *)
Theorem reports_go_to_client sizes malloc env t rc o es r rc' es' : sizes_ok sizes -> rcb_history sizes malloc rc o ->
  processEventsForReport sizes malloc env t rc es = Done (r, rc', es') ->
  (exists new, es' = es ++ new /\ Forall (fun e => rc_enabled rc = true /\
    exists c elements, o = Some c /\ e = InformationReport (Some c) elements) new) /\
  (rc_enabled rc = true -> rc_clientConnection rc = o /\
    forall env fuel name value c es r rc' es', Reporting_RCBWriteAccessHandler env fuel name value c rc es = Done (r, rc', es') ->
      enabling name value r = false).
Proof.
  intros Hz Hr Hrun. split.
  - destruct (process_sends _ _ _ _ _ _ _ _ _ _ (reachable_inv _ _ _ Hz (history_reachable _ _ _ _ Hr)) Hrun) as (new & -> & HF).
    exists new. split; [done|]. eapply Forall_impl; [exact HF|]. intros [c' els] (He & c & Hc & Hg). cbn in Hg. subst c'.
    split; [done|]. destruct (history_owner _ _ _ _ Hr He) as [Ho _]. exists c, els. split; [congruence|done].
  - intros He. split; [by eapply history_owner|]. intros env1 fuel name value c es1 r1 rc1 es2 H.
    eapply enabled_stays_owned; [exact He|exact H].
Qed.

Lemma sample_history buffered : rcb_history sample_sizes sample_malloc (sample_updated buffered) (Some 7).
Proof.
  destruct (sample_made buffered) as [spec H0].
  destruct (after_run (activate (sample_env sample_time)) (sample_rc buffered)) as (r1 & es1 & H1);
    [destruct buffered; vm_compute; reflexivity|].
  destruct (after_run (sample_write (lit "RptEna") (MmsValue_newBoolean true)) (sample_started buffered)) as (r2 & es2 & H2);
    [destruct buffered; vm_compute; reflexivity|].
  destruct (after_run (ReportControl_valueUpdated sample_sizes sample_malloc (sample_env sample_time) 1 REPORT_CONTROL_VALUE_CHANGED)
    (sample_enabled buffered)) as (r3 & es3 & H3); [destruct buffered; vm_compute; reflexivity|].
  eapply rh_step; [|by eapply rs_updated].
  assert (r2 = DATA_ACCESS_ERROR_SUCCESS) as ->.
  { assert (match sample_write (lit "RptEna") (MmsValue_newBoolean true) (sample_started buffered) [] with
      Done (r, _, _) => r | _ => 1 end = DATA_ACCESS_ERROR_SUCCESS) as E by (destruct buffered; vm_compute; reflexivity).
    by rewrite H2 in E. }
  change (Some 7) with (if enabling (lit "RptEna") (MmsValue_newBoolean true) DATA_ACCESS_ERROR_SUCCESS then Some 7 else None).
  eapply rh_write; [|apply (sample_env_ok sample_time)|apply sample_indices|exact H2].
  eapply rh_step; [|eapply rs_activate; [apply (sample_env_ok sample_time)|exact H1]]. eapply rh_create. exact H0.
Qed.

Lemma reports_go_to_client_witness : exists r rc' new,
  processEventsForReport sample_sizes sample_malloc (sample_env sample_time) (sample_time + 100) (sample_updated false) []
    = Done (r, rc', new) /\ length new = 1%nat /\
  Forall (fun e => exists elements, e = InformationReport (Some 7) elements) new.
Proof.
  destruct (after_run (processEventsForReport sample_sizes sample_malloc (sample_env sample_time) (sample_time + 100))
    (sample_updated false)) as (r & es & H); [vm_compute; reflexivity|].
  exists r. eexists. exists es. split; [exact H|].
  destruct (reports_go_to_client _ _ _ _ _ _ _ _ _ _ sample_sizes_ok (sample_history false) H) as [(new & -> & HF) _].
  split.
  - assert (match processEventsForReport sample_sizes sample_malloc (sample_env sample_time) (sample_time + 100) (sample_updated false) []
      with Done (_, _, es) => length es | _ => O end = 1%nat) as E by (vm_compute; reflexivity). by rewrite H in E.
  - eapply Forall_impl; [exact HF|]. intros e (_ & c & els & [= <-] & ->). by exists els.
Defined.

(** ** Access *)

(** C31: An enabled block cannot be changed by a client that does not own it, and its owner
    can only disable it or ask for a general interrogation: any other write is refused
    as temporarily unavailable, and nothing changes. *)
Theorem enabled_block_protected env fuel name value c rc es : rc_enabled rc = true ->
  (name = lit "RptEna" -> exists d b, value = Simple d (V_BOOLEAN b) /\ (rc_clientConnection rc = Some c -> b = true)) ->
  (name = lit "GI" -> rc_clientConnection rc <> Some c) ->
  Reporting_RCBWriteAccessHandler env fuel name value c rc es = Done (DATA_ACCESS_ERROR_TEMPORARILY_UNAVAILABLE, rc, es).
Proof.
  intros He Hena Hgi. unfold Reporting_RCBWriteAccessHandler. case_bool_decide as E1.
  - destruct (Hena E1) as (d & b & -> & Hb). unfold write_RptEna, self. rewrite bind_assoc, bind_get, bind_assoc.
    rewrite (bind_lift _ _ _ _ b) by done. rewrite He. destruct b; [done|]. unfold is_other.
    rewrite bool_decide_false by (intros Hc; by apply Hb in Hc). done.
  - rewrite bind_ret. case_bool_decide as E2.
    + unfold write_GI, self. rewrite bind_get, He. unfold is_other. rewrite bool_decide_false by auto. done.
    + unfold write_disabled, self. by rewrite bind_get, He.
Qed.

Lemma enabled_block_protected_witness :
  Reporting_RCBWriteAccessHandler (sample_env sample_time) 1 (lit "RptEna") (MmsValue_newBoolean false) 8 (sample_enabled true) []
    = Done (DATA_ACCESS_ERROR_TEMPORARILY_UNAVAILABLE, sample_enabled true, []).
Proof.
  assert (rc_clientConnection (sample_enabled true) = Some 7) as E by (vm_compute; reflexivity).
  apply (enabled_block_protected (sample_env sample_time) 1 (lit "RptEna") (MmsValue_newBoolean false) 8 (sample_enabled true) []).
  - vm_compute. reflexivity.
  - intros _. exists 0, false. split; [reflexivity|]. rewrite E. discriminate.
  - intros H. discriminate H.
Defined.

(** ** From the queue to the client *)

(** What the entry of a report has to contain: copies of all values of the data set, or
    of the flagged ones. *)
Definition copies_of sizes env (d : DataSet) (count : Z) flags values (isAll : bool) (copies : list MmsValue) : Prop :=
  if isAll then Forall2 (fun e v => exists h a b, dse_value e = Some h /\ cloneToBuffer sizes (n_value env h) a = Done (b, v))
    (take (Z.to_nat count) (ds_fcdas d)) copies
  else Forall2 (fun x v => exists w a b, x.2 = Some w /\ cloneToBuffer sizes w a = Done (b, v))
    (changes (Z.to_nat count) 0 flags values) copies.

(** The reasons that go with them.  Bit 4 stands for integrity and bit 5 for a general
    interrogation: the code has them the other way round. *)
Definition reasons_of count flags (values : list (option MmsValue)) (isIntegrity isGI : bool) (copies reasons : list MmsValue) : Prop :=
  if isIntegrity || isGI then
    length reasons = length copies /\ Forall (fun r => new_reason (if isIntegrity then [5] else [4]) = Done r) reasons
  else Forall2 (fun x r => new_reason (reason_bits (u8 x.1)) = Done r) (changes (Z.to_nat count) 0 flags values) reasons.

(** What the entry of a report is made of. *)
Lemma entry_contents sizes env count rc isIntegrity isGI d flags values id n p e :
  sizes_ok sizes -> 0 < count -> rc_dataSet rc = DataSetAt d ->
  rc_inclusionFlags rc = Some flags -> rc_bufferedDataSetValues rc = Some values ->
  (exists v, rc_inclusionField rc = Some v /\ bits_of v count) -> zlen id = 8 ->
  report_entry sizes env rc isIntegrity isGI id n p = Done e ->
  encoded sizes count p e (fun i => isIntegrity || isGI || flagged flags i) /\
  copies_of sizes env d count flags values (isIntegrity || isGI) (map it_value (re_items e)) /\
  forall reasons, Forall2 (fun it r => new_reason (item_reason e it) = Done r) (re_items e) reasons ->
    reasons_of count flags values isIntegrity isGI (map it_value (re_items e)) reasons.
Proof.
  intros (Hm & Hp & Ha & Hh) Hc Hd Ef Ev Efd Hid He. destruct (isIntegrity || isGI) eqn:Eall.
  - destruct (complete_entry sizes env Hm Hp Ha count rc isIntegrity isGI d id n p e Eall Hd Efd ltac:(lia) Hid He) as (Hfl & Hen & Hcop).
    split; [exact Hen|]. split; [by apply Forall2_fmap_r|]. intros reasons Hr. unfold reasons_of. rewrite Eall. split.
    { rewrite length_map. symmetry. by eapply Forall2_length. }
    clear -Hr Hfl. induction Hr as [|it r its rs H _ IH]; constructor; [|done]. unfold item_reason in H. rewrite Hfl in H.
    by destruct isIntegrity.
  - apply orb_false_iff in Eall as [-> ->].
    destruct (changed_entry sizes env Hm Hp Ha count rc flags values id n p e Ef Ev Efd ltac:(lia) Hid He) as (Hf0 & Hen & Hcop).
    split; [exact Hen|]. split.
    + apply Forall2_fmap_r. eapply Forall2_impl; [exact Hcop|]. intros x it (_ & w & a & b' & H1 & H2). by exists w, a, b'.
    + clear -Hcop Hf0. unfold reasons_of. cbn [orb]. induction Hcop as [|x it xs its (Hreason & _) _ IH]; intros reasons Hr.
      * apply Forall2_nil_inv_l in Hr as ->. constructor.
      * apply Forall2_cons_inv_l in Hr as (r & rs & Hr1 & Hr & ->). constructor; [|by apply IH].
        unfold item_reason in Hr1. rewrite Hf0 in Hr1. cbn in Hr1. by rewrite <- Hreason.
Qed.

(** C27: What is enqueued is what is sent.  Let an entry - of a change, an integrity report
    or a general interrogation - be made of a block whose data set, inclusion flags and
    values are [d], [flags] and [values].  When it is the first that waits, the block can
    send ([sendable]) and the report fits the local storage of [sendNextReportEntry],
    then the client gets a report whose inclusion field has the bits of the flagged
    entries, or all bits if it is complete; with copies of the values that they had, in the
    order of the data set; and, if the options ask for them, with the reasons that the
    flags stand for - those of integrity and of general interrogation swapped. *)
Theorem buffered_report_roundtrip sizes malloc env count rc isIntegrity isGI d flags values id n p e rc2 b next optFlds bit es :
  sizes_ok sizes -> (forall n, 0 <= n -> zlen (malloc n) = n) -> 0 < count -> rc_dataSet rc = DataSetAt d ->
  rc_inclusionFlags rc = Some flags -> rc_bufferedDataSetValues rc = Some values ->
  (exists v, rc_inclusionField rc = Some v /\ bits_of v count) -> zlen id = 8 ->
  report_entry sizes env rc isIntegrity isGI id n p = Done e ->
  sendable count rc2 -> rc_reportBuffer rc2 = Some b -> rb_nextToTransmit b = Some p ->
  rb_memoryBlock b !! p = Some (e, next) -> next <> Some p -> storage_room sizes count e <= LOCAL_STORAGE_MEMORY_SIZE ->
  attribute rc2 4 = Some optFlds -> bit_string optFlds 10 bit ->
  exists rc' attributes field' copies reasons,
    sendNextReportEntry sizes malloc rc2 es =
      Done (tt, rc', es ++ [InformationReport (rc_clientConnection rc2) (attributes ++ field' :: copies ++ reasons)]) /\
    (forall i, 0 <= i < count -> MmsValue_getBitStringBit field' i = Done (isIntegrity || isGI || flagged flags i)) /\
    copies_of sizes env d count flags values (isIntegrity || isGI) copies /\
    (if bit 3 then reasons_of count flags values isIntegrity isGI copies reasons else reasons = []).
Proof.
  intros Hsz Hmal Hc Hd Ef Ev Efd Hid He Hs2 Hb Hn Hmem Hne Hroom Ho Hbit.
  destruct (entry_contents _ _ _ _ _ _ _ _ _ _ _ _ _ Hsz Hc Hd Ef Ev Efd Hid He) as (Hen & Hcop & Hreasons).
  destruct Hsz as (Hm & Hp & Ha & Hh).
  destruct (sendNextReportEntry_spec sizes malloc Hm Hp count rc2 b p e next _ es Hmal Hc Hs2 Hb Hn Hmem Hne Hen Hroom) as
    (rc' & bit' & o & vs & Hrun & Ho' & Hbit' & (attrs & field' & reasons & -> & _ & Hf' & Hr) & _).
  rewrite Ho in Ho'. injection Ho' as <-. exists rc', attrs, field', (map it_value (re_items e)), (if bit' 3 then reasons else []).
  split; [exact Hrun|]. split; [intros i Hi; by eapply (bit_string_get _ _ _ i Hf')|]. split; [exact Hcop|].
  assert (bit' 3 = bit 3) as ->.
  { pose proof (bit_string_get _ _ _ 3 Hbit ltac:(lia)) as E. rewrite (bit_string_get _ _ _ 3 Hbit' ltac:(lia)) in E. by injection E. }
  destruct (bit 3); [by apply Hreasons|done].
Qed.

(** Two reports wait: one of a change, and one of a general interrogation. *)
Definition sample_waiting : ReportControl := after (report_events sample_sizes (sample_env sample_time)) (sample_updated true).
Definition sample_two : ReportControl :=
  after (report sample_sizes (sample_env (sample_time + 5)) false true) sample_waiting.

Definition buffer_at (rc : ReportControl) : ReportBuffer := default ReportBuffer_create (rc_reportBuffer rc).
Definition entry_at (rc : ReportControl) (p : Z) : ReportBufferEntry :=
  match rb_memoryBlock (buffer_at rc) !! p with Some (e, _) => e | None => sample_entry 0 end.

Lemma attr_ok_other i v : i <> 4 -> i <> 6 -> i <> 11 -> attr_ok i v.
Proof. intros. by repeat split. Qed.

Lemma octet_ok d x buf : zlen buf = 8 -> attr_ok 11 (Simple d (V_OCTET_STRING x 8 buf)).
Proof. intros H. split; [done|]. split; [done|]. intros _. by exists d, x, buf. Qed.

Lemma options_ok d buf : bits_wf 10 buf -> attr_ok 4 (Simple d (V_BIT_STRING 10 buf)).
Proof. intros H. split; [|done]. intros _. exists (bit_at buf), d, buf. done. Qed.

Lemma number_ok d a : asn1_wf a -> attr_ok 6 (Simple d (V_UNSIGNED a)).
Proof. intros H. split; [done|]. split; [|done]. intros _. by exists d, a. Qed.

Lemma sample_sendable : sendable 2 sample_two.
Proof.
  constructor; try (vm_compute; reflexivity).
  - exists sample_dataSet. split; vm_compute; reflexivity.
  - eexists. split; [vm_compute; reflexivity|]. by eexists _, _.
  - eexists. split; [vm_compute; reflexivity|]. vm_compute. discriminate.
  - repeat (apply Forall_cons_2); [..|constructor]; (eexists; split; [vm_compute; reflexivity|]);
      first [ by apply attr_ok_other | by apply octet_ok | apply options_ok | apply number_ok ].
    + split_and!; [lia|reflexivity|by repeat constructor].
    + unfold asn1_wf. cbn. split_and!; try lia; try done. repeat constructor; lia.
Qed.

Lemma sample_malloc_ok n : 0 <= n -> zlen (sample_malloc n) = n.
Proof. intros H. unfold sample_malloc, zlen. rewrite length_replicate. lia. Qed.

Lemma sample_field buffered : exists v, rc_inclusionField (sample_updated buffered) = Some v /\ bits_of v 2.
Proof. destruct buffered; (eexists; split; [vm_compute; reflexivity|]; by eexists _, _). Qed.

(** The first entry is that of the change of the second value. *)
Lemma sample_first_entry :
  report_entry sample_sizes (sample_env sample_time) (sample_updated true) false false
    (le_bytes 8 sample_time) 74 0 = Done (entry_at sample_two 0).
Proof. vm_compute. reflexivity. Qed.

Lemma sample_second_entry :
  report_entry sample_sizes (sample_env (sample_time + 5)) sample_waiting false true
    (le_bytes 8 (sample_time + 5)) 114 74 = Done (entry_at sample_two 74).
Proof. vm_compute. reflexivity. Qed.

Lemma sample_options : exists optFlds bit, attribute sample_two 4 = Some optFlds /\ bit_string optFlds 10 bit /\ bit 3 = true.
Proof.
  do 2 eexists. split; [vm_compute; reflexivity|]. split; [do 2 eexists; split; [reflexivity|]; split; [|intros i _; reflexivity]|reflexivity].
  split_and!; [lia|reflexivity|by repeat constructor].
Qed.

Lemma buffered_report_roundtrip_witness : exists rc' attributes field' copies reasons,
  sendNextReportEntry sample_sizes sample_malloc sample_two [] =
    Done (tt, rc', [InformationReport (Some 7) (attributes ++ field' :: copies ++ reasons)]) /\
  MmsValue_getBitStringBit field' 0 = Done false /\ MmsValue_getBitStringBit field' 1 = Done true /\
  length copies = 1%nat.
Proof.
  destruct sample_options as (o & bit & Ho & Hbit & _).
  assert (rc_inclusionFlags (sample_updated true) = Some [0; REPORT_CONTROL_VALUE_CHANGED]) as Hfl by (vm_compute; reflexivity).
  destruct (buffered_report_roundtrip sample_sizes sample_malloc (sample_env sample_time) 2 (sample_updated true) false false sample_dataSet
    [0; REPORT_CONTROL_VALUE_CHANGED] [None; Some (MmsValue_newBoolean false)] (le_bytes 8 sample_time) 74 0 (entry_at sample_two 0)
    sample_two (buffer_at sample_two) (Some 74) o bit []) as (rc' & attrs & f & copies & reasons & Hrun & Hf & Hc & _);
    [exact sample_sizes_ok|exact sample_malloc_ok|lia|vm_compute; reflexivity|exact Hfl|vm_compute; reflexivity|exact (sample_field true)|reflexivity
    |exact sample_first_entry|exact sample_sendable|vm_compute; reflexivity|vm_compute; reflexivity|vm_compute; reflexivity
    |discriminate|vm_compute; discriminate|exact Ho|exact Hbit|].
  exists rc', attrs, f, copies, reasons.
  assert (rc_clientConnection sample_two = Some 7) as Hcl by (vm_compute; reflexivity). rewrite Hcl in Hrun.
  split; [exact Hrun|]. split; [exact (Hf 0 ltac:(lia))|]. split; [exact (Hf 1 ltac:(lia))|].
  apply Forall2_length in Hc. rewrite <- Hc. reflexivity.
Defined.

(** C26: Reports that fit the local storage of [sendNextReportEntry] do not wait for ever (a
    larger one stays at the head of the queue: [large_report_stays]). A block that is
    enabled and has nothing else to report (no trigger, no general interrogation, no
    integrity period), and whose waiting reports all fit, sends one of them in every run of
    the server loop, in the order of the queue, each to its client: after as many runs as
    reports wait, all of them have been sent and none waits. *)
Theorem waiting_reports_are_sent sizes malloc env count ts rc b l k es :
  sizes_ok sizes -> (forall n, 0 <= n -> zlen (malloc n) = n) -> 0 < count -> sendable count rc -> quiet rc ->
  rc_reportBuffer rc = Some b -> buffer_inv (sizeof_ReportBufferEntry sizes) b l k ->
  Forall (fits sizes count) (drop k l) -> length ts = (length l - k)%nat ->
  exists rc' evs b', ticks sizes malloc env ts rc es = Done (tt, rc', es ++ evs) /\
    Forall2 (sends_entry sizes count (rc_clientConnection rc)) (drop k l) evs /\
    rc_reportBuffer rc' = Some b' /\ buffer_inv (sizeof_ReportBufferEntry sizes) b' l (length l) /\
    rb_nextToTransmit b' = None.
Proof. intros (Hm & Hp & Ha & Hh) ????. by apply ticks_send_all. Qed.

Definition sample_queue : reports := [(0, entry_at sample_two 0); (74, entry_at sample_two 74)].

Lemma sample_queue_inv : buffer_inv 32 (buffer_at sample_two) sample_queue 0.
Proof.
  constructor; try (vm_compute; reflexivity).
  - vm_compute. split; [done|]. eexists. split; [done|]. split; [done|]. by eexists.
  - left. vm_compute. by split_and!.
  - simpl. lia.
Qed.

Lemma id_length t : zlen (le_bytes 8 t) = 8.
Proof. reflexivity. Qed.

Lemma sample_fits : Forall (fits sample_sizes 2) sample_queue.
Proof.
  destruct sample_sizes_ok as (Hm & Hp & Ha & _). repeat apply Forall_cons_2; [| |constructor]; (split; [vm_compute; discriminate|]).
  - eexists. assert (rc_inclusionFlags (sample_updated true) = Some [0; REPORT_CONTROL_VALUE_CHANGED]) as Hfl by (vm_compute; reflexivity).
    assert (rc_bufferedDataSetValues (sample_updated true) = Some [None; Some (MmsValue_newBoolean false)]) as Hv by (vm_compute; reflexivity).
    destruct (changed_entry _ _ Hm Hp Ha 2 _ _ _ _ _ _ _ Hfl Hv (sample_field true) ltac:(lia) (id_length _) sample_first_entry) as (_ & H & _). exact H.
  - eexists. assert (exists v, rc_inclusionField sample_waiting = Some v /\ bits_of v 2) as Hf
      by (eexists; split; [vm_compute; reflexivity|]; by eexists _, _).
    assert (rc_dataSet sample_waiting = DataSetAt sample_dataSet) as Hd by (vm_compute; reflexivity).
    destruct (complete_entry _ _ Hm Hp Ha 2 _ false true _ _ _ _ _ eq_refl Hd Hf ltac:(lia) (id_length _) sample_second_entry) as (_ & H & _). exact H.
Qed.

Lemma waiting_reports_are_sent_witness : exists rc' evs b',
  ticks sample_sizes sample_malloc sample_env [sample_time + 100; sample_time + 200] sample_two [] = Done (tt, rc', evs) /\
  length evs = 2%nat /\ rc_reportBuffer rc' = Some b' /\ rb_nextToTransmit b' = None.
Proof.
  destruct (waiting_reports_are_sent sample_sizes sample_malloc sample_env 2 [sample_time + 100; sample_time + 200]
    sample_two (buffer_at sample_two) sample_queue 0 []) as (rc' & evs & b' & Hrun & HF & Hb & _ & Hn);
    [exact sample_sizes_ok|exact sample_malloc_ok|lia|exact sample_sendable|vm_compute; reflexivity|vm_compute; reflexivity
    |exact sample_queue_inv|exact sample_fits|reflexivity|].
  exists rc', evs, b'. split; [exact Hrun|]. split; [|split; [exact Hb|exact Hn]].
  apply Forall2_length in HF. rewrite <- HF. reflexivity.
Defined.

(** ** Reports that are sent at once *)

(** The inclusion field of a report, before its entries are known. *)
Lemma start_field v count isAll field : 0 < count -> (exists bit, bit_string v count bit) ->
  (if (isAll : bool) then MmsValue_setAllBitStringBits v else MmsValue_deleteAllBitStringBits v) = Done field ->
  bit_string field count (fun _ => isAll).
Proof.
  intros Hc (bit & d & buf & -> & Hw & _). pose proof Hw as (_ & Hl & _). destruct isAll.
  - destruct (set_all_spec d count buf Hc Hl) as (f & -> & Hf). by intros [= <-].
  - unfold MmsValue_deleteAllBitStringBits. cbn [as_bit_string rbind]. rewrite byteSize_eq by lia.
    destruct (byteSize_padding count Hc) as [Hk _]. rewrite fill_loop_spec by lia. cbn [rbind]. change (u8 0) with 0.
    rewrite splice_whole by (unfold zlen in *; rewrite length_replicate; lia). intros [= <-].
    destruct (bit_string_new count ltac:(lia)) as (d' & buf' & [= _ <-] & Hw' & Hb). exists d. by eexists.
Qed.

(** What a report has to say: all values, or those that changed. *)
Definition report_values_of env (d : DataSet) (count : Z) flags values (isAll : bool) (vals : list MmsValue) : Prop :=
  if isAll then Forall2 (fun e v => exists h, dse_value e = Some h /\ v = n_value env h) (take (Z.to_nat count) (ds_fcdas d)) vals
  else map Some vals = map snd (changes (Z.to_nat count) 0 flags values).

Lemma sendReport_values env d count flags values isAll field vals field' : 0 < count ->
  bit_string field count (fun _ => isAll) ->
  (if (isAll : bool) then let! vs := complete_values env (Z.to_nat count) (ds_fcdas d) in Done (vs, field)
   else changed_values env (Z.to_nat count) 0 (ds_fcdas d) (Some flags) (Some values) field) = Done (vals, field') ->
  report_values_of env d count flags values isAll vals /\
  bit_string field' count (if isAll then fun _ => true else flagged flags).
Proof.
  intros Hc Hf. destruct isAll.
  - destruct (complete_values _ _ _) as [vs| | |] eqn:E; try discriminate. intros [= <- <-].
    split; [by apply complete_values_spec|done].
  - intros E. destruct (changed_values_spec env count (Z.to_nat count) 0 _ _ _ _ _ _ _ Hf ltac:(lia) E) as [H1 H2].
    split; [done|]. eapply bit_string_ext; [exact H2|]. intros i Hi. cbv beta.
    rewrite (proj2 (Z.leb_le (Z.of_nat 0) i)), (proj2 (Z.ltb_lt i (Z.of_nat 0 + _))) by lia. cbn [andb]. by rewrite orb_false_r.
Qed.

(** Setting an attribute changes no other member. *)
Lemma rc_core_set name v rc : let rc' := rcb_set name v rc in
  rc_dataSet rc' = rc_dataSet rc /\ rc_inclusionFlags rc' = rc_inclusionFlags rc /\
  rc_bufferedDataSetValues rc' = rc_bufferedDataSetValues rc /\ rc_inclusionField rc' = rc_inclusionField rc /\
  rc_clientConnection rc' = rc_clientConnection rc /\ rc_sqNum rc' = rc_sqNum rc.
Proof. cbv zeta. unfold rcb_set, rcb_set_element. destruct (rcb_index rc name); [|done]. by destruct (rc_rcbValues rc). Qed.

Lemma all_defined_inv l els : all_defined l = Done els -> l = map Some els.
Proof.
  revert els. induction l as [|[x|] l IH]; intros els; [by intros [= <-]| |done]. cbn [all_defined defined rbind].
  destruct (all_defined l) as [els1| | |]; try discriminate. intros [= <-]. by rewrite (IH els1).
Qed.

Lemma all_defined_shape rptId optFlds header field vals reasons els :
  all_defined (rptId :: Some optFlds :: header ++ Some field :: map Some vals ++ map Some reasons) = Done els ->
  exists id attributes, rptId = Some id /\ header = map Some attributes /\ els = id :: optFlds :: attributes ++ field :: vals ++ reasons.
Proof.
  intros H%all_defined_inv. destruct els as [|id [|o els]]; try done. injection H as -> -> H.
  exists id. symmetry in H. apply fmap_app_inv in H as (attributes & rest & -> & H & ->).
  rewrite <- map_app in H. destruct rest as [|f rest]; [done|]. injection H as -> H.
  apply (inj (fmap Some)) in H. exists attributes. by subst rest.
Qed.

(** The attributes of the block that a report carries in front of its values: those that
    the options [optFlds] ask for, the sequence number first. *)
Definition unbuffered_header (rc : ReportControl) (optFlds : MmsValue) (header : list MmsValue) : Prop :=
  exists sqNum time datSet confRev,
    ReportControl_getRCBValue rc (lit "SqNum") = Done sqNum /\ ReportControl_getRCBValue rc (lit "DatSet") = Done datSet /\
    (let! timed := MmsValue_getBitStringBit optFlds 2 in
     if timed then let! t := time_of_entry (rcb_set (lit "OptFlds") optFlds rc) in Done (Some t) else Done None) = Done time /\
    match rc_confRev rc with Some i => rcb_element (rcb_set (lit "OptFlds") optFlds rc) i | None => Done None end = Done confRev /\
    chosen optFlds [(1, sqNum); (2, time); (4, datSet); (6, Some (MmsValue_newBoolean false)); (8, confRev)] = Done (map Some header).

(** The options of an unbuffered report: those of the block, but for those of a buffered one. *)
Definition unbuffered_options (rc : ReportControl) (optFlds : MmsValue) : Prop :=
  exists o, ReportControl_getRCBValue rc (lit "OptFlds") = Done (Some o) /\ set_bits o [(5, false); (7, false); (9, false)] = Done optFlds.

Lemma confRev_set name v rc : rc_confRev (rcb_set name v rc) = rc_confRev rc.
Proof. pose proof (rc_rest_set name v rc) as H. by injection H. Qed.

(** The reasons for the inclusion of the values, if the options ask for them. *)
Definition unbuffered_reasons (isIntegrity isGI : bool) (count : Z) (flags : list Z) (optFlds : MmsValue) (reasons : list MmsValue) : Prop :=
  (let! withReasons := MmsValue_getBitStringBit optFlds 3 in
   if withReasons then
     if isGI || isIntegrity then
       let! reason := new_reason ((if isGI then [5] else []) ++ (if isIntegrity then [4] else [])) in
       Done (replicate (Z.to_nat count) reason)
     else changed_reasons (Z.to_nat count) 0 (Some flags)
   else Done []) = Done reasons.

Lemma getRCBValue_set_eq rc name v w : ReportControl_getRCBValue rc name = Done (Some w) ->
  ReportControl_getRCBValue (rcb_set name v rc) name = Done (Some v).
Proof.
  unfold ReportControl_getRCBValue, rcb_set. destruct (rcb_index rc name) as [i|] eqn:Ei; [|done]. intros H.
  assert (rcb_index (rcb_set_element i v rc) name = Some i) as ->.
  { pose proof (rc_rest_set_element i v rc) as [= E _ _ _ _ _ _ _ _]. unfold rcb_index in *. by rewrite E. }
  unfold rcb_element in *. destruct (rc_rcbValues rc) as [vs|] eqn:Ev; [|done]. cbn [defined rbind] in H. injection H as H.
  pose proof (attribute_set_eq rc i v w) as Ha. unfold attribute, rcb_set_element in *. rewrite Ev in *. cbn in *. by rewrite Ha.
Qed.

Lemma getRCBValue_set_ne rc name name' v : name <> name' ->
  ReportControl_getRCBValue (rcb_set name v rc) name' = ReportControl_getRCBValue rc name'.
Proof.
  intros Hn. unfold ReportControl_getRCBValue, rcb_set. destruct (rcb_index rc name) as [i|] eqn:Ei; [|done].
  assert (rcb_index (rcb_set_element i v rc) name' = rcb_index rc name') as ->.
  { pose proof (rc_rest_set_element i v rc) as [= E _ _ _ _ _ _ _ _]. unfold rcb_index in *. by rewrite E. }
  destruct (rcb_index rc name') as [j|] eqn:Ej; [|done].
  assert (i <> j) as Hij.
  { intros <-. apply Hn. apply rcb_index_lookup in Ei as [_ Ei], Ej as [_ Ej]. congruence. }
  unfold rcb_element, rcb_set_element. destruct (rc_rcbValues rc) as [vs|] eqn:Ev; [|by rewrite Ev]. cbn. by rewrite get_set_element.
Qed.

Lemma clear_flags_spec count flags fl : 0 < count -> clear_flags count (Some flags) = Done fl ->
  exists flags', fl = Some flags' /\ forall i, 0 <= i < count -> flagged flags' i = false.
Proof.
  intros Hc. unfold clear_flags. rewrite (proj2 (Z.leb_gt _ _)) by lia. cbn [defined rbind].
  destruct (zlen flags <? count); [done|]. intros [= <-]. eexists. split; [done|]. intros i Hi. unfold flagged.
  rewrite lookup_app_l by (rewrite length_replicate; lia). by rewrite lookup_replicate_2 by lia.
Qed.

(** C32: An unbuffered report says what there is to say.  If [sendReport] returns, one
    report has been sent to the client of the block: the report id, the options, the
    attributes of the block that the options ask for - first the value that the attribute
    [SqNum] has -, and the inclusion field, all bits of which are set for a complete
    report, and those of the flagged entries otherwise; then the values of the data set,
    or the buffered values of the flagged entries, in the order of the data set, and the
    reasons.  The counter of the block goes on by one, the attribute [SqNum] has the new
    number for the next report, and no entry is flagged any more. *)
Theorem sendReport_content env rc isIntegrity isGI d count flags values v es r rc' es' :
  rc_dataSet rc = DataSetAt d -> ds_elementCount d = count -> 0 < count ->
  rc_inclusionFlags rc = Some flags -> rc_bufferedDataSetValues rc = Some values ->
  rc_inclusionField rc = Some v -> (exists bit, bit_string v count bit) ->
  sendReport env isIntegrity isGI rc es = Done (r, rc', es') ->
  exists rptId optFlds header field vals reasons sqNum next,
    es' = es ++ [InformationReport (rc_clientConnection rc) (rptId :: optFlds :: header ++ field :: vals ++ reasons)] /\
    ReportControl_getRCBValue rc (lit "RptID") = Done (Some rptId) /\
    unbuffered_options rc optFlds /\ unbuffered_header rc optFlds header /\
    bit_string field count (if isGI || isIntegrity then fun _ => true else flagged flags) /\
    report_values_of env d count flags values (isGI || isIntegrity) vals /\
    unbuffered_reasons isIntegrity isGI count flags optFlds reasons /\
    rc_sqNum rc' = u16 (rc_sqNum rc + 1) /\
    ReportControl_getRCBValue rc (lit "SqNum") = Done (Some sqNum) /\ MmsValue_setUint16 sqNum (u16 (rc_sqNum rc + 1)) = Done next /\
    ReportControl_getRCBValue rc' (lit "SqNum") = Done (Some next) /\
    exists flags', rc_inclusionFlags rc' = Some flags' /\ forall i, 0 <= i < count -> flagged flags' i = false.
Proof.
  intros Hd Hc Hpos Hf Hv Hfield Hbits Hrun.
  unfold sendReport, clearInclusionFlags, MmsServerConnection_sendInformationReport, increaseSqNum, getRCBValue, self in Hrun.
  run_inv.
  all: match goal with H : (let '(_, _) := ?x in _) _ _ = Done _ |- _ => destruct x as [vals field'] end; run_inv.
  all: match goal with H : context [changed_values] |- _ => rename H into Hvals end.
  all: match goal with H : context [MmsValue_setAllBitStringBits] |- _ => rename H into Hstart end.
  all: match goal with H : all_defined _ = Done _ |- _ => rename H into Hels end.
  all: match goal with H : clear_flags _ _ = Done _ |- _ => rename H into Hclear end.
  all: match goal with H : rbind (defined ?x) (fun o => set_bits o _) = Done ?y |- _ => destruct x as [opt|]; [|discriminate H]; rename H into Hopt, y into optFlds end.
  all: match goal with H : ReportControl_getRCBValue _ (lit "OptFlds") = _ |- _ => rename H into Hoption end.
  all: match goal with H : ReportControl_getRCBValue (rcb_set (lit "OptFlds") _ _) (lit "SqNum") = _ |- _ =>
    rewrite getRCBValue_set_ne in H by discriminate; rename H into Hsq end.
  all: match goal with H : ReportControl_getRCBValue (rc_set_sqNum _ ?s) (lit "SqNum") = ?y |- _ =>
    rename H into Hnext; change (ReportControl_getRCBValue (rcb_set (lit "OptFlds") optFlds rc) (lit "SqNum") = y) in Hnext end.
  all: rewrite getRCBValue_set_ne in Hnext by discriminate; rewrite Hsq in Hnext; injection Hnext as <-.
  all: match goal with H : rbind (defined ?x) (fun v => MmsValue_setUint16 v _) = Done ?y |- _ =>
    destruct x as [sqNum|]; [|discriminate H]; rename H into Hset, y into next end.
  all: match goal with |- context [rcb_set (lit "SqNum") ?n ?s] =>
    destruct (rc_core_set (lit "SqNum") n s) as (_ & G2 & _ & _ & _ & G6);
    pose proof (getRCBValue_set_eq s (lit "SqNum") n sqNum) as Gnext end.
  all: destruct (rc_core_set (lit "OptFlds") optFlds rc) as (E1 & E2 & E3 & E4 & E5 & E6).
  all: assert (ReportControl_getRCBValue (rcb_set (lit "OptFlds") optFlds rc) (lit "SqNum") = Done (Some sqNum)) as Hsq1
    by (by rewrite getRCBValue_set_ne by discriminate).
  all: specialize (Gnext Hsq1); cbn [defined rbind] in Hopt, Hset.
  all: match type of Hels with all_defined (_ :: _ :: ?hdr ++ _) = _ =>
    destruct (all_defined_shape _ _ _ _ _ _ _ Hels) as (rptId & header & -> & -> & ->) end.
  all: assert (unbuffered_header rc optFlds header) as Hheader.
  1, 3: rewrite confRev_set in *; do 4 eexists; split_and!; [done|done| |done|done];
    match goal with H : MmsValue_getBitStringBit _ 2 = _ |- _ => rewrite H end; cbn [rbind]; done.
  all: rewrite ?E1, ?E2, ?E3, ?E4, ?E5, ?E6, ?Hd, ?Hf, ?Hv, ?Hfield, ?app_nil_r in *; cbn [rbind defined deref rc_inclusionFlags rc_sqNum rc_dataSet rc_clientConnection rc_set_inclusionField rc_set_inclusionFlags rc_set_sqNum] in *.
  all: rewrite ?E1, ?E2, ?E5, ?E6 in *; cbn [deref] in *; repeat match goal with H : @Done DataSet _ = Done ?y |- _ => injection H as <- end.
  all: destruct (sendReport_values env d _ flags values (isGI || isIntegrity) _ vals field' Hpos
    (start_field v _ _ _ Hpos Hbits Hstart) Hvals) as [Hvs Hfd].
  all: destruct (clear_flags_spec _ _ _ Hpos Hclear) as (flags' & Hfl & Hflags).
  all: do 8 eexists; split_and!; try done.
  1, 4: by exists opt.
  1, 3: unfold unbuffered_reasons; match goal with H : MmsValue_getBitStringBit _ 3 = _ |- _ => by rewrite H end.
  all: exists flags'; by rewrite G2.
Qed.

Lemma sendReport_content_witness : exists r rc' evs rptId optFlds header field vals reasons,
  sendReport (sample_env (sample_time + 5)) false false (sample_updated false) [] = Done (r, rc', evs) /\
  evs = [InformationReport (rc_clientConnection (sample_updated false)) (rptId :: optFlds :: header ++ field :: vals ++ reasons)] /\
  unbuffered_header (sample_updated false) optFlds header.
Proof.
  destruct (after_run (sendReport (sample_env (sample_time + 5)) false false) (sample_updated false)) as (r & evs & E); [vm_compute; reflexivity|].
  destruct (sendReport_content (sample_env (sample_time + 5)) (sample_updated false) false false sample_dataSet 2
    (default [] (rc_inclusionFlags (sample_updated false))) (default [] (rc_bufferedDataSetValues (sample_updated false))) (MmsValue_newBitString 2) [] r (after (sendReport (sample_env (sample_time + 5)) false false) (sample_updated false)) evs)
    as (rptId & optFlds & header & field & vals & reasons & sqNum & next & He & _ & _ & Hh & _).
  - vm_compute; reflexivity.
  - vm_compute; reflexivity.
  - lia.
  - vm_compute; reflexivity.
  - vm_compute; reflexivity.
  - vm_compute; reflexivity.
  - eexists. apply bit_string_new. lia.
  - exact E.
  - exists r, (after (sendReport (sample_env (sample_time + 5)) false false) (sample_updated false)), evs, rptId, optFlds, header, field, vals, reasons. split; [exact E|]. split; [exact He|exact Hh].
Defined.

(** Reporting: what the code does that it does not mean to.  Each lemma shows a behaviour
    of src/iedserver/mms_mapping/reporting.c that differs from its comments or from the
    use of the attributes in IEC 61850-7-2; they are facts of the definitions, on every
    block where that is possible and on an example otherwise. *)

(** ** Reports

    The reasons of reports that are buffered: the bit of a general interrogation is set
    for an integrity report, and that of an integrity report for a general interrogation. *)
Lemma buffered_reasons_swapped isIntegrity sizes env rc id n p e :
  report_entry sizes env rc isIntegrity (negb isIntegrity) id n p = Done e ->
  complete_bits (re_flags e) = if isIntegrity then [5] else [4].
Proof.
  unfold report_entry. destruct (defined _) as [v| | |]; try discriminate. cbn [rbind].
  destruct (MmsValue_getBitStringSize v) as [m| | |]; try discriminate. cbn [rbind].
  assert (isIntegrity || negb isIntegrity = true) as -> by by destruct isIntegrity.
  destruct (deref _) as [d| | |]; try discriminate. cbn [rbind].
  destruct (complete_items _ _ _ _ _ _ _) as [items| | |]; try discriminate. intros [= <-]. by destruct isIntegrity.
Qed.

Lemma next_id_other env rc : rc_lastEntryId rc <> n_time env -> next_entry_id env rc = n_time env.
Proof. intros H. unfold next_entry_id. by rewrite (proj2 (Z.eqb_neq _ _)) by congruence. Qed.

Lemma next_id_same env rc : rc_lastEntryId rc = n_time env -> next_entry_id env rc = u64 (n_time env + 1).
Proof. intros H. unfold next_entry_id. by rewrite H, Z.eqb_refl. Qed.

(** Three reports in the same millisecond: the third has the identifier of the first. *)
Lemma entry_ids_repeat env rc : 0 <= n_time env < 2 ^ 64 - 1 -> rc_lastEntryId rc <> n_time env ->
  let id1 := next_entry_id env rc in
  let id2 := next_entry_id env (rc_set_lastEntryId id1 rc) in
  let id3 := next_entry_id env (rc_set_lastEntryId id2 rc) in
  id1 = n_time env /\ id2 = n_time env + 1 /\ id3 = id1.
Proof.
  intros Ht Hl id1 id2 id3. assert (id1 = n_time env) as E1 by by apply next_id_other.
  assert (id2 = n_time env + 1) as E2.
  { unfold id2. rewrite next_id_same by done. apply Z.mod_small. lia. }
  split; [done|]. split; [done|]. unfold id3. rewrite next_id_other by (cbn; lia). done.
Qed.

(** The attribute [Owner] of a client with an IPv4 address has the first number of the
    address, and zeros. *)
Lemma digits_app s t v : Forall (fun c => isdigit c = true) s -> (forall c t', t = c :: t' -> isdigit c = false) ->
  digits (s ++ t) v = digits s v.
Proof.
  intros Hs Ht. revert v. induction Hs as [|c s Hc _ IH]; intros v; cbn.
  - destruct t as [|c t]; [done|]. cbn. by rewrite (Ht c t).
  - rewrite Hc. apply IH.
Qed.

Lemma digit_range c : isdigit c = true -> 48 <= c <= 57.
Proof. unfold isdigit. rewrite andb_true_iff, !Z.leb_le. done. Qed.

Lemma atoi_unsigned c t : isdigit c = true ->
  atoi (c :: t) = let v := digits (c :: t) 0 in if (- 2 ^ 31 <=? v) && (v <? 2 ^ 31) then Done v else Ub.
Proof.
  intros Hc%digit_range.
  assert (c = 48 \/ c = 49 \/ c = 50 \/ c = 51 \/ c = 52 \/ c = 53 \/ c = 54 \/ c = 55 \/ c = 56 \/ c = 57) as Hcs by lia.
  by destruct Hcs as [->|[->|[->|[->|[->|[->|[->|[->|[->| ->]]]]]]]]].
Qed.

Lemma atoi_digits s rest : s <> [] -> Forall (fun c => isdigit c = true) s -> 0 <= digits s 0 < 2 ^ 31 ->
  atoi (s ++ DOT :: rest) = Done (digits s 0).
Proof.
  intros Hne Hs Hv. destruct s as [|c s]; [done|]. pose proof Hs as [Hc _]%Forall_cons.
  change ((c :: s) ++ DOT :: rest) with (c :: (s ++ DOT :: rest)). rewrite atoi_unsigned by done. cbv zeta.
  change (c :: (s ++ DOT :: rest)) with ((c :: s) ++ DOT :: rest).
  rewrite digits_app by (done || (intros ? ? [= <- _]; done)).
  by rewrite (proj2 (Z.leb_le _ _)), (proj2 (Z.ltb_lt _ _)) by lia.
Qed.

Lemma owner_first_octet s rest : s <> [] -> Forall (fun c => isdigit c = true) s -> 0 <= digits s 0 < 256 ->
  owner_octets (s ++ DOT :: rest) = Done [digits s 0; 0; 0; 0].
Proof.
  intros Hne Hs Hv. unfold owner_octets.
  assert (forall t, strchr DOT (s ++ DOT :: t) = Some (s, t)) as Hc.
  { intros t. apply strchr_app. eapply Forall_impl; [exact Hs|]. cbn. intros c Hd%digit_range. unfold DOT. lia. }
  rewrite Hc. cbn [address_loop]. rewrite Hc, atoi_digits by (done || lia). cbn [rbind].
  assert (u8 (digits s 0) = digits s 0) as -> by (apply Z.mod_small; lia). done.
Qed.

(** ** Data sets *)

(** A data set reference is found by the beginning of the name of its logical device. *)
Lemma dataSet_of_other_device : lookupDataSet (sample_env sample_time) (lit "LD/LLN0$ds") = Done (Some sample_dataSet).
Proof. vm_compute. reflexivity. Qed.

(** A block with a data set that was made for a client frees it and reads it afterwards,
    when its data set is looked up again. *)
Lemma dynamic_dataSet_read_after_free env rc v d values name bytes es :
  rc_isDynamicDataSet rc = true -> rc_dataSet rc = DataSetAt d -> rc_bufferedDataSetValues rc = Some values ->
  MmsValue_toString v = Some bytes -> c_string bytes = Done name ->
  (exists found, lookupDataSet env name = Done (Some found)) \/
  (lookupDataSet env name = Done None /\ exists found, n_domainDataSet env name = Done (Some found)) ->
  updateReportDataset env (Some v) rc es = Ub.
Proof.
  intros Hd Hs Hv Hb Hn Hf. unfold updateReportDataset, self. rewrite bind_ret, bind_get, Hd, Hs.
  change (MmsMapping_freeDynamicallyCreatedDataSet (DataSetAt d)) with (Done FreedDataSet). rewrite bind_assoc.
  rewrite (bind_lift _ _ _ _ FreedDataSet) by done. rewrite bind_modify.
  rewrite (bind_lift _ _ _ _ name) by (by rewrite Hb; cbn).
  assert (forall rc', rc_bufferedDataSetValues rc' = Some values -> rc_dataSet rc' = FreedDataSet ->
    deleteDataSetValuesShadowBuffer rc' es = Ub) as Hub.
  { intros rc' E1 E2. unfold deleteDataSetValuesShadowBuffer, self. rewrite bind_get, E1, E2. done. }
  destruct Hf as [[found Hf]|[Hf [found Hfd]]].
  - rewrite (bind_lift _ _ _ _ _ Hf). cbv zeta. rewrite bind_modify. unfold cbind at 1. by rewrite Hub.
  - rewrite (bind_lift _ _ _ _ _ Hf). cbv zeta. rewrite (bind_lift _ _ _ _ _ Hfd), bind_modify. unfold cbind at 1. by rewrite Hub.
Qed.

(** ** Clients *)

Definition write_by (c : Z) (name : list Z) (value : MmsValue) : R Z :=
  Reporting_RCBWriteAccessHandler (sample_env sample_time) 1 name value c.

(** An unbuffered block that is reserved for one client is enabled by another one. *)
Lemma reserved_block_enabled_by_other :
  let reserved := after (write_by 7 (lit "Resv") (MmsValue_newBoolean true)) (sample_started false) in
  let taken := after (write_by 8 (lit "RptEna") (MmsValue_newBoolean true)) reserved in
  rc_reserved reserved = true /\ rc_clientConnection reserved = Some 7 /\
  rc_enabled taken = true /\ rc_clientConnection taken = Some 8.
Proof. vm_compute. by split_and!. Qed.

(** Enabling a block again starts its sequence numbers at 0, but not the attribute that
    is sent with the next report. *)
Lemma sequence_number_not_reset :
  let ena b := write_by 7 (lit "RptEna") (MmsValue_newBoolean b) in
  let reported := after (processEventsForReport sample_sizes sample_malloc (sample_env sample_time) (sample_time + 100)) (sample_updated false) in
  let again := after (ena true) (after (ena false) reported) in
  rc_sqNum reported = 1 /\ rc_sqNum again = 0 /\ rc_enabled again = true /\
  (MmsValue_toUint32 <$> attribute again 7) = Some (Done 1).
Proof. vm_compute. by split_and!. Qed.

(** Writing the attribute [EntryID] is not taken for the request to go on behind that
    report, since the handler looks for another name: the queue stays as it is. *)
Lemma EntryID_does_not_resync env fuel value c : write_attribute env fuel (lit "EntryID") value c = cret None.
Proof. reflexivity. Qed.

(** If it were, the search would not end unless the oldest report is the one. *)
Lemma search_for_EntryID_hangs fuel buffer p e next id :
  rb_oldestReport buffer = Some p -> rb_memoryBlock buffer !! p = Some (e, next) -> memcmp_eq (re_entryId e) id 8 = Done false ->
  checkReportBuffer_loop fuel buffer (rb_oldestReport buffer) id = NoFuel.
Proof.
  intros -> He Hid. induction fuel as [|fuel IH]; [done|]. cbn [checkReportBuffer_loop]. unfold read_entry.
  rewrite He. cbn [defined rbind]. by rewrite Hid.
Qed.

(** ** Storage *)

(** A general interrogation of 950 values fits the buffer but not the local storage from
    which reports are sent: it is not sent, and stays the first to wait. *)
Definition large_dataSet : DataSet :=
  mkDataSet (Some (lit "LD0")) (lit "LLN0$ds") 950 (replicate 950 (mkDataSetEntry (lit "LD0") (lit "a") (-1) None (Some 1))).
Definition large_env : ReportEnv :=
  mkReportEnv sample_time (fun _ => MmsValue_newBoolean true) [large_dataSet] (fun _ => Done None) (fun _ => lit "192.168.0.10:1102").

Lemma large_report_stays :
  let write name := Reporting_RCBWriteAccessHandler large_env 1 name (MmsValue_newBoolean true) 7 in
  let asked := after (write (lit "GI")) (after (write (lit "RptEna")) (after (activate large_env) (sample_rc true))) in
  let tick := processEventsForReport sample_sizes sample_malloc large_env (sample_time + 100) in
  match (do! _ := tick in do! _ := tick in tick) asked [] with
  | Done (_, s, es) => es = [] /\ rc_gi s = false /\ rb_reportsCount (buffer_at s) = 1 /\ rb_nextToTransmit (buffer_at s) = Some 0
  | _ => False
  end.
Proof. vm_compute. by split_and!. Qed.
