(* ===== verification/ValueStore.v ===== *)
(** The values of the server: src/mms/iso_mms/server/mms_server.c keeps a cache of values
    for each domain.  A value of the data model is a value of a cache or a component of
    one; the pointers to them that the program keeps are locations here. *)
From Stdlib Require Import String.
From stdpp Require Import base tactics numbers option countable list.
From S2P Require Import Prelude Memory MmsValue CString MmsTypeSpec.

(** * Locations *)

(** The domain of the cache, the name that the value was inserted with, and the indices
    that lead to the component. *)
Record Location := mkLocation {
  lo_domain : Z;
  lo_item : list Z;
  lo_path : list nat }.

#[export] Instance Location_eq_dec : EqDecision Location.
Proof. solve_decision. Defined.

(** A pointer as the number that other components know it by. *)
Definition handle (l : Location) : Z := Z.pos (encode (lo_domain l, lo_item l, lo_path l)).

Definition location (h : Z) : option Location :=
  match h with
  | Z.pos p => (fun '(d, item, path) => mkLocation d item path) <$> decode p
  | _ => None
  end.

(** The location of a component. *)
Definition child_at (l : Location) (i : nat) : Location := mkLocation (lo_domain l) (lo_item l) (lo_path l ++ [i]).

(** ** Values inside values *)

Fixpoint value_at (v : MmsValue) (path : list nat) : option MmsValue :=
  match path with
  | [] => Some v
  | i :: path =>
      match v with
      | Complex _ _ cs => mjoin (cs !! i) ≫= fun c => value_at c path
      | Simple _ _ => None
      end
  end.

Fixpoint put_at (v : MmsValue) (path : list nat) (w : MmsValue) : MmsValue :=
  match path with
  | [] => w
  | i :: path =>
      match v with
      | Complex d a cs =>
          match mjoin (cs !! i) with
          | Some c => Complex d a (<[i := Some (put_at c path w)]> cs)
          | None => v
          end
      | Simple _ _ => v
      end
  end.

(** * The component that a name leads to *)

(** [MmsVariableSpecification_getChildValue], with the pointer that it returns as the
    indices from the value that it starts with. *)
Section ScanPath.
Context (get : MmsVariableSpecification -> option MmsValue -> list Z -> res (option (list nat))).
Context (value : option MmsValue) (childId : list Z).

Fixpoint scan_children_path (es : list MmsVariableSpecification) (i : Z) : res (option (list nat)) :=
  match es with
  | [] => Done None
  | e :: es =>
      let childLen := directChildStrLen childId in
      let! name := defined (spec_name e) in
      if (zlen name =? childLen) && bool_decide (name = take (Z.to_nat childLen) childId) then
        let! c := component value i in
        if childLen =? zlen childId then Done (match c with Some _ => Some [Z.to_nat i] | None => None end)
        else
          let! path := get e c (drop (Z.to_nat (childLen + 1)) childId) in
          Done (cons (Z.to_nat i) <$> path)
      else scan_children_path es (i + 1)
  end.
End ScanPath.

Fixpoint getChildPath (typeSpec : MmsVariableSpecification) (value : option MmsValue) (childId : list Z)
  : res (option (list nat)) :=
  match typeSpec with
  | SpecStructure _ elements => scan_children_path getChildPath value childId elements 0
  | _ => Done None
  end.

(** [MmsValueCache_lookupValue], with the name of the entry and the indices from its value. *)
Fixpoint searchCacheForPath (fuel : nat) (self : MmsValueCache) (itemId parentId : list Z)
  : res (option (list Z * list nat)) :=
  match Map_getEntry (vc_map self) parentId with
  | None =>
      match getParentSubString parentId with
      | Some parentItemId =>
          match fuel with
          | O => NoFuel
          | S fuel => searchCacheForPath fuel self itemId parentItemId
          end
      | None => Done None
      end
  | Some cacheEntry =>
      let childId := getChildSubString itemId parentId in
      let! typeSpec := MmsDomain_getNamedVariable (vc_domain self) parentId in
      let! typeSpec := defined typeSpec in
      let! path := getChildPath typeSpec (Some (ce_value cacheEntry)) childId in
      Done (pair parentId <$> path)
  end.

Definition lookupPath (self : MmsValueCache) (itemId : list Z) : res (option (list Z * list nat)) :=
  match Map_getEntry (vc_map self) itemId with
  | None =>
      match getParentSubString itemId with
      | Some parentItemId => searchCacheForPath (length itemId) self itemId parentItemId
      | None => Done None
      end
  | Some _ => Done (Some (itemId, []))
  end.

(** * The caches of the server *)

Abbreviation value_caches := (Map Z MmsValueCache).

Definition createValueCachesForDomains (domains : list MmsDomain) : value_caches :=
  foldl (fun caches d => Map_addEntry caches (md_address d) (MmsValueCache_create d)) (Map_create Z.eqb) domains.

Definition MmsServer_getValueFromCache (caches : value_caches) (domain : Z) (itemId : list Z) : res (option Location) :=
  match Map_getEntry caches domain with
  | Some cache =>
      let! found := lookupPath cache itemId in
      Done ((fun '(item, path) => mkLocation domain item path) <$> found)
  | None => Done None
  end.

(** The entry of the key is replaced. *)
Fixpoint set_entry {K V} (equal : K -> K -> bool) (entries : list (K * V)) (key : K) (v : V) : list (K * V) :=
  match entries with
  | [] => []
  | (k, w) :: entries =>
      if equal key k then (k, v) :: entries else (k, w) :: set_entry equal entries key v
  end.

Definition Map_setEntry {K V} (map : Map K V) (key : K) (v : V) : Map K V :=
  mkMap (set_entry (map_compareKeys map) (map_entries map) key v) (map_compareKeys map).

Definition MmsServer_insertIntoCache (caches : value_caches) (domain : Z) (itemId : list Z) (value : MmsValue)
  : res value_caches :=
  match Map_getEntry caches domain with
  | Some cache => let! cache := MmsValueCache_insertValue cache itemId value in Done (Map_setEntry caches domain cache)
  | None => Done caches
  end.

(** ** Reading and writing through a pointer *)

Definition load (caches : value_caches) (l : Location) : option MmsValue :=
  cache ← Map_getEntry caches (lo_domain l);
  entry ← Map_getEntry (vc_map cache) (lo_item l);
  value_at (ce_value entry) (lo_path l).

Definition store (caches : value_caches) (l : Location) (v : MmsValue) : value_caches :=
  match Map_getEntry caches (lo_domain l) with
  | Some cache =>
      match Map_getEntry (vc_map cache) (lo_item l) with
      | Some entry =>
          Map_setEntry caches (lo_domain l) (mkCache (vc_domain cache)
            (Map_setEntry (vc_map cache) (lo_item l)
              (mkCacheEntry (put_at (ce_value entry) (lo_path l) v) (ce_typeSpec entry))))
      | None => caches
      end
  | None => caches
  end.

(** * Facts about pointers *)

Lemma location_handle l : location (handle l) = Some l.
Proof. unfold location, handle. rewrite decode_encode. by destruct l. Qed.

Lemma handle_inj l l' : handle l = handle l' -> l = l'.
Proof. intros H%(f_equal location). rewrite !location_handle in H. congruence. Qed.

(** The values of the server: laws of reading and writing through pointers, and the types
    of the values that names lead to. *)

(** * Components *)

Lemma value_at_app v p q : value_at v (p ++ q) = value_at v p ≫= fun c => value_at c q.
Proof.
  revert v. induction p as [|i p IH]; intros v; [done|]. cbn [app value_at]. destruct v as [|d a cs]; [done|].
  destruct (mjoin (cs !! i)) as [c|]; [|done]. cbn [mbind option_bind]. apply IH.
Qed.

Lemma value_at_complex d a vs i p : value_at (Complex d a (Some <$> vs)) (i :: p) = vs !! i ≫= fun c => value_at c p.
Proof. cbn [value_at]. rewrite list_lookup_fmap. by destruct (vs !! i). Qed.

Lemma put_at_eq v p c w : value_at v p = Some c -> value_at (put_at v p w) p = Some w.
Proof.
  revert v. induction p as [|i p IH]; intros v; [done|]. cbn [value_at put_at]. destruct v as [|d a cs]; [done|].
  destruct (mjoin (cs !! i)) as [x|] eqn:E; [|done]. cbn [mbind option_bind]. intros H. cbn [value_at].
  rewrite list_lookup_insert_eq; [by apply IH|]. apply lookup_lt_is_Some_1. destruct (cs !! i); [eauto|done].
Qed.

(** Neither of the paths leads through the other. *)
Definition paths_apart (p q : list nat) : Prop := ~ p `prefix_of` q /\ ~ q `prefix_of` p.

Lemma put_at_apart v p q w : paths_apart p q -> value_at (put_at v p w) q = value_at v q.
Proof.
  revert v q. induction p as [|i p IH]; intros v [|j q] [H1 H2]; try (destruct H1; by apply prefix_nil); try (destruct H2; by apply prefix_nil).
  cbn [put_at]. destruct v as [|d a cs]; [done|]. destruct (mjoin (cs !! i)) as [x|] eqn:E; [|done].
  cbn [value_at]. destruct (decide (i = j)) as [<-|Hne].
  - rewrite list_lookup_insert_eq by (apply lookup_lt_is_Some_1; destruct (cs !! i); [eauto|done]).
    rewrite E. cbn. apply IH. split; intros H; [by apply H1, prefix_cons|by apply H2, prefix_cons].
  - by rewrite list_lookup_insert_ne.
Qed.

(** Components of typed values are typed. *)
Lemma typed_put_at t v p c w : typed t v -> value_at v p = Some c -> (forall t', typed t' c -> typed t' w) ->
  typed t (put_at v p w).
Proof.
  revert t v. induction p as [|i p IH]; intros t v Ht; [intros [= ->] H; by apply H|].
  destruct Ht as [|n k t d vs Hvs Hk|n ts d vs Hts]; [done|..]; rewrite value_at_complex; cbn [put_at];
    rewrite list_lookup_fmap; (destruct (vs !! i) as [x|] eqn:E; [|done]); cbn [mbind option_bind fmap option_fmap option_map mjoin option_join];
    intros Hc Hw; rewrite <- list_fmap_insert.
  - constructor; [|by rewrite <- Hk; unfold zlen; rewrite length_insert].
    apply Forall_insert; [done|]. apply IH; [|done..]. eapply Forall_lookup_1; [exact Hvs|exact E].
  - constructor. assert (exists ti, ts !! i = Some ti) as [ti Ei].
    { apply lookup_lt_is_Some. rewrite (Forall2_length _ _ _ Hts). by eapply lookup_lt_Some. }
    rewrite <- (list_insert_id ts i ti Ei). apply Forall2_insert; [done|]. apply IH; [|done..].
    by eapply Forall2_lookup_lr.
Qed.

(** Values of a type have the same shape. *)
Lemma value_at_shape t v w p : typed t v -> typed t w -> is_Some (value_at v p) -> is_Some (value_at w p).
Proof.
  revert t v w. induction p as [|i p IH]; intros t v w Hv Hw; [by exists w|].
  destruct Hv as [|n k t d vs Hvs Hk|n ts d vs Hts]; [by intros [? ?]|..];
    inversion Hw as [|? ? ? d' ws Hws Hk'|? ? d' ws Hws]; subst; rewrite !value_at_complex;
    (destruct (vs !! i) as [x|] eqn:E; [|by cbn; intros [? ?]]); cbn [mbind option_bind].
  - assert (exists y, ws !! i = Some y) as [y Ey].
    { apply lookup_lt_is_Some. apply lookup_lt_Some in E. unfold zlen in Hk'. lia. }
    rewrite Ey. cbn [mbind option_bind]. apply (IH t x y); [eapply Forall_lookup_1; [exact Hvs|exact E]|eapply Forall_lookup_1; [exact Hws|exact Ey]].
  - destruct (Forall2_lookup_r _ _ _ _ _ Hts E) as (ti & Ei & Hx). destruct (Forall2_lookup_l _ _ _ _ _ Hws Ei) as (y & -> & Hy).
    cbn [mbind option_bind]. by apply (IH ti x y).
Qed.

(** ** Updates keep the type *)

Lemma u_update_type u u' b w : u_update u u' = Done (b, w) -> u_type w = u_type u.
Proof.
  destruct u, u'; cbn [u_update]; try (by intros [= _ <-]);
    try (match goal with |- (if ?c then _ else _) = _ -> _ => destruct c end);
    try (by intros [= _ <-]); try (match goal with |- rbind ?m _ = _ -> _ => destruct m as [[]| | |] end);
    try done; try (by intros [= _ <-]);
    match goal with |- rbind ?m _ = _ -> _ => destruct m as [?| | |] end; try done; by intros [= _ <-].
Qed.

Lemma updateComponents_typed (P : MmsValue -> MmsValue -> Prop) f vs cs :
  Forall (fun v => forall u b w, f v u = Done (b, w) -> P v w) vs ->
  forall us, updateStructuredComponent f (Some <$> vs) us = Done cs -> exists ws, cs = Some <$> ws /\ Forall2 P vs ws.
Proof.
  intros H. revert cs. induction H as [|v vs Hv _ IH]; intros cs us; cbn [fmap list_fmap updateStructuredComponent].
  - intros [= <-]. by exists [].
  - destruct us as [|[u|] us]; try done. destruct (f v u) as [[b w]| | |] eqn:E; try done. cbn [rbind].
    destruct (updateStructuredComponent f (Some <$> vs) us) as [cs'| | |] eqn:E'; try done. intros [= <-].
    destruct (IH _ _ E') as (ws & -> & HF). exists (w :: ws). split; [done|]. constructor; [by eapply Hv|done].
Qed.

Lemma MmsValue_update_typed v : forall t u b w, typed t v -> MmsValue_update v u = Done (b, w) -> typed t w.
Proof.
  induction v as [d x|d a cs IH] using MmsValue_induction; intros t u b w Ht; cbn [MmsValue_update].
  - case_bool_decide; [|by intros [= _ <-]]. destruct u as [d' y|]; [|by intros [= _ <-]].
    destruct (u_update x y) as [[ok z]| | |] eqn:E; try done. intros [= _ <-].
    inversion Ht; subst. constructor. by rewrite (u_update_type _ _ _ _ E).
  - case_bool_decide; [|by intros [= _ <-]]. destruct u as [|d' a' us]; [by intros [= _ <-]|].
    destruct (updateStructuredComponent MmsValue_update cs us) as [cs'| | |] eqn:E; try done. intros [= _ <-].
    assert (exists vs, cs = Some <$> vs) as [vs ->] by (inversion Ht; eauto).
    rewrite Forall_fmap in IH.
    destruct (updateComponents_typed (fun v w => forall t, typed t v -> typed t w) _ _ _
      ltac:(eapply Forall_impl; [exact IH|]; intros v Hv u0 b0 w0 E0 t0 Ht0; exact (Hv v eq_refl t0 u0 b0 w0 Ht0 E0)) _ E) as (ws & -> & HF).
    inversion Ht as [|n k t0 ? vs0 Hvs Hk|n ts ? vs0 Hts]; simplify_eq; constructor.
    + clear - HF Hvs. induction HF; [done|]. apply Forall_cons_1 in Hvs as [? ?]. constructor; auto.
    + unfold zlen. by rewrite <- (Forall2_length _ _ _ HF).
    + clear - HF Hts. revert ts Hts. induction HF; intros ts Hts; inversion Hts; subst; constructor; auto.
Qed.

(** ** Default values *)

Lemma u_default_typed n t v : u_default t = Some v -> typed (SpecSimple n t) v.
Proof. destruct t; intros [= <-]; by constructor. Qed.

(** The types that have a default value: of an array without elements nothing is asked
    about the elements. *)
Fixpoint has_default (t : MmsVariableSpecification) : bool :=
  match t with
  | SpecSimple _ t => match u_default t with Some _ => true | None => false end
  | SpecArray _ k t => (k =? 0) || ((0 <? k) && has_default t)
  | SpecStructure _ ts => forallb has_default ts
  end.

(** Induction over types with the elements at hand. *)
Section SpecInd.
Context (P : MmsVariableSpecification -> Prop)
  (Hsimple : forall n t, P (SpecSimple n t))
  (Harray : forall n k t, P t -> P (SpecArray n k t))
  (Hstructure : forall n ts, Forall P ts -> P (SpecStructure n ts)).

Fixpoint spec_induction (t : MmsVariableSpecification) : P t :=
  match t with
  | SpecSimple n t => Hsimple n t
  | SpecArray n k t => Harray n k t (spec_induction t)
  | SpecStructure n ts => Hstructure n ts
      ((fix go (ts : list MmsVariableSpecification) : Forall P ts :=
        match ts with [] => Forall_nil_2 _ | t :: ts => Forall_cons_2 _ _ _ (spec_induction t) (go ts) end) ts)
  end.
End SpecInd.

Lemma newDefaultValue_typed t : has_default t = true -> exists v, MmsValue_newDefaultValue t = Some v /\ typed t v.
Proof.
  induction t as [n t|n k t IH|n ts IH] using spec_induction; cbn [has_default MmsValue_newDefaultValue].
  - destruct (u_default t) as [v|] eqn:E; [|done]. intros _. exists v. split; [done|by apply u_default_typed].
  - intros H. assert (exists vs, replicate (Z.to_nat k) (MmsValue_newDefaultValue t) = Some <$> vs /\ Forall (typed t) vs /\ zlen vs = k)
      as (vs & -> & Hvs & Hk); [|eexists; split; [done|by constructor]].
    apply orb_true_iff in H as [->%Z.eqb_eq|[Hk Hd]%andb_true_iff].
    + by exists [].
    + apply Z.ltb_lt in Hk. destruct (IH Hd) as (v & -> & Hv). exists (replicate (Z.to_nat k) v). split; [by rewrite fmap_replicate|].
      split; [by apply Forall_replicate|]. unfold zlen. rewrite length_replicate. lia.
  - intros H. assert (exists vs, map MmsValue_newDefaultValue ts = Some <$> vs /\ Forall2 typed ts vs) as (vs & -> & Hvs);
      [|eexists; split; [done|by constructor]].
    induction IH as [|t ts Ht _ IHts]; [by exists []|]. cbn [forallb] in H. apply andb_true_iff in H as [H1 H2].
    destruct (Ht H1) as (v & Ev & Hv), (IHts H2) as (vs & Evs & Hvs). exists (v :: vs). cbn. rewrite Ev, Evs. split; [done|by constructor].
Qed.

(** * Names of components *)

Lemma component_done v i c : component v i = Done c ->
  exists d a cs, v = Some (Complex d a cs) /\ cs !! Z.to_nat i = Some c.
Proof.
  destruct v as [[|d a cs]|]; try done. cbn [component]. destruct (i <? 0); [done|].
  unfold defined. destruct (cs !! Z.to_nat i) as [x|] eqn:E; [|done]. intros [= ->]. by exists d, a, cs.
Qed.

Lemma directChildStrLen_bound id : 0 <= directChildStrLen id <= zlen id.
Proof. induction id as [|c id IH]; cbn [directChildStrLen]; [done|]. rewrite zlen_cons. destruct (c =? DOLLAR); lia. Qed.

(** What the pointer that the search returns points to is the value that it finds. *)
Lemma getChildPath_spec t v id : MmsVariableSpecification_getChildValue t v id =
  (let! p := getChildPath t v id in Done (p ≫= fun p => v ≫= fun v => value_at v p)).
Proof.
  remember (length id) as k eqn:Hk. revert t v id Hk. induction k as [k IH] using lt_wf_ind. intros t v id ->.
  destruct t as [| |n es]; [done..|]. cbn [MmsVariableSpecification_getChildValue getChildPath].
  generalize 0. induction es as [|e es IHe]; intros i; [done|]. cbn [scan_children scan_children_path].
  destruct (defined (spec_name e)) as [name| | |]; try done. cbn [rbind].
  destruct (_ && _) eqn:Em; [|apply IHe]. destruct (component v i) as [c| | |] eqn:Ec; cbn [rbind].
  2-4: by destruct (directChildStrLen id =? zlen id).
  destruct (component_done _ _ _ Ec) as (d & a & cs & -> & Hc).
  destruct (Z.eqb_spec (directChildStrLen id) (zlen id)) as [El|El].
  - destruct c as [c|]; [|done]. cbn. by rewrite Hc.
  - pose proof (directChildStrLen_bound id) as Hb.
    rewrite (IH (length (drop (Z.to_nat (directChildStrLen id + 1)) id))); [|rewrite length_drop; unfold zlen in *; lia|done].
    destruct (getChildPath e c _) as [[p|]| | |]; try done. cbn. by rewrite Hc.
Qed.

Lemma scan_null get id es i p : scan_children_path get None id es i <> Done (Some p).
Proof.
  revert i. induction es as [|e es IH]; intros i; [done|]. cbn [scan_children_path].
  destruct (defined (spec_name e)); try done. cbn [rbind]. destruct (_ && _); [done|apply IH].
Qed.

(** The pointer is not the null pointer. *)
Lemma getChildPath_valid t v id p : getChildPath t (Some v) id = Done (Some p) -> is_Some (value_at v p).
Proof.
  remember (length id) as k eqn:Hk. revert t v id p Hk. induction k as [k IH] using lt_wf_ind. intros t v id p ->.
  destruct t as [| |n es]; [done..|]. cbn [getChildPath]. generalize 0.
  induction es as [|e es IHe]; intros i; [done|]. cbn [scan_children_path].
  destruct (defined (spec_name e)) as [name| | |]; try done. cbn [rbind].
  destruct (_ && _) eqn:Em; [|apply IHe]. destruct (component (Some v) i) as [c| | |] eqn:Ec; try done. cbn [rbind].
  destruct (component_done _ _ _ Ec) as (d & a & cs & [= ->] & Hc).
  destruct (Z.eqb_spec (directChildStrLen id) (zlen id)) as [El|El].
  - destruct c as [c|]; [|done]. intros [= <-]. cbn. rewrite Hc. by exists c.
  - pose proof (directChildStrLen_bound id) as Hb.
    destruct (getChildPath e c _) as [[q|]| | |] eqn:Eq; try done. intros [= <-]. cbn. rewrite Hc.
    destruct c as [c|]; [|by destruct e; try done; cbn [getChildPath] in Eq; apply scan_null in Eq].
    cbn. eapply IH; [|done|exact Eq]. rewrite length_drop. unfold zlen in *. lia.
Qed.

(** ** Names in a cache *)

(** What the entry of the name has at the path. *)
Definition entry_at (c : MmsValueCache) (found : list Z * list nat) : option MmsValue :=
  e ← Map_getEntry (vc_map c) found.1; value_at (ce_value e) found.2.

Lemma searchCacheForPath_spec fuel c itemId parentId :
  searchCacheForValue fuel c itemId parentId =
    (let! r := searchCacheForPath fuel c itemId parentId in Done (r ≫= entry_at c)).
Proof.
  revert parentId. induction fuel as [|fuel IH]; intros parentId; cbn [searchCacheForValue searchCacheForPath];
    destruct (Map_getEntry (vc_map c) parentId) as [e|] eqn:E.
  2, 4: destruct (getParentSubString parentId); [by try apply IH|done].
  all: destruct (MmsDomain_getNamedVariable _ _) as [t| | |]; [|done..]; cbn [rbind].
  all: destruct (defined t) as [t'| | |]; [|done..]; cbn [rbind]; rewrite getChildPath_spec.
  all: destruct (getChildPath _ _ _) as [[p|]| | |]; [|done..]; cbn; unfold entry_at; cbn; by rewrite E.
Qed.

Lemma lookupPath_spec c itemId : MmsValueCache_lookupValue c itemId =
  (let! r := lookupPath c itemId in Done (r ≫= entry_at c)).
Proof.
  unfold MmsValueCache_lookupValue, lookupPath. destruct (Map_getEntry (vc_map c) itemId) as [e|] eqn:E.
  - cbn. unfold entry_at. cbn. by rewrite E.
  - destruct (getParentSubString itemId); [apply searchCacheForPath_spec|done].
Qed.

Lemma lookupPath_valid c itemId found : lookupPath c itemId = Done (Some found) -> is_Some (entry_at c found).
Proof.
  assert (forall fuel parentId, searchCacheForPath fuel c itemId parentId = Done (Some found) -> is_Some (entry_at c found)) as Hs.
  { intros fuel. induction fuel as [|fuel IH]; intros parentId; cbn [searchCacheForPath];
      destruct (Map_getEntry (vc_map c) parentId) as [e|] eqn:E.
    2, 4: destruct (getParentSubString parentId); [by try apply IH|done].
    all: destruct (MmsDomain_getNamedVariable _ _) as [t| | |]; [|done..]; cbn [rbind].
    all: destruct (defined t) as [t'| | |]; [|done..]; cbn [rbind].
    all: destruct (getChildPath t' _ _) as [[p|]| | |] eqn:Ep; [|done..]; intros [= <-]; unfold entry_at; cbn; rewrite E.
    all: by eapply getChildPath_valid. }
  unfold lookupPath. destruct (Map_getEntry (vc_map c) itemId) as [e|] eqn:E.
  - intros [= <-]. unfold entry_at. cbn. rewrite E. by exists (ce_value e).
  - destruct (getParentSubString itemId); [apply Hs|done].
Qed.

(** * Maps *)

Section Entries.
Context {K V : Type} (equal : K -> K -> bool) (Hequal : forall a b, equal a b = true <-> a = b).

Lemma get_set_entry_eq (entries : list (K * V)) k v w : get_entry equal entries k = Some v -> get_entry equal (set_entry equal entries k w) k = Some w.
Proof.
  induction entries as [|[k' v'] entries IH]; cbn [get_entry set_entry]; [done|].
  destruct (equal k k') eqn:E; cbn [get_entry]; rewrite E; [done|apply IH].
Qed.

Lemma get_set_entry_ne (entries : list (K * V)) k k' w : k <> k' -> get_entry equal (set_entry equal entries k w) k' = get_entry equal entries k'.
Proof.
  intros Hne. induction entries as [|[k1 v1] entries IH]; cbn [get_entry set_entry]; [done|].
  destruct (equal k k1) eqn:E; cbn [get_entry].
  - apply Hequal in E as <-. destruct (equal k' k) eqn:E'; [apply Hequal in E'; congruence|done].
  - destruct (equal k' k1); [done|apply IH].
Qed.
End Entries.

Lemma getEntry_setEntry {K V} (m : Map K V) k v w : Map_getEntry m k = Some v -> Map_getEntry (Map_setEntry m k w) k = Some w.
Proof. apply get_set_entry_eq. Qed.

Lemma strcmp_equal (a b : list Z) : bool_decide (a = b) = true <-> a = b.
Proof. apply bool_decide_eq_true. Qed.

(** * Caches of the server *)

(** The caches of the domains, each with values of the types of its variables. *)
Record caches_wf (domains : list MmsDomain) (caches : value_caches) : Prop := mk_caches_wf {
  caches_equal : map_compareKeys caches = Z.eqb;
  caches_typed : forall a c, Map_getEntry caches a = Some c -> exists d, d ∈ domains /\ md_address d = a /\ cache_wf d c }.

Section Store.
Context (domains : list MmsDomain) (caches : value_caches) (Hwf : caches_wf domains caches).

Lemma get_setEntry_caches a b c : Map_getEntry (Map_setEntry caches a c) b =
  if bool_decide (a = b) then (match Map_getEntry caches a with Some _ => Some c | None => None end) else Map_getEntry caches b.
Proof using Hwf.
  unfold Map_getEntry, Map_setEntry. cbn. rewrite (caches_equal _ _ Hwf). case_bool_decide as H.
  - subst b. destruct (get_entry Z.eqb (map_entries caches) a) as [x|] eqn:E; [by eapply get_set_entry_eq|].
    revert E. generalize (map_entries caches). intros l. induction l as [|[k x] l IH]; cbn; [done|].
    destruct (Z.eqb a k) eqn:Ek; [done|]. cbn. by rewrite Ek.
  - apply get_set_entry_ne; [apply Z.eqb_eq|done].
Qed.

Lemma get_setEntry_cache d c k k' e : cache_wf d c -> Map_getEntry (vc_map c) k = Some e -> forall e',
  Map_getEntry (Map_setEntry (vc_map c) k e') k' = if bool_decide (k = k') then Some e' else Map_getEntry (vc_map c) k'.
Proof using.
  intros (_ & Hk & _) E e'. unfold Map_getEntry, Map_setEntry in *. cbn. rewrite Hk in *. case_bool_decide as H.
  - subst k'. by eapply get_set_entry_eq.
  - apply get_set_entry_ne; [apply strcmp_equal|done].
Qed.

(** ** Reading what was written *)

(** Pointers to values neither of which is a part of the other. *)
Definition apart (l l' : Location) : Prop :=
  lo_domain l = lo_domain l' -> lo_item l = lo_item l' -> paths_apart (lo_path l) (lo_path l').

Lemma load_inv l v : load caches l = Some v -> exists d c e,
  Map_getEntry caches (lo_domain l) = Some c /\ d ∈ domains /\ md_address d = lo_domain l /\ cache_wf d c /\
  Map_getEntry (vc_map c) (lo_item l) = Some e /\ value_at (ce_value e) (lo_path l) = Some v.
Proof using Hwf.
  unfold load. destruct (Map_getEntry caches (lo_domain l)) as [c|] eqn:Ec; [|done]. cbn.
  destruct (Map_getEntry (vc_map c) (lo_item l)) as [e|] eqn:Ee; [|done]. cbn. intros Hv.
  destruct (caches_typed _ _ Hwf _ _ Ec) as (d & Hd & Ha & Hw). by exists d, c, e.
Qed.

(** A value that was written is read; values apart from it stay. *)
Lemma load_store l v w l' : load caches l = Some v -> l' = l \/ apart l l' ->
  load (store caches l w) l' = if bool_decide (l' = l) then Some w else load caches l'.
Proof using Hwf.
  intros (d & c & e & Ec & Hd & Ha & Hw & Ee & Hv)%load_inv Hl. unfold store. rewrite Ec, Ee. unfold load.
  rewrite get_setEntry_caches, Ec. destruct (decide (lo_domain l = lo_domain l')) as [Edom|Edom].
  2: { rewrite bool_decide_false by done. by rewrite bool_decide_false by congruence. }
  rewrite bool_decide_true by done. cbn [mbind option_bind vc_map]. rewrite (get_setEntry_cache _ _ _ _ _ Hw Ee).
  destruct (decide (lo_item l = lo_item l')) as [Ei|Ei].
  2: { rewrite bool_decide_false by done. rewrite (bool_decide_false (l' = l)) by congruence. by rewrite <- Edom, Ec. }
  rewrite bool_decide_true by done. cbn [mbind option_bind ce_value]. case_bool_decide as El.
  - subst l'. by eapply put_at_eq.
  - destruct Hl as [?|Hl]; [done|]. rewrite put_at_apart by (by apply Hl). by rewrite <- Edom, Ec, <- Ei; cbn; rewrite Ee.
Qed.

(** A value of the types of the old one keeps the caches well-formed. *)
Lemma store_wf l v w : load caches l = Some v -> (forall t, typed t v -> typed t w) -> caches_wf domains (store caches l w).
Proof using Hwf.
  intros (d & c & e & Ec & Hd & Ha & Hw & Ee & Hv)%load_inv Ht. unfold store. rewrite Ec, Ee. split; [apply Hwf|].
  intros a c'. rewrite get_setEntry_caches, Ec. case_bool_decide as E; [|by apply (caches_typed _ _ Hwf)].
  intros [= <-]. subst a. exists d. split; [done|]. split; [done|]. pose proof Hw as (H1 & H2 & H3).
  split; [done|]. split; [done|]. cbn [vc_map]. intros k e'. rewrite (get_setEntry_cache _ _ _ _ _ Hw Ee).
  case_bool_decide as E; [|apply H3]. intros [= <-]. subst k. cbn. destruct (H3 _ _ Ee) as [Hg Hty].
  split; [done|]. by eapply typed_put_at.
Qed.

(** Pointers to values stay pointers to values. *)
Lemma load_store_valid l v w l' : load caches l = Some v -> (forall t, typed t v -> typed t w) ->
  is_Some (load caches l') -> is_Some (load (store caches l w) l').
Proof using Hwf.
  intros (d & c & e & Ec & Hd & Ha & Hw & Ee & Hv)%load_inv Ht. unfold store. rewrite Ec, Ee. unfold load.
  rewrite get_setEntry_caches, Ec. destruct (decide (lo_domain l = lo_domain l')) as [Edom|Edom].
  2: by rewrite bool_decide_false.
  rewrite bool_decide_true by done. cbn [mbind option_bind vc_map]. rewrite (get_setEntry_cache _ _ _ _ _ Hw Ee).
  rewrite <- Edom, Ec. cbn [mbind option_bind]. case_bool_decide as Ei; [|done]. rewrite <- Ei, Ee. cbn [mbind option_bind ce_value].
  destruct Hw as (_ & _ & Hty). destruct (Hty _ _ Ee) as [_ Hte]. eapply value_at_shape; [done|]. by eapply typed_put_at.
Qed.
End Store.

(** Where a name leads to depends on the type alone. *)
Lemma scan_path_typed get id d d' a a' ts vs ws pre pre' i : (forall t v w r, typed t v -> typed t w -> t ∈ ts ->
    (length r < length id)%nat -> get t (Some v) r = get t (Some w) r) ->
  Forall2 typed ts vs -> Forall2 typed ts ws -> zlen pre = i -> zlen pre' = i ->
  scan_children_path get (Some (Complex d a (Some <$> (pre ++ vs)))) id ts i =
  scan_children_path get (Some (Complex d' a' (Some <$> (pre' ++ ws)))) id ts i.
Proof.
  intros Hget Hv. revert ws pre pre' i Hget. induction Hv as [|t v ts vs Ht _ IH]; intros ws pre pre' i Hget Hw Hp Hp';
    inversion Hw as [|? w ? ws' Htw Hws]; subst; [done|]. cbn [scan_children_path].
  destruct (defined (spec_name t)) as [name| | |]; try done. cbn [rbind]. destruct (_ && _).
  - rewrite component_middle, <- Hp', component_middle. cbn [rbind].
    destruct (Z.eqb_spec (directChildStrLen id) (zlen id)) as [|El]; [done|].
    pose proof (directChildStrLen_bound id). rewrite (Hget t v w); [done|done|done|left|].
    rewrite length_drop. unfold zlen in *. lia.
  - rewrite !(cons_middle _ _ vs), !(cons_middle _ _ ws'), !app_assoc. apply IH; [|done|rewrite !zlen_app; f_equal..].
    + intros t' v' w' r H1 H2 H3. apply Hget; [done..|by right].
    + by rewrite Hp'.
Qed.

Lemma getChildPath_typed t v w id : typed t v -> typed t w -> getChildPath t (Some v) id = getChildPath t (Some w) id.
Proof.
  remember (length id) as k eqn:Hk. revert t v w id Hk. induction k as [k IH] using lt_wf_ind. intros t v w id -> Hv Hw.
  destruct Hv as [| |n ts d vs Hts]; [done..|]. inversion Hw as [| |? ? d' ws Hws]; subst. cbn [getChildPath].
  apply (scan_path_typed getChildPath id d d' false false ts vs ws [] [] 0); try done.
  intros t v w' r H1 H2 _ Hr. by eapply IH.
Qed.

(** * Names and types *)

Section Names.
Context (domains : list MmsDomain) (caches : value_caches) (Hwf : caches_wf domains caches).
Context (Hnamed : Forall (fun d => Forall named (default [] (namedVariables d))) domains).

(** A name leads to a value of the type that the domain declares, or to none. *)
Lemma getValueFromCache_typed a itemId : exists r, MmsServer_getValueFromCache caches a itemId = Done r /\
  forall l, r = Some l -> exists v d t, load caches l = Some v /\ lo_domain l = a /\ d ∈ domains /\ md_address d = a /\
    MmsDomain_getNamedVariable d itemId = Done (Some t) /\ typed t v.
Proof using Hwf Hnamed.
  unfold MmsServer_getValueFromCache. destruct (Map_getEntry caches a) as [c|] eqn:Ec; [|by exists None].
  destruct (caches_typed _ _ Hwf _ _ Ec) as (d & Hd & Ha & Hc).
  destruct (lookupValue_wf d c itemId) as (r & Hr & Ht); [|done|]. { by eapply Forall_forall in Hnamed. }
  rewrite lookupPath_spec in Hr. destruct (lookupPath c itemId) as [found| | |] eqn:El; try done. cbn [rbind] in *.
  eexists. split; [done|]. injection Hr as <-. intros l Hl. destruct found as [[item path]|]; [|done]. injection Hl as <-.
  destruct (entry_at c (item, path)) as [v|] eqn:Ev.
  - destruct (Ht v) as (t & Hg & Hv); [by cbn|]. exists v, d, t. split_and!; try done. unfold load. cbn. by rewrite Ec.
  - destruct (lookupPath_valid _ _ _ El) as [w Hw]. congruence.
Qed.
End Names.

(** * Names lead to the same places *)

(** Caches of one domain with values of the same types under the same names. *)
Definition same_names (c c' : MmsValueCache) : Prop :=
  vc_domain c' = vc_domain c /\ forall k,
    match Map_getEntry (vc_map c) k, Map_getEntry (vc_map c') k with
    | Some e, Some e' => exists t, MmsDomain_getNamedVariable (vc_domain c) k = Done (Some t) /\ typed t (ce_value e) /\ typed t (ce_value e')
    | None, None => True
    | _, _ => False
    end.

Lemma lookupPath_same c c' itemId : same_names c c' -> lookupPath c' itemId = lookupPath c itemId.
Proof.
  intros [Hd Hk]. unfold lookupPath. pose proof (Hk itemId) as Hi.
  destruct (Map_getEntry (vc_map c) itemId) as [e|], (Map_getEntry (vc_map c') itemId) as [e'|]; try done.
  destruct (getParentSubString itemId) as [p|]; [|done]. clear Hi. generalize (length itemId). intros fuel. revert p.
  induction fuel as [|fuel IH]; intros p; cbn [searchCacheForPath]; pose proof (Hk p) as Hp;
    destruct (Map_getEntry (vc_map c) p) as [e|], (Map_getEntry (vc_map c') p) as [e'|]; try done.
  3: destruct (getParentSubString p); [apply IH|done].
  all: destruct Hp as (t & Ht & H1 & H2); rewrite Hd, Ht; cbn [rbind defined]; by rewrite (getChildPath_typed t (ce_value e) (ce_value e')).
Qed.

Lemma getValueFromCache_store domains caches l v w a itemId : caches_wf domains caches -> load caches l = Some v ->
  (forall t, typed t v -> typed t w) ->
  MmsServer_getValueFromCache (store caches l w) a itemId = MmsServer_getValueFromCache caches a itemId.
Proof.
  intros Hwf Hl Ht. destruct (load_inv _ _ Hwf _ _ Hl) as (d & c & e & Ec & Hd & Ha & Hw & Ee & Hv).
  unfold store. rewrite Ec, Ee. unfold MmsServer_getValueFromCache. rewrite (get_setEntry_caches domains) by done. rewrite Ec.
  case_bool_decide as E; [|done]. subst a. rewrite Ec. erewrite lookupPath_same; [done|]. split; [done|]. cbn [vc_map]. intros k.
  rewrite (get_setEntry_cache _ _ _ _ _ Hw Ee). pose proof Hw as (Hvd & _ & Hty). destruct (Hty _ _ Ee) as [Hg Hte].
  case_bool_decide as Ek.
  - subst k. rewrite Ee. exists (ce_typeSpec e). rewrite Hvd. split; [done|]. split; [done|]. by eapply typed_put_at.
  - destruct (Map_getEntry (vc_map c) k) as [e'|] eqn:Ek'; [|done]. destruct (Hty _ _ Ek') as [Hg' Hte'].
    exists (ce_typeSpec e'). by rewrite Hvd.
Qed.
