(* ===== verification/IedModel.v ===== *)
(** The data model of an IED: src/iedserver/model/model.h and model.c.  A model is a tree
    of logical devices, logical nodes, data objects and data attributes. *)
From Stdlib Require Import String.
From stdpp Require Import base tactics numbers option list gmap.
From S2P Require Import Prelude MmsValue CString Iec61850Common ReportControl Reporting ReportingAccess.

(** * Nodes *)

Inductive DataAttributeType :=
| BOOLEAN | INT8 | INT16 | INT32 | INT64 | INT128 | INT8U | INT16U | INT24U | INT32U
| FLOAT32 | FLOAT64 | ENUMERATED | OCTET_STRING_64 | OCTET_STRING_6 | OCTET_STRING_8
| VISIBLE_STRING_32 | VISIBLE_STRING_64 | VISIBLE_STRING_65 | VISIBLE_STRING_129
| VISIBLE_STRING_255 | UNICODE_STRING_255 | TIMESTAMP | QUALITY | CHECK | CODEDENUM
| GENERIC_BITSTRING | CONSTRUCTED | ENTRY_TIME | PHYCOMADDR.

(** The members that only a [DataAttribute] has, but for [mmsValue]. *)
Record DataAttribute := mkAttribute {
  da_fc : FunctionalConstraint;
  da_type : DataAttributeType;
  da_triggerOptions : Z;                       (* uint8_t *)
  da_sAddr : Z }.                              (* uint32_t *)

(** [modelType], with the members that depend on it; objects and attributes have an
    [elementCount] at the same place. *)
Inductive ModelNodeType :=
| LogicalDeviceModelType
| LogicalNodeModelType
| DataObjectModelType (elementCount : Z)
| DataAttributeModelType (elementCount : Z) (attribute : DataAttribute).

(** A node has its address; the pointers [firstChild] and [sibling] are the list of the
    children.  The pointer [parent] is kept in the paths below. *)
#[warnings="-register-all"]
Inductive ModelNode :=
| Node (address : Z) (modelType : ModelNodeType) (name : list Z) (children : list ModelNode).

Definition mn_address (n : ModelNode) : Z := let 'Node a _ _ _ := n in a.
Definition mn_modelType (n : ModelNode) : ModelNodeType := let 'Node _ t _ _ := n in t.
Definition mn_name (n : ModelNode) : list Z := let 'Node _ _ name _ := n in name.
Definition mn_children (n : ModelNode) : list ModelNode := let 'Node _ _ _ cs := n in cs.

(** A node that is treated as a [DataAttribute] must be one. *)
Definition as_attribute (n : ModelNode) : res DataAttribute :=
  match mn_modelType n with DataAttributeModelType _ a => Done a | _ => Ub end.

Definition node_elementCount (n : ModelNode) : res Z :=
  match mn_modelType n with
  | DataObjectModelType k | DataAttributeModelType k _ => Done k
  | _ => Ub
  end.

Definition has_fc (fc : FunctionalConstraint) (a : DataAttribute) : bool := bool_decide (da_fc a = fc).

(** * GOOSE control blocks of the model *)

Record PhyComAddress := mkPhyComAddress {
  pa_vlanPriority : Z;                         (* uint8_t *)
  pa_vlanId : Z;                               (* uint16_t *)
  pa_appId : Z;                                (* uint16_t *)
  pa_dstAddress : list Z }.                    (* six octets *)

Record GSEControlBlock := mkGse {
  gse_parent : LogicalNode;
  gse_name : list Z;
  gse_appId : option (list Z);
  gse_dataSetName : option (list Z);
  gse_confRef : Z;                             (* uint32_t *)
  gse_fixedOffs : bool;
  gse_address : option PhyComAddress }.

(** * Models *)

Record IedModel := mkModel {
  im_name : list Z;
  im_devices : list ModelNode;
  im_dataSets : list DataSet;
  im_rcbs : list ReportControlBlock;
  im_gseCBs : list GSEControlBlock }.

(** [mmsValue] of the attributes, by the address of the node; the object it points to is
    known by a number. *)
Abbreviation attribute_values := (gmap Z Z).

Definition IedModel_getLogicalDeviceCount (iedModel : IedModel) : Z := zlen (im_devices iedModel).

Definition LogicalDevice_getLogicalNodeCount (logicalDevice : ModelNode) : Z := zlen (mn_children logicalDevice).

Definition ModelNode_getChildCount (modelNode : ModelNode) : Z := zlen (mn_children modelNode).

(** The first of the nodes with the name. *)
Fixpoint find_node (nodes : list ModelNode) (name : list Z) : option ModelNode :=
  match nodes with
  | [] => None
  | n :: nodes => if bool_decide (mn_name n = name) then Some n else find_node nodes name
  end.

Definition IedModel_getDevice (model : IedModel) (deviceName : list Z) : option ModelNode :=
  find_node (im_devices model) deviceName.

(** ** Functional constraints in a data object *)

Fixpoint DataObject_hasFCData (fc : FunctionalConstraint) (dataObject : ModelNode) : bool :=
  let 'Node _ _ _ children := dataObject in
  existsb (fun modelNode =>
    match mn_modelType modelNode with
    | DataAttributeModelType _ a => has_fc fc a
    | DataObjectModelType _ => DataObject_hasFCData fc modelNode
    | _ => false
    end) children.

Definition LogicalNode_hasFCData (fc : FunctionalConstraint) (node : ModelNode) : bool :=
  existsb (DataObject_hasFCData fc) (mn_children node).

(** ** Search *)

(** The first result of a search through nodes. *)
Fixpoint first_of {A} (f : ModelNode -> option A) (nodes : list ModelNode) : option A :=
  match nodes with
  | [] => None
  | n :: nodes => match f n with Some r => Some r | None => first_of f nodes end
  end.

(** The attribute among the nodes below that has the value. *)
Fixpoint ModelNode_getDataAttributeByMmsValue (values : attribute_values) (value : Z) (self : ModelNode)
  : option ModelNode :=
  let 'Node _ _ _ children := self in
  first_of (fun node =>
    match mn_modelType node with
    | DataAttributeModelType _ _ =>
        if bool_decide (values !! mn_address node = Some value) then Some node
        else ModelNode_getDataAttributeByMmsValue values value node
    | _ => ModelNode_getDataAttributeByMmsValue values value node
    end) children.

Definition IedModel_lookupDataAttributeByMmsValue (values : attribute_values) (model : IedModel) (value : Z)
  : option ModelNode :=
  first_of (ModelNode_getDataAttributeByMmsValue values value) (im_devices model).

Fixpoint getChildWithShortAddress (sAddr : Z) (node : ModelNode) : option ModelNode :=
  let 'Node _ _ _ children := node in
  first_of (fun child =>
    match mn_modelType child with
    | DataAttributeModelType _ a =>
        if da_sAddr a =? sAddr then Some child else getChildWithShortAddress sAddr child
    | _ => getChildWithShortAddress sAddr child
    end) children.

Definition IedModel_getModelNodeByShortAddress (model : IedModel) (sAddr : Z) : option ModelNode :=
  first_of (fun ld => first_of (fun ln => first_of (getChildWithShortAddress sAddr) (mn_children ln))
    (mn_children ld)) (im_devices model).

(** ** References *)

(** The child that a name with dots leads to.  The recursion follows the names;
    [fuel] is their length. *)
Fixpoint getChild_loop (fuel : nat) (self : ModelNode) (name : list Z) : option ModelNode :=
  match strchr DOT name with
  | Some (first, rest) =>
      match find_node (mn_children self) first, fuel with
      | Some matchingNode, S fuel => getChild_loop fuel matchingNode rest
      | _, _ => None
      end
  | None => find_node (mn_children self) name
  end.

Definition ModelNode_getChild (self : ModelNode) (name : list Z) : option ModelNode :=
  getChild_loop (length name) self name.

Definition LogicalDevice_getLogicalNode (device : ModelNode) (nodeName : list Z) : option ModelNode :=
  ModelNode_getChild device nodeName.

Definition IedModel_getModelNodeByObjectReference (model : IedModel) (objectReference : list Z)
  : res (option ModelNode) :=
  if 129 <=? zlen objectReference then AssertFailed
  else
    match strchr SLASH objectReference with
    | None => Done None
    | Some (objRef, rest) =>
        match IedModel_getDevice model objRef with
        | Some ld => Done (ModelNode_getChild ld rest)
        | None => Done None
        end
    end.

(** The name of the device is put together in a buffer of 65 characters. *)
Definition IedModel_getModelNodeByShortObjectReference (model : IedModel) (objectReference : list Z)
  : res (option ModelNode) :=
  if 130 <=? zlen (im_name model) + zlen objectReference then AssertFailed
  else
    match strchr SLASH objectReference with
    | None => Done None
    | Some (objRef, rest) =>
        let ldName := im_name model ++ objRef in
        if 65 <=? zlen ldName then Ub
        else
          match IedModel_getDevice model ldName with
          | Some ld => Done (ModelNode_getChild ld rest)
          | None => Done None
          end
    end.

(** A path is a node with its ancestors, from the node to its logical device.  The
    reference begins with the names of the device and the logical node. *)
Fixpoint createObjectReference (path : list ModelNode) : res (list Z) :=
  match path with
  | [] => Ub
  | node :: parents =>
      match mn_modelType node with
      | LogicalNodeModelType =>
          match parents with
          | lDevice :: _ => Done (mn_name lDevice ++ [SLASH] ++ mn_name node)
          | [] => Ub
          end
      | _ =>
          let! objectReference := createObjectReference parents in
          Done (objectReference ++ [DOT] ++ mn_name node)
      end
  end.

(** Without a buffer one of 130 characters is allocated. *)
Definition ModelNode_getObjectReference (path : list ModelNode) : res (list Z) :=
  let! objectReference := createObjectReference path in
  if 130 <=? zlen objectReference then Ub else Done objectReference.

(** [IedModel_setAttributeValuesToNull]: the nodes that are attributes, below the logical
    nodes. *)
Fixpoint attribute_nodes (node : ModelNode) : list Z :=
  let 'Node a t _ children := node in
  match t with DataAttributeModelType _ _ => [a] | _ => [] end ++ flat_map attribute_nodes children.

Definition IedModel_setAttributeValuesToNull (values : attribute_values) (iedModel : IedModel) : attribute_values :=
  foldr delete values (flat_map (fun ld => flat_map (fun ln => flat_map attribute_nodes (mn_children ln))
    (mn_children ld)) (im_devices iedModel)).
