(* ===== verification/MmsGoose.v ===== *)
(** GOOSE control blocks of the server: src/iedserver/mms_mapping/mms_goose.c. *)
From Stdlib Require Import String.
From stdpp Require Import base tactics numbers option list.
From S2P Require Import Prelude Memory MmsValue GoosePublisher Effects CString MmsTypeSpec Iec61850Common ReportControl Reporting ReportingAccess IedModel.

Definition CONFIG_GOOSE_STABLE_STATE_TRANSMISSION_INTERVAL : Z := 5000.
Definition CONFIG_GOOSE_EVENT_RETRANSMISSION_INTERVAL : Z := 500.
Definition CONFIG_GOOSE_EVENT_RETRANSMISSION_COUNT : Z := 2.

(** * Types *)

Definition simple_spec (name : String.string) (t : uMmsTypeSpecification) : MmsVariableSpecification :=
  SpecSimple (Some (lit name)) t.

(** The elements that [MmsMapping_createPhyComAddrStructure] of mms_mapping.c makes; the
    type of [Addr] is that of a visible string. *)
Definition phyComAddr_elements : list MmsVariableSpecification :=
  [simple_spec "Addr" (T_VISIBLE_STRING 6); simple_spec "PRIORITY" (T_UNSIGNED 8);
   simple_spec "VID" (T_UNSIGNED 16); simple_spec "APPID" (T_UNSIGNED 16)].

Definition MmsMapping_createPhyComAddrStructure (name : option (list Z)) : MmsVariableSpecification :=
  SpecStructure name phyComAddr_elements.

Definition createMmsGooseControlBlock (gcbName : list Z) : MmsVariableSpecification :=
  SpecStructure (Some gcbName)
    [simple_spec "GoEna" T_BOOLEAN; simple_spec "GoID" (T_VISIBLE_STRING (-129));
     simple_spec "DatSet" (T_VISIBLE_STRING (-129)); simple_spec "ConfRev" (T_UNSIGNED 32);
     simple_spec "NdsCom" T_BOOLEAN; MmsMapping_createPhyComAddrStructure (Some (lit "DstAddress"));
     simple_spec "MinTime" (T_UNSIGNED 32); simple_spec "MaxTime" (T_UNSIGNED 32); simple_spec "FixedOffs" T_BOOLEAN].

(** * Control blocks *)

(** A string that the block owns, or has freed. *)
Inductive OwnedString := NoString | StringAt (s : list Z) | FreedString.

Record MmsGooseControlBlock := mkGcb {
  gcb_name : list Z;
  gcb_goEna : bool;
  gcb_domain : MmsDomain;
  gcb_logicalNode : LogicalNode;
  gcb_mmsType : MmsVariableSpecification;
  gcb_mmsValue : MmsValue;
  gcb_publisher : option GoosePublisher;
  gcb_dataSet : DataSetPointer;
  gcb_isDynamicDataSet : bool;
  gcb_dataSetValues : option (list (option Z));
  gcb_nextPublishTime : Z;                     (* uint64_t *)
  gcb_retransmissionsLeft : Z;
  gcb_goCBRef : list Z;
  gcb_goId : option (list Z);
  gcb_dataSetRef : OwnedString }.

Definition gcb_set_enabled (goEna : bool) (s : MmsGooseControlBlock) : MmsGooseControlBlock :=
  mkGcb (gcb_name s) goEna (gcb_domain s) (gcb_logicalNode s) (gcb_mmsType s) (gcb_mmsValue s) (gcb_publisher s)
    (gcb_dataSet s) (gcb_isDynamicDataSet s) (gcb_dataSetValues s) (gcb_nextPublishTime s) (gcb_retransmissionsLeft s)
    (gcb_goCBRef s) (gcb_goId s) (gcb_dataSetRef s).
Definition gcb_set_mmsValue (v : MmsValue) (s : MmsGooseControlBlock) : MmsGooseControlBlock :=
  mkGcb (gcb_name s) (gcb_goEna s) (gcb_domain s) (gcb_logicalNode s) (gcb_mmsType s) v (gcb_publisher s)
    (gcb_dataSet s) (gcb_isDynamicDataSet s) (gcb_dataSetValues s) (gcb_nextPublishTime s) (gcb_retransmissionsLeft s)
    (gcb_goCBRef s) (gcb_goId s) (gcb_dataSetRef s).
Definition gcb_set_publisher (p : option GoosePublisher) (values : option (list (option Z))) (s : MmsGooseControlBlock)
  : MmsGooseControlBlock :=
  mkGcb (gcb_name s) (gcb_goEna s) (gcb_domain s) (gcb_logicalNode s) (gcb_mmsType s) (gcb_mmsValue s) p
    (gcb_dataSet s) (gcb_isDynamicDataSet s) values (gcb_nextPublishTime s) (gcb_retransmissionsLeft s)
    (gcb_goCBRef s) (gcb_goId s) (gcb_dataSetRef s).
Definition gcb_set_dataSet (d : DataSetPointer) (isDynamic : bool) (ref : OwnedString) (s : MmsGooseControlBlock)
  : MmsGooseControlBlock :=
  mkGcb (gcb_name s) (gcb_goEna s) (gcb_domain s) (gcb_logicalNode s) (gcb_mmsType s) (gcb_mmsValue s) (gcb_publisher s)
    d isDynamic (gcb_dataSetValues s) (gcb_nextPublishTime s) (gcb_retransmissionsLeft s)
    (gcb_goCBRef s) (gcb_goId s) ref.
Definition gcb_set_schedule (nextPublishTime retransmissionsLeft : Z) (s : MmsGooseControlBlock) : MmsGooseControlBlock :=
  mkGcb (gcb_name s) (gcb_goEna s) (gcb_domain s) (gcb_logicalNode s) (gcb_mmsType s) (gcb_mmsValue s) (gcb_publisher s)
    (gcb_dataSet s) (gcb_isDynamicDataSet s) (gcb_dataSetValues s) nextPublishTime retransmissionsLeft
    (gcb_goCBRef s) (gcb_goId s) (gcb_dataSetRef s).

Definition MmsGooseControlBlock_getDomain := gcb_domain.
Definition MmsGooseControlBlock_getDataSet := gcb_dataSet.
Definition MmsGooseControlBlock_getLogicalNodeName (self : MmsGooseControlBlock) : list Z := ln_name (gcb_logicalNode self).
Definition MmsGooseControlBlock_getName := gcb_name.
Definition MmsGooseControlBlock_getMmsValues := gcb_mmsValue.
Definition MmsGooseControlBlock_getVariableSpecification := gcb_mmsType.
Definition MmsGooseControlBlock_isEnabled := gcb_goEna.

(** ** Members of a value *)

(** [MmsValue_getElement], for an element that must be there. *)
Definition element (v : MmsValue) (i : Z) : res MmsValue := defined (MmsValue_getElement v i).

(** The value after its element [i], which is there, has been changed in place. *)
Definition set_element (v : MmsValue) (i : Z) (c : MmsValue) : MmsValue :=
  match v with Complex d a cs => Complex d a (<[Z.to_nat i := Some c]> cs) | _ => v end.

Definition on_element (v : MmsValue) (i : Z) (f : MmsValue -> res MmsValue) : res MmsValue :=
  let! c := element v i in let! c := f c in Done (set_element v i c).

(** [MmsValue_setOctetString] on a value that may be a visible string without
    characters: the null pointer lies where the maximum size of an octet string is read,
    so that there is no room. *)
Definition set_address_octets (addr : MmsValue) (octets : list Z) : res MmsValue :=
  match addr with
  | Simple _ (V_VISIBLE_STRING None) => Done addr
  | _ => MmsValue_setOctetString addr (mk_ptr octets 0) 6
  end.

(** [memcpy] from [MmsValue_getOctetStringBuffer]: of a visible string the pointer that
    is read was never set. *)
Definition address_octets (addr : MmsValue) : res (list Z) :=
  let! buf := MmsValue_getOctetStringBuffer addr in rd_list (mk_ptr buf 0) 0 6.

(** * Operations *)

Inductive GooseEvent :=
| EthernetPacket (packet : list Z).

Abbreviation G := (eff MmsGooseControlBlock GooseEvent).

(** [srcAddr] and [fresh]: the address of the Ethernet interface and the contents of an
    allocated buffer. *)
Section Goose.
Context (env : ReportEnv) (srcAddr fresh : list Z).

Definition gcb_self : G MmsGooseControlBlock := cget (fun s => s).

(** What is left of the data set that the block had. *)
Definition release_dataSet : G unit :=
  do! self := gcb_self in
  match gcb_dataSetRef self with
  | NoString => cmodify (gcb_set_dataSet NoDataSet (gcb_isDynamicDataSet self) NoString)
  | FreedString => clift Ub
  | StringAt _ =>
      do! _ := match gcb_dataSet self with
        | NoDataSet => cret tt
        | p => if gcb_isDynamicDataSet self then
                 do! _ := clift (MmsMapping_freeDynamicallyCreatedDataSet p) in cret tt
               else cret tt
        end in
      do! _ := cmodify (gcb_set_publisher (gcb_publisher self) None) in
      cmodify (gcb_set_dataSet NoDataSet (gcb_isDynamicDataSet self) FreedString)
  end.

(** The data set that the attribute [DatSet] names. *)
Definition find_dataSet : G unit :=
  do! self := gcb_self in
  do! datSet := clift (element (gcb_mmsValue self) 2) in
  match MmsValue_toString datSet with
  | None => cret tt
  | Some block =>
      do! ref := clift (c_string block) in
      do! found := clift (lookupDataSet env ref) in
      match found with
      | Some d => cmodify (gcb_set_dataSet (DataSetAt d) false (StringAt ref))
      | None =>
          do! found := clift (n_domainDataSet env ref) in
          cmodify (gcb_set_dataSet (match found with Some d => DataSetAt d | None => NoDataSet end) true (StringAt ref))
      end
  end.

(** The publisher for the attributes of the block. *)
Definition make_publisher (self : MmsGooseControlBlock) : res GoosePublisher :=
  let! dst := element (gcb_mmsValue self) 5 in
  let! appId := element dst 3 in let! appId := MmsValue_toInt32 appId in
  let! vlanId := element dst 2 in let! vlanId := MmsValue_toInt32 vlanId in
  let! vlanPriority := element dst 1 in let! vlanPriority := MmsValue_toInt32 vlanPriority in
  let! macAddress := element dst 0 in
  let! dstAddress := address_octets macAddress in
  let! p := GoosePublisher_create
    (Some (mkCommParameters (u8 vlanPriority) (u16 vlanId) (u16 appId) dstAddress)) srcAddr fresh (n_time env) in
  let p := GoosePublisher_setTimeAllowedToLive (CONFIG_GOOSE_STABLE_STATE_TRANSMISSION_INTERVAL * 3) p in
  let! ref := match gcb_dataSetRef self with StringAt ref => Done ref | _ => Ub end in
  let p := GoosePublisher_setDataSetRef (Some ref) p in
  let p := GoosePublisher_setGoCbRef (Some (gcb_goCBRef self)) p in
  let! confRev := element (gcb_mmsValue self) 3 in let! confRev := MmsValue_toUint32 confRev in
  let p := GoosePublisher_setConfRev confRev p in
  let! needsCom := element (gcb_mmsValue self) 4 in let! needsCom := MmsValue_getBoolean needsCom in
  let p := GoosePublisher_setNeedsCommission needsCom p in
  Done (match gcb_goId self with Some goId => GoosePublisher_setGoID (Some goId) p | None => p end).

Definition MmsGooseControlBlock_enable : G unit :=
  do! self := gcb_self in
  if MmsGooseControlBlock_isEnabled self then cret tt
  else
    do! _ := release_dataSet in
    do! _ := find_dataSet in
    do! self := gcb_self in
    match gcb_dataSet self with
    | NoDataSet => cret tt
    | p =>
        do! v := clift (on_element (gcb_mmsValue self) 0 (fun goEna => MmsValue_setBoolean goEna true)) in
        do! _ := cmodify (gcb_set_mmsValue v) in
        do! self := gcb_self in
        do! publisher := clift (make_publisher self) in
        do! dataSet := clift (deref p) in
        do! _ := cmodify (gcb_set_publisher (Some publisher) (Some (map dse_value (ds_fcdas dataSet)))) in
        cmodify (gcb_set_enabled true)
    end.

Definition MmsGooseControlBlock_disable : G unit :=
  do! self := gcb_self in
  if MmsGooseControlBlock_isEnabled self then
    do! v := clift (on_element (gcb_mmsValue self) 0 (fun goEna => MmsValue_setBoolean goEna false)) in
    do! _ := cmodify (gcb_set_mmsValue v) in
    do! _ := cmodify (gcb_set_enabled false) in
    match gcb_publisher self with
    | Some _ => cmodify (gcb_set_publisher None None)
    | None => cret tt
    end
  else cret tt.

(** The values of the data set as they are now; a null pointer is read. *)
Fixpoint current_values (values : list (option Z)) : res (list MmsValue) :=
  match values with
  | [] => Done []
  | v :: values =>
      let! v := defined v in
      let! vs := current_values values in
      Done (n_value env v :: vs)
  end.

(** [GoosePublisher_publish] with the publisher of the block. *)
Definition publish : G unit :=
  do! self := gcb_self in
  do! p := clift (defined (gcb_publisher self)) in
  do! values := clift (defined (gcb_dataSetValues self)) in
  do! vs := clift (current_values values) in
  do! (_, p') := clift (GoosePublisher_publish p vs) in
  do! _ := cmodify (gcb_set_publisher (Some p') (Some values)) in
  fun s es => Done (tt, s, es ++ map EthernetPacket (drop (length (gp_sent p)) (gp_sent p'))).

(** The publisher is changed. *)
Definition with_publisher (f : GoosePublisher -> GoosePublisher) : G unit :=
  do! self := gcb_self in
  do! p := clift (defined (gcb_publisher self)) in
  cmodify (gcb_set_publisher (Some (f p)) (gcb_dataSetValues self)).

Definition MmsGooseControlBlock_checkAndPublish (currentTime : Z) : G unit :=
  do! self := gcb_self in
  if gcb_nextPublishTime self <=? currentTime then
    do! _ := publish in
    if 0 <? gcb_retransmissionsLeft self then
      do! _ := with_publisher (GoosePublisher_setTimeAllowedToLive
        (if 1 <? gcb_retransmissionsLeft self then CONFIG_GOOSE_EVENT_RETRANSMISSION_INTERVAL * 3
         else CONFIG_GOOSE_STABLE_STATE_TRANSMISSION_INTERVAL * 3)) in
      cmodify (gcb_set_schedule (u64 (currentTime + CONFIG_GOOSE_EVENT_RETRANSMISSION_INTERVAL))
        (gcb_retransmissionsLeft self - 1))
    else
      do! _ := with_publisher (GoosePublisher_setTimeAllowedToLive (CONFIG_GOOSE_STABLE_STATE_TRANSMISSION_INTERVAL * 3)) in
      cmodify (gcb_set_schedule (u64 (currentTime + CONFIG_GOOSE_STABLE_STATE_TRANSMISSION_INTERVAL))
        (gcb_retransmissionsLeft self))
  else cret tt.

Definition MmsGooseControlBlock_observedObjectChanged : G unit :=
  do! self := gcb_self in
  do! p := clift (defined (gcb_publisher self)) in
  do! (currentTime, p) := clift (GoosePublisher_increaseStNum (n_time env) p) in
  do! _ := cmodify (gcb_set_publisher (Some p) (gcb_dataSetValues self)) in
  let count := CONFIG_GOOSE_EVENT_RETRANSMISSION_COUNT in
  let interval := if 0 <? count then CONFIG_GOOSE_EVENT_RETRANSMISSION_INTERVAL
    else CONFIG_GOOSE_STABLE_STATE_TRANSMISSION_INTERVAL in
  do! _ := cmodify (gcb_set_schedule (u64 (currentTime + interval)) count) in
  do! _ := with_publisher (GoosePublisher_setTimeAllowedToLive (interval * 3)) in
  publish.
End Goose.

(** * The blocks of the model *)

Fixpoint getGCB_loop (gcbs : list GSEControlBlock) (logicalNode : LogicalNode) (index gseCount : Z)
  : option GSEControlBlock :=
  match gcbs with
  | [] => None
  | gcb :: gcbs =>
      if ln_address (gse_parent gcb) =? ln_address logicalNode then
        if gseCount =? index then Some gcb else getGCB_loop gcbs logicalNode index (gseCount + 1)
      else getGCB_loop gcbs logicalNode index gseCount
  end.

Definition getGCBForLogicalNodeWithIndex (gcbs : list GSEControlBlock) (logicalNode : LogicalNode) (index : Z)
  : option GSEControlBlock := getGCB_loop gcbs logicalNode index 0.

Definition createDataSetReference (domainName lnName dataSetName : list Z) : list Z :=
  domainName ++ lit "/" ++ lnName ++ lit "$" ++ dataSetName.

(** The first values of the attributes. *)
Definition gse_values (domain : MmsDomain) (logicalNode : LogicalNode) (gse : GSEControlBlock)
    (mmsType : MmsVariableSpecification) (dataSetRef : option (list Z)) : res MmsValue :=
  let! v := MmsValue_newStructure mmsType in
  let! v := match gse_appId gse with
    | Some appId => on_element v 1 (fun goID => Done (MmsValue_setVisibleString goID (Some appId)))
    | None => Done v
    end in
  let! v := on_element v 2 (fun datSet => Done (MmsValue_setVisibleString datSet dataSetRef)) in
  let '(priority, vid, appId, dstAddr) :=
    match gse_address gse with
    | Some a => (pa_vlanPriority a, pa_vlanId a, pa_appId a, pa_dstAddress a)
    | None => (CONFIG_GOOSE_DEFAULT_PRIORITY, CONFIG_GOOSE_DEFAULT_VLAN_ID, CONFIG_GOOSE_DEFAULT_APPID,
        CONFIG_GOOSE_DEFAULT_DST_ADDRESS)
    end in
  let! v := on_element v 5 (fun dst =>
    let! dst := on_element dst 0 (fun addr => set_address_octets addr dstAddr) in
    let! dst := on_element dst 1 (fun prio => MmsValue_setUint8 prio priority) in
    let! dst := on_element dst 2 (fun vlanId => MmsValue_setUint16 vlanId vid) in
    on_element dst 3 (fun appIdVal => MmsValue_setUint16 appIdVal appId)) in
  on_element v 3 (fun confRef => MmsValue_setUint32 confRef (gse_confRef gse)).

Definition create_gcb (gcbs : list GSEControlBlock) (domain : MmsDomain) (logicalNode : LogicalNode) (currentGCB : Z)
  : res (MmsGooseControlBlock * MmsVariableSpecification) :=
  let! gse := defined (getGCBForLogicalNodeWithIndex gcbs logicalNode currentGCB) in
  let gseTypeSpec := createMmsGooseControlBlock (gse_name gse) in
  let dataSetRef := createDataSetReference (MmsDomain_getName domain) (ln_name logicalNode) <$> gse_dataSetName gse in
  let! gseValues := gse_values domain logicalNode gse gseTypeSpec dataSetRef in
  Done (mkGcb (gse_name gse) false domain logicalNode gseTypeSpec gseValues None NoDataSet false None 0 0
    (MmsDomain_getName domain ++ lit "/" ++ ln_name logicalNode ++ lit "$GO$" ++ gse_name gse) None
    (match dataSetRef with Some ref => StringAt ref | None => NoString end), gseTypeSpec).

Fixpoint create_gcbs (n : nat) (gcbs : list GSEControlBlock) (domain : MmsDomain) (logicalNode : LogicalNode)
    (currentGCB : Z) (gseControls : list MmsGooseControlBlock)
  : res (list MmsGooseControlBlock * list MmsVariableSpecification) :=
  match n with
  | O => Done (gseControls, [])
  | S n =>
      let! (gcb, spec) := create_gcb gcbs domain logicalNode currentGCB in
      let! (gseControls, specs) := create_gcbs n gcbs domain logicalNode (currentGCB + 1) (gseControls ++ [gcb]) in
      Done (gseControls, spec :: specs)
  end.

Definition GOOSE_createGOOSEControlBlocks (gcbs : list GSEControlBlock) (domain : MmsDomain) (logicalNode : LogicalNode)
    (gseCount : nat) (gseControls : list MmsGooseControlBlock)
  : res (list MmsGooseControlBlock * MmsVariableSpecification) :=
  let! (gseControls, specs) := create_gcbs gseCount gcbs domain logicalNode 0 gseControls in
  Done (gseControls, SpecStructure (Some (lit "GO")) specs).
