(* ===== verification/ServerState.v ===== *)
(** The state of an IED server: the structures of src/iedserver/impl/ied_server_private.h
    and src/iedserver/mms_mapping/mms_mapping_internal.h, and what the server asks of the
    program around it. *)
From Stdlib Require Import String.
From stdpp Require Import base tactics numbers option gmap list.
From S2P Require Import Prelude MmsValue Effects CString MmsTypeSpec Control Iec61850Common ReportControl Reporting ReportingAccess ValueStore IedModel MmsGoose.

(** * Data *)

(** A function of the application is known by a number. *)
Record AttributeObserver := mkObserver { ob_attribute : ModelNode; ob_handler : Z }.
Record AttributeAccessHandler := mkAccessHandler { ah_attribute : ModelNode; ah_handler : Z }.

(** The server and its MMS mapping.  [sv_mmsDevice] are the domains of the MMS device;
    [sv_attributeValues] are the members [mmsValue] of the attributes of the model, the
    handles of locations.  A client connection is known by the handle of its MMS
    connection; the tasks that it counts are over when a step of the server is. *)
Record IedServer := mkServer {
  sv_model : IedModel;
  sv_mmsDevice : list MmsDomain;
  sv_valueCaches : value_caches;
  sv_attributeValues : attribute_values;
  sv_reportControls : list ReportControl;
  sv_gseControls : list MmsGooseControlBlock;
  sv_controlObjects : list ControlObject;
  sv_observedObjects : list AttributeObserver;
  sv_attributeAccessHandlers : list AttributeAccessHandler;
  sv_clientConnections : list Z;
  sv_writeAccessPolicies : Z;                  (* uint8_t *)
  sv_connectionIndicationHandler : bool }.

Definition sv_set_model (model : IedModel) (s : IedServer) : IedServer :=
  mkServer model (sv_mmsDevice s) (sv_valueCaches s) (sv_attributeValues s) (sv_reportControls s)
    (sv_gseControls s) (sv_controlObjects s) (sv_observedObjects s) (sv_attributeAccessHandlers s)
    (sv_clientConnections s) (sv_writeAccessPolicies s) (sv_connectionIndicationHandler s).
Definition sv_set_mmsDevice (domains : list MmsDomain) (s : IedServer) : IedServer :=
  mkServer (sv_model s) domains (sv_valueCaches s) (sv_attributeValues s) (sv_reportControls s) (sv_gseControls s)
    (sv_controlObjects s) (sv_observedObjects s) (sv_attributeAccessHandlers s) (sv_clientConnections s)
    (sv_writeAccessPolicies s) (sv_connectionIndicationHandler s).
Definition sv_set_valueCaches (caches : value_caches) (s : IedServer) : IedServer :=
  mkServer (sv_model s) (sv_mmsDevice s) caches (sv_attributeValues s) (sv_reportControls s) (sv_gseControls s)
    (sv_controlObjects s) (sv_observedObjects s) (sv_attributeAccessHandlers s) (sv_clientConnections s)
    (sv_writeAccessPolicies s) (sv_connectionIndicationHandler s).
Definition sv_set_attributeValues (values : attribute_values) (s : IedServer) : IedServer :=
  mkServer (sv_model s) (sv_mmsDevice s) (sv_valueCaches s) values (sv_reportControls s) (sv_gseControls s)
    (sv_controlObjects s) (sv_observedObjects s) (sv_attributeAccessHandlers s) (sv_clientConnections s)
    (sv_writeAccessPolicies s) (sv_connectionIndicationHandler s).
Definition sv_set_reportControls (rcs : list ReportControl) (s : IedServer) : IedServer :=
  mkServer (sv_model s) (sv_mmsDevice s) (sv_valueCaches s) (sv_attributeValues s) rcs (sv_gseControls s)
    (sv_controlObjects s) (sv_observedObjects s) (sv_attributeAccessHandlers s) (sv_clientConnections s)
    (sv_writeAccessPolicies s) (sv_connectionIndicationHandler s).
Definition sv_set_gseControls (gcbs : list MmsGooseControlBlock) (s : IedServer) : IedServer :=
  mkServer (sv_model s) (sv_mmsDevice s) (sv_valueCaches s) (sv_attributeValues s) (sv_reportControls s) gcbs
    (sv_controlObjects s) (sv_observedObjects s) (sv_attributeAccessHandlers s) (sv_clientConnections s)
    (sv_writeAccessPolicies s) (sv_connectionIndicationHandler s).
Definition sv_set_controlObjects (objects : list ControlObject) (s : IedServer) : IedServer :=
  mkServer (sv_model s) (sv_mmsDevice s) (sv_valueCaches s) (sv_attributeValues s) (sv_reportControls s)
    (sv_gseControls s) objects (sv_observedObjects s) (sv_attributeAccessHandlers s) (sv_clientConnections s)
    (sv_writeAccessPolicies s) (sv_connectionIndicationHandler s).
Definition sv_set_observedObjects (observers : list AttributeObserver) (s : IedServer) : IedServer :=
  mkServer (sv_model s) (sv_mmsDevice s) (sv_valueCaches s) (sv_attributeValues s) (sv_reportControls s)
    (sv_gseControls s) (sv_controlObjects s) observers (sv_attributeAccessHandlers s) (sv_clientConnections s)
    (sv_writeAccessPolicies s) (sv_connectionIndicationHandler s).
Definition sv_set_attributeAccessHandlers (handlers : list AttributeAccessHandler) (s : IedServer) : IedServer :=
  mkServer (sv_model s) (sv_mmsDevice s) (sv_valueCaches s) (sv_attributeValues s) (sv_reportControls s)
    (sv_gseControls s) (sv_controlObjects s) (sv_observedObjects s) handlers (sv_clientConnections s)
    (sv_writeAccessPolicies s) (sv_connectionIndicationHandler s).
Definition sv_set_clientConnections (connections : list Z) (s : IedServer) : IedServer :=
  mkServer (sv_model s) (sv_mmsDevice s) (sv_valueCaches s) (sv_attributeValues s) (sv_reportControls s)
    (sv_gseControls s) (sv_controlObjects s) (sv_observedObjects s) (sv_attributeAccessHandlers s) connections
    (sv_writeAccessPolicies s) (sv_connectionIndicationHandler s).
Definition sv_set_writeAccessPolicies (policies : Z) (s : IedServer) : IedServer :=
  mkServer (sv_model s) (sv_mmsDevice s) (sv_valueCaches s) (sv_attributeValues s) (sv_reportControls s)
    (sv_gseControls s) (sv_controlObjects s) (sv_observedObjects s) (sv_attributeAccessHandlers s)
    (sv_clientConnections s) policies (sv_connectionIndicationHandler s).
Definition sv_set_connectionIndicationHandler (handler : bool) (s : IedServer) : IedServer :=
  mkServer (sv_model s) (sv_mmsDevice s) (sv_valueCaches s) (sv_attributeValues s) (sv_reportControls s)
    (sv_gseControls s) (sv_controlObjects s) (sv_observedObjects s) (sv_attributeAccessHandlers s)
    (sv_clientConnections s) (sv_writeAccessPolicies s) handler.

(** What the server does to the world around it. *)
Inductive ServerEvent :=
| ReportSent (e : ReportEvent)
| ControlSent (e : ControlEvent)
| GooseSent (e : GooseEvent)
| AttributeChanged (attribute handler connection : Z)
| ConnectionIndication (connection : Z) (connected : bool).

(** The time, the platform, the addresses of the clients and of the Ethernet interface,
    and the answers of the handlers of the application. *)
Record World := mkWorld {
  w_time : Z;                                  (* Hal_getTimeInMs *)
  w_sizes : Sizes;
  w_malloc : Z -> list Z;
  w_clientAddress : Z -> list Z;
  w_lastInvokeId : Z -> Z;
  w_srcAddr : list Z;
  w_fresh : list Z;
  w_access : Z -> ModelNode -> MmsValue -> Z -> bool;
  w_check : option MmsValue -> bool -> bool -> ClientConnection -> Z;
  w_wait : option MmsValue -> bool -> bool -> bool }.

Abbreviation SM := (eff IedServer ServerEvent).

Definition server : SM IedServer := cget (fun st => st).

(** * Pointers to values *)

(** [mmsValue] of an attribute, which is not the null pointer. *)
Definition mmsValue_of (st : IedServer) (dataAttribute : ModelNode) : res Location :=
  let! h := defined (sv_attributeValues st !! mn_address dataAttribute) in defined (location h).

(** What a pointer points to; there is such a value for each pointer that was got from
    a cache. *)
Definition load_value (st : IedServer) (l : Location) : res MmsValue := defined (load (sv_valueCaches st) l).

Definition store_value (l : Location) (v : MmsValue) : SM unit :=
  cmodify (fun st => sv_set_valueCaches (store (sv_valueCaches st) l v) st).

(** For the components that know the values by their numbers; of the numbers that are
    none of a value nothing is asked. *)
Definition value_of_handle (st : IedServer) (h : Z) : MmsValue :=
  default (MmsValue_newDataAccessError 0) (location h ≫= load (sv_valueCaches st)).

(** * Data sets of variable lists *)

(** An entry of the list must have a domain. *)
Definition dynamic_entry (st : IedServer) (e : MmsNamedVariableListEntry) : res DataSetEntry :=
  let! address := defined (le_domain e) in
  let! domain := defined (list_find (fun d => md_address d = address) (sv_mmsDevice st)) in
  let! value := MmsServer_getValueFromCache (sv_valueCaches st) address (le_variableName e) in
  Done (mkDataSetEntry (MmsDomain_getName domain.2) (le_variableName e) (le_arrayIndex e) (le_componentName e)
    (handle <$> value)).

Fixpoint dynamic_entries (st : IedServer) (es : list MmsNamedVariableListEntry) : res (list DataSetEntry) :=
  match es with
  | [] => Done []
  | e :: es => let! d := dynamic_entry st e in let! ds := dynamic_entries st es in Done (d :: ds)
  end.

(** Of an empty list the pointer to the first entry is never set. *)
Definition createDataSetByNamedVariableList (st : IedServer) (variableList : MmsNamedVariableList) : res DataSet :=
  match vl_listOfVariables variableList with
  | [] => Ub
  | es =>
      let! fcdas := dynamic_entries st es in
      Done (mkDataSet None (vl_name variableList) (zlen es) fcdas)
  end.

(** The first 192 characters of the reference are looked at. *)
Definition MmsMapping_getDomainSpecificVariableList (st : IedServer) (variableListReference : list Z)
  : option MmsNamedVariableList :=
  match strchr SLASH (take 192 variableListReference) with
  | None => None
  | Some (domainName, variableListName) =>
      match MmsDevice_getDomain (sv_mmsDevice st) domainName with
      | Some domain => MmsDomain_getNamedVariableList domain variableListName
      | None => None
      end
  end.

Definition MmsMapping_getDomainSpecificDataSet (st : IedServer) (dataSetName : list Z) : res (option DataSet) :=
  match MmsMapping_getDomainSpecificVariableList st dataSetName with
  | None => Done None
  | Some variableList => let! d := createDataSetByNamedVariableList st variableList in Done (Some d)
  end.

(** * The components of the server *)

Section Components.
Context (w : World).

Definition report_env (st : IedServer) : ReportEnv :=
  mkReportEnv (w_time w) (value_of_handle st) (im_dataSets (sv_model st)) (MmsMapping_getDomainSpecificDataSet st)
    (w_clientAddress w).

(** The values of a domain, by their names. *)
Definition cached_value (st : IedServer) (domain : Z) (itemId : list Z) : res (option MmsValue) :=
  let! l := MmsServer_getValueFromCache (sv_valueCaches st) domain itemId in
  match l with
  | Some l => let! v := load_value st l in Done (Some v)
  | None => Done None
  end.

Definition control_env (st : IedServer) : ControlEnv :=
  mkEnv (w_time w) (cached_value st) (w_check w) (w_wait w) (sv_clientConnections st) (w_lastInvokeId w).

(** Code over all objects of one kind. *)
Definition on_reports
    (f : ReportEnv -> list ReportControl -> list ReportEvent -> res (list ReportControl * list ReportEvent)) : SM unit :=
  fun st es =>
    let! (rcs, new) := f (report_env st) (sv_reportControls st) [] in
    Done (tt, sv_set_reportControls rcs st, es ++ map ReportSent new).

Definition on_controls {A}
    (f : ControlEnv -> list ControlObject -> list ControlEvent -> res (A * list ControlObject * list ControlEvent)) : SM A :=
  fun st es =>
    let! (a, objects, new) := f (control_env st) (sv_controlObjects st) [] in
    Done (a, sv_set_controlObjects objects st, es ++ map ControlSent new).

(** Code over one report or GOOSE control block. *)
Definition on_report {A} (i : nat) (f : ReportEnv -> R A) : SM A :=
  fun st es =>
    let! rc := defined (sv_reportControls st !! i) in
    let! (a, rc, new) := f (report_env st) rc [] in
    Done (a, sv_set_reportControls (<[i := rc]> (sv_reportControls st)) st, es ++ map ReportSent new).

Definition on_goose {A} (i : nat) (f : ReportEnv -> G A) : SM A :=
  fun st es =>
    let! gcb := defined (sv_gseControls st !! i) in
    let! (a, gcb, new) := f (report_env st) gcb [] in
    Done (a, sv_set_gseControls (<[i := gcb]> (sv_gseControls st)) st, es ++ map GooseSent new).

(** One GOOSE control block after the other. *)
Fixpoint each_goose (f : ReportEnv -> G unit) (indices : list nat) : SM unit :=
  match indices with
  | [] => cret tt
  | i :: indices => do! _ := on_goose i f in each_goose f indices
  end.

Definition on_gooses (f : ReportEnv -> G unit) : SM unit :=
  do! st := server in each_goose f (seq 0 (length (sv_gseControls st))).
End Components.
