(* ===== verification/MmsMapping.v ===== *)
(** The MMS mapping of the server: src/iedserver/mms_mapping/mms_mapping.c from the
    handlers for the MMS layer on, with the updates of attributes of
    src/iedserver/impl/ied_server.c that they use. *)
From Stdlib Require Import String.
From stdpp Require Import base tactics numbers option gmap list.
From S2P Require Import Prelude MmsValue Effects CString MmsTypeSpec Control Iec61850Common ReportControl Reporting ReportingAccess ValueStore IedModel MmsGoose ServerState.

Definition DATA_ACCESS_ERROR_INVALID_ADDRESS : Z := 5.
Definition DATA_ACCESS_ERROR_OBJECT_NONE_EXISTENT : Z := 10.

Definition ALLOW_WRITE_ACCESS_DC : Z := 1.
Definition ALLOW_WRITE_ACCESS_CF : Z := 2.
Definition ALLOW_WRITE_ACCESS_SP : Z := 4.
Definition ALLOW_WRITE_ACCESS_SV : Z := 8.

(** * Values in data sets *)

(** [f] on the components, which must be there, one after the other until it says yes. *)
Section SomeComponent.
Context (f : nat -> MmsValue -> res bool).
Fixpoint some_component (i : nat) (cs : list (option MmsValue)) : res bool :=
  match cs with
  | [] => Done false
  | Some c :: cs => let! b := f i c in if b then Done true else some_component (S i) cs
  | None :: _ => Ub
  end.
End SomeComponent.

(** [container] is the value at [place]. *)
Fixpoint isMemberValueRecursive (value : Location) (place : Location) (container : MmsValue) : res bool :=
  if bool_decide (place = value) then Done true
  else
    match container with
    | Complex _ _ cs => some_component (fun i => isMemberValueRecursive value (child_at place i)) 0 cs
    | Simple _ _ => Done false
    end.

(** The index of the first entry that the value is a member of. *)
Fixpoint isMemberValue_loop (st : IedServer) (entries : list DataSetEntry) (value : Location) (i : nat) : res (option nat) :=
  match entries with
  | [] => Done None
  | e :: entries =>
      let! h := defined (dse_value e) in
      let! place := defined (location h) in
      let! container := load_value st place in
      let! b := isMemberValueRecursive value place container in
      if b then Done (Some i) else isMemberValue_loop st entries value (S i)
  end.

Definition DataSet_isMemberValue (st : IedServer) (dataSet : DataSet) (value : Location) : res (option nat) :=
  isMemberValue_loop st (ds_fcdas dataSet) value 0.

(** * Triggers *)

(** The trigger options that ask for a report. *)
Definition asks_for (flag triggerOps : Z) : bool :=
  let has bit := negb (Z.land triggerOps bit =? 0) in
  if flag =? REPORT_CONTROL_VALUE_UPDATE then has TRG_OPT_DATA_UPDATE
  else if flag =? REPORT_CONTROL_VALUE_CHANGED then has TRG_OPT_DATA_CHANGED || has TRG_OPT_DATA_UPDATE
  else if flag =? REPORT_CONTROL_QUALITY_CHANGED then has TRG_OPT_QUALITY_CHANGED
  else false.

Definition is_observing (rc : ReportControl) : bool :=
  rc_enabled rc || (rc_buffered rc && match rc_dataSet rc with NoDataSet => false | _ => true end).

Section MmsMapping.
Context (w : World).

Definition trigger_report (st : IedServer) (value : Location) (flag : Z) (env : ReportEnv) : R unit :=
  do! rc := self in
  if is_observing rc && asks_for flag (rc_triggerOps rc) then
    do! dataSet := clift (deref (rc_dataSet rc)) in
    do! index := clift (DataSet_isMemberValue st dataSet value) in
    match index with
    | Some index => ReportControl_valueUpdated (w_sizes w) (w_malloc w) env index flag
    | None => cret tt
    end
  else cret tt.

Definition MmsMapping_triggerReportObservers (value : Location) (flag : Z) : SM unit :=
  do! st := server in
  on_reports w (fun env => each (trigger_report st value flag env)).

Definition trigger_goose (st : IedServer) (value : Location) (env : ReportEnv) : G unit :=
  do! gcb := gcb_self in
  if MmsGooseControlBlock_isEnabled gcb then
    do! dataSet := clift (deref (MmsGooseControlBlock_getDataSet gcb)) in
    do! index := clift (DataSet_isMemberValue st dataSet value) in
    match index with
    | Some _ => MmsGooseControlBlock_observedObjectChanged env
    | None => cret tt
    end
  else cret tt.

Definition MmsMapping_triggerGooseObservers (value : Location) : SM unit :=
  do! st := server in on_gooses w (trigger_goose st value).

Definition MmsMapping_enableGoosePublishing : SM unit :=
  on_gooses w (fun env => MmsGooseControlBlock_enable env (w_srcAddr w) (w_fresh w)).

(** * Updates of attributes: src/iedserver/impl/ied_server.c *)

Definition triggers (dataAttribute : ModelNode) (option : Z) : res bool :=
  let! a := as_attribute dataAttribute in Done (negb (Z.land (da_triggerOptions a) option =? 0)).

Definition checkForUpdateTrigger (dataAttribute : ModelNode) : SM unit :=
  do! st := server in
  do! update := clift (triggers dataAttribute TRG_OPT_DATA_UPDATE) in
  if update then
    do! value := clift (mmsValue_of st dataAttribute) in
    MmsMapping_triggerReportObservers value REPORT_CONTROL_VALUE_UPDATE
  else cret tt.

Definition checkForChangedTriggers (dataAttribute : ModelNode) : SM unit :=
  do! st := server in
  do! value := clift (mmsValue_of st dataAttribute) in
  do! changed := clift (triggers dataAttribute TRG_OPT_DATA_CHANGED) in
  do! quality := clift (triggers dataAttribute TRG_OPT_QUALITY_CHANGED) in
  do! _ :=
    if changed then MmsMapping_triggerReportObservers value REPORT_CONTROL_VALUE_CHANGED
    else if quality then MmsMapping_triggerReportObservers value REPORT_CONTROL_QUALITY_CHANGED
    else cret tt in
  MmsMapping_triggerGooseObservers value.

(** An update: [same] says whether the attribute has the value, [set] gives it to it. *)
Definition update_attribute_value (dataAttribute : ModelNode) (same : MmsValue -> res bool) (set : MmsValue -> res MmsValue)
  : SM unit :=
  do! st := server in
  do! l := clift (mmsValue_of st dataAttribute) in
  do! current := clift (load_value st l) in
  do! b := clift (same current) in
  if b then checkForUpdateTrigger dataAttribute
  else
    do! new := clift (set current) in
    do! _ := store_value l new in
    checkForChangedTriggers dataAttribute.

(** The assertion that the value of the attribute is of the type. *)
Definition assert_type (dataAttribute : ModelNode) (ok : MmsValue -> bool) : SM unit :=
  do! st := server in
  do! l := clift (mmsValue_of st dataAttribute) in
  do! current := clift (load_value st l) in
  clift (if ok current then Done tt else AssertFailed).

Definition has_type (t : MmsType) (v : MmsValue) : bool := bool_decide (MmsValue_getType v = t).

Definition IedServer_updateAttributeValue (dataAttribute : ModelNode) (value : MmsValue) : SM unit :=
  do! _ := assert_type dataAttribute (has_type (MmsValue_getType value)) in
  update_attribute_value dataAttribute (fun current => MmsValue_equals current value)
    (fun current => let! (_, v) := MmsValue_update current value in Done v).

(** * GOOSE control blocks *)

Fixpoint lookupGCB_loop (gcbs : list MmsGooseControlBlock) (domain : MmsDomain) (lnName objectName : list Z) : option nat :=
  match gcbs with
  | [] => None
  | mmsGCB :: gcbs =>
      if (md_address (MmsGooseControlBlock_getDomain mmsGCB) =? md_address domain)
         && bool_decide (MmsGooseControlBlock_getLogicalNodeName mmsGCB = lnName)
         && bool_decide (MmsGooseControlBlock_getName mmsGCB = objectName)
      then Some O
      else S <$> lookupGCB_loop gcbs domain lnName objectName
  end.

Definition lookupGCB (st : IedServer) := lookupGCB_loop (sv_gseControls st).

(** The names of logical node, control block and attribute in an item name with a [$].
    The name is copied without its null byte when it has 129 characters or more: what is
    read then is not known. *)
Definition parse_gcb_variable (variableIdOrig : list Z) : res (option (list Z * list Z * option (list Z))) :=
  if 129 <=? zlen variableIdOrig then Ub
  else
    match strchr DOLLAR variableIdOrig with
    | None => Ub
    | Some (lnName, rest) =>
        match MmsMapping_getNextNameElement rest with
        | None => Done None
        | Some (_, objectName) =>
            match MmsMapping_getNextNameElement objectName with
            | Some (objectName, varName) => Done (Some (lnName, objectName, Some varName))
            | None => Done (Some (lnName, objectName, None))
            end
        end
    end.

(** The attribute of the block, changed in place. *)
Definition update_gcb_value (varName : list Z) (value : MmsValue) : G Z :=
  do! gcb := gcb_self in
  do! path := clift (getChildPath (gcb_mmsType gcb) (Some (gcb_mmsValue gcb)) varName) in
  match path with
  | None => cret DATA_ACCESS_ERROR_INVALID_ADDRESS
  | Some path =>
      do! subValue := clift (defined (value_at (gcb_mmsValue gcb) path)) in
      do! (updated, v) := clift (MmsValue_update subValue value) in
      do! _ := cmodify (gcb_set_mmsValue (put_at (gcb_mmsValue gcb) path v)) in
      cret (if updated then DATA_ACCESS_ERROR_SUCCESS else DATA_ACCESS_ERROR_OBJECT_VALUE_INVALID)
  end.

Definition write_gcb (varName : list Z) (value : MmsValue) (env : ReportEnv) : G Z :=
  if bool_decide (varName = lit "GoEna") then
    match MmsValue_getType value with
    | MMS_BOOLEAN =>
        do! b := clift (MmsValue_getBoolean value) in
        do! _ := if b then MmsGooseControlBlock_enable env (w_srcAddr w) (w_fresh w) else MmsGooseControlBlock_disable in
        cret DATA_ACCESS_ERROR_SUCCESS
    | _ => cret DATA_ACCESS_ERROR_TYPE_INCONSISTENT
    end
  else
    do! gcb := gcb_self in
    if MmsGooseControlBlock_isEnabled gcb then cret DATA_ACCESS_ERROR_TEMPORARILY_UNAVAILABLE
    else update_gcb_value varName value.

Definition writeAccessGooseControlBlock (domain : MmsDomain) (variableIdOrig : list Z) (value : MmsValue) : SM Z :=
  do! st := server in
  do! names := clift (parse_gcb_variable variableIdOrig) in
  match names with
  | Some (lnName, objectName, Some varName) =>
      match lookupGCB st domain lnName objectName with
      | Some i => on_goose w i (write_gcb varName value)
      | None => cret DATA_ACCESS_ERROR_OBJECT_ACCESS_DENIED
      end
  | _ => cret DATA_ACCESS_ERROR_OBJECT_ACCESS_DENIED
  end.

Definition readAccessGooseControlBlock (domain : MmsDomain) (variableIdOrig : list Z) : SM (option MmsValue) :=
  do! st := server in
  do! names := clift (parse_gcb_variable variableIdOrig) in
  match names with
  | Some (lnName, objectName, varName) =>
      match lookupGCB st domain lnName objectName with
      | Some i =>
          do! mmsGCB := clift (defined (sv_gseControls st !! i)) in
          match varName with
          | Some varName => clift (MmsValue_getSubElement (Some (gcb_mmsValue mmsGCB)) (gcb_mmsType mmsGCB) varName)
          | None => cret (Some (gcb_mmsValue mmsGCB))
          end
      | None => cret None
      end
  | None => cret None
  end.
End MmsMapping.

(** What the MMS layer calls: the handlers for reading, for writing and for connections
    of src/iedserver/mms_mapping/mms_mapping.c, with the functions of
    src/mms/iso_mms/server/mms_server.c that call them, and the thread that processes
    events. *)

(** * Functional constraints in names *)

(** [strncmp] of the two characters after the separator. *)
Definition begins (s : String.string) (behind : list Z) : bool := bool_decide (take 2 behind = lit s).

Definition isReportControlBlock (behind : list Z) : bool := begins "RP" behind || begins "BR" behind.
Definition isFunctionalConstraintCF := begins "CF".
Definition isFunctionalConstraintDC := begins "DC".
Definition isFunctionalConstraintSP := begins "SP".
Definition isFunctionalConstraintSV := begins "SV".
Definition isWritableFC (behind : list Z) : bool :=
  isFunctionalConstraintCF behind || isFunctionalConstraintDC behind
  || isFunctionalConstraintSP behind || isFunctionalConstraintSV behind.
Definition isControllable := begins "CO".
Definition isGooseControlBlock := begins "GO".

(** * Values and attributes *)

(** [checkIfValueBelongsToModelNode]: [value] is the value at [place].  The components of
    a structure must be there. *)
Fixpoint belongs (values : attribute_values) (dataAttribute : ModelNode) : Location -> MmsValue -> res bool :=
  let 'Node address _ _ children := dataAttribute in
  fix belongs_value (place : Location) (value : MmsValue) : res bool :=
    if bool_decide (values !! address = Some (handle place)) then Done true
    else
      let! b := (fix some_child (cs : list ModelNode) : res bool :=
        match cs with
        | [] => Done false
        | c :: cs => let! b := belongs values c place value in if b then Done true else some_child cs
        end) children in
      if b then Done true
      else
        match value with
        | Complex _ false cs => some_component (fun i => belongs_value (child_at place i)) 0 cs
        | _ => Done false
        end.

Definition checkIfValueBelongsToModelNode (st : IedServer) (dataAttribute : ModelNode) (place : Location) : res bool :=
  let! value := load_value st place in belongs (sv_attributeValues st) dataAttribute place value.

(** The first of the entries whose attribute the value belongs to. *)
Section FirstFor.
Context {A : Type} (attribute : A -> ModelNode).
Fixpoint first_for (st : IedServer) (place : Location) (entries : list A) : res (option A) :=
  match entries with
  | [] => Done None
  | e :: entries =>
      let! b := checkIfValueBelongsToModelNode st (attribute e) place in
      if b then Done (Some e) else first_for st place entries
  end.
End FirstFor.

Section Handlers.
Context (w : World).

(** * Writing *)

(** The policy for the functional constraint. *)
Definition policy_allows (policies : Z) (behind : list Z) : bool :=
  let allowed bit := negb (Z.land policies bit =? 0) in
  if isFunctionalConstraintCF behind then allowed ALLOW_WRITE_ACCESS_CF
  else if isFunctionalConstraintDC behind then allowed ALLOW_WRITE_ACCESS_DC
  else if isFunctionalConstraintSP behind then allowed ALLOW_WRITE_ACCESS_SP
  else if isFunctionalConstraintSV behind then allowed ALLOW_WRITE_ACCESS_SV
  else true.

(** The answer of the first handler for the attribute; without one the policy decides. *)
Definition access_allowed (st : IedServer) (behind : list Z) (place : Location) (value : MmsValue) (connection : Z)
  : res bool :=
  let! handler := first_for ah_attribute st place (sv_attributeAccessHandlers st) in
  Done match handler with
    | Some h => w_access w (ah_handler h) (ah_attribute h) value connection
    | None => policy_allows (sv_writeAccessPolicies st) behind
    end.

Definition call_observer (place : Location) (connection : Z) : SM unit :=
  do! st := server in
  do! observer := clift (first_for ob_attribute st place (sv_observedObjects st)) in
  match observer with
  | Some o => emit (AttributeChanged (mn_address (ob_attribute o)) (ob_handler o) connection)
  | None => cret tt
  end.

(** SP, SV, CF, DC *)
Definition write_attribute_value (domain : MmsDomain) (variableId behind : list Z) (value : MmsValue) (connection : Z) : SM Z :=
  do! st := server in
  do! cachedValue := clift (MmsServer_getValueFromCache (sv_valueCaches st) (md_address domain) variableId) in
  match cachedValue with
  | None => cret DATA_ACCESS_ERROR_OBJECT_VALUE_INVALID
  | Some place =>
      do! current := clift (load_value st place) in
      do! same := clift (MmsValue_equalTypes current value) in
      if negb same then cret DATA_ACCESS_ERROR_OBJECT_VALUE_INVALID
      else
        do! allowed := clift (access_allowed st behind place value connection) in
        if negb allowed then cret DATA_ACCESS_ERROR_OBJECT_ACCESS_DENIED
        else
          do! _ := match IedModel_lookupDataAttributeByMmsValue (sv_attributeValues st) (sv_model st) (handle place) with
            | Some da => IedServer_updateAttributeValue w da value
            | None => cret tt
            end in
          do! _ := call_observer place connection in
          cret DATA_ACCESS_ERROR_SUCCESS
  end.

(** The report control block of the name. *)
Fixpoint find_rcb (rcs : list ReportControl) (domain : MmsDomain) (lnName name : list Z) : option nat :=
  match rcs with
  | [] => None
  | rc :: rcs =>
      if bool_decide (md_address <$> rc_domain rc = Some (md_address domain)) && bool_decide (rc_parentLN rc = lnName)
         && bool_decide (rc_name rc = Some name)
      then Some O
      else S <$> find_rcb rcs domain lnName name
  end.

(** Logical node, name of the block and attribute of an item name; the name of the block
    has the names of the logical node and of the functional constraint before it. *)
Definition parse_rcb_variable (variableId behind : list Z) : option (list Z * option (list Z)) :=
  match MmsMapping_getNextNameElement behind with
  | None => None
  | Some (_, reportName) =>
      Some match strchr DOLLAR reportName with
        | Some (_, elementName) => (take (length variableId - length elementName - 1) variableId, Some elementName)
        | None => (variableId, None)
        end
  end.

(** Without the name of an attribute the one that is looked at begins behind the null
    byte of the item name. *)
Definition write_rcb (domain : MmsDomain) (lnName variableId behind : list Z) (value : MmsValue) (connection : Z) : SM Z :=
  do! st := server in
  match parse_rcb_variable variableId behind with
  | None => cret DATA_ACCESS_ERROR_OBJECT_NONE_EXISTENT
  | Some (name, elementName) =>
      match find_rcb (sv_reportControls st) domain lnName name with
      | None => cret DATA_ACCESS_ERROR_OBJECT_NONE_EXISTENT
      | Some i =>
          do! elementName := clift (defined elementName) in
          on_report w i (fun env => Reporting_RCBWriteAccessHandler env 1 elementName value connection)
      end
  end.

Definition mmsWriteHandler (domain : MmsDomain) (variableId : list Z) (value : MmsValue) (connection : Z) : SM Z :=
  match strchr DOLLAR variableId with
  | None => cret DATA_ACCESS_ERROR_INVALID_ADDRESS
  | Some (lnName, behind) =>
      if isControllable behind then
        on_controls w (fun env objects => Control_writeAccessControlObject (w_malloc w) env objects domain variableId value connection)
      else if isGooseControlBlock behind then writeAccessGooseControlBlock w domain variableId value
      else if isReportControlBlock behind then write_rcb domain lnName variableId behind value connection
      else if isWritableFC behind then write_attribute_value domain variableId behind value connection
      else cret DATA_ACCESS_ERROR_OBJECT_ACCESS_DENIED
  end.

(** * Reading *)

Definition read_rcb (domain : MmsDomain) (lnName variableId behind : list Z) : SM (option MmsValue) :=
  do! st := server in
  match parse_rcb_variable variableId behind with
  | None => cret None
  | Some (name, elementName) =>
      match find_rcb (sv_reportControls st) domain lnName name with
      | None => cret None
      | Some i =>
          do! rc := clift (defined (sv_reportControls st !! i)) in
          match elementName with
          | Some ((_ :: _) as elementName) => clift (ReportControl_getRCBValue rc elementName)
          | _ => cret (rc_rcbValues rc)
          end
      end
  end.

Definition mmsReadHandler (domain : MmsDomain) (variableId : list Z) (connection : Z) : SM (option MmsValue) :=
  match strchr DOLLAR variableId with
  | None => cret None
  | Some (lnName, behind) =>
      if isControllable behind then
        on_controls w (fun env objects => Control_readAccessControlObject env objects domain variableId connection)
      else if isGooseControlBlock behind then readAccessGooseControlBlock domain variableId
      else if isReportControlBlock behind then read_rcb domain lnName variableId behind
      else cret None
  end.

(** ** mms_server.c: the handlers are installed *)

Definition mmsServer_setValue (domain : MmsDomain) (itemId : list Z) (value : MmsValue) (connection : Z) : SM Z :=
  mmsWriteHandler domain itemId value connection.

Definition mmsServer_getValue (domain : MmsDomain) (itemId : list Z) (connection : Z) : SM (option MmsValue) :=
  do! st := server in
  do! value := clift (cached_value st (md_address domain) itemId) in
  match value with
  | Some v => cret (Some v)
  | None => mmsReadHandler domain itemId connection
  end.

(** * Connections *)

Inductive MmsServerEvent := MMS_SERVER_NEW_CONNECTION | MMS_SERVER_CONNECTION_CLOSED.

Definition private_IedServer_getClientConnectionByHandle (st : IedServer) (connection : Z) : option Z :=
  if bool_decide (connection ∈ sv_clientConnections st) then Some connection else None.

(** [LinkedList_remove]: the first element that is equal. *)
Fixpoint LinkedList_remove (l : list Z) (x : Z) : list Z :=
  match l with
  | [] => []
  | y :: l => if y =? x then l else y :: LinkedList_remove l x
  end.

Definition private_IedServer_removeClientConnection (x : Z) : SM unit :=
  cmodify (fun st => sv_set_clientConnections (LinkedList_remove (sv_clientConnections st) x) st).

Definition private_IedServer_addNewClientConnection (x : Z) : SM unit :=
  cmodify (fun st => sv_set_clientConnections (sv_clientConnections st ++ [x]) st).

Definition indicate (connection : Z) (connected : bool) : SM unit :=
  do! st := server in
  if sv_connectionIndicationHandler st then emit (ConnectionIndication connection connected) else cret tt.

(** The connection that is closed must be one of the clients: the tasks of the null
    pointer are counted otherwise. *)
Definition mmsConnectionHandler (connection : Z) (event : MmsServerEvent) : SM unit :=
  match event with
  | MMS_SERVER_CONNECTION_CLOSED =>
      do! st := server in
      do! clientConnection := clift (defined (private_IedServer_getClientConnectionByHandle st connection)) in
      do! _ := indicate clientConnection false in
      do! _ := private_IedServer_removeClientConnection clientConnection in
      do! _ := on_reports w (fun env => Reporting_deactivateReportsForConnection env connection) in
      on_controls w (fun env objects es =>
        let! (objects, es) := unselectControlsForConnection env objects connection es in Done (tt, objects, es))
  | MMS_SERVER_NEW_CONNECTION =>
      do! _ := private_IedServer_addNewClientConnection connection in
      indicate connection true
  end.

(** * Events *)

Definition process_goose (currentTimeInMs : Z) (env : ReportEnv) : G unit :=
  do! mmsGCB := gcb_self in
  if MmsGooseControlBlock_isEnabled mmsGCB then MmsGooseControlBlock_checkAndPublish env currentTimeInMs else cret tt.

Definition GOOSE_processGooseEvents (currentTimeInMs : Z) : SM unit := on_gooses w (process_goose currentTimeInMs).

(** One round of the loop. *)
Definition eventWorkerThread_round : SM unit :=
  let currentTimeInMs := w_time w in
  do! _ := GOOSE_processGooseEvents currentTimeInMs in
  do! _ := on_controls w (fun env objects es =>
    let! (objects, es) := Control_processControlActions env objects currentTimeInMs es in Done (tt, objects, es)) in
  on_reports w (fun env => Reporting_processReportEvents (w_sizes w) (w_malloc w) env currentTimeInMs).

(** A thread that a control object has started, from start to end. *)
Definition run_control_thread (i : nat) : SM unit :=
  on_controls w (fun env objects es => on_object i (controlOperateThread env) objects es).

(** * Observers and handlers for access *)

Definition MmsMapping_addObservedAttribute (dataAttribute : ModelNode) (handler : Z) : SM unit :=
  cmodify (fun st => sv_set_observedObjects (sv_observedObjects st ++ [mkObserver dataAttribute handler]) st).

(** The handler of the attribute is replaced, or added. *)
Fixpoint set_access_handler (handlers : list AttributeAccessHandler) (dataAttribute : ModelNode) (handler : Z)
  : list AttributeAccessHandler :=
  match handlers with
  | [] => [mkAccessHandler dataAttribute handler]
  | h :: handlers =>
      if mn_address (ah_attribute h) =? mn_address dataAttribute then mkAccessHandler (ah_attribute h) handler :: handlers
      else h :: set_access_handler handlers dataAttribute handler
  end.

Definition getAccessHandlerForAttribute (st : IedServer) (dataAttribute : ModelNode) : option AttributeAccessHandler :=
  snd <$> list_find (fun h => mn_address (ah_attribute h) = mn_address dataAttribute) (sv_attributeAccessHandlers st).

Definition MmsMapping_installWriteAccessHandler (dataAttribute : ModelNode) (handler : Z) : SM unit :=
  cmodify (fun st => sv_set_attributeAccessHandlers (set_access_handler (sv_attributeAccessHandlers st) dataAttribute handler) st).

Definition MmsMapping_addControlObject (controlObject : ControlObject) : SM unit :=
  cmodify (fun st => sv_set_controlObjects (sv_controlObjects st ++ [controlObject]) st).

Definition MmsMapping_getControlObject (st : IedServer) := Control_lookupControlObject (sv_controlObjects st).

Definition MmsMapping_setConnectionIndicationHandler (installed : bool) : SM unit :=
  cmodify (sv_set_connectionIndicationHandler installed).
End Handlers.
