(* ===== verification/MappingModel.v ===== *)
(** The MMS model of an IED: src/iedserver/mms_mapping/mms_mapping.c, from
    [createNamedVariableFromDataAttribute] to [createMmsModelFromIedModel].  A logical
    device becomes a domain, a logical node a variable, with a structure for each of its
    functional constraints and for its control blocks. *)
From Stdlib Require Import String.
From stdpp Require Import base tactics numbers option list.
From S2P Require Import Prelude MmsValue CString MmsTypeSpec Iec61850Common ReportControl ReportingAccess IedModel MmsGoose.

(** * Data attributes and data objects *)

(** The type of an attribute without components.  A constructed attribute gets none: the
    specification stays as [calloc] made it, an array of no elements. *)
Definition attribute_spec (name : option (list Z)) (type : DataAttributeType) : MmsVariableSpecification :=
  match type with
  | BOOLEAN => SpecSimple name T_BOOLEAN
  | INT8 => SpecSimple name (T_INTEGER 8)
  | INT16 => SpecSimple name (T_INTEGER 16)
  | INT32 => SpecSimple name (T_INTEGER 32)
  | INT64 => SpecSimple name (T_INTEGER 64)
  | INT128 => SpecSimple name (T_INTEGER 128)
  | INT8U => SpecSimple name (T_UNSIGNED 8)
  | INT16U => SpecSimple name (T_UNSIGNED 16)
  | INT24U => SpecSimple name (T_UNSIGNED 24)
  | INT32U => SpecSimple name (T_UNSIGNED 32)
  | FLOAT32 => SpecSimple name (T_FLOAT 8 32)
  | FLOAT64 => SpecSimple name (T_FLOAT 11 64)
  | ENUMERATED => SpecSimple name (T_INTEGER 8)
  | CHECK => SpecSimple name (T_BIT_STRING (-2))
  | CODEDENUM => SpecSimple name (T_BIT_STRING 2)
  | OCTET_STRING_6 => SpecSimple name (T_OCTET_STRING (-6))
  | OCTET_STRING_8 => SpecSimple name (T_OCTET_STRING 8)
  | OCTET_STRING_64 => SpecSimple name (T_OCTET_STRING (-64))
  | VISIBLE_STRING_32 | VISIBLE_STRING_64 | VISIBLE_STRING_65 | VISIBLE_STRING_129 =>
      SpecSimple name (T_VISIBLE_STRING (-129))
  | VISIBLE_STRING_255 => SpecSimple name (T_VISIBLE_STRING (-255))
  | UNICODE_STRING_255 => SpecSimple name (T_STRING (-255))
  | GENERIC_BITSTRING => SpecSimple name (T_BIT_STRING 0)
  | TIMESTAMP => SpecSimple name T_UTC_TIME
  | QUALITY => SpecSimple name (T_BIT_STRING (-13))
  | ENTRY_TIME => SpecSimple name (T_BINARY_TIME 6)
  | PHYCOMADDR => MmsMapping_createPhyComAddrStructure name
  | CONSTRUCTED => SpecArray name 0 (SpecSimple None (T_OTHER MMS_ARRAY))
  end.

(** An array has the name; its elements have none. *)
Definition in_array (elementCount : Z) (name : list Z) (make : option (list Z) -> MmsVariableSpecification)
  : MmsVariableSpecification :=
  if 0 <? elementCount then SpecArray (Some name) elementCount (make None) else make (Some name).

(** The components are treated as attributes; the type is read of those that have none
    themselves. *)
Fixpoint createNamedVariableFromDataAttribute (attribute : ModelNode) : res MmsVariableSpecification :=
  let 'Node _ _ name children := attribute in
  let! elementCount := node_elementCount attribute in
  match children with
  | [] =>
      let! a := as_attribute attribute in
      Done (in_array elementCount name (fun n => attribute_spec n (da_type a)))
  | _ =>
      let! elements := each_res createNamedVariableFromDataAttribute children in
      Done (in_array elementCount name (fun n => SpecStructure n elements))
  end.

(** The children of a data object that belong to the functional constraint. *)
Definition child_has_fc (fc : FunctionalConstraint) (child : ModelNode) : bool :=
  match mn_modelType child with
  | DataAttributeModelType _ a => has_fc fc a
  | DataObjectModelType _ => DataObject_hasFCData fc child
  | _ => false
  end.

Definition countChildrenWithFc (fc : FunctionalConstraint) (dataObject : ModelNode) : Z :=
  zlen (filter (fun c => child_has_fc fc c = true) (mn_children dataObject)).

(** The elements are stored at their index into an array with place for those that were
    counted. *)
Fixpoint createFCNamedVariableFromDataObject (fc : FunctionalConstraint) (dataObject : ModelNode)
  : res MmsVariableSpecification :=
  let 'Node _ _ name children := dataObject in
  let! elementCount := node_elementCount dataObject in
  let! elements := (fix fill (components : list ModelNode) : res (list MmsVariableSpecification) :=
    match components with
    | [] => Done []
    | c :: components =>
        if child_has_fc fc c then
          let! e := match mn_modelType c with
            | DataAttributeModelType _ _ => createNamedVariableFromDataAttribute c
            | _ => createFCNamedVariableFromDataObject fc c
            end in
          let! es := fill components in Done (e :: es)
        else fill components
    end) children in
  Done (in_array elementCount name (fun n => SpecStructure n elements)).

(** * Logical nodes *)

(** The data objects of the node with data of the functional constraint. *)
Definition createFCNamedVariable (fc : FunctionalConstraint) (logicalNode : ModelNode) : res MmsVariableSpecification :=
  let! elements := each_res (createFCNamedVariableFromDataObject fc)
    (filter (fun o => DataObject_hasFCData fc o = true) (mn_children logicalNode)) in
  Done (SpecStructure (FunctionalConstraint_toString fc) elements).

(** The order in which the functional constraints are counted. *)
Definition counted_fcs : list FunctionalConstraint := [ST; MX; SP; SV; CF; DC; SG; SE; SR; OR; BL; EX; CO].

Definition determineLogicalNodeComponentCount (logicalNode : ModelNode) : Z :=
  zlen (filter (fun fc => LogicalNode_hasFCData fc logicalNode = true) counted_fcs).

(** The node as the control blocks know it. *)
Definition as_logical_node (n : ModelNode) : LogicalNode := mkLogicalNode (mn_address n) (mn_name n).

Definition countReportControlBlocksForLogicalNode (model : IedModel) (logicalNode : ModelNode) (buffered : bool) : nat :=
  length (filter (fun rcb => ln_address (rcb_parent rcb) = mn_address logicalNode /\ rcb_buffered rcb = buffered)
    (im_rcbs model)).

Definition countGSEControlBlocksForLogicalNode (model : IedModel) (logicalNode : ModelNode) : nat :=
  length (filter (fun gse => ln_address (gse_parent gse) = mn_address logicalNode) (im_gseCBs model)).

(** The control blocks that the mapping has made so far. *)
Record ControlBlocks := mkBlocks {
  cb_reportControls : list ReportControl;
  cb_gseControls : list MmsGooseControlBlock }.

Definition fc_elements (fcs : list FunctionalConstraint) (logicalNode : ModelNode) : res (list MmsVariableSpecification) :=
  each_res (fun fc => createFCNamedVariable fc logicalNode)
    (filter (fun fc => LogicalNode_hasFCData fc logicalNode = true) fcs).

(** The array for the elements has [componentCount] places. *)
Definition createNamedVariableFromLogicalNode (model : IedModel) (domain : MmsDomain) (logicalNode : ModelNode)
    (blocks : ControlBlocks) : res (MmsVariableSpecification * ControlBlocks) :=
  let node := as_logical_node logicalNode in
  let brcbCount := countReportControlBlocksForLogicalNode model logicalNode true in
  let urcbCount := countReportControlBlocksForLogicalNode model logicalNode false in
  let gseCount := countGSEControlBlocksForLogicalNode model logicalNode in
  let one (n : nat) : Z := if (0 <? n)%nat then 1 else 0 in
  let componentCount := determineLogicalNodeComponentCount logicalNode + one brcbCount + one urcbCount + one gseCount in
  let! front := fc_elements [MX; ST; CO; CF; DC; SP; SG] logicalNode in
  let! (rcs, rp) :=
    if (0 <? urcbCount)%nat then
      let! (rcs, spec) := Reporting_createMmsUnbufferedRCBs (im_rcbs model) domain node urcbCount (cb_reportControls blocks) in
      Done (rcs, [spec])
    else Done (cb_reportControls blocks, []) in
  let! (rcs, br) :=
    if (0 <? brcbCount)%nat then
      let! (rcs, spec) := Reporting_createMmsBufferedRCBs (im_rcbs model) domain node brcbCount rcs in Done (rcs, [spec])
    else Done (rcs, []) in
  let! (gcbs, go) :=
    if (0 <? gseCount)%nat then
      let! (gcbs, spec) := GOOSE_createGOOSEControlBlocks (im_gseCBs model) domain node gseCount (cb_gseControls blocks) in
      Done (gcbs, [spec])
    else Done (cb_gseControls blocks, []) in
  let! back := fc_elements [SV; SE; EX; SR; OR; BL] logicalNode in
  let elements := front ++ rp ++ br ++ go ++ back in
  if componentCount <? zlen elements then Ub
  else Done (SpecStructure (Some (mn_name logicalNode)) elements, mkBlocks rcs gcbs).

(** * Devices *)

Fixpoint create_variables (model : IedModel) (domain : MmsDomain) (logicalNodes : list ModelNode) (blocks : ControlBlocks)
  : res (list MmsVariableSpecification * ControlBlocks) :=
  match logicalNodes with
  | [] => Done ([], blocks)
  | ln :: lns =>
      let! (v, blocks) := createNamedVariableFromLogicalNode model domain ln blocks in
      let! (vs, blocks) := create_variables model domain lns blocks in
      Done (v :: vs, blocks)
  end.

(** [address]: the address of the domain. *)
Definition createMmsDomainFromIedDevice (model : IedModel) (address : Z) (logicalDevice : ModelNode) (blocks : ControlBlocks)
  : res (MmsDomain * ControlBlocks) :=
  let domain := MmsDomain_create address (mn_name logicalDevice) in
  let! (variables, blocks) := create_variables model domain (mn_children logicalDevice) blocks in
  Done (mkDomain address (mn_name logicalDevice) (Some variables) [], blocks).

Fixpoint createMmsDataModel (model : IedModel) (address : Z) (devices : list ModelNode) (blocks : ControlBlocks)
  : res (list MmsDomain * ControlBlocks) :=
  match devices with
  | [] => Done ([], blocks)
  | ld :: lds =>
      let! (d, blocks) := createMmsDomainFromIedDevice model address ld blocks in
      let! (ds, blocks) := createMmsDataModel model (address + 1) lds blocks in
      Done (d :: ds, blocks)
  end.

(** * Data sets *)

Definition list_entry (domains : list MmsDomain) (e : DataSetEntry) : MmsNamedVariableListEntry :=
  mkListEntry (md_address <$> MmsDevice_getDomain domains (dse_logicalDeviceName e)) (dse_variableName e) (dse_index e)
    (dse_componentName e).

Definition variable_list (domains : list MmsDomain) (d : DataSet) : MmsNamedVariableList :=
  foldl (fun l e => MmsNamedVariableList_addVariable l (list_entry domains e)) (MmsNamedVariableList_create (ds_name d) false)
    (ds_fcdas d).

(** The domain of the address is replaced. *)
Definition set_domain (domains : list MmsDomain) (d : MmsDomain) : list MmsDomain :=
  map (fun d' => if md_address d' =? md_address d then d else d') domains.

(** The domain of the data set must be there. *)
Fixpoint createDataSets (domains : list MmsDomain) (dataSets : list DataSet) : res (list MmsDomain) :=
  match dataSets with
  | [] => Done domains
  | d :: ds =>
      let! ldName := defined (ds_logicalDeviceName d) in
      let! dataSetDomain := defined (MmsDevice_getDomain domains ldName) in
      let '(_, dataSetDomain) := MmsDomain_addNamedVariableList dataSetDomain (variable_list domains d) in
      createDataSets (set_domain domains dataSetDomain) ds
  end.

(** Without logical devices there is no device. *)
Definition createMmsModelFromIedModel (model : IedModel) : res (option (list MmsDomain) * ControlBlocks) :=
  match im_devices model with
  | [] => Done (None, mkBlocks [] [])
  | devices =>
      let! (domains, blocks) := createMmsDataModel model 0 devices (mkBlocks [] []) in
      let! domains := createDataSets domains (im_dataSets model) in
      Done (Some domains, blocks)
  end.
