(* ===== verification/NameMapping.v ===== *)
(** Object references and names of MMS variables: the functions of
    src/iedserver/mms_mapping/mms_mapping.c that translate between [LD/LN.DO.DA[FC]] and
    the domain [LD] with the variable [LN$FC$DO$DA], with the functions of
    src/common/string_utilities.c that they use. *)
From Stdlib Require Import String.
From stdpp Require Import base tactics numbers option list.
From S2P Require Import Prelude CString Iec61850Common Reporting ReportingAccess.

(** * Strings *)

Definition StringUtils_replace (string : list Z) (oldChar newChar : Z) : list Z :=
  map (fun c => if c =? oldChar then newChar else c) string.

Definition StringUtils_isDigit (character : Z) : bool := (47 <? character) && (character <? 58).

Definition StringUtils_digitToInt (digit : Z) : Z := if StringUtils_isDigit digit then digit - 48 else -1.

(** The value so far must stay an [int]. *)
Definition int_ok (v : Z) : bool := (-2147483648 <=? v) && (v <=? 2147483647).

Fixpoint digitsToInt_loop (digits : list Z) (value : Z) : res Z :=
  match digits with
  | [] => Done value
  | d :: digits =>
      let value := value * 10 in
      if negb (int_ok value) then Ub
      else
        let digitValue := StringUtils_digitToInt d in
        if digitValue =? -1 then Done (-1)
        else if negb (int_ok (value + digitValue)) then Ub
        else digitsToInt_loop digits (value + digitValue)
  end.

Definition StringUtils_digitsToInt (digits : list Z) : res Z := digitsToInt_loop digits 0.

(** [sprintf] with [%i] of a number that is not negative; ten digits are enough for an
    [int]. *)
Fixpoint print_loop (fuel : nat) (v : Z) : list Z :=
  match fuel with
  | O => []
  | S fuel => (if v <? 10 then [] else print_loop fuel (v / 10)) ++ [48 + v mod 10]
  end.

Definition print_int (v : Z) : list Z := print_loop 10 v.

Fixpoint digits_loop (fuel : nat) (value : Z) : Z :=
  match fuel with
  | O => 1
  | S fuel => if 9 <? value then 1 + digits_loop fuel (value / 10) else 1
  end.

Definition getNumberOfDigits (value : Z) : Z := digits_loop 10 value.

(** * From object references to names *)

(** [None] for the null pointer: there is no device in the reference. *)
Definition MmsMapping_getMmsDomainFromObjectReference (objectReference : list Z) : option (list Z) :=
  fst <$> strchr SLASH objectReference.

(** The loop for the name of the logical node ends at a dot only: without one it leaves
    the string.  The block that is allocated has place for the three more characters. *)
Definition MmsMapping_createMmsVariableNameFromObjectReference (objectReference : list Z) (fc : FunctionalConstraint)
  : res (option (list Z)) :=
  let source := match strchr SLASH objectReference with Some (_, rest) => rest | None => objectReference end in
  match FunctionalConstraint_toString fc with
  | None => Done None
  | Some fcString =>
      match strchr DOT source with
      | None => Ub
      | Some (lnName, rest) =>
          Done (Some (lnName ++ [DOLLAR] ++ fcString ++ [DOLLAR] ++ StringUtils_replace rest DOT DOLLAR))
      end
  end.

Record MmsVariableAccessSpecification := mkAccess {
  va_domainId : option (list Z);
  va_itemId : option (list Z);
  va_arrayIndex : Z;                           (* int32_t *)
  va_componentName : option (list Z) }.

Definition PAREN_OPEN : Z := 40.
Definition PAREN_CLOSE : Z := 41.
Definition BRACKET_OPEN : Z := 91.
Definition BRACKET_CLOSE : Z := 93.

(** [itemIdStr] has 129 characters. *)
Definition item_of (itemIdStr : list Z) (fc : FunctionalConstraint) : res (option (list Z)) :=
  if 129 <=? zlen itemIdStr then Ub else MmsMapping_createMmsVariableNameFromObjectReference itemIdStr fc.

(** The index and the component behind it; [behind] begins after the brace.  Behind the
    component, a dot and the functional constraint in brackets are counted. *)
Definition index_of (behind : list Z) : res (Z * option (list Z)) :=
  match strchr PAREN_CLOSE behind with
  | None => Ub
  | Some (digits, rest) =>
      let! index := StringUtils_digitsToInt digits in
      let componentNameLen := zlen rest - 1 - 4 in
      Done (index,
        if 0 <? componentNameLen then
          Some (StringUtils_replace (take (Z.to_nat componentNameLen) (drop 1 rest)) DOT DOLLAR)
        else None)
  end.

(** [None] for the null pointer. *)
Definition MmsMapping_ObjectReferenceToVariableAccessSpec (objectReference : list Z)
  : res (option MmsVariableAccessSpecification) :=
  match strchr SLASH objectReference, strchr BRACKET_OPEN objectReference with
  | Some (domainId, item), Some (_, fcStart) =>
      match strchr BRACKET_CLOSE fcStart with
      | None => Done None
      | Some (fcString, _) =>
          if negb (zlen fcString =? 2) then Done None
          else
            let fc := FunctionalConstraint_fromString fcString in
            match strchr PAREN_OPEN item with
            | Some (itemIdStr, behind) =>
                let! itemId := item_of itemIdStr fc in
                let! (index, componentName) := index_of behind in
                Done (Some (mkAccess (Some domainId) itemId index componentName))
            | None =>
                match strchr BRACKET_OPEN item with
                | Some (itemIdStr, _) =>
                    let! itemId := item_of itemIdStr fc in
                    Done (Some (mkAccess (Some domainId) itemId (-1) None))
                | None => Done (Some (mkAccess (Some domainId) None (-1) None))
                end
            end
      end
  | _, _ => Done None
  end.

(** * From names to object references *)

(** The reference is written into a block whose size is computed before. *)
Definition reference_size (spec : MmsVariableAccessSpecification) (domainId itemId : list Z) : Z :=
  (zlen domainId + 1) + (zlen itemId - 2)
  + (if -1 <? va_arrayIndex spec then 2 + getNumberOfDigits (va_arrayIndex spec) else 0)
  + 4 + zlen (default [] (va_componentName spec)) + 1.

Definition MmsMapping_varAccessSpecToObjectReference (spec : MmsVariableAccessSpecification) : res (list Z) :=
  let! domainId := defined (va_domainId spec) in
  let! itemId := defined (va_itemId spec) in
  match strchr DOLLAR itemId with
  | None => Ub
  | Some (lnName, behind) =>
      let! fc0 := defined (behind !! 0%nat) in
      let! fc1 := defined (behind !! 1%nat) in
      let objectReference :=
        domainId ++ [SLASH] ++ lnName ++ [DOT] ++ StringUtils_replace (drop 3 behind) DOLLAR DOT
        ++ (if -1 <? va_arrayIndex spec then [PAREN_OPEN] ++ print_int (va_arrayIndex spec) ++ [PAREN_CLOSE] else [])
        ++ match va_componentName spec with
           | Some componentName => [DOT] ++ StringUtils_replace componentName DOLLAR DOT
           | None => []
           end
        ++ [BRACKET_OPEN; fc0; fc1; BRACKET_CLOSE] in
      if reference_size spec domainId itemId <? zlen objectReference + 1 then Ub else Done objectReference
  end.

(** Object references and names of MMS variables: what is translated there and back. *)

(** * Characters *)

Definition lacks (c : Z) (s : list Z) : Prop := Forall (fun b => b <> c) s.

Lemma lacks_app c s t : lacks c (s ++ t) <-> lacks c s /\ lacks c t.
Proof. apply Forall_app. Qed.

Lemma strchr_lacks c s t : lacks c s -> strchr c (s ++ c :: t) = Some (s, t).
Proof. apply strchr_app. Qed.

Lemma replace_app s t a b : StringUtils_replace (s ++ t) a b = StringUtils_replace s a b ++ StringUtils_replace t a b.
Proof. apply map_app. Qed.

Lemma zlen_replace s a b : zlen (StringUtils_replace s a b) = zlen s.
Proof. unfold zlen, StringUtils_replace. by rewrite length_map. Qed.

Lemma replace_cons c s a b :
  StringUtils_replace (c :: s) a b = (if c =? a then b else c) :: StringUtils_replace s a b.
Proof. done. Qed.

(** Replacing a character by one that does not occur is undone by replacing it back. *)
Lemma replace_back s a b : lacks b s -> StringUtils_replace (StringUtils_replace s a b) b a = s.
Proof.
  induction 1 as [|c s Hc _ IH]; [done|]. rewrite !replace_cons, IH. f_equal.
  destruct (Z.eqb_spec c a) as [->|Hca]; [by rewrite Z.eqb_refl|]. by rewrite (proj2 (Z.eqb_neq c b)).
Qed.

Lemma replace_none s a b : lacks a s -> StringUtils_replace s a b = s.
Proof. induction 1 as [|c s Hc _ IH]; [done|]. by rewrite replace_cons, IH, (proj2 (Z.eqb_neq c a)). Qed.

Lemma replace_lacks s a b c : lacks c s -> b <> c -> lacks c (StringUtils_replace s a b).
Proof. induction 1 as [|d s Hd _ IH]; intros Hb; constructor; [|by apply IH]. by destruct (d =? a). Qed.

Lemma replace_old s a b : a <> b -> lacks a (StringUtils_replace s a b).
Proof.
  intros Hab. induction s as [|c s IH]; constructor; [|done]. destruct (Z.eqb_spec c a) as [->|]; [done|done].
Qed.

(** * Numbers *)

Lemma digit_value d : 0 <= d < 10 -> StringUtils_digitToInt (48 + d) = d.
Proof.
  intros Hd. unfold StringUtils_digitToInt, StringUtils_isDigit.
  rewrite (proj2 (Z.ltb_lt 47 _)), (proj2 (Z.ltb_lt _ 58)) by lia. cbn [andb]. lia.
Qed.

Lemma int_ok_in v : 0 <= v <= 2147483647 -> int_ok v = true.
Proof. intros Hv. unfold int_ok. rewrite (proj2 (Z.leb_le _ _)), (proj2 (Z.leb_le v _)) by lia. done. Qed.

Lemma digitsToInt_app xs ys v w : digitsToInt_loop xs v = Done w -> 0 <= w ->
  digitsToInt_loop (xs ++ ys) v = digitsToInt_loop ys w.
Proof.
  revert v. induction xs as [|d xs IH]; intros v; simpl; [by intros [= ->]|].
  destruct (negb (int_ok (v * 10))); [done|]. destruct (_ =? -1); [intros [= <-]; lia|].
  destruct (negb (int_ok _)); [done|]. apply IH.
Qed.

Lemma digitsToInt_print fuel v : (0 < fuel)%nat -> 0 <= v < 10 ^ Z.of_nat fuel -> v <= 2147483647 ->
  digitsToInt_loop (print_loop fuel v) 0 = Done v.
Proof.
  revert v. induction fuel as [|fuel IH]; intros v Hf Hv Hmax; [lia|]. cbn [print_loop].
  pose proof (Z.div_mod v 10 ltac:(lia)) as Hdm. pose proof (Z.mod_pos_bound v 10 ltac:(lia)) as Hm.
  assert (forall w, 0 <= w -> w * 10 + v mod 10 = v -> digitsToInt_loop [48 + v mod 10] w = Done v) as Hlast.
  { intros w Hw E. cbn [digitsToInt_loop]. rewrite int_ok_in by lia. cbn [negb].
    rewrite digit_value, (proj2 (Z.eqb_neq _ (-1))) by lia. by rewrite E, int_ok_in by lia. }
  destruct (Z.ltb_spec v 10) as [Hs|Hs]; [by apply (Hlast 0); rewrite ?Z.mod_small in *; lia|].
  rewrite (digitsToInt_app _ _ _ (v / 10)); [apply Hlast; lia| |apply Z.div_pos; lia].
  destruct fuel as [|fuel]; [cbn in Hv; lia|]. apply IH; [lia| |lia].
  split; [apply Z.div_pos; lia|]. apply Z.div_lt_upper_bound; [lia|].
  rewrite Nat2Z.inj_succ, Z.pow_succ_r in Hv by lia. lia.
Qed.

Lemma print_lacks fuel v c : 0 <= v -> c < 48 \/ 57 < c -> lacks c (print_loop fuel v).
Proof.
  revert v. induction fuel as [|fuel IH]; intros v Hv Hc; cbn [print_loop]; [constructor|].
  pose proof (Z.mod_pos_bound v 10 ltac:(lia)) as Hm. apply lacks_app. split.
  - destruct (v <? 10); [constructor|]. apply IH; [apply Z.div_pos; lia|done].
  - constructor; [lia|constructor].
Qed.

Lemma zlen_print fuel v : (0 < fuel)%nat -> 0 <= v < 10 ^ Z.of_nat fuel -> zlen (print_loop fuel v) = digits_loop fuel v.
Proof.
  revert v. induction fuel as [|fuel IH]; intros v Hf Hv; [lia|]. cbn [print_loop digits_loop].
  rewrite zlen_app. change (zlen [_]) with 1. destruct (Z.ltb_spec v 10) as [Hs|Hs].
  - by rewrite (proj2 (Z.ltb_ge 9 v)) by lia.
  - rewrite (proj2 (Z.ltb_lt 9 v)) by lia. destruct fuel as [|fuel]; [cbn in Hv; lia|].
    rewrite IH; [lia|lia|]. split; [apply Z.div_pos; lia|]. apply Z.div_lt_upper_bound; [lia|].
    rewrite Nat2Z.inj_succ, Z.pow_succ_r in Hv by lia. lia.
Qed.

(** * References *)

(** Names of nodes have no character that separates the parts of a reference. *)
Definition separators : list Z := [DOT; SLASH; DOLLAR; PAREN_OPEN; PAREN_CLOSE; BRACKET_OPEN; BRACKET_CLOSE].
Definition plain (s : list Z) : Prop := Forall (fun b => b ∉ separators) s.

Lemma plain_lacks s c : plain s -> c ∈ separators -> lacks c s.
Proof. intros Hs Hc. eapply Forall_impl; [exact Hs|]. by intros b Hb ->. Qed.

(** The part of a name behind the functional constraint: names with [$] between them. *)
Definition hierarchical (s : list Z) : Prop := Forall (fun b => b = DOLLAR \/ b ∉ separators) s.

Lemma hierarchical_lacks s c : hierarchical s -> c ∈ separators -> c <> DOLLAR -> lacks c s.
Proof. intros Hs Hc Hd. eapply Forall_impl; [exact Hs|]. intros b Hb E. subst b. destruct Hb as [Hb|Hb]; congruence. Qed.

Ltac in_separators := unfold separators; repeat (first [apply list_elem_of_here | apply list_elem_of_further]).
Ltac zlen_tac := repeat first [rewrite zlen_app | rewrite zlen_cons | rewrite zlen_replace | rewrite drop_0 | rewrite zlen_nil].
Ltac lacks_tac := first [apply plain_lacks; [assumption|in_separators] | apply hierarchical_lacks; [assumption|in_separators|done]].

Lemma fc_plain fc s : FunctionalConstraint_toString fc = Some s -> plain s.
Proof.
  destruct fc; intros [= <-]; apply (bool_decide_unpack _); vm_compute; done.
Qed.

(** The name made of an object reference, and the device in front of it. *)
Lemma createMmsVariableName_spec ld ln path fc fcString : lacks SLASH ld -> lacks DOT ln -> lacks SLASH ln ->
  FunctionalConstraint_toString fc = Some fcString ->
  MmsMapping_createMmsVariableNameFromObjectReference (ld ++ SLASH :: ln ++ DOT :: path) fc =
    Done (Some (ln ++ [DOLLAR] ++ fcString ++ [DOLLAR] ++ StringUtils_replace path DOT DOLLAR)) /\
  MmsMapping_getMmsDomainFromObjectReference (ld ++ SLASH :: ln ++ DOT :: path) = Some ld.
Proof.
  intros Hld Hln Hs E. unfold MmsMapping_createMmsVariableNameFromObjectReference, MmsMapping_getMmsDomainFromObjectReference.
  by rewrite strchr_lacks, E, strchr_lacks.
Qed.

Lemma createMmsVariableName_item ln path fc fcString : lacks DOT ln -> lacks SLASH ln -> lacks SLASH path ->
  FunctionalConstraint_toString fc = Some fcString ->
  MmsMapping_createMmsVariableNameFromObjectReference (ln ++ DOT :: path) fc =
    Done (Some (ln ++ [DOLLAR] ++ fcString ++ [DOLLAR] ++ StringUtils_replace path DOT DOLLAR)).
Proof.
  intros Hln Hs Hp E. unfold MmsMapping_createMmsVariableNameFromObjectReference.
  assert (strchr SLASH (ln ++ DOT :: path) = None) as ->.
  { apply strchr_none, Forall_app. split; [done|]. by constructor. }
  by rewrite E, strchr_lacks.
Qed.

(** The variables that have a reference: [LN$FC$names], with an index and a component
    of the indexed element or without both. *)
Record referable (spec : MmsVariableAccessSpecification) (domainId ln fcString path : list Z) : Prop := {
  rf_domain : va_domainId spec = Some domainId;
  rf_plain : plain domainId;
  rf_item : va_itemId spec = Some (ln ++ [DOLLAR] ++ fcString ++ [DOLLAR] ++ path);
  rf_ln : plain ln;
  rf_fc : exists fc, FunctionalConstraint_toString fc = Some fcString;
  rf_path : hierarchical path;
  rf_length : zlen ln + zlen path < 128;
  rf_index : -1 <= va_arrayIndex spec <= 2147483647;
  rf_component : forall c, va_componentName spec = Some c -> hierarchical c /\ c <> [] /\ 0 <= va_arrayIndex spec }.

(** The text of the reference. *)
Definition reference_text (spec : MmsVariableAccessSpecification) (domainId ln fcString path : list Z) : list Z :=
  domainId ++ SLASH :: (ln ++ DOT :: StringUtils_replace path DOLLAR DOT)
  ++ (if -1 <? va_arrayIndex spec then PAREN_OPEN :: print_int (va_arrayIndex spec) ++ PAREN_CLOSE ::
        match va_componentName spec with Some c => DOT :: StringUtils_replace c DOLLAR DOT | None => [] end
      else [])
  ++ BRACKET_OPEN :: fcString ++ [BRACKET_CLOSE].

Lemma print_reference spec domainId ln fcString path : referable spec domainId ln fcString path ->
  MmsMapping_varAccessSpecToObjectReference spec = Done (reference_text spec domainId ln fcString path).
Proof.
  intros []. destruct rf_fc0 as [fc Hfc]. unfold MmsMapping_varAccessSpecToObjectReference.
  rewrite rf_domain0, rf_item0. cbn [defined rbind app]. rewrite strchr_lacks by lacks_tac.
  pose proof (fc_name_length _ _ Hfc) as Hl. destruct fcString as [|a [|b [|]]]; try done.
  cbn [lookup list_lookup defined rbind app drop].
  match goal with |- (if ?c then _ else _) = _ => replace c with false end.
  - f_equal. unfold reference_text. cbn [app]. rewrite <- !app_assoc. cbn [app].
    destruct (-1 <? va_arrayIndex spec) eqn:Ei; [by destruct (va_componentName spec); rewrite <- ?app_assoc; cbn [app]; rewrite <- ?app_assoc|].
    destruct (va_componentName spec) as [c|]; [|done]. destruct (rf_component0 c eq_refl) as (_ & _ & H). apply Z.ltb_ge in Ei. lia.
  - symmetry. apply Z.ltb_ge. unfold reference_size. cbn [app]. zlen_tac.
    destruct (-1 <? va_arrayIndex spec) eqn:Ei.
    + apply Z.ltb_lt in Ei. zlen_tac. unfold print_int, getNumberOfDigits.
      rewrite zlen_print by (change (10 ^ Z.of_nat 10) with 10000000000; lia).
      destruct (va_componentName spec); cbn [default id]; zlen_tac; lia.
    + destruct (va_componentName spec); cbn [default id]; zlen_tac; lia.
Qed.

(** Reading the part of a reference behind the device. *)
Lemma index_of_spec i c rest : 0 <= i <= 2147483647 -> (forall x, c = Some x -> hierarchical x /\ x <> []) ->
  zlen rest = 4 ->
  index_of (print_int i ++ PAREN_CLOSE ::
    match c with Some x => DOT :: StringUtils_replace x DOLLAR DOT | None => [] end ++ rest) = Done (i, c).
Proof.
  intros Hi Hc Hr. unfold index_of. rewrite strchr_lacks by (apply print_lacks; [lia|by left]).
  unfold StringUtils_digitsToInt, print_int.
  rewrite digitsToInt_print by (try done; change (10 ^ Z.of_nat 10) with 10000000000; lia). cbn [rbind].
  destruct c as [x|]; cbn [app]; zlen_tac; rewrite Hr.
  - destruct (Hc x eq_refl) as [Hx Hne]. pose proof (zlen_nonneg x).
    assert (0 < zlen x) as Hpos by (destruct x; [done|rewrite zlen_cons; pose proof (zlen_nonneg x); lia]).
    rewrite (proj2 (Z.ltb_lt 0 _)) by lia. cbn [drop]. rewrite drop_0.
    rewrite take_app_length' by (unfold StringUtils_replace; rewrite length_map; unfold zlen; lia).
    rewrite replace_back; [done|]. apply hierarchical_lacks; [done|in_separators|done].
  - by rewrite (proj2 (Z.ltb_ge 0 _)) by lia.
Qed.

(** The item and the index in front of the functional constraint. *)
Definition item_text (ln path : list Z) : list Z := ln ++ DOT :: StringUtils_replace path DOLLAR DOT.
Definition index_text (i : Z) (c : option (list Z)) : list Z :=
  PAREN_OPEN :: print_int i ++ PAREN_CLOSE :: match c with Some x => DOT :: StringUtils_replace x DOLLAR DOT | None => [] end.

Lemma item_lacks ln path c : plain ln -> hierarchical path -> c ∈ separators -> c <> DOT -> c <> DOLLAR -> lacks c (item_text ln path).
Proof.
  intros Hl Hp Hc Hd Hs. apply lacks_app. split; [by apply plain_lacks|]. constructor; [done|].
  apply replace_lacks; [by apply hierarchical_lacks|done].
Qed.

Lemma index_lacks i c : 0 <= i -> (forall x, c = Some x -> hierarchical x) -> lacks BRACKET_OPEN (index_text i c).
Proof.
  intros Hi Hc. constructor; [done|]. apply lacks_app. split; [apply print_lacks; [done|by right]|].
  constructor; [done|]. destruct c as [x|]; [|constructor]. constructor; [done|].
  apply replace_lacks; [|done]. specialize (Hc x eq_refl). lacks_tac.
Qed.

Lemma item_of_text ln path fc fcString : plain ln -> hierarchical path -> zlen ln + zlen path < 128 ->
  FunctionalConstraint_toString fc = Some fcString ->
  item_of (item_text ln path) fc = Done (Some (ln ++ [DOLLAR] ++ fcString ++ [DOLLAR] ++ path)).
Proof.
  intros Hl Hp Hlen Hfc. unfold item_of, item_text. rewrite (proj2 (Z.leb_gt _ _)) by (zlen_tac; lia).
  erewrite createMmsVariableName_item; [|lacks_tac|lacks_tac| |exact Hfc].
  - by rewrite replace_back by lacks_tac.
  - apply replace_lacks; [lacks_tac|done].
Qed.

(** Object references and MMS variables are translated there and back: the reference
    printed for a variable [LN$FC$names], with or without the index of an array and a
    component behind it, is parsed to the same variable. *)
Theorem reference_roundtrip spec domainId ln fcString path : referable spec domainId ln fcString path ->
  exists objectReference, MmsMapping_varAccessSpecToObjectReference spec = Done objectReference /\
    MmsMapping_ObjectReferenceToVariableAccessSpec objectReference = Done (Some spec).
Proof.
  intros H. eexists. split; [by apply print_reference|]. destruct H, rf_fc0 as [fc Hfc].
  unfold reference_text, MmsMapping_ObjectReferenceToVariableAccessSpec.
  fold (item_text ln path).
  pose proof (fc_name_length _ _ Hfc) as Hl. pose proof (fc_plain _ _ Hfc) as Hfp.
  pose proof (fc_fromString_toString _ _ [] Hfc) as Hback. rewrite app_nil_r in Hback.
  rewrite strchr_lacks by lacks_tac.
  match goal with |- context [domainId ++ SLASH :: item_text ln path ++ ?x ++ BRACKET_OPEN :: ?y] => set (idx := x) end.
  assert (lacks BRACKET_OPEN (domainId ++ SLASH :: item_text ln path ++ idx)) as Hpre.
  { apply lacks_app. split; [lacks_tac|]. constructor; [done|]. apply lacks_app. split; [by apply item_lacks; [| |in_separators| |]|].
    unfold idx. destruct (-1 <? va_arrayIndex spec) eqn:Ei; [|constructor]. apply Z.ltb_lt in Ei.
    apply index_lacks; [lia|]. intros x Hx. by apply rf_component0. }
  replace (domainId ++ SLASH :: item_text ln path ++ idx ++ BRACKET_OPEN :: fcString ++ [BRACKET_CLOSE])
    with ((domainId ++ SLASH :: item_text ln path ++ idx) ++ BRACKET_OPEN :: fcString ++ [BRACKET_CLOSE])
    by (rewrite <- app_assoc; cbn [app]; by rewrite <- app_assoc).
  rewrite (strchr_lacks BRACKET_OPEN _ _ Hpre), (strchr_lacks BRACKET_CLOSE fcString) by lacks_tac.
  rewrite (proj2 (Z.eqb_eq (zlen fcString) 2)), Hback by (unfold zlen; lia). cbn [negb].
  unfold idx. destruct (-1 <? va_arrayIndex spec) eqn:Ei.
  - apply Z.ltb_lt in Ei. fold (index_text (va_arrayIndex spec) (va_componentName spec)). unfold index_text. cbn [app].
    rewrite strchr_lacks by (apply item_lacks; [done|done|in_separators|done|done]).
    erewrite item_of_text by eassumption. cbn [rbind]. rewrite <- app_assoc. cbn [app].
    rewrite index_of_spec; [|lia|intros x Hx; by destruct (rf_component0 x Hx) as (? & ? & ?)|zlen_tac; unfold zlen; lia].
    cbn [rbind]. destruct spec as [dom item i c]. cbn [va_itemId va_arrayIndex va_componentName va_domainId] in *. by subst dom item.
  - cbn [app]. apply Z.ltb_ge in Ei.
    assert (strchr PAREN_OPEN (item_text ln path ++ BRACKET_OPEN :: fcString ++ [BRACKET_CLOSE]) = None) as ->.
    { apply strchr_none, lacks_app. split; [apply item_lacks; [done|done|in_separators|done|done]|]. constructor; [done|].
      apply lacks_app. split; [lacks_tac|by repeat constructor]. }
    rewrite strchr_lacks by (apply item_lacks; [done|done|in_separators|done|done]).
    erewrite item_of_text by eassumption. cbn [rbind]. destruct spec as [dom item i c].
    cbn [va_itemId va_arrayIndex va_componentName va_domainId] in *. subst dom item.
    destruct c as [c|]; [destruct (rf_component0 c eq_refl) as (_ & _ & ?); lia|]. by replace i with (-1) by lia.
Qed.

Lemma reference_roundtrip_witness : exists objectReference,
  MmsMapping_varAccessSpecToObjectReference
    (mkAccess (Some (lit "IED1Device")) (Some (lit "MHAI1$MX$HA$phsAHar")) 12 (Some (lit "cVal$mag$f"))) = Done objectReference /\
  objectReference = lit "IED1Device/MHAI1.HA.phsAHar(12).cVal.mag.f[MX]" /\
  MmsMapping_ObjectReferenceToVariableAccessSpec objectReference =
    Done (Some (mkAccess (Some (lit "IED1Device")) (Some (lit "MHAI1$MX$HA$phsAHar")) 12 (Some (lit "cVal$mag$f")))).
Proof.
  destruct (reference_roundtrip (mkAccess (Some (lit "IED1Device")) (Some (lit "MHAI1$MX$HA$phsAHar")) 12 (Some (lit "cVal$mag$f")))
    (lit "IED1Device") (lit "MHAI1") (lit "MX") (lit "HA$phsAHar")) as (r & H1 & H2).
  - constructor; try (apply (bool_decide_unpack _); vm_compute; done); try (vm_compute; reflexivity).
    + by exists MX.
    + intros c [= <-]. split; [apply (bool_decide_unpack _); vm_compute; done|]. split; [discriminate|vm_compute; discriminate].
  - exists r. split; [exact H1|]. split; [|exact H2].
    enough (Done r = Done (lit "IED1Device/MHAI1.HA.phsAHar(12).cVal.mag.f[MX]")) as E by congruence.
    rewrite <- H1. vm_compute. reflexivity.
Defined.
