(* ===== verification/IedServer.v ===== *)
(** The IED server: src/iedserver/impl/ied_server.c.  The creation of a server from a data
    model, the access of the application to the attributes, and its policies and
    handlers. *)
From Stdlib Require Import String.
From stdpp Require Import base tactics numbers option gmap list.
From S2P Require Import Prelude MmsValue Effects CString MmsTypeSpec Control Iec61850Common ReportControl Reporting ReportingAccess ValueStore IedModel MmsGoose ServerState MmsMapping MappingModel NameMapping.

(** * Control objects *)

(** The members [Oper], [Cancel] and [SBOw] of a structure, by their indices. *)
Fixpoint control_members (es : list MmsVariableSpecification) (j : Z) (oper cancel sbow : option Z)
  : res (option Z * option Z * option Z) :=
  match es with
  | [] => Done (oper, cancel, sbow)
  | e :: es =>
      let! name := defined (spec_name e) in
      if bool_decide (name = lit "Oper") then control_members es (j + 1) (Some j) cancel sbow
      else if bool_decide (name = lit "Cancel") then control_members es (j + 1) oper (Some j) sbow
      else if bool_decide (name = lit "SBOw") then control_members es (j + 1) oper cancel (Some j)
      else if bool_decide (name = lit "SBO") then control_members es (j + 1) oper cancel sbow
      else AssertFailed
  end.

(** The object for a structure with a member [Oper]. *)
Definition control_object (domain : MmsDomain) (lnName objectName : list Z) (coSpec : MmsVariableSpecification)
    (oper : Z) (cancel sbow : option Z) : ControlObject :=
  let o := ControlObject_create domain lnName objectName in
  let o := ControlObject_setMmsValue o (MmsValue_newDefaultValue coSpec) in
  let o := ControlObject_setTypeSpec o (Some coSpec) in
  let o := ControlObject_setOper o (Some oper) in
  let o := match cancel with Some i => ControlObject_setCancel o (Some i) | None => o end in
  match sbow with Some i => ControlObject_setSBOw o (Some i) | None => o end.

(** [objectName] has 65 characters. *)
Fixpoint createControlObjects (domain : MmsDomain) (lnName : list Z) (typeSpec : MmsVariableSpecification)
    (namePrefix : option (list Z)) {struct typeSpec} : res (list ControlObject) :=
  match typeSpec with
  | SpecStructure _ elements =>
      (fix each_element (es : list MmsVariableSpecification) : res (list ControlObject) :=
        match es with
        | [] => Done []
        | coSpec :: es =>
            let! objectName := string_in_buffer 65 (match namePrefix with Some p => p ++ [DOLLAR] | None => [] end) in
            let! objects :=
              match coSpec with
              | SpecStructure name coElements =>
                  let! (oper, cancel, sbow) := control_members coElements 0 None None None in
                  let! name := defined name in
                  let! objectName := string_in_buffer 65 (objectName ++ name) in
                  match oper with
                  | Some oper => Done [control_object domain lnName objectName coSpec oper cancel sbow]
                  | None => createControlObjects domain lnName coSpec (Some objectName)
                  end
              | _ => Done []
              end in
            let! rest := each_element es in
            Done (objects ++ rest)
        end) elements
  | _ => Done []
  end.

(** * The cache *)

(** One functional constraint of a logical node. *)
Definition cache_fc (domain : MmsDomain) (lnName : list Z) (fcSpec : MmsVariableSpecification)
    (state : value_caches * list ControlObject) : res (value_caches * list ControlObject) :=
  let '(caches, objects) := state in
  let! fcName := defined (spec_name fcSpec) in
  if bool_decide (fcName = lit "CO") then
    let! new := createControlObjects domain lnName fcSpec None in Done (caches, objects ++ new)
  else if bool_decide (fcName = lit "BR") || bool_decide (fcName = lit "RP") || bool_decide (fcName = lit "GO") then Done state
  else
    let! defaultValue := defined (MmsValue_newDefaultValue fcSpec) in
    let! caches := MmsServer_insertIntoCache caches (md_address domain) (lnName ++ [DOLLAR] ++ fcName) defaultValue in
    Done (caches, objects).

(** [f] on each element, one after the other. *)
Section FoldRes.
Context {A St : Type} (f : A -> St -> res St).
Fixpoint fold_res (l : list A) (s : St) : res St :=
  match l with
  | [] => Done s
  | x :: l => let! s := f x s in fold_res l s
  end.
End FoldRes.

(** A logical node is a structure. *)
Definition cache_node (domain : MmsDomain) (variable : MmsVariableSpecification)
    (state : value_caches * list ControlObject) : res (value_caches * list ControlObject) :=
  match variable with
  | SpecStructure name fcs => let! lnName := defined name in fold_res (cache_fc domain lnName) fcs state
  | _ => Ub
  end.

Definition createMmsServerCache (domains : list MmsDomain) (state : value_caches * list ControlObject)
  : res (value_caches * list ControlObject) :=
  fold_res (fun domain => fold_res (cache_node domain) (default [] (namedVariables domain))) domains state.

(** * Default values *)

(** The caches, and the values of the attributes. *)
Record Installed := mkInstalled { in_caches : value_caches; in_values : attribute_values }.

Section Install.
Context (domains : list MmsDomain).
(** The values that the initializer of the model has given to the attributes. *)
Context (initial : Z -> option MmsValue).

(** The value of the name in the cache, or the null pointer; the names are put together
    in buffers of 130 and 65 characters. *)
Definition cache_value_of (objectReference : list Z) (fc : FunctionalConstraint) (caches : value_caches)
  : res (option (option Location)) :=
  let! _ := string_in_buffer 130 objectReference in
  let! name := MmsMapping_createMmsVariableNameFromObjectReference objectReference fc in
  let! name := defined name in
  let! name := string_in_buffer 65 name in
  let! domainName := defined (MmsMapping_getMmsDomainFromObjectReference objectReference) in
  let! domainName := string_in_buffer 65 domainName in
  match MmsDevice_getDomain domains domainName with
  | None => Done None
  | Some domain => let! l := MmsServer_getValueFromCache caches (md_address domain) name in Done (Some l)
  end.

(** The attribute points to the value in the cache, which takes its first value. *)
Definition connect (address : Z) (cacheValue : option Location) (s : Installed) : res Installed :=
  let values := match cacheValue with
    | Some l => <[address := handle l]> (in_values s)
    | None => delete address (in_values s)
    end in
  match initial address with
  | None => Done (mkInstalled (in_caches s) values)
  | Some value =>
      let! l := defined cacheValue in
      let! current := defined (load (in_caches s) l) in
      let! (_, v) := MmsValue_update current value in
      Done (mkInstalled (store (in_caches s) l v) values)
  end.

Fixpoint installDefaultValuesForDataAttribute (dataAttribute : ModelNode) (objectReference : list Z) (s : Installed)
  : res Installed :=
  let 'Node address _ name children := dataAttribute in
  let! a := as_attribute dataAttribute in
  let objectReference := objectReference ++ [DOT] ++ name in
  let! found := cache_value_of objectReference (da_fc a) (in_caches s) in
  match found with
  | None => Done s
  | Some cacheValue =>
      let! s := connect address cacheValue s in
      fold_res (fun child => installDefaultValuesForDataAttribute child objectReference) children s
  end.

(** The values of arrays are left out. *)
Fixpoint installDefaultValuesForDataObject (dataObject : ModelNode) (objectReference : list Z) (s : Installed)
  : res Installed :=
  let 'Node _ _ name children := dataObject in
  let! elementCount := node_elementCount dataObject in
  if 0 <? elementCount then Done s
  else
    let! objectReference := string_in_buffer 130 (objectReference ++ [DOT] ++ name) in
    fold_res (fun childNode s =>
      match mn_modelType childNode with
      | DataObjectModelType _ => installDefaultValuesForDataObject childNode objectReference s
      | DataAttributeModelType _ _ => installDefaultValuesForDataAttribute childNode objectReference s
      | _ => Done s
      end) children s.

Definition installDefaultValuesInCache (model : IedModel) (s : Installed) : res Installed :=
  fold_res (fun logicalDevice =>
    fold_res (fun logicalNode s =>
      let! objectReference := string_in_buffer 130 (mn_name logicalDevice ++ [SLASH] ++ mn_name logicalNode) in
      fold_res (fun dataObject => installDefaultValuesForDataObject dataObject objectReference)
        (mn_children logicalNode) s) (mn_children logicalDevice)) (im_devices model) s.
End Install.

(** ** Data sets *)

Definition cached_entry (domains : list MmsDomain) (caches : value_caches) (e : DataSetEntry) : res DataSetEntry :=
  match MmsDevice_getDomain domains (dse_logicalDeviceName e) with
  | None => Done e
  | Some domain =>
      let! value := MmsServer_getValueFromCache caches (md_address domain) (dse_variableName e) in
      Done match value with
        | Some l => mkDataSetEntry (dse_logicalDeviceName e) (dse_variableName e) (dse_index e) (dse_componentName e)
            (Some (handle l))
        | None => e
        end
  end.

Definition cached_dataSet (domains : list MmsDomain) (caches : value_caches) (d : DataSet) : res DataSet :=
  let! fcdas := each_res (cached_entry domains caches) (ds_fcdas d) in
  Done (mkDataSet (ds_logicalDeviceName d) (ds_name d) (ds_elementCount d) fcdas).

Definition updateDataSetsWithCachedValues (domains : list MmsDomain) (caches : value_caches) (model : IedModel)
  : res IedModel :=
  let! dataSets := each_res (cached_dataSet domains caches) (im_dataSets model) in
  Done (mkModel (im_name model) (im_devices model) dataSets (im_rcbs model) (im_gseCBs model)).

(** * Creation *)

(** A model without devices has no MMS device: the null pointer is read. *)
Definition IedServer_create (w : World) (initial : Z -> option MmsValue) (iedModel : IedModel) : res IedServer :=
  let! (mmsDevice, blocks) := createMmsModelFromIedModel iedModel in
  let! domains := defined mmsDevice in
  let! (caches, objects) := createMmsServerCache domains (createValueCachesForDomains domains, []) in
  let! installed := installDefaultValuesInCache domains initial iedModel (mkInstalled caches ∅) in
  let! model := updateDataSetsWithCachedValues domains (in_caches installed) iedModel in
  let self := mkServer model domains (in_caches installed) (in_values installed) (cb_reportControls blocks)
    (cb_gseControls blocks) objects [] [] [] (Z.lor ALLOW_WRITE_ACCESS_SP ALLOW_WRITE_ACCESS_SV) false in
  let! (_, self, _) := on_reports w Reporting_activateBufferedReports self [] in
  Done self.

(** * Access of the application *)

(** A data object as a path: the node with its ancestors, from the node to its device. *)
Definition lookupControlObject (st : IedServer) (path : list ModelNode) : res (option nat) :=
  let! objectReference := ModelNode_getObjectReference path in
  match strchr SLASH objectReference with
  | None => Ub
  | Some (domainName, rest) =>
      match strchr DOT rest with
      | None => AssertFailed
      | Some (lnName, objectName) =>
          Done match MmsDevice_getDomain (sv_mmsDevice st) domainName with
            | Some domain => MmsMapping_getControlObject st domain lnName (StringUtils_replace objectName DOT DOLLAR)
            | None => None
            end
      end
  end.

(** A handler is installed in the control object, if there is one. *)
Definition install_in_object (path : list ModelNode) (install : ControlObject -> ControlObject) : SM unit :=
  do! st := server in
  do! i := clift (lookupControlObject st path) in
  match i with
  | Some i => cmodify (fun st => sv_set_controlObjects (alter install i (sv_controlObjects st)) st)
  | None => cret tt
  end.

Definition IedServer_setControlHandler (path : list ModelNode) : SM unit := install_in_object path ControlObject_installListener.
Definition IedServer_setPerformCheckHandler (path : list ModelNode) : SM unit :=
  install_in_object path ControlObject_installCheckHandler.
Definition IedServer_setWaitForExecutionHandler (path : list ModelNode) : SM unit :=
  install_in_object path ControlObject_installWaitForExecutionHandler.

(** ** Reading attributes *)

Definition IedServer_getAttributeValue (st : IedServer) (dataAttribute : ModelNode) : option Location :=
  sv_attributeValues st !! mn_address dataAttribute ≫= location.

Section Attribute.
Context (st : IedServer) (dataAttribute : ModelNode).

(** The assertions: there is a value and it is of the type. *)
Definition get_attribute {A} (ok : MmsValue -> bool) (get : MmsValue -> res A) : res A :=
  match IedServer_getAttributeValue st dataAttribute with
  | None => AssertFailed
  | Some l => let! v := load_value st l in if ok v then get v else AssertFailed
  end.

Definition is_integer (v : MmsValue) : bool := has_type MMS_INTEGER v || has_type MMS_UNSIGNED v.

Definition IedServer_getBooleanAttributeValue : res bool := get_attribute (has_type MMS_BOOLEAN) MmsValue_getBoolean.
Definition IedServer_getInt32AttributeValue : res Z := get_attribute is_integer MmsValue_toInt32.
Definition IedServer_getInt64AttributeValue : res Z := get_attribute is_integer MmsValue_toInt64.
Definition IedServer_getUInt32AttributeValue : res Z := get_attribute is_integer MmsValue_toUint32.
Definition IedServer_getFloatAttributeValue : res (list Z) := get_attribute (has_type MMS_FLOAT) MmsValue_toFloat.
Definition IedServer_getUTCTimeAttributeValue : res Z := get_attribute (has_type MMS_UTC_TIME) MmsValue_getUtcTimeInMs.
Definition IedServer_getBitStringAttributeValue : res Z :=
  get_attribute (has_type MMS_BIT_STRING) (fun v =>
    let! size := MmsValue_getBitStringSize v in if size <? 33 then MmsValue_getBitStringAsInteger v else AssertFailed).
Definition IedServer_getStringAttributeValue : res (option (list Z)) :=
  get_attribute (has_type MMS_VISIBLE_STRING) (fun v => Done (MmsValue_toString v)).
End Attribute.

(** ** Updating attributes *)

(** [==] of two floats of four bytes. *)
Definition float_is_nan (x : Z) : bool := (ieee_exponent binary32 x =? 255) && negb (ieee_fraction binary32 x =? 0).
Definition float_eq (a b : list Z) : bool :=
  let x := le_val a in let y := le_val b in
  negb (float_is_nan x) && negb (float_is_nan y)
  && ((x =? y) || ((x mod 2 ^ 31 =? 0) && (y mod 2 ^ 31 =? 0))).

Section Update.
Context (w : World) (dataAttribute : ModelNode).

Definition update_typed (t : MmsType) (same : MmsValue -> res bool) (set : MmsValue -> res MmsValue) : SM unit :=
  do! _ := assert_type dataAttribute (has_type t) in update_attribute_value w dataAttribute same set.

(** The current value is the given one. *)
Definition is_value (get : MmsValue -> res Z) (value : Z) (v : MmsValue) : res bool :=
  let! currentValue := get v in Done (currentValue =? value).

Definition IedServer_updateFloatAttributeValue (value : list Z) : SM unit :=
  update_typed MMS_FLOAT (fun v => let! currentValue := MmsValue_toFloat v in Done (float_eq currentValue value))
    (fun v => MmsValue_setFloat v value).
Definition IedServer_updateInt32AttributeValue (value : Z) : SM unit :=
  update_typed MMS_INTEGER (is_value MmsValue_toInt32 value) (fun v => MmsValue_setInt32 v value).
Definition IedServer_updateInt64AttributeValue (value : Z) : SM unit :=
  update_typed MMS_INTEGER (is_value MmsValue_toInt64 value) (fun v => MmsValue_setInt64 v value).
Definition IedServer_updateUnsignedAttributeValue (value : Z) : SM unit :=
  update_typed MMS_UNSIGNED (is_value MmsValue_toUint32 value) (fun v => MmsValue_setUint32 v value).
Definition IedServer_updateBitStringAttributeValue (value : Z) : SM unit :=
  update_typed MMS_BIT_STRING (is_value MmsValue_getBitStringAsInteger value) (fun v => MmsValue_setBitStringFromInteger v value).
Definition IedServer_updateBooleanAttributeValue (value : bool) : SM unit :=
  update_typed MMS_BOOLEAN (fun v => let! currentValue := MmsValue_getBoolean v in Done (eqb currentValue value))
    (fun v => MmsValue_setBoolean v value).
Definition IedServer_updateUTCTimeAttributeValue (value : Z) : SM unit :=
  update_typed MMS_UTC_TIME (is_value MmsValue_getUtcTimeInMs value) (fun v => MmsValue_setUtcTimeMs v value).

(** [strcmp] reads the current string, which must not be the null pointer. *)
Definition IedServer_updateVisibleStringAttributeValue (value : list Z) : SM unit :=
  update_typed MMS_VISIBLE_STRING
    (fun v => let! s := defined (MmsValue_toString v) in let! s := c_string s in Done (bool_decide (s = value)))
    (fun v => Done (MmsValue_setVisibleString v (Some value))).

(** [Quality] is a [uint16_t]. *)
Definition IedServer_updateQuality (quality : Z) : SM unit :=
  do! _ := clift (if bool_decide (mn_name dataAttribute = lit "q") then Done tt else AssertFailed) in
  do! _ := assert_type dataAttribute (fun v => has_type MMS_BIT_STRING v &&
    match MmsValue_getBitStringSize v with Done size => (12 <=? size) && (size <=? 15) | _ => false end) in
  do! st := server in
  do! l := clift (mmsValue_of st dataAttribute) in
  do! v := clift (load_value st l) in
  do! oldQuality := clift (MmsValue_getBitStringAsInteger v) in
  if oldQuality =? quality then cret tt
  else
    do! v := clift (MmsValue_setBitStringFromInteger v quality) in
    do! _ := store_value l v in
    do! changed := clift (triggers dataAttribute TRG_OPT_QUALITY_CHANGED) in
    do! _ := if changed then MmsMapping_triggerReportObservers w l REPORT_CONTROL_QUALITY_CHANGED else cret tt in
    MmsMapping_triggerGooseObservers w l.
End Update.

(** ** Policies and handlers *)

Definition policy_bit (fc : FunctionalConstraint) : option Z :=
  match fc with
  | DC => Some ALLOW_WRITE_ACCESS_DC
  | CF => Some ALLOW_WRITE_ACCESS_CF
  | SP => Some ALLOW_WRITE_ACCESS_SP
  | SV => Some ALLOW_WRITE_ACCESS_SV
  | _ => None
  end.

(** [allow]: the policy is [ACCESS_POLICY_ALLOW]. *)
Definition IedServer_setWriteAccessPolicy (fc : FunctionalConstraint) (allow : bool) : SM unit :=
  match policy_bit fc with
  | None => cret tt
  | Some bit =>
      cmodify (fun st => sv_set_writeAccessPolicies
        (u8 (if allow then Z.lor (sv_writeAccessPolicies st) bit else Z.land (sv_writeAccessPolicies st) (Z.lnot bit))) st)
  end.

Definition IedServer_observeDataAttribute := MmsMapping_addObservedAttribute.
Definition IedServer_handleWriteAccess := MmsMapping_installWriteAccessHandler.
Definition IedServer_enableGoosePublishing := MmsMapping_enableGoosePublishing.
Definition IedServer_setConnectionIndicationHandler := MmsMapping_setConnectionIndicationHandler.

(** ** Functional constrained data *)

(** The names of the data objects from the outermost on, each with a separator before it,
    and the logical node with its device. *)
Fixpoint object_names (path : list ModelNode) (names : list Z) : res (list Z * ModelNode * ModelNode) :=
  match path with
  | node :: (((ln :: ld :: _)) as parents) =>
      match mn_modelType node with
      | DataObjectModelType _ =>
          let names := [DOLLAR] ++ mn_name node ++ names in
          match mn_modelType ln with
          | DataObjectModelType _ => object_names parents names
          | _ => Done (names, ln, ld)
          end
      | _ => Done (names, ln, ld)
      end
  | _ => Ub
  end.

(** The name is put together in a buffer of 128 characters. *)
Definition IedServer_getFunctionalConstrainedData (st : IedServer) (path : list ModelNode) (fc : FunctionalConstraint)
  : res (option Location) :=
  let! (names, ln, ld) := object_names path [] in
  let! fcString := defined (FunctionalConstraint_toString fc) in
  let! name := string_in_buffer 128 (mn_name ln ++ [DOLLAR] ++ fcString ++ names) in
  match MmsDevice_getDomain (sv_mmsDevice st) (mn_name ld) with
  | None => Done None
  | Some domain => MmsServer_getValueFromCache (sv_valueCaches st) (md_address domain) name
  end.
