(* ===== verification/SampleServer.v ===== *)
(** A small data model, on which the theorems about the server are tried: a logical
    device with two logical nodes, a data set, report control blocks and a GOOSE control
    block. *)
From Stdlib Require Import String.
From stdpp Require Import base tactics numbers option gmap list.
From S2P Require Import Prelude BerEncode MmsValue Effects CString MmsTypeSpec Control Iec61850Common ReportControl Reporting ReportingAccess ValueStore IedModel MmsGoose ServerState MmsMapping MappingModel IedServer.

Definition attr (address : Z) (name : String.string) (fc : FunctionalConstraint) (type : DataAttributeType)
    (trgOps : Z) (children : list ModelNode) : ModelNode :=
  Node address (DataAttributeModelType 0 (mkAttribute fc type trgOps address)) (lit name) children.

Definition demo_stVal : ModelNode := attr 111 "stVal" ST BOOLEAN 1 [].
Definition demo_q : ModelNode := attr 112 "q" ST QUALITY 2 [].
Definition demo_f : ModelNode := attr 122 "f" MX INT32 1 [].
Definition demo_mag : ModelNode := attr 121 "mag" MX CONSTRUCTED 1 [demo_f].
Definition demo_SPCSO1 : ModelNode := Node 11 (DataObjectModelType 0) (lit "SPCSO1") [demo_stVal; demo_q; attr 113 "d" DC VISIBLE_STRING_255 0 []].
Definition demo_AnIn1 : ModelNode := Node 12 (DataObjectModelType 0) (lit "AnIn1") [demo_mag; attr 123 "units" CF ENUMERATED 0 []; attr 124 "setMag" SP INT32 4 []].
Definition demo_GGIO1 : ModelNode := Node 1 LogicalNodeModelType (lit "GGIO1") [demo_SPCSO1; demo_AnIn1].
Definition demo_LLN0 : ModelNode := Node 2 LogicalNodeModelType (lit "LLN0")
  [Node 21 (DataObjectModelType 0) (lit "Mod") [attr 211 "stVal" ST ENUMERATED 1 []]].
Definition demo_LD0 : ModelNode := Node 100 LogicalDeviceModelType (lit "IEDLD0") [demo_LLN0; demo_GGIO1].

Definition demo_events : DataSet :=
  mkDataSet (Some (lit "IEDLD0")) (lit "LLN0$Events") 2
    [mkDataSetEntry (lit "IEDLD0") (lit "GGIO1$ST$SPCSO1$stVal") (-1) None None;
     mkDataSetEntry (lit "IEDLD0") (lit "GGIO1$MX$AnIn1") (-1) None None].

Definition demo_rcb (name : String.string) (buffered : bool) : ReportControlBlock :=
  mkRcb (as_logical_node demo_LLN0) (lit name) (Some (lit "Events1")) buffered (Some (lit "Events")) 1 25 143 50 1000.

Definition demo_gcb : GSEControlBlock :=
  mkGse (as_logical_node demo_LLN0) (lit "gcbEvents") (Some (lit "events")) (Some (lit "Events")) 1 false None.

Definition demo_model : IedModel :=
  mkModel (lit "IED") [demo_LD0] [demo_events] [demo_rcb "EventsRCB" false; demo_rcb "EventsBRCB" true] [demo_gcb].

Definition demo_mapping : option (list MmsDomain) * ControlBlocks :=
  match createMmsModelFromIedModel demo_model with Done r => r | _ => (None, mkBlocks [] []) end.

Definition demo_domains : list MmsDomain := default [] (fst demo_mapping).
Definition demo_blocks : ControlBlocks := snd demo_mapping.

Lemma demo_created : createMmsModelFromIedModel demo_model = Done (Some demo_domains, demo_blocks).
Proof. vm_compute. reflexivity. Qed.

(** A server made from the small data model, with the steps of a client and of the
    application on which the theorems about the server are tried. *)

Definition demo_time : Z := 1500000000000.

(** Handler 0 refuses every access, the others allow it. *)
Definition demo_world : World :=
  mkWorld demo_time (mkSizes 40 8 16 32) (fun n => replicate (Z.to_nat n) 0) (fun _ => lit "192.168.0.10:1102")
    (fun _ => 1) [0; 1; 2; 3; 4; 5] (replicate 1518 0) (fun handler _ _ _ => negb (handler =? 0)) (fun _ _ _ _ => -1)
    (fun _ _ _ => true).

(** The values that the initializer of the model gives. *)
Definition demo_initial (address : Z) : option MmsValue :=
  if address =? 122 then Some (Simple 0 (V_INTEGER (mkAsn1 4 4 [7; 0; 0; 0])))
  else if address =? 113 then Some (MmsValue_newVisibleString (Some (lit "description")))
  else None.

Definition empty_server : IedServer := mkServer demo_model [] (Map_create Z.eqb) ∅ [] [] [] [] [] [] 0 false.

Definition demo_server : IedServer :=
  match IedServer_create demo_world demo_initial demo_model with Done st => st | _ => empty_server end.

Lemma demo_server_created : IedServer_create demo_world demo_initial demo_model = Done demo_server.
Proof. vm_compute. reflexivity. Qed.

(** The state after a step. *)
Definition after_step {A} (c : SM A) (st : IedServer) : IedServer :=
  match c st [] with Done (_, st', _) => st' | _ => st end.

Definition demo_domain : MmsDomain := MmsDomain_create 0 (lit "IEDLD0").

Definition demo_int (n : Z) : MmsValue := Simple 0 (V_INTEGER (mkAsn1 1 4 [n; 0; 0; 0])).

(** ** A client and the application at work *)

(** A client connects, enables a report control block and writes a set point; the
    application updates a measurement. *)
Definition demo_connect : SM unit := mmsConnectionHandler demo_world 7 MMS_SERVER_NEW_CONNECTION.
Definition demo_enable : SM Z :=
  mmsServer_setValue demo_world demo_domain (lit "LLN0$RP$EventsRCB$RptEna") (MmsValue_newBoolean true) 7.
Definition demo_write : SM Z := mmsServer_setValue demo_world demo_domain (lit "GGIO1$SP$AnIn1$setMag") (demo_int 3) 7.
Definition demo_update : SM unit := IedServer_updateAttributeValue demo_world demo_f (demo_int 9).

Definition demo_connected : IedServer := after_step demo_connect demo_server.
Definition demo_enabled : IedServer := after_step demo_enable demo_connected.
Definition demo_written : IedServer := after_step demo_write demo_enabled.
Definition demo_updated : IedServer := after_step demo_update demo_written.

(** The step returns [a] without events. *)
Definition step_returns {A} (c : SM A) (st : IedServer) (same : A -> bool) : bool :=
  match c st [] with Done (a, _, []) => same a | _ => false end.

Lemma step_returns_run {A} (c : SM A) st same : step_returns c st same = true ->
  exists a, c st [] = Done (a, after_step c st, []) /\ same a = true.
Proof.
  unfold step_returns, after_step. destruct (c st []) as [[[a st'] es]| | |]; try done. destruct es; [|done]. by exists a.
Qed.

Lemma demo_connect_run : demo_connect demo_server [] = Done (tt, demo_connected, []).
Proof. destruct (step_returns_run demo_connect demo_server (fun _ => true)) as ([] & H & _); [vm_compute; reflexivity|exact H]. Qed.

Lemma demo_enable_run : demo_enable demo_connected [] = Done (DATA_ACCESS_ERROR_SUCCESS, demo_enabled, []).
Proof.
  destruct (step_returns_run demo_enable demo_connected (Z.eqb DATA_ACCESS_ERROR_SUCCESS)) as (r & H & <-%Z.eqb_eq); [vm_compute; reflexivity|exact H].
Qed.

Lemma demo_write_run : demo_write demo_enabled [] = Done (DATA_ACCESS_ERROR_SUCCESS, demo_written, []).
Proof.
  destruct (step_returns_run demo_write demo_enabled (Z.eqb DATA_ACCESS_ERROR_SUCCESS)) as (r & H & <-%Z.eqb_eq); [vm_compute; reflexivity|exact H].
Qed.

Lemma demo_update_run : demo_update demo_written [] = Done (tt, demo_updated, []).
Proof. destruct (step_returns_run demo_update demo_written (fun _ => true)) as ([] & H & _); [vm_compute; reflexivity|exact H]. Qed.
