(* ===== verification/MmsGooseFacts.v ===== *)
(** GOOSE control blocks: the values of their attributes keep the types that
    src/iedserver/mms_mapping/mms_goose.c gives them, which do not let a block become
    enabled. *)
From Stdlib Require Import String.
From stdpp Require Import base tactics numbers option list.
From S2P Require Import Prelude Memory MmsValue GoosePublisher Effects CString MmsTypeSpec Iec61850Common ReportControl Reporting ReportingAccess ValueStore IedModel MmsGoose ServerState MmsMapping SampleServer.

(** * Values that keep their types *)

Definition keeps_type (v w : MmsValue) : Prop := forall t, typed t v -> typed t w.

Lemma keeps_simple d u u' : u_type u' = u_type u -> keeps_type (Simple d u) (Simple d u').
Proof. intros H t Ht. inversion Ht; subst. constructor. congruence. Qed.

Lemma keeps_refl v : keeps_type v v.
Proof. by intros t. Qed.

Lemma keeps_trans v w x : keeps_type v w -> keeps_type w x -> keeps_type v x.
Proof. intros H1 H2 t Ht. by apply H2, H1. Qed.
Create HintDb types.
#[export] Hint Resolve keeps_simple keeps_refl : types.

Lemma setVisibleString_type v s : keeps_type v (MmsValue_setVisibleString v s).
Proof. destruct v as [d []|]; cbn; auto with types. Qed.

Lemma set_unsigned_type room set v n w : set_unsigned room set v n = Done w -> keeps_type v w.
Proof.
  destruct v as [d []|]; cbn [set_unsigned]; try (intros [= <-]; auto with types).
  destruct (_ <=? _); [|intros [= <-]; auto with types]. destruct (set _ _) as [[? i]| | |]; try done.
  intros [= <-]. auto with types.
Qed.

Lemma set_signed_type room set v n w : set_signed room set v n = Done w -> keeps_type v w.
Proof.
  destruct v as [d []|]; cbn [set_signed]; try (intros [= <-]; auto with types).
  destruct (_ <=? _); [|intros [= <-]; auto with types]. destruct (set _ _) as [[? i]| | |]; try done.
  intros [= <-]. auto with types.
Qed.

Lemma setFloat_type v x w : MmsValue_setFloat v x = Done w -> keeps_type v w.
Proof.
  destruct v as [d []|]; cbn [MmsValue_setFloat]; try (intros [= <-]; auto with types).
  repeat case_match; try (intros [= <-]; auto with types); destruct (st_list _ _ _); try done; intros [= <-]; auto with types.
Qed.

Lemma setUtcTimeMs_type v t w : MmsValue_setUtcTimeMs v t = Done w -> keeps_type v w.
Proof.
  unfold MmsValue_setUtcTimeMs. destruct v as [d []|]; try done. cbn [as_utc_time rbind].
  destruct (memcpyReverseByteOrder _ _ _) as [t1| | |]; try done. cbn [rbind].
  destruct (st t1 4 _) as [t2| | |]; try done. cbn [rbind]. destruct (st t2 5 _) as [t3| | |]; try done. cbn [rbind].
  destruct (st t3 6 _) as [t4| | |]; try done. cbn [rbind]. destruct (st t4 7 _) as [t5| | |]; try done. intros [= <-]. auto with types.
Qed.

Lemma setBitStringBit_type v i b w : MmsValue_setBitStringBit v i b = Done w -> keeps_type v w.
Proof.
  unfold MmsValue_setBitStringBit. destruct v as [d []|]; try done. cbn [as_bit_string rbind].
  destruct (_ <? _); [|intros [= <-]; auto with types]. destruct (ld _ _); try done. cbn [rbind].
  destruct (st _ _ _); try done. intros [= <-]. auto with types.
Qed.

Lemma setBitString_type v n w : MmsValue_setBitStringFromInteger v n = Done w -> keeps_type v w.
Proof.
  unfold MmsValue_setBitStringFromInteger. destruct (as_bit_string v) as [[[? size] ?]| | |]; try done. cbn [rbind].
  generalize 0 at 1. revert v n. induction (Z.to_nat size) as [|k IH]; intros v n i; cbn [bits_from_integer]; [intros [= <-]; auto with types|].
  destruct (MmsValue_setBitStringBit v i _) as [v'| | |] eqn:E; try done. cbn [rbind]. intros H.
  eapply keeps_trans; [by eapply setBitStringBit_type|by eapply IH].
Qed.

Lemma setBoolean_type v b w : MmsValue_setBoolean v b = Done w -> keeps_type v w.
Proof. destruct v as [d []|]; try done. intros [= <-]. auto with types. Qed.

Lemma getElement_lookup d a vs i : 0 <= i -> MmsValue_getElement (Complex d a (Some <$> vs)) i = vs !! Z.to_nat i.
Proof.
  intros Hi. cbn [MmsValue_getElement]. rewrite (proj2 (Z.ltb_ge _ _)) by done. cbn [orb].
  rewrite list_lookup_fmap. destruct (Z.leb_spec (zlen (Some <$> vs)) i) as [H|H]; [|by destruct (vs !! _)].
  unfold zlen in H. rewrite length_fmap in H. by rewrite lookup_ge_None_2 by lia.
Qed.

(** An element that is changed in place and keeps its type. *)
Lemma on_element_type v i f w : 0 <= i -> (forall c c', f c = Done c' -> keeps_type c c') ->
  on_element v i f = Done w -> keeps_type v w.
Proof.
  intros Hi Hf. unfold on_element, element. destruct (MmsValue_getElement v i) as [c|] eqn:Ec; [|done]. cbn [defined rbind].
  destruct (f c) as [c'| | |] eqn:Ef; try done. intros [= <-] t Ht.
  destruct Ht as [|n k t d vs Hvs Hk|n ts d vs Hts]; [done|..]; rewrite getElement_lookup in Ec by done; cbn [set_element];
    rewrite <- list_fmap_insert; constructor.
  - apply Forall_insert; [done|]. apply (Hf _ _ Ef). by eapply Forall_lookup_1.
  - unfold zlen. rewrite length_insert. exact Hk.
  - assert (exists ti, ts !! Z.to_nat i = Some ti) as [ti Ei].
    { apply lookup_lt_is_Some. rewrite (Forall2_length _ _ _ Hts). by eapply lookup_lt_Some. }
    rewrite <- (list_insert_id ts _ ti Ei). apply Forall2_insert; [done|]. apply (Hf _ _ Ef). by eapply Forall2_lookup_lr.
Qed.

(** An element of a typed structure. *)
Lemma element_typed n ts v i c : typed (SpecStructure n ts) v -> 0 <= i -> element v i = Done c ->
  exists t, ts !! Z.to_nat i = Some t /\ typed t c.
Proof.
  intros Ht Hi. inversion Ht as [| |? ? d vs Hts]; subst. unfold element. rewrite getElement_lookup by done.
  destruct (vs !! Z.to_nat i) as [x|] eqn:E; [|done]. intros [= <-].
  assert (exists ti, ts !! Z.to_nat i = Some ti) as [ti Ei].
  { apply lookup_lt_is_Some. rewrite (Forall2_length _ _ _ Hts). by eapply lookup_lt_Some. }
  exists ti. split; [done|]. by eapply Forall2_lookup_lr.
Qed.

(** * The address of a block *)

(** The attributes have the types that the block was made with, and it is not enabled. *)
Definition gcb_off (self : MmsGooseControlBlock) : Prop :=
  gcb_goEna self = false /\ gcb_mmsType self = createMmsGooseControlBlock (gcb_name self) /\
  typed (gcb_mmsType self) (gcb_mmsValue self).

(** The element [Addr] is a visible string, whose octets cannot be read. *)
Lemma make_publisher_crashes env srcAddr fresh self : gcb_off self -> forall p, make_publisher env srcAddr fresh self <> Done p.
Proof.
  intros (_ & Ht & Hv) p. unfold make_publisher. rewrite Ht in Hv.
  destruct (element (gcb_mmsValue self) 5) as [dst| | |] eqn:Ed; [|done..]. cbn [rbind].
  destruct (element_typed _ _ _ 5 _ Hv ltac:(lia) Ed) as (t & [= <-] & Hdst).
  destruct (element dst 3) as [x| | |]; [|done..]; cbn [rbind]. destruct (MmsValue_toInt32 x); [|done..]; cbn [rbind].
  destruct (element dst 2) as [y| | |]; [|done..]; cbn [rbind]. destruct (MmsValue_toInt32 y); [|done..]; cbn [rbind].
  destruct (element dst 1) as [z| | |]; [|done..]; cbn [rbind]. destruct (MmsValue_toInt32 z); [|done..]; cbn [rbind].
  destruct (element dst 0) as [addr| | |] eqn:Ea; [|done..]. cbn [rbind].
  destruct (element_typed _ _ _ 0 _ Hdst ltac:(lia) Ea) as (t & [= <-] & Haddr).
  inversion Haddr as [? ? d u Hu| |]; subst. by destruct u.
Qed.

(** ** Operations *)

(** What does not touch the attributes. *)
Lemma off_same self self' : gcb_goEna self' = gcb_goEna self -> gcb_mmsType self' = gcb_mmsType self ->
  gcb_name self' = gcb_name self -> gcb_mmsValue self' = gcb_mmsValue self -> gcb_off self -> gcb_off self'.
Proof. unfold gcb_off. by intros -> -> -> ->. Qed.

Lemma off_value self v : gcb_off self -> keeps_type (gcb_mmsValue self) v -> gcb_off (gcb_set_mmsValue v self).
Proof. intros (H1 & H2 & H3) Hk. split; [done|]. split; [done|]. by apply Hk. Qed.

Section Operations.
Context (env : ReportEnv) (srcAddr fresh : list Z).

Lemma k_gcb_modify f : (forall s, gcb_goEna (f s) = gcb_goEna s /\ gcb_mmsType (f s) = gcb_mmsType s /\
  gcb_name (f s) = gcb_name s /\ gcb_mmsValue (f s) = gcb_mmsValue s) -> keeps gcb_off (cmodify f : G unit).
Proof. intros H. apply k_modify. intros s Hs. destruct (H s) as (H1 & H2 & H3 & H4). by eapply off_same. Qed.

Lemma k_gcb_self : keeps gcb_off gcb_self.
Proof. apply k_get. Qed.
Hint Resolve k_gcb_self : keeps.

Lemma k_release_dataSet : keeps gcb_off release_dataSet.
Proof. unfold release_dataSet. apply k_bind; [apply k_gcb_self|]. intros self. destruct (gcb_dataSetRef self); [by apply k_gcb_modify| |apply k_lift].
  apply k_bind; [destruct (gcb_dataSet self); keeps_run|]. intros ?. apply k_bind; [by apply k_gcb_modify|]. intros ?. by apply k_gcb_modify. Qed.

Lemma k_find_dataSet : keeps gcb_off (find_dataSet env).
Proof.
  unfold find_dataSet. apply k_bind; [apply k_gcb_self|]. intros self. apply k_bind; [apply k_lift|]. intros datSet.
  destruct (MmsValue_toString datSet); [|apply k_ret]. do 2 (apply k_bind; [apply k_lift|]; intros ?).
  destruct a0; [by apply k_gcb_modify|]. apply k_bind; [apply k_lift|]. intros ?. by apply k_gcb_modify.
Qed.

(** A block that has found its data set is not left alive by [enable]. *)
Lemma k_enable : keeps gcb_off (MmsGooseControlBlock_enable env srcAddr fresh).
Proof.
  unfold MmsGooseControlBlock_enable. apply k_bind; [apply k_gcb_self|]. intros self.
  destruct (MmsGooseControlBlock_isEnabled self); [apply k_ret|].
  apply k_bind; [apply k_release_dataSet|]. intros ?. apply k_bind; [apply k_find_dataSet|]. intros ?.
  apply t_bind_get. intros s Hs. assert (forall d, triple (fun s' => s' = s) (
    do! v := clift (on_element (gcb_mmsValue s) 0 (fun goEna => MmsValue_setBoolean goEna true)) in
    do! _ := cmodify (gcb_set_mmsValue v) in
    do! self := gcb_self in
    do! publisher := clift (make_publisher env srcAddr fresh self) in
    do! dataSet := clift (deref d) in
    do! _ := cmodify (gcb_set_publisher (Some publisher) (Some (map dse_value (ds_fcdas dataSet)))) in
    cmodify (gcb_set_enabled true)) (fun _ => gcb_off)) as Hcrash.
  { intros d. apply t_bind_lift. intros v Hv. eapply (t_bind _ _ _ (fun _ => gcb_off)).
    - apply t_modify. intros s' ->. apply off_value; [done|]. apply (on_element_type _ 0 _ _ ltac:(lia) (fun c c' => setBoolean_type c true c') Hv).
    - intros ?. apply t_bind_get. intros s' Hs'. apply t_bind_lift. intros p Hp. by apply make_publisher_crashes in Hp. }
  destruct (gcb_dataSet s); [|exact (Hcrash _)..]. apply t_ret. by intros s' ->.
Qed.

(** A block that is not enabled has nothing to disable. *)
Lemma k_disable : keeps gcb_off MmsGooseControlBlock_disable.
Proof.
  unfold MmsGooseControlBlock_disable. apply t_bind_get. intros s Hs. apply t_weaken with gcb_off; [|by intros s' ->].
  unfold MmsGooseControlBlock_isEnabled. rewrite (proj1 Hs). apply k_ret.
Qed.

Lemma k_update_gcb_value varName value : keeps gcb_off (update_gcb_value varName value).
Proof.
  unfold update_gcb_value. apply t_bind_get. intros s Hs. apply t_bind_lift. intros [path|] _.
  2: { apply t_ret. by intros s' ->. }
  apply t_bind_lift. intros v Hv. apply t_bind_lift. intros [b w] Hu. eapply (t_bind _ _ _ (fun _ => gcb_off)); [|intros ?; apply k_ret].
  apply t_modify. intros s' ->. apply off_value; [done|]. intros t Ht. unfold defined in Hv.
  destruct (value_at (gcb_mmsValue s) path) as [x|] eqn:E; [|done]. injection Hv as ->.
  eapply typed_put_at; [done|exact E|]. intros t' Ht'. by eapply MmsValue_update_typed.
Qed.
End Operations.

Lemma k_write_gcb env w varName value : keeps gcb_off (write_gcb w varName value env).
Proof.
  unfold write_gcb. case_bool_decide.
  - destruct (MmsValue_getType value); try apply k_ret. apply k_bind; [apply k_lift|]. intros b.
    apply k_bind; [|intros ?; apply k_ret]. destruct b; [apply k_enable|apply k_disable].
  - apply k_bind; [apply k_gcb_self|]. intros self. destruct (MmsGooseControlBlock_isEnabled self); [apply k_ret|apply k_update_gcb_value].
Qed.

(** ** Nothing is published *)

Lemma q_enable env srcAddr fresh : quiet (MmsGooseControlBlock_enable env srcAddr fresh).
Proof. unfold MmsGooseControlBlock_enable, release_dataSet, find_dataSet, gcb_self. quiet_run. Qed.

Lemma q_disable : quiet MmsGooseControlBlock_disable.
Proof. unfold MmsGooseControlBlock_disable, gcb_self. quiet_run. Qed.

Lemma q_write_gcb w name value env : quiet (write_gcb w name value env).
Proof.
  unfold write_gcb, update_gcb_value, gcb_self. pose proof q_disable. pose proof (q_enable env (w_srcAddr w) (w_fresh w)). quiet_run; done.
Qed.

(** What a server asks of its blocks. *)
Definition no_event (e : GooseEvent) : Prop := False.

Lemma e_enable env srcAddr fresh : sends gcb_off no_event (MmsGooseControlBlock_enable env srcAddr fresh).
Proof. apply e_quiet; [apply k_enable|apply q_enable]. Qed.

Lemma e_write_gcb w name value env : sends gcb_off no_event (write_gcb w name value env).
Proof. apply e_quiet; [apply k_write_gcb|apply q_write_gcb]. Qed.

Lemma e_trigger_goose st l env : sends gcb_off no_event (trigger_goose st l env).
Proof.
  apply e_bind_get. intros gcb Hg. unfold MmsGooseControlBlock_isEnabled. rewrite (proj1 Hg). apply e_ret.
Qed.

(** ** Creation *)

(** A step of the creation that keeps the type of the value. *)
Lemma bind_type (m : res MmsValue) (k : MmsValue -> res MmsValue) v w : (forall x, m = Done x -> keeps_type v x) ->
  (forall x, k x = Done w -> keeps_type x w) -> (let! x := m in k x) = Done w -> keeps_type v w.
Proof. intros Hm Hk. destruct m as [x| | |]; try done. cbn [rbind]. intros H. eapply keeps_trans; [by apply Hm|by apply Hk]. Qed.

Lemma set_address_type addr octets w : set_address_octets addr octets = Done w -> keeps_type addr w.
Proof.
  destruct addr as [d []|]; cbn [set_address_octets]; try done; [|by destruct visibleString; [|intros [= <-]; auto with types]].
  unfold MmsValue_setOctetString. cbn [as_octet_string rbind]. destruct (_ <=? _); [|intros [= <-]; auto with types].
  destruct (rd_list _ _ _) as [bs| | |]; try done. cbn [rbind]. destruct (st_list _ _ _) as [o| | |]; try done.
  intros [= <-]. auto with types.
Qed.

Lemma gse_values_typed domain logicalNode gse t ref v : gse_values domain logicalNode gse t ref = Done v ->
  exists w, MmsValue_newStructure t = Done w /\ keeps_type w v.
Proof.
  unfold gse_values. destruct (MmsValue_newStructure t) as [w| | |]; try done. cbn [rbind]. intros H. exists w. split; [done|]. revert H.
  apply bind_type; [|intros x1].
  { intros x. destruct (gse_appId gse); [|intros [= <-]; auto with types]. apply on_element_type; [lia|]. intros ? ? [= <-]. apply setVisibleString_type. }
  apply bind_type; [|intros x2].
  { intros x. apply on_element_type; [lia|]. intros ? ? [= <-]. apply setVisibleString_type. }
  set (adr := match gse_address gse with Some _ => _ | None => _ end). destruct adr as [[[prio vid] app] dst].
  apply bind_type; [|intros x3].
  2: { apply on_element_type; [lia|]. intros c c'. apply set_unsigned_type. }
  intros x. apply on_element_type; [lia|]. intros c c'.
  apply bind_type; [intros ?; apply on_element_type; [lia|]; intros ? ?; apply set_address_type|intros y1].
  apply bind_type; [intros ?; apply on_element_type; [lia|]; intros ? ?; apply set_unsigned_type|intros y2].
  apply bind_type; [intros ?; apply on_element_type; [lia|]; intros ? ?; apply set_unsigned_type|intros y3].
  apply on_element_type; [lia|]. intros ? ?. apply set_unsigned_type.
Qed.

Lemma create_gcb_off gcbs domain logicalNode i gcb spec : create_gcb gcbs domain logicalNode i = Done (gcb, spec) -> gcb_off gcb.
Proof.
  unfold create_gcb. destruct (getGCBForLogicalNodeWithIndex gcbs logicalNode i) as [gse|]; [|done]. cbn [defined rbind].
  destruct (gse_values _ _ _ _ _) as [v| | |] eqn:Ev; try done. cbn [rbind].
  intros [= <- _]. split; [done|]. split; [done|]. cbn [gcb_mmsType gcb_mmsValue].
  destruct (gse_values_typed _ _ _ _ _ _ Ev) as (w & Hw & Hk). apply Hk.
  destruct (newDefaultValue_typed (createMmsGooseControlBlock (gse_name gse))) as (x & Hx & Ht); [done|].
  cbn in Hw, Hx. injection Hw as <-. injection Hx as <-. exact Ht.
Qed.
