(* ===== verification/MmsMappingFacts.v ===== *)
(** The MMS mapping: what its functions leave alone, the members of data sets, and the
    blocks that an update is reported to. *)
From Stdlib Require Import String.
From stdpp Require Import base tactics numbers option gmap list.
From S2P Require Import Prelude MmsValue Effects CString MmsTypeSpec Control Iec61850Common ReportControl Reporting ReportingAccess ValueStore IedModel MmsGoose ServerState MmsMapping.

(** * What the parts of the server leave alone *)

(** The model and the MMS device, and the values with the pointers to them. *)
Definition frame_of (st : IedServer) := (sv_model st, sv_mmsDevice st, sv_attributeValues st).
Definition data_of (st : IedServer) := (frame_of st, sv_valueCaches st).

(** A predicate on the model, the values and the pointers. *)
Class DataOnly (P : IedServer -> Prop) : Prop :=
  data_only : forall st st', data_of st' = data_of st -> P st -> P st'.

#[export] Instance data_only_eq D : DataOnly (fun st => data_of st = D).
Proof. intros st st' H ?. congruence. Qed.

Section Frames.
Context (w : World) (P : IedServer -> Prop) (HP : DataOnly P).

Lemma k_data f : (forall st, data_of (f st) = data_of st) -> keeps P (cmodify f : SM unit).
Proof using HP. intros H. apply k_modify. intros st Hst. exact (HP _ _ (H st) Hst). Qed.

Lemma k_on_reports f : keeps P (on_reports w f).
Proof using HP.
  intros st es u st' es' Hst. unfold on_reports. destruct (f _ _ _) as [[rcs new]| | |]; try done. intros [= _ <- _].
  by refine (HP st _ _ Hst).
Qed.

Lemma k_on_controls {A} (f : ControlEnv -> list ControlObject -> list ControlEvent -> res (A * list ControlObject * list ControlEvent)) :
  keeps P (on_controls w f).
Proof using HP.
  intros st es u st' es' Hst. unfold on_controls. destruct (f _ _ _) as [[[a os] new]| | |]; try done. intros [= _ <- _].
  by refine (HP st _ _ Hst).
Qed.

Lemma k_on_report {A} i (f : ReportEnv -> R A) : keeps P (on_report w i f).
Proof using HP.
  intros st es u st' es' Hst. unfold on_report. destruct (defined _) as [rc| | |]; try done. cbn [rbind].
  destruct (f _ _ _) as [[[a rc'] new]| | |]; try done. intros [= _ <- _]. by refine (HP st _ _ Hst).
Qed.

Lemma k_on_goose {A} i (f : ReportEnv -> G A) : keeps P (on_goose w i f).
Proof using HP.
  intros st es u st' es' Hst. unfold on_goose. destruct (defined _) as [gcb| | |]; try done. cbn [rbind].
  destruct (f _ _ _) as [[[a gcb'] new]| | |]; try done. intros [= _ <- _]. by refine (HP st _ _ Hst).
Qed.

Lemma k_on_gooses f : keeps P (on_gooses w f).
Proof using HP.
  unfold on_gooses. apply k_bind; [apply k_get|]. intros st. generalize (seq 0 (length (sv_gseControls st))). intros is'.
  induction is' as [|i is' IH]; [apply k_ret|]. apply k_bind; [apply k_on_goose|by intros ?].
Qed.
End Frames.
Create HintDb frames.
#[export] Hint Resolve k_on_reports k_on_controls k_on_report k_on_goose k_on_gooses : frames.

Section Triggers.
Context (w : World) (P : IedServer -> Prop) (HP : DataOnly P).

Lemma k_server : keeps P server.
Proof using. apply k_get. Qed.

Lemma k_triggerReportObservers l flag : keeps P (MmsMapping_triggerReportObservers w l flag).
Proof using HP. apply k_bind; [apply k_server|]. intros st. by apply k_on_reports. Qed.

Lemma k_triggerGooseObservers l : keeps P (MmsMapping_triggerGooseObservers w l).
Proof using HP. apply k_bind; [apply k_server|]. intros st. by apply k_on_gooses. Qed.
Hint Resolve k_server k_triggerReportObservers k_triggerGooseObservers : keeps.

Lemma k_checkForUpdateTrigger da : keeps P (checkForUpdateTrigger w da).
Proof using HP. unfold checkForUpdateTrigger. keeps_run. Qed.

Lemma k_checkForChangedTriggers da : keeps P (checkForChangedTriggers w da).
Proof using HP. unfold checkForChangedTriggers. keeps_run. Qed.
End Triggers.
#[export] Hint Resolve k_server k_triggerReportObservers k_triggerGooseObservers k_checkForUpdateTrigger k_checkForChangedTriggers : frames.

(** ** Updates *)

(** An update of an attribute leaves the values alone, or stores the new one. *)
Lemma update_attribute_value_data w da same set st es st' es' :
  update_attribute_value w da same set st es = Done (tt, st', es') ->
  frame_of st' = frame_of st /\ exists l current b, mmsValue_of st da = Done l /\ load (sv_valueCaches st) l = Some current /\
    same current = Done b /\
    (b = true /\ sv_valueCaches st' = sv_valueCaches st \/
     exists new, b = false /\ set current = Done new /\ sv_valueCaches st' = store (sv_valueCaches st) l new).
Proof.
  unfold update_attribute_value, server. rewrite bind_get. unfold cbind at 1, clift at 1.
  destruct (mmsValue_of st da) as [l| | |]; try done. cbn [rbind]. unfold cbind at 1, clift at 1, load_value, defined.
  destruct (load (sv_valueCaches st) l) as [current|] eqn:El; [|done]. cbn [rbind].
  unfold cbind at 1, clift at 1. destruct (same current) as [[|]| | |] eqn:Es; try done; cbn [rbind].
  - intros H. pose proof (keeps_done _ _ _ _ _ _ _ (k_checkForUpdateTrigger w (fun st1 => data_of st1 = data_of st) _ da) eq_refl H) as Hd.
    injection Hd as Hm Hv Ha Hc. split; [unfold frame_of; congruence|]. exists l, current, true. split_and!; try done. by left.
  - unfold cbind at 1, clift at 1. destruct (set current) as [new| | |] eqn:En; try done. cbn [rbind].
    unfold store_value. rewrite bind_modify. intros H.
    pose proof (keeps_done _ _ _ _ _ _ _ (k_checkForChangedTriggers w (fun st1 => data_of st1 = data_of _) _ da) eq_refl H) as Hd.
    injection Hd as Hm Hv Ha Hc. split; [unfold frame_of; congruence|]. exists l, current, false. split_and!; try done. right. by exists new.
Qed.

(** ** Attributes and their values *)

Lemma first_of_some {A} (f : ModelNode -> option A) nodes r : first_of f nodes = Some r -> exists n, n ∈ nodes /\ f n = Some r.
Proof.
  induction nodes as [|n nodes IH]; cbn [first_of]; [done|]. destruct (f n) as [x|] eqn:E.
  - intros [= <-]. exists n. split; [left|done].
  - intros H. destruct (IH H) as (m & Hm & Hf). exists m. split; [by right|done].
Qed.

(** Induction over the model with the children at hand. *)
Section NodeInd.
Context (P : ModelNode -> Prop) (HP : forall a t name cs, Forall P cs -> P (Node a t name cs)).

Fixpoint node_induction (n : ModelNode) : P n :=
  match n with
  | Node a t name cs => HP a t name cs
      ((fix go (cs : list ModelNode) : Forall P cs :=
        match cs with [] => Forall_nil_2 _ | c :: cs => Forall_cons_2 _ _ _ (node_induction c) (go cs) end) cs)
  end.
End NodeInd.

Lemma getDataAttributeByMmsValue_value values h n da : ModelNode_getDataAttributeByMmsValue values h n = Some da ->
  values !! mn_address da = Some h.
Proof.
  induction n as [a t name cs IH] using node_induction. cbn [ModelNode_getDataAttributeByMmsValue].
  intros (c & Hc & Hf)%first_of_some. eapply Forall_forall in IH; [|exact Hc].
  destruct (mn_modelType c); [by apply IH..|]. case_bool_decide; [|by apply IH]. by injection Hf as <-.
Qed.

(** An attribute that is found for a value points to it. *)
Lemma lookupDataAttribute_value st l da :
  IedModel_lookupDataAttributeByMmsValue (sv_attributeValues st) (sv_model st) (handle l) = Some da -> mmsValue_of st da = Done l.
Proof.
  intros (ld & _ & Hf)%first_of_some. apply getDataAttributeByMmsValue_value in Hf.
  unfold mmsValue_of. rewrite Hf. cbn [defined rbind]. by rewrite location_handle.
Qed.

(** ** Writing *)

Lemma IedServer_updateAttributeValue_data w da value st es st' es' :
  IedServer_updateAttributeValue w da value st es = Done (tt, st', es') ->
  frame_of st' = frame_of st /\ exists l current b, mmsValue_of st da = Done l /\ load (sv_valueCaches st) l = Some current /\
    MmsValue_equals current value = Done b /\
    (b = true /\ sv_valueCaches st' = sv_valueCaches st \/
     exists ok new, b = false /\ MmsValue_update current value = Done (ok, new) /\
       sv_valueCaches st' = store (sv_valueCaches st) l new).
Proof.
  unfold IedServer_updateAttributeValue, assert_type. intros H. run_inv. unfold server in *. run_inv.
  match goal with H : update_attribute_value _ _ _ _ _ _ = _ |- _ => apply update_attribute_value_data in H as (Hf & l & current & b & Hl & Hc & Hb & Hs) end.
  split; [done|]. exists l, current, b. split_and!; try done. destruct Hs as [Hs|(new & -> & Hn & Hs)]; [by left|].
  right. destruct (MmsValue_update current value) as [[ok y]| | |] eqn:Eu; try done. injection Hn as ->. by exists ok, new.
Qed.

Lemma k_call_observer P place connection : keeps P (call_observer place connection).
Proof. unfold call_observer. apply k_bind; [apply k_get|]. intros st. apply k_bind; [apply k_lift|]. intros [o|]; [apply k_emit|apply k_ret]. Qed.

Section Write.
Context (w : World) (P : IedServer -> Prop) (HP : DataOnly P).

Lemma k_writeAccessGoose domain variableId value : keeps P (writeAccessGooseControlBlock w domain variableId value).
Proof using HP.
  unfold writeAccessGooseControlBlock. apply k_bind; [apply k_get|]. intros st. apply k_bind; [apply k_lift|].
  intros [[[ln obj] [name|]]|]; try apply k_ret. destruct (lookupGCB st domain ln obj); [by apply k_on_goose|apply k_ret].
Qed.

Lemma k_write_rcb domain lnName variableId behind value connection :
  keeps P (write_rcb w domain lnName variableId behind value connection).
Proof using HP.
  unfold write_rcb. apply k_bind; [apply k_get|]. intros st. destruct (parse_rcb_variable variableId behind) as [[name el]|]; [|apply k_ret].
  destruct (find_rcb _ _ _ _); [|apply k_ret]. apply k_bind; [apply k_lift|]. intros e. by apply k_on_report.
Qed.
End Write.

(** The value of an attribute has been replaced as the rules for access allow. *)
Definition allowed_write (w : World) (st st' : IedServer) (domain : MmsDomain) (variableId behind : list Z) (value : MmsValue)
    (connection : Z) : Prop :=
  exists place da current ok new,
    MmsServer_getValueFromCache (sv_valueCaches st) (md_address domain) variableId = Done (Some place) /\
    IedModel_lookupDataAttributeByMmsValue (sv_attributeValues st) (sv_model st) (handle place) = Some da /\
    load (sv_valueCaches st) place = Some current /\ MmsValue_equalTypes current value = Done true /\
    access_allowed w st behind place value connection = Done true /\
    MmsValue_update current value = Done (ok, new) /\
    sv_valueCaches st' = store (sv_valueCaches st) place new.

Lemma write_attribute_value_data w domain variableId behind value connection st es r st' es' :
  write_attribute_value w domain variableId behind value connection st es = Done (r, st', es') ->
  frame_of st' = frame_of st /\ (sv_valueCaches st' = sv_valueCaches st \/
    allowed_write w st st' domain variableId behind value connection /\ r = DATA_ACCESS_ERROR_SUCCESS).
Proof.
  unfold write_attribute_value, server. rewrite bind_get. intros H.
  apply cbind_inv in H as (found & s1 & es1 & (Hfound & -> & ->)%clift_inv & H).
  destruct found as [place|]; [|injection H as _ <- _; by split; [|left]].
  apply cbind_inv in H as (current & s1 & es1 & (Hcurrent & -> & ->)%clift_inv & H).
  apply cbind_inv in H as (same & s1 & es1 & (Hsame & -> & ->)%clift_inv & H).
  destruct same; [|injection H as _ <- _; by split; [|left]]. cbn [negb] in H.
  apply cbind_inv in H as (allowed & s1 & es1 & (Hallowed & -> & ->)%clift_inv & H).
  destruct allowed; [|injection H as _ <- _; by split; [|left]]. cbn [negb] in H.
  apply cbind_inv in H as ([] & s1 & es1 & Hu & H).
  apply cbind_inv in H as ([] & s2 & es2 & Hobs & H). injection H as <- <- <-.
  apply (keeps_done (fun s => data_of s = data_of s1)) in Hobs; [|apply k_call_observer|done].
  injection Hobs as H1 H2 H3 H4. unfold frame_of. rewrite H1, H2, H3, H4. clear H1 H2 H3.
  destruct (IedModel_lookupDataAttributeByMmsValue _ _ _) as [da|] eqn:Eda; [|injection Hu as <- _; by split; [|left]].
  apply IedServer_updateAttributeValue_data in Hu as (Hf & l & c & b & Hl & Hc & Hb & Hs). split; [exact Hf|].
  rewrite (lookupDataAttribute_value _ _ _ Eda) in Hl. injection Hl as <-.
  destruct Hs as [[_ Hs]|(ok & new & _ & Hn & Hs)]; [by left|]. right. split; [|done].
  unfold load_value, defined in Hcurrent. rewrite Hc in Hcurrent. injection Hcurrent as ->.
  exists place, da, current, ok, new. split_and!; try done. by rewrite H4.
Qed.

(** What a write that is accepted does with the value that the name leads to: the value of
    an attribute takes it, another one stays. *)
Definition stored_write (st st' : IedServer) (place : Location) (old value : MmsValue) : Prop :=
  match IedModel_lookupDataAttributeByMmsValue (sv_attributeValues st) (sv_model st) (handle place) with
  | Some _ => MmsValue_equals old value = Done true /\ sv_valueCaches st' = sv_valueCaches st \/
      exists ok new, MmsValue_update old value = Done (ok, new) /\ sv_valueCaches st' = store (sv_valueCaches st) place new
  | None => sv_valueCaches st' = sv_valueCaches st
  end.

Lemma accepted_write w domain variableId behind value connection st es st' es' :
  write_attribute_value w domain variableId behind value connection st es = Done (DATA_ACCESS_ERROR_SUCCESS, st', es') ->
  exists place old, MmsServer_getValueFromCache (sv_valueCaches st) (md_address domain) variableId = Done (Some place) /\
    load (sv_valueCaches st) place = Some old /\ stored_write st st' place old value.
Proof.
  unfold write_attribute_value, server. rewrite bind_get. intros H.
  apply cbind_inv in H as (found & s1 & es1 & (Hfound & -> & ->)%clift_inv & H). destruct found as [place|]; [|done].
  apply cbind_inv in H as (current & s1 & es1 & (Hcurrent & -> & ->)%clift_inv & H).
  apply cbind_inv in H as (same & s1 & es1 & (_ & -> & ->)%clift_inv & H). destruct same; [|done]. cbn [negb] in H.
  apply cbind_inv in H as (allowed & s1 & es1 & (_ & -> & ->)%clift_inv & H). destruct allowed; [|done]. cbn [negb] in H.
  apply cbind_inv in H as ([] & s1 & es1 & Hu & H).
  apply cbind_inv in H as ([] & s2 & es2 & Hobs & H). injection H as <- <-.
  apply (keeps_done (fun s => data_of s = data_of s1)) in Hobs; [|apply k_call_observer|done].
  injection Hobs as _ _ _ Hv. unfold load_value in Hcurrent. destruct (load (sv_valueCaches st) place) as [old|] eqn:El; [|done].
  injection Hcurrent as ->. exists place, current. split; [done|]. split; [exact El|]. unfold stored_write. rewrite Hv.
  destruct (IedModel_lookupDataAttributeByMmsValue _ _ _) as [da|] eqn:Eda; [|by injection Hu as <- _].
  apply IedServer_updateAttributeValue_data in Hu as (_ & l & c & b & Hl & Hc & Hb & Hs).
  rewrite (lookupDataAttribute_value _ _ _ Eda) in Hl. injection Hl as <-. rewrite El in Hc. injection Hc as <-.
  destruct Hs as [[-> Hs]|(ok & new & _ & Hn & Hs)]; [by left|]. right. by exists ok, new.
Qed.

Lemma writable_is_attribute w domain variableId value connection lnName behind :
  strchr DOLLAR variableId = Some (lnName, behind) -> isWritableFC behind = true ->
  mmsServer_setValue w domain variableId value connection = write_attribute_value w domain variableId behind value connection.
Proof.
  intros Hs Hf. unfold mmsServer_setValue, mmsWriteHandler. rewrite Hs, Hf. revert Hf.
  unfold isWritableFC, isFunctionalConstraintCF, isFunctionalConstraintDC, isFunctionalConstraintSP, isFunctionalConstraintSV,
    isControllable, isGooseControlBlock, isReportControlBlock, begins.
  intros [[[E|E]%orb_true_iff|E]%orb_true_iff|E]%orb_true_iff; apply bool_decide_eq_true in E; rewrite E; reflexivity.
Qed.

(** Updates and reports: the entry of a data set that a value is a member of, and what an
    update does to the report control blocks of the server. *)

(** * Members of data sets *)

(** [l] is the value at [place] or a part of it. *)
Definition inside (place l : Location) : Prop :=
  lo_domain place = lo_domain l /\ lo_item place = lo_item l /\ lo_path place `prefix_of` lo_path l.

#[export] Instance inside_dec place l : Decision (inside place l).
Proof. apply _. Defined.

(** The answer for the components: the first one that says yes, or none does. *)
Lemma some_component_spec f i cs b : some_component f i cs = Done b ->
  if b then exists j c, cs !! j = Some (Some c) /\ f (i + j)%nat c = Done true
  else forall j c, cs !! j = Some (Some c) -> f (i + j)%nat c = Done false.
Proof.
  revert i. induction cs as [|[c|] cs IH]; intros i; cbn [some_component]; [|destruct (f i c) as [b'| | |] eqn:Ef; try done|done].
  - intros [= <-]. by intros j c Hj.
  - cbn [rbind]. destruct b'.
    + intros [= <-]. exists 0%nat, c. rewrite Nat.add_0_r. by split.
    + intros H%IH. destruct b.
      * destruct H as (j & c' & Hj & Hf). exists (S j), c'. by rewrite <- plus_n_Sm.
      * intros [|j] c' Hj; [injection Hj as <-; by rewrite Nat.add_0_r|]. rewrite <- plus_n_Sm. by apply (H j).
Qed.

(** The location of what a path leads to. *)
Definition below (place : Location) (q : list nat) : Location := mkLocation (lo_domain place) (lo_item place) (lo_path place ++ q).

Lemma below_child place i q : below (child_at place i) q = below place (i :: q).
Proof. unfold below, child_at. cbn. by rewrite <- app_assoc. Qed.

Lemma isMemberValueRecursive_spec l container : forall place b, isMemberValueRecursive l place container = Done b ->
  b = true <-> exists q, l = below place q /\ is_Some (value_at container q).
Proof.
  assert (forall place, below place [] = place) as Hnil.
  { intros []. unfold below. cbn. by rewrite app_nil_r. }
  induction container as [d u|d a cs IH] using MmsValue_induction; intros place b; cbn [isMemberValueRecursive];
    (case_bool_decide as Hp; [intros [= <-]; split; [intros _; exists []; rewrite Hnil; by subst|done]|]).
  - intros [= <-]. split; [done|]. intros ([|i q] & -> & [x Hx]); [by rewrite Hnil in Hp|done].
  - intros H. apply some_component_spec in H as Hc. destruct b.
    + split; [|done]. intros _. destruct Hc as (j & c & Hj & Hf). eapply Forall_lookup_1 in IH; [|exact Hj].
      apply (IH c eq_refl) in Hf. destruct (proj1 Hf eq_refl) as (q & -> & Hq). exists (j :: q). rewrite below_child. split; [done|].
      cbn. by rewrite Hj.
    + split; [done|]. intros ([|j q] & -> & [x Hx]); [by rewrite Hnil in Hp|]. cbn [value_at] in Hx.
      destruct (cs !! j) as [[c|]|] eqn:Ej; try done. eapply Forall_lookup_1 in IH; [|exact Ej].
      pose proof (Hc _ _ Ej) as Hf. apply (IH c eq_refl) in Hf.
      destruct Hf as [_ Hf]. discriminate Hf. exists q. cbn in Hx. split; [by rewrite below_child|by exists x].
Qed.

(** An entry contains a value. *)
Definition contains (e : DataSetEntry) (l : Location) : Prop :=
  exists h place, dse_value e = Some h /\ location h = Some place /\ inside place l.

Lemma load_below caches place container q : load caches place = Some container ->
  load caches (below place q) = value_at container q.
Proof.
  unfold load. cbn. destruct (Map_getEntry caches (lo_domain place)) as [c|]; [|done]. cbn.
  destruct (Map_getEntry (vc_map c) (lo_item place)) as [e|]; [|done]. cbn. rewrite value_at_app. by intros ->.
Qed.

(** The member that the search finds: the first entry that contains the value, which is
    one of the server. *)
Lemma DataSet_isMemberValue_spec st d l r : is_Some (load (sv_valueCaches st) l) -> DataSet_isMemberValue st d l = Done r ->
  match r with
  | Some i => (exists e, ds_fcdas d !! i = Some e /\ contains e l) /\ forall j e, (j < i)%nat -> ds_fcdas d !! j = Some e -> ~ contains e l
  | None => forall e, e ∈ ds_fcdas d -> ~ contains e l
  end.
Proof.
  intros Hl. unfold DataSet_isMemberValue.
  assert (forall entries k, isMemberValue_loop st entries l k = Done r ->
    match r with
    | Some i => exists n, i = (k + n)%nat /\ (exists e, entries !! n = Some e /\ contains e l) /\
        forall j e, (j < n)%nat -> entries !! j = Some e -> ~ contains e l
    | None => forall e, e ∈ entries -> ~ contains e l
    end) as Hloop.
  2: { intros H%Hloop. destruct r as [i|]; [|done]. by destruct H as (n & -> & H). }
  induction entries as [|e entries IH]; intros k; cbn [isMemberValue_loop].
  { intros [= <-] e He. by apply elem_of_nil in He. }
  destruct (dse_value e) as [h|] eqn:Eh; [|done]. cbn [defined rbind]. destruct (location h) as [place|] eqn:Ep; [|done].
  cbn [defined rbind]. unfold load_value. destruct (load (sv_valueCaches st) place) as [container|] eqn:Ec; [|done]. cbn [defined rbind].
  destruct (isMemberValueRecursive l place container) as [b| | |] eqn:Em; try done. cbn [rbind].
  assert (b = true <-> contains e l) as Hb.
  { rewrite (isMemberValueRecursive_spec _ _ _ _ Em). split.
    - intros (q & -> & _). exists h, place. split; [done|]. split; [done|]. by split_and!; [..|exists q].
    - intros (h' & place' & E & E' & (Hd & Hi & q & Hq)). rewrite Eh in E. injection E as <-. rewrite Ep in E'. injection E' as <-.
      assert (l = below place q) as -> by (destruct l; unfold below; cbn in *; congruence).
      exists q. split; [done|]. by rewrite <- (load_below _ _ _ _ Ec). }
  destruct b.
  - intros [= <-]. exists 0%nat. split; [lia|]. split; [exists e; split; [done|by apply Hb]|intros j ? ?; lia].
  - intros H%IH. assert (~ contains e l) as Hn by (rewrite <- Hb; done). destruct r as [i|].
    + destruct H as (n & -> & H1 & H2). exists (S n). split; [lia|]. split; [done|].
      intros [|j] e' Hj; [intros [= <-]; done|]. cbn. apply H2. lia.
    + intros e' [->|He]%elem_of_cons; [done|by apply H].
Qed.

(** * What an update does to report control blocks *)

(** A block takes the change of an entry: it is flagged, and the block will report. *)
Definition flagged (i : nat) (flag : Z) (rc : ReportControl) : Prop :=
  rc_triggered rc = true /\ exists flags, rc_inclusionFlags rc = Some flags /\ flags !! i = Some flag.

Definition has_flag (i : nat) (flag : Z) (rc : ReportControl) : Prop :=
  exists flags, rc_inclusionFlags rc = Some flags /\ flags !! i = Some flag.

Lemma k_flag_same i flag f : (forall rc, rc_inclusionFlags (f rc) = rc_inclusionFlags rc) -> keeps (has_flag i flag) (cmodify f : R unit).
Proof. intros H. apply k_modify. intros rc (flags & Hf & Hi). exists flags. by rewrite H. Qed.

Lemma set_time_flags v rc : rc_inclusionFlags (set_time_of_entry v rc) = rc_inclusionFlags rc.
Proof. unfold set_time_of_entry, rcb_set_element. destruct (rc_timeOfEntry rc); try done. by destruct (rc_rcbValues rc). Qed.

Lemma t_valueUpdated sizes malloc env i flag :
  triple (fun _ => True) (ReportControl_valueUpdated sizes malloc env i flag) (fun _ => flagged i flag).
Proof.
  unfold ReportControl_valueUpdated. apply t_seq; [by intros ?????|intros rc]. apply t_seq; [by intros ?????|intros pending].
  apply t_seq; [by intros ?????|intros ?]. apply t_bind_get. intros rc' _. apply t_bind_lift. intros flags Hflags.
  eapply (t_bind _ _ _ (fun _ => has_flag i flag)).
  { case_bool_decide as Hi; [|by intros ?????]. apply t_modify. intros s ->. exists (<[i := flag]> flags). split; [done|].
    by rewrite list_lookup_insert_eq. }
  intros ?. do 2 (apply t_seq; [apply k_lift|intros ?]). apply t_seq; [apply k_lift|intros ?].
  apply t_seq; [by apply k_flag_same|intros ?]. apply t_seq.
  - destruct (rc_triggered rc'); [apply k_ret|]. apply k_bind.
    { unfold updateTimeOfEntry. apply k_bind; [apply k_get|]. intros ?. do 2 (apply k_bind; [apply k_lift|]; intros ?).
      apply k_flag_same. apply set_time_flags. }
    intros ?. apply k_bind; [apply k_get|]. intros ?. apply k_bind; [apply k_lift|]. intros ?. by apply k_flag_same.
  - intros ?. apply t_modify. intros s (fl & H1 & H2). split; [done|]. by exists fl.
Qed.

(** What an update with the flag does to a block. *)
Definition notified (flag : Z) (l : Location) (rc rc' : ReportControl) : Prop :=
  if is_observing rc && asks_for flag (rc_triggerOps rc) then
    exists d, rc_dataSet rc = DataSetAt d /\
      ((exists i e, ds_fcdas d !! i = Some e /\ contains e l /\
          (forall j e', (j < i)%nat -> ds_fcdas d !! j = Some e' -> ~ contains e' l) /\ flagged i flag rc') \/
       (forall e, e ∈ ds_fcdas d -> ~ contains e l) /\ rc' = rc)
  else rc' = rc.

Lemma trigger_report_spec w st l flag env rc es rc' es' : is_Some (load (sv_valueCaches st) l) ->
  trigger_report w st l flag env rc es = Done (tt, rc', es') -> notified flag l rc rc'.
Proof.
  intros Hl. unfold trigger_report, self, notified. rewrite bind_get. destruct (_ && _); [|by intros [= <- _]].
  intros H. apply cbind_inv in H as (d & s1 & es1 & (Hd & -> & ->)%clift_inv & H).
  apply cbind_inv in H as (r & s1 & es1 & (Hr & -> & ->)%clift_inv & H). exists d.
  split; [by destruct (rc_dataSet rc); try done; injection Hd as ->|].
  apply DataSet_isMemberValue_spec in Hr; [|done]. destruct r as [i|]; [|right; split; [done|by injection H as <- _]].
  destruct Hr as ((e & He & Hc) & Hn). left. exists i, e. split_and!; [done..|]. by eapply t_valueUpdated.
Qed.

Lemma each_spec c rcs : forall es rcs' es', each c rcs es = Done (rcs', es') ->
  Forall2 (fun rc rc' => exists es1 es2, c rc es1 = Done (tt, rc', es2)) rcs rcs'.
Proof.
  induction rcs as [|rc rcs IH]; intros es rcs' es'; cbn [each]; [by intros [= <- _]|].
  destruct (c rc es) as [[[[] rc1] es1]| | |] eqn:E; try done. cbn [rbind].
  destruct (each c rcs es1) as [[rcs1 es2]| | |] eqn:E'; try done. intros [= <- _]. constructor; [by eauto|by eapply IH].
Qed.

Lemma triggerReportObservers_spec w l flag st es st' es' : is_Some (load (sv_valueCaches st) l) ->
  MmsMapping_triggerReportObservers w l flag st es = Done (tt, st', es') ->
  Forall2 (notified flag l) (sv_reportControls st) (sv_reportControls st').
Proof.
  intros Hl. unfold MmsMapping_triggerReportObservers, server. rewrite bind_get. unfold on_reports.
  destruct (each _ _ _) as [[rcs new]| | |] eqn:E; try done. intros [= <- _]. apply each_spec in E.
  eapply Forall2_impl; [exact E|]. intros rc rc' (es1 & es2 & H). by eapply trigger_report_spec.
Qed.

(** GOOSE control blocks have their own observers. *)
Lemma k_goose_reports w f rcs : keeps (fun st => sv_reportControls st = rcs) (on_gooses w f).
Proof.
  unfold on_gooses. apply k_bind; [apply k_get|]. intros st. generalize (seq 0 (length (sv_gseControls st))). intros is'.
  induction is' as [|i is' IH]; [apply k_ret|]. apply k_bind; [|by intros ?].
  intros st1 es u st' es' Hst. unfold on_goose. destruct (defined _) as [gcb| | |]; try done. cbn [rbind].
  destruct (f _ _ _) as [[[a gcb'] new]| | |]; try done. by intros [= _ <- _].
Qed.

Lemma load_store_same caches l v w : load caches l = Some v -> load (store caches l w) l = Some w.
Proof.
  unfold load, store. destruct (Map_getEntry caches (lo_domain l)) as [c|] eqn:Ec; [|done]. cbn [mbind option_bind].
  destruct (Map_getEntry (vc_map c) (lo_item l)) as [e|] eqn:Ee; [|done]. cbn [mbind option_bind]. intros Hv.
  rewrite (getEntry_setEntry _ _ _ _ Ec). cbn [mbind option_bind vc_map]. rewrite (getEntry_setEntry _ _ _ _ Ee).
  cbn [mbind option_bind ce_value]. by eapply put_at_eq.
Qed.

(** The flag that an update sets: an attribute with the option for it that is written
    with the value it has; or one that is changed. *)
Definition update_flag (triggerOptions : Z) (same : bool) : option Z :=
  let has option := negb (Z.land triggerOptions option =? 0) in
  if same then if has TRG_OPT_DATA_UPDATE then Some REPORT_CONTROL_VALUE_UPDATE else None
  else if has TRG_OPT_DATA_CHANGED then Some REPORT_CONTROL_VALUE_CHANGED
  else if has TRG_OPT_QUALITY_CHANGED then Some REPORT_CONTROL_QUALITY_CHANGED else None.

Definition all_notified (flag : option Z) (l : Location) (rcs rcs' : list ReportControl) : Prop :=
  match flag with Some flag => Forall2 (notified flag l) rcs rcs' | None => rcs' = rcs end.

Lemma triggers_done da a bit : as_attribute da = Done a -> triggers da bit = Done (negb (Z.land (da_triggerOptions a) bit =? 0)).
Proof. unfold triggers. by intros ->. Qed.

Lemma checkForUpdateTrigger_spec w da a st es st' es' l : as_attribute da = Done a -> mmsValue_of st da = Done l ->
  is_Some (load (sv_valueCaches st) l) -> checkForUpdateTrigger w da st es = Done (tt, st', es') ->
  all_notified (update_flag (da_triggerOptions a) true) l (sv_reportControls st) (sv_reportControls st').
Proof.
  intros Ha Hl Hv. unfold checkForUpdateTrigger, server, update_flag. rewrite bind_get.
  rewrite (bind_lift _ _ _ _ _ (triggers_done _ _ _ Ha)). destruct (negb _); [|by intros [= <- _]].
  rewrite (bind_lift _ _ _ _ _ Hl). by apply triggerReportObservers_spec.
Qed.

Lemma checkForChangedTriggers_spec w da a st es st' es' l : as_attribute da = Done a -> mmsValue_of st da = Done l ->
  is_Some (load (sv_valueCaches st) l) -> checkForChangedTriggers w da st es = Done (tt, st', es') ->
  all_notified (update_flag (da_triggerOptions a) false) l (sv_reportControls st) (sv_reportControls st').
Proof.
  intros Ha Hl Hv. unfold checkForChangedTriggers, server, update_flag. rewrite bind_get, (bind_lift _ _ _ _ _ Hl).
  rewrite !(bind_lift _ _ _ _ _ (triggers_done _ _ _ Ha)). intros H.
  apply cbind_inv in H as ([] & s1 & es1 & Hr & H).
  assert (sv_reportControls st' = sv_reportControls s1) as ->.
  { unfold MmsMapping_triggerGooseObservers, server in H. rewrite bind_get in H.
    by apply (keeps_done _ _ _ _ _ _ _ (k_goose_reports w _ (sv_reportControls s1))) in H. }
  destruct (negb _); [by apply triggerReportObservers_spec in Hr|]. destruct (negb _); [by apply triggerReportObservers_spec in Hr|].
  by injection Hr as <- _.
Qed.
