(* ===== verification/ServerInv.v ===== *)
(** What holds of a server in every state: its steps, and the invariant that they keep.
    The invariants of the components are those of their own files. *)
From Stdlib Require Import String.
From stdpp Require Import base tactics numbers option gmap list.
From S2P Require Import Prelude MmsValue Effects CString MmsTypeSpec Control ControlFacts Iec61850Common ReportBuffer ReportControl Reporting ReportingAccess ReportingFacts ReportingInv ValueStore IedModel MmsGoose ServerState MmsMapping IedServer MmsGooseFacts MmsMappingFacts.

(** * Steps *)

(** The MMS services pass on only the names of variables that the domain has: an attribute
    of a report control block exists. *)
Definition writable (st : IedServer) (domain : MmsDomain) (variableId : list Z) : Prop :=
  forall lnName behind name elementName i rc, strchr DOLLAR variableId = Some (lnName, behind) ->
    parse_rcb_variable variableId behind = Some (name, Some elementName) ->
    find_rcb (sv_reportControls st) domain lnName name = Some i -> sv_reportControls st !! i = Some rc ->
    is_Some (rcb_index rc elementName).

(** Domains that differ in their lists of variables. *)
Definition same_variables (d d' : MmsDomain) : Prop :=
  md_address d' = md_address d /\ domainName d' = domainName d /\ namedVariables d' = namedVariables d.

(** What the clients, the application and the threads of the server do.  An element of an
    array in a value cache is written, by [mmsServer_handleWriteRequest], past
    [mmsServer_setValue]; the lists of variables of the domains come and go. *)
Inductive server_operation (w : World) (st : IedServer) : forall A, SM A -> Prop :=
| op_write domain variableId value c : writable st domain variableId ->
    server_operation w st Z (mmsServer_setValue w domain variableId value c)
| op_element domain variableId place array index element value ok v :
    MmsServer_getValueFromCache (sv_valueCaches st) (md_address domain) variableId = Done (Some place) ->
    load_value st place = Done array -> MmsValue_getElement array index = Some element ->
    MmsValue_update element value = Done (ok, v) ->
    server_operation w st unit (store_value (child_at place (Z.to_nat index)) v)
| op_lists domains : Forall2 same_variables (sv_mmsDevice st) domains ->
    server_operation w st unit (cmodify (sv_set_mmsDevice domains))
| op_read domain variableId c : server_operation w st _ (mmsServer_getValue w domain variableId c)
| op_connection c event : server_operation w st unit (mmsConnectionHandler w c event)
| op_events : server_operation w st unit (eventWorkerThread_round w)
| op_thread i : server_operation w st unit (run_control_thread w i)
| op_update da value : server_operation w st unit (IedServer_updateAttributeValue w da value)
| op_float da value : server_operation w st unit (IedServer_updateFloatAttributeValue w da value)
| op_int32 da value : server_operation w st unit (IedServer_updateInt32AttributeValue w da value)
| op_int64 da value : server_operation w st unit (IedServer_updateInt64AttributeValue w da value)
| op_unsigned da value : server_operation w st unit (IedServer_updateUnsignedAttributeValue w da value)
| op_bitString da value : server_operation w st unit (IedServer_updateBitStringAttributeValue w da value)
| op_boolean da value : server_operation w st unit (IedServer_updateBooleanAttributeValue w da value)
| op_utcTime da value : server_operation w st unit (IedServer_updateUTCTimeAttributeValue w da value)
| op_visibleString da value : server_operation w st unit (IedServer_updateVisibleStringAttributeValue w da value)
| op_quality da value : server_operation w st unit (IedServer_updateQuality w da value)
| op_goose : server_operation w st unit (IedServer_enableGoosePublishing w)
| op_policy fc allow : server_operation w st unit (IedServer_setWriteAccessPolicy fc allow)
| op_observe da handler : server_operation w st unit (IedServer_observeDataAttribute da handler)
| op_access da handler : server_operation w st unit (IedServer_handleWriteAccess da handler)
| op_indication b : server_operation w st unit (IedServer_setConnectionIndicationHandler b)
| op_control path : server_operation w st unit (IedServer_setControlHandler path)
| op_check path : server_operation w st unit (IedServer_setPerformCheckHandler path)
| op_wait path : server_operation w st unit (IedServer_setWaitForExecutionHandler path).

(** * The invariant *)

(** The caches were made for these domains, when they had other lists of variables. *)
Definition cached_for (domains : list MmsDomain) (caches : value_caches) : Prop :=
  exists made, Forall2 same_variables made domains /\ caches_wf made caches.

Lemma same_variables_trans d1 d2 d3 : same_variables d1 d2 -> same_variables d2 d3 -> same_variables d1 d3.
Proof. intros (? & ? & ?) (? & ? & ?). repeat split; congruence. Qed.

Lemma same_variables_refl d : same_variables d d.
Proof. done. Qed.

Lemma same_named domains domains' : Forall2 same_variables domains domains' ->
  Forall (fun d => Forall MmsTypeSpec.named (default [] (namedVariables d))) domains ->
  Forall (fun d => Forall MmsTypeSpec.named (default [] (namedVariables d))) domains'.
Proof. induction 1 as [|d d' ds ds' (_ & _ & E) _ IH]; intros H; [done|]. apply Forall_cons_1 in H as [H1 H2]. constructor; [by rewrite E|auto]. Qed.

Lemma same_named_back domains domains' : Forall2 same_variables domains domains' ->
  Forall (fun d => Forall MmsTypeSpec.named (default [] (namedVariables d))) domains' ->
  Forall (fun d => Forall MmsTypeSpec.named (default [] (namedVariables d))) domains.
Proof. intros H. apply same_named. apply Forall2_flip. eapply Forall2_impl; [exact H|]. intros d d' (? & ? & ?). done. Qed.

Lemma cached_for_made domains caches : caches_wf domains caches -> cached_for domains caches.
Proof. intros H. exists domains. split; [by apply Forall_Forall2_diag, Forall_true|done]. Qed.

Lemma cached_for_lists domains domains' caches : Forall2 same_variables domains domains' ->
  cached_for domains caches -> cached_for domains' caches.
Proof.
  intros H (made & Hm & Hc). exists made. split; [|done]. clear Hc. revert domains' H.
  induction Hm as [|d d1 ds ds1 Hd _ IH]; intros domains' H; inversion H as [|? d2 ? ds2 H1 H2]; subst; constructor; [|by apply IH].
  by eapply same_variables_trans.
Qed.

(** A name leads to a value of the type that the domain declares. *)
Lemma cached_for_typed domains caches a itemId : cached_for domains caches ->
  Forall (fun d => Forall MmsTypeSpec.named (default [] (namedVariables d))) domains ->
  exists r, MmsServer_getValueFromCache caches a itemId = Done r /\
  forall l, r = Some l -> exists v d t, load caches l = Some v /\ lo_domain l = a /\ d ∈ domains /\ md_address d = a /\
    MmsDomain_getNamedVariable d itemId = Done (Some t) /\ typed t v.
Proof.
  intros (made & Hm & Hc) Hn. destruct (getValueFromCache_typed made caches Hc (same_named_back _ _ Hm Hn) a itemId) as (r & Hr & Hl).
  exists r. split; [done|]. intros l E. destruct (Hl l E) as (v & d & t & Hv & Hd & Hin & Ha & Ht & Hty).
  apply list_elem_of_lookup in Hin as [i Hi]. destruct (Forall2_lookup_l _ _ _ _ _ Hm Hi) as (d' & Hi' & E1 & E2 & E3).
  exists v, d', t. split_and!; [done..| |congruence| |done].
  - by eapply list_elem_of_lookup_2.
  - unfold MmsDomain_getNamedVariable in *. by rewrite E3.
Qed.

(** An element of a value in the caches. *)
Lemma load_element caches place array index element : load caches place = Some array ->
  MmsValue_getElement array index = Some element -> load caches (child_at place (Z.to_nat index)) = Some element.
Proof.
  intros Ha He. change (load caches (below place [Z.to_nat index]) = Some element). rewrite (load_below _ _ array) by done.
  unfold MmsValue_getElement in He. destruct array as [|d a cs]; [done|]. destruct (_ || _); [done|]. cbn. by rewrite He.
Qed.

Section Invariant.
Context (sizes : Sizes) (malloc : Z -> list Z).

(** The types of the variables have names for their members, the values have the types,
    and the pointers of the attributes lead to values; report control blocks and control
    objects are in a state that they can reach; no GOOSE control block is enabled. *)
Record server_inv (st : IedServer) : Prop := mk_server_inv {
  si_named : Forall (fun d => Forall MmsTypeSpec.named (default [] (namedVariables d))) (sv_mmsDevice st);
  si_caches : cached_for (sv_mmsDevice st) (sv_valueCaches st);
  si_pointers : forall a h, sv_attributeValues st !! a = Some h ->
    exists l, location h = Some l /\ is_Some (load (sv_valueCaches st) l);
  si_dataSets : Forall (fun d => 0 <= ds_elementCount d) (im_dataSets (sv_model st));
  si_reports : Forall (rcb_reachable sizes malloc) (sv_reportControls st);
  si_controls : Forall (control_reachable malloc) (sv_controlObjects st);
  si_goose : Forall gcb_off (sv_gseControls st) }.

(** Nothing is published. *)
Definition not_goose (e : ServerEvent) : Prop := match e with GooseSent _ => False | _ => True end.

Abbreviation safe c := (sends server_inv not_goose c).

Lemma dynamic_dataSet_count st name d : MmsMapping_getDomainSpecificDataSet st name = Done (Some d) -> 0 <= ds_elementCount d.
Proof using.
  unfold MmsMapping_getDomainSpecificDataSet. destruct (MmsMapping_getDomainSpecificVariableList st name) as [vl|]; [|done].
  unfold createDataSetByNamedVariableList. destruct (vl_listOfVariables vl) as [|e es]; [done|].
  destruct (dynamic_entries st (e :: es)) as [fcdas| | |]; try done. intros [= <-]. apply zlen_nonneg.
Qed.

Lemma report_env_ok w st : server_inv st -> env_ok (report_env w st).
Proof using. intros []. split; [done|]. intros name d. apply dynamic_dataSet_count. Qed.

(** ** The components *)

Section World.
Context (w : World) (Hsizes : w_sizes w = sizes) (Hmalloc : w_malloc w = malloc).

Lemma e_reports f : (forall env rcs es rcs' es', env_ok env -> Forall (rcb_reachable sizes malloc) rcs ->
    f env rcs es = Done (rcs', es') -> Forall (rcb_reachable sizes malloc) rcs') -> safe (on_reports w f).
Proof using.
  intros Hf st es u st' es' Hst. unfold on_reports. destruct (f _ _ _) as [[rcs new]| | |] eqn:E; try done. intros [= _ <- <-].
  apply Hf in E; [|by apply report_env_ok|apply Hst]. split; [by destruct Hst; constructor|].
  eexists. split; [done|]. apply Forall_fmap, Forall_true. done.
Qed.

Lemma each_reachable c rcs es rcs' es' : (forall rc es1 rc' es2, rcb_reachable sizes malloc rc -> c rc es1 = Done (tt, rc', es2) ->
    rcb_reachable sizes malloc rc') -> Forall (rcb_reachable sizes malloc) rcs -> each c rcs es = Done (rcs', es') ->
  Forall (rcb_reachable sizes malloc) rcs'.
Proof using.
  intros Hc Hr H%each_spec. clear es es'. induction H as [|rc rc' rcs rcs' (es1 & es2 & H) _ IH]; [done|].
  apply Forall_cons_1 in Hr as [H1 H2]. constructor; [by eapply Hc|by apply IH].
Qed.

Lemma report_step {A} i (f : ReportEnv -> R A) st es u st' es' : server_inv st ->
  (forall rc es a rc' es', sv_reportControls st !! i = Some rc -> f (report_env w st) rc es = Done (a, rc', es') ->
    rcb_reachable sizes malloc rc') ->
  on_report w i f st es = Done (u, st', es') -> server_inv st' /\ exists new, es' = es ++ new /\ Forall not_goose new.
Proof using.
  intros Hst Hf. unfold on_report. destruct (sv_reportControls st !! i) as [rc|] eqn:Ei; [|done]. cbn [defined rbind].
  destruct (f _ _ _) as [[[a rc'] new]| | |] eqn:E; try done. intros [= _ <- <-]. apply Hf in E; [|done].
  split; [destruct Hst; constructor; try done; by apply Forall_insert|]. eexists. split; [done|]. apply Forall_fmap, Forall_true. done.
Qed.

Lemma e_controls {A} (f : ControlEnv -> list ControlObject -> list ControlEvent -> res (A * list ControlObject * list ControlEvent)) :
  (forall env os es a os' es', Forall (control_reachable malloc) os -> f env os es = Done (a, os', es') ->
    Forall (control_reachable malloc) os') -> safe (on_controls w f).
Proof using.
  intros Hf st es u st' es' Hst. unfold on_controls. destruct (f _ _ _) as [[[a os] new]| | |] eqn:E; try done. intros [= _ <- <-].
  apply Hf in E; [|apply Hst]. split; [by destruct Hst; constructor|]. eexists. split; [done|]. apply Forall_fmap, Forall_true. done.
Qed.

Lemma e_goose {A} i (f : ReportEnv -> G A) : (forall env, sends gcb_off no_event (f env)) -> safe (on_goose w i f).
Proof using.
  intros Hf st es u st' es' Hst. unfold on_goose. destruct (sv_gseControls st !! i) as [gcb|] eqn:Ei; [|done]. cbn [defined rbind].
  destruct (f _ _ _) as [[[a gcb'] new]| | |] eqn:E; try done. intros [= _ <- <-].
  assert (gcb_off gcb) as Hg by (eapply Forall_lookup_1; [apply (si_goose st Hst)|done]).
  destruct (Hf _ _ _ _ _ _ Hg E) as (Hg' & new' & -> & Hn). split; [destruct Hst; constructor; try done; by apply Forall_insert|].
  exists []. split; [|constructor]. destruct Hn as [|? ? []]. done.
Qed.

Lemma e_gooses f : (forall env, sends gcb_off no_event (f env)) -> safe (on_gooses w f).
Proof using.
  intros Hf. unfold on_gooses. apply e_bind; [apply e_get|]. intros st. generalize (seq 0 (length (sv_gseControls st))). intros is'.
  induction is' as [|i is' IH]; [apply e_ret|]. apply e_bind; [by apply e_goose|by intros ?].
Qed.

(** ** Updates *)

Lemma reachable_trigger st l flag env rc es rc' es' : rcb_reachable sizes malloc rc ->
  trigger_report w st l flag env rc es = Done (tt, rc', es') -> rcb_reachable sizes malloc rc'.
Proof using Hsizes Hmalloc.
  intros Hr. unfold trigger_report, self. rewrite bind_get. destruct (_ && _); [|by intros [= <- _]].
  intros H. apply cbind_inv in H as (d & s1 & es1 & (Hd & -> & ->)%clift_inv & H).
  apply cbind_inv in H as (r & s1 & es1 & (_ & -> & ->)%clift_inv & H). destruct r as [i|]; [|by injection H as <- _].
  rewrite Hsizes, Hmalloc in H. by eapply rr_updated.
Qed.

Lemma e_triggerReportObservers l flag : safe (MmsMapping_triggerReportObservers w l flag).
Proof using Hsizes Hmalloc.
  apply e_bind; [apply e_get|]. intros st. apply e_reports. intros env rcs es rcs' es' Henv.
  apply each_reachable. intros rc es1 rc' es2. apply reachable_trigger.
Qed.

Lemma e_triggerGooseObservers l : safe (MmsMapping_triggerGooseObservers w l).
Proof using. apply e_bind; [apply e_get|]. intros st. apply e_gooses. intros env. apply e_trigger_goose. Qed.
Hint Resolve e_triggerReportObservers e_triggerGooseObservers : sends.

Lemma e_server : safe server.
Proof using. apply e_get. Qed.
Hint Resolve e_server : sends.

Lemma e_checkForUpdateTrigger da : safe (checkForUpdateTrigger w da).
Proof using Hsizes Hmalloc. unfold checkForUpdateTrigger. sends_run. Qed.

Lemma e_checkForChangedTriggers da : safe (checkForChangedTriggers w da).
Proof using Hsizes Hmalloc. unfold checkForChangedTriggers. sends_run. Qed.

(** A value that is replaced by one of its types. *)
Lemma store_inv st l v x : server_inv st -> load (sv_valueCaches st) l = Some v -> keeps_type v x ->
  server_inv (sv_set_valueCaches (store (sv_valueCaches st) l x) st).
Proof using.
  intros [] Hv Hk. destruct si_caches0 as (made & Hm & Hc). constructor; try done; cbn [sv_valueCaches sv_set_valueCaches].
  - exists made. split; [done|]. by eapply store_wf.
  - intros a h Hh. destruct (si_pointers0 a h Hh) as (l' & Hl & Hl'). exists l'. split; [done|]. by eapply load_store_valid.
Qed.

(** An element of an array is written. *)
Lemma element_step place array index element value ok v st es u st' es' : server_inv st ->
  load_value st place = Done array -> MmsValue_getElement array index = Some element ->
  MmsValue_update element value = Done (ok, v) -> store_value (child_at place (Z.to_nat index)) v st es = Done (u, st', es') ->
  server_inv st' /\ es' = es.
Proof using.
  intros Hst Ha He Hu [= _ <- <-]. split; [|done]. unfold load_value in Ha.
  destruct (load (sv_valueCaches st) place) as [x|] eqn:El; [|done]. injection Ha as ->.
  eapply store_inv; [done|by eapply load_element|]. intros t Ht. by eapply MmsValue_update_typed.
Qed.

(** Lists of variables come and go. *)
Lemma lists_inv st domains : server_inv st -> Forall2 same_variables (sv_mmsDevice st) domains -> server_inv (sv_set_mmsDevice domains st).
Proof using.
  intros [] Hd. constructor; try done; cbn [sv_mmsDevice sv_set_mmsDevice sv_valueCaches].
  - by eapply same_named.
  - by eapply cached_for_lists.
Qed.

Lemma update_step da same set st es st' es' : server_inv st -> (forall v x, set v = Done x -> keeps_type v x) ->
  update_attribute_value w da same set st es = Done (tt, st', es') ->
  server_inv st' /\ exists new, es' = es ++ new /\ Forall not_goose new.
Proof using Hsizes Hmalloc.
  intros Hst Hset. unfold update_attribute_value, server. rewrite bind_get. intros H.
  apply cbind_inv in H as (l & s1 & es1 & (_ & -> & ->)%clift_inv & H).
  apply cbind_inv in H as (v & s1 & es1 & (Hv & -> & ->)%clift_inv & H).
  apply cbind_inv in H as (b & s1 & es1 & (_ & -> & ->)%clift_inv & H).
  destruct b; [by eapply e_checkForUpdateTrigger|].
  apply cbind_inv in H as (x & s1 & es1 & (Hx & -> & ->)%clift_inv & H). unfold store_value in H. rewrite bind_modify in H.
  eapply e_checkForChangedTriggers; [|exact H]. unfold load_value, defined in Hv.
  destruct (load (sv_valueCaches st) l) as [v'|] eqn:E; [|done]. injection Hv as ->. eapply store_inv; [done|exact E|by apply Hset].
Qed.

Lemma e_assert_type da ok : safe (assert_type da ok).
Proof using. unfold assert_type. apply e_quiet; [|unfold server; quiet_run]. keeps_run; apply k_server. Qed.

(** An update of the application: the value that is stored has the type of the old one. *)
Lemma e_update_typed da t same set : (forall v x, set v = Done x -> keeps_type v x) -> safe (update_typed w da t same set).
Proof using Hsizes Hmalloc.
  intros Hset. apply e_bind; [apply e_assert_type|]. intros [] st es [] st' es' Hst H. by eapply update_step.
Qed.

Lemma e_updateAttributeValue da value : safe (IedServer_updateAttributeValue w da value).
Proof using Hsizes Hmalloc.
  apply e_bind; [apply e_assert_type|]. intros [] st es [] st' es' Hst H. eapply update_step; [done| |exact H].
  intros v x. cbv beta. destruct (MmsValue_update v value) as [[ok y]| | |] eqn:E; try done. cbn [rbind]. intros [= <-] t Ht. by eapply MmsValue_update_typed.
Qed.

Lemma e_updateQuality da quality : safe (IedServer_updateQuality w da quality).
Proof using Hsizes Hmalloc.
  unfold IedServer_updateQuality. apply e_bind; [apply e_lift|]. intros ?. apply e_bind; [apply e_assert_type|].
  intros ? st es [] st' es' Hst. unfold server. rewrite bind_get. intros H.
  apply cbind_inv in H as (l & s1 & es1 & (_ & -> & ->)%clift_inv & H).
  apply cbind_inv in H as (v & s1 & es1 & (Hv & -> & ->)%clift_inv & H).
  apply cbind_inv in H as (old & s1 & es1 & (_ & -> & ->)%clift_inv & H).
  destruct (old =? quality); [injection H as <- <-; split; [done|]; exists []; by rewrite app_nil_r|].
  apply cbind_inv in H as (x & s1 & es1 & (Hx & -> & ->)%clift_inv & H). unfold store_value in H. rewrite bind_modify in H.
  unfold load_value, defined in Hv. destruct (load (sv_valueCaches st) l) as [v'|] eqn:E; [|done]. injection Hv as ->.
  pose proof (store_inv st l v x Hst E (setBitString_type _ _ _ Hx)) as Hst'. revert Hst' H. generalize (sv_set_valueCaches (store (sv_valueCaches st) l x) st).
  intros st1 Hst1 H. eapply (e_bind server_inv not_goose); [| |exact Hst1|exact H]; [apply e_lift|]. intros b.
  apply e_bind; [destruct b; [apply e_triggerReportObservers|apply e_ret]|]. intros ?. apply e_triggerGooseObservers.
Qed.

(** ** Writing and reading *)

Lemma e_call_observer place c : safe (call_observer place c).
Proof using. unfold call_observer. apply e_bind; [apply e_get|]. intros st. apply e_bind; [apply e_lift|]. intros [o|]; [by apply e_emit|apply e_ret]. Qed.

Lemma e_write_attribute_value domain variableId behind value c : safe (write_attribute_value w domain variableId behind value c).
Proof using Hsizes Hmalloc.
  unfold write_attribute_value. apply e_bind; [apply e_get|]. intros st. apply e_bind; [apply e_lift|]. intros [place|]; [|apply e_ret].
  apply e_bind; [apply e_lift|]. intros current. apply e_bind; [apply e_lift|]. intros []; [|apply e_ret]. cbn [negb].
  apply e_bind; [apply e_lift|]. intros []; [|apply e_ret]. cbn [negb].
  apply e_bind; [destruct (IedModel_lookupDataAttributeByMmsValue _ _ _); [apply e_updateAttributeValue|apply e_ret]|]. intros ?.
  apply e_bind; [apply e_call_observer|]. intros ?. apply e_ret.
Qed.

Lemma on_object_reachable {A} i (c : C A) os es a os' es' : (forall o es a o' es', control_reachable malloc o -> c o es = Done (a, o', es') ->
    control_reachable malloc o') -> Forall (control_reachable malloc) os -> on_object i c os es = Done (a, os', es') ->
  Forall (control_reachable malloc) os'.
Proof using.
  intros Hc Hos. unfold on_object. destruct (os !! i) as [o|] eqn:Ei; [|done]. cbn [defined rbind].
  destruct (c o es) as [[[x o'] es1]| | |] eqn:E; try done. intros [= _ <- _]. apply Forall_insert; [done|].
  eapply Hc; [|exact E]. by eapply Forall_lookup_1.
Qed.

Lemma e_write_control domain variableId value c :
  safe (on_controls w (fun env os => Control_writeAccessControlObject (w_malloc w) env os domain variableId value c)).
Proof using Hmalloc.
  apply e_controls. intros env os es a os' es' Hos. unfold Control_writeAccessControlObject.
  destruct (parse_control_variable variableId) as [[[ln obj] [name|]]|]; try (by intros [= _ <- _]).
  destruct (Control_lookupControlObject os domain ln obj) as [i|]; [|by intros [= _ <- _]].
  apply on_object_reachable; [|done]. intros o es1 r o' es2 Ho Hr. rewrite Hmalloc in Hr. by eapply cr_write.
Qed.

Lemma e_read_control domain variableId c :
  safe (on_controls w (fun env os => Control_readAccessControlObject env os domain variableId c)).
Proof using.
  apply e_controls. intros env os es a os' es' Hos. unfold Control_readAccessControlObject.
  destruct (parse_control_variable variableId) as [[[ln obj] name]|]; [|by intros [= _ <- _]].
  destruct (Control_lookupControlObject os domain ln obj) as [i|]; [|by intros [= _ <- _]].
  apply on_object_reachable; [|done]. intros o es1 r o' es2 Ho Hr. by eapply cr_read.
Qed.

Lemma e_writeAccessGoose domain variableId value : safe (writeAccessGooseControlBlock w domain variableId value).
Proof using.
  unfold writeAccessGooseControlBlock. apply e_bind; [apply e_get|]. intros st. apply e_bind; [apply e_lift|].
  intros [[[ln obj] [name|]]|]; try apply e_ret. destruct (lookupGCB st domain ln obj); [|apply e_ret].
  apply e_goose. intros env. apply e_write_gcb.
Qed.

(** Writing to a report control block: the attribute must be one of the block. *)
Lemma write_rcb_step domain lnName variableId behind value c st es r st' es' : server_inv st -> writable st domain variableId ->
  strchr DOLLAR variableId = Some (lnName, behind) -> write_rcb w domain lnName variableId behind value c st es = Done (r, st', es') ->
  server_inv st' /\ exists new, es' = es ++ new /\ Forall not_goose new.
Proof using.
  intros Hst Hw Hs. unfold write_rcb, server. rewrite bind_get. intros H.
  assert (forall r0, cret r0 st es = Done (r, st', es') -> server_inv st' /\ exists new, es' = es ++ new /\ Forall not_goose new) as Hret.
  { intros r0 [= _ <- <-]. split; [done|]. exists []. by rewrite app_nil_r. }
  destruct (parse_rcb_variable variableId behind) as [[name el]|] eqn:Ep; [|by eapply Hret].
  destruct (find_rcb _ _ _ _) as [i|] eqn:Ei; [|by eapply Hret].
  apply cbind_inv in H as (e & s1 & es1 & (He & -> & ->)%clift_inv & H). destruct el as [el|]; [|done]. injection He as ->.
  eapply report_step; [done| |exact H]. intros rc es1 a rc' es2 Hrc Hr. eapply rr_write; [| | |exact Hr].
  - eapply Forall_lookup_1; [apply (si_reports st Hst)|exact Hrc].
  - by apply report_env_ok.
  - by eapply Hw.
Qed.

Lemma setValue_step domain variableId value c st es r st' es' : server_inv st -> writable st domain variableId ->
  mmsServer_setValue w domain variableId value c st es = Done (r, st', es') ->
  server_inv st' /\ exists new, es' = es ++ new /\ Forall not_goose new.
Proof using Hsizes Hmalloc.
  intros Hst Hw. unfold mmsServer_setValue, mmsWriteHandler.
  destruct (strchr DOLLAR variableId) as [[lnName behind]|] eqn:Es; [|by eapply e_ret].
  destruct (isControllable behind); [by eapply e_write_control|].
  destruct (isGooseControlBlock behind); [by eapply e_writeAccessGoose|].
  destruct (isReportControlBlock behind); [by eapply write_rcb_step|].
  destruct (isWritableFC behind); [by eapply e_write_attribute_value|by eapply e_ret].
Qed.

Lemma e_getValue domain variableId c : safe (mmsServer_getValue w domain variableId c).
Proof using.
  unfold mmsServer_getValue. apply e_bind; [apply e_get|]. intros st. apply e_bind; [apply e_lift|]. intros [v|]; [apply e_ret|].
  unfold mmsReadHandler. destruct (strchr DOLLAR variableId) as [[lnName behind]|]; [|apply e_ret].
  destruct (isControllable behind); [apply e_read_control|]. destruct (isGooseControlBlock behind).
  { unfold readAccessGooseControlBlock. apply e_bind; [apply e_get|]. intros st1. apply e_bind; [apply e_lift|].
    intros [[[ln obj] name]|]; [|apply e_ret]. destruct (lookupGCB st1 domain ln obj); [|apply e_ret].
    apply e_bind; [apply e_lift|]. intros gcb. destruct name; [apply e_lift|apply e_ret]. }
  destruct (isReportControlBlock behind); [|apply e_ret]. unfold read_rcb. apply e_bind; [apply e_get|]. intros st1.
  destruct (parse_rcb_variable variableId behind) as [[name el]|]; [|apply e_ret]. destruct (find_rcb _ _ _ _); [|apply e_ret].
  apply e_bind; [apply e_lift|]. intros rc. destruct el as [[|]|]; [apply e_ret|apply e_lift|apply e_ret].
Qed.
(** ** Connections, events and threads *)

Lemma e_indicate connection connected : safe (indicate connection connected).
Proof using. apply e_bind; [apply e_get|]. intros st. destruct (sv_connectionIndicationHandler st); [by apply e_emit|apply e_ret]. Qed.

(** What the invariant does not look at. *)
Lemma e_unrelated f : (forall st, sv_mmsDevice (f st) = sv_mmsDevice st /\ sv_valueCaches (f st) = sv_valueCaches st /\
    sv_attributeValues (f st) = sv_attributeValues st /\ sv_model (f st) = sv_model st /\
    sv_reportControls (f st) = sv_reportControls st /\ sv_controlObjects (f st) = sv_controlObjects st /\
    sv_gseControls (f st) = sv_gseControls st) -> safe (cmodify f).
Proof using.
  intros Hf. apply e_modify. intros st []. destruct (Hf st) as (H1 & H2 & H3 & H4 & H5 & H6 & H7).
  constructor; by rewrite ?H1, ?H2, ?H3, ?H4, ?H5, ?H6, ?H7.
Qed.

Lemma unselect_reachable env c os es os' es' : Forall (control_reachable malloc) os ->
  unselectControlsForConnection env os c es = Done (os', es') -> Forall (control_reachable malloc) os'.
Proof using.
  intros Hos. revert es os' es'. induction Hos as [|o os Ho Hos IH]; intros es os' es'; cbn [unselectControlsForConnection]; [by intros [= <- _]|].
  destruct (ControlObject_unselect env c o es) as [[[b o'] es1]| | |] eqn:E; try done. cbn [rbind].
  pose proof (cr_unselect _ _ _ _ _ _ _ _ Ho E). destruct b; [intros [= <- _]; by constructor|].
  destruct (unselectControlsForConnection env os c es1) as [[os1 es2]| | |] eqn:E1; try done. cbn [rbind].
  intros [= <- _]. constructor; [done|by eapply IH].
Qed.

Lemma actions_reachable env t os es os' es' : Forall (control_reachable malloc) os ->
  Control_processControlActions env os t es = Done (os', es') -> Forall (control_reachable malloc) os'.
Proof using.
  intros Hos. revert es os' es'. induction Hos as [|o os Ho Hos IH]; intros es os' es'; cbn [Control_processControlActions]; [by intros [= <- _]|].
  destruct (processControlAction env t o es) as [[[b o'] es1]| | |] eqn:E; try done. cbn [rbind].
  destruct (Control_processControlActions env os t es1) as [[os1 es2]| | |] eqn:E1; try done. cbn [rbind].
  intros [= <- _]. constructor; [by eapply cr_action|by eapply IH].
Qed.

Lemma e_connection c event : safe (mmsConnectionHandler w c event).
Proof using.
  destruct event.
  - apply e_bind; [by apply e_unrelated|]. intros _. apply e_indicate.
  - apply e_bind; [apply e_get|]. intros st. apply e_bind; [apply e_lift|]. intros c'.
    apply e_bind; [apply e_indicate|]. intros _. apply e_bind; [by apply e_unrelated|]. intros _.
    apply e_bind; [apply e_reports|intros _; apply e_controls].
    + intros env rcs es rcs' es' _. apply each_reachable. intros rc es1 rc' es2 Hr H. by eapply rr_deactivate.
    + intros env os es a os' es' Hos. destruct (unselectControlsForConnection env os c es) as [[os1 es1]| | |] eqn:E; try done.
      cbn [rbind]. intros [= _ <- _]. by eapply unselect_reachable.
Qed.

Lemma e_process_goose t env : sends gcb_off no_event (process_goose t env).
Proof using. apply e_bind_get. intros gcb Hg. unfold MmsGooseControlBlock_isEnabled. rewrite (proj1 Hg). apply e_ret. Qed.

Lemma e_round : safe (eventWorkerThread_round w).
Proof using Hsizes Hmalloc.
  apply e_bind; [apply e_gooses; intros env; apply e_process_goose|]. intros _. apply e_bind; [apply e_controls|intros _; apply e_reports].
  - intros env os es a os' es' Hos. destruct (Control_processControlActions env os (w_time w) es) as [[os1 es1]| | |] eqn:E; try done.
    cbn [rbind]. intros [= _ <- _]. by eapply actions_reachable.
  - intros env rcs es rcs' es' _. unfold Reporting_processReportEvents. rewrite Hsizes, Hmalloc.
    apply each_reachable. intros rc es1 rc' es2 Hr H. by eapply rr_events.
Qed.

Lemma e_thread i : safe (run_control_thread w i).
Proof using.
  apply e_controls. intros env os es a os' es'. apply on_object_reachable. intros o es1 r o' es2 Ho H. by eapply cr_thread.
Qed.

(** ** The application *)

Lemma e_enableGoose : safe (IedServer_enableGoosePublishing w).
Proof using. apply e_gooses. intros env. apply e_enable. Qed.

Lemma e_install path install : (forall o, control_reachable malloc o -> control_reachable malloc (install o)) ->
  safe (install_in_object path install).
Proof using.
  intros Hi. apply e_bind; [apply e_get|]. intros st. apply e_bind; [apply e_lift|]. intros [i|]; [|apply e_ret].
  apply e_modify. intros st1 []. constructor; try done. cbn [sv_controlObjects sv_set_controlObjects]. apply Forall_alter; [done|]. intros o _ Ho. by apply Hi.
Qed.

Lemma e_policy fc allow : safe (IedServer_setWriteAccessPolicy fc allow).
Proof using. unfold IedServer_setWriteAccessPolicy. destruct (policy_bit fc); [by apply e_unrelated|apply e_ret]. Qed.

(** Every operation of a server. *)
Lemma operation_safe {A} (c : SM A) st es a st' es' : server_inv st -> server_operation w st A c ->
  c st es = Done (a, st', es') -> server_inv st' /\ exists new, es' = es ++ new /\ Forall not_goose new.
Proof using Hsizes Hmalloc.
  intros Hst Hop. assert (forall c1 : SM A, safe c1 -> c1 st es = Done (a, st', es') ->
    server_inv st' /\ exists new, es' = es ++ new /\ Forall not_goose new) as Hsafe by (intros c1 Hc; by apply Hc).
  destruct Hop; [by eapply setValue_step| | |apply Hsafe..].
  - intros Hrun. eapply element_step in Hrun as [? ->]; [|done..]. split; [done|]. exists []. by rewrite app_nil_r.
  - intros [= _ <- <-]. split; [by apply lists_inv|]. exists []. by rewrite app_nil_r.
  - apply e_getValue.
  - apply e_connection.
  - apply e_round.
  - apply e_thread.
  - apply e_updateAttributeValue.
  - apply e_update_typed. intros v x. apply setFloat_type.
  - apply e_update_typed. intros v x. apply set_signed_type.
  - apply e_update_typed. intros v x. apply set_signed_type.
  - apply e_update_typed. intros v x. apply set_unsigned_type.
  - apply e_update_typed. intros v x. apply setBitString_type.
  - apply e_update_typed. intros v x. apply setBoolean_type.
  - apply e_update_typed. intros v x. apply setUtcTimeMs_type.
  - apply e_update_typed. intros v x [= <-]. apply setVisibleString_type.
  - apply e_updateQuality.
  - apply e_enableGoose.
  - apply e_policy.
  - by apply e_unrelated.
  - by apply e_unrelated.
  - by apply e_unrelated.
  - apply e_install, cr_listener.
  - apply e_install, cr_check.
  - apply e_install, cr_wait.
Qed.
End World.
End Invariant.
