(* ===== verification/MappingFacts.v ===== *)
(** The MMS model mirrors the data model: what an object reference finds in the data
    model, its MMS name finds in the domain. *)
From Stdlib Require Import String.
From stdpp Require Import base tactics numbers option list.
From S2P Require Import Prelude MmsValue CString MmsTypeSpec Iec61850Common ReportControl Reporting ReportingAccess IedModel MmsGoose MappingModel NameMapping SampleServer.

(** * Names of several parts *)

Fixpoint join (c : Z) (names : list (list Z)) : list Z :=
  match names with
  | [] => []
  | [x] => x
  | x :: names => x ++ c :: join c names
  end.

Lemma join_cons c x y names : join c (x :: y :: names) = x ++ c :: join c (y :: names).
Proof. done. Qed.

Lemma replace_join a b names : Forall (lacks a) names ->
  StringUtils_replace (join a names) a b = join b names.
Proof.
  induction 1 as [|x names Hx Hn IH]; [done|]. destruct names as [|y names]; [by apply replace_none|].
  rewrite !join_cons, replace_app, replace_cons, IH, Z.eqb_refl. by rewrite (replace_none x).
Qed.

Lemma join_lacks a c names : Forall (lacks a) names -> c <> a -> lacks a (join c names).
Proof.
  intros Hn Hc. induction Hn as [|x names Hx Hn IH]; [constructor|]. destruct names as [|y names]; [done|].
  rewrite join_cons. apply lacks_app. split; [done|]. by constructor.
Qed.

Lemma plain_names names c : Forall plain names -> c ∈ separators -> Forall (lacks c) names.
Proof. intros H Hc. eapply Forall_impl; [exact H|]. intros x Hx. by apply plain_lacks. Qed.

(** * What the search for a name finds *)

Lemma find_node_in nodes name n : find_node nodes name = Some n -> n ∈ nodes /\ mn_name n = name.
Proof.
  induction nodes as [|x nodes IH]; simpl; [done|]. case_bool_decide as E.
  - intros [= <-]. by split; [left|].
  - intros H. destruct (IH H). by split; [right|].
Qed.

(** The first node of a name is still the first when other nodes are left out. *)
Lemma find_node_filter (P : ModelNode -> Prop) `{forall x, Decision (P x)} nodes name n :
  find_node nodes name = Some n -> P n -> find_node (filter P nodes) name = Some n.
Proof.
  intros Hf Hn. induction nodes as [|x nodes IH]; simpl in *; [done|]. rewrite filter_cons. case_bool_decide as E.
  - injection Hf as ->. rewrite decide_True by done. simpl. by rewrite bool_decide_true.
  - destruct (decide (P x)); [simpl; rewrite bool_decide_false by done|]; by apply IH.
Qed.

(** Variables made of nodes: they are found by the names of the nodes. *)
Lemma find_named_each (f : ModelNode -> res MmsVariableSpecification) nodes es name n :
  Forall2 (fun x y => f x = Done y) nodes es ->
  (forall x e, x ∈ nodes -> f x = Done e -> spec_name e = Some (mn_name x)) ->
  find_node nodes name = Some n -> exists e, f n = Done e /\ find_named es name = Done (Some e).
Proof.
  induction 1 as [|x e nodes es He _ IH]; simpl; [done|]. intros Hnames. rewrite (Hnames x e) by (done || left). simpl.
  case_bool_decide as E.
  - intros [= <-]. by exists e.
  - intros Hf. apply IH; [|done]. intros y e' Hy. apply Hnames. by right.
Qed.

(** * Attributes and objects *)

Lemma in_array_name k name make : (forall n, spec_name (make n) = n) -> spec_name (in_array k name make) = Some name.
Proof. intros H. unfold in_array. by destruct (0 <? k); [|apply H]. Qed.

Lemma attribute_name n e : createNamedVariableFromDataAttribute n = Done e -> spec_name e = Some (mn_name n).
Proof.
  destruct n as [a t name children]. cbn [createNamedVariableFromDataAttribute].
  destruct (node_elementCount _) as [k| | |]; try done. cbn [rbind]. destruct children as [|c cs].
  - destruct (as_attribute _) as [at_| | |]; try done. intros [= <-]. apply in_array_name. intros m. by destruct (da_type at_).
  - destruct (each_res _ _); try done. intros [= <-]. by apply in_array_name.
Qed.

(** A node that is no array. *)
Definition single (n : ModelNode) : Prop := exists k, node_elementCount n = Done k /\ k <= 0.

Lemma in_array_single k name make : k <= 0 -> in_array k name make = make (Some name).
Proof. intros Hk. unfold in_array. by rewrite (proj2 (Z.ltb_ge 0 k)). Qed.

Lemma attribute_elements n e : createNamedVariableFromDataAttribute n = Done e -> mn_children n <> [] -> single n ->
  exists es, e = SpecStructure (Some (mn_name n)) es /\
    Forall2 (fun x y => createNamedVariableFromDataAttribute x = Done y) (mn_children n) es.
Proof.
  destruct n as [a t name children]. cbn [createNamedVariableFromDataAttribute mn_children mn_name].
  intros He Hc (k & Hk & Hk0). rewrite Hk in He. cbn [rbind] in He.
  destruct children as [|c cs]; [done|]. destruct (each_res _ _) as [es| | |] eqn:E; try done. injection He as <-.
  exists es. split; [by rewrite in_array_single|by apply each_res_Forall2].
Qed.

(** The element that is made of a child. *)
Definition element_of (fc : FunctionalConstraint) (c : ModelNode) : res MmsVariableSpecification :=
  match mn_modelType c with
  | DataAttributeModelType _ _ => createNamedVariableFromDataAttribute c
  | _ => createFCNamedVariableFromDataObject fc c
  end.

Lemma object_fill fc o e : createFCNamedVariableFromDataObject fc o = Done e ->
  exists k es, node_elementCount o = Done k /\ e = in_array k (mn_name o) (fun n => SpecStructure n es) /\
    Forall2 (fun x y => element_of fc x = Done y) (filter (fun c => child_has_fc fc c = true) (mn_children o)) es.
Proof.
  destruct o as [a t name children]. cbn [createFCNamedVariableFromDataObject mn_children mn_name]. intros He.
  destruct (node_elementCount _) as [k| | |]; try done. cbn [rbind] in He. exists k.
  match type of He with (let! _ := ?fill children in _) = _ => set (go := fill) in He end.
  assert (forall cs es, go cs = Done es ->
    Forall2 (fun x y => element_of fc x = Done y) (filter (fun c => child_has_fc fc c = true) cs) es) as Hgo.
  { intros cs. induction cs as [|c cs IH]; intros es; cbn [go]; [by intros [= <-]; constructor|]. rewrite filter_cons.
    destruct (child_has_fc fc c) eqn:Ec; [rewrite decide_True by done|rewrite decide_False by done; apply IH].
    fold (element_of fc c). destruct (element_of fc c) as [x| | |] eqn:Ex; try done. cbn [rbind].
    fold go. destruct (go cs) as [ys| | |]; try done. intros [= <-]. constructor; [done|by apply IH]. }
  destruct (go children) as [es| | |] eqn:E; try done. injection He as <-. exists es. by split_and!; [| |apply Hgo].
Qed.

Lemma object_name fc o e : createFCNamedVariableFromDataObject fc o = Done e -> spec_name e = Some (mn_name o).
Proof. intros (k & es & _ & -> & _)%object_fill. by apply in_array_name. Qed.

Lemma element_name fc c e : element_of fc c = Done e -> spec_name e = Some (mn_name c).
Proof. unfold element_of. destruct (mn_modelType c); (apply object_name || apply attribute_name). Qed.

(** ** Paths to attributes *)

(** The names lead from an attribute to one of its components. *)
Inductive component_path : ModelNode -> list (list Z) -> ModelNode -> Prop :=
| component_here n : component_path n [] n
| component_next n name c names m : single n -> find_node (mn_children n) name = Some c ->
    component_path c names m -> component_path n (name :: names) m.

(** The names lead from a data object to an attribute of the functional constraint, or
    to a component of one; on the way there is no array. *)
Inductive attribute_path (fc : FunctionalConstraint) : ModelNode -> list (list Z) -> ModelNode -> Prop :=
| path_object o name c k names m : single o -> find_node (mn_children o) name = Some c ->
    mn_modelType c = DataObjectModelType k -> attribute_path fc c names m -> attribute_path fc o (name :: names) m
| path_attribute o name c k a names m : single o -> find_node (mn_children o) name = Some c ->
    mn_modelType c = DataAttributeModelType k a -> da_fc a = fc ->
    component_path c names m -> attribute_path fc o (name :: names) m.

Lemma path_has_fc fc o names m : attribute_path fc o names m -> DataObject_hasFCData fc o = true.
Proof.
  induction 1 as [o name c k names m _ Hf Hc _ IH|o name c k a names m _ Hf Hc Ha _];
    apply find_node_in in Hf as [Hin _]; destruct o as [ad t n children]; cbn [DataObject_hasFCData mn_children] in *;
    apply existsb_exists; exists c; rewrite Hc; (split; [by apply list_elem_of_In|]); [done|by apply bool_decide_true].
Qed.

Lemma path_child_has_fc fc o names m k : attribute_path fc o names m -> mn_modelType o = DataObjectModelType k ->
  child_has_fc fc o = true.
Proof. intros H E. unfold child_has_fc. rewrite E. by eapply path_has_fc. Qed.

Lemma find_node_children n name c : find_node (mn_children n) name = Some c -> mn_children n <> [].
Proof. by destruct (mn_children n). Qed.

Lemma path_children n name names m : component_path n (name :: names) m -> mn_children n <> [] /\ single n.
Proof. intros Hp. inversion Hp; subst. split; [by eapply find_node_children|done]. Qed.

(** The variable of a component is found below that of the attribute. *)
Lemma find_component n names m e : component_path n names m -> createNamedVariableFromDataAttribute n = Done e ->
  Forall plain names -> names <> [] ->
  exists t, createNamedVariableFromDataAttribute m = Done t /\ getNamedVariableRecursive e (join DOLLAR names) = Done (Some t).
Proof.
  intros Hp. revert e. induction Hp as [n|n name c names m Hs Hf Hp IH]; intros e He Hnames Hne; [done|].
  pose proof (find_node_in _ _ _ Hf) as [Hin Hname].
  destruct (attribute_elements n e He) as (es & -> & Hes); [by eapply find_node_children|done|].
  destruct (find_named_each _ _ _ _ _ Hes (fun x e _ => attribute_name x e) Hf) as (ec & Hec & Hfind).
  apply Forall_cons_1 in Hnames as [Hx Hxs].
  assert (strchr DOLLAR name = None) as Hno by (apply strchr_none, plain_lacks; [done|in_separators]).
  destruct names as [|y names].
  - inversion Hp; subst. exists ec. split; [done|]. cbn [join getNamedVariableRecursive]. by rewrite Hno.
  - destruct (IH ec Hec Hxs ltac:(done)) as (t & Ht & Hr). exists t. split; [done|].
    rewrite join_cons. destruct (attribute_elements c ec Hec) as (ecs & -> & _).
    + by eapply path_children.
    + by eapply path_children.
    + eapply getNamedVariableRecursive_app; [|exact Hr]. cbn [getNamedVariableRecursive]. by rewrite Hno.
Qed.

(** The variable of an attribute is found below that of the data object. *)
Lemma find_attribute fc o names m e : attribute_path fc o names m -> createFCNamedVariableFromDataObject fc o = Done e ->
  Forall plain names ->
  exists t, createNamedVariableFromDataAttribute m = Done t /\ getNamedVariableRecursive e (join DOLLAR names) = Done (Some t).
Proof.
  intros Hp. revert e. induction Hp as [o name c k names m Hs Hf Hc Hp IH|o name c k a names m Hs Hf Hc Ha Hp]; intros e He Hnames;
    apply object_fill in He as (k' & es & Hk & -> & Hes); destruct Hs as (k0 & Hk0 & Hle); rewrite Hk0 in Hk; injection Hk as <-;
    rewrite in_array_single by done; apply Forall_cons_1 in Hnames as [Hx Hxs];
    assert (strchr DOLLAR name = None) as Hno by (apply strchr_none, plain_lacks; [done|in_separators]).
  - destruct (find_named_each _ _ _ name c Hes (fun x e _ => element_name fc x e)) as (ec & Hec & Hfind).
    { apply find_node_filter; [done|]. by eapply path_child_has_fc. }
    unfold element_of in Hec. rewrite Hc in Hec. destruct (IH ec Hec Hxs) as (t & Ht & Hr). exists t. split; [done|].
    destruct names as [|y names]; [by inversion Hp|]. rewrite join_cons.
    apply object_fill in Hec as (kc & ecs & Hkc & -> & _).
    assert (single c) as (k1 & Hk1 & Hle1) by (by inversion Hp). rewrite Hk1 in Hkc. injection Hkc as <-.
    rewrite in_array_single in Hfind, Hr by done.
    eapply getNamedVariableRecursive_app; [|exact Hr]. cbn [getNamedVariableRecursive]. by rewrite Hno.
  - destruct (find_named_each _ _ _ name c Hes (fun x e _ => element_name fc x e)) as (ec & Hec & Hfind).
    { apply find_node_filter; [done|]. unfold child_has_fc. rewrite Hc. by apply bool_decide_true. }
    unfold element_of in Hec. rewrite Hc in Hec.
    destruct names as [|y names].
    + inversion Hp; subst. exists ec. split; [done|]. cbn [join getNamedVariableRecursive]. by rewrite Hno.
    + destruct (find_component c _ m ec Hp Hec Hxs ltac:(done)) as (t & Ht & Hr). exists t. split; [done|].
      rewrite join_cons. destruct (attribute_elements c ec Hec) as (ecs & -> & _).
      * by eapply path_children.
      * by eapply path_children.
      * eapply getNamedVariableRecursive_app; [|exact Hr]. cbn [getNamedVariableRecursive]. by rewrite Hno.
Qed.

(** * Logical nodes *)

Lemma find_named_app xs ys name r : find_named xs name = Done r ->
  find_named (xs ++ ys) name = match r with Some e => Done (Some e) | None => find_named ys name end.
Proof.
  induction xs as [|x xs IH]; simpl; [by intros [= <-]|]. destruct (spec_name x) as [n|]; [|done]. simpl.
  case_bool_decide; [by intros [= <-]|done].
Qed.

Lemma other_fc (f fc : FunctionalConstraint) fcs : f <> fc -> bool_decide (fc ∈ f :: fcs) = bool_decide (fc ∈ fcs).
Proof. intros Hne. apply bool_decide_ext. rewrite elem_of_cons. by split; [intros [->|]|right]. Qed.

(** The variable of a functional constraint, among those of a list. *)
Lemma find_fc fcs ln es fc s : fc_elements fcs ln = Done es -> Forall (fun f => is_Some (FunctionalConstraint_toString f)) fcs ->
  FunctionalConstraint_toString fc = Some s -> LogicalNode_hasFCData fc ln = true ->
  if bool_decide (fc ∈ fcs) then exists e, createFCNamedVariable fc ln = Done e /\ find_named es s = Done (Some e)
  else find_named es s = Done None.
Proof.
  intros Hes Hall Hs Hhas. unfold fc_elements in Hes. apply each_res_Forall2 in Hes.
  assert (forall f e, createFCNamedVariable f ln = Done e -> spec_name e = FunctionalConstraint_toString f) as Hname.
  { intros f e. unfold createFCNamedVariable. destruct (each_res _ _); try done. by intros [= <-]. }
  revert es Hes. induction fcs as [|f fcs IH]; intros es Hes; [by inversion Hes|].
  apply Forall_cons_1 in Hall as [[sf Hf] Hall]. rewrite filter_cons in Hes.
  destruct (decide (LogicalNode_hasFCData f ln = true)) as [Hfd|Hfd].
  - inversion Hes as [|? e ? es' He Hes']; subst. simpl. rewrite (Hname _ _ He), Hf. simpl.
    destruct (decide (f = fc)) as [->|Hne].
    + rewrite bool_decide_true by left. exists e. rewrite bool_decide_true by congruence. done.
    + rewrite (bool_decide_false (sf = s)).
      * rewrite other_fc by done. by apply IH.
      * intros ->. apply Hne. apply fc_name_inj; [by rewrite Hf|congruence].
  - rewrite other_fc by (by intros ->). by apply IH.
Qed.

Definition block_names : list (list Z) := [lit "RP"; lit "BR"; lit "GO"].

Lemma fc_no_block fc s : FunctionalConstraint_toString fc = Some s -> s ∉ block_names.
Proof. destruct fc; intros [= <-]; apply (bool_decide_unpack _); vm_compute; done. Qed.

Lemma find_blocks es s : Forall (fun e => exists n, spec_name e = Some n /\ n ∈ block_names) es -> s ∉ block_names ->
  find_named es s = Done None.
Proof.
  intros H Hs. induction H as [|e es (n & Hn & Hin) _ IH]; simpl; [done|]. rewrite Hn. simpl.
  by rewrite bool_decide_false by (by intros ->).
Qed.

Definition front_fcs : list FunctionalConstraint := [MX; ST; CO; CF; DC; SP; SG].
Definition back_fcs : list FunctionalConstraint := [SV; SE; EX; SR; OR; BL].

(** The blocks of one kind are left out, or their variable is made. *)
Definition rcbs_made (model : IedModel) (d : MmsDomain) (ln : ModelNode) (buffered : bool) (rcs rcs' : list ReportControl)
    (es : list MmsVariableSpecification) : Prop :=
  (rcs' = rcs /\ es = []) \/ exists n specs, create_rcbs n (im_rcbs model) d (as_logical_node ln) buffered 0 rcs = Done (rcs', specs) /\
    es = [SpecStructure (Some (lit (if buffered then "BR" else "RP"))) specs].
Definition gcbs_made (model : IedModel) (d : MmsDomain) (ln : ModelNode) (gcbs gcbs' : list MmsGooseControlBlock)
    (es : list MmsVariableSpecification) : Prop :=
  (gcbs' = gcbs /\ es = []) \/ exists n specs, create_gcbs n (im_gseCBs model) d (as_logical_node ln) 0 gcbs = Done (gcbs', specs) /\
    es = [SpecStructure (Some (lit "GO")) specs].

(** The structure of a node begins with the variables of some functional constraints,
    goes on with those of its control blocks, and ends with the other constraints. *)
Lemma logicalNode_inv model d ln blocks v blocks' : createNamedVariableFromLogicalNode model d ln blocks = Done (v, blocks') ->
  exists front rcs rp rcs' br gcbs go back, v = SpecStructure (Some (mn_name ln)) (front ++ (rp ++ br ++ go) ++ back) /\
    blocks' = mkBlocks rcs' gcbs /\ fc_elements front_fcs ln = Done front /\ fc_elements back_fcs ln = Done back /\
    rcbs_made model d ln false (cb_reportControls blocks) rcs rp /\ rcbs_made model d ln true rcs rcs' br /\
    gcbs_made model d ln (cb_gseControls blocks) gcbs go.
Proof.
  unfold createNamedVariableFromLogicalNode. cbv zeta. fold front_fcs back_fcs.
  destruct (fc_elements front_fcs ln) as [front| | |] eqn:Ef; try done. cbn [rbind].
  match goal with |- (let! x := ?m in _) = _ -> _ => destruct m as [[rcs rp]| | |] eqn:Erp; try done end. cbn [rbind].
  match goal with |- (let! x := ?m in _) = _ -> _ => destruct m as [[rcs2 br]| | |] eqn:Ebr; try done end. cbn [rbind].
  match goal with |- (let! x := ?m in _) = _ -> _ => destruct m as [[gcbs go]| | |] eqn:Ego; try done end. cbn [rbind].
  destruct (fc_elements back_fcs ln) as [back| | |] eqn:Eb; try done. cbn [rbind].
  match goal with |- (if ?c then _ else _) = _ -> _ => destruct c; [done|] end. intros [= <- <-].
  exists front, rcs, rp, rcs2, br, gcbs, go, back. split; [by rewrite !app_assoc|]. do 3 (split; [done|]). split_and!.
  - match type of Erp with (if ?c then _ else _) = _ => destruct c end; [|injection Erp as <- <-; by left].
    unfold Reporting_createMmsUnbufferedRCBs in Erp. destruct (create_rcbs _ _ _ _ _ _ _) as [[? ?]| | |] eqn:E; try done. injection Erp as <- <-.
    right. by eexists _, _.
  - match type of Ebr with (if ?c then _ else _) = _ => destruct c end; [|injection Ebr as <- <-; by left].
    unfold Reporting_createMmsBufferedRCBs in Ebr. destruct (create_rcbs _ _ _ _ _ _ _) as [[? ?]| | |] eqn:E; try done. injection Ebr as <- <-.
    right. by eexists _, _.
  - match type of Ego with (if ?c then _ else _) = _ => destruct c end; [|injection Ego as <- <-; by left].
    unfold GOOSE_createGOOSEControlBlocks in Ego. destruct (create_gcbs _ _ _ _ _ _) as [[? ?]| | |] eqn:E; try done. injection Ego as <- <-.
    right. by eexists _, _.
Qed.

(** The names of the variables of the blocks. *)
Lemma block_elements model d ln rcs rcs1 rp rcs2 br gcbs gcbs' go : rcbs_made model d ln false rcs rcs1 rp ->
  rcbs_made model d ln true rcs1 rcs2 br -> gcbs_made model d ln gcbs gcbs' go ->
  Forall (fun e => exists n, spec_name e = Some n /\ n ∈ block_names) (rp ++ br ++ go).
Proof.
  intros Hrp Hbr Hgo. rewrite !Forall_app. split_and!.
  - destruct Hrp as [[_ ->]|(n & specs & _ & ->)]; [constructor|]. constructor; [|done]. exists (lit "RP"). split; [done|]. repeat constructor.
  - destruct Hbr as [[_ ->]|(n & specs & _ & ->)]; [constructor|]. constructor; [|done]. exists (lit "BR"). split; [done|].
    unfold block_names. repeat constructor.
  - destruct Hgo as [[_ ->]|(n & specs & _ & ->)]; [constructor|]. constructor; [|done]. exists (lit "GO"). split; [done|].
    unfold block_names. repeat constructor.
Qed.

Lemma logicalNode_elements model d ln blocks v blocks' : createNamedVariableFromLogicalNode model d ln blocks = Done (v, blocks') ->
  exists front mid back, v = SpecStructure (Some (mn_name ln)) (front ++ mid ++ back) /\
    fc_elements front_fcs ln = Done front /\ fc_elements back_fcs ln = Done back /\
    Forall (fun e => exists n, spec_name e = Some n /\ n ∈ block_names) mid.
Proof.
  intros (front & rcs1 & rp & rcs2 & br & gcbs & go & back & -> & _ & Hfront & Hback & Hrp & Hbr & Hgo)%logicalNode_inv.
  exists front, (rp ++ br ++ go), back. do 3 (split; [done|]). by eapply block_elements.
Qed.

(** The variable of a functional constraint, among all elements of a node. *)
Lemma find_fc_element ln front mid back fc s : fc_elements front_fcs ln = Done front -> fc_elements back_fcs ln = Done back ->
  Forall (fun e => exists n, spec_name e = Some n /\ n ∈ block_names) mid -> FunctionalConstraint_toString fc = Some s ->
  LogicalNode_hasFCData fc ln = true ->
  exists e, createFCNamedVariable fc ln = Done e /\ find_named (front ++ mid ++ back) s = Done (Some e).
Proof.
  intros Hfront Hback Hmid Hs Hln.
  pose proof (find_fc front_fcs ln front fc s Hfront ltac:(repeat constructor; by eexists) Hs Hln) as H1.
  pose proof (find_fc back_fcs ln back fc s Hback ltac:(repeat constructor; by eexists) Hs Hln) as H2.
  destruct (decide (fc ∈ front_fcs)) as [Hfr|Hfr]; [rewrite bool_decide_true in H1 by done|rewrite bool_decide_false in H1 by done].
  - destruct H1 as (e & He & H1). exists e. split; [done|]. by rewrite (find_named_app _ _ _ _ H1).
  - rewrite (find_named_app _ _ _ _ H1), (find_named_app _ _ _ _ (find_blocks _ _ Hmid (fc_no_block _ _ Hs))).
    rewrite bool_decide_true in H2; [done|]. destruct fc; try done; try (by destruct Hfr; unfold front_fcs; repeat constructor);
      unfold back_fcs; repeat constructor.
Qed.

(** The variable of an attribute is found below that of its logical node. *)
Lemma find_in_logicalNode model d ln blocks v blocks' fc s o name names m :
  createNamedVariableFromLogicalNode model d ln blocks = Done (v, blocks') ->
  FunctionalConstraint_toString fc = Some s -> find_node (mn_children ln) name = Some o -> attribute_path fc o names m ->
  plain name -> Forall plain names ->
  exists es t, v = SpecStructure (Some (mn_name ln)) es /\ createNamedVariableFromDataAttribute m = Done t /\
    getNamedVariableRecursive v (s ++ DOLLAR :: join DOLLAR (name :: names)) = Done (Some t).
Proof.
  intros Hv Hs Hf Hp Hx Hxs. apply logicalNode_elements in Hv as (front & mid & back & -> & Hfront & Hback & Hmid).
  pose proof (find_node_in _ _ _ Hf) as [Hin _]. pose proof (path_has_fc _ _ _ _ Hp) as Hhas.
  assert (LogicalNode_hasFCData fc ln = true) as Hln.
  { apply existsb_exists. exists o. split; [by apply list_elem_of_In|done]. }
  destruct (find_fc_element ln front mid back fc s Hfront Hback Hmid Hs Hln) as (e & He & Hfind).
  unfold createFCNamedVariable in He. destruct (each_res _ _) as [os| | |] eqn:Eos; try done. injection He as <-.
  apply each_res_Forall2 in Eos.
  destruct (find_named_each _ _ _ name o Eos (fun x e _ => object_name fc x e)) as (eo & Heo & Hfo).
  { by apply find_node_filter. }
  destruct (find_attribute fc o names m eo Hp Heo Hxs) as (t & Ht & Hr).
  exists (front ++ mid ++ back), t. split; [done|]. split; [done|].
  assert (strchr DOLLAR name = None) as Hno by (apply strchr_none, plain_lacks; [done|in_separators]).
  assert (strchr DOLLAR s = None) as Hnos by (apply strchr_none, plain_lacks; [by eapply fc_plain|in_separators]).
  eapply getNamedVariableRecursive_app; [cbn [getNamedVariableRecursive]; by rewrite Hnos|].
  destruct names as [|y names]; [by inversion Hp|]. rewrite join_cons.
  apply object_fill in Heo as (k & ecs & Hk & -> & _). assert (single o) as (k1 & Hk1 & Hle) by (by inversion Hp).
  rewrite Hk1 in Hk. injection Hk as <-. rewrite in_array_single in Hfo, Hr by done.
  eapply getNamedVariableRecursive_app; [|exact Hr]. cbn [getNamedVariableRecursive]. by rewrite Hno.
Qed.

(** * Devices *)

Lemma create_variables_find model d lns blocks vs blocks' name ln : create_variables model d lns blocks = Done (vs, blocks') ->
  find_node lns name = Some ln -> exists b b' v, createNamedVariableFromLogicalNode model d ln b = Done (v, b') /\
    find_named vs name = Done (Some v).
Proof.
  revert blocks vs blocks'. induction lns as [|x lns IH]; intros blocks vs blocks'; simpl; [done|].
  destruct (createNamedVariableFromLogicalNode model d x blocks) as [[v b]| | |] eqn:Ev; try done. cbn [rbind].
  destruct (create_variables model d lns b) as [[vs' b2]| | |] eqn:Es; try done. intros [= <- <-].
  pose proof (logicalNode_elements _ _ _ _ _ _ Ev) as (f & mi & ba & -> & _). cbn [find_named spec_name defined rbind].
  case_bool_decide as E; [intros [= <-]; by exists blocks, b, (SpecStructure (Some (mn_name x)) (f ++ mi ++ ba))|].
  intros Hf. by eapply IH.
Qed.

(** What a domain is known by, and its variables. *)
Definition domain_core (d : MmsDomain) := (md_address d, domainName d, namedVariables d).

Lemma createMmsDataModel_find model address lds blocks ds blocks' name ld : createMmsDataModel model address lds blocks = Done (ds, blocks') ->
  find_node lds name = Some ld -> exists d b b' vs, MmsDevice_getDomain ds name = Some d /\ namedVariables d = Some vs /\
    create_variables model (MmsDomain_create (md_address d) (mn_name ld)) (mn_children ld) b = Done (vs, b').
Proof.
  revert address blocks ds blocks'. induction lds as [|x lds IH]; intros address blocks ds blocks'; simpl; [done|].
  unfold createMmsDomainFromIedDevice.
  destruct (create_variables model _ (mn_children x) blocks) as [[vs b]| | |] eqn:Ev; try done. cbn [rbind].
  destruct (createMmsDataModel model (address + 1) lds b) as [[ds' b2]| | |] eqn:Es; try done. intros [= <- <-].
  cbn [MmsDevice_getDomain domainName]. case_bool_decide as E.
  - intros [= <-]. eexists _, blocks, b, vs. split; [done|]. split; [done|]. exact Ev.
  - intros Hf. by eapply IH.
Qed.

Lemma createMmsDataModel_addresses model address lds blocks ds blocks' : createMmsDataModel model address lds blocks = Done (ds, blocks') ->
  Forall (fun d => address <= md_address d) ds /\ NoDup (map md_address ds).
Proof.
  revert address blocks ds blocks'. induction lds as [|x lds IH]; intros address blocks ds blocks'; simpl; [intros [= <- <-]; repeat constructor|].
  unfold createMmsDomainFromIedDevice.
  destruct (create_variables model _ (mn_children x) blocks) as [[vs b]| | |]; try done. cbn [rbind].
  destruct (createMmsDataModel model (address + 1) lds b) as [[ds' b2]| | |] eqn:Es; try done. intros [= <- <-].
  destruct (IH _ _ _ _ Es) as [Hall Hnd]. split.
  - constructor; [simpl; lia|]. eapply Forall_impl; [exact Hall|]. simpl. lia.
  - constructor; [|done]. simpl. intros (d & Hd & Hin)%list_elem_of_fmap.
    rewrite Forall_forall in Hall. specialize (Hall _ Hin). lia.
Qed.

Lemma getDomain_in ds name d : MmsDevice_getDomain ds name = Some d -> d ∈ ds.
Proof. induction ds as [|x ds IH]; simpl; [done|]. case_bool_decide; [intros [= <-]; left|intros; right; auto]. Qed.

(** Adding a variable list to a domain changes no domain otherwise. *)
Lemma set_domain_core ds d d' : NoDup (map md_address ds) -> d ∈ ds -> domain_core d' = domain_core d ->
  map domain_core (set_domain ds d') = map domain_core ds.
Proof.
  intros Hnd Hin Hc. unfold set_domain. rewrite map_map. apply map_ext_in. intros x Hx%list_elem_of_In.
  destruct (Z.eqb_spec (md_address x) (md_address d')) as [E|]; [|done]. rewrite Hc. f_equal.
  assert (md_address d' = md_address d) as E' by (injection Hc; congruence).
  apply list_elem_of_lookup in Hin as [i Hi]. apply list_elem_of_lookup in Hx as [j Hj].
  assert (i = j) as -> by (eapply NoDup_lookup; [exact Hnd|by rewrite list_lookup_fmap, Hi|rewrite list_lookup_fmap, Hj; simpl; congruence]).
  congruence.
Qed.

Lemma core_addresses ds ds' : map domain_core ds = map domain_core ds' -> map md_address ds = map md_address ds'.
Proof. intros E. apply (f_equal (map (fun x => x.1.1))) in E. by rewrite !map_map in E. Qed.

Lemma createDataSets_core dss : forall ds ds', NoDup (map md_address ds) -> createDataSets ds dss = Done ds' ->
  map domain_core ds' = map domain_core ds.
Proof.
  induction dss as [|x dss IH]; intros ds ds' Hnd; simpl; [by intros [= <-]|].
  destruct (ds_logicalDeviceName x) as [n|]; [|done]. cbn [defined rbind].
  destruct (MmsDevice_getDomain ds n) as [d|] eqn:Ed; [|done]. cbn [defined rbind MmsDomain_addNamedVariableList].
  intros E. pose proof (set_domain_core ds d (mkDomain (md_address d) (domainName d) (namedVariables d)
    (namedVariableLists d ++ [variable_list ds x])) Hnd (getDomain_in _ _ _ Ed) eq_refl) as Hcore.
  rewrite <- Hcore. apply IH; [|done]. by rewrite (core_addresses _ _ Hcore).
Qed.

Lemma getDomain_core ds ds' name d : map domain_core ds = map domain_core ds' -> MmsDevice_getDomain ds name = Some d ->
  exists d', MmsDevice_getDomain ds' name = Some d' /\ domain_core d' = domain_core d.
Proof.
  revert ds'. induction ds as [|x ds IH]; intros ds' E; simpl; [done|]. destruct ds' as [|x' ds']; [done|].
  injection E as E1 E2 E3 E4. simpl. rewrite <- E2. case_bool_decide.
  - intros [= <-]. exists x'. split; [done|]. unfold domain_core. congruence.
  - by apply IH.
Qed.

(** * The two models agree *)

Fixpoint follow (n : ModelNode) (names : list (list Z)) : option ModelNode :=
  match names with
  | [] => Some n
  | a :: names => match find_node (mn_children n) a with Some c => follow c names | None => None end
  end.

Lemma getChild_follow fuel n names : Forall plain names -> names <> [] -> (length names <= S fuel)%nat ->
  getChild_loop fuel n (join DOT names) = follow n names.
Proof.
  intros Hn Hne. revert fuel n. induction Hn as [|x names Hx Hn IH]; intros fuel n Hfuel; [done|].
  assert (lacks DOT x) as Hdot by (apply plain_lacks; [done|in_separators]). destruct names as [|y names].
  - cbn [join follow]. destruct fuel; cbn [getChild_loop]; rewrite (strchr_none DOT x) by done; by destruct (find_node _ _).
  - rewrite join_cons. cbn [length] in Hfuel. destruct fuel as [|fuel]; [lia|]. cbn [getChild_loop].
    rewrite strchr_lacks by done. cbn [follow]. destruct (find_node (mn_children n) x) as [c|]; [|done].
    apply IH; [done|cbn [length]; lia].
Qed.

Lemma length_join c names : (length names <= S (length (join c names)))%nat.
Proof.
  induction names as [|x names IH]; [simpl; lia|]. destruct names as [|y names]; [simpl; lia|].
  rewrite join_cons, length_app. cbn [length] in *. lia.
Qed.

Lemma component_path_follow n names m : component_path n names m -> follow n names = Some m.
Proof. induction 1 as [|n name c names m _ Hf _ IH]; [done|]. cbn [follow]. by rewrite Hf. Qed.

Lemma attribute_path_follow fc o names m : attribute_path fc o names m -> follow o names = Some m.
Proof.
  induction 1 as [o name c k names m _ Hf _ _ IH|o name c k a names m _ Hf _ _ Hp]; cbn [follow]; rewrite Hf; [done|].
  by apply component_path_follow.
Qed.

(** The object reference of an attribute. *)
Definition attribute_reference (ldName lnName : list Z) (names : list (list Z)) : list Z :=
  ldName ++ SLASH :: lnName ++ DOT :: join DOT names.

(** C23: The MMS model mirrors the data model.  An object reference that leads to an
    attribute (or a component of one) of a functional constraint finds it in the data
    model, and the domain and the name that the code makes of the reference find in the
    MMS model the variable that was made of this attribute. *)
Theorem mapping_mirrors_model model domains blocks ldName ld lnName ln fc s name o names m :
  createMmsModelFromIedModel model = Done (Some domains, blocks) ->
  IedModel_getDevice model ldName = Some ld -> find_node (mn_children ld) lnName = Some ln ->
  find_node (mn_children ln) name = Some o -> attribute_path fc o names m ->
  FunctionalConstraint_toString fc = Some s -> Forall plain (ldName :: lnName :: name :: names) ->
  zlen (attribute_reference ldName lnName (name :: names)) < 129 ->
  exists item d t,
    IedModel_getModelNodeByObjectReference model (attribute_reference ldName lnName (name :: names)) = Done (Some m) /\
    MmsMapping_getMmsDomainFromObjectReference (attribute_reference ldName lnName (name :: names)) = Some ldName /\
    MmsMapping_createMmsVariableNameFromObjectReference (attribute_reference ldName lnName (name :: names)) fc = Done (Some item) /\
    MmsDevice_getDomain domains ldName = Some d /\ MmsDomain_getNamedVariable d item = Done (Some t) /\
    createNamedVariableFromDataAttribute m = Done t.
Proof.
  intros Hm Hld Hln Ho Hp Hs Hplain Hlen.
  apply Forall_cons_1 in Hplain as [Pld Hplain]. apply Forall_cons_1 in Hplain as [Pln Hnames].
  pose proof Hnames as [Pname Pnames]%Forall_cons_1.
  destruct (createMmsVariableName_spec ldName lnName (join DOT (name :: names)) fc s) as [Hitem Hdom];
    [lacks_tac|lacks_tac|lacks_tac|done|].
  rewrite replace_join in Hitem by (apply plain_names; [done|in_separators]).
  unfold createMmsModelFromIedModel in Hm. destruct (im_devices model) as [|x lds] eqn:Edev; [done|]. rewrite <- Edev in Hm.
  destruct (createMmsDataModel model 0 (im_devices model) (mkBlocks [] [])) as [[ds b]| | |] eqn:Eds; try done. cbn [rbind] in Hm.
  destruct (createDataSets ds (im_dataSets model)) as [ds'| | |] eqn:Esets; try done. injection Hm as <- <-.
  destruct (createMmsDataModel_addresses _ _ _ _ _ _ Eds) as [_ Hnd].
  destruct (createMmsDataModel_find _ _ _ _ _ _ _ _ Eds Hld) as (d & b1 & b2 & vs & Hd & Hvs & Hcreate).
  destruct (getDomain_core ds ds' ldName d) as (d' & Hd' & Hcore); [symmetry; by eapply createDataSets_core|done|].
  destruct (create_variables_find _ _ _ _ _ _ _ _ Hcreate Hln) as (b3 & b4 & v & Hv & Hfv).
  destruct (find_in_logicalNode _ _ _ _ _ _ fc s o name names m Hv Hs Ho Hp Pname Pnames) as (es & t & -> & Ht & Hr).
  exists (lnName ++ [DOLLAR] ++ s ++ [DOLLAR] ++ join DOLLAR (name :: names)), d', t. split_and!; try done.
  - unfold IedModel_getModelNodeByObjectReference. rewrite (proj2 (Z.leb_gt _ _)) by done.
    unfold attribute_reference. rewrite strchr_lacks by lacks_tac. rewrite Hld. f_equal.
    unfold ModelNode_getChild.
    assert (lnName ++ DOT :: join DOT (name :: names) = join DOT (lnName :: name :: names)) as -> by done.
    rewrite getChild_follow; [|by constructor|done|apply length_join]. cbn [follow]. rewrite Hln, Ho. by eapply attribute_path_follow.
  - assert (MmsDomain_getNamedVariable d' lnName = Done (Some (SpecStructure (Some (mn_name ln)) es))) as Hlnv.
    { unfold MmsDomain_getNamedVariable. injection Hcore as _ _ ->. rewrite Hvs.
      by rewrite (strchr_none DOLLAR lnName) by lacks_tac. }
    cbn [app]. by eapply MmsDomain_getNamedVariable_app.
Qed.

Lemma mapping_mirrors_model_witness : exists item d t,
  IedModel_getModelNodeByObjectReference demo_model (lit "IEDLD0/GGIO1.AnIn1.mag.f") = Done (Some demo_f) /\
  MmsDevice_getDomain demo_domains (lit "IEDLD0") = Some d /\ item = lit "GGIO1$MX$AnIn1$mag$f" /\
  MmsDomain_getNamedVariable d item = Done (Some t) /\ createNamedVariableFromDataAttribute demo_f = Done t.
Proof.
  destruct (mapping_mirrors_model demo_model demo_domains demo_blocks (lit "IEDLD0") demo_LD0 (lit "GGIO1") demo_GGIO1
    MX (lit "MX") (lit "AnIn1") demo_AnIn1 [lit "mag"; lit "f"] demo_f) as (item & d & t & H1 & H2 & H3 & H4 & H5 & H6).
  - exact demo_created.
  - vm_compute. reflexivity.
  - vm_compute. reflexivity.
  - vm_compute. reflexivity.
  - eapply path_attribute; [eexists; split; [reflexivity|lia]|vm_compute; reflexivity|reflexivity|reflexivity|].
    eapply component_next; [eexists; split; [reflexivity|lia]|vm_compute; reflexivity|]. apply component_here.
  - reflexivity.
  - apply (bool_decide_unpack _). vm_compute. exact I.
  - vm_compute. reflexivity.
  - exists item, d, t. split; [exact H1|]. split; [exact H4|]. split; [|split; [exact H5|exact H6]].
    enough (Done (Some item) = Done (Some (lit "GGIO1$MX$AnIn1$mag$f"))) as E by congruence.
    rewrite <- H3. vm_compute. reflexivity.
Defined.
