(* ===== verification/ServerCreate.v ===== *)
(** A new server satisfies the invariant.  First the variables of the MMS model: their members have names, their values have default
    values of their types, and the functional constraints of the logical nodes are found
    by their names. *)
From Stdlib Require Import String.
From stdpp Require Import base tactics numbers option gmap list.
From S2P Require Import Prelude MmsValue Effects CString MmsTypeSpec Control ControlFacts Iec61850Common ReportControl Reporting ReportingAccess ReportingFacts ReportingInv ValueStore IedModel MmsGoose ServerState MmsMapping MappingModel NameMapping IedServer MmsGooseFacts MmsMappingFacts ServerInv MappingFacts.

(** * Types of attributes and objects *)

(** The members have names and there is a default value. *)
Definition complete (t : MmsVariableSpecification) : Prop := MmsTypeSpec.named t /\ has_default t = true.

Lemma complete_structure n ts : Forall (fun t => is_Some (spec_name t)) ts -> Forall complete ts -> complete (SpecStructure n ts).
Proof.
  intros Hn Hc. split.
  - constructor; [done|]. eapply Forall_impl; [exact Hc|]. by intros t [].
  - apply forallb_forall. intros t Ht%list_elem_of_In. eapply Forall_forall in Hc; [|exact Ht]. apply Hc.
Qed.

Lemma simple_members_named n ts : Forall (fun t => exists s u, t = SpecSimple (Some s) u) ts -> MmsTypeSpec.named (SpecStructure n ts).
Proof.
  intros H. constructor; (eapply Forall_impl; [exact H|]); intros t (s & u & ->); [by exists s|constructor].
Qed.

Lemma attribute_complete n type : complete (attribute_spec n type).
Proof.
  destruct type; try (split; [by constructor|done]).
  - split; [constructor; constructor|done].
  - split; [|done]. apply simple_members_named. repeat (constructor; [by eexists _, _|]). constructor.
Qed.

Lemma in_array_complete k name make : (forall n, complete (make n)) -> complete (in_array k name make).
Proof.
  intros H. unfold in_array. destruct (0 <? k) eqn:E; [|apply H]. destruct (H None) as [H1 H2]. split; [by constructor|].
  cbn [has_default]. by rewrite E, H2, orb_true_r.
Qed.

Lemma attribute_type_complete n e : createNamedVariableFromDataAttribute n = Done e -> complete e.
Proof.
  revert e. induction n as [a t name cs IH] using node_induction. intros e. cbn [createNamedVariableFromDataAttribute].
  destruct (node_elementCount _) as [k| | |]; try done. cbn [rbind].
  destruct cs as [|c cs].
  - destruct (as_attribute _) as [x| | |]; try done. intros [= <-]. apply in_array_complete. intros n. apply attribute_complete.
  - destruct (each_res _ (c :: cs)) as [es| | |] eqn:E; try done. intros [= <-]. apply each_res_Forall2 in E.
    apply in_array_complete. intros n. revert IH E. generalize (c :: cs). intros l IH E. apply complete_structure.
    + clear IH. induction E as [|x y l es Hx _ IHE]; [done|]. constructor; [|done]. rewrite (attribute_name _ _ Hx). by eexists.
    + induction E as [|x y l es Hx _ IHE]; [done|]. apply Forall_cons_1 in IH as [H1 H2]. constructor; [by apply H1|by apply IHE].
Qed.

Lemma object_type_complete fc n e : createFCNamedVariableFromDataObject fc n = Done e -> complete e.
Proof.
  revert e. induction n as [a t name cs IH] using node_induction. intros e (k & es & _ & -> & E)%object_fill.
  apply in_array_complete. intros n. cbn [mn_children] in E. apply complete_structure.
  - clear IH. induction E as [|x y l es Hx _ IHE]; [done|]. constructor; [|done]. rewrite (element_name _ _ _ Hx). by eexists.
  - assert (Forall (fun c => forall e, createFCNamedVariableFromDataObject fc c = Done e -> complete e) (filter (fun c => child_has_fc fc c = true) cs)) as IH'.
    { apply Forall_forall. intros c [_ Hc]%list_elem_of_filter. by eapply Forall_forall in IH. }
    clear IH. induction E as [|x y l es Hx _ IHE]; [done|]. apply Forall_cons_1 in IH' as [H1 H2].
    constructor; [|by apply IHE]. unfold element_of in Hx.
    destruct (mn_modelType x); [by apply H1..|by eapply attribute_type_complete].
Qed.

Lemma fc_type_complete fc ln e : createFCNamedVariable fc ln = Done e -> complete e.
Proof.
  unfold createFCNamedVariable. destruct (each_res _ _) as [es| | |] eqn:E; try done. intros [= <-].
  apply each_res_Forall2 in E. apply complete_structure.
  - induction E as [|x y l es Hx _ IHE]; [done|]. constructor; [|done]. rewrite (object_name _ _ _ Hx). by eexists.
  - induction E as [|x y l es Hx _ IHE]; [done|]. constructor; [by eapply object_type_complete|done].
Qed.

(** * Control blocks *)

Lemma set_attributes_named rcb attributes rc es spec rc' es' : set_attributes rcb attributes rc es = Done (spec, rc', es') ->
  spec = SpecStructure (Some (rcb_name rcb)) (map fst attributes).
Proof. by intros [= <- _ _]. Qed.

Lemma createUnbuffered_named rcb rc es spec rc' es' : createUnbufferedReportControlBlock rcb rc es = Done (spec, rc', es') ->
  is_Some (spec_name spec) /\ MmsTypeSpec.named spec.
Proof.
  unfold createUnbufferedReportControlBlock. intros H. do 7 apply cbind_inv in H as (? & ? & ? & _ & H).
  apply cbind_inv in H as (sp & ? & ? & Hs%set_attributes_named & H). do 2 apply cbind_inv in H as (? & ? & ? & _ & H).
  injection H as <- _ _. subst sp. split; [by eexists|]. apply simple_members_named. repeat (constructor; [by eexists _, _|]). constructor.
Qed.

Lemma createBuffered_named rcb rc es spec rc' es' : createBufferedReportControlBlock rcb rc es = Done (spec, rc', es') ->
  is_Some (spec_name spec) /\ MmsTypeSpec.named spec.
Proof.
  unfold createBufferedReportControlBlock. intros H. do 8 apply cbind_inv in H as (? & ? & ? & _ & H).
  apply cbind_inv in H as (sp & ? & ? & Hs%set_attributes_named & H). apply cbind_inv in H as (? & ? & ? & _ & H).
  injection H as <- _ _. subst sp. split; [by eexists|]. apply simple_members_named. repeat (constructor; [by eexists _, _|]). constructor.
Qed.

Lemma create_rcb_named rcbs d ln buffered i rc spec : create_rcb rcbs d ln buffered i = Done (rc, spec) ->
  is_Some (spec_name spec) /\ MmsTypeSpec.named spec.
Proof.
  unfold create_rcb. destruct (getRCBForLogicalNodeWithIndex _ _ _ _) as [rcb|]; [|done]. cbn [defined rbind]. destruct buffered.
  - destruct (createBufferedReportControlBlock _ _ _) as [[[s x] es]| | |] eqn:E; try done. intros [= _ <-]. by eapply createBuffered_named.
  - destruct (createUnbufferedReportControlBlock _ _ _) as [[[s x] es]| | |] eqn:E; try done. intros [= _ <-]. by eapply createUnbuffered_named.
Qed.

(** What holds of the blocks that are there holds of all, and the types have names. *)
Lemma create_rcbs_spec (P : ReportControl -> Prop) n rcbs d ln buffered i rcs rcs' specs :
  (forall i rc spec, create_rcb rcbs d ln buffered i = Done (rc, spec) -> P rc) -> Forall P rcs ->
  create_rcbs n rcbs d ln buffered i rcs = Done (rcs', specs) ->
  Forall P rcs' /\ Forall (fun t => is_Some (spec_name t)) specs /\ Forall MmsTypeSpec.named specs.
Proof.
  intros HP. revert i rcs specs. induction n as [|n IH]; intros i rcs specs Hr; cbn [create_rcbs]; [by intros [= <- <-]|].
  destruct (create_rcb _ _ _ _ _) as [[rc spec]| | |] eqn:Ec; try done. cbn [rbind].
  destruct (create_rcbs _ _ _ _ _ _ _) as [[rcs1 specs1]| | |] eqn:Es; try done. intros [= <- <-].
  destruct (create_rcb_named _ _ _ _ _ _ _ Ec) as [H1 H2].
  apply IH in Es as (H3 & H4 & H5); [|apply Forall_app; split; [done|constructor; [by eapply HP|done]]]. split_and!; [done|by constructor..].
Qed.

Lemma gcb_type_named name : MmsTypeSpec.named (createMmsGooseControlBlock name).
Proof.
  constructor; [repeat (constructor; [by eexists|]); constructor|].
  do 5 (constructor; [constructor|]). constructor; [|repeat (constructor; [constructor|]); constructor].
  apply simple_members_named. repeat (constructor; [by eexists _, _|]). constructor.
Qed.

Lemma create_gcbs_spec n gcbs d ln i gs gs' specs : Forall gcb_off gs -> create_gcbs n gcbs d ln i gs = Done (gs', specs) ->
  Forall gcb_off gs' /\ Forall (fun t => is_Some (spec_name t)) specs /\ Forall MmsTypeSpec.named specs.
Proof.
  revert i gs specs. induction n as [|n IH]; intros i gs specs Hg; cbn [create_gcbs]; [by intros [= <- <-]|].
  destruct (create_gcb _ _ _ _) as [[g spec]| | |] eqn:Ec; try done. cbn [rbind].
  destruct (create_gcbs _ _ _ _ _ _) as [[gs1 specs1]| | |] eqn:Es; try done. intros [= <- <-].
  pose proof (create_gcb_off _ _ _ _ _ _ Ec) as (Hg1 & Hg2 & Hg3).
  apply IH in Es as (H3 & H4 & H5); [|apply Forall_app; split; [done|constructor; [by split|done]]].
  assert (spec = createMmsGooseControlBlock (gcb_name g)) as ->.
  { revert Ec. unfold create_gcb. destruct (getGCBForLogicalNodeWithIndex _ _ _); [|done]. cbn [defined rbind].
    destruct (gse_values _ _ _ _ _); try done. by intros [= <- <-]. }
  split_and!; [done|constructor; [by eexists|done]|constructor; [apply gcb_type_named|done]].
Qed.

(** * Logical nodes *)

Section Blocks.
Context (sizes : Sizes) (malloc : Z -> list Z).

(** The control blocks that have been made. *)
Definition blocks_ok (blocks : ControlBlocks) : Prop :=
  Forall (rcb_reachable sizes malloc) (cb_reportControls blocks) /\ Forall gcb_off (cb_gseControls blocks).

(** A variable of a logical node: each of its elements is one of control blocks, or is
    complete and found by its name. *)
Definition node_type (name : list Z) (v : MmsVariableSpecification) : Prop :=
  MmsTypeSpec.named v /\ exists es, v = SpecStructure (Some name) es /\ forall e, e ∈ es -> exists s, spec_name e = Some s /\
    (s ∈ block_names \/ plain s /\ complete e /\ find_named es s = Done (Some e)).

Lemma fc_elements_spec fcs ln es : Forall (fun f => is_Some (FunctionalConstraint_toString f)) fcs -> fc_elements fcs ln = Done es ->
  Forall (fun e => exists fc s, FunctionalConstraint_toString fc = Some s /\ LogicalNode_hasFCData fc ln = true /\
    createFCNamedVariable fc ln = Done e /\ spec_name e = Some s) es.
Proof.
  intros Hall Hes. apply each_res_Forall2 in Hes. apply Forall_forall. intros e (i & He)%list_elem_of_lookup.
  destruct (Forall2_lookup_r _ _ _ _ _ Hes He) as (fc & Hfc & Hf). apply list_elem_of_lookup_2 in Hfc.
  apply list_elem_of_filter in Hfc as [Hd Hin]. eapply Forall_forall in Hall as [s Hs]; [|exact Hin].
  exists fc, s. split_and!; try done. revert Hf. unfold createFCNamedVariable. destruct (each_res _ _); try done. by intros [= <-].
Qed.

Lemma logicalNode_type model d ln blocks v blocks' : blocks_ok blocks ->
  createNamedVariableFromLogicalNode model d ln blocks = Done (v, blocks') -> blocks_ok blocks' /\ node_type (mn_name ln) v.
Proof.
  intros [Hr Hg] (front & rcs1 & rp & rcs2 & br & gcbs & go & back & -> & -> & Hfront & Hback & Hrp & Hbr & Hgo)%logicalNode_inv.
  assert (Forall (rcb_reachable sizes malloc) rcs1 /\ Forall MmsTypeSpec.named rp) as [Hr1 Hrp'].
  { destruct Hrp as [[-> ->]|(n & specs & H & ->)]; [done|].
    apply (create_rcbs_spec (rcb_reachable sizes malloc)) in H as (H1 & H2 & H3); [split; [done|by repeat constructor]|intros; by eapply rr_create|done]. }
  assert (Forall (rcb_reachable sizes malloc) rcs2 /\ Forall MmsTypeSpec.named br) as [Hr2 Hbr'].
  { destruct Hbr as [[-> ->]|(n & specs & H & ->)]; [done|].
    apply (create_rcbs_spec (rcb_reachable sizes malloc)) in H as (H1 & H2 & H3); [split; [done|by repeat constructor]|intros; by eapply rr_create|done]. }
  assert (Forall gcb_off gcbs /\ Forall MmsTypeSpec.named go) as [Hg1 Hgo'].
  { destruct Hgo as [[-> ->]|(n & specs & H & ->)]; [done|].
    apply create_gcbs_spec in H as (H1 & H2 & H3); [split; [done|by repeat constructor]|done]. }
  split; [by split|]. pose proof (block_elements _ _ _ _ _ _ _ _ _ _ _ Hrp Hbr Hgo) as Hmid.
  assert (forall e, e ∈ front ++ (rp ++ br ++ go) ++ back -> exists s, spec_name e = Some s /\ (s ∈ block_names /\ e ∈ rp ++ br ++ go \/
    plain s /\ complete e /\ find_named (front ++ (rp ++ br ++ go) ++ back) s = Done (Some e))) as He.
  { intros e. rewrite elem_of_app, (elem_of_app (rp ++ br ++ go)).
    assert (forall fcs es, Forall (fun f => is_Some (FunctionalConstraint_toString f)) fcs -> fc_elements fcs ln = Done es -> e ∈ es ->
      exists s, spec_name e = Some s /\ plain s /\ complete e /\ find_named (front ++ (rp ++ br ++ go) ++ back) s = Done (Some e)) as Hfc.
    { intros fcs es Hall Hes Hin. pose proof (fc_elements_spec fcs ln es Hall Hes) as H. eapply Forall_forall in H; [|exact Hin].
      destruct H as (fc & s & Hs & Hh & Hc & Hn). exists s. split; [done|]. split; [by eapply fc_plain|]. split; [by eapply fc_type_complete|].
      destruct (find_fc_element ln front (rp ++ br ++ go) back fc s Hfront Hback Hmid Hs Hh) as (e' & He' & Hf). congruence. }
    intros [Hin|[Hin|Hin]].
    - destruct (Hfc front_fcs front) as (s & Hs & H); [repeat constructor; by eexists|done..|]. exists s. eauto.
    - pose proof Hmid as Hmid'. eapply Forall_forall in Hmid' as (s & Hs & Hb); [|exact Hin]. exists s. eauto.
    - destruct (Hfc back_fcs back) as (s & Hs & H); [repeat constructor; by eexists|done..|]. exists s. eauto. }
  split.
  - constructor; apply Forall_forall; intros e Hin; destruct (He e Hin) as (s & Hs & H); [by exists s|].
    destruct H as [[_ Hin']|(_ & [Hc _] & _)]; [|done]. eapply Forall_forall; [|exact Hin']. rewrite !Forall_app. by split_and!.
  - eexists. split; [done|]. intros e Hin. destruct (He e Hin) as (s & Hs & H). exists s. split; [done|]. destruct H as [[H _]|H]; eauto.
Qed.

(** * Devices *)

(** What is asked of a model: the names of the logical nodes of a device are plain and
    differ. *)
Definition device_wf (ld : ModelNode) : Prop :=
  NoDup (map mn_name (mn_children ld)) /\ Forall (fun ln => plain (mn_name ln)) (mn_children ld).

(** The variables of a domain are those of its logical nodes, and are found by their
    names. *)
Definition domain_type (d : MmsDomain) : Prop :=
  Forall MmsTypeSpec.named (default [] (namedVariables d)) /\
  forall v, v ∈ default [] (namedVariables d) -> exists name, plain name /\ node_type name v /\
    MmsDomain_getNamedVariable d name = Done (Some v).

Lemma create_variables_type model d lns blocks vs blocks' : blocks_ok blocks -> create_variables model d lns blocks = Done (vs, blocks') ->
  blocks_ok blocks' /\ Forall2 (fun ln v => node_type (mn_name ln) v) lns vs.
Proof.
  revert blocks vs. induction lns as [|ln lns IH]; intros blocks vs Hb; cbn [create_variables]; [by intros [= <- <-]|].
  destruct (createNamedVariableFromLogicalNode _ _ _ _) as [[v b]| | |] eqn:E; try done. cbn [rbind].
  destruct (create_variables _ _ _ _) as [[vs1 b1]| | |] eqn:Es; try done. intros [= <- <-].
  apply logicalNode_type in E as [Hb1 Hv]; [|done]. apply IH in Es as [Hb2 Hvs]; [|done]. split; [done|by constructor].
Qed.

Lemma find_named_nodes lns vs i ln v : Forall2 (fun ln v => node_type (mn_name ln) v) lns vs -> NoDup (map mn_name lns) ->
  lns !! i = Some ln -> vs !! i = Some v -> find_named vs (mn_name ln) = Done (Some v).
Proof.
  intros H. revert i. induction H as [|x y lns vs (Hn & es & -> & Hes) H IH]; intros i Hd; [by destruct i|].
  cbn [map] in Hd. apply NoDup_cons in Hd as [Hd1 Hd2]. cbn [find_named spec_name defined rbind]. destruct i as [|i].
  - intros [= ->] [= <-]. by rewrite bool_decide_true.
  - cbn. intros Hl Hv. rewrite bool_decide_false; [by eapply IH|]. intros E. apply Hd1. rewrite E.
    apply list_elem_of_fmap. exists ln. split; [done|]. by eapply list_elem_of_lookup_2.
Qed.

Lemma device_type model address ld blocks d blocks' : device_wf ld -> blocks_ok blocks ->
  createMmsDomainFromIedDevice model address ld blocks = Done (d, blocks') -> blocks_ok blocks' /\ domain_type d.
Proof.
  intros [Hd Hp] Hb. unfold createMmsDomainFromIedDevice. destruct (create_variables _ _ _ _) as [[vs b]| | |] eqn:E; try done.
  intros [= <- <-]. apply create_variables_type in E as [Hb1 Hvs]; [|done]. split; [done|].
  assert (forall v, v ∈ vs -> exists ln, ln ∈ mn_children ld /\ node_type (mn_name ln) v /\ find_named vs (mn_name ln) = Done (Some v)) as Hin.
  { intros v (i & Hi)%list_elem_of_lookup. destruct (Forall2_lookup_r _ _ _ _ _ Hvs Hi) as (ln & Hln & Hv). exists ln.
    split; [by eapply list_elem_of_lookup_2|]. split; [done|]. by eapply find_named_nodes. }
  split; cbn [namedVariables default].
  - apply Forall_forall. intros v (ln & _ & [Hn _] & _)%Hin. done.
  - intros v (ln & Hln & Hv & Hf)%Hin. exists (mn_name ln). eapply Forall_forall in Hp; [|exact Hln]. split; [done|]. split; [done|].
    unfold MmsDomain_getNamedVariable. cbn [namedVariables]. by rewrite strchr_none by (apply plain_lacks; [done|in_separators]).
Qed.

Lemma dataModel_type model address lds blocks ds blocks' : Forall device_wf lds -> blocks_ok blocks ->
  createMmsDataModel model address lds blocks = Done (ds, blocks') -> blocks_ok blocks' /\ Forall domain_type ds.
Proof.
  intros Hl. revert address blocks ds. induction Hl as [|ld lds Hld _ IH]; intros address blocks ds Hb; cbn [createMmsDataModel]; [by intros [= <- <-]|].
  destruct (createMmsDomainFromIedDevice _ _ _ _) as [[d b]| | |] eqn:E; try done. cbn [rbind].
  destruct (createMmsDataModel _ _ _ _) as [[ds1 b1]| | |] eqn:Es; try done. intros [= <- <-].
  apply device_type in E as [Hb1 Hd]; [|done..]. apply IH in Es as [Hb2 Hds]; [|done]. split; [done|by constructor].
Qed.

(** The variable lists say nothing about the types. *)
Lemma domain_type_core d d' : domain_core d' = domain_core d -> domain_type d -> domain_type d'.
Proof.
  intros [= _ _ E]. unfold domain_type, MmsDomain_getNamedVariable. by rewrite E.
Qed.

(** The domains of a model: their addresses differ, and their variables have the types. *)
Lemma mmsModel_type model domains blocks : Forall device_wf (im_devices model) -> createMmsModelFromIedModel model = Done (Some domains, blocks) ->
  blocks_ok blocks /\ Forall domain_type domains /\ NoDup (map md_address domains).
Proof.
  intros Hwf. unfold createMmsModelFromIedModel. destruct (im_devices model) as [|ld lds] eqn:El; [done|].
  destruct (createMmsDataModel _ _ _ _) as [[ds b]| | |] eqn:E; try done. cbn [rbind].
  destruct (createDataSets _ _) as [ds1| | |] eqn:Ed; try done. intros [= <- <-].
  destruct (createMmsDataModel_addresses _ _ _ _ _ _ E) as [_ Hn]. apply dataModel_type in E as [Hb Hds]; [|done|by split].
  pose proof (createDataSets_core _ _ _ Hn Ed) as Hc. split; [done|]. split.
  - apply Forall_forall. intros d' (i & Hi)%list_elem_of_lookup. assert (exists d, ds !! i = Some d /\ domain_core d' = domain_core d) as (d & Hd & Hcd).
    { apply (f_equal (fun l => l !! i)) in Hc. rewrite !list_lookup_fmap, Hi in Hc. destruct (ds !! i) as [d|]; [|done].
      injection Hc as ? ? ?. exists d. unfold domain_core. split; [done|congruence]. }
    eapply domain_type_core; [exact Hcd|]. by eapply Forall_lookup_1.
  - by rewrite (core_addresses _ _ Hc).
Qed.
End Blocks.

(** The server that is made from a model: src/iedserver/impl/ied_server.c,
    [IedServer_create].  The invariant of the servers holds of it. *)

(** * Folds *)

Lemma fold_res_inv {A St} (P : St -> Prop) (f : A -> St -> res St) l s s' :
  (forall x s s', x ∈ l -> P s -> f x s = Done s' -> P s') -> P s -> fold_res f l s = Done s' -> P s'.
Proof.
  revert s. induction l as [|x l IH]; intros s Hf Hs; cbn [fold_res]; [by intros [= <-]|].
  destruct (f x s) as [s1| | |] eqn:E; try done. cbn [rbind]. apply IH; [intros y t t' Hy; apply Hf; by right|].
  eapply Hf; [left|done|exact E].
Qed.

(** * The cache *)

Lemma createValueCaches_entries domains : createValueCachesForDomains domains =
  mkMap (map (fun d => (md_address d, MmsValueCache_create d)) domains) Z.eqb.
Proof.
  unfold createValueCachesForDomains. change (Map_create Z.eqb) with (mkMap (V := MmsValueCache) [] Z.eqb).
  assert (forall l, foldl (fun caches d => Map_addEntry caches (md_address d) (MmsValueCache_create d)) (mkMap l Z.eqb) domains =
    mkMap (l ++ map (fun d => (md_address d, MmsValueCache_create d)) domains) Z.eqb) as H; [|apply (H [])].
  induction domains as [|d ds IH]; intros l; cbn [foldl map]; [by rewrite app_nil_r|].
  change (Map_addEntry (mkMap l Z.eqb) (md_address d) (MmsValueCache_create d)) with (mkMap (l ++ [(md_address d, MmsValueCache_create d)]) Z.eqb).
  by rewrite IH, <- app_assoc.
Qed.

Lemma createValueCaches_wf domains : caches_wf domains (createValueCachesForDomains domains).
Proof.
  rewrite createValueCaches_entries. split; [done|]. intros a c. unfold Map_getEntry. cbn [map_compareKeys map_entries].
  induction domains as [|d ds IH]; cbn [map get_entry]; [done|]. destruct (Z.eqb_spec a (md_address d)) as [->|].
  - intros [= <-]. exists d. split; [left|]. split; [done|]. apply MmsValueCache_create_wf.
  - intros (d' & Hd & H)%IH. exists d'. split; [by right|done].
Qed.

Section Domains.
Context (domains : list MmsDomain) (Hdomains : Forall domain_type domains) (Haddresses : NoDup (map md_address domains)).

Lemma same_domain d d' : d ∈ domains -> d' ∈ domains -> md_address d = md_address d' -> d = d'.
Proof using Haddresses.
  intros (i & Hi)%list_elem_of_lookup (j & Hj)%list_elem_of_lookup E.
  assert (i = j) as -> by (eapply NoDup_lookup; [exact Haddresses|rewrite list_lookup_fmap, Hi; cbn; by rewrite E|by rewrite list_lookup_fmap, Hj]).
  congruence.
Qed.

(** A value of the type of its name is inserted. *)
Lemma insertIntoCache_wf caches d itemId t v caches' : caches_wf domains caches -> d ∈ domains ->
  MmsDomain_getNamedVariable d itemId = Done (Some t) -> typed t v ->
  MmsServer_insertIntoCache caches (md_address d) itemId v = Done caches' -> caches_wf domains caches'.
Proof using Haddresses.
  intros Hwf Hd Ht Hv. unfold MmsServer_insertIntoCache. destruct (Map_getEntry caches (md_address d)) as [c|] eqn:Ec; [|by intros [= <-]].
  destruct (caches_typed _ _ Hwf _ _ Ec) as (d' & Hd' & Ha & Hc). rewrite (same_domain d' d) in Hc by done.
  destruct (MmsValueCache_insertValue c itemId v) as [c'| | |] eqn:Ei; try done. intros [= <-]. split; [apply Hwf|].
  intros a x. rewrite (get_setEntry_caches domains) by done. rewrite Ec. case_bool_decide as E; [|apply (caches_typed _ _ Hwf)].
  intros [= <-]. exists d. split; [done|]. split; [done|]. eapply insertValue_wf; [done| |exact Ei]. intros t' Ht'. congruence.
Qed.

(** ** Control objects *)

Context (malloc : Z -> list Z).

Lemma control_object_reachable d ln name spec oper cancel sbow : control_reachable malloc (control_object d ln name spec oper cancel sbow).
Proof using. unfold control_object. destruct cancel, sbow; repeat constructor. Qed.

Lemma createControlObjects_reachable d ln t prefix objects : createControlObjects d ln t prefix = Done objects ->
  Forall (control_reachable malloc) objects.
Proof using.
  revert prefix objects. induction t as [n t|n k t _|n ts IH] using spec_induction; intros prefix objects; cbn [createControlObjects]; try (by intros [= <-]).
  revert objects. induction IH as [|coSpec es Hco _ IHes]; intros objects; [by intros [= <-]|].
  destruct (string_in_buffer 65 _) as [objectName| | |]; try done. cbn [rbind].
  match goal with |- (let! _ := ?m in _) = _ -> _ => destruct m as [new| | |] eqn:E; try done end. cbn [rbind].
  match goal with |- (let! _ := ?m in _) = _ -> _ => destruct m as [rest| | |] eqn:Er; try done end. intros [= <-].
  apply Forall_app. split; [|by apply IHes]. destruct coSpec as [| |name coElements]; try (injection E as <-; constructor).
  destruct (control_members _ _ _ _ _) as [[[oper cancel] sbow]| | |]; try done. cbn [rbind] in E.
  destruct (defined name) as [name'| | |]; try done. cbn [rbind] in E. destruct (string_in_buffer 65 _) as [name2| | |]; try done. cbn [rbind] in E.
  destruct oper as [oper|]; [|by eapply Hco]. injection E as <-. constructor; [apply control_object_reachable|constructor].
Qed.

(** ** The caches are filled *)

Definition filled (state : value_caches * list ControlObject) : Prop :=
  caches_wf domains state.1 /\ Forall (control_reachable malloc) state.2.

Lemma getNamedVariable_member d name n es s e : plain name -> MmsDomain_getNamedVariable d name = Done (Some (SpecStructure n es)) ->
  plain s -> find_named es s = Done (Some e) -> MmsDomain_getNamedVariable d (name ++ [DOLLAR] ++ s) = Done (Some e).
Proof using.
  intros Hp Hg Hs Hf. apply (MmsDomain_getNamedVariable_app d name n es s e Hg).
  cbn [getNamedVariableRecursive]. by rewrite strchr_none by (apply plain_lacks; [done|in_separators]).
Qed.

Lemma cache_node_filled d v state state' : d ∈ domains -> v ∈ default [] (namedVariables d) -> filled state ->
  cache_node d v state = Done state' -> filled state'.
Proof using Hdomains Haddresses.
  intros Hd Hv Hst. pose proof Hdomains as H. eapply Forall_forall in H; [|exact Hd]. destruct H as [_ H].
  destruct (H v Hv) as (name & Hp & (Hn & es & -> & Hes) & Hg). cbn [cache_node defined rbind]. apply fold_res_inv; [|done].
  intros e [caches objects] s' He Hs. unfold cache_fc. destruct (Hes e He) as (s & -> & Hcase). cbn [defined rbind].
  case_bool_decide as Eco.
  - destruct (createControlObjects d name e None) as [new| | |] eqn:E; try done. intros [= <-]. destruct Hs as [H1 H2].
    split; [done|]. apply Forall_app. split; [done|by eapply createControlObjects_reachable].
  - case_bool_decide as E1; [by intros [= <-]|]. case_bool_decide as E2; [by intros [= <-]|].
    case_bool_decide as E3; [by intros [= <-]|]. cbn [orb].
    destruct Hcase as [Hb|(Hps & [_ Hdef] & Hf)].
    { exfalso. revert Hb. unfold block_names. rewrite !elem_of_cons. intros [?|[?|[?|Hb]]]; [done..|]. by apply elem_of_nil in Hb. }
    destruct (newDefaultValue_typed e Hdef) as (value & -> & Hty). cbn [defined rbind].
    destruct (MmsServer_insertIntoCache _ _ _ _) as [caches'| | |] eqn:Ei; try done. intros [= <-]. destruct Hs as [H1 H2].
    split; [|done]. eapply insertIntoCache_wf; [exact H1|exact Hd| |exact Hty|exact Ei]. by eapply getNamedVariable_member.
Qed.

Lemma createMmsServerCache_filled state : createMmsServerCache domains (createValueCachesForDomains domains, []) = Done state -> filled state.
Proof using Hdomains Haddresses.
  apply fold_res_inv; [|split; [apply createValueCaches_wf|constructor]]. intros d s s' Hd Hs. apply fold_res_inv; [|done].
  intros v s1 s2 Hv Hs1. by apply cache_node_filled.
Qed.

(** * The attributes are connected *)

(** The caches keep their types, and the attributes point to values. *)
Definition connected (s : Installed) : Prop :=
  caches_wf domains (in_caches s) /\
  forall a h, in_values s !! a = Some h -> exists l, location h = Some l /\ is_Some (load (in_caches s) l).

Lemma domains_named : Forall (fun d => Forall MmsTypeSpec.named (default [] (namedVariables d))) domains.
Proof using Hdomains. eapply Forall_impl; [exact Hdomains|]. by intros d []. Qed.

Lemma connect_connected initial address found s s' : connected s -> (forall l, found = Some l -> is_Some (load (in_caches s) l)) ->
  connect initial address found s = Done s' -> connected s'.
Proof using.
  intros [Hwf Hp] Hf. unfold connect. set (values := match found with Some _ => _ | None => _ end).
  assert (forall a h, values !! a = Some h -> exists l, location h = Some l /\ is_Some (load (in_caches s) l)) as Hv.
  { intros a h. subst values. destruct found as [l|].
    - destruct (decide (address = a)) as [->|]; [rewrite lookup_insert_eq|by rewrite lookup_insert_ne by done; apply Hp].
      intros [= <-]. exists l. rewrite location_handle. split; [done|by apply Hf].
    - destruct (decide (address = a)) as [->|]; [by rewrite lookup_delete_eq|by rewrite lookup_delete_ne by done; apply Hp]. }
  destruct (initial address) as [value|]; [|by intros [= <-]].
  destruct found as [l|]; [|done]. cbn [defined rbind]. destruct (load (in_caches s) l) as [current|] eqn:El; [|done]. cbn [defined rbind].
  destruct (MmsValue_update current value) as [[b v]| | |] eqn:Eu; try done. intros [= <-].
  assert (forall t, typed t current -> typed t v) as Ht by (intros t Ht; by eapply MmsValue_update_typed).
  split; [by eapply store_wf|]. intros a h Ha. destruct (Hv a h Ha) as (l' & Hl & Hl'). exists l'. split; [done|].
  by eapply load_store_valid.
Qed.

Lemma cache_value_of_valid ref fc s found : connected s -> cache_value_of domains ref fc (in_caches s) = Done (Some found) ->
  forall l, found = Some l -> is_Some (load (in_caches s) l).
Proof using Hdomains.
  intros [Hwf _]. unfold cache_value_of. destruct (string_in_buffer 130 ref); try done. cbn [rbind].
  destruct (MmsMapping_createMmsVariableNameFromObjectReference ref fc) as [[name|]| | |]; try done. cbn [defined rbind].
  destruct (string_in_buffer 65 name) as [name'| | |]; try done. cbn [rbind].
  destruct (MmsMapping_getMmsDomainFromObjectReference ref) as [dn|]; [|done]. cbn [defined rbind].
  destruct (string_in_buffer 65 dn) as [dn'| | |]; try done. cbn [rbind].
  destruct (MmsDevice_getDomain domains dn') as [d|]; [|done].
  destruct (getValueFromCache_typed domains (in_caches s) Hwf domains_named (md_address d) name') as (r & -> & Hr).
  cbn [rbind]. intros [= <-] l Hl. destruct (Hr l Hl) as (v & _ & _ & Hv & _). by exists v.
Qed.

Lemma install_attribute_connected initial da ref s s' : connected s ->
  installDefaultValuesForDataAttribute domains initial da ref s = Done s' -> connected s'.
Proof using Hdomains.
  revert ref s s'. induction da as [a t name cs IH] using node_induction. intros ref s s' Hs. cbn [installDefaultValuesForDataAttribute].
  destruct (as_attribute _) as [x| | |]; try done. cbn [rbind].
  destruct (cache_value_of _ _ _ _) as [[found|]| | |] eqn:Ec; try done; cbn [rbind]; [|by intros [= <-]].
  destruct (connect _ _ _ _) as [s1| | |] eqn:E; try done. cbn [rbind]. apply fold_res_inv.
  - intros c s2 s3 Hc Hs2. eapply Forall_forall in IH; [|exact Hc]. by apply IH.
  - eapply connect_connected; [done|by eapply cache_value_of_valid|exact E].
Qed.

Lemma install_object_connected initial o ref s s' : connected s ->
  installDefaultValuesForDataObject domains initial o ref s = Done s' -> connected s'.
Proof using Hdomains.
  revert ref s s'. induction o as [a t name cs IH] using node_induction. intros ref s s' Hs. cbn [installDefaultValuesForDataObject].
  destruct (node_elementCount _) as [k| | |]; try done. cbn [rbind]. destruct (0 <? k); [by intros [= <-]|].
  destruct (string_in_buffer _ _) as [ref'| | |]; try done. cbn [rbind]. apply fold_res_inv; [|done].
  intros c s2 s3 Hc Hs2. destruct (mn_modelType c); try (by intros [= <-]).
  - eapply Forall_forall in IH; [|exact Hc]. by apply IH.
  - by apply install_attribute_connected.
Qed.

Lemma install_connected initial model s s' : connected s -> installDefaultValuesInCache domains initial model s = Done s' -> connected s'.
Proof using Hdomains.
  intros Hs. apply fold_res_inv; [|done]. intros ld s1 s2 _ H1. apply fold_res_inv; [|done]. intros ln s3 s4 _ H3.
  destruct (string_in_buffer _ _) as [ref| | |]; try done. cbn [rbind]. apply fold_res_inv; [|done].
  intros o s5 s6 _ H5. by apply install_object_connected.
Qed.
End Domains.

(** ** Data sets *)

Lemma cached_dataSets_count domains caches model model' : updateDataSetsWithCachedValues domains caches model = Done model' ->
  Forall (fun d => 0 <= ds_elementCount d) (im_dataSets model) -> Forall (fun d => 0 <= ds_elementCount d) (im_dataSets model').
Proof.
  unfold updateDataSetsWithCachedValues. destruct (each_res _ _) as [ds| | |] eqn:E; try done. intros [= <-]. cbn [im_dataSets].
  apply each_res_Forall2 in E. induction E as [|x y l ds Hx _ IH]; [done|]. intros [H1 H2]%Forall_cons_1.
  constructor; [|by apply IH]. unfold cached_dataSet in Hx. destruct (each_res _ _); try done. by injection Hx as <-.
Qed.

(** * The server *)

(** What is asked of a model. *)
Definition model_wf (model : IedModel) : Prop :=
  Forall device_wf (im_devices model) /\ Forall (fun d => 0 <= ds_elementCount d) (im_dataSets model).

Lemma activate_inv w sizes malloc st es u st' es' : server_inv sizes malloc st ->
  on_reports w Reporting_activateBufferedReports st es = Done (u, st', es') ->
  server_inv sizes malloc st' /\ exists new, es' = es ++ new /\ Forall not_goose new.
Proof.
  intros Hst H. eapply e_reports; [|exact Hst|exact H]. intros env rcs es1 rcs' es1' Henv.
  apply each_reachable. intros rc es2 rc' es3 Hr Ha. by eapply rr_activate.
Qed.

Lemma create_inv w initial model st : model_wf model -> IedServer_create w initial model = Done st ->
  server_inv (w_sizes w) (w_malloc w) st.
Proof.
  intros [Hwf Hds]. unfold IedServer_create.
  destruct (createMmsModelFromIedModel model) as [[[domains|] blocks]| | |] eqn:Em; try done. cbn [rbind defined].
  destruct (mmsModel_type (w_sizes w) (w_malloc w) model domains blocks Hwf Em) as ([Hr Hg] & Hdom & Hn).
  destruct (createMmsServerCache _ _) as [[caches objects]| | |] eqn:Ec; try done. cbn [rbind].
  destruct (createMmsServerCache_filled domains Hdom Hn (w_malloc w) _ Ec) as [Hcaches Hobj].
  destruct (installDefaultValuesInCache _ _ _ _) as [installed| | |] eqn:Ei; try done. cbn [rbind].
  apply (install_connected domains Hdom) in Ei as [Hc Hp]; [|split; [done|by intros a h]].
  destruct (updateDataSetsWithCachedValues _ _ _) as [model'| | |] eqn:Eu; try done. cbn [rbind].
  match goal with |- (let! _ := on_reports _ _ ?self _ in _) = _ -> _ => set (server0 := self) end.
  destruct (on_reports _ _ server0 []) as [[[u st1] es]| | |] eqn:Ea; try done. intros [= <-].
  eapply activate_inv; [|exact Ea]. constructor; cbn; try done; [by apply domains_named|by apply cached_for_made|by eapply cached_dataSets_count].
Qed.

(** * The servers *)

(** A server that is made from a model, and what happens to it; time, clients and the
    answers of the application change from step to step, the platform does not. *)
Inductive server_reachable (sizes : Sizes) (malloc : Z -> list Z) : IedServer -> list ServerEvent -> Prop :=
| sr_create w initial model st : w_sizes w = sizes -> w_malloc w = malloc -> model_wf model ->
    IedServer_create w initial model = Done st -> server_reachable sizes malloc st []
| sr_step w st es A c (a : A) st' es' : w_sizes w = sizes -> w_malloc w = malloc -> server_reachable sizes malloc st es ->
    server_operation w st A c -> c st es = Done (a, st', es') -> server_reachable sizes malloc st' es'.

Lemma reachable_server sizes malloc st es : server_reachable sizes malloc st es ->
  server_inv sizes malloc st /\ Forall not_goose es.
Proof.
  induction 1 as [w initial model st <- <- Hm H|w st es A c a st' es' Hs Hm _ [IH1 IH2] Hop H].
  - split; [by eapply create_inv|constructor].
  - destruct (operation_safe sizes malloc w Hs Hm c st es a st' es' IH1 Hop H) as (Hst & new & -> & Hn).
    split; [done|]. by apply Forall_app.
Qed.
