(* ===== verification/ServerSafety.v ===== *)
(** What the server guarantees, whatever its clients and its application do. *)
From Stdlib Require Import String.
From stdpp Require Import base tactics numbers option gmap list.
From S2P Require Import Prelude BerEncode BerInteger MmsValue MmsValueFacts Effects CString MmsTypeSpec Control ControlFacts Iec61850Common ReportBuffer ReportControl Reporting ReportingAccess ReportingFacts ReportingInv ValueStore IedModel MmsGoose ServerState MmsMapping MappingModel NameMapping IedServer SampleServer MmsGooseFacts MmsMappingFacts ServerInv ServerCreate.

(** * Access of clients and of the application *)

Lemma setValue_data w domain variableId value connection st es r st' es' :
  mmsServer_setValue w domain variableId value connection st es = Done (r, st', es') ->
  frame_of st' = frame_of st /\ (sv_valueCaches st' = sv_valueCaches st \/
    exists lnName behind, strchr DOLLAR variableId = Some (lnName, behind) /\ isWritableFC behind = true /\
      allowed_write w st st' domain variableId behind value connection /\ r = DATA_ACCESS_ERROR_SUCCESS).
Proof.
  intros H. unfold mmsServer_setValue, mmsWriteHandler in H.
  assert (forall c : SM Z, keeps (fun st1 => data_of st1 = data_of st) c -> c st es = Done (r, st', es') ->
    frame_of st' = frame_of st /\ sv_valueCaches st' = sv_valueCaches st) as Hkeep.
  { intros c Hc Hr. pose proof (keeps_done _ _ _ _ _ _ _ Hc eq_refl Hr) as Hd. injection Hd as H1 H2 H3 H4. unfold frame_of. split; congruence. }
  destruct (strchr DOLLAR variableId) as [[lnName behind]|] eqn:Es; [|injection H as _ <- _; by split; [|left]].
  destruct (isControllable behind); [apply Hkeep in H as [??]; [by split; [|left]|apply k_on_controls; apply _]|].
  destruct (isGooseControlBlock behind); [apply Hkeep in H as [??]; [by split; [|left]|apply k_writeAccessGoose; apply _]|].
  destruct (isReportControlBlock behind); [apply Hkeep in H as [??]; [by split; [|left]|apply k_write_rcb; apply _]|].
  destruct (isWritableFC behind) eqn:Ew; [|injection H as _ <- _; by split; [|left]].
  apply write_attribute_value_data in H as [Hf [Hv|[Ha Hr]]]; [by split; [|left]|].
  split; [done|]. right. by exists lnName, behind.
Qed.

(** C16: Access to the values of the data model by writes to whole variables.  Whatever a
    client writes under a name through [mmsServer_setValue], the values do not change, or
    they change in this way: the name has the functional constraint SP, SV, CF or DC, and
    leads to the value of an attribute; the new value has the same type; the handler of
    the application for the attribute allows it, or, without one, the policy for the
    functional constraint; and the value of this attribute, and nothing else, is replaced.
    (Writes to elements of arrays go another way, past these checks:
    [array_element_write_unchecked].) *)
Theorem write_access w domain variableId value connection st es r st' es' :
  mmsServer_setValue w domain variableId value connection st es = Done (r, st', es') ->
  sv_model st' = sv_model st /\ sv_mmsDevice st' = sv_mmsDevice st /\ sv_attributeValues st' = sv_attributeValues st /\
  (sv_valueCaches st' = sv_valueCaches st \/
   exists lnName behind, strchr DOLLAR variableId = Some (lnName, behind) /\ isWritableFC behind = true /\
     allowed_write w st st' domain variableId behind value connection /\ r = DATA_ACCESS_ERROR_SUCCESS).
Proof.
  intros H. apply setValue_data in H as [Hf Hv]. by injection Hf as -> -> ->.
Qed.

Lemma demo_write_changes : sv_valueCaches demo_written <> sv_valueCaches demo_enabled.
Proof.
  intros E. apply (f_equal (fun c => load c (mkLocation 0 (lit "GGIO1$SP") [0; 0]%nat))) in E. vm_compute in E. discriminate.
Qed.

Lemma write_access_witness : sv_valueCaches demo_written <> sv_valueCaches demo_enabled /\
  allowed_write demo_world demo_enabled demo_written demo_domain (lit "GGIO1$SP$AnIn1$setMag") (lit "SP$AnIn1$setMag") (demo_int 3) 7.
Proof.
  destruct (write_access _ _ _ _ _ _ _ _ _ _ demo_write_run) as (_ & _ & _ & [H|(lnName & behind & Hs & _ & Ha & _)]);
    [exfalso; exact (demo_write_changes H)|].
  split; [exact demo_write_changes|]. replace (lit "SP$AnIn1$setMag") with behind; [exact Ha|].
  enough (Some (lnName, behind) = Some (lit "GGIO1", lit "SP$AnIn1$setMag")) as E by congruence. rewrite <- Hs. vm_compute. reflexivity.
Defined.




(** * Connections that end *)

(** The block of another client stays; a block of the client is free. *)
Definition released (c : Z) (rc rc' : ReportControl) : Prop :=
  if is_other rc c then rc' = rc
  else rc_enabled rc' = false /\ rc_clientConnection rc' = None /\ rc_buffered rc' = rc_buffered rc /\
    rc_reportBuffer rc' = rc_reportBuffer rc /\ (rc_buffered rc = false -> rc_reserved rc' = false).

(** What the release looks at, after its first steps. *)
Definition free_block (buffered : bool) (buffer : option ReportBuffer) (reserved : option bool) (rc : ReportControl) : Prop :=
  rc_enabled rc = false /\ rc_clientConnection rc = None /\ rc_buffered rc = buffered /\ rc_reportBuffer rc = buffer /\
  (forall b, reserved = Some b -> rc_reserved rc = b).

Lemma k_free_set b buf r name v : keeps (free_block b buf r) (cmodify (rcb_set name v) : R unit).
Proof.
  apply k_modify. intros rc. pose proof (rc_rest_set name v rc) as H. unfold rc_rest in H. injection H as E1 E2 _ E4 E5 E6 _ _ _.
  unfold free_block. by rewrite E1, E2, E4, E5, E6.
Qed.

Lemma k_free_attribute b buf r name : keeps (free_block b buf r) (getRCBValue name).
Proof. unfold getRCBValue, self. keeps_run. Qed.

Lemma k_free_updateOwner env b buf r : keeps (free_block b buf r) (updateOwner env None).
Proof.
  unfold updateOwner. apply k_bind; [apply k_modify; by intros rc (? & ? & ? & ? & ?)|]. intros _. apply k_bind; [apply k_free_attribute|]. intros [v|]; [|apply k_ret].
  apply k_bind; [apply k_lift|]. intros o. apply k_bind; [apply k_lift|]. intros o'. apply k_free_set.
Qed.

Lemma deactivate_released env c rc es u rc' es' : deactivate env c rc es = Done (u, rc', es') -> released c rc rc'.
Proof.
  unfold deactivate, released, self. rewrite bind_get. destruct (is_other rc c) eqn:Eo; [by intros [= _ <- _]|].
  rewrite !bind_modify. set (rc1 := rc_set_clientConnection None (rc_set_enabled false rc)).
  assert (free_block (rc_buffered rc) (rc_reportBuffer rc) None rc1) as H1 by done. revert H1. generalize rc1. clear rc1. intros s H1 H.
  apply cbind_inv in H as (v & s1 & es1 & H2 & H). apply (keeps_done _ _ _ _ _ _ _ (k_free_attribute _ _ _ _) H1) in H2.
  apply cbind_inv in H as (x & s2 & es2 & (_ & -> & ->)%clift_inv & H).
  apply cbind_inv in H as (y & s3 & es3 & H3 & H). apply (keeps_done _ _ _ _ _ _ _ (k_free_set _ _ _ _ _) H2) in H3.
  apply cbind_inv in H as (z & s4 & es4 & H4 & H).
  enough (free_block (rc_buffered rc) (rc_reportBuffer rc) (if rc_buffered rc then None else Some false) s4) as H5.
  { apply (keeps_done _ _ _ _ _ _ _ (k_free_updateOwner _ _ _ _) H5) in H as (E1 & E2 & E3 & E4 & E5). split_and!; [done..|].
    intros Eb. rewrite Eb in E5. by apply E5. }
  destruct (rc_buffered rc) eqn:Eb; [by injection H4 as _ <- _|]. rewrite bind_modify in H4.
  assert (free_block false (rc_reportBuffer rc) None (rc_set_inclusionField None s3)) as H6 by exact H3.
  apply cbind_inv in H4 as (v1 & s5 & es5 & H7 & H4). apply (keeps_done _ _ _ _ _ _ _ (k_free_attribute _ _ _ _) H6) in H7.
  apply cbind_inv in H4 as (x1 & s6 & es6 & (_ & -> & ->)%clift_inv & H4).
  apply cbind_inv in H4 as (y1 & s7 & es7 & H8 & H4). apply (keeps_done _ _ _ _ _ _ _ (k_free_set _ _ _ _ _) H7) in H8.
  injection H4 as _ <- _. destruct H8 as (E1 & E2 & E3 & E4 & _). split_and!; [done..|]. by intros b [= <-].
Qed.

(** C21: A connection that ends takes its reports with it.  When the server is told that a
    connection is closed, exactly one entry of it leaves the list of clients, and each
    report control block of the connection becomes free: it is disabled, has no client,
    keeps its buffer, and an unbuffered one is no longer reserved; the blocks of other
    clients are not touched. *)
Theorem closed_connection_releases_reports w c st es u st' es' :
  mmsConnectionHandler w c MMS_SERVER_CONNECTION_CLOSED st es = Done (u, st', es') ->
  c ∈ sv_clientConnections st /\ sv_clientConnections st ≡ₚ c :: sv_clientConnections st' /\
  Forall2 (released c) (sv_reportControls st) (sv_reportControls st').
Proof.
  unfold mmsConnectionHandler, server. rewrite bind_get. intros H.
  apply cbind_inv in H as (c' & s1 & es1 & (Hc & -> & ->)%clift_inv & H). unfold private_IedServer_getClientConnectionByHandle in Hc.
  case_bool_decide as Hin; [|done]. injection Hc as <-. split; [done|].
  apply cbind_inv in H as ([] & s1 & es1 & Hi & H).
  assert (s1 = st) as -> by (unfold indicate, server in Hi; run_inv; done).
  unfold private_IedServer_removeClientConnection in H. rewrite bind_modify in H.
  set (st1 := sv_set_clientConnections _ st) in H. apply cbind_inv in H as ([] & s2 & es2 & Hr & H).
  unfold on_reports in Hr. destruct (Reporting_deactivateReportsForConnection _ _ _ _) as [[rcs new]| | |] eqn:E; try done.
  injection Hr as <- <-. unfold on_controls in H. cbn [sv_controlObjects sv_set_reportControls] in H.
  match type of H with (let! _ := ?m in _) = _ => destruct m as [[[x os] new']| | |] eqn:E'; try done end.
  injection H as _ <- _. subst st1. cbn [sv_clientConnections sv_set_clientConnections sv_set_reportControls sv_set_controlObjects sv_reportControls].
  split.
  - revert Hin. generalize (sv_clientConnections st). intros l. induction l as [|y l IH]; intros Hin; [by apply elem_of_nil in Hin|].
    cbn [LinkedList_remove]. destruct (Z.eqb_spec y c) as [->|Hne]; [done|].
    apply elem_of_cons in Hin as [->|Hin]; [done|]. rewrite (IH Hin) at 1. apply Permutation_swap.
  - apply each_spec in E. eapply Forall2_impl; [exact E|]. intros rc rc' (es3 & es4 & Hd). by eapply deactivate_released.
Qed.

Lemma closed_connection_releases_reports_witness : exists st', mmsConnectionHandler demo_world 7 MMS_SERVER_CONNECTION_CLOSED demo_updated [] = Done (tt, st', []) /\
  sv_clientConnections demo_updated = [7] /\ map rc_enabled (sv_reportControls demo_updated) = [true; false] /\
  sv_clientConnections demo_updated ≡ₚ 7 :: sv_clientConnections st' /\ Forall2 (released 7) (sv_reportControls demo_updated) (sv_reportControls st').
Proof.
  destruct (step_returns_run (mmsConnectionHandler demo_world 7 MMS_SERVER_CONNECTION_CLOSED) demo_updated (fun _ => true)) as ([] & H & _);
    [vm_compute; reflexivity|]. eexists. split; [exact H|]. split; [vm_compute; reflexivity|]. split; [vm_compute; reflexivity|].
  exact (proj2 (closed_connection_releases_reports _ _ _ _ _ _ _ H)).
Defined.

(** * Every state of the server *)

(** ** The small server *)

Abbreviation demo_sizes := (w_sizes demo_world).
Abbreviation demo_malloc := (w_malloc demo_world).

Lemma demo_model_wf : model_wf demo_model.
Proof.
  split; [constructor; [split|constructor]|constructor; [cbn; lia|constructor]]; apply (bool_decide_unpack _); vm_compute; exact I.
Qed.

Lemma demo_sizes_ok : sizes_ok demo_sizes.
Proof. unfold sizes_ok. cbn. lia. Qed.

Lemma demo_enable_writable : writable demo_connected demo_domain (lit "LLN0$RP$EventsRCB$RptEna").
Proof.
  intros lnName behind name el i rc [= <- <-] Hp _ _. vm_compute in Hp. injection Hp as <- <-.
  unfold rcb_index. destruct (rc_buffered rc); vm_compute; by eexists.
Qed.

Lemma demo_enabled_reachable : server_reachable demo_sizes demo_malloc demo_enabled [].
Proof.
  eapply (sr_step _ _ demo_world demo_connected [] Z demo_enable); [done..| |apply op_write, demo_enable_writable|apply demo_enable_run].
  eapply (sr_step _ _ demo_world demo_server [] unit demo_connect); [done..| |apply op_connection|apply demo_connect_run].
  eapply sr_create; [done..|apply demo_model_wf|apply demo_server_created].
Qed.

Lemma demo_reachable : server_reachable demo_sizes demo_malloc demo_updated [].
Proof.
  eapply (sr_step _ _ demo_world demo_written [] unit demo_update); [done..| |apply op_update|apply demo_update_run].
  eapply (sr_step _ _ demo_world demo_enabled [] Z demo_write); [done..| |apply op_write|apply demo_write_run].
  2: { intros lnName behind name el i rc [= <- <-] Hp. vm_compute in Hp. intros Hf. exfalso. revert Hf. injection Hp as <- <-. vm_compute. done. }
  apply demo_enabled_reachable.
Qed.

(** C19: What a client reads has the type that the server announces. In every state that a
    server reaches from a well-formed model - by writes to variables and to the elements of
    arrays, updates of the application, lists of variables that come and go -, the search
    for a name in the values of a domain ends without touching memory that is not there, and
    a value it finds has the type that the domain declares for this name; and every
    attribute of the model that has a value points to one that is there. *)
Theorem server_values_typed sizes malloc st es : server_reachable sizes malloc st es ->
  (forall address itemId, exists r, cached_value st address itemId = Done r /\ forall v, r = Some v ->
     exists d t, d ∈ sv_mmsDevice st /\ md_address d = address /\ MmsDomain_getNamedVariable d itemId = Done (Some t) /\ typed t v) /\
  (forall da h, sv_attributeValues st !! mn_address da = Some h -> exists l v, mmsValue_of st da = Done l /\ load_value st l = Done v).
Proof.
  intros [[] _]%reachable_server. split.
  - intros address itemId. unfold cached_value. destruct (cached_for_typed _ _ address itemId si_caches si_named) as (r & -> & Hr).
    cbn [rbind]. destruct r as [l|]; [|by exists None]. destruct (Hr l eq_refl) as (v & d & t & Hv & _ & Hd & Ha & Ht & Hty).
    exists (Some v). unfold load_value. rewrite Hv. split; [done|]. intros ? [= <-]. by exists d, t.
  - intros da h Hh. destruct (si_pointers _ _ Hh) as (l & Hl & v & Hv). exists l, v. unfold mmsValue_of, load_value.
    by rewrite Hh; cbn; rewrite Hl, Hv.
Qed.

Lemma server_values_typed_witness : exists v d t, cached_value demo_updated 0 (lit "GGIO1$SP$AnIn1$setMag") = Done (Some v) /\ v = demo_int 3 /\
  d ∈ sv_mmsDevice demo_updated /\ MmsDomain_getNamedVariable d (lit "GGIO1$SP$AnIn1$setMag") = Done (Some t) /\ typed t v.
Proof.
  destruct (server_values_typed _ _ _ _ demo_reachable) as [H _]. destruct (H 0 (lit "GGIO1$SP$AnIn1$setMag")) as (r & Hr & Hv).
  assert (r = Some (demo_int 3)) as ->.
  { enough (Done r = Done (Some (demo_int 3))) as E by congruence. rewrite <- Hr. vm_compute. reflexivity. }
  destruct (Hv _ eq_refl) as (d & t & Hd & _ & Ht & Hty). exists (demo_int 3), d, t. split_and!; done.
Defined.

Lemma written_reads made caches caches' place old value new : caches_wf made caches -> load caches place = Some old ->
  (caches' = caches /\ new = old \/ caches' = store caches place new /\ exists ok, MmsValue_update old value = Done (ok, new)) ->
  (forall a name, MmsServer_getValueFromCache caches' a name = MmsServer_getValueFromCache caches a name) /\
  load caches' place = Some new /\ (forall l, apart place l -> load caches' l = load caches l).
Proof.
  intros Hwf Hold [[-> ->]|[-> [ok Hu]]]; [done|].
  assert (forall t, typed t old -> typed t new) as Ht by (intros t Ht; by eapply MmsValue_update_typed).
  split; [intros a name; by eapply getValueFromCache_store|]. split; [by eapply load_store_same|].
  intros l Ha. rewrite (load_store made _ Hwf _ old) by (try done; by right).
  case_bool_decide as E; [|done]. subst l. exfalso. destruct (Ha eq_refl eq_refl) as [Hp _]. by apply Hp.
Qed.

(** C17: What is written is read. In every state that a server reaches from its model, if a
    write of a whole variable to a name with the functional constraint SP, SV, CF or DC is
    answered with success, then the name leads to a value, and any client then reads a value
    under it. If an attribute has this value, what is read is what the update of the old
    value with the written one makes of it, and it is equal to the written one if both are
    well-formed and the old value has room for it ([takes]: the same kinds of values and
    sizes); a value that no attribute has - that of a data object - is read as it was.
    Another name, whose value neither contains the written one nor is a part of it, reads as
    before. *)
Theorem write_then_read sizes malloc w domain variableId lnName behind value connection st es st' es' c' :
  server_reachable sizes malloc st es -> strchr DOLLAR variableId = Some (lnName, behind) -> isWritableFC behind = true ->
  mmsServer_setValue w domain variableId value connection st es = Done (DATA_ACCESS_ERROR_SUCCESS, st', es') ->
  exists place old new, MmsServer_getValueFromCache (sv_valueCaches st) (md_address domain) variableId = Done (Some place) /\
    load_value st place = Done old /\ mmsServer_getValue w domain variableId c' st' es' = Done (Some new, st', es') /\
    match IedModel_lookupDataAttributeByMmsValue (sv_attributeValues st) (sv_model st) (handle place) with
    | Some _ =>
        (MmsValue_equals old value = Done true /\ new = old \/ exists ok, MmsValue_update old value = Done (ok, new)) /\
        (mms_wf old -> mms_wf value -> takes old value -> MmsValue_equals new value = Done true)
    | None => new = old
    end /\
    forall a name other, MmsServer_getValueFromCache (sv_valueCaches st) a name = Done (Some other) -> apart place other ->
      cached_value st' a name = cached_value st a name.
Proof.
  intros [[] _]%reachable_server Hs Hf H. destruct si_caches as (made & _ & Hwf). rewrite (writable_is_attribute _ _ _ _ _ _ _ Hs Hf) in H.
  destruct (accepted_write _ _ _ _ _ _ _ _ _ _ H) as (place & old & Hplace & Hold & Hst).
  assert (exists new, (sv_valueCaches st' = sv_valueCaches st /\ new = old \/
      sv_valueCaches st' = store (sv_valueCaches st) place new /\ exists ok, MmsValue_update old value = Done (ok, new)) /\
    match IedModel_lookupDataAttributeByMmsValue (sv_attributeValues st) (sv_model st) (handle place) with
    | Some _ => MmsValue_equals old value = Done true /\ new = old \/ exists ok, MmsValue_update old value = Done (ok, new)
    | None => new = old
    end) as (new & Hcaches & Hnew).
  { unfold stored_write in Hst. destruct (IedModel_lookupDataAttributeByMmsValue _ _ _); [|exists old; by split; [left|]].
    destruct Hst as [[He Hst]|(ok & new & Hu & Hst)]; [exists old; by split; [left|left]|].
    exists new. split; [right; split; [done|by exists ok]|right; by exists ok]. }
  exists place, old, new. unfold load_value. rewrite Hold. do 2 (split; [done|]).
  destruct (written_reads made (sv_valueCaches st) (sv_valueCaches st') place old value new Hwf Hold Hcaches) as (Hname & Hread & Hapart).
  split; [|split].
  - unfold mmsServer_getValue, server. rewrite bind_get, (bind_lift _ _ _ _ (Some new)); [done|].
    unfold cached_value. rewrite Hname, Hplace. cbn [rbind]. unfold load_value. by rewrite Hread.
  - destruct (IedModel_lookupDataAttributeByMmsValue _ _ _); [|done]. split; [done|]. intros Ho Hv Ht.
    destruct Hnew as [[He ->]|[ok Hu]]; [done|]. destruct (MmsValue_update_takes _ _ Ht Ho Hv) as (x & Hx & _ & _ & _ & He & _).
    rewrite Hx in Hu. by injection Hu as _ <-.
  - intros a name other Ho Ha. unfold cached_value. rewrite Hname, Ho. cbn [rbind]. unfold load_value. by rewrite Hapart.
Qed.

Lemma demo_three_wf : mms_wf (demo_int 3).
Proof. constructor. cbn. unfold asn1_wf. cbn. repeat split; try by_eval; bytes_tac. Qed.

Lemma demo_zero_wf : mms_wf (Simple 0 (V_INTEGER (mkAsn1 4 4 [0; 0; 0; 0]))).
Proof. constructor. cbn. unfold asn1_wf. cbn. repeat split; try by_eval; bytes_tac. Qed.

Lemma write_then_read_witness : exists new, new = demo_int 3 /\
  mmsServer_getValue demo_world demo_domain (lit "GGIO1$SP$AnIn1$setMag") 7 demo_written [] = Done (Some new, demo_written, []) /\
  MmsValue_equals new (demo_int 3) = Done true.
Proof.
  destruct (write_then_read demo_sizes demo_malloc demo_world demo_domain (lit "GGIO1$SP$AnIn1$setMag") (lit "GGIO1") (lit "SP$AnIn1$setMag")
    (demo_int 3) 7 demo_enabled [] demo_written [] 7 demo_enabled_reachable) as (place & old & new & Hp & Ho & Hr & Hc & _);
    [vm_compute; reflexivity|reflexivity|exact demo_write_run|].
  vm_compute in Hp. injection Hp as <-. vm_compute in Ho. injection Ho as <-.
  match type of Hc with match ?x with _ => _ end => assert (exists da, x = Some da) as [da Hda] by (vm_compute; eexists; reflexivity) end.
  rewrite Hda in Hc. clear Hda. destruct Hc as [Hc Ht]. destruct Hc as [[He _]|[ok Hu]]; [clear - He; vm_compute in He; discriminate He|].
  assert (new = demo_int 3) as ->. { vm_compute in Hu. injection Hu as <- <-. reflexivity. }
  eexists. split; [reflexivity|]. split; [exact Hr|]. apply Ht.
  - exact demo_zero_wf.
  - exact demo_three_wf.
  - constructor. cbv. discriminate.
Defined.

(** C20: In every state that a server reaches from its model, each report control block
    and each control object of the server satisfies the invariant of its kind: the
    buffer of a block is a queue of reports in its memory, an enabled block has a client
    and shows that it is enabled; a control object is in one of its states, with a
    client if it is selected. *)
Theorem server_components_consistent sizes malloc st es : sizes_ok sizes -> server_reachable sizes malloc st es ->
  Forall (rc_inv (sizeof_ReportBufferEntry sizes)) (sv_reportControls st) /\ Forall co_inv (sv_controlObjects st).
Proof.
  intros Hs [[] _]%reachable_server. split.
  - eapply Forall_impl; [exact si_reports|]. intros rc. by apply reachable_inv.
  - eapply Forall_impl; [exact si_controls|]. intros o Ho. by eapply object_inv.
Qed.

Lemma server_components_consistent_witness : map rc_enabled (sv_reportControls demo_updated) = [true; false] /\
  Forall (rc_inv 32) (sv_reportControls demo_updated) /\ Forall co_inv (sv_controlObjects demo_updated).
Proof.
  split; [vm_compute; reflexivity|]. exact (server_components_consistent demo_sizes demo_malloc demo_updated [] demo_sizes_ok demo_reachable).
Defined.

(** C22: No GOOSE message is ever published.  Whatever clients and application do -
    [IedServer_enableGoosePublishing] and writes to [GoEna] among it -, no GOOSE control
    block of a server that has been made from a model becomes enabled and no GOOSE
    message is sent: [MmsGooseControlBlock_enable] reads the address of the block as the
    octet string that the type of the element [Addr] does not make it. *)
Theorem goose_never_published sizes malloc st es : server_reachable sizes malloc st es ->
  Forall (fun g => gcb_goEna g = false) (sv_gseControls st) /\ forall e, GooseSent e ∉ es.
Proof.
  intros [[] He]%reachable_server. split.
  - eapply Forall_impl; [exact si_goose|]. by intros g [].
  - intros e Hin. eapply Forall_forall in He; [|exact Hin]. done.
Qed.

Lemma goose_never_published_witness : length (sv_gseControls demo_updated) = 1%nat /\
  Forall (fun g => gcb_goEna g = false) (sv_gseControls demo_updated).
Proof. split; [vm_compute; reflexivity|]. exact (proj1 (goose_never_published _ _ _ _ demo_reachable)). Defined.
