(* ===== verification/MmsPdu.v ===== *)
(** The MMS PDUs as decoded: the structures that the ASN.1 types of
    src/mms/iso_mms/asn1c/ describe, as far as the services of the server and the client look at
    them or fill them, and the conversion of integers of src/mms/iso_mms/asn1c/INTEGER.c.  A
    string of octets is the list of its [size] octets. *)
From stdpp Require Import base tactics numbers option list.
From S2P Require Import Prelude Memory BerDecode BerEncode.

(** * Integers *)

(** [asn_INTEGER2long]: [None] is a value that does not fit, or a null pointer, for which
    the result is not set.  Only octets that do not fit are looked through for leading ones
    without meaning. *)
Definition asn_INTEGER2long (iptr : option (list Z)) : option Z :=
  buf ← iptr;
  let buf := if 8 <? zlen buf then compress buf else buf in
  if 8 <? zlen buf then None
  else
    match buf with
    | [] => Some 0
    | b :: _ => Some (foldl (fun l b => i64 (Z.lor (Z.shiftl l 8) b)) (if Z.shiftr b 7 =? 0 then 0 else -1) buf)
    end.

(** [asn_long2INTEGER]: the octets of a [long], most significant first, without leading
    ones that have no meaning. *)
Definition asn_long2INTEGER (value : Z) : list Z := compress (rev (le_bytes 8 value)).

(** * Data *)

#[warnings="-register-all"]
Inductive Data :=
| Data_NOTHING
| Data_array (list : list Data)
| Data_structure (list : list Data)
| Data_boolean (boolean : Z)                   (* BOOLEAN_t is an int *)
| Data_bitstring (buf : list Z) (bits_unused : Z)
| Data_integer (integer : list Z)
| Data_unsigned (Unsigned : list Z)
| Data_floatingpoint (floatingpoint : list Z)
| Data_octetstring (octetstring : list Z)
| Data_visiblestring (visiblestring : list Z)
| Data_generalizedtime (generalizedtime : list Z)
| Data_binarytime (binarytime : list Z)
| Data_bcd (bcd : list Z)
| Data_booleanArray (buf : list Z) (bits_unused : Z)
| Data_mMSString (mMSString : list Z)
| Data_utctime (utctime : list Z).

(** Induction with the elements at hand. *)
Section DataInd.
Context (P : Data -> Prop)
  (Harray : forall l, Forall P l -> P (Data_array l))
  (Hstructure : forall l, Forall P l -> P (Data_structure l))
  (Hother : forall d, match d with Data_array _ | Data_structure _ => False | _ => True end -> P d).

Fixpoint Data_induction (d : Data) : P d :=
  let fix go (l : list Data) : Forall P l :=
    match l with
    | [] => Forall_nil_2 _
    | d :: l => Forall_cons_2 _ _ _ (Data_induction d) (go l)
    end in
  match d with
  | Data_array l => Harray l (go l)
  | Data_structure l => Hstructure l (go l)
  | d => Hother d I
  end.
End DataInd.

(** [AccessResult]: a failure, or data; the alternatives are those of [Data]. *)
Inductive AccessResult :=
| AccessResult_failure (failure : list Z)
| AccessResult_data (data : Data).

(** * Names and ways to access a part of a variable *)

Inductive ObjectName :=
| ObjectName_NOTHING
| ObjectName_vmdspecific (vmdspecific : list Z)
| ObjectName_domainspecific (domainId itemId : list Z)
| ObjectName_aaspecific (aaspecific : list Z).

(** The selections of a part; the alternatives of [accessSelection] and of [selectAccess]
    are the same. *)
Inductive AccessSelection :=
| Select_NOTHING
| Select_component (component : list Z)
| Select_index (index : list Z)
| Select_indexRange (lowIndex numberOfElements : list Z)
| Select_allElements.

(** [AlternateAccessSelection]: [selectAlternateAccess] begins with the members of
    [selectAccess] and has one more, which is zero in the memory of the other; the code
    reads both without a look at which one is present. *)
#[warnings="-register-all"]
Inductive AlternateAccessSelection : Type :=
| mkSelection (selectAccess : AccessSelection) (alternateAccess : option (list AlternateAccessMember))
with AlternateAccessMember : Type :=
| Member_NOTHING
| Member_unnamed (unnamed : AlternateAccessSelection)
| Member_named (componentName : list Z) (access : AlternateAccessSelection).

Abbreviation AlternateAccess := (list AlternateAccessMember).

Definition selectAccess (s : AlternateAccessSelection) : AccessSelection := let 'mkSelection a _ := s in a.
Definition sub_alternateAccess (s : AlternateAccessSelection) : option AlternateAccess := let 'mkSelection _ a := s in a.

(** The octets at the front of the union, where the index, the lower index and the
    component lie; [None] is the null pointer. *)
Definition selection_octets (s : AccessSelection) : option (list Z) :=
  match s with
  | Select_component octets | Select_index octets | Select_indexRange octets _ => Some octets
  | Select_NOTHING | Select_allElements => None
  end.

(** [list.array[0]->choice.unnamed]: there must be an element, and a named one has other
    things there. *)
Definition first_unnamed (a : AlternateAccess) : res AlternateAccessSelection :=
  match a with
  | Member_unnamed s :: _ => Done s
  | _ => Ub
  end.

Inductive VariableSpecification :=
| VariableSpecification_name (name : ObjectName)
| VariableSpecification_other.                 (* address, description, scattered access *)

Record ListOfVariableSeq := mkVariableSeq {
  vs_variableSpecification : VariableSpecification;
  vs_alternateAccess : option AlternateAccess }.

Inductive VariableAccessSpecification :=
| VariableAccessSpecification_NOTHING
| VariableAccessSpecification_listOfVariable (listOfVariable : list ListOfVariableSeq)
| VariableAccessSpecification_variableListName (variableListName : ObjectName).

(** * Requests *)

Record ReadRequest := mkReadRequest {
  rr_specificationWithResult : option bool;
  rr_variableAccessSpecification : VariableAccessSpecification }.

Record WriteRequest := mkWriteRequest {
  wr_variableAccessSpecification : VariableAccessSpecification;
  wr_listOfData : list Data }.

Record DefineNamedVariableListRequest := mkDefineRequest {
  df_variableListName : ObjectName;
  df_listOfVariable : list ListOfVariableSeq }.

Definition scopeOfDelete_specific : Z := 0.

(** Both may be missing: the BER decoder sets no defaults. *)
Record DeleteNamedVariableListRequest := mkDeleteRequest {
  dl_scopeOfDelete : option (list Z);
  dl_listOfVariableListName : option (list ObjectName) }.

Inductive GetVariableAccessAttributesRequest :=
| Attributes_name (name : ObjectName)
| Attributes_other.                            (* an address *)

Inductive ObjectScope :=
| Scope_vmdSpecific
| Scope_domainSpecific (domainSpecific : list Z)
| Scope_aaSpecific.

(** [gn_objectClass] is [basicObjectClass], the only class there is. *)
Record GetNameListRequest := mkGetNameListRequest {
  gn_objectClass : list Z;
  gn_objectScope : ObjectScope;
  gn_continueAfter : option (list Z) }.

(** The server reads some of them without the ASN.1 code, or with that of a part. *)
Inductive ConfirmedServiceRequest :=
| Request_getNameList (getNameList : GetNameListRequest)
| Request_read (read : ReadRequest)
| Request_write (write : WriteRequest)
| Request_getVariableAccessAttributes (getVariableAccessAttributes : GetVariableAccessAttributesRequest)
| Request_defineNamedVariableList (defineNamedVariableList : DefineNamedVariableListRequest)
| Request_getNamedVariableListAttributes (getNamedVariableListAttributes : ObjectName)
| Request_deleteNamedVariableList (deleteNamedVariableList : DeleteNamedVariableListRequest)
| Request_other.

(** * Responses *)

#[warnings="-register-all"]
Inductive TypeSpecification :=
| TypeSpecification_NOTHING
| TypeSpecification_array (numberOfElements : list Z) (elementType : TypeSpecification)
| TypeSpecification_structure (components : list (option (list Z) * TypeSpecification))
| TypeSpecification_boolean
| TypeSpecification_bitstring (bitstring : Z)
| TypeSpecification_integer (integer : Z)
| TypeSpecification_unsigned (Unsigned : Z)
| TypeSpecification_floatingpoint (formatwidth exponentwidth : Z)
| TypeSpecification_octetstring (octetstring : Z)
| TypeSpecification_visiblestring (visiblestring : Z)
| TypeSpecification_binarytime (binarytime : bool)
| TypeSpecification_mMSString (mMSString : Z)
| TypeSpecification_utctime
| TypeSpecification_other.                     (* a name, a generalized time, BCD, an identifier *)

Inductive WriteResponseMember := Write_failure (failure : list Z) | Write_success.

Record GetNamedVariableListAttributesResponse := mkListAttributes {
  la_mmsDeletable : bool;
  la_listOfVariable : list ListOfVariableSeq }.

Inductive ConfirmedServiceResponse :=
| Response_read (listOfAccessResult : list AccessResult)
| Response_write (write : list WriteResponseMember)
| Response_getVariableAccessAttributes (mmsDeletable : bool) (typeSpecification : TypeSpecification)
| Response_defineNamedVariableList
| Response_getNamedVariableListAttributes (attributes : GetNamedVariableListAttributesResponse)
| Response_deleteNamedVariableList (numberMatched numberDeleted : list Z)
| Response_other.

(** [errorClass], with the octets of its code. *)
Inductive ErrorClass :=
| ErrorClass_NOTHING
| ErrorClass_access (code : list Z)
| ErrorClass_service (code : list Z)
| ErrorClass_definition (code : list Z)
| ErrorClass_file (code : list Z)
| ErrorClass_resource (code : list Z).

Inductive RejectReason :=
| Reject_confirmedRequestPDU (reason : Z)
| Reject_pduError (pduError : list Z).

(** A bit string is its octets and the number of its unused bits. *)
Record InitiateRequest := mkInitiateRequest {
  localDetailCalling : option Z;
  proposedMaxServOutstandingCalling : Z;
  proposedMaxServOutstandingCalled : Z;
  proposedDataStructureNestingLevel : option Z;
  proposedVersionNumber : Z;
  proposedParameterCBB : list Z * Z;
  servicesSupportedCalling : list Z * Z }.

Record InitiateResponse := mkInitiateResponse {
  localDetailCalled : option Z;
  negotiatedMaxServOutstandingCalling : Z;
  negotiatedMaxServOutstandingCalled : Z;
  negotiatedDataStructureNestingLevel : option Z }.

Record InformationReport := mkInformationReport {
  rp_variableAccessSpecification : VariableAccessSpecification;
  rp_listOfAccessResult : list AccessResult }.

(** The PDUs that server and client receive and send through the ASN.1 code. *)
Inductive MmsPdu :=
| InitiateRequestPdu (request : InitiateRequest)
| InitiateResponsePdu (response : InitiateResponse)
| UnconfirmedPDU (informationReport : option InformationReport)   (* [None]: another service *)
| ConfirmedRequestPdu (invokeID : list Z) (confirmedServiceRequest : ConfirmedServiceRequest)
| ConfirmedResponsePdu (invokeID : list Z) (confirmedServiceResponse : ConfirmedServiceResponse)
| ConfirmedErrorPDU (invokeID : list Z) (errorClass : ErrorClass)
| RejectPDU (originalInvokeID : option (list Z)) (rejectReason : RejectReason)
| OtherPdu.

(** * Facts about integers *)

Lemma i64_small z : -2 ^ 63 <= z < 2 ^ 63 -> i64 z = z.
Proof. intros. unfold i64, swrap. rewrite Z.mod_small by lia. lia. Qed.

Lemma lor_byte l b : is_byte b -> Z.lor (Z.shiftl l 8) b = l * 256 + b.
Proof.
  intros Hb. rewrite Z.shiftl_mul_pow2 by lia. change (2 ^ 8) with 256.
  symmetry. rewrite <- Z.lxor_lor, <- Z.add_nocarry_lxor; [done| |].
  all: change 256 with (2 ^ 8); rewrite <- Z.shiftl_mul_pow2 by lia.
  all: apply Z.bits_inj'; intros n Hn; rewrite Z.land_spec, Z.bits_0.
  all: destruct (Z.ltb_spec n 8); [by rewrite Z.shiftl_spec_low by lia|].
  all: rewrite andb_comm; rewrite (Z.bits_above_log2 b n); [done|unfold is_byte in Hb; lia|].
  all: unfold is_byte in Hb; destruct (decide (b = 0)) as [->|]; [simpl; lia|].
  all: apply Z.log2_lt_pow2; [lia|]; apply Z.lt_le_trans with (2 ^ 8); [lia|]; apply Z.pow_le_mono_r; lia.
Qed.

Lemma i64_step x b : is_byte b -> i64 (Z.lor (Z.shiftl (i64 x) 8) b) = i64 (x * 256 + b).
Proof.
  intros Hb. rewrite lor_byte by done. unfold i64, swrap. change (64 - 1) with 63. f_equal.
  set (y := (x + 2 ^ 63) mod 2 ^ 64). pose proof (Z.div_mod (x + 2 ^ 63) (2 ^ 64) ltac:(lia)) as E. fold y in E.
  replace (x * 256 + b + 2 ^ 63) with ((y - 2 ^ 63) * 256 + b + 2 ^ 63 + (x + 2 ^ 63) / 2 ^ 64 * 256 * 2 ^ 64) by lia.
  by rewrite Z_mod_plus_full.
Qed.

Lemma fold_octets bs a : bytes bs ->
  foldl (fun l b => i64 (Z.lor (Z.shiftl l 8) b)) (i64 a) bs = i64 (a * 256 ^ zlen bs + be_val bs).
Proof.
  intros Hb. revert a. induction Hb as [|b bs Hb Hbs IH]; intros a; cbn [foldl].
  - f_equal. unfold be_val, zlen. cbn [fold_left length]. change (256 ^ Z.of_nat 0) with 1. lia.
  - rewrite i64_step by done. rewrite IH, be_val_cons, zlen_cons, Z.pow_add_r by zl. f_equal. lia.
Qed.

(** The number that octets stand for. *)
Lemma asn_INTEGER2long_octets bs : bytes bs -> bs <> [] -> zlen bs <= 8 ->
  asn_INTEGER2long (Some bs) = Some (i64 (be_sval bs)).
Proof.
  intros Hb Hne Hl. unfold asn_INTEGER2long. cbn [mbind option_bind].
  destruct (Z.ltb_spec 8 (zlen bs)); [lia|]. destruct (Z.ltb_spec 8 (zlen bs)); [lia|].
  destruct bs as [|b bs]; [done|]. f_equal. unfold be_sval.
  apply bytes_cons in Hb as Hb'. destruct Hb' as [Hb0 _]. unfold is_byte in Hb0.
  assert ((Z.shiftr b 7 =? 0) = (b <? 128)) as ->.
  { rewrite Z.shiftr_div_pow2 by lia. change (2 ^ 7) with 128.
    destruct (Z.ltb_spec b 128); [by rewrite Z.div_small by lia|]. apply Z.eqb_neq.
    assert (1 <= b / 128) by (apply Z.div_le_lower_bound; lia). lia. }
  destruct (b <? 128).
  - change 0 with (i64 0) at 1. rewrite fold_octets by done. f_equal.
  - change (-1) with (i64 (-1)). rewrite fold_octets by done. f_equal. lia.
Qed.

Lemma be_sval_long value : - 2 ^ 63 <= value < 2 ^ 63 -> be_sval (rev (le_bytes 8 value)) = value.
Proof.
  intros Hv. pose proof (be_val_le_bytes 8 value) as E. change (256 ^ Z.of_nat 8) with (2 ^ 64) in E.
  pose proof (length_le_bytes 8 value) as Hl. pose proof (bytes_le_bytes 8 value) as Hb.
  assert (bytes (rev (le_bytes 8 value))) as Hr by (unfold bytes; by apply Forall_rev).
  assert (length (rev (le_bytes 8 value)) = 8%nat) as Hlr by (by rewrite length_rev).
  unfold be_sval. destruct (rev (le_bytes 8 value)) as [|b t] eqn:Er; [done|].
  rewrite be_val_cons in E. apply bytes_cons in Hr as [Hb0 Ht]. pose proof (be_val_bound t Ht) as Hbt.
  assert (zlen t = 7) as Ht7 by (unfold zlen; simpl in Hlr; lia). rewrite Ht7 in E, Hbt.
  rewrite be_val_cons, zlen_cons, Ht7. change (256 ^ (1 + 7)) with (2 ^ 64). change (256 ^ 7) with (2 ^ 56) in *.
  destruct (decide (0 <= value)) as [Hp|Hn].
  - rewrite Z.mod_small in E by lia. destruct (Z.ltb_spec b 128); lia.
  - replace (value mod 2 ^ 64) with (value + 2 ^ 64) in E.
    + destruct (Z.ltb_spec b 128); unfold is_byte in Hb0; lia.
    + rewrite <- (Z_mod_plus_full value 1). rewrite Z.mod_small; lia.
Qed.

Lemma asn_long2INTEGER_octets value : bytes (asn_long2INTEGER value) /\ 1 <= zlen (asn_long2INTEGER value) <= 8.
Proof.
  unfold asn_long2INTEGER. assert (bytes (rev (le_bytes 8 value))) as Hb by (unfold bytes; apply Forall_rev, bytes_le_bytes).
  split; [by apply bytes_compress|].
  assert (zlen (rev (le_bytes 8 value)) = 8) as Hl by (unfold zlen; by rewrite length_rev, length_le_bytes).
  pose proof (zlen_compress (rev (le_bytes 8 value))) as H. rewrite Hl in H. apply H. intros E. by rewrite E in Hl.
Qed.

(** What is written as an [INTEGER] is read as the same number. *)
Lemma asn_INTEGER_roundtrip value : - 2 ^ 63 <= value < 2 ^ 63 ->
  asn_INTEGER2long (Some (asn_long2INTEGER value)) = Some value.
Proof.
  intros Hv. destruct (asn_long2INTEGER_octets value) as [Hb Hl].
  rewrite asn_INTEGER2long_octets; [|done|intros E; rewrite E, zlen_nil in Hl; lia|lia].
  f_equal. unfold asn_long2INTEGER. rewrite be_sval_compress by (unfold bytes; apply Forall_rev, bytes_le_bytes).
  rewrite be_sval_long by done. by apply i64_small.
Qed.
