(* ===== verification/MmsData.v ===== *)
(** MMS values as data of the ASN.1 code: src/mms/iso_mms/common/mms_common_msg.c.  Values
    are turned into [Data] to be sent, and received [Data] into values; identifiers become
    strings. *)
From stdpp Require Import base tactics numbers option list.
From S2P Require Import Prelude Memory BerDecode BerEncode BerInteger MmsValue MmsValueFacts MmsTimeBits AccessResult MmsPdu.

(** * Identifiers *)

(** The characters before the first null byte: a name that is received may have one. *)
Fixpoint c_chars (s : list Z) : list Z :=
  match s with
  | [] => []
  | c :: s => if c =? 0 then [] else c :: c_chars s
  end.

Definition mmsMsg_createStringFromAsnIdentifier (identifier : list Z) : list Z := c_chars identifier.

(** A name that is too long for the buffer is replaced by the empty one. *)
Definition mmsMsg_copyAsn1IdentifierToStringBuffer (identifier : list Z) (bufSize : Z) : list Z :=
  if zlen identifier <? bufSize then c_chars identifier else [].

(** * From values to data *)

Definition mmsMsg_createFloatData (formatWidth : Z) (buf : list Z) : res (list Z) :=
  if formatWidth =? 64 then let! bs := rd_list (mk_ptr buf 0) 0 8 in Done (11 :: rev bs)
  else let! bs := rd_list (mk_ptr buf 0) 0 4 in Done (8 :: rev bs).

(** The octets of a string: [strlen] of the block, or none for the null pointer. *)
Definition string_octets (s : option (list Z)) : res (list Z) :=
  match s with Some block => c_string block | None => Done [] end.

(** The bit string, with the number of unused bits as the code computes it. *)
Definition bit_string_data (size : Z) (buf : list Z) : res (list Z * Z) :=
  let! bs := rd_list (mk_ptr buf 0) 0 (bitStringByteSize size) in
  Done (bs, 8 - Z.rem size 8).

Definition u_createBasicDataElement (v : uMmsValue) : res Data :=
  match v with
  | V_BIT_STRING size buf => let! (bs, unused) := bit_string_data size buf in Done (Data_bitstring bs unused)
  | V_BOOLEAN b => Done (Data_boolean (if b then 1 else 0))
  | V_FLOAT _ formatWidth buf => let! bs := mmsMsg_createFloatData formatWidth buf in Done (Data_floatingpoint bs)
  | V_UTC_TIME t => let! bs := rd_list (mk_ptr t 0) 0 8 in Done (Data_utctime bs)
  | V_INTEGER i => let! bs := rd_list (mk_ptr (a_octets i) 0) 0 (a_size i) in Done (Data_integer bs)
  | V_UNSIGNED i => let! bs := rd_list (mk_ptr (a_octets i) 0) 0 (a_size i) in Done (Data_unsigned bs)
  | V_VISIBLE_STRING s => let! bs := string_octets s in Done (Data_visiblestring bs)
  | V_OCTET_STRING size _ buf => let! bs := rd_list (mk_ptr buf 0) 0 size in Done (Data_octetstring bs)
  | V_STRING s => let! bs := string_octets s in Done (Data_mMSString bs)
  | V_BINARY_TIME size buf => let! bs := rd_list (mk_ptr buf 0) 0 size in Done (Data_binarytime bs)
  | _ => Done Data_NOTHING
  end.

(** [f] on each component, none of which may be the null pointer. *)
Section EachComponent.
Context {A : Type} (f : MmsValue -> res A).

Fixpoint each_component (cs : list (option MmsValue)) : res (list A) :=
  match cs with
  | [] => Done []
  | Some c :: cs => let! d := f c in let! ds := each_component cs in Done (d :: ds)
  | None :: _ => Ub
  end.
End EachComponent.

Fixpoint mmsMsg_createBasicDataElement (value : MmsValue) : res Data :=
  match value with
  | Simple _ v => u_createBasicDataElement v
  | Complex _ isArray cs =>
      let! ds := each_component mmsMsg_createBasicDataElement cs in
      Done (if isArray then Data_array ds else Data_structure ds)
  end.

Fixpoint mmsMsg_createDataElement (value : MmsValue) : res Data :=
  match value with
  | Complex _ false cs => let! ds := each_component mmsMsg_createDataElement cs in Done (Data_structure ds)
  | _ => mmsMsg_createBasicDataElement value
  end.

(** ** Access results *)

Definition DataAccessError_typeinconsistent : Z := 7.
Definition DataAccessError_objectnonexistent : Z := 10.

(** Integers go through [int32_t]; the type of another value is a failure. *)
Definition u_accessResult (value : MmsValue) (v : uMmsValue) : res AccessResult :=
  match v with
  | V_INTEGER _ =>
      let! n := MmsValue_toInt32 value in Done (AccessResult_data (Data_integer (asn_long2INTEGER n)))
  | V_UNSIGNED _ =>
      let! n := MmsValue_toInt32 value in Done (AccessResult_data (Data_unsigned (asn_long2INTEGER n)))
  | V_DATA_ACCESS_ERROR _ | V_GENERALIZED_TIME | V_BCD | V_OBJ_ID =>
      Done (AccessResult_failure (asn_long2INTEGER DataAccessError_typeinconsistent))
  | _ => let! d := u_createBasicDataElement v in Done (AccessResult_data d)
  end.

Definition mmsMsg_addResultToResultList (value : option MmsValue) : res AccessResult :=
  match value with
  | None => Done (AccessResult_failure (asn_long2INTEGER DataAccessError_objectnonexistent))
  | Some (Complex _ isArray cs) =>
      let! ds := each_component mmsMsg_createDataElement cs in
      Done (AccessResult_data (if isArray then Data_array ds else Data_structure ds))
  | Some (Simple d v) => u_accessResult (Simple d v) v
  end.

(** * From data to values *)

(** Five octets are a float, nine a double; with another number of octets the value has
    no bytes. *)
Definition parse_float (octets : list Z) : uMmsValue :=
  match octets with
  | [e; b0; b1; b2; b3] => V_FLOAT e 32 (rev [b0; b1; b2; b3])
  | [e; b0; b1; b2; b3; b4; b5; b6; b7] => V_FLOAT e 64 (rev [b0; b1; b2; b3; b4; b5; b6; b7])
  | _ => V_FLOAT 0 0 []
  end.

(** Data without elements; [None] is the null pointer. *)
Definition parse_simple (d : Data) : res (option MmsValue) :=
  let new v := Done (Some (new_value v)) in
  match d with
  | Data_integer octets =>
      let! i := BerInteger_createFromBuffer (mk_ptr octets 0) (zlen octets) in
      Done (Some (MmsValue_newIntegerFromBerInteger i))
  | Data_unsigned octets =>
      let! i := BerInteger_createFromBuffer (mk_ptr octets 0) (zlen octets) in
      Done (Some (MmsValue_newUnsignedFromBerInteger i))
  | Data_visiblestring octets =>
      let! v := MmsValue_newVisibleStringFromByteArray (mk_ptr octets 0) (zlen octets) in Done (Some v)
  | Data_mMSString octets => new (V_STRING (Some (octets ++ [0])))
  | Data_bitstring buf unused => new (V_BIT_STRING (zlen buf * 8 - unused) buf)
  | Data_floatingpoint octets => new (parse_float octets)
  | Data_utctime octets => let! t := memcpy (replicate 8 0) octets 8 in new (V_UTC_TIME t)
  | Data_octetstring octets => new (V_OCTET_STRING (u16 (zlen octets)) (u16 (zlen octets)) octets)
  | Data_binarytime octets =>
      if zlen octets <=? 6 then
        let! buf := memcpy (replicate 6 0) octets (zlen octets) in new (V_BINARY_TIME (zlen octets) buf)
      else Done None
  | Data_boolean b => Done (Some (MmsValue_newBoolean (negb (b =? 0))))
  | _ => Done None
  end.

Fixpoint mmsMsg_parseDataElement (dataElement : Data) : res (option MmsValue) :=
  match dataElement with
  | Data_structure l => let! cs := each_res mmsMsg_parseDataElement l in Done (Some (Complex 0 false cs))
  | Data_array l => let! cs := each_res mmsMsg_parseDataElement l in Done (Some (Complex 0 true cs))
  | d => parse_simple d
  end.

(** * Data on the way

    [OCTET_STRING_encode_der] writes three bits of [bits_unused] and clears the unused
    bits of the last octet, [OCTET_STRING_decode_ber] reads the octet and clears the bits
    again; [INTEGER_encode_der] leaves out leading octets without meaning, and
    [BOOLEAN_encode_der] writes 1 for everything but 0; other data comes out as it went
    in. *)
Definition unused_mask (unused : Z) : Z := Z.shiftl 255 unused.

Definition encode_bits (buf : list Z) (unused : Z) : list Z * Z :=
  let b := Z.land unused 7 in
  (if negb (b =? 0) && negb (zlen buf =? 0) then mask_last (unused_mask unused) buf else buf, b).

Definition decode_bits (buf : list Z) (unused : Z) : list Z * Z := (mask_last (unused_mask unused) buf, unused).

Definition transmit_bits (buf : list Z) (unused : Z) : list Z * Z :=
  let '(buf, unused) := encode_bits buf unused in decode_bits buf unused.

Fixpoint transmit (d : Data) : Data :=
  match d with
  | Data_array l => Data_array (map transmit l)
  | Data_structure l => Data_structure (map transmit l)
  | Data_bitstring buf unused => let '(buf, unused) := transmit_bits buf unused in Data_bitstring buf unused
  | Data_booleanArray buf unused => let '(buf, unused) := transmit_bits buf unused in Data_booleanArray buf unused
  | Data_integer octets => Data_integer (compress octets)
  | Data_unsigned octets => Data_unsigned (compress octets)
  | Data_bcd octets => Data_bcd (compress octets)
  | Data_boolean b => Data_boolean (if b =? 0 then 0 else 1)
  | d => d
  end.

(** MMS values on the way: what is sent as data is received as an equal value. *)

(** * Bit strings *)

Lemma mask_last_same mask bs : (forall x, last bs = Some x -> u8 (Z.land x mask) = x) -> mask_last mask bs = bs.
Proof.
  intros H. unfold mask_last. destruct (last bs) as [x|] eqn:E; [|done]. rewrite (H x) by done. symmetry. by apply last_removelast.
Qed.

Lemma byte_255 x : is_byte x -> u8 (Z.land x 255) = x.
Proof.
  intros Hx. unfold is_byte in Hx. change 255 with (Z.ones 8). rewrite Z.land_ones by lia. change (2 ^ 8) with 256.
  rewrite Z.mod_small by lia. by apply u8_small.
Qed.

Lemma bytes_last bs x : bytes bs -> last bs = Some x -> is_byte x.
Proof. intros Hb H%last_removelast. rewrite H in Hb. apply bytes_app in Hb as [_ Hb]. by apply bytes_cons in Hb as [? _]. Qed.

(** The unused bits of the last octet are zero. *)
Definition clean_bits (size : Z) (buf : list Z) : Prop := mask_last (unused_mask (Z.land (8 - Z.rem size 8) 7)) buf = buf.

Lemma unused_cases size : 0 <= size ->
  (Z.rem size 8 = 0 /\ Z.land (8 - Z.rem size 8) 7 = 0 /\ bitStringByteSize size * 8 = size) \/
  (0 < Z.rem size 8 < 8 /\ Z.land (8 - Z.rem size 8) 7 = 8 - Z.rem size 8 /\
    bitStringByteSize size * 8 - (8 - Z.rem size 8) = size).
Proof.
  intros Hs. pose proof (Z.rem_bound_pos size 8 Hs ltac:(lia)) as Hr. pose proof (Z.quot_rem size 8 ltac:(lia)) as Hq.
  unfold bitStringByteSize. destruct (Z.eqb_spec (Z.rem size 8) 0) as [E|E].
  - left. rewrite E in *. rewrite (proj2 (Z.ltb_ge 0 0)) by lia. repeat split; lia.
  - right. rewrite (proj2 (Z.ltb_lt 0 (Z.rem size 8))) by lia. repeat split; try lia.
    change 7 with (Z.ones 3). rewrite Z.land_ones by lia. apply Z.mod_small. change (2 ^ 3) with 8. lia.
Qed.

Lemma transmit_bits_clean size buf : 0 <= size -> zlen buf = bitStringByteSize size -> bytes buf -> clean_bits size buf ->
  exists unused, transmit_bits buf (8 - Z.rem size 8) = (buf, unused) /\ zlen buf * 8 - unused = size.
Proof.
  intros Hs Hl Hb Hc. unfold transmit_bits, encode_bits. destruct (unused_cases size Hs) as [(Hr & Hu & Hz)|(Hr & Hu & Hz)].
  - exists 0. rewrite Hu. unfold decode_bits. cbn [Z.eqb negb andb]. split; [|lia]. f_equal.
    apply mask_last_same. intros x Hx. apply byte_255. by eapply bytes_last.
  - exists (8 - Z.rem size 8). unfold clean_bits in Hc. rewrite Hu in Hc |- *. unfold decode_bits.
    destruct (negb _ && negb _); rewrite ?Hc; (split; [done|lia]).
Qed.

(** * Simple values *)

Definition u_sendable (v : uMmsValue) : Prop :=
  match v with
  | V_BIT_STRING size buf => clean_bits size buf
  | V_DATA_ACCESS_ERROR _ => False
  | _ => True
  end.

(** Well-formed, without errors, and with clean bit strings. *)
#[warnings="-register-all"]
Inductive sendable : MmsValue -> Prop :=
| sendable_simple d v : u_wf v -> u_sendable v -> sendable (Simple d v)
| sendable_complex d a vs : Forall sendable vs -> sendable (Complex d a (Some <$> vs)).

Lemma sendable_induction (P : MmsValue -> Prop) :
  (forall d v, u_wf v -> u_sendable v -> P (Simple d v)) ->
  (forall d a vs, Forall sendable vs -> Forall P vs -> P (Complex d a (Some <$> vs))) ->
  forall v, sendable v -> P v.
Proof.
  intros Hs Hc. fix IH 2. intros v [d u Hu Hx|d a vs Hvs]; [by apply Hs|].
  apply Hc; [done|]. induction Hvs; constructor; auto.
Qed.

(** The integers without leading octets that have no meaning. *)
Definition canonical_integer (i : Asn1PrimitiveValue) : Asn1PrimitiveValue :=
  let octets := compress (a_bytes i) in mkAsn1 (zlen octets) (a_maxSize i) (splice (a_octets i) 0 octets).

Definition u_canonical (v : uMmsValue) : uMmsValue :=
  match v with
  | V_INTEGER i => V_INTEGER (canonical_integer i)
  | V_UNSIGNED i => V_UNSIGNED (canonical_integer i)
  | v => v
  end.

Fixpoint canonical (v : MmsValue) : MmsValue :=
  match v with
  | Simple d v => Simple d (u_canonical v)
  | Complex d isArray cs => Complex d isArray (map (option_map canonical) cs)
  end.

Lemma canonical_integer_spec i : asn1_wf i ->
  asn1_wf (canonical_integer i) /\ a_bytes (canonical_integer i) = compress (a_bytes i).
Proof.
  intros Hi. pose proof Hi as (H1 & H2 & H3 & H4). pose proof (zlen_a_bytes i Hi) as Hz. pose proof (bytes_a_bytes i Hi) as Hb.
  assert (zlen (compress (a_bytes i)) <= zlen (a_bytes i)) as Hc.
  { destruct (a_bytes i) as [|b bs] eqn:E; [done|]. rewrite <- E. apply zlen_compress. by rewrite E. }
  pose proof (zlen_nonneg (compress (a_bytes i))). unfold canonical_integer. split.
  - unfold asn1_wf. cbn [a_size a_maxSize a_octets]. rewrite zlen_splice by lia. repeat split; try lia.
    apply bytes_splice; [done|by apply bytes_compress].
  - unfold a_bytes at 1. cbn [a_size a_octets]. by rewrite slice_splice0 by lia.
Qed.

(** The number is the same, and an integer without such octets is the same. *)
Lemma canonical_integer_number i : asn1_wf i -> be_sval (a_bytes (canonical_integer i)) = be_sval (a_bytes i).
Proof. intros Hi. rewrite (proj2 (canonical_integer_spec i Hi)). by apply be_sval_compress, bytes_a_bytes. Qed.

Lemma canonical_integer_minimal i : asn1_wf i -> compress (a_bytes i) = a_bytes i -> canonical_integer i = i.
Proof.
  intros Hi Hm. pose proof (zlen_a_bytes i Hi) as Hz. unfold canonical_integer. rewrite Hm, Hz. destruct i as [n m octets]. cbn [a_octets a_size a_maxSize] in *.
  f_equal. unfold a_bytes in *. cbn [a_octets a_size] in *. destruct Hi as (H1 & H2 & H3 & H4). cbn in *.
  unfold splice, slice in *. cbn. rewrite drop_0. rewrite length_take. rewrite Nat.min_l by (unfold zlen in *; lia).
  apply take_drop.
Qed.

(** What comes back from the other side. *)
Definition received_as (v : MmsValue) (d : Data) : Prop :=
  exists v', mmsMsg_parseDataElement (transmit d) = Done (Some v') /\ mms_wf v' /\ MmsValue_equals (canonical v) v' = Done true.

Lemma createFromBuffer_spec octets : bytes octets -> zlen octets < 256 ->
  exists i, BerInteger_createFromBuffer (mk_ptr octets 0) (zlen octets) = Done i /\ asn1_wf i /\ a_bytes i = octets.
Proof.
  intros Hb Hl. unfold BerInteger_createFromBuffer. rewrite rd_list_whole by done. cbn [rbind].
  set (maxSize := if 8 <? zlen octets then zlen octets else 8). pose proof (zlen_nonneg octets).
  assert (zlen octets <= maxSize < 256) as Hm by (unfold maxSize; zcase; lia).
  destruct (zero_malloc maxSize ltac:(lia)) as [Hz Hzb]. cbn [a_octets Asn1PrimitiveValue_create].
  rewrite st_list_fit by lia. cbn [rbind]. eexists. split; [done|]. unfold asn1_wf, a_bytes. cbn [a_size a_maxSize a_octets Asn1PrimitiveValue_create].
  rewrite !u8_small, zlen_splice by lia. repeat split; try lia; [by apply bytes_splice|]. by rewrite slice_splice0 by lia.
Qed.

Lemma received_integer c i d0 : asn1_wf i -> c = V_INTEGER \/ c = V_UNSIGNED ->
  exists d, u_createBasicDataElement (c i) = Done d /\ received_as (Simple d0 (c i)) d.
Proof.
  intros Hi Hc. pose proof Hi as (H1 & H2 & H3 & H4).
  assert (rd_list (mk_ptr (a_octets i) 0) 0 (a_size i) = Done (a_bytes i)) as E by (apply rd_list_slice; lia).
  destruct (canonical_integer_spec i Hi) as [Hci Hcb].
  destruct (createFromBuffer_spec (compress (a_bytes i))) as (j & Ej & Hj & Hb); [by apply bytes_compress, bytes_a_bytes| |].
  { rewrite <- Hcb. pose proof Hci as (? & ? & ? & ?). rewrite zlen_a_bytes by done. lia. }
  pose proof (asn1_compare_same _ j Hci Hj (eq_trans Hcb (eq_sym Hb))) as Hcmp.
  destruct Hc as [-> | ->]; cbn [u_createBasicDataElement]; rewrite E; cbn [rbind]; eexists; (split; [reflexivity|]).
  - exists (new_value (V_INTEGER j)). cbn [transmit mmsMsg_parseDataElement parse_simple]. rewrite Ej. cbn [rbind].
    split; [done|]. split; [by constructor|]. exact Hcmp.
  - exists (new_value (V_UNSIGNED j)). cbn [transmit mmsMsg_parseDataElement parse_simple]. rewrite Ej. cbn [rbind].
    split; [done|]. split; [by constructor|]. exact Hcmp.
Qed.

Lemma received_string c s d0 : string_wf s -> c = V_VISIBLE_STRING \/ c = V_STRING ->
  exists d, u_createBasicDataElement (c s) = Done d /\ received_as (Simple d0 (c s)) d.
Proof.
  intros (b & cs & -> & Hcs & Hb) Hc. destruct (copyString_wf _ _ Hcs Hb) as [H1 H2].
  assert (string_wf (Some (cs ++ [0]))) as Hw by (exists (cs ++ [0]), cs; done).
  assert (strings_equal (Some b) (Some (cs ++ [0])) = Done true) as He.
  { cbn [strings_equal]. rewrite Hcs. cbn [rbind]. unfold copyString in H1. rewrite H1. cbn [rbind]. by rewrite bool_decide_true. }
  destruct Hc as [-> | ->]; cbn [u_createBasicDataElement string_octets]; rewrite Hcs; cbn [rbind]; eexists; (split; [reflexivity|]).
  - exists (new_value (V_VISIBLE_STRING (Some (cs ++ [0])))). cbn [transmit mmsMsg_parseDataElement parse_simple].
    unfold MmsValue_newVisibleStringFromByteArray. rewrite rd_list_whole by done. cbn [rbind].
    split; [done|]. split; [by constructor|]. cbn [canonical u_canonical MmsValue_equals new_value MmsValue_getType u_type u_equals]. by rewrite bool_decide_true.
  - exists (new_value (V_STRING (Some (cs ++ [0])))). cbn [transmit mmsMsg_parseDataElement parse_simple].
    split; [done|]. split; [by constructor|]. cbn [canonical u_canonical MmsValue_equals new_value MmsValue_getType u_type u_equals]. by rewrite bool_decide_true.
Qed.

Lemma received_float e w buf d0 : u_wf (V_FLOAT e w buf) ->
  exists d, u_createBasicDataElement (V_FLOAT e w buf) = Done d /\ received_as (Simple d0 (V_FLOAT e w buf)) d.
Proof.
  intros (Hw & Hl & Hb). cbn [u_createBasicDataElement]. unfold mmsMsg_createFloatData.
  destruct Hw as [-> | ->]; cbn [Z.eqb Pos.eqb]; rewrite rd_list_whole by done; cbn [rbind]; eexists; (split; [reflexivity|]).
  - change (Z.quot 32 8) with 4 in Hl. destruct buf as [|b0 [|b1 [|b2 [|b3 [|]]]]]; try (exfalso; zl).
    exists (new_value (V_FLOAT 8 32 [b0; b1; b2; b3])). split; [done|]. split; [by constructor; repeat split; auto|].
    cbn [canonical u_canonical MmsValue_equals new_value MmsValue_getType u_type u_equals]. rewrite bool_decide_true by done. by apply memcmp_eq_refl.
  - change (Z.quot 64 8) with 8 in Hl. destruct buf as [|b0 [|b1 [|b2 [|b3 [|b4 [|b5 [|b6 [|b7 [|]]]]]]]]]; try (exfalso; zl).
    exists (new_value (V_FLOAT 11 64 [b0; b1; b2; b3; b4; b5; b6; b7])). split; [done|]. split; [by constructor; repeat split; auto|].
    cbn [canonical u_canonical MmsValue_equals new_value MmsValue_getType u_type u_equals]. rewrite bool_decide_true by done. by apply memcmp_eq_refl.
Qed.

Lemma received_bits size buf d0 : u_wf (V_BIT_STRING size buf) -> clean_bits size buf ->
  exists d, u_createBasicDataElement (V_BIT_STRING size buf) = Done d /\ received_as (Simple d0 (V_BIT_STRING size buf)) d.
Proof.
  intros (H1 & H2 & H3) Hc. cbn [u_createBasicDataElement]. unfold bit_string_data.
  rewrite rd_list_whole by done. cbn [rbind]. eexists. split; [reflexivity|].
  destruct (transmit_bits_clean size buf H1 H2 H3 Hc) as (unused & E & Hz).
  exists (new_value (V_BIT_STRING size buf)). cbn [transmit mmsMsg_parseDataElement]. rewrite E. cbn [mmsMsg_parseDataElement parse_simple].
  rewrite Hz. split; [done|]. split; [by constructor|].
  cbn [canonical u_canonical MmsValue_equals new_value MmsValue_getType u_type u_equals]. rewrite bool_decide_true, Z.eqb_refl by done.
  pose proof (zlen_quot8 _ H1). by apply memcmp_eq_refl; try lia.
Qed.

Lemma received_octets n m buf d0 : u_wf (V_OCTET_STRING n m buf) ->
  exists d, u_createBasicDataElement (V_OCTET_STRING n m buf) = Done d /\ received_as (Simple d0 (V_OCTET_STRING n m buf)) d.
Proof.
  intros (H1 & H2 & H3 & H4). cbn [u_createBasicDataElement]. rewrite rd_list_slice by lia. cbn [rbind]. eexists. split; [reflexivity|].
  assert (zlen (slice buf 0 n) = n) as Hn by (apply zlen_slice; lia).
  exists (new_value (V_OCTET_STRING n n (slice buf 0 n))). cbn [transmit mmsMsg_parseDataElement parse_simple].
  rewrite Hn, u16_small by lia. split; [done|]. split; [constructor; simpl; repeat split; try lia; by apply bytes_slice|].
  cbn [canonical u_canonical MmsValue_equals new_value MmsValue_getType u_type u_equals]. rewrite bool_decide_true, Z.eqb_refl by done.
  apply memcmp_eq_refl; try lia. by rewrite slice_slice by lia.
Qed.

Lemma received_times v d0 : u_wf v -> match v with V_UTC_TIME _ | V_BINARY_TIME _ _ => True | _ => False end ->
  exists d, u_createBasicDataElement v = Done d /\ received_as (Simple d0 v) d.
Proof.
  destruct v as [| | | | | | | |n buf|t| | | |]; try done; intros Hw _; cbn [u_createBasicDataElement].
  - destruct Hw as (Hn & Hl & Hb). assert (0 <= n <= 6) as Hn6 by (destruct Hn; lia).
    rewrite rd_list_slice by lia. cbn [rbind]. eexists. split; [reflexivity|].
    assert (zlen (slice buf 0 n) = n) as Hz by (apply zlen_slice; lia).
    exists (new_value (V_BINARY_TIME n (splice (replicate 6 0) 0 (slice buf 0 n)))).
    cbn [transmit mmsMsg_parseDataElement parse_simple]. rewrite Hz. rewrite (proj2 (Z.leb_le n 6)) by lia.
    destruct (zero_malloc 6 ltac:(lia)) as [Hr Hrb]. change (replicate (Z.to_nat 6) 0) with (replicate 6 0) in *.
    rewrite memcpy_part by lia. cbn [rbind]. rewrite (slice_whole (slice buf 0 n) n) by done. split; [done|].
    assert (zlen (splice (replicate 6 0) 0 (slice buf 0 n)) = 6) as Hs by (rewrite zlen_splice by lia; done).
    split; [constructor; simpl; repeat split; [done|done|]; apply bytes_splice; [done|by apply bytes_slice]|].
    cbn [canonical u_canonical MmsValue_equals new_value MmsValue_getType u_type u_equals]. rewrite bool_decide_true, Z.eqb_refl by done.
    apply memcmp_eq_refl; try lia. by rewrite slice_splice0 by lia.
  - destruct Hw as (Hl & Hb). rewrite rd_list_whole by done. cbn [rbind]. eexists. split; [reflexivity|].
    exists (new_value (V_UTC_TIME t)). cbn [transmit mmsMsg_parseDataElement parse_simple].
    rewrite memcpy_whole by done. split; [done|]. split; [by constructor|].
    cbn [canonical u_canonical MmsValue_equals new_value MmsValue_getType u_type u_equals]. rewrite bool_decide_true by done. by apply memcmp_eq_refl; try lia.
Qed.

Lemma received_simple v d0 : u_wf v -> u_sendable v ->
  exists d, u_createBasicDataElement v = Done d /\ received_as (Simple d0 v) d.
Proof.
  intros Hw Hs. destruct v as [b|size buf|i|i|e w buf|n m buf|s|s|n buf|t|e| | |]; try done.
  - eexists. split; [reflexivity|]. exists (MmsValue_newBoolean b). destruct b; repeat split; by constructor.
  - by apply received_bits.
  - apply received_integer; [done|by left].
  - apply received_integer; [done|by right].
  - by apply received_float.
  - by apply received_octets.
  - apply received_string; [done|by left].
  - apply received_string; [done|by right].
  - by apply received_times.
  - by apply received_times.
Qed.

(** * Values with components *)

Lemma received_components (f : MmsValue -> res Data) vs :
  Forall (fun v => exists d, f v = Done d /\ received_as v d) vs ->
  exists ds vs', each_component f (Some <$> vs) = Done ds /\
    each_res mmsMsg_parseDataElement (map transmit ds) = Done (Some <$> vs') /\
    Forall mms_wf vs' /\ Forall2 (fun v v' => MmsValue_equals v v' = Done true) (map canonical vs) vs'.
Proof.
  induction 1 as [|v vs (d & Hd & v' & Hp & Hw & He) _ (ds & vs' & Hds & Hps & Hws & Hes)].
  - exists [], []. repeat split; constructor.
  - exists (d :: ds), (v' :: vs'). rewrite !fmap_cons. cbn [each_component map each_res]. rewrite Hd. cbn [rbind].
    rewrite Hds, Hp. cbn [rbind]. change (transmit <$> ds) with (map transmit ds). rewrite Hps. repeat split; by constructor.
Qed.

Lemma createBasicDataElement_spec v : sendable v ->
  exists d, mmsMsg_createBasicDataElement v = Done d /\ received_as v d.
Proof.
  induction 1 as [d0 u Hu Hs|d0 a vs _ IH] using sendable_induction; [by apply received_simple|].
  destruct (received_components _ _ IH) as (ds & vs' & Hds & Hps & Hws & Hes). cbn [mmsMsg_createBasicDataElement].
  rewrite Hds. cbn [rbind]. eexists. split; [reflexivity|]. exists (Complex 0 a (Some <$> vs')).
  split; [|split; [by constructor|]].
  2: { assert (canonical (Complex d0 a (Some <$> vs)) = Complex d0 a (Some <$> map canonical vs)) as ->.
       { cbn [canonical]. f_equal. change (map (option_map canonical) (Some <$> vs)) with (option_map canonical <$> (Some <$> vs)).
         change (map canonical vs) with (canonical <$> vs). by rewrite <- !list_fmap_compose. }
       by apply MmsValue_equals_complex. }
  destruct a.
  - change ((let! cs := each_res mmsMsg_parseDataElement (map transmit ds) in Done (Some (Complex 0 true cs)))
      = Done (Some (Complex 0 true (Some <$> vs')))). by rewrite Hps.
  - change ((let! cs := each_res mmsMsg_parseDataElement (map transmit ds) in Done (Some (Complex 0 false cs)))
      = Done (Some (Complex 0 false (Some <$> vs')))). by rewrite Hps.
Qed.

(** C14: A value that is written is the value that is received: a well-formed value without
    errors, whose bit strings have clear unused bits, is turned into data without failure,
    and the data that comes out at the other side is parsed into a well-formed value that
    [MmsValue_equals] takes for the same, once its integers are without leading octets
    that have no meaning: such octets do not arrive, and [MmsValue_equals] looks at the
    octets, not at the numbers, which are the same ([canonical_integer_number]).  A value
    that has no such octets arrives as it is. *)
Theorem MmsData_roundtrip v : sendable v ->
  exists d v', mmsMsg_createBasicDataElement v = Done d /\
    mmsMsg_parseDataElement (transmit d) = Done (Some v') /\ mms_wf v' /\ MmsValue_equals (canonical v) v' = Done true /\
    (canonical v = v -> MmsValue_equals v v' = Done true).
Proof.
  intros Hv. destruct (createBasicDataElement_spec v Hv) as (d & Hd & v' & Hp & Hw & He). exists d, v'.
  do 4 (split; [done|]). by intros E; rewrite E in He.
Qed.

Lemma sample_value_sendable : sendable sample_value.
Proof.
  pose proof sample_value_wf as Hw. unfold sample_value in *. inversion Hw as [|? ? vs Hvs E1]. subst.
  constructor. constructor; [by constructor|]. constructor; [constructor; [|done]; by unfold u_wf, asn1_wf; simpl; repeat split; try lia; bytes_tac|].
  constructor; [constructor; [|done]; exists [79; 75; 0], [79; 75]; repeat split; bytes_tac|].
  constructor; [|constructor]. constructor. constructor; [|constructor]. constructor; [|reflexivity]. simpl. repeat split; [lia|bytes_tac].
Qed.

Lemma MmsData_roundtrip_witness :
  exists d v', mmsMsg_createBasicDataElement sample_value = Done d /\
    mmsMsg_parseDataElement (transmit d) = Done (Some v') /\ mms_wf v' /\ MmsValue_equals sample_value v' = Done true.
Proof.
  destruct (MmsData_roundtrip sample_value sample_value_sendable) as (d & v' & Hd & Hp & Hw & _ & He).
  exists d, v'. do 3 (split; [assumption|]). apply He. reflexivity.
Defined.

(** The superfluous octet of an integer does not arrive. *)
Example superfluous_octet : exists d v', mmsMsg_createBasicDataElement (Simple 0 (V_INTEGER (mkAsn1 2 4 [0; 7; 0; 0]))) = Done d /\
  mmsMsg_parseDataElement (transmit d) = Done (Some v') /\ MmsValue_equals (Simple 0 (V_INTEGER (mkAsn1 2 4 [0; 7; 0; 0]))) v' = Done false.
Proof. do 2 eexists. repeat split; vm_compute; reflexivity. Qed.
