(* ===== verification/MmsService.v ===== *)
(** The MMS server at work on one message of one connection: the state of the connection
    (src/mms/iso_mms/server/mms_server.h, mms_server_connection.c), the response buffer, and
    the parts that the services share (mms_server_common.c).  The IED server behind it is
    the one of ServerState.v. *)
From Stdlib Require Import String.
From stdpp Require Import base tactics numbers option gmap list.
From S2P Require Import Prelude Memory Buffers BerEncode MmsValue Effects CString MmsTypeSpec ServerState MmsPdu MmsData.

(** * What the server relies on *)

Definition CONFIG_MMS_MAXIMUM_PDU_SIZE : Z := 16000.

(** The ASN.1 code: the decoders get a pointer and a number of octets, the encoder hands
    its output to [mmsServer_write_out] in pieces and tells whether it came to the end: it
    does not if the structure is not complete, as with a choice that is not made. *)
Record AsnCodec := mkCodec {
  ber_decode_MmsPdu : ptr -> Z -> option MmsPdu;
  ber_decode_attributes : ptr -> Z -> option GetVariableAccessAttributesRequest;
  ber_decode_listAttributes : ptr -> Z -> option ObjectName;
  der_encode_MmsPdu : MmsPdu -> list (list Z) * bool }.

(** The file system of the platform; a handle is a number.  [fs_getFileInfo] gives the
    size and the time of the last change in milliseconds.  [fs_readFile] gives the bytes
    that are stored in the buffer, no more than were asked for. *)
Class FileSystem (FS : Type) := {
  fs_getFileInfo : FS -> list Z -> option (Z * Z);
  fs_openFile : FS -> list Z -> bool -> option Z * FS;
  fs_readFile : FS -> Z -> Z -> list Z * FS;
  fs_closeFile : FS -> Z -> FS;
  fs_deleteFile : FS -> list Z -> bool * FS;
  fs_renameFile : FS -> list Z -> list Z -> bool * FS;
  fs_openDirectory : FS -> list Z -> option (list (list Z * bool)) }.

(** * Sizes *)

(** An element with its tag and its length. *)
Definition tl_size (length : Z) : Z := 1 + BerEncoder_determineLengthSize (u32 length) + length.

Definition sum_list (l : list Z) : Z := foldr Z.add 0 l.

(** * Data *)

(** [fileHandle] is [None] for the null pointer. *)
Record MmsFileReadStateMachine := mkFrsm {
  frsmId : Z;                                  (* int32_t *)
  readPosition : Z;                            (* uint32_t *)
  fileSize : Z;                                (* uint32_t *)
  fileHandle : option Z }.

(** [mc_handle] is the number that the IED server knows the connection by. *)
Record MmsServerConnection := mkMmsConnection {
  mc_handle : Z;
  mc_maxServOutstandingCalling : Z;
  mc_maxServOutstandingCalled : Z;
  mc_dataStructureNestingLevel : Z;
  mc_maxPduSize : Z;
  mc_namedVariableLists : list MmsNamedVariableList;
  mc_lastInvokeId : Z;
  mc_nextFrsmId : Z;
  mc_frsms : list MmsFileReadStateMachine }.

Definition mc_set_parameters (calling called nesting pduSize : Z) (c : MmsServerConnection) : MmsServerConnection :=
  mkMmsConnection (mc_handle c) calling called nesting pduSize (mc_namedVariableLists c) (mc_lastInvokeId c)
    (mc_nextFrsmId c) (mc_frsms c).
Definition mc_set_lists (lists : list MmsNamedVariableList) (c : MmsServerConnection) : MmsServerConnection :=
  mkMmsConnection (mc_handle c) (mc_maxServOutstandingCalling c) (mc_maxServOutstandingCalled c)
    (mc_dataStructureNestingLevel c) (mc_maxPduSize c) lists (mc_lastInvokeId c) (mc_nextFrsmId c) (mc_frsms c).
Definition mc_set_lastInvokeId (invokeId : Z) (c : MmsServerConnection) : MmsServerConnection :=
  mkMmsConnection (mc_handle c) (mc_maxServOutstandingCalling c) (mc_maxServOutstandingCalled c)
    (mc_dataStructureNestingLevel c) (mc_maxPduSize c) (mc_namedVariableLists c) invokeId (mc_nextFrsmId c) (mc_frsms c).
Definition mc_set_files (next : Z) (frsms : list MmsFileReadStateMachine) (c : MmsServerConnection) : MmsServerConnection :=
  mkMmsConnection (mc_handle c) (mc_maxServOutstandingCalling c) (mc_maxServOutstandingCalled c)
    (mc_dataStructureNestingLevel c) (mc_maxPduSize c) (mc_namedVariableLists c) (mc_lastInvokeId c) next frsms.

(** The members of [sMmsServer] for the services [identify] and [status]. *)
Record MmsServerInfo := mkServerInfo {
  mi_vendorName : option (list Z);
  mi_modelName : option (list Z);
  mi_revision : option (list Z);
  mi_vmdLogicalStatus : Z;
  mi_vmdPhysicalStatus : Z }.

Definition CONFIG_MMS_MAX_NUMBER_OF_OPEN_FILES_PER_CONNECTION : nat := 5.

(** [MmsServerConnection_init] of a connection that [calloc] has cleared. *)
Definition MmsServerConnection_init (handle : Z) : MmsServerConnection :=
  mkMmsConnection handle 0 0 0 CONFIG_MMS_MAXIMUM_PDU_SIZE [] 0 0
    (replicate CONFIG_MMS_MAX_NUMBER_OF_OPEN_FILES_PER_CONNECTION (mkFrsm 0 0 0 None)).

(** * The state while a message is processed *)

Record Service {FS : Type} := mkService {
  se_server : IedServer;
  se_info : MmsServerInfo;
  se_files : FS;
  se_connection : MmsServerConnection;
  se_response : ByteBuffer }.
Arguments Service FS : clear implicits.

Section Service.
Context {FS : Type}.

Definition se_set_server (server : IedServer) (s : Service FS) : Service FS :=
  mkService FS server (se_info s) (se_files s) (se_connection s) (se_response s).
Definition se_set_files (files : FS) (s : Service FS) : Service FS :=
  mkService FS (se_server s) (se_info s) files (se_connection s) (se_response s).
Definition se_set_connection (connection : MmsServerConnection) (s : Service FS) : Service FS :=
  mkService FS (se_server s) (se_info s) (se_files s) connection (se_response s).
Definition se_set_response (response : ByteBuffer) (s : Service FS) : Service FS :=
  mkService FS (se_server s) (se_info s) (se_files s) (se_connection s) response.
End Service.

Abbreviation MS FS := (eff (Service FS) ServerEvent).

Section Common.
Context {FS : Type}.

(** Code of the IED server. *)
Definition on_server {A} (c : SM A) : MS FS A := fun s es =>
  let! (a, st, es) := c (se_server s) es in Done (a, se_set_server st s, es).

Definition the_server : MS FS IedServer := cget se_server.
Definition the_connection : MS FS MmsServerConnection := cget se_connection.
Definition update_connection (f : MmsServerConnection -> MmsServerConnection) : MS FS unit :=
  cmodify (fun s => se_set_connection (f (se_connection s)) s).

(** * Writing the response *)

(** [c buffer bufPos] writes from [response->buffer] on, and the size becomes the position
    that it returns. *)
Definition encode_response (c : Z -> Z -> W Z) : MS FS unit := fun s es =>
  let response := se_response s in
  let! p := defined (bb_buffer response) in
  let! (bufPos, m) := c (p_base p) 0 (p_mem p) in
  Done (tt, se_set_response (mkByteBuffer (Some (mk_ptr m (p_base p))) (bb_maxSize response) bufPos) s, es).

(** The pieces until one does not fit, [mmsServer_write_out] with [ByteBuffer_append]. *)
Fixpoint append_pieces (pieces : list (list Z)) (response : ByteBuffer) : res (bool * ByteBuffer) :=
  match pieces with
  | [] => Done (true, response)
  | piece :: pieces =>
      let! (n, response) := ByteBuffer_append response (mk_ptr piece 0) (zlen piece) in
      if n <? 0 then Done (false, response) else append_pieces pieces response
  end.

Section Codec.
Context (codec : AsnCodec).

(** [der_encode] into a buffer: whether all was encoded and written. *)
Definition append_encoded (pdu : MmsPdu) (response : ByteBuffer) : res (bool * ByteBuffer) :=
  let '(pieces, complete) := der_encode_MmsPdu codec pdu in
  let! (written, response) := append_pieces pieces response in
  Done (written && complete, response).

Definition der_encode (pdu : MmsPdu) : MS FS bool := fun s es =>
  let! (ok, response) := append_encoded pdu (se_response s) in
  Done (ok, se_set_response response s, es).

Definition send_pdu (pdu : MmsPdu) : MS FS unit := do! _ := der_encode pdu in cret tt.

(** ** Errors *)

Inductive MmsError :=
| MMS_ERROR_NONE
| MMS_ERROR_CONNECTION_REJECTED
| MMS_ERROR_CONNECTION_LOST
| MMS_ERROR_SERVICE_TIMEOUT
| MMS_ERROR_PARSING_RESPONSE
| MMS_ERROR_HARDWARE_FAULT
| MMS_ERROR_CONCLUDE_REJECTED
| MMS_ERROR_OTHER
| MMS_ERROR_VMDSTATE_OTHER
| MMS_ERROR_APPLICATION_REFERENCE_OTHER
| MMS_ERROR_DEFINITION_OTHER
| MMS_ERROR_DEFINITION_INVALID_ADDRESS
| MMS_ERROR_DEFINITION_TYPE_UNSUPPORTED
| MMS_ERROR_DEFINITION_TYPE_INCONSISTENT
| MMS_ERROR_DEFINITION_OBJECT_UNDEFINED
| MMS_ERROR_DEFINITION_OBJECT_EXISTS
| MMS_ERROR_DEFINITION_OBJECT_ATTRIBUTE_INCONSISTENT
| MMS_ERROR_RESOURCE_OTHER
| MMS_ERROR_SERVICE_OTHER
| MMS_ERROR_SERVICE_PREEMPT_OTHER
| MMS_ERROR_TIME_RESOLUTION_OTHER
| MMS_ERROR_ACCESS_OTHER
| MMS_ERROR_ACCESS_OBJECT_NON_EXISTENT
| MMS_ERROR_ACCESS_OBJECT_ACCESS_UNSUPPORTED
| MMS_ERROR_ACCESS_OBJECT_ACCESS_DENIED
| MMS_ERROR_ACCESS_OBJECT_INVALIDATED
| MMS_ERROR_ACCESS_OBJECT_VALUE_INVALID
| MMS_ERROR_ACCESS_TEMPORARILY_UNAVAILABLE
| MMS_ERROR_FILE_OTHER
| MMS_ERROR_FILE_FILENAME_AMBIGUOUS
| MMS_ERROR_FILE_FILE_BUSY
| MMS_ERROR_FILE_FILENAME_SYNTAX_ERROR
| MMS_ERROR_FILE_CONTENT_TYPE_INVALID
| MMS_ERROR_FILE_POSITION_INVALID
| MMS_ERROR_FILE_FILE_ACCESS_DENIED
| MMS_ERROR_FILE_FILE_NON_EXISTENT
| MMS_ERROR_FILE_DUPLICATE_FILENAME
| MMS_ERROR_FILE_INSUFFICIENT_SPACE_IN_FILESTORE
| MMS_ERROR_REJECT_OTHER
| MMS_ERROR_REJECT_UNKNOWN_PDU_TYPE
| MMS_ERROR_REJECT_INVALID_PDU
| MMS_ERROR_REJECT_UNRECOGNIZED_SERVICE
| MMS_ERROR_REJECT_UNRECOGNIZED_MODIFIER
| MMS_ERROR_REJECT_REQUEST_INVALID_ARGUMENT.

#[export] Instance MmsError_eq_dec : EqDecision MmsError.
Proof. solve_decision. Defined.

(** Errors that are not listed leave the class unset. *)
Definition error_class (errorType : MmsError) : ErrorClass :=
  match errorType with
  | MMS_ERROR_ACCESS_OBJECT_NON_EXISTENT => ErrorClass_access (asn_long2INTEGER 2)
  | MMS_ERROR_ACCESS_OBJECT_ACCESS_DENIED => ErrorClass_access (asn_long2INTEGER 3)
  | MMS_ERROR_ACCESS_OBJECT_ACCESS_UNSUPPORTED => ErrorClass_access (asn_long2INTEGER 1)
  | MMS_ERROR_SERVICE_OTHER => ErrorClass_service (asn_long2INTEGER 0)
  | MMS_ERROR_DEFINITION_OBJECT_EXISTS => ErrorClass_definition (asn_long2INTEGER 5)
  | MMS_ERROR_FILE_FILE_NON_EXISTENT => ErrorClass_file (asn_long2INTEGER 7)
  | MMS_ERROR_FILE_OTHER => ErrorClass_file (asn_long2INTEGER 0)
  | MMS_ERROR_RESOURCE_OTHER => ErrorClass_resource (asn_long2INTEGER 0)
  | _ => ErrorClass_NOTHING
  end.

Definition confirmed_error (invokeId : Z) (errorType : MmsError) : MmsPdu :=
  ConfirmedErrorPDU (asn_long2INTEGER invokeId) (error_class errorType).

Definition mmsServer_createConfirmedErrorPdu (invokeId : Z) (errorType : MmsError) : MS FS unit :=
  send_pdu (confirmed_error invokeId errorType).

Definition reject_reason (reason : MmsError) : RejectReason :=
  match reason with
  | MMS_ERROR_REJECT_UNRECOGNIZED_SERVICE => Reject_confirmedRequestPDU 1
  | MMS_ERROR_REJECT_UNKNOWN_PDU_TYPE => Reject_pduError (asn_long2INTEGER 0)
  | MMS_ERROR_REJECT_REQUEST_INVALID_ARGUMENT => Reject_confirmedRequestPDU 4
  | _ => Reject_confirmedRequestPDU 0
  end.

Definition reject_pdu (invokeId : option Z) (reason : MmsError) : MmsPdu :=
  RejectPDU (asn_long2INTEGER <$> invokeId) (reject_reason reason).

Definition mmsServer_writeMmsRejectPdu (invokeId : option Z) (reason : MmsError) : MS FS unit :=
  send_pdu (reject_pdu invokeId reason).

Definition mmsServer_createConfirmedResponse (invokeId : Z) (response : ConfirmedServiceResponse) : MmsPdu :=
  ConfirmedResponsePdu (asn_long2INTEGER invokeId) response.
End Codec.

(** * Access to array elements *)

(** The alternatives of [selectAccess] that are an index; the first member must be there. *)
Definition mmsServer_isIndexAccess (alternateAccess : AlternateAccess) : res bool :=
  match alternateAccess with
  | [] => Ub
  | Member_unnamed s :: _ =>
      Done match selectAccess s with Select_index _ | Select_indexRange _ _ => true | _ => false end
  | _ => Done false
  end.

(** The number is not set when it does not fit: an undefined value is used. *)
Definition mmsServer_getLowIndex (alternateAccess : AlternateAccess) : res Z :=
  let! s := first_unnamed alternateAccess in
  match selectAccess s with
  | Select_index octets | Select_indexRange octets _ => let! l := defined (asn_INTEGER2long (Some octets)) in Done (i32 l)
  | _ => Done (-1)
  end.

Definition mmsServer_getNumberOfElements (alternateAccess : AlternateAccess) : res Z :=
  let! s := first_unnamed alternateAccess in
  match selectAccess s with
  | Select_indexRange _ number => let! l := defined (asn_INTEGER2long (Some number)) in Done (i32 l)
  | _ => Done 0
  end.

(** * Variable lists of the association *)

Definition MmsServerConnection_addNamedVariableList (variableList : MmsNamedVariableList) : MS FS unit :=
  update_connection (fun c => mc_set_lists (mc_namedVariableLists c ++ [variableList]) c).
Definition MmsServerConnection_deleteNamedVariableList (listName : list Z) : MS FS unit :=
  update_connection (fun c => mc_set_lists (mmsServer_deleteVariableList (mc_namedVariableLists c) listName) c).
Definition MmsServerConnection_getNamedVariableList (self : MmsServerConnection) (variableListName : list Z) :=
  find_variable_list (mc_namedVariableLists self) variableListName.
Definition MmsServerConnection_getLastInvokeId (self : MmsServerConnection) : Z := mc_lastInvokeId self.
End Common.
