(* ===== verification/MmsWriteService.v ===== *)
(** The MMS write service: src/mms/iso_mms/server/mms_write_service.c. *)
From Stdlib Require Import String.
From stdpp Require Import base tactics numbers option gmap list.
From S2P Require Import Prelude Memory Buffers BerEncode MmsValue Effects CString MmsTypeSpec Control Reporting ValueStore ServerState MmsMapping MmsPdu MmsData MmsService.

Definition CONFIG_MMS_WRITE_SERVICE_MAX_NUMBER_OF_WRITE_ITEMS : Z := 100.
Definition DATA_ACCESS_ERROR_OBJECT_ACCESS_UNSUPPORTED : Z := 9.

Definition write_result (accessResult : Z) : WriteResponseMember :=
  if accessResult =? DATA_ACCESS_ERROR_SUCCESS then Write_success else Write_failure (asn_long2INTEGER accessResult).

Definition write_response (invokeId : Z) (accessResults : list Z) : MmsPdu :=
  mmsServer_createConfirmedResponse invokeId (Response_write (map write_result accessResults)).

Section Write.
Context {FS : Type} (w : World) (codec : AsnCodec).

Definition mmsServer_createMmsWriteResponse (invokeId : Z) (accessResults : list Z) : MS FS unit :=
  send_pdu codec (write_response invokeId accessResults).

(** The bytes of the response that a control object sends later, in a buffer of its own. *)
Definition MmsServerConnection_sendWriteResponse (self : MmsServerConnection) (invokeId indication : Z) : res ByteBuffer :=
  let! (_, response) :=
    append_encoded codec (write_response invokeId [indication]) (ByteBuffer_create (mc_maxPduSize self)) in
  Done response.

(** * One item *)

(** The checks of an access to an array element; [None] if they pass. *)
Definition check_alternateAccess (variable : MmsVariableSpecification) (alternateAccess : option AlternateAccess)
  : res (option Z) :=
  match alternateAccess with
  | None => Done None
  | Some a =>
      match variable with
      | SpecArray _ _ _ =>
          let! index := mmsServer_isIndexAccess a in
          Done (if index then None else Some DATA_ACCESS_ERROR_OBJECT_ACCESS_UNSUPPORTED)
      | _ => Done (Some DATA_ACCESS_ERROR_OBJECT_ATTRIBUTE_INCONSISTENT)
      end
  end.

(** The element of the array in the cache takes the value. *)
Definition write_element (domain : MmsDomain) (nameIdStr : list Z) (alternateAccess : AlternateAccess) (value : MmsValue)
  : MS FS Z :=
  do! st := the_server in
  do! cachedArray := clift (MmsServer_getValueFromCache (sv_valueCaches st) (md_address domain) nameIdStr) in
  match cachedArray with
  | None => cret DATA_ACCESS_ERROR_OBJECT_ATTRIBUTE_INCONSISTENT
  | Some place =>
      do! array := clift (load_value st place) in
      do! index := clift (mmsServer_getLowIndex alternateAccess) in
      match MmsValue_getElement array index with
      | None => cret DATA_ACCESS_ERROR_OBJECT_ATTRIBUTE_INCONSISTENT
      | Some elementValue =>
          do! (ok, v) := clift (MmsValue_update elementValue value) in
          do! _ := on_server (store_value (child_at place (Z.to_nat index)) v) in
          cret (if ok then DATA_ACCESS_ERROR_SUCCESS else DATA_ACCESS_ERROR_TYPE_INCONSISTENT)
      end
  end.

(** The variable is there. *)
Definition write_variable (domain : MmsDomain) (nameIdStr : list Z) (variable : MmsVariableSpecification)
    (alternateAccess : option AlternateAccess) (dataElement : Data) : MS FS Z :=
  do! refused := clift (check_alternateAccess variable alternateAccess) in
  match refused with
  | Some e => cret e
  | None =>
      do! value := clift (mmsMsg_parseDataElement dataElement) in
      match value with
      | None => cret DATA_ACCESS_ERROR_OBJECT_ATTRIBUTE_INCONSISTENT
      | Some value =>
          match alternateAccess with
          | Some a => write_element domain nameIdStr a value
          | None =>
              do! connection := the_connection in
              on_server (mmsServer_setValue w domain nameIdStr value (mc_handle connection))
          end
      end
  end.

Definition write_item (varSpec : ListOfVariableSeq) (dataElement : Data) : MS FS Z :=
  match vs_variableSpecification varSpec with
  | VariableSpecification_name (ObjectName_domainspecific domainId itemId) =>
      do! st := the_server in
      match MmsDevice_getDomain (sv_mmsDevice st) (c_chars domainId) with
      | None => cret DATA_ACCESS_ERROR_OBJECT_NONE_EXISTENT
      | Some domain =>
          let nameIdStr := c_chars itemId in
          do! variable := clift (MmsDomain_getNamedVariable domain nameIdStr) in
          match variable with
          | None => cret DATA_ACCESS_ERROR_OBJECT_NONE_EXISTENT
          | Some variable => write_variable domain nameIdStr variable (vs_alternateAccess varSpec) dataElement
          end
      end
  | _ => cret DATA_ACCESS_ERROR_OBJECT_ACCESS_UNSUPPORTED
  end.

(** * All items *)

(** [accessResults], one after the other. *)
Fixpoint write_items (varSpecs : list ListOfVariableSeq) (data : list Data) : MS FS (list Z) :=
  match varSpecs, data with
  | varSpec :: varSpecs, dataElement :: data =>
      do! r := write_item varSpec dataElement in
      do! rs := write_items varSpecs data in
      cret (r :: rs)
  | _, _ => cret []
  end.

(** A named list of variables has other things at the place of the list. *)
Definition handle_write (writeRequest : WriteRequest) (invokeId : Z) : MS FS unit :=
  match wr_variableAccessSpecification writeRequest with
  | VariableAccessSpecification_listOfVariable varSpecs =>
      let numberOfWriteItems := zlen varSpecs in
      if numberOfWriteItems <? 1 then
        mmsServer_writeMmsRejectPdu codec (Some invokeId) MMS_ERROR_REJECT_REQUEST_INVALID_ARGUMENT
      else if CONFIG_MMS_WRITE_SERVICE_MAX_NUMBER_OF_WRITE_ITEMS <? numberOfWriteItems then
        mmsServer_writeMmsRejectPdu codec (Some invokeId) MMS_ERROR_REJECT_OTHER
      else if negb (zlen (wr_listOfData writeRequest) =? numberOfWriteItems) then
        mmsServer_writeMmsRejectPdu codec (Some invokeId) MMS_ERROR_REJECT_REQUEST_INVALID_ARGUMENT
      else
        do! accessResults := write_items varSpecs (wr_listOfData writeRequest) in
        if bool_decide (DATA_ACCESS_ERROR_NO_RESPONSE ∈ accessResults) then cret tt
        else mmsServer_createMmsWriteResponse invokeId accessResults
  | VariableAccessSpecification_NOTHING =>
      mmsServer_writeMmsRejectPdu codec (Some invokeId) MMS_ERROR_REJECT_REQUEST_INVALID_ARGUMENT
  | VariableAccessSpecification_variableListName _ => clift Ub
  end.

(** [buffer] is the message; the union holds a write request only if it is one. *)
Definition mmsServer_handleWriteRequest (buffer : ptr) (invokeId : Z) : MS FS unit :=
  match ber_decode_MmsPdu codec buffer CONFIG_MMS_MAXIMUM_PDU_SIZE with
  | None => mmsServer_writeMmsRejectPdu codec (Some invokeId) MMS_ERROR_REJECT_INVALID_PDU
  | Some (ConfirmedRequestPdu _ (Request_write writeRequest)) => handle_write writeRequest invokeId
  | Some _ => clift Ub
  end.
End Write.
