(* ===== verification/MmsReadService.v ===== *)
(** The MMS read service: src/mms/iso_mms/server/mms_read_service.c. *)
From Stdlib Require Import String.
From stdpp Require Import base tactics numbers option gmap list.
From S2P Require Import Prelude Memory Buffers BerEncode MmsValue AccessResult Effects CString MmsTypeSpec Control Reporting ValueStore ServerState MmsMapping MmsPdu MmsData MmsService.

(** [specific] is 0 for the VMD, 1 for a domain, 2 for the association. *)
Record VarAccessSpec := mkVarAccessSpec {
  va_isNamedVariableList : bool;
  va_specific : Z;
  va_itemId : list Z;
  va_domainId : option (list Z) }.

Definition ACCESS_ERROR_NONE_EXISTENT : Z := 10.

(** [MmsValue_setDeletable] of a new error. *)
Definition error_value (errorCode : Z) : MmsValue := MmsValue_setDeletable (MmsValue_newDataAccessError errorCode).

(** The null pointer is not appended. *)
Definition appendValueToResultList (value : option MmsValue) (values : list MmsValue) : list MmsValue :=
  match value with Some v => values ++ [v] | None => values end.

Definition appendErrorToResultList (values : list MmsValue) (errorCode : Z) : list MmsValue :=
  appendValueToResultList (Some (error_value errorCode)) values.

(** * Elements of arrays *)

Definition isAccessToArrayComponent (alternateAccess : AlternateAccess) : res bool :=
  let! s := first_unnamed alternateAccess in
  Done match sub_alternateAccess s with Some _ => true | None => false end.

(** [strncmp(name, component.buf, component.size) == 0] *)
Definition begins_with (name component : list Z) : bool := bool_decide (take (length component) name = c_chars component).

(** The loop runs over as many elements as the array has, and reads the names of the
    elements of the structure. *)
Fixpoint find_component (n : nat) (i : Z) (elements : list MmsVariableSpecification) (component : list Z)
    (structuredValue : MmsValue) : res (option MmsValue) :=
  match n with
  | O => Done None
  | S n =>
      match elements with
      | [] => Ub
      | e :: elements =>
          let! name := defined (spec_name e) in
          if begins_with name component then Done (MmsValue_getElement structuredValue i)
          else find_component n (i + 1) elements component structuredValue
      end
  end.

Definition getComponentOfArrayElement (alternateAccess : AlternateAccess) (elementCount : Z)
    (elementTypeSpec : MmsVariableSpecification) (structuredValue : MmsValue) : res (option MmsValue) :=
  let! s := first_unnamed alternateAccess in
  match sub_alternateAccess s with
  | None => Done None
  | Some sub =>
      let! t := first_unnamed sub in
      let component := default [] (selection_octets (selectAccess t)) in
      if 129 <? zlen component then Done None
      else
        match elementTypeSpec with
        | SpecStructure _ elements => find_component (Z.to_nat elementCount) 0 elements component structuredValue
        | _ => Ub
        end
  end.

(** The elements from [index] on; each must be there, and one that belongs to the cache is
    copied. *)
Fixpoint range_elements (malloc : Z -> list Z) (n : nat) (arrayValue : MmsValue) (index : Z)
  : res (list (option MmsValue)) :=
  match n with
  | O => Done []
  | S n =>
      let! elementValue := defined (MmsValue_getElement arrayValue index) in
      let! elementValue :=
        if MmsValue_isDeletable elementValue =? 0 then
          let! copy := MmsValue_clone malloc elementValue in Done (MmsValue_setDeletable copy)
        else Done elementValue in
      let! rest := range_elements malloc n arrayValue (index + 1) in
      Done (Some elementValue :: rest)
  end.

Section Read.
Context {FS : Type} (w : World) (codec : AsnCodec).

Definition read_value (domain : MmsDomain) (itemId : list Z) : MS FS (option MmsValue) :=
  do! connection := the_connection in
  on_server (mmsServer_getValue w domain itemId (mc_handle connection)).

(** An element of an array, a component of one, or a range of elements. *)
Definition array_part (alternateAccess : AlternateAccess) (elementCount : Z) (elementTypeSpec : MmsVariableSpecification)
    (arrayValue : MmsValue) : res (option MmsValue) :=
  let! lowIndex := mmsServer_getLowIndex alternateAccess in
  let! numberOfElements := mmsServer_getNumberOfElements alternateAccess in
  if numberOfElements =? 0 then
    let! component := isAccessToArrayComponent alternateAccess in
    if component then
      match elementTypeSpec with
      | SpecStructure _ _ =>
          match MmsValue_getElement arrayValue lowIndex with
          | Some structValue => getComponentOfArrayElement alternateAccess elementCount elementTypeSpec structValue
          | None => Done None
          end
      | _ => Done None
      end
    else Done (MmsValue_getElement arrayValue lowIndex)
  else
    let! elements := range_elements (w_malloc w) (Z.to_nat numberOfElements) arrayValue lowIndex in
    Done (Some (Complex 1 true elements)).

Definition alternateArrayAccess (alternateAccess : AlternateAccess) (domain : MmsDomain) (itemId : list Z)
    (values : list MmsValue) (elementCount : Z) (elementTypeSpec : MmsVariableSpecification) : MS FS (list MmsValue) :=
  do! index := clift (mmsServer_isIndexAccess alternateAccess) in
  if index then
    do! _ := clift (mmsServer_getLowIndex alternateAccess) in
    do! _ := clift (mmsServer_getNumberOfElements alternateAccess) in
    do! arrayValue := read_value domain itemId in
    match arrayValue with
    | Some arrayValue =>
        do! value := clift (array_part alternateAccess elementCount elementTypeSpec arrayValue) in
        cret (appendValueToResultList value values)
    | None => cret (appendErrorToResultList values ACCESS_ERROR_NONE_EXISTENT)
    end
  else cret (appendErrorToResultList values ACCESS_ERROR_NONE_EXISTENT).

(** * Variables *)

(** A structure without a value of its own is put together from its elements. *)
Fixpoint addNamedVariableValue (namedVariable : MmsVariableSpecification) (domain : MmsDomain) (itemId : list Z)
  {struct namedVariable} : MS FS (option MmsValue) :=
  match namedVariable with
  | SpecStructure _ elements =>
      do! value := read_value domain itemId in
      match value with
      | Some v => cret (Some v)
      | None =>
          do! components :=
            (fix each_element (es : list MmsVariableSpecification) : MS FS (list (option MmsValue)) :=
              match es with
              | [] => cret []
              | e :: es =>
                  do! name := clift (defined (spec_name e)) in
                  do! v := addNamedVariableValue e domain (itemId ++ [DOLLAR] ++ name) in
                  do! vs := each_element es in
                  cret (v :: vs)
              end) elements in
          cret (Some (Complex 1 false components))
      end
  | _ => read_value domain itemId
  end.

Definition addNamedVariableToResultList (namedVariable : option MmsVariableSpecification) (domain : MmsDomain)
    (nameIdStr : list Z) (values : list MmsValue) (alternateAccess : option AlternateAccess) : MS FS (list MmsValue) :=
  match namedVariable with
  | None => cret (appendErrorToResultList values ACCESS_ERROR_NONE_EXISTENT)
  | Some variable =>
      match variable with
      | SpecStructure _ _ =>
          do! value := read_value domain nameIdStr in
          match value with
          | Some v => cret (appendValueToResultList (Some v) values)
          | None =>
              do! value := addNamedVariableValue variable domain nameIdStr in
              cret (appendValueToResultList value values)
          end
      | SpecArray _ elementCount elementTypeSpec =>
          match alternateAccess with
          | Some a => alternateArrayAccess a domain nameIdStr values elementCount elementTypeSpec
          | None => do! value := read_value domain nameIdStr in cret (appendValueToResultList value values)
          end
      | SpecSimple _ _ =>
          do! value := read_value domain nameIdStr in
          match value with
          | None => cret (appendErrorToResultList values ACCESS_ERROR_NONE_EXISTENT)
          | Some v => cret (appendValueToResultList (Some v) values)
          end
      end
  end.

(** * The response *)

(** The lengths of the elements of the specification, from the inside: the names, the
    specific name, the name of the list, the whole. *)
Definition access_spec_lengths (accessSpec : VarAccessSpec) : Z * Z * Z :=
  let names := tl_size (zlen (va_itemId accessSpec)) +
    match va_domainId accessSpec with Some d => tl_size (zlen d) | None => 0 end in
  let variableListNameLength := tl_size names in
  (names, variableListNameLength, tl_size variableListNameLength).

(** [encode = false]: the size. *)
Definition access_spec_size (accessSpec : VarAccessSpec) : Z :=
  let '(_, _, varAccessSpecLength) := access_spec_lengths accessSpec in tl_size varAccessSpecLength.

Definition encodeVariableAccessSpecification (accessSpec : VarAccessSpec) (buffer bufPos : Z) : W Z :=
  let '(specificityLength, variableListNameLength, varAccessSpecLength) := access_spec_lengths accessSpec in
  let* bufPos := BerEncoder_encodeTL 0xa0 varAccessSpecLength buffer bufPos in
  if va_isNamedVariableList accessSpec then
    let* bufPos := BerEncoder_encodeTL 0xa1 variableListNameLength buffer bufPos in
    let tag := if va_specific accessSpec =? 0 then 0xa0 else if va_specific accessSpec =? 1 then 0xa1 else 0xa2 in
    let* bufPos := BerEncoder_encodeTL tag specificityLength buffer bufPos in
    let* bufPos :=
      match va_domainId accessSpec with
      | Some d => BerEncoder_encodeStringWithTag 0x1a (Some d) buffer bufPos
      | None => wret bufPos
      end in
    BerEncoder_encodeStringWithTag 0x1a (Some (va_itemId accessSpec)) buffer bufPos
  else wret bufPos.

Fixpoint encode_values (values : list MmsValue) (buffer bufPos : Z) : W Z :=
  match values with
  | [] => wret bufPos
  | v :: values =>
      let* bufPos := mmsServer_encodeAccessResult v buffer bufPos true in
      encode_values values buffer bufPos
  end.

(** The lengths in the message: the results, the service response, the confirmed response,
    and the octets of the invoke id. *)
Record ReadLengths := mkReadLengths {
  rl_accessResultSize : Z;
  rl_serviceContentLength : Z;
  rl_contentSize : Z;
  rl_invokeIdLength : Z }.

Definition read_lengths (invokeId : Z) (values : list MmsValue) (accessSpec : option VarAccessSpec) : res ReadLengths :=
  let varAccessSpecSize := match accessSpec with Some a => access_spec_size a | None => 0 end in
  let! sizes := each_res encodedSize values in
  let accessResultSize := sum_list sizes in
  let confirmedServiceResponseContentLength := tl_size accessResultSize + varAccessSpecSize in
  let! invokeIdLength := BerEncoder_UInt32determineEncodedSize invokeId in
  Done (mkReadLengths accessResultSize confirmedServiceResponseContentLength
    (tl_size confirmedServiceResponseContentLength + (invokeIdLength + 2)) invokeIdLength).

Definition write_read_response (invokeId : Z) (values : list MmsValue) (accessSpec : option VarAccessSpec) (l : ReadLengths)
    (buffer bufPos : Z) : W Z :=
  let* bufPos := BerEncoder_encodeTL 0xa1 (rl_contentSize l) buffer bufPos in
  let* bufPos := BerEncoder_encodeTL 0x02 (rl_invokeIdLength l) buffer bufPos in
  let* bufPos := BerEncoder_encodeUInt32 invokeId buffer bufPos in
  let* bufPos := BerEncoder_encodeTL 0xa4 (rl_serviceContentLength l) buffer bufPos in
  let* bufPos :=
    match accessSpec with
    | Some a => encodeVariableAccessSpecification a buffer bufPos
    | None => wret bufPos
    end in
  let* bufPos := BerEncoder_encodeTL 0xa1 (rl_accessResultSize l) buffer bufPos in
  encode_values values buffer bufPos.

Definition encodeReadResponse (invokeId : Z) (values : list MmsValue) (accessSpec : option VarAccessSpec) : MS FS unit :=
  do! l := clift (read_lengths invokeId values accessSpec) in
  do! connection := the_connection in
  if mc_maxPduSize connection <? tl_size (rl_contentSize l) then
    mmsServer_createConfirmedErrorPdu codec invokeId MMS_ERROR_SERVICE_OTHER
  else encode_response (write_read_response invokeId values accessSpec l).

(** * Requests *)

(** [None]: a specification that is no name rejects the whole request. *)
Definition read_variable (varSpec : ListOfVariableSeq) (values : list MmsValue) : MS FS (option (list MmsValue)) :=
  match vs_variableSpecification varSpec with
  | VariableSpecification_other => cret None
  | VariableSpecification_name (ObjectName_domainspecific domainId itemId) =>
      let domainIdStr := mmsMsg_copyAsn1IdentifierToStringBuffer domainId 65 in
      let nameIdStr := mmsMsg_copyAsn1IdentifierToStringBuffer itemId 65 in
      do! st := the_server in
      match MmsDevice_getDomain (sv_mmsDevice st) domainIdStr with
      | None => cret (Some (appendErrorToResultList values ACCESS_ERROR_NONE_EXISTENT))
      | Some domain =>
          do! namedVariable := clift (MmsDomain_getNamedVariable domain nameIdStr) in
          do! values := addNamedVariableToResultList namedVariable domain nameIdStr values (vs_alternateAccess varSpec) in
          cret (Some values)
      end
  | VariableSpecification_name _ => cret (Some (appendErrorToResultList values ACCESS_ERROR_NONE_EXISTENT))
  end.

Fixpoint read_variables (varSpecs : list ListOfVariableSeq) (values : list MmsValue) : MS FS (option (list MmsValue)) :=
  match varSpecs with
  | [] => cret (Some values)
  | varSpec :: varSpecs =>
      do! r := read_variable varSpec values in
      match r with
      | None => cret None
      | Some values => read_variables varSpecs values
      end
  end.

Definition handleReadListOfVariablesRequest (varSpecs : list ListOfVariableSeq) (invokeId : Z) : MS FS unit :=
  do! values := read_variables varSpecs [] in
  match values with
  | None => mmsServer_writeMmsRejectPdu codec (Some invokeId) MMS_ERROR_REJECT_REQUEST_INVALID_ARGUMENT
  | Some values => encodeReadResponse invokeId values None
  end.

(** An entry of the list must have a domain. *)
Fixpoint read_entries (entries : list MmsNamedVariableListEntry) (values : list MmsValue) : MS FS (list MmsValue) :=
  match entries with
  | [] => cret values
  | e :: entries =>
      do! st := the_server in
      do! address := clift (defined (le_domain e)) in
      do! domain := clift (defined (list_find (fun d => md_address d = address) (sv_mmsDevice st))) in
      do! namedVariable := clift (MmsDomain_getNamedVariable domain.2 (le_variableName e)) in
      do! values := addNamedVariableToResultList namedVariable domain.2 (le_variableName e) values None in
      read_entries entries values
  end.

Definition isSpecWithResult (read : ReadRequest) : bool :=
  match rr_specificationWithResult read with Some b => b | None => false end.

Definition createNamedVariableListResponse (namedList : MmsNamedVariableList) (invokeId : Z) (read : ReadRequest)
    (accessSpec : VarAccessSpec) : MS FS unit :=
  do! values := read_entries (vl_listOfVariables namedList) [] in
  encodeReadResponse invokeId values (if isSpecWithResult read then Some accessSpec else None).

Definition handleReadNamedVariableListRequest (name : ObjectName) (read : ReadRequest) (invokeId : Z) : MS FS unit :=
  match name with
  | ObjectName_domainspecific domainId itemId =>
      let domainIdStr := mmsMsg_copyAsn1IdentifierToStringBuffer domainId 65 in
      let nameIdStr := mmsMsg_copyAsn1IdentifierToStringBuffer itemId 65 in
      do! st := the_server in
      match MmsDevice_getDomain (sv_mmsDevice st) domainIdStr ≫= fun d => MmsDomain_getNamedVariableList d nameIdStr with
      | None => mmsServer_createConfirmedErrorPdu codec invokeId MMS_ERROR_ACCESS_OBJECT_NON_EXISTENT
      | Some namedList =>
          createNamedVariableListResponse namedList invokeId read (mkVarAccessSpec true 1 nameIdStr (Some domainIdStr))
      end
  | ObjectName_aaspecific name =>
      let listName := mmsMsg_copyAsn1IdentifierToStringBuffer name 65 in
      do! connection := the_connection in
      match MmsServerConnection_getNamedVariableList connection listName with
      | None => mmsServer_createConfirmedErrorPdu codec invokeId MMS_ERROR_ACCESS_OBJECT_NON_EXISTENT
      | Some namedList => createNamedVariableListResponse namedList invokeId read (mkVarAccessSpec true 2 listName None)
      end
  | _ => mmsServer_createConfirmedErrorPdu codec invokeId MMS_ERROR_ACCESS_OBJECT_ACCESS_UNSUPPORTED
  end.

Definition handle_read (request : ReadRequest) (invokeId : Z) : MS FS unit :=
  match rr_variableAccessSpecification request with
  | VariableAccessSpecification_listOfVariable varSpecs => handleReadListOfVariablesRequest varSpecs invokeId
  | VariableAccessSpecification_variableListName name => handleReadNamedVariableListRequest name request invokeId
  | VariableAccessSpecification_NOTHING =>
      mmsServer_createConfirmedErrorPdu codec invokeId MMS_ERROR_ACCESS_OBJECT_ACCESS_UNSUPPORTED
  end.

Definition mmsServer_handleReadRequest (buffer : ptr) (invokeId : Z) : MS FS unit :=
  match ber_decode_MmsPdu codec buffer CONFIG_MMS_MAXIMUM_PDU_SIZE with
  | None => mmsServer_writeMmsRejectPdu codec (Some invokeId) MMS_ERROR_REJECT_INVALID_PDU
  | Some (ConfirmedRequestPdu _ (Request_read request)) => handle_read request invokeId
  | Some _ => clift Ub
  end.
End Read.
