(* ===== verification/MmsNameList.v ===== *)
(** The service that lists names: src/mms/iso_mms/server/mms_get_namelist_service.c. *)
From Stdlib Require Import String.
From stdpp Require Import base tactics numbers option gmap list.
From S2P Require Import Prelude Memory Buffers BerDecode BerEncode MmsValue Effects CString MmsTypeSpec ServerState MmsPdu MmsData MmsService.

Definition OBJECT_CLASS_NAMED_VARIABLE : Z := 0.
Definition OBJECT_CLASS_NAMED_VARIABLE_LIST : Z := 2.
Definition OBJECT_SCOPE_VMD : Z := 0.
Definition OBJECT_SCOPE_DOMAIN : Z := 1.
Definition OBJECT_SCOPE_ASSOCIATION : Z := 2.

(** * The names *)

Definition appendMmsSubVariable (name child : list Z) : list Z := name ++ [DOLLAR] ++ child.

(** The names below a variable, each before those below it. *)
Fixpoint addSubNamedVaribleNamesToList (prefix : list Z) (variable : MmsVariableSpecification) : res (list (list Z)) :=
  match variable with
  | SpecStructure _ elements =>
      (fix each_element (es : list MmsVariableSpecification) : res (list (list Z)) :=
        match es with
        | [] => Done []
        | e :: es =>
            let! child := defined (spec_name e) in
            let variableName := appendMmsSubVariable prefix child in
            let! below := addSubNamedVaribleNamesToList variableName e in
            let! rest := each_element es in
            Done (variableName :: below ++ rest)
        end) elements
  | _ => Done []
  end.

Definition variable_names (variable : MmsVariableSpecification) : res (list (list Z)) :=
  let! name := defined (spec_name variable) in
  let! below := addSubNamedVaribleNamesToList name variable in
  Done (name :: below).

(** [None]: there is no such domain. *)
Definition getNameListDomainSpecific (st : IedServer) (domainName : list Z) : res (option (list (list Z))) :=
  match MmsDevice_getDomain (sv_mmsDevice st) domainName with
  | None => Done None
  | Some domain => let! names := each_res variable_names (default [] (namedVariables domain)) in Done (Some (concat names))
  end.

Definition getNameListVMDSpecific (st : IedServer) : list (list Z) := map domainName (sv_mmsDevice st).

Definition createStringsFromNamedVariableList (variableLists : list MmsNamedVariableList) : list (list Z) :=
  map vl_name variableLists.

Definition getNamedVariableListDomainSpecific (st : IedServer) (domainName : list Z) : option (list (list Z)) :=
  (fun domain => createStringsFromNamedVariableList (namedVariableLists domain))
    <$> MmsDevice_getDomain (sv_mmsDevice st) domainName.

Definition getNamedVariableListAssociationSpecific (connection : MmsServerConnection) : list (list Z) :=
  createStringsFromNamedVariableList (mc_namedVariableLists connection).

(** * The page that is sent *)

(** [strcmp(s, p) == 0] *)
Fixpoint strcmp_at (s : list Z) (p : ptr) (i : Z) : res bool :=
  let! b := rd p i in
  match s with
  | [] => Done (b =? 0)
  | c :: s => if b =? c then strcmp_at s p (i + 1) else Done false
  end.

(** The names behind the one that is asked for; [None] if it is not in the list. *)
Fixpoint names_behind (names : list (list Z)) (continueAfter : ptr) : res (option (list (list Z))) :=
  match names with
  | [] => Done None
  | n :: names =>
      let! same := strcmp_at n continueAfter 0 in
      if same then Done (Some names) else names_behind names continueAfter
  end.

Definition start_names (names : list (list Z)) (continueAfter : option ptr) : res (option (list (list Z))) :=
  match continueAfter with Some p => names_behind names p | None => Done (Some names) end.

Definition name_size (name : list Z) : Z := BerEncoder_determineEncodedStringSize (Some name).

(** The number of names that fit, and whether more follow. *)
Fixpoint fitting (names : list (list Z)) (estimatedMmsPduLength maxPduSize : Z) : nat * bool :=
  match names with
  | [] => (0%nat, false)
  | n :: names =>
      let elementLength := name_size n in
      if maxPduSize <? estimatedMmsPduLength + elementLength then (0%nat, true)
      else let '(count, more) := fitting names (estimatedMmsPduLength + elementLength) maxPduSize in (S count, more)
  end.

Definition ESTIMATED_OVERHEAD : Z := 27.

(** The loop that encodes the names ends when the count is reached: with none that fits it
    goes on to the last. *)
Definition encoded_names (names : list (list Z)) (nameCount : nat) : list (list Z) :=
  match nameCount with O => names | _ => take nameCount names end.

Fixpoint encode_names (names : list (list Z)) (buffer bufPos : Z) : W Z :=
  match names with
  | [] => wret bufPos
  | n :: names =>
      let* bufPos := BerEncoder_encodeStringWithTag 0x1a (Some n) buffer bufPos in
      encode_names names buffer bufPos
  end.

Definition write_names (invokeId invokeIdLength identifierListSize : Z) (names : list (list Z)) (moreFollows : bool)
    (buffer bufPos : Z) : W Z :=
  let getNameListSize := tl_size identifierListSize + (if moreFollows then 0 else 3) in
  let* bufPos := BerEncoder_encodeTL 0xa1 (tl_size getNameListSize + (invokeIdLength + 2)) buffer bufPos in
  let* bufPos := BerEncoder_encodeTL 0x02 invokeIdLength buffer bufPos in
  let* bufPos := BerEncoder_encodeUInt32 invokeId buffer bufPos in
  let* bufPos := BerEncoder_encodeTL 0xa1 getNameListSize buffer bufPos in
  let* bufPos := BerEncoder_encodeTL 0xa0 identifierListSize buffer bufPos in
  let* bufPos := encode_names names buffer bufPos in
  if moreFollows then wret bufPos else BerEncoder_encodeBoolean 0x81 false buffer bufPos.

Section NameList.
Context {FS : Type} (codec : AsnCodec).

(** The null list is read. *)
Definition createNameListResponse (invokeId : Z) (nameList : option (list (list Z))) (continueAfter : option ptr)
  : MS FS unit :=
  do! nameList := clift (defined nameList) in
  do! start := clift (start_names nameList continueAfter) in
  match start with
  | None => mmsServer_createConfirmedErrorPdu codec invokeId MMS_ERROR_ACCESS_OBJECT_ACCESS_UNSUPPORTED
  | Some names =>
      do! connection := the_connection in
      let '(nameCount, moreFollows) := fitting names ESTIMATED_OVERHEAD (mc_maxPduSize connection) in
      let identifierListSize := sum_list (map name_size (take nameCount names)) in
      do! invokeIdLength := clift (BerEncoder_UInt32determineEncodedSize invokeId) in
      encode_response
        (write_names invokeId invokeIdLength identifierListSize (encoded_names names nameCount) moreFollows)
  end.

(** * The request *)

Record NameListRequest := mkNameListRequest {
  nl_bufPos : Z;
  nl_objectClass : Z;
  nl_objectScope : Z;
  nl_domainId : option (ptr * Z);
  nl_continueAfter : option (ptr * Z) }.

Definition nl_at (r : NameListRequest) (bufPos : Z) : NameListRequest :=
  mkNameListRequest bufPos (nl_objectClass r) (nl_objectScope r) (nl_domainId r) (nl_continueAfter r).

(** [buffer + bufPos] and [length] are kept. *)
Definition nl_scope (buffer : ptr) (bufPos length : Z) (tag : Z) (r : NameListRequest) : option NameListRequest :=
  let with_scope scope domainId :=
    Some (mkNameListRequest (i32 (bufPos + length)) (nl_objectClass r) scope domainId (nl_continueAfter r)) in
  if tag =? 0x80 then with_scope OBJECT_SCOPE_VMD (nl_domainId r)
  else if tag =? 0x81 then with_scope OBJECT_SCOPE_DOMAIN (Some (ptr_add buffer bufPos, length))
  else if tag =? 0x82 then with_scope OBJECT_SCOPE_ASSOCIATION (nl_domainId r)
  else None.

(** Leaving the loop: [true] with a reject, [false] without an answer.  The position that
    the length of the scope leaves is not checked. *)
Definition parse_nameList_body (buffer : ptr) (maxBufPos : Z) (r : NameListRequest)
  : res (ctl NameListRequest bool) :=
  let! tag := rd buffer (nl_bufPos r) in
  let! (bufPos, length) := BerDecoder_decodeLength buffer None (nl_bufPos r + 1) maxBufPos in
  if bufPos <? 0 then Done (Ret false)
  else
    let! length := defined length in
    if tag =? 0xa0 then
      let! length := rd buffer (bufPos + 1) in
      let! objectClass := BerDecoder_decodeUint32 buffer length (bufPos + 2) in
      Done (Next (mkNameListRequest (bufPos + 2 + length) (i32 objectClass) (nl_objectScope r) (nl_domainId r) (nl_continueAfter r)))
    else if tag =? 0xa1 then
      let! objectScopeTag := rd buffer bufPos in
      let! (bufPos, length) := BerDecoder_decodeLength buffer (Some length) (bufPos + 1) maxBufPos in
      let! length := defined length in
      Done match nl_scope buffer bufPos length objectScopeTag r with Some r => Next r | None => Ret true end
    else if tag =? 0x82 then
      Done (Next (mkNameListRequest (i32 (bufPos + length)) (nl_objectClass r) (nl_objectScope r) (nl_domainId r)
        (Some (ptr_add buffer bufPos, length))))
    else Done (Next (nl_at r (i32 (bufPos + length)))).

Definition parse_nameList (fuel : nat) (buffer : ptr) (bufPos maxBufPos : Z) : res (ctl NameListRequest bool) :=
  while (fun r => nl_bufPos r <? maxBufPos) (parse_nameList_body buffer maxBufPos) fuel
    (mkNameListRequest bufPos (-1) (-1) None None).

(** A copy in a buffer of 130 characters with a null byte behind it. *)
Definition copy_name (field : ptr * Z) : res (list Z) :=
  let '(p, length) := field in
  let! bs := rd_list p 0 length in
  if 129 <? length then Ub else Done bs.

(** For variables the copy with the null byte is compared, for the others the field in the
    message. *)
Definition answer_nameList (r : NameListRequest) (invokeId : Z) : MS FS unit :=
  let unsupported := mmsServer_createConfirmedErrorPdu codec invokeId MMS_ERROR_ACCESS_OBJECT_ACCESS_UNSUPPORTED in
  do! continueAfterId := clift (match nl_continueAfter r with
    | Some field => let! bs := copy_name field in Done (Some (mk_ptr (bs ++ [0]) 0))
    | None => Done None
    end) in
  let continueAfter := fst <$> nl_continueAfter r in
  do! st := the_server in
  if nl_objectScope r =? OBJECT_SCOPE_DOMAIN then
    do! field := clift (defined (nl_domainId r)) in
    do! domainId := clift (copy_name field) in
    let domainSpecificName := c_chars domainId in
    if nl_objectClass r =? OBJECT_CLASS_NAMED_VARIABLE then
      do! nameList := clift (getNameListDomainSpecific st domainSpecificName) in
      match nameList with
      | None => mmsServer_createConfirmedErrorPdu codec invokeId MMS_ERROR_ACCESS_OBJECT_NON_EXISTENT
      | Some names => createNameListResponse invokeId (Some names) continueAfterId
      end
    else if nl_objectClass r =? OBJECT_CLASS_NAMED_VARIABLE_LIST then
      createNameListResponse invokeId (getNamedVariableListDomainSpecific st domainSpecificName) continueAfter
    else unsupported
  else if nl_objectScope r =? OBJECT_SCOPE_VMD then
    createNameListResponse invokeId (Some (getNameListVMDSpecific st)) continueAfter
  else if nl_objectScope r =? OBJECT_SCOPE_ASSOCIATION then
    if nl_objectClass r =? OBJECT_CLASS_NAMED_VARIABLE_LIST then
      do! connection := the_connection in
      createNameListResponse invokeId (Some (getNamedVariableListAssociationSpecific connection)) continueAfter
    else unsupported
  else unsupported.

Definition mmsServer_handleGetNameListRequest (fuel : nat) (buffer : ptr) (bufPos maxBufPos invokeId : Z) : MS FS unit :=
  do! r := clift (parse_nameList fuel buffer bufPos maxBufPos) in
  match r with
  | Ret true => mmsServer_writeMmsRejectPdu codec (Some invokeId) MMS_ERROR_REJECT_UNRECOGNIZED_MODIFIER
  | Ret false => cret tt
  | Next r => answer_nameList r invokeId
  end.
End NameList.
