(* ===== verification/MmsAttributes.v ===== *)
(** The services that describe the server, its variables and the lists of them:
    src/mms/iso_mms/server/mms_get_var_access_service.c, mms_identify_service.c,
    mms_status_service.c and mms_named_variable_list_service.c. *)
From Stdlib Require Import String.
From stdpp Require Import base tactics numbers option gmap list.
From S2P Require Import Prelude Memory Buffers BerDecode BerEncode MmsValue Effects CString MmsTypeSpec ServerState MmsPdu MmsData MmsService.

(** * The type of a variable *)

Definition u_typeSpecification (t : uMmsTypeSpecification) : TypeSpecification :=
  match t with
  | T_BOOLEAN => TypeSpecification_boolean
  | T_BIT_STRING n => TypeSpecification_bitstring n
  | T_INTEGER n => TypeSpecification_integer n
  | T_UNSIGNED n => TypeSpecification_unsigned n
  | T_FLOAT exponentWidth formatWidth => TypeSpecification_floatingpoint formatWidth exponentWidth
  | T_OCTET_STRING n => TypeSpecification_octetstring n
  | T_VISIBLE_STRING n => TypeSpecification_visiblestring n
  | T_STRING n => TypeSpecification_mMSString n
  | T_UTC_TIME => TypeSpecification_utctime
  | T_BINARY_TIME n => TypeSpecification_binarytime (n =? 6)
  | T_OTHER _ => TypeSpecification_NOTHING
  end.

Fixpoint createTypeSpecification (namedVariable : MmsVariableSpecification) : res TypeSpecification :=
  match namedVariable with
  | SpecArray _ elementCount elementTypeSpec =>
      let! elementType := createTypeSpecification elementTypeSpec in
      Done (TypeSpecification_array (asn_long2INTEGER elementCount) elementType)
  | SpecStructure _ elements =>
      let! components :=
        (fix each_element (es : list MmsVariableSpecification) : res (list (option (list Z) * TypeSpecification)) :=
          match es with
          | [] => Done []
          | e :: es =>
              let! name := defined (spec_name e) in
              let! t := createTypeSpecification e in
              let! rest := each_element es in
              Done ((Some name, t) :: rest)
          end) elements in
      Done (TypeSpecification_structure components)
  | SpecSimple _ t => Done (u_typeSpecification t)
  end.

Section Attributes.
Context {FS : Type} (codec : AsnCodec).

Definition se_clear_response (s : Service FS) : Service FS := se_set_response (bb_set_size (se_response s) 0) s.

(** A name that is not known gets no answer. *)
Definition createVariableAccessAttributesResponse (domainId nameId : list Z) (invokeId : Z) : MS FS unit :=
  do! st := the_server in
  match MmsDevice_getDomain (sv_mmsDevice st) domainId with
  | None => cret tt
  | Some domain =>
      do! namedVariable := clift (MmsDomain_getNamedVariable domain nameId) in
      match namedVariable with
      | None => cret tt
      | Some v =>
          do! t := clift (createTypeSpecification v) in
          do! ok := der_encode codec (mmsServer_createConfirmedResponse invokeId (Response_getVariableAccessAttributes false t)) in
          if ok then cret tt
          else
            do! _ := cmodify se_clear_response in
            mmsServer_createConfirmedErrorPdu codec invokeId MMS_ERROR_SERVICE_OTHER
      end
  end.

Definition mmsServer_handleGetVariableAccessAttributesRequest (buffer : ptr) (bufPos maxBufPos invokeId : Z) : MS FS unit :=
  match ber_decode_attributes codec (ptr_add buffer bufPos) (maxBufPos - bufPos) with
  | Some (Attributes_name (ObjectName_domainspecific domainId itemId)) =>
      createVariableAccessAttributesResponse (c_chars domainId) (c_chars itemId) invokeId
  | _ => cret tt
  end.

(** * Identify *)

Definition CONFIG_DEFAULT_MMS_VENDOR_NAME : list Z := lit "libiec61850.com".
Definition CONFIG_DEFAULT_MMS_MODEL_NAME : list Z := lit "LIBIEC61850".
Definition CONFIG_DEFAULT_MMS_REVISION : list Z := lit "0.7.7".

Definition MmsServer_setServerIdentity (self : MmsServerInfo) (vendorName modelName revision : option (list Z)) : MmsServerInfo :=
  mkServerInfo vendorName modelName revision (mi_vmdLogicalStatus self) (mi_vmdPhysicalStatus self).
Definition MmsServer_getVendorName (self : MmsServerInfo) : list Z := default CONFIG_DEFAULT_MMS_VENDOR_NAME (mi_vendorName self).
Definition MmsServer_getModelName (self : MmsServerInfo) : list Z := default CONFIG_DEFAULT_MMS_MODEL_NAME (mi_modelName self).
Definition MmsServer_getRevision (self : MmsServerInfo) : list Z := default CONFIG_DEFAULT_MMS_REVISION (mi_revision self).

Definition write_identify (self : MmsServerInfo) (invokeId invokeIdLength : Z) (buffer bufPos : Z) : W Z :=
  let identityLength := tl_size (zlen (MmsServer_getVendorName self)) + tl_size (zlen (MmsServer_getModelName self))
    + tl_size (zlen (MmsServer_getRevision self)) in
  let* bufPos := BerEncoder_encodeTL 0xa1 (invokeIdLength + 2 + tl_size identityLength) buffer bufPos in
  let* bufPos := BerEncoder_encodeTL 0x02 invokeIdLength buffer bufPos in
  let* bufPos := BerEncoder_encodeUInt32 invokeId buffer bufPos in
  let* bufPos := BerEncoder_encodeTL 0xa2 identityLength buffer bufPos in
  let* bufPos := BerEncoder_encodeStringWithTag 0x80 (Some (MmsServer_getVendorName self)) buffer bufPos in
  let* bufPos := BerEncoder_encodeStringWithTag 0x81 (Some (MmsServer_getModelName self)) buffer bufPos in
  BerEncoder_encodeStringWithTag 0x82 (Some (MmsServer_getRevision self)) buffer bufPos.

Definition mmsServer_handleIdentifyRequest (invokeId : Z) : MS FS unit :=
  do! info := cget se_info in
  do! invokeIdLength := clift (BerEncoder_UInt32determineEncodedSize invokeId) in
  encode_response (write_identify info invokeId invokeIdLength).

(** * Status *)

Definition MmsServer_setVMDStatus (self : MmsServerInfo) (vmdLogicalStatus vmdPhysicalStatus : Z) : MmsServerInfo :=
  mkServerInfo (mi_vendorName self) (mi_modelName self) (mi_revision self) vmdLogicalStatus vmdPhysicalStatus.
Definition MmsServer_getVMDLogicalStatus (self : MmsServerInfo) : Z := mi_vmdLogicalStatus self.
Definition MmsServer_getVMDPhysicalStatus (self : MmsServerInfo) : Z := mi_vmdPhysicalStatus self.

Definition write_status (invokeId invokeIdLength logical logicalLength physical physicalLength : Z) (buffer bufPos : Z) : W Z :=
  let statusLength := 2 + physicalLength + 2 + logicalLength in
  let* bufPos := BerEncoder_encodeTL 0xa1 (invokeIdLength + 2 + tl_size statusLength) buffer bufPos in
  let* bufPos := BerEncoder_encodeTL 0x02 invokeIdLength buffer bufPos in
  let* bufPos := BerEncoder_encodeUInt32 invokeId buffer bufPos in
  let* bufPos := BerEncoder_encodeTL 0xa0 statusLength buffer bufPos in
  let* bufPos := BerEncoder_encodeTL 0x80 logicalLength buffer bufPos in
  let* bufPos := BerEncoder_encodeUInt32 logical buffer bufPos in
  let* bufPos := BerEncoder_encodeTL 0x81 physicalLength buffer bufPos in
  BerEncoder_encodeUInt32 physical buffer bufPos.

(** [listener] is what the application makes of the status when it is asked for it. *)
Definition mmsServer_handleStatusRequest (listener : option (MmsServerInfo -> bool -> MmsServerInfo))
    (requestBuffer : ptr) (bufPos invokeId : Z) : MS FS unit :=
  do! extendedDerivation := clift (BerDecoder_decodeBoolean requestBuffer bufPos) in
  do! invokeIdLength := clift (BerEncoder_UInt32determineEncodedSize invokeId) in
  do! _ := match listener with
    | Some l => cmodify (fun s => mkService FS (se_server s) (l (se_info s) extendedDerivation) (se_files s) (se_connection s) (se_response s))
    | None => cret tt
    end in
  do! info := cget se_info in
  let physical := u32 (mi_vmdPhysicalStatus info) in
  let logical := u32 (mi_vmdLogicalStatus info) in
  do! physicalLength := clift (BerEncoder_UInt32determineEncodedSize physical) in
  do! logicalLength := clift (BerEncoder_UInt32determineEncodedSize logical) in
  encode_response (write_status invokeId invokeIdLength logical logicalLength physical physicalLength).
End Attributes.

(** The services for named lists of variables: src/mms/iso_mms/server/
    mms_named_variable_list_service.c and mms_named_variable_list.c. *)

(** * The lists of a domain *)

(** The domain of the address is changed; the cache of its values has a pointer to it, but
    never looks at its lists. *)
Definition update_domain (address : Z) (f : MmsDomain -> MmsDomain) (domains : list MmsDomain) : list MmsDomain :=
  map (fun d => if md_address d =? address then f d else d) domains.

Definition change_domain (address : Z) (f : MmsDomain -> MmsDomain) : SM unit :=
  cmodify (fun st => sv_set_mmsDevice (update_domain address f (sv_mmsDevice st)) st).

Definition MmsNamedVariableListEntry_create (domain : option MmsDomain) (variableName : list Z) (arrayIndex : Z)
    (componentName : option (list Z)) : MmsNamedVariableListEntry :=
  mkListEntry (md_address <$> domain) variableName arrayIndex componentName.

Section Lists.
Context {FS : Type} (codec : AsnCodec).

(** * Delete *)

Definition write_delete_response (invokeId invokeIdLength matchedLength deletedLength numberMatched numberDeleted : Z)
    (buffer bufPos : Z) : W Z :=
  let content := (2 + matchedLength) + (2 + deletedLength) in
  let* bufPos := BerEncoder_encodeTL 0xa1 ((invokeIdLength + 2) + (2 + content)) buffer bufPos in
  let* bufPos := BerEncoder_encodeTL 0x02 invokeIdLength buffer bufPos in
  let* bufPos := BerEncoder_encodeUInt32 invokeId buffer bufPos in
  let* bufPos := BerEncoder_encodeTL 0xad content buffer bufPos in
  let* bufPos := BerEncoder_encodeTL 0x80 matchedLength buffer bufPos in
  let* bufPos := BerEncoder_encodeUInt32 numberMatched buffer bufPos in
  let* bufPos := BerEncoder_encodeTL 0x81 deletedLength buffer bufPos in
  BerEncoder_encodeUInt32 numberDeleted buffer bufPos.

Definition createDeleteNamedVariableListResponse (invokeId numberMatched numberDeleted : Z) : MS FS unit :=
  do! invokeIdLength := clift (BerEncoder_UInt32determineEncodedSize invokeId) in
  do! matchedLength := clift (BerEncoder_UInt32determineEncodedSize numberMatched) in
  do! deletedLength := clift (BerEncoder_UInt32determineEncodedSize numberDeleted) in
  encode_response (write_delete_response invokeId invokeIdLength matchedLength deletedLength numberMatched numberDeleted).

(** Whether the list was found, and whether it was deleted; an unknown domain is the null
    pointer, whose lists are read. *)
Definition delete_list (name : ObjectName) : MS FS (bool * bool) :=
  match name with
  | ObjectName_domainspecific domainId itemId =>
      let nameIdStr := mmsMsg_copyAsn1IdentifierToStringBuffer itemId 65 in
      do! st := the_server in
      do! domain := clift (defined (MmsDevice_getDomain (sv_mmsDevice st) (mmsMsg_copyAsn1IdentifierToStringBuffer domainId 65))) in
      match MmsDomain_getNamedVariableList domain nameIdStr with
      | None => cret (false, false)
      | Some variableList =>
          if vl_deletable variableList then
            do! _ := on_server (change_domain (md_address domain) (fun d => MmsDomain_deleteNamedVariableList d nameIdStr)) in
            cret (true, true)
          else cret (true, false)
      end
  | ObjectName_aaspecific name =>
      let itemId := mmsMsg_createStringFromAsnIdentifier name in
      do! connection := the_connection in
      match MmsServerConnection_getNamedVariableList connection itemId with
      | None => cret (false, false)
      | Some _ => do! _ := MmsServerConnection_deleteNamedVariableList itemId in cret (true, true)
      end
  | _ => cret (false, false)
  end.

Fixpoint delete_lists (names : list ObjectName) (numberMatched numberDeleted : Z) : MS FS (Z * Z) :=
  match names with
  | [] => cret (numberMatched, numberDeleted)
  | name :: names =>
      do! (found, deleted) := delete_list name in
      delete_lists names (numberMatched + (if found then 1 else 0)) (numberDeleted + (if deleted then 1 else 0))
  end.

(** A scope that is not there leaves the variable for it undefined. *)
Definition handle_delete (request : DeleteNamedVariableListRequest) (invokeId : Z) : MS FS unit :=
  do! scopeOfDelete := clift (defined (asn_INTEGER2long (dl_scopeOfDelete request))) in
  if scopeOfDelete =? scopeOfDelete_specific then
    do! names := clift (defined (dl_listOfVariableListName request)) in
    do! (numberMatched, numberDeleted) := delete_lists names 0 0 in
    createDeleteNamedVariableListResponse invokeId numberMatched numberDeleted
  else mmsServer_createConfirmedErrorPdu codec invokeId MMS_ERROR_ACCESS_OBJECT_ACCESS_UNSUPPORTED.

(** After a failure of the decoder the request is read all the same. *)
Definition mmsServer_handleDeleteNamedVariableListRequest (buffer : ptr) (maxBufPos invokeId : Z) : MS FS unit :=
  match ber_decode_MmsPdu codec buffer maxBufPos with
  | None =>
      do! _ := mmsServer_writeMmsRejectPdu codec (Some invokeId) MMS_ERROR_REJECT_INVALID_PDU in clift Ub
  | Some (ConfirmedRequestPdu _ (Request_deleteNamedVariableList request)) => handle_delete request invokeId
  | Some _ => clift Ub
  end.

(** * Define *)

Definition write_define_response (invokeId invokeIdLength : Z) (buffer bufPos : Z) : W Z :=
  let* bufPos := BerEncoder_encodeTL 0xa1 (2 + (invokeIdLength + 2)) buffer bufPos in
  let* bufPos := BerEncoder_encodeTL 0x02 invokeIdLength buffer bufPos in
  let* bufPos := BerEncoder_encodeUInt32 invokeId buffer bufPos in
  BerEncoder_encodeTL 0x8b 0 buffer bufPos.

Definition createDefineNamedVariableListResponse (invokeId : Z) : MS FS unit :=
  do! invokeIdLength := clift (BerEncoder_UInt32determineEncodedSize invokeId) in
  encode_response (write_define_response invokeId invokeIdLength).

(** The array index and the name of the component; [None] for an access that is not
    supported.  Their alternatives are not checked. *)
Definition list_access (alternateAccess : option AlternateAccess) : res (option (Z * option (list Z))) :=
  match alternateAccess with
  | None => Done (Some (-1, None))
  | Some [Member_unnamed s] =>
      let arrayIndex := default (-1) (asn_INTEGER2long (selection_octets (selectAccess s))) in
      let! sub := defined (sub_alternateAccess s) in
      let! t := first_unnamed sub in
      let componentName := mmsMsg_createStringFromAsnIdentifier (default [] (selection_octets (selectAccess t))) in
      Done (Some (i32 arrayIndex, Some componentName))
  | Some _ => Done None
  end.

(** The members of [domainspecific], whatever the name is. *)
Definition domainspecific (name : ObjectName) : list Z * list Z :=
  match name with
  | ObjectName_domainspecific domainId itemId => (domainId, itemId)
  | ObjectName_vmdspecific id | ObjectName_aaspecific id => (id, [])
  | ObjectName_NOTHING => ([], [])
  end.

(** An unknown domain is the null pointer in the entry. *)
Definition list_entry (device : list MmsDomain) (variable : ListOfVariableSeq) : res (option MmsNamedVariableListEntry) :=
  let! access := list_access (vs_alternateAccess variable) in
  match access, vs_variableSpecification variable with
  | Some (arrayIndex, componentName), VariableSpecification_name name =>
      let '(domainId, itemId) := domainspecific name in
      Done (Some (MmsNamedVariableListEntry_create (MmsDevice_getDomain device (c_chars domainId)) (c_chars itemId)
        arrayIndex componentName))
  | _, _ => Done None
  end.

Fixpoint list_entries (device : list MmsDomain) (variables : list ListOfVariableSeq) (namedVariableList : MmsNamedVariableList)
  : res (option MmsNamedVariableList) :=
  match variables with
  | [] => Done (Some namedVariableList)
  | v :: variables =>
      let! entry := list_entry device v in
      match entry with
      | None => Done None
      | Some e => list_entries device variables (MmsNamedVariableList_addVariable namedVariableList e)
      end
  end.

Definition createNamedVariableList (device : list MmsDomain) (request : DefineNamedVariableListRequest)
    (variableListName : list Z) : res (option MmsNamedVariableList) :=
  list_entries device (df_listOfVariable request) (MmsNamedVariableList_create variableListName true).

(** [known]: the list of the name; [add]: the new list becomes one of the place. *)
Definition define_list (request : DefineNamedVariableListRequest) (invokeId : Z) (variableListName : list Z)
    (known : option MmsNamedVariableList) (add : MmsNamedVariableList -> MS FS unit) : MS FS unit :=
  match known with
  | Some _ => mmsServer_createConfirmedErrorPdu codec invokeId MMS_ERROR_DEFINITION_OBJECT_EXISTS
  | None =>
      do! st := the_server in
      do! namedVariableList := clift (createNamedVariableList (sv_mmsDevice st) request variableListName) in
      match namedVariableList with
      | Some l => do! _ := add l in createDefineNamedVariableListResponse invokeId
      | None => mmsServer_createConfirmedErrorPdu codec invokeId MMS_ERROR_ACCESS_OBJECT_ACCESS_UNSUPPORTED
      end
  end.

Definition handle_define (request : DefineNamedVariableListRequest) (invokeId : Z) : MS FS unit :=
  match df_variableListName request with
  | ObjectName_domainspecific domainId itemId =>
      do! st := the_server in
      match MmsDevice_getDomain (sv_mmsDevice st) (c_chars domainId) with
      | None => mmsServer_createConfirmedErrorPdu codec invokeId MMS_ERROR_ACCESS_OBJECT_NON_EXISTENT
      | Some domain =>
          let variableListName := c_chars itemId in
          define_list request invokeId variableListName (MmsDomain_getNamedVariableList domain variableListName)
            (fun l => on_server (change_domain (md_address domain) (fun d => (MmsDomain_addNamedVariableList d l).2)))
      end
  | ObjectName_aaspecific name =>
      let variableListName := c_chars name in
      do! connection := the_connection in
      define_list request invokeId variableListName (MmsServerConnection_getNamedVariableList connection variableListName)
        MmsServerConnection_addNamedVariableList
  | _ => mmsServer_createConfirmedErrorPdu codec invokeId MMS_ERROR_ACCESS_OBJECT_ACCESS_UNSUPPORTED
  end.

Definition mmsServer_handleDefineNamedVariableListRequest (buffer : ptr) (maxBufPos invokeId : Z) : MS FS unit :=
  match ber_decode_MmsPdu codec buffer maxBufPos with
  | None =>
      do! _ := mmsServer_writeMmsRejectPdu codec (Some invokeId) MMS_ERROR_REJECT_INVALID_PDU in clift Ub
  | Some (ConfirmedRequestPdu _ (Request_defineNamedVariableList request)) => handle_define request invokeId
  | Some _ => clift Ub
  end.

(** * Attributes *)

(** The name of the domain of each entry is read. *)
Fixpoint attribute_entries (domains : list MmsDomain) (entries : list MmsNamedVariableListEntry)
  : res (list ListOfVariableSeq) :=
  match entries with
  | [] => Done []
  | e :: entries =>
      let! address := defined (le_domain e) in
      let! domain := defined (list_find (fun d => md_address d = address) domains) in
      let! rest := attribute_entries domains entries in
      Done (mkVariableSeq (VariableSpecification_name
        (ObjectName_domainspecific (MmsDomain_getName domain.2) (le_variableName e))) None :: rest)
  end.

Definition createGetNamedVariableListAttributesResponse (invokeId : Z) (variableList : MmsNamedVariableList) : MS FS unit :=
  do! st := the_server in
  do! entries := clift (attribute_entries (sv_mmsDevice st) (vl_listOfVariables variableList)) in
  send_pdu codec (mmsServer_createConfirmedResponse invokeId
    (Response_getNamedVariableListAttributes (mkListAttributes (vl_deletable variableList) entries))).

Definition mmsServer_handleGetNamedVariableListAttributesRequest (buffer : ptr) (bufPos maxBufPos invokeId : Z) : MS FS unit :=
  match ber_decode_listAttributes codec (ptr_add buffer bufPos) (maxBufPos - bufPos) with
  | None => mmsServer_writeMmsRejectPdu codec (Some invokeId) MMS_ERROR_REJECT_INVALID_PDU
  | Some (ObjectName_domainspecific domainId itemId) =>
      do! st := the_server in
      match MmsDevice_getDomain (sv_mmsDevice st) (c_chars domainId)
              ≫= fun d => MmsDomain_getNamedVariableList d (c_chars itemId) with
      | Some variableList => createGetNamedVariableListAttributesResponse invokeId variableList
      | None => mmsServer_createConfirmedErrorPdu codec invokeId MMS_ERROR_ACCESS_OBJECT_NON_EXISTENT
      end
  | Some _ => mmsServer_createConfirmedErrorPdu codec invokeId MMS_ERROR_ACCESS_OBJECT_ACCESS_UNSUPPORTED
  end.
End Lists.
