(* ===== verification/Conversions.v ===== *)
(** Times as strings: src/common/conversions.c.  A time that is printed is read back as the
    same time. *)
From Stdlib Require Import String.
From stdpp Require Import base tactics numbers option list.
From S2P Require Import Prelude CString NameMapping.

(** [struct tm], and the functions of the C library between it and [time_t]. *)
Record Tm := mkTm { tm_year : Z; tm_mon : Z; tm_mday : Z; tm_hour : Z; tm_min : Z; tm_sec : Z }.

Record TimeLib := mkTimeLib { gmtime_r : Z -> Tm; timegm : Tm -> Z; mktime : Tm -> Z }.

(** * Printing *)

Fixpoint int_digits (n : nat) (digitBase remainder : Z) : list Z :=
  match n with
  | O => []
  | S n => u8 (Z.quot remainder digitBase + 48) :: int_digits n (Z.quot digitBase 10) (Z.rem remainder digitBase)
  end.

(** The characters before the null byte. *)
Definition Conversions_intToStringBuffer (intValue : Z) (numberOfDigits : nat) : list Z :=
  int_digits numberOfDigits (10 ^ (Z.of_nat numberOfDigits - 1)) intValue.

Definition Conversions_msTimeToGeneralizedTime (lib : TimeLib) (msTime : Z) : list Z :=
  let msPart := msTime mod 1000 in
  let tmTime := gmtime_r lib (msTime / 1000) in
  Conversions_intToStringBuffer (tm_year tmTime + 1900) 4
  ++ Conversions_intToStringBuffer (tm_mon tmTime + 1) 2
  ++ Conversions_intToStringBuffer (tm_mday tmTime) 2
  ++ Conversions_intToStringBuffer (tm_hour tmTime) 2
  ++ Conversions_intToStringBuffer (tm_min tmTime) 2
  ++ Conversions_intToStringBuffer (tm_sec tmTime) 2
  ++ lit "." ++ Conversions_intToStringBuffer msPart 3 ++ lit "Z".

(** * Reading *)

(** [count] characters at the position, the last of which may be the null byte. *)
Definition digits_at (s : list Z) (position count : nat) : res Z :=
  StringUtils_digitsToInt (take count (drop position (s ++ [0]))).

Definition getSecondsOffset (offsetString : list Z) : res Z :=
  let! hourOffset := digits_at offsetString 0 2 in
  if hourOffset <? 0 then Done (-1)
  else
    let! minOffset := digits_at offsetString 2 2 in
    if minOffset <? 0 then Done (-1) else Done (hourOffset * (60 * 60) + minOffset * 60).

Fixpoint digit_prefix (s : list Z) : list Z :=
  match s with
  | [] => []
  | c :: s => if StringUtils_isDigit c then c :: digit_prefix s else []
  end.

(** The milliseconds of a fraction, and the rest of the string; an [int] must not
    overflow. *)
Definition parse_fraction (parsePos : list Z) : res (Z * list Z) :=
  match parsePos with
  | c :: fractionOfSecondStart =>
      if c =? 46 then
        let digits := digit_prefix fractionOfSecondStart in
        let secondValue := 10 ^ zlen digits in
        let rest := drop (length digits) fractionOfSecondStart in
        if negb (int_ok secondValue) then Ub
        else if 0 <? zlen digits then
          let! fractionOfSecond := StringUtils_digitsToInt digits in
          if int_ok (fractionOfSecond * 1000) then Done (Z.quot (fractionOfSecond * 1000) secondValue, rest) else Ub
        else Done (0, rest)
      else Done (0, parsePos)
  | [] => Done (0, parsePos)
  end.

Section Parse.
Context (lib : TimeLib).

(** [None]: the designator of the zone is not known. *)
Definition parse_zone (tmTime : Tm) (parsePos : list Z) : res (option Z) :=
  match parsePos with
  | [] => Done (Some (mktime lib tmTime))
  | c :: offset =>
      if c =? 90 then Done (Some (timegm lib tmTime))
      else if c =? 43 then let! o := getSecondsOffset offset in Done (Some (timegm lib tmTime - o))
      else if c =? 45 then let! o := getSecondsOffset offset in Done (Some (timegm lib tmTime + o))
      else Done None
  end.

(** The fields one after the other; [None] at the first that is no number. *)
Definition parse_tm (s : list Z) : res (option Tm) :=
  let field position count (k : Z -> res (option Tm)) : res (option Tm) :=
    let! v := digits_at s position count in if v <? 0 then Done None else k v in
  field 0%nat 4%nat (fun year => field 4%nat 2%nat (fun month => field 6%nat 2%nat (fun day =>
    field 8%nat 2%nat (fun hour => field 10%nat 2%nat (fun min => field 12%nat 2%nat (fun seconds =>
      Done (Some (mkTm (year - 1900) (month - 1) day hour min seconds)))))))).

(** The result is a [uint64_t], and [-1] is the largest. *)
Definition Conversions_generalizedTimeToMsTime (gtString : list Z) : res Z :=
  if zlen gtString <? 14 then Done (u64 (-1))
  else
    let! tmTime := parse_tm gtString in
    match tmTime with
    | None => Done (u64 (-1))
    | Some tmTime =>
        let! (msOffset, parsePos) := parse_fraction (drop 14 gtString) in
        let! t := parse_zone tmTime parsePos in
        Done match t with Some t => u64 (t * 1000 + msOffset) | None => u64 (-1) end
    end.
End Parse.

(** * Facts *)

Definition two_digits (v : Z) : Prop := 0 <= v < 100.

(** A time whose fields have the number of digits that they are printed with. *)
Definition tm_ok (t : Tm) : Prop :=
  0 <= tm_year t + 1900 < 10000 /\ two_digits (tm_mon t + 1) /\ two_digits (tm_mday t) /\
  two_digits (tm_hour t) /\ two_digits (tm_min t) /\ two_digits (tm_sec t).

Lemma length_int_digits n base v : length (int_digits n base v) = n.
Proof. revert base v. induction n as [|n IH]; intros base v; simpl; [done|]. by rewrite IH. Qed.

Definition reads_back (n : nat) (v : Z) : bool :=
  let s := Conversions_intToStringBuffer v n in
  match StringUtils_digitsToInt s with Done w => w =? v | _ => false end && forallb StringUtils_isDigit s.

Lemma reads_back_upto n v : forallb (reads_back n) (seqZ 0 (10 ^ Z.of_nat n)) = true ->
  0 <= v < 10 ^ Z.of_nat n ->
  StringUtils_digitsToInt (Conversions_intToStringBuffer v n) = Done v /\
  forallb StringUtils_isDigit (Conversions_intToStringBuffer v n) = true.
Proof.
  intros Hall Hv. rewrite forallb_forall in Hall.
  assert (In v (seqZ 0 (10 ^ Z.of_nat n))) as Hin by (apply list_elem_of_In, elem_of_seqZ; lia).
  pose proof (Hall v Hin) as H. unfold reads_back in H. apply andb_prop in H as [H1 H2].
  split; [|done]. destruct (StringUtils_digitsToInt _); try discriminate. apply Z.eqb_eq in H1. by subst.
Qed.

Lemma two_digits_read v : two_digits v ->
  exists a b, Conversions_intToStringBuffer v 2 = [a; b] /\ StringUtils_digitsToInt [a; b] = Done v.
Proof.
  intros Hv. destruct (reads_back_upto 2 v) as [H _]; [by vm_compute|done|].
  pose proof (length_int_digits 2 (10 ^ (Z.of_nat 2 - 1)) v) as Hl.
  unfold Conversions_intToStringBuffer in *. destruct (int_digits _ _ _) as [|a [|b [|]]]; try discriminate.
  by exists a, b.
Qed.

Lemma year_read v : 0 <= v < 10000 ->
  exists a b c d, Conversions_intToStringBuffer v 4 = [a; b; c; d] /\ StringUtils_digitsToInt [a; b; c; d] = Done v.
Proof.
  intros Hv. destruct (reads_back_upto 4 v) as [H _]; [by vm_compute|done|].
  pose proof (length_int_digits 4 (10 ^ (Z.of_nat 4 - 1)) v) as Hl.
  unfold Conversions_intToStringBuffer in *. destruct (int_digits _ _ _) as [|a [|b [|c [|d [|]]]]]; try discriminate.
  by exists a, b, c, d.
Qed.

Lemma milliseconds_read v : 0 <= v < 1000 ->
  exists a b c, Conversions_intToStringBuffer v 3 = [a; b; c] /\ StringUtils_digitsToInt [a; b; c] = Done v /\
    forallb StringUtils_isDigit [a; b; c] = true.
Proof.
  intros Hv. destruct (reads_back_upto 3 v) as [H H2]; [by vm_compute|done|].
  pose proof (length_int_digits 3 (10 ^ (Z.of_nat 3 - 1)) v) as Hl.
  unfold Conversions_intToStringBuffer in *. destruct (int_digits _ _ _) as [|a [|b [|c [|]]]]; try discriminate.
  by exists a, b, c.
Qed.

(** Three digits behind the point are milliseconds. *)
Lemma parse_fraction_ms a b c v rest : forallb StringUtils_isDigit [a; b; c] = true ->
  StringUtils_digitsToInt [a; b; c] = Done v -> 0 <= v < 1000 ->
  parse_fraction (46 :: a :: b :: c :: 90 :: rest) = Done (v, 90 :: rest).
Proof.
  intros Hd Hr Hv. simpl in Hd. apply andb_prop in Hd as [Ha Hd]. apply andb_prop in Hd as [Hb Hd].
  apply andb_prop in Hd as [Hc _]. unfold parse_fraction. simpl digit_prefix.
  rewrite Ha, Hb, Hc. change (StringUtils_isDigit 90) with false. cbn [length drop].
  change (zlen [a; b; c]) with 3. change (46 =? 46) with true. cbv iota. change (negb (int_ok (10 ^ 3))) with false.
  cbv beta zeta iota. change (0 <? 3) with true. cbv iota. rewrite Hr. cbn [rbind].
  unfold int_ok.
  destruct (_ && _) eqn:E; [|apply andb_false_iff in E as [E|E]; apply Z.leb_gt in E; lia].
  change (10 ^ 3) with 1000. by rewrite Z.quot_mul.
Qed.

Lemma generalizedTime_reads lib ms : 0 <= ms < 2 ^ 64 ->
  tm_ok (gmtime_r lib (ms / 1000)) -> timegm lib (gmtime_r lib (ms / 1000)) = ms / 1000 ->
  Conversions_generalizedTimeToMsTime lib (Conversions_msTimeToGeneralizedTime lib ms) = Done ms.
Proof.
  intros Hms (Hy & Hmo & Hd & Hh & Hmi & Hs) Hinv. unfold Conversions_msTimeToGeneralizedTime.
  destruct (gmtime_r lib (ms / 1000)) as [y mo d h mi sec] eqn:Et. simpl in Hy, Hmo, Hd, Hh, Hmi, Hs. simpl tm_year; simpl tm_mon; simpl tm_mday; simpl tm_hour; simpl tm_min; simpl tm_sec.
  pose proof (Z.mod_pos_bound ms 1000 ltac:(lia)) as Hr.
  destruct (year_read _ Hy) as (y1 & y2 & y3 & y4 & -> & Ry).
  destruct (two_digits_read _ Hmo) as (m1 & m2 & -> & Rm). destruct (two_digits_read _ Hd) as (d1 & d2 & -> & Rd).
  destruct (two_digits_read _ Hh) as (h1 & h2 & -> & Rh). destruct (two_digits_read _ Hmi) as (i1 & i2 & -> & Ri).
  destruct (two_digits_read _ Hs) as (s1 & s2 & -> & Rs). destruct (milliseconds_read _ Hr) as (a & b & c & -> & Rf & Df).
  unfold two_digits in *. change (lit ".") with [46]. change (lit "Z") with [90]. cbn [app].
  unfold Conversions_generalizedTimeToMsTime. unfold zlen. cbn [length].
  change (Z.of_nat _ <? 14) with false. cbv iota.
  unfold parse_tm, digits_at. cbn [app take drop]. rewrite Ry. cbn [rbind]. rewrite (proj2 (Z.ltb_ge _ _)) by lia.
  rewrite Rm. cbn [rbind]. rewrite (proj2 (Z.ltb_ge _ _)) by lia. rewrite Rd. cbn [rbind]. rewrite (proj2 (Z.ltb_ge _ _)) by lia.
  rewrite Rh. cbn [rbind]. rewrite (proj2 (Z.ltb_ge _ _)) by lia. rewrite Ri. cbn [rbind]. rewrite (proj2 (Z.ltb_ge _ _)) by lia.
  rewrite Rs. cbn [rbind]. rewrite (proj2 (Z.ltb_ge _ _)) by lia. cbn [rbind].
  rewrite (parse_fraction_ms a b c _ [] Df Rf Hr). cbn [rbind]. unfold parse_zone.
  change (90 =? 90) with true. cbv iota. cbn [rbind].
  replace (y + 1900 - 1900) with y by lia. replace (mo + 1 - 1) with mo by lia. rewrite Hinv. f_equal.
  pose proof (Z.div_mod ms 1000 ltac:(lia)). unfold u64. rewrite Z.mod_small by lia. lia.
Qed.

(** a time in milliseconds that is printed as a generalized time is read back as the
    same number of milliseconds, as long as the C library's [timegm] undoes its
    [gmtime_r] and the fields have the number of digits they are printed with (the years 0
    to 9999). *)
Theorem generalizedTime_roundtrip lib ms : 0 <= ms < 2 ^ 64 ->
  tm_ok (gmtime_r lib (ms / 1000)) -> timegm lib (gmtime_r lib (ms / 1000)) = ms / 1000 ->
  Conversions_generalizedTimeToMsTime lib (Conversions_msTimeToGeneralizedTime lib ms) = Done ms.
Proof. apply generalizedTime_reads. Qed.

(** Seconds as they are counted in the first minute of the year 1970. *)
Definition minute_time : TimeLib := mkTimeLib (fun t => mkTm 70 0 1 0 0 t) tm_sec tm_sec.

Lemma generalizedTime_roundtrip_witness :
  Conversions_msTimeToGeneralizedTime minute_time 42007 = lit "19700101000042.007Z" /\
  Conversions_generalizedTimeToMsTime minute_time (Conversions_msTimeToGeneralizedTime minute_time 42007) = Done 42007.
Proof.
  split; [by vm_compute|]. apply (generalizedTime_roundtrip minute_time 42007); [lia| |by vm_compute].
  unfold tm_ok, two_digits; simpl. vm_compute. repeat split; discriminate.
Defined.
