(* ===== verification/MmsFiles.v ===== *)
(** The file services: src/mms/iso_mms/server/mms_file_service.c. *)
From Stdlib Require Import String.
From stdpp Require Import base tactics numbers option gmap list.
From S2P Require Import Prelude Memory Buffers BerDecode BerEncode Effects CString ServerState MmsPdu MmsData MmsService Conversions.

(** A null-terminated string with its bytes as a pointer. *)
Definition chars (s : list Z) : ptr := mk_ptr s 0.

(** * Files that are open *)

Definition getFreeFrsm (connection : MmsServerConnection) : option (nat * MmsFileReadStateMachine) :=
  list_find (fun f => fileHandle f = None) (mc_frsms connection).

Definition getFrsm (connection : MmsServerConnection) (id : Z) : option (nat * MmsFileReadStateMachine) :=
  list_find (fun f => fileHandle f <> None /\ frsmId f = id) (mc_frsms connection).

(** * Encoding *)

Definition encode_null_extended (invokeId invokeIdLength tag : Z) (buffer bufPos : Z) : W Z :=
  let* bufPos := BerEncoder_encodeTL 0xa1 (u32 (invokeIdLength + 2 + 3)) buffer bufPos in
  let* bufPos := BerEncoder_encodeTL 0x02 invokeIdLength buffer bufPos in
  let* bufPos := BerEncoder_encodeUInt32 invokeId buffer bufPos in
  let* bufPos := put 0xbf buffer bufPos in
  BerEncoder_encodeTL tag 0 buffer bufPos.

(** The size of the content: what [encodeFileAttributes] returns without a buffer. *)
Definition fileAttributes_size (sizeOfFileSize gtStringSize : Z) : Z := u32 (tl_size sizeOfFileSize + 2 + gtStringSize).

Definition encodeFileAttributes (tag sizeOfFileSize fileSize : Z) (gtString : list Z) (buffer bufPos : Z) : W Z :=
  let* bufPos := BerEncoder_encodeTL tag (fileAttributes_size sizeOfFileSize (zlen gtString)) buffer bufPos in
  let* bufPos := BerEncoder_encodeTL 0x80 sizeOfFileSize buffer bufPos in
  let* bufPos := BerEncoder_encodeUInt32 fileSize buffer bufPos in
  BerEncoder_encodeOctetString 0x81 (chars gtString) (zlen gtString) buffer bufPos.

Definition encode_file_open (invokeId invokeIdLength frsmId frsmIdLength sizeOfFileSize fileSize : Z) (gtString : list Z)
    (buffer bufPos : Z) : W Z :=
  let openFileResponseSize := u32 (fileAttributes_size sizeOfFileSize (zlen gtString) + 2 + (frsmIdLength + 2)) in
  let* bufPos := BerEncoder_encodeTL 0xa1 (u32 (invokeIdLength + 2 + 1 + tl_size openFileResponseSize)) buffer bufPos in
  let* bufPos := BerEncoder_encodeTL 0x02 invokeIdLength buffer bufPos in
  let* bufPos := BerEncoder_encodeUInt32 invokeId buffer bufPos in
  let* bufPos := put 0xbf buffer bufPos in
  let* bufPos := BerEncoder_encodeTL 0x48 openFileResponseSize buffer bufPos in
  let* bufPos := BerEncoder_encodeTL 0x80 frsmIdLength buffer bufPos in
  let* bufPos := BerEncoder_encodeUInt32 frsmId buffer bufPos in
  encodeFileAttributes 0xa1 sizeOfFileSize fileSize gtString buffer bufPos.

(** The file's bytes go to the buffer; the position moves by the size of the chunk also
    where fewer were read. *)
Definition encode_file_read (invokeId invokeIdLength fileChunkSize : Z) (chunk : list Z) (moreFollows : bool)
    (buffer bufPos : Z) : W Z :=
  let fileReadResponseSize := u32 (tl_size fileChunkSize + (if moreFollows then 0 else 3)) in
  let* bufPos := BerEncoder_encodeTL 0xa1 (u32 (invokeIdLength + 2 + 1 + tl_size fileReadResponseSize)) buffer bufPos in
  let* bufPos := BerEncoder_encodeTL 0x02 invokeIdLength buffer bufPos in
  let* bufPos := BerEncoder_encodeUInt32 invokeId buffer bufPos in
  let* bufPos := put 0xbf buffer bufPos in
  let* bufPos := BerEncoder_encodeTL 0x49 fileReadResponseSize buffer bufPos in
  let* bufPos := BerEncoder_encodeTL 0x80 fileChunkSize buffer bufPos in
  let* _ := put_list chunk buffer bufPos in
  let bufPos := bufPos + fileChunkSize in
  if moreFollows then wret bufPos else BerEncoder_encodeBoolean 0x81 false buffer bufPos.

Definition file_specification_size (fileSpecification : list Z) : Z := tl_size (tl_size (zlen fileSpecification)).

Definition encodeFileSpecification (tag : Z) (fileSpecification : list Z) (buffer bufPos : Z) : W Z :=
  let fileNameStringSize := zlen fileSpecification in
  let* bufPos := BerEncoder_encodeTL tag (tl_size fileNameStringSize) buffer bufPos in
  BerEncoder_encodeOctetString 0x19 (chars fileSpecification) fileNameStringSize buffer bufPos.

(** * Directories *)

Record DirectoryEntry := mkDirectoryEntry { de_name : list Z; de_size : Z; de_time : list Z }.

(** The two sizes of an entry: that of its content, and that which is compared with the
    space that is left. *)
Definition directory_entry_size (e : DirectoryEntry) : res (Z * Z) :=
  let! sizeOfFileSize := BerEncoder_UInt32determineEncodedSize (de_size e) in
  let dirEntrySize := 2 + fileAttributes_size sizeOfFileSize (zlen (de_time e)) + file_specification_size (de_name e) in
  Done (dirEntrySize, tl_size dirEntrySize).

Definition encode_entry (e : DirectoryEntry) (dirEntrySize : Z) (buffer bufPos : Z) : W Z := fun m =>
  let! sizeOfFileSize := BerEncoder_UInt32determineEncodedSize (de_size e) in
  (let* bufPos := BerEncoder_encodeTL 0x30 dirEntrySize buffer bufPos in
   let* bufPos := encodeFileSpecification 0xa0 (de_name e) buffer bufPos in
   encodeFileAttributes 0xa1 sizeOfFileSize (de_size e) (de_time e) buffer bufPos) m.

Fixpoint encode_entries (entries : list (DirectoryEntry * Z)) (buffer bufPos : Z) : W Z :=
  match entries with
  | [] => wret bufPos
  | (e, size) :: entries => let* bufPos := encode_entry e size buffer bufPos in encode_entries entries buffer bufPos
  end.

(** [memmove] inside the buffer: the bytes are read before they are written. *)
Definition move (from count : Z) (buffer bufPos : Z) : W Z := fun m =>
  let! bs := rd_list (mk_ptr m buffer) from count in put_list bs buffer bufPos m.

Definition tempStartPos : Z := 30.

Definition encode_directory (invokeId invokeIdLength : Z) (entries : list (DirectoryEntry * Z)) (moreFollows : bool)
    (buffer bufPos : Z) : W Z :=
  let* tempCurPos := encode_entries entries buffer tempStartPos in
  let tempEncoded := tempCurPos - tempStartPos in
  let listOfDirectoryEntrySize := tl_size tempEncoded in
  let fileDirectoryResponseSize := tl_size listOfDirectoryEntrySize + (if moreFollows then 3 else 0) in
  let* bufPos := BerEncoder_encodeTL 0xa1 (invokeIdLength + 2 + 1 + tl_size fileDirectoryResponseSize) buffer bufPos in
  let* bufPos := BerEncoder_encodeTL 0x02 invokeIdLength buffer bufPos in
  let* bufPos := BerEncoder_encodeUInt32 invokeId buffer bufPos in
  let* bufPos := put 0xbf buffer bufPos in
  let* bufPos := BerEncoder_encodeTL 0x4d fileDirectoryResponseSize buffer bufPos in
  let* bufPos := BerEncoder_encodeTL 0xa0 listOfDirectoryEntrySize buffer bufPos in
  let* bufPos := BerEncoder_encodeTL 0x30 tempEncoded buffer bufPos in
  let* bufPos := move tempStartPos tempEncoded buffer bufPos in
  if moreFollows then BerEncoder_encodeBoolean 0x81 true buffer bufPos else wret bufPos.

(** The entries as they are listed: directories with a slash.  The name may fill the 300
    characters that it is copied to, and the path those of [fullPath]. *)
Definition CONFIG_SYSTEM_FILE_SEPARATOR : Z := 47.
Definition CONFIG_MMS_FILE_SERVICE_MAX_FILENAME_LENGTH : Z := 256.

Definition listed_name (entry : list Z * bool) : res (list Z) :=
  let '(fileName, isDirectory) := entry in
  if isDirectory then if 298 <? zlen fileName then Ub else Done (fileName ++ [47]) else Done fileName.

(** The last character of an empty name lies before it. *)
Definition fullPath (directoryName fileName : list Z) : res (list Z) :=
  match last directoryName with
  | None => Ub
  | Some c =>
      let prefix := if c =? CONFIG_SYSTEM_FILE_SEPARATOR then directoryName else directoryName ++ [CONFIG_SYSTEM_FILE_SEPARATOR] in
      if CONFIG_MMS_FILE_SERVICE_MAX_FILENAME_LENGTH <=? zlen (prefix ++ fileName) then Ub else Done (prefix ++ fileName)
  end.

(** The loop over the entries of a directory: those that are sent with the size of their
    content, and whether more follow.  [info] is looked up only for entries that may be
    sent. *)
Fixpoint directory_loop (info : list Z -> res DirectoryEntry) (entries : list (list Z * bool))
    (continueAfterFileName : option (list Z)) (tempCurPos maxSize : Z) : res (list (DirectoryEntry * Z) * bool) :=
  match entries with
  | [] => Done ([], false)
  | entry :: entries =>
      let! fileName := listed_name entry in
      match continueAfterFileName with
      | Some continueAfter =>
          directory_loop info entries (if decide (continueAfter = fileName) then None else continueAfterFileName) tempCurPos maxSize
      | None =>
          let! e := info fileName in
          let! (dirEntrySize, overallEntrySize) := directory_entry_size e in
          if maxSize - tempCurPos <? overallEntrySize then Done ([], true)
          else
            let! (fit, more) := directory_loop info entries None (tempCurPos + overallEntrySize) maxSize in
            Done ((e, dirEntrySize) :: fit, more)
      end
  end.

Section Files.
Context {FS : Type} `{FileSystem FS} (codec : AsnCodec) (lib : TimeLib).

Definition the_files : MS FS FS := cget se_files.

Definition generalized_time (msTime : Z) : list Z := c_chars (Conversions_msTimeToGeneralizedTime lib msTime).

(** Size and time of a file that must be there: they are used without a look at the
    result. *)
Definition file_info (name : list Z) : MS FS (Z * Z) := do! files := the_files in clift (defined (fs_getFileInfo files name)).

Definition createNullResponseExtendedTag (invokeId tag : Z) : MS FS unit :=
  do! invokeIdLength := clift (BerEncoder_UInt32determineEncodedSize invokeId) in
  encode_response (encode_null_extended invokeId invokeIdLength tag).

Definition getNextFrsmId : MS FS Z :=
  do! connection := the_connection in
  do! _ := update_connection (fun c => mc_set_files (i32 (mc_nextFrsmId c + 1)) (mc_frsms c) c) in
  cret (mc_nextFrsmId connection).

Definition set_frsm (i : nat) (frsm : MmsFileReadStateMachine) : MS FS unit :=
  update_connection (fun c => mc_set_files (mc_nextFrsmId c) (<[i := frsm]> (mc_frsms c)) c).

(** * Requests *)

(** A file name: its characters up to a null byte and the position behind it, or the
    reason of a reject. *)
Definition parseFileName (buffer : ptr) (bufPos maxBufPos : Z) : res (list Z * Z + MmsError) :=
  let! tag := rd buffer bufPos in
  if negb (tag =? 0x19) then Done (inr MMS_ERROR_REJECT_INVALID_PDU)
  else
    let! (bufPos, length) := BerDecoder_decodeLength buffer None (bufPos + 1) maxBufPos in
    if bufPos <? 0 then Done (inr MMS_ERROR_REJECT_INVALID_PDU)
    else
      let! length := defined length in
      if 255 <? length then Done (inr MMS_ERROR_REJECT_REQUEST_INVALID_ARGUMENT)
      else
        let! bs := rd_list buffer bufPos length in
        Done (inl (c_chars bs, bufPos + length)).

(** What the loops over the parameters of a request collect. *)
Record FileRequest := mkFileRequest {
  fr_bufPos : Z;
  fr_first : option (list Z);                  (* the file name of tag 0xa0 *)
  fr_second : option (list Z);                 (* the file name of tag 0xa1 *)
  fr_position : Z }.

Definition fr_at (bufPos : Z) (r : FileRequest) : FileRequest := mkFileRequest bufPos (fr_first r) (fr_second r) (fr_position r).

Section Parameters.
Context (parameter : Z -> Z -> Z -> FileRequest -> res (ctl FileRequest MmsError)).

(** The tag, the length and the position of a parameter. *)
Definition parameter_body (buffer : ptr) (maxBufPos : Z) (r : FileRequest) : res (ctl FileRequest MmsError) :=
  let! tag := rd buffer (fr_bufPos r) in
  let! (bufPos, length) := BerDecoder_decodeLength buffer None (fr_bufPos r + 1) maxBufPos in
  if bufPos <? 0 then Done (Ret MMS_ERROR_REJECT_INVALID_PDU)
  else let! length := defined length in parameter tag length bufPos r.

Definition parse_parameters (fuel : nat) (buffer : ptr) (bufPos maxBufPos : Z) : res (ctl FileRequest MmsError) :=
  while (fun r => fr_bufPos r <? maxBufPos) (parameter_body buffer maxBufPos) fuel (mkFileRequest bufPos None None 0).
End Parameters.

Definition first_name (buffer : ptr) (length bufPos : Z) (r : FileRequest) : res (ctl FileRequest MmsError) :=
  let! name := parseFileName buffer bufPos (i32 (bufPos + length)) in
  Done match name with
  | inl (name, bufPos) => Next (mkFileRequest bufPos (Some name) (fr_second r) (fr_position r))
  | inr reason => Ret reason
  end.

Definition second_name (buffer : ptr) (length bufPos : Z) (r : FileRequest) : res (ctl FileRequest MmsError) :=
  let! name := parseFileName buffer bufPos (i32 (bufPos + length)) in
  Done match name with
  | inl (name, bufPos) => Next (mkFileRequest bufPos (fr_first r) (Some name) (fr_position r))
  | inr reason => Ret reason
  end.

Definition open_parameter (buffer : ptr) (tag length bufPos : Z) (r : FileRequest) : res (ctl FileRequest MmsError) :=
  if tag =? 0xa0 then first_name buffer length bufPos r
  else if tag =? 0x81 then
    let! filePosition := BerDecoder_decodeUint32 buffer length bufPos in
    Done (Next (mkFileRequest (i32 (bufPos + length)) (fr_first r) (fr_second r) filePosition))
  else Done (Ret MMS_ERROR_REJECT_INVALID_PDU).

Definition rename_parameter (buffer : ptr) (tag length bufPos : Z) (r : FileRequest) : res (ctl FileRequest MmsError) :=
  if tag =? 0xa0 then first_name buffer length bufPos r
  else if tag =? 0xa1 then second_name buffer length bufPos r
  else Done (Next (fr_at (i32 (bufPos + length)) r)).

Definition directory_parameter (buffer : ptr) (tag length bufPos : Z) (r : FileRequest) : res (ctl FileRequest MmsError) :=
  if tag =? 0xa0 then first_name buffer length bufPos r
  else if tag =? 0xa1 then second_name buffer length bufPos r
  else Done (Ret MMS_ERROR_REJECT_INVALID_PDU).

Definition reject (invokeId : Z) (reason : MmsError) : MS FS unit := mmsServer_writeMmsRejectPdu codec (Some invokeId) reason.
Definition file_error (invokeId : Z) (errorType : MmsError) : MS FS unit := mmsServer_createConfirmedErrorPdu codec invokeId errorType.

(** ** Deleting *)

(** Neither the position nor the length of the name is checked; the name is copied to 256
    characters with a null byte behind it. *)
Definition delete_file_name (buffer : ptr) (bufPos maxBufPos : Z) : res (list Z) :=
  let! (bufPos, length) := BerDecoder_decodeLength buffer None bufPos maxBufPos in
  let! length := defined length in
  let! bs := rd_list buffer bufPos length in
  if 255 <? length then Ub else Done (c_chars bs).

Definition mmsServer_handleFileDeleteRequest (buffer : ptr) (bufPos maxBufPos invokeId : Z) : MS FS unit :=
  do! tag := clift (rd buffer bufPos) in
  if negb (tag =? 0x19) then reject invokeId MMS_ERROR_REJECT_INVALID_PDU
  else
    do! filename := clift (delete_file_name buffer (bufPos + 1) maxBufPos) in
    do! files := the_files in
    match fs_getFileInfo files filename with
    | None => file_error invokeId MMS_ERROR_FILE_FILE_NON_EXISTENT
    | Some _ =>
        let '(deleted, files) := fs_deleteFile files filename in
        do! _ := cmodify (se_set_files files) in
        if deleted then createNullResponseExtendedTag invokeId 0x4c
        else file_error invokeId MMS_ERROR_FILE_FILE_ACCESS_DENIED
    end.

(** ** Opening *)

Definition createFileOpenResponse (invokeId : Z) (fullPath : list Z) (i : nat) (frsm : MmsFileReadStateMachine) : MS FS unit :=
  do! (fileSize, msTime) := file_info fullPath in
  do! _ := set_frsm i (mkFrsm (frsmId frsm) (readPosition frsm) fileSize (fileHandle frsm)) in
  let gtString := generalized_time msTime in
  do! sizeOfFileSize := clift (BerEncoder_UInt32determineEncodedSize fileSize) in
  do! invokeIdLength := clift (BerEncoder_UInt32determineEncodedSize invokeId) in
  do! frsmIdLength := clift (BerEncoder_UInt32determineEncodedSize (u32 (frsmId frsm))) in
  encode_response
    (encode_file_open invokeId invokeIdLength (u32 (frsmId frsm)) frsmIdLength sizeOfFileSize fileSize gtString).

Definition open_file (invokeId : Z) (filename : list Z) (filePosition : Z) : MS FS unit :=
  do! connection := the_connection in
  match getFreeFrsm connection with
  | None => file_error invokeId MMS_ERROR_RESOURCE_OTHER
  | Some (i, frsm) =>
      do! files := the_files in
      let '(fileHandle, files) := fs_openFile files filename false in
      do! _ := cmodify (se_set_files files) in
      match fileHandle with
      | None => file_error invokeId MMS_ERROR_FILE_FILE_NON_EXISTENT
      | Some handle =>
          do! id := getNextFrsmId in
          let frsm := mkFrsm id filePosition (fileSize frsm) (Some handle) in
          do! _ := set_frsm i frsm in
          createFileOpenResponse invokeId filename i frsm
      end
  end.

Definition mmsServer_handleFileOpenRequest (fuel : nat) (buffer : ptr) (bufPos maxBufPos invokeId : Z) : MS FS unit :=
  do! r := clift (parse_parameters (open_parameter buffer) fuel buffer bufPos maxBufPos) in
  match r with
  | Ret reason => reject invokeId reason
  | Next r =>
      match fr_first r with
      | None => reject invokeId MMS_ERROR_REJECT_REQUEST_INVALID_ARGUMENT
      | Some filename => open_file invokeId filename (fr_position r)
      end
  end.

(** ** Reading *)

Definition maxFileChunkSize : Z := CONFIG_MMS_MAXIMUM_PDU_SIZE - 15.

(** The size of the next chunk, and whether more follow. *)
Definition next_chunk (frsm : MmsFileReadStateMachine) : Z * bool :=
  let bytesLeft := u32 (fileSize frsm - readPosition frsm) in
  if maxFileChunkSize <? bytesLeft then (maxFileChunkSize, true) else (bytesLeft, false).

Definition createFileReadResponse (invokeId : Z) (i : nat) (frsm : MmsFileReadStateMachine) : MS FS unit :=
  let '(fileChunkSize, moreFollows) := next_chunk frsm in
  do! _ := set_frsm i (mkFrsm (frsmId frsm) (u32 (readPosition frsm + fileChunkSize)) (fileSize frsm) (fileHandle frsm)) in
  do! invokeIdLength := clift (BerEncoder_UInt32determineEncodedSize invokeId) in
  do! handle := clift (defined (fileHandle frsm)) in
  do! files := the_files in
  let '(chunk, files) := fs_readFile files handle fileChunkSize in
  do! _ := cmodify (se_set_files files) in
  encode_response (encode_file_read invokeId invokeIdLength fileChunkSize chunk moreFollows).

Definition mmsServer_handleFileReadRequest (buffer : ptr) (bufPos maxBufPos invokeId : Z) : MS FS unit :=
  do! frsmId := clift (BerDecoder_decodeUint32 buffer (maxBufPos - bufPos) bufPos) in
  do! connection := the_connection in
  match getFrsm connection (i32 frsmId) with
  | Some (i, frsm) => createFileReadResponse invokeId i frsm
  | None => file_error invokeId MMS_ERROR_FILE_OTHER
  end.

(** ** Closing *)

Definition createFileCloseResponse (invokeId : Z) : MS FS unit := createNullResponseExtendedTag invokeId 0x4a.

(** The null pointer is followed for a file that is not open. *)
Definition mmsServer_handleFileCloseRequest (buffer : ptr) (bufPos maxBufPos invokeId : Z) : MS FS unit :=
  do! id := clift (BerDecoder_decodeUint32 buffer (maxBufPos - bufPos) bufPos) in
  do! connection := the_connection in
  do! (i, frsm) := clift (defined (getFrsm connection (i32 id))) in
  do! handle := clift (defined (fileHandle frsm)) in
  do! _ := cmodify (fun s => se_set_files (fs_closeFile (se_files s) handle) s) in
  do! _ := set_frsm i (mkFrsm 0 (readPosition frsm) (fileSize frsm) None) in
  createFileCloseResponse invokeId.

(** ** Renaming *)

Definition mmsServer_handleFileRenameRequest (fuel : nat) (buffer : ptr) (bufPos maxBufPos invokeId : Z) : MS FS unit :=
  do! r := clift (parse_parameters (rename_parameter buffer) fuel buffer bufPos maxBufPos) in
  match r with
  | Ret reason => reject invokeId reason
  | Next r =>
      let currentFileName := default [] (fr_first r) in
      let newFileName := default [] (fr_second r) in
      if negb (zlen currentFileName =? 0) && negb (zlen newFileName =? 0) then
        do! files := the_files in
        let '(renamed, files) := fs_renameFile files currentFileName newFileName in
        do! _ := cmodify (se_set_files files) in
        if renamed then createNullResponseExtendedTag invokeId 0x4b
        else file_error invokeId MMS_ERROR_FILE_OTHER
      else reject invokeId MMS_ERROR_REJECT_INVALID_PDU
  end.

(** ** Directories *)

Definition directory_entry (files : FS) (directoryName fileName : list Z) : res DirectoryEntry :=
  let! path := fullPath directoryName fileName in
  let! (fileSize, msTime) := defined (fs_getFileInfo files path) in
  Done (mkDirectoryEntry fileName fileSize (generalized_time msTime)).

Definition createFileDirectoryResponse (invokeId : Z) (directoryName : list Z) (continueAfterFileName : option (list Z))
  : MS FS unit :=
  do! files := the_files in
  match fs_openDirectory files directoryName with
  | None => file_error invokeId MMS_ERROR_FILE_FILE_NON_EXISTENT
  | Some directory =>
      do! response := cget se_response in
      do! (entries, moreFollows) := clift
        (directory_loop (directory_entry files directoryName) directory continueAfterFileName tempStartPos
          (bb_maxSize response - 3)) in
      do! invokeIdLength := clift (BerEncoder_UInt32determineEncodedSize invokeId) in
      encode_response (encode_directory invokeId invokeIdLength entries moreFollows)
  end.

Definition mmsServer_handleFileDirectoryRequest (fuel : nat) (buffer : ptr) (bufPos maxBufPos invokeId : Z) : MS FS unit :=
  do! r := clift (parse_parameters (directory_parameter buffer) fuel buffer bufPos maxBufPos) in
  match r with
  | Ret reason => reject invokeId reason
  | Next r => createFileDirectoryResponse invokeId (default [] (fr_first r)) (fr_second r)
  end.
End Files.
