(* ===== verification/MmsDispatch.v ===== *)
(** The messages of a connection and its services: the association
    (src/mms/iso_mms/server/mms_association_service.c), the requests
    (mms_server_connection.c), and the connections of a server (mms_server.c). *)
From stdpp Require Import base tactics numbers option gmap list.
From S2P Require Import Prelude Memory Buffers BerDecode BerEncode IsoConnections Effects MmsTypeSpec ServerState MmsMapping MmsPdu MmsData MmsService MmsWriteService MmsReadService MmsNameList MmsAttributes Conversions MmsFiles.

(** * The association *)

Definition DEFAULT_MAX_SERV_OUTSTANDING_CALLING : Z := 5.
Definition DEFAULT_MAX_SERV_OUTSTANDING_CALLED : Z := 5.
Definition DEFAULT_DATA_STRUCTURE_NESTING_LEVEL : Z := 10.

Definition MMS_SERVICE_STATUS : Z := 0x80.
Definition MMS_SERVICE_GET_NAME_LIST : Z := 0x40.
Definition MMS_SERVICE_IDENTIFY : Z := 0x20.
Definition MMS_SERVICE_READ : Z := 0x08.
Definition MMS_SERVICE_WRITE : Z := 0x04.
Definition MMS_SERVICE_GET_VARIABLE_ACCESS_ATTRIBUTES : Z := 0x02.
Definition MMS_SERVICE_DEFINE_NAMED_VARIABLE_LIST : Z := 0x10.
Definition MMS_SERVICE_GET_NAMED_VARIABLE_LIST_ATTRIBUTES : Z := 0x08.
Definition MMS_SERVICE_DELETE_NAMED_VARIABLE_LIST : Z := 0x04.
Definition MMS_SERVICE_FILE_OPEN : Z := 0x80.
Definition MMS_SERVICE_FILE_READ : Z := 0x40.
Definition MMS_SERVICE_FILE_CLOSE : Z := 0x20.
Definition MMS_SERVICE_FILE_RENAME : Z := 0x01.
Definition MMS_SERVICE_FILE_DELETE : Z := 0x08.
Definition MMS_SERVICE_FILE_DIRECTORY : Z := 0x04.
Definition MMS_SERVICE_INFORMATION_REPORT : Z := 0x01.
Definition MMS_SERVICE_CONCLUDE : Z := 0x10.
Definition MMS_SERVICE_CANCEL : Z := 0x08.

Definition any_of (flags : list Z) : Z := foldr Z.lor 0 flags.

(** With all services of the configuration. *)
Definition servicesSupported : list Z :=
  [any_of [MMS_SERVICE_STATUS; MMS_SERVICE_GET_NAME_LIST; MMS_SERVICE_IDENTIFY; MMS_SERVICE_READ; MMS_SERVICE_WRITE;
     MMS_SERVICE_GET_VARIABLE_ACCESS_ATTRIBUTES];
   any_of [MMS_SERVICE_DEFINE_NAMED_VARIABLE_LIST; MMS_SERVICE_DELETE_NAMED_VARIABLE_LIST;
     MMS_SERVICE_GET_NAMED_VARIABLE_LIST_ATTRIBUTES];
   0; 0; 0; 0; 0; 0; 0;
   any_of [MMS_SERVICE_FILE_OPEN; MMS_SERVICE_FILE_READ; MMS_SERVICE_FILE_CLOSE; MMS_SERVICE_FILE_RENAME;
     MMS_SERVICE_FILE_DELETE; MMS_SERVICE_FILE_DIRECTORY; MMS_SERVICE_INFORMATION_REPORT];
   any_of [MMS_SERVICE_CONCLUDE; MMS_SERVICE_CANCEL]].

Definition parameterCBB : list Z := [0xf1; 0x00].

Definition initResponseDetailSize : Z := 14 + 5 + 3.

Definition encodeInitResponseDetail (buffer bufPos : Z) : W Z :=
  let* bufPos := BerEncoder_encodeTL 0xa4 initResponseDetailSize buffer bufPos in
  let* bufPos := BerEncoder_encodeUInt32WithTL 0x80 1 buffer bufPos in
  let* bufPos := BerEncoder_encodeBitString 0x81 11 (mk_ptr parameterCBB 0) buffer bufPos in
  BerEncoder_encodeBitString 0x82 85 (mk_ptr servicesSupported 0) buffer bufPos.

(** The numbers that are negotiated, as they are encoded. *)
Definition negotiated (self : MmsServerConnection) : list Z :=
  map u32 [mc_maxPduSize self; mc_maxServOutstandingCalling self; mc_maxServOutstandingCalled self;
    mc_dataStructureNestingLevel self].

Definition write_initiate_response (self : MmsServerConnection) (initiateResponseLength : Z) (buffer bufPos : Z) : W Z :=
  let* bufPos := BerEncoder_encodeTL 0xa9 initiateResponseLength buffer bufPos in
  let* bufPos := BerEncoder_encodeUInt32WithTL 0x80 (u32 (mc_maxPduSize self)) buffer bufPos in
  let* bufPos := BerEncoder_encodeUInt32WithTL 0x81 (u32 (mc_maxServOutstandingCalling self)) buffer bufPos in
  let* bufPos := BerEncoder_encodeUInt32WithTL 0x82 (u32 (mc_maxServOutstandingCalled self)) buffer bufPos in
  let* bufPos := BerEncoder_encodeUInt32WithTL 0x83 (u32 (mc_dataStructureNestingLevel self)) buffer bufPos in
  encodeInitResponseDetail buffer bufPos.

(** The parameters, each with its limit; the numbers are of type [int]. *)
Definition local_detail (maxPduSize : Z) : Z :=
  if CONFIG_MMS_MAXIMUM_PDU_SIZE <? i32 maxPduSize then CONFIG_MMS_MAXIMUM_PDU_SIZE else i32 maxPduSize.
Definition limit (number maximum : Z) : Z := if maximum <? i32 number then maximum else i32 number.

Definition initiate_parameter (self : MmsServerConnection) (tag number : Z) : MmsServerConnection :=
  let calling := mc_maxServOutstandingCalling self in
  let called := mc_maxServOutstandingCalled self in
  let nesting := mc_dataStructureNestingLevel self in
  let pduSize := mc_maxPduSize self in
  if tag =? 0x80 then mc_set_parameters calling called nesting (local_detail number) self
  else if tag =? 0x81 then mc_set_parameters (limit number DEFAULT_MAX_SERV_OUTSTANDING_CALLING) called nesting pduSize self
  else if tag =? 0x82 then mc_set_parameters calling (limit number DEFAULT_MAX_SERV_OUTSTANDING_CALLED) nesting pduSize self
  else if tag =? 0x83 then mc_set_parameters calling called (i32 number) pduSize self
  else self.

Definition initiate_body (buffer : ptr) (maxBufPos : Z) (s : Z * MmsServerConnection)
  : res (ctl (Z * MmsServerConnection) MmsServerConnection) :=
  let '(bufPos, self) := s in
  let! tag := rd buffer bufPos in
  let! (bufPos, length) := BerDecoder_decodeLength buffer None (bufPos + 1) maxBufPos in
  if bufPos <? 0 then Done (Ret self)
  else
    let! length := defined length in
    let! number := if (0x80 <=? tag) && (tag <=? 0x83) then BerDecoder_decodeUint32 buffer length bufPos else Done 0 in
    Done (Next (i32 (bufPos + length), initiate_parameter self tag number)).

(** [Ret]: the request could not be read, with what was set until then. *)
Definition parseInitiateRequestPdu (fuel : nat) (self : MmsServerConnection) (buffer : ptr) (bufPos maxBufPos : Z)
  : res (ctl (Z * MmsServerConnection) MmsServerConnection) :=
  while (fun s => fst s <? maxBufPos) (initiate_body buffer maxBufPos) fuel
    (bufPos, mc_set_parameters DEFAULT_MAX_SERV_OUTSTANDING_CALLING DEFAULT_MAX_SERV_OUTSTANDING_CALLED
      DEFAULT_DATA_STRUCTURE_NESTING_LEVEL CONFIG_MMS_MAXIMUM_PDU_SIZE self).

(** * Messages *)

Inductive MmsIndication := MMS_ERROR | MMS_INITIATE | MMS_CONFIRMED_REQUEST | MMS_OK | MMS_CONCLUDE.

Section Dispatch.
Context {FS : Type} `{FileSystem FS} (w : World) (codec : AsnCodec) (lib : TimeLib).
Context (statusListener : option (MmsServerInfo -> bool -> MmsServerInfo)).

Definition createInitiateResponse : MS FS unit :=
  do! self := the_connection in
  do! sizes := clift (each_res BerEncoder_UInt32determineEncodedSize (negotiated self)) in
  encode_response
    (write_initiate_response self (sum_list (map (Z.add 2) sizes) + (initResponseDetailSize + 2))).

(** A request that can not be read gets no answer. *)
Definition mmsServer_handleInitiateRequest (fuel : nat) (buffer : ptr) (bufPos maxBufPos : Z) : MS FS unit :=
  do! self := the_connection in
  do! r := clift (parseInitiateRequestPdu fuel self buffer bufPos maxBufPos) in
  match r with
  | Next (_, self) => do! _ := update_connection (fun _ => self) in createInitiateResponse
  | Ret self => update_connection (fun _ => self)
  end.

Definition mmsServer_writeConcludeResponsePdu : MS FS unit := fun s es =>
  let! (_, response) := ByteBuffer_appendByte (se_response s) 0x8c in
  let! (_, response) := ByteBuffer_appendByte response 0x00 in
  Done (tt, se_set_response response s, es).

(** ** Confirmed requests *)

Definition unrecognized (invokeId : Z) : MS FS bool :=
  do! _ := mmsServer_writeMmsRejectPdu codec (Some invokeId) MMS_ERROR_REJECT_UNRECOGNIZED_SERVICE in cret false.

Definition served (c : MS FS unit) : MS FS bool := do! _ := c in cret true.

(** The file services; [true] if the loop goes on. *)
Definition extended_service (fuel : nat) (buffer : ptr) (tag length bufPos invokeId : Z) : MS FS bool :=
  let maxBufPos := i32 (bufPos + length) in
  if tag =? 0x48 then served (mmsServer_handleFileOpenRequest codec lib fuel buffer bufPos maxBufPos invokeId)
  else if tag =? 0x49 then served (mmsServer_handleFileReadRequest codec buffer bufPos maxBufPos invokeId)
  else if tag =? 0x4a then served (mmsServer_handleFileCloseRequest buffer bufPos maxBufPos invokeId)
  else if tag =? 0x4b then served (mmsServer_handleFileRenameRequest codec fuel buffer bufPos maxBufPos invokeId)
  else if tag =? 0x4c then served (mmsServer_handleFileDeleteRequest codec buffer bufPos maxBufPos invokeId)
  else if tag =? 0x4d then served (mmsServer_handleFileDirectoryRequest codec lib fuel buffer bufPos maxBufPos invokeId)
  else unrecognized invokeId.

Definition service (fuel : nat) (buffer : ptr) (tag length bufPos invokeId : Z) : MS FS bool :=
  let maxBufPos := i32 (bufPos + length) in
  if tag =? 0x80 then served (mmsServer_handleStatusRequest statusListener buffer bufPos invokeId)
  else if tag =? 0xa1 then served (mmsServer_handleGetNameListRequest codec fuel buffer bufPos maxBufPos invokeId)
  else if tag =? 0x82 then served (mmsServer_handleIdentifyRequest invokeId)
  else if tag =? 0xa4 then served (mmsServer_handleReadRequest w codec buffer invokeId)
  else if tag =? 0xa5 then served (mmsServer_handleWriteRequest w codec buffer invokeId)
  else if tag =? 0xa6 then served (mmsServer_handleGetVariableAccessAttributesRequest codec buffer bufPos maxBufPos invokeId)
  else if tag =? 0xab then served (mmsServer_handleDefineNamedVariableListRequest codec buffer maxBufPos invokeId)
  else if tag =? 0xac then served (mmsServer_handleGetNamedVariableListAttributesRequest codec buffer bufPos maxBufPos invokeId)
  else if tag =? 0xad then served (mmsServer_handleDeleteNamedVariableListRequest codec buffer maxBufPos invokeId)
  else unrecognized invokeId.

Definition set_invokeId (buffer : ptr) (length bufPos : Z) : MS FS Z :=
  do! invokeId := clift (BerDecoder_decodeUint32 buffer length bufPos) in
  do! _ := update_connection (mc_set_lastInvokeId invokeId) in
  cret invokeId.

(** The tag of an element, and whether it is the second octet of a long one. *)
Definition element_tag (buffer : ptr) (bufPos : Z) : res (bool * Z * Z) :=
  let! tag := rd buffer bufPos in
  let bufPos := bufPos + 1 in
  if Z.land tag 0x1f =? 0x1f then let! tag := rd buffer bufPos in Done (true, tag, bufPos + 1)
  else Done (false, tag, bufPos).

Fixpoint confirmed_loop (fuel : nat) (buffer : ptr) (maxBufPos bufPos invokeId : Z) : MS FS unit :=
  if bufPos <? maxBufPos then
    match fuel with
    | O => clift NoFuel
    | S fuel =>
        do! (extendedTag, tag, bufPos) := clift (element_tag buffer bufPos) in
        do! (bufPos, length) := clift (BerDecoder_decodeLength buffer None bufPos maxBufPos) in
        if bufPos <? 0 then
          mmsServer_writeMmsRejectPdu codec (Some invokeId) MMS_ERROR_REJECT_UNRECOGNIZED_SERVICE
        else
          do! length := clift (defined length) in
          let next := confirmed_loop fuel buffer maxBufPos (i32 (bufPos + length)) in
          if extendedTag then
            do! go_on := extended_service fuel buffer tag length bufPos invokeId in
            if (go_on : bool) then next invokeId else cret tt
          else if tag =? 0x02 then
            do! invokeId := set_invokeId buffer length bufPos in next invokeId
          else
            do! go_on := service fuel buffer tag length bufPos invokeId in
            if (go_on : bool) then next invokeId else cret tt
    end
  else cret tt.

Definition handleConfirmedRequestPdu (fuel : nat) (buffer : ptr) (bufPos maxBufPos : Z) : MS FS unit :=
  confirmed_loop fuel buffer maxBufPos bufPos 0.

Definition indicated (c : MS FS unit) (retVal : MmsIndication) : MS FS MmsIndication := do! _ := c in cret retVal.

Definition MmsServerConnection_parseMessage (fuel : nat) (message : ByteBuffer) : MS FS MmsIndication :=
  if bb_size message <? 2 then cret MMS_ERROR
  else
    do! buffer := clift (defined (bb_buffer message)) in
    do! pduType := clift (rd buffer 0) in
    do! (bufPos, pduLength) := clift (BerDecoder_decodeLength buffer None 1 (bb_size message)) in
    if bufPos <? 0 then cret MMS_ERROR
    else
      do! pduLength := clift (defined pduLength) in
      let maxBufPos := i32 (bufPos + pduLength) in
      if pduType =? 0xa8 then
        indicated (mmsServer_handleInitiateRequest fuel buffer bufPos maxBufPos) MMS_INITIATE
      else if pduType =? 0xa0 then
        indicated (handleConfirmedRequestPdu fuel buffer bufPos maxBufPos) MMS_CONFIRMED_REQUEST
      else if pduType =? 0x8b then indicated mmsServer_writeConcludeResponsePdu MMS_CONCLUDE
      else if pduType =? 0xa4 then cret MMS_OK
      else indicated (mmsServer_writeMmsRejectPdu codec None MMS_ERROR_REJECT_UNKNOWN_PDU_TYPE) MMS_ERROR.

(** The handler of the transport connection. *)
Definition messageReceived (fuel : nat) : MessageReceivedHandler (Service FS * list ServerEvent) :=
  fun parameter message response =>
    let '(self, es) := parameter in
    let! (_, self, es) := MmsServerConnection_parseMessage fuel message (se_set_response response self) es in
    Done ((self, es), se_response self).
End Dispatch.

(** * Connections *)

Section Server.
Context {FS : Type} `{FileSystem FS} (w : World).

(** The server with the connections that are open, by their transport connections. *)
Record MmsServer := mkMmsServer {
  ms_ied : IedServer;
  ms_files : FS;
  ms_openConnections : Map Z MmsServerConnection }.

Definition close_files (frsms : list MmsFileReadStateMachine) (files : FS) : FS :=
  fold_left (fun files f => match fileHandle f with Some h => fs_closeFile files h | None => files end) frsms files.

Definition MmsServerConnection_destroy (self : MmsServerConnection) (files : FS) : FS := close_files (mc_frsms self) files.

Inductive IsoConnectionIndication := ISO_CONNECTION_OPENED | ISO_CONNECTION_CLOSED.

(** The connection handler of the IED server; a connection goes by the number of its
    transport connection. *)
Definition isoConnectionIndicationHandler (indication : IsoConnectionIndication) (connection : Z) (s : MmsServer)
    (es : list ServerEvent) : res (MmsServer * list ServerEvent) :=
  match indication with
  | ISO_CONNECTION_OPENED =>
      let mmsCon := MmsServerConnection_init connection in
      let openConnections := Map_addEntry (ms_openConnections s) connection mmsCon in
      let! (_, ied, es) := mmsConnectionHandler w (mc_handle mmsCon) MMS_SERVER_NEW_CONNECTION (ms_ied s) es in
      Done (mkMmsServer ied (ms_files s) openConnections, es)
  | ISO_CONNECTION_CLOSED =>
      let '(mmsCon, openConnections) := Map_removeEntry (ms_openConnections s) connection in
      let handle := default 0 (mc_handle <$> mmsCon) in
      let! (_, ied, es) := mmsConnectionHandler w handle MMS_SERVER_CONNECTION_CLOSED (ms_ied s) es in
      let files := match mmsCon with Some c => MmsServerConnection_destroy c (ms_files s) | None => ms_files s end in
      Done (mkMmsServer ied files openConnections, es)
  end.
End Server.
Arguments MmsServer FS : clear implicits.
