(* ===== verification/SampleService.v ===== *)
(** A client at work with the sample server: an ASN.1 codec that knows one request, files in
    memory, and an array in the data model. *)
From Stdlib Require Import String.
From stdpp Require Import base tactics numbers option gmap list.
From S2P Require Import Prelude Memory Buffers BerEncode MmsValue Effects CString MmsTypeSpec Iec61850Common ValueStore IedModel MmsGoose ServerState MmsMapping MappingModel IedServer SampleServer MmsPdu MmsData MmsService Conversions MmsDispatch.

(** * Files in memory *)

(** The files, and the rest of each file that is open, by its handle. *)
Record MemoryFiles := mkFiles { mf_files : list (list Z * list Z); mf_open : list (Z * list Z) }.

Definition mf_find (f : MemoryFiles) (name : list Z) : option (list Z) :=
  snd <$> (snd <$> list_find (fun e => e.1 = name) (mf_files f)).

Definition mf_rest (f : MemoryFiles) (h : Z) : option (list Z) := snd <$> (snd <$> list_find (fun e => e.1 = h) (mf_open f)).

Definition mf_set_rest (f : MemoryFiles) (h : Z) (rest : list Z) : MemoryFiles :=
  mkFiles (mf_files f) (map (fun e => if e.1 =? h then (e.1, rest) else e) (mf_open f)).

#[export] Instance memory_files : FileSystem MemoryFiles := {
  fs_getFileInfo f name := (fun content => (zlen content, 42007)) <$> mf_find f name;
  fs_openFile f name readWrite :=
    match mf_find f name with
    | Some content => let h := zlen (mf_open f) + 1 in (Some h, mkFiles (mf_files f) (mf_open f ++ [(h, content)]))
    | None => (None, f)
    end;
  fs_readFile f h n :=
    match mf_rest f h with
    | Some rest => (take (Z.to_nat n) rest, mf_set_rest f h (drop (Z.to_nat n) rest))
    | None => ([], f)
    end;
  fs_closeFile f h := mkFiles (mf_files f) (filter (fun e => e.1 <> h) (mf_open f));
  fs_deleteFile f name := (true, mkFiles (filter (fun e => e.1 <> name) (mf_files f)) (mf_open f));
  fs_renameFile f old new := (true, mkFiles (map (fun e => if decide (e.1 = old) then (new, e.2) else e) (mf_files f)) (mf_open f));
  fs_openDirectory f name := Some (map (fun e => (e.1, false)) (mf_files f)) }.

Definition demo_files : MemoryFiles := mkFiles [(lit "a.txt", lit "abcdefghij")] [].

(** * The codec *)

(** One request is decoded; the answers are encoded with the octets of the invoke id. *)
Definition demo_codec (pdu : MmsPdu) : AsnCodec :=
  mkCodec (fun _ _ => Some pdu) (fun _ _ => None) (fun _ _ => None)
    (fun pdu => match pdu with
      | ConfirmedResponsePdu id _ => ([[0xa1; zlen id]; id], true)
      | ConfirmedErrorPDU _ ErrorClass_NOTHING => ([], false)
      | ConfirmedErrorPDU id _ => ([[0xa2; zlen id]; id], true)
      | _ => ([[0xa4; 0]], true)
      end).

Definition demo_info : MmsServerInfo := mkServerInfo None None None 0 0.

(** A connection after the association, with room for the answer. *)
Definition demo_association : MmsServerConnection :=
  mc_set_parameters 5 5 10 16000 (MmsServerConnection_init 7).

Definition demo_service {FS} (files : FS) (st : IedServer) : Service FS :=
  mkService FS st demo_info files demo_association (ByteBuffer_create 16100).

Definition demo_message (bs : list Z) : ByteBuffer := mkByteBuffer (Some (mk_ptr bs 0)) 16100 (zlen bs).

(** A variable of the sample model by its name. *)
Definition demo_variable (itemId : String.string) (alternateAccess : option AlternateAccess) : ListOfVariableSeq :=
  mkVariableSeq (VariableSpecification_name (ObjectName_domainspecific (lit "IEDLD0") (lit itemId))) alternateAccess.

Definition demo_write_pdu (itemId : String.string) (alternateAccess : option AlternateAccess) (data : Data) : MmsPdu :=
  ConfirmedRequestPdu [7] (Request_write
    (mkWriteRequest (VariableAccessSpecification_listOfVariable [demo_variable itemId alternateAccess]) [data])).

Definition demo_read_pdu (itemIds : list String.string) : MmsPdu :=
  ConfirmedRequestPdu [7] (Request_read
    (mkReadRequest None (VariableAccessSpecification_listOfVariable (map (fun n => demo_variable n None) itemIds)))).

(** * An array *)

(** A status attribute with two elements. *)
Definition array_GGIO1 : ModelNode :=
  Node 1 LogicalNodeModelType (lit "GGIO1")
    [Node 11 (DataObjectModelType 0) (lit "Ind1")
      [Node 111 (DataAttributeModelType 2 (mkAttribute ST INT32 1 111)) (lit "val") []]].

Definition array_model : IedModel :=
  mkModel (lit "IED") [Node 100 LogicalDeviceModelType (lit "IEDLD0") [array_GGIO1]] [] [] [].

Definition array_server : IedServer :=
  match IedServer_create demo_world (fun _ => None) array_model with Done st => st | _ => empty_server end.

(** Element 1 of the array. *)
Definition demo_element : AlternateAccess := [Member_unnamed (mkSelection (Select_index [1]) None)].
