(* ===== verification/MmsClientServices.v ===== *)
(** What the MMS client sends, and how it reads the answers: src/mms/iso_mms/client/
    mms_client_files.c, mms_client_identify.c, mms_client_status.c, mms_client_read.c,
    mms_client_write.c, mms_client_get_namelist.c, mms_client_get_var_access.c,
    mms_client_named_variable_list.c, mms_client_initiate.c and mms_client_common.c.
    Requests are written into the transmit buffer; an answer is the received message with
    the position behind its invoke id. *)
From stdpp Require Import base tactics numbers option list.
From S2P Require Import Prelude Memory Buffers BerDecode BerEncode BerInteger MmsValue Effects CString Control NameMapping MmsPdu MmsData MmsService Conversions MmsFiles MmsDispatch.

(** * Requests *)

Definition encode_request (c : Z -> Z -> W Z) (request : ByteBuffer) : res ByteBuffer :=
  let! p := defined (bb_buffer request) in
  let! (bufPos, m) := c (p_base p) 0 (p_mem p) in
  Done (mkByteBuffer (Some (mk_ptr m (p_base p))) (bb_maxSize request) bufPos).

(** The head of each request. *)
Definition write_request_head (pduSize invokeId invokeIdSize : Z) (buffer bufPos : Z) : W Z :=
  let* bufPos := BerEncoder_encodeTL 0xa0 (u32 pduSize) buffer bufPos in
  let* bufPos := BerEncoder_encodeTL 0x02 invokeIdSize buffer bufPos in
  BerEncoder_encodeUInt32 invokeId buffer bufPos.

(** A service with a tag of two octets. *)
Definition write_extended_tag (tag0 tag1 size : Z) (buffer bufPos : Z) : W Z :=
  let* bufPos := put tag0 buffer bufPos in
  let* bufPos := put tag1 buffer bufPos in
  BerEncoder_encodeLength (u32 size) buffer bufPos.

(** ** Files: the sizes count one octet for each length that is not computed. *)

Definition write_file_open (invokeId invokeIdSize : Z) (fileName : list Z) (initialPosition positionSize : Z)
    (buffer bufPos : Z) : W Z :=
  let fileNameSeqSize := tl_size (zlen fileName) in
  let fileOpenRequestSize := fileNameSeqSize + 2 + positionSize + 2 in
  let* bufPos := write_request_head (1 + 2 + 2 + invokeIdSize + fileOpenRequestSize) invokeId invokeIdSize buffer bufPos in
  let* bufPos := write_extended_tag 0xbf 0x48 fileOpenRequestSize buffer bufPos in
  let* bufPos := BerEncoder_encodeTL 0xa0 (u32 fileNameSeqSize) buffer bufPos in
  let* bufPos := BerEncoder_encodeOctetString 0x19 (chars fileName) (zlen fileName) buffer bufPos in
  BerEncoder_encodeUInt32WithTL 0x81 initialPosition buffer bufPos.

Definition mmsClient_createFileOpenRequest (fileName : list Z) (initialPosition : Z) (invokeId : Z) (request : ByteBuffer)
  : res ByteBuffer :=
  let! invokeIdSize := BerEncoder_UInt32determineEncodedSize invokeId in
  let! positionSize := BerEncoder_UInt32determineEncodedSize initialPosition in
  encode_request (write_file_open invokeId invokeIdSize fileName initialPosition positionSize) request.

Definition write_file_delete (invokeId invokeIdSize : Z) (fileName : list Z) (buffer bufPos : Z) : W Z :=
  let fileDeleteRequestSize := tl_size (zlen fileName) in
  let* bufPos := write_request_head (1 + 2 + 2 + invokeIdSize + fileDeleteRequestSize) invokeId invokeIdSize buffer bufPos in
  let* bufPos := write_extended_tag 0xbf 0x4c fileDeleteRequestSize buffer bufPos in
  BerEncoder_encodeOctetString 0x19 (chars fileName) (zlen fileName) buffer bufPos.

Definition mmsClient_createFileDeleteRequest (fileName : list Z) (invokeId : Z) (request : ByteBuffer) : res ByteBuffer :=
  let! invokeIdSize := BerEncoder_UInt32determineEncodedSize invokeId in
  encode_request (write_file_delete invokeId invokeIdSize fileName) request.

(** Reading and closing a file: the request is the number of the file. *)
Definition write_frsm_request (tag invokeId invokeIdSize frsmId frsmIdSize : Z) (buffer bufPos : Z) : W Z :=
  let* bufPos := write_request_head (1 + 2 + 2 + invokeIdSize + frsmIdSize) invokeId invokeIdSize buffer bufPos in
  let* bufPos := write_extended_tag 0x9f tag frsmIdSize buffer bufPos in
  BerEncoder_encodeUInt32 frsmId buffer bufPos.

Definition create_frsm_request (tag frsmId invokeId : Z) (request : ByteBuffer) : res ByteBuffer :=
  let! invokeIdSize := BerEncoder_UInt32determineEncodedSize invokeId in
  let! frsmIdSize := BerEncoder_UInt32determineEncodedSize (u32 frsmId) in
  encode_request (write_frsm_request tag invokeId invokeIdSize (u32 frsmId) frsmIdSize) request.

Definition mmsClient_createFileReadRequest : Z -> Z -> ByteBuffer -> res ByteBuffer := create_frsm_request 0x49.
Definition mmsClient_createFileCloseRequest : Z -> Z -> ByteBuffer -> res ByteBuffer := create_frsm_request 0x4a.

(** A file name that may be missing. *)
Definition optional_specification_size (name : option (list Z)) : Z :=
  match name with Some n => file_specification_size n | None => 0 end.
Definition encode_optional_specification (tag : Z) (name : option (list Z)) (buffer bufPos : Z) : W Z :=
  match name with Some n => encodeFileSpecification tag n buffer bufPos | None => wret bufPos end.

Definition write_two_files (tag invokeId invokeIdSize : Z) (first second : option (list Z)) (buffer bufPos : Z) : W Z :=
  let parameterSize := optional_specification_size first + optional_specification_size second in
  let* bufPos := write_request_head (1 + 2 + 2 + invokeIdSize + parameterSize) invokeId invokeIdSize buffer bufPos in
  let* bufPos := write_extended_tag 0xbf tag parameterSize buffer bufPos in
  let* bufPos := encode_optional_specification 0xa0 first buffer bufPos in
  encode_optional_specification 0xa1 second buffer bufPos.

Definition mmsClient_createFileDirectoryRequest (fileSpecification continueAfter : option (list Z)) (invokeId : Z)
    (request : ByteBuffer) : res ByteBuffer :=
  let! invokeIdSize := BerEncoder_UInt32determineEncodedSize invokeId in
  encode_request (write_two_files 0x4d invokeId invokeIdSize fileSpecification continueAfter) request.

Definition mmsClient_createFileRenameRequest (currentFileName newFileName : list Z) (invokeId : Z) (request : ByteBuffer)
  : res ByteBuffer :=
  let! invokeIdSize := BerEncoder_UInt32determineEncodedSize invokeId in
  encode_request (write_two_files 0x4b invokeId invokeIdSize (Some currentFileName) (Some newFileName)) request.

(** ** Identity and status *)

Definition mmsClient_createIdentifyRequest (invokeId : Z) (request : ByteBuffer) : res ByteBuffer :=
  let! invokeIdSize := BerEncoder_UInt32determineEncodedSize invokeId in
  encode_request (fun buffer bufPos =>
    let* bufPos := write_request_head (2 + 2 + invokeIdSize) invokeId invokeIdSize buffer bufPos in
    BerEncoder_encodeTL 0x82 0 buffer bufPos) request.

Definition mmsClient_createStatusRequest (extendedDerivation : bool) (invokeId : Z) (request : ByteBuffer) : res ByteBuffer :=
  let! invokeIdSize := BerEncoder_UInt32determineEncodedSize invokeId in
  encode_request (fun buffer bufPos =>
    let* bufPos := write_request_head (2 + 2 + 1 + invokeIdSize) invokeId invokeIdSize buffer bufPos in
    BerEncoder_encodeBoolean 0x80 extendedDerivation buffer bufPos) request.

Definition mmsClient_createConcludeRequest (message : ByteBuffer) : res (Z * ByteBuffer) :=
  if 1 <? bb_maxSize message then
    let! message := encode_request (fun buffer bufPos =>
      let* bufPos := put 0x8b buffer bufPos in put 0 buffer bufPos) message in
    Done (2, message)
  else Done (-1, message).

(** ** Requests through the ASN.1 code *)

Section Codec.
Context (codec : AsnCodec).

(** The pieces of the encoder until one does not fit; the result is not looked at. *)
Definition encode_pdu (pdu : MmsPdu) (request : ByteBuffer) : res ByteBuffer :=
  let! (_, request) := append_encoded codec pdu request in Done request.

Definition mmsClient_createConfirmedRequestPdu (invokeId : Z) (service : ConfirmedServiceRequest) : MmsPdu :=
  ConfirmedRequestPdu (asn_long2INTEGER invokeId) service.

(** A name of a domain, or of the VMD. *)
Definition object_name (domainId : option (list Z)) (itemId : list Z) : ObjectName :=
  match domainId with
  | Some domainId => ObjectName_domainspecific domainId itemId
  | None => ObjectName_vmdspecific itemId
  end.

Definition variable (name : ObjectName) (alternateAccess : option AlternateAccess) : ListOfVariableSeq :=
  mkVariableSeq (VariableSpecification_name name) alternateAccess.

Definition createVariableIdentifier (domainId itemId : list Z) : ListOfVariableSeq :=
  variable (ObjectName_domainspecific domainId itemId) None.

Definition read_request (specWithResult : bool) (spec : VariableAccessSpecification) (invokeId : Z) : MmsPdu :=
  mmsClient_createConfirmedRequestPdu invokeId
    (Request_read (mkReadRequest (if specWithResult then Some true else None) spec)).

Definition mmsClient_createReadNamedVariableListRequest (domainId itemId : list Z) (specWithResult : bool) (invokeId : Z)
  : ByteBuffer -> res ByteBuffer :=
  encode_pdu (read_request specWithResult
    (VariableAccessSpecification_variableListName (ObjectName_domainspecific domainId itemId)) invokeId).

Definition mmsClient_createReadAssociationSpecificNamedVariableListRequest (itemId : list Z) (specWithResult : bool)
    (invokeId : Z) : ByteBuffer -> res ByteBuffer :=
  encode_pdu (read_request specWithResult
    (VariableAccessSpecification_variableListName (ObjectName_aaspecific itemId)) invokeId).

Definition mmsClient_createReadRequest (domainId : option (list Z)) (itemId : list Z) (invokeId : Z)
  : ByteBuffer -> res ByteBuffer :=
  encode_pdu (read_request false
    (VariableAccessSpecification_listOfVariable [variable (object_name domainId itemId) None]) invokeId).

(** The index, or a range of indices where a number of elements is given. *)
Definition createAlternateAccess (index elementCount : Z) : AlternateAccess :=
  [Member_unnamed (mkSelection
    (if 0 <? elementCount then Select_indexRange (asn_long2INTEGER index) (asn_long2INTEGER elementCount)
     else Select_index (asn_long2INTEGER index)) None)].

Definition mmsClient_createReadRequestAlternateAccessIndex (domainId itemId : list Z) (index elementCount : Z)
    (invokeId : Z) : ByteBuffer -> res ByteBuffer :=
  encode_pdu (read_request false
    (VariableAccessSpecification_listOfVariable
       [variable (ObjectName_domainspecific domainId itemId) (Some (createAlternateAccess index elementCount))]) invokeId).

Definition mmsClient_createReadRequestMultipleValues (domainId : list Z) (items : list (list Z)) (invokeId : Z)
  : ByteBuffer -> res ByteBuffer :=
  encode_pdu (read_request false
    (VariableAccessSpecification_listOfVariable (map (createVariableIdentifier domainId) items)) invokeId).

(** ** Writing *)

Definition createNewDomainVariableSpecification (domainId : option (list Z)) (itemId : list Z) : ListOfVariableSeq :=
  variable (object_name domainId itemId) None.

Definition write_request (invokeId : Z) (variables : list ListOfVariableSeq) (data : list Data) : MmsPdu :=
  mmsClient_createConfirmedRequestPdu invokeId
    (Request_write (mkWriteRequest (VariableAccessSpecification_listOfVariable variables) data)).

Definition mmsClient_createWriteRequest (domainId : option (list Z)) (itemId : list Z) (value : MmsValue) (invokeId : Z)
    (writeBuffer : ByteBuffer) : res ByteBuffer :=
  let! data := mmsMsg_createBasicDataElement value in
  encode_pdu (write_request invokeId [createNewDomainVariableSpecification domainId itemId] [data]) writeBuffer.

(** The items with their values; [None] if there are fewer values. *)
Fixpoint items_with_values (itemIds : list (list Z)) (values : list MmsValue) : res (option (list (list Z * Data))) :=
  match itemIds, values with
  | [], _ => Done (Some [])
  | _ :: _, [] => Done None
  | itemId :: itemIds, value :: values =>
      let! data := mmsMsg_createBasicDataElement value in
      let! rest := items_with_values itemIds values in
      Done (match rest with Some rest => Some ((itemId, data) :: rest) | None => None end)
  end.

(** With too few values the buffer stays empty, and is sent. *)
Definition mmsClient_createWriteMultipleItemsRequest (domainId : option (list Z)) (itemIds : list (list Z))
    (values : list MmsValue) (invokeId : Z) (writeBuffer : ByteBuffer) : res ByteBuffer :=
  let! items := items_with_values itemIds values in
  match items with
  | None => Done writeBuffer
  | Some items =>
      encode_pdu (write_request invokeId (map (fun i => createNewDomainVariableSpecification domainId i.1) items)
        (map snd items)) writeBuffer
  end.

(** ** Names and attributes *)

Definition ObjectClass_namedVariable : Z := 0.
Definition ObjectClass_namedVariableList : Z := 2.
Definition ObjectClass_domain : Z := 9.

Inductive MmsObjectClass := MMS_NAMED_VARIABLE | MMS_NAMED_VARIABLE_LIST | MMS_DOMAIN_NAMES.

Definition name_list_request (objectClass : list Z) (objectScope : ObjectScope) (continueAfter : option (list Z))
    (invokeId : Z) : MmsPdu :=
  mmsClient_createConfirmedRequestPdu invokeId
    (Request_getNameList (mkGetNameListRequest objectClass objectScope continueAfter)).

Definition mmsClient_createMmsGetNameListRequestVMDspecific (continueAfter : option (list Z)) (invokeId : Z)
  : ByteBuffer -> res ByteBuffer :=
  encode_pdu (name_list_request (asn_long2INTEGER ObjectClass_domain) Scope_vmdSpecific continueAfter invokeId).

Definition mmsClient_createMmsGetNameListRequestAssociationSpecific (continueAfter : option (list Z)) (invokeId : Z)
  : ByteBuffer -> res ByteBuffer :=
  encode_pdu (name_list_request (asn_long2INTEGER ObjectClass_namedVariableList) Scope_aaSpecific continueAfter invokeId).

(** The class is set for variables and lists of them only. *)
Definition basic_class (objectClass : MmsObjectClass) : list Z :=
  match objectClass with
  | MMS_NAMED_VARIABLE => asn_long2INTEGER ObjectClass_namedVariable
  | MMS_NAMED_VARIABLE_LIST => asn_long2INTEGER ObjectClass_namedVariableList
  | MMS_DOMAIN_NAMES => []
  end.

Definition mmsClient_createGetNameListRequestDomainOrVMDSpecific (domainName : option (list Z)) (objectClass : MmsObjectClass)
    (continueAfter : option (list Z)) (invokeId : Z) : ByteBuffer -> res ByteBuffer :=
  encode_pdu (name_list_request (basic_class objectClass)
    match domainName with Some domainName => Scope_domainSpecific domainName | None => Scope_vmdSpecific end
    continueAfter invokeId).

Definition mmsClient_createGetVariableAccessAttributesRequest (domainId itemId : list Z) (invokeId : Z)
  : ByteBuffer -> res ByteBuffer :=
  encode_pdu (mmsClient_createConfirmedRequestPdu invokeId
    (Request_getVariableAccessAttributes (Attributes_name (ObjectName_domainspecific domainId itemId)))).

(** ** Lists of variables *)

Definition delete_request (name : ObjectName) (invokeId : Z) : MmsPdu :=
  mmsClient_createConfirmedRequestPdu invokeId
    (Request_deleteNamedVariableList (mkDeleteRequest (Some (asn_long2INTEGER scopeOfDelete_specific)) (Some [name]))).

Definition mmsClient_createDeleteNamedVariableListRequest (domainId listNameId : list Z) (invokeId : Z)
  : ByteBuffer -> res ByteBuffer := encode_pdu (delete_request (ObjectName_domainspecific domainId listNameId) invokeId).

Definition mmsClient_createDeleteAssociationSpecificNamedVariableListRequest (listNameId : list Z) (invokeId : Z)
  : ByteBuffer -> res ByteBuffer := encode_pdu (delete_request (ObjectName_aaspecific listNameId) invokeId).

Definition attributes_request (name : ObjectName) (invokeId : Z) : MmsPdu :=
  mmsClient_createConfirmedRequestPdu invokeId (Request_getNamedVariableListAttributes name).

Definition mmsClient_createGetNamedVariableListAttributesRequest (domainId listNameId : list Z) (invokeId : Z)
  : ByteBuffer -> res ByteBuffer := encode_pdu (attributes_request (ObjectName_domainspecific domainId listNameId) invokeId).

Definition mmsClient_createGetNamedVariableListAttributesRequestAssociationSpecific (listNameId : list Z) (invokeId : Z)
  : ByteBuffer -> res ByteBuffer := encode_pdu (attributes_request (ObjectName_aaspecific listNameId) invokeId).

Definition MmsVariableAccessSpecification_create (domainId itemId : option (list Z)) : MmsVariableAccessSpecification :=
  mkAccess domainId itemId (-1) None.
Definition MmsVariableAccessSpecification_createAlternateAccess (domainId itemId : option (list Z)) (index : Z)
    (componentName : option (list Z)) : MmsVariableAccessSpecification :=
  mkAccess domainId itemId index componentName.

(** The index 0 makes the variable one of the VMD; index and component are not sent. *)
Definition defined_variable (variableSpec : MmsVariableAccessSpecification) : res ListOfVariableSeq :=
  let! itemId := defined (va_itemId variableSpec) in
  if va_arrayIndex variableSpec =? 0 then Done (variable (ObjectName_vmdspecific itemId) None)
  else
    let! domainId := defined (va_domainId variableSpec) in
    Done (variable (ObjectName_domainspecific domainId itemId) None).

Definition mmsClient_createDefineNamedVariableListRequest (domainId : option (list Z)) (listNameId : list Z)
    (listOfVariables : list MmsVariableAccessSpecification) (associationSpecific : bool) (invokeId : Z)
    (writeBuffer : ByteBuffer) : res ByteBuffer :=
  let! variableListName :=
    if associationSpecific then Done (ObjectName_aaspecific listNameId)
    else let! domainId := defined domainId in Done (ObjectName_domainspecific domainId listNameId) in
  let! listOfVariable := each_res defined_variable listOfVariables in
  encode_pdu (mmsClient_createConfirmedRequestPdu invokeId
    (Request_defineNamedVariableList (mkDefineRequest variableListName listOfVariable))) writeBuffer.

(** ** Initiate *)

Definition client_servicesSupported : list Z := [0x6e; 0x1c; 0x00; 0x00; 0x00; 0x00; 0x00; 0x00; 0x00; 0x01; 0x98].

Definition createInitiateRequestPdu (maxPduSize : Z) : InitiateRequest := {|
  localDetailCalling := Some maxPduSize;
  proposedMaxServOutstandingCalling := DEFAULT_MAX_SERV_OUTSTANDING_CALLING;
  proposedMaxServOutstandingCalled := DEFAULT_MAX_SERV_OUTSTANDING_CALLED;
  proposedDataStructureNestingLevel := Some DEFAULT_DATA_STRUCTURE_NESTING_LEVEL;
  proposedVersionNumber := 1;
  proposedParameterCBB := ([0xe9; 0x00], 5);
  servicesSupportedCalling := (client_servicesSupported, 3) |}.

Definition mmsClient_createInitiateRequest (maxPduSize : Z) : ByteBuffer -> res ByteBuffer :=
  encode_pdu (InitiateRequestPdu (createInitiateRequestPdu maxPduSize)).
End Codec.

(** * Answers

    [None] and [false] are what the functions return for a message that they do not
    understand. *)

(** The content behind a tag: its position and its end, which must be in the message. *)
Definition response_range (buffer : ptr) (bufPos maxBufPos : Z) : res (option (Z * Z)) :=
  let! (bufPos, length) := BerDecoder_decodeLength buffer None bufPos maxBufPos in
  if bufPos <? 0 then Done None
  else
    let! length := defined length in
    let endPos := i32 (bufPos + length) in
    if maxBufPos <? endPos then Done None else Done (Some (bufPos, endPos)).

Definition tagged_response (tag : Z) (buffer : ptr) (bufPos maxBufPos : Z) : res (option (Z * Z)) :=
  let! t := rd buffer bufPos in
  if negb (t =? tag) then Done None else response_range buffer (bufPos + 1) maxBufPos.

Definition extended_response (tag : Z) (buffer : ptr) (bufPos maxBufPos : Z) : res (option (Z * Z)) :=
  let! t := rd buffer bufPos in
  if negb (t =? 0xbf) then Done None else tagged_response tag buffer (bufPos + 1) maxBufPos.

(** An element in a loop: its tag, the position of its content and its length.  Where the
    length can not be read, the loops go on with the position -1 and the length of
    before. *)
Definition next_element (buffer : ptr) (bufPos maxBufPos : Z) (length : option Z) : res (Z * Z * option Z) :=
  let! tag := rd buffer bufPos in
  let! (bufPos, length) := BerDecoder_decodeLength buffer length (bufPos + 1) maxBufPos in
  Done (tag, bufPos, length).

Definition behind_element (bufPos : Z) (length : option Z) : res Z := let! length := defined length in Done (i32 (bufPos + length)).

(** ** File attributes *)

(** What is stored through the pointers of the caller; [None]: nothing. *)
Record FileAttributes := mkFileAttributes { fa_size : option Z; fa_lastModified : option Z }.

Section Attributes.
Context (lib : TimeLib) (buffer : ptr) (maxBufPos : Z).

(** The time is copied to 40 characters. *)
Definition parse_lastModified (bufPos length : Z) : res Z :=
  let! bs := rd_list buffer bufPos length in
  if 39 <? length then Ub else Conversions_generalizedTimeToMsTime lib (c_chars bs).

Definition parseFileAttributes_body (s : Z * FileAttributes) : res (ctl (Z * FileAttributes) FileAttributes) :=
  let '(bufPos, a) := s in
  let! (tag, bufPos, length) := next_element buffer bufPos maxBufPos None in
  if bufPos <? 0 then Done (Ret a)
  else
    let! length := defined length in
    if tag =? 0x80 then
      let! fileSize := BerDecoder_decodeUint32 buffer length bufPos in
      Done (Next (i32 (bufPos + length), mkFileAttributes (Some fileSize) (fa_lastModified a)))
    else if tag =? 0x81 then
      let! lastModified := parse_lastModified bufPos length in
      Done (Next (i32 (bufPos + length), mkFileAttributes (fa_size a) (Some lastModified)))
    else Done (Ret a).

(** Whether the attributes were understood, and what was stored. *)
Definition parseFileAttributes (fuel : nat) (bufPos : Z) (a : FileAttributes) : res (bool * FileAttributes) :=
  let! r := while (fun s => fst s <? maxBufPos) parseFileAttributes_body fuel (bufPos, a) in
  Done match r with Next (_, a) => (true, a) | Ret a => (false, a) end.
End Attributes.

(** ** Directories *)

Record FileEntry := mkFileEntry { fe_name : list Z; fe_size : Z; fe_lastModified : Z }.

Section Directory.
Context (lib : TimeLib) (fuel : nat) (buffer : ptr).

(** The name is copied to 400 characters. *)
Definition entry_name (bufPos maxBufPos : Z) (length : option Z) : res (list Z * Z) :=
  let! (_, bufPos, length) := next_element buffer bufPos maxBufPos length in
  let! length := defined length in
  let! bs := rd_list buffer bufPos length in
  if 399 <? length then Ub else Done (c_chars bs, i32 (bufPos + length)).

Definition parseDirectoryEntry_body (maxBufPos : Z) (s : Z * option (list Z) * FileAttributes)
  : res (ctl (Z * option (list Z) * FileAttributes) unit) :=
  let '(bufPos, filename, a) := s in
  let! (tag, bufPos, length) := next_element buffer bufPos maxBufPos None in
  if tag =? 0xa0 then
    let! (filename, bufPos) := entry_name bufPos maxBufPos length in
    Done (Next (bufPos, Some filename, a))
  else if tag =? 0xa1 then
    let! endPos := behind_element bufPos length in
    let! (ok, a) := parseFileAttributes lib buffer endPos fuel bufPos a in
    Done (if ok then Next (endPos, filename, a) else Ret tt)
  else Done (Ret tt).

(** The entry that the handler of the application is called with. *)
Definition parseDirectoryEntry (bufPos maxBufPos : Z) : res (option FileEntry) :=
  let! r := while (fun s => fst (fst s) <? maxBufPos) (parseDirectoryEntry_body maxBufPos) fuel
              (bufPos, None, mkFileAttributes (Some 0) (Some 0)) in
  Done match r with
  | Next (_, Some filename, a) => Some (mkFileEntry filename (default 0 (fa_size a)) (default 0 (fa_lastModified a)))
  | _ => None
  end.

Definition parseListOfDirectoryEntries_body (endPos maxBufPos : Z) (s : Z * option Z * list FileEntry)
  : res (ctl (Z * option Z * list FileEntry) (list FileEntry)) :=
  let '(bufPos, length, entries) := s in
  let! (tag, bufPos, length) := next_element buffer bufPos maxBufPos length in
  if tag =? 0x30 then
    let! next := behind_element bufPos length in
    let! entry := parseDirectoryEntry bufPos next in
    Done (Next (next, length, entries ++ option_list entry))
  else Done (Ret entries).

(** The calls of the handler. *)
Definition parseListOfDirectoryEntries (bufPos maxBufPos : Z) : res (list FileEntry) :=
  let! range := tagged_response 0x30 buffer bufPos maxBufPos in
  match range with
  | None => Done []
  | Some (bufPos, endPos) =>
      let! r := while (fun s => fst (fst s) <? endPos) (parseListOfDirectoryEntries_body endPos maxBufPos) fuel
                  (bufPos, Some (endPos - bufPos), []) in
      Done match r with Next (_, _, entries) => entries | Ret entries => entries end
  end.

Definition directory_answer_body (maxBufPos : Z) (s : Z * option Z * list FileEntry * bool)
  : res (ctl (Z * option Z * list FileEntry * bool) unit) :=
  let '(bufPos, length, entries, moreFollows) := s in
  let! (tag, bufPos, length) := next_element buffer bufPos maxBufPos length in
  let! next := behind_element bufPos length in
  if tag =? 0xa0 then
    let! listed := parseListOfDirectoryEntries bufPos next in
    Done (Next (next, length, entries ++ listed, moreFollows))
  else if tag =? 0x81 then
    let! moreFollows := BerDecoder_decodeBoolean buffer bufPos in
    Done (Next (next, length, entries, moreFollows))
  else Done (Next (next, length, entries, moreFollows)).

(** The calls of the handler, and whether more files follow. *)
Definition mmsClient_parseFileDirectoryResponse (bufPos maxBufPos : Z) : res (option (list FileEntry * bool)) :=
  let! range := extended_response 0x4d buffer bufPos maxBufPos in
  match range with
  | None => Done None
  | Some (bufPos, endPos) =>
      let! r := while (fun s => fst (fst (fst s)) <? endPos) (directory_answer_body maxBufPos) fuel
                  (bufPos, Some (endPos - bufPos), [], false) in
      Done match r with Next (_, _, entries, moreFollows) => Some (entries, moreFollows) | Ret _ => None end
  end.
End Directory.

(** ** Open files *)

(** What is stored through the pointers of the caller, whether or not the answer is
    understood. *)
Record FileOpened := mkFileOpened { fo_frsmId : option Z; fo_attributes : FileAttributes }.

Section Files.
Context (lib : TimeLib) (fuel : nat) (buffer : ptr).

Definition parseFileOpenResponse_body (maxBufPos : Z) (s : Z * option Z * FileOpened)
  : res (ctl (Z * option Z * FileOpened) FileOpened) :=
  let '(bufPos, length, opened) := s in
  let! (tag, bufPos, length) := next_element buffer bufPos maxBufPos length in
  let! next := behind_element bufPos length in
  if tag =? 0x80 then
    let! length' := defined length in
    let! frsmId := BerDecoder_decodeUint32 buffer length' bufPos in
    Done (Next (next, length, mkFileOpened (Some (i32 frsmId)) (fo_attributes opened)))
  else if tag =? 0xa1 then
    let! (ok, attributes) := parseFileAttributes lib buffer next fuel bufPos (fo_attributes opened) in
    let opened := mkFileOpened (fo_frsmId opened) attributes in
    Done (if ok then Next (next, length, opened) else Ret opened)
  else Done (Next (next, length, opened)).

Definition mmsClient_parseFileOpenResponse (bufPos maxBufPos : Z) : res (bool * FileOpened) :=
  let nothing := mkFileOpened None (mkFileAttributes None None) in
  let! range := extended_response 0x48 buffer bufPos maxBufPos in
  match range with
  | None => Done (false, nothing)
  | Some (bufPos, endPos) =>
      let! r := while (fun s => fst (fst s) <? endPos) (parseFileOpenResponse_body maxBufPos) fuel
                  (bufPos, Some (endPos - bufPos), nothing) in
      Done match r with Next (_, _, opened) => (true, opened) | Ret opened => (false, opened) end
  end.

(** The calls of the handler, and whether more data follows. *)
Definition FileChunks : Type := list (list Z) * bool.

Definition parseFileReadResponse_body (maxBufPos : Z) (s : Z * option Z * FileChunks)
  : res (ctl (Z * option Z * FileChunks) FileChunks) :=
  let '(bufPos, length, (chunks, moreFollows)) := s in
  let! (tag, bufPos, length) := next_element buffer bufPos maxBufPos length in
  let! next := behind_element bufPos length in
  if tag =? 0x80 then
    let! length' := defined length in
    let! chunk := rd_list buffer bufPos length' in
    Done (Next (next, length, (chunks ++ [chunk], moreFollows)))
  else if tag =? 0x81 then
    let! moreFollows := BerDecoder_decodeBoolean buffer bufPos in
    Done (Next (next, length, (chunks, moreFollows)))
  else Done (Ret (chunks, moreFollows)).

(** [*moreFollows] is false before the call, and stays so if the first octet is wrong. *)
Definition mmsClient_parseFileReadResponse (bufPos maxBufPos : Z) : res (bool * FileChunks) :=
  let! tag := rd buffer bufPos in
  if negb (tag =? 0xbf) then Done (false, ([], false))
  else
    let! range := tagged_response 0x49 buffer (bufPos + 1) maxBufPos in
    match range with
    | None => Done (false, ([], true))
    | Some (bufPos, endPos) =>
        let! r := while (fun s => fst (fst s) <? endPos) (parseFileReadResponse_body maxBufPos) fuel
                    (bufPos, Some (endPos - bufPos), ([], true)) in
        Done match r with Next (_, _, chunks) => (true, chunks) | Ret chunks => (false, chunks) end
    end.

(** ** Identity and status *)

Record MmsServerIdentity := mkIdentity {
  id_vendorName : option (list Z);
  id_modelName : option (list Z);
  id_revision : option (list Z) }.

Definition identity_string (bufPos : Z) (length : option Z) : res (list Z) :=
  let! length := defined length in
  let! bs := rd_list buffer bufPos length in Done (c_chars bs).

(** An element with another tag is not skipped: its content is read as elements. *)
Definition parseIdentifyResponse_body (maxBufPos : Z) (s : Z * option Z * MmsServerIdentity)
  : res (ctl (Z * option Z * MmsServerIdentity) unit) :=
  let '(bufPos, length, i) := s in
  let! (tag, bufPos, length) := next_element buffer bufPos maxBufPos length in
  let content f := let! t := identity_string bufPos length in
                   let! next := behind_element bufPos length in
                   Done (Next (next, length, f t)) in
  if tag =? 0x80 then content (fun t => mkIdentity (Some t) (id_modelName i) (id_revision i))
  else if tag =? 0x81 then content (fun t => mkIdentity (id_vendorName i) (Some t) (id_revision i))
  else if tag =? 0x82 then content (fun t => mkIdentity (id_vendorName i) (id_modelName i) (Some t))
  else if tag =? 0x83 then let! next := behind_element bufPos length in Done (Next (next, length, i))
  else Done (Next (bufPos, length, i)).

Definition mmsClient_parseIdentifyResponse (bufPos maxBufPos : Z) : res (option MmsServerIdentity) :=
  let! range := tagged_response 0xa2 buffer bufPos maxBufPos in
  match range with
  | None => Done None
  | Some (bufPos, endPos) =>
      let! r := while (fun s => fst (fst s) <? endPos) (parseIdentifyResponse_body maxBufPos) fuel
                  (bufPos, Some (endPos - bufPos), mkIdentity None None None) in
      Done match r with Next (_, _, i) => Some i | Ret _ => None end
  end.

(** The logical and the physical status, as far as they were stored. *)
Definition ServerStatus : Type := option Z * option Z.

Definition parseStatusResponse_body (maxBufPos : Z) (s : Z * option Z * ServerStatus)
  : res (ctl (Z * option Z * ServerStatus) ServerStatus) :=
  let '(bufPos, length, (logical, physical)) := s in
  let! (tag, bufPos, length) := next_element buffer bufPos maxBufPos length in
  let number := let! length := defined length in
                let! n := BerDecoder_decodeUint32 buffer length bufPos in Done (i32 n) in
  let! next := behind_element bufPos length in
  if tag =? 0x80 then let! n := number in Done (Next (next, length, (Some n, physical)))
  else if tag =? 0x81 then let! n := number in Done (Next (next, length, (logical, Some n)))
  else if tag =? 0x82 then Done (Next (next, length, (logical, physical)))
  else Done (Ret (logical, physical)).

(** Both must be there. *)
Definition mmsClient_parseStatusResponse (bufPos maxBufPos : Z) : res (bool * ServerStatus) :=
  let! range := tagged_response 0xa0 buffer bufPos maxBufPos in
  match range with
  | None => Done (false, (None, None))
  | Some (bufPos, endPos) =>
      let! r := while (fun s => fst (fst s) <? endPos) (parseStatusResponse_body maxBufPos) fuel
                  (bufPos, Some (endPos - bufPos), (None, None)) in
      Done match r with
      | Next (_, _, (Some logical, Some physical)) => (true, (Some logical, Some physical))
      | Next (_, _, status) | Ret status => (false, status)
      end
  end.
End Files.

(** ** Access results *)

Definition DATA_ACCESS_ERROR_UNKNOWN : Z := 12.

Definition access_failure (failure : list Z) : MmsValue :=
  MmsValue_newDataAccessError
    match failure with
    | errorCode :: _ => if errorCode <? 12 then errorCode else DATA_ACCESS_ERROR_UNKNOWN
    | [] => DATA_ACCESS_ERROR_UNKNOWN
    end.

(** The value of an element; a binary time of more than 6 octets leaves the variable
    [value] as it is, with the element of before or the null pointer. *)
Definition access_result_value (value : option MmsValue) (result : AccessResult) : res (option MmsValue) :=
  match result with
  | AccessResult_failure failure => Done (Some (access_failure failure))
  | AccessResult_data (Data_NOTHING | Data_generalizedtime _ | Data_bcd _ | Data_booleanArray _ _) =>
      Done (Some (MmsValue_newDataAccessError DATA_ACCESS_ERROR_OBJECT_VALUE_INVALID))
  | AccessResult_data (Data_binarytime octets) =>
      if zlen octets <=? 6 then mmsMsg_parseDataElement (Data_binarytime octets) else Done value
  | AccessResult_data data => mmsMsg_parseDataElement data
  end.

Fixpoint access_result_values (value : option MmsValue) (results : list AccessResult) : res (list (option MmsValue)) :=
  match results with
  | [] => Done []
  | result :: results =>
      let! value := access_result_value value result in
      let! values := access_result_values value results in
      Done (value :: values)
  end.

(** An array, unless there is at most one element and [createArray] is false. *)
Definition mmsClient_parseListOfAccessResults (results : list AccessResult) (createArray : bool) : res (option MmsValue) :=
  let! values := access_result_values None results in
  Done (if (1 <? zlen results) || createArray then Some (Complex 0 true values) else mjoin (last values)).

Definition mmsClient_parseReadResponse (codec : AsnCodec) (buffer : ptr) (size : Z) (createArray : bool)
  : res (option MmsValue) :=
  match ber_decode_MmsPdu codec buffer size with
  | Some (ConfirmedResponsePdu _ (Response_read results)) => mmsClient_parseListOfAccessResults results createArray
  | _ => Done None
  end.

(** ** Answers to writes *)

Definition mapDataAccessErrorToMmsError (dataAccessError : Z) : MmsError :=
  default MMS_ERROR_OTHER
    ([MMS_ERROR_ACCESS_OBJECT_INVALIDATED; MMS_ERROR_HARDWARE_FAULT; MMS_ERROR_ACCESS_TEMPORARILY_UNAVAILABLE;
      MMS_ERROR_ACCESS_OBJECT_ACCESS_DENIED; MMS_ERROR_DEFINITION_OBJECT_UNDEFINED;
      MMS_ERROR_DEFINITION_INVALID_ADDRESS; MMS_ERROR_DEFINITION_TYPE_UNSUPPORTED;
      MMS_ERROR_DEFINITION_TYPE_INCONSISTENT; MMS_ERROR_DEFINITION_OBJECT_ATTRIBUTE_INCONSISTENT;
      MMS_ERROR_ACCESS_OBJECT_ACCESS_UNSUPPORTED; MMS_ERROR_ACCESS_OBJECT_NON_EXISTENT;
      MMS_ERROR_ACCESS_OBJECT_VALUE_INVALID] !! Z.to_nat dataAccessError).

Section Write.
Context (fuel : nat) (buffer : ptr).

(** The error that the caller gets.  Behind the first element there may be anything. *)
Definition mmsClient_parseWriteResponse (bufPos size : Z) : res MmsError :=
  let! tag := rd buffer bufPos in
  if negb (tag =? 0xa5) then Done MMS_ERROR_PARSING_RESPONSE
  else
    let! (bufPos, length) := BerDecoder_decodeLength buffer None (bufPos + 1) size in
    if bufPos =? -1 then Done MMS_ERROR_PARSING_RESPONSE
    else
      let! tag := rd buffer bufPos in
      if tag =? 0x80 then
        let! (bufPos, length) := BerDecoder_decodeLength buffer length (bufPos + 1) size in
        let! length := defined length in
        let! code := BerDecoder_decodeUint32 buffer length bufPos in
        Done (mapDataAccessErrorToMmsError code)
      else Done MMS_ERROR_NONE.

(** The values for the items; the elements that are neither success nor failure are
    counted, but have none. *)
Definition write_result_body (endPos size : Z) (s : Z * list MmsValue * Z) : res (ctl (Z * list MmsValue * Z) unit) :=
  let '(bufPos, accessResults, numberOfAccessResults) := s in
  let! (tag, bufPos, length) := next_element buffer bufPos size None in
  if bufPos =? -1 then Done (Ret tt)
  else
    let! length := defined length in
    let! value :=
      if tag =? 0x81 then Done [MmsValue_newDataAccessError DATA_ACCESS_ERROR_SUCCESS]
      else if tag =? 0x80 then
        let! code := BerDecoder_decodeUint32 buffer length bufPos in Done [MmsValue_newDataAccessError (i32 code)]
      else Done [] in
    Done (Next (i32 (bufPos + length), accessResults ++ value, numberOfAccessResults + 1)).

(** The error, and the list of results; it is gone ([Some None] is the pointer to the
    list that was freed) where the number of the results is not that of the items. *)
Definition mmsClient_parseWriteMultipleItemsResponse (bufPos size itemCount : Z)
  : res (MmsError * option (option (list MmsValue))) :=
  let! tag := rd buffer bufPos in
  if negb (tag =? 0xa5) then Done (MMS_ERROR_PARSING_RESPONSE, None)
  else
    let! (bufPos, length) := BerDecoder_decodeLength buffer None (bufPos + 1) size in
    if bufPos =? -1 then Done (MMS_ERROR_PARSING_RESPONSE, None)
    else
      let! length := defined length in
      let endPos := i32 (bufPos + length) in
      let! r := while (fun s => fst (fst s) <? endPos) (write_result_body endPos size) fuel (bufPos, [], 0) in
      Done match r with
      | Next (_, accessResults, n) =>
          if itemCount =? n then (MMS_ERROR_NONE, Some (Some accessResults)) else (MMS_ERROR_PARSING_RESPONSE, Some None)
      | Ret _ => (MMS_ERROR_PARSING_RESPONSE, Some None)
      end.
End Write.

(** ** Answers to initiate *)

Record MmsConnectionParameters := mkParameters {
  maxServOutstandingCalling : Z;
  maxServOutstandingCalled : Z;
  dataStructureNestingLevel : Z;
  maxPduSize : Z }.

(** The negotiated values are C [long]s, the parameters are C [int]s. *)
Definition mmsClient_parseInitiateResponse (codec : AsnCodec) (buffer : ptr) (size : Z) (p : MmsConnectionParameters)
  : bool * MmsConnectionParameters :=
  match ber_decode_MmsPdu codec buffer size with
  | Some (InitiateResponsePdu r) =>
      (true, mkParameters (i32 (negotiatedMaxServOutstandingCalling r)) (i32 (negotiatedMaxServOutstandingCalled r))
               (default (dataStructureNestingLevel p) (i32 <$> negotiatedDataStructureNestingLevel r))
               (default (maxPduSize p) (i32 <$> localDetailCalled r)))
  | _ => (false, p)
  end.

(** ** Names *)

(** The list of the caller; one that was freed is still pointed to. *)
Inductive NameList := NoNames | Names (names : list (list Z)) | FreedNames.

(** An element with the tag: the position of its content and its length. *)
Definition tagged_element (tag : Z) (buffer : ptr) (bufPos maxBufPos : Z) : res (option (Z * Z)) :=
  let! t := rd buffer bufPos in
  if negb (t =? tag) then Done None
  else
    let! (bufPos, length) := BerDecoder_decodeLength buffer None (bufPos + 1) maxBufPos in
    if bufPos <? 0 then Done None else let! length := defined length in Done (Some (bufPos, length)).

Section NameLists.
Context (fuel : nat) (buffer : ptr).

Definition parseGetNameListResponse_body (maxBufPos : Z) (s : Z * list (list Z)) : res (ctl (Z * list (list Z)) unit) :=
  let '(bufPos, names) := s in
  let! e := tagged_element 0x1a buffer bufPos maxBufPos in
  match e with
  | None => Done (Ret tt)
  | Some (bufPos, length) =>
      let! variableName := rd_list buffer bufPos length in
      Done (Next (i32 (bufPos + length), names ++ [c_chars variableName]))
  end.

(** The end of the list: its position, where its names begin, or [None]. *)
Definition name_list_range (maxBufPos : Z) : res (option (Z * Z)) :=
  let! e := tagged_element 0xa1 buffer 0 maxBufPos in
  match e with
  | None => Done None
  | Some (bufPos, _) =>
      let! e := tagged_element 0x02 buffer bufPos maxBufPos in
      match e with
      | None => Done None
      | Some (bufPos, length) =>
          let! e := tagged_element 0xa1 buffer (i32 (bufPos + length)) maxBufPos in
          match e with
          | None => Done None
          | Some (bufPos, _) =>
              let! e := tagged_element 0xa0 buffer bufPos maxBufPos in
              Done match e with
              | Some (bufPos, length) => if maxBufPos <? i32 (bufPos + length) then None else Some (bufPos, i32 (bufPos + length))
              | None => None
              end
          end
      end
  end.

(** What follows the list: [None] is an error; without it more names follow. *)
Definition parse_moreFollows (bufPos maxBufPos : Z) : res (option bool) :=
  if bufPos <? maxBufPos then
    let! e := tagged_element 0x81 buffer bufPos maxBufPos in
    match e with
    | Some (bufPos, length) =>
        if negb (length =? 1) then Done None else let! b := rd buffer bufPos in Done (Some (0 <? b))
    | None => Done None
    end
  else Done (Some true).

(** With an error the list is freed, if there is one. *)
Definition free_names (nameList : NameList) : NameList := match nameList with NoNames => NoNames | _ => FreedNames end.

Definition mmsClient_parseGetNameListResponse (maxBufPos : Z) (nameList : NameList) : res (bool * NameList) :=
  let! range := name_list_range maxBufPos in
  match range with
  | None => Done (false, free_names nameList)
  | Some (bufPos, listEndPos) =>
      let! names := match nameList with NoNames => Done [] | Names names => Done names | FreedNames => Ub end in
      let! r := while (fun s => fst s <? listEndPos) (parseGetNameListResponse_body maxBufPos) fuel (bufPos, names) in
      match r with
      | Ret _ => Done (false, FreedNames)
      | Next (bufPos, names) =>
          let! moreFollows := parse_moreFollows bufPos maxBufPos in
          Done match moreFollows with Some moreFollows => (moreFollows, Names names) | None => (false, FreedNames) end
      end
  end.
End NameLists.

(** ** Types of variables *)

Definition set_spec_name (name : option (list Z)) (t : MmsVariableSpecification) : MmsVariableSpecification :=
  match t with
  | SpecSimple _ t => SpecSimple name t
  | SpecArray _ elementCount elementTypeSpec => SpecArray name elementCount elementTypeSpec
  | SpecStructure _ elements => SpecStructure name elements
  end.

(** [MMS_ARRAY] is 0, what a type that is not known leaves in the new structure. *)
Definition client_simple_type (t : TypeSpecification) : uMmsTypeSpecification :=
  match t with
  | TypeSpecification_boolean => T_BOOLEAN
  | TypeSpecification_bitstring n => T_BIT_STRING (i32 n)
  | TypeSpecification_integer n => T_INTEGER (i32 n)
  | TypeSpecification_unsigned n => T_UNSIGNED (i32 n)
  | TypeSpecification_floatingpoint formatwidth exponentwidth => T_FLOAT (u8 exponentwidth) (u8 formatwidth)
  | TypeSpecification_octetstring n => T_OCTET_STRING (i32 n)
  | TypeSpecification_visiblestring n => T_VISIBLE_STRING (i32 n)
  | TypeSpecification_mMSString n => T_STRING (i32 n)
  | TypeSpecification_utctime => T_UTC_TIME
  | TypeSpecification_binarytime b => T_BINARY_TIME (if b : bool then 6 else 4)
  | _ => T_OTHER MMS_ARRAY
  end.

(** A component without a name is a null pointer that is followed. *)
Fixpoint client_createTypeSpecification (asnTypeSpec : TypeSpecification) : res MmsVariableSpecification :=
  match asnTypeSpec with
  | TypeSpecification_structure components =>
      let! elements :=
        (fix each_component (components : list (option (list Z) * TypeSpecification)) : res (list MmsVariableSpecification) :=
          match components with
          | [] => Done []
          | (name, componentType) :: components =>
              let! name := defined name in
              let! element := client_createTypeSpecification componentType in
              let! elements := each_component components in
              Done (set_spec_name (Some (c_chars name)) element :: elements)
          end) components in
      Done (SpecStructure None elements)
  | TypeSpecification_array numberOfElements elementType =>
      let! elementCount := defined (asn_INTEGER2long (Some numberOfElements)) in
      let! elementTypeSpec := client_createTypeSpecification elementType in
      Done (SpecArray None (i32 elementCount) elementTypeSpec)
  | t => Done (SpecSimple None (client_simple_type t))
  end.

Definition mmsClient_parseGetVariableAccessAttributesResponse (codec : AsnCodec) (buffer : ptr) (size : Z)
  : res (option MmsVariableSpecification) :=
  match ber_decode_MmsPdu codec buffer size with
  | Some (ConfirmedResponsePdu _ (Response_getVariableAccessAttributes _ t)) =>
      let! t := client_createTypeSpecification t in Done (Some t)
  | _ => Done None
  end.

(** ** Lists of variables *)

(** Domain and item are read where those of a name of a domain lie: another name lies where
    the domain is, with an empty item. *)
Definition listed_variable (v : ListOfVariableSeq) : res MmsVariableAccessSpecification :=
  match vs_variableSpecification v with
  | VariableSpecification_name name =>
      let '(domainId, itemId) := match name with
        | ObjectName_domainspecific domainId itemId => (domainId, itemId)
        | ObjectName_vmdspecific name | ObjectName_aaspecific name => (name, [])
        | ObjectName_NOTHING => ([], [])
        end in
      Done (MmsVariableAccessSpecification_create (Some (mmsMsg_createStringFromAsnIdentifier domainId))
              (Some (mmsMsg_createStringFromAsnIdentifier itemId)))
  | VariableSpecification_other => Ub
  end.

(** The variables, and whether the list may be deleted. *)
Definition parseNamedVariableAttributes (response : GetNamedVariableListAttributesResponse)
  : res (list MmsVariableAccessSpecification * bool) :=
  let! attributes := each_res listed_variable (la_listOfVariable response) in
  Done (attributes, la_mmsDeletable response).

Section ListAnswers.
Context (codec : AsnCodec) (buffer : ptr) (size : Z).

Definition mmsClient_parseGetNamedVariableListAttributesResponse : res (option (list MmsVariableAccessSpecification * bool)) :=
  match ber_decode_MmsPdu codec buffer size with
  | Some (ConfirmedResponsePdu _ (Response_getNamedVariableListAttributes response)) =>
      let! r := parseNamedVariableAttributes response in Done (Some r)
  | _ => Done None
  end.

Definition mmsClient_parseDefineNamedVariableResponse : bool :=
  match ber_decode_MmsPdu codec buffer size with
  | Some (ConfirmedResponsePdu _ Response_defineNamedVariableList) => true
  | _ => false
  end.

(** A number that does not fit leaves the variable as it was, without a value. *)
Definition mmsClient_parseDeleteNamedVariableListResponse : res bool :=
  match ber_decode_MmsPdu codec buffer size with
  | Some (ConfirmedResponsePdu _ (Response_deleteNamedVariableList _ numberDeleted)) =>
      let! numberDeleted := defined (asn_INTEGER2long (Some numberDeleted)) in Done (numberDeleted =? 1)
  | _ => Done false
  end.
End ListAnswers.
