(* ===== verification/MmsClient.v ===== *)
(** The MMS client: src/mms/iso_mms/client/mms_client_connection.c over
    mms_client_internal.h.  Threads of the application call the client at the same time;
    the thread of the ISO connection (iso_client_connection.c) hands the messages of the
    server to [mmsIsoCallback].  They meet in the outstanding calls, in the last response
    and at the two semaphores of the ISO connection.  [perform] runs one step of one
    thread, up to the next place where another thread can come in between. *)
From stdpp Require Import base tactics numbers option list.
From S2P Require Import Prelude Memory Buffers BerDecode IsoConnections MmsValue Effects CString NameMapping MmsPdu MmsData MmsService Conversions MmsClientServices.

Definition CONFIG_MMS_CONNECTION_DEFAULT_TIMEOUT : Z := 2000.
Definition OUTSTANDING_CALLS : nat := 10.

(** * The connection *)

Inductive AssociationState := MMS_STATE_CLOSED | MMS_STATE_CONNECTING | MMS_STATE_CONNECTED.
Inductive ConnectionState :=
| MMS_CON_IDLE | MMS_CON_WAITING | MMS_CON_ASSOCIATION_FAILED | MMS_CON_ASSOCIATED | MMS_CON_RESPONSE_PENDING.

Definition is_closed (s : AssociationState) : bool := match s with MMS_STATE_CLOSED => true | _ => false end.

Definition CONCLUDE_STATE_CONNECTION_ACTIVE : Z := 0.
Definition CONCLUDE_STATE_REQUESTED : Z := 1.
Definition CONCLUDE_STATE_REJECTED : Z := 2.
Definition CONCLUDE_STATE_ACCEPTED : Z := 3.

(** What [lastResponseLock] protects.  [lastResponse] is a pointer to the message in the
    receive buffer of the ISO connection, not a copy of it; here it is whether the pointer
    was set. *)
Record LastResponse := mkLast {
  responseInvokeId : Z;
  lastResponse : bool;
  lastResponseBufPos : Z;
  lastResponseError : MmsError }.

(** [cl_transmitBuffer], [cl_receiveBuffer] and the semaphores are those of the ISO
    connection. *)
Record MmsConnection := mkMmsClient {
  cl_lastInvokeId : Z;
  cl_last : LastResponse;
  cl_outstandingCalls : list Z;
  cl_requestTimeout : Z;
  cl_associationState : AssociationState;
  cl_connectionState : ConnectionState;
  cl_parameters : MmsConnectionParameters;
  cl_reportHandler : bool;                     (* whether a handler is installed *)
  cl_concludeState : Z;
  cl_transmitBuffer : ByteBuffer;
  cl_transmitBufferMutex : Z;
  cl_receiveBuffer : ByteBuffer;
  cl_receiveBufferMutex : Z }.

Definition cl_set_lastInvokeId (i : Z) (c : MmsConnection) : MmsConnection :=
  mkMmsClient i (cl_last c) (cl_outstandingCalls c) (cl_requestTimeout c) (cl_associationState c) (cl_connectionState c)
    (cl_parameters c) (cl_reportHandler c) (cl_concludeState c) (cl_transmitBuffer c) (cl_transmitBufferMutex c)
    (cl_receiveBuffer c) (cl_receiveBufferMutex c).
Definition cl_set_last (l : LastResponse) (c : MmsConnection) : MmsConnection :=
  mkMmsClient (cl_lastInvokeId c) l (cl_outstandingCalls c) (cl_requestTimeout c) (cl_associationState c)
    (cl_connectionState c) (cl_parameters c) (cl_reportHandler c) (cl_concludeState c) (cl_transmitBuffer c)
    (cl_transmitBufferMutex c) (cl_receiveBuffer c) (cl_receiveBufferMutex c).
Definition cl_set_calls (calls : list Z) (c : MmsConnection) : MmsConnection :=
  mkMmsClient (cl_lastInvokeId c) (cl_last c) calls (cl_requestTimeout c) (cl_associationState c) (cl_connectionState c)
    (cl_parameters c) (cl_reportHandler c) (cl_concludeState c) (cl_transmitBuffer c) (cl_transmitBufferMutex c)
    (cl_receiveBuffer c) (cl_receiveBufferMutex c).
Definition cl_set_timeout (timeoutInMs : Z) (c : MmsConnection) : MmsConnection :=
  mkMmsClient (cl_lastInvokeId c) (cl_last c) (cl_outstandingCalls c) timeoutInMs (cl_associationState c)
    (cl_connectionState c) (cl_parameters c) (cl_reportHandler c) (cl_concludeState c) (cl_transmitBuffer c)
    (cl_transmitBufferMutex c) (cl_receiveBuffer c) (cl_receiveBufferMutex c).
Definition cl_set_states (association : AssociationState) (connection : ConnectionState) (conclude : Z)
    (c : MmsConnection) : MmsConnection :=
  mkMmsClient (cl_lastInvokeId c) (cl_last c) (cl_outstandingCalls c) (cl_requestTimeout c) association connection
    (cl_parameters c) (cl_reportHandler c) conclude (cl_transmitBuffer c) (cl_transmitBufferMutex c)
    (cl_receiveBuffer c) (cl_receiveBufferMutex c).
Definition cl_set_parameters (p : MmsConnectionParameters) (c : MmsConnection) : MmsConnection :=
  mkMmsClient (cl_lastInvokeId c) (cl_last c) (cl_outstandingCalls c) (cl_requestTimeout c) (cl_associationState c)
    (cl_connectionState c) p (cl_reportHandler c) (cl_concludeState c) (cl_transmitBuffer c) (cl_transmitBufferMutex c)
    (cl_receiveBuffer c) (cl_receiveBufferMutex c).
Definition cl_set_reportHandler (installed : bool) (c : MmsConnection) : MmsConnection :=
  mkMmsClient (cl_lastInvokeId c) (cl_last c) (cl_outstandingCalls c) (cl_requestTimeout c) (cl_associationState c)
    (cl_connectionState c) (cl_parameters c) installed (cl_concludeState c) (cl_transmitBuffer c)
    (cl_transmitBufferMutex c) (cl_receiveBuffer c) (cl_receiveBufferMutex c).
Definition cl_set_transmit (buffer : ByteBuffer) (mutex : Z) (c : MmsConnection) : MmsConnection :=
  mkMmsClient (cl_lastInvokeId c) (cl_last c) (cl_outstandingCalls c) (cl_requestTimeout c) (cl_associationState c)
    (cl_connectionState c) (cl_parameters c) (cl_reportHandler c) (cl_concludeState c) buffer mutex
    (cl_receiveBuffer c) (cl_receiveBufferMutex c).
Definition cl_set_receive (buffer : ByteBuffer) (mutex : Z) (c : MmsConnection) : MmsConnection :=
  mkMmsClient (cl_lastInvokeId c) (cl_last c) (cl_outstandingCalls c) (cl_requestTimeout c) (cl_associationState c)
    (cl_connectionState c) (cl_parameters c) (cl_reportHandler c) (cl_concludeState c) (cl_transmitBuffer c)
    (cl_transmitBufferMutex c) buffer mutex.

(** What the connection does to the world: it sends a message, it releases the ISO
    connection, and it calls the handlers of the application. *)
Inductive ClientEvent :=
| ClientSent (message : list Z)
| ClientRelease
| ClientConnectionLost
| ClientReport (variableListName : option (list Z)) (values : option MmsValue) (attributes : list (list Z)).

Abbreviation CM := (eff MmsConnection ClientEvent).

(** * The ISO connection, as far as the threads share it *)

Definition wait_transmitMutex : CM unit := fun c es =>
  let! mutex := Semaphore_wait (cl_transmitBufferMutex c) in
  Done (tt, cl_set_transmit (cl_transmitBuffer c) mutex c, es).
Definition post_transmitMutex : CM unit :=
  cmodify (fun c => cl_set_transmit (cl_transmitBuffer c) (Semaphore_post (cl_transmitBufferMutex c)) c).

(** The empty buffer, for the thread that has it. *)
Definition allocateTransmitBuffer : CM ByteBuffer :=
  do! _ := wait_transmitMutex in
  do! buffer := cget cl_transmitBuffer in
  cret (mkByteBuffer (bb_buffer buffer) ISO_CLIENT_BUFFER_SIZE 0).

Definition sendMessage : CM unit :=
  do! buffer := cget cl_transmitBuffer in
  do! message := clift (let! p := defined (bb_buffer buffer) in rd_list p 0 (bb_size buffer)) in
  do! _ := emit (ClientSent message) in
  post_transmitMutex.

Definition releaseReceiveBuffer : CM unit :=
  cmodify (fun c => cl_set_receive (cl_receiveBuffer c) (Semaphore_post (cl_receiveBufferMutex c)) c).

(** [IsoClientConnection_release] takes the transmit buffer as well. *)
Definition release_connection : CM unit :=
  do! _ := wait_transmitMutex in
  do! _ := emit ClientRelease in
  post_transmitMutex.

(** * Outstanding calls *)

Definition getNextInvokeId : CM Z :=
  do! _ := cmodify (fun c => cl_set_lastInvokeId (u32 (cl_lastInvokeId c + 1)) c) in
  cget cl_lastInvokeId.

Definition checkForOutstandingCall (invokeId : Z) : CM bool :=
  do! calls := cget cl_outstandingCalls in cret (bool_decide (invokeId ∈ calls)).

(** The first free place; a call that finds none is not entered. *)
Fixpoint replace_first (old new : Z) (calls : list Z) : list Z :=
  match calls with
  | [] => []
  | call :: calls => if call =? old then new :: calls else call :: replace_first old new calls
  end.

Definition addToOutstandingCalls (invokeId : Z) : CM bool :=
  do! calls := cget cl_outstandingCalls in
  do! _ := cmodify (cl_set_calls (replace_first 0 invokeId calls)) in
  cret (bool_decide (0 ∈ calls)).

Definition removeFromOutstandingCalls (invokeId : Z) : CM unit :=
  cmodify (fun c => cl_set_calls (replace_first invokeId 0 (cl_outstandingCalls c)) c).

(** * The last response *)

Definition set_lastResponseError (error : MmsError) (c : MmsConnection) : MmsConnection :=
  let l := cl_last c in
  cl_set_last (mkLast (responseInvokeId l) (lastResponse l) (lastResponseBufPos l) error) c.

Definition releaseResponse : CM unit :=
  do! _ := cmodify (fun c => let l := cl_last c in
             cl_set_last (mkLast 0 (lastResponse l) (lastResponseBufPos l) MMS_ERROR_NONE) c) in
  releaseReceiveBuffer.

Definition getResponseInvokeId : CM Z := cget (fun c => responseInvokeId (cl_last c)).

(** * Errors from the server *)

(** [errorClass] and [errorCode]. *)
Definition MmsServiceError : Type := Z * Z.

Definition convertServiceErrorToMmsError (serviceError : MmsServiceError) : MmsError :=
  let '(errorClass, errorCode) := serviceError in
  let coded first errors other :=
    if errorCode <? first then other else default other (errors !! Z.to_nat (errorCode - first)) in
  if errorClass =? 0 then MMS_ERROR_VMDSTATE_OTHER
  else if errorClass =? 1 then MMS_ERROR_APPLICATION_REFERENCE_OTHER
  else if errorClass =? 2 then
    coded 1 [MMS_ERROR_DEFINITION_OBJECT_UNDEFINED; MMS_ERROR_DEFINITION_INVALID_ADDRESS;
             MMS_ERROR_DEFINITION_TYPE_UNSUPPORTED; MMS_ERROR_DEFINITION_TYPE_INCONSISTENT;
             MMS_ERROR_DEFINITION_OBJECT_EXISTS; MMS_ERROR_DEFINITION_OBJECT_ATTRIBUTE_INCONSISTENT]
      MMS_ERROR_DEFINITION_OTHER
  else if errorClass =? 3 then MMS_ERROR_RESOURCE_OTHER
  else if errorClass =? 4 then MMS_ERROR_SERVICE_OTHER
  else if errorClass =? 5 then MMS_ERROR_SERVICE_PREEMPT_OTHER
  else if errorClass =? 6 then MMS_ERROR_TIME_RESOLUTION_OTHER
  else if errorClass =? 7 then
    coded 1 [MMS_ERROR_ACCESS_OBJECT_ACCESS_UNSUPPORTED; MMS_ERROR_ACCESS_OBJECT_NON_EXISTENT;
             MMS_ERROR_ACCESS_OBJECT_ACCESS_DENIED; MMS_ERROR_ACCESS_OBJECT_INVALIDATED]
      MMS_ERROR_ACCESS_OTHER
  else if errorClass =? 11 then coded 7 [MMS_ERROR_FILE_FILE_NON_EXISTENT] MMS_ERROR_FILE_OTHER
  else MMS_ERROR_OTHER.

Section Errors.
Context (fuel : nat) (buffer : ptr).

(** [Ret]: a length that can not be read. *)
Definition parseServiceError_body (endPos : Z) (s : Z * MmsServiceError) : res (ctl (Z * MmsServiceError) unit) :=
  let '(bufPos, error) := s in
  let! (tag, bufPos, length) := next_element buffer bufPos endPos None in
  if bufPos <? 0 then Done (Ret tt)
  else if tag =? 0xa0 then
    let! (errorClassTag, bufPos, length) := next_element buffer bufPos endPos length in
    if bufPos <? 0 then Done (Ret tt)
    else
      let! length' := defined length in
      let! errorCode := BerDecoder_decodeUint32 buffer length' bufPos in
      let! next := behind_element bufPos length in
      Done (Next (next, (errorClassTag - 0x80, i32 errorCode)))
  else let! next := behind_element bufPos length in Done (Next (next, error)).

(** The position behind the error, and the error. *)
Definition parseServiceError (bufPos maxLength : Z) (error : MmsServiceError) : res (option (Z * MmsServiceError)) :=
  let endPos := i32 (bufPos + maxLength) in
  let! r := while (fun s => fst s <? endPos) (parseServiceError_body endPos) fuel (bufPos, error) in
  Done match r with Next s => Some s | Ret _ => None end.

Definition parseConfirmedErrorPDU_body (maxBufPos : Z) (s : Z * option Z * MmsServiceError)
  : res (ctl (Z * option Z * MmsServiceError) unit) :=
  let '(bufPos, invokeId, serviceError) := s in
  let! (tag, bufPos, length) := next_element buffer bufPos maxBufPos None in
  if bufPos <? 0 then Done (Ret tt)
  else
    let! length := defined length in
    let next := i32 (bufPos + length) in
    if tag =? 0x80 then
      let! id := BerDecoder_decodeUint32 buffer length bufPos in Done (Next (next, Some id, serviceError))
    else if tag =? 0xa2 then
      let! r := parseServiceError bufPos length serviceError in
      Done match r with
      | Some (bufPos, serviceError) => Next (bufPos, invokeId, serviceError)
      | None => Ret tt
      end
    else Done (Next (next, invokeId, serviceError)).

(** The invoke id, if the message has one, and the error; [None] if it is not
    understood. *)
Definition parseConfirmedErrorPDU (maxBufPos : Z) : res (option (option Z * MmsServiceError)) :=
  let! range := tagged_response 0xa2 buffer 0 maxBufPos in
  match range with
  | None => Done None
  | Some (bufPos, endPos) =>
      let! r := while (fun s => fst (fst s) <? endPos) (parseConfirmedErrorPDU_body maxBufPos) fuel
                  (bufPos, None, (0, 0)) in
      Done match r with Next (bufPos, id, error) => if bufPos <? 0 then None else Some (id, error) | Ret _ => None end
  end.

(** The invoke id of a confirmed response, and the position of the answer. *)
Definition parseConfirmedResponse (size : Z) : res (option (Z * Z)) :=
  let! (bufPos, _) := BerDecoder_decodeLength buffer None 1 size in
  if bufPos =? -1 then Done None
  else
    let! tag := rd buffer bufPos in
    if tag =? 0x02 then
      let! (bufPos, invokeIdLength) := BerDecoder_decodeLength buffer None (bufPos + 1) size in
      if bufPos =? -1 then Done None
      else
        let! invokeIdLength := defined invokeIdLength in
        let! invokeId := BerDecoder_decodeUint32 buffer invokeIdLength bufPos in
        Done (Some (invokeId, i32 (bufPos + invokeIdLength)))
    else Done None.
End Errors.

(** The message in the receive buffer, for the thread that waited for it. *)
Definition receive_payload (payload : ByteBuffer) : CM unit := fun c es =>
  let! mutex := Semaphore_wait (cl_receiveBufferMutex c) in
  Done (tt, cl_set_receive payload mutex c, es).

Section Client.
Context (codec : AsnCodec) (fuel : nat).

(** * Reports *)

(** The item that is read where that of a domain lies: another name has zeroes there,
    something that is not a name has something else. *)
Definition reported_item (v : ListOfVariableSeq) : res (list Z) :=
  match vs_variableSpecification v with
  | VariableSpecification_name (ObjectName_domainspecific _ itemId) => Done (c_chars itemId)
  | VariableSpecification_name _ => Done []
  | VariableSpecification_other => Ub
  end.

(** The call of the report handler; without one the message is not looked at. *)
Definition handleInformationReport (report : InformationReport) : CM unit :=
  match rp_variableAccessSpecification report with
  | VariableAccessSpecification_variableListName (ObjectName_vmdspecific name) =>
      do! values := clift (mmsClient_parseListOfAccessResults (rp_listOfAccessResult report) true) in
      emit (ClientReport (Some (c_chars name)) values [])
  | VariableAccessSpecification_listOfVariable variables =>
      do! attributes := clift (each_res reported_item variables) in
      do! values := clift (mmsClient_parseListOfAccessResults (rp_listOfAccessResult report) true) in
      emit (ClientReport None values attributes)
  | _ => cret tt
  end.

Definition handleUnconfirmedMmsPdu (message : ByteBuffer) : CM unit :=
  do! reportHandler := cget cl_reportHandler in
  if reportHandler then
    do! buffer := clift (defined (bb_buffer message)) in
    match ber_decode_MmsPdu codec buffer (bb_size message) with
    | Some (UnconfirmedPDU (Some report)) => handleInformationReport report
    | _ => cret tt
    end
  else cret tt.

(** * Messages from the server *)

(** A message for a call that is outstanding, which is stored as the last response when
    the one before has been processed. *)
Inductive Delivery :=
| DeliverResponse (invokeId bufPos : Z)
| DeliverError (invokeId : Z) (error : MmsError).

Definition delivered_id (d : Delivery) : Z := match d with DeliverResponse id _ | DeliverError id _ => id end.

(** A message for a call that is not outstanding is dropped. *)
Definition expect_delivery (d : Delivery) : CM (option Delivery) :=
  do! outstanding := checkForOutstandingCall (delivered_id d) in
  if outstanding then cret (Some d) else do! _ := releaseReceiveBuffer in cret None.

(** Without an invoke id the variable that should get it is not set. *)
Definition error_delivery (r : option Z * MmsServiceError) : res Delivery :=
  let! invokeId := defined (fst r) in
  Done (DeliverError invokeId (convertServiceErrorToMmsError (snd r))).

(** A message that can not be parsed keeps the receive buffer. *)
Definition handle_error_pdu (buffer : ptr) (size : Z) : CM (option Delivery) :=
  do! r := clift (parseConfirmedErrorPDU fuel buffer size) in
  match r with
  | None => cret None
  | Some r => do! d := clift (error_delivery r) in expect_delivery d
  end.

Definition handle_response_pdu (buffer : ptr) (size : Z) : CM (option Delivery) :=
  do! r := clift (parseConfirmedResponse buffer size) in
  match r with
  | None => do! _ := releaseReceiveBuffer in cret None
  | Some (invokeId, bufPos) => expect_delivery (DeliverResponse invokeId bufPos)
  end.

Definition set_conclude (state : Z) : CM unit :=
  cmodify (fun c => cl_set_states (cl_associationState c) (cl_connectionState c) state c).

Definition set_states (association : AssociationState) (connection : ConnectionState) : CM unit :=
  cmodify (fun c => cl_set_states association connection (cl_concludeState c) c).

Definition handle_initiate_response (indication : IsoIndication) : CM unit :=
  do! association := cget cl_associationState in
  do! _ := set_states association
    (if bool_decide (indication = ISO_IND_ASSOCIATION_SUCCESS) then MMS_CON_ASSOCIATED else MMS_CON_ASSOCIATION_FAILED) in
  cmodify (fun c => let l := cl_last c in
    cl_set_last (mkLast (responseInvokeId l) true (lastResponseBufPos l) (lastResponseError l)) c).

(** A tag that is not known keeps the receive buffer. *)
Definition handle_pdu (indication : IsoIndication) (payload : ByteBuffer) : CM (option Delivery) :=
  do! buffer := clift (defined (bb_buffer payload)) in
  do! tag := clift (rd buffer 0) in
  let size := bb_size payload in
  if tag =? 0xa9 then do! _ := handle_initiate_response indication in cret None
  else if tag =? 0xa3 then do! _ := handleUnconfirmedMmsPdu payload in do! _ := releaseReceiveBuffer in cret None
  else if tag =? 0x8b then do! _ := set_conclude CONCLUDE_STATE_REQUESTED in do! _ := releaseReceiveBuffer in cret None
  else if tag =? 0x8c then
    do! _ := set_conclude CONCLUDE_STATE_ACCEPTED in
    do! _ := release_connection in do! _ := releaseReceiveBuffer in cret None
  else if tag =? 0x8d then do! _ := set_conclude CONCLUDE_STATE_REJECTED in do! _ := releaseReceiveBuffer in cret None
  else if tag =? 0xa2 then handle_error_pdu buffer size
  else if tag =? 0xa1 then handle_response_pdu buffer size
  else cret None.

(** [mmsIsoCallback] up to [waitUntilLastResponseHasBeenProcessed]. *)
Definition mmsIsoCallback_check (indication : IsoIndication) (payload : option ByteBuffer) : CM (option Delivery) :=
  match indication with
  | ISO_IND_CLOSED =>
      do! _ := set_states MMS_STATE_CLOSED MMS_CON_IDLE in
      do! _ := emit ClientConnectionLost in cret None
  | ISO_IND_ASSOCIATION_FAILED =>
      do! _ := set_states MMS_STATE_CLOSED MMS_CON_ASSOCIATION_FAILED in cret None
  | _ =>
      do! payload := clift (defined payload) in
      if bb_size payload <? 1 then do! _ := releaseReceiveBuffer in cret None
      else handle_pdu indication payload
  end.

(** [waitUntilLastResponseHasBeenProcessed], which does not come back before. *)
Definition waitUntilLastResponseHasBeenProcessed : CM unit :=
  do! currentInvokeId := getResponseInvokeId in
  if currentInvokeId =? 0 then cret tt else clift NoFuel.

(** The rest of it. *)
Definition deliver (d : Delivery) : CM unit :=
  do! _ := waitUntilLastResponseHasBeenProcessed in
  cmodify (fun c => let l := cl_last c in
    cl_set_last match d with
      | DeliverResponse invokeId bufPos => mkLast invokeId true bufPos (lastResponseError l)
      | DeliverError invokeId error => mkLast invokeId (lastResponse l) (lastResponseBufPos l) error
      end c).

Definition mmsIsoCallback (indication : IsoIndication) (payload : option ByteBuffer) : CM unit :=
  do! d := mmsIsoCallback_check indication payload in
  match d with Some d => deliver d | None => cret tt end.

(** * Connecting *)

Definition MmsConnection_create : MmsConnection := {|
  cl_lastInvokeId := 0;
  cl_last := mkLast 0 false 0 MMS_ERROR_NONE;
  cl_outstandingCalls := replicate OUTSTANDING_CALLS 0;
  cl_requestTimeout := CONFIG_MMS_CONNECTION_DEFAULT_TIMEOUT;
  cl_associationState := MMS_STATE_CLOSED;
  cl_connectionState := MMS_CON_IDLE;
  cl_parameters := mkParameters (-1) (-1) (-1) CONFIG_MMS_MAXIMUM_PDU_SIZE;
  cl_reportHandler := false;
  cl_concludeState := CONCLUDE_STATE_CONNECTION_ACTIVE;
  cl_transmitBuffer := ByteBuffer_null;
  cl_transmitBufferMutex := 0;
  cl_receiveBuffer := ByteBuffer_null;
  cl_receiveBufferMutex := 0 |}.

(** Each connect makes a new ISO connection, with a new block to send from. *)
Definition new_isoClient (sendBuffer : list Z) : CM unit :=
  cmodify (fun c => cl_set_receive ByteBuffer_null 1
                      (cl_set_transmit (mkByteBuffer (Some (mk_ptr sendBuffer 0)) ISO_CLIENT_BUFFER_SIZE 0) 1 c)).

Definition MmsConnection_setRequestTimeout (timeoutInMs : Z) : CM unit := cmodify (cl_set_timeout timeoutInMs).
Definition MmsConnection_setInformationReportHandler (installed : bool) : CM unit := cmodify (cl_set_reportHandler installed).
Definition MmsConnection_setLocalDetail (localDetail : Z) : CM unit :=
  cmodify (fun c => let p := cl_parameters c in
    cl_set_parameters (mkParameters (maxServOutstandingCalling p) (maxServOutstandingCalled p)
                         (dataStructureNestingLevel p) localDetail) c).
Definition MmsConnection_getLocalDetail : CM Z := cget (fun c => maxPduSize (cl_parameters c)).

(** [IsoClientConnection_associate] on the thread of the caller: the connect message is
    not sent, or it is sent and has no answer that is understood, or its answer has an
    MMS message. *)
Inductive Association := NotSent | NotAnswered | Answered (payload : ByteBuffer).

Definition associate (a : Association) : CM unit :=
  match a with
  | NotSent => mmsIsoCallback ISO_IND_ASSOCIATION_FAILED None
  | NotAnswered => do! _ := sendMessage in mmsIsoCallback ISO_IND_ASSOCIATION_FAILED None
  | Answered payload =>
      do! _ := sendMessage in
      do! _ := receive_payload payload in
      mmsIsoCallback ISO_IND_ASSOCIATION_SUCCESS (Some payload)
  end.

Definition parse_initiate_response : CM bool := fun c es =>
  let! buffer := defined (bb_buffer (cl_receiveBuffer c)) in
  let '(ok, parameters) := mmsClient_parseInitiateResponse codec buffer (bb_size (cl_receiveBuffer c)) (cl_parameters c) in
  Done (ok, cl_set_parameters parameters c, es).

(** Without an answer that changes the state, [waitForConnectResponse] waits for the whole
    time.  Whether the initiate response is understood does not matter. *)
Definition MmsConnection_connect (sendBuffer : list Z) (a : Association) : CM MmsError :=
  do! _ := new_isoClient sendBuffer in
  do! _ := cmodify (fun c => let p := cl_parameters c in
    if maxPduSize p =? -1 then
      cl_set_parameters (mkParameters (maxServOutstandingCalling p) (maxServOutstandingCalled p)
                           (dataStructureNestingLevel p) CONFIG_MMS_MAXIMUM_PDU_SIZE) c
    else c) in
  do! payload := allocateTransmitBuffer in
  do! p := cget cl_parameters in
  do! request := clift (mmsClient_createInitiateRequest codec (maxPduSize p) payload) in
  do! _ := cmodify (fun c => cl_set_transmit request (cl_transmitBufferMutex c) c) in
  do! association := cget cl_associationState in
  do! _ := set_states association MMS_CON_WAITING in
  do! _ := associate a in
  do! connectionState := cget cl_connectionState in
  match connectionState with
  | MMS_CON_ASSOCIATED =>
      do! _ := parse_initiate_response in
      do! _ := releaseResponse in
      do! _ := set_states MMS_STATE_CONNECTED MMS_CON_IDLE in
      cret MMS_ERROR_NONE
  | _ =>
      do! _ := set_states MMS_STATE_CLOSED MMS_CON_IDLE in
      cret MMS_ERROR_CONNECTION_REJECTED
  end.

(** * Concluding

    The two parts of [sendConcludeRequestAndWaitForResponse], and of the loop a round:
    whether it is the last one. *)
Definition start_conclude : CM unit :=
  do! message := allocateTransmitBuffer in
  do! (_, message) := clift (mmsClient_createConcludeRequest message) in
  do! _ := cmodify (fun c => cl_set_transmit message (cl_transmitBufferMutex c) c) in
  do! _ := set_conclude CONCLUDE_STATE_REQUESTED in
  sendMessage.

Definition conclude_round (timeout : bool) : CM bool :=
  do! association := cget cl_associationState in
  do! concludeState := cget cl_concludeState in
  if timeout then do! _ := cmodify (set_lastResponseError MMS_ERROR_SERVICE_TIMEOUT) in cret true
  else cret (is_closed association || negb (concludeState =? CONCLUDE_STATE_REQUESTED)).

(** The end of [MmsConnection_conclude]. *)
Definition finish_conclude : CM MmsError :=
  do! error := cget (fun c => lastResponseError (cl_last c)) in
  do! _ := releaseResponse in
  do! association := cget cl_associationState in
  do! concludeState := cget cl_concludeState in
  if concludeState =? CONCLUDE_STATE_ACCEPTED then cret error
  else if concludeState =? CONCLUDE_STATE_REJECTED then cret MMS_ERROR_CONCLUDE_REJECTED
  else if is_closed association then cret MMS_ERROR_CONNECTION_LOST
  else cret error.
End Client.

(** * The services *)

(** What the functions of the API give back beside the error. *)
Inductive ClientResult :=
| ResultNone
| ResultValue (value : option MmsValue)
| ResultIdentity (identity : option MmsServerIdentity)
| ResultStatus (status : ServerStatus)
| ResultFile (opened : FileOpened)
| ResultChunks (chunks : FileChunks)
| ResultDirectory (files : list FileEntry * bool)
| ResultAccess (accessResults : option (option (list MmsValue)))
| ResultNames (nameList : NameList) (moreFollows : bool)
| ResultVariables (attributes : option (list MmsVariableAccessSpecification * bool))
| ResultType (typeSpec : option MmsVariableSpecification).

(** A function of the API: whether it looks at an error of the server, how it writes its
    request, what it makes of the answer, which it finds in a message at a position, and
    its result without one. *)
Record ClientCall := mkCall {
  call_looksAtError : bool;
  call_request : Z -> ByteBuffer -> res ByteBuffer;
  call_answer : ptr -> Z -> Z -> res (ClientResult * MmsError);
  call_nothing : ClientResult }.

Section Calls.
Context (codec : AsnCodec) (lib : TimeLib) (fuel : nat).

(** What could not be parsed is an error for most of the services. *)
Definition parsed (r : ClientResult) (ok : bool) : ClientResult * MmsError :=
  (r, if ok then MMS_ERROR_NONE else MMS_ERROR_PARSING_RESPONSE).

(** A read that can not be parsed has no value, and no error. *)
Definition read_call (request : Z -> ByteBuffer -> res ByteBuffer) (createArray : bool) : ClientCall :=
  mkCall true request
    (fun buffer size _ =>
       let! value := mmsClient_parseReadResponse codec buffer size createArray in Done (ResultValue value, MMS_ERROR_NONE))
    (ResultValue None).

Definition MmsConnection_readVariable (domainId : option (list Z)) (itemId : list Z) : ClientCall :=
  read_call (mmsClient_createReadRequest codec domainId itemId) false.
Definition MmsConnection_readArrayElements (domainId itemId : list Z) (startIndex numberOfElements : Z) : ClientCall :=
  read_call (mmsClient_createReadRequestAlternateAccessIndex codec domainId itemId startIndex numberOfElements) false.
Definition MmsConnection_readMultipleVariables (domainId : list Z) (items : list (list Z)) : ClientCall :=
  read_call (mmsClient_createReadRequestMultipleValues codec domainId items) true.
Definition MmsConnection_readNamedVariableListValues (domainId listName : list Z) (specWithResult : bool) : ClientCall :=
  read_call (mmsClient_createReadNamedVariableListRequest codec domainId listName specWithResult) true.
Definition MmsConnection_readNamedVariableListValuesAssociationSpecific (listName : list Z) (specWithResult : bool) : ClientCall :=
  read_call (mmsClient_createReadAssociationSpecificNamedVariableListRequest codec listName specWithResult) true.

Definition MmsConnection_identify : ClientCall :=
  mkCall true mmsClient_createIdentifyRequest
    (fun buffer size bufPos =>
       let! identity := mmsClient_parseIdentifyResponse fuel buffer bufPos size in
       Done (ResultIdentity identity, MMS_ERROR_NONE))
    (ResultIdentity None).

Definition MmsConnection_getServerStatus (extendedDerivation : bool) : ClientCall :=
  mkCall true (mmsClient_createStatusRequest extendedDerivation)
    (fun buffer size bufPos =>
       let! (ok, status) := mmsClient_parseStatusResponse fuel buffer bufPos size in
       Done (parsed (ResultStatus status) ok))
    (ResultStatus (None, None)).

(** The number of the file is -1 where none is stored. *)
Definition MmsConnection_fileOpen (filename : list Z) (initialPosition : Z) : ClientCall :=
  mkCall true (mmsClient_createFileOpenRequest filename initialPosition)
    (fun buffer size bufPos =>
       let! (ok, opened) := mmsClient_parseFileOpenResponse lib fuel buffer bufPos size in
       Done (parsed (ResultFile opened) ok))
    (ResultFile (mkFileOpened None (mkFileAttributes None None))).

Definition MmsConnection_fileRead (frsmId : Z) : ClientCall :=
  mkCall true (mmsClient_createFileReadRequest frsmId)
    (fun buffer size bufPos =>
       let! (ok, chunks) := mmsClient_parseFileReadResponse fuel buffer bufPos size in
       Done (parsed (ResultChunks chunks) ok))
    (ResultChunks ([], false)).

(** Without data in the answer, it is not looked at. *)
Definition plain_call (request : Z -> ByteBuffer -> res ByteBuffer) : ClientCall :=
  mkCall true request (fun _ _ _ => Done (ResultNone, MMS_ERROR_NONE)) ResultNone.

Definition MmsConnection_fileClose (frsmId : Z) : ClientCall := plain_call (mmsClient_createFileCloseRequest frsmId).
Definition MmsConnection_fileDelete (fileName : list Z) : ClientCall := plain_call (mmsClient_createFileDeleteRequest fileName).
Definition MmsConnection_fileRename (currentFileName newFileName : list Z) : ClientCall :=
  plain_call (mmsClient_createFileRenameRequest currentFileName newFileName).

Definition MmsConnection_getFileDirectory (fileSpecification continueAfter : option (list Z)) : ClientCall :=
  mkCall true (mmsClient_createFileDirectoryRequest fileSpecification continueAfter)
    (fun buffer size bufPos =>
       let! r := mmsClient_parseFileDirectoryResponse lib fuel buffer bufPos size in
       Done match r with
       | Some files => (ResultDirectory files, MMS_ERROR_NONE)
       | None => (ResultDirectory ([], false), MMS_ERROR_PARSING_RESPONSE)
       end)
    (ResultDirectory ([], false)).

Definition MmsConnection_writeVariable (domainId : option (list Z)) (itemId : list Z) (value : MmsValue) : ClientCall :=
  mkCall true (mmsClient_createWriteRequest codec domainId itemId value)
    (fun buffer size bufPos =>
       let! error := mmsClient_parseWriteResponse buffer bufPos size in Done (ResultNone, error))
    ResultNone.

Definition MmsConnection_writeMultipleVariables (domainId : option (list Z)) (items : list (list Z))
    (values : list MmsValue) : ClientCall :=
  mkCall true (mmsClient_createWriteMultipleItemsRequest codec domainId items values)
    (fun buffer size bufPos =>
       let! (error, accessResults) :=
         mmsClient_parseWriteMultipleItemsResponse fuel buffer bufPos size (zlen items) in
       Done (ResultAccess accessResults, error))
    (ResultAccess None).

(** The name lists.  An error of the server is not looked at: with the answer before it
    there is a message to parse, which is the error (or, with nothing in between, the
    answer to initiate) and not understood. *)
Definition mmsClient_getNameListSingleRequest (nameList : NameList) (domainId : option (list Z)) (objectClass : MmsObjectClass)
    (associationSpecific : bool) (continueAfter : option (list Z)) : ClientCall :=
  mkCall false
    (if associationSpecific then mmsClient_createMmsGetNameListRequestAssociationSpecific codec continueAfter
     else match objectClass with
          | MMS_DOMAIN_NAMES => mmsClient_createMmsGetNameListRequestVMDspecific codec continueAfter
          | _ => mmsClient_createGetNameListRequestDomainOrVMDSpecific codec domainId objectClass continueAfter
          end)
    (fun buffer size _ =>
       let! (moreFollows, nameList) := mmsClient_parseGetNameListResponse fuel buffer size nameList in
       Done (ResultNames nameList moreFollows, MMS_ERROR_NONE))
    (ResultNames nameList false).

(** The lists of variables. *)
Definition directory_call (request : Z -> ByteBuffer -> res ByteBuffer) : ClientCall :=
  mkCall true request
    (fun buffer size _ =>
       let! attributes := mmsClient_parseGetNamedVariableListAttributesResponse codec buffer size in
       Done (ResultVariables attributes, MMS_ERROR_NONE))
    (ResultVariables None).

Definition MmsConnection_readNamedVariableListDirectory (domainId listName : list Z) : ClientCall :=
  directory_call (mmsClient_createGetNamedVariableListAttributesRequest codec domainId listName).
Definition MmsConnection_readNamedVariableListDirectoryAssociationSpecific (listName : list Z) : ClientCall :=
  directory_call (mmsClient_createGetNamedVariableListAttributesRequestAssociationSpecific codec listName).

Definition define_call (request : Z -> ByteBuffer -> res ByteBuffer) : ClientCall :=
  mkCall true request
    (fun buffer size _ =>
       Done (ResultNone, if mmsClient_parseDefineNamedVariableResponse codec buffer size then MMS_ERROR_NONE else MMS_ERROR_DEFINITION_OTHER))
    ResultNone.

Definition MmsConnection_defineNamedVariableList (domainId listName : list Z) (variableSpecs : list MmsVariableAccessSpecification)
  : ClientCall := define_call (mmsClient_createDefineNamedVariableListRequest codec (Some domainId) listName variableSpecs false).
Definition MmsConnection_defineNamedVariableListAssociationSpecific (listName : list Z)
    (variableSpecs : list MmsVariableAccessSpecification) : ClientCall :=
  define_call (mmsClient_createDefineNamedVariableListRequest codec None listName variableSpecs true).

Definition delete_call (request : Z -> ByteBuffer -> res ByteBuffer) : ClientCall :=
  mkCall true request
    (fun buffer size _ =>
       let! deleted := mmsClient_parseDeleteNamedVariableListResponse codec buffer size in
       Done (ResultNone, if (deleted : bool) then MMS_ERROR_NONE else MMS_ERROR_ACCESS_OTHER))
    ResultNone.

Definition MmsConnection_deleteNamedVariableList (domainId listName : list Z) : ClientCall :=
  delete_call (mmsClient_createDeleteNamedVariableListRequest codec domainId listName).
Definition MmsConnection_deleteAssociationSpecificNamedVariableList (listName : list Z) : ClientCall :=
  delete_call (mmsClient_createDeleteAssociationSpecificNamedVariableListRequest codec listName).

Definition MmsConnection_getVariableAccessAttributes (domainId itemId : list Z) : ClientCall :=
  mkCall true (mmsClient_createGetVariableAccessAttributesRequest codec domainId itemId)
    (fun buffer size _ =>
       let! typeSpec := mmsClient_parseGetVariableAccessAttributesResponse codec buffer size in
       Done (ResultType typeSpec, MMS_ERROR_NONE))
    (ResultType None).

(** * Lists of names: requests as long as the answers say that more follow

    [request] is a call from its beginning to its return, whatever the other threads do
    meanwhile; [S] is what it changes. *)
Section NameLists.
Context {S : Type} (request : ClientCall -> S -> res (ClientResult * MmsError * S)).
Context (domainId : option (list Z)) (objectClass : MmsObjectClass) (associationSpecific : bool).

Definition single_request (nameList : NameList) (continueAfter : option (list Z)) : ClientCall :=
  mmsClient_getNameListSingleRequest nameList domainId objectClass associationSpecific continueAfter.

(** The last name, if there is one; a freed list is read. *)
Definition lastIdentifier (nameList : NameList) : res (option (list Z)) :=
  match nameList with NoNames => Done None | Names names => Done (last names) | FreedNames => Ub end.

Definition is_null (nameList : NameList) : bool := match nameList with NoNames => true | _ => false end.

Fixpoint request_more (rounds : nat) (result : ClientResult) (mmsError : MmsError) (s : S) : res (NameList * MmsError * S) :=
  match result with
  | ResultNames nameList moreFollows =>
      if moreFollows && negb (is_null nameList) then
        match rounds with
        | O => NoFuel
        | Datatypes.S rounds =>
            let! continueAfter := lastIdentifier nameList in
            let! (result, mmsError, s) := request (single_request nameList continueAfter) s in
            request_more rounds result mmsError s
        end
      else Done (nameList, mmsError, s)
  | _ => Ub                                    (* not the result of [single_request] *)
  end.

Definition mmsClient_getNameList (rounds : nat) (s : S) : res (NameList * MmsError * S) :=
  let! (result, mmsError, s) := request (single_request NoNames None) s in request_more rounds result mmsError s.
End NameLists.

Section NamesOf.
Context {S : Type} (request : ClientCall -> S -> res (ClientResult * MmsError * S)).

Definition MmsConnection_getVMDVariableNames : nat -> S -> res (NameList * MmsError * S) :=
  mmsClient_getNameList request None MMS_NAMED_VARIABLE false.
Definition MmsConnection_getDomainNames : nat -> S -> res (NameList * MmsError * S) :=
  mmsClient_getNameList request None MMS_DOMAIN_NAMES false.
Definition MmsConnection_getDomainVariableNames (domainId : list Z) : nat -> S -> res (NameList * MmsError * S) :=
  mmsClient_getNameList request (Some domainId) MMS_NAMED_VARIABLE false.
Definition MmsConnection_getDomainVariableListNames (domainId : list Z) : nat -> S -> res (NameList * MmsError * S) :=
  mmsClient_getNameList request (Some domainId) MMS_NAMED_VARIABLE_LIST false.
Definition MmsConnection_getVariableListNamesAssociationSpecific : nat -> S -> res (NameList * MmsError * S) :=
  mmsClient_getNameList request None MMS_NAMED_VARIABLE_LIST true.
End NamesOf.
End Calls.

(** * The threads *)

(** A thread of the application, before a call, after it, and on its way through it: the request is in the transmit
    buffer, the call is entered, it waits, it has left the loop of
    [sendRequestAndWaitForResponse] (with the last response or without), it looks at the
    answer, it releases it. *)
Inductive Caller :=
| Idle
| Returned (invokeId : Z) (call : ClientCall) (result : ClientResult) (error : MmsError)
| Prepared (invokeId : Z) (call : ClientCall)
| Registered (invokeId : Z) (call : ClientCall) (waitUntilTime : Z)
| Waiting (invokeId : Z) (call : ClientCall) (waitUntilTime : Z)
| Leaving (invokeId : Z) (call : ClientCall) (received : bool)
| Answering (invokeId : Z) (call : ClientCall) (received : bool)
| Releasing (invokeId : Z) (call : ClientCall) (result : ClientResult) (error : MmsError).

(** The order of the first two does not matter to anyone, and is not the same in all of
    the functions. *)
Definition begin_call (call : ClientCall) : CM Caller :=
  do! payload := allocateTransmitBuffer in
  do! invokeId := getNextInvokeId in
  do! request := clift (call_request call invokeId payload) in
  do! _ := cmodify (fun c => cl_set_transmit request (cl_transmitBufferMutex c) c) in
  cret (Prepared invokeId call).

(** A round of the loop, at the time [currentTime]. *)
Definition wait_round (invokeId : Z) (call : ClientCall) (waitUntilTime currentTime : Z) : CM Caller :=
  if currentTime <? waitUntilTime then
    do! association := cget cl_associationState in
    if is_closed association then cret (Leaving invokeId call false)
    else
      do! receivedInvokeId := getResponseInvokeId in
      if receivedInvokeId =? invokeId then
        do! receivedMessage := cget (fun c => lastResponse (cl_last c)) in
        cret (Leaving invokeId call receivedMessage)
      else cret (Waiting invokeId call waitUntilTime)
  else
    do! _ := cmodify (set_lastResponseError MMS_ERROR_SERVICE_TIMEOUT) in
    cret (Leaving invokeId call false).

(** The answer is read where the receive buffer is, at [lastResponseBufPos]. *)
Definition read_answer (call : ClientCall) : CM (ClientResult * MmsError) := fun c es =>
  let message := cl_receiveBuffer c in
  let! buffer := defined (bb_buffer message) in
  let! r := call_answer call buffer (bb_size message) (lastResponseBufPos (cl_last c)) in
  Done (r, c, es).

Definition look_at_answer (invokeId : Z) (call : ClientCall) (received : bool) : CM Caller :=
  do! error := cget (fun c => lastResponseError (cl_last c)) in
  if call_looksAtError call && negb (bool_decide (error = MMS_ERROR_NONE)) then cret (Releasing invokeId call (call_nothing call) error)
  else if received then
    do! (result, error) := read_answer call in cret (Releasing invokeId call result error)
  else cret (Releasing invokeId call (call_nothing call) MMS_ERROR_NONE).

Definition end_call (invokeId : Z) (call : ClientCall) (result : ClientResult) (error : MmsError) : CM Caller :=
  do! _ := releaseResponse in
  do! association := cget cl_associationState in
  cret (Returned invokeId call result (if is_closed association then MMS_ERROR_CONNECTION_LOST else error)).

(** The next step of a caller at a time. *)
Definition caller_step (now : Z) (caller : Caller) : CM Caller :=
  match caller with
  | Idle | Returned _ _ _ _ => clift NoFuel
  | Prepared invokeId call =>
      do! requestTimeout := cget cl_requestTimeout in
      do! _ := addToOutstandingCalls invokeId in
      cret (Registered invokeId call (u64 (now + requestTimeout)))
  | Registered invokeId call waitUntilTime =>
      do! _ := sendMessage in cret (Waiting invokeId call waitUntilTime)
  | Waiting invokeId call waitUntilTime => wait_round invokeId call waitUntilTime now
  | Leaving invokeId call received =>
      do! _ := removeFromOutstandingCalls invokeId in cret (Answering invokeId call received)
  | Answering invokeId call received => look_at_answer invokeId call received
  | Releasing invokeId call result error => end_call invokeId call result error
  end.

(** The thread of the ISO connection: it reads from the socket, it is inside
    [mmsIsoCallback] with a message for a call, or it waits for the receive buffer. *)
Inductive Receiver := Receiving | Delivering (d : Delivery) | Holding | Stopped.

Record ClientSystem := mkSystem {
  cs_connection : MmsConnection;
  cs_callers : list Caller;
  cs_receiver : Receiver }.

Inductive Action :=
| Begin (i : nat) (call : ClientCall)
| Run (i : nat) (now : Z)
| Receive (payload : ByteBuffer)
| Deliver
| Resume
| Close.

Section System.
Context (codec : AsnCodec) (fuel : nat).

(** A step of the system with the connection as its state. *)
Definition on_connection {A} (c : CM A) (k : A -> MmsConnection -> ClientSystem) (w : ClientSystem) (es : list ClientEvent)
  : res (ClientSystem * list ClientEvent) :=
  let! (a, connection, es) := c (cs_connection w) es in Done (k a connection, es).

Definition receiver_check (indication : IsoIndication) (payload : option ByteBuffer) : CM Receiver :=
  do! d := mmsIsoCallback_check codec fuel indication payload in
  cret match d with Some d => Delivering d | None => Holding end.

(** The content of the receive buffer is replaced by what comes from the socket. *)
Definition receive (payload : ByteBuffer) : CM Receiver :=
  do! _ := cmodify (fun c => cl_set_receive payload (cl_receiveBufferMutex c) c) in
  receiver_check ISO_IND_DATA (Some payload).

Definition resume : CM Receiver := fun c es =>
  let! mutex := Semaphore_wait (cl_receiveBufferMutex c) in
  Done (Receiving, cl_set_receive (cl_receiveBuffer c) mutex c, es).

Definition with_receiver (w : ClientSystem) (r : Receiver) (c : MmsConnection) : ClientSystem := mkSystem c (cs_callers w) r.
Definition with_caller (w : ClientSystem) (i : nat) (caller : Caller) (c : MmsConnection) : ClientSystem :=
  mkSystem c (<[i := caller]> (cs_callers w)) (cs_receiver w).

(** An action that is not possible, or not yet, has no result. *)
Definition perform (a : Action) (w : ClientSystem) (es : list ClientEvent) : res (ClientSystem * list ClientEvent) :=
  match a, cs_receiver w with
  | Begin i call, _ =>
      match cs_callers w !! i with
      | Some (Idle | Returned _ _ _ _) => on_connection (begin_call call) (with_caller w i) w es
      | _ => NoFuel
      end
  | Run i now, _ =>
      match cs_callers w !! i with
      | Some caller => on_connection (caller_step now caller) (with_caller w i) w es
      | None => NoFuel
      end
  | Receive payload, Receiving => on_connection (receive payload) (with_receiver w) w es
  | Deliver, Delivering d => on_connection (deliver d) (fun _ => with_receiver w Holding) w es
  | Resume, Holding => on_connection resume (with_receiver w) w es
  | Close, Receiving =>
      on_connection (mmsIsoCallback_check codec fuel ISO_IND_CLOSED None) (fun _ => with_receiver w Stopped) w es
  | _, _ => NoFuel
  end.

Fixpoint perform_all (actions : list Action) (w : ClientSystem) (es : list ClientEvent)
  : res (ClientSystem * list ClientEvent) :=
  match actions with
  | [] => Done (w, es)
  | a :: actions => let! (w, es) := perform a w es in perform_all actions w es
  end.
End System.
