(* ===== verification/MmsReadFacts.v ===== *)
(** What the services write: responses as nested elements. *)
From Stdlib Require Import String.
From stdpp Require Import base tactics numbers option gmap list.
From S2P Require Import Prelude Memory Buffers BerDecode BerEncode MmsValue MmsValueFacts AccessResult Effects CString MmsTypeSpec Control ReportControl Reporting ValueStore IedModel ServerState MmsMapping IedServer SampleServer MmsPdu MmsData MmsService MmsReadService SampleService.

(** * Responses *)

(** The response buffer with the message in front. *)
Definition respond (response : ByteBuffer) (bs : list Z) : ByteBuffer :=
  match bb_buffer response with
  | Some p => mkByteBuffer (Some (mk_ptr (splice (p_mem p) (p_base p) bs) (p_base p))) (bb_maxSize response) (zlen bs)
  | None => response
  end.

(** There is room for [n] octets. *)
Definition has_room (response : ByteBuffer) (n : Z) : Prop :=
  match bb_buffer response with
  | Some p => 0 <= p_base p /\ p_base p + n <= zlen (p_mem p)
  | None => False
  end.

Lemma bb_bytes_respond response bs : has_room response (zlen bs) -> bb_bytes (respond response bs) = bs.
Proof.
  unfold has_room, respond. destruct (bb_buffer response) as [p|]; [|done]. intros [Hb Hl].
  unfold bb_bytes. cbn [bb_buffer bb_size p_mem p_base]. by apply slice_splice.
Qed.

Section Encode.
Context {FS : Type}.
Implicit Types (s : Service FS) (es : list ServerEvent).

Lemma encode_response_emits c bs s es :
  (forall buffer, Emits buffer 0 (c buffer 0) (zlen bs) bs) -> has_room (se_response s) (zlen bs) ->
  encode_response c s es = Done (tt, se_set_response (respond (se_response s) bs) s, es).
Proof.
  intros Hc Hr. unfold encode_response, has_room, respond in *.
  destruct (bb_buffer (se_response s)) as [p|]; [|done]. destruct Hr as [Hb Hl]. cbn [defined rbind].
  by rewrite (emits_fit0 _ _ _ _ _ (Hc (p_base p))).
Qed.

(** A message that is too long is written outside the buffer. *)
Lemma encode_response_overflow c bs s es p :
  (forall buffer, Emits buffer 0 (c buffer 0) (zlen bs) bs) -> bb_buffer (se_response s) = Some p ->
  0 <= p_base p <= zlen (p_mem p) -> zlen (p_mem p) < p_base p + zlen bs -> encode_response c s es = Ub.
Proof.
  intros Hc Hp Hb Hl. unfold encode_response. rewrite Hp. cbn [defined rbind].
  by rewrite (emits_overflow _ _ _ _ _ _ (Hc (p_base p))) by lia.
Qed.
End Encode.

(** * Elements *)

Lemma tl_size_tlv tag bs : zlen bs < 4294967296 -> tl_size (zlen bs) = zlen (tlv (tag, bs)).
Proof. intros Hz. pose proof (zlen_nonneg bs). unfold tl_size. rewrite zlen_tlv, u32_small by lia. done. Qed.

(** The invoke id in front of every answer. *)
Definition invoke_bytes (invokeId : Z) : list Z := tlv (0x02, uint32_bytes invokeId).

Lemma zlen_invoke_bytes invokeId : zlen (invoke_bytes invokeId) = zlen (uint32_bytes invokeId) + 2.
Proof. unfold invoke_bytes. rewrite zlen_tlv_uint32. lia. Qed.

Definition answer_bytes (invokeId : Z) (service : list Z) : list Z := tlv (0xa1, invoke_bytes invokeId ++ service).

(** Code that writes the head of an answer and goes on with the service. *)
Lemma emits_answer {A} invokeId n service (k : Z -> W A) a buffer pos :
  zlen service < 1000000 -> n = zlen (invoke_bytes invokeId ++ service) ->
  (forall p, p = pos + zlen (ber_tl 0xa1 n) + zlen (invoke_bytes invokeId) -> Emits buffer p (k p) a service) ->
  Emits buffer pos
    (let* p := BerEncoder_encodeTL 0xa1 n buffer pos in
     let* p := BerEncoder_encodeTL 0x02 (zlen (uint32_bytes invokeId)) buffer p in
     let* p := BerEncoder_encodeUInt32 invokeId buffer p in k p)
    a (answer_bytes invokeId service).
Proof.
  intros Hz Hn Hk. pose proof (zlen_uint32_bytes invokeId) as Hu. pose proof (zlen_invoke_bytes invokeId) as Hi.
  unfold answer_bytes. apply emits_element; [by_eval|rewrite zlen_app; lia|done|].
  eapply emits_eq; [eapply emits_bind; [apply emits_encodeTL|eapply emits_bind; [apply emits_encodeUInt32|apply Hk|done]|done]|done|].
  - rewrite Hi. rewrite (zlen_ber_tl 0x02), (u32_small (zlen _)) by lia. unfold BerEncoder_determineLengthSize. zdec. lia.
  - rewrite app_assoc. f_equal. unfold invoke_bytes. apply ber_tl_tlv; [by_eval|lia].
Qed.

(** The answer to a read request: its bytes, and its size. *)

Definition values_bytes (values : list MmsValue) : list Z := concat (map access_bytes values).

Lemma sizes_of_values values : Forall encodable values ->
  each_res encodedSize values = Done (map (fun v => zlen (access_bytes v)) values) /\
  sum_list (map (fun v => zlen (access_bytes v)) values) = zlen (values_bytes values).
Proof.
  unfold values_bytes. induction 1 as [|v values Hv _ [IH1 IH2]]; [done|]. cbn [each_res map concat sum_list foldr].
  destruct (encode_spec v Hv 0) as [-> _]. rewrite IH1. cbn [rbind]. split; [done|].
  unfold sum_list in IH2. by rewrite IH2, zlen_app.
Qed.

Lemma emits_values values buffer pos : Forall encodable values ->
  Emits buffer pos (encode_values values buffer pos) (pos + zlen (values_bytes values)) (values_bytes values).
Proof.
  unfold values_bytes. intros H. revert pos. induction H as [|v values Hv _ IH]; intros pos; cbn [encode_values map concat].
  - eapply emits_eq; [apply emits_ret|by rewrite Z.add_0_r|done].
  - destruct (encode_spec v Hv buffer) as [_ Hev].
    eapply emits_eq; [eapply emits_bind; [apply Hev|apply IH|done]|rewrite zlen_app; lia|done].
Qed.

(** * The name of the list *)

Definition spec_names (a : VarAccessSpec) : list Z :=
  match va_domainId a with Some d => tlv (0x1a, d) | None => [] end ++ tlv (0x1a, va_itemId a).

Definition specificity_tag (a : VarAccessSpec) : Z :=
  if va_specific a =? 0 then 0xa0 else if va_specific a =? 1 then 0xa1 else 0xa2.

Definition spec_bytes (accessSpec : option VarAccessSpec) : list Z :=
  match accessSpec with
  | Some a => tlv (0xa0, tlv (0xa1, tlv (specificity_tag a, spec_names a)))
  | None => []
  end.

(** A named variable list; identifiers are short. *)
Definition spec_ok (a : VarAccessSpec) : Prop :=
  va_isNamedVariableList a = true /\ bytes (va_itemId a) /\ zlen (va_itemId a) < 65536 /\
  match va_domainId a with Some d => bytes d /\ zlen d < 65536 | None => True end.

Lemma zlen_tlv_bound e : zlen (tlv e) <= zlen (snd e) + 4.
Proof. rewrite zlen_tlv. pose proof (determineLengthSize_range (zlen (snd e))). lia. Qed.

Lemma zlen_spec_names a : spec_ok a -> zlen (spec_names a) <= 2 * 65539.
Proof.
  intros (_ & _ & Hi & Hd). unfold spec_names. rewrite zlen_app.
  pose proof (zlen_tlv_bound (0x1a, va_itemId a)). destruct (va_domainId a) as [d|]; [destruct Hd as [_ Hd]|].
  - pose proof (zlen_tlv_bound (0x1a, d)). cbn [snd] in *. lia.
  - cbn [snd] in *. rewrite zlen_nil. lia.
Qed.

Lemma access_spec_lengths_spec a : spec_ok a ->
  access_spec_lengths a = (zlen (spec_names a), zlen (tlv (specificity_tag a, spec_names a)),
    zlen (tlv (0xa1, tlv (specificity_tag a, spec_names a)))) /\
  access_spec_size a = zlen (spec_bytes (Some a)) /\ zlen (spec_bytes (Some a)) < 200000.
Proof.
  intros Ha. pose proof (zlen_spec_names a Ha) as Hz. destruct Ha as (_ & _ & Hi & Hd).
  assert (tl_size (zlen (va_itemId a)) + match va_domainId a with Some d => tl_size (zlen d) | None => 0 end
    = zlen (spec_names a)) as E.
  { unfold spec_names. rewrite zlen_app, (tl_size_tlv 0x1a) by lia.
    destruct (va_domainId a) as [d|]; [rewrite (tl_size_tlv 0x1a) by lia; lia|]. change (zlen (@nil Z)) with 0. lia. }
  pose proof (zlen_tlv_bound (specificity_tag a, spec_names a)) as B1.
  pose proof (zlen_tlv_bound (0xa1, tlv (specificity_tag a, spec_names a))) as B2.
  pose proof (zlen_tlv_bound (0xa0, tlv (0xa1, tlv (specificity_tag a, spec_names a)))) as B3. cbn [snd] in *.
  unfold access_spec_size, access_spec_lengths. rewrite E.
  rewrite (tl_size_tlv (specificity_tag a)) by lia. rewrite (tl_size_tlv 0xa1) by lia.
  split; [done|]. rewrite (tl_size_tlv 0xa0) by lia. split; [done|]. unfold spec_bytes. lia.
Qed.

Lemma specificity_tag_byte a : is_byte (specificity_tag a).
Proof. unfold specificity_tag, is_byte. repeat case_match; lia. Qed.

Lemma emits_spec_names a buffer pos : spec_ok a ->
  Emits buffer pos
    (let* bufPos := match va_domainId a with Some d => BerEncoder_encodeStringWithTag 0x1a (Some d) buffer pos | None => wret pos end in
     BerEncoder_encodeStringWithTag 0x1a (Some (va_itemId a)) buffer bufPos)
    (pos + zlen (spec_names a)) (spec_names a).
Proof.
  intros (_ & Hi & Hz & Hd). unfold spec_names.
  destruct (va_domainId a) as [d|].
  - destruct Hd as [Hd Hdz].
    eapply emits_eq; [eapply emits_bind; [apply (emits_tlv_string 0x1a (Some d)); [done|done|by_eval]
      |apply (emits_tlv_string 0x1a (Some (va_itemId a))); [done|done|by_eval]|done]| |done].
    change (string_bytes (Some ?x)) with x. rewrite zlen_app. lia.
  - eapply emits_eq; [eapply emits_bind; [apply emits_ret
      |apply (emits_tlv_string 0x1a (Some (va_itemId a))); [done|done|by_eval]|by rewrite zlen_nil, Z.add_0_r]| |done].
    change (string_bytes (Some ?x)) with x. cbn [app]. lia.
Qed.

Lemma emits_spec a buffer pos : spec_ok a ->
  Emits buffer pos (encodeVariableAccessSpecification a buffer pos) (pos + zlen (spec_bytes (Some a))) (spec_bytes (Some a)).
Proof.
  intros Ha. destruct (access_spec_lengths_spec a Ha) as (E & _ & Hz). pose proof Ha as (Hl & _).
  pose proof (zlen_tlv (0xa0, tlv (0xa1, tlv (specificity_tag a, spec_names a)))) as Z1.
  pose proof (zlen_tlv (0xa1, tlv (specificity_tag a, spec_names a))) as Z2.
  pose proof (zlen_tlv (specificity_tag a, spec_names a)) as Z3.
  pose proof (determineLengthSize_range) as R. cbn [snd] in *. unfold spec_bytes in *.
  pose proof (R (zlen (tlv (0xa1, tlv (specificity_tag a, spec_names a))))).
  pose proof (R (zlen (tlv (specificity_tag a, spec_names a)))). pose proof (R (zlen (spec_names a))).
  pose proof (zlen_nonneg (spec_names a)).
  unfold encodeVariableAccessSpecification. rewrite E, Hl. fold (specificity_tag a).
  apply emits_element; [by_eval|lia|done|]. apply emits_element; [by_eval|lia|done|].
  apply emits_element; [apply specificity_tag_byte|lia|done|].
  eapply emits_eq; [by apply emits_spec_names| |done]. rewrite !zlen_ber_tl, !u32_small by lia. lia.
Qed.

(** * The answer *)

Definition read_response_bytes (invokeId : Z) (values : list MmsValue) (accessSpec : option VarAccessSpec) : list Z :=
  answer_bytes invokeId (tlv (0xa4, spec_bytes accessSpec ++ tlv (0xa1, values_bytes values))).

Definition opt_spec_ok (accessSpec : option VarAccessSpec) : Prop :=
  match accessSpec with Some a => spec_ok a | None => True end.

Lemma zlen_opt_spec accessSpec : opt_spec_ok accessSpec ->
  match accessSpec with Some a => access_spec_size a | None => 0 end = zlen (spec_bytes accessSpec) /\
  zlen (spec_bytes accessSpec) < 200000.
Proof. destruct accessSpec as [a|]; [|done]. intros Ha. by destruct (access_spec_lengths_spec a Ha) as (_ & ? & ?). Qed.

Section Response.
Context (invokeId : Z) (values : list MmsValue) (accessSpec : option VarAccessSpec).
Context (Hvalues : Forall encodable values) (Hspec : opt_spec_ok accessSpec) (Hsize : zlen (values_bytes values) < 500000).

Local Abbreviation results := (tlv (0xa1, values_bytes values)).
Local Abbreviation content := (spec_bytes accessSpec ++ results).

Lemma response_bounds : zlen results <= 500004 /\ zlen content < 700010 /\ zlen (tlv (0xa4, content)) < 700020.
Proof.
  destruct (zlen_opt_spec accessSpec Hspec) as [_ Hs].
  pose proof (zlen_tlv_bound (0xa1, values_bytes values)) as B1. pose proof (zlen_tlv_bound (0xa4, content)) as B2.
  cbn [snd] in *. rewrite zlen_app in *. lia.
Qed.

Lemma read_lengths_spec :
  exists l, read_lengths invokeId values accessSpec = Done l /\
    rl_accessResultSize l = zlen (values_bytes values) /\ rl_serviceContentLength l = zlen content /\
    rl_contentSize l = zlen (invoke_bytes invokeId ++ tlv (0xa4, content)) /\
    rl_invokeIdLength l = zlen (uint32_bytes invokeId).
Proof.
  destruct (sizes_of_values values Hvalues) as [Es Et]. destruct (zlen_opt_spec accessSpec Hspec) as [Ea Hs].
  destruct response_bounds as (B1 & B2 & B3).
  unfold read_lengths. rewrite Es. cbn [rbind]. rewrite Et, Ea, UInt32determineEncodedSize_spec. cbn [rbind].
  rewrite (tl_size_tlv 0xa1) by lia.
  assert (zlen results + zlen (spec_bytes accessSpec) = zlen content) as -> by (rewrite zlen_app; lia).
  rewrite (tl_size_tlv 0xa4) by lia.
  eexists. split; [done|]. repeat split. cbn [rl_contentSize]. rewrite zlen_app, zlen_invoke_bytes. lia.
Qed.

Lemma emits_read_response l buffer : read_lengths invokeId values accessSpec = Done l ->
  Emits buffer 0 (write_read_response invokeId values accessSpec l buffer 0)
    (zlen (read_response_bytes invokeId values accessSpec)) (read_response_bytes invokeId values accessSpec).
Proof.
  intros El. destruct read_lengths_spec as (l' & E' & E1 & E2 & E3 & E4). rewrite E' in El. injection El as ->.
  destruct response_bounds as (B1 & B2 & B3). pose proof (zlen_invoke_bytes invokeId) as Hi.
  pose proof (zlen_uint32_bytes invokeId) as Hu.
  unfold write_read_response, read_response_bytes. rewrite E4.
  apply emits_answer; [lia|done|]. intros p Hp. rewrite E2.
  assert (is_byte 0xa4 /\ is_byte 0xa1) as [T1 T2] by by_eval.
  apply emits_element; [done|lia|done|].
  set (q := p + zlen (ber_tl 0xa4 (zlen content)) + zlen (spec_bytes accessSpec)).
  apply (emits_bind _ _ q _ _ q); [| |done].
  - subst q. destruct accessSpec as [a|]; [by apply emits_spec|].
    eapply emits_eq; [apply emits_ret| |done]. change (spec_bytes None) with (@nil Z). rewrite zlen_nil. lia.
  - rewrite E1. apply emits_element; [done|lia|done|].
    eapply emits_eq; [by apply emits_values| |done].
    subst q. rewrite Hp, E3. rewrite !zlen_ber_tl_tlv by (rewrite ?zlen_app in *; lia).
    unfold read_response_bytes, answer_bytes. rewrite !zlen_app. lia.
Qed.
End Response.

Lemma read_response_fits {FS} codec invokeId values accessSpec (s : Service FS) es :
  Forall encodable values -> opt_spec_ok accessSpec -> zlen (values_bytes values) < 500000 ->
  has_room (se_response s) (mc_maxPduSize (se_connection s)) ->
  let bs := read_response_bytes invokeId values accessSpec in
  encodeReadResponse codec invokeId values accessSpec s es =
    if decide (zlen bs <= mc_maxPduSize (se_connection s))
    then Done (tt, se_set_response (respond (se_response s) bs) s, es)
    else mmsServer_createConfirmedErrorPdu codec invokeId MMS_ERROR_SERVICE_OTHER s es.
Proof.
  intros Hv Hs Hz Hr bs. unfold encodeReadResponse.
  destruct (read_lengths_spec invokeId values accessSpec Hv Hs Hz) as (l & El & E1 & E2 & E3 & E4).
  destruct (response_bounds values accessSpec Hs Hz) as (B1 & B2 & B3).
  pose proof (zlen_invoke_bytes invokeId) as Hi. pose proof (zlen_uint32_bytes invokeId) as Hu.
  assert (tl_size (rl_contentSize l) = zlen bs) as Et
    by (rewrite E3; unfold bs, read_response_bytes, answer_bytes; apply tl_size_tlv; rewrite zlen_app; lia).
  unfold cbind at 1, clift at 1. rewrite El. cbn [rbind]. unfold the_connection. unfold cbind, cget. cbn [rbind].
  rewrite Et. case_decide as Hd.
  - zdec. rewrite (encode_response_emits _ bs); [done| |].
    + intros buffer. by apply emits_read_response.
    + unfold has_room in *. destruct (bb_buffer _); [|done]. lia.
  - by zdec.
Qed.

(** * Requests *)

(** What the request for a variable is answered with: its value in the cache, or an error
    where there is no such domain or variable. *)
Inductive answers (st : IedServer) : ListOfVariableSeq -> MmsValue -> Prop :=
| answer_value domainId itemId domain variable v :
    zlen domainId < 65 -> zlen itemId < 65 ->
    MmsDevice_getDomain (sv_mmsDevice st) (c_chars domainId) = Some domain ->
    MmsDomain_getNamedVariable domain (c_chars itemId) = Done (Some variable) ->
    cached_value st (md_address domain) (c_chars itemId) = Done (Some v) ->
    answers st (mkVariableSeq (VariableSpecification_name (ObjectName_domainspecific domainId itemId)) None) v
| answer_no_domain domainId itemId alternateAccess : zlen domainId < 65 ->
    MmsDevice_getDomain (sv_mmsDevice st) (c_chars domainId) = None ->
    answers st (mkVariableSeq (VariableSpecification_name (ObjectName_domainspecific domainId itemId)) alternateAccess)
      (error_value ACCESS_ERROR_NONE_EXISTENT)
| answer_no_variable domainId itemId domain alternateAccess : zlen domainId < 65 -> zlen itemId < 65 ->
    MmsDevice_getDomain (sv_mmsDevice st) (c_chars domainId) = Some domain ->
    MmsDomain_getNamedVariable domain (c_chars itemId) = Done None ->
    answers st (mkVariableSeq (VariableSpecification_name (ObjectName_domainspecific domainId itemId)) alternateAccess)
      (error_value ACCESS_ERROR_NONE_EXISTENT).

Section Requests.
Context {FS : Type} (w : World) (codec : AsnCodec).
Implicit Types (s : Service FS) (es : list ServerEvent).

Lemma short_identifier identifier : zlen identifier < 65 -> mmsMsg_copyAsn1IdentifierToStringBuffer identifier 65 = c_chars identifier.
Proof. intros H. unfold mmsMsg_copyAsn1IdentifierToStringBuffer. by zdec. Qed.

Lemma read_cached domain itemId v s es : cached_value (se_server s) (md_address domain) itemId = Done (Some v) ->
  read_value w domain itemId s es = Done (Some v, s, es).
Proof.
  intros Hc. unfold read_value, the_connection. rewrite bind_get. unfold on_server, mmsServer_getValue, server.
  rewrite bind_get, (bind_lift _ _ _ _ _ Hc). by destruct s.
Qed.

Lemma resultList_cached variable domain itemId values v s es : cached_value (se_server s) (md_address domain) itemId = Done (Some v) ->
  addNamedVariableToResultList w (Some variable) domain itemId values None s es = Done (values ++ [v], s, es).
Proof.
  intros Hc. pose proof (read_cached domain itemId v s es Hc) as Hr.
  unfold addNamedVariableToResultList. destruct variable; unfold cbind; rewrite Hr; done.
Qed.

Lemma read_variable_answers varSpec v values s es : answers (se_server s) varSpec v ->
  read_variable w varSpec values s es = Done (Some (values ++ [v]), s, es).
Proof.
  destruct 1 as [domainId itemId domain variable v Hd Hi Ed Ev Hc|domainId itemId a Hd Ed|domainId itemId domain a Hd Hi Ed Ev];
    unfold read_variable, the_server; cbn [vs_variableSpecification vs_alternateAccess]; rewrite bind_get, (short_identifier domainId), Ed by done.
  - rewrite (short_identifier itemId) by done. rewrite (bind_lift _ _ _ _ _ Ev). unfold cbind at 1.
    by rewrite (resultList_cached _ _ _ _ v).
  - done.
  - rewrite (short_identifier itemId) by done. by rewrite (bind_lift _ _ _ _ _ Ev).
Qed.

Lemma read_variables_answers varSpecs vs values s es : Forall2 (answers (se_server s)) varSpecs vs ->
  read_variables w varSpecs values s es = Done (Some (values ++ vs), s, es).
Proof.
  intros H. revert values. induction H as [|varSpec v varSpecs vs Hv _ IH]; intros values; cbn [read_variables].
  - by rewrite app_nil_r.
  - unfold cbind. rewrite (read_variable_answers _ v) by done. cbn [rbind]. rewrite IH. by rewrite <- app_assoc.
Qed.
End Requests.

(** C11: A request to read a list of variables is answered with their values, in the order
    of the request, and with an error value at the place of a variable or a domain that does
    not exist; nothing else changes. The variables have the names of domains and items of
    fewer than 65 octets, and those that exist are asked for as a whole, without alternate
    access, and have a value in the cache that the encoder announces with its exact size
    ([encodable]); together they are below 500000 octets. (A variable without a value leaves
    no place among the results.) The response buffer has room for a PDU of the negotiated
    size. The answer is the nested encoding of the invoke id and the values with exact
    lengths. It is written as a whole if it is no longer than the PDU size that was
    negotiated, and replaced by a service error otherwise. *)
Theorem read_request_answered {FS} w codec buffer invokeId id result varSpecs values (s : Service FS) es :
  ber_decode_MmsPdu codec buffer CONFIG_MMS_MAXIMUM_PDU_SIZE =
    Some (ConfirmedRequestPdu id (Request_read (mkReadRequest result (VariableAccessSpecification_listOfVariable varSpecs)))) ->
  Forall2 (answers (se_server s)) varSpecs values -> Forall encodable values -> zlen (values_bytes values) < 500000 ->
  has_room (se_response s) (mc_maxPduSize (se_connection s)) ->
  let bs := read_response_bytes invokeId values None in
  mmsServer_handleReadRequest w codec buffer invokeId s es =
    if decide (zlen bs <= mc_maxPduSize (se_connection s))
    then Done (tt, se_set_response (respond (se_response s) bs) s, es)
    else mmsServer_createConfirmedErrorPdu codec invokeId MMS_ERROR_SERVICE_OTHER s es.
Proof.
  intros Hc Hv He Hz Hr bs. unfold mmsServer_handleReadRequest. rewrite Hc. unfold handle_read, handleReadListOfVariablesRequest.
  cbn [rr_variableAccessSpecification]. unfold cbind at 1. rewrite (read_variables_answers _ _ values) by done. cbn [rbind app].
  by apply read_response_fits.
Qed.

Lemma read_request_answered_witness :
  let codec := demo_codec (demo_read_pdu ["GGIO1$SP$AnIn1$setMag"%string; "GGIO1$SP$Unknown"%string]) in
  let bs := [0xa1; 13; 0x02; 1; 7; 0xa4; 8; 0xa1; 6; 0x85; 1; 3; 0x80; 1; 10] in
  let s := demo_service demo_files demo_written in
  mmsServer_handleReadRequest demo_world codec (mk_ptr [] 0) 7 s [] = Done (tt, se_set_response (respond (se_response s) bs) s, []).
Proof.
  set (v := Simple 0 (V_INTEGER (mkAsn1 1 4 [3; 0; 0; 0]))). intros codec bs s.
  assert (bs = read_response_bytes 7 [v; error_value 10] None) as -> by (vm_compute; reflexivity).
  assert (zlen (read_response_bytes 7 [v; error_value 10] None) = 15) as El by (vm_compute; reflexivity).
  rewrite (read_request_answered demo_world codec (mk_ptr [] 0) 7 [7] None
    [demo_variable "GGIO1$SP$AnIn1$setMag" None; demo_variable "GGIO1$SP$Unknown" None] [v; error_value 10] s []); [rewrite El; reflexivity| | | | |].
  - reflexivity.
  - constructor; [|constructor; [|constructor]].
    + eapply answer_value; [vm_compute; reflexivity..].
    + eapply answer_no_variable; [vm_compute; reflexivity..].
  - constructor; [|constructor; [|constructor]].
    + apply encodable_simple; [|reflexivity]. split; [cbn; lia|]. split; [vm_compute; discriminate|]. split; [reflexivity|].
      repeat constructor; unfold is_byte; lia.
    + apply encodable_simple; exact I.
  - vm_compute. reflexivity.
  - unfold has_room. cbn. split; [lia|]. vm_compute. discriminate.
Defined.
