(* ===== verification/MmsMediation.v ===== *)
(** What the messages of a client do to the IED server: all that they change goes through
    a few operations. *)
From Stdlib Require Import String.
From stdpp Require Import base tactics numbers option gmap relations list.
From S2P Require Import Prelude Memory Buffers BerDecode BerEncode MmsValue Effects CString MmsTypeSpec Control Iec61850Common ReportControl Reporting ValueStore IedModel ServerState MmsMapping IedServer SampleServer MmsMappingFacts ServerInv ServerCreate MmsPdu MmsData MmsService MmsWriteService MmsReadService MmsNameList MmsAttributes Conversions MmsFiles MmsDispatch SampleService.

(** * Operations *)

Section Touch.
Context (w : World) (connection : Z).

End Touch.

Section Mediated.
Context {FS : Type} (w : World).
Implicit Types (s : Service FS) (es : list ServerEvent).

Definition handle_of s : Z := mc_handle (se_connection s).


(** The code does not touch the server. *)
Definition stays {A} (c : MS FS A) : Prop :=
  forall s es a s' es', c s es = Done (a, s', es') -> se_server s' = se_server s /\ es' = es /\ handle_of s' = handle_of s.






(** ** Code that stays away from the server *)

Lemma stays_ret {A} (a : A) : stays (cret a).
Proof. by intros s es b s' es' [= -> -> ->]. Qed.
Lemma stays_lift {A} (m : res A) : stays (clift m).
Proof. intros s es b s' es' E. unfold clift in E. destruct m; try done. by injection E as -> -> ->. Qed.
Lemma stays_get {A} (f : Service FS -> A) : stays (cget f).
Proof. intros s es b s' es' E. unfold cget in E. injection E as _ <- <-. done. Qed.
Lemma stays_bind {A B} (c : MS FS A) (k : A -> MS FS B) : stays c -> (forall a, stays (k a)) -> stays (do! a := c in k a).
Proof.
  intros Hc Hk s es b s' es' E. apply cbind_inv in E as (a & s1 & es1 & E1 & E2).
  destruct (Hc _ _ _ _ _ E1) as (H1 & H2 & H3). destruct (Hk _ _ _ _ _ _ E2) as (K1 & K2 & K3). split_and!; congruence.
Qed.
Lemma stays_modify (f : Service FS -> Service FS) :
  (forall s, se_server (f s) = se_server s /\ handle_of (f s) = handle_of s) -> stays (cmodify f).
Proof. intros Hf s es b s' es' E. unfold cmodify in E. injection E as _ <- <-. destruct (Hf s) as [-> ->]. done. Qed.
Lemma stays_update f : (forall c, mc_handle (f c) = mc_handle c) -> stays (update_connection f).
Proof. intros Hf. apply stays_modify. intros s. split; [done|]. apply Hf. Qed.
Lemma stays_encode_response c : stays (encode_response c).
Proof.
  intros s es b s' es' E. unfold encode_response in E. destruct (bb_buffer (se_response s)); [|done]. cbn [defined rbind] in E.
  destruct (c _ _ _) as [[]| | |]; try done. cbn [rbind] in E. by injection E as <- <- <-.
Qed.
Lemma stays_der_encode codec pdu : stays (der_encode codec pdu).
Proof.
  intros s es b s' es' E. unfold der_encode in E. destruct (append_encoded _ _ _) as [[]| | |]; try done.
  cbn [rbind] in E. by injection E as <- <- <-.
Qed.
End Mediated.

Ltac head_of t := lazymatch t with ?f _ => head_of f | _ => t end.

(** Goes through code that stays away from the server; files and connections may change. *)
Ltac stays_step :=
  lazymatch goal with
  | |- stays (cbind _ _) => apply stays_bind; [|intros ?]
  | |- stays (cret _) => apply stays_ret
  | |- stays (clift _) => apply stays_lift
  | |- stays (cget _) => apply stays_get
  | |- stays (encode_response _) => apply stays_encode_response
  | |- stays (der_encode _ _) => apply stays_der_encode
  | |- stays (update_connection _) => apply stays_update; intros ?; reflexivity
  | |- stays (cmodify _) => apply stays_modify; intros ?; split; reflexivity
  | |- stays (match ?x with _ => _ end) => destruct x
  | |- stays (if ?x then _ else _) => destruct x
  | |- stays ?c => let h := head_of c in unfold h; cbv beta zeta
  end.
Ltac stays_tac := repeat stays_step.

Section Services.
Context {FS : Type} `{FileSystem FS} (w : World) (codec : AsnCodec) (lib : TimeLib).
Implicit Types (s : Service FS) (es : list ServerEvent).

(** * The services that only answer *)

Lemma stays_error invokeId e : stays (FS := FS) (mmsServer_createConfirmedErrorPdu codec invokeId e).
Proof. stays_tac. Qed.
Lemma stays_reject invokeId e : stays (FS := FS) (mmsServer_writeMmsRejectPdu codec invokeId e).
Proof. stays_tac. Qed.


(** * Reading *)




End Services.


Section Reading.
Context {FS : Type} `{FileSystem FS} (w : World) (codec : AsnCodec) (lib : TimeLib).
Implicit Types (s : Service FS) (es : list ServerEvent).





End Reading.

Section Writing.
Context {FS : Type} (w : World) (codec : AsnCodec).
Implicit Types (s : Service FS) (es : list ServerEvent).

(** * Writing *)





(** * Lists of variables *)








End Writing.

(** * Messages *)

Section Messages.
Context {FS : Type} `{FileSystem FS} (w : World) (codec : AsnCodec) (lib : TimeLib).
Context (statusListener : option (MmsServerInfo -> bool -> MmsServerInfo)).
Implicit Types (s : Service FS) (es : list ServerEvent).





(** ** The association *)







End Messages.




(** Writing an element of an array: nobody is asked. *)

(** The selection of one element. *)
Definition select_index (octets : list Z) : option AlternateAccess := Some [Member_unnamed (mkSelection (Select_index octets) None)].

(** C12: A write to an element of an array asks nobody.  In every state that a server
    reaches from its model, if the variable is an array whose value is in the cache and the
    element takes the written value, the write is answered with success and the element
    is the new value: whatever the functional constraint is, whatever the write access
    policies and the access handlers of the application say; and no observer, no report
    and no GOOSE control block is told.  (A write to the whole array would have passed
    [mmsServer_setValue].) *)
Theorem array_element_write_unchecked {FS} sizes malloc w domainId itemId domain n count t place array element index octets
    data value new (s : Service FS) es es0 :
  server_reachable sizes malloc (se_server s) es0 ->
  MmsDevice_getDomain (sv_mmsDevice (se_server s)) (c_chars domainId) = Some domain ->
  MmsDomain_getNamedVariable domain (c_chars itemId) = Done (Some (SpecArray n count t)) ->
  MmsServer_getValueFromCache (sv_valueCaches (se_server s)) (md_address domain) (c_chars itemId) = Done (Some place) ->
  load_value (se_server s) place = Done array -> MmsValue_getElement array index = Some element ->
  asn_INTEGER2long (Some octets) = Some index -> index < 2 ^ 31 ->
  mmsMsg_parseDataElement data = Done (Some value) -> MmsValue_update element value = Done (true, new) ->
  exists caches,
    write_item w (mkVariableSeq (VariableSpecification_name (ObjectName_domainspecific domainId itemId)) (select_index octets)) data s es
      = Done (DATA_ACCESS_ERROR_SUCCESS, se_set_server (sv_set_valueCaches caches (se_server s)) s, es) /\
    load caches (child_at place (Z.to_nat index)) = Some new.
Proof.
  intros Hr Hd Hv Hp Ha He Hi Hlt Hpa Hu. destruct (reachable_server _ _ _ _ Hr) as [[_ (made & _ & Hwf) _ _ _ _ _] _].
  assert (0 <= index) as Hge.
  { unfold MmsValue_getElement in He. destruct array as [|d a cs]; [done|]. destruct (index <? 0) eqn:E; [done|]. lia. }
  assert (load (sv_valueCaches (se_server s)) (child_at place (Z.to_nat index)) = Some element) as Hload.
  { unfold load_value in Ha. destruct (load (sv_valueCaches (se_server s)) place) as [v|] eqn:El; [|done]. injection Ha as ->.
    by eapply load_element. }
  exists (store (sv_valueCaches (se_server s)) (child_at place (Z.to_nat index)) new). split.
  - unfold write_item, the_server, select_index. cbn [vs_variableSpecification vs_alternateAccess].
    rewrite bind_get, Hd. rewrite (bind_lift _ _ _ _ _ Hv). unfold write_variable, check_alternateAccess.
    cbn [mmsServer_isIndexAccess selectAccess]. rewrite (bind_lift _ _ _ _ None) by done. rewrite (bind_lift _ _ _ _ _ Hpa).
    unfold write_element, the_server. rewrite bind_get, (bind_lift _ _ _ _ _ Hp), (bind_lift _ _ _ _ _ Ha).
    rewrite (bind_lift _ _ _ _ index).
    2: { unfold mmsServer_getLowIndex. cbn [first_unnamed rbind selectAccess]. rewrite Hi. cbn [defined rbind]. rewrite i32_small by lia. done. }
    rewrite He, (bind_lift _ _ _ _ _ Hu). done.
  - rewrite (load_store made _ Hwf _ element) by (try done; by left). by rewrite bool_decide_true.
Qed.

Lemma array_model_wf : model_wf array_model.
Proof. split; [constructor; [split|constructor]|constructor]; apply (bool_decide_unpack _); vm_compute; exact I. Qed.

Lemma array_server_created : IedServer_create demo_world (fun _ => None) array_model = Done array_server.
Proof. vm_compute. reflexivity. Qed.

(** A status value of the sample server is written, which the write handler refuses. *)
Lemma array_element_write_unchecked_witness :
  exists domain, MmsDevice_getDomain (sv_mmsDevice array_server) (lit "IEDLD0") = Some domain /\
    mmsServer_setValue demo_world domain (lit "GGIO1$ST$Ind1$val") (Complex 0 true []) 7 array_server []
      = Done (DATA_ACCESS_ERROR_OBJECT_ACCESS_DENIED, array_server, []) /\
    exists place caches,
      write_item demo_world (mkVariableSeq (VariableSpecification_name (ObjectName_domainspecific (lit "IEDLD0") (lit "GGIO1$ST$Ind1$val")))
          (select_index [1])) (Data_integer [5]) (demo_service demo_files array_server) []
        = Done (DATA_ACCESS_ERROR_SUCCESS, demo_service demo_files (sv_set_valueCaches caches array_server), []) /\
      load caches (child_at place 1) = Some (Simple 0 (V_INTEGER (mkAsn1 1 4 [5; 0; 0; 0]))).
Proof.
  eexists. split; [vm_compute; reflexivity|]. split; [vm_compute; reflexivity|].
  eexists. eapply (array_element_write_unchecked (w_sizes demo_world) (w_malloc demo_world) demo_world (lit "IEDLD0") (lit "GGIO1$ST$Ind1$val")
    _ _ _ _ _ _ _ 1 [1] (Data_integer [5]) _ _ (demo_service demo_files array_server) [] []).
  - eapply sr_create; [reflexivity..|exact array_model_wf|exact array_server_created].
  - vm_compute. reflexivity.
  - vm_compute. reflexivity.
  - vm_compute. reflexivity.
  - vm_compute. reflexivity.
  - vm_compute. reflexivity.
  - vm_compute. reflexivity.
  - lia.
  - vm_compute. reflexivity.
  - vm_compute. reflexivity.
Defined.
