(* ===== verification/MmsFilesFacts.v ===== *)
(** Reading a file: the chunks that the server sends are the file, from its beginning. *)
From Stdlib Require Import String.
From stdpp Require Import base tactics numbers option gmap list.
From S2P Require Import Prelude Memory Buffers BerDecode BerEncode AccessResult Effects CString ServerState SampleServer MmsPdu MmsData MmsService Conversions MmsFiles SampleService MmsReadFacts.

(** * The answer to one request *)

(** The service has a tag of two octets. *)
Definition file_service (tag : Z) (content : list Z) : list Z := 0xbf :: tlv (tag, content).

Definition chunk_content (chunk : list Z) (moreFollows : bool) : list Z :=
  tlv (0x80, chunk) ++ if moreFollows then [] else tlv (0x81, [0]).

Definition chunk_answer (invokeId : Z) (chunk : list Z) (moreFollows : bool) : list Z :=
  answer_bytes invokeId (file_service 0x49 (chunk_content chunk moreFollows)).

Lemma zlen_chunk_content chunk moreFollows :
  zlen (chunk_content chunk moreFollows) = zlen (tlv (0x80, chunk)) + if moreFollows then 0 else 3.
Proof. unfold chunk_content. rewrite zlen_app. by destruct moreFollows. Qed.

Lemma zlen_file_service tag content : zlen (file_service tag content) = 1 + zlen (tlv (tag, content)).
Proof. unfold file_service. by rewrite zlen_cons. Qed.

Lemma zlen_tlv_range e : 2 + zlen (snd e) <= zlen (tlv e) <= 4 + zlen (snd e).
Proof. rewrite zlen_tlv. pose proof (determineLengthSize_range (zlen (snd e))). lia. Qed.

Lemma zlen_tlv_long e : 256 <= zlen (snd e) -> zlen (tlv e) = 4 + zlen (snd e).
Proof. intros Hl. rewrite zlen_tlv. unfold BerEncoder_determineLengthSize. zdec. lia. Qed.

Lemma chunk_sizes (chunk : list Z) (moreFollows : bool) : zlen chunk < 100000 ->
  u32 (tl_size (zlen chunk) + (if moreFollows then 0 else 3)) = zlen (chunk_content chunk moreFollows) /\
  zlen (chunk_content chunk moreFollows) < 100008.
Proof.
  intros Hz. pose proof (zlen_tlv_range (0x80, chunk)) as R. cbn [snd] in R. pose proof (zlen_nonneg chunk).
  rewrite (tl_size_tlv 0x80) by lia. rewrite zlen_chunk_content. destruct moreFollows; rewrite u32_small by lia; lia.
Qed.

Lemma emits_chunk_answer invokeId chunk moreFollows buffer : bytes chunk -> zlen chunk < 100000 ->
  Emits buffer 0
    (encode_file_read invokeId (zlen (uint32_bytes invokeId)) (zlen chunk) chunk moreFollows buffer 0)
    (zlen (chunk_answer invokeId chunk moreFollows)) (chunk_answer invokeId chunk moreFollows).
Proof.
  intros Hb Hz. destruct (chunk_sizes chunk moreFollows Hz) as [E Hc]. set (content := chunk_content chunk moreFollows) in *.
  pose proof (zlen_invoke_bytes invokeId) as Hi. pose proof (zlen_uint32_bytes invokeId) as Hu.
  pose proof (zlen_tlv_range (0x49, content)) as Rc. pose proof (zlen_tlv_range (0x80, chunk)) as Rk. cbn [snd] in *.
  pose proof (zlen_nonneg content). pose proof (zlen_nonneg chunk).
  assert (is_byte 0x49 /\ is_byte 0x80) as [T1 T2] by by_eval.
  unfold encode_file_read, chunk_answer. cbv zeta. rewrite E, (tl_size_tlv 0x49) by lia. fold content.
  apply emits_answer; [rewrite zlen_file_service; lia| |].
  { rewrite zlen_app, zlen_file_service, u32_small by lia. lia. }
  intros p Hp.
  assert (content = ber_tl 0x80 (zlen chunk) ++ chunk ++ (if moreFollows then [] else tlv (0x81, [0]))) as Ec
    by (unfold content, chunk_content; rewrite app_assoc, ber_tl_tlv by (done || lia); done).
  set (q := p + 1 + zlen (ber_tl 0x49 (zlen content))). set (r := q + zlen (ber_tl 0x80 (zlen chunk))).
  assert (zlen (answer_bytes invokeId (file_service 0x49 content)) = r + zlen chunk + if moreFollows then 0 else 3) as ->.
  { unfold r, q. rewrite Hp. rewrite u32_small by lia.
    replace (zlen (uint32_bytes invokeId) + 2 + 1 + zlen (tlv (73, content))) with (zlen (invoke_bytes invokeId ++ file_service 0x49 content))
      by (rewrite zlen_app, zlen_file_service; lia).
    rewrite !zlen_ber_tl_tlv by (rewrite ?zlen_app, ?zlen_file_service; lia). unfold answer_bytes.
    rewrite zlen_app, zlen_file_service. pose proof (zlen_chunk_content chunk moreFollows) as Ez. fold content in Ez. lia. }
  change (file_service 0x49 content) with ([u8 0xbf] ++ tlv (0x49, content)).
  apply (emits_bind _ _ (p + 1) _ _ (p + 1)); [apply emits_put| |done].
  apply emits_element; [done|lia|done|].
  fold q. rewrite Ec. apply (emits_bind _ _ r _ _ r); [apply emits_encodeTL| |done].
  apply (emits_bind _ _ (r + zlen chunk) _ _ (r + zlen chunk)); [by apply emits_put_list| |done]. destruct moreFollows.
  - eapply emits_eq; [apply emits_ret|lia|done].
  - eapply emits_eq; [apply (emits_tlv_boolean 0x81 false); by_eval|reflexivity|done].
Qed.

(** * The chunks of a file *)

(** The reference: full chunks, and a last one that is not longer. *)
Fixpoint chunks (fuel : nat) (bs : list Z) : list (list Z * bool) :=
  match fuel with
  | O => []
  | S fuel =>
      if maxFileChunkSize <? zlen bs
      then (take (Z.to_nat maxFileChunkSize) bs, true) :: chunks fuel (drop (Z.to_nat maxFileChunkSize) bs)
      else [(bs, false)]
  end.

Definition file_chunks (bs : list Z) : list (list Z * bool) := chunks (S (length bs)) bs.

Lemma chunks_concat fuel bs : (length bs < fuel)%nat -> concat (map fst (chunks fuel bs)) = bs.
Proof.
  revert bs. induction fuel as [|fuel IH]; intros bs Hl; [lia|]. cbn [chunks]. zcase; cbn [map concat fst].
  - rewrite IH; [apply take_drop|]. rewrite length_drop. unfold maxFileChunkSize, CONFIG_MMS_MAXIMUM_PDU_SIZE, zlen in *. lia.
  - apply app_nil_r.
Qed.

(** A client that sends [n] requests to read on from the file. *)
Section Client.
Context {FS : Type} `{FileSystem FS} (codec : AsnCodec) (buffer : ptr) (bufPos maxBufPos : Z).

Fixpoint read_requests (n : nat) (invokeId : Z) : MS FS (list (list Z)) :=
  match n with
  | O => cret []
  | S n =>
      do! _ := mmsServer_handleFileReadRequest codec buffer bufPos maxBufPos invokeId in
      do! response := cget se_response in
      do! responses := read_requests n invokeId in
      cret (bb_bytes response :: responses)
  end.
End Client.

Section Transfer.
Context {FS : Type} `{FileSystem FS}.

(** The bytes between the position of a handle and the end of its file; reading takes them
    off in their order. *)
Context (remaining : FS -> Z -> option (list Z)).
Context (read_law : forall files h n rest, remaining files h = Some rest -> 0 <= n ->
  exists files', fs_readFile files h n = (take (Z.to_nat n) rest, files') /\ remaining files' h = Some (drop (Z.to_nat n) rest)).
Context (codec : AsnCodec) (lib : TimeLib).
Implicit Types (s : Service FS) (es : list ServerEvent).

(** The file is open by its number; [left] is what is to be sent. *)
Record transferring s (id : Z) (left : list Z) : Prop := mk_transferring {
  tf_frsm : exists i r size h rest, getFrsm (se_connection s) id = Some (i, mkFrsm id r size (Some h)) /\
    0 <= r <= size /\ size < 2 ^ 32 /\ remaining (se_files s) h = Some rest /\ size - r <= zlen rest /\
    left = take (Z.to_nat (size - r)) rest;
  tf_bytes : bytes left;
  tf_room : has_room (se_response s) 16100 }.

Lemma getFrsm_set connection id i f f' next : getFrsm connection id = Some (i, f) -> fileHandle f' <> None -> frsmId f' = id ->
  getFrsm (mc_set_files next (<[i := f']> (mc_frsms connection)) connection) id = Some (i, f').
Proof.
  intros (Hl & _ & Hf)%list_find_Some Hh Hi. apply list_find_Some. cbn [mc_frsms mc_set_files].
  split; [apply list_lookup_insert_eq; by eapply lookup_lt_Some|]. split; [done|].
  intros j y Hj Hlt. rewrite list_lookup_insert_ne in Hj by lia. by eapply Hf.
Qed.

Lemma has_room_respond response bs n : has_room response n -> zlen bs <= n -> has_room (respond response bs) n.
Proof.
  unfold has_room, respond. destruct (bb_buffer response) as [p|]; [|done]. cbn [bb_buffer p_base p_mem].
  intros [H0 H1] Hz. rewrite zlen_splice; lia.
Qed.

Lemma zlen_chunk_answer invokeId chunk moreFollows : zlen chunk <= maxFileChunkSize ->
  zlen (chunk_answer invokeId chunk moreFollows) <= 16100 /\
  (zlen chunk = maxFileChunkSize -> CONFIG_MMS_MAXIMUM_PDU_SIZE < zlen (chunk_answer invokeId chunk moreFollows)).
Proof.
  intros Hz. pose proof (zlen_invoke_bytes invokeId) as Hi. pose proof (zlen_uint32_bytes invokeId) as Hu.
  unfold maxFileChunkSize, CONFIG_MMS_MAXIMUM_PDU_SIZE in *.
  pose proof (zlen_tlv_range (0x49, chunk_content chunk moreFollows)) as R1. pose proof (zlen_tlv_range (0x80, chunk)) as R2.
  cbn [snd] in R1, R2. pose proof (zlen_chunk_content chunk moreFollows) as Hc.
  set (service := file_service 0x49 (chunk_content chunk moreFollows)). pose proof (zlen_file_service 0x49 (chunk_content chunk moreFollows)) as Hs.
  fold service in Hs. pose proof (zlen_tlv_range (0xa1, invoke_bytes invokeId ++ service)) as R3. cbn [snd] in R3.
  rewrite zlen_app in R3. unfold chunk_answer. fold service. unfold answer_bytes. split; [destruct moreFollows; lia|].
  intros E. pose proof (zlen_tlv_long (0x80, chunk)) as L1. pose proof (zlen_tlv_long (0x49, chunk_content chunk moreFollows)) as L2.
  pose proof (zlen_tlv_long (0xa1, invoke_bytes invokeId ++ service)) as L3. cbn [snd] in *. rewrite zlen_app in L3. destruct moreFollows; lia.
Qed.

(** One request. *)
Lemma read_step s es id left buffer bufPos maxBufPos invokeId :
  transferring s id left -> BerDecoder_decodeUint32 buffer (maxBufPos - bufPos) bufPos = Done (u32 id) -> id = i32 (u32 id) ->
  let n := Z.min maxFileChunkSize (zlen left) in
  let more := maxFileChunkSize <? zlen left in
  let chunk := take (Z.to_nat n) left in
  exists s', mmsServer_handleFileReadRequest codec buffer bufPos maxBufPos invokeId s es = Done (tt, s', es) /\
    bb_bytes (se_response s') = chunk_answer invokeId chunk more /\ zlen chunk = n /\
    transferring s' id (drop (Z.to_nat n) left) /\ se_response s' = respond (se_response s) (chunk_answer invokeId chunk more).
Proof using read_law.
  intros [(i & r & size & h & rest & Hf & Hr & Hsize & Hrest & Hl & Hleft) Hb Hroom] Hd Hid n more chunk.
  assert (zlen left = size - r) as Hz by (subst left; unfold zlen in *; rewrite length_take; lia).
  assert (0 < maxFileChunkSize) as Hmax by (unfold maxFileChunkSize, CONFIG_MMS_MAXIMUM_PDU_SIZE; lia).
  assert (0 <= n <= zlen left /\ n <= maxFileChunkSize /\ maxFileChunkSize = 15985) as Hnn by (unfold n; split_and!; [lia..|reflexivity]).
  assert (zlen chunk = n) as Hn by (unfold chunk, zlen in *; rewrite length_take; lia).
  assert (next_chunk (mkFrsm id r size (Some h)) = (n, more)) as Hnext.
  { unfold next_chunk. cbn [fileSize readPosition]. rewrite u32_small by lia. unfold n, more. rewrite Hz.
    destruct (Z.ltb_spec maxFileChunkSize (size - r)); f_equal; lia. }
  destruct (read_law _ _ n _ Hrest ltac:(lia)) as (files' & Hread & Hrest').
  assert (take (Z.to_nat n) rest = chunk) as Echunk.
  { unfold chunk. subst left. rewrite take_take. f_equal. lia. }
  assert (bytes chunk) as Hbc by (by apply Forall_take).
  pose proof (zlen_chunk_answer invokeId chunk more ltac:(lia)) as [Hza _].
  eexists. split.
  { unfold mmsServer_handleFileReadRequest. rewrite (bind_lift _ _ _ _ _ Hd). unfold the_connection. rewrite bind_get, <- Hid, Hf.
    unfold createFileReadResponse. rewrite Hnext. unfold set_frsm, update_connection. rewrite bind_modify.
    rewrite (bind_lift _ _ _ _ _ (UInt32determineEncodedSize_spec invokeId)), (bind_lift _ _ _ _ h) by done.
    unfold the_files. rewrite bind_get. cbn [se_files se_set_connection]. rewrite Hread, bind_modify.
    rewrite Echunk, <- Hn. apply (encode_response_emits _ (chunk_answer invokeId chunk more)).
    - intros b. apply emits_chunk_answer; [done|lia].
    - cbn [se_response se_set_files se_set_connection]. unfold has_room in *. destruct (bb_buffer _); [lia|done]. }
  cbn [se_response se_set_response se_set_files se_set_connection]. split; [|split; [done|]].
  { apply bb_bytes_respond. unfold has_room in *. destruct (bb_buffer _); [lia|done]. }
  split; [|done]. split; [|by apply Forall_drop|by apply has_room_respond].
  exists i, (u32 (r + zlen chunk)), size, h, (drop (Z.to_nat n) rest). cbn [se_connection se_files se_set_response se_set_files se_set_connection readPosition fileSize fileHandle frsmId].
  rewrite u32_small by lia. split_and!; try done; try lia.
  - by eapply getFrsm_set.
  - unfold zlen in *. rewrite length_drop. lia.
  - subst left. rewrite take_drop_commute. f_equal. f_equal. lia.
Qed.

Lemma read_requests_chunks fuel s es id left buffer bufPos maxBufPos invokeId :
  transferring s id left -> BerDecoder_decodeUint32 buffer (maxBufPos - bufPos) bufPos = Done (u32 id) -> id = i32 (u32 id) ->
  (length left < fuel)%nat ->
  exists s', read_requests codec buffer bufPos maxBufPos (length (chunks fuel left)) invokeId s es =
    Done (map (fun c => chunk_answer invokeId c.1 c.2) (chunks fuel left), s', es).
Proof using read_law.
  intros Ht Hd Hid. revert s left Ht. induction fuel as [|fuel IH]; intros s left Ht Hl; [lia|].
  destruct (read_step s es id left buffer bufPos maxBufPos invokeId Ht Hd Hid) as (s1 & E1 & Hr1 & Hn & Ht1 & _).
  cbn [chunks]. destruct (Z.ltb_spec maxFileChunkSize (zlen left)) as [Hlt|Hge].
  - rewrite Z.min_l in Hr1, Hn, Ht1 by lia. cbn [length map read_requests fst snd].
    destruct (IH s1 _ Ht1) as (s2 & E2); [rewrite length_drop; unfold maxFileChunkSize, CONFIG_MMS_MAXIMUM_PDU_SIZE, zlen in *; lia|].
    exists s2. unfold cbind at 1. rewrite E1. cbn [rbind]. rewrite bind_get. unfold cbind at 1. rewrite E2. cbn [rbind].
    by rewrite Hr1.
  - rewrite Z.min_r in Hr1, Hn, Ht1 by lia. cbn [length map read_requests fst snd]. exists s1.
    unfold cbind at 1. rewrite E1. cbn [rbind]. rewrite bind_get, bind_ret. rewrite Hr1.
    by rewrite take_ge by (unfold zlen; lia).
Qed.

End Transfer.

(** * Opening *)

Definition attributes_content (fileSize : Z) (gtString : list Z) : list Z :=
  tlv (0x80, uint32_bytes fileSize) ++ tlv (0x81, gtString).

Definition open_content (id fileSize : Z) (gtString : list Z) : list Z :=
  tlv (0x80, uint32_bytes (u32 id)) ++ tlv (0xa1, attributes_content fileSize gtString).

Definition open_answer (invokeId id fileSize : Z) (gtString : list Z) : list Z :=
  answer_bytes invokeId (file_service 0x48 (open_content id fileSize gtString)).

Lemma zlen_tlv_short tag bs : zlen bs < 128 -> zlen (tlv (tag, bs)) = 2 + zlen bs.
Proof. intros Hz. rewrite tlv_short by done. rewrite !zlen_cons. lia. Qed.

Lemma fileAttributes_size_spec fileSize gtString : zlen gtString < 30 ->
  fileAttributes_size (zlen (uint32_bytes fileSize)) (zlen gtString) = zlen (attributes_content fileSize gtString) /\
  zlen (attributes_content fileSize gtString) < 50.
Proof.
  intros Hz. pose proof (zlen_uint32_bytes fileSize). pose proof (zlen_nonneg gtString).
  unfold fileAttributes_size, attributes_content. rewrite (tl_size_tlv 0x80), zlen_app, !zlen_tlv_short by lia.
  rewrite u32_small by lia. lia.
Qed.

Lemma emits_fileAttributes fileSize gtString buffer pos : bytes gtString -> zlen gtString < 30 ->
  Emits buffer pos (encodeFileAttributes 0xa1 (zlen (uint32_bytes fileSize)) fileSize gtString buffer pos)
    (pos + zlen (tlv (0xa1, attributes_content fileSize gtString))) (tlv (0xa1, attributes_content fileSize gtString)).
Proof.
  intros Hb Hz. destruct (fileAttributes_size_spec fileSize gtString Hz) as [E Hc]. pose proof (zlen_uint32_bytes fileSize).
  unfold encodeFileAttributes. rewrite E. assert (is_byte 0xa1 /\ is_byte 0x80 /\ is_byte 0x81) as (T1 & T2 & T3) by by_eval.
  apply emits_element; [done|lia|done|].
  eapply emits_eq; [eapply emits_bind; [apply emits_encodeTL|eapply emits_bind;
    [apply emits_encodeUInt32|apply emits_tlv_octets; [exact Hb|reflexivity|done]|reflexivity]|reflexivity]| |].
  - rewrite !zlen_ber_tl_tlv by lia. unfold attributes_content. rewrite !zlen_app. lia.
  - unfold attributes_content. by rewrite app_assoc, ber_tl_tlv by (done || lia).
Qed.

Lemma emits_file_open invokeId id fileSize gtString buffer : bytes gtString -> zlen gtString < 30 ->
  Emits buffer 0
    (encode_file_open invokeId (zlen (uint32_bytes invokeId)) (u32 id) (zlen (uint32_bytes (u32 id)))
      (zlen (uint32_bytes fileSize)) fileSize gtString buffer 0)
    (zlen (open_answer invokeId id fileSize gtString)) (open_answer invokeId id fileSize gtString).
Proof.
  intros Hb Hz. destruct (fileAttributes_size_spec fileSize gtString Hz) as [E Hc]. pose proof (zlen_uint32_bytes (u32 id)) as Hid.
  pose proof (zlen_uint32_bytes invokeId) as Hu. pose proof (zlen_invoke_bytes invokeId) as Hi. pose proof (zlen_nonneg (attributes_content fileSize gtString)).
  set (content := open_content id fileSize gtString).
  assert (zlen content = zlen (attributes_content fileSize gtString) + 2 + (zlen (uint32_bytes (u32 id)) + 2)) as Ec
    by (unfold content, open_content; rewrite zlen_app, !zlen_tlv_short by lia; lia).
  pose proof (zlen_tlv_short 0x48 content ltac:(lia)) as Ht. pose proof (zlen_file_service 0x48 content) as Hs.
  assert (is_byte 0x48 /\ is_byte 0x80) as [T1 T2] by by_eval.
  unfold encode_file_open. rewrite E. cbv zeta. rewrite <- Ec, (u32_small (zlen content)) by lia. rewrite (tl_size_tlv 0x48), (u32_small (_ + 1 + _)) by lia.
  unfold open_answer. fold content.
  apply emits_answer; [lia|rewrite zlen_app; lia|]. intros p Hp.
  set (q := p + 1 + zlen (ber_tl 0x48 (zlen content))).
  assert (zlen (answer_bytes invokeId (file_service 0x48 content)) = q + zlen content) as ->.
  { unfold q. rewrite Hp. replace (zlen (uint32_bytes invokeId) + 2 + 1 + zlen (tlv (72, content))) with (zlen (invoke_bytes invokeId ++ file_service 0x48 content))
      by (rewrite zlen_app; lia).
    rewrite !zlen_ber_tl_tlv by (rewrite ?zlen_app; lia). unfold answer_bytes. rewrite zlen_app. lia. }
  change (file_service 0x48 content) with ([u8 0xbf] ++ tlv (0x48, content)).
  apply (emits_bind _ _ (p + 1) _ _ (p + 1)); [apply emits_put| |done].
  apply emits_element; [done|lia|done|]. fold q.
  eapply emits_eq; [eapply emits_bind; [apply emits_encodeTL|eapply emits_bind;
    [apply emits_encodeUInt32|by apply emits_fileAttributes|reflexivity]|reflexivity]| |].
  - rewrite !zlen_ber_tl_tlv by lia. unfold content, open_content. rewrite zlen_app. lia.
  - unfold content, open_content. by rewrite app_assoc, ber_tl_tlv by (done || lia).
Qed.

Lemma bytes_int_digits n base v : bytes (int_digits n base v).
Proof. revert base v. induction n as [|n IH]; intros base v; cbn [int_digits]; constructor; [apply u8_byte|apply IH]. Qed.

Lemma c_chars_sub s : bytes s -> bytes (c_chars s) /\ zlen (c_chars s) <= zlen s.
Proof.
  induction 1 as [|c s Hc _ [IH1 IH2]]; [split; [apply Forall_nil_2|done]|]. cbn [c_chars]. pose proof (zlen_nonneg s).
  destruct (c =? 0); [split; [constructor|rewrite zlen_cons; change (zlen (@nil Z)) with 0; lia]|].
  split; [by constructor|]. rewrite !zlen_cons. lia.
Qed.

Lemma generalized_time_ok lib t : bytes (generalized_time lib t) /\ zlen (generalized_time lib t) < 30.
Proof.
  unfold generalized_time. set (s := Conversions_msTimeToGeneralizedTime lib t).
  assert (bytes s /\ zlen s = 19) as [Hb Hz]; [|destruct (c_chars_sub s Hb); split; [done|lia]].
  unfold s, Conversions_msTimeToGeneralizedTime, Conversions_intToStringBuffer. split.
  - repeat apply Forall_app_2; try apply bytes_int_digits; repeat constructor; unfold is_byte; lia.
  - rewrite !zlen_app. unfold zlen. rewrite !length_int_digits. done.
Qed.

Lemma getFrsm_new connection id i f f' next : getFrsm connection id = None -> getFreeFrsm connection = Some (i, f) ->
  fileHandle f' <> None -> frsmId f' = id ->
  getFrsm (mc_set_files next (<[i := f']> (mc_frsms connection)) connection) id = Some (i, f').
Proof.
  intros Hn (Hl & _ & _)%list_find_Some Hh Hi. apply list_find_Some. cbn [mc_frsms mc_set_files].
  split; [apply list_lookup_insert_eq; by eapply lookup_lt_Some|]. split; [done|].
  intros j y Hj Hlt. rewrite list_lookup_insert_ne in Hj by lia. apply list_find_None in Hn.
  rewrite Forall_lookup in Hn. by eapply Hn.
Qed.

Lemma chunks_long fuel bs readId : Forall (fun c => c.2 = true -> CONFIG_MMS_MAXIMUM_PDU_SIZE < zlen (chunk_answer readId c.1 c.2)) (chunks fuel bs).
Proof.
  revert bs. induction fuel as [|fuel IH]; intros bs; cbn [chunks]; [constructor|]. zcase; [|by constructor].
  constructor; [|apply IH]. intros _. cbn [fst snd].
  assert (zlen (take (Z.to_nat maxFileChunkSize) bs) = maxFileChunkSize) as E
    by (unfold maxFileChunkSize, CONFIG_MMS_MAXIMUM_PDU_SIZE, zlen in *; rewrite length_take; lia).
  by apply zlen_chunk_answer; rewrite E.
Qed.

(** What a file that has been opened sends from then on. *)
Lemma open_file_transferring {FS} `{FileSystem FS} (remaining : FS -> Z -> option (list Z)) codec lib (s : Service FS) es
    openId filename position content h files1 t i f :
  let id := mc_nextFrsmId (se_connection s) in
  getFreeFrsm (se_connection s) = Some (i, f) -> getFrsm (se_connection s) id = None ->
  fs_openFile (se_files s) filename false = (Some h, files1) -> remaining files1 h = Some content ->
  fs_getFileInfo files1 filename = Some (zlen content, t) -> 0 <= position <= zlen content -> zlen content < 2 ^ 32 ->
  bytes content -> has_room (se_response s) 16100 ->
  let bs := open_answer openId id (zlen content) (generalized_time lib t) in
  exists s1, open_file codec lib openId filename position s es = Done (tt, s1, es) /\ se_response s1 = respond (se_response s) bs /\
    zlen bs <= 16100 /\ transferring remaining s1 id (take (Z.to_nat (zlen content - position)) content).
Proof.
  intros id Hfree Hnone Hopen Hrest Hinfo Hpos Hsize Hb Hroom bs.
  destruct (generalized_time_ok lib t) as [Hgb Hgz].
  assert (zlen bs <= 16100) as Hbs.
  { destruct (fileAttributes_size_spec (zlen content) (generalized_time lib t) Hgz) as [_ Hc].
    pose proof (zlen_uint32_bytes (u32 id)). pose proof (zlen_uint32_bytes openId). pose proof (zlen_invoke_bytes openId) as Hi.
    unfold bs, open_answer, answer_bytes, file_service, open_content.
    set (a := attributes_content _ _) in *. pose proof (zlen_tlv_range (0xa1, a)) as R1. pose proof (zlen_tlv_range (0x80, uint32_bytes (u32 id))) as R2.
    pose proof (zlen_tlv_range (0x48, tlv (0x80, uint32_bytes (u32 id)) ++ tlv (0xa1, a))) as R3.
    match goal with |- zlen (tlv ?e) <= _ => pose proof (zlen_tlv_range e) as R4 end. cbn [snd] in *.
    rewrite zlen_app, zlen_cons in R4. rewrite zlen_app in R3. lia. }
  eexists. split; [|split; [|split; [done|]]].
  - unfold open_file, the_connection. rewrite bind_get, Hfree. unfold the_files. rewrite bind_get, Hopen, bind_modify.
    unfold getNextFrsmId, createFileOpenResponse, file_info, set_frsm, update_connection, the_files, the_connection.
    unfold cbind, cget, cmodify, cret, clift.
    cbn [rbind se_connection se_files se_response se_set_files se_set_connection frsmId readPosition fileHandle fileSize].
    rewrite Hinfo. cbn [defined rbind]. rewrite !UInt32determineEncodedSize_spec. cbn [rbind]. fold id.
    apply (encode_response_emits _ bs); [intros b; by apply emits_file_open|].
    cbn [se_response se_set_files se_set_connection]. unfold has_room in *. destruct (bb_buffer _); [lia|done].
  - done.
  - split; [|by apply Forall_take|by apply has_room_respond].
    exists i, position, (zlen content), h, content. cbn [se_connection se_files se_set_response se_set_files se_set_connection].
    split_and!; try done; try lia. cbn [mc_frsms mc_nextFrsmId mc_set_files]. rewrite list_insert_insert_eq.
    refine (getFrsm_new (se_connection s) id i f _ (i32 (id + 1)) Hnone Hfree _ _); done.
Qed.

(** A file that is opened and read to its end.  The requests to read on are answered
    with chunks of which all but the last announce that more follow, and which together
    are as many bytes as lie behind the initial position that was asked for; but they are
    the bytes from the beginning of the file, for the position is only taken off its size.
    With the position 0 they are the file.  Each answer with more to follow is longer than
    the largest PDU that the server agrees to. *)
Theorem file_transfer {FS} `{FileSystem FS} (remaining : FS -> Z -> option (list Z)) codec lib (s : Service FS) es
    openId filename position content h files1 t i f buffer bufPos maxBufPos readId :
  (forall files h n rest, remaining files h = Some rest -> 0 <= n ->
    exists files', fs_readFile files h n = (take (Z.to_nat n) rest, files') /\ remaining files' h = Some (drop (Z.to_nat n) rest)) ->
  let id := mc_nextFrsmId (se_connection s) in
  - 2 ^ 31 <= id < 2 ^ 31 -> getFreeFrsm (se_connection s) = Some (i, f) -> getFrsm (se_connection s) id = None ->
  fs_openFile (se_files s) filename false = (Some h, files1) -> remaining files1 h = Some content ->
  fs_getFileInfo files1 filename = Some (zlen content, t) -> 0 <= position <= zlen content -> zlen content < 2 ^ 32 ->
  bytes content -> has_room (se_response s) 16100 ->
  BerDecoder_decodeUint32 buffer (maxBufPos - bufPos) bufPos = Done (u32 id) ->
  let sent := file_chunks (take (Z.to_nat (zlen content - position)) content) in
  exists s1 s2, open_file codec lib openId filename position s es = Done (tt, s1, es) /\
    bb_bytes (se_response s1) = open_answer openId id (zlen content) (generalized_time lib t) /\
    read_requests codec buffer bufPos maxBufPos (length sent) readId s1 es
      = Done (map (fun c => chunk_answer readId c.1 c.2) sent, s2, es) /\
    concat (map fst sent) = take (Z.to_nat (zlen content - position)) content /\
    Forall (fun c => c.2 = true -> CONFIG_MMS_MAXIMUM_PDU_SIZE < zlen (chunk_answer readId c.1 c.2)) sent.
Proof.
  intros Hlaw id Hid Hfree Hnone Hopen Hrest Hinfo Hpos Hsize Hb Hroom Hd sent.
  destruct (open_file_transferring remaining codec lib s es openId filename position content h files1 t i f
    Hfree Hnone Hopen Hrest Hinfo Hpos Hsize Hb Hroom) as (s1 & E1 & Er & Hz & Ht). fold id in E1, Er, Hz, Ht.
  assert (bb_bytes (se_response s1) = open_answer openId id (zlen content) (generalized_time lib t)) as Eb.
  { rewrite Er. apply bb_bytes_respond. unfold has_room in *. destruct (bb_buffer _); [lia|done]. }
  destruct (read_requests_chunks remaining Hlaw codec (S (length (take (Z.to_nat (zlen content - position)) content))) s1 es id _
    buffer bufPos maxBufPos readId Ht Hd) as (s2 & E2); [unfold i32, swrap, u32; rewrite Zplus_mod_idemp_l, Z.mod_small; lia|lia|].
  exists s1, s2. split; [done|]. split; [done|]. split; [exact E2|]. split; [apply chunks_concat; lia|apply chunks_long].
Qed.

Lemma memory_read_law files h n rest : mf_rest files h = Some rest -> 0 <= n ->
  exists files', fs_readFile files h n = (take (Z.to_nat n) rest, files') /\ mf_rest files' h = Some (drop (Z.to_nat n) rest).
Proof.
  intros Hr _. exists (mf_set_rest files h (drop (Z.to_nat n) rest)). cbn [fs_readFile memory_files]. rewrite Hr. split; [done|].
  unfold mf_rest, mf_set_rest in *. cbn [mf_open]. induction (mf_open files) as [|[k r] l IH]; [done|].
  cbn [list_find map fst snd] in *. destruct (Z.eqb_spec k h) as [->|Hk].
  - rewrite !decide_True by done. done.
  - rewrite decide_False by done. rewrite decide_False in Hr by done.
    destruct (list_find _ l) as [[j y]|]; [|done]. specialize (IH Hr). destruct (list_find _ (map _ l)) as [[j' y']|]; [|done]. done.
Qed.

(** Opened at the position 3, the ten characters of the file are sent up to the seventh. *)
Lemma file_transfer_witness : exists s1 s2,
  open_file (demo_codec OtherPdu) minute_time 7 (lit "a.txt") 3 (demo_service demo_files demo_server) [] = Done (tt, s1, []) /\
  read_requests (demo_codec OtherPdu) (mk_ptr [0] 0) 0 1 1 8 s1 [] = Done ([chunk_answer 8 (lit "abcdefg") false], s2, []).
Proof.
  destruct (file_transfer mf_rest (demo_codec OtherPdu) minute_time (demo_service demo_files demo_server) [] 7 (lit "a.txt") 3
    (lit "abcdefghij") 1 (mkFiles (mf_files demo_files) [(1, lit "abcdefghij")]) 42007 0 (mkFrsm 0 0 0 None) (mk_ptr [0] 0) 0 1 8
    memory_read_law) as (s1 & s2 & E1 & _ & E2 & _).
  - cbn. lia.
  - vm_compute. reflexivity.
  - vm_compute. reflexivity.
  - vm_compute. reflexivity.
  - vm_compute. reflexivity.
  - vm_compute. reflexivity.
  - vm_compute. split; discriminate.
  - vm_compute. reflexivity.
  - repeat constructor; unfold is_byte; lia.
  - unfold has_room. cbn. split; [lia|]. vm_compute. discriminate.
  - vm_compute. reflexivity.
  - exists s1, s2. split; [exact E1|exact E2].
Defined.
