(* ===== verification/MmsDispatchFacts.v ===== *)
(** Associations and messages: what is negotiated, and a message that never ends. *)
From Stdlib Require Import String.
From stdpp Require Import base tactics numbers option gmap list.
From S2P Require Import Prelude Memory Buffers BerDecode BerEncode AccessResult Effects CString MmsTypeSpec ServerState SampleServer MmsPdu MmsData MmsService Conversions MmsDispatch SampleService MmsReadFacts.

(** * The answer to an initiate request *)

(** Protocol version 1, the parameters and the services. *)
Definition init_detail : list Z :=
  [0x80; 1; 1; 0x81; 3; 5; 0xf1; 0; 0x82; 12; 3; 0xee; 0x1c; 0; 0; 0; 0; 0; 0; 0; 0xed; 0x18].

Definition initiate_elements (self : MmsServerConnection) : list (Z * list Z) :=
  [(0x80, uint32_bytes (u32 (mc_maxPduSize self))); (0x81, uint32_bytes (u32 (mc_maxServOutstandingCalling self)));
   (0x82, uint32_bytes (u32 (mc_maxServOutstandingCalled self))); (0x83, uint32_bytes (u32 (mc_dataStructureNestingLevel self)));
   (0xa4, init_detail)].

Definition initiate_answer (self : MmsServerConnection) : list Z := tlv (0xa9, tlvs (initiate_elements self)).

Lemma emits_init_detail buffer pos :
  Emits buffer pos (encodeInitResponseDetail buffer pos) (pos + zlen (tlv (0xa4, init_detail))) (tlv (0xa4, init_detail)).
Proof.
  unfold encodeInitResponseDetail. apply emits_element; [by_eval|by_eval|done|].
  assert (bytes parameterCBB /\ bytes servicesSupported) as [B1 B2]
    by (split; apply (bool_decide_unpack _); vm_compute; exact I).
  eapply emits_eq; [eapply emits_bind; [apply emits_tlv_uint32; by_eval|eapply emits_bind;
    [apply (emits_bit_string 0x81 11 parameterCBB); [by_eval|lia|done|done|by_eval]
    |apply (emits_bit_string 0x82 85 servicesSupported); [by_eval|lia|done|done|by_eval]|reflexivity]|reflexivity]| |].
  - repeat match goal with |- context [zlen ?l] => let n := eval vm_compute in (zlen l) in change (zlen l) with n end. lia.
  - vm_compute. reflexivity.
Qed.

Lemma emits_initiate_response self n buffer : n = zlen (tlvs (initiate_elements self)) ->
  Emits buffer 0 (write_initiate_response self n buffer 0) (zlen (initiate_answer self)) (initiate_answer self).
Proof.
  intros Hn. unfold write_initiate_response, initiate_answer.
  pose proof (zlen_uint32_bytes (u32 (mc_maxPduSize self))). pose proof (zlen_uint32_bytes (u32 (mc_maxServOutstandingCalling self))).
  pose proof (zlen_uint32_bytes (u32 (mc_maxServOutstandingCalled self))). pose proof (zlen_uint32_bytes (u32 (mc_dataStructureNestingLevel self))).
  assert (zlen (tlvs (initiate_elements self)) < 100) as Hz.
  { unfold initiate_elements. rewrite !tlvs_cons, !zlen_app, !zlen_tlv_uint32. change (zlen (tlvs [])) with 0.
    change (zlen (tlv (0xa4, init_detail))) with 24. lia. }
  apply emits_element; [by_eval|lia|done|].
  eapply emits_eq; [eapply emits_bind; [apply emits_tlv_uint32; by_eval|eapply emits_bind; [apply emits_tlv_uint32; by_eval
    |eapply emits_bind; [apply emits_tlv_uint32; by_eval|eapply emits_bind; [apply emits_tlv_uint32; by_eval|apply emits_init_detail
    |reflexivity]|reflexivity]|reflexivity]|reflexivity]| |].
  - rewrite Hn, zlen_ber_tl_tlv by lia. unfold initiate_elements. rewrite !tlvs_cons, !zlen_app. change (zlen (tlvs [])) with 0. lia.
  - unfold initiate_elements. rewrite !tlvs_cons. change (tlvs []) with (@nil Z). by rewrite app_nil_r.
Qed.

(** * The request *)

(** What the parameters of a request make of a connection, one after the other. *)
Definition apply_parameters (self : MmsServerConnection) (es : list (Z * list Z)) : MmsServerConnection :=
  fold_left (fun self e => initiate_parameter self (fst e) (u32 (be_val (snd e)))) es self.

Definition initial_parameters (self : MmsServerConnection) : MmsServerConnection :=
  mc_set_parameters DEFAULT_MAX_SERV_OUTSTANDING_CALLING DEFAULT_MAX_SERV_OUTSTANDING_CALLED DEFAULT_DATA_STRUCTURE_NESTING_LEVEL
    CONFIG_MMS_MAXIMUM_PDU_SIZE self.

Lemma other_parameter self tag n m : (0x80 <=? tag) && (tag <=? 0x83) = false -> initiate_parameter self tag n = initiate_parameter self tag m.
Proof. intros H. unfold initiate_parameter. destruct (Z.eqb_spec tag 0x80), (Z.eqb_spec tag 0x81), (Z.eqb_spec tag 0x82), (Z.eqb_spec tag 0x83); try done; subst; done. Qed.

Lemma parse_elements fuel buffer bufPos maxBufPos self es : holds buffer bufPos (tlvs es) -> 0 <= bufPos ->
  maxBufPos = bufPos + zlen (tlvs es) -> maxBufPos < 2 ^ 31 -> zlen (tlvs es) < 65536 -> (length es <= fuel)%nat ->
  while (fun s => fst s <? maxBufPos) (initiate_body buffer maxBufPos) fuel (bufPos, self)
    = Done (Next (maxBufPos, apply_parameters self es)).
Proof.
  revert fuel bufPos self. induction es as [|e es IH]; intros fuel bufPos self Hh Hp Hmax H31 Hz Hf.
  - rewrite while_false; [|cbn [fst]; change (zlen (tlvs [])) with 0 in Hmax; zdec; done].
    change (zlen (tlvs [])) with 0 in Hmax. cbn. do 3 f_equal. lia.
  - rewrite tlvs_cons in Hh, Hmax, Hz. rewrite zlen_app in Hmax, Hz. pose proof (zlen_nonneg (tlvs es)). pose proof (tlv_longer e). pose proof (zlen_nonneg (snd e)).
    destruct fuel as [|fuel]; [cbn in Hf; lia|].
    destruct (holds_tlv buffer bufPos e (tlvs es) maxBufPos None Hh ltac:(lia) ltac:(lia)) as (Ht & Hl & Hc & Hr & Hend).
    rewrite while_next with (s' := (bufPos + zlen (tlv e), initiate_parameter self (fst e) (u32 (be_val (snd e))))).
    + rewrite IH; [done|by rewrite <- Hend| | |done| |cbn in Hf]; lia.
    + cbn [fst]. zdec. done.
    + unfold initiate_body. rewrite Ht. cbn [rbind]. rewrite Hl. cbn [rbind].
      set (start := bufPos + 1 + BerEncoder_determineLengthSize (zlen (snd e))) in *.
      pose proof (determineLengthSize_range (zlen (snd e))). zdec. cbn [defined rbind].
      rewrite Hend, i32_small by lia. destruct ((0x80 <=? fst e) && (fst e <=? 0x83)) eqn:Et.
      * rewrite (decodeUint32_holds (snd e)) by done. done.
      * cbn [rbind]. by rewrite (other_parameter _ _ 0 (u32 (be_val (snd e)))).
Qed.

(** What a request proposes: the number of the last element with the tag. *)
Definition proposed (tag : Z) (es : list (Z * list Z)) : option Z :=
  last (map (fun e => u32 (be_val (snd e))) (filter (fun e => fst e = tag) es)).

(** The smaller one of the server's own limit and the proposal, as a C [int]. *)
Definition negotiate (own : Z) (proposal : option Z) : Z :=
  match proposal with Some n => Z.min own (i32 n) | None => own end.

(** The reference: each parameter by itself; the nesting level has no limit. *)
Definition negotiated_parameters (es : list (Z * list Z)) (self : MmsServerConnection) : MmsServerConnection :=
  mc_set_parameters (negotiate DEFAULT_MAX_SERV_OUTSTANDING_CALLING (proposed 0x81 es))
    (negotiate DEFAULT_MAX_SERV_OUTSTANDING_CALLED (proposed 0x82 es))
    (default DEFAULT_DATA_STRUCTURE_NESTING_LEVEL (i32 <$> proposed 0x83 es))
    (negotiate CONFIG_MMS_MAXIMUM_PDU_SIZE (proposed 0x80 es)) self.

Lemma proposed_snoc tag es e :
  proposed tag (es ++ [e]) = if decide (fst e = tag) then Some (u32 (be_val (snd e))) else proposed tag es.
Proof.
  unfold proposed. rewrite filter_app, map_app. destruct (decide (fst e = tag)) as [E|E].
  - rewrite filter_cons_True, filter_nil by done. cbn [map]. by rewrite last_snoc.
  - rewrite filter_cons_False, filter_nil by done. cbn [map]. by rewrite app_nil_r.
Qed.

Lemma limit_min number own : limit number own = Z.min own (i32 number).
Proof. unfold limit. zcase; lia. Qed.

Lemma apply_parameters_spec self es : apply_parameters (initial_parameters self) es = negotiated_parameters es self.
Proof.
  induction es as [|[tag octets] es IH] using rev_ind; [done|]. unfold apply_parameters in *. rewrite fold_left_app, IH. cbn [fold_left fst snd].
  unfold negotiated_parameters. rewrite !proposed_snoc. cbn [fst snd]. set (n := u32 (be_val octets)).
  assert (local_detail n = Z.min CONFIG_MMS_MAXIMUM_PDU_SIZE (i32 n)) as Hl by apply limit_min.
  unfold initiate_parameter. rewrite Hl, !limit_min.
  destruct (Z.eqb_spec tag 0x80) as [->|H0]; [done|]. destruct (Z.eqb_spec tag 0x81) as [->|H1]; [done|].
  destruct (Z.eqb_spec tag 0x82) as [->|H2]; [done|]. destruct (Z.eqb_spec tag 0x83) as [->|H3]; [done|].
  by rewrite !decide_False by done.
Qed.

Lemma negotiate_range own proposal : 0 <= own -> (forall n, proposal = Some n -> 0 <= n < 2 ^ 31) -> 0 <= negotiate own proposal <= own.
Proof. intros Ho Hp. destruct proposal as [n|]; cbn; [|lia]. specialize (Hp n eq_refl). rewrite i32_small by lia. lia. Qed.

Lemma proposed_range tag es n : proposed tag es = Some n -> 0 <= n < 2 ^ 32.
Proof.
  unfold proposed. rewrite last_Some. intros [l E]. assert (n ∈ map (fun e => u32 (be_val (snd e))) (filter (fun e => fst e = tag) es)) as Hin
    by (rewrite E; apply elem_of_app; right; by left).
  apply list_elem_of_fmap in Hin as (e & -> & _). apply u32_range.
Qed.

Lemma zlen_initiate_answer self : zlen (initiate_answer self) <= 100.
Proof.
  pose proof (zlen_uint32_bytes (u32 (mc_maxPduSize self))). pose proof (zlen_uint32_bytes (u32 (mc_maxServOutstandingCalling self))).
  pose proof (zlen_uint32_bytes (u32 (mc_maxServOutstandingCalled self))). pose proof (zlen_uint32_bytes (u32 (mc_dataStructureNestingLevel self))).
  unfold initiate_answer. rewrite zlen_tlv. cbn [snd]. pose proof (determineLengthSize_range (zlen (tlvs (initiate_elements self)))).
  unfold initiate_elements in *. rewrite !tlvs_cons, !zlen_app, !zlen_tlv_uint32 in *. change (zlen (tlvs [])) with 0 in *.
  change (zlen (tlv (0xa4, init_detail))) with 24 in *. lia.
Qed.

(** C13: The association is negotiated. A request made of any elements, in any order, of
    less than 65536 octets, is answered with the protocol version, the services and these
    parameters of the connection: for the PDU size and the numbers of outstanding requests
    the smaller one of the server's limit and what the last element for it proposes, read as
    a C [int], or the limit without a proposal; for the nesting level what is proposed,
    without a limit, or the default. Proposals below 2^31 lead to parameters from 0 to the
    limits. A PDU size of 2^31 or more becomes a negative parameter, and is announced as it
    was proposed. (The bit of the rename service is not among the services, although the
    server has it.) *)
Theorem initiate_negotiates {FS} `{FileSystem FS} w codec lib listener fuel message p reqs (s : Service FS) es :
  bb_buffer message = Some p -> holds p 0 (tlv (0xa8, tlvs reqs)) -> bb_size message = zlen (tlv (0xa8, tlvs reqs)) ->
  zlen (tlvs reqs) < 65536 -> (length reqs <= fuel)%nat -> has_room (se_response s) 100 ->
  let self := negotiated_parameters reqs (se_connection s) in
  MmsServerConnection_parseMessage w codec lib listener fuel message s es
    = Done (MMS_INITIATE, se_set_response (respond (se_response s) (initiate_answer self)) (se_set_connection self s), es) /\
  ((forall tag n, proposed tag reqs = Some n -> n < 2 ^ 31) ->
    0 <= mc_maxPduSize self <= CONFIG_MMS_MAXIMUM_PDU_SIZE /\
    0 <= mc_maxServOutstandingCalling self <= DEFAULT_MAX_SERV_OUTSTANDING_CALLING /\
    0 <= mc_maxServOutstandingCalled self <= DEFAULT_MAX_SERV_OUTSTANDING_CALLED /\ 0 <= mc_dataStructureNestingLevel self) /\
  (forall n, proposed 0x80 reqs = Some n -> 2 ^ 31 <= n -> mc_maxPduSize self < 0 /\ u32 (mc_maxPduSize self) = n) /\
  Z.testbit (nth 9 servicesSupported 0) 4 = false.
Proof.
  intros Hm Hh Hs Hz Hf Hr self. split; [|split; [|split; [|done]]].
  2: { intros Hp. assert (forall tag n, proposed tag reqs = Some n -> 0 <= n < 2 ^ 31) as Hp'
         by (intros tag n E; pose proof (proposed_range _ _ _ E); specialize (Hp _ _ E); lia).
       split_and!; try (by apply negotiate_range; [done|apply Hp']). unfold self. cbn. destruct (proposed 0x83 reqs) as [n|] eqn:E; [|done].
       cbn. specialize (Hp' _ _ E). rewrite i32_small; lia. }
  2: { intros n E Hn. apply proposed_range in E as Hr2. unfold self. cbn. rewrite E. cbn. unfold i32, swrap.
       change (32 - 1) with 31. replace ((n + 2 ^ 31) mod 2 ^ 32) with (n - 2 ^ 31) by (rewrite <- (Z_mod_plus_full _ (-1)), Z.mod_small; lia).
       change CONFIG_MMS_MAXIMUM_PDU_SIZE with 16000. split; [lia|]. rewrite Z.min_r by lia. unfold u32.
       rewrite <- (Z_mod_plus_full _ 1), Z.mod_small; lia. }
  pose proof (tlv_longer (0xa8, tlvs reqs)) as Hl. pose proof (zlen_nonneg (tlvs reqs)). cbn [snd] in Hl.
  pose proof Hh as Hh'. rewrite <- (app_nil_r (tlv _)) in Hh'.
  destruct (holds_tlv p 0 (0xa8, tlvs reqs) [] (bb_size message) None Hh' Hz ltac:(lia)) as (Ht & Hd & Hc & _ & Hend).
  cbn [fst snd] in *. pose proof (determineLengthSize_range (zlen (tlvs reqs))) as Hdl.
  set (start := 0 + 1 + BerEncoder_determineLengthSize (zlen (tlvs reqs))) in *.
  unfold MmsServerConnection_parseMessage. zdec. rewrite (bind_lift _ _ _ _ p) by (by rewrite Hm).
  rewrite (bind_lift _ _ _ _ _ Ht), (bind_lift _ _ _ _ _ Hd). zdec. rewrite (bind_lift _ _ _ _ (zlen (tlvs reqs))) by done.
  cbv zeta. change (0xa8 =? 0xa8) with true. cbv iota. rewrite i32_small by lia.
  unfold indicated, mmsServer_handleInitiateRequest, the_connection. unfold cbind at 1. rewrite bind_get.
  assert (parseInitiateRequestPdu fuel (se_connection s) p start (start + zlen (tlvs reqs)) = Done (Next (start + zlen (tlvs reqs), self))) as Hp
    by (unfold parseInitiateRequestPdu, self; rewrite <- apply_parameters_spec; apply parse_elements; done || lia).
  rewrite (bind_lift _ _ _ _ _ Hp). unfold update_connection. rewrite bind_modify.
  unfold createInitiateResponse, the_connection. rewrite bind_get.
  unfold negotiated. cbn [map each_res]. rewrite (bind_lift _ _ _ _ [zlen (uint32_bytes (u32 (mc_maxPduSize self)));
    zlen (uint32_bytes (u32 (mc_maxServOutstandingCalling self))); zlen (uint32_bytes (u32 (mc_maxServOutstandingCalled self)));
    zlen (uint32_bytes (u32 (mc_dataStructureNestingLevel self)))]).
  2: { cbn [se_connection se_set_connection]. rewrite !UInt32determineEncodedSize_spec. done. }
  cbn [se_connection se_set_connection map sum_list foldr].
  rewrite (encode_response_emits _ (initiate_answer self)); [done| |].
  - intros b. apply emits_initiate_response. unfold initiate_elements. rewrite !tlvs_cons, !zlen_app, !zlen_tlv_uint32.
    change (zlen (tlvs [])) with 0. change (zlen (tlv (0xa4, init_detail))) with (initResponseDetailSize + 2). lia.
  - pose proof (zlen_initiate_answer self). cbn [se_response se_set_connection]. unfold has_room in *. destruct (bb_buffer (se_response s)); [lia|done].
Qed.

(** 32000 octets and ten outstanding requests are asked for. *)
Lemma initiate_negotiates_witness :
  let reqs := [(0x80, [0x7d; 0]); (0x81, [10]); (0x82, [3]); (0x83, [5]); (0xa4, [1])] in
  let self := mc_set_parameters 5 3 5 16000 demo_association in
  let s := demo_service demo_files demo_server in
  negotiated_parameters reqs (se_connection s) = self /\
  MmsServerConnection_parseMessage demo_world (demo_codec OtherPdu) minute_time None 5 (demo_message (tlv (0xa8, tlvs reqs))) s []
    = Done (MMS_INITIATE, se_set_response (respond (se_response s) (initiate_answer self)) (se_set_connection self s), []).
Proof.
  intros reqs self s. split; [vm_compute; reflexivity|].
  refine (proj1 (initiate_negotiates demo_world (demo_codec OtherPdu) minute_time None 5 (demo_message (tlv (0xa8, tlvs reqs)))
    (mk_ptr (tlv (0xa8, tlvs reqs)) 0) reqs s [] _ _ _ _ _ _)).
  - reflexivity.
  - unfold holds. vm_compute. repeat split; discriminate.
  - reflexivity.
  - vm_compute. reflexivity.
  - cbn. lia.
  - unfold has_room. cbn. split; [lia|]. vm_compute. discriminate.
Defined.

(** * A message that never ends *)

(** A confirmed request whose invoke id has the length -6. *)
Definition endless_message : list Z := [0xa0; 6; 0x02; 0x84; 0xff; 0xff; 0xff; 0xfa].

(** One message of eight octets keeps the server in its loop for ever: the length of
    its element is decoded to a negative number, which leads back to its tag.  Whatever
    the state of the server and of the connection, an association is enough. *)
Theorem confirmed_request_endless {FS} `{FileSystem FS} w codec lib listener fuel (s : Service FS) es :
  MmsServerConnection_parseMessage w codec lib listener fuel (demo_message endless_message) s es = NoFuel.
Proof.
  change (MmsServerConnection_parseMessage w codec lib listener fuel (demo_message endless_message) s es)
    with ((do! _ := confirmed_loop w codec lib listener fuel (mk_ptr endless_message 0) 8 2 0 in cret MMS_CONFIRMED_REQUEST) s es).
  unfold cbind. assert (confirmed_loop w codec lib listener fuel (mk_ptr endless_message 0) 8 2 0 s es = NoFuel) as ->; [|done].
  revert s. induction fuel as [|fuel IH]; intros s; [done|]. apply (IH (se_set_connection (mc_set_lastInvokeId 0 (se_connection s)) s)).
Qed.
