(* ===== verification/MmsReports.v ===== *)
(** Messages that the server sends on its own: src/mms/iso_mms/server/mms_information_report.c. *)
From Stdlib Require Import String.
From stdpp Require Import base tactics numbers option gmap list.
From S2P Require Import Prelude Memory Buffers BerDecode BerEncode IsoConnections MmsValue AccessResult Effects CString ServerState MmsPdu MmsData MmsService MmsReadService MmsReadFacts.

(** * The buffer

    [reportBuffer] has [maxPduSize] octets; nothing compares the size of the message with
    it. *)
Definition encode_report (maxPduSize : Z) (c : Z -> Z -> W Z) : res ByteBuffer :=
  let reportBuffer := ByteBuffer_create maxPduSize in
  let! p := defined (bb_buffer reportBuffer) in
  let! (bufPos, m) := c (p_base p) 0 (p_mem p) in
  Done (mkByteBuffer (Some (mk_ptr m (p_base p))) maxPduSize bufPos).

Definition results_size (values : list MmsValue) : res Z :=
  let! sizes := each_res encodedSize values in Done (u32 (sum_list sizes)).

(** The head of each report and its content: the specification of the variables and the
    list of their values. *)
Definition write_report (variableSpecSize accessResultSize : Z) (variableSpec : Z -> Z -> W Z) (values : list MmsValue)
    (buffer bufPos : Z) : W Z :=
  let informationReportContentSize := u32 (variableSpecSize + tl_size accessResultSize) in
  let* bufPos := BerEncoder_encodeTL 0xa3 (u32 (tl_size informationReportContentSize)) buffer bufPos in
  let* bufPos := BerEncoder_encodeTL 0xa0 informationReportContentSize buffer bufPos in
  let* bufPos := variableSpec buffer bufPos in
  let* bufPos := BerEncoder_encodeTL 0xa0 accessResultSize buffer bufPos in
  encode_values values buffer bufPos.

(** * One variable *)

Definition single_variable_sizes (itemId : list Z) : Z * Z * Z :=
  let varSpecSize := tl_size (zlen itemId) in
  let sequenceSize := tl_size varSpecSize in
  (varSpecSize, sequenceSize, tl_size sequenceSize).

Definition encode_single_variable (itemId : list Z) (buffer bufPos : Z) : W Z :=
  let '(varSpecSize, sequenceSize, listOfVariableSize) := single_variable_sizes itemId in
  let* bufPos := BerEncoder_encodeTL 0xa0 listOfVariableSize buffer bufPos in
  let* bufPos := BerEncoder_encodeTL 0x30 sequenceSize buffer bufPos in
  let* bufPos := BerEncoder_encodeTL 0xa0 varSpecSize buffer bufPos in
  BerEncoder_encodeStringWithTag 0x80 (Some itemId) buffer bufPos.

Definition report_single_variable (maxPduSize : Z) (itemId : list Z) (value : MmsValue) : res ByteBuffer :=
  let '(_, _, listOfVariableSize) := single_variable_sizes itemId in
  let! accessResultSize := results_size [value] in
  encode_report maxPduSize
    (write_report (tl_size listOfVariableSize) accessResultSize (encode_single_variable itemId) [value]).

(** * Variables with their names *)

(** The fields of [MmsVariableAccessSpecification] that are used; both may be null. *)
Record ReportedVariable := mkReported { rv_domainId : option (list Z); rv_itemId : option (list Z) }.

(** The size of the names, without and with the tag in front of the names of a domain. *)
Definition names_size (spec : ReportedVariable) : Z :=
  BerEncoder_determineEncodedStringSize (rv_itemId spec) +
  match rv_domainId spec with Some d => BerEncoder_determineEncodedStringSize (Some d) | None => 0 end.

Definition var_spec_size (spec : ReportedVariable) : Z :=
  match rv_domainId spec with Some _ => tl_size (names_size spec) | None => names_size spec end.

Definition encode_var_spec (spec : ReportedVariable) (buffer bufPos : Z) : W Z :=
  let* bufPos := BerEncoder_encodeTL 0xa0 (var_spec_size spec) buffer bufPos in
  match rv_domainId spec with
  | Some d =>
      let* bufPos := BerEncoder_encodeTL 0xa1 (names_size spec) buffer bufPos in
      let* bufPos := BerEncoder_encodeStringWithTag 0x1a (Some d) buffer bufPos in
      BerEncoder_encodeStringWithTag 0x1a (rv_itemId spec) buffer bufPos
  | None => BerEncoder_encodeStringWithTag 0x80 (rv_itemId spec) buffer bufPos
  end.

Fixpoint encode_var_specs (specs : list ReportedVariable) (buffer bufPos : Z) : W Z :=
  match specs with
  | [] => wret bufPos
  | spec :: specs => let* bufPos := encode_var_spec spec buffer bufPos in encode_var_specs specs buffer bufPos
  end.

(** The tag and the length in front of the specifications are counted once. *)
Definition list_of_variables_sizes (specs : list ReportedVariable) : Z * Z :=
  let sequenceSize := tl_size (sum_list (map var_spec_size specs)) in (sequenceSize, tl_size sequenceSize).

Definition encode_list_of_variables (specs : list ReportedVariable) (buffer bufPos : Z) : W Z :=
  let '(sequenceSize, listOfVariableSize) := list_of_variables_sizes specs in
  let* bufPos := BerEncoder_encodeTL 0xa0 listOfVariableSize buffer bufPos in
  let* bufPos := BerEncoder_encodeTL 0x30 sequenceSize buffer bufPos in
  encode_var_specs specs buffer bufPos.

Definition report_list_of_variables (maxPduSize : Z) (specs : list ReportedVariable) (values : list MmsValue)
  : res ByteBuffer :=
  let '(_, listOfVariableSize) := list_of_variables_sizes specs in
  let! accessResultSize := results_size values in
  encode_report maxPduSize
    (write_report (tl_size listOfVariableSize) accessResultSize (encode_list_of_variables specs) values).

(** * A named variable list *)

Definition encode_list_name (itemId : list Z) (buffer bufPos : Z) : W Z :=
  let* bufPos := BerEncoder_encodeTL 0xa1 (BerEncoder_determineEncodedStringSize (Some itemId)) buffer bufPos in
  BerEncoder_encodeStringWithTag 0x80 (Some itemId) buffer bufPos.

Definition report_vmd_specific (maxPduSize : Z) (itemId : list Z) (values : list MmsValue) : res ByteBuffer :=
  let! accessResultSize := results_size values in
  encode_report maxPduSize
    (write_report (tl_size (BerEncoder_determineEncodedStringSize (Some itemId))) accessResultSize
      (encode_list_name itemId) values).

(** * Sending *)

Section Send.
Context {H : Type} (self : MmsServerConnection) (isoConnection : IsoConnection H).

Definition send_report (report : res ByteBuffer) : res (IsoConnection H) :=
  let! reportBuffer := report in IsoConnection_sendMessage isoConnection reportBuffer.

Definition MmsServerConnection_sendInformationReportSingleVariableVMDSpecific (itemId : list Z) (value : MmsValue) :=
  send_report (report_single_variable (mc_maxPduSize self) itemId value).
Definition MmsServerConnection_sendInformationReportListOfVariables
    (variableAccessDeclarations : list ReportedVariable) (values : list MmsValue) :=
  send_report (report_list_of_variables (mc_maxPduSize self) variableAccessDeclarations values).
Definition MmsServerConnection_sendInformationReportVMDSpecific (itemId : list Z) (values : list MmsValue) :=
  send_report (report_vmd_specific (mc_maxPduSize self) itemId values).
End Send.

(** The reports that the server sends: their bytes, and the buffer that they are written
    into. *)

(** A report on a list of variables. *)
Definition list_report_bytes (itemId : list Z) (values : list MmsValue) : list Z :=
  tlv (0xa3, tlv (0xa0, tlv (0xa1, tlv (0x80, itemId)) ++ tlv (0xa0, values_bytes values))).

Section Report.
Context (itemId : list Z) (values : list MmsValue).
Context (Hid : bytes itemId) (Hlen : zlen itemId < 65536) (Hvalues : Forall encodable values) (Hsize : zlen (values_bytes values) < 500000).

Local Abbreviation name := (tlv (0x80, itemId)).
Local Abbreviation results := (tlv (0xa0, values_bytes values)).
Local Abbreviation content := (tlv (0xa1, name) ++ results).

Lemma report_bounds : zlen name < 65541 /\ zlen (tlv (0xa1, name)) < 65546 /\ zlen results < 500005 /\ zlen content < 600000 /\
  zlen (tlv (0xa0, content)) < 600005.
Proof using Hlen Hsize.
  pose proof (zlen_tlv_bound (0x80, itemId)) as B1. pose proof (zlen_tlv_bound (0xa1, name)) as B2.
  pose proof (zlen_tlv_bound (0xa0, values_bytes values)) as B3. pose proof (zlen_tlv_bound (0xa0, content)) as B4.
  cbn [snd] in *. rewrite zlen_app in *. lia.
Qed.

Lemma report_name_size : BerEncoder_determineEncodedStringSize (Some itemId) = zlen name.
Proof using Hlen. by apply encodedStringSize_tlv. Qed.

Lemma emits_list_name buffer pos : Emits buffer pos (encode_list_name itemId buffer pos) (pos + zlen (tlv (0xa1, name))) (tlv (0xa1, name)).
Proof using Hid Hlen Hsize.
  destruct report_bounds as (B1 & _). unfold encode_list_name. rewrite report_name_size.
  apply emits_element; [by_eval|lia|done|]. rewrite zlen_ber_tl_tlv by lia.
  eapply emits_eq; [apply (emits_tlv_string 0x80 (Some itemId)); [done|done|by_eval]| |done].
  change (string_bytes (Some itemId)) with itemId. lia.
Qed.

Lemma results_size_spec : results_size values = Done (zlen (values_bytes values)).
Proof using Hvalues Hsize.
  destruct (sizes_of_values values Hvalues) as [Es Et]. unfold results_size. rewrite Es. cbn [rbind]. rewrite Et.
  pose proof (zlen_nonneg (values_bytes values)). by rewrite u32_small by lia.
Qed.

Lemma emits_list_report buffer :
  Emits buffer 0 (write_report (tl_size (zlen name)) (zlen (values_bytes values)) (encode_list_name itemId) values buffer 0)
    (zlen (list_report_bytes itemId values)) (list_report_bytes itemId values).
Proof using Hid Hlen Hsize Hvalues.
  destruct report_bounds as (B1 & B2 & B3 & B4 & B5). pose proof (zlen_nonneg content). pose proof (zlen_nonneg (tlv (0xa0, content))).
  unfold write_report. rewrite (tl_size_tlv 0xa1), (tl_size_tlv 0xa0) by lia. rewrite <- zlen_app, (u32_small (zlen content)) by lia.
  rewrite (tl_size_tlv 0xa0), (u32_small (zlen (tlv _))) by lia. cbv zeta. unfold list_report_bytes.
  assert (is_byte 0xa3 /\ is_byte 0xa0) as [T1 T2] by by_eval.
  apply emits_element; [done|lia|done|]. apply emits_element; [done|lia|done|].
  eapply emits_bind; [apply emits_list_name| |reflexivity]. apply emits_element; [done|lia|done|].
  eapply emits_eq; [by apply emits_values| |done]. rewrite !zlen_ber_tl_tlv by lia. rewrite zlen_app. lia.
Qed.
End Report.

(** C15: A report on values that the encoder announces with their exact sizes
    ([encodable]: not with bit strings of 127 or 255 bytes, which are announced one byte
    too short, [bitString_size_underestimated]), of less than 500000 octets in all, is
    nested elements with exact lengths: the name of the list and the encoded values.  It is
    put into a buffer of the PDU size that was negotiated with the client; nothing compares
    the two, and a report that is longer is written beyond the end of the buffer. *)
Theorem information_report_size maxPduSize itemId values : 0 <= maxPduSize -> bytes itemId -> zlen itemId < 65536 ->
  Forall encodable values -> zlen (values_bytes values) < 500000 ->
  let bs := list_report_bytes itemId values in
  if decide (zlen bs <= maxPduSize)
  then exists report, report_vmd_specific maxPduSize itemId values = Done report /\ bb_bytes report = bs
  else report_vmd_specific maxPduSize itemId values = Ub.
Proof.
  intros Hmax Hid Hlen Hv Hz bs. unfold report_vmd_specific. rewrite results_size_spec by done. cbn [rbind].
  rewrite report_name_size by done. unfold encode_report, ByteBuffer_create. cbn [bb_buffer defined rbind p_base p_mem].
  set (mem := replicate (Z.to_nat maxPduSize) 0).
  assert (zlen mem = maxPduSize) as Hm by (unfold mem, zlen; rewrite length_replicate; lia).
  case_decide as Hd.
  - rewrite (emits_fit0 0 _ (zlen bs) bs mem); [|by apply emits_list_report|lia|lia]. cbn [rbind]. eexists. split; [done|].
    unfold bb_bytes. cbn [bb_buffer bb_size p_mem p_base]. apply slice_splice; lia.
  - rewrite (emits_overflow 0 0 _ (zlen bs) bs mem); [done|by apply emits_list_report|lia|lia].
Qed.

(** A report of 16 octets fits into 16, and not into 12. *)
Lemma information_report_size_witness :
  (exists report, report_vmd_specific 16 (lit "RPT") [Simple 0 (V_BOOLEAN true)] = Done report /\
    bb_bytes report = [0xa3; 14; 0xa0; 12; 0xa1; 5; 0x80; 3; 82; 80; 84; 0xa0; 3; 0x83; 1; 0xff]) /\
  report_vmd_specific 12 (lit "RPT") [Simple 0 (V_BOOLEAN true)] = Ub.
Proof.
  assert (bytes (lit "RPT")) as Hb by (repeat constructor; unfold is_byte; lia).
  assert (Forall encodable [Simple 0 (V_BOOLEAN true)]) as Hv by (constructor; [apply encodable_simple; exact I|constructor]).
  split.
  - exact (information_report_size 16 (lit "RPT") [Simple 0 (V_BOOLEAN true)] ltac:(lia) Hb eq_refl Hv eq_refl).
  - exact (information_report_size 12 (lit "RPT") [Simple 0 (V_BOOLEAN true)] ltac:(lia) Hb eq_refl Hv eq_refl).
Defined.
