(* ===== verification/MmsClientFacts.v ===== *)
(** The MMS client is right about its answers: without time-outs each call gets the
    result that the response with its own invoke id has, whatever the server sends and in
    whatever order the threads run, and the receiver is freed again.  With a time-out
    answers get mixed up. *)
From stdpp Require Import base tactics numbers option list.
From S2P Require Import Prelude Memory Buffers BerDecode IsoConnections MmsValue Effects CString MmsPdu MmsData MmsService Conversions MmsClientServices MmsClient.

(** * The places of the outstanding calls *)

Lemma replace_first_elem old new calls k : k ∈ replace_first old new calls -> k = new \/ k ∈ calls.
Proof.
  induction calls as [|x calls IH]; cbn [replace_first]; [auto|].
  destruct (x =? old); rewrite !elem_of_cons; tauto.
Qed.

(** No number other than 0 is in two places. *)
Definition distinct_calls (calls : list Z) : Prop :=
  forall p q k, calls !! p = Some k -> calls !! q = Some k -> k <> 0 -> p = q.

Lemma distinct_tail x calls : distinct_calls (x :: calls) -> distinct_calls calls.
Proof. intros H p q k Hp Hq Hk. pose proof (H (S p) (S q) k Hp Hq Hk). lia. Qed.

Lemma distinct_head x calls : distinct_calls (x :: calls) -> x <> 0 -> x ∉ calls.
Proof. intros H Hx [p Hp]%list_elem_of_lookup. by pose proof (H 0%nat (S p) x eq_refl Hp Hx). Qed.

Lemma distinct_cons x calls : distinct_calls calls -> (x = 0 \/ x ∉ calls) -> distinct_calls (x :: calls).
Proof.
  intros Hd Hx [|p] [|q] k; cbn [lookup list_lookup]; try done.
  - intros [= ->] Hq Hk. destruct Hx as [|[]]; [done|]. by eapply list_elem_of_lookup_2.
  - intros Hp [= ->] Hk. destruct Hx as [|[]]; [done|]. by eapply list_elem_of_lookup_2.
  - intros Hp Hq Hk. f_equal. by eapply Hd.
Qed.

Lemma distinct_add id calls : distinct_calls calls -> id ∉ calls -> distinct_calls (replace_first 0 id calls).
Proof.
  induction calls as [|x calls IH]; [done|]. intros Hd Hid. cbn [replace_first].
  apply not_elem_of_cons in Hid as [Hx Hid].
  destruct (Z.eqb_spec x 0) as [->|Hx0].
  - apply distinct_cons; [by apply distinct_tail in Hd|by right].
  - apply distinct_cons; [apply IH; [by apply distinct_tail in Hd|done]|right].
    intros [E|E]%replace_first_elem; [done|by apply (distinct_head x calls)].
Qed.

Lemma distinct_remove id calls : distinct_calls calls -> id <> 0 ->
  distinct_calls (replace_first id 0 calls) /\ id ∉ replace_first id 0 calls.
Proof.
  induction calls as [|x calls IH]; [by split; [|apply not_elem_of_nil]|]. intros Hd Hid. cbn [replace_first].
  destruct (Z.eqb_spec x id) as [->|Hx].
  - split; [apply distinct_cons; [by apply distinct_tail in Hd|by left]|].
    apply not_elem_of_cons. split; [lia|by apply distinct_head].
  - destruct (IH (distinct_tail _ _ Hd) Hid) as [Hd' Hn]. split; [|apply not_elem_of_cons; split; [lia|done]].
    apply distinct_cons; [done|]. destruct (decide (x = 0)) as [|Hx0]; [by left|right].
    intros [E|E]%replace_first_elem; [done|by apply (distinct_head x calls)].
Qed.

(** * Errors of the server are errors *)

Lemma convert_not_none e : convertServiceErrorToMmsError e <> MMS_ERROR_NONE.
Proof.
  destruct e as [cl code]. unfold convertServiceErrorToMmsError. cbv zeta.
  repeat (case_match; try discriminate).
  all: match goal with |- default _ (?l !! Z.to_nat ?n) <> _ => generalize (Z.to_nat n) end.
  all: intros n; do 7 (destruct n; try discriminate).
Qed.

(** * What a caller and a message have to do with each other *)

Definition caller_id (c : Caller) : Z :=
  match c with
  | Idle => 0
  | Returned id _ _ _ | Prepared id _ | Registered id _ _ | Waiting id _ _ | Leaving id _ _ | Answering id _ _
  | Releasing id _ _ _ => id
  end.

(** Inside a call; in the table; somewhere behind the entry; behind the loop. *)
Definition in_call (c : Caller) : bool := match c with Idle | Returned _ _ _ _ => false | _ => true end.
Definition entered (c : Caller) : bool :=
  match c with Registered _ _ _ | Waiting _ _ _ | Leaving _ _ _ => true | _ => false end.
Definition found (c : Caller) : bool :=
  match c with Leaving _ _ _ | Answering _ _ _ | Releasing _ _ _ _ => true | _ => false end.
Definition being_served (c : Caller) : bool := entered c || found c.

Section Client.
Context (codec : AsnCodec) (fuel : nat).

(** The message is the response, or the error, for the call. *)
Definition message_for (payload : ByteBuffer) (d : Delivery) : Prop :=
  exists buffer, bb_buffer payload = Some buffer /\
  match d with
  | DeliverResponse id bufPos =>
      rd buffer 0 = Done 0xa1 /\ parseConfirmedResponse buffer (bb_size payload) = Done (Some (id, bufPos))
  | DeliverError id error => exists serviceError,
      rd buffer 0 = Done 0xa2 /\ parseConfirmedErrorPDU fuel buffer (bb_size payload) = Done (Some (Some id, serviceError))
      /\ error = convertServiceErrorToMmsError serviceError
  end.

(** The result of a call for a message.  A call that does not look at errors has no error;
    it parses the message for an error as well. *)
Definition answer_is (call : ClientCall) (payload : ByteBuffer) (d : Delivery) (r : ClientResult) (e : MmsError) : Prop :=
  match d with
  | DeliverResponse _ bufPos => exists buffer,
      bb_buffer payload = Some buffer /\ call_answer call buffer (bb_size payload) bufPos = Done (r, e)
  | DeliverError _ error =>
      if call_looksAtError call then r = call_nothing call /\ e = error
      else (r = call_nothing call /\ e = MMS_ERROR_NONE) \/ exists buffer bufPos,
        bb_buffer payload = Some buffer /\ call_answer call buffer (bb_size payload) bufPos = Done (r, e)
  end.

Definition answered (seen : list ByteBuffer) (id : Z) (call : ClientCall) (r : ClientResult) (e : MmsError) : Prop :=
  exists payload d, payload ∈ seen /\ delivered_id d = id /\ message_for payload d /\ answer_is call payload d r e.

Definition last_is (d : Delivery) (l : LastResponse) : Prop :=
  responseInvokeId l = delivered_id d /\
  match d with
  | DeliverResponse _ bufPos => lastResponse l = true /\ lastResponseBufPos l = bufPos /\ lastResponseError l = MMS_ERROR_NONE
  | DeliverError _ error => lastResponseError l = error
  end.

(** The receive buffer has the message for the call [id], and it is the last response. *)
Definition held (seen : list ByteBuffer) (c : MmsConnection) (id : Z) : Prop :=
  cl_receiveBufferMutex c = 0 /\ cl_receiveBuffer c ∈ seen /\
  exists d, delivered_id d = id /\ last_is d (cl_last c) /\ message_for (cl_receiveBuffer c) d.

Definition idle (c : MmsConnection) : Prop :=
  responseInvokeId (cl_last c) = 0 /\ lastResponseError (cl_last c) = MMS_ERROR_NONE.

Definition found_ok (seen : list ByteBuffer) (c : MmsConnection) (r : Receiver) (id : Z) (received : bool) : Prop :=
  (r = Stopped /\ received = false) \/ (r = Holding /\ held seen c id /\ received = lastResponse (cl_last c)).

Definition caller_ok (seen : list ByteBuffer) (c : MmsConnection) (r : Receiver) (caller : Caller) : Prop :=
  (in_call caller = true -> 0 < caller_id caller <= cl_lastInvokeId c) /\
  match caller with
  | Returned id call result error => answered seen id call result error \/ (error = MMS_ERROR_CONNECTION_LOST /\ r = Stopped)
  | Leaving id _ received | Answering id _ received => found_ok seen c r id received
  | Releasing id call result error => r = Stopped \/ (r = Holding /\ held seen c id /\ answered seen id call result error)
  | _ => True
  end.

Definition someone (callers : list Caller) (id : Z) : Prop :=
  exists i c, callers !! i = Some c /\ being_served c = true /\ caller_id c = id.

Definition receiver_ok (seen : list ByteBuffer) (w : ClientSystem) : Prop :=
  let c := cs_connection w in
  match cs_receiver w with
  | Receiving => cl_receiveBufferMutex c = 0 /\ idle c
  | Delivering d =>
      cl_receiveBufferMutex c = 0 /\ idle c /\ cl_receiveBuffer c ∈ seen /\ message_for (cl_receiveBuffer c) d /\
      (delivered_id d <> 0 -> someone (cs_callers w) (delivered_id d))
  | Holding =>
      (cl_receiveBufferMutex c = 1 /\ idle c) \/
      (cl_receiveBufferMutex c = 0 /\ responseInvokeId (cl_last c) = 0) \/
      (exists id, id <> 0 /\ held seen c id /\ someone (cs_callers w) id)
  | Stopped => True
  end.

Record Inv (seen : list ByteBuffer) (w : ClientSystem) : Prop := {
  inv_lastInvokeId : 0 <= cl_lastInvokeId (cs_connection w);
  inv_callers : forall i c, cs_callers w !! i = Some c -> caller_ok seen (cs_connection w) (cs_receiver w) c;
  inv_ids : forall i j ci cj, cs_callers w !! i = Some ci -> cs_callers w !! j = Some cj ->
    in_call ci = true -> in_call cj = true -> caller_id ci = caller_id cj -> i = j;
  inv_calls : forall k, k ∈ cl_outstandingCalls (cs_connection w) -> k <> 0 ->
    exists i c, cs_callers w !! i = Some c /\ entered c = true /\ caller_id c = k;
  inv_places : distinct_calls (cl_outstandingCalls (cs_connection w));
  inv_closed : is_closed (cl_associationState (cs_connection w)) = true <-> cs_receiver w = Stopped;
  inv_receiver : receiver_ok seen w }.

(** ** A step of a caller that leaves the last response and the receive buffer alone *)

Lemma caller_ok_mono seen c c' r caller : cl_lastInvokeId c <= cl_lastInvokeId c' -> cl_last c' = cl_last c ->
  cl_receiveBuffer c' = cl_receiveBuffer c -> cl_receiveBufferMutex c' = cl_receiveBufferMutex c ->
  caller_ok seen c r caller -> caller_ok seen c' r caller.
Proof.
  intros Hi Hl Hb Hm [H1 H2]. split; [intros H; specialize (H1 H); lia|].
  unfold found_ok, held in *. by destruct caller; rewrite ?Hl, ?Hb, ?Hm.
Qed.

Record caller_moves (w : ClientSystem) (c' : MmsConnection) (caller caller' : Caller) : Prop := {
  mv_lastInvokeId : cl_lastInvokeId (cs_connection w) <= cl_lastInvokeId c';
  mv_last : cl_last c' = cl_last (cs_connection w);
  mv_buffer : cl_receiveBuffer c' = cl_receiveBuffer (cs_connection w);
  mv_mutex : cl_receiveBufferMutex c' = cl_receiveBufferMutex (cs_connection w);
  mv_closed : cl_associationState c' = cl_associationState (cs_connection w);
  mv_id : in_call caller' = true ->
    (in_call caller = true /\ caller_id caller' = caller_id caller) \/ cl_lastInvokeId (cs_connection w) < caller_id caller';
  mv_served : being_served caller = true -> being_served caller' = true /\ caller_id caller' = caller_id caller;
  mv_calls : forall k, k ∈ cl_outstandingCalls c' -> k <> 0 ->
    (entered caller' = true /\ caller_id caller' = k) \/
    (k ∈ cl_outstandingCalls (cs_connection w) /\ (entered caller = true -> caller_id caller <> k));
  mv_places : distinct_calls (cl_outstandingCalls c') }.

Lemma someone_insert callers i caller caller' id : callers !! i = Some caller ->
  (being_served caller = true -> being_served caller' = true /\ caller_id caller' = caller_id caller) ->
  someone callers id -> someone (<[i := caller']> callers) id.
Proof.
  intros Hi Hs (j & c & Hj & Hc & Hid). pose proof (lookup_lt_Some _ _ _ Hi) as Hlt.
  destruct (decide (i = j)) as [->|Hij].
  - simplify_eq. destruct (Hs Hc) as [? E]. exists j, caller'. by rewrite list_lookup_insert_eq, E.
  - exists j, c. by rewrite list_lookup_insert_ne.
Qed.

Lemma inv_move seen w i c' caller caller' : Inv seen w -> cs_callers w !! i = Some caller ->
  caller_moves w c' caller caller' -> caller_ok seen c' (cs_receiver w) caller' ->
  Inv seen (mkSystem c' (<[i := caller']> (cs_callers w)) (cs_receiver w)).
Proof.
  intros [H0 Hc Hid Hcalls Hpl Hcl Hr] Hi [M1 M2 M3 M4 M5 M6 M7 M8 M9] Hok.
  pose proof (lookup_lt_Some _ _ _ Hi) as Hlt.
  assert (forall j cj, cs_callers w !! j = Some cj -> in_call cj = true -> caller_id cj <= cl_lastInvokeId (cs_connection w)) as Hmax.
  { intros j cj Hj Hin. by destruct (Hc j cj Hj) as [H _]; apply H. }
  constructor; cbn [cs_connection cs_callers cs_receiver].
  - lia.
  - intros j cj. destruct (decide (i = j)) as [<-|Hij].
    + rewrite list_lookup_insert_eq by done. by intros [= <-].
    + rewrite list_lookup_insert_ne by done. intros Hj. eapply caller_ok_mono; eauto.
  - intros j l cj cl Hj Hl Ij Il E.
    destruct (decide (i = j)) as [<-|Hij]; destruct (decide (i = l)) as [<-|Hil]; [done| | |].
    + rewrite list_lookup_insert_eq in Hj by done. rewrite list_lookup_insert_ne in Hl by done. simplify_eq.
      destruct (M6 Ij) as [[Hin E']|H]; [eapply Hid; eauto; congruence|]. specialize (Hmax _ _ Hl Il). lia.
    + rewrite list_lookup_insert_ne in Hj by done. rewrite list_lookup_insert_eq in Hl by done. simplify_eq.
      destruct (M6 Il) as [[Hin E']|H]; [eapply Hid; eauto; congruence|]. specialize (Hmax _ _ Hj Ij). lia.
    + rewrite list_lookup_insert_ne in Hj, Hl by done. by eapply Hid.
  - intros k Hk Hk0. destruct (M8 k Hk Hk0) as [[He E]|[Hin Hne]].
    + exists i, caller'. by rewrite list_lookup_insert_eq.
    + destruct (Hcalls k Hin Hk0) as (j & cj & Hj & Hej & Ej). exists j, cj.
      destruct (decide (i = j)) as [->|Hij]; [|by rewrite list_lookup_insert_ne].
      simplify_eq. by destruct (Hne Hej).
  - done.
  - by rewrite M5.
  - unfold receiver_ok, idle, held in *. cbn [cs_connection cs_callers cs_receiver]. rewrite M2, M3, M4.
    destruct (cs_receiver w) as [|d| |]; [done| | |done].
    + destruct Hr as (? & ? & ? & ? & Hs). do 4 (split; [done|]). intros Hd. eapply someone_insert; eauto.
    + destruct Hr as [?|[?|(id & ? & ? & ?)]]; [by left|by right; left|right; right].
      exists id. do 2 (split; [done|]). by eapply someone_insert.
Qed.

(** ** The steps of a call *)

Lemma alone seen w i caller j cj : Inv seen w -> cs_callers w !! i = Some caller -> cs_callers w !! j = Some cj ->
  in_call caller = true -> in_call cj = true -> caller_id cj = caller_id caller -> j = i.
Proof. intros H Hi Hj ? ? ?. by eapply (inv_ids _ _ H). Qed.

(** Moves that do not touch the table. *)
Lemma moves_plain w c' caller caller' : cl_lastInvokeId (cs_connection w) <= cl_lastInvokeId c' ->
  cl_last c' = cl_last (cs_connection w) -> cl_receiveBuffer c' = cl_receiveBuffer (cs_connection w) ->
  cl_receiveBufferMutex c' = cl_receiveBufferMutex (cs_connection w) ->
  cl_associationState c' = cl_associationState (cs_connection w) ->
  cl_outstandingCalls c' = cl_outstandingCalls (cs_connection w) ->
  distinct_calls (cl_outstandingCalls (cs_connection w)) ->
  (in_call caller' = true ->
    (in_call caller = true /\ caller_id caller' = caller_id caller) \/ cl_lastInvokeId (cs_connection w) < caller_id caller') ->
  (being_served caller = true -> being_served caller' = true /\ caller_id caller' = caller_id caller) ->
  (entered caller = true -> entered caller' = true /\ caller_id caller' = caller_id caller) ->
  caller_moves w c' caller caller'.
Proof.
  intros ????? E ??? He. constructor; try done; rewrite E; [|done].
  intros k Hk Hk0. destruct (entered caller) eqn:Ee; [|right; split; [done|discriminate]].
  destruct (He eq_refl) as [He' Hid]. destruct (decide (caller_id caller = k)) as [<-|]; [by left|by right].
Qed.

Lemma begin_moves w call i c' es caller' es' caller seen : Inv seen w -> cs_callers w !! i = Some caller ->
  in_call caller = false -> cl_lastInvokeId (cs_connection w) < 2 ^ 32 - 1 -> 0 <= cl_lastInvokeId (cs_connection w) ->
  begin_call call (cs_connection w) es = Done (caller', c', es') ->
  caller_moves w c' caller caller' /\ caller_ok seen c' (cs_receiver w) caller'.
Proof.
  intros HI Hi Hout Hlt Hnn Hr. unfold begin_call, allocateTransmitBuffer, getNextInvokeId, wait_transmitMutex in Hr.
  run_inv. destruct (Semaphore_wait _); [|done..]. cbn [rbind] in *. simplify_eq.
  cbn [cs_connection cl_set_transmit cl_set_lastInvokeId cl_lastInvokeId] in *.
  rewrite (u32_small (cl_lastInvokeId (cs_connection w) + 1)) by lia. split.
  - apply moves_plain; cbn; try done; [lia|by apply (inv_places _ _ HI)|right; lia| |].
    all: by destruct caller.
  - split; cbn; [lia|done].
Qed.

Lemma register_moves w i now id call c' es caller' es' seen : Inv seen w ->
  cs_callers w !! i = Some (Prepared id call) -> caller_step now (Prepared id call) (cs_connection w) es = Done (caller', c', es') ->
  caller_moves w c' (Prepared id call) caller' /\ caller_ok seen c' (cs_receiver w) caller'.
Proof.
  intros HI Hi Hr. cbn [caller_step] in Hr. unfold addToOutstandingCalls in Hr. run_inv.
  assert (id ∉ cl_outstandingCalls (cs_connection w)) as Hn.
  { intros Hin. destruct (inv_callers _ _ HI _ _ Hi) as [Hb _]. specialize (Hb eq_refl). cbn in Hb.
    destruct (inv_calls _ _ HI id Hin ltac:(lia)) as (j & cj & Hj & Hej & Ej).
    assert (j = i) as -> by (eapply alone; eauto; destruct cj; done). rewrite Hi in Hj. by injection Hj as <-. }
  split.
  - constructor; cbn; try done; [by left|intros k Hk Hk0|].
    + apply replace_first_elem in Hk as [->|Hk]; [by left|by right].
    + apply distinct_add; [apply (inv_places _ _ HI)|done].
  - by apply (inv_callers _ _ HI) in Hi as [H _].
Qed.

Lemma send_moves w i now id call t c' es caller' es' seen : Inv seen w ->
  cs_callers w !! i = Some (Registered id call t) ->
  caller_step now (Registered id call t) (cs_connection w) es = Done (caller', c', es') ->
  caller_moves w c' (Registered id call t) caller' /\ caller_ok seen c' (cs_receiver w) caller'.
Proof.
  intros HI Hi Hr. cbn [caller_step] in Hr. unfold sendMessage, post_transmitMutex in Hr. run_inv. split.
  - apply moves_plain; cbn; try done; [apply (inv_places _ _ HI)|by left].
  - by apply (inv_callers _ _ HI) in Hi as [E0 _].
Qed.

Lemma held_response seen w id : Inv seen w -> cs_receiver w <> Stopped -> 0 < id ->
  responseInvokeId (cl_last (cs_connection w)) = id -> cs_receiver w = Holding /\ held seen (cs_connection w) id.
Proof.
  intros HI Hs Hid E. pose proof (inv_receiver _ _ HI) as Hr. unfold receiver_ok in Hr.
  destruct (cs_receiver w) as [|d| |] eqn:Er; [..|done].
  - destruct Hr as [_ [E0 _]]. lia.
  - destruct Hr as (_ & [E0 _] & _). lia.
  - split; [done|]. destruct Hr as [[_ [E0 _]]|[[_ H]|(id' & _ & Hh & _)]]; [lia|lia|].
    pose proof Hh as (_ & _ & d & <- & [Hl _] & _). congruence.
Qed.

Lemma wait_moves w i now id call t c' es caller' es' seen : Inv seen w ->
  cs_callers w !! i = Some (Waiting id call t) -> now < t ->
  caller_step now (Waiting id call t) (cs_connection w) es = Done (caller', c', es') ->
  caller_moves w c' (Waiting id call t) caller' /\ caller_ok seen c' (cs_receiver w) caller'.
Proof.
  intros HI Hi Ht Hr. cbn [caller_step] in Hr. unfold wait_round, getResponseInvokeId in Hr.
  destruct (Z.ltb_spec now t); [|lia]. pose proof (inv_callers _ _ HI _ _ Hi) as [Hb _].
  assert (caller_moves w (cs_connection w) (Waiting id call t) (Waiting id call t)) as Hm.
  { apply moves_plain; cbn; try done; [apply (inv_places _ _ HI)|by left]. }
  run_inv.
  - split; [by destruct Hm|]. split; [done|]. left. split; [|done]. by apply (inv_closed _ _ HI).
  - split; [by destruct Hm|]. split; [done|]. right. apply Z.eqb_eq in Eb0.
    destruct (held_response seen w id HI) as [Hh He]; [|by apply Hb|done|done].
    intros E. apply (inv_closed _ _ HI) in E. congruence.
  - split; [done|]. by split.
Qed.

Lemma leave_moves w i now id call rc c' es caller' es' seen : Inv seen w ->
  cs_callers w !! i = Some (Leaving id call rc) ->
  caller_step now (Leaving id call rc) (cs_connection w) es = Done (caller', c', es') ->
  caller_moves w c' (Leaving id call rc) caller' /\ caller_ok seen c' (cs_receiver w) caller'.
Proof.
  intros HI Hi Hr. cbn [caller_step] in Hr. unfold removeFromOutstandingCalls in Hr. run_inv.
  pose proof (inv_callers _ _ HI _ _ Hi) as [Hb Hf]. specialize (Hb eq_refl). cbn in Hb.
  destruct (distinct_remove id _ (inv_places _ _ HI) ltac:(lia)) as [Hd Hn]. split; [|done].
  constructor; cbn; try done; [by left|]. intros k Hk Hk0. right.
  pose proof Hk as Hk'. apply replace_first_elem in Hk as [->|Hk]; [done|]. split; [done|]. intros _ ->. done.
Qed.

Lemma read_answer_run call c es r e c' es' buffer : bb_buffer (cl_receiveBuffer c) = Some buffer ->
  read_answer call c es = Done ((r, e), c', es') ->
  c' = c /\ call_answer call buffer (bb_size (cl_receiveBuffer c)) (lastResponseBufPos (cl_last c)) = Done (r, e).
Proof.
  intros Hb Ha. unfold read_answer in Ha. rewrite Hb in Ha. cbn [defined rbind] in Ha.
  destruct (call_answer _ _ _ _) as [[r' e']| | |]; try done. cbn [rbind] in Ha. by injection Ha as -> -> -> _.
Qed.

Lemma answer_run seen c id call rc es caller' c' es' : held seen c id -> rc = lastResponse (cl_last c) ->
  look_at_answer id call rc c es = Done (caller', c', es') ->
  c' = c /\ exists r e, caller' = Releasing id call r e /\ answered seen id call r e.
Proof.
  intros (_ & Hin & d & Hid & [_ Hl] & Hd) -> Hr. unfold look_at_answer in Hr. rewrite bind_get in Hr.
  pose proof Hd as (buffer & Hb & Hd').
  destruct d as [k pos|k err].
  - destruct Hl as (El & Ep & Ee). rewrite Ee, El in Hr.
    destruct (bool_decide_reflect (MMS_ERROR_NONE = MMS_ERROR_NONE)); [cbn [negb] in Hr; rewrite andb_false_r in Hr|done].
    apply cbind_inv in Hr as ([r0 e0] & c1 & es1 & Ha & Hr). apply cret_inv in Hr as (-> & -> & ->).
    destruct (read_answer_run _ _ _ _ _ _ _ _ Hb Ha) as [-> Ec].
    split; [done|]. exists r0, e0. split; [done|]. exists (cl_receiveBuffer c), (DeliverResponse k pos).
    do 3 (split; [done|]). exists buffer. by rewrite <- Ep.
  - destruct Hd' as (se & Hd1 & Hd2 & ->). rewrite Hl in Hr.
    assert (forall r e, answer_is call (cl_receiveBuffer c) (DeliverError k (convertServiceErrorToMmsError se)) r e ->
      answered seen id call r e) as Han by (intros r e Hre; exists (cl_receiveBuffer c), (DeliverError k (convertServiceErrorToMmsError se)); done).
    unfold answer_is in Han. destruct (call_looksAtError call); cbn [andb] in Hr.
    + destruct (bool_decide_reflect (convertServiceErrorToMmsError se = MMS_ERROR_NONE)) as [E|]; [by apply convert_not_none in E|].
      apply cret_inv in Hr as (-> & -> & ->). split; [done|]. do 2 eexists. split; [done|]. by apply Han.
    + destruct (lastResponse (cl_last c)).
      * apply cbind_inv in Hr as ([r0 e0] & c1 & es1 & Ha & Hr). apply cret_inv in Hr as (-> & -> & ->).
        destruct (read_answer_run _ _ _ _ _ _ _ _ Hb Ha) as [-> Ec]. split; [done|]. exists r0, e0. split; [done|]. apply Han. right. by do 2 eexists.
      * apply cret_inv in Hr as (-> & -> & ->). split; [done|]. do 2 eexists. split; [done|]. apply Han. by left.
Qed.

Lemma answer_stopped c id call es caller' c' es' : look_at_answer id call false c es = Done (caller', c', es') ->
  c' = c /\ exists r e, caller' = Releasing id call r e.
Proof. intros Hr. unfold look_at_answer in Hr. run_inv; eauto. Qed.

Lemma answer_moves w i now id call rc c' es caller' es' seen : Inv seen w ->
  cs_callers w !! i = Some (Answering id call rc) ->
  caller_step now (Answering id call rc) (cs_connection w) es = Done (caller', c', es') ->
  caller_moves w c' (Answering id call rc) caller' /\ caller_ok seen c' (cs_receiver w) caller'.
Proof.
  intros HI Hi Hr. cbn [caller_step] in Hr. pose proof (inv_callers _ _ HI _ _ Hi) as [Hb Hf].
  assert (c' = cs_connection w /\ exists r e, caller' = Releasing id call r e /\
    (cs_receiver w = Stopped \/ (cs_receiver w = Holding /\ held seen (cs_connection w) id /\ answered seen id call r e)))
    as (-> & r & e & -> & Ha).
  { destruct Hf as [[Hs ->]|(Hh & He & Erc)].
    - apply answer_stopped in Hr as (-> & r & e & ->). eauto 6.
    - destruct (answer_run _ _ _ _ _ _ _ _ _ He Erc Hr) as (-> & r & e & -> & Ha). eauto 8. }
  split; [apply moves_plain; cbn; try done; [apply (inv_places _ _ HI)|by left]|]. by split.
Qed.

(** ** The end of a call *)

Lemma caller_ok_unfound seen seen' c c' r r' caller : found caller = false -> (r = Stopped -> r' = Stopped) ->
  (forall p, p ∈ seen -> p ∈ seen') -> cl_lastInvokeId c' = cl_lastInvokeId c ->
  caller_ok seen c r caller -> caller_ok seen' c' r' caller.
Proof.
  intros Hf Hr Hs El [H1 H2]. split; [by rewrite El|].
  destruct caller; try done. destruct H2 as [(p & d & ? & ?)|[? ?]]; [|auto].
  left. exists p, d. auto.
Qed.

(** Nobody else has left the loop while the response is held. *)
Lemma others_unfound seen w i caller j cj : Inv seen w -> cs_receiver w <> Stopped -> cs_callers w !! i = Some caller ->
  found caller = true -> cs_callers w !! j = Some cj -> j <> i -> found cj = false.
Proof.
  intros HI Hs Hi Hf Hj Hne. destruct (found cj) eqn:Ej; [|done]. exfalso. apply Hne.
  assert (forall k ck, cs_callers w !! k = Some ck -> found ck = true ->
    responseInvokeId (cl_last (cs_connection w)) = caller_id ck /\ in_call ck = true) as H.
  { intros k ck Hk Hfk. apply (inv_callers _ _ HI) in Hk as [_ Hk].
    destruct ck; try discriminate Hfk; (split; [|done]).
    all: destruct Hk as [Hk|(_ & (_ & _ & d & <- & [Hl _] & _) & _)]; [by try destruct Hk|done]. }
  destruct (H _ _ Hi Hf) as [E1 I1]. destruct (H _ _ Hj Ej) as [E2 I2].
  eapply alone; [done|exact Hi|exact Hj|done|done|congruence].
Qed.

Lemma end_inv w i now id call r e c' es caller' es' seen : Inv seen w ->
  cs_callers w !! i = Some (Releasing id call r e) ->
  caller_step now (Releasing id call r e) (cs_connection w) es = Done (caller', c', es') ->
  Inv seen (mkSystem c' (<[i := caller']> (cs_callers w)) (cs_receiver w)).
Proof.
  intros HI Hi Hr. cbn [caller_step] in Hr. unfold end_call, releaseResponse, releaseReceiveBuffer in Hr. run_inv.
  pose proof (lookup_lt_Some _ _ _ Hi) as Hlt. pose proof (inv_callers _ _ HI _ _ Hi) as [Hb Hf].
  cbn [cl_associationState cl_set_receive cl_set_last].
  constructor; cbn [cs_connection cs_callers cs_receiver cl_outstandingCalls cl_associationState cl_set_receive cl_set_last].
  - apply (inv_lastInvokeId _ _ HI).
  - intros j cj. destruct (decide (i = j)) as [<-|Hij].
    + rewrite list_lookup_insert_eq by done. intros [= <-]. split; [done|].
      destruct (is_closed _) eqn:Ec; [right; split; [done|by apply (inv_closed _ _ HI)]|].
      destruct Hf as [Hf|(_ & _ & Hf)]; [apply (inv_closed _ _ HI) in Hf; congruence|by left].
    + rewrite list_lookup_insert_ne by done. intros Hj. pose proof (inv_callers _ _ HI _ _ Hj) as Hok.
      destruct (found cj) eqn:Efj.
      * assert (cs_receiver w = Stopped) as Hs.
        { destruct Hf as [|(Hh & _)]; [done|]. exfalso.
          assert (found cj = false) by (eapply others_unfound; [done|rewrite Hh; discriminate|exact Hi|done|exact Hj|by intros ->]). congruence. }
        destruct Hok as [H1 H2]. split; [done|].
        destruct cj; try discriminate Efj; [| |by left].
        all: destruct H2 as [H2|[H2 _]]; [by left|congruence].
      * by apply (caller_ok_unfound seen seen (cs_connection w) _ (cs_receiver w) _ cj).
  - intros j l cj cl Hj Hl Ij Il E.
    destruct (decide (i = j)) as [<-|Hij]; [rewrite list_lookup_insert_eq in Hj by done; by simplify_eq|].
    destruct (decide (i = l)) as [<-|Hil]; [rewrite list_lookup_insert_eq in Hl by done; by simplify_eq|].
    rewrite list_lookup_insert_ne in Hj, Hl by done. by eapply (inv_ids _ _ HI).
  - intros k Hk Hk0. destruct (inv_calls _ _ HI k Hk Hk0) as (j & cj & Hj & Hej & Ej). exists j, cj.
    destruct (decide (i = j)) as [->|Hij]; [rewrite Hi in Hj; by injection Hj as <-|by rewrite list_lookup_insert_ne].
  - apply (inv_places _ _ HI).
  - apply (inv_closed _ _ HI).
  - unfold receiver_ok. cbn [cs_receiver cs_connection]. destruct (cs_receiver w) eqn:Er; [| | |done].
    + destruct Hf as [|(? & _)]; congruence.
    + destruct Hf as [|(? & _)]; congruence.
    + left. destruct Hf as [|(_ & (Hm & _) & _)]; [done|].
      unfold Semaphore_post. cbn. by rewrite Hm.
Qed.

(** ** A message from the server *)

Record undisturbed (c c' : MmsConnection) : Prop := {
  un_lastInvokeId : cl_lastInvokeId c' = cl_lastInvokeId c;
  un_responseInvokeId : responseInvokeId (cl_last c') = responseInvokeId (cl_last c);
  un_error : lastResponseError (cl_last c') = lastResponseError (cl_last c);
  un_calls : cl_outstandingCalls c' = cl_outstandingCalls c;
  un_association : cl_associationState c' = cl_associationState c;
  un_buffer : cl_receiveBuffer c' = cl_receiveBuffer c }.

Lemma report_keeps message c es u c' es' : handleUnconfirmedMmsPdu codec message c es = Done (u, c', es') -> c' = c.
Proof.
  assert (keeps (fun s => s = c) (handleUnconfirmedMmsPdu codec message)) as H.
  { unfold handleUnconfirmedMmsPdu, handleInformationReport.
    apply k_bind; [apply k_get|intros [|]]; [|apply k_ret]. apply k_bind; [apply k_lift|intros buffer].
    destruct (ber_decode_MmsPdu _ _ _) as [[]|]; try apply k_ret. destruct informationReport as [[[| |[]] ?]|]; cbn [rp_variableAccessSpecification]; keeps_run. }
  intros Hr. by apply (keeps_done _ _ _ _ _ _ _ H eq_refl Hr).
Qed.

(** What comes of a message that is received: nothing, with the receive buffer released or
    not, or the delivery of a message for a call that is outstanding. *)
Definition checked (c c' : MmsConnection) (payload : ByteBuffer) (r : option Delivery) : Prop :=
  undisturbed c c' /\
  match r with
  | None => cl_receiveBufferMutex c' = cl_receiveBufferMutex c \/ cl_receiveBufferMutex c' = cl_receiveBufferMutex c + 1
  | Some d => cl_receiveBufferMutex c' = cl_receiveBufferMutex c /\ message_for payload d /\
      delivered_id d ∈ cl_outstandingCalls c
  end.

Lemma checked_released c c' c'' payload : undisturbed c c' -> cl_receiveBufferMutex c' = cl_receiveBufferMutex c ->
  c'' = cl_set_receive (cl_receiveBuffer c') (Semaphore_post (cl_receiveBufferMutex c')) c' -> checked c c'' payload None.
Proof. intros [? ? ? ? ? ?] E ->. split; [by constructor|]. right. cbn. unfold Semaphore_post. by rewrite E. Qed.

Local Ltac released := eapply checked_released; [..|reflexivity]; by try constructor.

Lemma undisturbed_refl c : undisturbed c c.
Proof. done. Qed.

Lemma expect_checked d c es r c' es' payload : message_for payload d ->
  expect_delivery d c es = Done (r, c', es') -> checked c c' payload r.
Proof.
  intros Hm Hr. unfold expect_delivery, checkForOutstandingCall, releaseReceiveBuffer in Hr. run_inv.
  - split; [done|]. split; [done|]. split; [done|]. symmetry in H. by apply bool_decide_eq_true in H.
  - released.
Qed.

Lemma error_checked buffer payload c es r c' es' : bb_buffer payload = Some buffer -> rd buffer 0 = Done 0xa2 ->
  handle_error_pdu fuel buffer (bb_size payload) c es = Done (r, c', es') -> checked c c' payload r.
Proof.
  intros Hb Ht Hr. unfold handle_error_pdu in Hr. run_inv; [|by split; [|left]].
  unfold error_delivery in *. destruct p as [[id|] se]; [|done]. cbn [fst snd defined rbind] in *. simplify_eq.
  eapply expect_checked; [|done]. exists buffer. split; [done|]. by exists se.
Qed.

Lemma response_checked buffer payload c es r c' es' : bb_buffer payload = Some buffer -> rd buffer 0 = Done 0xa1 ->
  handle_response_pdu buffer (bb_size payload) c es = Done (r, c', es') -> checked c c' payload r.
Proof.
  intros Hb Ht Hr. unfold handle_response_pdu in Hr. run_inv.
  - destruct p as [id pos]. eapply expect_checked; [|done]. by exists buffer.
  - unfold releaseReceiveBuffer in *. run_inv. released.
Qed.

Lemma callback_checked payload c es r c' es' :
  mmsIsoCallback_check codec fuel ISO_IND_DATA (Some payload) c es = Done (r, c', es') -> checked c c' payload r.
Proof.
  intros Hr. unfold mmsIsoCallback_check in Hr. cbn [defined] in Hr. apply cbind_inv in Hr as (p & c1 & es1 & Hp & Hr).
  injection Hp as <- <- <-. destruct (bb_size payload <? 1).
  { unfold releaseReceiveBuffer in Hr. run_inv. released. }
  unfold handle_pdu in Hr. apply cbind_inv in Hr as (buffer & c1 & es1 & Hp & Hr).
  apply clift_inv in Hp as (Hb & -> & ->). destruct (bb_buffer payload) as [b|] eqn:Eb; [injection Hb as ->|done].
  apply cbind_inv in Hr as (tag & c1 & es1 & Hp & Hr). apply clift_inv in Hp as (Ht & -> & ->). cbv zeta in Hr.
  unfold handle_initiate_response, releaseReceiveBuffer, set_conclude, set_states, release_connection, post_transmitMutex in Hr.
  run_inv.
  - by split; [|left].
  - apply report_keeps in Hstep. subst. released.
  - released.
  - unfold wait_transmitMutex in *. destruct (Semaphore_wait _); [|done..]. cbn [rbind] in *. simplify_eq.
    released.
  - released.
  - eapply error_checked; [done| |done]. by apply Z.eqb_eq in Eb5 as <-.
  - eapply response_checked; [done| |done]. by apply Z.eqb_eq in Eb6 as <-.
  - by split; [|left].
Qed.

(** ** The steps of the receiver *)

Definition nobody_found (w : ClientSystem) : Prop := forall i c, cs_callers w !! i = Some c -> found c = false.

Lemma found_holds seen w i c : Inv seen w -> cs_receiver w <> Stopped -> cs_callers w !! i = Some c -> found c = true ->
  cs_receiver w = Holding /\ held seen (cs_connection w) (caller_id c) /\ 0 < caller_id c.
Proof.
  intros HI Hs Hi Hf. apply (inv_callers _ _ HI) in Hi as [H1 H2].
  destruct c; try discriminate Hf; (destruct H2 as [H2|(? & ? & _)]; [by try destruct H2|]); (do 2 (split; [done|]); by apply H1).
Qed.

Lemma inv_receiver_step seen seen' w c' r' : Inv seen w -> cs_receiver w <> Stopped -> nobody_found w ->
  cl_lastInvokeId c' = cl_lastInvokeId (cs_connection w) -> cl_outstandingCalls c' = cl_outstandingCalls (cs_connection w) ->
  (is_closed (cl_associationState c') = true <-> r' = Stopped) -> (forall p, p ∈ seen -> p ∈ seen') ->
  receiver_ok seen' (mkSystem c' (cs_callers w) r') -> Inv seen' (mkSystem c' (cs_callers w) r').
Proof.
  intros HI Hs Hn El Ec Ecl Hseen Hr. constructor; cbn [cs_connection cs_callers cs_receiver]; rewrite ?Ec; try done.
  - rewrite El. apply (inv_lastInvokeId _ _ HI).
  - intros i c Hi. apply (caller_ok_unfound seen seen' (cs_connection w) c' (cs_receiver w)); try done.
    + by eapply Hn.
    + by apply (inv_callers _ _ HI) in Hi.
  - apply (inv_ids _ _ HI).
  - apply (inv_calls _ _ HI).
  - apply (inv_places _ _ HI).
Qed.

Lemma open_receiving seen w : Inv seen w -> cs_receiver w <> Stopped -> is_closed (cl_associationState (cs_connection w)) <> true.
Proof. intros HI Hs E. by apply (inv_closed _ _ HI) in E. Qed.

Lemma receive_inv seen w payload r c' es es' : Inv seen w -> cs_receiver w = Receiving ->
  receive codec fuel payload (cs_connection w) es = Done (r, c', es') ->
  Inv (seen ++ [payload]) (mkSystem c' (cs_callers w) r).
Proof.
  intros HI Hw Hr. unfold receive, receiver_check in Hr. apply cbind_inv in Hr as (u & c1 & es1 & Hp & Hr).
  injection Hp as _ <- <-. apply cbind_inv in Hr as (d & c2 & es2 & Hc & Hr). apply cret_inv in Hr as (-> & -> & ->).
  apply callback_checked in Hc as [[U1 U2 U3 U4 U5 U6] Hx].
  cbn [cl_lastInvokeId cl_last cl_outstandingCalls cl_associationState cl_receiveBuffer cl_set_receive cl_receiveBufferMutex] in *.
  assert (cs_receiver w <> Stopped) as Hs by (by rewrite Hw).
  pose proof (inv_receiver _ _ HI) as Hrec. unfold receiver_ok in Hrec. rewrite Hw in Hrec. destruct Hrec as [Hm [Hi1 Hi2]].
  assert (idle c2) as Hidle by (split; congruence).
  apply (inv_receiver_step seen); try done.
  - intros i c Hi. destruct (found c) eqn:Ef; [|done]. destruct (found_holds _ _ _ _ HI Hs Hi Ef) as [? _]. congruence.
  - rewrite U5. split; [intros E; by apply (open_receiving _ _ HI Hs) in E|]. by repeat case_match.
  - intros p Hp. apply elem_of_app. by left.
  - unfold receiver_ok. cbn [cs_receiver cs_connection]. destruct d as [d|].
    + destruct Hx as (Em & Hmsg & Hd). do 2 (split; [lia || done|]). rewrite U6.
      split; [apply elem_of_app; right; apply elem_of_cons; by left|]. split; [done|].
      intros Hd0. destruct (inv_calls _ _ HI _ Hd Hd0) as (i & c & Hi & He & Ei). exists i, c.
      split; [done|]. split; [|done]. unfold being_served. by rewrite He.
    + destruct Hx as [Em|Em]; [right; left|left]; (split; [lia|]); [by destruct Hidle|done].
Qed.

Lemma deliver_inv seen w d u c' es es' : Inv seen w -> cs_receiver w = Delivering d ->
  deliver d (cs_connection w) es = Done (u, c', es') -> Inv seen (mkSystem c' (cs_callers w) Holding).
Proof.
  intros HI Hw Hr. unfold deliver, waitUntilLastResponseHasBeenProcessed, getResponseInvokeId in Hr. run_inv; [|done].
  assert (cs_receiver w <> Stopped) as Hs by (by rewrite Hw).
  pose proof (inv_receiver _ _ HI) as Hrec. unfold receiver_ok in Hrec. rewrite Hw in Hrec.
  destruct Hrec as (Hm & [Hi1 Hi2] & Hin & Hmsg & Hsome).
  apply (inv_receiver_step seen); try done.
  - intros i c Hi. destruct (found c) eqn:Ef; [|done]. destruct (found_holds _ _ _ _ HI Hs Hi Ef) as [? _]. congruence.
  - split; [intros E; by apply (open_receiving _ _ HI Hs) in E|done].
  - unfold receiver_ok. cbn [cs_receiver cs_connection].
    destruct (decide (delivered_id d = 0)) as [E0|E0]; [right; left; split; [done|by destruct d]|].
    right. right. exists (delivered_id d). split; [done|]. split; [|auto]. split; [done|]. split; [done|].
    exists d. split; [done|]. split; [|done]. by destruct d.
Qed.

Lemma resume_inv seen w r c' es es' : Inv seen w -> cs_receiver w = Holding ->
  resume (cs_connection w) es = Done (r, c', es') -> Inv seen (mkSystem c' (cs_callers w) r).
Proof.
  intros HI Hw Hr. unfold resume, Semaphore_wait in Hr. destruct (Z.ltb_spec 0 (cl_receiveBufferMutex (cs_connection w))) as [Hm|]; [|done].
  cbn [rbind] in Hr. injection Hr as <- <- <-. assert (cs_receiver w <> Stopped) as Hs by (by rewrite Hw).
  pose proof (inv_receiver _ _ HI) as Hrec. unfold receiver_ok in Hrec. rewrite Hw in Hrec.
  apply (inv_receiver_step seen); try done.
  - intros i c Hi. destruct (found c) eqn:Ef; [|done]. destruct (found_holds _ _ _ _ HI Hs Hi Ef) as (_ & (? & _) & _). lia.
  - split; [intros E; by apply (open_receiving _ _ HI Hs) in E|done].
  - unfold receiver_ok. cbn. destruct Hrec as [[? ?]|[[? _]|(id & _ & (? & _) & _)]]; [|lia..]. split; [lia|done].
Qed.

Lemma close_inv seen w u c' es es' : Inv seen w -> cs_receiver w = Receiving ->
  mmsIsoCallback_check codec fuel ISO_IND_CLOSED None (cs_connection w) es = Done (u, c', es') ->
  Inv seen (mkSystem c' (cs_callers w) Stopped).
Proof.
  intros HI Hw Hr. unfold mmsIsoCallback_check, set_states in Hr. run_inv.
  assert (cs_receiver w <> Stopped) as Hs by (by rewrite Hw). apply (inv_receiver_step seen); try done.
  intros i c Hi. destruct (found c) eqn:Ef; [|done]. destruct (found_holds _ _ _ _ HI Hs Hi Ef) as [? _]. congruence.
Qed.

(** * Runs without time-outs

    Invoke ids are used once, and who waits looks again before its time is over. *)
Definition prompt (a : Action) (w : ClientSystem) : bool :=
  match a with
  | Begin _ _ => cl_lastInvokeId (cs_connection w) <? 2 ^ 32 - 1
  | Run i now => match cs_callers w !! i with Some (Waiting _ _ waitUntilTime) => now <? waitUntilTime | _ => true end
  | _ => true
  end.

Fixpoint prompt_run (actions : list Action) (w : ClientSystem) (es : list ClientEvent) : bool :=
  match actions with
  | [] => true
  | a :: actions =>
      prompt a w && match perform codec fuel a w es with Done (w, es) => prompt_run actions w es | _ => true end
  end.

Definition payloads (a : Action) : list ByteBuffer := match a with Receive payload => [payload] | _ => [] end.

Lemma run_inv_step seen w i now caller caller' c' es es' : Inv seen w -> prompt (Run i now) w = true ->
  cs_callers w !! i = Some caller -> caller_step now caller (cs_connection w) es = Done (caller', c', es') ->
  Inv seen (with_caller w i caller' c').
Proof.
  intros HI Hp Hi Hr. unfold prompt in Hp. rewrite Hi in Hp. unfold with_caller.
  assert (Inv seen w -> caller_moves w c' caller caller' /\ caller_ok seen c' (cs_receiver w) caller' ->
    Inv seen (mkSystem c' (<[i := caller']> (cs_callers w)) (cs_receiver w))) as Hmove
    by (intros ? [? ?]; by eapply inv_move).
  destruct caller; try done.
  - by eapply Hmove, register_moves.
  - by eapply Hmove, send_moves.
  - apply Hmove; [done|]. eapply wait_moves; eauto. lia.
  - by eapply Hmove, leave_moves.
  - by eapply Hmove, answer_moves.
  - by eapply end_inv.
Qed.

Lemma perform_inv seen a w es w' es' : Inv seen w -> prompt a w = true -> perform codec fuel a w es = Done (w', es') ->
  Inv (seen ++ payloads a) w'.
Proof.
  intros HI Hp Hr. unfold perform, on_connection in Hr.
  destruct a as [i call|i now|payload| | |]; cbn [payloads]; rewrite ?app_nil_r.
  - destruct (cs_callers w !! i) as [caller|] eqn:Ei; [|done].
    assert (in_call caller = false) as Hc by (by destruct caller).
    assert (match begin_call call (cs_connection w) es with
            | Done (a, c, es) => (with_caller w i a c, es) = (w', es') | _ => False end) as Hb.
    { destruct caller; try done; destruct (begin_call _ _ _) as [[[a c] es1]| | |]; try done; cbn [rbind] in Hr; by injection Hr as <- <-. }
    destruct (begin_call _ _ _) as [[[caller' c'] es1]| | |] eqn:Eb; try done. injection Hb as <- <-.
    cbn [prompt] in Hp. apply Z.ltb_lt in Hp.
    destruct (begin_moves _ _ _ _ _ _ _ _ seen HI Ei Hc Hp (inv_lastInvokeId _ _ HI) Eb) as [Hm Hok].
    by eapply inv_move.
  - destruct (cs_callers w !! i) as [caller|] eqn:Ei; [|done].
    destruct (caller_step _ _ _ _) as [[[caller' c'] es1]| | |] eqn:Eb; try done. cbn [rbind] in Hr. injection Hr as <- <-.
    by eapply run_inv_step.
  - destruct (cs_receiver w) eqn:Ew; try done. destruct (receive _ _ _ _ _) as [[[r c'] es1]| | |] eqn:Eb; try done.
    cbn [rbind] in Hr. injection Hr as <- <-. by eapply receive_inv.
  - destruct (cs_receiver w) eqn:Ew; try done. destruct (deliver _ _ _) as [[[r c'] es1]| | |] eqn:Eb; try done.
    cbn [rbind] in Hr. injection Hr as <- <-. by eapply deliver_inv.
  - destruct (cs_receiver w) eqn:Ew; try done. destruct (resume _ _) as [[[r c'] es1]| | |] eqn:Eb; try done.
    cbn [rbind] in Hr. injection Hr as <- <-. by eapply resume_inv.
  - destruct (cs_receiver w) eqn:Ew; try done. destruct (mmsIsoCallback_check _ _ _ _ _ _) as [[[r c'] es1]| | |] eqn:Eb; try done.
    cbn [rbind] in Hr. injection Hr as <- <-. by eapply close_inv.
Qed.

Lemma perform_all_inv seen actions w es w' es' : Inv seen w -> prompt_run actions w es = true ->
  perform_all codec fuel actions w es = Done (w', es') -> Inv (seen ++ flat_map payloads actions) w'.
Proof.
  revert seen w es. induction actions as [|a actions IH]; intros seen w es HI Hp Hr; cbn [perform_all prompt_run flat_map] in *.
  - injection Hr as <- <-. by rewrite app_nil_r.
  - apply andb_true_iff in Hp as [Hp Hps].
    destruct (perform _ _ a w es) as [[w1 es1]| | |] eqn:Ea; try done. cbn [rbind] in Hr.
    rewrite app_assoc. eapply IH; [|done|done]. by eapply perform_inv.
Qed.

Lemma perform_stopped a w es w' es' : perform codec fuel a w es = Done (w', es') -> cs_receiver w' = Stopped ->
  cs_receiver w = Stopped \/ a = Close.
Proof.
  intros Hr Hs. unfold perform, on_connection in Hr.
  destruct a as [i call|i now|payload| | |]; [| | | | |by right]; left.
  - destruct (_ !! _) as [[]|]; try done; destruct (begin_call _ _ _) as [[[? ?] ?]| | |]; try done; by injection Hr as <- <-.
  - destruct (_ !! _); try done. destruct (caller_step _ _ _ _) as [[[? ?] ?]| | |]; try done. by injection Hr as <- <-.
  - destruct (cs_receiver w); try done. unfold receive, receiver_check in Hr.
    destruct (cbind _ _ _ _) as [[[? ?] ?]| | |] eqn:E; try done. injection Hr as <- <-. run_inv. cbn in Hs. by case_match.
  - destruct (cs_receiver w); try done. destruct (deliver _ _ _) as [[[? ?] ?]| | |]; try done. by injection Hr as <- <-.
  - destruct (cs_receiver w); try done. unfold resume in Hr. destruct (Semaphore_wait _); try done. by injection Hr as <- <-.
Qed.

Lemma perform_all_stopped actions w es w' es' : perform_all codec fuel actions w es = Done (w', es') ->
  cs_receiver w' = Stopped -> cs_receiver w = Stopped \/ Close ∈ actions.
Proof.
  revert w es. induction actions as [|a actions IH]; intros w es Hr Hs; cbn [perform_all] in Hr; [injection Hr as <- <-; by left|].
  destruct (perform _ _ a w es) as [[w1 es1]| | |] eqn:Ea; try done. cbn [rbind] in Hr.
  rewrite elem_of_cons. destruct (IH _ _ Hr Hs) as [H1|]; [|by auto].
  destruct (perform_stopped _ _ _ _ _ Ea H1) as [|]; auto.
Qed.

(** ** Connecting *)

(** A connection that has no calls. *)
Definition fresh (c : MmsConnection) : Prop :=
  0 <= cl_lastInvokeId c /\ idle c /\ Forall (fun k => k = 0) (cl_outstandingCalls c).

Definition start (c : MmsConnection) (callers : nat) : ClientSystem := mkSystem c (replicate callers Idle) Holding.

Definition still_waiting (c : MmsConnection) : Prop := cl_connectionState c = MMS_CON_WAITING.

Lemma deliver_waiting d : keeps still_waiting (deliver d).
Proof. unfold deliver, waitUntilLastResponseHasBeenProcessed, getResponseInvokeId. keeps_run. done. Qed.

Lemma release_waiting : keeps still_waiting releaseReceiveBuffer.
Proof. unfold releaseReceiveBuffer. keeps_run. done. Qed.

Lemma expect_waiting d : keeps still_waiting (expect_delivery d).
Proof. unfold expect_delivery, checkForOutstandingCall, releaseReceiveBuffer. keeps_run. done. Qed.

Lemma report_waiting message : keeps still_waiting (handleUnconfirmedMmsPdu codec message).
Proof. intros s es a s' es' Hs Hr. apply report_keeps in Hr. by subst. Qed.

Lemma release_connection_waiting : keeps still_waiting release_connection.
Proof.
  unfold release_connection, post_transmitMutex, wait_transmitMutex. keeps_run; [|done].
  intros s es a s' es' Hs. destruct (Semaphore_wait _); [|done..]. cbn [rbind]. by intros [= _ <- _].
Qed.

#[local] Hint Resolve deliver_waiting release_waiting expect_waiting report_waiting release_connection_waiting : keeps.

Lemma other_waiting tag payload buffer : tag <> 0xa9 ->
  keeps still_waiting
    (if tag =? 0xa9 then do! _ := handle_initiate_response ISO_IND_ASSOCIATION_SUCCESS in cret None
     else if tag =? 0xa3 then do! _ := handleUnconfirmedMmsPdu codec payload in do! _ := releaseReceiveBuffer in cret None
     else if tag =? 0x8b then do! _ := set_conclude CONCLUDE_STATE_REQUESTED in do! _ := releaseReceiveBuffer in cret None
     else if tag =? 0x8c then
       do! _ := set_conclude CONCLUDE_STATE_ACCEPTED in
       do! _ := release_connection in do! _ := releaseReceiveBuffer in cret None
     else if tag =? 0x8d then do! _ := set_conclude CONCLUDE_STATE_REJECTED in do! _ := releaseReceiveBuffer in cret None
     else if tag =? 0xa2 then handle_error_pdu fuel buffer (bb_size payload)
     else if tag =? 0xa1 then handle_response_pdu buffer (bb_size payload)
     else cret None).
Proof.
  intros Ht. destruct (Z.eqb_spec tag 0xa9) as [|_]; [done|]. unfold set_conclude, handle_error_pdu, handle_response_pdu.
  keeps_run; try done. destruct p. apply expect_waiting.
Qed.

Lemma callback_associated payload c es u c' es' : still_waiting c -> fresh c ->
  mmsIsoCallback codec fuel ISO_IND_ASSOCIATION_SUCCESS (Some payload) c es = Done (u, c', es') ->
  cl_connectionState c' = MMS_CON_ASSOCIATED -> fresh c' /\ cl_receiveBufferMutex c' = cl_receiveBufferMutex c.
Proof.
  intros Hw Hf Hr Ha. unfold mmsIsoCallback in Hr. apply cbind_inv in Hr as (d & c2 & es2 & Hc & Hr).
  assert (still_waiting c2 -> False) as Hno.
  { intros H2. assert (still_waiting c') as H'; [|unfold still_waiting in H'; congruence].
    destruct d; [by eapply deliver_waiting|]. by apply cret_inv in Hr as (_ & -> & _). }
  unfold mmsIsoCallback_check in Hc. apply cbind_inv in Hc as (p & c1 & es1 & Hp & Hc). injection Hp as <- <- <-.
  destruct (bb_size payload <? 1).
  { destruct Hno. apply (keeps_done _ _ _ _ _ _ _ (k_bind _ _ _ release_waiting (fun _ => k_ret _ _)) Hw Hc). }
  unfold handle_pdu in Hc. apply cbind_inv in Hc as (buffer & c1 & es1 & Hp & Hc). apply clift_inv in Hp as (_ & -> & ->).
  apply cbind_inv in Hc as (tag & c1 & es1 & Hp & Hc). apply clift_inv in Hp as (_ & -> & ->). cbv zeta in Hc.
  destruct (decide (tag = 0xa9)) as [->|Ht].
  2: { destruct Hno. apply (keeps_done _ _ _ _ _ _ _ (other_waiting _ _ _ Ht) Hw Hc). }
  change (0xa9 =? 0xa9) with true in Hc. cbv iota in Hc. unfold handle_initiate_response, set_states in Hc. run_inv; by split.
Qed.

(** What only changes the transmit buffer, the states and the parameters. *)
Definition about_to_connect (c : MmsConnection) : Prop := fresh c /\ cl_receiveBufferMutex c = 1.

Lemma send_about : keeps (fun c => about_to_connect c /\ still_waiting c) sendMessage.
Proof. unfold sendMessage, post_transmitMutex. keeps_run. done. Qed.

Lemma associate_associated a c es u c' es' : about_to_connect c -> still_waiting c ->
  associate codec fuel a c es = Done (u, c', es') -> cl_connectionState c' = MMS_CON_ASSOCIATED ->
  fresh c' /\ cl_receiveBufferMutex c' = 0.
Proof.
  intros Hf Hw Hr Ha. destruct a as [| |payload]; cbn [associate] in Hr.
  - unfold mmsIsoCallback, mmsIsoCallback_check, set_states in Hr. run_inv; done.
  - apply cbind_inv in Hr as (? & c1 & es1 & _ & Hr).
    unfold mmsIsoCallback, mmsIsoCallback_check, set_states in Hr. run_inv; done.
  - apply cbind_inv in Hr as (? & c1 & es1 & Hs & Hr). destruct (keeps_done _ _ _ _ _ _ _ send_about (conj Hf Hw) Hs) as [[Hf1 Hm1] Hw1].
    apply cbind_inv in Hr as (? & c2 & es2 & Hp & Hr). unfold receive_payload, Semaphore_wait in Hp. rewrite Hm1 in Hp.
    cbn in Hp. injection Hp as _ <- <-.
    eapply callback_associated in Hr as [? ?]; done.
Qed.

Lemma connect_fresh sendBuffer a c0 es c es' : fresh c0 ->
  MmsConnection_connect codec fuel sendBuffer a c0 es = Done (MMS_ERROR_NONE, c, es') ->
  fresh c /\ cl_receiveBufferMutex c = 1 /\ cl_associationState c = MMS_STATE_CONNECTED.
Proof.
  intros Hf Hr. unfold MmsConnection_connect in Hr.
  apply cbind_inv in Hr as (? & c1 & es1 & Hp & Hr). injection Hp as _ <- <-.
  match type of Hr with _ ?c1 _ = _ => assert (about_to_connect c1) as H1 by done; revert Hr H1; generalize c1 end.
  clear Hf. intros c1 Hr H1. apply cbind_inv in Hr as (? & c2 & es2 & Hp & Hr).
  assert (about_to_connect c2) as H2 by (injection Hp as _ <- _; by destruct (_ =? _)). clear Hp H1 c1.
  unfold allocateTransmitBuffer, wait_transmitMutex in Hr. rewrite !bind_assoc in Hr.
  apply cbind_inv in Hr as (? & c3 & es3 & Hp & Hr).
  assert (about_to_connect c3) as H3.
  { destruct (Semaphore_wait _); [|done..]. cbn [rbind] in Hp. by injection Hp as _ <- _. }
  clear Hp H2 c2. unfold set_states in Hr. cbv beta in Hr. rewrite bind_assoc, bind_get in Hr.
  apply cbind_inv in Hr as (payload & c4 & es4 & Hp & Hr). apply cret_inv in Hp as (_ & -> & ->).
  rewrite bind_get in Hr. apply cbind_inv in Hr as (request & c4 & es4 & Hp & Hr). apply clift_inv in Hp as (_ & -> & ->).
  rewrite bind_modify, bind_get, bind_modify in Hr.
  match type of Hr with _ ?c1 _ = _ => assert (about_to_connect c1 /\ still_waiting c1) as H4 by done; revert Hr H4; generalize c1 end.
  intros c4 Hr [H4 Hw]. apply cbind_inv in Hr as (? & c5 & es5 & Ha & Hr). rewrite bind_get in Hr.
  destruct (cl_connectionState c5) eqn:Ec; try (apply cbind_inv in Hr as (? & c6 & es6 & _ & Hr); by injection Hr).
  destruct (associate_associated _ _ _ _ _ _ H4 Hw Ha Ec) as [Hf5 Hm5].
  apply cbind_inv in Hr as (ok & c6 & es6 & Hp & Hr). unfold parse_initiate_response in Hp.
  destruct (bb_buffer _); [cbn [defined rbind] in Hp|done]. destruct (mmsClient_parseInitiateResponse _ _ _ _) as [ok' parameters].
  injection Hp as _ <- <-. unfold releaseResponse, releaseReceiveBuffer in Hr. rewrite bind_assoc, !bind_modify in Hr.
  injection Hr as <- _. split; [|split; [|done]].
  - destruct Hf5 as (? & ? & ?). done.
  - cbn. rewrite Hm5. done.
Qed.

Lemma start_inv c n : fresh c -> cl_receiveBufferMutex c = 1 -> cl_associationState c = MMS_STATE_CONNECTED -> Inv [] (start c n).
Proof.
  intros (H0 & Hi & Hc) Hm Ha.
  assert (forall i caller, replicate n Idle !! i = Some caller -> caller = Idle) as Hidle.
  { intros i caller Hr. by apply lookup_replicate in Hr as [-> _]. }
  constructor; cbn [start cs_connection cs_callers cs_receiver]; try done.
  - intros i caller ->%Hidle. by split.
  - intros i j ci cj ->%Hidle ->%Hidle. done.
  - intros k Hk Hk0. rewrite Forall_forall in Hc. by apply Hc in Hk.
  - intros p q k Hp Hq Hk0. apply list_elem_of_lookup_2 in Hp. rewrite Forall_forall in Hc. by apply Hc in Hp.
  - by rewrite Ha.
  - by left.
Qed.

(** The run of a client that has connected. *)
Definition client_run (sendBuffer : list Z) (a : Association) (c0 : MmsConnection) (callers : nat) (actions : list Action)
    (w : ClientSystem) (es : list ClientEvent) : Prop :=
  exists c es0, fresh c0 /\ MmsConnection_connect codec fuel sendBuffer a c0 [] = Done (MMS_ERROR_NONE, c, es0) /\
  prompt_run actions (start c callers) es0 = true /\ perform_all codec fuel actions (start c callers) es0 = Done (w, es).

Lemma client_run_inv sendBuffer a c0 callers actions w es : client_run sendBuffer a c0 callers actions w es ->
  Inv (flat_map payloads actions) w.
Proof.
  intros (c & es0 & Hf & Hc & Hp & Hr). destruct (connect_fresh _ _ _ _ _ _ Hf Hc) as (? & ? & ?).
  by apply (perform_all_inv [] actions _ _ _ _ (start_inv _ _ ltac:(done) ltac:(done) ltac:(done)) Hp Hr).
Qed.

Lemma client_run_stopped sendBuffer a c0 callers actions w es : client_run sendBuffer a c0 callers actions w es ->
  cs_receiver w = Stopped -> Close ∈ actions.
Proof. intros (c & es0 & _ & _ & _ & Hr) Hs. by destruct (perform_all_stopped _ _ _ _ _ Hr Hs). Qed.

(** ** A call whose answer is there comes to its end *)

Lemma step_waiting id call t now c es : now < t -> is_closed (cl_associationState c) = false ->
  responseInvokeId (cl_last c) = id ->
  caller_step now (Waiting id call t) c es = Done (Leaving id call (lastResponse (cl_last c)), c, es).
Proof.
  intros Ht Hc Hid. cbn [caller_step]. unfold wait_round, getResponseInvokeId.
  destruct (Z.ltb_spec now t); [|lia]. rewrite bind_get, Hc, bind_get, Hid, Z.eqb_refl. done.
Qed.

Definition parser_returns (call : ClientCall) (c : MmsConnection) : Prop :=
  forall buffer, bb_buffer (cl_receiveBuffer c) = Some buffer ->
  exists r e, call_answer call buffer (bb_size (cl_receiveBuffer c)) (lastResponseBufPos (cl_last c)) = Done (r, e).

Lemma step_answering seen id call c es : held seen c id -> parser_returns call c ->
  exists r e, caller_step 0 (Answering id call (lastResponse (cl_last c))) c es = Done (Releasing id call r e, c, es).
Proof.
  intros (_ & _ & d & _ & _ & (buffer & Hb & _)) Hp. destruct (Hp buffer Hb) as (r & e & Hr). cbn [caller_step].
  unfold look_at_answer. rewrite bind_get. destruct (_ && _); [by do 2 eexists|].
  destruct (lastResponse _); [|by do 2 eexists]. exists r, e.
  unfold cbind, read_answer. rewrite Hb. cbn [defined rbind]. by rewrite Hr.
Qed.

Lemma perform_run w i now caller caller' c' es es' : cs_callers w !! i = Some caller ->
  caller_step now caller (cs_connection w) es = Done (caller', c', es') ->
  perform codec fuel (Run i now) w es = Done (with_caller w i caller' c', es') /\
  cs_callers (with_caller w i caller' c') !! i = Some caller'.
Proof.
  intros Hi Hr. split; [unfold perform, on_connection; rewrite Hi, Hr; done|].
  cbn. apply list_lookup_insert_eq. by eapply lookup_lt_Some.
Qed.

(** How many steps a caller is from the end of its call. *)
Definition steps_left (c : Caller) : nat :=
  match c with Registered _ _ _ => 5 | Waiting _ _ _ => 4 | Leaving _ _ _ => 3 | Answering _ _ _ => 2 | Releasing _ _ _ _ => 1 | _ => 0 end.

Definition caller_call (c : Caller) : option ClientCall :=
  match c with
  | Idle => None
  | Returned _ call _ _ | Prepared _ call | Registered _ call _ | Waiting _ call _ | Leaving _ call _ | Answering _ call _
  | Releasing _ call _ _ => Some call
  end.

(** When the time of a call is over, as soon as it has begun. *)
Definition caller_time (c : Caller) : option Z :=
  match c with Registered _ _ t | Waiting _ _ t => Some t | _ => None end.

(** The request that lies in the transmit buffer lies in its memory. *)
Definition request_ready (c : MmsConnection) : Prop :=
  exists p octets, bb_buffer (cl_transmitBuffer c) = Some p /\ rd_list p 0 (bb_size (cl_transmitBuffer c)) = Done octets.

(** The call has returned, and the receiver may go on. *)
Definition freed (w : ClientSystem) (i : nat) (id : Z) (call : ClientCall) : Prop :=
  cl_receiveBufferMutex (cs_connection w) = 1 /\ responseInvokeId (cl_last (cs_connection w)) = 0 /\
  exists r e, cs_callers w !! i = Some (Returned id call r e).

Section Finish.
Context (seen : list ByteBuffer) (i : nat) (id : Z) (call : ClientCall) (now : Z).

Definition about_to_finish (w : ClientSystem) (caller : Caller) : Prop :=
  cs_callers w !! i = Some caller /\ held seen (cs_connection w) id /\
  is_closed (cl_associationState (cs_connection w)) = false /\ parser_returns call (cs_connection w).

Definition finishes (w : ClientSystem) (steps : nat) : Prop := forall es,
  exists w' es', perform_all codec fuel (replicate steps (Run i now)) w es = Done (w', es') /\ freed w' i id call.

Lemma finishes_step w caller caller' c' steps : cs_callers w !! i = Some caller ->
  (forall es, exists es', caller_step now caller (cs_connection w) es = Done (caller', c', es')) ->
  finishes (with_caller w i caller' c') steps -> finishes w (S steps).
Proof.
  intros Hi Hr Hf es. destruct (Hr es) as [es1 Hr1]. destruct (perform_run _ _ _ _ _ _ _ _ Hi Hr1) as [Hp _].
  cbn [replicate perform_all]. rewrite Hp. cbn [rbind]. apply Hf.
Qed.

Lemma finish_releasing w r e : about_to_finish w (Releasing id call r e) -> finishes w 1.
Proof.
  intros (Hi & (Hm & _) & Hc & _). eapply finishes_step; [done|intros es; by eexists|]. intros es.
  do 2 eexists. split; [done|]. split; [cbn; unfold Semaphore_post; rewrite Hm; done|]. split; [done|].
  do 2 eexists. cbn. rewrite list_lookup_insert_eq by (by eapply lookup_lt_Some). done.
Qed.

Lemma about_move w caller caller' c' : about_to_finish w caller -> cl_last c' = cl_last (cs_connection w) ->
  cl_receiveBuffer c' = cl_receiveBuffer (cs_connection w) -> cl_receiveBufferMutex c' = cl_receiveBufferMutex (cs_connection w) ->
  cl_associationState c' = cl_associationState (cs_connection w) -> about_to_finish (with_caller w i caller' c') caller'.
Proof.
  intros (Hi & Hh & Hc & Hp) E1 E2 E3 E4. split; [cbn; apply list_lookup_insert_eq; by eapply lookup_lt_Some|].
  unfold held, parser_returns in *. cbn [cs_connection with_caller]. by rewrite E1, E2, E3, E4.
Qed.

Lemma finish_answering w : about_to_finish w (Answering id call (lastResponse (cl_last (cs_connection w)))) -> finishes w 2.
Proof.
  intros H. pose proof H as (Hi & Hh & Hc & Hp). destruct (step_answering _ _ _ _ [] Hh Hp) as (r & e & _).
  intros es. destruct (step_answering _ _ _ _ es Hh Hp) as (r' & e' & Hr).
  destruct (perform_run _ _ now _ _ _ _ _ Hi Hr) as [Hrun _].
  cbn [replicate perform_all]. rewrite Hrun. cbn [rbind]. eapply finish_releasing. by eapply about_move.
Qed.

Lemma finish_leaving w : about_to_finish w (Leaving id call (lastResponse (cl_last (cs_connection w)))) -> finishes w 3.
Proof.
  intros H. pose proof H as (Hi & Hh & Hc & Hp). eapply finishes_step; [done|intros es; by eexists|].
  apply finish_answering. by eapply about_move.
Qed.

Lemma finish_waiting w t : now < t -> about_to_finish w (Waiting id call t) -> finishes w 4.
Proof.
  intros Ht H. pose proof H as (Hi & Hh & Hc & Hp). pose proof Hh as (_ & _ & d & Hd & [Hl _] & _).
  eapply finishes_step; [done|intros es; eexists; apply step_waiting; [done|done|congruence]|].
  apply finish_leaving. by eapply about_move.
Qed.

Lemma finish_registered w t : now < t -> request_ready (cs_connection w) ->
  about_to_finish w (Registered id call t) -> finishes w 5.
Proof.
  intros Ht (p & octets & Hb & Hm) H. pose proof H as (Hi & _).
  eapply finishes_step; [done| |].
  - intros es. cbn [caller_step]. unfold sendMessage, post_transmitMutex. rewrite bind_assoc, bind_get, bind_assoc.
    rewrite (bind_lift _ _ _ _ octets) by (by rewrite Hb). by eexists.
  - eapply finish_waiting; [exact Ht|]. by eapply about_move.
Qed.
End Finish.

(** ** A call that runs into its time-out *)

Definition is_response (payload : ByteBuffer) (id bufPos : Z) : Prop :=
  exists buffer, bb_buffer payload = Some buffer /\ 1 <= bb_size payload /\ rd buffer 0 = Done 0xa1 /\
    parseConfirmedResponse buffer (bb_size payload) = Done (Some (id, bufPos)).

Lemma expect_outstanding id bufPos c es : id ∈ cl_outstandingCalls c ->
  expect_delivery (DeliverResponse id bufPos) c es = Done (Some (DeliverResponse id bufPos), c, es).
Proof.
  intros Hi. unfold expect_delivery, checkForOutstandingCall, cbind, cget, cret. cbn [rbind delivered_id].
  by rewrite bool_decide_eq_true_2.
Qed.

(** A response to a call in the table, or what is taken for one, is received. *)
Lemma receive_response w es payload id bufPos : cs_receiver w = Receiving ->
  id ∈ cl_outstandingCalls (cs_connection w) -> is_response payload id bufPos ->
  perform codec fuel (Receive payload) w es =
    Done (with_receiver w (Delivering (DeliverResponse id bufPos))
            (cl_set_receive payload (cl_receiveBufferMutex (cs_connection w)) (cs_connection w)), es).
Proof.
  intros Hw Hi (buffer & Hb & Hs & Ht & Hp). unfold perform, on_connection. rewrite Hw.
  unfold receive. rewrite bind_modify. unfold receiver_check, mmsIsoCallback_check. rewrite bind_assoc.
  rewrite (bind_lift _ _ _ _ payload) by done. destruct (Z.ltb_spec (bb_size payload) 1); [lia|].
  unfold handle_pdu. rewrite bind_assoc, (bind_lift _ _ _ _ buffer) by (by rewrite Hb).
  rewrite bind_assoc, (bind_lift _ _ _ _ 0xa1) by done. cbv zeta. cbn [Z.eqb Pos.eqb].
  unfold handle_response_pdu. rewrite bind_assoc, (bind_lift _ _ _ _ _ Hp).
  by rewrite (bind_run _ _ _ _ _ _ _ (expect_outstanding _ _ (cl_set_receive payload (cl_receiveBufferMutex (cs_connection w)) (cs_connection w)) _ Hi)).
Qed.

Lemma deliver_response w es id bufPos : cs_receiver w = Delivering (DeliverResponse id bufPos) ->
  responseInvokeId (cl_last (cs_connection w)) = 0 ->
  perform codec fuel Deliver w es =
    Done (with_receiver w Holding (cl_set_last (mkLast id true bufPos (lastResponseError (cl_last (cs_connection w))))
            (cs_connection w)), es).
Proof.
  intros Hw H0. unfold perform, on_connection. rewrite Hw. unfold deliver, waitUntilLastResponseHasBeenProcessed, getResponseInvokeId.
  by rewrite bind_assoc, bind_get, H0.
Qed.

Lemma resume_free w es : cs_receiver w = Holding -> 0 < cl_receiveBufferMutex (cs_connection w) ->
  perform codec fuel Resume w es =
    Done (with_receiver w Receiving (cl_set_receive (cl_receiveBuffer (cs_connection w))
            (cl_receiveBufferMutex (cs_connection w) - 1) (cs_connection w)), es).
Proof.
  intros Hw Hm. unfold perform, on_connection. rewrite Hw. unfold resume, Semaphore_wait.
  destruct (Z.ltb_spec 0 (cl_receiveBufferMutex (cs_connection w))); [done|lia].
Qed.

Lemma with_caller_again w i a c b c' : with_caller (with_caller w i a c) i b c' = with_caller w i b c'.
Proof. unfold with_caller. cbn. by rewrite list_insert_insert_eq. Qed.

(** Steps of one caller. *)
Lemma run_again w i now a c caller' c' steps es : (i < length (cs_callers w))%nat ->
  caller_step now a c es = Done (caller', c', es) ->
  perform_all codec fuel (replicate (S steps) (Run i now)) (with_caller w i a c) es =
    perform_all codec fuel (replicate steps (Run i now)) (with_caller w i caller' c') es.
Proof.
  intros Hi Hr. cbn [replicate perform_all].
  destruct (perform_run (with_caller w i a c) i now a caller' c' es es) as [-> _].
  - cbn. by apply list_lookup_insert_eq.
  - done.
  - cbn [rbind]. by rewrite with_caller_again.
Qed.

Lemma with_caller_same w i caller : cs_callers w !! i = Some caller -> with_caller w i caller (cs_connection w) = w.
Proof. intros H. unfold with_caller. rewrite list_insert_id by done. by destruct w. Qed.

(** The end of a call, from behind the wait. *)
Definition released (c : MmsConnection) : MmsConnection :=
  let l := cl_last c in
  let c := cl_set_last (mkLast 0 (lastResponse l) (lastResponseBufPos l) MMS_ERROR_NONE) c in
  cl_set_receive (cl_receiveBuffer c) (Semaphore_post (cl_receiveBufferMutex c)) c.

Definition removed (id : Z) (c : MmsConnection) : MmsConnection :=
  cl_set_calls (replace_first id 0 (cl_outstandingCalls c)) c.

Lemma leaving_ends w i id call received c r e now es : (i < length (cs_callers w))%nat ->
  is_closed (cl_associationState c) = false ->
  look_at_answer id call received (removed id c) es = Done (Releasing id call r e, removed id c, es) ->
  perform_all codec fuel (replicate 3 (Run i now)) (with_caller w i (Leaving id call received) c) es =
    Done (with_caller w i (Returned id call r e) (released (removed id c)), es).
Proof.
  intros Hi Hc Hl. rewrite (run_again _ _ _ _ _ (Answering id call received) (removed id c)) by done.
  rewrite (run_again _ _ _ _ _ (Releasing id call r e) (removed id c)) by done.
  rewrite (run_again _ _ _ _ _ (Returned id call r e) (released (removed id c))); [done|done|].
  cbn [caller_step]. unfold end_call, releaseResponse, releaseReceiveBuffer. rewrite bind_assoc, !bind_modify, bind_get.
  cbn [cl_associationState cl_set_last cl_set_receive removed cl_set_calls]. rewrite Hc. done.
Qed.

(** A call runs into its time-out: it returns without an answer, and releases a response
    that it does not have. *)
Lemma timed_out_ends w i id call t now es : cs_callers w !! i = Some (Waiting id call t) -> t <= now ->
  is_closed (cl_associationState (cs_connection w)) = false ->
  exists e, perform_all codec fuel (replicate 4 (Run i now)) w es =
    Done (with_caller w i (Returned id call (call_nothing call) e)
            (released (removed id (set_lastResponseError MMS_ERROR_SERVICE_TIMEOUT (cs_connection w)))), es).
Proof.
  intros Hi Ht Hc. exists (if call_looksAtError call then MMS_ERROR_SERVICE_TIMEOUT else MMS_ERROR_NONE).
  rewrite <- (with_caller_same _ _ _ Hi) at 1.
  rewrite (run_again _ _ _ _ _ (Leaving id call false) (set_lastResponseError MMS_ERROR_SERVICE_TIMEOUT (cs_connection w))).
  - apply leaving_ends; [by eapply lookup_lt_Some|done|].
    unfold look_at_answer. rewrite bind_get. by destruct (call_looksAtError call).
  - by eapply lookup_lt_Some.
  - cbn [caller_step]. unfold wait_round. destruct (Z.ltb_spec now t); [lia|]. done.
Qed.

(** The response for a call is the last one: the call returns what its function makes of
    the receive buffer. *)
Lemma answered_ends w i id call t now buffer bufPos r e es : cs_callers w !! i = Some (Waiting id call t) -> now < t ->
  is_closed (cl_associationState (cs_connection w)) = false ->
  cl_last (cs_connection w) = mkLast id true bufPos MMS_ERROR_NONE ->
  bb_buffer (cl_receiveBuffer (cs_connection w)) = Some buffer ->
  call_answer call buffer (bb_size (cl_receiveBuffer (cs_connection w))) bufPos = Done (r, e) ->
  perform_all codec fuel (replicate 4 (Run i now)) w es =
    Done (with_caller w i (Returned id call r e) (released (removed id (cs_connection w))), es).
Proof.
  intros Hi Ht Hc Hl Hb Hr. rewrite <- (with_caller_same _ _ _ Hi) at 1.
  rewrite (run_again _ _ _ _ _ (Leaving id call true) (cs_connection w)).
  - apply leaving_ends; [by eapply lookup_lt_Some|done|]. unfold look_at_answer. rewrite bind_get.
    cbn [removed cl_set_calls cl_last]. rewrite Hl. cbn [lastResponseError]. rewrite bool_decide_eq_true_2 by done.
    rewrite andb_false_r. unfold cbind, read_answer. cbn [removed cl_set_calls cl_receiveBuffer cl_last].
    rewrite Hb, Hl. cbn [defined rbind lastResponseBufPos]. by rewrite Hr.
  - by eapply lookup_lt_Some.
  - rewrite step_waiting by (done || by rewrite Hl). by rewrite Hl.
Qed.
(** ** A response that keeps the receive buffer for ever *)

(** The receive buffer is taken, and there is no call for it. *)
Definition stuck (w : ClientSystem) : Prop :=
  cs_receiver w = Holding /\ cl_receiveBufferMutex (cs_connection w) = 0 /\ responseInvokeId (cl_last (cs_connection w)) = 0.

Lemma stuck_step seen a w es w' es' : Inv seen w -> prompt a w = true -> stuck w -> perform codec fuel a w es = Done (w', es') ->
  stuck w'.
Proof.
  intros HI Hp (Hw & Hm & Hid) Hr. unfold perform, on_connection in Hr. rewrite Hw in Hr.
  assert (forall c', cl_receiveBufferMutex c' = 0 -> responseInvokeId (cl_last c') = 0 -> forall i caller,
    stuck (with_caller w i caller c')) as Hst by (intros; done).
  assert (cs_receiver w <> Stopped) as Hns by congruence.
  destruct a as [i call|i now|payload| | |]; try done.
  - destruct (cs_callers w !! i) as [[]|]; try done.
    all: destruct (begin_call _ _ _) as [[[caller' c'] es1]| | |] eqn:Eb; try done; cbn [rbind] in Hr; injection Hr as <- <-.
    all: unfold begin_call, allocateTransmitBuffer, getNextInvokeId, wait_transmitMutex in Eb; run_inv.
    all: destruct (Semaphore_wait _); [|done..]; cbn [rbind] in *; simplify_eq; by apply Hst.
  - cbn [prompt] in Hp. destruct (cs_callers w !! i) as [caller|] eqn:Ei; [|done].
    destruct (caller_step _ _ _ _) as [[[caller' c'] es1]| | |] eqn:Eb; try done. cbn [rbind] in Hr. injection Hr as <- <-.
    assert (found caller = false) as Hf.
    { destruct (found caller) eqn:Ef; [|done].
      destruct (found_holds _ _ _ _ HI Hns Ei Ef) as (_ & (_ & _ & d & Hd & [Hl _] & _) & Hpos). lia. }
    destruct caller; try done.
    + destruct (register_moves _ _ _ _ _ _ _ _ _ _ HI Ei Eb) as [[] _]. apply Hst; congruence.
    + destruct (send_moves _ _ _ _ _ _ _ _ _ _ _ HI Ei Eb) as [[] _]. apply Hst; congruence.
    + apply Z.ltb_lt in Hp. destruct (wait_moves _ _ _ _ _ _ _ _ _ _ _ HI Ei Hp Eb) as [[] _]. apply Hst; congruence.
  - unfold resume, Semaphore_wait in Hr. rewrite Hm in Hr. done.
Qed.

Lemma stuck_forever seen actions w es w' es' : Inv seen w -> prompt_run actions w es = true -> stuck w ->
  perform_all codec fuel actions w es = Done (w', es') -> stuck w'.
Proof.
  revert seen w es. induction actions as [|a actions IH]; intros seen w es HI Hp Hs Hr; cbn [perform_all prompt_run] in *.
  - by injection Hr as <- <-.
  - apply andb_true_iff in Hp as [Hp Hps].
    destruct (perform _ _ a w es) as [[w1 es1]| | |] eqn:Ea; try done. cbn [rbind] in Hr.
    eapply IH; [by eapply perform_inv|done|by eapply stuck_step|done].
Qed.

(** A response with the invoke id 0, while a place of the table is free. *)
Lemma zero_stuck seen w es payload bufPos : Inv seen w -> cs_receiver w = Receiving ->
  0 ∈ cl_outstandingCalls (cs_connection w) -> is_response payload 0 bufPos ->
  exists w', perform_all codec fuel [Receive payload; Deliver] w es = Done (w', es) /\ stuck w'.
Proof.
  intros HI Hw H0 Hp. pose proof (inv_receiver _ _ HI) as Hrec. unfold receiver_ok in Hrec. rewrite Hw in Hrec.
  destruct Hrec as [Hm [Hid He]]. cbn [perform_all]. rewrite (receive_response _ _ _ _ _ Hw H0 Hp). cbn [rbind].
  rewrite (deliver_response _ _ 0 bufPos) by done. cbn [rbind]. eexists. split; [done|]. split; [done|]. split; done.
Qed.
Lemma still_outstanding k id calls : k ∈ calls -> k <> id -> k ∈ replace_first id 0 calls.
Proof.
  intros Hk Hne. induction calls as [|x calls IH]; [done|]. cbn [replace_first].
  apply elem_of_cons in Hk. destruct (Z.eqb_spec x id); rewrite elem_of_cons; [|tauto].
  right. by destruct Hk as [->|].
Qed.

Lemma perform_all_app actions more w es :
  perform_all codec fuel (actions ++ more) w es =
    let! (w, es) := perform_all codec fuel actions w es in perform_all codec fuel more w es.
Proof.
  revert w es. induction actions as [|a actions IH]; intros w es; [done|]. cbn [app perform_all].
  destruct (perform codec fuel a w es) as [[w1 es1]| | |]; [|done..]. cbn [rbind]. apply IH.
Qed.
End Client.

(** * Properties *)

(** C4: Whatever the server sends, and in whatever order the threads of the application
    and of the connection run, as long as no call runs into its time-out: what a call
    returns is what its function makes of a message that was received in this run and that
    has the invoke id of the call (the parsed response, or the error of a confirmed error
    PDU), or it is the error that the connection is lost, after it was closed.  The
    messages all lie in the same buffer, which the answers point into. *)
Theorem client_gets_its_answer (codec : AsnCodec) (fuel : nat) sendBuffer a c0 callers actions w es :
  client_run codec fuel sendBuffer a c0 callers actions w es ->
  forall i id call r e, cs_callers w !! i = Some (Returned id call r e) ->
  answered fuel (flat_map payloads actions) id call r e \/ (e = MMS_ERROR_CONNECTION_LOST /\ Close ∈ actions).
Proof.
  intros Hrun i id call r e Hi. pose proof (client_run_inv _ _ _ _ _ _ _ _ _ Hrun) as HI.
  apply (inv_callers _ _ _ HI) in Hi as [_ [Ha|[He Hs]]]; [by left|right].
  split; [done|]. by eapply client_run_stopped.
Qed.

(** C8: In a run in which no call has come into its time-out and no invoke id has been used
    twice: a receiver that waits until a response has been looked at, before it reads the
    next message, does not wait for ever.  There is a call for the response, and the next
    steps of this call alone lead to its end and free the receive buffer, if the time of
    this call is not over, its parser returns, and the request that it has still to send
    lies in the memory of the transmit buffer. *)
Theorem client_frees_the_receiver (codec : AsnCodec) (fuel : nat) sendBuffer a c0 callers actions w es :
  client_run codec fuel sendBuffer a c0 callers actions w es ->
  cs_receiver w = Holding -> cl_receiveBufferMutex (cs_connection w) = 0 -> responseInvokeId (cl_last (cs_connection w)) <> 0 ->
  exists i id caller call, cs_callers w !! i = Some caller /\ caller_call caller = Some call /\ caller_id caller = id /\
    id = responseInvokeId (cl_last (cs_connection w)) /\
    forall now, (forall t, caller_time caller = Some t -> now < t) -> parser_returns call (cs_connection w) ->
      (forall t, caller = Registered id call t -> request_ready (cs_connection w)) ->
    exists w' es', perform_all codec fuel (replicate (steps_left caller) (Run i now)) w es = Done (w', es') /\ freed w' i id call.
Proof.
  intros Hrun Hw Hm Hid. pose proof (client_run_inv _ _ _ _ _ _ _ _ _ Hrun) as HI.
  pose proof (inv_receiver _ _ _ HI) as Hrec. unfold receiver_ok in Hrec. rewrite Hw in Hrec.
  destruct Hrec as [[? _]|[[_ ?]|(id & Hid0 & Hh & i & caller & Hi & Hs & Hci)]]; [lia|lia|].
  assert (id = responseInvokeId (cl_last (cs_connection w))) as Er by (destruct Hh as (_ & _ & d & <- & [? _] & _); done).
  assert (is_closed (cl_associationState (cs_connection w)) = false) as Hc.
  { destruct (is_closed _) eqn:E; [|done]. apply (inv_closed _ _ _ HI) in E. congruence. }
  pose proof (inv_callers _ _ _ HI _ _ Hi) as [_ Hok].
  destruct caller as [| | |k call t|k call t|k call rc|k call rc|k call r e]; try done; cbn [caller_id] in Hci; subst k.
  all: exists i, id; eexists; exists call; do 4 (split; [done|]).
  all: intros now Ht Hp Hq; cbn [steps_left].
  - eapply finish_registered; [by apply Ht|by eapply Hq|exact (conj Hi (conj Hh (conj Hc Hp)))].
  - eapply finish_waiting; [by apply Ht|exact (conj Hi (conj Hh (conj Hc Hp)))].
  - destruct Hok as [[? _]|(_ & _ & Erc)]; [congruence|]. rewrite Erc in Hi. exact (finish_leaving _ _ _ _ _ _ _ _ (conj Hi (conj Hh (conj Hc Hp))) es).
  - destruct Hok as [[? _]|(_ & _ & Erc)]; [congruence|]. rewrite Erc in Hi. exact (finish_answering _ _ _ _ _ _ _ _ (conj Hi (conj Hh (conj Hc Hp))) es).
  - exact (finish_releasing _ _ _ _ _ _ _ _ _ _ (conj Hi (conj Hh (conj Hc Hp))) es).
Qed.

(** C9: A call that runs into its time-out mixes up the answers of the others.  In a run
    without time-outs so far, let the time of a call be over while the receiver reads from
    the socket.  The call returns without an answer, and releases a response that it does
    not have; the receiver therefore takes a response to a second call, and does not wait
    until it has been looked at: it reads the next response, to a third call, into the
    same buffer.  The second call then returns what its function makes of the response to
    the third. *)
Theorem timeout_mixes_answers (codec : AsnCodec) (fuel : nat) sendBuffer a c0 callers actions w es
    i id call t now j id2 call2 t2 now2 response2 bufPos2 response3 id3 bufPos3 buffer r e :
  client_run codec fuel sendBuffer a c0 callers actions w es -> cs_receiver w = Receiving ->
  cs_callers w !! i = Some (Waiting id call t) -> t <= now ->
  cs_callers w !! j = Some (Waiting id2 call2 t2) -> now2 < t2 -> i <> j ->
  id2 ∈ cl_outstandingCalls (cs_connection w) -> id3 ∈ cl_outstandingCalls (cs_connection w) -> id3 <> id ->
  is_response response2 id2 bufPos2 -> is_response response3 id3 bufPos3 -> bb_buffer response3 = Some buffer ->
  call_answer call2 buffer (bb_size response3) bufPos2 = Done (r, e) ->
  exists w' e1, perform_all codec fuel (replicate 4 (Run i now) ++ [Receive response2; Deliver; Resume; Receive response3] ++
      replicate 4 (Run j now2)) w es = Done (w', es) /\
    cs_callers w' !! i = Some (Returned id call (call_nothing call) e1) /\ cs_callers w' !! j = Some (Returned id2 call2 r e).
Proof.
  intros Hrun Hw Hi Ht Hj Ht2 Hij H2 H3 Hne R2 R3 Hb Hr. pose proof (client_run_inv _ _ _ _ _ _ _ _ _ Hrun) as HI.
  pose proof (inv_receiver _ _ _ HI) as Hrec. unfold receiver_ok in Hrec. rewrite Hw in Hrec. destruct Hrec as [Hm [Hid He]].
  assert (is_closed (cl_associationState (cs_connection w)) = false) as Hc.
  { destruct (is_closed _) eqn:E; [|done]. apply (inv_closed _ _ _ HI) in E. congruence. }
  assert (id2 <> id) as Hne2 by (intros ->; apply Hij; by eapply (inv_ids _ _ _ HI)).
  destruct (timed_out_ends codec fuel w i id call t now es Hi Ht Hc) as [e1 Hfirst].
  rewrite perform_all_app, Hfirst. cbn [rbind app perform_all].
  rewrite (receive_response _ _ _ _ _ id2 bufPos2); [|done|by apply still_outstanding|done]. cbn [rbind].
  rewrite (deliver_response _ _ _ _ id2 bufPos2) by done. cbn [rbind].
  rewrite resume_free by (done || (cbn; unfold Semaphore_post; lia)). cbn [rbind].
  rewrite (receive_response _ _ _ _ _ id3 bufPos3); [|done|by apply still_outstanding|done]. cbn [rbind].
  rewrite (answered_ends _ _ _ j id2 call2 t2 now2 buffer bufPos2 r e); [|cbn; by rewrite list_lookup_insert_ne|done..].
  eexists _, e1. split; [done|]. cbn. split.
  - rewrite list_lookup_insert_ne by done. apply list_lookup_insert_eq. by eapply lookup_lt_Some.
  - apply list_lookup_insert_eq. rewrite length_insert. by eapply lookup_lt_Some.
Qed.

(** C10: A response with the invoke id 0 is taken for the answer of a call wherever a place
    of the table is free.  Nobody looks at it, and without time-outs the client never
    receives anything again. *)
Theorem zero_invoke_id_stops_the_client (codec : AsnCodec) (fuel : nat) sendBuffer a c0 callers actions w es payload buffer bufPos :
  client_run codec fuel sendBuffer a c0 callers actions w es -> cs_receiver w = Receiving ->
  0 ∈ cl_outstandingCalls (cs_connection w) -> bb_buffer payload = Some buffer -> 1 <= bb_size payload ->
  rd buffer 0 = Done 0xa1 -> parseConfirmedResponse buffer (bb_size payload) = Done (Some (0, bufPos)) ->
  exists w', perform_all codec fuel [Receive payload; Deliver] w es = Done (w', es) /\
  forall later w'' es'', prompt_run codec fuel later w' es = true ->
    perform_all codec fuel later w' es = Done (w'', es'') -> cs_receiver w'' = Holding.
Proof.
  intros Hrun Hw H0 Hb Hs Ht Hp. pose proof (client_run_inv _ _ _ _ _ _ _ _ _ Hrun) as HI.
  destruct (zero_stuck codec fuel _ _ es payload bufPos HI Hw H0) as (w' & Hr & Hst); [by exists buffer|]. exists w'. split; [done|].
  intros later w'' es'' Hprompt Hlater.
  assert (prompt_run codec fuel [Receive payload; Deliver] w es = true) as Hpr.
  { cbn [prompt_run prompt andb]. by repeat case_match. }
  pose proof (perform_all_inv _ _ _ _ _ _ _ _ HI Hpr Hr) as HI'.
  by destruct (stuck_forever _ _ _ _ _ _ _ _ HI' Hprompt Hst Hlater).
Qed.

(** * Runs *)

Definition client_codec : AsnCodec :=
  mkCodec (fun _ _ => Some (InitiateResponsePdu (mkInitiateResponse (Some 8000) 5 5 None))) (fun _ _ => None) (fun _ _ => None)
    (fun _ => ([], true)).

Definition message (octets : list Z) : ByteBuffer := mkByteBuffer (Some (mk_ptr octets 0)) (zlen octets) (zlen octets).

(** The logical status of the server, for a call. *)
Definition status_response (id logical : Z) : ByteBuffer :=
  message [0xa1; 11; 0x02; 1; id; 0xa0; 6; 0x80; 1; logical; 0x81; 1; 0].

Definition demo_answer : Association := Answered (message [0xa9; 0]).
Definition demo_connect := MmsConnection_connect client_codec 5 (replicate 30 0) demo_answer MmsConnection_create [].
Definition demo_connection : MmsConnection := match demo_connect with Done (_, c, _) => c | _ => MmsConnection_create end.
Definition demo_status : ClientCall := MmsConnection_getServerStatus 5 false.

Definition demo_run (actions : list Action) : ClientSystem :=
  match perform_all client_codec 5 actions (start demo_connection 3) [ClientSent []] with
  | Done (w, _) => w
  | _ => start demo_connection 0
  end.
Definition demo_events (actions : list Action) : list ClientEvent :=
  match perform_all client_codec 5 actions (start demo_connection 3) [ClientSent []] with Done (_, es) => es | _ => [] end.

Definition is_done {A} (r : res A) : bool := match r with Done _ => true | _ => false end.

Lemma demo_done actions : is_done (perform_all client_codec 5 actions (start demo_connection 3) [ClientSent []]) = true ->
  perform_all client_codec 5 actions (start demo_connection 3) [ClientSent []] = Done (demo_run actions, demo_events actions).
Proof. unfold demo_run, demo_events. by destruct (perform_all _ _ _ _ _) as [[w es]| | |]. Qed.

Lemma demo_client_run actions : is_done (perform_all client_codec 5 actions (start demo_connection 3) [ClientSent []]) = true ->
  prompt_run client_codec 5 actions (start demo_connection 3) [ClientSent []] = true ->
  client_run client_codec 5 (replicate 30 0) demo_answer MmsConnection_create 3 actions (demo_run actions) (demo_events actions).
Proof.
  intros Hd Hp. exists demo_connection, [ClientSent []]. split; [|split; [|split]].
  - split; [done|]. split; [done|]. by repeat constructor.
  - vm_compute. reflexivity.
  - done.
  - by apply demo_done.
Qed.

Definition caller_result (c : Caller) : option (Z * ClientResult * MmsError) :=
  match c with Returned id _ r e => Some (id, r, e) | _ => None end.

Lemma demo_result w i id r e : (cs_callers w !! i ≫= caller_result) = Some (id, r, e) ->
  exists call, cs_callers w !! i = Some (Returned id call r e).
Proof.
  destruct (cs_callers w !! i) as [c|]; [|done]. destruct c; try done. intros [= -> -> ->]. by eexists.
Qed.

(** Two threads ask for the status; the answer for the second comes first. *)
Definition demo_calls : list Action :=
  [Resume; Begin 0 demo_status; Run 0 0; Run 0 0; Begin 1 demo_status; Run 1 1; Run 1 2].
Definition demo_actions : list Action :=
  demo_calls ++ [Receive (status_response 2 9); Deliver; Run 0 3; Run 1 3; Run 1 3; Run 1 4; Run 1 4;
                 Resume; Receive (status_response 1 5); Deliver; Run 0 7; Run 0 7; Run 0 8; Run 0 8].

Lemma client_gets_its_answer_witness :
  exists call, cs_callers (demo_run demo_actions) !! 0%nat = Some (Returned 1 call (ResultStatus (Some 5, Some 0)) MMS_ERROR_NONE) /\
  (answered 5 (flat_map payloads demo_actions) 1 call (ResultStatus (Some 5, Some 0)) MMS_ERROR_NONE \/
   (MMS_ERROR_NONE = MMS_ERROR_CONNECTION_LOST /\ Close ∈ demo_actions)).
Proof.
  assert ((cs_callers (demo_run demo_actions) !! 0%nat ≫= caller_result) = Some (1, ResultStatus (Some 5, Some 0), MMS_ERROR_NONE)) as Hr
    by (vm_compute; reflexivity).
  destruct (demo_result _ _ _ _ _ Hr) as [call Hcall]. exists call. split; [exact Hcall|].
  refine (client_gets_its_answer client_codec 5 _ _ _ _ _ _ _ (demo_client_run demo_actions _ _) 0%nat 1 call _ _ Hcall);
    vm_compute; reflexivity.
Defined.

(** The response of the first one has been delivered. *)
Definition demo_delivered : list Action := demo_calls ++ [Receive (status_response 1 5); Deliver].

Lemma client_frees_the_receiver_witness :
  exists i id caller call, cs_callers (demo_run demo_delivered) !! i = Some caller /\ caller_call caller = Some call /\
    caller_id caller = id /\ id = responseInvokeId (cl_last (cs_connection (demo_run demo_delivered))) /\
    forall now, (forall t, caller_time caller = Some t -> now < t) ->
      parser_returns call (cs_connection (demo_run demo_delivered)) ->
      (forall t, caller = Registered id call t -> request_ready (cs_connection (demo_run demo_delivered))) ->
    exists w' es', perform_all client_codec 5 (replicate (steps_left caller) (Run i now)) (demo_run demo_delivered)
      (demo_events demo_delivered) = Done (w', es') /\ freed w' i id call.
Proof.
  refine (client_frees_the_receiver client_codec 5 _ _ _ _ _ _ _ (demo_client_run demo_delivered _ _) _ _ _).
  - vm_compute. reflexivity.
  - vm_compute. reflexivity.
  - vm_compute. reflexivity.
  - vm_compute. reflexivity.
  - vm_compute. discriminate.
Defined.

Lemma zero_invoke_id_stops_the_client_witness :
  exists w', perform_all client_codec 5 [Receive (status_response 0 5); Deliver] (demo_run demo_calls) (demo_events demo_calls)
    = Done (w', demo_events demo_calls) /\
  forall later w'' es'', prompt_run client_codec 5 later w' (demo_events demo_calls) = true ->
    perform_all client_codec 5 later w' (demo_events demo_calls) = Done (w'', es'') -> cs_receiver w'' = Holding.
Proof.
  refine (zero_invoke_id_stops_the_client client_codec 5 _ _ _ _ demo_calls _ _ _ (mk_ptr [0xa1; 11; 0x02; 1; 0; 0xa0; 6; 0x80; 1; 5; 0x81; 1; 0] 0) 5 (demo_client_run demo_calls _ _) _ _ _ _ _ _).
  - vm_compute. reflexivity.
  - vm_compute. reflexivity.
  - vm_compute. reflexivity.
  - apply (bool_decide_unpack _). vm_compute. exact I.
  - reflexivity.
  - vm_compute. discriminate.
  - reflexivity.
  - vm_compute. reflexivity.
Defined.

(** ** With a time-out *)

(** Three threads ask for the status; the first one runs into its time-out, before the
    response for the third one comes behind that for the second. *)
Definition waiting_calls : list Action := demo_calls ++ [Begin 2 demo_status; Run 2 1; Run 2 2].

(** The status that the response for the third call has. *)
Definition third_response : ptr := mk_ptr [0xa1; 11; 0x02; 1; 3; 0xa0; 6; 0x80; 1; 9; 0x81; 1; 0] 0.

Definition waiting_for (c : Caller) : option (Z * Z * res (ClientResult * MmsError)) :=
  match c with Waiting id call t => Some (id, t, call_answer call third_response 13 5) | _ => None end.

Lemma demo_waiting w i id t a : cs_callers w !! i ≫= waiting_for = Some (id, t, a) ->
  exists call, cs_callers w !! i = Some (Waiting id call t) /\ call_answer call third_response 13 5 = a.
Proof. destruct (cs_callers w !! i) as [[]|]; try done. intros [= -> -> <-]. by eexists. Qed.

Lemma status_is_response id logical : (id =? 1) || (id =? 2) || (id =? 3) = true -> is_response (status_response id logical) id 5.
Proof.
  intros Hid. exists (mk_ptr [0xa1; 11; 0x02; 1; id; 0xa0; 6; 0x80; 1; logical; 0x81; 1; 0] 0).
  split; [done|]. split; [vm_compute; discriminate|]. split; [done|].
  apply orb_true_iff in Hid as [[->%Z.eqb_eq| ->%Z.eqb_eq]%orb_true_iff| ->%Z.eqb_eq]; vm_compute; reflexivity.
Qed.

(** The call with the invoke id 2 returns the status 9, which is that for the call with the
    invoke id 3; its own was 5. *)
Lemma timeout_mixes_answers_witness :
  exists w' e1 call1 call2, perform_all client_codec 5 (replicate 4 (Run 0 2000) ++ [Receive (status_response 2 5); Deliver; Resume;
      Receive (status_response 3 9)] ++ replicate 4 (Run 1 1000)) (demo_run waiting_calls) (demo_events waiting_calls)
    = Done (w', demo_events waiting_calls) /\
    cs_callers w' !! 0%nat = Some (Returned 1 call1 (call_nothing call1) e1) /\
    cs_callers w' !! 1%nat = Some (Returned 2 call2 (ResultStatus (Some 9, Some 0)) MMS_ERROR_NONE).
Proof.
  destruct (demo_waiting (demo_run waiting_calls) 0 1 2000 (Done (ResultStatus (Some 9, Some 0), MMS_ERROR_NONE))
    ltac:(vm_compute; reflexivity)) as (call1 & H1 & _).
  destruct (demo_waiting (demo_run waiting_calls) 1 2 2001 (Done (ResultStatus (Some 9, Some 0), MMS_ERROR_NONE))
    ltac:(vm_compute; reflexivity)) as (call2 & H2 & Ha).
  destruct (timeout_mixes_answers client_codec 5 _ _ _ _ waiting_calls _ _ 0%nat 1 call1 2000 2000 1%nat 2 call2 2001 1000
    (status_response 2 5) 5 (status_response 3 9) 3 5 third_response (ResultStatus (Some 9, Some 0)) MMS_ERROR_NONE
    (demo_client_run waiting_calls ltac:(vm_compute; reflexivity) ltac:(vm_compute; reflexivity))) as (w' & e1 & H).
  - vm_compute. reflexivity.
  - exact H1.
  - lia.
  - exact H2.
  - lia.
  - lia.
  - apply (bool_decide_unpack _). vm_compute. exact I.
  - apply (bool_decide_unpack _). vm_compute. exact I.
  - lia.
  - by apply status_is_response.
  - by apply status_is_response.
  - reflexivity.
  - exact Ha.
  - exists w', e1, call1, call2. exact H.
Defined.
