(* ===== verification/MmsClientFiles.v ===== *)
(** Client and server together: a request of the client is what the server parses, the
    answer of the server is what the client parses, and a file that is read through both
    is the file. *)
From Stdlib Require Import String.
From stdpp Require Import base tactics numbers option gmap list.
From S2P Require Import Prelude Memory Buffers BerDecode BerEncode AccessResult Effects CString MmsTypeSpec Control ServerState NameMapping SampleServer MmsPdu MmsData MmsService Conversions MmsFiles MmsDispatch SampleService MmsClientServices MmsClient MmsReadFacts MmsFilesFacts.

(** * An exchange *)

Section Exchange.
Context {FS : Type} `{FileSystem FS} (w : World) (codec : AsnCodec) (lib : TimeLib).
Context (statusListener : option (MmsServerInfo -> bool -> MmsServerInfo)) (fuel : nat).

(** The client writes its request in an empty buffer, the server processes it, and the
    client looks at the answer, if it is the response for its invoke id. *)
Definition exchange (transmit : ByteBuffer) (call : ClientCall) (invokeId : Z) (s : Service FS) (es : list ServerEvent)
  : res (option (ClientResult * MmsError) * Service FS * list ServerEvent) :=
  let! request := call_request call invokeId transmit in
  let! (_, s, es) := MmsServerConnection_parseMessage w codec lib statusListener fuel request s es in
  let response := se_response s in
  let! buffer := defined (bb_buffer response) in
  let! r := parseConfirmedResponse buffer (bb_size response) in
  match r with
  | Some (id, bufPos) =>
      if id =? invokeId then
        let! answer := call_answer call buffer (bb_size response) bufPos in Done (Some answer, s, es)
      else Done (None, s, es)
  | None => Done (None, s, es)
  end.

(** A call with the next invoke id. *)
Definition ask (transmit : ByteBuffer) (call : ClientCall) (st : Z * Service FS * list ServerEvent)
  : res (ClientResult * MmsError * (Z * Service FS * list ServerEvent)) :=
  let '(lastInvokeId, s, es) := st in
  let invokeId := u32 (lastInvokeId + 1) in
  let! (answer, s, es) := exchange transmit call invokeId s es in
  let! (result, error) := defined answer in
  Done (result, error, (invokeId, s, es)).

(** An application that reads a file while more follows, with the next invoke id for each
    request. *)
Fixpoint read_file (rounds : nat) (transmit : ByteBuffer) (frsmId invokeId : Z) (s : Service FS) (es : list ServerEvent)
  : res (option (list Z) * Service FS * list ServerEvent) :=
  match rounds with
  | O => NoFuel
  | S rounds =>
      let! (answer, s, es) := exchange transmit (MmsConnection_fileRead fuel frsmId) invokeId s es in
      match answer with
      | Some (ResultChunks (parts, more), MMS_ERROR_NONE) =>
          if (more : bool) then
            let! (rest, s, es) := read_file rounds transmit frsmId (u32 (invokeId + 1)) s es in
            Done (app (concat parts) <$> rest, s, es)
          else Done (Some (concat parts), s, es)
      | _ => Done (None, s, es)
      end
  end.
End Exchange.

(** * Requests *)

Definition request_bytes (invokeId : Z) (service : list Z) : list Z := tlv (0xa0, invoke_bytes invokeId ++ service).

Lemma encode_request_emits c bs request : (forall buffer, Emits buffer 0 (c buffer 0) (zlen bs) bs) -> has_room request (zlen bs) ->
  encode_request c request = Done (respond request bs).
Proof.
  intros Hc Hr. unfold encode_request, has_room, respond in *. destruct (bb_buffer request) as [p|]; [|done].
  destruct Hr as [Hb Hl]. cbn [defined rbind]. by rewrite (emits_fit0 _ _ _ _ _ (Hc (p_base p))).
Qed.

Lemma holds_respond request bs : has_room request (zlen bs) ->
  exists p, bb_buffer (respond request bs) = Some p /\ bb_size (respond request bs) = zlen bs /\ holds p 0 bs.
Proof.
  intros Hr. unfold has_room, respond in *. destruct (bb_buffer request) as [p|]; [|done]. destruct Hr as [Hb Hl].
  eexists. split; [done|]. split; [done|]. by apply holds_splice.
Qed.

(** ** Through the ASN.1 code *)

Lemma append_pieces_fits pieces b p : bb_buffer b = Some p -> 0 <= p_base p -> 0 <= bb_size b ->
  p_base p + bb_size b + zlen (concat pieces) <= zlen (p_mem p) -> bb_size b + zlen (concat pieces) <= bb_maxSize b ->
  bb_maxSize b < 2 ^ 31 ->
  append_pieces pieces b = Done (true, mkByteBuffer
    (Some (mk_ptr (splice (p_mem p) (p_base p + bb_size b) (concat pieces)) (p_base p))) (bb_maxSize b)
    (bb_size b + zlen (concat pieces))).
Proof.
  revert b p. induction pieces as [|piece pieces IH]; intros b p Hp Hb Hs Hl Hm H31; cbn [append_pieces concat].
  - rewrite splice_nil, zlen_nil, Z.add_0_r. destruct b as [q m n], p. cbn in *. by subst q.
  - cbn [concat] in *. rewrite zlen_app in *. pose proof (zlen_nonneg piece). pose proof (zlen_nonneg (concat pieces)).
    unfold ByteBuffer_append. rewrite i32_small by lia. destruct (Z.leb_spec (bb_size b + zlen piece) (bb_maxSize b)); [|lia].
    rewrite (holds_rd_list _ 0 piece) by (apply holds_whole || done). cbn [rbind].
    rewrite (bb_store_in _ _ _ p) by (done || lia). cbn [rbind]. destruct (Z.ltb_spec (zlen piece) 0); [lia|].
    unfold bb_set_size. cbn [bb_buffer bb_maxSize bb_size]. erewrite IH; [|reflexivity|..]; cbn [bb_size bb_maxSize p_base p_mem]; rewrite ?zlen_splice by lia; try lia.
    replace (p_base p + (bb_size b + zlen piece)) with (p_base p + bb_size b + zlen piece) by lia.
    rewrite splice_app by lia. do 3 f_equal. lia.
Qed.

(** The encoder comes to the end, with these octets. *)
Definition encodes (codec : AsnCodec) (pdu : MmsPdu) (bs : list Z) : Prop :=
  concat (fst (der_encode_MmsPdu codec pdu)) = bs /\ snd (der_encode_MmsPdu codec pdu) = true.

Lemma append_encoded_fits codec pdu b p bs : encodes codec pdu bs -> bb_buffer b = Some p -> bb_size b = 0 ->
  has_room b (zlen bs) -> zlen bs <= bb_maxSize b < 2 ^ 31 -> append_encoded codec pdu b = Done (true, respond b bs).
Proof.
  intros [Hc He] Hp Hs Hr Hm. unfold append_encoded, has_room, respond in *. rewrite Hp in *.
  destruct (der_encode_MmsPdu codec pdu) as [pieces complete]. cbn [fst snd] in *. subst complete.
  rewrite (append_pieces_fits _ _ p); rewrite ?Hc, ?Hs; try lia; try done. cbn [rbind andb]. by rewrite Z.add_0_r.
Qed.

Lemma encode_pdu_fits codec pdu request bs : encodes codec pdu bs -> bb_size request = 0 ->
  has_room request (zlen bs) -> zlen bs <= bb_maxSize request < 2 ^ 31 -> encode_pdu codec pdu request = Done (respond request bs).
Proof.
  intros Hc Hs Hr Hm. unfold encode_pdu. destruct (bb_buffer request) as [p|] eqn:Hp; [|by unfold has_room in Hr; rewrite Hp in Hr].
  by rewrite (append_encoded_fits _ _ _ p bs).
Qed.

(** ** Through the own code *)

Definition request_head (n invokeId : Z) : list Z := ber_tl 0xa0 n ++ invoke_bytes invokeId.

Lemma emits_request_head n invokeId buffer : 0 <= n < 4294967296 ->
  Emits buffer 0 (write_request_head n invokeId (zlen (uint32_bytes invokeId)) buffer 0)
    (zlen (request_head n invokeId)) (request_head n invokeId).
Proof.
  intros Hn. pose proof (zlen_uint32_bytes invokeId) as Hu. unfold write_request_head. rewrite u32_small by lia.
  assert (ber_tl 0x02 (zlen (uint32_bytes invokeId)) ++ uint32_bytes invokeId = invoke_bytes invokeId) as E
    by (apply ber_tl_tlv; [by_eval|lia]).
  eapply emits_eq; [eapply emits_bind; [apply emits_encodeTL|eapply emits_bind;
    [apply emits_encodeTL|apply emits_encodeUInt32|reflexivity]|reflexivity]| |].
  - unfold request_head. rewrite <- E, !zlen_app. lia.
  - unfold request_head. by rewrite <- E.
Qed.

(** The head of a request, and its service behind it. *)
Lemma emits_client_request invokeId n service (k : Z -> W Z) buffer :
  zlen service < 1000000 -> n = zlen (invoke_bytes invokeId ++ service) ->
  (forall p, Emits buffer p (k p) (p + zlen service) service) ->
  Emits buffer 0 (let* p := write_request_head n invokeId (zlen (uint32_bytes invokeId)) buffer 0 in k p)
    (zlen (request_bytes invokeId service)) (request_bytes invokeId service).
Proof.
  intros Hz Hn Hk. pose proof (zlen_uint32_bytes invokeId) as Hu. pose proof (zlen_invoke_bytes invokeId) as Hi.
  pose proof (zlen_nonneg service). assert (0 <= n < 4294967296) as Hn4 by (rewrite Hn, zlen_app; lia).
  assert (request_head n invokeId ++ service = request_bytes invokeId service) as E.
  { unfold request_head, request_bytes. rewrite <- app_assoc, Hn. apply ber_tl_tlv; [by_eval|lia]. }
  eapply emits_eq; [eapply emits_bind; [by apply emits_request_head|apply Hk|reflexivity]| |done].
  rewrite <- E, zlen_app. lia.
Qed.

(** A service with a tag of two octets. *)
Lemma emits_extended_tag tag0 tag1 bs (k : Z -> W Z) buffer pos : is_byte tag0 -> is_byte tag1 -> zlen bs < 1000000 ->
  (forall p, Emits buffer p (k p) (p + zlen bs) bs) ->
  Emits buffer pos (let* p := write_extended_tag tag0 tag1 (zlen bs) buffer pos in k p)
    (pos + zlen (tag0 :: tlv (tag1, bs))) (tag0 :: tlv (tag1, bs)).
Proof.
  intros Ht0 Ht1 Hz Hk. pose proof (zlen_nonneg bs).
  assert (Emits buffer pos (write_extended_tag tag0 tag1 (zlen bs) buffer pos)
    (pos + zlen (tag0 :: tag1 :: ber_len (zlen bs))) (tag0 :: tag1 :: ber_len (zlen bs))) as Hh.
  { unfold write_extended_tag. rewrite u32_small by lia.
    eapply emits_eq; [eapply emits_bind; [apply emits_put|eapply emits_bind; [apply emits_put|apply emits_encodeLength|reflexivity]|reflexivity]| |].
    - rewrite !zlen_cons. lia.
    - cbn [app]. by rewrite !u8_small. }
  eapply emits_eq; [eapply emits_bind; [exact Hh|apply Hk|reflexivity]| |].
  - unfold tlv. cbn [fst snd]. rewrite !zlen_cons, zlen_app. lia.
  - done.
Qed.

(** ** Reading and opening *)

Definition read_bytes (invokeId frsmId : Z) : list Z := request_bytes invokeId (0x9f :: tlv (0x49, uint32_bytes (u32 frsmId))).

Lemma read_request_bytes frsmId invokeId transmit : has_room transmit 30 ->
  mmsClient_createFileReadRequest frsmId invokeId transmit = Done (respond transmit (read_bytes invokeId frsmId)).
Proof.
  intros Hr. unfold mmsClient_createFileReadRequest, create_frsm_request.
  rewrite !UInt32determineEncodedSize_spec. cbn [rbind].
  set (service := 0x9f :: tlv (0x49, uint32_bytes (u32 frsmId))). pose proof (zlen_uint32_bytes (u32 frsmId)) as Hf.
  pose proof (zlen_uint32_bytes invokeId) as Hu. pose proof (zlen_invoke_bytes invokeId) as Hi.
  assert (zlen service = 3 + zlen (uint32_bytes (u32 frsmId))) as Hs by (unfold service; rewrite zlen_cons, zlen_tlv_uint32; lia).
  change (read_bytes invokeId frsmId) with (request_bytes invokeId service).
  apply encode_request_emits.
  - intros buffer. apply emits_client_request; [lia|rewrite zlen_app; lia|]. intros p.
    apply emits_extended_tag; [by_eval|by_eval|lia|]. intros q. apply emits_encodeUInt32.
  - assert (zlen (request_bytes invokeId service) <= 30) as Hz
      by (unfold request_bytes; rewrite zlen_tlv_short by (rewrite zlen_app; lia); rewrite zlen_app; lia).
    unfold has_room in *. destruct (bb_buffer transmit); [|done]. lia.
Qed.

Definition open_parameters (filename : list Z) (position : Z) : list Z :=
  tlv (0xa0, tlv (0x19, filename)) ++ tlv (0x81, uint32_bytes position).
Definition open_bytes (invokeId : Z) (filename : list Z) (position : Z) : list Z :=
  request_bytes invokeId (0xbf :: tlv (0x48, open_parameters filename position)).

(** The sizes are right for a name that is not too long. *)
Lemma open_request_bytes filename position invokeId transmit : bytes filename -> zlen filename <= 100 -> has_room transmit 150 ->
  mmsClient_createFileOpenRequest filename position invokeId transmit = Done (respond transmit (open_bytes invokeId filename position)).
Proof.
  intros Hb Hl Hr. unfold mmsClient_createFileOpenRequest. rewrite !UInt32determineEncodedSize_spec. cbn [rbind].
  pose proof (zlen_uint32_bytes position) as Hp. pose proof (zlen_uint32_bytes invokeId) as Hu. pose proof (zlen_invoke_bytes invokeId) as Hi.
  pose proof (zlen_nonneg filename). set (content := open_parameters filename position).
  pose proof (zlen_tlv_short 0x19 filename ltac:(lia)) as H1.
  pose proof (zlen_tlv_short 0xa0 (tlv (0x19, filename)) ltac:(lia)) as H2.
  assert (zlen content = tl_size (zlen filename) + 2 + zlen (uint32_bytes position) + 2) as Hc.
  { unfold content, open_parameters. rewrite (tl_size_tlv 0x19), zlen_app, zlen_tlv_uint32 by lia. lia. }
  rewrite (tl_size_tlv 0x19) in Hc by lia. pose proof (zlen_tlv_short 0x48 content ltac:(lia)) as H3.
  set (service := 0xbf :: tlv (0x48, content)). assert (zlen service = 3 + zlen content) as Hs by (unfold service; rewrite zlen_cons; lia).
  change (open_bytes invokeId filename position) with (request_bytes invokeId service).
  apply encode_request_emits.
  - intros buffer. unfold write_file_open. cbv zeta. rewrite (tl_size_tlv 0x19), <- Hc, (u32_small (zlen (tlv (0x19, filename)))) by lia.
    apply emits_client_request; [lia|rewrite zlen_app; lia|]. intros p.
    apply emits_extended_tag; [by_eval|by_eval|lia|]. intros q. unfold content, open_parameters.
    eapply emits_eq; [eapply emits_bind; [apply emits_encodeTL|eapply emits_bind;
      [apply emits_tlv_octets; [exact Hb|reflexivity|by_eval]|apply emits_tlv_uint32; by_eval|reflexivity]|reflexivity]| |].
    + rewrite zlen_ber_tl_tlv, zlen_app by lia. lia.
    + rewrite app_assoc, ber_tl_tlv; [done|by_eval|lia].
  - assert (zlen (request_bytes invokeId service) <= 150) as Hz
      by (unfold request_bytes; pose proof (zlen_tlv_range (0xa0, invoke_bytes invokeId ++ service)) as R; cbn [snd] in R; rewrite zlen_app in R; lia).
    unfold has_room in *. destruct (bb_buffer transmit); [|done]. lia.
Qed.

(** ** What the server makes of a request *)

Lemma i32_end pos n : 0 <= pos -> 0 <= n -> pos + n < 2 ^ 31 -> i32 (pos + n) = pos + n.
Proof. intros. apply i32_small. lia. Qed.

Section Parse.
Context {FS : Type} `{FileSystem FS} (w : World) (codec : AsnCodec) (lib : TimeLib).
Context (statusListener : option (MmsServerInfo -> bool -> MmsServerInfo)).
Implicit Types (s : Service FS) (es : list ServerEvent).

Definition with_invokeId (invokeId : Z) s : Service FS := se_set_connection (mc_set_lastInvokeId invokeId (se_connection s)) s.

(** A service with a tag of one octet, or of two. *)
Definition service_tag (tag0 : option Z) (tag : Z) : Prop :=
  match tag0 with Some tag0 => Z.land tag0 0x1f = 0x1f | None => Z.land tag 0x1f <> 0x1f /\ tag <> 2 end.
Definition serve (fuel : nat) (p : ptr) (tag0 : option Z) (tag length bufPos invokeId : Z) : MS FS bool :=
  match tag0 with
  | Some _ => extended_service codec lib fuel p tag length bufPos invokeId
  | None => service w codec statusListener fuel p tag length bufPos invokeId
  end.

Lemma element_tag_holds p pos tag0 tag content : service_tag tag0 tag -> holds p pos (option_list tag0 ++ tlv (tag, content)) ->
  let next := pos + zlen (option_list tag0) in
  element_tag p pos = Done (bool_decide (is_Some tag0), tag, next + 1) /\ holds p next (tlv (tag, content)).
Proof.
  intros Ht Hh next. unfold element_tag. destruct tag0 as [tag0|]; cbn [option_list app] in *.
  - apply holds_cons in Hh as [T Hh]. change next with (pos + 1). split; [|done]. rewrite T. cbn [rbind]. rewrite Ht.
    change (31 =? 31) with true. cbv iota. unfold tlv in Hh. cbn [fst snd] in Hh. apply holds_cons in Hh as [T' _]. by rewrite T'.
  - assert (next = pos) as -> by (unfold next; by rewrite Z.add_0_r). split; [|done]. unfold tlv in Hh. cbn [fst snd] in Hh.
    apply holds_cons in Hh as [T _]. rewrite T. cbn [rbind]. destruct (Z.eqb_spec (Z.land tag 0x1f) 0x1f); [by destruct Ht|done].
Qed.

Lemma parse_request fuel request p invokeId tag0 tag content s es s' es' :
  let service := option_list tag0 ++ tlv (tag, content) in
  bb_buffer request = Some p -> bb_size request = zlen (request_bytes invokeId service) ->
  holds p 0 (request_bytes invokeId service) -> service_tag tag0 tag -> 0 <= invokeId < 2 ^ 32 ->
  zlen content < 60000 ->
  (forall start, holds p start content -> 0 <= start < 100 ->
    serve fuel p tag0 tag (zlen content) start invokeId (with_invokeId invokeId s) es = Done (true, s', es')) ->
  MmsServerConnection_parseMessage w codec lib statusListener (S (S fuel)) request s es = Done (MMS_CONFIRMED_REQUEST, s', es').
Proof.
  intros service Hb Hs Hh Ht Hid Hz Hserve. unfold MmsServerConnection_parseMessage.
  pose proof (zlen_uint32_bytes invokeId) as Hu. pose proof (zlen_invoke_bytes invokeId) as Hi. pose proof (zlen_nonneg content).
  pose proof (zlen_tlv_range (tag, content)) as Rc. cbn [snd] in Rc.
  assert (zlen service = zlen (option_list tag0) + zlen (tlv (tag, content))) as Hsv by (apply zlen_app).
  assert (0 <= zlen (option_list tag0) <= 1) as Ho by (destruct tag0; vm_compute; split; discriminate).
  unfold request_bytes in *. set (body := invoke_bytes invokeId ++ service) in *.
  assert (zlen body = zlen (invoke_bytes invokeId) + zlen service) as Hbody by (apply zlen_app).
  rewrite <- (app_nil_r (tlv (0xa0, body))) in Hh.
  destruct (holds_tlv p 0 (0xa0, body) [] (bb_size request) None Hh) as (T & L & C & _ & E); [cbn [snd]; lia|lia|].
  cbn [fst snd] in *. pose proof (determineLengthSize_range (zlen body)) as Rb.
  set (start := 0 + 1 + BerEncoder_determineLengthSize (zlen body)) in *. pose proof (zlen_tlv_range (0xa0, body)) as R0. cbn [snd] in R0.
  destruct (Z.ltb_spec (bb_size request) 2); [lia|]. rewrite (bind_lift _ _ _ _ p), (bind_lift _ _ _ _ _ T) by (by rewrite Hb).
  change (0 + 1) with 1 in L. rewrite (bind_lift _ _ _ _ _ L). destruct (Z.ltb_spec start 0); [lia|].
  rewrite (bind_lift _ _ _ _ (zlen body)) by done. cbv zeta. rewrite (i32_end start (zlen body)) by lia.
  set (maxBufPos := start + zlen body) in *. change (0xa0 =? 0xa8) with false. change (0xa0 =? 0xa0) with true. cbv iota.
  unfold indicated, handleConfirmedRequestPdu.
  assert (confirmed_loop w codec lib statusListener (S (S fuel)) p maxBufPos start 0 s es = Done (tt, s', es')) as Hloop;
    [|by rewrite (bind_run _ _ _ _ _ _ _ Hloop)].
  (* the invoke id *)
  unfold body, invoke_bytes in C.
  destruct (holds_tlv p start (0x02, uint32_bytes invokeId) service maxBufPos None C) as (T1 & L1 & C1 & C2 & E1);
    [cbn [snd]; lia|change (tlv (2, uint32_bytes invokeId)) with (invoke_bytes invokeId); lia|]. cbn [fst snd] in *.
  change (tlv (2, uint32_bytes invokeId)) with (invoke_bytes invokeId) in E1.
  cbn [confirmed_loop]. destruct (Z.ltb_spec start maxBufPos); [|lia].
  unfold element_tag at 1. rewrite (bind_lift _ _ _ _ (false, 0x02, start + 1)) by (by rewrite T1).
  rewrite (bind_lift _ _ _ _ _ L1). pose proof (determineLengthSize_range (zlen (uint32_bytes invokeId))) as Ru.
  destruct (Z.ltb_spec (start + 1 + BerEncoder_determineLengthSize (zlen (uint32_bytes invokeId))) 0); [lia|].
  rewrite (bind_lift _ _ _ _ (zlen (uint32_bytes invokeId))) by done. cbv zeta. cbn [Z.eqb Pos.eqb].
  rewrite i32_end by lia. rewrite E1 in C2 |- *.
  unfold set_invokeId at 1. rewrite bind_assoc, (bind_lift _ _ _ _ invokeId).
  2: { rewrite (decodeUint32_holds (uint32_bytes invokeId)) by done. by rewrite be_val_uint32_bytes, u32_small by lia. }
  unfold update_connection. rewrite bind_assoc, bind_modify, bind_ret. fold (with_invokeId invokeId s).
  (* the service *)
  set (pos := start + zlen (invoke_bytes invokeId)) in *. destruct (Z.ltb_spec pos maxBufPos); [|lia].
  destruct (element_tag_holds p pos tag0 tag content Ht C2) as [T2 C3]. set (next := pos + zlen (option_list tag0)) in *.
  rewrite <- (app_nil_r (tlv (tag, content))) in C3.
  destruct (holds_tlv p next (tag, content) [] maxBufPos None C3) as (_ & L3 & C4 & _ & E3); [cbn [snd]; lia|lia|]. cbn [fst snd] in *.
  rewrite (bind_lift _ _ _ _ _ T2), (bind_lift _ _ _ _ _ L3). pose proof (determineLengthSize_range (zlen content)) as Rl.
  set (at_ := next + 1 + BerEncoder_determineLengthSize (zlen content)) in *. destruct (Z.ltb_spec at_ 0); [lia|].
  rewrite (bind_lift _ _ _ _ (zlen content)) by done. specialize (Hserve at_ C4 ltac:(lia)). unfold serve in Hserve.
  rewrite i32_end by lia. assert (at_ + zlen content = maxBufPos) as -> by lia.
  destruct tag0 as [tag0|]; cbn [is_Some bool_decide decide_rel] in *.
  - rewrite bool_decide_true by (by eexists). rewrite (bind_run _ _ _ _ _ _ _ Hserve).
    destruct fuel; cbn [confirmed_loop]; (destruct (Z.ltb_spec maxBufPos maxBufPos); [lia|done]).
  - rewrite bool_decide_false by (intros [? ?]; done). destruct Ht as [_ Ht]. destruct (Z.eqb_spec tag 2); [done|].
    rewrite (bind_run _ _ _ _ _ _ _ Hserve).
    destruct fuel; cbn [confirmed_loop]; (destruct (Z.ltb_spec maxBufPos maxBufPos); [lia|done]).
Qed.
End Parse.

(** * What the client makes of an answer *)

Lemma parse_answer p invokeId service : holds p 0 (answer_bytes invokeId service) -> 0 <= invokeId < 2 ^ 32 -> zlen service < 60000 ->
  exists start, parseConfirmedResponse p (zlen (answer_bytes invokeId service)) = Done (Some (invokeId, start)) /\
    holds p start service /\ start + zlen service = zlen (answer_bytes invokeId service) /\ 0 <= start < 100.
Proof.
  intros Hh Hid Hz. pose proof (zlen_uint32_bytes invokeId) as Hu. pose proof (zlen_invoke_bytes invokeId) as Hi.
  pose proof (zlen_nonneg service). unfold answer_bytes in *. set (body := invoke_bytes invokeId ++ service) in *.
  assert (zlen body = zlen (invoke_bytes invokeId) + zlen service) as Hbody by (apply zlen_app).
  pose proof (zlen_tlv_range (0xa1, body)) as R0. cbn [snd] in R0. set (size := zlen (tlv (0xa1, body))) in *.
  rewrite <- (app_nil_r (tlv (0xa1, body))) in Hh.
  destruct (holds_tlv p 0 (0xa1, body) [] size None Hh) as (_ & L & C & _ & E); [cbn [snd]; lia|lia|]. cbn [fst snd] in *.
  set (start := 0 + 1 + BerEncoder_determineLengthSize (zlen body)) in *. pose proof (determineLengthSize_range (zlen body)) as Rb.
  unfold body, invoke_bytes in C.
  destruct (holds_tlv p start (0x02, uint32_bytes invokeId) service size None C) as (T1 & L1 & C1 & C2 & E1);
    [cbn [snd]; lia|change (tlv (2, uint32_bytes invokeId)) with (invoke_bytes invokeId); lia|]. cbn [fst snd] in *.
  change (tlv (2, uint32_bytes invokeId)) with (invoke_bytes invokeId) in E1.
  pose proof (determineLengthSize_range (zlen (uint32_bytes invokeId))) as Ru.
  exists (start + zlen (invoke_bytes invokeId)). rewrite <- E1 in *. split; [|split; [done|lia]].
  unfold parseConfirmedResponse. change (0 + 1) with 1 in L. rewrite L. cbn [rbind]. destruct (Z.eqb_spec start (-1)); [lia|].
  rewrite T1. cbn [rbind]. change (2 =? 2) with true. cbv iota. rewrite L1. cbn [rbind].
  destruct (Z.eqb_spec (start + 1 + BerEncoder_determineLengthSize (zlen (uint32_bytes invokeId))) (-1)); [lia|].
  cbn [defined rbind]. rewrite (decodeUint32_holds (uint32_bytes invokeId)) by done. cbn [rbind].
  rewrite be_val_uint32_bytes, u32_small, i32_end by lia. done.
Qed.

(** The content of a file service, and its end. *)
Lemma parse_file_service p tag content start : holds p start (file_service tag content) -> 0 <= start -> zlen content < 60000 ->
  start + zlen (file_service tag content) < 2 ^ 31 ->
  exists pos, rd p start = Done 0xbf /\
    tagged_response tag p (start + 1) (start + zlen (file_service tag content)) = Done (Some (pos, pos + zlen content)) /\
    holds p pos content /\ pos + zlen content = start + zlen (file_service tag content) /\ start < pos.
Proof.
  intros Hh Hs Hz Hmax. pose proof (zlen_nonneg content). rewrite zlen_file_service in *. pose proof (zlen_tlv_range (tag, content)) as R. cbn [snd] in R.
  unfold file_service in Hh. apply holds_cons in Hh as [T0 Hh]. rewrite <- (app_nil_r (tlv (tag, content))) in Hh.
  destruct (holds_tlv p (start + 1) (tag, content) [] (start + (1 + zlen (tlv (tag, content)))) None Hh) as (T & L & C & _ & E);
    [cbn [snd]; lia|lia|]. cbn [fst snd] in *. pose proof (determineLengthSize_range (zlen content)) as Rl.
  set (pos := start + 1 + 1 + BerEncoder_determineLengthSize (zlen content)) in *. exists pos.
  split; [done|]. split; [|split; [done|lia]].
  unfold tagged_response. rewrite T. cbn [rbind]. rewrite Z.eqb_refl. cbn [negb]. unfold response_range. rewrite L. cbn [rbind].
  destruct (Z.ltb_spec pos 0); [lia|]. cbn [defined rbind]. rewrite i32_end by lia.
  destruct (Z.ltb_spec (start + (1 + zlen (tlv (tag, content)))) (pos + zlen content)); [lia|done].
Qed.

(** One element of a loop. *)
Lemma element_holds p pos e rest max old : holds p pos (tlv e ++ rest) -> 0 <= pos -> zlen (snd e) < 65536 ->
  pos + zlen (tlv e) <= max -> max < 2 ^ 31 ->
  exists at_, next_element p pos max old = Done (fst e, at_, Some (zlen (snd e))) /\ holds p at_ (snd e) /\
    behind_element at_ (Some (zlen (snd e))) = Done (pos + zlen (tlv e)) /\ at_ + zlen (snd e) = pos + zlen (tlv e) /\
    pos < at_ /\ holds p (pos + zlen (tlv e)) rest.
Proof.
  intros Hh Hp Hz Hm H31. destruct (holds_tlv p pos e rest max old Hh Hz Hm) as (T & L & C & R & E).
  pose proof (determineLengthSize_range (zlen (snd e))) as Rl. pose proof (zlen_nonneg (snd e)).
  set (at_ := pos + 1 + BerEncoder_determineLengthSize (zlen (snd e))) in *. exists at_. rewrite <- E.
  unfold next_element, behind_element. rewrite T. cbn [rbind]. rewrite L. cbn [rbind defined].
  split; [done|]. split; [done|]. split; [by rewrite i32_end by lia|]. split; [done|]. split; [lia|done].
Qed.

Lemma parse_chunk fuel p start chunk more : holds p start (file_service 0x49 (chunk_content chunk more)) -> 0 <= start ->
  zlen chunk < 50000 -> start + zlen (file_service 0x49 (chunk_content chunk more)) < 2 ^ 31 ->
  mmsClient_parseFileReadResponse (S (S fuel)) p start (start + zlen (file_service 0x49 (chunk_content chunk more)))
    = Done (true, ([chunk], more)).
Proof.
  intros Hh Hs Hz Hmax. pose proof (zlen_nonneg chunk). pose proof (zlen_tlv_range (0x80, chunk)) as R. cbn [snd] in R.
  pose proof (zlen_chunk_content chunk more) as Hc. set (max := start + zlen (file_service 0x49 (chunk_content chunk more))) in *.
  destruct (parse_file_service p 0x49 _ start Hh Hs) as (pos & T & Tr & C & E & Hpos); [destruct more; lia|lia|].
  unfold mmsClient_parseFileReadResponse. rewrite T. cbn [rbind]. change (0xbf =? 0xbf) with true. cbn [negb]. cbv iota.
  fold max in Tr, E. rewrite Tr. cbn [rbind]. rewrite E. replace (max - pos) with (zlen (chunk_content chunk more)) by lia.
  unfold chunk_content in C.
  destruct (element_holds p pos (0x80, chunk) _ max (Some (zlen (chunk_content chunk more))) C) as (at_ & E1 & C1 & B1 & N1 & P1 & C2);
    [lia|cbn [snd]; lia|destruct more; lia|lia|]. cbn [fst snd] in *.
  rewrite (while_next _ _ _ _ (pos + zlen (tlv (0x80, chunk)), Some (zlen chunk), ([chunk], true))).
  2: { cbn [fst]. apply Z.ltb_lt. destruct more; lia. }
  2: { unfold parseFileReadResponse_body. rewrite E1. cbn [rbind]. rewrite B1. cbn [rbind]. change (0x80 =? 0x80) with true. cbv iota.
       cbn [defined rbind]. by rewrite (holds_rd_list _ _ chunk) by done. }
  set (next := pos + zlen (tlv (0x80, chunk))) in *. destruct more.
  - rewrite while_false; [done|]. cbn [fst]. apply Z.ltb_ge. lia.
  - rewrite <- (app_nil_r (tlv _)) in C2. change (zlen (tlv (0x81, [0]))) with 3 in *.
    destruct (element_holds p next (0x81, [0]) [] max (Some (zlen chunk)) C2) as (at2 & E2 & C3 & B2 & N2 & P2 & _);
      [lia|by_eval|change (zlen (tlv (0x81, [0]))) with 3; lia|lia|]. cbn [fst snd] in *. change (zlen (tlv (0x81, [0]))) with 3 in *.
    rewrite (while_next _ _ _ _ (next + 3, Some 1, ([chunk], false))).
    + rewrite while_false; [done|]. cbn [fst]. apply Z.ltb_ge. lia.
    + cbn [fst]. apply Z.ltb_lt. lia.
    + unfold parseFileReadResponse_body. rewrite E2. cbn [rbind]. rewrite B2. cbn [rbind]. change (0x81 =? 0x80) with false.
      change (0x81 =? 0x81) with true. cbv iota. unfold BerDecoder_decodeBoolean. apply holds_cons in C3 as [Tb _]. by rewrite Tb.
Qed.

(** ** The attributes of a file *)

Lemma c_chars_nonzero l rest : Forall (fun c => c <> 0) l -> c_chars (l ++ rest) = l ++ c_chars rest.
Proof. induction 1 as [|c l Hc _ IH]; [done|]. cbn [app c_chars]. destruct (Z.eqb_spec c 0); [done|]. by rewrite IH. Qed.

Lemma digits_nonzero l : forallb StringUtils_isDigit l = true -> Forall (fun c => c <> 0) l.
Proof.
  intros H. apply Forall_forall. intros c Hc -> . rewrite forallb_forall in H.
  specialize (H 0 ltac:(by apply list_elem_of_In)). discriminate.
Qed.

(** A time that is printed has no null byte. *)
Lemma generalized_time_chars lib ms : tm_ok (gmtime_r lib (ms / 1000)) ->
  generalized_time lib ms = Conversions_msTimeToGeneralizedTime lib ms.
Proof.
  intros (Hy & Hmo & Hd & Hh & Hmi & Hs). pose proof (Z.mod_pos_bound ms 1000 ltac:(lia)) as Hr.
  assert (forall v, two_digits v -> forallb StringUtils_isDigit (Conversions_intToStringBuffer v 2) = true) as H2
    by (intros v Hv; apply (reads_back_upto 2 v); [by vm_compute|done]).
  destruct (reads_back_upto 4 _ ltac:(by vm_compute) Hy) as [_ H4]. destruct (reads_back_upto 3 _ ltac:(by vm_compute) Hr) as [_ H3].
  unfold generalized_time, Conversions_msTimeToGeneralizedTime.
  rewrite !c_chars_nonzero by (apply digits_nonzero; auto). do 6 f_equal.
  change (lit ".") with [46]. change (lit "Z") with [90]. cbn [app c_chars]. change (46 =? 0) with false. cbv iota. f_equal.
  by rewrite c_chars_nonzero by (by apply digits_nonzero).
Qed.

Lemma c_chars_idem l : c_chars (c_chars l) = c_chars l.
Proof. induction l as [|c l IH]; [done|]. cbn [c_chars]. destruct (c =? 0) eqn:E; [done|]. cbn [c_chars]. by rewrite E, IH. Qed.

(** The attributes that the server sends, and what the client stores. *)
Lemma parse_attributes lib fuel p pos size ms a : 0 <= size < 2 ^ 32 -> 0 <= ms < 2 ^ 64 ->
  tm_ok (gmtime_r lib (ms / 1000)) -> timegm lib (gmtime_r lib (ms / 1000)) = ms / 1000 ->
  holds p pos (attributes_content size (generalized_time lib ms)) -> 0 <= pos < 1000 ->
  parseFileAttributes lib p (pos + zlen (attributes_content size (generalized_time lib ms))) (S (S fuel)) pos a
    = Done (true, mkFileAttributes (Some size) (Some ms)).
Proof.
  intros Hsz Hms Htm Hinv Hh Hp. destruct (generalized_time_ok lib ms) as [Hgb Hgz].
  assert (parse_lastModified lib p = fun bufPos length => let! bs := rd_list p bufPos length in
    if 39 <? length then Ub else Conversions_generalizedTimeToMsTime lib (c_chars bs)) as Elm by done.
  pose proof (generalized_time_chars lib ms Htm) as Egt. pose proof (generalizedTime_reads lib ms Hms Htm Hinv) as Eread.
  rewrite <- Egt in Eread. assert (c_chars (generalized_time lib ms) = generalized_time lib ms) as Eid by apply c_chars_idem.
  set (gt := generalized_time lib ms) in *. pose proof (zlen_nonneg gt). pose proof (zlen_uint32_bytes size) as Hu.
  unfold attributes_content in *. pose proof (zlen_tlv_uint32 0x80 size) as Z1. pose proof (zlen_tlv_short 0x81 gt ltac:(lia)) as Z2.
  rewrite zlen_app, Z1, Z2. set (max := pos + (2 + zlen (uint32_bytes size) + (2 + zlen gt))).
  destruct (element_holds p pos (0x80, uint32_bytes size) (tlv (0x81, gt)) max None Hh) as (at1 & E1 & C1 & B1 & N1 & P1 & R1);
    [lia|cbn [snd]; lia|lia|lia|]. cbn [fst snd] in *. rewrite Z1 in *.
  rewrite <- (app_nil_r (tlv (0x81, gt))) in R1.
  destruct (element_holds p _ (0x81, gt) [] max None R1) as (at2 & E2 & C2 & B2 & N2 & P2 & _); [lia|cbn [snd]; lia|lia|lia|].
  cbn [fst snd] in *. rewrite Z2 in *. unfold behind_element in B1, B2. cbn [defined rbind] in B1, B2. injection B1 as B1. injection B2 as B2.
  unfold parseFileAttributes.
  rewrite (while_next _ _ _ _ (pos + (2 + zlen (uint32_bytes size)), mkFileAttributes (Some size) (fa_lastModified a))).
  - rewrite (while_next _ _ _ _ (max, mkFileAttributes (Some size) (Some ms))).
    + rewrite while_false; [done|]. cbn [fst]. apply Z.ltb_irrefl.
    + cbn [fst]. apply Z.ltb_lt. lia.
    + unfold parseFileAttributes_body. rewrite E2. cbn [rbind]. destruct (Z.ltb_spec at2 0); [lia|].
      cbn [defined rbind]. change (0x81 =? 0x80) with false. change (0x81 =? 0x81) with true. cbv iota.
      rewrite Elm, (holds_rd_list _ _ gt) by done. cbn [rbind]. destruct (Z.ltb_spec 39 (zlen gt)); [lia|].
      rewrite Eid, Eread. cbn [rbind]. rewrite B2. do 3 f_equal. lia.
  - cbn [fst]. apply Z.ltb_lt. lia.
  - unfold parseFileAttributes_body. rewrite E1. cbn [rbind]. destruct (Z.ltb_spec at1 0); [lia|].
    cbn [defined rbind]. change (0x80 =? 0x80) with true. cbv iota.
    rewrite (decodeUint32_holds (uint32_bytes size)) by done. cbn [rbind].
    by rewrite be_val_uint32_bytes, u32_small, B1 by lia.
Qed.

Lemma parse_opened lib fuel p start id size ms : - 2 ^ 31 <= id < 2 ^ 31 -> 0 <= size < 2 ^ 32 -> 0 <= ms < 2 ^ 64 ->
  tm_ok (gmtime_r lib (ms / 1000)) -> timegm lib (gmtime_r lib (ms / 1000)) = ms / 1000 ->
  let service := file_service 0x48 (open_content id size (generalized_time lib ms)) in
  holds p start service -> 0 <= start < 100 ->
  mmsClient_parseFileOpenResponse lib (S (S fuel)) p start (start + zlen service)
    = Done (true, mkFileOpened (Some id) (mkFileAttributes (Some size) (Some ms))).
Proof.
  intros Hid Hsz Hms Htm Hinv service Hh Hs. destruct (generalized_time_ok lib ms) as [Hgb Hgz].
  destruct (fileAttributes_size_spec size (generalized_time lib ms) Hgz) as [_ Hac].
  pose proof (zlen_uint32_bytes (u32 id)) as Hu. pose proof (zlen_nonneg (attributes_content size (generalized_time lib ms))) as Hnn.
  set (content := open_content id size (generalized_time lib ms)) in *. set (attributes := attributes_content size (generalized_time lib ms)) in *.
  pose proof (zlen_tlv_uint32 0x80 (u32 id)) as Z1. pose proof (zlen_tlv_short 0xa1 attributes ltac:(lia)) as Z2.
  assert (zlen content = 2 + zlen (uint32_bytes (u32 id)) + (2 + zlen attributes)) as Hc
    by (unfold content, open_content; fold attributes; rewrite zlen_app; lia).
  pose proof (zlen_tlv_range (0x48, content)) as R. cbn [snd] in R. pose proof (zlen_file_service 0x48 content) as Hz. fold service in Hz.
  destruct (parse_file_service p 0x48 content start Hh ltac:(lia) ltac:(lia)) as (pos & T & Tr & C & E & Hpos); [fold service; lia|].
  fold service in Tr, E. set (max := start + zlen service) in *.
  unfold mmsClient_parseFileOpenResponse, extended_response. rewrite T. cbn [rbind]. change (0xbf =? 0xbf) with true. cbn [negb]. cbv iota.
  rewrite Tr. cbn [rbind]. rewrite E. unfold content, open_content in C. fold attributes in C.
  destruct (element_holds p pos (0x80, uint32_bytes (u32 id)) (tlv (0xa1, attributes)) max (Some (max - pos)) C)
    as (at1 & E1 & C1 & B1 & N1 & P1 & R1); [lia|cbn [snd]; lia|lia|lia|]. cbn [fst snd] in *. rewrite Z1 in *.
  rewrite <- (app_nil_r (tlv (0xa1, attributes))) in R1.
  destruct (element_holds p _ (0xa1, attributes) [] max (Some (zlen (uint32_bytes (u32 id)))) R1) as (at2 & E2 & C2 & B2 & N2 & P2 & _);
    [lia|cbn [snd]; lia|lia|lia|]. cbn [fst snd] in *. rewrite Z2 in *.
  set (next := pos + (2 + zlen (uint32_bytes (u32 id)))) in *.
  rewrite (while_next _ _ _ _ (next, Some (zlen (uint32_bytes (u32 id))), mkFileOpened (Some id) (mkFileAttributes None None))).
  - rewrite (while_next _ _ _ _ (next + (2 + zlen attributes), Some (zlen attributes), mkFileOpened (Some id) (mkFileAttributes (Some size) (Some ms)))).
    + rewrite while_false; [done|]. cbn [fst]. apply Z.ltb_ge. lia.
    + cbn [fst]. apply Z.ltb_lt. lia.
    + unfold parseFileOpenResponse_body. rewrite E2. cbn [rbind]. rewrite B2. cbn [rbind]. change (0xa1 =? 0x80) with false.
      change (0xa1 =? 0xa1) with true. cbv iota. rewrite <- N2.
      rewrite (parse_attributes lib fuel p at2 size ms _ Hsz Hms Htm Hinv C2) by lia. done.
  - cbn [fst]. apply Z.ltb_lt. lia.
  - unfold parseFileOpenResponse_body. rewrite E1. cbn [rbind]. rewrite B1. cbn [rbind]. change (0x80 =? 0x80) with true. cbv iota.
    cbn [defined rbind]. rewrite (decodeUint32_holds (uint32_bytes (u32 id))) by done. cbn [rbind].
    rewrite be_val_uint32_bytes by apply u32_range. do 4 f_equal. f_equal. unfold i32, swrap, u32.
    rewrite !Zplus_mod_idemp_l, Z.mod_small; lia.
Qed.

(** * Reading a file through client and server *)

Lemma parse_open_parameters fuel p start filename position : bytes filename -> Forall (fun c => c <> 0) filename ->
  zlen filename <= 100 -> 0 <= position < 2 ^ 32 -> 0 <= start < 1000 -> holds p start (open_parameters filename position) ->
  parse_parameters (open_parameter p) (S (S fuel)) p start (start + zlen (open_parameters filename position))
    = Done (Next (mkFileRequest (start + zlen (open_parameters filename position)) (Some filename) None position)).
Proof.
  intros Hb Hnz Hl Hpos Hs Hh. pose proof (zlen_nonneg filename). pose proof (zlen_uint32_bytes position) as Hu.
  pose proof (zlen_tlv_short 0x19 filename ltac:(lia)) as Z1. pose proof (zlen_tlv_short 0xa0 (tlv (0x19, filename)) ltac:(lia)) as Z2.
  pose proof (zlen_tlv_uint32 0x81 position) as Z3. unfold open_parameters in *.
  assert (zlen (tlv (0xa0, tlv (0x19, filename)) ++ tlv (0x81, uint32_bytes position)) = 4 + zlen filename + (2 + zlen (uint32_bytes position)))
    as Hz by (rewrite zlen_app; lia).
  rewrite Hz. set (max := start + (4 + zlen filename + (2 + zlen (uint32_bytes position)))).
  destruct (holds_tlv p start (0xa0, tlv (0x19, filename)) _ max None Hh) as (T1 & L1 & C1 & R1 & E1); [cbn [snd]; lia|lia|].
  cbn [fst snd] in *. pose proof (determineLengthSize_range (zlen (tlv (0x19, filename)))) as D1.
  set (at1 := start + 1 + BerEncoder_determineLengthSize (zlen (tlv (25, filename)))) in *.
  rewrite <- (app_nil_r (tlv (0x19, filename))) in C1.
  destruct (holds_tlv p at1 (0x19, filename) [] (at1 + zlen (tlv (0x19, filename))) None C1) as (T2 & L2 & C2 & _ & E2); [cbn [snd]; lia|lia|].
  cbn [fst snd] in *. pose proof (determineLengthSize_range (zlen filename)) as D2.
  set (at2 := at1 + 1 + BerEncoder_determineLengthSize (zlen filename)) in *.
  rewrite <- (app_nil_r (tlv (0x81, _))) in R1. set (next := at1 + zlen (tlv (0x19, filename))) in *.
  destruct (holds_tlv p next (0x81, uint32_bytes position) [] max None R1) as (T3 & L3 & C3 & _ & E3); [cbn [snd]; lia|lia|].
  cbn [fst snd] in *. pose proof (determineLengthSize_range (zlen (uint32_bytes position))) as D3.
  set (at3 := next + 1 + BerEncoder_determineLengthSize (zlen (uint32_bytes position))) in *.
  unfold parse_parameters.
  rewrite (while_next _ _ _ _ (mkFileRequest next (Some filename) None 0)).
  - rewrite (while_next _ _ _ _ (mkFileRequest max (Some filename) None position)).
    + rewrite while_false; [done|]. cbn [fr_bufPos]. apply Z.ltb_irrefl.
    + cbn [fr_bufPos]. apply Z.ltb_lt. lia.
    + unfold parameter_body. cbn [fr_bufPos]. rewrite T3. cbn [rbind]. rewrite L3. cbn [rbind].
      destruct (Z.ltb_spec at3 0); [lia|]. cbn [defined rbind]. unfold open_parameter.
      change (0x81 =? 0xa0) with false. change (0x81 =? 0x81) with true. cbv iota.
      rewrite (decodeUint32_holds (uint32_bytes position)) by done. cbn [rbind fr_first fr_second].
      rewrite be_val_uint32_bytes, u32_small, i32_end by lia. do 3 f_equal. lia.
  - cbn [fr_bufPos]. apply Z.ltb_lt. lia.
  - unfold parameter_body. cbn [fr_bufPos]. rewrite T1. cbn [rbind]. rewrite L1. cbn [rbind].
    destruct (Z.ltb_spec at1 0); [lia|]. cbn [defined rbind]. unfold open_parameter, first_name.
    change (0xa0 =? 0xa0) with true. cbv iota. rewrite (i32_end at1) by lia. fold next. unfold parseFileName. rewrite T2. cbn [rbind].
    change (0x19 =? 0x19) with true. cbn [negb]. cbv iota. rewrite L2. cbn [rbind]. destruct (Z.ltb_spec at2 0); [lia|].
    cbn [defined rbind]. destruct (Z.ltb_spec 255 (zlen filename)); [lia|]. rewrite (holds_rd_list _ _ filename) by done.
    cbn [rbind fr_second fr_position]. rewrite <- (app_nil_r filename), c_chars_nonzero by done. cbn [c_chars].
    rewrite app_nil_r. by rewrite E2.
Qed.

Section Transfer.
Context {FS : Type} `{FileSystem FS} (w : World) (codec : AsnCodec) (lib : TimeLib).
Context (statusListener : option (MmsServerInfo -> bool -> MmsServerInfo)).
Context (remaining : FS -> Z -> option (list Z)).
Context (read_law : forall files h n rest, remaining files h = Some rest -> 0 <= n ->
  exists files', fs_readFile files h n = (take (Z.to_nat n) rest, files') /\ remaining files' h = Some (drop (Z.to_nat n) rest)).
Implicit Types (s : Service FS) (es : list ServerEvent).

Lemma transferring_invokeId invokeId s id left : transferring remaining s id left -> transferring remaining (with_invokeId invokeId s) id left.
Proof. intros [? ? ?]. by constructor. Qed.

(** An exchange whose two halves are known. *)
Lemma exchange_answered fuel transmit call invokeId s es request s' es' service r :
  call_request call invokeId transmit = Done request -> 0 <= invokeId < 2 ^ 32 -> zlen service < 60000 ->
  MmsServerConnection_parseMessage w codec lib statusListener fuel request s es = Done (MMS_CONFIRMED_REQUEST, s', es') ->
  se_response s' = respond (se_response s) (answer_bytes invokeId service) -> has_room (se_response s) (zlen (answer_bytes invokeId service)) ->
  (forall p start, holds p 0 (answer_bytes invokeId service) -> holds p start service -> 0 <= start < 100 ->
    start + zlen service = zlen (answer_bytes invokeId service) ->
    call_answer call p (start + zlen service) start = Done r) ->
  exchange w codec lib statusListener fuel transmit call invokeId s es = Done (Some r, s', es').
Proof.
  intros Hreq Hid Hz Hserver Hresp Hroom Hans. unfold exchange. rewrite Hreq. cbn [rbind]. rewrite Hserver. cbn [rbind]. rewrite Hresp.
  destruct (holds_respond _ _ Hroom) as (p & Hb & Hs & Hh). rewrite Hb, Hs. cbn [defined rbind].
  destruct (parse_answer p invokeId service Hh Hid Hz) as (start & Hp & Hc & E & Hst). rewrite Hp. cbn [rbind].
  rewrite Z.eqb_refl, <- E. by rewrite (Hans _ _ Hh Hc Hst E).
Qed.

Lemma exchange_read fuel transmit s es id left invokeId :
  transferring remaining s id left -> - 2 ^ 31 <= id < 2 ^ 31 -> 0 <= invokeId < 2 ^ 32 -> has_room transmit 150 ->
  let n := Z.min maxFileChunkSize (zlen left) in
  let more := maxFileChunkSize <? zlen left in
  exists s', exchange w codec lib statusListener (S (S fuel)) transmit (MmsConnection_fileRead (S (S fuel)) id) invokeId s es
      = Done (Some (ResultChunks ([take (Z.to_nat n) left], more), MMS_ERROR_NONE), s', es) /\
    transferring remaining s' id (drop (Z.to_nat n) left).
Proof using read_law.
  intros Ht Hid Hi Htr n more. assert (id = i32 (u32 id)) as Eid by (unfold i32, swrap, u32; rewrite Zplus_mod_idemp_l, Z.mod_small; lia).
  pose proof (zlen_uint32_bytes (u32 id)) as Hu. pose proof (transferring_invokeId invokeId _ _ _ Ht) as Ht'.
  assert (has_room transmit 30) as Htr' by (unfold has_room in *; destruct (bb_buffer transmit); [lia|done]).
  pose proof (read_request_bytes id invokeId transmit Htr') as Hreq. unfold read_bytes in Hreq.
  set (request := request_bytes invokeId (0x9f :: tlv (0x49, uint32_bytes (u32 id)))) in *.
  assert (zlen request <= 150) as Hz.
  { pose proof (zlen_invoke_bytes invokeId). pose proof (zlen_uint32_bytes invokeId).
    pose proof (zlen_tlv_range (0xa0, invoke_bytes invokeId ++ 0x9f :: tlv (0x49, uint32_bytes (u32 id)))) as R. cbn [snd] in R.
    fold request in R. rewrite zlen_app, zlen_cons, zlen_tlv_uint32 in R. unfold request, request_bytes. lia. }
  assert (has_room transmit (zlen request)) as Hrr by (unfold has_room in *; destruct (bb_buffer transmit); [lia|done]).
  destruct (holds_respond transmit request Hrr) as (p & Hb & Hs & Hh).
  (* the server *)
  assert (forall start, holds p start (uint32_bytes (u32 id)) -> 0 <= start < 100 ->
    BerDecoder_decodeUint32 p (i32 (start + zlen (uint32_bytes (u32 id))) - start) start = Done (u32 id)) as Hd.
  { intros start C Hst. rewrite i32_end by lia. replace (_ - start) with (zlen (uint32_bytes (u32 id))) by lia.
    rewrite (decodeUint32_holds (uint32_bytes (u32 id))) by done. rewrite be_val_uint32_bytes by apply u32_range. by rewrite u32_small by apply u32_range. }
  assert (exists s', MmsServerConnection_parseMessage w codec lib statusListener (S (S fuel)) (respond transmit request) s es
      = Done (MMS_CONFIRMED_REQUEST, s', es) /\ transferring remaining s' id (drop (Z.to_nat n) left) /\
      se_response s' = respond (se_response s) (chunk_answer invokeId (take (Z.to_nat n) left) more) /\
      zlen (take (Z.to_nat n) left) = n) as (s' & Hserver & Ht1 & Hresp & Hn).
  { (* the position of the number of the file does not matter to the server *)
    destruct (read_step remaining read_law codec (with_invokeId invokeId s) es id left (mk_ptr (uint32_bytes (u32 id)) 0) 0
      (zlen (uint32_bytes (u32 id))) invokeId Ht') as (s' & Hr & Hbb & Hn & Ht1 & Hresp); [|done|].
    { rewrite Z.sub_0_r, (decodeUint32_holds (uint32_bytes (u32 id))) by (done || apply holds_whole).
      rewrite be_val_uint32_bytes by apply u32_range. by rewrite u32_small by apply u32_range. }
    exists s'. split; [|split; [done|split; [done|done]]].
    apply (parse_request w codec lib statusListener fuel (respond transmit request) p invokeId (Some 0x9f) 0x49 (uint32_bytes (u32 id)) s es s' es); try done; [lia|].
    intros start C Hst. unfold serve, extended_service. cbv zeta. change (0x49 =? 0x48) with false. change (0x49 =? 0x49) with true. cbv iota.
    unfold served. rewrite (bind_run _ _ _ _ tt s' es); [done|]. rewrite <- Hr. unfold mmsServer_handleFileReadRequest.
    rewrite !(bind_lift _ _ _ _ (u32 id)); [done| |by apply Hd].
    rewrite Z.sub_0_r, (decodeUint32_holds (uint32_bytes (u32 id))) by (done || apply holds_whole).
    rewrite be_val_uint32_bytes by apply u32_range. by rewrite u32_small by apply u32_range. }
  exists s'. split; [|done].
  assert (0 <= n <= 15985) as Hnr by (pose proof (zlen_nonneg left); unfold n; change maxFileChunkSize with 15985; lia).
  set (chunk := take (Z.to_nat n) left) in *. pose proof (zlen_chunk_content chunk more) as Hcc.
  pose proof (zlen_tlv_range (0x80, chunk)) as R1. pose proof (zlen_tlv_range (0x49, chunk_content chunk more)) as R2. cbn [snd] in R1, R2.
  pose proof (zlen_file_service 0x49 (chunk_content chunk more)) as Hfs. pose proof (zlen_nonneg chunk).
  destruct (zlen_chunk_answer invokeId chunk more ltac:(change maxFileChunkSize with 15985; lia)) as [Hza _].
  apply (exchange_answered _ _ _ _ _ _ (respond transmit request) _ _ (file_service 0x49 (chunk_content chunk more))); try done.
  - destruct more; lia.
  - pose proof (tf_room _ _ _ _ Ht) as Hroom. unfold chunk_answer in Hza. unfold has_room in *. destruct (bb_buffer (se_response s)); [lia|done].
  - intros q start _ C Hst _. cbn [call_answer MmsConnection_fileRead].
    rewrite parse_chunk; [done|done|lia|lia|destruct more; lia].
Qed.

Lemma exchange_open fuel cfuel transmit s es openId filename position content h files1 t i f :
  let id := mc_nextFrsmId (se_connection s) in
  - 2 ^ 31 <= id < 2 ^ 31 -> getFreeFrsm (se_connection s) = Some (i, f) -> getFrsm (se_connection s) id = None ->
  fs_openFile (se_files s) filename false = (Some h, files1) -> remaining files1 h = Some content ->
  fs_getFileInfo files1 filename = Some (zlen content, t) -> 0 <= position <= zlen content -> zlen content < 2 ^ 32 ->
  bytes content -> has_room (se_response s) 16100 -> 0 <= t < 2 ^ 64 ->
  tm_ok (gmtime_r lib (t / 1000)) -> timegm lib (gmtime_r lib (t / 1000)) = t / 1000 ->
  bytes filename -> Forall (fun c => c <> 0) filename -> zlen filename <= 100 -> has_room transmit 150 -> 0 <= openId < 2 ^ 32 ->
  exists s1, exchange w codec lib statusListener (S (S (S (S fuel)))) transmit (MmsConnection_fileOpen lib (S (S cfuel)) filename position) openId s es
      = Done (Some (ResultFile (mkFileOpened (Some id) (mkFileAttributes (Some (zlen content)) (Some t))), MMS_ERROR_NONE), s1, es) /\
    transferring remaining s1 id (take (Z.to_nat (zlen content - position)) content).
Proof.
  intros id Hid Hfree Hnone Hopen Hrest Hinfo Hpos Hsize Hb Hroom Ht Htm Hinv Hfb Hfz Hfl Htr Hoid.
  destruct (open_file_transferring remaining codec lib (with_invokeId openId s) es openId filename position content h files1 t i f
    Hfree Hnone Hopen Hrest Hinfo Hpos Hsize Hb Hroom) as (s1 & Hserve & Hresp & Hza & Hts). change (mc_nextFrsmId _) with id in Hresp, Hza, Hts.
  exists s1. split; [|done].
  pose proof (open_request_bytes filename position openId transmit Hfb Hfl Htr) as Hreq. pose proof (zlen_uint32_bytes position) as Hu.
  pose proof (zlen_nonneg filename). pose proof (zlen_tlv_short 0x19 filename ltac:(lia)) as Z1.
  pose proof (zlen_tlv_short 0xa0 (tlv (0x19, filename)) ltac:(lia)) as Z2. pose proof (zlen_tlv_uint32 0x81 position) as Z3.
  assert (zlen (open_parameters filename position) = 4 + zlen filename + (2 + zlen (uint32_bytes position))) as Hz
    by (unfold open_parameters; rewrite zlen_app; lia).
  set (request := open_bytes openId filename position) in *.
  assert (zlen request <= 150) as Hzr.
  { pose proof (zlen_invoke_bytes openId). pose proof (zlen_uint32_bytes openId).
    pose proof (zlen_tlv_short 0x48 (open_parameters filename position) ltac:(lia)) as Z4.
    pose proof (zlen_tlv_range (0xa0, invoke_bytes openId ++ 0xbf :: tlv (0x48, open_parameters filename position))) as R. cbn [snd] in R.
    rewrite zlen_app, zlen_cons, Z4 in R. unfold request, open_bytes, request_bytes. lia. }
  assert (has_room transmit (zlen request)) as Hrr by (unfold has_room in *; destruct (bb_buffer transmit); [lia|done]).
  destruct (holds_respond transmit request Hrr) as (p & Hbuf & Hs & Hh).
  assert (MmsServerConnection_parseMessage w codec lib statusListener (S (S (S (S fuel)))) (respond transmit request) s es
    = Done (MMS_CONFIRMED_REQUEST, s1, es)) as Hserver.
  { apply (parse_request w codec lib statusListener (S (S fuel)) (respond transmit request) p openId (Some 0xbf) 0x48 (open_parameters filename position) s es s1 es);
      try done; [lia|].
    intros start C Hst. unfold serve, extended_service. cbv zeta. change (0x48 =? 0x48) with true. cbv iota.
    unfold served. rewrite (bind_run _ _ _ _ tt s1 es); [done|]. rewrite <- Hserve. unfold mmsServer_handleFileOpenRequest.
    rewrite i32_end by lia. pose proof (parse_open_parameters fuel p start filename position Hfb Hfz Hfl ltac:(lia) ltac:(lia) C) as Hpar.
    by rewrite (bind_lift _ _ _ _ _ Hpar). }
  destruct (generalized_time_ok lib t) as [Hgb Hgz]. destruct (fileAttributes_size_spec (zlen content) (generalized_time lib t) Hgz) as [_ Hac].
  pose proof (zlen_uint32_bytes (u32 id)) as Hu2. pose proof (zlen_tlv_short 0xa1 (attributes_content (zlen content) (generalized_time lib t)) ltac:(lia)) as Z5.
  pose proof (zlen_tlv_uint32 0x80 (u32 id)) as Z6.
  assert (zlen (open_content id (zlen content) (generalized_time lib t)) < 100) as Hoc by (unfold open_content; rewrite zlen_app; lia).
  apply (exchange_answered _ _ _ _ _ _ (respond transmit request) _ _ (file_service 0x48 (open_content id (zlen content) (generalized_time lib t)))); try done.
  - rewrite zlen_file_service. pose proof (zlen_tlv_range (0x48, open_content id (zlen content) (generalized_time lib t))) as R. cbn [snd] in R. lia.
  - unfold open_answer in Hza. unfold has_room in *. destruct (bb_buffer (se_response s)); [lia|done].
  - intros q start _ C Hst _. cbn [call_answer MmsConnection_fileOpen].
    pose proof (parse_opened lib cfuel q start id (zlen content) t Hid ltac:(lia) Ht Htm Hinv C Hst) as E. cbv zeta in E. by rewrite E.
Qed.

(** What the application gets is what is left of the file. *)
Lemma read_file_left rounds fuel transmit s es id left invokeId :
  transferring remaining s id left -> - 2 ^ 31 <= id < 2 ^ 31 -> 0 <= invokeId < 2 ^ 32 -> has_room transmit 150 ->
  (length left < rounds)%nat ->
  exists s', read_file w codec lib statusListener (S (S fuel)) rounds transmit id invokeId s es = Done (Some left, s', es).
Proof using read_law.
  revert s left invokeId. induction rounds as [|rounds IH]; intros s left invokeId Ht Hid Hi Htr Hl; [lia|].
  destruct (exchange_read fuel transmit s es id left invokeId Ht Hid Hi Htr) as (s1 & E1 & Ht1). cbn [read_file]. rewrite E1. cbn [rbind].
  pose proof (zlen_nonneg left). destruct (Z.ltb_spec maxFileChunkSize (zlen left)) as [Hlt|Hge].
  - rewrite Z.min_l in * by lia. change maxFileChunkSize with 15985 in *.
    destruct (IH s1 _ (u32 (invokeId + 1)) Ht1 Hid) as (s2 & E2); [pose proof (u32_range (invokeId + 1)); lia|done| |].
    + rewrite length_drop. unfold zlen in *. lia.
    + exists s2. rewrite E2. cbn [rbind concat fmap option_fmap option_map]. rewrite app_nil_r. by rewrite take_drop.
  - rewrite Z.min_r by lia. exists s1. cbn [concat]. rewrite app_nil_r. by rewrite take_ge by (unfold zlen; lia).
Qed.
End Transfer.

(** C5: A file through client and server.  The client opens a file of the server and reads
    it with as many requests as the answers ask for, each request written by the client,
    parsed and answered by the server, and each answer parsed by the client: the client gets
    the number, the size and the time of the file, and what it reads together is as much as
    lies behind the initial position that it asked for, but from the beginning of the file;
    with the position 0 it is the file.  (The name has no more than 100 characters: from
    about 120 on the lengths that the requests announce are too small.) *)
Theorem client_reads_file {FS} `{FileSystem FS} w codec lib listener (remaining : FS -> Z -> option (list Z)) fuel cfuel transmit
    (s : Service FS) es openId readId filename position content h files1 t i f :
  (forall files h n rest, remaining files h = Some rest -> 0 <= n ->
    exists files', fs_readFile files h n = (take (Z.to_nat n) rest, files') /\ remaining files' h = Some (drop (Z.to_nat n) rest)) ->
  let id := mc_nextFrsmId (se_connection s) in
  - 2 ^ 31 <= id < 2 ^ 31 -> getFreeFrsm (se_connection s) = Some (i, f) -> getFrsm (se_connection s) id = None ->
  fs_openFile (se_files s) filename false = (Some h, files1) -> remaining files1 h = Some content ->
  fs_getFileInfo files1 filename = Some (zlen content, t) -> 0 <= position <= zlen content -> zlen content < 2 ^ 32 ->
  bytes content -> has_room (se_response s) 16100 -> 0 <= t < 2 ^ 64 ->
  tm_ok (gmtime_r lib (t / 1000)) -> timegm lib (gmtime_r lib (t / 1000)) = t / 1000 ->
  bytes filename -> Forall (fun c => c <> 0) filename -> zlen filename <= 100 -> has_room transmit 150 ->
  0 <= openId < 2 ^ 32 -> 0 <= readId < 2 ^ 32 ->
  exists s1 s2,
    exchange w codec lib listener (S (S (S (S fuel)))) transmit (MmsConnection_fileOpen lib (S (S cfuel)) filename position) openId s es
      = Done (Some (ResultFile (mkFileOpened (Some id) (mkFileAttributes (Some (zlen content)) (Some t))), MMS_ERROR_NONE), s1, es) /\
    read_file w codec lib listener (S (S cfuel)) (S (length content)) transmit id readId s1 es
      = Done (Some (take (Z.to_nat (zlen content - position)) content), s2, es).
Proof.
  intros Hlaw id Hid Hfree Hnone Hopen Hrest Hinfo Hpos Hsize Hb Hroom Ht Htm Hinv Hfb Hfz Hfl Htr Hoid Hrid.
  destruct (exchange_open w codec lib listener remaining fuel cfuel transmit s es openId filename position content h files1 t i f
    Hid Hfree Hnone Hopen Hrest Hinfo Hpos Hsize Hb Hroom Ht Htm Hinv Hfb Hfz Hfl Htr Hoid) as (s1 & E1 & Ht1).
  destruct (read_file_left w codec lib listener remaining Hlaw (S (length content)) cfuel transmit s1 es id _ readId Ht1 Hid Hrid Htr) as (s2 & E2);
    [rewrite length_take; lia|].
  exists s1, s2. split; [exact E1|exact E2].
Qed.

(** The file of ten characters. *)
Lemma client_reads_file_witness : exists s1 s2,
  exchange demo_world (demo_codec OtherPdu) minute_time None 4 (ByteBuffer_create 16100)
    (MmsConnection_fileOpen minute_time 2 (lit "a.txt") 0) 7 (demo_service demo_files demo_server) []
    = Done (Some (ResultFile (mkFileOpened (Some 0) (mkFileAttributes (Some 10) (Some 42007))), MMS_ERROR_NONE), s1, []) /\
  read_file demo_world (demo_codec OtherPdu) minute_time None 2 11 (ByteBuffer_create 16100) 0 8 s1 []
    = Done (Some (lit "abcdefghij"), s2, []).
Proof.
  refine (client_reads_file demo_world (demo_codec OtherPdu) minute_time None mf_rest 0 0 (ByteBuffer_create 16100)
    (demo_service demo_files demo_server) [] 7 8 (lit "a.txt") 0 (lit "abcdefghij") 1
    (mkFiles (mf_files demo_files) [(1, lit "abcdefghij")]) 42007 0 (mkFrsm 0 0 0 None) memory_read_law _ _ _ _ _ _ _ _ _ _ _ _ _ _ _ _ _ _ _).
  - cbn. lia.
  - vm_compute. reflexivity.
  - vm_compute. reflexivity.
  - vm_compute. reflexivity.
  - vm_compute. reflexivity.
  - vm_compute. reflexivity.
  - vm_compute. split; discriminate.
  - vm_compute. reflexivity.
  - repeat constructor; unfold is_byte; lia.
  - unfold has_room. cbn. split; [lia|]. vm_compute. discriminate.
  - lia.
  - vm_compute. repeat split; discriminate.
  - vm_compute. reflexivity.
  - repeat constructor; unfold is_byte; lia.
  - repeat constructor; discriminate.
  - vm_compute. discriminate.
  - unfold has_room. cbn. split; [lia|]. vm_compute. discriminate.
  - lia.
  - lia.
Defined.
