(* ===== verification/MmsNameListFacts.v ===== *)
(** Names and types: the server lists its names page by page, each name once; the client
    that asks for all of them gets them, and the type of each variable. *)
From Stdlib Require Import String.
From stdpp Require Import base tactics numbers option gmap list.
From S2P Require Import Prelude Memory Buffers BerDecode BerEncode MmsValue AccessResult Effects CString MmsTypeSpec ValueStore ServerState NameMapping SampleServer MmsPdu MmsData MmsService MmsNameList MmsAttributes Conversions MmsDispatch SampleService MmsReadFacts MmsFilesFacts MmsClientServices MmsClient MmsClientFiles.

(** * Comparing names *)

Lemma rd_mid pre c rest : rd (mk_ptr (pre ++ c :: rest) 0) (zlen pre) = Done c.
Proof.
  apply ld_lookup; [cbn; pose proof (zlen_nonneg pre); lia|]. cbn [p_mem p_base]. rewrite lookup_app_r by (unfold zlen; lia).
  by replace (Z.to_nat (0 + zlen pre) - length pre)%nat with 0%nat by (unfold zlen; lia).
Qed.

Lemma strcmp_at_spec s pre x : is_string s -> is_string x ->
  strcmp_at s (mk_ptr (pre ++ x ++ [0]) 0) (zlen pre) = Done (bool_decide (s = x)).
Proof.
  revert pre x. induction s as [|c s IH]; intros pre x Hs Hx; cbn [strcmp_at]; destruct x as [|b x]; cbn [app]; rewrite rd_mid; cbn [rbind].
  - done.
  - inversion Hx. zdec. done.
  - inversion Hs. zdec. done.
  - inversion Hs as [|? ? Hc Hs']. inversion Hx as [|? ? Hb Hx']. destruct (Z.eqb_spec b c) as [->|Hne].
    + specialize (IH (pre ++ [c]) x Hs' Hx'). rewrite zlen_app, <- app_assoc in IH. change (zlen [c]) with 1 in IH.
      cbn [app] in IH. rewrite IH. f_equal. apply bool_decide_ext. split; congruence.
    + by rewrite bool_decide_false by congruence.
Qed.

(** A name with its null byte, as the request leaves it. *)
Definition name_ptr (x : list Z) : ptr := mk_ptr (x ++ [0]) 0.

Lemma names_behind_spec before x after : Forall is_string (before ++ x :: after) -> x ∉ before ->
  names_behind (before ++ x :: after) (name_ptr x) = Done (Some after).
Proof.
  intros Hs Hx. assert (is_string x) as Hsx by (rewrite Forall_app, Forall_cons in Hs; tauto).
  induction before as [|y before IH]; cbn [app names_behind].
  - pose proof (strcmp_at_spec x [] x Hsx Hsx) as E. change (zlen []) with 0 in E. unfold name_ptr. cbn [app] in E. rewrite E.
    cbn [rbind]. by rewrite bool_decide_true.
  - cbn [app] in Hs. inversion Hs as [|? ? Hy Hs']. apply not_elem_of_cons in Hx as [Hne Hx].
    pose proof (strcmp_at_spec y [] x Hy Hsx) as E. change (zlen []) with 0 in E. unfold name_ptr at 1. cbn [app] in E. rewrite E.
    cbn [rbind]. rewrite bool_decide_false by congruence. by apply IH.
Qed.

(** * Pages *)

Definition names_size (names : list (list Z)) : Z := sum_list (map name_size names).

Lemma name_size_pos n : 0 < name_size n.
Proof. unfold name_size, BerEncoder_determineEncodedStringSize. pose proof (determineLengthSize_range (u32 (zlen n))). pose proof (zlen_nonneg n). lia. Qed.

Lemma fitting_spec names est max count more : fitting names est max = (count, more) ->
  (count <= length names)%nat /\ (est <= max -> est + names_size (take count names) <= max) /\
  (if more then exists n, names !! count = Some n /\ max < est + names_size (take count names) + name_size n else count = length names).
Proof.
  revert est count more. induction names as [|n names IH]; intros est count more; cbn [fitting].
  - intros [= <- <-]. unfold names_size. cbn. split_and!; [lia|lia|done].
  - cbv zeta. destruct (Z.ltb_spec max (est + name_size n)) as [Hlt|Hge].
    + intros [= <- <-]. change (names_size (take 0 (n :: names))) with 0. split_and!; [lia|lia|]. exists n. split; [done|lia].
    + destruct (fitting names (est + name_size n) max) as [c m] eqn:E. intros [= <- <-].
      destruct (IH _ _ _ E) as (H1 & H2 & H3). cbn [take]. unfold names_size in *. cbn [map sum_list foldr length] in *. unfold sum_list in *.
      split_and!; [lia|intros; specialize (H2 Hge); lia|]. destruct m; [|lia]. destruct H3 as (x & Hx & Hl). exists x. split; [done|lia].
Qed.

(** The reference: the pages of the names. *)
Fixpoint pages (fuel : nat) (maxPduSize : Z) (names : list (list Z)) : list (list (list Z)) :=
  match fuel with
  | O => []
  | S fuel =>
      let '(count, more) := fitting names ESTIMATED_OVERHEAD maxPduSize in
      take count names :: if more then pages fuel maxPduSize (drop count names) else []
  end.

Definition name_pages (maxPduSize : Z) (names : list (list Z)) : list (list (list Z)) := pages (S (length names)) maxPduSize names.

(** * One answer *)

Definition names_bytes (names : list (list Z)) : list Z := concat (map (fun n => tlv (0x1a, n)) names).

Definition name_list_content (names : list (list Z)) (more : bool) : list Z :=
  tlv (0xa0, names_bytes names) ++ if more then [] else tlv (0x81, [0]).

Definition name_list_answer (invokeId : Z) (names : list (list Z)) (more : bool) : list Z :=
  answer_bytes invokeId (tlv (0xa1, name_list_content names more)).

(** Names as the model has them. *)
Definition name_ok (n : list Z) : Prop := is_string n /\ bytes n /\ zlen n < 65536.

Lemma name_size_tlv n : name_ok n -> name_size n = zlen (tlv (0x1a, n)).
Proof. intros (_ & _ & Hz). exact (encodedStringSize_tlv 0x1a (Some n) Hz). Qed.

Lemma names_size_bytes names : Forall name_ok names -> names_size names = zlen (names_bytes names).
Proof.
  unfold names_size, names_bytes. induction 1 as [|n names Hn _ IH]; [done|]. cbn [map sum_list foldr concat].
  rewrite zlen_app, <- name_size_tlv by done. unfold sum_list in IH. lia.
Qed.

Lemma emits_names names buffer pos : Forall name_ok names ->
  Emits buffer pos (encode_names names buffer pos) (pos + zlen (names_bytes names)) (names_bytes names).
Proof.
  unfold names_bytes. intros H. revert pos. induction H as [|n names (_ & Hb & Hz) _ IH]; intros pos; cbn [encode_names map concat].
  - eapply emits_eq; [apply emits_ret|by rewrite Z.add_0_r|done].
  - eapply emits_eq; [eapply emits_bind; [apply (emits_tlv_string 0x1a (Some n)); [done|done|by_eval]|apply IH|done]| |done].
    change (string_bytes (Some n)) with n. rewrite zlen_app. lia.
Qed.

Section Answer.
Context (invokeId : Z) (names : list (list Z)) (more : bool).
Context (Hnames : Forall name_ok names) (Hsize : zlen (names_bytes names) < 60000).

Local Abbreviation content := (name_list_content names more).

Lemma zlen_name_list_content : zlen content = zlen (tlv (0xa0, names_bytes names)) + if more then 0 else 3.
Proof using. unfold name_list_content. rewrite zlen_app. by destruct more. Qed.

(** The estimate of the head is enough. *)
Lemma zlen_name_list_answer : zlen (name_list_answer invokeId names more) <= ESTIMATED_OVERHEAD + zlen (names_bytes names).
Proof using Hsize.
  pose proof zlen_name_list_content as Hc. pose proof (zlen_invoke_bytes invokeId) as Hi. pose proof (zlen_uint32_bytes invokeId).
  unfold ESTIMATED_OVERHEAD, name_list_answer, answer_bytes. rewrite zlen_tlv. cbn [snd]. rewrite zlen_app. rewrite (zlen_tlv (0xa1, _)).
  cbn [snd]. rewrite zlen_tlv in Hc. cbn [snd] in Hc. pose proof (determineLengthSize_range) as R.
  match goal with |- 1 + BerEncoder_determineLengthSize ?x + _ <= _ => pose proof (R x) end.
  pose proof (R (zlen content)). pose proof (R (zlen (names_bytes names))). destruct more; lia.
Qed.

Lemma emits_name_list buffer :
  Emits buffer 0 (write_names invokeId (zlen (uint32_bytes invokeId)) (zlen (names_bytes names)) names more buffer 0)
    (zlen (name_list_answer invokeId names more)) (name_list_answer invokeId names more).
Proof using Hnames Hsize.
  pose proof zlen_name_list_content as Hc. pose proof (zlen_invoke_bytes invokeId) as Hi. pose proof (zlen_uint32_bytes invokeId).
  pose proof (zlen_nonneg (names_bytes names)). pose proof (zlen_tlv (0xa0, names_bytes names)) as Z0. cbn [snd] in Z0.
  pose proof (zlen_tlv (0xa1, content)) as Z1. cbn [snd] in Z1. pose proof (determineLengthSize_range) as R.
  pose proof (R (zlen content)). pose proof (R (zlen (names_bytes names))).
  assert (zlen content < 60010) as Hcz by (destruct more; lia).
  unfold write_names. rewrite (tl_size_tlv 0xa0) by lia. rewrite <- Hc. cbv zeta. rewrite (tl_size_tlv 0xa1) by lia.
  unfold name_list_answer. apply emits_answer; [lia|rewrite zlen_app; lia|]. intros p Hp.
  assert (is_byte 0xa1 /\ is_byte 0xa0) as [T1 T2] by by_eval. apply emits_element; [done|lia|done|].
  set (q := p + zlen (ber_tl 0xa1 (zlen content))).
  assert (zlen (answer_bytes invokeId (tlv (0xa1, content))) = q + zlen content) as ->.
  { unfold q. rewrite Hp. replace (zlen (tlv (0xa1, content)) + (zlen (uint32_bytes invokeId) + 2)) with (zlen (invoke_bytes invokeId ++ tlv (0xa1, content)))
      by (rewrite zlen_app; lia). rewrite !zlen_ber_tl_tlv by (rewrite ?zlen_app; lia). unfold answer_bytes. rewrite zlen_app. lia. }
  assert (content = ber_tl 0xa0 (zlen (names_bytes names)) ++ names_bytes names ++ (if more then [] else tlv (0x81, [0]))) as Ec
    by (unfold name_list_content; by rewrite app_assoc, ber_tl_tlv by (done || lia)).
  set (r := q + zlen (ber_tl 0xa0 (zlen (names_bytes names)))).
  assert (q + zlen content = r + zlen (names_bytes names) + if more then 0 else 3) as -> by (unfold r; rewrite zlen_ber_tl_tlv by lia; lia).
  rewrite Ec. apply (emits_bind _ _ r _ _ r); [apply emits_encodeTL| |done].
  apply (emits_bind _ _ (r + zlen (names_bytes names)) _ _ (r + zlen (names_bytes names))); [by apply emits_names| |done]. destruct more.
  - eapply emits_eq; [apply emits_ret|lia|done].
  - eapply emits_eq; [apply (emits_tlv_boolean 0x81 false); by_eval|reflexivity|done].
Qed.
End Answer.

(** * The theorem *)

Lemma names_bytes_size names max : Forall name_ok names -> ESTIMATED_OVERHEAD <= max -> max < 60000 ->
  forall count more, fitting names ESTIMATED_OVERHEAD max = (count, more) ->
  zlen (names_bytes (take count names)) < 60000 /\ ESTIMATED_OVERHEAD + zlen (names_bytes (take count names)) <= max.
Proof.
  intros Hn Hmax H6 count more Hf. destruct (fitting_spec _ _ _ _ _ Hf) as (_ & Hs & _). specialize (Hs Hmax).
  rewrite names_size_bytes in Hs by (by apply Forall_take). unfold ESTIMATED_OVERHEAD in *. lia.
Qed.

Section Page.
Context {FS : Type} (codec : AsnCodec) (invokeId : Z).
Implicit Types (s : Service FS) (es : list ServerEvent).

(** The answer to a request that begins behind the first names. *)
Lemma createNameListResponse_spec before rest s es count more start :
  start_names (before ++ rest) start = Done (Some rest) -> Forall name_ok rest ->
  let max := mc_maxPduSize (se_connection s) in
  ESTIMATED_OVERHEAD <= max -> max < 60000 -> has_room (se_response s) max ->
  Forall (fun n => ESTIMATED_OVERHEAD + name_size n <= max) rest ->
  fitting rest ESTIMATED_OVERHEAD max = (count, more) ->
  createNameListResponse codec invokeId (Some (before ++ rest)) start s es
    = Done (tt, se_set_response (respond (se_response s) (name_list_answer invokeId (take count rest) more)) s, es) /\
  zlen (name_list_answer invokeId (take count rest) more) <= max.
Proof.
  intros Hstart Hn max Hmax H6 Hr Hfits Hf. destruct (names_bytes_size _ _ Hn Hmax H6 _ _ Hf) as [Hz Hm].
  destruct (fitting_spec _ _ _ _ _ Hf) as (Hle & _ & Hmore).
  assert (Forall name_ok (take count rest)) as Hnt by (by apply Forall_take).
  pose proof (zlen_name_list_answer invokeId (take count rest) more Hz) as Ha. split; [|lia].
  unfold createNameListResponse. rewrite (bind_lift _ _ _ _ (before ++ rest)) by done. rewrite (bind_lift _ _ _ _ _ Hstart).
  unfold the_connection. rewrite bind_get. fold max. rewrite Hf. cbv zeta.
  rewrite (bind_lift _ _ _ _ _ (UInt32determineEncodedSize_spec invokeId)).
  fold (names_size (take count rest)). rewrite names_size_bytes by done.
  assert (encoded_names rest count = take count rest) as ->.
  { destruct count as [|count]; [|done]. destruct rest as [|n rest]; [done|]. exfalso. destruct more; [|done].
    destruct Hmore as (x & [= <-] & Hlt). change (names_size (take 0 (n :: rest))) with 0 in Hlt. inversion Hfits. unfold ESTIMATED_OVERHEAD in *. lia. }
  apply encode_response_emits; [|unfold has_room in *; destruct (bb_buffer _); [lia|done]].
  intros buffer. by apply emits_name_list.
Qed.
End Page.

Lemma fitting_progress rest max count : Forall (fun n => ESTIMATED_OVERHEAD + name_size n <= max) rest ->
  fitting rest ESTIMATED_OVERHEAD max = (count, true) -> (0 < count < length rest)%nat.
Proof.
  intros Hfits Hf. destruct (fitting_spec _ _ _ _ _ Hf) as (Hle & _ & (n & Hn & Hlt)). split; [|by eapply lookup_lt_Some].
  destruct count as [|count]; [|lia]. rewrite Forall_lookup in Hfits. specialize (Hfits _ _ Hn).
  change (names_size (take 0 rest)) with 0 in Hlt. lia.
Qed.

Lemma pages_concat fuel max rest : Forall (fun n => ESTIMATED_OVERHEAD + name_size n <= max) rest -> (length rest < fuel)%nat ->
  concat (pages fuel max rest) = rest.
Proof.
  revert rest. induction fuel as [|fuel IH]; intros rest Hfits Hl; [lia|]. cbn [pages].
  destruct (fitting rest ESTIMATED_OVERHEAD max) as [count more] eqn:Hf. cbn [concat]. destruct more.
  - pose proof (fitting_progress _ _ _ Hfits Hf). rewrite IH; [apply take_drop|by apply Forall_drop|rewrite length_drop; lia].
  - destruct (fitting_spec _ _ _ _ _ Hf) as (_ & _ & ->). cbn [concat]. by rewrite firstn_all, app_nil_r.
Qed.

Lemma pages_split fuel max names before page after : Forall (fun n => ESTIMATED_OVERHEAD + name_size n <= max) names ->
  (length names < fuel)%nat -> pages fuel max names = before ++ page :: after ->
  exists rest count, names = concat before ++ rest /\ fitting rest ESTIMATED_OVERHEAD max = (count, negb (bool_decide (after = []))) /\
    page = take count rest.
Proof.
  revert names before. induction fuel as [|fuel IH]; intros names before Hfits Hl; [lia|]. cbn [pages].
  destruct (fitting names ESTIMATED_OVERHEAD max) as [count more] eqn:Hf. destruct before as [|b before]; cbn [app].
  - intros [= <- <-]. exists names, count. split; [done|]. split; [|done]. rewrite Hf. destruct more; [|done].
    pose proof (fitting_progress _ _ _ Hfits Hf) as Hp. destruct fuel as [|fuel]; [lia|]. cbn [pages].
    by destruct (fitting (drop count names) ESTIMATED_OVERHEAD max).
  - intros [= <- E]. destruct more; [|by destruct before]. pose proof (fitting_progress _ _ _ Hfits Hf) as Hp.
    destruct (IH (drop count names) before) as (rest & c & Hn & Hr & Hpage); [by apply Forall_drop|rewrite length_drop; lia|done|].
    exists rest, c. split; [|done]. cbn [concat]. by rewrite <- app_assoc, <- Hn, take_drop.
Qed.

(** What a client sends to go on behind the names that it has. *)
Definition behind (before : list (list Z)) : option ptr := name_ptr <$> last before.

Lemma start_behind before rest : Forall is_string (before ++ rest) -> NoDup (before ++ rest) ->
  start_names (before ++ rest) (behind before) = Done (Some rest).
Proof.
  intros Hs Hd. destruct before as [|x before _] using rev_ind; [done|]. unfold behind, start_names. rewrite last_snoc. cbn [fmap option_fmap option_map].
  rewrite <- app_assoc in *. cbn [app] in *. apply names_behind_spec; [done|]. apply NoDup_app in Hd as (_ & Hd & _).
  intros Hx. apply (Hd x Hx). by left.
Qed.


(** * The client *)

(** ** The request, as the ASN.1 code encodes it *)

Definition scope_bytes (scope : ObjectScope) : list Z :=
  match scope with
  | Scope_vmdSpecific => tlv (0x80, [])
  | Scope_domainSpecific domain => tlv (0x81, domain)
  | Scope_aaSpecific => tlv (0x82, [])
  end.

Definition continue_bytes (continueAfter : option (list Z)) : list Z :=
  match continueAfter with Some name => tlv (0x82, name) | None => [] end.

Definition name_list_parameters (r : GetNameListRequest) : list Z :=
  tlv (0xa0, tlv (0x80, gn_objectClass r)) ++ tlv (0xa1, scope_bytes (gn_objectScope r)) ++ continue_bytes (gn_continueAfter r).

Definition name_list_pdu (invokeId : list Z) (r : GetNameListRequest) : list Z :=
  tlv (0xa0, tlv (0x02, invokeId) ++ tlv (0xa1, name_list_parameters r)).

(** What DER says of these requests, as long as two octets are enough for their lengths. *)
Definition encodes_name_lists (codec : AsnCodec) : Prop :=
  forall invokeId r, zlen (name_list_pdu invokeId r) < 65536 ->
  encodes codec (ConfirmedRequestPdu invokeId (Request_getNameList r)) (name_list_pdu invokeId r).

(** The octets of a number are those that the own code writes. *)
Lemma asn_long2INTEGER_uint32 n : 0 <= n < 2 ^ 32 -> asn_long2INTEGER n = uint32_bytes n.
Proof.
  intros Hn. unfold asn_long2INTEGER, uint32_bytes. assert (le_bytes 8 n = le_bytes 4 n ++ [0; 0; 0; 0]) as ->.
  { change (le_bytes 8 n) with (le_bytes 4 n ++ le_bytes 4 (n / 256 / 256 / 256 / 256)). f_equal.
    by rewrite !Z.div_div, Z.div_small by lia. }
  rewrite rev_app_distr. cbn [rev app compress]. by cbn.
Qed.

Definition variables_request (domain : list Z) (continueAfter : option (list Z)) : GetNameListRequest :=
  mkGetNameListRequest (asn_long2INTEGER 0) (Scope_domainSpecific domain) continueAfter.

Definition short_name (n : list Z) : Prop := is_string n /\ zlen n <= 129.

Lemma zlen_continue_bytes continueAfter : (forall n, continueAfter = Some n -> zlen n <= 129) -> zlen (continue_bytes continueAfter) <= 133.
Proof.
  intros H. destruct continueAfter as [n|]; [|by vm_compute]. specialize (H n eq_refl). unfold continue_bytes.
  pose proof (zlen_tlv_range (0x82, n)) as R. cbn [snd] in R. lia.
Qed.

Section Request.
Context (domain : list Z) (continueAfter : option (list Z)).
Context (Hd : short_name domain) (Hc : forall n, continueAfter = Some n -> short_name n).

Local Abbreviation parameters := (name_list_parameters (variables_request domain continueAfter)).

Lemma zlen_parameters : zlen parameters <= 280.
Proof using Hd Hc.
  destruct Hd as [_ Hz]. pose proof (zlen_continue_bytes continueAfter (fun n E => proj2 (Hc n E))) as H.
  unfold name_list_parameters. cbn [gn_objectClass gn_objectScope gn_continueAfter variables_request scope_bytes].
  rewrite !zlen_app. change (zlen (tlv (0xa0, tlv (0x80, asn_long2INTEGER 0)))) with 5.
  pose proof (zlen_tlv_range (0x81, domain)) as R. pose proof (zlen_tlv_range (0xa1, tlv (0x81, domain))) as R2. cbn [snd] in *. lia.
Qed.

(** The server finds the class, the domain and the name to go on behind. *)
Lemma parse_variables_request fuel p start : holds p start parameters -> 0 <= start < 100 ->
  exists at_ field, ptr_add p at_ = fst field /\ snd field = zlen domain /\ holds p at_ domain /\
  exists after, match continueAfter with
    | Some n => exists q, after = Some (q, zlen n) /\ holds q 0 n
    | None => after = None
    end /\
  parse_nameList (S (S (S fuel))) p start (start + zlen parameters)
    = Done (Next (mkNameListRequest (start + zlen parameters) 0 OBJECT_SCOPE_DOMAIN (Some field) after)).
Proof using Hd Hc.
  intros Hh Hs. pose proof zlen_parameters as Hz. set (max := start + zlen parameters) in *.
  pose proof (zlen_nonneg parameters). destruct Hd as [_ Hdz]. pose proof (zlen_nonneg domain).
  unfold name_list_parameters in Hh. cbn [gn_objectClass gn_objectScope gn_continueAfter variables_request scope_bytes] in Hh.
  change (asn_long2INTEGER 0) with [0] in Hh.
  set (class := tlv (0xa0, tlv (0x80, [0]))) in *. set (scope := tlv (0xa1, tlv (0x81, domain))) in *. set (after := continue_bytes continueAfter) in *.
  assert (zlen parameters = 5 + zlen scope + zlen after) as Hsum.
  { unfold name_list_parameters. cbn [gn_objectClass gn_objectScope gn_continueAfter variables_request scope_bytes].
    rewrite !zlen_app. fold scope. fold after. change (asn_long2INTEGER 0) with [0]. fold class. change (zlen class) with 5. lia. }
  pose proof (zlen_nonneg after). pose proof (zlen_tlv_range (0x81, domain)) as R1. pose proof (zlen_tlv_range (0xa1, tlv (0x81, domain))) as R2.
  cbn [snd] in *. fold scope in R2.
  (* the class *)
  unfold class in Hh.
  destruct (holds_tlv p start (0xa0, tlv (0x80, [0])) (scope ++ after) max None Hh) as (T1 & L1 & C1 & Hh2 & E1);
    [by_eval|fold class; change (zlen class) with 5; lia|]. cbn [fst snd] in *. fold class in E1. change (zlen class) with 5 in E1.
  change (BerEncoder_determineLengthSize (zlen (tlv (0x80, [0])))) with 1 in *. change (zlen (tlv (0x80, [0]))) with 3 in *.
  unfold tlv in C1. cbn [fst snd] in C1. change (0x80 :: ber_len (zlen [0]) ++ [0]) with [0x80; 1; 0] in C1.
  apply holds_cons in C1 as [_ C1]. apply holds_cons in C1 as [Tl C1].
  (* the scope *)
  rewrite E1 in Hh2. unfold scope in Hh2.
  destruct (holds_tlv p (start + 5) (0xa1, tlv (0x81, domain)) after max None Hh2) as (T2 & L2 & C2 & Hh3 & E2); [cbn [snd]; lia|fold scope; lia|].
  cbn [fst snd] in *. fold scope in E2. set (at2 := start + 5 + 1 + BerEncoder_determineLengthSize (zlen (tlv (0x81, domain)))) in *.
  pose proof (determineLengthSize_range (zlen (tlv (0x81, domain)))) as D2.
  rewrite <- (app_nil_r (tlv (0x81, domain))) in C2.
  destruct (holds_tlv p at2 (0x81, domain) [] max (Some (zlen (tlv (0x81, domain)))) C2) as (T3 & L3 & C3 & _ & E3); [cbn [snd]; lia|lia|].
  cbn [fst snd] in *. set (at3 := at2 + 1 + BerEncoder_determineLengthSize (zlen domain)) in *.
  pose proof (determineLengthSize_range (zlen domain)) as D3.
  exists at3, (ptr_add p at3, zlen domain). do 3 (split; [done|]).
  assert (forall f, parse_nameList (S (S f)) p start max
    = while (fun r => nl_bufPos r <? max) (parse_nameList_body p max) f
        (mkNameListRequest (start + 5 + zlen scope) 0 OBJECT_SCOPE_DOMAIN (Some (ptr_add p at3, zlen domain)) None)) as Hloop.
  { intros f. unfold parse_nameList.
    rewrite (while_next _ _ _ _ (mkNameListRequest (start + 5) 0 (-1) None None)).
    - apply while_next; [cbn [nl_bufPos]; apply Z.ltb_lt; lia|].
      unfold parse_nameList_body. cbn [nl_bufPos nl_objectClass nl_objectScope nl_domainId nl_continueAfter].
      rewrite T2. cbn [rbind]. rewrite L2. cbn [rbind]. fold at2. destruct (Z.ltb_spec at2 0); [lia|]. cbn [defined rbind].
      change (0xa1 =? 0xa0) with false. change (0xa1 =? 0xa1) with true. cbv iota. rewrite T3. cbn [rbind]. rewrite L3. cbn [defined rbind].
      unfold nl_scope. change (0x81 =? 0x80) with false. change (0x81 =? 0x81) with true. cbv iota zeta. cbn [nl_objectClass nl_continueAfter].
      rewrite i32_end by lia. do 3 f_equal. lia.
    - cbn [nl_bufPos]. apply Z.ltb_lt. lia.
    - unfold parse_nameList_body. cbn [nl_bufPos nl_objectClass nl_objectScope nl_domainId nl_continueAfter].
      rewrite T1. cbn [rbind]. rewrite L1. cbn [rbind]. destruct (Z.ltb_spec (start + 1 + 1) 0); [lia|]. cbn [defined rbind].
      change (0xa0 =? 0xa0) with true. cbv iota. rewrite Tl. cbn [rbind].
      rewrite (decodeUint32_holds [0]) by (done || by replace (start + 1 + 1 + 2) with (start + 1 + 1 + 1 + 1) by lia).
      cbn [rbind]. change (i32 (u32 (be_val [0]))) with 0. do 3 f_equal. lia. }
  destruct continueAfter as [n|].
  - destruct (Hc n eq_refl) as [_ Hnz]. pose proof (zlen_nonneg n). unfold after, continue_bytes in Hh3. rewrite <- (app_nil_r (tlv (0x82, n))) in Hh3.
    rewrite E2 in Hh3.
    destruct (holds_tlv p (start + 5 + zlen scope) (0x82, n) [] max None Hh3) as (T4 & L4 & C4 & _ & E4); [cbn [snd]; lia|change (tlv (0x82, n)) with after; lia|].
    cbn [fst snd] in *. set (at4 := start + 5 + zlen scope + 1 + BerEncoder_determineLengthSize (zlen n)) in *.
    pose proof (determineLengthSize_range (zlen n)) as D4. change (tlv (0x82, n)) with after in E4.
    exists (Some (ptr_add p at4, zlen n)). split; [exists (ptr_add p at4); split; [done|by apply holds_ptr_add; rewrite Z.add_0_r]|].
    rewrite Hloop. rewrite (while_next _ _ _ _ (mkNameListRequest max 0 OBJECT_SCOPE_DOMAIN (Some (ptr_add p at3, zlen domain)) (Some (ptr_add p at4, zlen n)))).
    + apply while_false. cbn [nl_bufPos]. apply Z.ltb_irrefl.
    + cbn [nl_bufPos]. apply Z.ltb_lt. pose proof (zlen_tlv_range (0x82, n)) as R. change (tlv (0x82, n)) with after in R. cbn [snd] in R. lia.
    + unfold parse_nameList_body. cbn [nl_bufPos nl_objectClass nl_objectScope nl_domainId nl_continueAfter].
      rewrite T4. cbn [rbind]. rewrite L4. cbn [rbind]. fold at4. destruct (Z.ltb_spec at4 0); [lia|]. cbn [defined rbind].
      change (0x82 =? 0xa0) with false. change (0x82 =? 0xa1) with false. change (0x82 =? 0x82) with true. cbv iota.
      rewrite i32_end by lia. do 3 f_equal. lia.
  - exists None. split; [done|]. rewrite Hloop. change (zlen after) with 0 in *. rewrite while_false; [do 3 f_equal; lia|].
    cbn [nl_bufPos]. apply Z.ltb_ge. lia.
Qed.
End Request.

(** ** One exchange *)

Section Exchange.
Context {FS : Type} `{FileSystem FS} (w : World) (codec : AsnCodec) (lib : TimeLib).
Context (statusListener : option (MmsServerInfo -> bool -> MmsServerInfo)) (fuel : nat).
Context (transmit : ByteBuffer) (domain : list Z) (names : list (list Z)).
Context (Hcodec : encodes_name_lists codec).
Context (Htr : has_room transmit 400) (Htr0 : bb_size transmit = 0) (Htrm : 400 <= bb_maxSize transmit < 2 ^ 31).
Context (Hd : short_name domain) (Hnames : Forall name_ok names) (Hshort : Forall short_name names) (Hdup : NoDup names).
Implicit Types (s : Service FS) (es : list ServerEvent).

(** A server that has these names, and room for its answers. *)
Record lists_names s : Prop := {
  ln_names : getNameListDomainSpecific (se_server s) domain = Done (Some names);
  ln_overhead : ESTIMATED_OVERHEAD <= mc_maxPduSize (se_connection s);
  ln_max : mc_maxPduSize (se_connection s) < 60000;
  ln_room : has_room (se_response s) (mc_maxPduSize (se_connection s));
  ln_fits : Forall (fun n => ESTIMATED_OVERHEAD + name_size n <= mc_maxPduSize (se_connection s)) names }.

Lemma respond_room response bs n : has_room response (zlen bs) -> has_room response n -> has_room (respond response bs) n.
Proof.
  unfold has_room, respond. destruct (bb_buffer response) as [p|]; [|done]. cbn [bb_buffer p_mem p_base]. intros [? ?] [? ?].
  rewrite zlen_splice by lia. lia.
Qed.

Lemma last_short before rest n : names = before ++ rest -> last before = Some n -> short_name n /\ bytes n.
Proof.
  intros -> Hl. apply last_Some in Hl as [l ->]. rewrite <- app_assoc in *. cbn [app] in *.
  apply Forall_app in Hshort as [_ H1]. apply Forall_app in Hnames as [_ H2]. inversion H1. inversion H2 as [|? ? (_ & ? & _)]. done.
Qed.

Lemma answer_variables before rest count more s es invokeId p start p0 at_ field after :
  names = before ++ rest -> lists_names s ->
  fitting rest ESTIMATED_OVERHEAD (mc_maxPduSize (se_connection s)) = (count, more) ->
  ptr_add p0 at_ = fst field -> snd field = zlen domain -> holds p0 at_ domain ->
  match last before with Some n => exists q, after = Some (q, zlen n) /\ holds q 0 n | None => after = None end ->
  parse_nameList fuel p start (start + zlen (name_list_parameters (variables_request domain (last before))))
    = Done (Next (mkNameListRequest (start + zlen (name_list_parameters (variables_request domain (last before)))) 0 OBJECT_SCOPE_DOMAIN (Some field) after)) ->
  mmsServer_handleGetNameListRequest codec fuel p start (start + zlen (name_list_parameters (variables_request domain (last before)))) invokeId s es
    = Done (tt, se_set_response (respond (se_response s) (name_list_answer invokeId (take count rest) more)) s, es) /\
  zlen (name_list_answer invokeId (take count rest) more) <= mc_maxPduSize (se_connection s).
Proof using Hd Hnames Hshort Hdup.
  intros E Hln Hf Hfield Hlen Hdom Hafter Hparse. destruct Hln as [L1 L2 L3 L4 L5].
  pose proof Hnames as Hnb. pose proof Hdup as Hdb. rewrite E in Hnb, Hdb, L5.
  assert (start_names (before ++ rest) (behind before) = Done (Some rest)) as Hstart.
  { apply start_behind; [|done]. eapply Forall_impl; [exact Hnb|]. by intros n (? & _). }
  apply Forall_app in Hnb as [_ Hnr]. apply Forall_app in L5 as L6. destruct L6 as [_ L6].
  destruct (createNameListResponse_spec codec invokeId before rest s es count more (behind before) Hstart Hnr L2 L3 L4 L6 Hf) as [Hr Hz].
  split; [|done]. rewrite <- Hr. unfold mmsServer_handleGetNameListRequest. rewrite (bind_lift _ _ _ _ _ Hparse).
  unfold answer_nameList. cbv zeta. cbn [nl_continueAfter nl_objectScope nl_domainId nl_objectClass].
  rewrite (bind_lift _ _ _ _ (behind before)).
  2: { unfold behind. destruct (last before) as [n|] eqn:El; [|by rewrite Hafter].
       destruct Hafter as (q & -> & Hq). destruct (last_short before rest n E El) as [[_ Hz1] _]. cbn [fmap option_fmap option_map].
       unfold copy_name. rewrite (holds_rd_list _ _ n) by done. cbn [rbind]. destruct (Z.ltb_spec 129 (zlen n)); [lia|done]. }
  unfold the_server. rewrite bind_get. change (OBJECT_SCOPE_DOMAIN =? OBJECT_SCOPE_DOMAIN) with true. cbv iota.
  rewrite (bind_lift _ _ _ _ field) by done. rewrite (bind_lift _ _ _ _ domain).
  2: { destruct field as [q n]. cbn in Hfield, Hlen. subst q n. unfold copy_name.
       rewrite (holds_rd_list _ _ domain) by (by rewrite ?holds_ptr_add, ?Z.add_0_r). cbn [rbind].
       destruct Hd as [_ Hdz]. destruct (Z.ltb_spec 129 (zlen domain)); [lia|done]. }
  change (0 =? OBJECT_CLASS_NAMED_VARIABLE) with true. cbv iota.
  assert (c_chars domain = domain) as ->.
  { destruct Hd as [Hds _]. rewrite <- (app_nil_r domain) at 1. rewrite c_chars_nonzero by done. cbn. by rewrite app_nil_r. }
  by rewrite (bind_lift _ _ _ _ _ L1), E.
Qed.
End Exchange.
(** ** The answer, as the client parses it *)

Lemma tagged_element_holds p pos e rest max : holds p pos (tlv e ++ rest) -> 0 <= pos -> zlen (snd e) < 65536 ->
  pos + zlen (tlv e) <= max -> max < 2 ^ 31 ->
  exists at_, tagged_element (fst e) p pos max = Done (Some (at_, zlen (snd e))) /\ holds p at_ (snd e) /\
    at_ + zlen (snd e) = pos + zlen (tlv e) /\ i32 (at_ + zlen (snd e)) = pos + zlen (tlv e) /\ pos < at_ /\ holds p (pos + zlen (tlv e)) rest.
Proof.
  intros Hh Hp Hz Hm H31. destruct (element_holds p pos e rest max None Hh Hp Hz Hm H31) as (at_ & E1 & C & B & E & Hlt & R).
  pose proof (zlen_nonneg (snd e)). exists at_. split; [|rewrite i32_end by lia; done].
  unfold tagged_element. unfold next_element in E1. destruct (rd p pos) as [t| | |]; cbn [rbind] in *; [|done..].
  destruct (BerDecoder_decodeLength _ _ _ _) as [[q l]| | |]; cbn [rbind] in *; [|done..]. injection E1 as -> -> ->.
  rewrite Z.eqb_refl. cbn [negb]. destruct (Z.ltb_spec at_ 0); [lia|done].
Qed.

Lemma parse_names_loop p max names fuel pos acc rest : Forall name_ok names -> holds p pos (names_bytes names ++ rest) -> 0 <= pos ->
  pos + zlen (names_bytes names) <= max -> max < 2 ^ 31 -> (length names <= fuel)%nat ->
  while (fun s => fst s <? pos + zlen (names_bytes names)) (parseGetNameListResponse_body p max) fuel (pos, acc)
    = Done (Next (pos + zlen (names_bytes names), acc ++ names)).
Proof.
  intros Hn. revert fuel pos acc. induction Hn as [|n names (Hs & Hb & Hz) _ IH]; intros fuel pos acc Hh Hp Hm H31 Hf.
  - change (zlen (names_bytes [])) with 0. rewrite app_nil_r, Z.add_0_r. apply while_false. apply Z.ltb_irrefl.
  - unfold names_bytes in *. cbn [map concat] in *. rewrite zlen_app in *. rewrite <- app_assoc in Hh. pose proof (zlen_nonneg (concat (map (fun n => tlv (26, n)) names))).
    destruct (tagged_element_holds p pos (0x1a, n) _ max Hh) as (at_ & E1 & C & _ & B & Hlt & R); [lia|cbn [snd]; lia|lia|lia|]. cbn [fst snd] in *.
    destruct fuel as [|fuel]; [cbn in Hf; lia|]. pose proof (zlen_nonneg (tlv (0x1a, n))).
    rewrite (while_next _ _ _ _ (pos + zlen (tlv (0x1a, n)), acc ++ [n])).
    + rewrite Z.add_assoc, IH by (done || (cbn in Hf; lia)). by rewrite <- app_assoc.
    + cbn [fst]. apply Z.ltb_lt. pose proof (zlen_tlv_range (0x1a, n)) as Rn. pose proof (zlen_nonneg n). cbn [snd] in Rn. lia.
    + unfold parseGetNameListResponse_body. rewrite E1. cbn [rbind]. rewrite (holds_rd_list _ _ n) by done. cbn [rbind].
      rewrite <- (app_nil_r n) at 2. rewrite c_chars_nonzero by done. rewrite B. cbn. by rewrite app_nil_r.
Qed.

(** Where more follows nothing is said; the client takes that for true. *)
Lemma parse_name_list_answer p invokeId names more fuel nameList before :
  let bs := name_list_answer invokeId names more in
  holds p 0 bs -> Forall name_ok names -> zlen bs < 60000 -> (length names <= fuel)%nat ->
  nameList = NoNames /\ before = [] \/ nameList = Names before ->
  mmsClient_parseGetNameListResponse fuel p (zlen bs) nameList = Done (more, Names (before ++ names)).
Proof.
  intros bs Hh Hn Hz Hf Hl. unfold mmsClient_parseGetNameListResponse.
  assert ((match nameList with NoNames => Done [] | Names names => Done names | FreedNames => Ub end : res (list (list Z))) = Done before) as El
    by (destruct Hl as [[-> ->]| ->]; done).
  set (service := tlv (0xa1, name_list_content names more)) in *.
  assert (bs = tlv (0xa1, invoke_bytes invokeId ++ service)) as Ebs by done.
  pose proof (zlen_tlv_range (0xa1, invoke_bytes invokeId ++ service)) as R0. cbn [snd] in R0. rewrite <- Ebs, zlen_app in R0.
  pose proof (zlen_tlv_range (0xa1, name_list_content names more)) as R1. cbn [snd] in R1. fold service in R1.
  pose proof (zlen_name_list_content names more) as Hc. pose proof (zlen_tlv_range (0xa0, names_bytes names)) as R2. cbn [snd] in R2.
  pose proof (zlen_nonneg (invoke_bytes invokeId)). pose proof (zlen_nonneg (names_bytes names)). pose proof (zlen_uint32_bytes invokeId).
  pose proof (zlen_invoke_bytes invokeId) as Hi.
  rewrite Ebs, <- (app_nil_r (tlv _)) in Hh.
  destruct (tagged_element_holds p 0 (0xa1, invoke_bytes invokeId ++ service) [] (zlen bs) Hh) as (q1 & T1 & C1 & B1 & I1 & L1 & _);
    [lia|cbn [snd]; rewrite zlen_app; destruct more; lia|rewrite <- Ebs; lia|lia|]. cbn [fst snd] in *. rewrite <- Ebs, Z.add_0_l, zlen_app in B1.
  destruct (tagged_element_holds p q1 (0x02, uint32_bytes invokeId) service (zlen bs) C1) as (q2 & T2 & C2 & B2 & I2 & L2 & C2');
    [lia|cbn [snd]; lia|change (tlv (2, uint32_bytes invokeId)) with (invoke_bytes invokeId); destruct more; lia|lia|]. cbn [fst snd] in *.
  change (tlv (2, uint32_bytes invokeId)) with (invoke_bytes invokeId) in *.
  unfold service in C2'. rewrite <- (app_nil_r (tlv _)) in C2'.
  destruct (tagged_element_holds p _ (0xa1, name_list_content names more) [] (zlen bs) C2') as (q3 & T3 & C3 & B3 & I3 & L3 & _);
    [lia|cbn [snd]; destruct more; lia|fold service; lia|lia|]. cbn [fst snd] in *. fold service in B3.
  unfold name_list_content in C3.
  destruct (tagged_element_holds p q3 (0xa0, names_bytes names) _ (zlen bs) C3) as (q4 & T4 & C4 & B4 & I4 & L4 & C5);
    [lia|cbn [snd]; destruct more; lia|destruct more; lia|lia|]. cbn [fst snd] in *.
  assert (name_list_range p (zlen bs) = Done (Some (q4, q4 + zlen (names_bytes names)))) as Er.
  { unfold name_list_range. rewrite T1. cbn [rbind]. rewrite T2. cbn [rbind]. rewrite I2, T3. cbn [rbind]. rewrite T4. cbn [rbind].
    rewrite I4, <- B4. destruct (Z.ltb_spec (zlen bs) (q4 + zlen (names_bytes names))); [destruct more; lia|done]. }
  rewrite Er. cbn [rbind]. rewrite El. cbn [rbind].
  rewrite <- (app_nil_r (names_bytes names)) in C4. rewrite (parse_names_loop p _ names fuel q4 before []) by (done || (destruct more; lia)).
  cbn [rbind]. rewrite B4. unfold parse_moreFollows. destruct more.
  - destruct (Z.ltb_spec (q3 + zlen (tlv (160, names_bytes names))) (zlen bs)); [lia|done].
  - destruct (Z.ltb_spec (q3 + zlen (tlv (160, names_bytes names))) (zlen bs)); [|lia].
    rewrite <- (app_nil_r (tlv (0x81, _))) in C5.
    destruct (tagged_element_holds p _ (0x81, [0]) [] (zlen bs) C5) as (q5 & T5 & C6 & _); [lia|by_eval|change (zlen (tlv (0x81, [0]))) with 3; lia|lia|].
    cbn [fst snd] in *. rewrite T5. cbn [rbind]. change (zlen [0] =? 1) with true. cbn [negb]. cbv iota.
    apply holds_cons in C6 as [Tb _]. by rewrite Tb.
Qed.

(** ** The call *)

Section Call.
Context {FS : Type} `{FileSystem FS} (w : World) (codec : AsnCodec) (lib : TimeLib).
Context (statusListener : option (MmsServerInfo -> bool -> MmsServerInfo)) (fuel : nat).
Context (transmit : ByteBuffer) (domain : list Z) (names : list (list Z)).
Context (Hcodec : encodes_name_lists codec).
Context (Htr : has_room transmit 400) (Htr0 : bb_size transmit = 0) (Htrm : 400 <= bb_maxSize transmit < 2 ^ 31).
Context (Hd : short_name domain) (Hnames : Forall name_ok names) (Hshort : Forall short_name names) (Hdup : NoDup names).
Implicit Types (s : Service FS) (es : list ServerEvent).

Local Abbreviation parameters before := (name_list_parameters (variables_request domain (last before))).

Lemma variables_request_bytes before rest invokeId : names = before ++ rest -> 0 <= invokeId < 2 ^ 32 ->
  let bs := request_bytes invokeId (tlv (0xa1, parameters before)) in
  zlen (parameters before) <= 280 /\ zlen bs <= 400 /\
  mmsClient_createGetNameListRequestDomainOrVMDSpecific codec (Some domain) MMS_NAMED_VARIABLE (last before) invokeId transmit
    = Done (respond transmit bs).
Proof using Hcodec Htr Htr0 Htrm Hd Hnames Hshort Hdup.
  intros E Hid bs. pose proof (zlen_parameters domain (last before) Hd (fun n El => proj1 (last_short names Hnames Hshort Hdup before rest n E El))) as Hz.
  pose proof (zlen_uint32_bytes invokeId). pose proof (zlen_invoke_bytes invokeId).
  assert (zlen bs <= 400) as Hbs.
  { unfold bs, request_bytes. pose proof (zlen_tlv_range (0xa1, parameters before)) as R1.
    pose proof (zlen_tlv_range (0xa0, invoke_bytes invokeId ++ tlv (0xa1, parameters before))) as R2. cbn [snd] in *. rewrite zlen_app in R2. lia. }
  split; [done|]. split; [done|]. apply encode_pdu_fits; [|done| |lia].
  - assert (name_list_pdu (asn_long2INTEGER invokeId) (variables_request domain (last before)) = bs) as Ebs
      by (unfold name_list_pdu; by rewrite asn_long2INTEGER_uint32).
    rewrite <- Ebs. apply Hcodec. rewrite Ebs. lia.
  - unfold has_room in *. destruct (bb_buffer transmit); [lia|done].
Qed.

Context (cfuel : nat) (Hcfuel : (length names <= cfuel)%nat).

Lemma exchange_names before rest count more s es invokeId nameList :
  names = before ++ rest -> lists_names domain names s ->
  fitting rest ESTIMATED_OVERHEAD (mc_maxPduSize (se_connection s)) = (count, more) ->
  nameList = NoNames /\ before = [] \/ nameList = Names before -> 0 <= invokeId < 2 ^ 32 ->
  exists s', exchange w codec lib statusListener (S (S (S (S (S fuel))))) transmit
      (mmsClient_getNameListSingleRequest codec cfuel nameList (Some domain) MMS_NAMED_VARIABLE false (last before)) invokeId s es
    = Done (Some (ResultNames (Names (before ++ take count rest)) more, MMS_ERROR_NONE), s', es) /\
    lists_names domain names s' /\ mc_maxPduSize (se_connection s') = mc_maxPduSize (se_connection s).
Proof using All.
  intros E Hln Hf Hl Hid. destruct (variables_request_bytes before rest invokeId E Hid) as (Hz & Hbs & Hreq).
  set (request := request_bytes invokeId (tlv (0xa1, parameters before))) in *.
  assert (has_room transmit (zlen request)) as Hrr by (unfold has_room in *; destruct (bb_buffer transmit); [lia|done]).
  destruct (holds_respond transmit request Hrr) as (p & Hbuf & Hs & Hh).
  assert (lists_names domain names (with_invokeId invokeId s)) as Hln' by (destruct Hln; by constructor).
  set (answer := name_list_answer invokeId (take count rest) more).
  set (s' := se_set_response (respond (se_response s) answer) (with_invokeId invokeId s)).
  assert (forall start, holds p start (parameters before) -> 0 <= start < 100 ->
    serve w codec lib statusListener (S (S (S fuel))) p None 0xa1 (zlen (parameters before)) start invokeId (with_invokeId invokeId s) es = Done (true, s', es)) as Hserve.
  { intros start C Hst. unfold serve, service. change (0xa1 =? 0x80) with false. change (0xa1 =? 0xa1) with true. cbv iota zeta.
    pose proof (zlen_nonneg (parameters before)). rewrite i32_end by lia.
    destruct (parse_variables_request domain (last before) Hd (fun n El => proj1 (last_short names Hnames Hshort Hdup before rest n E El)) fuel p start C Hst)
      as (at_ & field & F1 & F2 & F3 & after & F4 & F5).
    destruct (answer_variables codec (S (S (S fuel))) domain names Hd Hnames Hshort Hdup before rest count more (with_invokeId invokeId s) es invokeId
      p start p at_ field after E Hln' Hf F1 F2 F3 F4 F5) as [Hr _]. unfold served. by rewrite (bind_run _ _ _ _ _ _ _ Hr). }
  destruct Hln as [L1 L2 L3 L4 L5].
  assert (Forall name_ok rest) as Hnr by (rewrite E, Forall_app in Hnames; tauto).
  destruct (names_bytes_size _ _ Hnr L2 L3 _ _ Hf) as [Hnz Hnm]. pose proof (zlen_name_list_answer invokeId (take count rest) more Hnz) as Ha.
  fold answer in Ha. assert (zlen (tlv (0xa1, name_list_content (take count rest) more)) <= zlen answer) as Hsz.
  { pose proof (tlv_longer (0xa1, invoke_bytes invokeId ++ tlv (161, name_list_content (take count rest) more))) as Hlong. cbn [snd] in Hlong.
    change (tlv (0xa1, invoke_bytes invokeId ++ _)) with answer in Hlong. rewrite zlen_app in Hlong. pose proof (zlen_nonneg (invoke_bytes invokeId)). lia. }
  assert (has_room (se_response s) (zlen answer)) as Hra by (unfold has_room in *; destruct (bb_buffer (se_response s)); [lia|done]).
  exists s'. split; [|split; [constructor; try done; by apply respond_room|done]].
  apply (exchange_answered w codec lib statusListener _ _ _ _ _ _ (respond transmit request) _ _ (tlv (0xa1, name_list_content (take count rest) more))); try done; [lia| |].
  - apply (parse_request w codec lib statusListener (S (S (S fuel))) (respond transmit request) p invokeId None 0xa1 (parameters before)); try done; try lia.
  - intros q start Hq _ _ ->. cbn [call_answer mmsClient_getNameListSingleRequest].
    change (answer_bytes invokeId _) with answer.
    pose proof (parse_name_list_answer q invokeId (take count rest) more cfuel nameList before) as Hp. cbv zeta in Hp. fold answer in Hp.
    rewrite Hp; try done; clear Hp.
    + by apply Forall_take.
    + lia.
    + rewrite length_take. rewrite E, length_app in Hcfuel. lia.
Qed.
End Call.

(** * The type of a variable *)

(** ** There and back *)

Definition in32 (n : Z) : bool := (- 2 ^ 31 <=? n) && (n <? 2 ^ 31).

Definition simple_transmissible (t : uMmsTypeSpecification) : bool :=
  match t with
  | T_BOOLEAN | T_UTC_TIME => true
  | T_INTEGER n | T_UNSIGNED n | T_BIT_STRING n | T_OCTET_STRING n | T_VISIBLE_STRING n | T_STRING n => in32 n
  | T_FLOAT exponentWidth formatWidth => bool_decide (is_byte exponentWidth /\ is_byte formatWidth)
  | T_BINARY_TIME n => (n =? 4) || (n =? 6)
  | T_OTHER _ => false
  end.

Definition is_named (t : MmsVariableSpecification) : bool :=
  match spec_name t with Some name => bool_decide (is_string name) | None => false end.

(** Numbers as wide as the fields that hold them, and names for all members. *)
Fixpoint transmissible (t : MmsVariableSpecification) : bool :=
  match t with
  | SpecSimple _ t => simple_transmissible t
  | SpecArray _ elementCount elementTypeSpec => in32 elementCount && transmissible elementTypeSpec
  | SpecStructure _ elements => forallb (fun e => is_named e && transmissible e) elements
  end.

(** The names that are not those of members are lost. *)
Fixpoint received_type (t : MmsVariableSpecification) : MmsVariableSpecification :=
  match t with
  | SpecSimple _ t => SpecSimple None t
  | SpecArray _ elementCount elementTypeSpec => SpecArray None elementCount (received_type elementTypeSpec)
  | SpecStructure _ elements => SpecStructure None (map (fun e => set_spec_name (spec_name e) (received_type e)) elements)
  end.

Lemma in32_spec n : in32 n = true -> i32 n = n /\ - 2 ^ 63 <= n < 2 ^ 63.
Proof. unfold in32. rewrite andb_true_iff, Z.leb_le, Z.ltb_lt. intros ?. rewrite i32_small by lia. lia. Qed.

Lemma simple_type_roundtrip t : simple_transmissible t = true ->
  client_createTypeSpecification (u_typeSpecification t) = Done (SpecSimple None t).
Proof.
  destruct t as [|n|n|e f|n|n|n|n| |n|m]; cbn; intros H; try (apply in32_spec in H as [-> _]); try done.
  - apply bool_decide_eq_true in H as [He Hf]. by rewrite !u8_small.
  - apply orb_true_iff in H as [->%Z.eqb_eq| ->%Z.eqb_eq]; reflexivity.
Qed.

(** What the server makes of a type, the client understands. *)
Lemma type_roundtrip v : transmissible v = true ->
  exists t, createTypeSpecification v = Done t /\ client_createTypeSpecification t = Done (received_type v).
Proof.
  induction v as [n t|n k v IH|n vs IH] using spec_induction; cbn [transmissible createTypeSpecification received_type].
  - intros H. eexists. split; [done|by apply simple_type_roundtrip].
  - intros [Hk Hv]%andb_true_iff. destruct (IH Hv) as (t & Et & Ec). destruct (in32_spec _ Hk) as [Ek Hk'].
    rewrite Et. cbn [rbind]. eexists. split; [done|]. cbn [client_createTypeSpecification]. rewrite asn_INTEGER_roundtrip by done.
    cbn [defined rbind]. by rewrite Ec, Ek.
  - intros H. cut (exists components,
      (fix each_element (es : list MmsVariableSpecification) : res (list (option (list Z) * TypeSpecification)) :=
          match es with
          | [] => Done []
          | e :: es =>
              let! name := defined (spec_name e) in
              let! t := createTypeSpecification e in
              let! rest := each_element es in
              Done ((Some name, t) :: rest)
          end) vs = Done components /\
      (fix each_component (components : list (option (list Z) * TypeSpecification)) : res (list MmsVariableSpecification) :=
          match components with
          | [] => Done []
          | (name, componentType) :: components =>
              let! name := defined name in
              let! element := client_createTypeSpecification componentType in
              let! elements := each_component components in
              Done (set_spec_name (Some (c_chars name)) element :: elements)
          end) components = Done (map (fun e => set_spec_name (spec_name e) (received_type e)) vs)).
    { intros (components & E1 & E2). eexists. rewrite E1. split; [done|]. cbn [client_createTypeSpecification]. by rewrite E2. }
    induction IH as [|v vs Hv _ IHvs]; [by exists []|]. cbn [forallb] in H. apply andb_true_iff in H as [[Hn Ht]%andb_true_iff Hvs].
    destruct (IHvs Hvs) as (components & E1 & E2). destruct (Hv Ht) as (t & Et & Ec).
    unfold is_named in Hn. destruct (spec_name v) as [name|] eqn:En; [|done]. apply bool_decide_eq_true in Hn.
    exists ((Some name, t) :: components). cbn [defined rbind]. rewrite Et. cbn [rbind]. rewrite E1. split; [done|]. rewrite Ec. cbn [rbind]. rewrite E2. cbn [rbind map].
    rewrite <- (app_nil_r name) at 1. rewrite c_chars_nonzero by done. rewrite En. cbn. by rewrite app_nil_r.
Qed.

(** ** Through the ASN.1 code *)

Definition attributes_parameters (domain item : list Z) : list Z :=
  tlv (0xa0, tlv (0xa1, tlv (0x1a, domain) ++ tlv (0x1a, item))).

Definition attributes_answer (invokeId : Z) (t : TypeSpecification) : MmsPdu :=
  mmsServer_createConfirmedResponse invokeId (Response_getVariableAccessAttributes false t).

(** What is needed of the ASN.1 code for a request and its answer: the request is written as
    DER says, and found by the decoder; the answer, whose type is written as [content], is
    decoded to what was encoded. *)
Record describes_type (codec : AsnCodec) (domain item : list Z) (invokeId : Z) (t : TypeSpecification) (content : list Z) : Prop := {
  dt_request : encodes codec (ConfirmedRequestPdu (asn_long2INTEGER invokeId)
      (Request_getVariableAccessAttributes (Attributes_name (ObjectName_domainspecific domain item))))
    (request_bytes invokeId (tlv (0xa6, attributes_parameters domain item)));
  dt_attributes p start : holds p start (attributes_parameters domain item) ->
    ber_decode_attributes codec (ptr_add p start) (zlen (attributes_parameters domain item))
      = Some (Attributes_name (ObjectName_domainspecific domain item));
  dt_answer : encodes codec (attributes_answer invokeId t) (answer_bytes invokeId (tlv (0xa6, content)));
  dt_decode p : holds p 0 (answer_bytes invokeId (tlv (0xa6, content))) ->
    ber_decode_MmsPdu codec p (zlen (answer_bytes invokeId (tlv (0xa6, content)))) = Some (attributes_answer invokeId t) }.

Lemma der_encode_fits {FS} codec pdu (s : Service FS) es bs : encodes codec pdu bs -> bb_size (se_response s) = 0 ->
  has_room (se_response s) (zlen bs) -> zlen bs <= bb_maxSize (se_response s) < 2 ^ 31 ->
  der_encode codec pdu s es = Done (true, se_set_response (respond (se_response s) bs) s, es).
Proof.
  intros Hc Hs Hr Hm. unfold der_encode. destruct (bb_buffer (se_response s)) as [p|] eqn:Hp; [|by unfold has_room in Hr; rewrite Hp in Hr].
  by rewrite (append_encoded_fits _ _ _ p bs).
Qed.

(** * Properties *)

(** All names, page by page.  A client that asks for names and goes on behind the last
    one it got receives each name once, in their order: the pages together are the
    names, each answer says that more follow exactly if there is another page, none is
    longer than the PDU size that was negotiated, and each page with more to follow has a
    name. *)
Theorem name_list_complete {FS} codec invokeId names (s : Service FS) es :
  let max := mc_maxPduSize (se_connection s) in
  NoDup names -> Forall name_ok names -> ESTIMATED_OVERHEAD <= max -> max < 60000 -> has_room (se_response s) max ->
  Forall (fun n => ESTIMATED_OVERHEAD + name_size n <= max) names ->
  concat (name_pages max names) = names /\
  forall before page after, name_pages max names = before ++ page :: after ->
    let bs := name_list_answer invokeId page (negb (bool_decide (after = []))) in
    createNameListResponse codec invokeId (Some names) (behind (concat before)) s es
      = Done (tt, se_set_response (respond (se_response s) bs) s, es) /\
    zlen bs <= max /\ (after <> [] -> page <> []).
Proof.
  intros max Hd Hn Hmax H6 Hr Hfits. split; [apply pages_concat; [done|lia]|]. intros before page after E bs.
  destruct (pages_split _ _ _ _ _ _ Hfits (Nat.lt_succ_diag_r _) E) as (rest & count & -> & Hf & ->).
  apply Forall_app in Hn as Hn2. destruct Hn2 as [_ Hnr]. apply Forall_app in Hfits as Hf2. destruct Hf2 as [_ Hfr].
  destruct (createNameListResponse_spec codec invokeId (concat before) rest s es count (negb (bool_decide (after = [])))
    (behind (concat before))) as [H1 H2]; try done.
  - apply start_behind; [|done]. eapply Forall_impl; [exact Hn|]. by intros n (? & _).
  - split; [done|]. split; [done|]. intros Hne. rewrite bool_decide_false in Hf by done.
    pose proof (fitting_progress _ _ _ Hfr Hf). destruct rest as [|n rest]; [cbn in *; lia|]. destruct count; [lia|done].
Qed.

(** With 50 octets the three names need two pages. *)
Lemma name_list_complete_witness :
  let s := demo_service demo_files demo_server in
  let s := se_set_connection (mc_set_parameters 5 5 10 50 demo_association) s in
  let names := [lit "GGIO1"; lit "GGIO1$MX"; lit "GGIO1$ST"] in
  name_pages 50 names = [[lit "GGIO1"; lit "GGIO1$MX"]; [lit "GGIO1$ST"]] /\
  createNameListResponse (demo_codec OtherPdu) 7 (Some names) (Some (name_ptr (lit "GGIO1$MX"))) s []
    = Done (tt, se_set_response (respond (se_response s) (name_list_answer 7 [lit "GGIO1$ST"] false)) s, []).
Proof.
  intros s0 s names. split; [vm_compute; reflexivity|].
  assert (Forall name_ok names) as Hn by (repeat constructor; unfold is_byte; try lia; discriminate).
  refine (proj1 (proj2 (name_list_complete (demo_codec OtherPdu) 7 names s [] _ Hn _ _ _ _) [[lit "GGIO1"; lit "GGIO1$MX"]] [lit "GGIO1$ST"] [] _)).
  - apply (bool_decide_unpack _). vm_compute. exact I.
  - vm_compute. discriminate.
  - vm_compute. reflexivity.
  - unfold has_room. cbn. split; [lia|]. vm_compute. discriminate.
  - repeat constructor; vm_compute; discriminate.
  - vm_compute. reflexivity.
Defined.

Section AllNames.
Context {FS : Type} `{FileSystem FS} (w : World) (codec : AsnCodec) (lib : TimeLib).
Context (statusListener : option (MmsServerInfo -> bool -> MmsServerInfo)) (fuel cfuel : nat).
Context (transmit : ByteBuffer) (domain : list Z) (names : list (list Z)).
Context (Hcodec : encodes_name_lists codec).
Context (Htr : has_room transmit 400) (Htr0 : bb_size transmit = 0) (Htrm : 400 <= bb_maxSize transmit < 2 ^ 31).
Context (Hd : short_name domain) (Hnames : Forall (fun n => short_name n /\ bytes n) names) (Hdup : NoDup names).
Context (Hcfuel : (length names <= cfuel)%nat).
Implicit Types (s : Service FS) (es : list ServerEvent).

Local Abbreviation asks := (ask w codec lib statusListener (S (S (S (S (S fuel))))) transmit).

(** One call, behind the names that the client has. *)
Lemma ask_names before rest invokeId s es nameList : names = before ++ rest -> lists_names domain names s ->
  nameList = NoNames /\ before = [] \/ nameList = Names before ->
  exists invokeId' s' got left (more : bool), names = got ++ left /\ (if more then (0 < length left < length rest)%nat else left = []) /\
    asks (mmsClient_getNameListSingleRequest codec cfuel nameList (Some domain) MMS_NAMED_VARIABLE false (last before)) (invokeId, s, es)
      = Done (ResultNames (Names got) more, MMS_ERROR_NONE, (invokeId', s', es)) /\ lists_names domain names s'.
Proof using All.
  intros E Hln Hl. destruct (fitting rest ESTIMATED_OVERHEAD (mc_maxPduSize (se_connection s))) as [count more] eqn:Hf.
  assert (Forall name_ok names) as Hok by (eapply Forall_impl; [exact Hnames|]; intros n [[? ?] ?]; repeat split; auto; lia).
  assert (Forall short_name names) as Hsh by (eapply Forall_impl; [exact Hnames|]; by intros n [? _]).
  destruct (exchange_names w codec lib statusListener fuel transmit domain names Hcodec Htr Htr0 Htrm Hd Hok Hsh Hdup cfuel Hcfuel
    before rest count more s es (u32 (invokeId + 1)) nameList E Hln Hf Hl (u32_range _)) as (s' & Hx & Hln' & _).
  exists (u32 (invokeId + 1)), s', (before ++ take count rest), (drop count rest), more.
  split; [by rewrite <- app_assoc, take_drop|]. split; [|split; [|done]].
  - rewrite length_drop. destruct more.
    + pose proof (ln_fits _ _ _ Hln) as Hfits. rewrite E in Hfits. apply Forall_app in Hfits as [_ Hfits]. pose proof (fitting_progress _ _ _ Hfits Hf). lia.
    + destruct (fitting_spec _ _ _ _ _ Hf) as (_ & _ & ->). apply drop_all.
  - unfold ask. rewrite Hx. done.
Qed.

Lemma ask_more rounds got left (more : bool) invokeId s es : names = got ++ left -> (if more then (0 < length left <= rounds)%nat else left = []) ->
  lists_names domain names s ->
  exists st', request_more codec cfuel asks (Some domain) MMS_NAMED_VARIABLE false rounds (ResultNames (Names got) more) MMS_ERROR_NONE (invokeId, s, es)
    = Done (Names names, MMS_ERROR_NONE, st') /\ snd st' = es.
Proof using All.
  revert got left more invokeId s. induction rounds as [|rounds IH]; intros got left more invokeId s E Hm Hln; (destruct more; [|subst left; rewrite app_nil_r in E; subst got]).
  - lia.
  - by eexists.
  - destruct (ask_names got left invokeId s es (Names got) E Hln (or_intror eq_refl)) as (id' & s' & got' & left' & more' & E' & Hm' & Hx & Hln').
    assert (if more' then (0 < length left' <= rounds)%nat else left' = []) as Hm'' by (destruct more'; [lia|done]).
    destruct (IH got' left' more' id' s' E' Hm'' Hln') as (st' & Hr & Hes). exists st'. split; [|done].
    cbn [request_more]. cbn [andb negb is_null lastIdentifier rbind]. unfold single_request. rewrite Hx. cbn [rbind]. exact Hr.
  - by eexists.
Qed.
End AllNames.

(** C6: The names of a domain, through client and server.  The client asks for the variables
    of a domain and goes on behind the last name that it got for as long as the answers say
    that more follow; each request is encoded as DER says, parsed and answered by the server,
    and each answer parsed by the client, which takes an answer that says nothing for one
    with more to follow.  It ends, and the client has all of the names, each once and in the
    order of the server, whatever the negotiated PDU size is, as long as one name fits.
    (Names have no more than 129 characters; a longer one overruns the server's copy of
    it.) *)
Theorem client_lists_names {FS} `{FileSystem FS} w codec lib listener fuel cfuel transmit domain names (s : Service FS) es lastInvokeId :
  encodes_name_lists codec -> has_room transmit 400 -> bb_size transmit = 0 -> 400 <= bb_maxSize transmit < 2 ^ 31 ->
  short_name domain -> Forall (fun n => short_name n /\ bytes n) names -> NoDup names -> (length names <= cfuel)%nat ->
  lists_names domain names s ->
  exists st', MmsConnection_getDomainVariableNames codec cfuel (ask w codec lib listener (S (S (S (S (S fuel))))) transmit)
      domain (length names) (lastInvokeId, s, es) = Done (Names names, MMS_ERROR_NONE, st') /\ snd st' = es.
Proof.
  intros Hcodec Htr Htr0 Htrm Hd Hnames Hdup Hcfuel Hln.
  destruct (ask_names w codec lib listener fuel cfuel transmit domain names Hcodec Htr Htr0 Htrm Hd Hnames Hdup Hcfuel [] names lastInvokeId s es NoNames
    eq_refl Hln (or_introl (conj eq_refl eq_refl))) as (id' & s' & got & left & more & E & Hm & Hx & Hln').
  destruct (ask_more w codec lib listener fuel cfuel transmit domain names Hcodec Htr Htr0 Htrm Hd Hnames Hdup Hcfuel (length names) got left more id' s' es E)
    as (st' & Hr & Hes); [destruct more; [lia|done]|done|].
  exists st'. split; [|done]. unfold MmsConnection_getDomainVariableNames, mmsClient_getNameList. unfold single_request at 1. change (@None (list Z)) with (@last (list Z) []).
  rewrite Hx. exact Hr.
Qed.

(** A codec for these requests. *)
Definition name_list_codec : AsnCodec :=
  mkCodec (fun _ _ => None) (fun _ _ => None) (fun _ _ => None)
    (fun pdu => match pdu with ConfirmedRequestPdu id (Request_getNameList r) => ([name_list_pdu id r], true) | _ => ([], false) end).

Definition demo_names : list (list Z) :=
  match getNameListDomainSpecific demo_server (lit "IEDLD0") with Done (Some names) => names | _ => [] end.

(** The 68 names of the sample device, with answers of no more than 200 octets. *)
Lemma client_lists_names_witness :
  let s := se_set_connection (mc_set_parameters 5 5 10 200 demo_association) (demo_service demo_files demo_server) in
  length demo_names = 68%nat /\ length (name_pages 200 demo_names) = 10%nat /\
  exists st', MmsConnection_getDomainVariableNames name_list_codec 68
      (ask demo_world name_list_codec minute_time None 5 (ByteBuffer_create 16100)) (lit "IEDLD0") 68 (0, s, [])
    = Done (Names demo_names, MMS_ERROR_NONE, st') /\ snd st' = [].
Proof.
  intros s. split; [vm_compute; reflexivity|]. split; [vm_compute; reflexivity|].
  refine (client_lists_names demo_world name_list_codec minute_time None 0 68 (ByteBuffer_create 16100) (lit "IEDLD0") demo_names s [] 0
    _ _ _ _ _ _ _ _ _).
  - intros invokeId r _. split; [exact (app_nil_r _)|reflexivity].
  - unfold has_room. cbn. split; [lia|]. vm_compute. discriminate.
  - reflexivity.
  - vm_compute. split; [discriminate|reflexivity].
  - apply (bool_decide_unpack _). vm_compute. exact I.
  - apply (bool_decide_unpack _). vm_compute. exact I.
  - apply (bool_decide_unpack _). vm_compute. exact I.
  - apply (bool_decide_unpack _). vm_compute. exact I.
  - constructor.
    + vm_compute. reflexivity.
    + vm_compute. discriminate.
    + vm_compute. reflexivity.
    + unfold has_room. cbn. split; [lia|]. vm_compute. discriminate.
    + apply (bool_decide_unpack _). vm_compute. exact I.
Defined.

(** C7: The type of a variable, through client and server.  The server describes a variable
    whose type has numbers that fit their fields and members with names: the client that asks
    for it gets the same type, arrays and structures within each other included, without the
    names that are not those of members.  The request is encoded as DER says and found by
    the server; what the ASN.1 code makes of the answer does not matter, as long as it fits
    and is decoded to what was encoded. *)
Theorem client_learns_type {FS} `{FileSystem FS} w codec lib listener fuel transmit domainId itemId domain v (s : Service FS) es invokeId :
  MmsDevice_getDomain (sv_mmsDevice (se_server s)) domainId = Some domain ->
  MmsDomain_getNamedVariable domain itemId = Done (Some v) -> transmissible v = true ->
  short_name domainId -> short_name itemId -> 0 <= invokeId < 2 ^ 32 ->
  has_room transmit 400 -> bb_size transmit = 0 -> 400 <= bb_maxSize transmit < 2 ^ 31 ->
  exists t, createTypeSpecification v = Done t /\
  forall content, describes_type codec domainId itemId invokeId t content -> zlen content < 50000 ->
    let answer := answer_bytes invokeId (tlv (0xa6, content)) in
    has_room (se_response s) (zlen answer) -> bb_size (se_response s) = 0 -> zlen answer <= bb_maxSize (se_response s) < 2 ^ 31 ->
    exists s', exchange w codec lib listener (S (S fuel)) transmit (MmsConnection_getVariableAccessAttributes codec domainId itemId) invokeId s es
      = Done (Some (ResultType (Some (received_type v)), MMS_ERROR_NONE), s', es).
Proof.
  intros Hdom Hvar Hv [Hds Hdz] [His Hiz] Hid Htr Htr0 Htrm. destruct (type_roundtrip v Hv) as (t & Et & Ec). exists t. split; [done|].
  intros content Hcodec Hz answer Hra Hs0 Hsm. set (params := attributes_parameters domainId itemId).
  assert (zlen params <= 280) as Hpz.
  { unfold params, attributes_parameters. pose proof (zlen_tlv_range (0x1a, domainId)) as R1. pose proof (zlen_tlv_range (0x1a, itemId)) as R2.
    pose proof (zlen_tlv_range (0xa1, tlv (0x1a, domainId) ++ tlv (0x1a, itemId))) as R3.
    pose proof (zlen_tlv_range (0xa0, tlv (0xa1, tlv (0x1a, domainId) ++ tlv (0x1a, itemId)))) as R4. cbn [snd] in *. rewrite zlen_app in *. lia. }
  set (request := request_bytes invokeId (tlv (0xa6, params))).
  assert (zlen request <= 400) as Hrz.
  { unfold request, request_bytes. pose proof (zlen_uint32_bytes invokeId). pose proof (zlen_invoke_bytes invokeId).
    pose proof (zlen_tlv_range (0xa6, params)) as R1. pose proof (zlen_tlv_range (0xa0, invoke_bytes invokeId ++ tlv (0xa6, params))) as R2.
    cbn [snd] in *. rewrite zlen_app in *. lia. }
  assert (has_room transmit (zlen request)) as Hrr by (unfold has_room in *; destruct (bb_buffer transmit); [lia|done]).
  destruct (holds_respond transmit request Hrr) as (p & Hbuf & Hs & Hh).
  set (s1 := with_invokeId invokeId s). set (s' := se_set_response (respond (se_response s) answer) s1). exists s'.
  pose proof (zlen_tlv_range (0xa6, content)) as Rc. cbn [snd] in Rc.
  apply (exchange_answered w codec lib listener _ _ _ _ _ _ (respond transmit request) _ _ (tlv (0xa6, content))); try done; [| lia| |].
  - unfold MmsConnection_getVariableAccessAttributes, mmsClient_createGetVariableAccessAttributesRequest, mmsClient_createConfirmedRequestPdu.
    cbn [call_request]. apply encode_pdu_fits; [by destruct Hcodec|done|done|lia].
  - apply (parse_request w codec lib listener fuel (respond transmit request) p invokeId None 0xa6 params); try done; [lia|].
    intros start C Hst. unfold serve, service.
    repeat match goal with |- context [0xa6 =? ?x] => let b := eval vm_compute in (0xa6 =? x) in change (0xa6 =? x) with b end. cbv iota zeta.
    unfold served. rewrite (bind_run _ _ _ _ tt s' es); [done|].
    pose proof (zlen_nonneg params). unfold mmsServer_handleGetVariableAccessAttributesRequest. rewrite i32_end by lia.
    replace (start + zlen params - start) with (zlen params) by lia. unfold params. rewrite (dt_attributes _ _ _ _ _ _ Hcodec p start C).
    assert (forall x, is_string x -> c_chars x = x) as Hcc by (intros x Hx; rewrite <- (app_nil_r x) at 1; rewrite c_chars_nonzero by done; cbn; by rewrite app_nil_r).
    rewrite !Hcc by done. unfold createVariableAccessAttributesResponse, the_server. rewrite bind_get.
    change (se_server (with_invokeId invokeId s)) with (se_server s). rewrite Hdom. rewrite (bind_lift _ _ _ _ _ Hvar), (bind_lift _ _ _ _ _ Et).
    rewrite (bind_run _ _ _ _ true s' es); [done|]. apply (der_encode_fits codec _ s1); [by destruct Hcodec|done..].
  - intros q start Hq _ _ ->. cbn [call_answer MmsConnection_getVariableAccessAttributes]. unfold mmsClient_parseGetVariableAccessAttributesResponse.
    rewrite (dt_decode _ _ _ _ _ _ Hcodec q Hq). unfold attributes_answer, mmsServer_createConfirmedResponse. rewrite Ec. done.
Qed.

(** A codec for one request and its answer. *)
Definition type_codec (domain item : list Z) (invokeId : Z) (t : TypeSpecification) (content : list Z) : AsnCodec :=
  let answer := answer_bytes invokeId (tlv (0xa6, content)) in
  let octets p n := match rd_list p 0 n with Done bs => bs | _ => [] end in
  mkCodec
    (fun p n => if decide (octets p n = answer) then Some (attributes_answer invokeId t) else None)
    (fun p n => if decide (octets p n = attributes_parameters domain item)
                then Some (Attributes_name (ObjectName_domainspecific domain item)) else None)
    (fun _ _ => None)
    (fun pdu => match pdu with
      | ConfirmedRequestPdu _ _ => ([request_bytes invokeId (tlv (0xa6, attributes_parameters domain item))], true)
      | _ => ([answer], true)
      end).

Lemma type_codec_describes domain item invokeId t content : describes_type (type_codec domain item invokeId t content) domain item invokeId t content.
Proof.
  unfold type_codec. constructor; cbn -[answer_bytes request_bytes attributes_parameters rd_list encodes].
  - split; [exact (app_nil_r _)|done].
  - intros p start Hh. rewrite (holds_rd_list _ _ (attributes_parameters domain item)) by (done || (apply holds_ptr_add; by rewrite Z.add_0_r)).
    by rewrite decide_True.
  - split; [exact (app_nil_r _)|done].
  - intros p Hh. rewrite (holds_rd_list _ _ (answer_bytes invokeId (tlv (166, content)))) by done. by rewrite decide_True.
Qed.

(** A structure with one member; the octets of its type are those of DER. *)
Lemma client_learns_type_witness :
  let item := lit "GGIO1$MX$AnIn1$mag" in
  let content := tlv (0x80, [0]) ++ tlv (0xa2, tlv (0xa2, tlv (0xa1, tlv (0x30, tlv (0x80, lit "f") ++ tlv (0xa1, tlv (0x85, [32])))))) in
  let t := TypeSpecification_structure [(Some (lit "f"), TypeSpecification_integer 32)] in
  exists s', exchange demo_world (type_codec (lit "IEDLD0") item 7 t content) minute_time None 2 (ByteBuffer_create 16100)
      (MmsConnection_getVariableAccessAttributes (type_codec (lit "IEDLD0") item 7 t content) (lit "IEDLD0") item) 7
      (demo_service demo_files demo_server) []
    = Done (Some (ResultType (Some (SpecStructure None [SpecSimple (Some (lit "f")) (T_INTEGER 32)])), MMS_ERROR_NONE), s', []).
Proof.
  intros item content t.
  destruct (client_learns_type demo_world (type_codec (lit "IEDLD0") item 7 t content) minute_time None 0 (ByteBuffer_create 16100)
    (lit "IEDLD0") item (default demo_domain (MmsDevice_getDomain (sv_mmsDevice demo_server) (lit "IEDLD0")))
    (SpecStructure (Some (lit "mag")) [SpecSimple (Some (lit "f")) (T_INTEGER 32)]) (demo_service demo_files demo_server) [] 7) as (t' & Et & Hx).
  - vm_compute. reflexivity.
  - vm_compute. reflexivity.
  - reflexivity.
  - apply (bool_decide_unpack _). vm_compute. exact I.
  - apply (bool_decide_unpack _). vm_compute. exact I.
  - lia.
  - unfold has_room. cbn. split; [lia|]. vm_compute. discriminate.
  - reflexivity.
  - vm_compute. split; [discriminate|reflexivity].
  - injection Et as <-. apply (Hx content).
    + apply type_codec_describes.
    + vm_compute. reflexivity.
    + unfold has_room. cbn. split; [lia|]. vm_compute. discriminate.
    + reflexivity.
    + vm_compute. split; [discriminate|reflexivity].
Defined.
